(* ===== verification/_CoqProject ===== *)
-Q . S2P
Prelude.v
Errors.v
SeqNum.v
Segment.v
ControlBlock.v
ControlBlockInv.v
ControlBlockSend.v
ControlBlockThms.v
TcpExchange.v
Ring.v
RingProps.v
TxQueue.v
TxQueueProps.v
TxQueueThms.v
Reassembly.v
SynCookie.v
Rto.v
Bytes.v
Validation.v
Checksum.v
Frame.v
Options.v
IpAddr.v
Ipv4.v
Udp.v
RstQueue.v
StackNodes.v
StackIp4.v
StackPorts.v
Ethernet.v
StackEthernet.v
Arp.v
ArpThms.v
Handler.v
HandlerProps.v
HandlerRx.v
HandlerTx.v
HandlerThms.v
Conn.v
ConnThms.v
Listener.v
ListenerProps.v
TcpPool.v
ListenerThms.v
DnsName.v
DnsNameThms.v
Dns.v
DnsProps.v
DnsThms.v
DnsAnswers.v
DnsClient.v
Mdns.v
MdnsThms.v
UdpHandler.v
UdpMux.v
UdpProps.v
UdpConn.v
UdpConnThms.v
UdpPacketConn.v
UdpMuxProps.v
StackUdpPort.v
Ipv4Prefix.v
Dhcp4.v
Dhcp4Client.v
Dhcp4Server.v
Dhcp4ClientProps.v
Dhcp4ServerProps.v
Dhcp4Service.v
Dhcp4Lease.v
HttpKV.v
HttpHeader.v
HttpKVThms.v
HttpParse.v
HttpRead.v
HttpRoundtrip.v
HttpUrl.v
HttpForm.v
