(* ===== verification/Prelude.v ===== *)
(** * lneto: a verification development of the userspace network stack

    lneto ([src/]) is a network stack in Go for small devices: Ethernet, ARP, IPv4,
    UDP, TCP and protocols above them without an operating system. Data moves through it by two calls.
    [Demux] hands a received buffer up, one layer at a time; [Encapsulate] asks the
    layers, from the link upwards, to write the next packet into a buffer, and every
    layer completes its own header on the way back. This library models the TCP
    engine, UDP sockets, the layers below them, name resolution, host configuration and
    HTTP headers above them, and proves what makes them correct.

    ** Conventions

    - A Go integer of fixed width is a [Z] with its wrap-around written out ([u8] ..
      [u64], [i8] ..); [int] is 64 bits wide and, as lengths and indices only, is an
      unbounded [Z]. Byte slices are lists of [Z]; their elements are bytes ([is_bytes])
      where a theorem needs it.
    - A run-time panic (index or slice out of range, explicit [panic]) is the value
      [Panic] of the type [outcome]; a normal return is [Ret]. Errors are values of
      [Errors.error], [None] for nil. Mutation is state passing: a method returns the
      receiver, and a buffer it writes to, next to its results.
    - A slice is as long as its capacity unless a definition says otherwise (the list
      of sent packets, the nodes of a layer and [IpAddr] keep them apart).
    - Logging, [String] methods and debugging counters are left out: they do not
      change the state. A definition is one critical section. In the connections
      ([Conn], [UdpConn], [UdpPacketConn]) callers block and give the lock up in
      between: their blocking methods are threads whose critical sections interleave.
    - Code that is not in [src/], and the interfaces of [src/], are parameters: a
      [Policy] of the TCP handler, a [StackNode] and the [Pool] of a listener are
      classes, [GoRuntime] is the growth of slices, [MapOrder] the iteration over a map, the clock of the
      retransmission timer, the random source of the SYN cookies and the CRC function
      of the Ethernet layer are arguments.

    ** Files

    The names are those of modules. A module is in the file of its name; but
    [ControlBlockProps] and [ControlBlockWf] are in [ControlBlockInv.v], [ConnProps],
    [ArpProps] and [DnsNameProps] in [ConnThms.v], [ArpThms.v] and [DnsNameThms.v],
    [UdpDelivery] in [UdpConnThms.v], [Dhcp4Props] in [Dhcp4ClientProps.v],
    [Dhcp4ServerReply] in [Dhcp4ServerProps.v], [HttpKVProps] in [HttpKVThms.v],
    [HttpParseProps], [HttpParseLoop] and [HttpFirstLine] in [HttpParse.v],
    [HttpIncremental] in [HttpRead.v], [HttpFormProps] and [HttpFormDecode] in [HttpForm.v].

    Shared:
    - [Prelude]: machine integers, the outcome monad, lists indexed by [Z], tactics.
    - [Errors]: the error values. [Bytes]: big-endian access to buffers
      ([encoding/binary]). [Validation]: the error accumulator ([src/validation.go]).
      [Checksum]: the Internet checksum ([src/crc.go]).

    TCP ([src/tcp]):
    - [SeqNum] ([valuesize.go]): sequence numbers modulo 2^32.
    - [Segment] ([definitions.go]): segments, flags, connection states.
    - [ControlBlock] ([control.go], [control_rcvhandlers.go]): the state machine. One
      definition per method; the [switch]es of [Recv] and [Send] are definitions of
      their own ([recv_dispatch], [incoming_reject], ..). [ControlBlockProps],
      [ControlBlockWf], [ControlBlockInv] and [ControlBlockSend] hold the lemmas,
      [ControlBlockThms] the theorems, [TcpExchange] two control blocks talking to
      each other.
    - [Ring], [RingProps] ([src/internal/ring.go]): the byte queue, against a view of
      it as a list of readable and a list of staged bytes.
    - [TxQueue], [TxQueueProps], [TxQueueThms] ([txqueue.go]): sent and unsent data.
    - [Reassembly] ([reassembly.go]): segments that arrive out of order.
    - [SynCookie] ([syncookie.go]), [Rto] ([rto/timer.go]), [Frame] ([frame.go]),
      [Options] ([options.go]), [RstQueue] ([rst.go]).
    - [Handler] ([handler.go], [policy.go]): a connection; it composes all of the
      above. [HandlerProps] has the laws of policies with their instances,
      [HandlerRx] and [HandlerTx] the two directions, [HandlerThms] the theorems.
    - [Conn], [ConnProps], [ConnThms] ([conn.go]): the connection applications use, a
      handler shared by concurrent readers, writers and the stack.
    - [Listener], [ListenerProps], [ListenerThms] ([listener.go]): the listening port,
      proved against the class [Pool]; [TcpPool] ([src/x/xnet/tcppool.go]) is its
      instance.

    UDP ([src/udp]):
    - [UdpHandler] ([handler.go]): the queues of datagrams of one peer; [UdpProps] shows
      that a ring buffer with a list of lengths is such a queue. [UdpConn] ([conn.go]):
      the socket over it; [UdpConnThms] has concurrent callers and two sockets with a
      network between, [UdpDelivery] delivery and the sizes that fail.
    - [UdpMux] ([mux.go]), [UdpPacketConn] ([packetconn.go]): sockets with many peers;
      [UdpMuxProps] their theorems.
    - [StackUdpPort] ([src/internet/stack-udpport.go]): a node behind one port.

    Below TCP and UDP:
    - [IpAddr] ([src/internal/ip.go]), [Ipv4] ([src/ipv4]), [Udp] ([src/udp/frame.go]),
      [Ethernet] ([src/ethernet]): frames.
    - [StackNodes] ([src/internet/definitions.go]): the interface between layers as
      the class [StackNodes] over a world of nodes, and the list of nodes of a layer.
      [StackIp4], [StackPorts], [StackEthernet] ([src/internet]): the layers, proved
      against that class.
    - [Arp], [ArpProps], [ArpThms] ([src/arp]): address resolution.

    Name resolution ([src/dns]):
    - [DnsName], [DnsNameProps], [DnsNameThms] ([dns.go]): names, their compression and
      text form. [Dns], [DnsProps], [DnsThms] ([dns.go], [definitions.go]): messages.
      [DnsAnswers]: the answers of a message. [DnsClient] ([client.go]): the client.
    - [Mdns], [MdnsThms] ([mdns]): multicast DNS, querier and responder.

    Host configuration ([src/dhcp/dhcpv4]):
    - [Ipv4Prefix] ([src/ipv4/prefix .go]): prefixes and the walk through the addresses of
      one. [Dhcp4] ([frame.go], [definitions.go]), [Dhcp4Props]: messages and options.
    - [Dhcp4Client], [Dhcp4ClientProps] ([client.go]); [Dhcp4Server], [Dhcp4ServerProps],
      [Dhcp4ServerReply] ([server.go]): what each hears, keeps and says. [Dhcp4Service]: the
      server over its life. [Dhcp4Lease]: client and server together.

    HTTP ([src/http/httpraw], [src/http/httphi]):
    - [HttpKV] ([kvbuffer.go]): pairs that are views of one buffer; [HttpKVProps],
      [HttpKVThms] show that it is a list of pairs.
    - [HttpHeader] ([headerv1.go], [parsev1.go]): requests and responses. What the parser
      finds is a function of the octets: of a field in [HttpParseProps], of all fields in
      [HttpParseLoop], of the first line in [HttpFirstLine]. [HttpParse]: parsing is safe.
      [HttpRead] (the loop of [Handle], [mux.go]), [HttpIncremental]: requests that arrive in
      pieces. [HttpRoundtrip]: writing and reading.
    - [HttpUrl] (percent encoding, [headerv1.go]); [HttpForm], [HttpFormProps],
      [HttpFormDecode] ([form.go]): forms and queries.

    ** What is shown

    - The handler: what one handler sends the other delivers ([handler_end_to_end]);
      whatever is lost, repeated or reordered, the application reads the stream of
      the peer ([handler_delivers_stream]); the window on the wire is honest.
    - Connections: whatever the interleaving, the bytes of two [Write] calls of the same
      connection do not mix, and they are what the transmit queue receives
      ([conn_writers_serialized]). Listeners: no connection of the pool is given out
      twice, and only a [Reset] loses those in its slots ([listener_owns_connections]);
      a segment reaches the connection of its remote address
      ([segment_reaches_its_connection]).
    - UDP sockets: with concurrent callers and a network that loses frames, readers get
      a subsequence of what was written, datagram by datagram, as long as no datagram is
      larger than a UDP frame carries ([udp_sockets_in_order]); without losses all of it ([udp_datagrams_delivered]); a server reaches the
      sender of a request ([packetconn_replies_to_sender]); a node gets exactly the
      datagrams of its peer ([udpport_filters_exactly]).
    - The control block: an invariant of every reachable state (no acknowledgement
      being exactly 2^31 away from what was sent), refinement of the labelled state
      diagram of RFC 9293 operation by operation ([control_block_refines_rfc9293], with the
      four arrows that only the source has), exactly which segments are accepted, what
      rejection may change, when a reset is honoured, and that the segments it offers may
      be sent, unless a FIN makes them larger than the window. Two control blocks connect, exchange data and close.
    - Queues: the ring buffer refines a FIFO; the transmit queue keeps the bytes of
      the stream through acknowledgement and rewinding.
    - Wire formats: validation reports exactly the malformed frames and makes the
      accessors safe; options and packets round trip through both ends; checksums
      detect what they should; parsing ends.
    - Timers and cookies: outstanding data is always timed, timeouts double; cookies
      are accepted exactly while they are recent.
    - Names: decoding ends and finds exactly the names of RFC 1035 with at most ten
      pointers, but for pointers to offset 0 and the limit of 255 octets
      ([dns_name_decode_exact]); messages and names round trip; what is decoded is typed
      ([dns_decode_typed]); chains of canonical names are followed to their end
      ([dns_answers_follow_cnames]); a client gets the addresses of a host
      ([dns_lookup_end_to_end]), a querier the records of a service
      ([mdns_service_discovered]).
    - Host configuration: two rounds bind a client to an address of the subnet
      ([dhcp_lease_acquired]); a server survives any input and, but for entries
      with 0.0.0.0, keeps to its subnet ([server_leases_safe]), and answers each waiting client once ([server_answers_all]).
    - HTTP: a request is the same however it is cut into pieces
      ([http_pieces_parse_the_same]); no octets make the parser panic or loop
      ([http_parse_safe]); what is written is read back ([http_request_roundtrip]); setting
      one field leaves the others alone though they share a buffer ([kv_set_refines]); forms
      are decoded in place and exactly ([http_form_decodes], [http_percent_decoding_exact]).
    - Layers: a packet, a frame (with its check sequence, if one is configured) and an ARP
      query reach the other host; a layer starves
      no node; connection attempts to closed ports are refused.
    - Defects of the code, as theorems: panics reachable from the network
      ([recv_panics_iff], [short_8023_frame_panics], [round_robin_index_panics],
      [dns_client_panics_on_cut_response], [dns_long_message_panics],
      [closing_left_by_own_ack]) or from a caller ([short_poll_panics]), segments that are
      offered and refused ([pending_fin_refused]), refused ones that change the connection
      ([synsent_refusal_moves_snd]), misread messages
      ([dns_nil_section_not_skipped], [dns_zero_pointer_misparsed],
      [mdns_additionals_fail_query]), lost
      or skipped data ([simultaneous_open_skips_octet],
      [txqueue_rewind_at_zero_loses_data]), connections that never return to their
      pool ([listener_loses_connections]), a write that reaches the connection that
      was opened after its own ([stale_caller_reaches_new_connection]), datagram sizes and ports that
      panic or wait for ever ([udp_large_datagram_panics], [udp_oversized_write_waits],
      [udp_empty_read_discards], [packetconn_port_65535_panics]), addresses that are
      given twice or must not be given ([dhcp_address_given_twice], [dhcp_zero_address_offered],
      [dhcp_broadcast_granted]), requests in pieces that close their connection or are never
      complete ([pieces_close_connection], [short_first_line_waits]) and others.

    ** Bounds and fuel

    - [Options.Next] and [ForEachOption] run with the length of the input as fuel;
      [options_parse_total] proves that it is enough.
    - [SynCookie.ValidateSYNCookie] iterates over the configured number of counters,
      [Handler.wndShiftFor] at most [maxWndShift] times, the loops over nodes and
      cache entries once per element.
    - The loop of [DnsName.visitAllLabels] runs eleven times through the message at most,
      once per pointer ([visit_loop_total]); [NewName] and [EqualString] take one round
      per octet; [WriteAnswers] as many as there are answers, which is enough
      ([resolves_short]); [Dhcp4.ForEachOption] takes at most one round per octet
      ([foreach_ok]). The parser of HTTP headers takes at most one round per octet, for the
      fields and for the lines of a value ([loop_total], [value_loop_total]), as do the loops
      over queries and escapes ([next_query_ok], [decode_loop_ok]); numbers have at most 64
      digits. No other fuel is used.
    - Theorems on streams assume that less than 2^31 bytes are in flight, as modular
      comparison needs.

    ** Not modelled

    The IPv6 layer, DHCPv6, NTP and ICMP are not modelled yet, nor are cookies, multipart
    bodies and the routing and responses of the HTTP server. Left out: packet capture and
    printing, drivers and the physical layer (I/O), and the glue that assembles stacks. *)
From stdpp Require Export base tactics option list list_numbers numbers relations.
From Stdlib Require Export ZArith Lia.

#[export] Set Default Goal Selector "!".

Declare Scope go_scope.
Delimit Scope go_scope with go.
#[global] Open Scope Z_scope.

(** ** Machine integers

    A Go unsigned integer of width [w] is a [Z] in [0 .. 2^w-1]; the source's
    implicit wrap-around is written out with [u8], [u16], [u32], [u64], and
    conversion to a signed type with [i8], [i32], [i64]. *)

Definition u8 (x : Z) : Z := x mod 2 ^ 8.
Definition u16 (x : Z) : Z := x mod 2 ^ 16.
Definition u32 (x : Z) : Z := x mod 2 ^ 32.
Definition u64 (x : Z) : Z := x mod 2 ^ 64.

Definition i8 (x : Z) : Z := (x + 2 ^ 7) mod 2 ^ 8 - 2 ^ 7.
Definition i32 (x : Z) : Z := (x + 2 ^ 31) mod 2 ^ 32 - 2 ^ 31.
Definition i64 (x : Z) : Z := (x + 2 ^ 63) mod 2 ^ 64 - 2 ^ 63.

Definition is_u8 (x : Z) : Prop := 0 <= x < 2 ^ 8.
Definition is_u16 (x : Z) : Prop := 0 <= x < 2 ^ 16.
Definition is_u32 (x : Z) : Prop := 0 <= x < 2 ^ 32.
Definition is_i8 (x : Z) : Prop := - 2 ^ 7 <= x < 2 ^ 7.

#[global] Instance is_u8_dec x : Decision (is_u8 x).
Proof. unfold is_u8. apply _. Defined.
#[global] Instance is_u16_dec x : Decision (is_u16 x).
Proof. unfold is_u16. apply _. Defined.
#[global] Instance is_u32_dec x : Decision (is_u32 x).
Proof. unfold is_u32. apply _. Defined.

(** ** Arithmetic automation *)

(** [wrap_lia]: linear arithmetic through the wrap-around operators. *)
Ltac unfold_widths :=
  unfold u8, u16, u32, u64, i8, i32, i64, is_u8, is_u16, is_u32, is_i8 in *.
Ltac wrap_lia := unfold_widths; Z.to_euclidean_division_equations; lia.

Lemma u8_small x : is_u8 x -> u8 x = x.
Proof. wrap_lia. Qed.
Lemma u16_small x : is_u16 x -> u16 x = x.
Proof. wrap_lia. Qed.
Lemma u32_small x : is_u32 x -> u32 x = x.
Proof. wrap_lia. Qed.

(** Case analysis on the boolean comparisons of the source. *)
Ltac bool_cases :=
  repeat match goal with
  | |- context [?a =? ?b] => destruct (Z.eqb_spec a b)
  | |- context [?a <? ?b] => destruct (Z.ltb_spec a b)
  | |- context [?a <=? ?b] => destruct (Z.leb_spec a b)
  | |- context [?a >=? ?b] => rewrite (Z.geb_leb a b)
  | |- context [?a >? ?b] => rewrite (Z.gtb_ltb a b)
  end.
Ltac bool_cases_in H :=
  repeat match type of H with
  | context [?a =? ?b] => destruct (Z.eqb_spec a b)
  | context [?a <? ?b] => destruct (Z.ltb_spec a b)
  | context [?a <=? ?b] => destruct (Z.leb_spec a b)
  | context [?a >=? ?b] => rewrite (Z.geb_leb a b) in H
  | context [?a >? ?b] => rewrite (Z.gtb_ltb a b) in H
  end.

(** A decidable closed fact, by computation. *)
Ltac by_compute :=
  first [ by apply (bool_decide_unpack _) | vm_compute; congruence
        | vm_compute; repeat split; congruence | by vm_compute ].

(** ** Panics

    A Go function that can panic returns an [outcome]; functions that return
    an [error] beside their results return a pair with an [option error]. *)

Inductive outcome (A : Type) : Type :=
| Ret (a : A)
| Panic.
Arguments Ret {A} a.
Arguments Panic {A}.

#[global] Instance outcome_ret : MRet outcome := fun A a => Ret a.
#[global] Instance outcome_bind : MBind outcome :=
  fun A B f m => match m with Ret a => f a | Panic => Panic end.

(** [assert_or_panic b k]: the run-time check the source (or the Go run-time)
    performs before [k]. *)
Definition assert_or_panic {A} (b : bool) (k : outcome A) : outcome A :=
  if b then k else Panic.

Definition returns {A} (m : outcome A) (P : A -> Prop) : Prop :=
  match m with Ret a => P a | Panic => False end.

(** ** Slices *)

Definition zlen {A} (l : list A) : Z := Z.of_nat (length l).
Definition ztake {A} (n : Z) (l : list A) : list A := take (Z.to_nat n) l.
Definition zdrop {A} (n : Z) (l : list A) : list A := drop (Z.to_nat n) l.

(** [l[a:b]] *)
Definition slice {A} (l : list A) (a b : Z) : list A := ztake (b - a) (zdrop a l).
Definition slice_ok {A} (l : list A) (a b : Z) : bool :=
  (0 <=? a) && (a <=? b) && (b <=? zlen l).

(** [copy(dst[off:hi], src)]: the destination after the copy and the number of
    elements copied, panicking on an invalid slice expression. *)
Definition copy_into {A} (dst : list A) (off hi : Z) (src : list A)
    : outcome (list A * Z) :=
  assert_or_panic (slice_ok dst off hi)
    (let n := Z.min (hi - off) (zlen src) in
     Ret (ztake off dst ++ ztake n src ++ zdrop (off + n) dst, n)).

(** Opens an equation [.. = Ret _]: binds, run-time checks and case distinctions. *)
Ltac ret_inv H :=
  repeat (cbv zeta in H; unfold assert_or_panic in H; cbn [mbind outcome_bind] in H;
  lazymatch type of H with
  | Panic = _ => discriminate H
  | Ret _ = Ret _ => injection H; clear H; intros; subst
  | mbind _ ?m = Ret _ => let E := fresh "Eb" in destruct m eqn:E; [|discriminate H]
  | match ?x with _ => _ end = Ret _ => let E := fresh "Ec" in destruct x eqn:E
  end).

(** ** Lemmas on lists indexed by [Z] *)

Lemma zlen_nonneg {A} (l : list A) : 0 <= zlen l.
Proof. unfold zlen. lia. Qed.
Lemma zlen_nil {A} : zlen (@nil A) = 0.
Proof. reflexivity. Qed.
Lemma zlen_cons {A} (x : A) l : zlen (x :: l) = 1 + zlen l.
Proof. unfold zlen. cbn [length]. lia. Qed.
Lemma zlen_app {A} (l k : list A) : zlen (l ++ k) = zlen l + zlen k.
Proof. unfold zlen. rewrite length_app. lia. Qed.
Lemma zlen_ztake {A} n (l : list A) : 0 <= n <= zlen l -> zlen (ztake n l) = n.
Proof. unfold zlen, ztake. intros. rewrite length_take. lia. Qed.
Lemma zlen_zdrop {A} n (l : list A) : 0 <= n <= zlen l -> zlen (zdrop n l) = zlen l - n.
Proof. unfold zlen, zdrop. intros. rewrite length_drop. lia. Qed.
Lemma zlen_slice {A} (l : list A) a b :
  0 <= a <= b -> b <= zlen l -> zlen (slice l a b) = b - a.
Proof. intros. unfold slice. rewrite zlen_ztake; rewrite ?zlen_zdrop; lia. Qed.

Lemma zlen_zero_nil {A} (l : list A) : zlen l = 0 -> l = [].
Proof. destruct l; [done|]. rewrite zlen_cons. pose proof (zlen_nonneg l). lia. Qed.

Lemma ztake_nonpos {A} n (l : list A) : n <= 0 -> ztake n l = [].
Proof. intros. unfold ztake. replace (Z.to_nat n) with 0%nat by lia. done. Qed.
Lemma ztake_ge {A} n (l : list A) : zlen l <= n -> ztake n l = l.
Proof. intros. unfold ztake. apply take_ge. unfold zlen in *. lia. Qed.
Lemma zdrop_nonpos {A} n (l : list A) : n <= 0 -> zdrop n l = l.
Proof. intros. unfold zdrop. replace (Z.to_nat n) with 0%nat by lia. done. Qed.
Lemma zdrop_ge {A} n (l : list A) : zlen l <= n -> zdrop n l = [].
Proof. intros. unfold zdrop. apply drop_ge. unfold zlen in *. lia. Qed.
Lemma ztake_zdrop {A} n (l : list A) : ztake n l ++ zdrop n l = l.
Proof. apply take_drop. Qed.

Lemma ztake_app_exact {A} n (l k : list A) : zlen l = n -> ztake n (l ++ k) = l.
Proof. intros <-. unfold ztake, zlen. rewrite Nat2Z.id. apply take_app_length. Qed.
Lemma zdrop_app_exact {A} n (l k : list A) : zlen l = n -> zdrop n (l ++ k) = k.
Proof. intros <-. unfold zdrop, zlen. rewrite Nat2Z.id. apply drop_app_length. Qed.

(** Lookup by a [Z] index. *)
Definition zget {A} (l : list A) (i : Z) : option A :=
  if i <? 0 then None else l !! Z.to_nat i.

Lemma zget_ztake {A} (l : list A) n i : i < n -> zget (ztake n l) i = zget l i.
Proof.
  intros. unfold zget, ztake. bool_cases; [done|]. rewrite lookup_take_lt; [done|lia].
Qed.
Lemma zget_zdrop {A} (l : list A) n i : 0 <= n -> 0 <= i -> zget (zdrop n l) i = zget l (n + i).
Proof.
  intros. unfold zget, zdrop. bool_cases; [lia..|]. rewrite lookup_drop. f_equal. lia.
Qed.
Lemma zget_app_l {A} (l k : list A) i : i < zlen l -> zget (l ++ k) i = zget l i.
Proof.
  intros. unfold zget. bool_cases; [done|]. apply lookup_app_l. unfold zlen in *. lia.
Qed.
Lemma zget_app_r {A} (l k : list A) i : zlen l <= i -> zget (l ++ k) i = zget k (i - zlen l).
Proof.
  intros. pose proof (zlen_nonneg l). unfold zget. bool_cases; try lia.
  rewrite lookup_app_r; [f_equal|]; unfold zlen in *; lia.
Qed.
Lemma zget_neg {A} (l : list A) i : i < 0 -> zget l i = None.
Proof. intros. unfold zget. bool_cases; [done|lia]. Qed.
Lemma zget_ge {A} (l : list A) i : zlen l <= i -> zget l i = None.
Proof.
  intros. unfold zget. bool_cases; [done|]. apply lookup_ge_None. unfold zlen in *. lia.
Qed.
Lemma zget_some {A} (l : list A) i : 0 <= i < zlen l -> is_Some (zget l i).
Proof.
  intros. unfold zget. bool_cases; [lia|]. apply lookup_lt_is_Some. unfold zlen in *. lia.
Qed.
Lemma zget_slice {A} (l : list A) a b i :
  0 <= a -> 0 <= i < b - a -> zget (slice l a b) i = zget l (a + i).
Proof. intros. unfold slice. rewrite zget_ztake, zget_zdrop; [done|lia..]. Qed.

Lemma slice_zdrop {A} (l : list A) n a b : 0 <= n -> 0 <= a -> slice (zdrop n l) a b = slice l (n + a) (n + b).
Proof.
  intros. unfold slice, zdrop. rewrite drop_drop. f_equal; [lia|]. f_equal. lia.
Qed.
Lemma slice_slice {A} (l : list A) a b i j :
  0 <= a -> 0 <= i -> j <= b - a -> slice (slice l a b) i j = slice l (a + i) (a + j).
Proof.
  intros. unfold slice, ztake, zdrop. rewrite skipn_firstn_comm, drop_drop, take_take. f_equal; [lia|].
  f_equal. lia.
Qed.

(** Extensionality for lists of known length. *)
Lemma zlist_eq {A} (l k : list A) :
  zlen l = zlen k -> (forall i, 0 <= i < zlen l -> zget l i = zget k i) -> l = k.
Proof.
  intros Hlen H. apply list_eq. intros i.
  destruct (decide (i < length l)%nat) as [Hi|Hi].
  - specialize (H (Z.of_nat i)). unfold zget, zlen in *.
    rewrite Nat2Z.id in H. bool_cases_in H; [lia|]. apply H. lia.
  - rewrite !lookup_ge_None_2; [done|unfold zlen in *; lia..].
Qed.

(** ** Bit widths *)

Lemma lor_bound n a b :
  0 <= n -> 0 <= a < 2 ^ n -> 0 <= b < 2 ^ n -> 0 <= Z.lor a b < 2 ^ n.
Proof.
  intros Hn [Ha Ha'] [Hb Hb']. assert (0 <= Z.lor a b) by (apply Z.lor_nonneg; lia).
  split; [done|]. apply Z.bounded_iff_bits_nonneg; [lia|done|]. intros k Hk.
  rewrite Z.lor_spec, (proj1 (Z.bounded_iff_bits_nonneg n a Hn Ha)),
    (proj1 (Z.bounded_iff_bits_nonneg n b Hn Hb)) by lia. done.
Qed.

Lemma lxor_bound n a b :
  0 <= n -> 0 <= a < 2 ^ n -> 0 <= b < 2 ^ n -> 0 <= Z.lxor a b < 2 ^ n.
Proof.
  intros Hn [Ha Ha'] [Hb Hb']. assert (0 <= Z.lxor a b) by (apply Z.lxor_nonneg; lia).
  split; [done|]. apply Z.bounded_iff_bits_nonneg; [lia|done|]. intros k Hk.
  rewrite Z.lxor_spec, (proj1 (Z.bounded_iff_bits_nonneg n a Hn Ha)),
    (proj1 (Z.bounded_iff_bits_nonneg n b Hn Hb)) by lia. done.
Qed.

(** ** Slices that grow *)

(** The new capacity for an old one and a length that exceeds it. *)
Class GoRuntime := {
  growslice : Z -> Z -> Z;
  growslice_ok : forall cap need, need <= growslice cap need
}.
