(* ===== verification/Errors.v ===== *)
(** * Errors of the modelled packages

    The sentinel errors of [src/errors.go], [src/internal/ring.go],
    [src/tcp/definitions.go] and the ones of Go's [io] and [net] packages the
    modelled code returns. Errors are compared by identity in the source, so
    each sentinel is a constructor and an alias is a definition. *)
From S2P Require Import Prelude.

Inductive error : Type :=
(* lneto.errGeneric *)
| ErrBug | ErrPacketDrop | ErrBadCRC | ErrZeroSource | ErrZeroDestination
| ErrShortBuffer | ErrBufferFull | ErrInvalidAddr | ErrUnsupported | ErrMismatch
| ErrMismatchLen | ErrInvalidConfig | ErrInvalidField | ErrInvalidLengthField
| ErrExhausted | ErrAlreadyRegistered | ErrTruncatedFrame | ErrMissingHALConfig
| ErrBadState
(* io and net *)
| EOF | IoErrShortBuffer | IoErrUnexpectedEOF | IoErrClosedPipe | NetErrClosed
(* internal ring *)
| errRingNoData | errInvalidCommit | errInvalidDiscard | errDiscardExceeds
(* tcp *)
| errWindowTooLarge | errNeedClosedTCBToOpen | errInvalidState | errConnNotExist
| errConnectionClosing | errExpectedSYN | errBadSegack | errFinwaitExpectedACK
(* tcp RejectErrors *)
| errWindowOverflow | errSeqNotInWindow | errZeroWindow | errLastNotInWindow
| errRequireSequential | errAckNotNext
(* tcp.Conn; the first is os.ErrDeadlineExceeded *)
| errDeadlineExceeded | errNoRemoteAddr
(* arp *)
| errQueryPending | errQueryNotFound
(* dns *)
| errNameTooLong | errCalcLen | errCantAddLabel | errReserved | errTooManyPtr
| errInvalidPtr | errInvalidName | errResourceLen | errResTooLong | errCompressedSRV
| errEmptyDomainName | RCodeError (rcode : Z)
(* udp *)
| errStillOpen
(* dhcpv4 *)
| errInvalidSubnet | errServerOutsideSubnet | errTooManyReqOptions | errPoolExhausted
| errDemuxFail | errOptionNotFit
(* httpraw; the first is io.ErrNoProgress, errInvalidHeader is its errInvalidName *)
| IoErrNoProgress | ErrBufferExhausted | errMangledBuffer | errNoProto | ErrNeedMoreData
| errUnparsed | errInvalidHeader | ErrHeaderTooMany | errNoCookies | errEmptyURI
| errLongStatusCode | errBadStatusCode | errAlreadyParsed | errNeedMethodURI
| errBadStatusCodeTxt | errCookiesParsed | errBufferTooLarge | errBadPercentEncode
| errBadContentLength
(* errors.Join of several accumulated errors *)
| errJoined.

Definition ErrRingBufferFull : error := ErrBufferFull.
Definition errDropSegment : error := ErrPacketDrop.
Definition errBufferTooSmall : error := ErrShortBuffer.
Definition errInvalidCookie : error := ErrMismatch.

#[global] Instance error_eq_dec : EqDecision error.
Proof. solve_decision. Defined.

(** [err == e] for Go error values, [None] standing for [nil]. *)
Definition err_is (err : option error) (e : error) : bool := bool_decide (err = Some e).
