(* ===== verification/SeqNum.v ===== *)
(** * TCP sequence numbers ([src/tcp/valuesize.go])

    [Value] and [Size] are [uint32]; all arithmetic is modulo 2^32. *)
From S2P Require Import Prelude.

Module SeqNum.

(** ** Definitions *)

Definition LessThan (v w : Z) : bool := i32 (u32 (v - w)) <? 0.
Definition LessThanEq (v w : Z) : bool := (v =? w) || LessThan v w.
Definition InRange (v a b : Z) : bool := u32 (v - a) <? u32 (b - a).
Definition Add (v s : Z) : Z := u32 (v + s).
Definition InWindow (v first size : Z) : bool := InRange v first (Add first size).
Definition Sizeof (v w : Z) : Z := u32 (w - v).
Definition UpdateForward (v s : Z) : Z := u32 (v + s).

(** ** The modular order

    [dist v w] is the forward distance from [v] to [w]; every comparison of
    the source is a comparison of distances. *)

Abbreviation dist := Sizeof.

Lemma dist_range v w : is_u32 (dist v w).
Proof. unfold dist. wrap_lia. Qed.

Lemma dist_zero v w : is_u32 v -> is_u32 w -> dist v w = 0 <-> v = w.
Proof. unfold dist. intros. split; wrap_lia. Qed.

Lemma dist_self v : dist v v = 0.
Proof. unfold dist. wrap_lia. Qed.

Lemma Add_dist v w : is_u32 w -> Add v (dist v w) = w.
Proof. unfold Add, dist. intros. wrap_lia. Qed.

Lemma dist_Add v s : is_u32 s -> dist v (Add v s) = s.
Proof. unfold Add, dist. intros. wrap_lia. Qed.

Lemma dist_Add_r v w s :
  dist v w + s < 2 ^ 32 -> 0 <= s -> dist v (Add w s) = dist v w + s.
Proof. unfold Add, dist. intros. wrap_lia. Qed.

Lemma dist_trans u v w :
  dist u v + dist v w < 2 ^ 32 -> dist u w = dist u v + dist v w.
Proof. unfold dist. intros. wrap_lia. Qed.

Lemma dist_sub u v w :
  dist u v <= dist u w -> dist v w = dist u w - dist u v.
Proof. unfold dist. intros. wrap_lia. Qed.

Lemma Add_u32 v s : is_u32 (Add v s).
Proof. unfold Add. wrap_lia. Qed.

Lemma LessThan_dist v w : LessThan v w = (0 <? dist v w) && (dist v w <=? 2 ^ 31).
Proof.
  unfold LessThan, dist. apply eq_true_iff_eq.
  rewrite andb_true_iff, !Z.ltb_lt, Z.leb_le. wrap_lia.
Qed.

Lemma LessThanEq_dist v w :
  is_u32 v -> is_u32 w -> LessThanEq v w = (dist v w <=? 2 ^ 31).
Proof.
  intros Hv Hw. unfold LessThanEq. rewrite LessThan_dist.
  pose proof (dist_range v w). destruct (Z.eqb_spec v w) as [->|Hne].
  - rewrite dist_self. done.
  - assert (dist v w <> 0) by (rewrite dist_zero; done).
    cbn. unfold_widths. bool_cases; try lia; done.
Qed.

Lemma InRange_dist v a b : InRange v a b = (dist a v <? dist a b).
Proof. done. Qed.

Lemma InWindow_dist v first size :
  is_u32 size -> InWindow v first size = (dist first v <? size).
Proof. intros. unfold InWindow. rewrite InRange_dist, dist_Add; done. Qed.

(** Comparisons of sequence numbers that are less than half the sequence space
    apart agree with the comparison of the stream positions they stand for. *)

Lemma dist_positions b i j : dist (u32 (b + i)) (u32 (b + j)) = u32 (j - i).
Proof. unfold dist. wrap_lia. Qed.

(** sequence comparison is correct across wrap-around: for two stream
    positions [i] and [j] less than 2^31 apart, whatever the initial sequence
    number [b] is, [LessThan] and [LessThanEq] on the 32-bit sequence numbers
    decide [i < j] and [i <= j], and [InWindow] decides membership of [j] in the
    half-open interval of [n] positions starting at [i]. *)
Theorem seq_order_correct b i j n
  (Hnear : - 2 ^ 31 < j - i < 2 ^ 31) (Hn : 0 <= n <= 2 ^ 31) :
  LessThan (u32 (b + i)) (u32 (b + j)) = (i <? j) /\
  LessThanEq (u32 (b + i)) (u32 (b + j)) = (i <=? j) /\
  InWindow (u32 (b + j)) (u32 (b + i)) n = (i <=? j) && (j <? i + n).
Proof.
  rewrite LessThanEq_dist, LessThan_dist, InWindow_dist, !dist_positions by wrap_lia.
  repeat split; apply eq_true_iff_eq;
    rewrite ?andb_true_iff, ?Z.ltb_lt, ?Z.leb_le; wrap_lia.
Qed.

Lemma seq_order_correct_witness :
  LessThan (u32 (4294967290 + 3)) (u32 (4294967290 + 9)) = true /\
  LessThanEq (u32 (4294967290 + 3)) (u32 (4294967290 + 9)) = true /\
  InWindow (u32 (4294967290 + 9)) (u32 (4294967290 + 3)) 7 = true.
Proof. apply (seq_order_correct 4294967290 3 9 7); lia. Defined.

Create HintDb seqnum.
#[export] Hint Resolve dist_range Add_u32 : seqnum.
End SeqNum.
