(* ===== verification/Segment.v ===== *)
(** * TCP segments, flags and connection states ([src/tcp/definitions.go]) *)
From S2P Require Import Prelude Errors SeqNum.

Module Segment.
Import SeqNum.

(** ** Flags: a 16-bit mask *)

Definition FlagFIN : Z := 1.
Definition FlagSYN : Z := 2.
Definition FlagRST : Z := 4.
Definition FlagPSH : Z := 8.
Definition FlagACK : Z := 16.
Definition flagMask : Z := 511.
Definition synack : Z := Z.lor FlagSYN FlagACK.
Definition flagctl : Z := Z.lor (Z.lor FlagSYN FlagFIN) FlagRST.

Definition HasAll (flags mask : Z) : bool := Z.land flags mask =? mask.
Definition HasAny (flags mask : Z) : bool := negb (Z.land flags mask =? 0).
Definition Mask (flags : Z) : Z := Z.land flags flagMask.

(** ** Segments *)

Record Segment := mkSegment {
  SEQ : Z;      (* Value *)
  ACK : Z;      (* Value *)
  DATALEN : Z;  (* Size *)
  WND : Z;      (* Size *)
  Flags : Z     (* uint16 *)
}.

Definition LEN (seg : Segment) : Z :=
  let add := Z.land (Flags seg) 1 in
  let add := u32 (add + Z.land (Z.shiftr (Flags seg) 1) 1) in
  u32 (DATALEN seg + add).

Definition Last (seg : Segment) : Z :=
  let seglen := LEN seg in
  if seglen =? 0 then SEQ seg else u32 (Add (SEQ seg) seglen - 1).

Definition isFirstSYN (seg : Segment) : bool :=
  (Flags seg =? FlagSYN) && (ACK seg =? 0) && (DATALEN seg =? 0) && (0 <? WND seg).

Definition ClientSynSegment (clientISS clientWND : Z) : Segment :=
  {| SEQ := clientISS; WND := clientWND; Flags := FlagSYN; ACK := 0; DATALEN := 0 |}.

(** ** Connection states; the constructors are in the order of the source's [iota]. *)

Inductive State : Type :=
| StateClosed | StateListen | StateSynRcvd | StateSynSent | StateEstablished
| StateFinWait1 | StateFinWait2 | StateClosing | StateTimeWait | StateCloseWait
| StateLastAck.

#[global] Instance State_eq_dec : EqDecision State.
Proof. solve_decision. Defined.

Definition state_num (s : State) : Z :=
  match s with
  | StateClosed => 0 | StateListen => 1 | StateSynRcvd => 2 | StateSynSent => 3
  | StateEstablished => 4 | StateFinWait1 => 5 | StateFinWait2 => 6 | StateClosing => 7
  | StateTimeWait => 8 | StateCloseWait => 9 | StateLastAck => 10
  end.

Definition state_eqb (s t : State) : bool := bool_decide (s = t).

Definition IsPreestablished (s : State) : bool :=
  match s with StateSynRcvd | StateSynSent | StateListen => true | _ => false end.
Definition IsClosing (s : State) : bool :=
  match s with
  | StateFinWait1 | StateFinWait2 | StateClosing | StateLastAck | StateCloseWait => true
  | _ => false
  end.
Definition IsClosed (s : State) : bool :=
  match s with StateClosed | StateTimeWait => true | _ => false end.
Definition IsSynchronized (s : State) : bool :=
  (state_num StateEstablished <=? state_num s) && negb (IsClosed s).
Definition TxDataOpen (s : State) : bool :=
  match s with StateEstablished | StateCloseWait => true | _ => false end.
Definition txQueuedDataOpen (s : State) : bool :=
  TxDataOpen s ||
  match s with StateFinWait1 | StateClosing | StateLastAck => true | _ => false end.
Definition RxDataOpen (s : State) : bool :=
  match s with StateEstablished | StateFinWait1 | StateFinWait2 => true | _ => false end.
Definition isOpen (s : State) : bool := negb (IsClosed s).
Definition hasIRS (s : State) : bool :=
  isOpen s && negb (state_eqb s StateSynSent) && negb (state_eqb s StateListen).

(** ** Well-formedness: every field fits its machine width *)

Definition seg_wf (seg : Segment) : Prop :=
  is_u32 (SEQ seg) /\ is_u32 (ACK seg) /\ is_u32 (DATALEN seg) /\ is_u32 (WND seg) /\
  is_u16 (Flags seg).

(** ** Lemmas *)

Lemma is_u16_bits x :
  is_u16 x <-> 0 <= x /\ forall n, 16 <= n -> Z.testbit x n = false.
Proof.
  unfold is_u16. split.
  - intros [H0 H]. split; [done|]. by apply Z.bounded_iff_bits_nonneg.
  - intros [H0 H]. split; [done|]. apply Z.bounded_iff_bits_nonneg; [lia|done|done].
Qed.

Lemma land_u16 a b : is_u16 a -> is_u16 b -> is_u16 (Z.land a b).
Proof.
  rewrite !is_u16_bits. intros [Ha Ha'] [Hb Hb']. split; [apply Z.land_nonneg; lia|].
  intros n Hn. by rewrite Z.land_spec, Ha', Hb'.
Qed.

Lemma lor_u16 a b : is_u16 a -> is_u16 b -> is_u16 (Z.lor a b).
Proof.
  rewrite !is_u16_bits. intros [Ha Ha'] [Hb Hb']. split; [apply Z.lor_nonneg; lia|].
  intros n Hn. by rewrite Z.lor_spec, Ha', Hb'.
Qed.

Lemma ldiff_u16 a b : is_u16 a -> is_u16 (Z.ldiff a b).
Proof.
  rewrite !is_u16_bits. intros [Ha Ha']. split; [apply Z.ldiff_nonneg; lia|].
  intros n Hn. by rewrite Z.ldiff_spec, Ha'.
Qed.

(** The flag bits as bits. *)
Lemma HasAny_bit f k : 0 <= k -> HasAny f (2 ^ k) = Z.testbit f k.
Proof.
  intros. unfold HasAny.
  destruct (Z.testbit f k) eqn:E.
  - apply negb_true_iff, Z.eqb_neq. intros H0.
    assert (Z.testbit (Z.land f (2 ^ k)) k = true) as Ht.
    { rewrite Z.land_spec, E, Z.pow2_bits_true; lia. }
    rewrite H0, Z.bits_0 in Ht. done.
  - apply negb_false_iff, Z.eqb_eq. apply Z.bits_inj'. intros n Hn.
    rewrite Z.land_spec, Z.bits_0, Z.pow2_bits_eqb by lia.
    destruct (Z.eqb_spec k n) as [<-|]; rewrite ?E; [done|]. by rewrite andb_false_r.
Qed.

Lemma HasAll_bit f k : 0 <= k -> HasAll f (2 ^ k) = Z.testbit f k.
Proof.
  intros. rewrite <- HasAny_bit by lia. unfold HasAll, HasAny.
  destruct (Z.testbit f k) eqn:E.
  - replace (Z.land f (2 ^ k)) with (2 ^ k).
    { rewrite Z.eqb_refl. symmetry. apply negb_true_iff, Z.eqb_neq. lia. }
    apply Z.bits_inj'. intros n Hn. rewrite Z.land_spec, Z.pow2_bits_eqb by lia.
    destruct (Z.eqb_spec k n) as [<-|]; rewrite ?E; [done|]. by rewrite andb_false_r.
  - replace (Z.land f (2 ^ k)) with 0.
    { rewrite Z.eqb_refl. apply Z.eqb_neq. lia. }
    apply Z.bits_inj'. intros n Hn.
    rewrite Z.land_spec, Z.bits_0, Z.pow2_bits_eqb by lia.
    destruct (Z.eqb_spec k n) as [<-|]; rewrite ?E; [done|]. by rewrite andb_false_r.
Qed.

Lemma HasAll_HasAny_bit f k : 0 <= k -> HasAll f (2 ^ k) = HasAny f (2 ^ k).
Proof. intros. by rewrite HasAll_bit, HasAny_bit. Qed.

Lemma HasAny_lor p q m : HasAny (Z.lor p q) m = HasAny p m || HasAny q m.
Proof.
  unfold HasAny. rewrite Z.land_lor_distr_l.
  destruct (Z.eqb_spec (Z.lor (Z.land p m) (Z.land q m)) 0) as [E|E].
  - apply Z.lor_eq_0_iff in E as [Hp Hq]. by rewrite Hp, Hq.
  - destruct (Z.eqb_spec (Z.land p m) 0) as [Hp|]; [|done].
    destruct (Z.eqb_spec (Z.land q m) 0) as [Hq|]; [|done]. by rewrite Hp, Hq in E.
Qed.

Lemma HasAny_ldiff_bit p q k :
  0 <= k -> HasAny (Z.ldiff p q) (2 ^ k) = HasAny p (2 ^ k) && negb (HasAny q (2 ^ k)).
Proof. intros. by rewrite !HasAny_bit, Z.ldiff_spec by lia. Qed.

Lemma HasAny_land_bit p q k :
  0 <= k -> HasAny (Z.land p q) (2 ^ k) = HasAny p (2 ^ k) && HasAny q (2 ^ k).
Proof. intros. by rewrite !HasAny_bit, Z.land_spec by lia. Qed.

(** The three flags the sequence-space accounting depends on. *)
Lemma HasAny_ldiff_FIN p q :
  HasAny (Z.ldiff p q) FlagFIN = HasAny p FlagFIN && negb (HasAny q FlagFIN).
Proof. by apply (HasAny_ldiff_bit p q 0). Qed.
Lemma HasAny_ldiff_SYN p q :
  HasAny (Z.ldiff p q) FlagSYN = HasAny p FlagSYN && negb (HasAny q FlagSYN).
Proof. by apply (HasAny_ldiff_bit p q 1). Qed.
Lemma HasAny_land_SYN p q :
  HasAny (Z.land p q) FlagSYN = HasAny p FlagSYN && HasAny q FlagSYN.
Proof. by apply (HasAny_land_bit p q 1). Qed.
Lemma HasAny_0 m : HasAny 0 m = false.
Proof. done. Qed.
Lemma HasAll_ACK f : HasAll f FlagACK = HasAny f FlagACK.
Proof. by apply (HasAll_HasAny_bit f 4). Qed.
Lemma HasAll_SYN f : HasAll f FlagSYN = HasAny f FlagSYN.
Proof. by apply (HasAll_HasAny_bit f 1). Qed.
Lemma HasAny_lor_r f p q : HasAny f (Z.lor p q) = HasAny f p || HasAny f q.
Proof.
  pose proof (HasAny_lor p q f) as H. unfold HasAny in *. by rewrite !(Z.land_comm f).
Qed.
Lemma HasAny_flagctl f :
  HasAny f flagctl = HasAny f FlagSYN || HasAny f FlagFIN || HasAny f FlagRST.
Proof. unfold flagctl. by rewrite !HasAny_lor_r. Qed.

(** Segment length: data plus one for each of SYN and FIN. *)
Lemma LEN_bits seg :
  is_u32 (DATALEN seg) ->
  LEN seg = u32 (DATALEN seg + Z.b2z (HasAny (Flags seg) FlagFIN)
                 + Z.b2z (HasAny (Flags seg) FlagSYN)).
Proof.
  intros. unfold LEN.
  assert (forall a, Z.land a 1 = Z.b2z (Z.testbit a 0)) as E.
  { intros a. rewrite Z.bit0_odd. change 1 with (Z.ones 1).
    rewrite Z.land_ones by lia. change (2 ^ 1) with 2. apply Zmod_odd. }
  rewrite !E, Z.shiftr_spec by lia.
  change (HasAny (Flags seg) FlagFIN) with (HasAny (Flags seg) (2 ^ 0)).
  change (HasAny (Flags seg) FlagSYN) with (HasAny (Flags seg) (2 ^ 1)).
  rewrite !HasAny_bit by lia. change (0 + 1) with 1.
  destruct (Z.testbit (Flags seg) 0), (Z.testbit (Flags seg) 1); cbn [Z.b2z]; wrap_lia.
Qed.

Lemma LEN_u32 seg : is_u32 (LEN seg).
Proof. unfold LEN. wrap_lia. Qed.

Lemma Last_u32 seg : is_u32 (SEQ seg) -> is_u32 (Last seg).
Proof. intros. unfold Last. bool_cases; [done|wrap_lia]. Qed.

#[export] Hint Resolve land_u16 lor_u16 ldiff_u16 LEN_u32 Last_u32 : seqnum.
End Segment.
