(* ===== verification/ControlBlock.v ===== *)
(** * The TCP control block ([src/tcp/control.go], [src/tcp/control_rcvhandlers.go])

    [ControlBlock] is the state machine that validates and accounts for every
    segment sent and received. Each method of the source is one definition;
    a method that mutates its receiver returns the new control block. Logging
    calls and the embedded [logger] have no effect on the state and are left
    out. *)
From S2P Require Import Prelude Errors SeqNum Segment.

Module ControlBlock.
Import SeqNum Segment.

(** ** Constants *)

Definition retransmitAfterDupacks : Z := 3.
Definition retransmitMaxQueued : Z := 2.
Definition maxChallengeRejects : Z := 8.
Definition maxWndShift : Z := 14.
Definition maxWindow : Z := Z.shiftl 65535 maxWndShift.

(** ** State *)

Record recvSpace := mkRecvSpace {
  rcv_IRS : Z;
  rcv_NXT : Z;
  rcv_WND : Z
}.

Record sendSpace := mkSendSpace {
  snd_ISS : Z;
  snd_UNA : Z;
  snd_NXT : Z;
  snd_WND : Z;
  snd_MSS : Z;
  snd_WL1 : Z;
  snd_WL2 : Z
}.

Record ControlBlock := mkTCB {
  snd : sendSpace;
  rcv : recvSpace;
  rstPtr : Z;
  pending0 : Z;          (* pending[0] *)
  pending1 : Z;          (* pending[1] *)
  state : State;         (* _state *)
  challengeAcks : Z;     (* int8 *)
  dupack : Z;            (* uint8 *)
  nRetransmit : Z        (* uint8 *)
}.

(** Field updates. *)
Definition with_snd s t := mkTCB s (rcv t) (rstPtr t) (pending0 t) (pending1 t) (state t) (challengeAcks t) (dupack t) (nRetransmit t).
Definition with_rcv r t := mkTCB (snd t) r (rstPtr t) (pending0 t) (pending1 t) (state t) (challengeAcks t) (dupack t) (nRetransmit t).
Definition with_rstPtr p t := mkTCB (snd t) (rcv t) p (pending0 t) (pending1 t) (state t) (challengeAcks t) (dupack t) (nRetransmit t).
Definition with_pending p0 p1 t := mkTCB (snd t) (rcv t) (rstPtr t) p0 p1 (state t) (challengeAcks t) (dupack t) (nRetransmit t).
Definition with_state s t := mkTCB (snd t) (rcv t) (rstPtr t) (pending0 t) (pending1 t) s (challengeAcks t) (dupack t) (nRetransmit t).
Definition with_challengeAcks c t := mkTCB (snd t) (rcv t) (rstPtr t) (pending0 t) (pending1 t) (state t) c (dupack t) (nRetransmit t).
Definition with_rtx d n t := mkTCB (snd t) (rcv t) (rstPtr t) (pending0 t) (pending1 t) (state t) (challengeAcks t) d n.

Definition snd_with_UNA v s := mkSendSpace (snd_ISS s) v (snd_NXT s) (snd_WND s) (snd_MSS s) (snd_WL1 s) (snd_WL2 s).
Definition snd_with_NXT v s := mkSendSpace (snd_ISS s) (snd_UNA s) v (snd_WND s) (snd_MSS s) (snd_WL1 s) (snd_WL2 s).
Definition snd_with_WND v s := mkSendSpace (snd_ISS s) (snd_UNA s) (snd_NXT s) v (snd_MSS s) (snd_WL1 s) (snd_WL2 s).
Definition snd_with_MSS v s := mkSendSpace (snd_ISS s) (snd_UNA s) (snd_NXT s) (snd_WND s) v (snd_WL1 s) (snd_WL2 s).
Definition snd_with_WL v w s := mkSendSpace (snd_ISS s) (snd_UNA s) (snd_NXT s) (snd_WND s) (snd_MSS s) v w.
Definition rcv_with_NXT v r := mkRecvSpace (rcv_IRS r) v (rcv_WND r).
Definition rcv_with_WND v r := mkRecvSpace (rcv_IRS r) (rcv_NXT r) v.

(** [tcb.pending[0] |= f] *)
Definition or_pending0 (f : Z) (t : ControlBlock) : ControlBlock :=
  with_pending (Z.lor (pending0 t) f) (pending1 t) t.

(** ** Accessors and segment builders *)

Definition RecvNext t := rcv_NXT (rcv t).
Definition RecvWindow t := rcv_WND (rcv t).
Definition ISS t := snd_ISS (snd t).
Definition SendUNA t := snd_UNA (snd t).
Definition SendNext t := snd_NXT (snd t).

Definition MaxInFlightData (t : ControlBlock) : Z :=
  if negb (hasIRS (state t)) then 0
  else
    let unacked := Sizeof (snd_UNA (snd t)) (snd_NXT (snd t)) in
    if snd_WND (snd t) <=? unacked then 0 else u32 (snd_WND (snd t) - unacked).

Definition SetRecvWindow (wnd : Z) (t : ControlBlock) : ControlBlock :=
  with_rcv (rcv_with_WND wnd (rcv t)) t.

Definition IncomingIsKeepalive (t : ControlBlock) (seg : Segment) : bool :=
  (SEQ seg =? u32 (rcv_NXT (rcv t) - 1)) && (Flags seg =? FlagACK) &&
  (ACK seg =? snd_NXT (snd t)) && (DATALEN seg =? 0).

Definition IncomingIsDupACK (t : ControlBlock) (ack : Z) : bool :=
  (ack =? snd_UNA (snd t)) && LessThan ack (snd_NXT (snd t)).

Definition MakeKeepalive (t : ControlBlock) : Segment :=
  {| SEQ := u32 (snd_NXT (snd t) - 1); ACK := rcv_NXT (rcv t); Flags := FlagACK;
     WND := rcv_WND (rcv t); DATALEN := 0 |}.

Definition QueueRST (seq : Z) (t : ControlBlock) : ControlBlock :=
  with_rstPtr seq (with_pending FlagRST 0 t).

Definition MakeDupACK (t : ControlBlock) : Segment :=
  {| SEQ := snd_UNA (snd t); ACK := rcv_NXT (rcv t); Flags := FlagACK;
     WND := rcv_WND (rcv t); DATALEN := 0 |}.

Definition MakeChallengeACK (t : ControlBlock) : Segment :=
  {| SEQ := snd_NXT (snd t); ACK := rcv_NXT (rcv t); Flags := FlagACK;
     WND := rcv_WND (rcv t); DATALEN := 0 |}.

Definition inFlight (s : sendSpace) : Z := Sizeof (snd_UNA s) (snd_NXT s).

Definition maxSend (s : sendSpace) : Z :=
  let inf := inFlight s in
  if snd_WND s <=? inf then 0 else u32 (snd_WND s - inf).

(** ** Reset, open, abort, close *)

Definition resetSnd (localISS remoteWND : Z) (t : ControlBlock) : ControlBlock :=
  with_snd (mkSendSpace localISS localISS localISS remoteWND 0 0 0) t.

Definition resetRcv (localWND remoteISS : Z) (t : ControlBlock) : ControlBlock :=
  with_rcv (mkRecvSpace remoteISS remoteISS localWND) t.

(** The zero value of [ControlBlock]. *)
Definition zero_tcb : ControlBlock :=
  mkTCB (mkSendSpace 0 0 0 0 0 0 0) (mkRecvSpace 0 0 0) 0 0 0 StateClosed 0 0 0.

Definition reset (t : ControlBlock) : ControlBlock := zero_tcb.

Definition Abort (t : ControlBlock) : ControlBlock := reset t.

Definition prepareToHandshake (iss wnd : Z) (newState : State) (t : ControlBlock)
    : ControlBlock :=
  with_state newState (resetSnd iss 1 (resetRcv wnd 0 (reset t))).

Definition Open (iss wnd : Z) (t : ControlBlock) : ControlBlock * option error :=
  if negb (state_eqb (state t) StateClosed) && negb (state_eqb (state t) StateTimeWait)
  then (t, Some errNeedClosedTCBToOpen)
  else if maxWindow <? wnd then (t, Some errWindowTooLarge)
  else (prepareToHandshake iss wnd StateListen t, None).

Definition Close (t : ControlBlock) : ControlBlock * option error :=
  match state t with
  | StateClosed => (t, Some errConnNotExist)
  | StateCloseWait =>
      (with_pending (Z.lor FlagFIN FlagACK) 0 (with_state StateLastAck t), None)
  | StateListen | StateSynSent => (Abort t, None)
  | StateSynRcvd | StateEstablished =>
      (with_pending (Z.lor (Z.land (pending0 t) FlagACK) FlagFIN) (pending1 t) t, None)
  | StateFinWait2 | StateTimeWait => (t, Some errConnectionClosing)
  | _ => (t, Some errInvalidState)
  end.

(** ** Challenge ACK accounting ([challengeAcks] is an [int8]) *)

Definition triggerChallengeAckSatisfied (t : ControlBlock) : ControlBlock :=
  with_challengeAcks 0 t.
Definition triggerChallengeAckEmit (t : ControlBlock) : ControlBlock :=
  if 0 <=? challengeAcks t
  then with_challengeAcks (i8 (i8 (- challengeAcks t) - 1)) t
  else t.
Definition triggerChallengeAckSent (t : ControlBlock) : ControlBlock :=
  if challengeAcks t <? 0
  then with_challengeAcks (i8 (- challengeAcks t)) t
  else t.
Definition pendingChallengeAck (t : ControlBlock) : bool := challengeAcks t <? 0.
Definition tooManyChallengeAcks (t : ControlBlock) : bool :=
  if 0 <=? challengeAcks t
  then maxChallengeRejects <? challengeAcks t
  else challengeAcks t <? - maxChallengeRejects.

(** ** Retransmission *)

Definition HasPendingRetransmit (t : ControlBlock) : bool :=
  TxDataOpen (state t) && (retransmitAfterDupacks <=? dupack t) &&
  (nRetransmit t <=? u8 (dupack t - retransmitAfterDupacks)).

Definition HasPending (t : ControlBlock) : bool :=
  negb (pending0 t =? 0) || pendingChallengeAck t || HasPendingRetransmit t.

Definition RetransmitFrom (newNxt : Z) (t : ControlBlock) : ControlBlock * bool :=
  if negb (txQueuedDataOpen (state t)) then (t, false)
  else if LessThan newNxt (snd_UNA (snd t)) || LessThan (snd_NXT (snd t)) newNxt
  then (t, false)
  else (with_rtx 0 0 (with_snd (snd_with_NXT newNxt (snd t)) t), true).

Definition RetransmitAll (t : ControlBlock) : ControlBlock :=
  fst (RetransmitFrom (snd_UNA (snd t)) t).

(** ** PendingSegment: the next segment to send; [None] for [ok=false] *)

Definition PendingSegment (payloadLen : Z) (t : ControlBlock) : outcome (option Segment) :=
  let pending := pending0 t in
  if pendingChallengeAck t then Ret (Some (MakeChallengeACK t))
  else if negb (HasAny pending flagctl) && HasPendingRetransmit t then
    Ret (Some {| SEQ := snd_UNA (snd t); DATALEN := u32 payloadLen; ACK := rcv_NXT (rcv t);
                 WND := rcv_WND (rcv t); Flags := FlagACK |})
  else
  let canSendData := txQueuedDataOpen (state t) in
  let payloadLen := if negb canSendData then 0 else payloadLen in
  if (pending =? 0) && (payloadLen =? 0) then Ret None
  else
  let maxPayload := maxSend (snd t) in
  let finish (payloadLen : Z) :=
    let payloadLen :=
      if (0 <? snd_MSS (snd t)) && (snd_MSS (snd t) <? payloadLen)
      then snd_MSS (snd t) else payloadLen in
    let pending := if canSendData then Z.lor pending FlagACK else pending in
    let payloadLen := if canSendData then payloadLen else 0 in
    let ack := if HasAny pending FlagACK then rcv_NXT (rcv t) else 0 in
    let seq := if HasAny pending FlagRST then rstPtr t else snd_NXT (snd t) in
    Ret (Some {| SEQ := seq; ACK := ack; WND := rcv_WND (rcv t); Flags := pending;
                 DATALEN := u32 payloadLen |}) in
  if maxPayload <? payloadLen then
    if (maxPayload =? 0) && (pending =? 0) then Ret None
    else if snd_WND (snd t) <? maxPayload then Panic
    else finish maxPayload
  else finish payloadLen.

(** ** Segment handlers of [control_rcvhandlers.go]: new state, pending flags, error *)

Definition rcvListen (seg : Segment) (t : ControlBlock)
    : ControlBlock * Z * option error :=
  if negb (HasAll (Flags seg) FlagSYN) then (t, 0, Some errExpectedSYN)
  else
    let t := resetSnd (snd_ISS (snd t)) (WND seg) t in
    let t := resetRcv (rcv_WND (rcv t)) (SEQ seg) t in
    let t := with_pending synack (pending1 t) t in
    (with_state StateSynRcvd t, synack, None).

Definition rcvSynSent (seg : Segment) (t : ControlBlock)
    : ControlBlock * Z * option error :=
  let hasSyn := HasAny (Flags seg) FlagSYN in
  let hasAck := HasAny (Flags seg) FlagACK in
  if negb hasSyn then (t, 0, Some errExpectedSYN)
  else if hasAck && negb (ACK seg =? u32 (snd_UNA (snd t) + 1))
  then (t, 0, Some errBadSegack)
  else if hasAck then
    (resetRcv (rcv_WND (rcv t)) (SEQ seg) (with_state StateEstablished t), FlagACK, None)
  else
    let t := with_state StateSynRcvd t in
    let t := resetSnd (snd_ISS (snd t)) (WND seg) t in
    (resetRcv (rcv_WND (rcv t)) (SEQ seg) t, synack, None).

Definition rcvSynRcvd (seg : Segment) (t : ControlBlock)
    : ControlBlock * Z * option error :=
  if negb (HasAll (Flags seg) FlagACK) then (t, 0, Some errBadSegack)
  else if negb (ACK seg =? u32 (snd_UNA (snd t) + 1)) then (t, 0, Some errBadSegack)
  else (with_state StateEstablished t, 0, None).

Definition rcvEstablished (seg : Segment) (t : ControlBlock)
    : ControlBlock * Z * option error :=
  let dataToAck := 0 <? DATALEN seg in
  let hasFin := HasAny (Flags seg) FlagFIN in
  if dataToAck || hasFin then
    (if hasFin then with_state StateCloseWait t else t, FlagACK, None)
  else (t, 0, None).

Definition rcvFinWait1 (seg : Segment) (t : ControlBlock)
    : ControlBlock * Z * option error :=
  let hasFin := negb (Z.land (Flags seg) FlagFIN =? 0) in
  let hasAck := negb (Z.land (Flags seg) FlagACK =? 0) in
  let pending := if (0 <? DATALEN seg) || hasFin then FlagACK else 0 in
  if hasFin && hasAck && (ACK seg =? snd_NXT (snd t))
  then (with_state StateTimeWait t, pending, None)
  else if hasFin then (with_state StateClosing t, pending, None)
  else if hasAck && (ACK seg =? snd_NXT (snd t))
  then (with_state StateFinWait2 t, pending, None)
  else if hasAck then (t, pending, None)
  else (t, 0, Some errFinwaitExpectedACK).

Definition rcvFinWait2 (seg : Segment) (t : ControlBlock)
    : ControlBlock * Z * option error :=
  if HasAny (Flags seg) FlagFIN then (with_state StateTimeWait t, FlagACK, None)
  else if 0 <? DATALEN seg then (t, FlagACK, None)
  else (t, 0, None).

(** ** Validation of incoming segments *)

Definition rstJump : Z := 100.

Definition handleRST (seq : Z) (t : ControlBlock) : ControlBlock * option error :=
  match state t with
  | StateSynSent => (Abort t, Some NetErrClosed)
  | StateListen => (t, Some errDropSegment)
  | StateSynRcvd =>
      let t := with_pending 0 (pending1 t) t in
      let t := with_state StateListen t in
      let t := resetSnd (u32 (snd_ISS (snd t) + rstJump)) (snd_WND (snd t)) t in
      let t := resetRcv (rcv_WND (rcv t)) (Z.lxor 3141592653 (rcv_IRS (rcv t))) t in
      (t, Some errDropSegment)
  | _ =>
      if negb (seq =? rcv_NXT (rcv t)) then
        (or_pending0 FlagACK (triggerChallengeAckEmit t), Some errDropSegment)
      else (Abort t, Some NetErrClosed)
  end.

(** The first [switch] of [validateIncomingSegment]: the admission error. *)
Definition incoming_reject (seg : Segment) (t : ControlBlock) : option error :=
  let flags := Flags seg in
  let preestablished := IsPreestablished (state t) in
  let checkSEQ := (negb (HasAny flags FlagSYN) || negb preestablished) &&
                  negb (state_eqb (state t) StateListen) in
  let zeroWindowOK := (rcv_WND (rcv t) =? 0) && (DATALEN seg =? 0) &&
                      (SEQ seg =? rcv_NXT (rcv t)) in
  if maxWindow <? WND seg then Some errWindowOverflow
  else if state_eqb (state t) StateClosed then Some IoErrClosedPipe
  else if checkSEQ && (rcv_WND (rcv t) =? 0) && (0 <? DATALEN seg) &&
          (SEQ seg =? rcv_NXT (rcv t)) then Some errZeroWindow
  else if checkSEQ && negb (InWindow (SEQ seg) (rcv_NXT (rcv t)) (rcv_WND (rcv t))) &&
          negb zeroWindowOK then Some errSeqNotInWindow
  else if checkSEQ && negb (InWindow (Last seg) (rcv_NXT (rcv t)) (rcv_WND (rcv t))) &&
          negb zeroWindowOK then Some errLastNotInWindow
  else if checkSEQ && negb (HasAny flags FlagRST) &&
          negb (SEQ seg =? rcv_NXT (rcv t)) then Some errRequireSequential
  else None.

Definition validateIncomingSegment (seg : Segment) (t : ControlBlock)
    : ControlBlock * option error :=
  let flags := Flags seg in
  let hasAck := HasAll flags FlagACK in
  let preestablished := IsPreestablished (state t) in
  let established := state_eqb (state t) StateEstablished in
  let acksOld := hasAck && negb (LessThan (snd_UNA (snd t)) (ACK seg)) in
  let acksUnsentData := hasAck && negb (LessThanEq (ACK seg) (snd_NXT (snd t))) in
  let ctlOrDataSegment :=
    established && ((0 <? DATALEN seg) || HasAny flags (Z.lor FlagFIN FlagRST)) in
  match incoming_reject seg t with
  | Some err =>
      match err with
      | errSeqNotInWindow | errLastNotInWindow | errRequireSequential | errZeroWindow =>
          if negb (HasAny flags FlagRST) then
            if tooManyChallengeAcks t then (Abort t, Some NetErrClosed)
            else (triggerChallengeAckEmit t, Some err)
          else (t, Some err)
      | _ => (t, Some err)
      end
  | None =>
      if HasAny flags FlagRST then handleRST (SEQ seg) t
      else if established && acksOld && negb ctlOrDataSegment then (t, None)
      else if established && acksUnsentData then
        (or_pending0 FlagACK t, Some errDropSegment)
      else if preestablished && (acksOld || acksUnsentData) then
        let t := with_pending FlagRST (pending1 t) t in
        let t := with_rstPtr (ACK seg) t in
        (resetSnd (snd_ISS (snd t)) (WND seg) t, Some errDropSegment)
      else (t, None)
  end.

(** ** Recv *)

(** The [switch] on the state: new block, pending flags, error. *)
Definition recv_dispatch (seg : Segment) (t : ControlBlock)
    : outcome (ControlBlock * Z * option error) :=
  match state t with
  | StateListen => Ret (rcvListen seg t)
  | StateSynSent => Ret (rcvSynSent seg t)
  | StateSynRcvd => Ret (rcvSynRcvd seg t)
  | StateEstablished => Ret (rcvEstablished seg t)
  | StateFinWait1 => Ret (rcvFinWait1 seg t)
  | StateFinWait2 => Ret (rcvFinWait2 seg t)
  | StateCloseWait => Ret (t, 0, None)
  | StateLastAck => Ret (if HasAny (Flags seg) FlagACK then Abort t else t, 0, None)
  | StateClosing =>
      Ret (if HasAny (Flags seg) FlagACK then with_state StateTimeWait t else t, 0, None)
  | StateClosed | StateTimeWait => Panic
  end.

(** Send-window update (RFC 9293 3.10.7.4 step 5). *)
Definition recv_window (seg : Segment) (t : ControlBlock) : ControlBlock :=
  let s := snd t in
  let wlUnset := (snd_WL1 s =? 0) && (snd_WL2 s =? 0) in
  if wlUnset || LessThan (snd_WL1 s) (SEQ seg) ||
     ((snd_WL1 s =? SEQ seg) && LessThanEq (snd_WL2 s) (ACK seg))
  then
    let s := if LessThan (snd_UNA s) (ACK seg) || (snd_WND s <? WND seg)
             then snd_with_WND (WND seg) s else s in
    with_snd (snd_with_WL (SEQ seg) (ACK seg) s) t
  else t.

(** Acknowledgement processing: duplicate-ACK counting and the advance of SND.UNA. *)
Definition recv_ack (seg : Segment) (t : ControlBlock) : ControlBlock :=
  if HasAny (Flags seg) FlagACK && LessThanEq (ACK seg) (snd_NXT (snd t)) then
    if IncomingIsDupACK t (ACK seg) && TxDataOpen (state t) &&
       negb (HasAny (Flags seg) flagctl) &&
       (dupack t <? u8 (u8 (nRetransmit t + retransmitMaxQueued) + retransmitMaxQueued))
    then with_rtx (u8 (dupack t + 1)) (nRetransmit t) t
    else if LessThan (snd_UNA (snd t)) (ACK seg)
    then with_rtx 0 0 (with_snd (snd_with_UNA (ACK seg) (snd t)) t)
    else t
  else t.

(** The tail of [Recv]: the segment is accepted. *)
Definition recv_accept (seg : Segment) (pending : Z) (t : ControlBlock) : ControlBlock :=
  let t := triggerChallengeAckSatisfied t in
  let t := or_pending0 pending t in
  let t := recv_window seg t in
  let t := recv_ack seg t in
  with_rcv (rcv_with_NXT (UpdateForward (rcv_NXT (rcv t)) (LEN seg)) (rcv t)) t.

Definition Recv (seg : Segment) (t : ControlBlock) : outcome (ControlBlock * option error) :=
  match validateIncomingSegment seg t with
  | (t, Some err) => Ret (t, Some err)
  | (t, None) =>
      if HasAny (Flags seg) FlagSYN && negb (IsPreestablished (state t)) then
        Ret (or_pending0 FlagACK (triggerChallengeAckEmit t), Some errDropSegment)
      else
        '(t, pending, err) ← recv_dispatch seg t;
        match err with
        | Some err => Ret (t, Some err)
        | None => Ret (recv_accept seg pending t, None)
        end
  end.

(** ** Send *)

Definition validateOutgoingSegment (seg : Segment) (t : ControlBlock) : option error :=
  let s := snd t in
  let hasAck := HasAny (Flags seg) FlagACK in
  let isFirst := state_eqb (state t) StateClosed && isFirstSYN seg in
  let checkSeq := negb isFirst && negb (HasAny (Flags seg) FlagRST) in
  let seglast := Last seg in
  let zeroWindowOK := (snd_WND s =? 0) && (DATALEN seg =? 0) && (SEQ seg =? snd_NXT s) in
  let outOfWindow := checkSeq && negb (InWindow (SEQ seg) (snd_NXT s) (snd_WND s)) &&
                     negb zeroWindowOK in
  let isRetransmit := checkSeq && InRange (SEQ seg) (snd_UNA s) (snd_NXT s) in
  if state_eqb (state t) StateClosed && negb isFirst then Some IoErrClosedPipe
  else if maxWindow <? WND seg then Some errWindowTooLarge
  else if hasAck && negb (ACK seg =? rcv_NXT (rcv t)) then Some errAckNotNext
  else if outOfWindow && negb isRetransmit then
    (if snd_WND s =? 0 then Some errZeroWindow else Some errSeqNotInWindow)
  else if (0 <? DATALEN seg) && state_eqb (state t) StateFinWait2
  then Some errConnectionClosing
  else if checkSeq && (snd_WND s =? 0) && (0 <? DATALEN seg) && (SEQ seg =? snd_NXT s)
  then Some errZeroWindow
  else if checkSeq && negb (InWindow seglast (snd_NXT s) (snd_WND s)) &&
          negb zeroWindowOK && negb isRetransmit then Some errLastNotInWindow
  else None.

(** The [switch] of [Send] on the state. *)
Definition send_dispatch (seg : Segment) (t : ControlBlock) : ControlBlock :=
  let hasFIN := HasAny (Flags seg) FlagFIN in
  let hasACK := HasAny (Flags seg) FlagACK in
  match state t with
  | StateClosed =>
      if Flags seg =? FlagSYN
      then prepareToHandshake (SEQ seg) (WND seg) StateSynSent t else t
  | StateSynRcvd | StateEstablished => if hasFIN then with_state StateFinWait1 t else t
  | StateClosing => if hasACK then with_state StateTimeWait t else t
  | StateCloseWait => if hasFIN then with_state StateLastAck t else t
  | _ => t
  end.

(** Advance of the pending-flags queue. *)
Definition send_pending (seg : Segment) (t : ControlBlock) : ControlBlock :=
  let p0 := Z.ldiff (pending0 t) (Flags seg) in
  if p0 =? 0
  then with_pending (Z.ldiff (pending1 t) (Z.land (Flags seg) FlagFIN)) 0 t
  else with_pending p0 (pending1 t) t.

(** Sequence-space accounting. *)
Definition send_account (seg : Segment) (t : ControlBlock) : ControlBlock :=
  let seglen := LEN seg in
  if LessThan (SEQ seg) (snd_NXT (snd t)) then
    if nRetransmit t <? 255 - retransmitMaxQueued - retransmitAfterDupacks
    then with_rtx (dupack t) (u8 (nRetransmit t + 1)) t else t
  else with_snd (snd_with_NXT (UpdateForward (snd_NXT (snd t)) seglen) (snd t)) t.

Definition Send (seg : Segment) (t : ControlBlock) : ControlBlock * option error :=
  match validateOutgoingSegment seg t with
  | Some err => (t, Some err)
  | None =>
      let t := send_dispatch seg t in
      let t := send_pending seg t in
      let t := if pendingChallengeAck t && HasAny (Flags seg) FlagACK
               then triggerChallengeAckSent t else t in
      let t := send_account seg t in
      (with_rcv (rcv_with_WND (WND seg) (rcv t)) t, None)
  end.

End ControlBlock.
