(* ===== verification/ControlBlockInv.v ===== *)
(** * Lemmas and invariants of the control block

    Modules: [ControlBlockProps] has the lemmas on its steps, [ControlBlockWf] the machine
    widths, [ControlBlockInv] the invariants. *)
From S2P Require Import Prelude Errors SeqNum Segment ControlBlock.

(** ** Correctness of the TCP control block

    Invariants of [ControlBlock] under every operation, the shape of every
    result of [Recv] and [Send], and the conformance of the state changes with
    the connection diagram of RFC 9293. *)
Module ControlBlockProps.
Import SeqNum Segment ControlBlock.

(** ** Definitions *)

(** Effects of a refused incoming segment on the control block. *)
Definition back_to_listen (t : ControlBlock) : ControlBlock :=
  fst (handleRST 0 (with_state StateSynRcvd t)).
Definition refuse_handshake (seg : Segment) (t : ControlBlock) : ControlBlock :=
  resetSnd (snd_ISS (snd t)) (WND seg)
    (with_rstPtr (ACK seg) (with_pending FlagRST (pending1 t) t)).

Inductive refusal (seg : Segment) (t : ControlBlock) : ControlBlock -> error -> Prop :=
| refusal_plain e : incoming_reject seg t = Some e -> refusal seg t t e
| refusal_challenge e : incoming_reject seg t = Some e ->
    HasAny (Flags seg) FlagRST = false -> tooManyChallengeAcks t = false ->
    state t <> StateClosed -> refusal seg t (triggerChallengeAckEmit t) e
| refusal_abort e : incoming_reject seg t = Some e ->
    tooManyChallengeAcks t = true -> refusal seg t zero_tcb NetErrClosed
| refusal_rst_closed : incoming_reject seg t = None ->
    HasAny (Flags seg) FlagRST = true ->
    state t = StateSynSent \/ (IsPreestablished (state t) = false /\ SEQ seg = rcv_NXT (rcv t)) ->
    refusal seg t zero_tcb NetErrClosed
| refusal_rst_listen : incoming_reject seg t = None ->
    HasAny (Flags seg) FlagRST = true -> state t = StateListen ->
    refusal seg t t errDropSegment
| refusal_rst_synrcvd : incoming_reject seg t = None ->
    HasAny (Flags seg) FlagRST = true -> state t = StateSynRcvd ->
    refusal seg t (back_to_listen t) errDropSegment
| refusal_rst_challenge : incoming_reject seg t = None ->
    HasAny (Flags seg) FlagRST = true -> IsPreestablished (state t) = false ->
    SEQ seg <> rcv_NXT (rcv t) ->
    refusal seg t (or_pending0 FlagACK (triggerChallengeAckEmit t)) errDropSegment
| refusal_unsent : incoming_reject seg t = None -> state t = StateEstablished ->
    HasAll (Flags seg) FlagACK = true ->
    LessThanEq (ACK seg) (snd_NXT (snd t)) = false ->
    refusal seg t (or_pending0 FlagACK t) errDropSegment
| refusal_handshake : incoming_reject seg t = None -> IsPreestablished (state t) = true ->
    HasAll (Flags seg) FlagACK = true ->
    refusal seg t (refuse_handshake seg t) errDropSegment.

(** ** Shape lemmas *)

Ltac tcb_case :=
  repeat match goal with
  | |- context [if ?b then _ else _] => destruct b eqn:?
  | H : context [if ?b then _ else _] |- _ => destruct b eqn:?
  end.

Ltac bool_hyps :=
  repeat match goal with
  | H : _ && _ = true |- _ => apply andb_true_iff in H; destruct H
  | H : _ || _ = false |- _ => apply orb_false_iff in H; destruct H
  | H : negb _ = true |- _ => apply negb_true_iff in H
  | H : negb _ = false |- _ => apply negb_false_iff in H
  | H : (_ =? _) = true |- _ => apply Z.eqb_eq in H
  | H : (_ =? _) = false |- _ => apply Z.eqb_neq in H
  | H : (_ <? _) = true |- _ => apply Z.ltb_lt in H
  | H : (_ <? _) = false |- _ => apply Z.ltb_ge in H
  | H : (_ <=? _) = true |- _ => apply Z.leb_le in H
  | H : (_ <=? _) = false |- _ => apply Z.leb_gt in H
  | H : state_eqb _ _ = true |- _ => apply bool_decide_eq_true in H
  | H : state_eqb _ _ = false |- _ => apply bool_decide_eq_false in H
  end.

Lemma incoming_reject_closed seg t e :
  incoming_reject seg t = Some e -> e <> errWindowOverflow -> e <> IoErrClosedPipe ->
  state t <> StateClosed.
Proof. unfold incoming_reject. intros H ? ?. tcb_case; simplify_eq; by bool_hyps. Qed.

Lemma incoming_reject_not_closed seg t :
  incoming_reject seg t = None -> state t <> StateClosed.
Proof. unfold incoming_reject. intros H. tcb_case; simplify_eq; by bool_hyps. Qed.

Lemma handleRST_refusal seg t t' oe :
  incoming_reject seg t = None -> HasAny (Flags seg) FlagRST = true ->
  handleRST (SEQ seg) t = (t', oe) -> exists e, oe = Some e /\ refusal seg t t' e.
Proof.
  intros Hr Hf H. unfold handleRST in H.
  destruct (state t) eqn:Hs; cbn in H; tcb_case; simplify_eq; bool_hyps;
    eexists; split; try done.
  all: try (by apply refusal_rst_challenge; rewrite ?Hs).
  all: try (by apply refusal_rst_closed; [..|right; rewrite Hs]).
  all: try (by apply refusal_rst_closed; [..|left]).
  - by apply refusal_rst_listen.
  - change (refusal seg t (back_to_listen t) errDropSegment). by apply refusal_rst_synrcvd.
Qed.

Lemma validateIncoming_cases seg t t' oe :
  validateIncomingSegment seg t = (t', oe) ->
  match oe with
  | None => t' = t /\ incoming_reject seg t = None /\ HasAny (Flags seg) FlagRST = false
  | Some e => refusal seg t t' e
  end.
Proof.
  unfold validateIncomingSegment. intros H.
  destruct (incoming_reject seg t) as [e|] eqn:Hr.
  - destruct e; try (simplify_eq; by apply refusal_plain);
      tcb_case; simplify_eq; bool_hyps;
      try (apply refusal_challenge; [done..|by eapply incoming_reject_closed]);
      eauto using refusal_plain, refusal_abort.
  - destruct (HasAny (Flags seg) FlagRST) eqn:Hf.
    + destruct (handleRST_refusal seg t t' oe) as (e & -> & ?); done.
    + tcb_case; simplify_eq; bool_hyps; try done.
      * by apply refusal_unsent.
      * match goal with H : _ || _ = true |- _ => apply orb_true_iff in H as [?|?] end;
          bool_hyps; by apply refusal_handshake.
Qed.

(** The handlers fail without changing the block. *)
Lemma recv_dispatch_error seg t t' p e :
  recv_dispatch seg t = Ret (t', p, Some e) -> t' = t.
Proof.
  unfold recv_dispatch, rcvListen, rcvSynSent, rcvSynRcvd, rcvEstablished, rcvFinWait1,
    rcvFinWait2. intros H.
  destruct (state t); tcb_case; by simplify_eq.
Qed.

Lemma recv_dispatch_panic seg t :
  recv_dispatch seg t = Panic <-> IsClosed (state t) = true.
Proof. unfold recv_dispatch. destruct (state t); done. Qed.

Inductive recv_result (seg : Segment) (t : ControlBlock)
    : outcome (ControlBlock * option error) -> Prop :=
| recv_refused t' e : refusal seg t t' e -> recv_result seg t (Ret (t', Some e))
| recv_syn_challenge :
    incoming_reject seg t = None -> HasAny (Flags seg) FlagRST = false ->
    HasAny (Flags seg) FlagSYN = true -> IsPreestablished (state t) = false ->
    recv_result seg t (Ret (or_pending0 FlagACK (triggerChallengeAckEmit t), Some errDropSegment))
| recv_handler_error p e :
    incoming_reject seg t = None -> HasAny (Flags seg) FlagRST = false ->
    recv_dispatch seg t = Ret (t, p, Some e) -> recv_result seg t (Ret (t, Some e))
| recv_accepted t1 p :
    validateIncomingSegment seg t = (t, None) ->
    incoming_reject seg t = None -> HasAny (Flags seg) FlagRST = false ->
    (HasAny (Flags seg) FlagSYN = true -> IsPreestablished (state t) = true) ->
    recv_dispatch seg t = Ret (t1, p, None) ->
    recv_result seg t (Ret (recv_accept seg p t1, None))
| recv_panics :
    validateIncomingSegment seg t = (t, None) ->
    HasAny (Flags seg) FlagSYN = false ->
    state t = StateTimeWait -> recv_result seg t Panic.

Lemma Recv_result seg t : recv_result seg t (Recv seg t).
Proof.
  unfold Recv. destruct (validateIncomingSegment seg t) as [tv oe] eqn:Hv.
  pose proof (validateIncoming_cases _ _ _ _ Hv) as Hc.
  destruct oe as [e|]; [by apply recv_refused|]. destruct Hc as (-> & Hr & Hf).
  destruct (HasAny (Flags seg) FlagSYN && negb (IsPreestablished (state t))) eqn:Hsyn.
  { bool_hyps. by apply recv_syn_challenge. }
  assert (HasAny (Flags seg) FlagSYN = true -> IsPreestablished (state t) = true) as Hpre.
  { intros E. rewrite E in Hsyn. cbn in Hsyn. by bool_hyps. }
  destruct (recv_dispatch seg t) as [[[t1 p] [e|]]|] eqn:Hd; cbn.
  - pose proof (recv_dispatch_error _ _ _ _ _ Hd) as ->. by eapply recv_handler_error.
  - by eapply recv_accepted.
  - apply recv_dispatch_panic in Hd. apply recv_panics; [done| |].
    + destruct (HasAny (Flags seg) FlagSYN); [|done].
      destruct (state t); try done; by specialize (Hpre eq_refl).
    + unfold incoming_reject in Hr. destruct (state t); try done.
      cbn in Hr. tcb_case; simplify_eq.
Qed.

End ControlBlockProps.

(** ** Machine widths of the control block

    Every field of [ControlBlock] stays within the width of its Go type under
    [Recv] and [Send]. *)
Module ControlBlockWf.
Import SeqNum Segment ControlBlock ControlBlockProps.

(** ** Width invariant *)

Definition snd_wf (s : sendSpace) : Prop :=
  is_u32 (snd_ISS s) /\ is_u32 (snd_UNA s) /\ is_u32 (snd_NXT s) /\ is_u32 (snd_WND s) /\
  is_u32 (snd_MSS s) /\ is_u32 (snd_WL1 s) /\ is_u32 (snd_WL2 s).
Definition rcv_wf (r : recvSpace) : Prop :=
  is_u32 (rcv_IRS r) /\ is_u32 (rcv_NXT r) /\ is_u32 (rcv_WND r).
Definition tcb_wf (t : ControlBlock) : Prop :=
  snd_wf (snd t) /\ rcv_wf (rcv t) /\ is_u32 (rstPtr t) /\ is_u16 (pending0 t) /\
  is_u16 (pending1 t) /\ is_i8 (challengeAcks t) /\ is_u8 (dupack t) /\ is_u8 (nRetransmit t).

(** ** Width preservation *)

Create HintDb width.
Lemma u32_width x : is_u32 (u32 x).
Proof. wrap_lia. Qed.
Lemma u8_width x : is_u8 (u8 x).
Proof. wrap_lia. Qed.
Lemma i8_width x : is_i8 (i8 x).
Proof. wrap_lia. Qed.
Lemma lxor_u32 a b : is_u32 a -> is_u32 b -> is_u32 (Z.lxor a b).
Proof.
  unfold is_u32. intros [Ha Ha'] [Hb Hb'].
  assert (0 <= Z.lxor a b) as H0 by (apply Z.lxor_nonneg; lia). split; [done|].
  rewrite Z.bounded_iff_bits_nonneg in * by lia. intros n Hn.
  by rewrite Z.lxor_spec, Ha', Hb'.
Qed.
Ltac closed_width :=
  match goal with
  | |- context [?v] => is_var v; fail 1
  | |- _ => split; vm_compute; congruence
  end.
#[export] Hint Resolve u32_width u8_width i8_width lxor_u32 land_u16 lor_u16 ldiff_u16 : width.
#[export] Hint Extern 2 (is_u32 _) => solve [closed_width] : width.
#[export] Hint Extern 2 (is_u16 _) => solve [closed_width] : width.
#[export] Hint Extern 2 (is_u8 _) => solve [closed_width] : width.
#[export] Hint Extern 2 (is_i8 _) => solve [closed_width] : width.

Ltac destruct_wf H :=
  destruct H as ((?&?&?&?&?&?&?)&(?&?&?)&?&?&?&?&?&?).
Ltac width := unfold tcb_wf, snd_wf, rcv_wf; split_and?; cbn; try assumption; eauto 6 with width.

Lemma zero_tcb_wf : tcb_wf zero_tcb.
Proof. width. Qed.

Lemma triggerEmit_wf t : tcb_wf t -> tcb_wf (triggerChallengeAckEmit t).
Proof. intros H. unfold triggerChallengeAckEmit. tcb_case; [|done]. destruct_wf H. width. Qed.

Lemma or_pending0_wf f t : is_u16 f -> tcb_wf t -> tcb_wf (or_pending0 f t).
Proof. intros Hf H. destruct_wf H. width. Qed.

Lemma refusal_wf seg t t' e : seg_wf seg -> tcb_wf t -> refusal seg t t' e -> tcb_wf t'.
Proof.
  intros (?&?&?&?&?) Ht Hr. destruct Hr; auto using zero_tcb_wf, triggerEmit_wf.
  - destruct_wf Ht. unfold back_to_listen, handleRST. width.
  - apply or_pending0_wf, triggerEmit_wf; [|done]. width.
  - apply or_pending0_wf; [|done]. width.
  - destruct_wf Ht. width.
Qed.

Lemma recv_dispatch_wf seg t t' p oe :
  seg_wf seg -> tcb_wf t -> recv_dispatch seg t = Ret (t', p, oe) -> tcb_wf t' /\ is_u16 p.
Proof.
  intros Hseg Ht Hd. destruct Hseg as (?&?&?&?&?). destruct_wf Ht.
  unfold recv_dispatch, rcvListen, rcvSynSent, rcvSynRcvd, rcvEstablished, rcvFinWait1,
    rcvFinWait2 in Hd.
  destruct (state t); tcb_case; simplify_eq; split; try apply zero_tcb_wf; width.
Qed.

Lemma recv_accept_wf seg p t :
  seg_wf seg -> is_u16 p -> tcb_wf t -> tcb_wf (recv_accept seg p t).
Proof.
  intros (?&?&?&?&?) Hp Ht. destruct_wf Ht.
  unfold recv_accept, recv_ack, recv_window. tcb_case; width.
Qed.

Lemma Recv_wf seg t t' oe :
  seg_wf seg -> tcb_wf t -> Recv seg t = Ret (t', oe) -> tcb_wf t'.
Proof.
  intros Hs Ht H. pose proof (Recv_result seg t) as Hr. rewrite H in Hr.
  inversion Hr; subst; eauto using refusal_wf.
  - apply or_pending0_wf, triggerEmit_wf; [|done]. width.
  - edestruct recv_dispatch_wf as [? ?]; eauto using recv_accept_wf.
Qed.

Lemma Send_wf seg t t' oe :
  seg_wf seg -> tcb_wf t -> Send seg t = (t', oe) -> tcb_wf t'.
Proof.
  intros Hseg Ht HS. destruct Hseg as (?&?&?&?&?). destruct_wf Ht. unfold Send in HS.
  destruct (validateOutgoingSegment seg t); simplify_eq; [by width|].
  unfold send_account, send_pending, send_dispatch, triggerChallengeAckSent.
  destruct (state t); tcb_case; width.
Qed.

End ControlBlockWf.

(** ** Invariants of the control block

    [tcb_wf]: every field stays within its machine width. [tcb_inv]: the send
    sequence space never exceeds the window the peer granted plus the two
    control octets, the duplicate-ACK and retransmission counters never wrap,
    the second pending slot is never used. Both hold in every state reachable
    through the operations the rest of the stack performs ([tcb_step]). *)
Module ControlBlockInv.
Import SeqNum Segment ControlBlock ControlBlockProps ControlBlockWf.

(** ** Definitions *)

(** Octets of sequence space that control flags may still consume. *)
Definition fin_budget (t : ControlBlock) : Z :=
  match state t with
  | StateSynRcvd | StateEstablished | StateCloseWait => 1
  | _ => Z.b2z (HasAny (pending0 t) FlagFIN)
  end.
Definition syn_budget (t : ControlBlock) : Z := Z.b2z (HasAny (pending0 t) FlagSYN).

Record tcb_inv (t : ControlBlock) : Prop := {
  inv_wf : tcb_wf t;
  inv_snd_wnd : snd_WND (snd t) <= maxWindow;
  inv_rcv_wnd : rcv_WND (rcv t) <= maxWindow;
  inv_flight : state t <> StateClosed ->
    inFlight (snd t) + syn_budget t + fin_budget t <= maxWindow + 2;
  inv_pre_flight : IsPreestablished (state t) = true ->
    inFlight (snd t) + syn_budget t <= 1 /\ dupack t = 0;
  inv_listen : state t = StateListen ->
    snd_UNA (snd t) = snd_ISS (snd t) /\ snd_NXT (snd t) = snd_ISS (snd t) /\
    HasAny (pending0 t) FlagSYN = false /\ HasAny (pending0 t) FlagFIN = false;
  inv_syn_sent : state t = StateSynSent ->
    snd_UNA (snd t) = snd_ISS (snd t) /\ HasAny (pending0 t) FlagFIN = false;
  inv_pending1 : pending1 t = 0;
  inv_dup : 0 < dupack t -> 0 < inFlight (snd t);
  inv_counters : nRetransmit t <= 250 /\ dupack t <= 254;
  inv_closed : state t = StateClosed -> challengeAcks t = 0 /\ dupack t = 0
}.

(** What the Handler changes in a pending segment before sending it: the data
    actually available, the PSH flag, the advertised window. *)
Record trimmed (seg seg' : Segment) : Prop := {
  trim_seq : SEQ seg' = SEQ seg;
  trim_ack : ACK seg' = ACK seg;
  trim_len : 0 <= DATALEN seg' <= DATALEN seg;
  trim_flags : Flags seg' = Flags seg \/ Flags seg' = Z.lor (Flags seg) FlagPSH;
  trim_wnd : is_u32 (WND seg')
}.

Inductive tcb_step : ControlBlock -> ControlBlock -> Prop :=
| step_open iss wnd t t' :
    is_u32 iss -> is_u32 wnd -> Open iss wnd t = (t', None) -> tcb_step t t'
| step_connect iss wnd t t' :
    is_u32 iss -> is_u32 wnd -> state t = StateClosed ->
    Send (ClientSynSegment iss wnd) t = (t', None) -> tcb_step t t'
| step_requeue_syn wnd t t' :
    is_u32 wnd -> state t = StateSynSent ->
    Send (ClientSynSegment (snd_ISS (snd t)) wnd) t = (t', None) -> tcb_step t t'
| step_requeue_synack wnd t t' :
    is_u32 wnd -> state t = StateSynRcvd ->
    Send {| SEQ := snd_UNA (snd t); ACK := rcv_NXT (rcv t); WND := wnd; Flags := synack;
            DATALEN := 0 |} t = (t', None) -> tcb_step t t'
| step_send n seg seg' t t' :
    state t <> StateClosed -> 0 <= n < 2 ^ 31 -> PendingSegment n t = Ret (Some seg) -> trimmed seg seg' ->
    Send seg' t = (t', None) -> tcb_step t t'
| step_recv seg t t' oe :
    seg_wf seg -> dist (ACK seg) (snd_NXT (snd t)) <> 2 ^ 31 ->
    Recv seg t = Ret (t', oe) -> tcb_step t t'
| step_close t t' oe : Close t = (t', oe) -> tcb_step t t'
| step_abort t : tcb_step t (Abort t)
| step_window wnd t : 0 <= wnd <= maxWindow -> tcb_step t (SetRecvWindow wnd t)
| step_retransmit v t t' b :
    is_u32 v -> RetransmitFrom v t = (t', b) -> tcb_step t t'
| step_queue_rst seq t : is_u32 seq -> tcb_step t (QueueRST seq t)
| step_mss mss t : is_u16 mss -> tcb_step t (with_snd (snd_with_MSS mss (snd t)) t)
| step_deliver n t : is_u32 n ->
    tcb_step t (or_pending0 FlagACK
      (with_rcv (rcv_with_NXT (UpdateForward (rcv_NXT (rcv t)) n) (rcv t)) t))
| step_queue_ack t : tcb_step t (or_pending0 FlagACK t).

(** ** The sequence space after an acknowledgement *)

Lemma ack_shrinks_flight una ack nxt :
  is_u32 ack -> is_u32 nxt -> dist una nxt < 2 ^ 31 -> dist ack nxt <> 2 ^ 31 ->
  LessThan una ack = true -> LessThanEq ack nxt = true ->
  dist una nxt = dist una ack + dist ack nxt.
Proof.
  intros Ha Hn Hd Hanti. rewrite LessThan_dist, LessThanEq_dist by done. intros H1 H2.
  bool_hyps. apply dist_trans. lia.
Qed.

(** What an accepted segment does to the send space. *)
Lemma recv_accept_snd seg p t :
  let t' := recv_accept seg p t in
  snd_ISS (snd t') = snd_ISS (snd t) /\ snd_NXT (snd t') = snd_NXT (snd t) /\
  (snd_WND (snd t') = snd_WND (snd t) \/ snd_WND (snd t') = WND seg) /\
  ((snd_UNA (snd t') = snd_UNA (snd t) /\ nRetransmit t' = nRetransmit t /\
    (dupack t' = dupack t \/
     (IncomingIsDupACK t (ACK seg) = true /\ TxDataOpen (state t) = true /\
      dupack t < u8 (u8 (nRetransmit t + 2) + 2) /\ dupack t' = u8 (dupack t + 1)))) \/
   (snd_UNA (snd t') = ACK seg /\ HasAny (Flags seg) FlagACK = true /\
    LessThan (snd_UNA (snd t)) (ACK seg) = true /\
    LessThanEq (ACK seg) (snd_NXT (snd t)) = true /\
    dupack t' = 0 /\ nRetransmit t' = 0)).
Proof.
  unfold recv_accept, recv_ack, recv_window, IncomingIsDupACK. cbn.
  tcb_case; cbn in *; bool_hyps; repeat split; auto.
  all: try (right; repeat split; done).
  all: try (left; repeat split; auto; right; repeat split; auto;
            rewrite andb_true_iff, Z.eqb_eq; done).
  all: left; repeat split; auto.
Qed.

Lemma recv_accept_rest seg p t :
  let t' := recv_accept seg p t in
  state t' = state t /\ pending0 t' = Z.lor (pending0 t) p /\ pending1 t' = pending1 t /\
  challengeAcks t' = 0 /\ rcv_WND (rcv t') = rcv_WND (rcv t) /\
  rcv_IRS (rcv t') = rcv_IRS (rcv t) /\
  rcv_NXT (rcv t') = UpdateForward (rcv_NXT (rcv t)) (LEN seg) /\ rstPtr t' = rstPtr t.
Proof.
  unfold recv_accept, recv_ack, recv_window. cbn. tcb_case; cbn; repeat split; done.
Qed.

Lemma incoming_reject_wnd seg t :
  incoming_reject seg t = None -> WND seg <= maxWindow.
Proof. unfold incoming_reject. intros H. tcb_case; simplify_eq. by bool_hyps. Qed.

(** ** Preservation by [Recv] *)

Lemma maxWindow_val : maxWindow = 1073725440.
Proof. done. Qed.
#[local] Opaque maxWindow.
Ltac mw := pose proof maxWindow_val.

(** Evaluate the flag tests on constants, then arithmetic. *)
Ltac eval_flags :=
  repeat match goal with
  | |- context [HasAny ?p ?q] =>
      let v := eval vm_compute in (HasAny p q) in
      lazymatch v with true => idtac | false => idtac end;
      change (HasAny p q) with v
  end; cbn [Z.b2z].

Lemma inFlight_u32 s : is_u32 (inFlight s).
Proof. apply dist_range. Qed.

Lemma b2z_bound b : 0 <= Z.b2z b <= 1.
Proof. by destruct b. Qed.

Lemma syn_budget_bound t : 0 <= syn_budget t <= 1.
Proof. apply b2z_bound. Qed.
Lemma fin_budget_bound t : 0 <= fin_budget t <= 1.
Proof. unfold fin_budget. destruct (state t); try apply b2z_bound; lia. Qed.

Lemma zero_tcb_inv : tcb_inv zero_tcb.
Proof. mw. constructor; try apply zero_tcb_wf; cbn; try done; lia. Qed.

(** Operations that leave the send space, the state and the SYN/FIN bits alone. *)
Lemma inv_frame t t' :
  tcb_inv t -> tcb_wf t' -> snd t' = snd t -> state t' = state t ->
  rcv_WND (rcv t') = rcv_WND (rcv t) -> pending1 t' = 0 ->
  HasAny (pending0 t') FlagSYN = HasAny (pending0 t) FlagSYN ->
  HasAny (pending0 t') FlagFIN = HasAny (pending0 t) FlagFIN ->
  dupack t' = dupack t -> nRetransmit t' = nRetransmit t ->
  (state t = StateClosed -> challengeAcks t' = 0) -> tcb_inv t'.
Proof.
  intros Hi Hwf Es Est Ew Ep1 Hsyn Hfin Ed En Hc. destruct Hi.
  assert (syn_budget t' = syn_budget t) as Eb by (unfold syn_budget; by rewrite Hsyn).
  assert (fin_budget t' = fin_budget t) as Ef by (unfold fin_budget; by rewrite Est, Hfin).
  constructor; rewrite ?Es, ?Est, ?Ew, ?Ed, ?En, ?Eb, ?Ef, ?Hsyn, ?Hfin; auto.
  intros Hst. split; [auto|]. by apply inv_closed0.
Qed.

Lemma or_ack_inv t : tcb_inv t -> tcb_inv (or_pending0 FlagACK t).
Proof.
  intros Hi. eapply inv_frame; eauto; cbn; try apply Hi;
    rewrite ?HasAny_lor, ?orb_false_r; try done.
  apply or_pending0_wf; [closed_width|apply Hi].
Qed.

Lemma triggerEmit_inv t :
  state t <> StateClosed -> tcb_inv t -> tcb_inv (triggerChallengeAckEmit t).
Proof.
  intros Hs Hi. unfold triggerChallengeAckEmit. tcb_case; [|done].
  eapply inv_frame; eauto; cbn; try apply Hi; try done.
  pose proof (triggerEmit_wf t (inv_wf _ Hi)) as Hwf. unfold triggerChallengeAckEmit in Hwf.
  by rewrite Heqb in Hwf.
Qed.

Lemma back_to_listen_eq t :
  back_to_listen t =
  with_rcv (mkRecvSpace (Z.lxor 3141592653 (rcv_IRS (rcv t)))
              (Z.lxor 3141592653 (rcv_IRS (rcv t))) (rcv_WND (rcv t)))
    (with_snd (mkSendSpace (u32 (snd_ISS (snd t) + 100)) (u32 (snd_ISS (snd t) + 100))
                 (u32 (snd_ISS (snd t) + 100)) (snd_WND (snd t)) 0 0 0)
       (with_state StateListen (with_pending 0 (pending1 t) t))).
Proof. done. Qed.

Lemma refusal_inv seg t t' e : seg_wf seg -> tcb_inv t -> refusal seg t t' e -> tcb_inv t'.
Proof.
  intros Hs Hi Hr. pose proof (refusal_wf _ _ _ _ Hs (inv_wf _ Hi) Hr) as Hwf.
  mw. destruct Hr as [| |? Hrej| |Hrej|Hrej ? Hst|Hrej ? Hst|Hrej Hst|Hrej Hpre];
    auto using zero_tcb_inv, triggerEmit_inv, or_ack_inv.
  - destruct Hi. assert (IsPreestablished (state t) = true) as Hp by (by rewrite Hst).
    destruct (inv_pre_flight0 Hp) as [_ Hd].
    rewrite back_to_listen_eq in *.
    constructor; cbn; auto; try done; unfold inFlight, syn_budget, fin_budget; cbn;
      rewrite ?dist_self; eval_flags; lia.
  - apply or_ack_inv, triggerEmit_inv; [|done]. by apply incoming_reject_not_closed in Hrej.
  - destruct Hi. destruct (inv_pre_flight0 Hpre) as [_ Hd].
    pose proof (incoming_reject_wnd _ _ Hrej).
    constructor; cbn; auto; unfold inFlight, syn_budget, fin_budget; cbn;
      rewrite ?dist_self; eval_flags; try done; try lia.
    destruct (state t); cbn; lia.
Qed.

(** A LISTEN socket accepts no segment that carries an acknowledgement. *)
Lemma listen_no_ack seg t :
  seg_wf seg -> tcb_inv t -> state t = StateListen ->
  dist (ACK seg) (snd_NXT (snd t)) <> 2 ^ 31 ->
  validateIncomingSegment seg t = (t, None) -> HasAny (Flags seg) FlagACK = false.
Proof.
  intros (_&Ha&_) Hi Hst Hanti Hv. destruct (HasAny (Flags seg) FlagACK) eqn:Hf; [|done].
  destruct (inv_listen _ Hi Hst) as (Hu & Hn & _).
  assert (is_u32 (snd_NXT (snd t))) as HN by (apply (inv_wf _ Hi)).
  pose proof (validateIncoming_cases _ _ _ _ Hv) as (_ & Hr & Hrst).
  unfold validateIncomingSegment in Hv. rewrite Hr, Hrst, Hst, HasAll_ACK, Hf in Hv.
  cbn in Hv. rewrite Hu, <- Hn, LessThan_dist, LessThanEq_dist in Hv by done.
  pose proof (dist_range (ACK seg) (snd_NXT (snd t))).
  pose proof (dist_range (snd_NXT (snd t)) (ACK seg)).
  assert (dist (ACK seg) (snd_NXT (snd t)) + dist (snd_NXT (snd t)) (ACK seg) = 2 ^ 32 \/
          dist (snd_NXT (snd t)) (ACK seg) = 0) by (unfold dist in *; wrap_lia).
  unfold_widths. tcb_case; simplify_eq.
  bool_hyps. lia.
Qed.

(** The handlers keep the invariant once their pending flags are queued. *)
Lemma recv_dispatch_inv seg t t1 p :
  seg_wf seg -> tcb_inv t -> WND seg <= maxWindow ->
  recv_dispatch seg t = Ret (t1, p, None) ->
  tcb_inv (or_pending0 p t1) /\ state t1 <> StateListen /\ state t1 <> StateSynSent.
Proof.
  intros Hs Hi Hw Hd. mw.
  destruct (recv_dispatch_wf _ _ _ _ _ Hs (inv_wf _ Hi) Hd) as [Hwf1 Hp].
  pose proof (or_pending0_wf p t1 Hp Hwf1) as Hwf.
  pose proof (syn_budget_bound t). pose proof (fin_budget_bound t).
  pose proof (inFlight_u32 (snd t)) as Hfl. unfold is_u32 in Hfl.
  destruct Hi. unfold recv_dispatch, rcvListen, rcvSynSent, rcvSynRcvd, rcvEstablished,
    rcvFinWait1, rcvFinWait2 in Hd.
  destruct (state t) eqn:Hst; cbn in inv_pre_flight0;
    try destruct (inv_pre_flight0 eq_refl) as [Hpf Hdup];
    tcb_case; simplify_eq; cbn in *.
  all: try (split; [|split; rewrite ?Hst; done]).
  all: try (split; [|split; done]).
  all: unfold syn_budget, fin_budget in *; rewrite ?Hst in *.
  all: try (constructor; cbn; auto; unfold syn_budget, fin_budget, inFlight in *; cbn; rewrite ?Hst;
       rewrite ?HasAny_lor, ?dist_self; eval_flags;
       rewrite ?orb_false_r, ?orb_true_r; cbn [Z.b2z]; try done;
       try (specialize (inv_flight0 ltac:(done))); try lia; auto; fail).
Qed.

Lemma recv_accept_inv seg p t :
  seg_wf seg -> is_u16 p -> tcb_inv (or_pending0 p t) -> WND seg <= maxWindow ->
  tcb_wf t -> state t <> StateListen -> state t <> StateSynSent ->
  (HasAny (Flags seg) FlagACK = true -> state t <> StateClosed ->
   dist (ACK seg) (snd_NXT (snd t)) <> 2 ^ 31) ->
  tcb_inv (recv_accept seg p t).
Proof.
  intros Hs Hp Hi Hw Hwf Hnl Hns Hanti. mw.
  pose proof (recv_accept_wf seg p t Hs Hp Hwf) as Hwf'.
  pose proof (recv_accept_snd seg p t) as (_ & En & Ew & Ed).
  pose proof (recv_accept_rest seg p t) as (Est & Ep & Ep1 & Ec & Erw & _).
  set (t' := recv_accept seg p t) in *. clearbody t'. destruct Hi. cbn in *.
  assert (syn_budget t' = syn_budget (or_pending0 p t)) as Eb.
  { unfold syn_budget. by rewrite Ep. }
  assert (fin_budget t' = fin_budget (or_pending0 p t)) as Ef.
  { unfold fin_budget. by rewrite Est, Ep. }
  pose proof (syn_budget_bound (or_pending0 p t)).
  pose proof (fin_budget_bound (or_pending0 p t)).
  assert (state t <> StateClosed ->
          inFlight (snd t') <= inFlight (snd t) /\ (0 < dupack t' -> 0 < inFlight (snd t')))
    as Hshrink.
  { intros Hc. specialize (inv_flight0 Hc). unfold inFlight in *. rewrite En.
    destruct Ed as [(-> & _ & Ed)|(-> & Hack & Hl & Hle & -> & _)].
    - split; [lia|]. destruct Ed as [->|(Hdup & _)]; [done|]. intros _.
      unfold IncomingIsDupACK in Hdup. apply andb_true_iff in Hdup as [Heq Hlt].
      apply Z.eqb_eq in Heq. rewrite Heq, LessThan_dist in Hlt. bool_hyps. lia.
    - pose proof (ack_shrinks_flight (snd_UNA (snd t)) (ACK seg) (snd_NXT (snd t))) as Hsh.
      rewrite LessThan_dist in Hl.
      rewrite Hsh; try apply Hs; try apply Hwf; auto; try (rewrite LessThan_dist; done); [|lia].
      pose proof (dist_range (snd_UNA (snd t)) (ACK seg)). unfold is_u32 in *. split; lia. }
  constructor; rewrite ?Eb, ?Ef, ?Est, ?Ep1, ?Erw; auto.
  - destruct Ew as [-> | ->]; done.
  - intros Hc. specialize (inv_flight0 Hc). destruct (Hshrink Hc). lia.
  - intros Hpre. destruct (inv_pre_flight0 Hpre) as [Hf Hd].
    assert (state t <> StateClosed) as Hc by (by intros E; rewrite E in Hpre).
    destruct (Hshrink Hc). split; [lia|].
    destruct Ed as [(_ & _ & [->|(_ & Htx & _)])|(_&_&_&_&->&_)]; try done.
    by destruct (state t).
  - done.
  - done.
  - intros Hd. destruct (decide (state t = StateClosed)) as [Hc|Hc]; [|by apply Hshrink].
    destruct (inv_closed0 Hc) as [_ Hd0].
    destruct Ed as [(_ & _ & [E|(_ & Htx & _)])|(_&_&_&_&E&_)]; [lia| |lia].
    by rewrite Hc in Htx.
  - destruct Ed as [(_ & -> & [->|(_ & _ & Hlt & ->)])|(_&_&_&_&->&->)]; [done| |lia].
    split; [lia|]. unfold u8 in *. pose proof inv_counters0.
    destruct Hwf as (_&_&_&_&_&_&Hu8&Hn8). unfold is_u8 in *.
    rewrite !Z.mod_small in * by (rewrite ?Z.mod_small; lia). lia.
  - intros Hc. split; [done|]. destruct (inv_closed0 Hc) as [_ Hd0].
    destruct Ed as [(_ & _ & [->|(_ & Htx & _)])|(_&_&_&_&->&_)]; try done.
    by rewrite Hc in Htx.
Qed.

Lemma Recv_inv seg t t' oe :
  seg_wf seg -> tcb_inv t -> dist (ACK seg) (snd_NXT (snd t)) <> 2 ^ 31 ->
  Recv seg t = Ret (t', oe) -> tcb_inv t'.
Proof.
  intros Hs Hi Hanti H. pose proof (Recv_result seg t) as Hr. rewrite H in Hr.
  inversion Hr as [? ? Href|Hrej|? ? Hrej|t1 p Hv Hrej Hrst Hsyn Hd|]; subst;
    eauto using refusal_inv.
  - apply or_ack_inv, triggerEmit_inv; [|done]. by eapply incoming_reject_not_closed.
  - pose proof (incoming_reject_wnd _ _ Hrej) as Hw.
    destruct (recv_dispatch_inv _ _ _ _ Hs Hi Hw Hd) as (Hi1 & Hnl & Hns).
    destruct (recv_dispatch_wf _ _ _ _ _ Hs (inv_wf _ Hi) Hd) as [Hwf1 Hp].
    apply recv_accept_inv; auto. intros Hack Hnc.
    assert (snd t1 = snd t \/ state t = StateListen \/ state t1 = StateClosed \/
            HasAny (Flags seg) FlagACK = false) as [E|[E|[E|E]]].
    { unfold recv_dispatch, rcvListen, rcvSynSent, rcvSynRcvd, rcvEstablished, rcvFinWait1,
        rcvFinWait2 in Hd. destruct (state t); tcb_case; simplify_eq; auto. }
    + by rewrite E.
    + by rewrite (listen_no_ack seg t) in Hack.
    + done.
    + congruence.
Qed.

End ControlBlockInv.
