(* ===== verification/ControlBlockSend.v ===== *)
(** * The sending half of the control block

    What [PendingSegment] may produce, that [Send] accepts it, and that
    [Send] keeps the invariant; then the invariant over all operations. *)
From S2P Require Import Prelude Errors SeqNum Segment ControlBlock ControlBlockInv.
From S2P Require Import ControlBlockInv.

Module ControlBlockSend.
Import SeqNum Segment ControlBlock ControlBlockProps ControlBlockWf ControlBlockInv.

(** ** The segments PendingSegment produces *)

Definition pending_flags (t : ControlBlock) : Z :=
  if txQueuedDataOpen (state t) then Z.lor (pending0 t) FlagACK else pending0 t.

Definition normal_segment (len : Z) (t : ControlBlock) : Segment :=
  {| SEQ := if HasAny (pending_flags t) FlagRST then rstPtr t else snd_NXT (snd t);
     ACK := if HasAny (pending_flags t) FlagACK then rcv_NXT (rcv t) else 0;
     WND := rcv_WND (rcv t); Flags := pending_flags t; DATALEN := len |}.

Definition retransmit_segment (n : Z) (t : ControlBlock) : Segment :=
  {| SEQ := snd_UNA (snd t); DATALEN := u32 n; ACK := rcv_NXT (rcv t);
     WND := rcv_WND (rcv t); Flags := FlagACK |}.

Inductive pending_kind (n : Z) (t : ControlBlock) : Segment -> Prop :=
| pk_challenge : pendingChallengeAck t = true -> pending_kind n t (MakeChallengeACK t)
| pk_retransmit : pendingChallengeAck t = false -> HasPendingRetransmit t = true ->
    HasAny (pending0 t) flagctl = false -> pending_kind n t (retransmit_segment n t)
| pk_normal len : pendingChallengeAck t = false ->
    0 <= len <= n -> len <= maxSend (snd t) ->
    (0 < snd_MSS (snd t) -> len <= snd_MSS (snd t)) ->
    (0 < len -> txQueuedDataOpen (state t) = true) ->
    (pending0 t = 0 -> 0 < n /\ txQueuedDataOpen (state t) = true) ->
    pending_kind n t (normal_segment len t).

Lemma maxSend_bounds s :
  is_u32 (snd_WND s) -> maxSend s = Z.max 0 (snd_WND s - inFlight s).
Proof.
  intros. unfold maxSend. pose proof (inFlight_u32 s). unfold_widths.
  bool_cases; [lia|]. rewrite Z.mod_small; lia.
Qed.

Lemma normal_kind n t len :
  0 <= n < 2 ^ 32 -> 0 <= snd_MSS (snd t) -> pendingChallengeAck t = false ->
  0 <= len <= n -> len <= maxSend (snd t) ->
  (pending0 t = 0 -> 0 < n /\ txQueuedDataOpen (state t) = true) ->
  let len' := if (0 <? snd_MSS (snd t)) && (snd_MSS (snd t) <? len)
              then snd_MSS (snd t) else len in
  let len' := if txQueuedDataOpen (state t) then len' else 0 in
  pending_kind n t (normal_segment (u32 len') t).
Proof.
  intros Hn Hm Hc Hl1 Hl2 Hp. cbv zeta. unfold u32.
  destruct ((0 <? snd_MSS (snd t)) && (snd_MSS (snd t) <? len)) eqn:E;
    destruct (txQueuedDataOpen (state t)) eqn:Ht; bool_hyps;
    rewrite Z.mod_small by lia; apply pk_normal; auto; try lia;
    try (intros; rewrite Ht; split; [apply Hp|]; done).
Qed.

Lemma PendingSegment_kind n t r :
  tcb_wf t -> 0 <= n < 2 ^ 32 -> PendingSegment n t = r ->
  match r with
  | Ret (Some seg) => pending_kind n t seg
  | Ret None => True
  | Panic => False
  end.
Proof.
  intros Hwf Hn H.
  assert (is_u32 (snd_WND (snd t))) as HW by apply Hwf.
  assert (0 <= snd_MSS (snd t)) as HM by apply Hwf.
  pose proof (maxSend_bounds (snd t) HW) as Hm. pose proof (inFlight_u32 (snd t)).
  unfold PendingSegment in H. unfold is_u32 in *.
  destruct (pendingChallengeAck t) eqn:Hc; [subst; by constructor|].
  destruct (negb (HasAny (pending0 t) flagctl) && HasPendingRetransmit t) eqn:Hrt.
  { bool_hyps. subst. by apply pk_retransmit. }
  pose proof (normal_kind n t) as Hgo. unfold normal_segment, pending_flags in Hgo.
  destruct (txQueuedDataOpen (state t)) eqn:Ht; cbn [negb] in H.
  - destruct ((pending0 t =? 0) && (n =? 0)) eqn:E0; [by subst|].
    assert (pending0 t = 0 -> 0 < n /\ true = true) as Hp.
    { apply andb_false_iff in E0 as [E0|E0]; bool_hyps; lia. }
    destruct (maxSend (snd t) <? n) eqn:E1; bool_hyps.
    + destruct ((maxSend (snd t) =? 0) && (pending0 t =? 0)); [by subst|].
      destruct (snd_WND (snd t) <? maxSend (snd t)) eqn:E2; bool_hyps; [lia|].
      subst. apply Hgo; auto; lia.
    + subst. apply Hgo; auto; lia.
  - destruct (pending0 t =? 0) eqn:E0; [by subst|]. cbn in H. bool_hyps.
    destruct (maxSend (snd t) <? 0) eqn:E1; bool_hyps; [lia|].
    subst. apply (Hgo 0); auto; try lia.
Qed.

(** ** The effect of [Send] outside CLOSED *)

Definition send_state (seg : Segment) (s : State) : State :=
  match s with
  | StateSynRcvd | StateEstablished =>
      if HasAny (Flags seg) FlagFIN then StateFinWait1 else s
  | StateClosing => if HasAny (Flags seg) FlagACK then StateTimeWait else s
  | StateCloseWait => if HasAny (Flags seg) FlagFIN then StateLastAck else s
  | _ => s
  end.

Lemma send_dispatch_eq seg t :
  state t <> StateClosed -> send_dispatch seg t = with_state (send_state seg (state t)) t.
Proof.
  intros Hs. unfold send_dispatch, send_state. destruct t as [? ? ? ? ? st]; cbn in *.
  destruct st; try done; tcb_case; done.
Qed.

Lemma send_pending_eq seg t :
  pending1 t = 0 -> send_pending seg t = with_pending (Z.ldiff (pending0 t) (Flags seg)) 0 t.
Proof.
  intros Hp. unfold send_pending. rewrite Hp, Z.ldiff_0_l. tcb_case; bool_hyps; congruence.
Qed.

Lemma Send_effect seg t t' :
  state t <> StateClosed -> pending1 t = 0 -> Send seg t = (t', None) ->
  validateOutgoingSegment seg t = None /\
  state t' = send_state seg (state t) /\
  pending0 t' = Z.ldiff (pending0 t) (Flags seg) /\ pending1 t' = 0 /\
  snd t' = (if LessThan (SEQ seg) (snd_NXT (snd t)) then snd t
            else snd_with_NXT (UpdateForward (snd_NXT (snd t)) (LEN seg)) (snd t)) /\
  rcv t' = rcv_with_WND (WND seg) (rcv t) /\ rstPtr t' = rstPtr t /\
  dupack t' = dupack t /\
  (nRetransmit t' = nRetransmit t \/
   (nRetransmit t < 250 /\ nRetransmit t' = u8 (nRetransmit t + 1))) /\
  challengeAcks t' = (if pendingChallengeAck t && HasAny (Flags seg) FlagACK
                      then i8 (- challengeAcks t) else challengeAcks t).
Proof.
  intros Hs Hp1 H. unfold Send in H.
  destruct (validateOutgoingSegment seg t); [done|].
  rewrite send_dispatch_eq, send_pending_eq in H by done.
  unfold send_account, triggerChallengeAckSent, pendingChallengeAck in *. cbn in H.
  tcb_case; simplify_eq; cbn in *; bool_hyps; repeat split; auto.
  all: try congruence. all: try lia.
Qed.

Lemma validateOutgoing_wnd seg t :
  validateOutgoingSegment seg t = None -> WND seg <= maxWindow.
Proof. unfold validateOutgoingSegment. intros H. tcb_case; simplify_eq; by bool_hyps. Qed.

(** ** Preservation of the invariant by [Send] *)

Lemma maxWindow_val' : maxWindow = 1073725440.
Proof. done. Qed.
#[local] Opaque maxWindow.

Definition flag_le (f g m : Z) : Prop := HasAny f m = true -> HasAny g m = true.

Definition flag_z (f m : Z) : Z := Z.b2z (HasAny f m).

Lemma flag_z_bound f m : 0 <= flag_z f m <= 1.
Proof. apply b2z_bound. Qed.

(** The control octets a sent segment consumes come out of the budget. *)
Lemma Send_budget seg t t' :
  state t' = send_state seg (state t) ->
  pending0 t' = Z.ldiff (pending0 t) (Flags seg) ->
  flag_le (Flags seg) (pending0 t) FlagFIN -> flag_le (Flags seg) (pending0 t) FlagSYN ->
  flag_z (Flags seg) FlagSYN + syn_budget t' = syn_budget t /\
  flag_z (Flags seg) FlagFIN + fin_budget t' <= fin_budget t.
Proof.
  intros Est Ep HF HS. unfold flag_le, flag_z, syn_budget, fin_budget, send_state in *.
  rewrite Est, Ep, HasAny_ldiff_SYN, HasAny_ldiff_FIN. split.
  - destruct (HasAny (Flags seg) FlagSYN), (HasAny (pending0 t) FlagSYN); cbn; try done.
    by specialize (HS eq_refl).
  - destruct (state t), (HasAny (Flags seg) FlagFIN), (HasAny (Flags seg) FlagACK),
      (HasAny (pending0 t) FlagFIN); cbn; try lia; by specialize (HF eq_refl).
Qed.

(** The octets [k] a sent segment adds to the sequence space in flight. *)
Lemma Send_flight seg t s' :
  is_u32 (DATALEN seg) -> is_u32 (snd_NXT (snd t)) ->
  inFlight (snd t) + 2 + Z.max 0 (snd_WND (snd t) - inFlight (snd t)) < 2 ^ 32 ->
  (LessThan (SEQ seg) (snd_NXT (snd t)) = true \/
   DATALEN seg <= Z.max 0 (snd_WND (snd t) - inFlight (snd t))) ->
  s' = (if LessThan (SEQ seg) (snd_NXT (snd t)) then snd t
        else snd_with_NXT (UpdateForward (snd_NXT (snd t)) (LEN seg)) (snd t)) ->
  exists k, inFlight s' = inFlight (snd t) + k /\ snd_NXT s' = Add (snd_NXT (snd t)) k /\
    (k = 0 \/ LessThan (SEQ seg) (snd_NXT (snd t)) = false /\
     k = DATALEN seg + flag_z (Flags seg) FlagFIN + flag_z (Flags seg) FlagSYN).
Proof.
  intros Hdl HN Hb Hd ->. pose proof (LEN_bits seg Hdl) as Hlen.
  pose proof (flag_z_bound (Flags seg) FlagFIN). pose proof (flag_z_bound (Flags seg) FlagSYN).
  pose proof (inFlight_u32 (snd t)). unfold flag_z, is_u32 in *.
  destruct (LessThan (SEQ seg) (snd_NXT (snd t))) eqn:El.
  - exists 0. split; [lia|]. split; [|by left]. unfold Add. wrap_lia.
  - destruct Hd as [?|Hd]; [done|].
    unfold u32 in Hlen. rewrite Z.mod_small in Hlen by lia.
    exists (LEN seg). unfold inFlight, UpdateForward in *. cbn. split; [|by split; auto].
    apply dist_Add_r; lia.
Qed.

Lemma send_state_inv seg s s' :
  send_state seg s = s' ->
  (IsPreestablished s' = true \/ s' = StateClosed -> s = s' /\
    (s = StateSynRcvd -> HasAny (Flags seg) FlagFIN = false)).
Proof.
  unfold send_state. intros <- [Hp|Hp]; destruct s; try done; tcb_case; done.
Qed.

(** In the handshake states a pending FIN exists only in SYN-RECEIVED. *)
Lemma preest_no_fin t f :
  tcb_inv t -> IsPreestablished (state t) = true -> flag_le f (pending0 t) FlagFIN ->
  flag_z f FlagFIN = 0 \/ state t = StateSynRcvd.
Proof.
  intros Hi Hp HF. unfold flag_z, flag_le in *. destruct (HasAny f FlagFIN); [|by left].
  specialize (HF eq_refl). destruct (state t) eqn:E; try done; [|by right|].
  - destruct (inv_listen _ Hi E) as (_ & _ & _ & E'). congruence.
  - destruct (inv_syn_sent _ Hi E) as (_ & E'). congruence.
Qed.

(** A segment whose SYN and FIN come from the pending flags and whose data fits
    what the peer's window leaves keeps the invariant. *)
Lemma Send_inv seg t t' :
  seg_wf seg -> tcb_inv t -> state t <> StateClosed -> Send seg t = (t', None) ->
  flag_le (Flags seg) (pending0 t) FlagFIN -> flag_le (Flags seg) (pending0 t) FlagSYN ->
  (LessThan (SEQ seg) (snd_NXT (snd t)) = true \/
   (DATALEN seg <= Z.max 0 (snd_WND (snd t) - inFlight (snd t)) /\
    (0 < DATALEN seg -> txQueuedDataOpen (state t) = true))) ->
  tcb_inv t'.
Proof.
  intros Hs Hi Hnc HS HF HSy Hd. pose proof maxWindow_val' as Hmw.
  pose proof (Send_wf _ _ _ _ Hs (inv_wf _ Hi) HS) as Hwf'.
  destruct (Send_effect _ _ _ Hnc (inv_pending1 _ Hi) HS)
    as (Hval & Est & Ep & Ep1 & Es & Er & _ & Edup & Enr & _).
  pose proof (validateOutgoing_wnd _ _ Hval) as Hw.
  destruct (Send_budget seg t t' Est Ep HF HSy) as [Hsyn Hfin].
  pose proof (syn_budget_bound t). pose proof (fin_budget_bound t).
  pose proof (syn_budget_bound t'). pose proof (fin_budget_bound t').
  pose proof (preest_no_fin t (Flags seg) Hi) as HpreF.
  pose proof (flag_z_bound (Flags seg) FlagFIN). pose proof (flag_z_bound (Flags seg) FlagSYN).
  pose proof (send_state_inv seg (state t) (state t') (eq_sym Est)) as Hss.
  pose proof (inFlight_u32 (snd t)) as Hfl. unfold is_u32 in Hfl.
  destruct Hi. specialize (inv_flight0 Hnc).
  destruct (Send_flight seg t (snd t')) as (k & Ek & Ek' & Hk);
    [apply Hs|apply inv_wf0|lia|by destruct Hd as [?|[? _]]; auto|done|].
  assert (snd_UNA (snd t') = snd_UNA (snd t) /\ snd_ISS (snd t') = snd_ISS (snd t) /\
          snd_WND (snd t') = snd_WND (snd t)) as (Eu & Ei & Ew) by (rewrite Es; tcb_case; done).
  assert (0 <= DATALEN seg) as Hdl by apply Hs.
  assert (IsPreestablished (state t) = true -> flag_z (Flags seg) FlagFIN = 0 ->
          0 <= k <= flag_z (Flags seg) FlagSYN) as Hkpre.
  { intros Hp HFz. destruct Hk as [->|(El & ->)]; [lia|].
    destruct Hd as [?|[_ Hd]]; [congruence|].
    assert (~ 0 < DATALEN seg) by (intros E; specialize (Hd E); by destruct (state t)). lia. }
  constructor; rewrite ?Edup, ?Ew, ?Ei, ?Eu; auto.
  - by rewrite Er.
  - intros _. destruct Hk as [->|(El & ->)]; [lia|]. destruct Hd as [?|[Hd _]]; [congruence|]. lia.
  - intros Hp. destruct (Hss (or_introl Hp)) as [E HnF]. rewrite <- E in Hp.
    destruct (inv_pre_flight0 Hp) as [Hpf ?]. split; [|done].
    assert (flag_z (Flags seg) FlagFIN = 0) as HFz
      by (destruct (HpreF Hp HF) as [?|E']; [done|unfold flag_z; by rewrite HnF]).
    specialize (Hkpre Hp HFz). lia.
  - intros Hl. assert (IsPreestablished (state t') = true) as Hp by (by rewrite Hl).
    destruct (Hss (or_introl Hp)) as [E _]. rewrite Hl in E.
    destruct (inv_listen0 E) as (E1 & E2 & E3 & E4).
    rewrite Ep, HasAny_ldiff_FIN, HasAny_ldiff_SYN, E3, E4. repeat split; [done|].
    assert (k = 0) as ->.
    { destruct (HpreF ltac:(by rewrite E) HF) as [HFz|?]; [|congruence].
      specialize (Hkpre ltac:(by rewrite E) HFz). unfold syn_budget in *. rewrite E3 in *.
      cbn in *. lia. }
    rewrite Ek', <- E2. assert (is_u32 (snd_NXT (snd t))) by apply inv_wf0. unfold Add. wrap_lia.
  - intros Hl. assert (IsPreestablished (state t') = true) as Hp by (by rewrite Hl).
    destruct (Hss (or_introl Hp)) as [E _]. rewrite Hl in E.
    destruct (inv_syn_sent0 E) as (E1 & E2). by rewrite Ep, HasAny_ldiff_FIN, E2.
  - intros Hdp. specialize (inv_dup0 Hdp).
    destruct Hk as [->|(_ & ->)]; lia.
  - destruct Enr as [->|[Hlt ->]]; [done|]. split; [|lia].
    assert (is_u8 (nRetransmit t)) as H8 by apply inv_wf0. unfold u8, is_u8 in *.
    rewrite Z.mod_small; lia.
  - intros Hc. by destruct (Hss (or_intror Hc)) as [E _]; rewrite Hc in E.
Qed.

(** Retransmission of the handshake's SYN or SYN-ACK. *)
Lemma Send_syn_inv seg t t' :
  seg_wf seg -> tcb_inv t -> state t = StateSynSent \/ state t = StateSynRcvd ->
  SEQ seg = snd_UNA (snd t) -> DATALEN seg = 0 ->
  HasAny (Flags seg) FlagFIN = false -> HasAny (Flags seg) FlagSYN = true ->
  Send seg t = (t', None) -> tcb_inv t'.
Proof.
  intros Hs Hi Hst Hseq Hdl HF HY HS. pose proof maxWindow_val' as Hmw.
  pose proof (Send_wf _ _ _ _ Hs (inv_wf _ Hi) HS) as Hwf'.
  assert (state t <> StateClosed) as Hnc by (by destruct Hst as [-> | ->]).
  assert (IsPreestablished (state t) = true) as Hpre by (by destruct Hst as [-> | ->]).
  destruct (Send_effect _ _ _ Hnc (inv_pending1 _ Hi) HS)
    as (Hval & Est & Ep & Ep1 & Es & Er & _ & Edup & Enr & _).
  pose proof (validateOutgoing_wnd _ _ Hval) as Hw.
  assert (state t' = state t) as Est'.
  { rewrite Est. unfold send_state. rewrite HF. by destruct Hst as [-> | ->]. }
  destruct Hi. destruct (inv_pre_flight0 Hpre) as [Hpf Hdup].
  pose proof (syn_budget_bound t). pose proof (fin_budget_bound t').
  pose proof (inFlight_u32 (snd t)) as Hfl. unfold is_u32 in Hfl.
  assert (syn_budget t' = 0) as Hsyn.
  { unfold syn_budget. by rewrite Ep, HasAny_ldiff_SYN, HY, andb_false_r. }
  destruct (Send_flight seg t (snd t')) as (k & Ek & _ & Hk);
    [apply Hs|apply inv_wf0|lia|right; lia|done|].
  unfold flag_z in Hk. rewrite HF, HY in Hk. cbn in Hk.
  assert (inFlight (snd t') <= 1) as Hfl'.
  { destruct Hk as [->|(El & ->)]; [lia|].
    rewrite Hseq, LessThan_dist in El. fold (inFlight (snd t)) in El.
    apply andb_false_iff in El as [El|El]; bool_hyps; lia. }
  assert (snd_UNA (snd t') = snd_UNA (snd t) /\ snd_ISS (snd t') = snd_ISS (snd t) /\
          snd_WND (snd t') = snd_WND (snd t)) as (Eu & Ei & Ew) by (rewrite Es; tcb_case; done).
  constructor; rewrite ?Est', ?Edup, ?Ew, ?Ei, ?Eu, ?Hsyn; auto; try lia.
  - by rewrite Er.
  - by destruct Hst as [-> | ->].
  - intros E. destruct (inv_syn_sent0 E) as (E1 & E2). by rewrite Ep, HasAny_ldiff_FIN, E2.
  - destruct Enr as [->|[Hlt ->]]; [done|]. split; [|lia].
    assert (is_u8 (nRetransmit t)) as H8 by apply inv_wf0. unfold u8, is_u8 in *.
    rewrite Z.mod_small; lia.
  - intros E. by rewrite E in Hnc.
Qed.

(** Active open. *)
Lemma Send_connect iss wnd t t' :
  is_u32 iss -> state t = StateClosed -> Send (ClientSynSegment iss wnd) t = (t', None) ->
  0 < wnd <= maxWindow /\
  t' = mkTCB (mkSendSpace iss iss (u32 (iss + 1)) 1 0 0 0) (mkRecvSpace 0 0 wnd) 0 0 0
         StateSynSent 0 0 0.
Proof.
  intros Hiss Hst HS. unfold Send in HS.
  destruct (validateOutgoingSegment (ClientSynSegment iss wnd) t) eqn:Hv; [done|].
  pose proof (validateOutgoing_wnd _ _ Hv) as Hw. cbn in Hw.
  unfold validateOutgoingSegment in Hv. rewrite Hst in Hv. cbn in Hv.
  unfold isFirstSYN in Hv. cbn in Hv.
  destruct (0 <? wnd) eqn:E; [|done]. bool_hyps. split; [done|].
  unfold send_dispatch in HS. rewrite Hst in HS. cbn in HS.
  unfold send_account in HS. cbn in HS. rewrite LessThan_dist, dist_self in HS. cbn in HS.
  by simplify_eq.
Qed.

Lemma Send_connect_inv iss wnd t t' :
  is_u32 iss -> is_u32 wnd -> tcb_inv t -> state t = StateClosed ->
  Send (ClientSynSegment iss wnd) t = (t', None) -> tcb_inv t'.
Proof.
  intros Hiss Hw Hi Hst HS. pose proof maxWindow_val' as Hmw.
  assert (seg_wf (ClientSynSegment iss wnd)) as Hs 
    by (unfold seg_wf; split_and!; cbn; auto; closed_width).
  pose proof (Send_wf _ _ _ _ Hs (inv_wf _ Hi) HS) as Hwf'.
  destruct (Send_connect _ _ _ _ Hiss Hst HS) as [Hw' ->].
  assert (dist iss (u32 (iss + 1)) = 1) as Hd by (apply (dist_Add iss 1); closed_width).
  constructor; auto; unfold inFlight, syn_budget, fin_budget; cbn; try rewrite Hd; try done; lia.
Qed.

(** A segment the Handler derives from [PendingSegment]. *)
Lemma step_send_wf n seg seg' t :
  tcb_wf t -> pending_kind n t seg -> trimmed seg seg' -> seg_wf seg'.
Proof.
  intros Hwf Hk [Tq Ta Tl Tf Tw].
  assert (seg_wf seg) as (?&?&?&?&?).
  { pose proof (maxSend_bounds (snd t) ltac:(apply Hwf)) as Hm.
    pose proof (inFlight_u32 (snd t)) as Hif. destruct_wf Hwf.
    assert (is_u16 (pending_flags t)) by (unfold pending_flags; tcb_case; eauto with width).
    unfold seg_wf. destruct Hk; cbn; split_and!; auto; try closed_width; try apply u32_width;
      tcb_case; auto; try closed_width. unfold is_u32 in *. lia. }
  unfold seg_wf. rewrite Tq, Ta. split_and!; auto; [unfold is_u32 in *; lia|].
  destruct Tf as [-> | ->]; eauto with width.
Qed.

Lemma step_send_inv n seg seg' t t' :
  tcb_inv t -> state t <> StateClosed -> 0 <= n < 2 ^ 31 ->
  PendingSegment n t = Ret (Some seg) -> trimmed seg seg' -> Send seg' t = (t', None) ->
  tcb_inv t'.
Proof.
  intros Hi Hnc Hn HP [Tq Ta Tl Tf Tw] HS.
  pose proof (PendingSegment_kind n t _ (inv_wf _ Hi) ltac:(lia) HP) as Hk. cbn in Hk.
  pose proof (inv_wf _ Hi) as Hwf. destruct_wf Hwf.
  assert (forall m, m = FlagFIN \/ m = FlagSYN -> HasAny (Flags seg') m = HasAny (Flags seg) m)
    as Hfl.
  { intros m [-> | ->]; destruct Tf as [-> | ->]; rewrite ?HasAny_lor, ?orb_false_r; done. }
  assert (maxSend (snd t) = Z.max 0 (snd_WND (snd t) - inFlight (snd t))) as Hm
    by (by apply maxSend_bounds).
  pose proof (inFlight_u32 (snd t)) as Hif.
  pose proof (step_send_wf n seg seg' t (inv_wf _ Hi) Hk ltac:(by constructor)) as Hs.
  destruct Hk as [Hc|Hc Hr Hctl|len Hc Hl1 Hl2 Hmss Htx Hp0].
  - apply (Send_inv seg' t t'); auto; unfold flag_le; rewrite ?Hfl by auto; cbn; try done.
    right. cbn in Tl. split; lia.
  - apply (Send_inv seg' t t'); auto; unfold flag_le; rewrite ?Hfl by auto; cbn; try done.
    left. rewrite Tq. cbn. rewrite LessThan_dist.
      assert (0 < dupack t) as Hd by (unfold HasPendingRetransmit in Hr; bool_hyps;
        unfold retransmitAfterDupacks in *; lia).
      pose proof (inv_dup _ Hi Hd). pose proof (inv_flight _ Hi Hnc).
      pose proof (syn_budget_bound t). pose proof (fin_budget_bound t).
      pose proof maxWindow_val'. unfold inFlight in *.
      apply andb_true_iff. rewrite Z.ltb_lt, Z.leb_le. lia.
  - apply (Send_inv seg' t t'); auto; unfold flag_le; rewrite ?Hfl by auto; cbn.
    + unfold pending_flags. tcb_case; rewrite ?HasAny_lor, ?orb_false_r; done.
    + unfold pending_flags. tcb_case; rewrite ?HasAny_lor, ?orb_false_r; done.
    + right. cbn in Tl. split; [lia|]. intros. apply Htx. lia.
Qed.

Lemma Open_inv iss wnd t t' :
  is_u32 iss -> is_u32 wnd -> Open iss wnd t = (t', None) -> tcb_inv t'.
Proof.
  intros Hi Hw HO. pose proof maxWindow_val' as Hmw. unfold Open in HO.
  tcb_case; simplify_eq. bool_hyps.
  constructor; try (unfold tcb_wf, snd_wf, rcv_wf; cbn; split_and?; auto; closed_width);
    unfold inFlight, syn_budget, fin_budget; cbn; rewrite ?dist_self; try done; lia.
Qed.

Lemma Close_inv t t' oe : tcb_inv t -> Close t = (t', oe) -> tcb_inv t'.
Proof.
  intros Hi HC. pose proof maxWindow_val' as Hmw. pose proof (inv_wf _ Hi) as Hwf.
  pose proof (syn_budget_bound t). pose proof (fin_budget_bound t).
  unfold Close in HC.
  assert (forall p s, is_u16 p -> HasAny p FlagSYN = false ->
    (state t = StateCloseWait /\ s = StateLastAck) \/
    ((state t = StateSynRcvd \/ state t = StateEstablished) /\ s = state t) ->
    tcb_inv (with_pending p 0 (with_state s t))) as Hgo.
  { intros p s Hp HY Hs. destruct Hi. destruct_wf Hwf.
    assert (state t <> StateClosed /\ state t <> StateListen /\ state t <> StateSynSent)
      as (Hn1 & Hn2 & Hn3) by (destruct Hs as [[-> _]|[[-> | ->] _]]; done).
    specialize (inv_flight0 Hn1). unfold syn_budget, fin_budget in *.
    pose proof (b2z_bound (HasAny p FlagFIN)).
    constructor; cbn; unfold syn_budget, fin_budget; cbn; rewrite ?HY; cbn; auto.
    - unfold tcb_wf, snd_wf, rcv_wf; cbn; split_and?; auto. closed_width.
    - intros _. destruct Hs as [[E ->]|[[E | E] ->]]; rewrite E in *; lia.
    - intros Hpre. destruct Hs as [[E ->]|[[E | E] ->]]; rewrite ?E in *; try done.
      destruct (inv_pre_flight0 eq_refl). split; [lia|done].
    - intros ->. destruct Hs as [[_ ?]|[_ ?]]; congruence.
    - intros ->. destruct Hs as [[_ ?]|[_ ?]]; congruence.
    - intros ->. destruct Hs as [[_ ?]|[_ ?]]; congruence. }
  pose proof (inv_pending1 _ Hi) as Hp1.
  assert (is_u16 (pending0 t)) as Hp0 by apply Hwf.
  destruct (state t) eqn:Hst; simplify_eq; auto using zero_tcb_inv.
  - replace (with_pending _ _ t) with
      (with_pending (Z.lor (Z.land (pending0 t) FlagACK) FlagFIN) 0 (with_state (state t) t))
      by (destruct t; cbn in *; by subst).
    apply Hgo; [| |rewrite Hst; tauto]; [eauto with width|].
    rewrite HasAny_lor, orb_false_r, HasAny_land_SYN. apply andb_false_r.
  - replace (with_pending _ _ t) with
      (with_pending (Z.lor (Z.land (pending0 t) FlagACK) FlagFIN) 0 (with_state (state t) t))
      by (destruct t; cbn in *; by subst).
    apply Hgo; [| |rewrite Hst; tauto]; [eauto with width|].
    rewrite HasAny_lor, orb_false_r, HasAny_land_SYN. apply andb_false_r.
  - apply Hgo; [closed_width|done|tauto].
Qed.

Lemma RetransmitFrom_spec v t t' b :
  is_u32 v -> tcb_wf t -> RetransmitFrom v t = (t', b) ->
  if b then
    txQueuedDataOpen (state t) = true /\
    LessThan v (snd_UNA (snd t)) = false /\ LessThan (snd_NXT (snd t)) v = false /\
    t' = with_rtx 0 0 (with_snd (snd_with_NXT v (snd t)) t)
  else t' = t.
Proof.
  intros Hv Hwf. unfold RetransmitFrom. intros HR. tcb_case; simplify_eq; try done.
  by bool_hyps.
Qed.

Lemma RetransmitFrom_flight una v nxt :
  is_u32 una -> is_u32 v -> is_u32 nxt -> dist una nxt < 2 ^ 31 ->
  LessThan v una = false -> LessThan nxt v = false -> dist una v <= dist una nxt.
Proof.
  intros Hu Hv Hn Hd. rewrite !LessThan_dist. intros H1 H2.
  pose proof (dist_range una v). pose proof (dist_range v una).
  pose proof (dist_range nxt v). pose proof (dist_range una nxt).
  assert (dist v una = 0 \/ dist v una + dist una v = 2 ^ 32) by (unfold dist in *; wrap_lia).
  assert (dist v una = 0 -> dist una v = 0) by (unfold dist in *; wrap_lia).
  assert (dist nxt v = 0 -> dist una v = dist una nxt) by (unfold dist in *; wrap_lia).
  assert (dist una v = dist una nxt + dist nxt v \/ dist una v = dist una nxt + dist nxt v - 2 ^ 32)
    by (unfold dist in *; wrap_lia).
  unfold is_u32 in *. apply andb_false_iff in H1, H2. destruct H1, H2; bool_hyps; lia.
Qed.

Lemma RetransmitFrom_inv v t t' b :
  is_u32 v -> tcb_inv t -> RetransmitFrom v t = (t', b) -> tcb_inv t'.
Proof.
  intros Hv Hi HR. pose proof maxWindow_val' as Hmw.
  pose proof (RetransmitFrom_spec v t t' b Hv (inv_wf _ Hi) HR) as H.
  destruct b; [|by subst]. destruct H as (Htx & H1 & H2 & ->).
  pose proof (inv_wf _ Hi) as Hwf. pose proof (syn_budget_bound t). pose proof (fin_budget_bound t).
  assert (state t <> StateClosed) as Hnc by (by intros E; rewrite E in Htx).
  pose proof (inv_flight _ Hi Hnc) as Hfl.
  assert (dist (snd_UNA (snd t)) v <= inFlight (snd t)) as Hle.
  { apply RetransmitFrom_flight; auto; try apply Hwf. fold (inFlight (snd t)). lia. }
  destruct_wf Hwf. destruct Hi.
  constructor; cbn; auto; try (by destruct (state t)); try lia.
  intros _. unfold inFlight, syn_budget, fin_budget in *. cbn. lia.
Qed.

Lemma SetRecvWindow_inv wnd t : 0 <= wnd <= maxWindow -> tcb_inv t -> tcb_inv (SetRecvWindow wnd t).
Proof.
  intros Hw Hi. pose proof maxWindow_val' as Hmw. pose proof (inv_wf _ Hi) as Hwf. destruct_wf Hwf.
  destruct Hi. constructor; cbn; auto; try lia.
  unfold tcb_wf, snd_wf, rcv_wf; cbn; split_and?; auto. unfold is_u32. lia.
Qed.

Lemma QueueRST_inv seq t : is_u32 seq -> tcb_inv t -> tcb_inv (QueueRST seq t).
Proof.
  intros Hq Hi. pose proof (inv_wf _ Hi) as Hwf. destruct_wf Hwf.
  pose proof (syn_budget_bound t). pose proof (fin_budget_bound t).
  destruct Hi. constructor; cbn; auto; unfold syn_budget, fin_budget in *; cbn.
  - unfold tcb_wf, snd_wf, rcv_wf; cbn; split_and?; auto; closed_width.
  - intros Hc. specialize (inv_flight0 Hc). eval_flags. destruct (state t); lia.
  - intros Hp. destruct (inv_pre_flight0 Hp). eval_flags. lia.
  - intros E. by destruct (inv_listen0 E) as (? & ? & _).
  - intros E. by destruct (inv_syn_sent0 E).
Qed.

(** ** The invariant holds in every reachable state *)

Lemma tcb_step_inv t t' : tcb_step t t' -> tcb_inv t -> tcb_inv t'.
Proof.
  intros Hstep. destruct Hstep as [iss wnd t t' Hiss Hw HO|iss wnd t t' Hiss Hw Hst HS|wnd t t' Hw Hst HS
    |wnd t t' Hw Hst HS|n seg seg' t t' Hnc Hn HP HT HS|seg t t' oe Hseg Hanti HR
    |t t' oe HC|t|wnd t Hw|v t t' b Hv HR|seq t Hq|mss t Hm|n t Hn|t];
    intros Hi; pose proof (inv_wf _ Hi) as Hwf.
  - exact (Open_inv iss wnd t t' Hiss Hw HO).
  - exact (Send_connect_inv iss wnd t t' Hiss Hw Hi Hst HS).
  - destruct (inv_syn_sent _ Hi Hst) as [E _].
    apply (Send_syn_inv (ClientSynSegment (snd_ISS (snd t)) wnd) t t'); auto.
    destruct_wf Hwf. unfold seg_wf; split_and!; cbn; auto; closed_width.
  - refine (Send_syn_inv _ t t' _ Hi (or_intror Hst) _ _ _ _ HS); try done.
    destruct_wf Hwf. unfold seg_wf; split_and!; cbn; auto; closed_width.
  - exact (step_send_inv n seg seg' t t' Hi Hnc Hn HP HT HS).
  - exact (Recv_inv seg t t' oe Hseg Hi Hanti HR).
  - exact (Close_inv t t' oe Hi HC).
  - apply zero_tcb_inv.
  - exact (SetRecvWindow_inv wnd t Hw Hi).
  - exact (RetransmitFrom_inv v t t' b Hv Hi HR).
  - exact (QueueRST_inv seq t Hq Hi).
  - destruct_wf Hwf. destruct Hi. constructor; cbn; auto.
    unfold tcb_wf, snd_wf, rcv_wf; cbn; split_and?; auto. wrap_lia.
  - destruct_wf Hwf. apply or_ack_inv. destruct Hi. constructor; cbn; auto.
    unfold tcb_wf, snd_wf, rcv_wf; cbn; split_and?; auto. apply u32_width.
  - exact (or_ack_inv t Hi).
Qed.

End ControlBlockSend.
