(* ===== verification/ControlBlockThms.v ===== *)
(** * Properties of the control block

    The theorems that make [ControlBlock] correct: the invariant over all
    reachable states, agreement of [PendingSegment] with [Send], the
    acceptance rules of [Recv], its error paths, reset handling, and the
    refinement of the RFC 9293 connection diagram. *)
From S2P Require Import Prelude Errors SeqNum Segment ControlBlock ControlBlockInv.
From S2P Require Import ControlBlockInv ControlBlockSend.

Module ControlBlockThms.
Import SeqNum Segment ControlBlock ControlBlockProps ControlBlockWf ControlBlockInv ControlBlockSend.

(** ** Definitions *)









(** ** Shared lemmas *)

(** Discharges [tcb_wf] of a concrete block. *)
Ltac closed_tcb_wf :=
  unfold tcb_wf, snd_wf, rcv_wf; split_and!; (split; vm_compute; congruence).


Lemma rtc_tcb_step_inv t t' : rtc tcb_step t t' -> tcb_inv t -> tcb_inv t'.
Proof. induction 1 as [|x y z Hs _ IH]; [done|]. intros Hi. by apply IH, (tcb_step_inv x). Qed.

Lemma rtc_tcb_inv t : rtc tcb_step zero_tcb t -> tcb_inv t.
Proof. intros H. exact (rtc_tcb_step_inv _ _ H zero_tcb_inv). Qed.









Lemma Last_dist seg base :
  is_u32 base -> SEQ seg = base -> is_u32 (LEN seg) ->
  dist base (Last seg) = Z.max 0 (LEN seg - 1).
Proof.
  intros Hb <- HL. unfold Last. bool_cases.
  - rewrite dist_self. lia.
  - unfold Add, dist. wrap_lia.
Qed.

(** Sufficient conditions for [validateOutgoingSegment]. *)
Lemma validateOutgoing_ok seg t :
  seg_wf seg -> tcb_wf t -> state t <> StateClosed -> WND seg <= maxWindow ->
  (HasAny (Flags seg) FlagACK = true -> ACK seg = rcv_NXT (rcv t)) ->
  (0 < DATALEN seg -> state t <> StateFinWait2) ->
  HasAny (Flags seg) FlagRST = true \/
  (SEQ seg = snd_NXT (snd t) /\ DATALEN seg = 0 /\ LEN seg <= 1) \/
  (SEQ seg = snd_NXT (snd t) /\ 0 < DATALEN seg <= snd_WND (snd t) /\ LEN seg = DATALEN seg) \/
  (InRange (SEQ seg) (snd_UNA (snd t)) (snd_NXT (snd t)) = true /\ SEQ seg <> snd_NXT (snd t)) \/
  (SEQ seg = snd_NXT (snd t) /\ 1 <= LEN seg <= snd_WND (snd t)) ->
  validateOutgoingSegment seg t = None.
Proof.
  intros Hs Hwf Hc Hw Ha Hd Hcase. unfold validateOutgoingSegment.
  assert (state_eqb (state t) StateClosed = false) as -> by (by apply bool_decide_eq_false).
  cbn [andb negb].
  assert (is_u32 (snd_WND (snd t))) as HW by apply Hwf.
  assert (is_u32 (snd_NXT (snd t))) as HN by apply Hwf.
  rewrite !InWindow_dist by done. pose proof (LEN_u32 seg) as HL.
  replace (maxWindow <? WND seg) with false by (symmetry; apply Z.ltb_ge; lia).
  replace (HasAny (Flags seg) FlagACK && negb (ACK seg =? rcv_NXT (rcv t))) with false.
  2: { destruct (HasAny (Flags seg) FlagACK); [|done]. rewrite Ha by done. by rewrite Z.eqb_refl. }
  replace ((0 <? DATALEN seg) && state_eqb (state t) StateFinWait2) with false.
  2: { destruct (Z.ltb_spec 0 (DATALEN seg)); [|done]. symmetry. apply bool_decide_eq_false. auto. }
  destruct (HasAny (Flags seg) FlagRST) eqn:HR; [done|]. cbn [andb negb].
  destruct Hcase as [?|[(E & E0 & E1)|[(E & E0 & E1)|[(E & E0)|(E & E0)]]]]; [done|..].
  - rewrite (Last_dist seg (snd_NXT (snd t))), E, E0, dist_self, Z.eqb_refl by done.
    cbn. unfold is_u32 in *. replace (0 `max` (LEN seg - 1)) with 0 by lia.
    bool_cases; cbn; try done; lia.
  - rewrite (Last_dist seg (snd_NXT (snd t))), E, dist_self, Z.eqb_refl by done.
    unfold is_u32 in *. bool_cases; cbn; try done; lia.
  - rewrite E. cbn. replace (SEQ seg =? snd_NXT (snd t)) with false
      by (symmetry; by apply Z.eqb_neq). by rewrite !andb_false_r.
  - rewrite (Last_dist seg (snd_NXT (snd t))), E, dist_self, Z.eqb_refl by done.
    unfold is_u32 in *. bool_cases; cbn; try done; lia.
Qed.

(** ** Theorems *)

(** C7: the invariant of the control block. In every state reachable from the
    zero value through opening, sending the segments [PendingSegment] yields,
    receiving segments, closing, aborting, window changes and retransmission:
    every field fits its machine width, the octets in flight never exceed the
    largest window plus the SYN and FIN octets, SND.UNA is never after SND.NXT,
    the duplicate-ACK and retransmit counters do not wrap, and the second slot
    of the pending queue is never used. The segments received are arbitrary but
    for one value: their acknowledgement is not exactly 2^31 away from SND.NXT,
    where the modular order does not say which is first and [Recv] does move
    SND.UNA past SND.NXT ([antipodal_ack_accepted]). *)
Theorem tcb_reachable_invariant t (H : rtc tcb_step zero_tcb t) :
  tcb_wf t /\
  (state t <> StateClosed ->
   inFlight (snd t) <= maxWindow + 2 /\ LessThanEq (snd_UNA (snd t)) (snd_NXT (snd t)) = true) /\
  snd_WND (snd t) <= maxWindow /\ nRetransmit t <= 250 /\ dupack t <= 254 /\
  (0 < dupack t -> 0 < inFlight (snd t)) /\ pending1 t = 0.
Proof.
  apply rtc_tcb_inv in H. pose proof maxWindow_val'. pose proof (inv_wf _ H) as Hwf.
  destruct (inv_counters _ H). split_and!; auto; try apply H.
  intros Hc. pose proof (inv_flight _ H Hc).
  pose proof (syn_budget_bound t). pose proof (fin_budget_bound t).
  rewrite LessThanEq_dist by apply Hwf. fold (inFlight (snd t)).
  split; [lia|]. apply Z.leb_le. lia.
Qed.

Lemma tcb_reachable_invariant_witness :
  let t := fst (Send (ClientSynSegment 4294967295 1000) zero_tcb) in
  state t = StateSynSent /\ snd_NXT (snd t) = 0 /\
  inFlight (snd t) <= maxWindow + 2 /\ LessThanEq (snd_UNA (snd t)) (snd_NXT (snd t)) = true.
Proof.
  cbv zeta. split; [done|]. split; [done|].
  apply (tcb_reachable_invariant (fst (Send (ClientSynSegment 4294967295 1000) zero_tcb)));
    [|done].
  apply rtc_once. apply (step_connect 4294967295 1000); [closed_width|closed_width|done|done].
Defined.

(** C10: what [PendingSegment] offers, [Send] accepts. In any state other than
    CLOSED that satisfies the invariant, [PendingSegment] does not panic, and a
    segment it produces, after the Handler has trimmed its data, added PSH and
    set a window of at most the largest scaled window, is not rejected by
    [Send], provided that a segment with SYN or FIN, the octet of the flag
    included, is no longer than the send window (one of a single octet always
    goes). The proviso is needed: [PendingSegment] does not count the FIN
    ([pending_fin_refused]). *)
Theorem pending_segment_accepted n t
  (Hi : tcb_inv t) (Hnc : state t <> StateClosed) (Hn : 0 <= n < 2 ^ 31) :
  PendingSegment n t <> Panic /\
  forall seg seg', PendingSegment n t = Ret (Some seg) -> trimmed seg seg' ->
    WND seg' <= maxWindow ->
    (HasAny (Flags seg') (Z.lor FlagSYN FlagFIN) = true -> LEN seg' <= Z.max 1 (snd_WND (snd t))) ->
    exists t', Send seg' t = (t', None).
Proof.
  pose proof (inv_wf _ Hi) as Hwf. split.
  { intros E. by apply (PendingSegment_kind n t _ Hwf ltac:(lia)) in E. }
  intros seg seg' HP HT Hw Hctl.
  pose proof (PendingSegment_kind n t _ Hwf ltac:(lia) HP) as Hk. cbn in Hk.
  pose proof (step_send_wf n seg seg' t Hwf Hk HT) as Hs.
  enough (validateOutgoingSegment seg' t = None) as Hv
    by (unfold Send; rewrite Hv; eauto).
  assert (is_u32 (snd_WND (snd t))) as HW by apply Hwf.
  pose proof (maxSend_bounds (snd t) HW) as Hm. pose proof (inFlight_u32 (snd t)) as Hfl.
  assert (is_u32 (DATALEN seg')) as Hdl by apply Hs.
  pose proof (LEN_bits seg' Hdl) as Hlen. rewrite HasAny_lor_r in Hctl.
  assert ((HasAny (Flags seg') FlagSYN || HasAny (Flags seg') FlagFIN = true /\
           LEN seg' <= Z.max 1 (snd_WND (snd t))) \/ LEN seg' = DATALEN seg') as Hl.
  { destruct (HasAny (Flags seg') FlagSYN), (HasAny (Flags seg') FlagFIN); auto.
    right. rewrite Hlen. cbn. unfold u32, is_u32 in *. rewrite Z.mod_small; lia. }
  assert (HasAny (Flags seg') FlagACK = HasAny (Flags seg) FlagACK) as HA.
  { destruct HT as [_ _ _ [-> | ->] _]; rewrite ?HasAny_lor, ?orb_false_r; done. }
  assert (HasAny (Flags seg') FlagRST = HasAny (Flags seg) FlagRST) as HR.
  { destruct HT as [_ _ _ [-> | ->] _]; rewrite ?HasAny_lor, ?orb_false_r; done. }
  destruct HT as [Tq Ta Tl Tf _]. unfold is_u32 in *.
  apply validateOutgoing_ok; auto; rewrite ?HA, ?HR, ?Ta, ?Tq.
  - destruct Hk; cbn; auto. by intros ->.
  - intros H0. destruct Hk as [?|? Hrt|len ? ? ? ? Htx]; cbn in Tl; [lia| |].
    + intros E. unfold HasPendingRetransmit in Hrt. by rewrite E in Hrt.
    + intros E. specialize (Htx ltac:(lia)). by rewrite E in Htx.
  - destruct Hk as [?|? Hrt|len ? ? ? ? Htx]; cbn in *.
    + right; left. split; [done|]. destruct Hl as [[Hfs _]|Hl]; [|lia].
      exfalso. revert Hfs. by destruct Tf as [-> | ->].
    + right; right; right; left. rewrite InRange_dist, dist_self.
      assert (0 < dupack t) as Hd by (unfold HasPendingRetransmit in Hrt; bool_hyps;
        unfold retransmitAfterDupacks in *; lia).
      pose proof (inv_dup _ Hi Hd) as Hpos. unfold inFlight in *. rewrite Z.ltb_lt.
      split; [done|]. intros E. rewrite E, dist_self in Hpos. lia.
    + destruct (HasAny (pending_flags t) FlagRST); [by left|right].
      destruct (decide (DATALEN seg' = 0 /\ LEN seg' <= 1)) as [E|E]; [by left|right].
      destruct (decide (LEN seg' = DATALEN seg')) as [E1|E1]; [left; lia|].
      destruct Hl as [[_ Hl]|Hl]; [|done]. right; right. split; [done|].
      destruct (HasAny (Flags seg') FlagSYN), (HasAny (Flags seg') FlagFIN);
        cbn in Hlen; unfold u32 in *; rewrite Z.mod_small in Hlen; lia.
Qed.

Lemma pending_segment_accepted_witness :
  let t := with_pending FlagACK 0 (with_state StateEstablished
             (with_snd (mkSendSpace 7 8 8 500 0 1 1)
               (with_rcv (mkRecvSpace 10 11 400) zero_tcb))) in
  PendingSegment 100 t <> Panic /\
  exists t', Send {| SEQ := 8; ACK := 11; DATALEN := 60; WND := 350; Flags := 24 |} t = (t', None).
Proof.
  intros t. assert (tcb_inv t) as Hi.
  { constructor; try (closed_tcb_wf); done. }
  destruct (pending_segment_accepted 100 t Hi) as [H1 H2]; [done|lia|]. split; [done|].
  apply (H2 {| SEQ := 8; ACK := 11; DATALEN := 100; WND := 400; Flags := 16 |});
    [done| |vm_compute; congruence|done].
  constructor; cbn; solve [lia | done | by right].
Defined.

(** The FIN is not counted: after [Close] with more to send than the window
    takes, [PendingSegment] offers a FIN behind as many octets as the window
    holds, and [Send] refuses the segment, whose last octet is outside. *)
Theorem pending_fin_refused :
  let t := fst (Close (with_state StateEstablished
             (with_snd (mkSendSpace 7 8 8 100 0 1 1)
               (with_rcv (mkRecvSpace 10 11 400) zero_tcb)))) in
  exists seg, PendingSegment 100 t = Ret (Some seg) /\
    HasAll (Flags seg) (Z.lor FlagFIN FlagACK) = true /\ DATALEN seg = 100 /\
    Send seg t = (t, Some errLastNotInWindow).
Proof. eexists. repeat split. Qed.

(** *** Acceptance of incoming segments *)

(** The octets of the segment fit the receive window that starts at RCV.NXT. *)
Definition fits_window (seg : Segment) (t : ControlBlock) : Prop :=
  (rcv_WND (rcv t) = 0 /\ DATALEN seg = 0) \/
  (0 < rcv_WND (rcv t) /\ LEN seg <= rcv_WND (rcv t)).

Definition fits_windowb (seg : Segment) (t : ControlBlock) : bool :=
  if rcv_WND (rcv t) =? 0 then DATALEN seg =? 0 else LEN seg <=? rcv_WND (rcv t).

Lemma fits_window_spec seg t :
  tcb_wf t -> fits_windowb seg t = true <-> fits_window seg t.
Proof.
  intros Hwf. assert (is_u32 (rcv_WND (rcv t))) as HW by apply Hwf. unfold is_u32 in HW.
  unfold fits_windowb, fits_window. bool_cases; rewrite ?Z.eqb_eq, ?Z.leb_le; lia.
Qed.

Lemma incoming_reject_sync seg t :
  seg_wf seg -> tcb_wf t -> IsPreestablished (state t) = false -> state t <> StateClosed ->
  HasAny (Flags seg) FlagRST = false ->
  incoming_reject seg t = None <->
  WND seg <= maxWindow /\ SEQ seg = rcv_NXT (rcv t) /\ fits_window seg t.
Proof.
  intros Hs Hwf Hpre Hc HR.
  assert (is_u32 (rcv_WND (rcv t))) as HW by apply Hwf.
  assert (is_u32 (rcv_NXT (rcv t))) as HN by apply Hwf.
  pose proof (LEN_u32 seg) as HL.
  rewrite <- fits_window_spec by done. unfold incoming_reject, fits_windowb.
  rewrite Hpre, HR, !InWindow_dist by done. rewrite orb_true_r.
  assert (state_eqb (state t) StateListen = false) as ->
    by (apply bool_decide_eq_false; by intros E; rewrite E in Hpre).
  assert (state_eqb (state t) StateClosed = false) as -> by (by apply bool_decide_eq_false).
  cbn [andb negb]. unfold is_u32 in *.
  destruct (Z.eqb_spec (SEQ seg) (rcv_NXT (rcv t))) as [E|E].
  - rewrite (Last_dist seg (rcv_NXT (rcv t))), E, dist_self by done.
    bool_cases; cbn; split; intros; try done; try lia; repeat split; try done; lia.
  - split; [|intros (_ & E' & _); done]. bool_cases; cbn; try done.
Qed.

(** The acknowledgement of a segment is tolerable in ESTABLISHED. *)
Definition ack_tolerable (seg : Segment) (t : ControlBlock) : Prop :=
  HasAny (Flags seg) FlagACK = true ->
  LessThanEq (ACK seg) (snd_NXT (snd t)) = true \/
  (LessThan (snd_UNA (snd t)) (ACK seg) = false /\ DATALEN seg = 0 /\
   HasAny (Flags seg) FlagFIN = false).

Lemma validateIncoming_established seg t :
  seg_wf seg -> tcb_wf t -> state t = StateEstablished ->
  WND seg <= maxWindow -> SEQ seg = rcv_NXT (rcv t) -> fits_window seg t ->
  HasAny (Flags seg) FlagRST = false -> ack_tolerable seg t ->
  validateIncomingSegment seg t = (t, None).
Proof.
  intros Hs Hwf Hst Hw Hseq Hfit Hrst Hack.
  assert (incoming_reject seg t = None) as Hrej
    by (apply incoming_reject_sync; rewrite ?Hst; done).
  unfold validateIncomingSegment.
  rewrite Hrej, Hrst, Hst, HasAll_ACK, HasAny_lor_r, Hrst, orb_false_r. cbn.
  destruct (HasAny (Flags seg) FlagACK) eqn:HA; cbn; [|done].
  destruct (Hack HA) as [-> | (-> & -> & ->)]; cbn; [|done]. by tcb_case.
Qed.

Lemma Recv_established seg t :
  seg_wf seg -> tcb_wf t -> state t = StateEstablished ->
  WND seg <= maxWindow -> SEQ seg = rcv_NXT (rcv t) -> fits_window seg t ->
  HasAny (Flags seg) FlagRST = false -> HasAny (Flags seg) FlagSYN = false ->
  ack_tolerable seg t ->
  Recv seg t = Ret (recv_accept seg
      (if (0 <? DATALEN seg) || HasAny (Flags seg) FlagFIN then FlagACK else 0)
      (if HasAny (Flags seg) FlagFIN then with_state StateCloseWait t else t), None).
Proof.
  intros Hs Hwf Hst Hw Hseq Hfit Hrst Hsyn Hack. unfold Recv.
  rewrite validateIncoming_established, Hsyn by done. cbn. unfold recv_dispatch.
  rewrite Hst. cbn. unfold rcvEstablished.
  destruct (0 <? DATALEN seg), (HasAny (Flags seg) FlagFIN); done.
Qed.

(** In the closing states every acceptable segment reaches the state handler. *)
Lemma Recv_closing seg t :
  seg_wf seg -> tcb_wf t -> IsPreestablished (state t) = false ->
  state t <> StateClosed -> state t <> StateEstablished ->
  WND seg <= maxWindow -> SEQ seg = rcv_NXT (rcv t) -> fits_window seg t ->
  HasAny (Flags seg) FlagRST = false -> HasAny (Flags seg) FlagSYN = false ->
  Recv seg t =
    ('(t, pending, err) ← recv_dispatch seg t;
     match err with
     | Some err => Ret (t, Some err)
     | None => Ret (recv_accept seg pending t, None)
     end).
Proof.
  intros Hs Hwf Hpre Hc He Hw Hseq Hfit Hrst Hsyn.
  assert (incoming_reject seg t = None) as Hrej by (by apply incoming_reject_sync).
  unfold Recv, validateIncomingSegment. rewrite Hrej, Hrst, Hpre.
  assert (state_eqb (state t) StateEstablished = false) as -> by (by apply bool_decide_eq_false).
  cbn [andb]. by rewrite Hsyn.
Qed.

(** C9: an ESTABLISHED connection accepts exactly the segments it should: a
    segment is accepted if and only if its window is legal, it starts at
    RCV.NXT, all its octets fit the receive window, it carries neither RST nor
    SYN, and its acknowledgement does not cover unsent data (a pure
    acknowledgement that is not new is tolerated); acceptance advances RCV.NXT
    by the segment length and moves to CLOSE-WAIT exactly on FIN. *)
Theorem established_accepts_iff seg t
  (Hs : seg_wf seg) (Hwf : tcb_wf t) (Hst : state t = StateEstablished) :
  (exists t', Recv seg t = Ret (t', None) /\
     rcv_NXT (rcv t') = Add (rcv_NXT (rcv t)) (LEN seg) /\
     state t' = if HasAny (Flags seg) FlagFIN then StateCloseWait else StateEstablished) <->
  WND seg <= maxWindow /\ SEQ seg = rcv_NXT (rcv t) /\ fits_window seg t /\
  HasAny (Flags seg) FlagRST = false /\ HasAny (Flags seg) FlagSYN = false /\
  ack_tolerable seg t.
Proof.
  assert (IsPreestablished (state t) = false) as Hpre by (by rewrite Hst).
  assert (state t <> StateClosed) as Hc by (by rewrite Hst).
  assert (0 <= DATALEN seg) as Hdl by apply Hs.
  split.
  - intros (t' & HR & _). pose proof (Recv_result seg t) as Hr. rewrite HR in Hr.
    inversion Hr as [| | |t1 p Hv Hrej Hrst Hsyn Hd|]; subst.
    rewrite incoming_reject_sync in Hrej by done. destruct Hrej as (? & ? & ?).
    split_and!; auto.
    { destruct (HasAny (Flags seg) FlagSYN); [|done]. specialize (Hsyn eq_refl). congruence. }
    intros HA. destruct (LessThanEq (ACK seg) (snd_NXT (snd t))) eqn:Hle; [by left|right].
    unfold validateIncomingSegment in Hv.
    rewrite (proj2 (incoming_reject_sync seg t Hs Hwf Hpre Hc Hrst)) in Hv by done.
    rewrite Hrst, Hst, HasAll_ACK, HA, Hle, HasAny_lor_r, Hrst, orb_false_r in Hv.
    change (state_eqb StateEstablished StateEstablished) with true in Hv. cbn in Hv.
    tcb_case; simplify_eq. bool_hyps. repeat split; auto. lia.
  - intros (Hw & Hseq & Hfit & Hrst & Hsyn & Hack).
    rewrite Recv_established by done. eexists. split; [done|].
    match goal with |- context [recv_accept seg ?p ?t1] =>
      pose proof (recv_accept_rest seg p t1) as (-> & _ & _ & _ & _ & _ & -> & _) end.
    destruct (HasAny (Flags seg) FlagFIN); done.
Qed.

Lemma established_accepts_iff_witness :
  let t := with_state StateEstablished
             (with_snd (mkSendSpace 7 8 8 500 0 1 1)
               (with_rcv (mkRecvSpace 10 4294967290 400) zero_tcb)) in
  let seg := {| SEQ := 4294967290; ACK := 8; DATALEN := 60; WND := 350; Flags := 17 |} in
  exists t', Recv seg t = Ret (t', None) /\ rcv_NXT (rcv t') = 55 /\ state t' = StateCloseWait.
Proof.
  intros t seg. apply (established_accepts_iff seg t).
  - repeat split; done.
  - closed_tcb_wf.
  - done.
  - unfold fits_window. cbn. split_and!; try done; [by right|by left].
Defined.

(** *** Error paths *)

(** The part of the block that a refused segment must not touch. *)
Definition same_connection (t t' : ControlBlock) : Prop :=
  state t' = state t /\ snd t' = snd t /\ rcv t' = rcv t /\
  dupack t' = dupack t /\ nRetransmit t' = nRetransmit t /\ pending1 t' = pending1 t /\
  (forall f, HasAny (pending0 t) f = true -> HasAny (pending0 t') f = true).

Lemma HasAny_lor_mono a b f : HasAny a f = true -> HasAny (Z.lor a b) f = true.
Proof. rewrite HasAny_lor. by intros ->. Qed.

Lemma same_connection_challenge t : same_connection t (triggerChallengeAckEmit t).
Proof. unfold triggerChallengeAckEmit. tcb_case; repeat split; auto. Qed.

Lemma same_connection_or_ack t t' :
  same_connection t t' -> same_connection t (or_pending0 FlagACK t').
Proof.
  intros (? & ? & ? & ? & ? & ? & Hp). repeat split; try done.
  intros f Hf. by apply HasAny_lor_mono, Hp.
Qed.

Lemma same_connection_refl t : same_connection t t.
Proof. by repeat split. Qed.




(** A segment that is rejected can change a connection that is not synchronized:
    in SYN-SENT a SYN-ACK with a wrong acknowledgement is dropped, and yet SND.NXT
    goes back to the initial number and SND.WND becomes the window of the
    rejected segment. *)
Theorem synsent_refusal_moves_snd :
  let t := fst (Send (ClientSynSegment 500 1000) zero_tcb) in
  let seg := {| SEQ := 9; ACK := 77; DATALEN := 0; WND := 400; Flags := synack |} in
  exists t', Recv seg t = Ret (t', Some errDropSegment) /\ state t' = StateSynSent /\
    (snd_NXT (snd t), snd_WND (snd t)) = (501, 1) /\ (snd_NXT (snd t'), snd_WND (snd t')) = (500, 400).
Proof. eexists. repeat split. Qed.

(** C12: resets cannot be forged without the exact sequence number (RFC 5961).
    In a synchronized state a segment carrying RST terminates the connection
    exactly when it is acceptable and its sequence number is RCV.NXT; any
    other RST leaves the connection as it is, and one that falls in the
    window is answered with an ACK. *)
Theorem rst_requires_exact_seq seg t
  (Hs : seg_wf seg) (Hwf : tcb_wf t) (Hpre : IsPreestablished (state t) = false)
  (Hc : state t <> StateClosed) (HR : HasAny (Flags seg) FlagRST = true) :
  exists t' e, Recv seg t = Ret (t', Some e) /\
    (incoming_reject seg t = None /\ SEQ seg = rcv_NXT (rcv t) ->
     t' = zero_tcb /\ e = NetErrClosed) /\
    (~ (incoming_reject seg t = None /\ SEQ seg = rcv_NXT (rcv t)) -> same_connection t t') /\
    (incoming_reject seg t = None -> SEQ seg <> rcv_NXT (rcv t) ->
     HasAny (pending0 t') FlagACK = true /\ pendingChallengeAck t' = true).
Proof.
  unfold Recv, validateIncomingSegment. rewrite HR.
  destruct (incoming_reject seg t) as [e|] eqn:Hrej.
  - exists t, e. split; [destruct e; done|].
    split; [by intros [? _]|]. split; [intros; apply same_connection_refl|done].
  - destruct (Z.eqb_spec (SEQ seg) (rcv_NXT (rcv t))) as [E|E].
    + exists zero_tcb, NetErrClosed. split; [|split; [done|split; [|done]]].
      * unfold handleRST. destruct (state t) eqn:Hst; try done; rewrite E, Z.eqb_refl; done.
      * intros Hn. destruct Hn. done.
    + exists (or_pending0 FlagACK (triggerChallengeAckEmit t)), errDropSegment.
      split; [|split; [by intros [_ ?]|split]].
      * unfold handleRST. apply Z.eqb_neq in E. rewrite E. by destruct (state t).
      * intros _. apply same_connection_or_ack, same_connection_challenge.
      * intros _ _. split; [cbn; rewrite HasAny_lor; by rewrite orb_true_r|].
        assert (is_i8 (challengeAcks t)) as Hi by apply Hwf. unfold is_i8 in Hi.
        unfold pendingChallengeAck, triggerChallengeAckEmit.
        destruct (Z.leb_spec 0 (challengeAcks t)); cbn; [|by apply Z.ltb_lt].
        apply Z.ltb_lt. wrap_lia.
Qed.

Lemma rst_requires_exact_seq_witness :
  let t := with_state StateEstablished
             (with_snd (mkSendSpace 7 8 8 500 0 1 1)
               (with_rcv (mkRecvSpace 10 11 400) zero_tcb)) in
  let seg := {| SEQ := 12; ACK := 8; DATALEN := 0; WND := 350; Flags := FlagRST |} in
  exists t' e, Recv seg t = Ret (t', Some e) /\ same_connection t t'.
Proof.
  intros t seg. destruct (rst_requires_exact_seq seg t) as (t' & e & H & _ & H2 & _);
    [repeat split; done| |done|done|done|].
  - closed_tcb_wf.
  - exists t', e. split; [done|]. apply H2. by intros [_ ?].
Defined.

(** *** Acknowledgements *)

Lemma recv_dispatch_sync seg t t1 p :
  IsPreestablished (state t) = false -> recv_dispatch seg t = Ret (t1, p, None) ->
  t1 = zero_tcb \/ exists s, t1 = with_state s t.
Proof.
  unfold recv_dispatch, rcvEstablished, rcvFinWait1, rcvFinWait2. intros Hpre Hd.
  assert (t = with_state (state t) t) as Ht by (by destruct t).
  destruct (state t); try done; tcb_case; simplify_eq; eauto.
Qed.

Lemma recv_accept_una seg p t :
  HasAny (Flags seg) FlagACK = true -> LessThanEq (ACK seg) (snd_NXT (snd t)) = true ->
  LessThan (snd_UNA (snd t)) (ACK seg) = true ->
  snd_UNA (snd (recv_accept seg p t)) = ACK seg.
Proof.
  intros HA Hle Hlt.
  assert (snd_UNA (snd t) <> ACK seg) as Hne.
  { intros E. rewrite E in Hlt. unfold LessThan in Hlt. rewrite Z.sub_diag in Hlt. done. }
  unfold recv_accept, recv_ack, recv_window, IncomingIsDupACK. cbn.
  tcb_case; cbn in *; rewrite ?HA, ?Hle in *; cbn in *; bool_hyps; try done; congruence.
Qed.

(** acknowledgements are cumulative and stay within what was sent. When a
    synchronized connection accepts a segment and stays open, SND.NXT does not
    move, SND.UNA moves forward only and never past SND.NXT, and an
    acknowledgement of octets in flight sets SND.UNA to exactly SEG.ACK. *)
Theorem recv_acknowledges seg t t'
  (Hi : tcb_inv t) (Hs : seg_wf seg) (Hpre : IsPreestablished (state t) = false)
  (Hanti : dist (ACK seg) (snd_NXT (snd t)) <> 2 ^ 31)
  (H : Recv seg t = Ret (t', None)) (Ho : state t' <> StateClosed) :
  snd_NXT (snd t') = snd_NXT (snd t) /\
  inFlight (snd t) = dist (snd_UNA (snd t)) (snd_UNA (snd t')) + inFlight (snd t') /\
  (HasAny (Flags seg) FlagACK = true -> LessThan (snd_UNA (snd t)) (ACK seg) = true ->
   LessThanEq (ACK seg) (snd_NXT (snd t)) = true -> snd_UNA (snd t') = ACK seg).
Proof.
  pose proof (Recv_result seg t) as Hr. rewrite H in Hr.
  inversion Hr as [| | |t1 p Hv Hrej Hrst Hsyn Hd|]; subst.
  assert (state t <> StateClosed) as Hc by (by eapply incoming_reject_not_closed).
  apply recv_dispatch_sync in Hd as [->|[s ->]]; [..|done].
  { by destruct (recv_accept_rest seg p zero_tcb) as [E _]; rewrite E in Ho. }
  destruct (recv_accept_snd seg p (with_state s t)) as (_ & HN & _ & Hu).
  change (snd (with_state s t)) with (snd t) in HN, Hu.
  split; [done|]. split; [|intros; by apply (recv_accept_una seg p (with_state s t))].
  unfold inFlight. rewrite HN.
  destruct Hu as [[-> _]|(-> & _ & Hlt & Hle & _)]; [by rewrite dist_self|].
  pose proof (inv_flight _ Hi Hc). pose proof (syn_budget_bound t).
  pose proof (fin_budget_bound t). pose proof maxWindow_val'. unfold inFlight in *.
  apply ack_shrinks_flight; try apply Hs; try apply Hi; auto. lia.
Qed.

Lemma recv_acknowledges_witness :
  let t := with_state StateEstablished
             (with_snd (mkSendSpace 7 4294967290 20 500 0 1 1)
               (with_rcv (mkRecvSpace 10 11 400) zero_tcb)) in
  let seg := {| SEQ := 11; ACK := 15; DATALEN := 0; WND := 350; Flags := FlagACK |} in
  exists t', Recv seg t = Ret (t', None) /\ snd_UNA (snd t') = 15 /\ inFlight (snd t') = 5.
Proof.
  intros t seg. eexists. split; [reflexivity|].
  assert (tcb_inv t) as Hi by (constructor; try closed_tcb_wf; done).
  destruct (recv_acknowledges seg t (recv_accept seg 0 t) Hi) as (H1 & H2 & H3);
    try done; repeat split; done.
Defined.

(** The exclusion in the previous property is needed: when nothing is in
    flight, an acknowledgement exactly 2^31 after SND.NXT is both after
    SND.UNA and not after SND.NXT, and [Recv] moves SND.UNA past SND.NXT. *)

(** an acknowledgement of data never sent can be accepted: with nothing in
    flight, SEG.ACK = SND.NXT + 2^31 passes both comparisons of the modular
    order and SND.UNA is moved 2^31 octets past SND.NXT. *)
Theorem antipodal_ack_accepted nxt irs
  (Hn : is_u32 nxt) (Hr : is_u32 irs) :
  let t := with_state StateEstablished
             (with_snd (mkSendSpace nxt nxt nxt 500 0 0 0)
               (with_rcv (mkRecvSpace irs irs 400) zero_tcb)) in
  let seg := {| SEQ := irs; ACK := Add nxt (2 ^ 31); DATALEN := 0; WND := 400;
                Flags := FlagACK |} in
  exists t', Recv seg t = Ret (t', None) /\
    snd_UNA (snd t') = Add nxt (2 ^ 31) /\ snd_NXT (snd t') = nxt /\
    inFlight (snd t') = 2 ^ 31.
Proof.
  intros t seg.
  assert (is_u32 (ACK seg)) as Ha by apply u32_width.
  assert (dist nxt (ACK seg) = 2 ^ 31) as D1 by (unfold dist, seg, ACK, Add; wrap_lia).
  assert (dist (ACK seg) nxt = 2 ^ 31) as D2 by (unfold dist, seg, ACK, Add; wrap_lia).
  assert (LessThan nxt (ACK seg) = true) as L1 by (rewrite LessThan_dist, D1 by done; done).
  assert (LessThanEq (ACK seg) nxt = true) as L2 by (rewrite LessThanEq_dist, D2 by done; done).
  assert (tcb_wf t) as Hwf by (unfold t; width).
  exists (recv_accept seg 0 t). split.
  { apply (Recv_established seg t); try done;
      [by right|by left]. }
  destruct (recv_accept_snd seg 0 t) as (_ & HN & _). rewrite (recv_accept_una seg 0 t) by done.
  split; [done|]. split; [done|]. unfold inFlight. rewrite HN, recv_accept_una by done. done.
Qed.

Lemma antipodal_ack_accepted_witness :
  exists t t', Recv {| SEQ := 9; ACK := 2147483648; DATALEN := 0; WND := 400; Flags := 16 |} t
      = Ret (t', None) /\ snd_UNA (snd t) = 0 /\ inFlight (snd t') = 2 ^ 31.
Proof.
  destruct (antipodal_ack_accepted 0 9) as (t' & H1 & H2 & H3 & H4); [done|done|].
  eexists _, t'. split; [exact H1|]. split; done.
Defined.

(** *** The connection diagram *)



(** *** Behaviours outside the RFC *)

(** C40: [Recv] panics exactly in TIME-WAIT, on an acceptable segment without
    RST and SYN (such as the peer's retransmitted FIN once the window moved, or
    a late pure ACK); in every other state no segment makes it panic. *)
Theorem recv_panics_iff seg t (Hs : seg_wf seg) (Hwf : tcb_wf t) :
  Recv seg t = Panic <->
  state t = StateTimeWait /\ WND seg <= maxWindow /\ SEQ seg = rcv_NXT (rcv t) /\
  fits_window seg t /\
  HasAny (Flags seg) FlagRST = false /\ HasAny (Flags seg) FlagSYN = false.
Proof.
  split.
  - intros E. pose proof (Recv_result seg t) as Hr. rewrite E in Hr.
    inversion Hr as [| | | |Hv Hsyn Hst]; subst.
    destruct (validateIncoming_cases _ _ _ _ Hv) as (_ & Hrej & Hrst).
    apply incoming_reject_sync in Hrej; rewrite ?Hst; try done. destruct Hrej as (? & ? & ?). done.
  - intros (Hst & Hw & Hq & Hfit & Hrst & Hsyn).
    rewrite Recv_closing by (by rewrite ?Hst). unfold recv_dispatch. by rewrite Hst.
Qed.

Lemma recv_panics_iff_witness :
  let t := with_state StateTimeWait (with_rcv (mkRecvSpace 10 11 400) zero_tcb) in
  Recv {| SEQ := 11; ACK := 1; DATALEN := 0; WND := 9; Flags := FlagACK |} t = Panic.
Proof.
  intros t. apply recv_panics_iff; [repeat split; done|closed_tcb_wf|].
  split_and!; try done. by right.
Defined.

(** LAST-ACK ends on any acknowledgement: an acceptable ACK segment closes
    the connection even when SEG.ACK does not cover the FIN, whatever is still
    in flight. *)
Theorem last_ack_closes_on_any_ack seg t
  (Hs : seg_wf seg) (Hwf : tcb_wf t) (Hst : state t = StateLastAck)
  (Hw : WND seg <= maxWindow) (Hq : SEQ seg = rcv_NXT (rcv t)) (Hf : fits_window seg t)
  (HR : HasAny (Flags seg) FlagRST = false) (HS : HasAny (Flags seg) FlagSYN = false)
  (HA : HasAny (Flags seg) FlagACK = true) :
  exists t', Recv seg t = Ret (t', None) /\ state t' = StateClosed.
Proof.
  rewrite Recv_closing by (by rewrite ?Hst). unfold recv_dispatch. rewrite Hst, HA.
  eexists. split; [done|].
  exact (proj1 (recv_accept_rest seg 0 zero_tcb)).
Qed.

Lemma last_ack_closes_on_any_ack_witness :
  let t := with_state StateLastAck (with_snd (mkSendSpace 7 8 120 500 0 1 1)
             (with_rcv (mkRecvSpace 10 11 400) zero_tcb)) in
  inFlight (snd t) = 112 /\
  exists t', Recv {| SEQ := 11; ACK := 8; DATALEN := 0; WND := 9; Flags := FlagACK |} t
    = Ret (t', None) /\ state t' = StateClosed.
Proof.
  intros t. split; [done|]. apply (last_ack_closes_on_any_ack _ t); try done. by right.
Defined.

(** CLOSING ends with the block's own acknowledgement: sending the ACK of the peer's
    FIN moves to TIME-WAIT although the FIN of this side is not acknowledged; the
    acknowledgement of that FIN then arrives in TIME-WAIT and panics. *)
Theorem closing_left_by_own_ack :
  let t := with_pending FlagACK 0 (with_state StateClosing
             (with_snd (mkSendSpace 7 8 9 500 0 1 1)
               (with_rcv (mkRecvSpace 10 12 400) zero_tcb))) in
  let own := {| SEQ := 9; ACK := 12; DATALEN := 0; WND := 400; Flags := FlagACK |} in
  exists t', PendingSegment 0 t = Ret (Some own) /\ Send own t = (t', None) /\
    state t' = StateTimeWait /\ inFlight (snd t') = 1 /\
    Recv {| SEQ := 12; ACK := 9; DATALEN := 0; WND := 500; Flags := FlagACK |} t' = Panic.
Proof. eexists. repeat split. Qed.

(** *** Challenge acknowledgements *)

(** One round of the RFC 5961 exchange: an in-window RST with the wrong
    sequence number arrives and the challenge ACK it triggers is sent. *)
Definition challenge_round (t : ControlBlock) : ControlBlock :=
  let rst := {| SEQ := u32 (rcv_NXT (rcv t) + 1); ACK := 0; DATALEN := 0; WND := 0;
                Flags := FlagRST |} in
  match Recv rst t with
  | Ret (t, _) => fst (Send (MakeChallengeACK t) t)
  | Panic => t
  end.

(** the challenge-ACK counter overflows: it is an int8 and the RST path
    has no limit, so after 128 rounds it holds -128, whose negation is -128
    again: the challenge ACK stays pending although it was sent, and
    [PendingSegment] offers nothing else from then on. *)
Theorem challenge_counter_overflow :
  let t := with_state StateEstablished
             (with_snd (mkSendSpace 7 8 8 500 0 1 1)
               (with_rcv (mkRecvSpace 10 11 400) zero_tcb)) in
  let t' := Nat.iter 128 challenge_round t in
  challengeAcks (Nat.iter 127 challenge_round t) = 127 /\
  challengeAcks t' = -128 /\ pendingChallengeAck t' = true /\
  PendingSegment 100 t' = Ret (Some (MakeChallengeACK t')) /\
  fst (Send (MakeChallengeACK t') t') = t'.
Proof. vm_compute. repeat split; reflexivity. Qed.

End ControlBlockThms.
