(* ===== verification/TcpExchange.v ===== *)
(** * Two control blocks talking to each other

    The control blocks of a client and of a server connected by a lossless
    link: the three-way handshake, the transfer of data with its
    acknowledgement, and the orderly close, each composed of the calls the
    Handler makes ([PendingSegment], [Send] at one end, [Recv] at the other).
    All sequence numbers are arbitrary, so the scenarios include the ones in
    which a number wraps around 2^32. *)
From S2P Require Import Prelude Errors SeqNum Segment ControlBlock ControlBlockInv.
From S2P Require Import ControlBlockInv ControlBlockSend ControlBlockThms.

Module TcpExchange.
Import SeqNum Segment ControlBlock ControlBlockProps ControlBlockWf ControlBlockInv
  ControlBlockSend ControlBlockThms.

(** ** Definitions *)

(** One segment from [a] to [b], with [n] octets of data available at [a];
    [None] when there is nothing to send or an end refuses the segment. *)
Definition transmit (n : Z) (a b : ControlBlock)
    : outcome (option (ControlBlock * ControlBlock)) :=
  oseg ← PendingSegment n a;
  match oseg with
  | None => Ret None
  | Some seg =>
      match Send seg a with
      | (_, Some _) => Ret None
      | (a, None) =>
          '(b, err) ← Recv seg b;
          match err with Some _ => Ret None | None => Ret (Some (a, b)) end
      end
  end.

(** Both ends send until the other has accepted: [Some] of the pair on success. *)
Definition then_transmit_back (n : Z) (r : outcome (option (ControlBlock * ControlBlock)))
    : outcome (option (ControlBlock * ControlBlock)) :=
  o ← r;
  match o with
  | None => Ret None
  | Some (a, b) =>
      o ← transmit n b a;
      match o with None => Ret None | Some (b, a) => Ret (Some (a, b)) end
  end.

(** Active open at the client, passive open at the server, SYN, SYN-ACK, ACK.
    The result is (server, client). *)
Definition handshake (issC wndC issS wndS : Z)
    : outcome (option (ControlBlock * ControlBlock)) :=
  let syn := ClientSynSegment issC wndC in
  match Send syn zero_tcb, Open issS wndS zero_tcb with
  | (c, None), (s, None) =>
      '(s, err) ← Recv syn s;
      match err with
      | Some _ => Ret None
      | None => then_transmit_back 0 (transmit 0 s c)
      end
  | _, _ => Ret None
  end.

(** An established connection with nothing in flight: each end expects what the
    other sends next, and knows a window that the other still offers. *)
Record connected (a b : ControlBlock) : Prop := {
  conn_a : state a = StateEstablished;
  conn_b : state b = StateEstablished;
  conn_ab : snd_NXT (snd a) = rcv_NXT (rcv b);
  conn_ba : snd_NXT (snd b) = rcv_NXT (rcv a);
  conn_una_a : snd_UNA (snd a) = snd_NXT (snd a);
  conn_una_b : snd_UNA (snd b) = snd_NXT (snd b);
  conn_wnd_ab : snd_WND (snd a) <= rcv_WND (rcv b);
  conn_wnd_ba : snd_WND (snd b) <= rcv_WND (rcv a)
}.

Definition idle (t : ControlBlock) : Prop :=
  pending0 t = 0 /\ pending1 t = 0 /\ challengeAcks t = 0 /\ dupack t = 0 /\ nRetransmit t = 0.

(** The blocks during the handshake. *)
Definition syn_sent (iss wnd : Z) : ControlBlock :=
  mkTCB (mkSendSpace iss iss (u32 (iss + 1)) 1 0 0 0) (mkRecvSpace 0 0 wnd) 0 0 0
    StateSynSent 0 0 0.
Definition syn_received (issC wndC issS wndS nxt pending : Z) : ControlBlock :=
  mkTCB (mkSendSpace issS issS nxt wndC 0 issC 0)
    (mkRecvSpace issC (u32 (issC + 1)) wndS) 0 pending 0 StateSynRcvd 0 0 0.

(** ** Lemmas *)

Ltac u32_hyps :=
  repeat match goal with H : is_u32 _ |- _ => unfold is_u32 in H end.

(** Symbolic execution: evaluates the tests that involve constants only. *)
Ltac closed_bool b :=
  let v := eval vm_compute in b in
  lazymatch v with true => idtac | false => idtac end;
  change b with v.
Ltac run :=
  repeat progress (cbn; repeat match goal with
  | |- context [HasAny ?p ?q] => closed_bool (HasAny p q)
  | |- context [HasAll ?p ?q] => closed_bool (HasAll p q)
  | |- context [state_eqb ?p ?q] => closed_bool (state_eqb p q)
  | |- context [synack =? 0] => closed_bool (synack =? 0)
  | |- context [FlagACK =? 0] => closed_bool (FlagACK =? 0)
  | |- context [LEN ?s] => let v := eval vm_compute in (LEN s) in
      lazymatch v with Z0 => idtac | Zpos _ => idtac end; change (LEN s) with v
  end).

Lemma UpdateForward_1 v : UpdateForward v 1 = u32 (v + 1).
Proof. done. Qed.

Lemma LessThan_refl v : LessThan v v = false.
Proof. rewrite LessThan_dist, dist_self. done. Qed.

Lemma dist_next v : dist v (u32 (v + 1)) = 1.
Proof. by apply (dist_Add v 1). Qed.

Lemma LessThan_next v : LessThan v (u32 (v + 1)) = true.
Proof. by rewrite LessThan_dist, dist_next. Qed.

Lemma LessThanEq_refl v : LessThanEq v v = true.
Proof. unfold LessThanEq. by rewrite Z.eqb_refl. Qed.

Lemma Recv_accepts seg t t1 p :
  validateIncomingSegment seg t = (t, None) ->
  HasAny (Flags seg) FlagSYN && negb (IsPreestablished (state t)) = false ->
  recv_dispatch seg t = Ret (t1, p, None) ->
  Recv seg t = Ret (recv_accept seg p t1, None).
Proof. intros Hv Hs Hd. unfold Recv. rewrite Hv, Hs, Hd. done. Qed.

Section Handshake.
Context (issC wndC issS wndS : Z).
Context (HiC : is_u32 issC) (HiS : is_u32 issS).
Context (HwC : 0 < wndC <= maxWindow) (HwS : 0 <= wndS <= maxWindow).

Lemma wndC_u32 : is_u32 wndC.
Proof. pose proof maxWindow_val'. unfold is_u32. lia. Qed.
Lemma wndS_u32 : is_u32 wndS.
Proof. pose proof maxWindow_val'. unfold is_u32. lia. Qed.
#[local] Hint Resolve wndC_u32 wndS_u32 : width.

Lemma server_gets_syn :
  Recv (ClientSynSegment issC wndC) (prepareToHandshake issS wndS StateListen zero_tcb)
  = Ret (syn_received issC wndC issS wndS issS synack, None).
Proof.
  assert ((maxWindow <? wndC) = false) as E by (apply Z.ltb_ge; lia).
  etrans; [eapply Recv_accepts; [|done|done]|].
  - unfold validateIncomingSegment, incoming_reject. run. by rewrite E.
  - unfold recv_accept, recv_ack, recv_window. run.
    destruct (LessThan issS 0 || (wndC <? wndC)); done.
Qed.

Lemma server_sends_synack :
  let t := syn_received issC wndC issS wndS issS synack in
  let seg := {| SEQ := issS; ACK := u32 (issC + 1); WND := wndS; Flags := synack; DATALEN := 0 |} in
  PendingSegment 0 t = Ret (Some seg) /\
  Send seg t = (syn_received issC wndC issS wndS (u32 (issS + 1)) 0, None).
Proof.
  intros t seg. split.
  - unfold PendingSegment. run.
    pose proof (maxSend_bounds (mkSendSpace issS issS issS wndC 0 issC 0) wndC_u32).
    destruct (Z.ltb_spec (maxSend (mkSendSpace issS issS issS wndC 0 issC 0)) 0); [lia|done].
  - unfold Send. rewrite validateOutgoing_ok.
    + unfold send_account. run. by rewrite LessThan_refl.
    + unfold seg_wf. width.
    + unfold t. width.
    + done.
    + apply HwS.
    + done.
    + done.
    + right; left. done.
Qed.

(** The client after the SYN-ACK, and both ends once established. *)
Definition established (iss nxt rnxt irs wndR wndL wl1 wl2 pending : Z) : ControlBlock :=
  mkTCB (mkSendSpace iss nxt nxt wndR 0 wl1 wl2) (mkRecvSpace irs rnxt wndL) 0 pending 0
    StateEstablished 0 0 0.

Lemma client_gets_synack :
  Recv {| SEQ := issS; ACK := u32 (issC + 1); WND := wndS; Flags := synack; DATALEN := 0 |}
    (syn_sent issC wndC)
  = Ret (established issC (u32 (issC + 1)) (u32 (issS + 1)) issS wndS wndC issS
           (u32 (issC + 1)) FlagACK, None).
Proof.
  assert ((maxWindow <? wndS) = false) as E by (apply Z.ltb_ge; lia).
  etrans; [eapply Recv_accepts; [|done|]|].
  - unfold validateIncomingSegment, incoming_reject. run.
    rewrite E, LessThan_next, LessThanEq_refl. run. done.
  - unfold recv_dispatch, rcvSynSent. run. by rewrite Z.eqb_refl.
  - unfold recv_accept, recv_ack, recv_window, IncomingIsDupACK. run.
    rewrite LessThan_next, LessThanEq_refl. run. rewrite LessThan_next, LessThan_refl.
    rewrite andb_false_r. done.
Qed.
Lemma UpdateForward_0 v : is_u32 v -> UpdateForward v 0 = v.
Proof.
  intros. unfold UpdateForward, Add, u32. rewrite Z.add_0_r. u32_hyps.
  rewrite Z.mod_small; lia.
Qed.

Lemma client_sends_ack nxt rnxt irs wndR wndL wl1 wl2 :
  is_u32 nxt -> is_u32 rnxt -> is_u32 irs -> is_u32 wndR -> 0 <= wndL <= maxWindow ->
  is_u32 wl1 -> is_u32 wl2 ->
  let t := established issC nxt rnxt irs wndR wndL wl1 wl2 FlagACK in
  let seg := {| SEQ := nxt; ACK := rnxt; WND := wndL; Flags := FlagACK; DATALEN := 0 |} in
  PendingSegment 0 t = Ret (Some seg) /\
  Send seg t = (established issC nxt rnxt irs wndR wndL wl1 wl2 0, None).
Proof.
  intros ? ? ? HwR HwL ? ? t seg.
  assert (is_u32 wndL) by (pose proof maxWindow_val'; unfold is_u32; lia). split.
  - unfold PendingSegment. run.
    pose proof (maxSend_bounds (mkSendSpace issC nxt nxt wndR 0 wl1 wl2) HwR).
    destruct (Z.ltb_spec (maxSend (mkSendSpace issC nxt nxt wndR 0 wl1 wl2)) 0); [lia|done].
  - unfold Send. rewrite validateOutgoing_ok.
    + unfold send_account. run. by rewrite LessThan_refl, UpdateForward_0.
    + unfold seg_wf. width.
    + unfold t. width.
    + done.
    + apply HwL.
    + done.
    + done.
    + right; left. done.
Qed.

Lemma server_gets_ack :
  Recv {| SEQ := u32 (issC + 1); ACK := u32 (issS + 1); WND := wndC; Flags := FlagACK;
          DATALEN := 0 |} (syn_received issC wndC issS wndS (u32 (issS + 1)) 0)
  = Ret (established issS (u32 (issS + 1)) (u32 (issC + 1)) issC wndC wndS (u32 (issC + 1))
           (u32 (issS + 1)) 0, None).
Proof.
  assert ((maxWindow <? wndC) = false) as E by (apply Z.ltb_ge; lia).
  etrans; [eapply Recv_accepts; [|done|]|].
  - unfold validateIncomingSegment, incoming_reject. run.
    rewrite E, LessThan_next, LessThanEq_refl, Z.eqb_refl, !InWindow_dist by auto with width.
    unfold Last. run. rewrite dist_self. destruct (wndS =? 0) eqn:E0; [cbn; by rewrite andb_false_r|]. run.
    replace (0 <? wndS) with true by (symmetry; apply Z.ltb_lt; bool_hyps; lia). done.
  - unfold recv_dispatch, rcvSynRcvd. run. by rewrite Z.eqb_refl.
  - unfold recv_accept, recv_ack, recv_window, IncomingIsDupACK. run.
    rewrite !LessThan_next, orb_true_r. run. rewrite LessThanEq_refl, LessThan_next,
      LessThan_refl, !andb_false_r. run.
    by rewrite UpdateForward_0 by apply u32_width.
Qed.

Lemma handshake_result :
  handshake issC wndC issS wndS = Ret (Some
    (established issS (u32 (issS + 1)) (u32 (issC + 1)) issC wndC wndS (u32 (issC + 1))
       (u32 (issS + 1)) 0,
     established issC (u32 (issC + 1)) (u32 (issS + 1)) issS wndS wndC issS
       (u32 (issC + 1)) 0)).
Proof.
  unfold handshake.
  assert (Send (ClientSynSegment issC wndC) zero_tcb = (syn_sent issC wndC, None)) as ->.
  { unfold Send, validateOutgoingSegment, isFirstSYN. run.
    replace (0 <? wndC) with true by (symmetry; apply Z.ltb_lt; lia). run.
    replace (maxWindow <? wndC) with false by (symmetry; apply Z.ltb_ge; lia). run.
    unfold send_account. run. by rewrite LessThan_refl. }
  unfold Open. run. replace (maxWindow <? wndS) with false by (symmetry; apply Z.ltb_ge; lia).
  rewrite server_gets_syn. destruct server_sends_synack as [HP HS].
  destruct (client_sends_ack (u32 (issC + 1)) (u32 (issS + 1)) issS wndS wndC issS
    (u32 (issC + 1))) as [HP' HS']; auto with width; [lia|].
  unfold then_transmit_back, transmit. cbn [mbind outcome_bind].
  rewrite HP. cbn [mbind outcome_bind]. rewrite HS, client_gets_synack.
  cbn [mbind outcome_bind]. rewrite HP'. cbn [mbind outcome_bind].
  by rewrite HS', server_gets_ack.
Qed.

End Handshake.

Lemma established_inv iss nxt rnxt irs wndR wndL wl1 wl2 :
  is_u32 iss -> is_u32 nxt -> is_u32 rnxt -> is_u32 irs -> is_u32 wl1 -> is_u32 wl2 ->
  0 <= wndR <= maxWindow -> 0 <= wndL <= maxWindow ->
  tcb_inv (established iss nxt rnxt irs wndR wndL wl1 wl2 0).
Proof.
  intros. pose proof maxWindow_val'.
  assert (is_u32 wndR) by (unfold is_u32; lia). assert (is_u32 wndL) by (unfold is_u32; lia).
  constructor; [unfold established; width|cbn; lia|cbn; lia|..];
    unfold inFlight, fin_budget, syn_budget; cbn; rewrite ?dist_self; try done; lia.
Qed.

(** C13: the three-way handshake synchronizes both ends. For all initial
    sequence numbers (wrapping ones included) and all legal windows, an active
    open against a listening server ends with both control blocks ESTABLISHED,
    each expecting exactly the other's next sequence number, nothing in
    flight and nothing pending, and each knowing the window the other
    advertised. *)
Theorem handshake_connects issC wndC issS wndS
  (HiC : is_u32 issC) (HiS : is_u32 issS)
  (HwC : 0 < wndC <= maxWindow) (HwS : 0 <= wndS <= maxWindow) :
  exists s c, handshake issC wndC issS wndS = Ret (Some (s, c)) /\
    connected s c /\ idle s /\ idle c /\ tcb_inv s /\ tcb_inv c /\
    snd_NXT (snd c) = Add issC 1 /\ snd_NXT (snd s) = Add issS 1 /\
    snd_WND (snd c) = wndS /\ snd_WND (snd s) = wndC.
Proof.
  assert (is_u32 wndC) by by apply wndC_u32. assert (is_u32 wndS) by by apply wndS_u32.
  rewrite handshake_result by done. eexists _, _. split; [done|].
  split; [constructor; cbn; done|]. split; [done|]. split; [done|].
  split; [apply established_inv|split; [apply established_inv|done]];
    auto using u32_width; lia.
Qed.

Lemma handshake_connects_witness :
  exists s c, handshake 4294967295 1000 2147483648 0 = Ret (Some (s, c)) /\
    connected s c /\ snd_NXT (snd c) = 0.
Proof.
  destruct (handshake_connects 4294967295 1000 2147483648 0)
    as (s & c & H & Hc & _ & _ & _ & _ & Hn & _); [done|done|done|done|].
  exists s, c. split; [exact H|]. split; [exact Hc|]. rewrite Hn. reflexivity.
Defined.

(** ** Data transfer *)

(** How much of [n] octets the next segment carries. *)
Definition sendable (n : Z) (t : ControlBlock) : Z :=
  let m := Z.min n (maxSend (snd t)) in
  if 0 <? snd_MSS (snd t) then Z.min (snd_MSS (snd t)) m else m.

Lemma maxSend_u32 t : tcb_wf t -> 0 <= maxSend (snd t) <= snd_WND (snd t).
Proof.
  intros Hwf. assert (is_u32 (snd_WND (snd t))) as HW by apply Hwf.
  rewrite maxSend_bounds by done. pose proof (inFlight_u32 (snd t)). u32_hyps. lia.
Qed.

Lemma sendable_bounds n t :
  tcb_wf t -> 0 <= n -> 0 <= sendable n t <= Z.min n (maxSend (snd t)).
Proof.
  intros Hwf Hn. pose proof (maxSend_u32 t Hwf). unfold sendable. bool_cases; lia.
Qed.

Lemma PendingSegment_established n t :
  tcb_wf t -> state t = StateEstablished -> challengeAcks t = 0 -> dupack t = 0 ->
  (pending0 t = 0 /\ 0 < n /\ 0 < maxSend (snd t)) \/ pending0 t = FlagACK ->
  0 <= n < 2 ^ 31 ->
  PendingSegment n t = Ret (Some
    {| SEQ := snd_NXT (snd t); ACK := rcv_NXT (rcv t); WND := rcv_WND (rcv t);
       Flags := FlagACK; DATALEN := sendable n t |}).
Proof.
  intros Hwf Hst Hc Hd Hp Hn. pose proof (maxSend_u32 t Hwf) as Hm.
  assert (is_u32 (snd_WND (snd t))) as HW by apply Hwf.
  assert (is_u32 (snd_MSS (snd t))) as HM by apply Hwf.
  unfold PendingSegment, pendingChallengeAck, HasPendingRetransmit, sendable.
  rewrite Hc, Hd, Hst. cbn. rewrite andb_false_r.
  assert (Z.lor (pending0 t) FlagACK = FlagACK) as -> by (by destruct Hp as [[-> _]| ->]).
  assert ((pending0 t =? 0) && (n =? 0) = false) as ->.
  { destruct Hp as [(-> & ? & _)| ->]; [|done]. by apply Z.eqb_neq; lia. }
  assert ((maxSend (snd t) =? 0) && (pending0 t =? 0) = false) as ->.
  { destruct Hp as [(_ & _ & ?)| ->]; [|apply andb_false_r].
    replace (maxSend (snd t) =? 0) with false by (symmetry; apply Z.eqb_neq; lia). done. }
  run. u32_hyps.
  bool_cases; cbn; try lia; do 3 f_equal; unfold u32; rewrite Z.mod_small; lia.
Qed.

(** The block after sending an ACK segment with [len] octets at SND.NXT. *)
Definition after_ack_sent (len : Z) (t : ControlBlock) : ControlBlock :=
  with_snd (snd_with_NXT (Add (snd_NXT (snd t)) len) (snd t)) (with_pending 0 0 t).

(** A data or ACK segment, with or without PSH, with any legal window. *)
Lemma Send_data_segment t len f w :
  tcb_inv t -> state t = StateEstablished -> challengeAcks t = 0 ->
  pending0 t = 0 \/ pending0 t = FlagACK -> 0 <= len <= snd_WND (snd t) ->
  f = FlagACK \/ f = Z.lor FlagACK FlagPSH -> 0 <= w <= maxWindow ->
  Send {| SEQ := snd_NXT (snd t); ACK := rcv_NXT (rcv t); WND := w;
          Flags := f; DATALEN := len |} t
  = (with_rcv (rcv_with_WND w (rcv t)) (after_ack_sent len t), None).
Proof.
  intros Hi Hst Hc Hp Hl Hf Hw. pose proof (inv_wf _ Hi) as Hwf. pose proof maxWindow_val'.
  assert (is_u32 (snd_WND (snd t))) as HW by apply Hwf.
  assert (is_u32 len) as Hlen by (u32_hyps; unfold is_u32; lia).
  match goal with |- Send ?s t = _ => set (seg := s) end.
  assert (LEN seg = len) as HL
    by (rewrite LEN_bits by done; unfold seg; destruct Hf as [-> | ->]; run; wrap_lia).
  assert (HasAny f FlagFIN = false /\ HasAny f FlagACK = true) as [HF HA]
    by (by destruct Hf as [-> | ->]).
  unfold Send. rewrite validateOutgoing_ok; try done.
  - unfold send_dispatch. rewrite Hst. change (Flags seg) with f. rewrite HF.
    unfold send_pending. cbn. rewrite (inv_pending1 _ Hi).
    assert (Z.ldiff (pending0 t) f = 0) as ->
      by (by destruct Hp as [-> | ->], Hf as [-> | ->]).
    run. unfold pendingChallengeAck, send_account. cbn. rewrite Hc. cbn.
    rewrite LessThan_refl, HL. by destruct t as [? [] ? ? ? ? ? ? ?].
  - destruct_wf Hwf. unfold seg_wf, seg. cbn. unfold is_u32 in *.
    split_and!; auto; try lia; destruct Hf as [-> | ->]; closed_width.
  - by rewrite Hst.
  - cbn. lia.
  - by rewrite Hst.
  - destruct (decide (len = 0)) as [->|Hne]; [right; left|right; right; left]; cbn;
      rewrite ?HL; repeat split; try done; lia.
Qed.

Lemma Send_ack_segment t len :
  tcb_inv t -> state t = StateEstablished -> challengeAcks t = 0 ->
  pending0 t = 0 \/ pending0 t = FlagACK -> 0 <= len <= snd_WND (snd t) ->
  Send {| SEQ := snd_NXT (snd t); ACK := rcv_NXT (rcv t); WND := rcv_WND (rcv t);
          Flags := FlagACK; DATALEN := len |} t = (after_ack_sent len t, None).
Proof.
  intros Hi Hst Hc Hp Hl. assert (is_u32 (rcv_WND (rcv t))) as HW by apply (inv_wf _ Hi).
  rewrite Send_data_segment; auto.
  - by destruct t as [? [] ? ? ? ? ? ? ?].
  - u32_hyps. split; [lia|]. apply Hi.
Qed.

Lemma recv_accept_no_dup seg p t :
  ACK seg = snd_NXT (snd t) -> dupack t = 0 -> nRetransmit t = 0 ->
  let t' := recv_accept seg p t in
  snd_NXT (snd t') = snd_NXT (snd t) /\ dupack t' = 0 /\ nRetransmit t' = 0.
Proof.
  intros Ha Hd Hn t'. destruct (recv_accept_snd seg p t) as (_ & HN & _ & Hu).
  fold t' in HN, Hu. split; [done|].
  destruct Hu as [(_ & -> & [->|(E & _)])|(_ & _ & _ & _ & -> & ->)]; auto.
  unfold IncomingIsDupACK in E. rewrite Ha, LessThan_refl, andb_false_r in E. done.
Qed.

(** An acknowledgement of everything sent. *)
Lemma recv_accept_acks_all seg p t :
  tcb_inv t -> state t <> StateClosed -> HasAny (Flags seg) FlagACK = true ->
  ACK seg = snd_NXT (snd t) -> dupack t = 0 -> nRetransmit t = 0 ->
  let t' := recv_accept seg p t in
  snd_NXT (snd t') = snd_NXT (snd t) /\ snd_UNA (snd t') = snd_NXT (snd t) /\
  dupack t' = 0 /\ nRetransmit t' = 0 /\
  (snd_WND (snd t') = snd_WND (snd t) \/ snd_WND (snd t') = WND seg).
Proof.
  intros Hi Hc HA Ha Hd Hn t'.
  destruct (recv_accept_snd seg p t) as (_ & HN & HW & Hu). fold t' in HN, HW, Hu.
  pose proof (inv_flight _ Hi Hc). pose proof (syn_budget_bound t).
  pose proof (fin_budget_bound t). pose proof maxWindow_val'.
  assert (snd_UNA (snd t') = snd_NXT (snd t)) as HU.
  { destruct (LessThan (snd_UNA (snd t)) (ACK seg)) eqn:E.
    - rewrite <- Ha. apply recv_accept_una; auto. rewrite Ha. apply LessThanEq_refl.
    - destruct Hu as [(-> & _)|(-> & _)]; [|done].
      assert (dist (snd_UNA (snd t)) (snd_NXT (snd t)) = 0) as E0.
      { rewrite LessThan_dist, Ha in E. unfold inFlight in *. 
        pose proof (dist_range (snd_UNA (snd t)) (snd_NXT (snd t))). u32_hyps.
        apply andb_false_iff in E as [E|E]; bool_hyps; lia. }
      apply dist_zero; [apply Hi..|done]. }
  destruct (recv_accept_no_dup seg p t) as (_ & E1 & E2); auto.
Qed.

Lemma LEN_ack seg : Flags seg = FlagACK -> is_u32 (DATALEN seg) -> LEN seg = DATALEN seg.
Proof. intros HF Hd. rewrite LEN_bits, HF by done. run. wrap_lia. Qed.

Lemma Recv_ack_segment seg t :
  tcb_wf t -> state t = StateEstablished -> seg_wf seg -> Flags seg = FlagACK ->
  WND seg <= maxWindow ->
  SEQ seg = rcv_NXT (rcv t) -> ACK seg = snd_NXT (snd t) -> DATALEN seg <= rcv_WND (rcv t) ->
  Recv seg t = Ret (recv_accept seg (if 0 <? DATALEN seg then FlagACK else 0) t, None).
Proof.
  intros Hwf Hst Hs HF Hw Hq Ha Hl.
  assert (is_u32 (DATALEN seg)) as Hd by apply Hs.
  assert (is_u32 (rcv_WND (rcv t))) as HW by apply Hwf. u32_hyps.
  rewrite Recv_established; rewrite ?HF; try done.
  - change (HasAny FlagACK FlagFIN) with false. by rewrite orb_false_r.
  - unfold fits_window. rewrite LEN_ack by done. lia.
  - intros _. left. rewrite Ha. apply LessThanEq_refl.
Qed.

Lemma transmit_established n a b :
  tcb_inv a -> tcb_inv b -> state a = StateEstablished -> state b = StateEstablished ->
  challengeAcks a = 0 -> dupack a = 0 ->
  snd_NXT (snd a) = rcv_NXT (rcv b) -> rcv_NXT (rcv a) = snd_NXT (snd b) ->
  (pending0 a = 0 /\ 0 < n /\ 0 < maxSend (snd a)) \/ pending0 a = FlagACK ->
  0 <= n < 2 ^ 31 -> sendable n a <= rcv_WND (rcv b) ->
  let len := sendable n a in
  let seg := {| SEQ := snd_NXT (snd a); ACK := rcv_NXT (rcv a); WND := rcv_WND (rcv a);
                Flags := FlagACK; DATALEN := len |} in
  let a' := after_ack_sent len a in
  let b' := recv_accept seg (if 0 <? len then FlagACK else 0) b in
  transmit n a b = Ret (Some (a', b')) /\ tcb_inv a' /\ tcb_inv b'.
Proof.
  intros Ha Hb Sa Sb Ca Da Nab Nba Hp Hn Hfit len seg a' b'.
  pose proof (inv_wf _ Ha) as Hwa. pose proof (inv_wf _ Hb) as Hwb.
  pose proof (sendable_bounds n a Hwa ltac:(lia)) as Hsb. fold len in Hsb, Hfit.
  pose proof (maxSend_u32 a Hwa) as Hm.
  assert (PendingSegment n a = Ret (Some seg)) as HP by (by apply PendingSegment_established).
  assert (Send seg a = (a', None)) as HS.
  { apply Send_ack_segment; auto; [|lia]. destruct Hp as [[? _]|?]; auto. }
  assert (trimmed seg seg) as Ht by (constructor; auto; cbn; [lia|apply Hwa]).
  assert (seg_wf seg) as Hseg.
  { pose proof (PendingSegment_kind n a _ Hwa ltac:(lia) HP) as Hk.
    exact (step_send_wf n seg seg a Hwa Hk Ht). }
  assert (Recv seg b = Ret (b', None)) as HR.
  { apply Recv_ack_segment; auto. apply Ha. }
  split; [|split].
  - unfold transmit. rewrite HP. cbn [mbind outcome_bind]. rewrite HS, HR. done.
  - apply (step_send_inv n seg seg a); auto. by rewrite Sa.
  - apply (Recv_inv seg b b' None); auto. cbn. rewrite Nba, dist_self. done.
Qed.

(** data transfer: on an established idle connection, [n] octets offered to
    one end travel in one segment of min(n, window, MSS) octets which the other
    end accepts, advancing RCV.NXT by exactly that many octets; its
    acknowledgement returns, and the connection is again synchronized and
    idle, with nothing in flight. *)
Theorem data_is_acknowledged n a b
  (Hcon : connected a b) (Hia : idle a) (Hib : idle b) (Ha : tcb_inv a) (Hb : tcb_inv b)
  (Hn : 0 < n < 2 ^ 31) (Hw : 0 < snd_WND (snd a)) :
  exists a' b', then_transmit_back 0 (transmit n a b) = Ret (Some (a', b')) /\
    connected a' b' /\ idle a' /\ idle b' /\ tcb_inv a' /\ tcb_inv b' /\
    rcv_NXT (rcv b') = Add (rcv_NXT (rcv b)) (sendable n a) /\
    rcv_NXT (rcv a') = rcv_NXT (rcv a) /\
    0 < sendable n a <= Z.min n (snd_WND (snd a)).
Proof.
  destruct Hcon as [Sa Sb Nab Nba Ua Ub Wab Wba].
  destruct Hia as (Pa & _ & Ca & Da & Ra), Hib as (Pb & _ & Cb & Db & Rb).
  pose proof (inv_wf _ Ha) as Hwa. pose proof (inv_wf _ Hb) as Hwb.
  assert (maxSend (snd a) = snd_WND (snd a)) as HM.
  { rewrite maxSend_bounds by apply Hwa. unfold inFlight. rewrite Ua, dist_self. lia. }
  pose proof (sendable_bounds n a Hwa ltac:(lia)) as Hsb. rewrite HM in Hsb.
  assert (0 < sendable n a) as Hpos.
  { unfold sendable. rewrite HM. bool_cases; lia. }
  destruct (transmit_established n a b) as (HT & Ha' & Hb'); auto; try lia.
  set (seg := {| SEQ := snd_NXT (snd a) |}) in *.
  set (a1 := after_ack_sent (sendable n a) a) in *.
  replace (0 <? sendable n a) with true in * by (symmetry; by apply Z.ltb_lt).
  set (b1 := recv_accept seg FlagACK b) in *.
  destruct (recv_accept_acks_all seg FlagACK b) as (N1 & U1 & D1 & R1 & W1);
    auto; [by rewrite Sb|]. fold b1 in N1, U1, D1, R1, W1.
  destruct (recv_accept_rest seg FlagACK b) as (S1 & P1 & _ & C1 & RW1 & _ & RN1 & _).
  fold b1 in S1, P1, C1, RW1, RN1. rewrite Pb in P1.
  assert (LEN seg = sendable n a) as HL.
  { apply LEN_ack; [done|]. pose proof (maxSend_u32 a Hwa).
    assert (is_u32 (snd_WND (snd a))) by apply Hwa. u32_hyps. cbn. unfold is_u32. lia. }
  rewrite HL in RN1.
  assert (sendable 0 b1 = 0) as H0.
  { pose proof (sendable_bounds 0 b1 (inv_wf _ Hb') ltac:(lia)). lia. }
  assert (is_u32 (rcv_WND (rcv a))) as HWa by apply Hwa. u32_hyps.
  assert (snd_NXT (snd a1) = Add (snd_NXT (snd a)) (sendable n a) /\
    snd_WND (snd a1) = snd_WND (snd a) /\ rcv a1 = rcv a /\ state a1 = StateEstablished /\
    pending0 a1 = 0 /\ pending1 a1 = 0 /\ dupack a1 = 0 /\ nRetransmit a1 = 0)
    as (N0 & W0 & R0 & S0 & P0 & Q0 & D0 & X0) by done.
  change (Z.lor 0 FlagACK) with FlagACK in P1. rewrite Sb in S1. change (WND seg) with (rcv_WND (rcv a)) in W1. clearbody a1 b1.
  destruct (transmit_established 0 b1 a1) as (HT2 & Hb2 & Ha2); auto; try lia;
    try (by rewrite ?R0, ?N1, ?RN1, ?N0, ?Nab, ?Nba).
  { rewrite H0, R0. lia. }
  rewrite H0 in HT2, Hb2, Ha2. change (0 <? 0) with false in *. cbn iota in *.
  set (ack := {| SEQ := snd_NXT (snd b1) |}) in *.
  destruct (recv_accept_acks_all ack 0 a1) as (N2 & U2 & D2 & R2 & W2);
    auto; [by rewrite S0|cbn; rewrite RN1, N0, Nab; done|].
  destruct (recv_accept_rest ack 0 a1) as (S2 & P2 & Q2 & C2 & RW2 & _ & RN2 & _).
  assert (LEN ack = 0) as HL2 by (by apply LEN_ack).
  exists (recv_accept ack 0 a1), (after_ack_sent 0 b1).
  split; [by rewrite HT; cbn [mbind outcome_bind then_transmit_back]; rewrite HT2|].
  assert (Add (snd_NXT (snd b1)) 0 = snd_NXT (snd b1)) as HB by (apply UpdateForward_0, Hb').
  assert (UpdateForward (rcv_NXT (rcv a)) 0 = rcv_NXT (rcv a)) as HA
    by (apply UpdateForward_0, Ha).
  rewrite HL2, R0, HA in RN2. rewrite R0 in RW2. rewrite P0 in P2. rewrite Q0 in Q2.
  change (WND ack) with (rcv_WND (rcv b1)) in W2.
  set (a2 := recv_accept ack 0 a1) in *. clearbody a2.
  split; [|split; [by repeat split|]; split; [by repeat split|]; split; [done|]; split; [done|];
           split; [exact RN1|]; split; [exact RN2|]; lia].
  constructor; rewrite ?S2, ?N2, ?U2, ?RN2, ?RW2; cbn;
    rewrite ?HB, ?N0, ?RN1, ?Nab, ?RW1, ?N1, ?U1; auto.
  - destruct W2 as [-> | ->]; lia.
  - destruct W1 as [-> | ->]; lia.
Qed.

Lemma data_is_acknowledged_witness :
  let a := established 10 4294967290 501 500 2000 1000 1 1 0 in
  let b := established 500 501 4294967290 10 1000 3000 1 1 0 in
  exists a' b', then_transmit_back 0 (transmit 700 a b) = Ret (Some (a', b')) /\
    connected a' b' /\ rcv_NXT (rcv b') = 694.
Proof.
  intros a b. destruct (data_is_acknowledged 700 a b) as (a' & b' & H1 & H2 & _ & _ & _ & _ & H3 & _).
  - constructor; vm_compute; congruence.
  - done.
  - done.
  - apply established_inv; split; vm_compute; congruence.
  - apply established_inv; split; vm_compute; congruence.
  - lia.
  - cbn. lia.
  - exists a', b'. split; [exact H1|]. split; [exact H2|]. rewrite H3. reflexivity.
Defined.

(** ** Orderly close *)

(** Both applications close, the first one first: FIN, its ACK, the other's FIN,
    its ACK. The result is (the end that closed second, the end that closed first). *)
Definition close_exchange (a b : ControlBlock)
    : outcome (option (ControlBlock * ControlBlock)) :=
  match Close a with
  | (_, Some _) => Ret None
  | (a, None) =>
      o ← then_transmit_back 0 (transmit 0 a b);
      match o with
      | None => Ret None
      | Some (a, b) =>
          match Close b with
          | (_, Some _) => Ret None
          | (b, None) => then_transmit_back 0 (transmit 0 b a)
          end
      end
  end.

(** The data-free segment that the pending flags [p] give rise to. *)
Definition ctl_segment (p : Z) (t : ControlBlock) : Segment :=
  {| SEQ := snd_NXT (snd t); ACK := rcv_NXT (rcv t); WND := rcv_WND (rcv t);
     Flags := Z.lor p FlagACK; DATALEN := 0 |}.
Definition is_ctl (p : Z) : Prop :=
  p = FlagACK \/ p = FlagFIN \/ p = Z.lor FlagFIN FlagACK.
Definition after_ctl_sent (p : Z) (t : ControlBlock) : ControlBlock :=
  let t := send_dispatch (ctl_segment p t) t in
  with_snd (snd_with_NXT (Add (snd_NXT (snd t)) (LEN (ctl_segment p t))) (snd t))
    (with_pending 0 0 t).

Lemma ctl_pending p t :
  tcb_wf t -> challengeAcks t = 0 -> dupack t = 0 -> pending0 t = p -> is_ctl p ->
  (txQueuedDataOpen (state t) = true \/ p = FlagACK) ->
  PendingSegment 0 t = Ret (Some (ctl_segment p t)).
Proof.
  intros Hwf Hc Hd Hp Hk Ho. pose proof (maxSend_u32 t Hwf) as Hm.
  unfold PendingSegment, pendingChallengeAck, HasPendingRetransmit, ctl_segment.
  rewrite Hc, Hd, Hp. replace (retransmitAfterDupacks <=? 0) with false by done.
  rewrite andb_false_r, andb_false_r. cbn [negb Z.ltb Z.compare].
  assert ((p =? 0) = false) as -> by (by destruct Hk as [->|[->| ->]]).
  cbn [andb]. replace (if negb (txQueuedDataOpen (state t)) then 0 else 0) with 0
    by (by destruct (txQueuedDataOpen (state t))).
  replace (maxSend (snd t) <? 0) with false by (symmetry; apply Z.ltb_ge; lia).
  destruct Ho as [-> | ->]; [destruct Hk as [->|[->| ->]]|]; bool_cases; try lia; try done;
    by destruct (txQueuedDataOpen (state t)).
Qed.

Lemma send_dispatch_rest seg t :
  state t <> StateClosed ->
  let t' := send_dispatch seg t in
  snd t' = snd t /\ rcv t' = rcv t /\ pending0 t' = pending0 t /\ pending1 t' = pending1 t /\
  challengeAcks t' = challengeAcks t /\ dupack t' = dupack t /\ nRetransmit t' = nRetransmit t.
Proof. unfold send_dispatch. destruct (state t); tcb_case; done. Qed.

Lemma ctl_segment_LEN p t :
  is_ctl p -> LEN (ctl_segment p t) = if p =? FlagACK then 0 else 1.
Proof. intros [->|[->| ->]]; done. Qed.

Lemma ctl_segment_wf p t : tcb_wf t -> is_ctl p -> seg_wf (ctl_segment p t).
Proof.
  intros Hwf Hk. destruct_wf Hwf. unfold seg_wf, ctl_segment. cbn.
  split_and!; auto; [closed_width|]. destruct Hk as [->|[->| ->]]; closed_width.
Qed.

Lemma ctl_send p t :
  tcb_inv t -> challengeAcks t = 0 -> pending0 t = p -> is_ctl p -> state t <> StateClosed ->
  Send (ctl_segment p t) t = (after_ctl_sent p t, None).
Proof.
  intros Hi Hc Hp Hk Hst. pose proof (inv_wf _ Hi) as Hwf.
  unfold Send. rewrite validateOutgoing_ok; try done.
  - unfold after_ctl_sent. set (seg := ctl_segment p t).
    destruct (send_dispatch_rest seg t Hst) as (Es & Er & Ep & Ep1 & Ec & Ed & En).
    assert (LEN (ctl_segment p (send_dispatch seg t)) = LEN seg) as -> by done.
    unfold send_pending. rewrite Ep, Ep1, Hp, (inv_pending1 _ Hi).
    assert (Z.ldiff p (Flags seg) = 0) as -> by (by destruct Hk as [->|[->| ->]]).
    cbn. unfold pendingChallengeAck. cbn. rewrite Ec, Hc. cbn.
    unfold send_account. cbn. rewrite Es, LessThan_refl. cbn. rewrite Er.
    unfold with_rcv, with_snd, with_pending. cbn. rewrite Er. by destruct (rcv t).
  - by apply ctl_segment_wf.
  - apply Hi.
  - right; left. split; [done|]. split; [done|]. rewrite ctl_segment_LEN by done.
    by bool_cases.
Qed.

(** Two ends whose sequence numbers agree, with no recovery under way. *)
Record matched (a b : ControlBlock) : Prop := {
  mat_a : tcb_inv a;
  mat_b : tcb_inv b;
  mat_ab : snd_NXT (snd a) = rcv_NXT (rcv b);
  mat_ba : snd_NXT (snd b) = rcv_NXT (rcv a);
  mat_ca : challengeAcks a = 0 /\ dupack a = 0 /\ nRetransmit a = 0;
  mat_cb : challengeAcks b = 0 /\ dupack b = 0 /\ nRetransmit b = 0
}.

Lemma matched_sym a b : matched a b -> matched b a.
Proof. intros []. by constructor. Qed.

Lemma ctl_Recv p a b :
  matched a b -> is_ctl p -> IsPreestablished (state b) = false -> state b <> StateClosed ->
  Recv (ctl_segment p a) b =
    ('(t, pending, err) ← recv_dispatch (ctl_segment p a) b;
     match err with
     | Some err => Ret (t, Some err)
     | None => Ret (recv_accept (ctl_segment p a) pending t, None)
     end).
Proof.
  intros [Ha Hb Nab Nba _ _] Hk Hpre Hc.
  pose proof (inv_wf _ Ha) as Hwa. pose proof (inv_wf _ Hb) as Hwb.
  pose proof (ctl_segment_wf p a Hwa Hk) as Hs.
  assert (HasAny (Flags (ctl_segment p a)) FlagRST = false) as HR
    by (by destruct Hk as [->|[->| ->]]).
  assert (HasAny (Flags (ctl_segment p a)) FlagSYN = false) as HS
    by (by destruct Hk as [->|[->| ->]]).
  assert (fits_window (ctl_segment p a) b) as Hf.
  { assert (is_u32 (rcv_WND (rcv b))) by apply Hwb. u32_hyps. unfold fits_window.
    rewrite ctl_segment_LEN by done. cbn. bool_cases; lia. }
  assert (WND (ctl_segment p a) <= maxWindow) as Hw by apply Ha.
  destruct (decide (state b = StateEstablished)) as [E|E].
  - unfold Recv. rewrite validateIncoming_established, HS; try done.
    intros _. left. cbn. rewrite <- Nba. apply LessThanEq_refl.
  - by apply Recv_closing.
Qed.

Lemma transmit_ctl p a b s q :
  matched a b -> pending0 a = p -> is_ctl p ->
  txQueuedDataOpen (state a) = true \/ p = FlagACK -> state a <> StateClosed ->
  IsPreestablished (state b) = false -> state b <> StateClosed -> s <> StateClosed ->
  recv_dispatch (ctl_segment p a) b = Ret (with_state s b, q, None) ->
  exists a' b', transmit 0 a b = Ret (Some (a', b')) /\ matched a' b' /\
    pending0 a' = 0 /\ state a' = state (send_dispatch (ctl_segment p a) a) /\
    state b' = s /\ pending0 b' = Z.lor (pending0 b) q.
Proof.
  intros Hm Hp Hk Ho Hca Hpre Hcb Hcs Hd. pose proof Hm as [Ha Hb Nab Nba (C1 & C2 & C3) (D1 & D2 & D3)].
  pose proof (inv_wf _ Ha) as Hwa. set (seg := ctl_segment p a) in *.
  assert (PendingSegment 0 a = Ret (Some seg)) as HP by (by apply ctl_pending).
  assert (Send seg a = (after_ctl_sent p a, None)) as HS by (by apply ctl_send).
  assert (Recv seg b = Ret (recv_accept seg q (with_state s b), None)) as HR
    by (unfold seg; rewrite ctl_Recv by done; fold seg; by rewrite Hd).
  assert (tcb_inv (recv_accept seg q (with_state s b))) as Hb'.
  { eapply Recv_inv; [by apply ctl_segment_wf|exact Hb| |exact HR]. cbn. rewrite <- Nba, dist_self. done. }
  assert (tcb_inv (after_ctl_sent p a)) as Ha'.
  { apply (step_send_inv 0 seg seg a); auto; [lia|]. constructor; auto; [done|apply Hwa]. }
  assert (HasAny (Flags seg) FlagACK = true) as HA by (by destruct Hk as [->|[->| ->]]).
  exists (after_ctl_sent p a), (recv_accept seg q (with_state s b)). split.
  { unfold transmit. rewrite HP. cbn [mbind outcome_bind]. rewrite HS, HR. done. }
  destruct (send_dispatch_rest seg a Hca) as (Es & Er & _ & _ & Ec & Ed & En). fold seg in Es, Er, Ec, Ed, En.
  destruct (recv_accept_rest seg q (with_state s b)) as (S1 & P1 & _ & K1 & RW1 & _ & RN1 & _).
  assert (LEN (ctl_segment p (send_dispatch seg a)) = LEN seg) as HL by done.
  destruct (recv_accept_no_dup seg q (with_state s b)) as (N1 & Dp & Rt); auto.
  set (b' := recv_accept seg q (with_state s b)) in *. clearbody b'.
  change (rcv (with_state s b)) with (rcv b) in *. change (snd (with_state s b)) with (snd b) in *.
  split; [|done].
  unfold after_ctl_sent in *. fold seg in Ha' |- *. cbv zeta in *. rewrite HL in *.
  constructor; [done|done|..]; cbn; rewrite ?Es, ?Er, ?Ec, ?Ed, ?En, ?N1, ?RN1; auto.
  by rewrite Nab.
Qed.

Lemma connected_matched a b :
  connected a b -> idle a -> idle b -> tcb_inv a -> tcb_inv b -> matched a b.
Proof.
  intros [? ? ? ? ? ? ? ?] (_ & _ & ? & ? & ?) (_ & _ & ? & ? & ?) ? ?. by constructor.
Qed.

Lemma pending_matched a b p1 p0 s :
  matched a b -> tcb_inv (with_pending p0 p1 (with_state s a)) ->
  matched (with_pending p0 p1 (with_state s a)) b.
Proof. intros [] ?. by constructor. Qed.

Lemma close_first_half a b :
  matched a b -> pending0 a = FlagFIN -> state a = StateEstablished ->
  state b = StateEstablished -> pending0 b = 0 ->
  exists a' b', then_transmit_back 0 (transmit 0 a b) = Ret (Some (a', b')) /\
    matched a' b' /\ state a' = StateFinWait2 /\ pending0 a' = 0 /\
    state b' = StateCloseWait /\ pending0 b' = 0.
Proof.
  intros Hm Pa Sa Sb Pb.
  destruct (transmit_ctl FlagFIN a b StateCloseWait FlagACK)
    as (a1 & b1 & HT & Hm1 & P1 & S1 & S1' & P1'); auto; rewrite ?Sa, ?Sb; auto.
  { by right; left. }
  { unfold recv_dispatch. by rewrite Sb. }
  unfold send_dispatch in S1. rewrite Sa in S1. change (state a1 = StateFinWait1) in S1.
  rewrite Pb in P1'. change (pending0 b1 = FlagACK) in P1'.
  destruct (transmit_ctl FlagACK b1 a1 StateFinWait2 0)
    as (b2 & a2 & HT2 & Hm2 & P2 & S2 & S2' & P2'); auto using matched_sym;
    rewrite ?S1, ?S1'; auto.
  { by left. }
  { unfold recv_dispatch, rcvFinWait1, ctl_segment. rewrite S1. cbn [ACK Flags DATALEN].
    by rewrite (mat_ab _ _ Hm1), (Z.eqb_refl (rcv_NXT (rcv b1))). }
  exists a2, b2. split; [|split; [by apply matched_sym|]].
  - rewrite HT. cbn [then_transmit_back mbind outcome_bind]. by rewrite HT2.
  - unfold send_dispatch in S2. rewrite S1' in S2. rewrite P1 in P2'.
    change (state b2 = state b1) in S2. by rewrite S2.
Qed.

Lemma close_second_half a b :
  matched b a -> pending0 b = Z.lor FlagFIN FlagACK -> state b = StateLastAck ->
  state a = StateFinWait2 -> pending0 a = 0 ->
  exists b' a', then_transmit_back 0 (transmit 0 b a) = Ret (Some (b', a')) /\
    state a' = StateTimeWait /\ state b' = StateClosed.
Proof.
  intros Hm Pb Sb Sa Pa.
  destruct (transmit_ctl (Z.lor FlagFIN FlagACK) b a StateTimeWait FlagACK)
    as (b1 & a1 & HT & Hm1 & P1 & S1 & S1' & P1'); auto; rewrite ?Sa, ?Sb; auto.
  { by right; right. }
  { unfold recv_dispatch. by rewrite Sa. }
  unfold send_dispatch in S1. rewrite Sb in S1. rewrite Pa in P1'.
  change (pending0 a1 = FlagACK) in P1'.
  pose proof Hm1 as [Hib Hia _ _ _ (Ca & Da & _)].
  assert (is_ctl FlagACK) as Hk by (by left).
  assert (PendingSegment 0 a1 = Ret (Some (ctl_segment FlagACK a1))) as HP
    by (apply ctl_pending; auto; apply Hia).
  assert (Send (ctl_segment FlagACK a1) a1 = (after_ctl_sent FlagACK a1, None)) as HS
    by (apply ctl_send; auto; by rewrite S1').
  rewrite HT. cbn [then_transmit_back mbind outcome_bind]. unfold transmit. rewrite HP.
  cbn [mbind outcome_bind]. rewrite HS, ctl_Recv; auto using matched_sym; rewrite ?S1, ?Sb; auto.
  unfold recv_dispatch. rewrite S1, Sb. cbn [HasAny Flags ctl_segment].
  eexists _, _. split; [reflexivity|]. split; [|apply (recv_accept_rest _ 0 zero_tcb)].
  unfold after_ctl_sent, send_dispatch. rewrite S1'. cbn. done.
Qed.

(** C14: an orderly close terminates: from an idle established connection, when
    both applications close one after the other, four segments are exchanged
    without an error and the connection is gone at both ends: the end that
    closed first waits in TIME-WAIT, the other is CLOSED. *)
Theorem close_completes a b
  (Hcon : connected a b) (Hia : idle a) (Hib : idle b) (Ha : tcb_inv a) (Hb : tcb_inv b) :
  exists b' a', close_exchange a b = Ret (Some (b', a')) /\
    state a' = StateTimeWait /\ state b' = StateClosed.
Proof.
  pose proof (connected_matched _ _ Hcon Hia Hib Ha Hb) as Hm.
  pose proof (conn_a _ _ Hcon) as Sa. pose proof (conn_b _ _ Hcon) as Sb.
  destruct Hia as (Pa & Qa & _), Hib as (Pb & _).
  unfold close_exchange.
  destruct (Close a) as [a1 e1] eqn:HC1.
  pose proof (Close_inv a a1 e1 Ha HC1) as Ha1.
  unfold Close in HC1. rewrite Sa, Pa in HC1. change (Z.lor (Z.land 0 FlagACK) FlagFIN) with FlagFIN in HC1.
  simplify_eq.
  assert (a = with_state (state a) a) as Ea by (by destruct a).
  assert (matched (with_pending FlagFIN (pending1 a) a) b) as Hm1.
  { rewrite Ea. apply pending_matched; [done|]. by rewrite <- Ea. }
  destruct (close_first_half _ b Hm1) as (a2 & b2 & -> & Hm2 & Sa2 & Pa2 & Sb2 & Pb2); auto.
  cbn [mbind outcome_bind]. destruct (Close b2) as [b3 e3] eqn:HC2.
  pose proof (Close_inv b2 b3 e3 (mat_b _ _ Hm2) HC2) as Hb3.
  unfold Close in HC2. rewrite Sb2 in HC2. simplify_eq.
  apply close_second_half; auto. apply pending_matched; [by apply matched_sym|done].
Qed.

Lemma close_completes_witness :
  let a := established 10 4294967290 501 500 2000 1000 1 1 0 in
  let b := established 500 501 4294967290 10 1000 3000 1 1 0 in
  exists b' a', close_exchange a b = Ret (Some (b', a')) /\
    state a' = StateTimeWait /\ state b' = StateClosed.
Proof.
  intros a b. apply close_completes.
  - constructor; vm_compute; congruence.
  - done.
  - done.
  - apply established_inv; split; vm_compute; congruence.
  - apply established_inv; split; vm_compute; congruence.
Defined.

(** ** Simultaneous open *)

(** Both ends send a SYN, each receives the other's SYN, both answer with a
    SYN-ACK, each receives the other's. *)
Definition simultaneous_open (issA wndA issB wndB : Z)
    : outcome (ControlBlock * ControlBlock) :=
  let synA := ClientSynSegment issA wndA in
  let synB := ClientSynSegment issB wndB in
  '(a, _) ← Recv synB (fst (Send synA zero_tcb));
  '(b, _) ← Recv synA (fst (Send synB zero_tcb));
  oa ← PendingSegment 0 a;
  ob ← PendingSegment 0 b;
  match oa, ob with
  | Some sa, Some sb =>
      '(a, _) ← Recv sb (fst (Send sa a));
      '(b, _) ← Recv sa (fst (Send sb b));
      Ret (a, b)
  | _, _ => Ret (a, b)
  end.

(** a simultaneous open desynchronizes the connection: SYN-RECEIVED counts
    the octet of the peer's SYN a second time when the SYN-ACK arrives, so both
    ends are ESTABLISHED while each expects one octet more than the other will
    send, and refuses the other's data as out of sequence. *)
Theorem simultaneous_open_skips_octet :
  exists a b, simultaneous_open 100 1000 300 1000 = Ret (a, b) /\
    state a = StateEstablished /\ state b = StateEstablished /\
    snd_NXT (snd a) = 101 /\ rcv_NXT (rcv b) = 102 /\
    snd_NXT (snd b) = 301 /\ rcv_NXT (rcv a) = 302 /\
    transmit 10 a b = Ret None.
Proof. eexists _, _. split; [vm_compute; reflexivity|]. vm_compute. done. Qed.

End TcpExchange.
