(* ===== verification/Ring.v ===== *)
(** * The ring buffer ([src/internal/ring.go])

    [Ring] keeps its bytes in [Buf]; [Off] is the start of the readable data and
    [End_] its end ([End_ = 0] for an empty ring). A method that mutates its
    receiver returns the new ring; slice expressions are checked the way the Go
    run time checks them, and fail with [Panic]. [int] is unbounded here: every
    index is at most twice the length of [Buf]. *)
From S2P Require Import Prelude Errors.

Module Ring.

Record Ring := mkRing {
  Buf : list Z;
  Off : Z;
  End_ : Z
}.

Definition with_End (e : Z) (r : Ring) : Ring := mkRing (Buf r) (Off r) e.
Definition with_Off (o : Z) (r : Ring) : Ring := mkRing (Buf r) o (End_ r).

Definition Size (r : Ring) : Z := zlen (Buf r).

Definition IsFull (r : Ring) : bool :=
  negb (End_ r =? 0) &&
  ((End_ r =? Off r) || ((End_ r =? zlen (Buf r)) && (Off r =? 0))).
Definition IsEmpty (r : Ring) : bool := End_ r =? 0.

Definition Free (r : Ring) : Z :=
  if (End_ r =? 0) || (Off r =? 0) then zlen (Buf r) - End_ r
  else if Off r <? End_ r then Off r + (zlen (Buf r) - End_ r)
  else Off r - End_ r.
Definition Buffered (r : Ring) : Z := Size r - Free r.

Definition midFree (r : Ring) : Z :=
  if (Off r <=? End_ r) || (End_ r =? 0) then 0 else Off r - End_ r.

(** ** Writing: new ring, bytes written, error *)

Definition Write (b : list Z) (r : Ring) : outcome (Ring * Z * option error) :=
  if zlen b =? 0 then Ret (r, 0, Some errRingNoData)
  else if IsFull r || (Free r <? zlen b) then Ret (r, 0, Some ErrRingBufferFull)
  else if 0 <? midFree r then
    '(buf, n) ← copy_into (Buf r) (End_ r) (Off r) b;
    let e := End_ r + n in
    assert_or_panic (0 <? e) (Ret (mkRing buf (Off r) e, n, None))
  else
    let e := if End_ r =? 0 then Off r else End_ r in
    '(buf, n) ← copy_into (Buf r) e (zlen (Buf r)) b;
    let e := e + n in
    if n <? zlen b then
      '(buf, n2) ← copy_into buf 0 (zlen buf) (zdrop n b);
      assert_or_panic (0 <? n2) (Ret (mkRing buf (Off r) n2, n + n2, None))
    else assert_or_panic (0 <? e) (Ret (mkRing buf (Off r) e, n, None)).

(** [WriteString] converts without copying. *)
Definition WriteString (s : list Z) (r : Ring) : outcome (Ring * Z * option error) :=
  Write s r.

Definition FreeLimited (limitOffset : Z) (r : Ring) : Z :=
  if IsFull r then 0
  else
  let writeAt := End_ r in
  if writeAt =? 0 then
    let writeAt := Off r in
    if writeAt <=? limitOffset then limitOffset - writeAt
    else Size r - writeAt + limitOffset
  else if (writeAt <=? limitOffset) && (writeAt <=? Off r)
  then Z.min (Off r) limitOffset - writeAt
  else if writeAt <=? limitOffset then limitOffset - writeAt
  else if writeAt <=? Off r then Off r - writeAt
  else Size r - writeAt + Z.min limitOffset (Off r).

Definition WriteLimited (b : list Z) (limitOffset : Z) (r : Ring)
    : outcome (Ring * Z * option error) :=
  if zlen (Buf r) <? limitOffset then Panic
  else if zlen (Buf r) <? zlen b then Ret (r, 0, Some IoErrShortBuffer)
  else if FreeLimited limitOffset r <? zlen b then Ret (r, 0, Some ErrRingBufferFull)
  else Write b r.

Definition writeStart (r : Ring) : Z :=
  if End_ r =? 0 then Off r
  else if End_ r =? zlen (Buf r) then 0
  else End_ r.

Definition PeekWrite (b : list Z) (offset : Z) (r : Ring) : outcome (Ring * bool) :=
  if (offset <? 0) || (Free r <? offset + zlen b) then Ret (r, false)
  else
    let off := writeStart r + offset in
    let off := if zlen (Buf r) <=? off then off - zlen (Buf r) else off in
    '(buf, n) ← copy_into (Buf r) off (zlen (Buf r)) b;
    if n <? zlen b then
      '(buf, _) ← copy_into buf 0 (zlen buf) (zdrop n b);
      Ret (mkRing buf (Off r) (End_ r), true)
    else Ret (mkRing buf (Off r) (End_ r), true).

Definition Commit (n : Z) (r : Ring) : Ring * option error :=
  if n <=? 0 then (r, Some errInvalidCommit)
  else if Free r <? n then (r, Some ErrRingBufferFull)
  else
    let e := if End_ r =? 0 then Off r else End_ r in
    let e := e + n in
    let e := if zlen (Buf r) <? e then e - zlen (Buf r) else e in
    (with_End e r, None).

(** ** Reading *)

Definition Reset (r : Ring) : Ring := mkRing (Buf r) 0 0.

Definition emptied (r : Ring) : Ring :=
  let off := End_ r in
  let off := if off =? zlen (Buf r) then 0 else off in
  mkRing (Buf r) off 0.

Definition addOff (r : Ring) (a b : Z) : Z :=
  let result := a + b in
  if zlen (Buf r) <? result then result - zlen (Buf r) else result.

Definition ReadDiscard (n : Z) (r : Ring) : Ring * option error :=
  if n <=? 0 then (r, Some errInvalidDiscard)
  else
    let buffered := Buffered r in
    if buffered <? n then (r, Some errDiscardExceeds)
    else if n =? buffered then (emptied r, None)
    else if zlen (Buf r) <? n + Off r then (with_Off (n - (zlen (Buf r) - Off r)) r, None)
    else (with_Off (Off r + n) r, None).

(** [read(b)]: the destination after the copy, the count, the error. *)
Definition read (b : list Z) (r : Ring) : outcome (list Z * Z * option error) :=
  if zlen b =? 0 then Ret (b, 0, None)
  else if IsEmpty r then Ret (b, 0, Some EOF)
  else if Off r <? End_ r then
    assert_or_panic (slice_ok (Buf r) (Off r) (End_ r))
      ('(b, n) ← copy_into b 0 (zlen b) (slice (Buf r) (Off r) (End_ r));
       Ret (b, n, None))
  else
    assert_or_panic (slice_ok (Buf r) (Off r) (zlen (Buf r)))
      ('(b, n) ← copy_into b 0 (zlen b) (zdrop (Off r) (Buf r));
       if n <? zlen b then
         assert_or_panic (slice_ok (Buf r) 0 (End_ r))
           ('(b, n2) ← copy_into b n (zlen b) (ztake (End_ r) (Buf r));
            Ret (b, n + n2, None))
       else Ret (b, n, None)).

Definition ReadPeek (b : list Z) (r : Ring) : outcome (list Z * Z * option error) := read b r.

(** On a 64-bit platform; the overflow check of the source compiles away there. *)
Definition ReadAt (p : list Z) (off : Z) (r : Ring) : outcome (list Z * Z * option error) :=
  if Buffered r <? off + zlen p then Ret (p, 0, Some IoErrUnexpectedEOF)
  else ReadPeek p (with_Off (addOff r (Off r) off) r).

Definition onReadEnd (totalRead : Z) (r : Ring) : outcome Ring :=
  assert_or_panic (0 <? totalRead)
    (let newOff := addOff r (Off r) totalRead in
     Ret (if newOff =? End_ r then emptied r
          else if newOff =? zlen (Buf r) then with_Off 0 r
          else with_Off newOff r)).

Definition Read (b : list Z) (r : Ring) : outcome (Ring * list Z * Z * option error) :=
  '(b', n, err) ← read b r;
  match err with
  | Some _ => Ret (r, b', n, err)
  | None =>
      if zlen b =? 0 then Ret (r, b', n, err)
      else r ← onReadEnd n r; Ret (r, b', n, None)
  end.

(** ** The abstract ring: all cells in reading order, and how many are readable *)

Record View := mkView {
  cells : list Z;
  count : Z
}.

Definition view (r : Ring) : View :=
  mkView (slice (Buf r ++ Buf r) (Off r) (Off r + zlen (Buf r))) (Buffered r).

(** The bytes a reader gets, and the cells behind them in writing order. *)
Definition readable (v : View) : list Z := ztake (count v) (cells v).
Definition contents (r : Ring) : list Z := readable (view r).
Definition staged (r : Ring) : list Z := zdrop (count (view r)) (cells (view r)).

Definition overwrite (l : list Z) (at_ : Z) (b : list Z) : list Z :=
  ztake at_ l ++ b ++ zdrop (at_ + zlen b) l.

Definition view_write (b : list Z) (v : View) : View :=
  mkView (overwrite (cells v) (count v) b) (count v + zlen b).
Definition view_peek (b : list Z) (off : Z) (v : View) : View :=
  mkView (overwrite (cells v) (count v + off) b) (count v).
Definition view_commit (n : Z) (v : View) : View := mkView (cells v) (count v + n).
Definition view_discard (n : Z) (v : View) : View :=
  mkView (zdrop n (cells v) ++ ztake n (cells v)) (count v - n).

(** ** Well-formedness. [Off] can equal the length of [Buf]. *)

Definition ring_wf (r : Ring) : Prop :=
  0 < zlen (Buf r) /\ 0 <= Off r <= zlen (Buf r) /\ 0 <= End_ r <= zlen (Buf r).

#[global] Instance ring_wf_dec r : Decision (ring_wf r).
Proof. unfold ring_wf. apply _. Defined.

End Ring.
