(* ===== verification/RingProps.v ===== *)
(** * Correctness of the ring buffer

    Every operation of [Ring] refines an operation on the abstract ring
    ([View]: all cells in reading order, the first [count] of them readable),
    preserves the index invariant and never panics; in particular the ring is a
    FIFO queue of bytes. *)
From S2P Require Import Prelude Errors Ring.

Module RingProps.
Import Ring.

(** ** Indices *)

Definition wrapi (len i : Z) : Z := if i <? len then i else i - len.

Ltac split_bools := repeat (bool_cases; cbn [andb orb negb]); try lia.

Lemma copy_into_spec {A} (dst : list A) off hi src :
  0 <= off <= hi -> hi <= zlen dst ->
  exists dst' n, copy_into dst off hi src = Ret (dst', n) /\
    n = Z.min (hi - off) (zlen src) /\ zlen dst' = zlen dst /\
    (forall j, 0 <= j < zlen dst ->
       zget dst' j = if (off <=? j) && (j <? off + n) then zget src (j - off) else zget dst j).
Proof.
  intros Ho Hh. pose proof (zlen_nonneg src). unfold copy_into, assert_or_panic.
  replace (slice_ok dst off hi) with true
    by (symmetry; unfold slice_ok; rewrite !andb_true_iff, !Z.leb_le; lia).
  remember (Z.min (hi - off) (zlen src)) as n eqn:Hn.
  assert (zlen (ztake off dst) = off) as E1 by (apply zlen_ztake; lia).
  assert (zlen (ztake n src) = n) as E2 by (apply zlen_ztake; lia).
  assert (zlen (zdrop (off + n) dst) = zlen dst - (off + n)) as E3 by (apply zlen_zdrop; lia).
  eexists _, n. split; [done|]. split; [done|]. split; [rewrite !zlen_app; lia|].
  intros j Hj. bool_cases; cbn [andb].
  - rewrite zget_app_r, zget_app_l, zget_ztake by lia. f_equal. lia.
  - rewrite zget_app_l, zget_ztake by lia. done.
  - rewrite zget_app_r, zget_app_r, zget_zdrop by lia. f_equal. lia.
  - lia.
Qed.

Lemma zlen_cells r : ring_wf r -> zlen (cells (view r)) = zlen (Buf r).
Proof.
  intros (? & ? & ?). cbn. rewrite zlen_slice; [lia|lia|]. rewrite zlen_app. lia.
Qed.

Lemma zget_cells r i :
  ring_wf r -> 0 <= i < zlen (Buf r) ->
  zget (cells (view r)) i = zget (Buf r) (wrapi (zlen (Buf r)) (Off r + i)).
Proof.
  intros (? & ? & ?) Hi. cbn. rewrite zget_slice by lia. unfold wrapi. bool_cases.
  - rewrite zget_app_l by lia. done.
  - rewrite zget_app_r by lia. done.
Qed.

Lemma Buffered_cases r :
  ring_wf r ->
  Buffered r = if End_ r =? 0 then 0
               else if Off r <? End_ r then End_ r - Off r
               else zlen (Buf r) - Off r + End_ r.
Proof. intros (? & ? & ?). unfold Buffered, Free, Size. split_bools. Qed.

Lemma Buffered_bounds r : ring_wf r -> 0 <= Buffered r <= zlen (Buf r).
Proof. intros Hw. rewrite Buffered_cases by done. destruct Hw as (? & ? & ?). split_bools. Qed.

Lemma Free_Buffered r : Free r = zlen (Buf r) - Buffered r.
Proof. unfold Buffered, Size. lia. Qed.

Lemma IsFull_iff r : ring_wf r -> IsFull r = true <-> Free r = 0.
Proof.
  intros (? & ? & ?). unfold IsFull, Free. split_bools; split; intros; try done; lia.
Qed.

(** ** A copy that wraps around the end of the buffer *)

Record wrap_copied (buf buf' : list Z) (p : Z) (b : list Z) : Prop := {
  wc_len : zlen buf' = zlen buf;
  wc_get : forall j, 0 <= j < zlen buf ->
    zget buf' j =
      if (p <=? j) && (j <? p + zlen b) then zget b (j - p)
      else if j + zlen buf <? p + zlen b then zget b (j + zlen buf - p)
      else zget buf j
}.

Definition copy_around (buf : list Z) (e : Z) (b : list Z) : outcome (list Z * Z * Z) :=
  '(buf1, n) ← copy_into buf e (zlen buf) b;
  if n <? zlen b then
    '(buf2, n2) ← copy_into buf1 0 (zlen buf1) (zdrop n b); Ret (buf2, n, n2)
  else Ret (buf1, n, 0).

Lemma copy_around_spec buf e b :
  0 <= e <= zlen buf -> zlen b <= zlen buf ->
  exists buf' n n2, copy_around buf e b = Ret (buf', n, n2) /\
    n = Z.min (zlen buf - e) (zlen b) /\ n2 = zlen b - n /\ wrap_copied buf buf' e b.
Proof.
  intros He Hb. pose proof (zlen_nonneg b).
  destruct (copy_into_spec buf e (zlen buf) b) as (b1 & n & H1 & Hn & L1 & G1); [lia..|].
  unfold copy_around. rewrite H1. cbn [mbind outcome_bind].
  destruct (Z.ltb_spec n (zlen b)).
  - assert (zlen (zdrop n b) = zlen b - n) as HL by (apply zlen_zdrop; lia).
    destruct (copy_into_spec b1 0 (zlen b1) (zdrop n b)) as (b2 & n2 & H2 & Hn2 & L2 & G2); [lia..|].
    rewrite H2. cbn [mbind outcome_bind]. exists b2, n, n2.
    split; [done|]. split; [done|]. split; [lia|]. constructor; [lia|].
    intros j Hj. rewrite G2, G1 by lia. split_bools; try done;
      rewrite zget_zdrop by lia; f_equal; lia.
  - exists b1, n, 0. split; [done|]. split; [done|]. split; [lia|]. constructor; [lia|].
    intros j Hj. rewrite G1 by lia. split_bools; done.
Qed.

(** The cells after a copy that starts [k] cells into the reading order. *)
Lemma cells_after_copy r buf' e p k b :
  ring_wf r -> wrap_copied (Buf r) buf' p b -> 0 <= p <= zlen (Buf r) ->
  0 <= k -> k + zlen b <= zlen (Buf r) ->
  p = Off r + k \/ p = Off r + k - zlen (Buf r) ->
  cells (view (mkRing buf' (Off r) e)) = overwrite (cells (view r)) k b.
Proof.
  intros Hw [Hl Hg] Hp Hk Hb Hpk. pose proof (zlen_nonneg b). pose proof Hw as (W1 & W2 & W3).
  assert (forall i, 0 <= i < zlen (Buf r) -> zget (cells (view (mkRing buf' (Off r) e))) i
           = zget buf' (wrapi (zlen (Buf r)) (Off r + i))) as Hc.
  { intros i Hi. cbn. rewrite zget_slice by lia. unfold wrapi. bool_cases.
    - rewrite zget_app_l by lia. done.
    - rewrite zget_app_r, Hl by lia. done. }
  pose proof (zlen_cells r Hw) as HL.
  assert (zlen (cells (view (mkRing buf' (Off r) e))) = zlen (Buf r)) as HL'.
  { cbn. rewrite zlen_slice; [lia|lia|]. rewrite zlen_app. lia. }
  unfold overwrite.
  assert (zlen (ztake k (cells (view r))) = k) as E1 by (apply zlen_ztake; lia).
  assert (zlen (zdrop (k + zlen b) (cells (view r))) = zlen (Buf r) - (k + zlen b)) as E2
    by (rewrite zlen_zdrop; lia).
  apply zlist_eq; [rewrite !zlen_app; lia|]. intros i Hi. rewrite HL' in Hi.
  rewrite Hc by done.
  destruct (decide (i < k)); [|destruct (decide (i < k + zlen b))].
  - rewrite zget_app_l, zget_ztake, zget_cells by lia || done.
    rewrite Hg by (unfold wrapi; bool_cases; lia). unfold wrapi. split_bools; done.
  - rewrite zget_app_r, zget_app_l by lia.
    rewrite Hg by (unfold wrapi; bool_cases; lia). unfold wrapi. split_bools; f_equal; lia.
  - rewrite zget_app_r, zget_app_r, zget_zdrop by lia.
    replace (k + zlen b + (i - zlen (ztake k (cells (view r))) - zlen b)) with i by lia.
    rewrite zget_cells by lia || done.
    rewrite Hg by (unfold wrapi; bool_cases; lia). unfold wrapi. split_bools; done.
Qed.

Lemma view_eq r r' : cells (view r') = cells (view r) -> Buffered r' = Buffered r -> view r' = view r.
Proof. intros Hc Hb. unfold view in *. cbn in *. by rewrite Hc, Hb. Qed.

Lemma mk_view_eq r l c : cells (view r) = l -> Buffered r = c -> view r = mkView l c.
Proof. intros Hc Hb. unfold view in *. cbn in *. by rewrite Hc, Hb. Qed.

(** ** Operations *)

Lemma Write_ok b r :
  ring_wf r -> 0 < zlen b <= Free r ->
  exists r', Write b r = Ret (r', zlen b, None) /\ ring_wf r' /\ Off r' = Off r /\
    zlen (Buf r') = zlen (Buf r) /\ view r' = view_write b (view r).
Proof.
  intros Hw Hb. pose proof Hw as (W1 & W2 & W3). pose proof (Buffered_cases r Hw) as HB.
  pose proof (Buffered_bounds r Hw). rewrite Free_Buffered in Hb.
  unfold Write. replace (zlen b =? 0) with false by (symmetry; apply Z.eqb_neq; lia).
  replace (IsFull r || (Free r <? zlen b)) with false.
  2: { symmetry. apply orb_false_iff. split.
       - apply not_true_iff_false. rewrite IsFull_iff, Free_Buffered by done. lia.
       - apply Z.ltb_ge. rewrite Free_Buffered. lia. }
  destruct (0 <? midFree r) eqn:Hm.
  - assert (0 < End_ r < Off r /\ midFree r = Off r - End_ r) as [? HM].
    { apply Z.ltb_lt in Hm. revert Hm. unfold midFree. split_bools. }
    rewrite HM in Hm.
    replace (End_ r =? 0) with false in HB by (symmetry; apply Z.eqb_neq; lia).
    replace (Off r <? End_ r) with false in HB by (symmetry; apply Z.ltb_ge; lia).
    destruct (copy_into_spec (Buf r) (End_ r) (Off r) b) as (b1 & n & H1 & Hn & L1 & G1); [lia..|].
    rewrite H1. cbn [mbind outcome_bind]. unfold assert_or_panic.
    replace (0 <? End_ r + n) with true by (symmetry; apply Z.ltb_lt; lia).
    assert (n = zlen b) as -> by lia. eexists. split; [done|].
    assert (ring_wf (mkRing b1 (Off r) (End_ r + zlen b))) as Hw'
      by (unfold ring_wf; cbn; lia).
    split; [done|]. split; [done|]. split; [done|]. apply mk_view_eq.
    + apply (cells_after_copy r b1 _ (End_ r)); auto; cbn [count view]; try lia.
      constructor; [done|]. intros j Hj. rewrite G1 by done. split_bools; done.
    + rewrite Buffered_cases by done. cbn. split_bools.
  - assert (~ (0 < End_ r < Off r)) as HM.
    { apply Z.ltb_ge in Hm. revert Hm. unfold midFree. split_bools. }
    set (e := if End_ r =? 0 then Off r else End_ r).
    assert (0 <= e <= zlen (Buf r) /\
            (e = Off r + Buffered r \/ e = Off r + Buffered r - zlen (Buf r)) /\
            (End_ r = 0 -> e = Off r) /\ (End_ r <> 0 -> e = End_ r /\ Off r <= End_ r)) as (He & Hpe & Hz & Hnz).
    { unfold e. rewrite HB. clear Hm. split_bools. }
    destruct (copy_around_spec (Buf r) e b) as (buf' & n & n2 & HC & Hn & Hn2 & Hwc); [lia..|].
    assert (forall End', 0 <= End' <= zlen (Buf r) ->
        (End' <> 0 /\ (End' = e + zlen b \/ End' = e + zlen b - zlen (Buf r))) ->
        ring_wf (mkRing buf' (Off r) End') /\
        view (mkRing buf' (Off r) End') = view_write b (view r)) as Hfin.
    { intros E' HE HE'. pose proof (wc_len _ _ _ _ Hwc) as HL.
      assert (ring_wf (mkRing buf' (Off r) E')) as Hw' by (unfold ring_wf; cbn; lia).
      split; [done|]. apply mk_view_eq.
      - apply (cells_after_copy r buf' _ e); auto; cbn [count view]; lia.
      - rewrite Buffered_cases by done. cbn. rewrite HL.
        destruct (Z.eqb_spec (End_ r) 0) as [E0|E0]; [specialize (Hz E0)|specialize (Hnz E0)];
          clear Hm; split_bools. }
    unfold copy_around in HC.
    destruct (copy_into (Buf r) e (zlen (Buf r)) b) as [[b1 m]|]; cbn [mbind outcome_bind] in HC |- *; [|done].
    pose proof (wc_len _ _ _ _ Hwc) as HL.
    destruct (Z.ltb_spec m (zlen b)).
    + destruct (copy_into b1 0 (zlen b1) (zdrop m b)) as [[b2 m2]|]; cbn [mbind outcome_bind] in HC |- *; [|done].
      simplify_eq. unfold assert_or_panic.
      replace (0 <? zlen b - Z.min (zlen (Buf r) - e) (zlen b)) with true by (symmetry; apply Z.ltb_lt; lia).
      eexists. split; [do 2 f_equal; f_equal; lia|].
      destruct (Hfin (zlen b - Z.min (zlen (Buf r) - e) (zlen b))) as [? ?]; [lia|lia|]. done.
    + simplify_eq. unfold assert_or_panic.
      replace (0 <? e + Z.min (zlen (Buf r) - e) (zlen b)) with true by (symmetry; apply Z.ltb_lt; lia).
      eexists. split; [do 2 f_equal; f_equal; lia|].
      destruct (Hfin (e + Z.min (zlen (Buf r) - e) (zlen b))) as [? ?]; [lia|lia|]. done.
Qed.

Lemma writeStart_spec r :
  ring_wf r ->
  0 <= writeStart r <= zlen (Buf r) /\
  (writeStart r = Off r + Buffered r \/ writeStart r = Off r + Buffered r - zlen (Buf r) \/
   Free r = 0).
Proof.
  intros Hw. rewrite Free_Buffered. rewrite Buffered_cases by done. destruct Hw as (? & ? & ?).
  unfold writeStart. split_bools.
Qed.

Lemma PeekWrite_ok b off r :
  ring_wf r -> 0 <= off -> 0 < zlen b -> off + zlen b <= Free r ->
  exists r', PeekWrite b off r = Ret (r', true) /\ ring_wf r' /\ Off r' = Off r /\
    zlen (Buf r') = zlen (Buf r) /\ view r' = view_peek b off (view r).
Proof.
  intros Hw Ho Hb Hf. pose proof Hw as (W1 & W2 & W3).
  pose proof (Buffered_bounds r Hw). destruct (writeStart_spec r Hw) as [Hs Hse].
  unfold PeekWrite.
  replace ((off <? 0) || (Free r <? off + zlen b)) with false
    by (symmetry; apply orb_false_iff; rewrite !Z.ltb_ge; lia).
  rewrite Free_Buffered in Hf, Hse.
  set (p := if zlen (Buf r) <=? writeStart r + off then writeStart r + off - zlen (Buf r)
            else writeStart r + off).
  assert (0 <= p <= zlen (Buf r) /\ (p = Off r + (Buffered r + off) \/
            p = Off r + (Buffered r + off) - zlen (Buf r))) as [Hp Hpe].
  { unfold p. split_bools. }
  destruct (copy_around_spec (Buf r) p b) as (buf' & n & n2 & HC & Hn & Hn2 & Hwc); [lia..|].
  pose proof (wc_len _ _ _ _ Hwc) as HL.
  assert (ring_wf (mkRing buf' (Off r) (End_ r)) /\
          view (mkRing buf' (Off r) (End_ r)) = view_peek b off (view r)) as [? ?].
  { split; [unfold ring_wf; cbn; lia|]. apply mk_view_eq.
    - apply (cells_after_copy r buf' _ p); auto; cbn [count view]; lia.
    - unfold Buffered, Size, Free. cbn. by rewrite HL. }
  unfold copy_around in HC.
  destruct (copy_into (Buf r) p (zlen (Buf r)) b) as [[b1 m]|]; cbn [mbind outcome_bind] in HC |- *; [|done].
  destruct (Z.ltb_spec m (zlen b)).
  - destruct (copy_into b1 0 (zlen b1) (zdrop m b)) as [[b2 m2]|]; cbn [mbind outcome_bind] in HC |- *; [|done].
    simplify_eq. eexists. split; done.
  - simplify_eq. eexists. split; done.
Qed.

Lemma Commit_ok n r :
  ring_wf r -> 0 < n <= Free r ->
  exists r', Commit n r = (r', None) /\ ring_wf r' /\ Off r' = Off r /\ Buf r' = Buf r /\
    view r' = view_commit n (view r).
Proof.
  intros Hw Hn. pose proof Hw as (W1 & W2 & W3). pose proof (Buffered_cases r Hw) as HB.
  unfold Commit.
  replace (n <=? 0) with false by (symmetry; apply Z.leb_gt; lia).
  replace (Free r <? n) with false by (symmetry; apply Z.ltb_ge; lia).
  rewrite Free_Buffered in Hn.
  set (e := if zlen (Buf r) <? (if End_ r =? 0 then Off r else End_ r) + n
            then (if End_ r =? 0 then Off r else End_ r) + n - zlen (Buf r)
            else (if End_ r =? 0 then Off r else End_ r) + n).
  eexists. split; [reflexivity|].
  assert (0 < e <= zlen (Buf r)) as He. { unfold e. revert HB. split_bools. }
  assert (ring_wf (with_End e r)) as Hw' by (unfold ring_wf; cbn; lia).
  split; [done|]. split; [done|]. split; [done|]. apply mk_view_eq; [done|].
  rewrite Buffered_cases by done. cbn. cbn in HB. unfold e. revert HB. split_bools.
Qed.

Lemma cells_rotate r n o e :
  ring_wf r -> 0 <= n <= zlen (Buf r) -> 0 <= o <= zlen (Buf r) ->
  o = Off r + n \/ o = Off r + n - zlen (Buf r) \/ o = Off r + n - 2 * zlen (Buf r) ->
  cells (view (mkRing (Buf r) o e)) = zdrop n (cells (view r)) ++ ztake n (cells (view r)).
Proof.
  intros Hw Hn Ho Hoff. pose proof Hw as (W1 & W2 & W3). pose proof (zlen_cells r Hw) as HL.
  assert (zlen (cells (view (mkRing (Buf r) o e))) = zlen (Buf r)) as HL'.
  { cbn. rewrite zlen_slice; [lia|lia|]. rewrite zlen_app. lia. }
  assert (forall i, 0 <= i < zlen (Buf r) -> zget (cells (view (mkRing (Buf r) o e))) i
           = zget (Buf r) (wrapi (zlen (Buf r)) (o + i))) as Hc.
  { intros i Hi. cbn. rewrite zget_slice by lia. unfold wrapi. bool_cases.
    - rewrite zget_app_l by lia. done.
    - rewrite zget_app_r by lia. done. }
  apply zlist_eq; [rewrite zlen_app, zlen_ztake, zlen_zdrop; lia|].
  intros i Hi. rewrite HL' in Hi. rewrite Hc by lia.
  assert (zlen (zdrop n (cells (view r))) = zlen (Buf r) - n) as E by (rewrite zlen_zdrop; lia).
  destruct (decide (i < zlen (Buf r) - n)).
  - rewrite zget_app_l, zget_zdrop, zget_cells by lia || done.
    f_equal. unfold wrapi. split_bools.
  - rewrite zget_app_r, zget_ztake, zget_cells by lia || done.
    f_equal. unfold wrapi. split_bools.
Qed.

Lemma emptied_ok r :
  ring_wf r -> IsEmpty r = false ->
  ring_wf (emptied r) /\ view (emptied r) = view_discard (Buffered r) (view r).
Proof.
  intros Hw He. pose proof Hw as (W1 & W2 & W3). pose proof (Buffered_cases r Hw) as HB.
  pose proof (Buffered_bounds r Hw). unfold IsEmpty in He. apply Z.eqb_neq in He.
  assert (ring_wf (emptied r)) as Hw' by (unfold emptied, ring_wf; cbn; split_bools).
  split; [done|]. apply mk_view_eq.
  - unfold emptied. apply cells_rotate; auto; revert HB; split_bools.
  - rewrite Buffered_cases by done. cbn [count view]. cbn. lia.
Qed.

Lemma with_Off_discard n o r :
  ring_wf r -> 0 <= n < Buffered r -> 0 <= o <= zlen (Buf r) ->
  o = Off r + n \/ o = Off r + n - zlen (Buf r) ->
  ring_wf (with_Off o r) /\ view (with_Off o r) = view_discard n (view r).
Proof.
  intros Hw Hn Ho Hoe. pose proof Hw as (W1 & W2 & W3). pose proof (Buffered_cases r Hw) as HB.
  pose proof (Buffered_bounds r Hw).
  assert (ring_wf (with_Off o r)) as Hw' by (unfold ring_wf; cbn; lia).
  split; [done|]. apply mk_view_eq.
  - apply cells_rotate; auto; lia.
  - rewrite Buffered_cases by done. cbn [count view]. cbn [Off End_ Buf with_Off].
    revert HB. split_bools.
Qed.

Lemma ReadDiscard_ok n r :
  ring_wf r -> 0 < n <= Buffered r ->
  exists r', ReadDiscard n r = (r', None) /\ ring_wf r' /\ Buf r' = Buf r /\
    view r' = view_discard n (view r).
Proof.
  intros Hw Hn. pose proof Hw as (W1 & W2 & W3). pose proof (Buffered_cases r Hw) as HB.
  pose proof (Buffered_bounds r Hw). unfold ReadDiscard.
  replace (n <=? 0) with false by (symmetry; apply Z.leb_gt; lia).
  replace (Buffered r <? n) with false by (symmetry; apply Z.ltb_ge; lia).
  assert (End_ r <> 0) as He. { revert HB. split_bools. }
  destruct (Z.eqb_spec n (Buffered r)) as [->|Hne].
  - destruct (emptied_ok r Hw) as [? ?]; [by apply Z.eqb_neq|]. eexists. split; done.
  - destruct (Z.ltb_spec (zlen (Buf r)) (n + Off r)); (eexists; split; [reflexivity|]).
    + destruct (with_Off_discard n (n - (zlen (Buf r) - Off r)) r) as [? ?]; [done|lia..|]. done.
    + destruct (with_Off_discard n (Off r + n) r) as [? ?]; [done|lia..|]. done.
Qed.

(** ** Reading *)

Lemma zlen_contents r : ring_wf r -> zlen (contents r) = Buffered r.
Proof.
  intros Hw. pose proof (Buffered_bounds r Hw). pose proof (zlen_cells r Hw).
  unfold contents, readable. cbn [count view]. rewrite zlen_ztake; [done|]. fold (view r). lia.
Qed.

Lemma zget_contents r i :
  ring_wf r -> 0 <= i < Buffered r -> zget (contents r) i = zget (cells (view r)) i.
Proof. intros Hw Hi. unfold contents, readable. rewrite zget_ztake; [done|]. cbn. lia. Qed.

Lemma readable_discard n v :
  0 <= n <= count v -> count v <= zlen (cells v) ->
  readable (view_discard n v) = zdrop n (readable v).
Proof.
  intros Hn Hc. unfold readable, view_discard. cbn.
  assert (zlen (zdrop n (cells v)) = zlen (cells v) - n) as E by (apply zlen_zdrop; lia).
  apply zlist_eq.
  - rewrite zlen_ztake, zlen_zdrop; rewrite ?zlen_app, ?zlen_ztake, ?E; lia.
  - intros i Hi. rewrite zlen_ztake in Hi; [|rewrite zlen_app, zlen_ztake, E; lia].
    rewrite zget_ztake, zget_app_l, !zget_zdrop, zget_ztake by lia. done.
Qed.

Lemma readable_write b v :
  0 <= count v -> count v + zlen b <= zlen (cells v) ->
  readable (view_write b v) = readable v ++ b.
Proof.
  intros Hn Hc. unfold readable, view_write, overwrite. cbn. pose proof (zlen_nonneg b).
  assert (zlen (ztake (count v) (cells v)) = count v) as E by (apply zlen_ztake; lia).
  rewrite app_assoc. unfold ztake at 1. rewrite take_app_le.
  - rewrite take_ge; [done|]. rewrite length_app. unfold zlen in *. lia.
  - rewrite length_app. unfold zlen in *. lia.
Qed.

Lemma read_ok b r :
  ring_wf r -> 0 < zlen b -> IsEmpty r = false ->
  let n := Z.min (zlen b) (Buffered r) in
  0 < n /\ read b r = Ret (ztake n (contents r) ++ zdrop n b, n, None).
Proof.
  intros Hw Hb He n. pose proof Hw as (W1 & W2 & W3). pose proof (Buffered_cases r Hw) as HB.
  pose proof (zlen_contents r Hw) as HL. pose proof (Buffered_bounds r Hw) as HBB.
  unfold read. rewrite He. unfold IsEmpty in He. apply Z.eqb_neq in He.
  replace (zlen b =? 0) with false by (symmetry; apply Z.eqb_neq; lia).
  rewrite (proj2 (Z.eqb_neq _ _) He) in HB.
  assert (0 < Buffered r) as Hpos by (revert HB; split_bools).
  split; [unfold n; lia|].
  assert (forall b', zlen b' = zlen b -> (forall j, 0 <= j < zlen b ->
       zget b' j = if j <? n then zget (Buf r) (wrapi (zlen (Buf r)) (Off r + j)) else zget b j) ->
     b' = ztake n (contents r) ++ zdrop n b) as Hfin.
  { intros b' Hl Hg. unfold n in *.
    assert (zlen (ztake (zlen b `min` Buffered r) (contents r)) = zlen b `min` Buffered r) as E1
      by (apply zlen_ztake; lia).
    apply zlist_eq; [rewrite zlen_app, E1, zlen_zdrop; lia|]. intros j Hj. rewrite Hl in Hj.
    rewrite Hg by done. bool_cases.
    - rewrite zget_app_l, zget_ztake, zget_contents, zget_cells by lia || done. done.
    - rewrite zget_app_r, zget_zdrop by lia. f_equal. lia. }
  destruct (Z.ltb_spec (Off r) (End_ r)).
  - assert (zlen (slice (Buf r) (Off r) (End_ r)) = End_ r - Off r) as E by (apply zlen_slice; lia).
    destruct (copy_into_spec b 0 (zlen b) (slice (Buf r) (Off r) (End_ r)))
      as (b' & m & H1 & Hm & L1 & G1); [lia..|].
    unfold assert_or_panic, slice_ok. rewrite H1.
    replace ((0 <=? Off r) && (Off r <=? End_ r) && (End_ r <=? zlen (Buf r))) with true
      by (symmetry; rewrite !andb_true_iff, !Z.leb_le; lia).
    cbn [mbind outcome_bind]. replace m with n by (unfold n; lia). f_equal. f_equal. f_equal.
    apply Hfin; [done|]. intros j Hj. rewrite G1 by done. unfold wrapi, n in *. split_bools; try done.
    rewrite zget_slice by lia. f_equal. lia.
  - assert (zlen (zdrop (Off r) (Buf r)) = zlen (Buf r) - Off r) as E by (apply zlen_zdrop; lia).
    assert (zlen (ztake (End_ r) (Buf r)) = End_ r) as E2 by (apply zlen_ztake; lia).
    destruct (copy_into_spec b 0 (zlen b) (zdrop (Off r) (Buf r)))
      as (b' & m & H1 & Hm & L1 & G1); [lia..|].
    unfold assert_or_panic, slice_ok. rewrite H1.
    replace ((0 <=? Off r) && (Off r <=? zlen (Buf r)) && (zlen (Buf r) <=? zlen (Buf r))) with true
      by (symmetry; rewrite !andb_true_iff, !Z.leb_le; lia).
    replace ((0 <=? 0) && (0 <=? End_ r) && (End_ r <=? zlen (Buf r))) with true
      by (symmetry; rewrite !andb_true_iff, !Z.leb_le; lia).
    cbn [mbind outcome_bind]. destruct (Z.ltb_spec m (zlen b')).
    + destruct (copy_into_spec b' m (zlen b') (ztake (End_ r) (Buf r)))
        as (b'' & m2 & H2 & Hm2 & L2 & G2); [lia..|]. rewrite H2.
      cbn [mbind outcome_bind]. replace (m + m2) with n by (unfold n; lia). f_equal. f_equal. f_equal.
      apply Hfin; [lia|]. intros j Hj. rewrite G2, G1 by lia. unfold wrapi, n in *.
      split_bools; try done; rewrite ?zget_zdrop, ?zget_ztake by lia; f_equal; lia.
    + replace m with n by (unfold n; lia). f_equal. f_equal. f_equal.
      apply Hfin; [lia|]. intros j Hj. rewrite G1 by lia. unfold wrapi, n in *.
      split_bools; try done; rewrite ?zget_zdrop by lia; f_equal; lia.
Qed.

Lemma onReadEnd_ok n r :
  ring_wf r -> IsEmpty r = false -> 0 < n <= Buffered r ->
  exists r', onReadEnd n r = Ret r' /\ ring_wf r' /\ Buf r' = Buf r /\
    view r' = view_discard n (view r).
Proof.
  intros Hw He Hn. pose proof Hw as (W1 & W2 & W3). pose proof (Buffered_cases r Hw) as HB.
  pose proof (Buffered_bounds r Hw). unfold onReadEnd, assert_or_panic.
  replace (0 <? n) with true by (symmetry; apply Z.ltb_lt; lia).
  pose proof He as He'. unfold IsEmpty in He'. apply Z.eqb_neq in He'.
  rewrite (proj2 (Z.eqb_neq _ _) He') in HB.
  eexists. split; [done|]. unfold addOff.
  destruct (Z.eqb_spec (if zlen (Buf r) <? Off r + n then Off r + n - zlen (Buf r) else Off r + n)
    (End_ r)) as [E|E].
  - assert (n = Buffered r) as ->. { revert E HB. split_bools. }
    destruct (emptied_ok r Hw He). done.
  - assert (n < Buffered r). { revert E HB. split_bools. }
    destruct (Z.eqb_spec (if zlen (Buf r) <? Off r + n then Off r + n - zlen (Buf r) else Off r + n)
      (zlen (Buf r))) as [E2|E2].
    + destruct (with_Off_discard n 0 r) as [? ?]; [done|lia|lia| |done]. revert E2. split_bools.
    + destruct (with_Off_discard n (if zlen (Buf r) <? Off r + n then Off r + n - zlen (Buf r) else Off r + n) r)
        as [? ?]; [done|lia| | |done]; split_bools.
Qed.

(** Where a read leaves the indices. *)
Lemma Read_indices b r :
  ring_wf r -> 0 < zlen b -> IsEmpty r = false ->
  let n := Z.min (zlen b) (Buffered r) in
  exists r', Read b r = Ret (r', ztake n (contents r) ++ zdrop n b, n, None) /\
    ring_wf r' /\ Buf r' = Buf r /\ 0 < n /\
    (n = Buffered r -> End_ r' = 0) /\
    (n < Buffered r -> End_ r' = End_ r /\
       (Off r' = Off r + n \/ Off r' = Off r + n - zlen (Buf r))).
Proof.
  intros Hw Hb He n. destruct (read_ok b r Hw Hb He) as [Hn HR]. fold n in HR.
  destruct (onReadEnd_ok n r Hw He) as (r' & HO & Hw' & Hbuf & Hv); [unfold n; lia|].
  exists r'. split.
  { unfold Read. rewrite HR. cbn [mbind outcome_bind].
    replace (zlen b =? 0) with false by (symmetry; apply Z.eqb_neq; lia).
    rewrite HO. done. }
  split; [done|]. split; [done|]. split; [done|].
  pose proof Hw as (W1 & W2 & W3). pose proof Hw' as (W1' & W2' & W3').
  pose proof (Buffered_cases r Hw) as HB. apply (f_equal count) in Hv.
  cbn [count view view_discard] in Hv. rewrite (Buffered_cases r' Hw'), Hbuf in Hv.
  unfold IsEmpty in He. apply Z.eqb_neq in He.
  rewrite (proj2 (Z.eqb_neq _ _) He) in HB. rewrite Hbuf in *.
  split; intros Hc; [revert Hv; split_bools|].
  unfold onReadEnd, assert_or_panic, addOff in HO.
  replace (0 <? n) with true in HO by (symmetry; by apply Z.ltb_lt).
  set (o := if zlen (Buf r) <? Off r + n then Off r + n - zlen (Buf r) else Off r + n) in HO.
  assert (o <> End_ r /\ (o = Off r + n \/ o = Off r + n - zlen (Buf r))) as [Ho1 Ho2].
  { unfold o. clear Hv. revert HB. split_bools. }
  rewrite (proj2 (Z.eqb_neq _ _) Ho1) in HO. clearbody o.
  pose proof (Buffered_bounds r Hw).
  destruct (Z.eqb_spec o (zlen (Buf r))); simplify_eq; cbn; lia.
Qed.

Lemma empty_contents r : ring_wf r -> IsEmpty r = true -> contents r = [].
Proof.
  intros Hw He. apply zlen_zero_nil. rewrite zlen_contents by done.
  rewrite Buffered_cases by done. unfold IsEmpty in He. by rewrite He.
Qed.

Lemma Write_refused b r :
  ring_wf r -> Free r < zlen b -> Write b r = Ret (r, 0, Some ErrRingBufferFull).
Proof.
  intros Hw Hb. pose proof (Buffered_bounds r Hw). rewrite Free_Buffered in Hb.
  unfold Write. replace (zlen b =? 0) with false by (symmetry; apply Z.eqb_neq; lia).
  replace (Free r <? zlen b) with true by (symmetry; apply Z.ltb_lt; rewrite Free_Buffered; lia).
  by rewrite orb_true_r.
Qed.

Lemma contents_write b r r' :
  ring_wf r -> zlen b <= Free r -> view r' = view_write b (view r) ->
  contents r' = contents r ++ b.
Proof.
  intros Hw Hb Hv. pose proof (Buffered_bounds r Hw). pose proof (zlen_cells r Hw).
  rewrite Free_Buffered in Hb. unfold contents. rewrite Hv. apply readable_write; cbn [count view]; [lia|].
  fold (view r). lia.
Qed.

Lemma contents_discard n r r' :
  ring_wf r -> 0 <= n <= Buffered r -> view r' = view_discard n (view r) ->
  contents r' = zdrop n (contents r).
Proof.
  intros Hw Hb Hv. pose proof (Buffered_bounds r Hw). pose proof (zlen_cells r Hw).
  unfold contents. rewrite Hv. apply readable_discard; cbn [count view]; [lia|]. fold (view r). lia.
Qed.

(** ** Theorems *)

(** the ring is a FIFO for its writer: on a well-formed ring [Write] never
    panics; it refuses an empty write and one larger than the free space
    without changing the ring; otherwise it appends exactly the given bytes
    behind everything readable, keeps the capacity and the index invariant, and
    reports that all bytes were written. *)
Theorem ring_write_appends b r (Hw : ring_wf r) :
  exists r' n err, Write b r = Ret (r', n, err) /\ ring_wf r' /\ Size r' = Size r /\
    (b = [] -> r' = r /\ n = 0 /\ err = Some errRingNoData) /\
    (Free r < zlen b -> r' = r /\ n = 0 /\ err = Some ErrRingBufferFull) /\
    (0 < zlen b <= Free r -> err = None /\ n = zlen b /\ contents r' = contents r ++ b /\
       Free r' = Free r - zlen b).
Proof.
  pose proof (Buffered_bounds r Hw) as HB. pose proof (Free_Buffered r) as HF.
  destruct (decide (zlen b = 0)) as [E|E]; [|destruct (decide (Free r < zlen b))].
  - exists r, 0, (Some errRingNoData).
    split; [unfold Write; by rewrite (proj2 (Z.eqb_eq _ _) E)|].
    do 2 (split; [done|]). split; [done|]. split; intros; exfalso; lia.
  - exists r, 0, (Some ErrRingBufferFull). split; [by apply Write_refused|].
    do 2 (split; [done|]). split; [intros ->; done|]. split; [done|intros; exfalso; lia].
  - pose proof (zlen_nonneg b).
    destruct (Write_ok b r Hw) as (r' & HW & Hw' & Ho & Hl & Hv); [lia|].
    exists r', (zlen b), None. split; [done|]. split; [done|]. split; [done|].
    split; [intros ->; done|]. split; [intros; exfalso; lia|]. intros _. split; [done|]. split; [done|].
    split; [apply contents_write; auto; lia|].
    rewrite !Free_Buffered, Hl. apply (f_equal count) in Hv. cbn [count view view_write] in Hv. lia.
Qed.

Lemma ring_write_appends_witness :
  let r := mkRing [1; 2; 3; 4; 5] 3 1 in
  contents r = [4; 5; 1] /\
  exists r', Write [8; 9] r = Ret (r', 2, None) /\ contents r' = [4; 5; 1; 8; 9].
Proof.
  intros r. split; [reflexivity|].
  assert (ring_wf r) as Hw by (vm_compute; repeat split; congruence).
  destruct (ring_write_appends [8; 9] r Hw) as (r' & n & err & H & _ & _ & _ & _ & H3).
  destruct H3 as (-> & -> & H4 & _); [vm_compute; split; congruence|].
  exists r'. split; [exact H|]. rewrite H4. reflexivity.
Defined.

(** the ring is a FIFO for its reader: [Read] never panics; an empty ring
    yields EOF; otherwise it delivers the oldest min(len(b), Buffered) bytes in
    order into the front of the destination, leaves the rest of the destination
    alone and removes exactly those bytes. *)
Theorem ring_read_removes b r (Hw : ring_wf r) (Hb : 0 < zlen b) :
  let n := Z.min (zlen b) (Buffered r) in
  (contents r = [] -> Read b r = Ret (r, b, 0, Some EOF)) /\
  (contents r <> [] -> exists r',
     Read b r = Ret (r', ztake n (contents r) ++ zdrop n b, n, None) /\
     ring_wf r' /\ Size r' = Size r /\ contents r' = zdrop n (contents r)).
Proof.
  intros n. pose proof (zlen_contents r Hw) as HL. split; intros Hc.
  - rewrite Hc, zlen_nil in HL. unfold Read, read, IsEmpty.
    replace (zlen b =? 0) with false by (symmetry; apply Z.eqb_neq; lia).
    rewrite Buffered_cases in HL by done. destruct Hw as (? & ? & ?).
    assert (End_ r = 0) as -> by (revert HL; split_bools). done.
  - destruct (IsEmpty r) eqn:He; [by apply empty_contents in He|].
    destruct (read_ok b r Hw Hb He) as [Hn HR].
    destruct (onReadEnd_ok n r Hw He) as (r' & HO & Hw' & Hbuf & Hv); [unfold n; lia|].
    exists r'. unfold Read. rewrite HR. cbn [mbind outcome_bind].
    replace (zlen b =? 0) with false by (symmetry; apply Z.eqb_neq; lia).
    fold n. rewrite HO. cbn [mbind outcome_bind]. split; [done|]. split; [done|].
    split; [by unfold Size; rewrite Hbuf|]. apply contents_discard; auto. unfold n. lia.
Qed.

Lemma ring_read_removes_witness :
  exists r', Read [0; 0] (mkRing [1; 2; 3; 4] 3 1) = Ret (r', [4; 1], 2, None) /\
    contents r' = [].
Proof.
  destruct (ring_read_removes [0; 0] (mkRing [1; 2; 3; 4] 3 1)) as [_ H];
    [vm_compute; repeat split; congruence|vm_compute; reflexivity|].
  destruct H as (r' & H1 & _ & _ & H2); [vm_compute; congruence|]. exists r'.
  split; [exact H1|exact H2].
Defined.

(** [ReadAt] is random access into the readable bytes: a request inside
    them returns exactly the bytes at that offset and leaves the ring alone,
    any other one fails with ErrUnexpectedEOF and delivers nothing. *)
Theorem ring_read_at p off r (Hw : ring_wf r) (Ho : 0 <= off) (Hp : 0 < zlen p) :
  ReadAt p off r =
    if off + zlen p <=? Buffered r
    then Ret (slice (contents r) off (off + zlen p), zlen p, None)
    else Ret (p, 0, Some IoErrUnexpectedEOF).
Proof.
  unfold ReadAt. pose proof (Buffered_bounds r Hw). pose proof Hw as (W1 & W2 & W3).
  bool_cases; try lia; [done|].
  destruct (with_Off_discard off (addOff r (Off r) off) r) as [Hw' Hv]; [done|lia| | |].
  1,2: unfold addOff; split_bools.
  unfold ReadPeek. pose proof (contents_discard off r _ Hw ltac:(lia) Hv) as Hc.
  pose proof (zlen_contents _ Hw') as HL. rewrite Hc in HL.
  rewrite zlen_zdrop, zlen_contents in HL by (rewrite ?zlen_contents by done; lia || done).
  destruct (read_ok p _ Hw' Hp) as [_ ->].
  { apply not_true_iff_false. intros E. rewrite empty_contents in Hc by done.
    apply (f_equal zlen) in Hc. rewrite zlen_zdrop, zlen_contents in Hc by (rewrite ?zlen_contents by done; lia || done).
    rewrite zlen_nil in Hc. lia. }
  rewrite Hc, <- HL. rewrite Z.min_l by lia. rewrite (zdrop_ge (zlen p) p), app_nil_r by lia.
  unfold slice. by replace (off + zlen p - off) with (zlen p) by lia.
Qed.

Lemma ring_read_at_witness :
  ReadAt [0; 0] 1 (mkRing [1; 2; 3; 4] 2 1) = Ret ([4; 1], 2, None).
Proof.
  rewrite ring_read_at; [reflexivity|vm_compute; repeat split; congruence|lia|reflexivity].
Defined.

Lemma zlen_staged r : ring_wf r -> zlen (staged r) = Free r.
Proof.
  intros Hw. pose proof (Buffered_bounds r Hw). pose proof (zlen_cells r Hw).
  unfold staged. rewrite zlen_zdrop; cbn [count view]; fold (view r); rewrite ?Free_Buffered; lia.
Qed.

Lemma overwrite_split l k off b :
  0 <= k -> 0 <= off -> k + off + zlen b <= zlen l ->
  ztake k (overwrite l (k + off) b) = ztake k l /\
  zdrop k (overwrite l (k + off) b) = overwrite (zdrop k l) off b.
Proof.
  intros Hk Ho Hl. pose proof (zlen_nonneg b). unfold overwrite, ztake, zdrop, zlen in *.
  assert (length (take (Z.to_nat (k + off)) l) = Z.to_nat (k + off)) as E
    by (rewrite length_take; lia).
  split.
  - rewrite take_app_le, take_take by lia. f_equal. lia.
  - rewrite drop_app_le, skipn_firstn_comm by lia. f_equal; [f_equal; lia|]. f_equal.
    rewrite drop_drop. f_equal. lia.
Qed.

(** What [Commit] reveals. *)
Lemma commit_contents n r r' :
  ring_wf r -> 0 < n <= Free r -> view r' = view_commit n (view r) ->
  contents r' = contents r ++ ztake n (staged r) /\ staged r' = zdrop n (staged r).
Proof.
  intros Hw Hn Hv. pose proof (Buffered_bounds r Hw).
  unfold contents, readable, staged. rewrite Hv. cbn [count cells view_commit].
  change (count (view r)) with (Buffered r). unfold ztake, zdrop.
  rewrite Z2Nat.inj_add by lia. split; [symmetry; apply take_take_drop|by rewrite drop_drop].
Qed.

(** Writing in order consumes staged cells; reading recycles cells behind them. *)
Lemma staged_write b r r' :
  ring_wf r -> zlen b <= Free r -> view r' = view_write b (view r) ->
  staged r' = zdrop (zlen b) (staged r).
Proof.
  intros Hw Hb Hv. pose proof (Buffered_bounds r Hw). pose proof (zlen_cells r Hw) as HL.
  rewrite Free_Buffered in Hb. pose proof (zlen_nonneg b).
  unfold staged. rewrite Hv. cbn [count cells view_write].
  change (count (view r)) with (Buffered r). unfold overwrite, zdrop, ztake.
  assert (length (take (Z.to_nat (Buffered r)) (cells (view r)) ++ b) = Z.to_nat (Buffered r + zlen b)) as E.
  { rewrite length_app, length_take. unfold zlen in *. lia. }
  rewrite app_assoc, drop_app_length' by done. rewrite drop_drop. f_equal. unfold zlen in *. lia.
Qed.

Lemma staged_discard n r r' :
  ring_wf r -> 0 <= n <= Buffered r -> view r' = view_discard n (view r) ->
  exists tail, staged r' = staged r ++ tail /\ zlen tail = n.
Proof.
  intros Hw Hn Hv. pose proof (Buffered_bounds r Hw). pose proof (zlen_cells r Hw) as HL.
  exists (ztake n (cells (view r))). split; [|apply zlen_ztake; lia].
  unfold staged. rewrite Hv. cbn [count cells view_discard].
  change (count (view r)) with (Buffered r). unfold zdrop, ztake.
  rewrite drop_app_le by (rewrite length_drop; unfold zlen in *; lia).
  rewrite drop_drop. f_equal. f_equal. lia.
Qed.

(** out-of-order staging works: [PeekWrite] inside the free space changes no
    readable byte and places [b] [offset] bytes behind them, and [Commit n]
    makes readable exactly the next [n] staged bytes, whatever was staged
    there; neither moves any other byte. *)
Theorem ring_stage_and_commit b off n r
  (Hw : ring_wf r) (Ho : 0 <= off) (Hb : 0 < zlen b) (Hf : off + zlen b <= Free r)
  (Hn : 0 < n <= Free r) :
  exists r1 r2, PeekWrite b off r = Ret (r1, true) /\ Commit n r1 = (r2, None) /\
    ring_wf r1 /\ ring_wf r2 /\
    contents r1 = contents r /\ staged r1 = overwrite (staged r) off b /\
    contents r2 = contents r ++ ztake n (staged r1) /\ staged r2 = zdrop n (staged r1).
Proof.
  destruct (PeekWrite_ok b off r Hw Ho Hb Hf) as (r1 & HP & Hw1 & Ho1 & Hl1 & Hv1).
  assert (Buffered r1 = Buffered r) as HB1 by (apply (f_equal count) in Hv1; exact Hv1).
  assert (Free r1 = Free r) as HF1 by (rewrite !Free_Buffered, HB1, Hl1; done).
  destruct (Commit_ok n r1 Hw1) as (r2 & HC & Hw2 & Ho2 & Hb2 & Hv2); [lia|].
  exists r1, r2. do 4 (split; [done|]).
  pose proof (Buffered_bounds r Hw). pose proof (zlen_cells r Hw) as HL. pose proof (zlen_cells r1 Hw1) as HL1.
  destruct (overwrite_split (cells (view r)) (Buffered r) off b) as [E1 E2];
    [lia|lia|rewrite HL; rewrite Free_Buffered in Hf; lia|].
  split; [|split; [|split]].
  - unfold contents, readable. rewrite Hv1. exact E1.
  - unfold staged. rewrite Hv1. exact E2.
  - rewrite (proj1 (commit_contents n r1 r2 Hw1 ltac:(lia) Hv2)). f_equal.
    unfold contents, readable. rewrite Hv1. exact E1.
  - exact (proj2 (commit_contents n r1 r2 Hw1 ltac:(lia) Hv2)).
Qed.

Lemma ring_stage_and_commit_witness :
  exists r1 r2, PeekWrite [7; 8] 1 (mkRing [1; 2; 3; 4; 5] 3 5) = Ret (r1, true) /\
    Commit 3 r1 = (r2, None) /\ contents r2 = [4; 5; 1; 7; 8].
Proof.
  destruct (ring_stage_and_commit [7; 8] 1 3 (mkRing [1; 2; 3; 4; 5] 3 5))
    as (r1 & r2 & H1 & H2 & _ & _ & _ & H3 & H4 & _);
    [vm_compute; repeat split; congruence|lia|reflexivity|vm_compute; congruence
    |vm_compute; split; congruence|].
  exists r1, r2. split; [exact H1|]. split; [exact H2|]. rewrite H4, H3. reflexivity.
Defined.

(** *** Limited writes *)

Lemma FreeLimited_spec limit r :
  ring_wf r -> 0 <= limit < zlen (Buf r) ->
  0 <= FreeLimited limit r <= Free r /\
  (forall i, 0 <= i < FreeLimited limit r ->
     wrapi (zlen (Buf r)) (Off r + (Buffered r + i)) <> limit).
Proof.
  intros Hw Hl. rewrite Free_Buffered, Buffered_cases by done. destruct Hw as (? & ? & ?).
  unfold FreeLimited, IsFull, Size, wrapi. split; [split_bools|intros i Hi].
  revert Hi. split_bools.
Qed.

(** a limited write stays clear of the limit: [WriteLimited] never panics
    for a limit inside the buffer; it refuses what does not fit without
    changing the ring; when it succeeds it is a plain append that leaves the
    cell at the limit as it was. *)
Theorem ring_limited_write b limit r
  (Hw : ring_wf r) (Hl : 0 <= limit < zlen (Buf r)) (Hb : 0 < zlen b) :
  (zlen b <= FreeLimited limit r /\ exists r', WriteLimited b limit r = Ret (r', zlen b, None) /\
     ring_wf r' /\ contents r' = contents r ++ b /\ zget (Buf r') limit = zget (Buf r) limit) \/
  (FreeLimited limit r < zlen b /\ exists err, WriteLimited b limit r = Ret (r, 0, Some err)).
Proof.
  destruct (FreeLimited_spec limit r Hw Hl) as [HF Hi]. pose proof Hw as (W1 & W2 & W3).
  pose proof (Buffered_bounds r Hw) as HB. pose proof (Free_Buffered r) as HFB.
  unfold WriteLimited.
  replace (zlen (Buf r) <? limit) with false by (symmetry; apply Z.ltb_ge; lia).
  destruct (Z.ltb_spec (zlen (Buf r)) (zlen b)); [right; split; [lia|eauto]|].
  destruct (Z.ltb_spec (FreeLimited limit r) (zlen b)); [right; split; [lia|eauto]|left].
  split; [done|].
  destruct (Write_ok b r Hw) as (r' & HW & Hw' & Ho & HL & Hv); [lia|].
  exists r'. split; [done|]. split; [done|]. split; [apply contents_write; auto; lia|].
  set (i := if Off r <=? limit then limit - Off r else limit + zlen (Buf r) - Off r).
  assert (0 <= i < zlen (Buf r) /\ wrapi (zlen (Buf r)) (Off r + i) = limit) as [Hir Hil].
  { unfold i, wrapi. split_bools. }
  assert (~ (Buffered r <= i < Buffered r + zlen b)) as Hn.
  { intros Hin. apply (Hi (i - Buffered r)); [lia|].
    by replace (Off r + (Buffered r + (i - Buffered r))) with (Off r + i) by lia. }
  pose proof (zget_cells r i Hw Hir) as G. pose proof (zget_cells r' i Hw' ltac:(lia)) as G'.
  rewrite Ho, HL, Hil in G'. rewrite Hil in G. rewrite <- G, <- G', Hv.
  cbn [cells view_write]. change (count (view r)) with (Buffered r).
  pose proof (zlen_cells r Hw) as HC. unfold overwrite.
  assert (zlen (ztake (Buffered r) (cells (view r))) = Buffered r) as E1 by (apply zlen_ztake; lia).
  destruct (decide (i < Buffered r)).
  - rewrite zget_app_l, zget_ztake by lia. done.
  - rewrite zget_app_r, zget_app_r, zget_zdrop by lia. f_equal. lia.
Qed.

Lemma ring_limited_write_witness :
  let r := mkRing [1; 2; 3; 4; 5] 4 1 in
  FreeLimited 3 r = 2 /\ exists r', WriteLimited [7; 8] 3 r = Ret (r', 2, None) /\
    zget (Buf r') 3 = Some 4.
Proof.
  intros r. split; [reflexivity|].
  destruct (ring_limited_write [7; 8] 3 r) as [(_ & r' & H1 & _ & _ & H2)|[H _]].
  - vm_compute; repeat split; congruence.
  - vm_compute; split; congruence.
  - reflexivity.
  - exists r'. split; [exact H1|exact H2].
  - exfalso. revert H. vm_compute. congruence.
Defined.

(** the comment that [Off<len(Buf)] always holds is not true: discarding up
    to the end of the buffer leaves [Off] equal to its length while data
    remains readable. *)
Theorem ring_off_reaches_length :
  let r := fst (ReadDiscard 2 (mkRing [1; 2; 3; 4] 2 2)) in
  Off r = zlen (Buf r) /\ contents r = [1; 2] /\ ring_wf r.
Proof. vm_compute. repeat split; congruence. Qed.

End RingProps.
