(* ===== verification/TxQueue.v ===== *)
(** * The transmit queue ([src/tcp/txqueue.go])

    [ringTx] keeps the bytes the application wrote in one ring buffer, split
    into a sent-but-unacknowledged region and an unsent region, and the list of
    sent packets ([sentlist]) that a retransmission needs. A slice capacity is
    part of the state ([pcap]) since [Free] depends on it. The field
    [emptyRing] of the source is never used and left out; logging has no effect
    on the state. *)
From S2P Require Import Prelude Errors SeqNum Ring.

Module TxQueue.
Import SeqNum.

Definition minBufferSize : Z := 2.

Record ringidx := mkPkt {
  off : Z;
  end_ : Z;
  seq : Z;
  size : Z
}.

Record sentlist := mkSentlist {
  ssn : Z;
  pkts : list ringidx;
  pcap : Z            (* cap(pkts) *)
}.

Record ringTx := mkRingTx {
  rawbuf : list Z;
  unsentoff : Z;
  unsentend : Z;
  sentoff : Z;
  sentend : Z;
  slist : sentlist;
  iss : Z
}.

Definition with_slist sl t := mkRingTx (rawbuf t) (unsentoff t) (unsentend t) (sentoff t) (sentend t) sl (iss t).
Definition with_unsent o e t := mkRingTx (rawbuf t) o e (sentoff t) (sentend t) (slist t) (iss t).
Definition with_sent o e t := mkRingTx (rawbuf t) (unsentoff t) (unsentend t) o e (slist t) (iss t).

(** ** Offsets *)

Definition addEnd (a b size : Z) : Z :=
  let result := a + b in if size <? result then result - size else result.
Definition addOff (a b size : Z) : Z :=
  let result := a + b in if size <=? result then result - size else result.

(** ** Packets *)

Definition markRcvd : ringidx := mkPkt 0 0 0 0.
Definition isRecvd (p : ringidx) : bool := size p =? 0.
Definition endSeq (p : ringidx) : Z := Add (seq p) (size p).

(** ** sentlist *)

(** [internal.SliceReuse] keeps a larger capacity. *)
Definition SliceReuse (cap n : Z) : Z := if cap <? n then n else cap.

Definition sl_Reset (pktQueueSize iss : Z) (sl : sentlist) : sentlist :=
  mkSentlist iss [] (SliceReuse (pcap sl) pktQueueSize).

Definition Newest (sl : sentlist) : option ringidx := last (pkts sl).
Definition Oldest (sl : sentlist) : option ringidx := head (pkts sl).

Definition EndSeq (sl : sentlist) : Z :=
  match Newest sl with None => ssn sl | Some p => endSeq p end.

Definition sl_Free (sl : sentlist) : Z := pcap sl - zlen (pkts sl).

Fixpoint find_containing (s : Z) (ps : list ringidx) : option ringidx :=
  match ps with
  | [] => None
  | p :: ps =>
      if LessThanEq (seq p) s && LessThan s (endSeq p) then Some p
      else find_containing s ps
  end.
Definition packetContaining (s : Z) (sl : sentlist) : option ringidx :=
  find_containing s (pkts sl).

(** The packets before the first one that starts at [s], if there is one. *)
Fixpoint before_seq (s : Z) (ps : list ringidx) : option (list ringidx) :=
  match ps with
  | [] => None
  | p :: ps =>
      if seq p =? s then Some []
      else match before_seq s ps with Some l => Some (p :: l) | None => None end
  end.
Definition truncateFrom (s : Z) (sl : sentlist) : sentlist :=
  match before_seq s (pkts sl) with
  | None => sl
  | Some [] => mkSentlist s [] (pcap sl)
  | Some ps => mkSentlist (ssn sl) ps (pcap sl)
  end.

Definition AddPacket (datalen off bufsize s : Z) (sl : sentlist)
    : outcome (sentlist * ringidx) :=
  if sl_Free sl =? 0 then Panic
  else
    let bad := match Newest sl with
               | None => false
               | Some lp => (negb (off =? 0) && negb (off =? end_ lp)) ||
                            ((off =? 0) && negb (end_ lp =? bufsize))
               end in
    if bad then Panic
    else
      let p := mkPkt off (addEnd off datalen bufsize) s (u32 datalen) in
      Ret (mkSentlist (ssn sl) (pkts sl ++ [p]) (pcap sl), p).

(** The loop that marks the fully acknowledged packets. *)
Fixpoint mark_acked (ack ssn : Z) (ps : list ringidx) : Z * list ringidx :=
  match ps with
  | [] => (ssn, [])
  | p :: ps' =>
      if LessThanEq (endSeq p) ack then
        let '(s, l) := mark_acked ack (endSeq p) ps' in (s, markRcvd :: l)
      else (ssn, p :: ps')
  end.

Definition removeRecvd (ps : list ringidx) : list ringidx :=
  match ps with
  | [] => []
  | p :: _ =>
      if negb (isRecvd p) then ps else List.filter (fun p => negb (isRecvd p)) ps
  end.

Definition RecvAck (ack bufsize : Z) (sl : sentlist) : sentlist * option error :=
  match Newest sl with
  | None => (sl, Some ErrPacketDrop)
  | Some newest =>
      if LessThan (endSeq newest) ack then (sl, Some ErrPacketDrop)
      else
        let '(s, ps) := mark_acked ack (ssn sl) (pkts sl) in
        let ps := removeRecvd ps in
        match ps with
        | [] => (mkSentlist s [] (pcap sl), None)
        | p :: rest =>
            let totalAcked := i32 (ack - seq p) in
            if 0 <? totalAcked then
              let p := mkPkt (addOff (off p) totalAcked bufsize) (end_ p)
                         (u32 (seq p + totalAcked)) (u32 (size p - totalAcked)) in
              (mkSentlist s (p :: rest) (pcap sl), None)
            else (mkSentlist s ps (pcap sl), None)
        end
  end.

(** ** ringTx *)

Definition Reset (buf : list Z) (maxqueuedPackets iss : Z) (t : ringTx)
    : ringTx * option error :=
  if maxqueuedPackets <=? 0 then (t, Some ErrInvalidConfig)
  else if (zlen buf <? minBufferSize) || (zlen buf <? maxqueuedPackets)
  then (t, Some ErrShortBuffer)
  else (mkRingTx buf 0 0 0 0 (sl_Reset maxqueuedPackets iss (slist t)) iss, None).

(** A nil buffer is [None]. *)
Definition ResetOrReuse (buf : option (list Z)) (maxQueuedPackets ack : Z) (t : ringTx)
    : ringTx * option error :=
  let buf := match buf with None => rawbuf t | Some b => b end in
  let maxQueuedPackets := if maxQueuedPackets =? 0 then pcap (slist t) else maxQueuedPackets in
  Reset buf maxQueuedPackets ack t.

Definition Size (t : ringTx) : Z := zlen (rawbuf t).

Definition ring (t : ringTx) (off end_ : Z) : Ring.Ring := Ring.mkRing (rawbuf t) off end_.
Definition unsentRing (t : ringTx) : Ring.Ring * Z :=
  (ring t (unsentoff t) (unsentend t), sentoff t).
Definition sentRing (t : ringTx) : Ring.Ring * Z :=
  (ring t (sentoff t) (sentend t), unsentoff t).
Definition sentAndUnsentBuffer (t : ringTx) : Ring.Ring :=
  let off := sentoff t in
  let e := unsentend t in
  if e =? 0 then Ring.mkRing (rawbuf t) off (sentend t)
  else if sentend t =? 0 then Ring.mkRing (rawbuf t) (unsentoff t) e
  else Ring.mkRing (rawbuf t) off e.

Definition Free (t : ringTx) : Z := Ring.Free (sentAndUnsentBuffer t).
Definition BufferedUnsent (t : ringTx) : Z := Ring.Buffered (fst (unsentRing t)).
Definition BufferedSent (t : ringTx) : Z := Ring.Buffered (fst (sentRing t)).

(** The ring writes into the shared [rawbuf], which becomes the new [rawbuf]. *)
Definition Write (b : list Z) (t : ringTx) : outcome (ringTx * Z * option error) :=
  let '(unsent, lim) := unsentRing t in
  '(unsent, n, err) ←
    (if sentend t =? 0 then Ring.Write b unsent else Ring.WriteLimited b lim unsent);
  let t := mkRingTx (Ring.Buf unsent) (unsentoff t) (unsentend t) (sentoff t) (sentend t)
             (slist t) (iss t) in
  match err with
  | Some e => Ret (t, 0, Some e)
  | None => Ret (with_unsent (unsentoff t) (Ring.End_ unsent) t, n, err)
  end.

Definition sentEndSeq (t : ringTx) : option Z :=
  match Newest (slist t) with None => None | Some p => Some (endSeq p) end.

(** The packet that starts at [s]. *)
Definition packet_at (s : Z) (ps : list ringidx) : option ringidx :=
  List.find (fun p => seq p =? s) ps.

(** [MakePacket(b, currentSeq)]: new queue, the destination [b] after the copy,
    the count, the error. *)
Definition MakePacket (b : list Z) (currentSeq : Z) (t : ringTx)
    : outcome (ringTx * list Z * Z * option error) :=
  if sl_Free (slist t) =? 0 then Ret (t, b, 0, Some ErrBufferFull)
  else
  let retransmit := match sentEndSeq t with
                    | Some e => LessThan currentSeq e
                    | None => false
                    end in
  if retransmit then
    match packet_at currentSeq (pkts (slist t)) with
    | Some p =>
        '(_, b, n, err) ← Ring.Read b (ring t (off p) (end_ p));
        Ret (t, b, n, err)
    | None => Ret (t, b, 0, Some ErrBug)
    end
  else
    let unsent := fst (unsentRing t) in
    if Ring.IsEmpty unsent then Ret (t, b, 0, None)
    else
      let oldUnsentOff := Ring.Off unsent in
      '(unsent, b, n, err) ← Ring.Read b unsent;
      match err with
      | Some e => Ret (t, b, 0, Some e)
      | None =>
          let sz := Size t in
          '(sl, p) ← AddPacket n oldUnsentOff sz currentSeq (slist t);
          let t := with_slist sl t in
          if negb (off p =? oldUnsentOff) || negb (end_ p =? addEnd (off p) n sz) then Panic
          else
            let so := if sentend t =? 0 then off p else sentoff t in
            let uo := if Ring.End_ unsent =? 0 then end_ p else Ring.Off unsent in
            Ret (with_unsent uo (Ring.End_ unsent) (with_sent so (end_ p) t), b, n, None)
      end.

Definition consolidateBufs (t : ringTx) : ringTx :=
  if (unsentend t =? 0) && (sentend t =? 0)
  then with_unsent 0 (unsentend t) (with_sent 0 (sentend t) t)
  else t.

Definition RecvACK (ack : Z) (t : ringTx) : ringTx * option error :=
  match RecvAck ack (Size t) (slist t) with
  | (sl, Some e) => (with_slist sl t, Some e)
  | (sl, None) =>
      let t := with_slist sl t in
      let t := match Oldest sl, Newest sl with
               | Some o, Some n => with_sent (off o) (end_ n) t
               | _, _ => with_sent (sentoff t) 0 t
               end in
      (consolidateBufs t, None)
  end.

Definition RetransmitFrom (s : Z) (t : ringTx) : ringTx :=
  match packetContaining s (slist t) with
  | None => t
  | Some p =>
      let rewindOff := off p in
      let rewindSeq := seq p in
      let writeEnd := if unsentend t =? 0 then sentend t else unsentend t in
      let t := if rewindOff =? sentoff t then with_sent 0 0 t
               else with_sent (sentoff t) rewindOff t in
      let t := with_unsent rewindOff writeEnd t in
      with_slist (truncateFrom rewindSeq (slist t)) t
  end.

Definition RetransmitFromUNA (t : ringTx) : ringTx :=
  match Oldest (slist t) with
  | None => t
  | Some p => RetransmitFrom (seq p) t
  end.

Definition lims (t : ringTx) : Z * Z * Z * Z :=
  (unsentoff t, unsentend t, sentoff t, sentend t).

(** ** The abstract queue *)

Definition unsent_bytes (t : ringTx) : list Z := Ring.contents (fst (unsentRing t)).
Definition sent_bytes (t : ringTx) : list Z := Ring.contents (fst (sentRing t)).

End TxQueue.
