(* ===== verification/TxQueueProps.v ===== *)
(** * Correctness of the transmit queue

    The layout invariant of [ringTx] and, under it, the refinement of the queue
    to two byte strings, the sent-but-unacknowledged bytes and the unsent ones:
    writing appends to the unsent bytes, making a packet moves bytes from the
    unsent to the sent ones, an acknowledgement removes a prefix of the sent
    ones, a retransmission request moves a suffix of the sent ones back. *)
From S2P Require Import Prelude Errors SeqNum Ring RingProps TxQueue.

Module TxQueueProps.
Import SeqNum TxQueue RingProps.

(** ** Regions of the ring *)

(** [n] bytes of the ring from [o] on. *)
Definition region (buf : list Z) (o n : Z) : list Z := slice (buf ++ buf) o (o + n).

(** [o'] is the position [n] bytes after [o] in a ring of [sz] bytes. *)
Definition ahead (sz o n o' : Z) : Prop :=
  o' = o + n \/ o' = o + n - sz \/ o' = o + n - 2 * sz.

Lemma zlen_region buf o n :
  0 <= o <= zlen buf -> 0 <= n <= zlen buf -> zlen (region buf o n) = n.
Proof. intros. unfold region. rewrite zlen_slice; [lia|lia|]. rewrite zlen_app. lia. Qed.

Lemma zget_region buf o n i :
  0 <= o <= zlen buf -> 0 <= i < n -> n <= zlen buf ->
  zget (region buf o n) i = zget buf (wrapi (zlen buf) (o + i)).
Proof.
  intros. unfold region. rewrite zget_slice by lia. unfold wrapi. bool_cases.
  - rewrite zget_app_l by lia. done.
  - rewrite zget_app_r by lia. done.
Qed.

Lemma region_app buf o n m o' :
  0 < zlen buf -> 0 <= o <= zlen buf -> 0 <= o' <= zlen buf -> 0 <= n -> 0 <= m -> n + m <= zlen buf ->
  ahead (zlen buf) o n o' ->
  region buf o (n + m) = region buf o n ++ region buf o' m.
Proof.
  intros Hp Ho Ho' Hn Hm Hs Ha. pose proof (zlen_region buf o n Ho ltac:(lia)) as E1.
  pose proof (zlen_region buf o' m Ho' ltac:(lia)) as E2.
  apply zlist_eq; [rewrite zlen_app, E1, E2, zlen_region; lia|].
  intros i Hi. rewrite zlen_region in Hi by lia. rewrite zget_region by lia.
  destruct (decide (i < n)).
  - rewrite zget_app_l, zget_region by lia. done.
  - rewrite zget_app_r, zget_region by lia. f_equal. unfold wrapi, ahead in *. split_bools.
Qed.

Lemma region_same buf o o' n :
  0 <= o <= zlen buf -> 0 <= o' <= zlen buf -> 0 <= n <= zlen buf -> 0 < zlen buf ->
  ahead (zlen buf) o 0 o' -> region buf o n = region buf o' n.
Proof.
  intros. change n with (0 + n) at 1. rewrite (region_app buf o 0 n o') by lia || done.
  replace (region buf o 0) with (@nil Z); [done|]. symmetry. apply zlen_zero_nil.
  rewrite zlen_region; lia.
Qed.

(** A non-empty ring whose end is [n] bytes after its start. *)
Lemma ring_region buf o e n :
  0 < zlen buf -> 0 <= o <= zlen buf -> 0 < n <= zlen buf -> e = addEnd o n (zlen buf) ->
  let r := Ring.mkRing buf o e in
  Ring.ring_wf r /\ Ring.Buffered r = n /\ Ring.contents r = region buf o n.
Proof.
  intros Hp Ho Hn -> r.
  assert (0 < addEnd o n (zlen buf) <= zlen buf) as He by (unfold addEnd; split_bools).
  assert (Ring.ring_wf r) as Hw by (unfold r, Ring.ring_wf; cbn; lia).
  assert (Ring.Buffered r = n) as HB.
  { rewrite Buffered_cases by done. unfold r. cbn. unfold addEnd in *. split_bools. }
  split; [done|]. split; [done|].
  apply zlist_eq; [rewrite zlen_contents, zlen_region by (lia || done); done|].
  intros i Hi. rewrite zlen_contents in Hi by done.
  rewrite zget_contents, zget_cells, zget_region by (cbn; lia || done). done.
Qed.

Lemma ring_region_empty buf o :
  0 < zlen buf -> 0 <= o <= zlen buf ->
  let r := Ring.mkRing buf o 0 in
  Ring.ring_wf r /\ Ring.Buffered r = 0 /\ Ring.contents r = region buf o 0.
Proof.
  intros Hp Ho r. assert (Ring.ring_wf r) as Hw by (unfold r, Ring.ring_wf; cbn; lia).
  assert (Ring.Buffered r = 0) as HB by (rewrite Buffered_cases by done; done).
  split; [done|]. split; [done|].
  rewrite (zlen_zero_nil (Ring.contents r)) by (by rewrite zlen_contents).
  symmetry. apply zlen_zero_nil. apply zlen_region; lia.
Qed.

(** ** The layout invariant *)

Fixpoint pkts_ok (sz base acc s : Z) (ps : list ringidx) : Prop :=
  match ps with
  | [] => True
  | p :: ps =>
      0 < size p /\ 0 <= off p <= sz /\ ahead sz base acc (off p) /\
      end_ p = addEnd (off p) (size p) sz /\ seq p = s /\
      pkts_ok sz base (acc + size p) (Add s (size p)) ps
  end.

Fixpoint total (ps : list ringidx) : Z :=
  match ps with [] => 0 | p :: ps => size p + total ps end.

(** [ns] bytes are sent, the first with sequence number [una]; [nu] bytes are unsent. *)
Record tx_inv (t : ringTx) (una ns nu : Z) : Prop := {
  tx_size : minBufferSize <= Size t < 2 ^ 31;
  tx_una : is_u32 una;
  tx_ns : 0 <= ns;
  tx_nu : 0 <= nu;
  tx_fits : ns + nu <= Size t;
  tx_uoff : 0 <= unsentoff t <= Size t;
  tx_soff : 0 <= sentoff t <= Size t;
  tx_uend : unsentend t = if nu =? 0 then 0 else addEnd (unsentoff t) nu (Size t);
  tx_send : sentend t = if ns =? 0 then 0 else addEnd (sentoff t) ns (Size t);
  tx_adj : 0 < ns -> ahead (Size t) (sentoff t) ns (unsentoff t);
  tx_adj_empty : 0 < ns -> nu = 0 -> unsentoff t = sentend t;
  tx_pkts : pkts_ok (Size t) (sentoff t) 0 una (pkts (slist t));
  tx_total : total (pkts (slist t)) = ns;
  tx_head : forall p, head (pkts (slist t)) = Some p -> off p = sentoff t;
  tx_cap : zlen (pkts (slist t)) <= pcap (slist t)
}.

(** The packets are sent, then the unsent bytes follow. *)
Lemma tx_regions t una ns nu :
  tx_inv t una ns nu ->
  sent_bytes t = region (rawbuf t) (sentoff t) ns /\
  unsent_bytes t = region (rawbuf t) (unsentoff t) nu /\
  BufferedSent t = ns /\ BufferedUnsent t = nu /\
  Ring.ring_wf (fst (sentRing t)) /\ Ring.ring_wf (fst (unsentRing t)).
Proof.
  intros [Hsz Hu Hns Hnu Hfit Huo Hso Hue Hse Hadj _ _ _ _ _]. unfold Size, minBufferSize in *.
  unfold sent_bytes, unsent_bytes, BufferedSent, BufferedUnsent, sentRing, unsentRing, ring. cbn [fst].
  assert (Ring.ring_wf (Ring.mkRing (rawbuf t) (sentoff t) (sentend t)) /\
    Ring.Buffered (Ring.mkRing (rawbuf t) (sentoff t) (sentend t)) = ns /\
    Ring.contents (Ring.mkRing (rawbuf t) (sentoff t) (sentend t)) = region (rawbuf t) (sentoff t) ns)
    as (? & ? & ?).
  { destruct (Z.eqb_spec ns 0) as [->|]; rewrite Hse.
    - apply ring_region_empty; lia.
    - apply ring_region; auto; lia. }
  assert (Ring.ring_wf (Ring.mkRing (rawbuf t) (unsentoff t) (unsentend t)) /\
    Ring.Buffered (Ring.mkRing (rawbuf t) (unsentoff t) (unsentend t)) = nu /\
    Ring.contents (Ring.mkRing (rawbuf t) (unsentoff t) (unsentend t)) = region (rawbuf t) (unsentoff t) nu)
    as (? & ? & ?).
  { destruct (Z.eqb_spec nu 0) as [->|]; rewrite Hue.
    - apply ring_region_empty; lia.
    - apply ring_region; auto; lia. }
  done.
Qed.

Lemma addEnd_pos o n sz : 0 <= o <= sz -> 0 < n <= sz -> 0 < addEnd o n sz <= sz.
Proof. intros. unfold addEnd. split_bools. Qed.

Lemma addEnd_ahead sz o n o' m :
  0 <= o <= sz -> 0 <= o' <= sz -> 0 <= n -> 0 < m -> n + m <= sz -> ahead sz o n o' ->
  addEnd o' m sz = addEnd o (n + m) sz.
Proof. unfold addEnd, ahead. intros. split_bools. Qed.

Lemma tx_Free t una ns nu : tx_inv t una ns nu -> Free t = Size t - ns - nu.
Proof.
  intros [Hsz Hu Hns Hnu Hfit Huo Hso Hue Hse Hadj Hadj0 _ _ _ _]. unfold minBufferSize in *.
  unfold Free, sentAndUnsentBuffer.
  destruct (Z.eqb_spec nu 0) as [->|Eu]; rewrite Hue.
  { destruct (Z.eqb_spec ns 0) as [->|En]; rewrite Hse; rewrite Free_Buffered; unfold Size in *; cbn.
    - destruct (ring_region_empty (rawbuf t) (sentoff t)) as (_ & -> & _); lia.
    - destruct (ring_region (rawbuf t) (sentoff t) (addEnd (sentoff t) ns (zlen (rawbuf t))) ns)
        as (_ & -> & _); auto; lia. }
  pose proof (addEnd_pos (unsentoff t) nu (Size t) ltac:(lia) ltac:(lia)) as Hp.
  replace (addEnd (unsentoff t) nu (Size t) =? 0) with false by (symmetry; apply Z.eqb_neq; lia).
  destruct (Z.eqb_spec ns 0) as [->|En]; rewrite Hse.
  - change (0 =? 0) with true. rewrite Free_Buffered. unfold Size in *. cbn [Ring.Buf].
    destruct (ring_region (rawbuf t) (unsentoff t) (addEnd (unsentoff t) nu (zlen (rawbuf t))) nu)
      as (_ & -> & _); auto; lia.
  - pose proof (addEnd_pos (sentoff t) ns (Size t) ltac:(lia) ltac:(lia)) as Hp2.
    replace (addEnd (sentoff t) ns (Size t) =? 0) with false by (symmetry; apply Z.eqb_neq; lia).
    rewrite (addEnd_ahead (Size t) (sentoff t) ns) by (lia || apply Hadj; lia).
    rewrite Free_Buffered. unfold Size in *. cbn [Ring.Buf].
    destruct (ring_region (rawbuf t) (sentoff t) (addEnd (sentoff t) (ns + nu) (zlen (rawbuf t))) (ns + nu))
      as (_ & -> & _); auto; lia.
Qed.

Lemma tx_FreeLimited t una ns nu :
  tx_inv t una ns nu -> 0 < ns ->
  Ring.FreeLimited (sentoff t) (fst (unsentRing t)) = Size t - ns - nu.
Proof.
  intros [Hsz Hu Hns Hnu Hfit Huo Hso Hue Hse Hadj Hadj0 _ _ _ _] Hp. unfold minBufferSize in *.
  specialize (Hadj Hp). specialize (Hadj0 Hp). rewrite Hse in Hadj0. cbn [fst unsentRing].
  unfold Ring.FreeLimited, Ring.IsFull, ring, Size, Ring.Size, ahead, addEnd in *.
  cbn [Ring.Buf Ring.Off Ring.End_] in *.
  replace (ns =? 0) with false in Hadj0 by (symmetry; apply Z.eqb_neq; lia).
  assert (nu = 0 /\ unsentend t = 0 /\
      (unsentoff t = sentoff t + ns \/ unsentoff t = sentoff t + ns - zlen (rawbuf t)) \/
    0 < nu /\ (unsentend t = unsentoff t + nu /\ unsentend t <= zlen (rawbuf t) \/
    unsentend t = unsentoff t + nu - zlen (rawbuf t) /\ 0 < unsentend t)) as He.
  { destruct (Z.eqb_spec nu 0) as [Eu|Eu]; [specialize (Hadj0 Eu)|]; revert Hue Hadj0; split_bools. }
  clear Hue Hadj0 Hse. split_bools.
Qed.

(** The bytes outside the unsent region and what is appended to it stay. *)
Lemma region_kept r r' b o n :
  Ring.ring_wf r -> Ring.ring_wf r' -> Ring.Off r' = Ring.Off r ->
  zlen (Ring.Buf r') = zlen (Ring.Buf r) -> Ring.view r' = Ring.view_write b (Ring.view r) ->
  0 <= o <= zlen (Ring.Buf r) -> 0 < n -> n + Ring.Buffered r + zlen b <= zlen (Ring.Buf r) ->
  ahead (zlen (Ring.Buf r)) o n (Ring.Off r) ->
  region (Ring.Buf r') o n = region (Ring.Buf r) o n.
Proof.
  intros Hw Hw' Ho HL Hv Hor Hn Hfit Ha. pose proof Hw as (W1 & W2 & W3).
  pose proof (Buffered_bounds r Hw). pose proof (zlen_nonneg b).
  apply zlist_eq; [rewrite !zlen_region by lia; done|]. intros j Hj.
  rewrite zlen_region in Hj by lia. rewrite !zget_region by lia. rewrite HL.
  set (i := zlen (Ring.Buf r) - n + j).
  assert (wrapi (zlen (Ring.Buf r)) (Ring.Off r + i) = wrapi (zlen (Ring.Buf r)) (o + j)) as E.
  { unfold wrapi, i, ahead in *. split_bools. }
  pose proof (zget_cells r i Hw ltac:(lia)) as G. pose proof (zget_cells r' i Hw' ltac:(lia)) as G'.
  rewrite Ho, HL, E in G'. rewrite E in G. rewrite <- G, <- G', Hv.
  pose proof (zlen_cells r Hw) as HC. cbn [Ring.cells Ring.view_write]. unfold Ring.overwrite.
  change (Ring.count (Ring.view r)) with (Ring.Buffered r).
  assert (zlen (ztake (Ring.Buffered r) (Ring.cells (Ring.view r))) = Ring.Buffered r) as E1
    by (apply zlen_ztake; lia).
  rewrite zget_app_r, zget_app_r, zget_zdrop by lia. f_equal. lia.
Qed.

(** Writing into the unsent region. *)
Lemma Write_accepted b t una ns nu r' :
  tx_inv t una ns nu -> 0 < zlen b -> zlen b <= Size t - ns - nu ->
  let r := fst (unsentRing t) in
  Ring.Write b r = Ret (r', zlen b, None) -> Ring.ring_wf r' -> Ring.Off r' = Ring.Off r ->
  zlen (Ring.Buf r') = zlen (Ring.Buf r) -> Ring.view r' = Ring.view_write b (Ring.view r) ->
  let t' := mkRingTx (Ring.Buf r') (unsentoff t) (Ring.End_ r') (sentoff t) (sentend t)
              (slist t) (iss t) in
  tx_inv t' una ns (nu + zlen b) /\
  unsent_bytes t' = unsent_bytes t ++ b /\ sent_bytes t' = sent_bytes t.
Proof.
  intros Hi Hb Hf r HW Hw' Ho HL Hv t'.
  destruct (tx_regions _ _ _ _ Hi) as (HS & HU & HBS & HBU & HwS & HwU).
  fold r in HwU. assert (Size t' = Size t) as Hsz by exact HL.
  assert (Ring.Buffered r' = nu + zlen b) as HB'.
  { apply (f_equal Ring.count) in Hv. cbn [Ring.count Ring.view Ring.view_write] in Hv.
    change (Ring.Buffered r) with (BufferedUnsent t) in Hv. lia. }
  assert (Ring.End_ r' = addEnd (unsentoff t) (nu + zlen b) (Size t)) as He.
  { rewrite Buffered_cases in HB' by done. destruct Hw' as (? & ? & ?).
    change (Ring.Off r) with (unsentoff t) in Ho. rewrite Ho, HL in *.
    change (zlen (Ring.Buf r)) with (Size t) in *. unfold addEnd.
    destruct Hi. revert HB'. split_bools. }
  destruct Hi as [Isz Iu Ins Inu Ifit Iuo Iso Iue Ise Iadj Iadj0 Ipk Itot Ihd Icap].
  assert (tx_inv t' una ns (nu + zlen b)) as Hi'.
  { constructor; cbn [unsentoff unsentend sentoff sentend slist t']; rewrite ?Hsz; auto; try lia.
    rewrite He. split_bools. }
  split; [done|]. destruct (tx_regions _ _ _ _ Hi') as (HS' & HU' & _).
  split.
  - assert (Ring.contents r' = unsent_bytes t') as <-.
    { unfold unsent_bytes, unsentRing, ring. cbn [fst]. destruct r'. cbn in *. by rewrite Ho. }
    apply (contents_write b r r'); auto. rewrite Free_Buffered.
    change (Ring.Buffered r) with (BufferedUnsent t). rewrite HBU.
    change (zlen (Ring.Buf r)) with (Size t). lia.
  - rewrite HS, HS'. cbn [rawbuf sentoff t'].
    destruct (decide (ns = 0)) as [->|Hne].
    + rewrite (zlen_zero_nil (region (Ring.Buf r') (sentoff t) 0)),
        (zlen_zero_nil (region (rawbuf t) (sentoff t) 0)); [done|..]; apply zlen_region; unfold Size in *;
        cbn [t' rawbuf] in *; lia.
    + apply (region_kept r r' b); auto; try lia.
      * change (Ring.Buffered r) with (BufferedUnsent t). rewrite HBU.
        change (zlen (Ring.Buf r)) with (Size t). lia.
      * apply Iadj. lia.
Qed.

Lemma sentend_zero t una ns nu : tx_inv t una ns nu -> (sentend t =? 0) = (ns =? 0).
Proof.
  intros []. rewrite tx_send0. destruct (Z.eqb_spec ns 0); [done|]. apply Z.eqb_neq.
  pose proof (addEnd_pos (sentoff t) ns (Size t)). lia.
Qed.

Lemma unsent_empty t una ns nu :
  tx_inv t una ns nu -> Ring.IsEmpty (fst (unsentRing t)) = (nu =? 0).
Proof.
  intros []. unfold Ring.IsEmpty. cbn. rewrite tx_uend0. destruct (Z.eqb_spec nu 0); [done|].
  apply Z.eqb_neq. pose proof (addEnd_pos (unsentoff t) nu (Size t)). lia.
Qed.

(** ** The packet list *)

Lemma Add_assoc s a b : Add (Add s a) b = Add s (a + b).
Proof. unfold Add. wrap_lia. Qed.
Lemma Add_0_r s : is_u32 s -> Add s 0 = s.
Proof. unfold Add. intros. wrap_lia. Qed.

Lemma pkts_ok_app sz base acc s ps qs :
  is_u32 s ->
  pkts_ok sz base acc s (ps ++ qs) <->
  pkts_ok sz base acc s ps /\ pkts_ok sz base (acc + total ps) (Add s (total ps)) qs.
Proof.
  revert acc s. induction ps as [|p ps IH]; intros acc s Hs; cbn [pkts_ok total app].
  - rewrite Z.add_0_r, Add_0_r by done. tauto.
  - rewrite IH, Add_assoc, Z.add_assoc by apply Add_u32. tauto.
Qed.

Lemma total_app ps qs : total (ps ++ qs) = total ps + total qs.
Proof. induction ps as [|p ps IH]; cbn [total app]; [done|]. rewrite IH. lia. Qed.

Lemma total_nonneg sz base acc s ps : pkts_ok sz base acc s ps -> 0 <= total ps.
Proof.
  revert acc s. induction ps as [|p ps IH]; intros acc s; cbn; [lia|].
  intros (? & _ & _ & _ & _ & H). apply IH in H. lia.
Qed.

Lemma total_pos sz base acc s ps : pkts_ok sz base acc s ps -> ps <> [] -> 0 < total ps.
Proof.
  destruct ps as [|p ps]; [done|]. cbn. intros (? & _ & _ & _ & _ & H) _.
  apply total_nonneg in H. lia.
Qed.

(** The newest packet ends where the sent region ends. *)
Lemma newest_spec t una ns nu :
  tx_inv t una ns nu ->
  match Newest (slist t) with
  | None => ns = 0 /\ pkts (slist t) = []
  | Some p => 0 < ns /\ endSeq p = Add una ns /\ end_ p = sentend t
  end.
Proof.
  intros Hi. pose proof Hi as []. unfold Newest, minBufferSize in *.
  destruct (last (pkts (slist t))) as [p|] eqn:E.
  - apply last_Some in E as [l E]. rewrite E in *.
    pose proof (total_pos _ _ _ _ _ tx_pkts0 ltac:(by destruct l)) as Hpos.
    apply pkts_ok_app in tx_pkts0 as [Hl Hp]; [|done]. cbn in Hp.
    destruct Hp as (P1 & P2 & P3 & P4 & P5 & _). rewrite total_app in tx_total0, Hpos. cbn in tx_total0, Hpos.
    split; [lia|]. unfold endSeq. rewrite P5, Add_assoc. split; [f_equal; lia|].
    rewrite P4, tx_send0. replace (ns =? 0) with false by (symmetry; apply Z.eqb_neq; lia).
    pose proof (total_nonneg _ _ _ _ _ Hl). rewrite Z.add_0_l in P3.
    rewrite (addEnd_ahead (Size t) (sentoff t) (total l)) by (lia || done). f_equal; lia.
  - apply last_None in E. rewrite E in *. cbn in *. done.
Qed.

(** ** Making a packet *)

Lemma AddPacket_ok n t una ns nu s :
  tx_inv t una ns nu -> 0 < sl_Free (slist t) -> 0 < n <= nu ->
  let p := mkPkt (unsentoff t) (addEnd (unsentoff t) n (Size t)) s n in
  AddPacket n (unsentoff t) (Size t) s (slist t) =
    Ret (mkSentlist (ssn (slist t)) (pkts (slist t) ++ [p]) (pcap (slist t)), p).
Proof.
  intros Hi Hf Hn p. pose proof (newest_spec _ _ _ _ Hi) as HN. destruct Hi. unfold minBufferSize in *.
  unfold AddPacket. replace (sl_Free (slist t) =? 0) with false by (symmetry; apply Z.eqb_neq; lia).
  replace (u32 n) with n by (unfold u32; rewrite Z.mod_small; lia).
  destruct (Newest (slist t)) as [lp|]; [|done]. destruct HN as (Hp & _ & ->).
  match goal with |- (if ?c then _ else _) = _ => replace c with false; [done|] end.
  specialize (tx_adj0 Hp). rewrite tx_send0. unfold addEnd, ahead in *. symmetry.
  replace (ns =? 0) with false by (symmetry; apply Z.eqb_neq; lia).
  destruct (Z.ltb_spec (Size t) (sentoff t + ns)); split_bools; done.
Qed.

(** The queue after [n] unsent bytes became a packet. *)
Lemma packet_inv n t una ns nu s o e :
  tx_inv t una ns nu -> 0 < sl_Free (slist t) -> 0 < n <= nu -> is_u32 s ->
  (0 < ns -> s = Add una ns) ->
  (n = nu -> o = addEnd (unsentoff t) n (Size t) /\ e = 0) ->
  (n < nu -> e = unsentend t /\ 0 <= o <= Size t /\
     (o = unsentoff t + n \/ o = unsentoff t + n - Size t)) ->
  let p := mkPkt (unsentoff t) (addEnd (unsentoff t) n (Size t)) s n in
  let t' := mkRingTx (rawbuf t) o e (if ns =? 0 then unsentoff t else sentoff t) (end_ p)
              (mkSentlist (ssn (slist t)) (pkts (slist t) ++ [p]) (pcap (slist t))) (iss t) in
  tx_inv t' (if ns =? 0 then s else una) (ns + n) (nu - n) /\
  sent_bytes t' = sent_bytes t ++ ztake n (unsent_bytes t) /\
  unsent_bytes t' = zdrop n (unsent_bytes t).
Proof.
  intros Hi Hf Hn Hs Hseq Hfull Hpart p t'.
  pose proof (newest_spec _ _ _ _ Hi) as HN. destruct (tx_regions _ _ _ _ Hi) as (HS & HU & _).
  pose proof Hi as [Isz Iu Ins Inu Ifit Iuo Iso Iue Ise Iadj Iadj0 Ipk Itot Ihd Icap].
  unfold minBufferSize in *. pose proof (addEnd_pos (unsentoff t) n (Size t) ltac:(lia) ltac:(lia)) as He.
  assert (0 <= o <= Size t /\ ahead (Size t) (unsentoff t) n o) as [Hor Hoa].
  { unfold ahead. destruct (decide (n = nu)) as [E|E]; [destruct (Hfull E) as [-> _]|
      destruct Hpart as (_ & ? & ?); lia]. unfold addEnd in *. revert He. split_bools. }
  set (so := if ns =? 0 then unsentoff t else sentoff t).
  assert (0 <= so <= Size t /\ ahead (Size t) so ns (unsentoff t)) as [Hsr Hsa].
  { unfold so, ahead in *. split_bools. }
  assert (0 < n + ns <= Size t) as Hnn by lia.
  assert (end_ p = addEnd so (ns + n) (Size t)) as Hend
    by (apply addEnd_ahead; auto; lia).
  assert (tx_inv t' (if ns =? 0 then s else una) (ns + n) (nu - n)) as Hi'.
  { assert (Size t' = Size t) as Hsz by done.
    constructor; rewrite ?Hsz; cbn [unsentoff unsentend sentoff sentend slist pkts pcap t'];
      fold so; unfold minBufferSize; auto; try lia.
    - destruct (ns =? 0); done.
    - destruct (Z.eqb_spec (nu - n) 0); [destruct Hfull; [lia|done]|].
      destruct Hpart as (-> & _); [lia|]. rewrite Iue.
      replace (nu =? 0) with false by (symmetry; apply Z.eqb_neq; lia).
      replace nu with (n + (nu - n)) at 1 by lia. symmetry. apply addEnd_ahead; auto; lia.
    - replace (ns + n =? 0) with false by (symmetry; apply Z.eqb_neq; lia). done.
    - intros _. unfold ahead in *. lia.
    - intros _ E. destruct Hfull as [-> _]; [lia|]. done.
    - apply pkts_ok_app; [by destruct (ns =? 0)|]. unfold so.
      destruct (Z.eqb_spec ns 0) as [E|E].
      + destruct (Newest (slist t)) as [lp|]; [lia|]. destruct HN as [_ ->].
        cbn. rewrite Add_0_r by done. unfold ahead. split_and!; auto; lia.
      + split; [done|]. rewrite Itot. cbn. rewrite Hseq by lia. split_and!; auto; lia.
    - rewrite total_app. cbn. lia.
    - intros q Hq. unfold so. destruct (Z.eqb_spec ns 0) as [E|E].
      + destruct (Newest (slist t)) as [lp|]; [lia|]. destruct HN as [_ HN]. rewrite HN in Hq.
        cbn in Hq. by simplify_eq.
      + apply Ihd. destruct (pkts (slist t)); [cbn in Itot; lia|done].
    - rewrite zlen_app, zlen_cons, zlen_nil. unfold sl_Free in Hf. lia. }
  split; [done|]. destruct (tx_regions _ _ _ _ Hi') as (HS' & HU' & _). rewrite HS', HU', HS, HU.
  cbn [rawbuf sentoff unsentoff t']. fold so. unfold Size in *.
  assert (region (rawbuf t) (unsentoff t) nu =
          region (rawbuf t) (unsentoff t) n ++ region (rawbuf t) o (nu - n)) as Hsplit.
  { replace nu with (n + (nu - n)) at 1 by lia. apply region_app; auto; lia. }
  assert (zlen (region (rawbuf t) (unsentoff t) n) = n) as Hln by (apply zlen_region; lia).
  split.
  - rewrite Hsplit, (region_app _ so ns n (unsentoff t)) by (auto; lia). f_equal.
    + unfold so. destruct (Z.eqb_spec ns 0) as [->|]; [|done].
      rewrite (zlen_zero_nil (region (rawbuf t) (unsentoff t) 0)),
        (zlen_zero_nil (region (rawbuf t) (sentoff t) 0)); [done|..]; apply zlen_region; lia.
    + symmetry. unfold ztake. apply take_app_length'. unfold zlen in Hln. lia.
  - rewrite Hsplit. symmetry. unfold zdrop. apply drop_app_length'. unfold zlen in Hln. lia.
Qed.

(** ** Acknowledgements *)

Lemma removeRecvd_filter ps :
  (forall p, In p ps -> isRecvd p = false) \/ (exists l, ps = markRcvd :: l) ->
  removeRecvd ps = List.filter (fun p => negb (isRecvd p)) ps.
Proof.
  intros [H|[l ->]]; [|done]. destruct ps as [|p ps]; [done|]. unfold removeRecvd.
  rewrite (H p) by (by left). cbn [negb]. symmetry. apply List.forallb_filter_id.
  apply forallb_forall. intros q Hq. by rewrite H.
Qed.

Lemma pkts_ok_live sz base acc s ps p : pkts_ok sz base acc s ps -> In p ps -> isRecvd p = false.
Proof.
  revert acc s. induction ps as [|q ps IH]; intros acc s; cbn; [done|].
  intros (H & _ & _ & _ & _ & Hps) [->|Hin]; [|by eapply IH].
  unfold isRecvd. apply Z.eqb_neq. lia.
Qed.

Lemma LessThanEq_endSeq s n ack :
  is_u32 s -> is_u32 ack -> 0 < n < 2 ^ 31 -> dist s ack < 2 ^ 31 \/ 2 ^ 31 + n < dist s ack ->
  LessThanEq (Add s n) ack = (n <=? dist s ack) && (dist s ack <? 2 ^ 31).
Proof.
  intros Hs Ha Hn Hd. rewrite LessThanEq_dist by (done || apply Add_u32).
  unfold dist, Add, is_u32, u32 in *.
  apply eq_true_iff_eq. rewrite andb_true_iff, !Z.leb_le, Z.ltb_lt. wrap_lia.
Qed.

(** The packets an acknowledgement of [d] octets leaves. *)
Lemma mark_acked_split sz base acc s ps ack ssn0 :
  pkts_ok sz base acc s ps -> is_u32 s -> is_u32 ack -> total ps < 2 ^ 31 ->
  dist s ack <= total ps ->
  exists ssn1 ps1 ps2, mark_acked ack ssn0 ps = (ssn1, map (fun _ => markRcvd) ps1 ++ ps2) /\
    ps = ps1 ++ ps2 /\ total ps1 <= dist s ack /\
    (ps2 = [] -> total ps1 = dist s ack) /\
    (forall p, head ps2 = Some p -> dist s ack < total ps1 + size p) /\
    (ps1 = [] -> ssn1 = ssn0).
Proof.
  revert acc s ssn0. induction ps as [|p ps IH]; intros acc s ssn0 Hok Hs Ha Ht Hd; cbn [mark_acked].
  { exists ssn0, [], []. cbn in *. pose proof (dist_range s ack). unfold is_u32 in *.
    split_and!; auto; try lia; done. }
  pose proof (total_nonneg _ _ _ _ _ (proj2 (proj2 (proj2 (proj2 (proj2 Hok)))))) as Hnn.
  destruct Hok as (P1 & P2 & P3 & P4 & P5 & Hok). cbn [total] in *.
  pose proof (dist_range s ack) as Hdr. unfold endSeq. rewrite P5.
  rewrite LessThanEq_endSeq by (done || lia).
  replace (dist s ack <? 2 ^ 31) with true by (symmetry; apply Z.ltb_lt; lia). rewrite andb_true_r.
  destruct (Z.leb_spec (size p) (dist s ack)).
  - assert (dist (Add s (size p)) ack = dist s ack - size p) as E.
    { rewrite (dist_sub s (Add s (size p)) ack); rewrite dist_Add by (unfold is_u32 in *; lia); lia. }
    destruct (IH (acc + size p) (Add s (size p)) (Add s (size p))) as (s1 & q1 & q2 & H1 & H2 & H3 & H4 & H5 & _);
      auto using Add_u32; try lia.
    exists s1, (p :: q1), q2. rewrite H1, H2. cbn. split_and!; auto; try lia.
    + intros E2. specialize (H4 E2). lia.
    + intros p' Hp'. specialize (H5 p' Hp'). lia.
    + done.
  - exists ssn0, [], (p :: ps). cbn. unfold is_u32 in *. split_and!; auto; try lia; [done|].
    intros p' Hp'. simplify_eq. lia.
Qed.

Lemma filter_marked (ps1 ps2 : list ringidx) :
  (forall p, In p ps2 -> isRecvd p = false) ->
  List.filter (fun p => negb (isRecvd p)) (map (fun _ => markRcvd) ps1 ++ ps2) = ps2.
Proof.
  intros H. induction ps1 as [|p ps1 IH]; cbn; [|exact IH].
  apply List.forallb_filter_id. apply forallb_forall. intros q Hq. by rewrite H.
Qed.

Lemma pkts_ok_rebase sz base base' acc d s ps :
  pkts_ok sz base acc s ps -> 0 <= base <= sz -> 0 <= base' <= sz -> 0 < sz ->
  0 <= d < acc -> acc + total ps <= sz -> ahead sz base d base' ->
  pkts_ok sz base' (acc - d) s ps.
Proof.
  intros Hok Hb Hb' Hz. revert acc s Hok.
  induction ps as [|p ps IH]; intros acc s Hok Hd Ht Ha; cbn; [done|].
  pose proof (total_nonneg _ _ _ _ _ (proj2 (proj2 (proj2 (proj2 (proj2 Hok)))))) as Hnn.
  destruct Hok as (P1 & P2 & P3 & P4 & P5 & Hok). cbn [total] in Ht.
  split_and!; auto; try lia.
  - unfold ahead in *. lia.
  - replace (acc - d + size p) with (acc + size p - d) by lia. apply IH; auto; lia.
Qed.

Lemma mark_removed sz base acc s ps1 ps2 :
  is_u32 s -> pkts_ok sz base acc s (ps1 ++ ps2) ->
  removeRecvd (map (fun _ => markRcvd) ps1 ++ ps2) = ps2.
Proof.
  intros Hs Hok. apply pkts_ok_app in Hok as [_ H2]; [|done].
  rewrite removeRecvd_filter.
  - apply filter_marked. intros p Hp. by eapply pkts_ok_live.
  - destruct ps1 as [|p ps1]; [left|right; by eexists]. intros p Hp. by eapply pkts_ok_live.
Qed.

(** The queue after [d] octets, which end inside packet [p], were acknowledged. *)
Lemma acked_inv t una ns nu d p rest ps1 p' s :
  tx_inv t una ns nu -> pkts (slist t) = ps1 ++ p :: rest ->
  total ps1 <= d < total ps1 + size p -> 0 < d ->
  let k := d - total ps1 in
  p' = mkPkt (if 0 <? k then addOff (off p) k (Size t) else off p) (end_ p) (Add una d) (size p - k) ->
  let t' := mkRingTx (rawbuf t) (unsentoff t) (unsentend t) (off p') (sentend t)
              (mkSentlist s (p' :: rest) (pcap (slist t))) (iss t) in
  tx_inv t' (Add una d) (ns - d) nu /\
  sent_bytes t' = zdrop d (sent_bytes t) /\ unsent_bytes t' = unsent_bytes t.
Proof.
  intros Hi Hps Hd Hd0 k Hp' t'. destruct (tx_regions _ _ _ _ Hi) as (HS & HU & _).
  pose proof Hi as [Isz Iu Ins Inu Ifit Iuo Iso Iue Ise Iadj Iadj0 Ipk Itot Ihd Icap].
  unfold minBufferSize in *. rewrite Hps in Ipk, Itot.
  apply pkts_ok_app in Ipk as [Ipk1 Ipk2]; [|done]. rewrite total_app in Itot. cbn in Itot, Ipk2.
  destruct Ipk2 as (P1 & P2 & P3 & P4 & P5 & Ipk2).
  pose proof (total_nonneg _ _ _ _ _ Ipk1). pose proof (total_nonneg _ _ _ _ _ Ipk2).
  rewrite Z.add_0_l in *.
  assert (0 <= off p' <= Size t /\ ahead (Size t) (sentoff t) d (off p') /\
          ahead (Size t) (off p) k (off p')) as (Ho & Ha & Ha2).
  { rewrite Hp'. cbn. unfold ahead, addOff, k in *. destruct (Z.ltb_spec 0 (d - total ps1)); split_bools. }
  assert (end_ p' = end_ p /\ seq p' = Add una d /\ size p' = size p - k) as (Ee & Eq & Es)
    by (by rewrite Hp').
  clear Hp'. assert (0 < ns - d) as Hpos by lia.
  assert (end_ p = addEnd (off p') (size p - k) (Size t)) as He.
  { rewrite P4. replace (size p) with (k + (size p - k)) at 1 by lia. symmetry.
    apply addEnd_ahead; auto; unfold k; lia. }
  assert (tx_inv t' (Add una d) (ns - d) nu) as Hi'.
  { assert (Size t' = Size t) as Hsz by done.
    constructor; rewrite ?Hsz; cbn [unsentoff unsentend sentoff sentend slist pkts pcap t'];
      unfold minBufferSize; auto using Add_u32; try lia.
    - rewrite Ise. replace (ns =? 0) with false by (symmetry; apply Z.eqb_neq; lia).
      replace (ns - d =? 0) with false by (symmetry; apply Z.eqb_neq; lia).
      replace ns with (d + (ns - d)) at 1 by lia. symmetry. apply addEnd_ahead; auto; lia.
    - intros _. specialize (Iadj ltac:(lia)). unfold ahead in *. lia.
    - cbn [pkts_ok]. rewrite Es, Ee, Eq. split; [unfold k; lia|]. split; [done|].
      split; [unfold ahead; lia|]. split; [done|]. split; [done|].
      rewrite Add_assoc. replace (d + (size p - k)) with (total ps1 + size p) by (unfold k; lia).
      rewrite <- (Add_assoc una). replace (0 + (size p - k)) with (total ps1 + size p - d) by (unfold k; lia).
      apply (pkts_ok_rebase _ (sentoff t)); auto; lia.
    - cbn. rewrite Es. unfold k. lia.
    - intros q Hq. cbn in Hq. by simplify_eq.
    - rewrite Hps, zlen_app in Icap. rewrite zlen_cons in *. pose proof (zlen_nonneg ps1). lia. }
  split; [done|]. destruct (tx_regions _ _ _ _ Hi') as (HS' & HU' & _). rewrite HS', HU', HS, HU.
  split; [|done]. cbn [rawbuf sentoff t']. unfold Size in *.
  replace ns with (d + (ns - d)) at 2 by lia.
  rewrite (region_app _ (sentoff t) d (ns - d) (off p')) by (auto; lia).
  symmetry. unfold zdrop. apply drop_app_length'.
  pose proof (zlen_region (rawbuf t) (sentoff t) d ltac:(lia) ltac:(lia)) as E. unfold zlen in E. lia.
Qed.

(** Nothing acknowledged: the queue is rebuilt as it was. *)
Lemma RecvACK_unchanged t una ns nu ack :
  tx_inv t una ns nu -> 0 < ns ->
  RecvAck ack (Size t) (slist t) = (slist t, None) -> RecvACK ack t = (t, None).
Proof.
  intros Hi Hp HR. pose proof (newest_spec _ _ _ _ Hi) as HN.
  pose proof (sentend_zero _ _ _ _ Hi) as Hz. unfold RecvACK. rewrite HR.
  unfold Oldest. destruct (Newest (slist t)) as [n|] eqn:EN; [|lia].
  destruct HN as (_ & _ & He).
  destruct (head (pkts (slist t))) as [o|] eqn:EO.
  - rewrite (tx_head _ _ _ _ Hi o EO), He. unfold consolidateBufs.
    cbn [sentend unsentend with_sent with_slist]. rewrite Hz.
    replace (ns =? 0) with false by (symmetry; apply Z.eqb_neq; lia).
    rewrite andb_false_r. by destruct t.
  - unfold Newest in EN. destruct (pkts (slist t)); done.
Qed.

Lemma RecvACK_acked t una ns nu ack s p' rest p :
  tx_inv t una ns nu -> 0 < ns ->
  RecvAck ack (Size t) (slist t) = (mkSentlist s (p' :: rest) (pcap (slist t)), None) ->
  (exists ps1, pkts (slist t) = ps1 ++ p :: rest) -> end_ p' = end_ p ->
  RecvACK ack t = (mkRingTx (rawbuf t) (unsentoff t) (unsentend t) (off p') (sentend t)
              (mkSentlist s (p' :: rest) (pcap (slist t))) (iss t), None).
Proof.
  intros Hi Hp HR [ps1 Hps] He. pose proof (newest_spec _ _ _ _ Hi) as HN.
  pose proof (sentend_zero _ _ _ _ Hi) as Hz. unfold RecvACK. rewrite HR.
  assert (exists q, Newest (mkSentlist s (p' :: rest) (pcap (slist t))) = Some q /\ end_ q = sentend t)
    as (q & -> & Hq).
  { unfold Newest in *. rewrite Hps, last_app_cons in HN. cbn [pkts].
    destruct rest as [|r rest]; cbn in HN |- *.
    - exists p'. split; [done|]. destruct HN as (_ & _ & HN). congruence.
    - destruct (last (r :: rest)) as [q|] eqn:E; [|by apply last_None in E]. exists q.
      destruct HN as (_ & _ & HN). done. }
  cbn [Oldest head pkts]. unfold consolidateBufs. cbn [sentend unsentend with_sent with_slist].
  rewrite Hq, Hz. replace (ns =? 0) with false by (symmetry; apply Z.eqb_neq; lia).
  by rewrite andb_false_r.
Qed.

Lemma RecvAck_split t una ns nu ack :
  tx_inv t una ns nu -> 0 < ns -> is_u32 ack -> dist una ack <= ns ->
  exists s ps1 ps2, pkts (slist t) = ps1 ++ ps2 /\ total ps1 <= dist una ack /\
    (ps2 = [] -> total ps1 = dist una ack) /\
    (forall p, head ps2 = Some p -> dist una ack < total ps1 + size p) /\
    (ps1 = [] -> s = ssn (slist t)) /\
    RecvAck ack (Size t) (slist t) =
      match ps2 with
      | [] => (mkSentlist s [] (pcap (slist t)), None)
      | p :: rest =>
          let k := dist una ack - total ps1 in
          (mkSentlist s ((if 0 <? k then
             mkPkt (addOff (off p) k (Size t)) (end_ p) (Add una (dist una ack)) (size p - k)
             else p) :: rest) (pcap (slist t)), None)
      end.
Proof.
  intros Hi Hp Ha Hd. pose proof (newest_spec _ _ _ _ Hi) as HN.
  pose proof Hi as [Isz Iu Ins Inu Ifit Iuo Iso Iue Ise Iadj Iadj0 Ipk Itot Ihd Icap].
  destruct (mark_acked_split _ _ _ _ _ ack (ssn (slist t)) Ipk Iu Ha) as
    (s & ps1 & ps2 & HM & Hps & H1 & H2 & H3 & H4); [lia|lia|].
  exists s, ps1, ps2. do 5 (split; [done|]). unfold RecvAck.
  destruct (Newest (slist t)) as [n|]; [|lia]. destruct HN as (_ & HN & _).
  rewrite HN. replace (LessThan (Add una ns) ack) with false.
  2: { symmetry. rewrite LessThan_dist. unfold dist, Add, is_u32 in *.
       apply andb_false_iff. rewrite Z.ltb_ge, Z.leb_gt. wrap_lia. }
  rewrite HM. rewrite Hps in Ipk. rewrite (mark_removed _ _ _ _ _ _ Iu Ipk).
  destruct ps2 as [|p rest]; [done|]. specialize (H3 p eq_refl).
  apply pkts_ok_app in Ipk as [Ipk1 (P1 & _ & _ & _ & P5 & Ipk2)]; [|done].
  pose proof (total_nonneg _ _ _ _ _ Ipk1). pose proof (total_nonneg _ _ _ _ _ Ipk2).
  rewrite Hps, total_app in Itot. cbn in Itot.
  assert (i32 (ack - seq p) = dist una ack - total ps1) as ->.
  { rewrite P5. unfold dist, Add, is_u32 in *. wrap_lia. }
  cbn zeta. destruct (Z.ltb_spec 0 (dist una ack - total ps1)); [|done].
  do 3 f_equal. f_equal.
  - rewrite P5. unfold dist, Add, is_u32 in *. wrap_lia.
  - unfold u32. rewrite Z.mod_small; lia.
Qed.

(** An acknowledgement outside the sent octets changes nothing. *)
Lemma RecvACK_outside t una ns nu ack :
  tx_inv t una ns nu -> is_u32 ack -> ns < dist una ack \/ ns = 0 ->
  exists oe, RecvACK ack t = (t, oe).
Proof.
  intros Hi Ha Hd. pose proof (newest_spec _ _ _ _ Hi) as HN.
  assert (with_slist (slist t) t = t) as Eta by (by destruct t).
  destruct (Newest (slist t)) as [n|] eqn:EN.
  2: { exists (Some ErrPacketDrop). unfold RecvACK, RecvAck. by rewrite EN, Eta. }
  destruct HN as (Hp & HN & _).
  destruct (LessThan (endSeq n) ack) eqn:EL.
  { exists (Some ErrPacketDrop). unfold RecvACK, RecvAck. by rewrite EN, EL, Eta. }
  exists None. apply (RecvACK_unchanged t una ns nu); auto.
  unfold RecvAck. rewrite EN, EL.
  pose proof Hi as [Isz Iu Ins Inu Ifit Iuo Iso Iue Ise Iadj Iadj0 Ipk Itot Ihd Icap].
  destruct (pkts (slist t)) as [|p ps] eqn:EP; [cbn in Itot; lia|].
  pose proof Ipk as (P1 & _ & _ & _ & P5 & Ipk2). pose proof (total_nonneg _ _ _ _ _ Ipk2).
  cbn in Itot. pose proof (dist_range una ack) as Hr.
  assert (2 ^ 31 + ns < dist una ack) as Hfar.
  { rewrite HN, LessThan_dist in EL. unfold dist, Add, is_u32 in *.
    apply andb_false_iff in EL. rewrite Z.ltb_ge, Z.leb_gt in EL. wrap_lia. }
  cbn [mark_acked]. unfold endSeq. rewrite P5, LessThanEq_endSeq by (done || lia).
  replace (dist una ack <? 2 ^ 31) with false by (symmetry; apply Z.ltb_ge; lia).
  rewrite andb_false_r. unfold removeRecvd, isRecvd.
  replace (size p =? 0) with false by (symmetry; apply Z.eqb_neq; lia). cbn [negb].
  rewrite P5. replace (0 <? i32 (ack - una)) with false.
  2: { symmetry. apply Z.ltb_ge. unfold dist, is_u32 in *. wrap_lia. }
  f_equal. rewrite <- EP. by destruct (slist t).
Qed.

(** ** Looking packets up *)

Lemma packet_at_found sz base acc s l p rest :
  is_u32 s -> pkts_ok sz base acc s (l ++ p :: rest) -> total l < 2 ^ 32 ->
  packet_at (seq p) (l ++ p :: rest) = Some p.
Proof.
  intros Hs Hok Ht. unfold packet_at. revert acc s Hs Hok Ht.
  induction l as [|q l IH]; intros acc s Hs Hok Ht; cbn.
  { by rewrite Z.eqb_refl. }
  pose proof Hok as (Q1 & _ & _ & _ & Q5 & Hok'). cbn [app] in Hok'.
  pose proof Hok' as Hok2. apply pkts_ok_app in Hok2 as [Hl (_ & _ & _ & _ & P5 & _)]; [|apply Add_u32].
  pose proof (total_nonneg _ _ _ _ _ Hl). cbn [total] in Ht.
  replace (seq q =? seq p) with false.
  - apply (IH (acc + size q) (Add s (size q))); auto using Add_u32. lia.
  - symmetry. apply Z.eqb_neq. rewrite Q5, P5, Add_assoc. unfold Add, is_u32 in *. wrap_lia.
Qed.

Lemma before_seq_found sz base acc s l p rest :
  is_u32 s -> pkts_ok sz base acc s (l ++ p :: rest) -> total l < 2 ^ 32 ->
  before_seq (seq p) (l ++ p :: rest) = Some l.
Proof.
  intros Hs Hok Ht. revert acc s Hs Hok Ht.
  induction l as [|q l IH]; intros acc s Hs Hok Ht; cbn.
  { by rewrite Z.eqb_refl. }
  pose proof Hok as (Q1 & _ & _ & _ & Q5 & Hok'). cbn [app] in Hok'.
  pose proof Hok' as Hok2. apply pkts_ok_app in Hok2 as [Hl (_ & _ & _ & _ & P5 & _)]; [|apply Add_u32].
  pose proof (total_nonneg _ _ _ _ _ Hl). cbn [total] in Ht.
  replace (seq q =? seq p) with false.
  - rewrite (IH (acc + size q) (Add s (size q))); auto using Add_u32. lia.
  - symmetry. apply Z.eqb_neq. rewrite Q5, P5, Add_assoc. unfold Add, is_u32 in *. wrap_lia.
Qed.

Lemma find_containing_found sz base acc s ps x :
  is_u32 s -> is_u32 x -> pkts_ok sz base acc s ps -> total ps < 2 ^ 31 -> dist s x < total ps ->
  exists l p rest, ps = l ++ p :: rest /\ find_containing x ps = Some p /\
    total l <= dist s x < total l + size p.
Proof.
  intros Hs Hx. revert acc s Hs. induction ps as [|p ps IH]; intros acc s Hs Hok Ht Hd.
  { cbn in Hd. pose proof (dist_range s x). unfold is_u32 in *. lia. }
  pose proof Hok as (P1 & _ & _ & _ & P5 & Hok'). pose proof (total_nonneg _ _ _ _ _ Hok').
  cbn [total] in *. pose proof (dist_range s x) as Hr. cbn [find_containing]. unfold endSeq.
  rewrite P5, LessThanEq_dist by done.
  replace (dist s x <=? 2 ^ 31) with true by (symmetry; apply Z.leb_le; lia). cbn [andb].
  assert (LessThan x (Add s (size p)) = (dist s x <? size p)) as ->.
  { rewrite LessThan_dist. unfold dist, Add, is_u32 in *. apply eq_true_iff_eq.
    rewrite andb_true_iff, !Z.ltb_lt, Z.leb_le. wrap_lia. }
  destruct (Z.ltb_spec (dist s x) (size p)).
  - exists [], p, ps. unfold is_u32 in *. cbn. split_and!; auto; lia.
  - assert (dist (Add s (size p)) x = dist s x - size p) as E.
    { rewrite (dist_sub s (Add s (size p)) x); rewrite dist_Add by (unfold is_u32 in *; lia); lia. }
    destruct (IH (acc + size p) (Add s (size p))) as (l & q & rest & -> & HF & HT); auto using Add_u32; try lia.
    exists (p :: l), q, rest. rewrite HF. cbn. split_and!; auto; lia.
Qed.

(** Rewinding to the packet [p]. *)
Lemma rewind_inv t una ns nu l p rest s0 :
  tx_inv t una ns nu -> pkts (slist t) = l ++ p :: rest -> off p <> 0 \/ off p = sentoff t ->
  let k := total l in
  let so := if off p =? sentoff t then 0 else sentoff t in
  let t' := mkRingTx (rawbuf t) (off p) (if unsentend t =? 0 then sentend t else unsentend t)
              so (if off p =? sentoff t then 0 else off p)
              (mkSentlist s0 l (pcap (slist t))) (iss t) in
  tx_inv t' una k (ns - k + nu) /\
  sent_bytes t' = ztake k (sent_bytes t) /\
  unsent_bytes t' = zdrop k (sent_bytes t) ++ unsent_bytes t.
Proof.
  intros Hi Hps Hoff k so t'. destruct (tx_regions _ _ _ _ Hi) as (HS & HU & _).
  pose proof Hi as [Isz Iu Ins Inu Ifit Iuo Iso Iue Ise Iadj Iadj0 Ipk Itot Ihd Icap].
  unfold minBufferSize in *. rewrite Hps in Ipk, Itot, Icap, Ihd.
  apply pkts_ok_app in Ipk as [Ipk1 (P1 & P2 & P3 & P4 & P5 & Ipk2)]; [|done].
  rewrite total_app in Itot. cbn in Itot. rewrite Z.add_0_l in P3. fold k in P3, Itot.
  pose proof (total_nonneg _ _ _ _ _ Ipk1) as H1. pose proof (total_nonneg _ _ _ _ _ Ipk2) as H2.
  fold k in H1. specialize (Iadj ltac:(lia)).
  assert (off p = sentoff t <-> k = 0) as Hz.
  { split; [|intros Hk0]. - unfold ahead in P3. lia.
    - apply Ihd. destruct l as [|q l]; [done|].
      pose proof (total_pos _ _ _ _ _ Ipk1 ltac:(done)). unfold k in Hk0. lia. }
  assert (k = 0 -> l = []) as Hl0.
  { destruct l as [|q l]; [done|]. pose proof (total_pos _ _ _ _ _ Ipk1 ltac:(done)). unfold k. lia. }
  assert (ahead (Size t) (off p) (ns - k) (unsentoff t)) as Ha by (unfold ahead in *; lia).
  assert ((if unsentend t =? 0 then sentend t else unsentend t) =
          addEnd (off p) (ns - k + nu) (Size t)) as Hwe.
  { rewrite Iue. destruct (Z.eqb_spec nu 0) as [->|Hnu].
    - change (0 =? 0) with true. cbn iota. rewrite Ise, Z.add_0_r.
      replace (ns =? 0) with false by (symmetry; apply Z.eqb_neq; lia).
      replace ns with (k + (ns - k)) at 1 by lia. symmetry. apply addEnd_ahead; auto; lia.
    - pose proof (addEnd_pos (unsentoff t) nu (Size t)).
      replace (addEnd (unsentoff t) nu (Size t) =? 0) with false by (symmetry; apply Z.eqb_neq; lia).
      apply addEnd_ahead; auto; lia. }
  assert (tx_inv t' una k (ns - k + nu)) as Hi'.
  { assert (Size t' = Size t) as Hsz by done.
    constructor; rewrite ?Hsz; cbn [unsentoff unsentend sentoff sentend slist pkts pcap t'];
      unfold minBufferSize; auto; try lia.
    - unfold so. bool_cases; lia.
    - rewrite Hwe. by replace (ns - k + nu =? 0) with false by (symmetry; apply Z.eqb_neq; lia).
    - unfold so. destruct (Z.eqb_spec (off p) (sentoff t)) as [E|E].
      + apply Hz in E. by rewrite E.
      + replace (k =? 0) with false by (symmetry; apply Z.eqb_neq; tauto).
        unfold ahead, addEnd in *. split_bools.
    - intros Hk. unfold so. replace (off p =? sentoff t) with false by (symmetry; apply Z.eqb_neq; lia).
      done.
    - unfold so. destruct (Z.eqb_spec (off p) (sentoff t)) as [E|E]; [|done].
      rewrite Hl0 by tauto. done.
    - intros q Hq. unfold so. destruct (Z.eqb_spec (off p) (sentoff t)) as [E|E].
      + rewrite Hl0 in Hq by tauto. done.
      + apply Ihd. by destruct l.
    - rewrite zlen_app in Icap. pose proof (zlen_nonneg (p :: rest)). lia. }
  split; [done|]. destruct (tx_regions _ _ _ _ Hi') as (HS' & HU' & _). rewrite HS', HU', HS, HU.
  cbn [rawbuf sentoff unsentoff t']. unfold Size in *.
  assert (region (rawbuf t) (sentoff t) ns =
          region (rawbuf t) (sentoff t) k ++ region (rawbuf t) (off p) (ns - k)) as Hsplit.
  { replace ns with (k + (ns - k)) at 1 by lia. apply region_app; auto; lia. }
  assert (zlen (region (rawbuf t) (sentoff t) k) = k) as Hlk by (apply zlen_region; lia).
  rewrite Hsplit. split.
  - transitivity (region (rawbuf t) (sentoff t) k).
    + unfold so. destruct (Z.eqb_spec (off p) (sentoff t)) as [E|E]; [|done].
      apply Hz in E. rewrite E.
      rewrite (zlen_zero_nil (region (rawbuf t) 0 0)),
        (zlen_zero_nil (region (rawbuf t) (sentoff t) 0)); [done|..]; apply zlen_region; lia.
    + symmetry. unfold ztake. apply take_app_length'. unfold zlen in Hlk. lia.
  - rewrite (region_app _ (off p) (ns - k) nu (unsentoff t)) by (auto; lia). f_equal.
    symmetry. unfold zdrop. apply drop_app_length'. unfold zlen in Hlk. lia.
Qed.

End TxQueueProps.
