(* ===== verification/TxQueueThms.v ===== *)
(** * Theorems on the transmit queue

    [ringTx] is a queue of bytes split at SND.NXT: writing, packetizing,
    acknowledging and rewinding never lose, reorder or corrupt a byte. *)
From S2P Require Import Prelude Errors SeqNum Ring RingProps TxQueue TxQueueProps.

Module TxQueueThms.
Import SeqNum TxQueue RingProps TxQueueProps.

(** A queue with a wrapped sent packet and unsent bytes, for the witnesses: ring of
    8, packets [6;7;0] and [1;2], unsent [3]. *)
Definition sample : ringTx :=
  mkRingTx [10; 11; 12; 13; 14; 15; 16; 17] 3 4 6 3
    (mkSentlist 100 [mkPkt 6 1 100 3; mkPkt 1 3 103 2] 4) 100.

Lemma sample_inv : tx_inv sample 100 5 1.
Proof.
  constructor; unfold sample, Size, ahead, zlen, minBufferSize; cbn; try lia; try done.
  - unfold ahead, addEnd. cbn. split_and!; try done; lia.
  - intros p [= <-]. done.
Qed.

(** an acknowledgement removes exactly the acknowledged octets from the
    front of the sent ones, also when it falls inside a packet, and never
    touches an unsent byte; an acknowledgement that does not lie within the
    sent octets (old, or of data never sent) leaves the queue unchanged. *)
Theorem txqueue_ack ack t una ns nu
  (Hi : tx_inv t una ns nu) (Ha : is_u32 ack) :
  let d := dist una ack in
  (0 < ns -> d <= ns -> exists t', RecvACK ack t = (t', None) /\
     tx_inv t' ack (ns - d) nu /\
     sent_bytes t' = zdrop d (sent_bytes t) /\ unsent_bytes t' = unsent_bytes t) /\
  (ns < d \/ ns = 0 -> exists oe, RecvACK ack t = (t, oe)).
Proof.
  intros d. split; [|by apply (RecvACK_outside t una ns nu)].
  intros Hp Hd. pose proof (Add_dist una ack Ha) as Had. fold d in Had.
  destruct (RecvAck_split t una ns nu ack Hi Hp Ha Hd) as (s & ps1 & ps2 & Hps & H1 & H2 & H3 & Hs & HR).
  fold d in H1, H2, H3, HR. pose proof (dist_range una ack) as Hdr. fold d in Hdr. unfold is_u32 in Hdr.
  pose proof Hi as [Isz Iu Ins Inu Ifit Iuo Iso Iue Ise Iadj Iadj0 Ipk Itot Ihd Icap].
  rewrite Hps in Itot. rewrite total_app in Itot.
  destruct (tx_regions _ _ _ _ Hi) as (HS & HU & HBS & HBU & HwS & HwU).
  assert (zlen (sent_bytes t) = ns) as HLs by (unfold sent_bytes; rewrite zlen_contents; done).
  destruct ps2 as [|p rest].
  - specialize (H2 eq_refl). cbn in Itot. replace (ns - d) with 0 by lia.
    set (t' := consolidateBufs (with_sent (sentoff t) 0 (with_slist (mkSentlist s [] (pcap (slist t))) t))).
    exists t'. split; [unfold RecvACK; rewrite HR; done|].
    assert (tx_inv t' ack 0 nu) as Hi'.
    { unfold t', consolidateBufs. cbn [sentend unsentend with_sent with_slist].
      change (0 =? 0) with true. rewrite andb_true_r.
      destruct (Z.eqb_spec (unsentend t) 0) as [E0|E0]; constructor;
        cbn [unsentoff unsentend sentoff sentend slist pkts pcap rawbuf with_unsent with_sent with_slist];
        unfold Size in *; cbn [rawbuf with_unsent with_sent with_slist]; cbn; auto; try lia; try done.
      - assert (nu = 0) as ->; [|done]. revert Iue. rewrite E0.
        pose proof (addEnd_pos (unsentoff t) nu (zlen (rawbuf t))). split_bools.
      - pose proof (zlen_nonneg (pkts (slist t))). rewrite zlen_nil. lia.
      - pose proof (zlen_nonneg (pkts (slist t))). rewrite zlen_nil. lia. }
    split; [done|]. destruct (tx_regions _ _ _ _ Hi') as (HS' & HU' & _).
    assert (rawbuf t' = rawbuf t) as Hraw by (unfold t', consolidateBufs; by bool_cases).
    split.
    + rewrite zdrop_ge by lia. apply zlen_zero_nil. rewrite HS', Hraw. destruct Hi'. unfold Size in *.
      apply zlen_region; rewrite <- ?Hraw; lia.
    + rewrite HU', HU, Hraw. destruct (Z.eqb_spec nu 0) as [->|].
      * destruct Hi'. unfold Size in *. rewrite Hraw in *.
        rewrite (zlen_zero_nil (region (rawbuf t) (unsentoff t') 0)),
          (zlen_zero_nil (region (rawbuf t) (unsentoff t) 0)); [done|..]; apply zlen_region; lia.
      * pose proof (addEnd_pos (unsentoff t) nu (Size t)). f_equal. unfold t', consolidateBufs.
        cbn [sentend unsentend with_sent with_slist]. rewrite Iue.
        replace (addEnd (unsentoff t) nu (Size t) =? 0) with false by (symmetry; apply Z.eqb_neq; lia).
        done.
  - specialize (H3 p eq_refl). cbn zeta in HR.
    destruct (decide (d = 0)) as [E0|E0].
    + assert (ps1 = []) as ->.
      { destruct ps1 as [|q ps1]; [done|]. rewrite Hps in Ipk.
        apply pkts_ok_app in Ipk as [Ipk _]; [|done].
        pose proof (total_pos _ _ _ _ _ Ipk ltac:(done)). lia. }
      exists t. rewrite E0 in HR. cbn in HR. assert (ack = una) as -> by (rewrite <- Had, E0; by apply Add_0_r).
      rewrite E0, Z.sub_0_r. split; [|by rewrite zdrop_nonpos by lia].
      apply (RecvACK_unchanged t una ns nu); auto. rewrite HR, Hs by done.
      change (0 <? 0 - 0) with false. cbn iota. cbn in Hps. f_equal. rewrite <- Hps. by destruct (slist t).
    + set (p' := if 0 <? d - total ps1 then _ else p) in HR.
      assert (p' = mkPkt (if 0 <? d - total ps1 then addOff (off p) (d - total ps1) (Size t) else off p)
                (end_ p) (Add una d) (size p - (d - total ps1))) as Hp'.
      { unfold p'. destruct (Z.ltb_spec 0 (d - total ps1)); [done|].
        rewrite Hps in Ipk. apply pkts_ok_app in Ipk as [_ (_ & _ & _ & _ & P5 & _)]; [|done].
        replace d with (total ps1) by lia. rewrite Z.sub_diag, Z.sub_0_r. destruct p; cbn in *. congruence. }
      destruct (acked_inv t una ns nu d p rest ps1 p' s) as (Hi' & HS' & HU'); auto; try lia.
      rewrite Had in Hi'. eexists. split; [|done].
      apply (RecvACK_acked t una ns nu ack s p' rest p); auto; [by exists ps1|by rewrite Hp'].
Qed.


Lemma txqueue_ack_witness :
  exists t', RecvACK 104 sample = (t', None) /\ sent_bytes sample = [16; 17; 10; 11; 12] /\
    sent_bytes t' = [12] /\ unsent_bytes t' = [13].
Proof.
  destruct (txqueue_ack 104 sample 100 5 1 sample_inv) as [H _]; [done|].
  destruct H as (t' & H1 & _ & H2 & H3); [lia|vm_compute; congruence|].
  exists t'. split; [exact H1|]. split; [reflexivity|]. split; [rewrite H2|rewrite H3]; reflexivity.
Defined.

(** writing appends to the unsent bytes: a write that fits the free space is
    accepted whole, appears at the end of the unsent bytes, and changes no byte
    that was sent and is not yet acknowledged; a larger one is refused and
    changes nothing. [Free] is what the two regions leave of the buffer. *)
Theorem txqueue_write b t una ns nu
  (Hi : tx_inv t una ns nu) (Hb : 0 < zlen b) :
  Free t = Size t - ns - nu /\
  (zlen b <= Free t -> exists t', Write b t = Ret (t', zlen b, None) /\
     tx_inv t' una ns (nu + zlen b) /\
     unsent_bytes t' = unsent_bytes t ++ b /\ sent_bytes t' = sent_bytes t) /\
  (Free t < zlen b -> exists e, Write b t = Ret (t, 0, Some e)).
Proof.
  pose proof (tx_Free _ _ _ _ Hi) as HF. split; [done|].
  destruct (tx_regions _ _ _ _ Hi) as (_ & _ & _ & HBU & _ & HwU).
  pose proof (sentend_zero _ _ _ _ Hi) as Hz.
  assert (with_unsent (unsentoff t) (unsentend t) t = t) as Eta by (by destruct t).
  pose proof (Free_Buffered (fst (unsentRing t))) as HFB.
  change (Ring.Buffered (fst (unsentRing t))) with (BufferedUnsent t) in HFB. rewrite HBU in HFB.
  change (zlen (Ring.Buf (fst (unsentRing t)))) with (Size t) in HFB.
  pose proof Hi as [Isz Iu Ins Inu Ifit Iuo Iso _ _ _ _ _ _ _ _]. unfold minBufferSize in *.
  assert (0 < ns -> Ring.FreeLimited (sentoff t) (fst (unsentRing t)) = Size t - ns - nu) as HFL
    by (by apply (tx_FreeLimited t una)).
  rewrite HF. unfold Write. cbn [unsentRing]. rewrite Hz. split; intros Hfit.
  - destruct (Write_ok b (fst (unsentRing t)) HwU) as (r' & HW & Hw' & Ho & HL & Hv); [lia|].
    eexists. split; [|eapply (Write_accepted b t una ns nu r'); eauto; lia].
    destruct (Z.eqb_spec ns 0) as [E|E].
    + cbn [fst unsentRing] in HW. rewrite HW. done.
    + unfold Ring.WriteLimited. specialize (HFL ltac:(lia)). cbn [fst unsentRing] in HW, HFL.
      change (zlen (Ring.Buf (ring t (unsentoff t) (unsentend t)))) with (Size t).
      rewrite HFL.
      replace (Size t <? sentoff t) with false by (symmetry; apply Z.ltb_ge; lia).
      replace (Size t <? zlen b) with false by (symmetry; apply Z.ltb_ge; lia).
      replace (Size t - ns - nu <? zlen b) with false by (symmetry; apply Z.ltb_ge; lia).
      rewrite HW. done.
  - destruct (Z.eqb_spec ns 0) as [E|E].
    + exists ErrRingBufferFull. pose proof (Write_refused b (fst (unsentRing t)) HwU ltac:(lia)) as HW.
      cbn [fst unsentRing] in HW. rewrite HW. cbn. by destruct t.
    + unfold Ring.WriteLimited. specialize (HFL ltac:(lia)). cbn [fst unsentRing] in HFL.
      change (zlen (Ring.Buf (ring t (unsentoff t) (unsentend t)))) with (Size t).
      rewrite HFL.
      replace (Size t <? sentoff t) with false by (symmetry; apply Z.ltb_ge; lia).
      replace (Size t - ns - nu <? zlen b) with true by (symmetry; apply Z.ltb_lt; lia).
      destruct (Size t <? zlen b); cbn; eexists; f_equal; f_equal; by destruct t.
Qed.

Lemma txqueue_write_witness :
  exists t', Write [1; 2] sample = Ret (t', 2, None) /\
    unsent_bytes t' = [13; 1; 2] /\ sent_bytes t' = [16; 17; 10; 11; 12].
Proof.
  destruct (txqueue_write [1; 2] sample 100 5 1 sample_inv) as (_ & H & _); [done|].
  destruct H as (t' & H1 & _ & H2 & H3); [vm_compute; congruence|].
  exists t'. split; [exact H1|]. split; [rewrite H2|rewrite H3]; reflexivity.
Defined.

(** making a packet moves bytes from unsent to sent: with room in the packet
    list, [MakePacket] at the next sequence number copies the first
    min(len(b), unsent) unsent bytes into the packet, never panics, and these
    bytes become the newest sent ones; with nothing unsent it returns 0. *)
Theorem txqueue_make_packet b s t una ns nu
  (Hi : tx_inv t una ns nu) (Hb : 0 < zlen b) (Hf : 0 < sl_Free (slist t))
  (Hs : is_u32 s) (Hseq : 0 < ns -> s = Add una ns) :
  let n := Z.min (zlen b) nu in
  (nu = 0 -> MakePacket b s t = Ret (t, b, 0, None)) /\
  (0 < nu -> exists t', MakePacket b s t =
       Ret (t', ztake n (unsent_bytes t) ++ zdrop n b, n, None) /\
     tx_inv t' (if ns =? 0 then s else una) (ns + n) (nu - n) /\
     sent_bytes t' = sent_bytes t ++ ztake n (unsent_bytes t) /\
     unsent_bytes t' = zdrop n (unsent_bytes t)).
Proof.
  intros n. pose proof (newest_spec _ _ _ _ Hi) as HN. pose proof (unsent_empty _ _ _ _ Hi) as He.
  destruct (tx_regions _ _ _ _ Hi) as (_ & _ & _ & HBU & _ & HwU).
  pose proof (sentend_zero _ _ _ _ Hi) as Hz.
  assert (MakePacket b s t =
    if Ring.IsEmpty (fst (unsentRing t)) then Ret (t, b, 0, None)
    else
      '(unsent, b, n, err) ← Ring.Read b (fst (unsentRing t));
      match err with
      | Some e => Ret (t, b, 0, Some e)
      | None =>
          '(sl, p) ← AddPacket n (unsentoff t) (Size t) s (slist t);
          if negb (off p =? unsentoff t) || negb (end_ p =? addEnd (off p) n (Size t)) then Panic
          else
            Ret (with_unsent (if Ring.End_ unsent =? 0 then end_ p else Ring.Off unsent) (Ring.End_ unsent)
              (with_sent (if sentend t =? 0 then off p else sentoff t) (end_ p) (with_slist sl t)), b, n, None)
      end) as ->.
  { unfold MakePacket, sentEndSeq.
    replace (sl_Free (slist t) =? 0) with false by (symmetry; apply Z.eqb_neq; lia).
    destruct (Newest (slist t)) as [lp|]; [|done]. destruct HN as (Hp & -> & _).
    rewrite Hseq by done. rewrite LessThan_dist, dist_self. done. }
  rewrite He. split; intros Hnu.
  { by rewrite Hnu. }
  replace (nu =? 0) with false in * by (symmetry; apply Z.eqb_neq; lia).
  destruct (Read_indices b (fst (unsentRing t)) HwU Hb He) as (r' & HR & Hw' & Hbuf & Hn & Hfull & Hpart).
  change (Ring.Buffered (fst (unsentRing t))) with (BufferedUnsent t) in *. rewrite HBU in *. fold n in HR, Hn, Hfull, Hpart.
  change (Ring.contents (fst (unsentRing t))) with (unsent_bytes t) in HR.
  rewrite HR. cbn [mbind outcome_bind].
  rewrite (AddPacket_ok n t una ns nu s) by (done || unfold n; lia). cbn [mbind outcome_bind off end_].
  rewrite !Z.eqb_refl. cbn [negb orb]. eexists. split; [done|].
  rewrite Hz.
  pose proof (packet_inv n t una ns nu s
    (if Ring.End_ r' =? 0 then addEnd (unsentoff t) n (Size t) else Ring.Off r') (Ring.End_ r')) as HP.
  apply HP; auto; clear HP.
  - unfold n. lia.
  - intros E. rewrite Hfull by done. done.
  - intros E. destruct (Hpart E) as [-> Ho]. destruct Hw' as (_ & Ho2 & _). rewrite Hbuf in Ho2.
    cbn [Ring.Off Ring.End_ Ring.Buf fst unsentRing ring] in *. fold (Size t) in *.
    split; [done|]. destruct (Z.eqb_spec (unsentend t) 0) as [E0|E0]; [|done].
    unfold Ring.IsEmpty in He. cbn in He. by rewrite E0 in He.
Qed.

Lemma txqueue_make_packet_witness :
  exists t', MakePacket [0; 0] 105 sample = Ret (t', [13; 0], 1, None) /\
    sent_bytes t' = [16; 17; 10; 11; 12; 13] /\ unsent_bytes t' = [].
Proof.
  destruct (txqueue_make_packet [0; 0] 105 sample 100 5 1 sample_inv) as (_ & H); try done.
  destruct H as (t' & H1 & _ & H2 & H3); [lia|].
  exists t'. split; [exact H1|]. split; [rewrite H2|rewrite H3]; reflexivity.
Defined.

(** a retransmission carries the original bytes: [MakePacket] at the first
    sequence number of a packet still unacknowledged copies exactly the bytes
    of that packet (as many as fit the destination) and changes nothing. *)
Theorem txqueue_retransmit_packet b t una ns nu l p rest
  (Hi : tx_inv t una ns nu) (Hb : 0 < zlen b) (Hf : 0 < sl_Free (slist t))
  (Hps : pkts (slist t) = l ++ p :: rest) :
  let n := Z.min (zlen b) (size p) in
  MakePacket b (seq p) t =
    Ret (t, ztake n (slice (sent_bytes t) (total l) (total l + size p)) ++ zdrop n b, n, None).
Proof.
  intros n. destruct (tx_regions _ _ _ _ Hi) as (HS & _). pose proof (newest_spec _ _ _ _ Hi) as HN.
  pose proof Hi as [Isz Iu Ins Inu Ifit Iuo Iso Iue Ise Iadj Iadj0 Ipk Itot Ihd Icap].
  unfold minBufferSize in *. rewrite Hps in Ipk, Itot. pose proof Ipk as Ipk0.
  apply pkts_ok_app in Ipk as [Ipk1 (P1 & P2 & P3 & P4 & P5 & Ipk2)]; [|done].
  rewrite total_app in Itot. cbn in Itot. rewrite Z.add_0_l in P3.
  pose proof (total_nonneg _ _ _ _ _ Ipk1). pose proof (total_nonneg _ _ _ _ _ Ipk2).
  destruct (ring_region (rawbuf t) (off p) (end_ p) (size p)) as (Hw & HB & HC);
    [unfold Size in *; lia|done|unfold Size in *; lia|done|].
  assert (slice (sent_bytes t) (total l) (total l + size p) = region (rawbuf t) (off p) (size p)) as ->.
  { rewrite HS. unfold Size in *.
    replace ns with (total l + (size p + total rest)) by lia.
    assert (exists o, 0 <= o <= zlen (rawbuf t) /\ ahead (zlen (rawbuf t)) (off p) (size p) o) as (o & Ho & Ha).
    { exists (addEnd (off p) (size p) (zlen (rawbuf t))). unfold addEnd, ahead. split_bools. }
    rewrite (region_app _ (sentoff t) (total l) _ (off p)) by (auto; lia).
    rewrite (region_app _ (off p) (size p) (total rest) o) by (auto; lia).
    pose proof (zlen_region (rawbuf t) (sentoff t) (total l) ltac:(lia) ltac:(lia)) as E1.
    pose proof (zlen_region (rawbuf t) (off p) (size p) ltac:(lia) ltac:(lia)) as E2.
    unfold slice, zdrop, ztake, zlen in *. rewrite drop_app_length' by lia. apply take_app_length'. lia. }
  unfold MakePacket, sentEndSeq.
  replace (sl_Free (slist t) =? 0) with false by (symmetry; apply Z.eqb_neq; lia).
  destruct (Newest (slist t)) as [lp|]; [|lia]. destruct HN as (Hp & -> & _).
  replace (LessThan (seq p) (Add una ns)) with true.
  2: { symmetry. rewrite LessThan_dist, P5. unfold dist, Add, is_u32 in *.
       rewrite andb_true_iff, Z.ltb_lt, Z.leb_le. wrap_lia. }
  rewrite Hps, (packet_at_found _ _ _ _ l p rest Iu Ipk0) by lia.
  assert (Ring.IsEmpty (ring t (off p) (end_ p)) = false) as He.
  { unfold Ring.IsEmpty. cbn. apply Z.eqb_neq. rewrite P4.
    pose proof (addEnd_pos (off p) (size p) (Size t)). lia. }
  destruct (Read_indices b (ring t (off p) (end_ p)) Hw Hb He) as (r' & -> & _).
  unfold ring. rewrite HB, HC. done.
Qed.

Lemma txqueue_retransmit_packet_witness :
  MakePacket [0; 0; 0; 0] 100 sample = Ret (sample, [16; 17; 10; 0], 3, None).
Proof.
  apply (txqueue_retransmit_packet [0; 0; 0; 0] sample 100 5 1 [] (mkPkt 6 1 100 3)
    [mkPkt 1 3 103 2] sample_inv); done.
Defined.

(** a rewind loses nothing: [RetransmitFrom] at a sent octet moves the packet
    that contains it and everything sent after it back in front of the unsent
    bytes, so sent followed by unsent is the same byte string as before; it
    holds whenever the packet does not start at index 0 of the buffer, or is
    the oldest one. *)
Theorem txqueue_rewind s t una ns nu
  (Hi : tx_inv t una ns nu) (Hs : is_u32 s) (Hd : dist una s < ns)
  (Hoff : forall p, packetContaining s (slist t) = Some p -> off p <> 0 \/ off p = sentoff t) :
  let t' := RetransmitFrom s t in
  exists k, 0 <= k <= dist una s /\ tx_inv t' una k (ns - k + nu) /\
    sent_bytes t' = ztake k (sent_bytes t) /\
    sent_bytes t' ++ unsent_bytes t' = sent_bytes t ++ unsent_bytes t.
Proof.
  intros t'. pose proof Hi as [Isz Iu Ins Inu Ifit Iuo Iso Iue Ise Iadj Iadj0 Ipk Itot Ihd Icap].
  destruct (find_containing_found _ _ _ _ _ s Iu Hs Ipk) as (l & p & rest & Hps & HF & HT); [lia|lia|].
  specialize (Hoff p HF). exists (total l).
  assert (total l < 2 ^ 32) as Htl by (pose proof (dist_range una s); unfold is_u32 in *; lia).
  pose proof Ipk as Ipk0. rewrite Hps in Ipk0.
  pose proof (before_seq_found _ _ _ _ l p rest Iu Ipk0 Htl) as HB.
  apply pkts_ok_app in Ipk0 as [Ipk1 _]; [|done]. pose proof (total_nonneg _ _ _ _ _ Ipk1).
  destruct (rewind_inv t una ns nu l p rest (match l with [] => seq p | _ => ssn (slist t) end) Hi Hps Hoff)
    as (Hi' & HS' & HU').
  assert (t' = mkRingTx (rawbuf t) (off p) (if unsentend t =? 0 then sentend t else unsentend t)
     (if off p =? sentoff t then 0 else sentoff t) (if off p =? sentoff t then 0 else off p)
     (mkSentlist (match l with [] => seq p | _ => ssn (slist t) end) l (pcap (slist t))) (iss t)) as ->.
  { unfold t', RetransmitFrom. unfold packetContaining. rewrite HF.
    destruct (off p =? sentoff t); cbn; unfold truncateFrom; rewrite Hps, HB; by destruct l. }
  split; [lia|]. split; [exact Hi'|]. split; [exact HS'|].
  rewrite HS', HU', app_assoc. by rewrite ztake_zdrop.
Qed.

Lemma txqueue_rewind_witness :
  let t' := RetransmitFrom 104 sample in
  exists k, sent_bytes t' = ztake k (sent_bytes sample) /\
    sent_bytes t' ++ unsent_bytes t' = [16; 17; 10; 11; 12; 13].
Proof.
  destruct (txqueue_rewind 104 sample 100 5 1 sample_inv) as (k & _ & _ & H1 & H2);
    [done|vm_compute; congruence| |].
  - intros p Hp. vm_compute in Hp. injection Hp as <-. by left.
  - exists k. split; [exact H1|]. rewrite H2. reflexivity.
Defined.

(** A full queue of two packets, the second of which starts at index 0. *)
Definition sample_wrapped : ringTx :=
  mkRingTx [10; 11; 12; 13] 2 0 2 2
    (mkSentlist 100 [mkPkt 2 4 100 2; mkPkt 0 2 102 2] 4) 100.

Lemma sample_wrapped_inv : tx_inv sample_wrapped 100 4 0.
Proof.
  constructor; unfold sample_wrapped, Size, ahead, zlen, minBufferSize; cbn; try lia; try done.
  - unfold ahead, addEnd. cbn. split_and!; try done; lia.
  - intros p [= <-]. done.
Qed.

(** rewinding to a packet that starts at index 0 loses data: the end of the
    sent region becomes 0, which means empty, although a packet before it is
    still unacknowledged; [Free] then counts its bytes as free and the next
    write overwrites them, so its retransmission carries the wrong bytes. *)
Theorem txqueue_rewind_at_zero_loses_data :
  let t' := RetransmitFrom 102 sample_wrapped in
  tx_inv sample_wrapped 100 4 0 /\ sent_bytes sample_wrapped = [12; 13; 10; 11] /\
  pkts (slist t') = [mkPkt 2 4 100 2] /\ sent_bytes t' = [] /\ Free t' = 2 /\
  exists t'', Write [66; 67] t' = Ret (t'', 2, None) /\
    MakePacket [0; 0] 100 t'' = Ret (t'', [66; 67], 2, None).
Proof.
  split; [exact sample_wrapped_inv|]. do 4 (split; [vm_compute; reflexivity|]).
  exists (mkRingTx [10; 11; 66; 67] 0 4 2 0 (mkSentlist 100 [mkPkt 2 4 100 2] 4) 100).
  split; vm_compute; reflexivity.
Qed.

End TxQueueThms.
