(* ===== verification/Reassembly.v ===== *)
(** * Out-of-order reassembly ([src/tcp/reassembly.go])

    [reassembly] remembers the segments that arrived ahead of RCV.NXT; their
    payloads are staged in the free cells of the receive ring. The capacity of
    the slice of held segments is part of the state. The theorems relate the
    ring to the byte stream of the peer: whatever the order of arrival, only
    bytes of the stream are delivered, in order. *)
From S2P Require Import Prelude Errors SeqNum Ring RingProps.

Module Reassembly.
Import SeqNum RingProps.

Definition maxReasmSegments : Z := 8.

Record reasmSeg := mkSeg { seq : Z; n : Z }.
Record reassembly := mkReasm { held : list reasmSeg; hcap : Z }.

(** [reset] *)
Definition reset (maxSegs : Z) (r : reassembly) : reassembly :=
  if maxSegs <=? 0 then mkReasm [] 0
  else mkReasm [] (if hcap r <? maxSegs then maxSegs else hcap r).

Definition clear (r : reassembly) : reassembly := mkReasm [] (hcap r).
Definition enabled (r : reassembly) : bool := 0 <? hcap r.
Definition buffered (r : reassembly) : Z := zlen (held r).
Definition bufferedBytes (r : reassembly) : Z :=
  fold_right (fun s acc => n s + acc) 0 (held r).

(** The insertion point that keeps [held] ordered: the segments before [s], the rest. *)
Fixpoint insertion (s : Z) (l : list reasmSeg) : list reasmSeg * list reasmSeg :=
  match l with
  | [] => ([], [])
  | x :: l' =>
      if LessThan (seq x) s then let '(a, b) := insertion s l' in (x :: a, b)
      else ([], l)
  end.

Definition store (rx : Ring.Ring) (rcvNxt s : Z) (payload : list Z) (r : reassembly)
    : outcome (reassembly * Ring.Ring * bool) :=
  if negb (enabled r) || (zlen payload =? 0) || (hcap r <=? zlen (held r))
  then Ret (r, rx, false)
  else
  let gap := Sizeof rcvNxt s in
  if Ring.Free rx <? gap + zlen payload then Ret (r, rx, false)
  else
  let e := Add s (u32 (zlen payload)) in
  let '(before, after) := insertion s (held r) in
  let overlapsPrev := match last before with
                      | None => false
                      | Some prev => LessThan s (Add (seq prev) (u32 (n prev)))
                      end in
  if overlapsPrev then Ret (r, rx, false)
  else
  let insert :=
    '(rx, ok) ← Ring.PeekWrite payload gap rx;
    if negb ok then Ret (r, rx, false)
    else Ret (mkReasm (before ++ mkSeg s (zlen payload) :: after) (hcap r), rx, true) in
  match after with
  | [] => insert
  | next :: _ =>
      if seq next =? s then Ret (r, rx, true)
      else if LessThan (seq next) e then Ret (r, rx, false)
      else insert
  end.

(** The loop of [reassemble]: held segments left, ring, next, delivered. *)
Fixpoint reassemble_loop (l : list reasmSeg) (rx : Ring.Ring) (nxt delivered : Z)
    : list reasmSeg * Ring.Ring * Z :=
  match l with
  | [] => ([], rx, delivered)
  | x :: l' =>
      if seq x =? nxt then
        match Ring.Commit (n x) rx with
        | (_, Some _) => (l, rx, delivered)
        | (rx, None) =>
            reassemble_loop l' rx (Add nxt (u32 (n x))) (u32 (delivered + u32 (n x)))
        end
      else if LessThan (seq x) nxt then reassemble_loop l' rx nxt delivered
      else (l, rx, delivered)
  end.

Definition reassemble (rx : Ring.Ring) (nxt : Z) (r : reassembly)
    : reassembly * Ring.Ring * Z :=
  let '(l, rx, delivered) := reassemble_loop (held r) rx nxt 0 in
  (mkReasm l (hcap r), rx, delivered).

(** ** The peer's stream *)

(** [len] bytes of the stream from position [p] on. *)
Definition stream_slice (stream : Z -> Z) (p len : Z) : list Z :=
  map (fun i => stream (p + Z.of_nat i)) (List.seq 0 (Z.to_nat len)).

(** The held segments [l] with their stream positions [ps], in order from [lo] on:
    each is staged, relative to position [p0] of the first cell of [stg]. *)
Fixpoint held_ok (stream : Z -> Z) (base p0 : Z) (stg : list Z) (lo : Z)
    (ps : list Z) (l : list reasmSeg) : Prop :=
  match ps, l with
  | [], [] => True
  | a :: ps, x :: l =>
      seq x = u32 (base + a) /\ 0 < n x /\ lo <= a /\ a + n x <= p0 + zlen stg /\
      slice stg (a - p0) (a - p0 + n x) = stream_slice stream a (n x) /\
      held_ok stream base p0 stg (a + n x) ps l
  | _, _ => False
  end.

(** Where the last of them ends. *)
Fixpoint held_end (lo : Z) (ps : list Z) (l : list reasmSeg) : Z :=
  match ps, l with a :: ps, x :: l => held_end (a + n x) ps l | _, _ => lo end.

(** ** Lemmas *)

Lemma zlen_stream_slice st p len : 0 <= len -> zlen (stream_slice st p len) = len.
Proof. intros. unfold stream_slice, zlen. rewrite length_map, length_seq. lia. Qed.

Lemma zget_stream_slice st p len i :
  0 <= i < len -> zget (stream_slice st p len) i = Some (st (p + i)).
Proof.
  intros. unfold stream_slice, zget. bool_cases; [lia|].
  rewrite list_lookup_fmap. rewrite lookup_seq_lt by lia. cbn. f_equal. f_equal. lia.
Qed.

Lemma stream_slice_app st p a b :
  0 <= a -> 0 <= b -> stream_slice st p (a + b) = stream_slice st p a ++ stream_slice st (p + a) b.
Proof.
  intros. apply zlist_eq; [rewrite zlen_app, !zlen_stream_slice; lia|].
  intros i Hi. rewrite zlen_stream_slice in Hi by lia. rewrite zget_stream_slice by lia.
  destruct (decide (i < a)).
  - rewrite zget_app_l, zget_stream_slice; rewrite ?zlen_stream_slice; lia || done.
  - rewrite zget_app_r, zget_stream_slice; rewrite ?zlen_stream_slice; try lia. do 2 f_equal. lia.
Qed.

Lemma held_ok_end st base p0 stg lo ps l :
  held_ok st base p0 stg lo ps l -> lo <= held_end lo ps l.
Proof.
  revert lo l. induction ps as [|a ps IH]; intros lo [|x l]; cbn; try done; try lia.
  intros (_ & ? & ? & _ & _ & H). apply IH in H. lia.
Qed.

Lemma held_ok_app st base p0 stg lo ps1 l1 ps2 l2 :
  length ps1 = length l1 ->
  held_ok st base p0 stg lo (ps1 ++ ps2) (l1 ++ l2) <->
  held_ok st base p0 stg lo ps1 l1 /\ held_ok st base p0 stg (held_end lo ps1 l1) ps2 l2.
Proof.
  revert lo l1. induction ps1 as [|a ps1 IH]; intros lo [|x l1] Hl; try done; cbn [app held_ok held_end].
  - tauto.
  - rewrite IH by (cbn in Hl; lia). tauto.
Qed.

Lemma held_ok_lo st base p0 stg lo lo' ps l :
  held_ok st base p0 stg lo ps l -> (forall a, head ps = Some a -> lo' <= a) ->
  held_ok st base p0 stg lo' ps l.
Proof.
  destruct ps as [|a ps], l as [|x l]; cbn; try done.
  intros (?&?&?&?&?&?) Hlo. split_and!; auto.
Qed.

(** Sequence comparison is comparison of stream positions. *)
Lemma pos_compare base a b :
  Z.abs (a - b) < 2 ^ 31 ->
  (u32 (base + a) =? u32 (base + b)) = (a =? b) /\
  LessThan (u32 (base + a)) (u32 (base + b)) = (a <? b).
Proof.
  intros H. split.
  - apply eq_true_iff_eq. rewrite !Z.eqb_eq. split; [|congruence]. wrap_lia.
  - rewrite LessThan_dist, dist_positions. apply eq_true_iff_eq.
    rewrite andb_true_iff, !Z.ltb_lt, Z.leb_le. wrap_lia.
Qed.

(** The view from a later position. *)
Lemma held_ok_rebase st base p0 stg d lo ps l :
  0 <= d <= zlen stg -> p0 + d <= lo -> held_ok st base p0 stg lo ps l ->
  held_ok st base (p0 + d) (zdrop d stg) lo ps l.
Proof.
  intros Hd. revert lo l. induction ps as [|a ps IH]; intros lo [|x l] Hlo; cbn; try done.
  intros (H1 & H2 & H3 & H4 & H5 & H6). rewrite zlen_zdrop by lia.
  split_and!; auto; try lia.
  - rewrite <- H5, slice_zdrop by lia. f_equal; lia.
  - apply IH; [lia|done].
Qed.

Lemma reassemble_loop_ok st base p0 stg ps l lo rx p delivered :
  held_ok st base p0 stg lo ps l -> p0 <= lo -> zlen stg < 2 ^ 30 ->
  p0 <= p <= p0 + zlen stg -> Ring.ring_wf rx -> Ring.staged rx = zdrop (p - p0) stg ->
  is_u32 delivered ->
  exists l' ps' rx' d, reassemble_loop l rx (u32 (base + p)) delivered
      = (l', rx', u32 (delivered + d)) /\
    0 <= d /\ p + d <= p0 + zlen stg /\ Ring.ring_wf rx' /\ Ring.Size rx' = Ring.Size rx /\
    Ring.contents rx' = Ring.contents rx ++ stream_slice st p d /\
    Ring.staged rx' = zdrop (p + d - p0) stg /\
    held_ok st base p0 stg (p + d + 1) ps' l'.
Proof.
  intros Hok Hlo Hsz. revert lo l rx p delivered Hok Hlo.
  induction ps as [|a ps IH]; intros lo [|x l] rx p delivered Hok Hlo Hp Hw Hs Hdl; try done.
  - exists [], [], rx, 0. cbn. rewrite !Z.add_0_r, app_nil_r.
    split; [f_equal; unfold is_u32, u32 in *; rewrite Z.mod_small; lia|]. split_and!; auto; lia.
  - destruct Hok as (X1 & X2 & X3 & X4 & X5 & X6). cbn [reassemble_loop].
    destruct (pos_compare base a p) as [C1 C2]; [lia|]. rewrite X1, C1, C2.
    assert (zlen (Ring.staged rx) = zlen stg - (p - p0)) as HL by (rewrite Hs, zlen_zdrop; lia).
    pose proof HL as HF. rewrite zlen_staged in HF by done.
    assert (u32 (n x) = n x) as Hn by (unfold u32; rewrite Z.mod_small; lia).
    destruct (Z.eqb_spec a p) as [->|Hne]; [|destruct (Z.ltb_spec a p)].
    + destruct (Commit_ok (n x) rx Hw) as (rx1 & HC & Hw1 & _ & HB1 & Hv1); [lia|].
      destruct (commit_contents (n x) rx rx1 Hw ltac:(lia) Hv1) as [HC1 HS1].
      rewrite HC, Hn. replace (Add (u32 (base + p)) (n x)) with (u32 (base + (p + n x)))
        by (unfold Add; wrap_lia).
      destruct (IH (p + n x) l rx1 (p + n x) (u32 (delivered + n x)))
        as (l' & ps' & rx' & d & H1 & H2 & H3 & H4 & H5 & H6 & H7 & H8); auto; try lia.
      { rewrite HS1, Hs. unfold zdrop. rewrite drop_drop. f_equal. lia. }
      { unfold is_u32. wrap_lia. }
      exists l', ps', rx', (n x + d). rewrite H1. split; [f_equal; wrap_lia|].
      rewrite H6, H7, HC1. split_and!; auto; try lia.
      * rewrite H5. unfold Ring.Size. by rewrite HB1.
      * rewrite stream_slice_app, <- app_assoc by lia. do 2 f_equal.
        rewrite Hs, <- X5. unfold slice. f_equal. lia.
      * f_equal. lia.
      * replace (p + (n x + d) + 1) with (p + n x + d + 1) by lia. done.
    + destruct (IH (a + n x) l rx p delivered) as (l' & ps' & rx' & d & HI); auto; try lia.
      exists l', ps', rx', d. done.
    + exists (x :: l), (a :: ps), rx, 0. rewrite !Z.add_0_r, app_nil_r.
      split; [f_equal; unfold is_u32, u32 in *; rewrite Z.mod_small; lia|].
      split_and!; auto; try lia. cbn. split_and!; auto; lia.
Qed.

(** The receiver's invariant: RCV.NXT is position [p] of the peer's stream, every
    held segment lies ahead of it, disjoint from the others and in order, and
    its bytes are staged where they belong. *)
Definition reasm_inv (stream : Z -> Z) (base p : Z) (rx : Ring.Ring) (r : reassembly) : Prop :=
  Ring.ring_wf rx /\ Ring.Size rx < 2 ^ 30 /\ zlen (held r) <= hcap r /\
  exists ps, held_ok stream base p (Ring.staged rx) (p + 1) ps (held r).

Lemma staged_bound rx : Ring.ring_wf rx -> zlen (Ring.staged rx) <= Ring.Size rx.
Proof.
  intros Hw. rewrite zlen_staged, Free_Buffered by done. pose proof (Buffered_bounds rx Hw).
  unfold Ring.Size. lia.
Qed.

Lemma reassemble_loop_shrinks l rx nxt d l' rx' d' :
  reassemble_loop l rx nxt d = (l', rx', d') -> zlen l' <= zlen l.
Proof.
  revert rx nxt d. induction l as [|x l IH]; intros rx nxt d; cbn [reassemble_loop].
  - intros [= <- _ _]. done.
  - rewrite zlen_cons. destruct (seq x =? nxt); [|destruct (LessThan (seq x) nxt)].
    + destruct (Ring.Commit (n x) rx) as [rx1 [e|]].
      * intros [= <- _ _]. rewrite zlen_cons. lia.
      * intros H. apply IH in H. lia.
    + intros H. apply IH in H. lia.
    + intros [= <- _ _]. rewrite zlen_cons. lia.
Qed.

(** filling a gap delivers exactly the stream: when the next [d] bytes of the
    peer's stream arrive in order and are written to the receive ring,
    [reassemble] appends exactly the held bytes that are now contiguous; the
    reader sees the stream without a hole, a repetition or a foreign byte, the
    count it returns is what RCV.NXT must advance by, and what stays held lies
    strictly ahead of the new RCV.NXT. *)
Theorem reassembly_delivers_stream stream base p d rx r
  (Hi : reasm_inv stream base p rx r) (Hd : 0 < d <= Ring.Free rx) :
  exists rx1 rx2 r' k,
    Ring.Write (stream_slice stream p d) rx = Ret (rx1, d, None) /\
    reassemble rx1 (u32 (base + (p + d))) r = (r', rx2, k) /\ 0 <= k /\
    Ring.contents rx2 = Ring.contents rx ++ stream_slice stream p (d + k) /\
    reasm_inv stream base (p + d + k) rx2 r'.
Proof.
  destruct Hi as (Hw & Hsz & Hcap & ps & Hok). pose proof (staged_bound rx Hw) as Hsb.
  assert (zlen (stream_slice stream p d) = d) as HL by (apply zlen_stream_slice; lia).
  destruct (Write_ok (stream_slice stream p d) rx Hw) as (rx1 & HW & Hw1 & _ & HL1 & Hv1); [lia|].
  rewrite HL in HW.
  pose proof (contents_write (stream_slice stream p d) rx rx1 Hw ltac:(lia) Hv1) as HC1.
  pose proof (staged_write (stream_slice stream p d) rx rx1 Hw ltac:(lia) Hv1) as HS1. rewrite HL in HS1.
  pose proof (zlen_staged rx Hw) as HF.
  destruct (reassemble_loop_ok stream base p (Ring.staged rx) ps (held r) (p + 1) rx1 (p + d) 0)
    as (l' & ps' & rx2 & k & H1 & H2 & H3 & H4 & H5 & H6 & H7 & H8); auto; try lia.
  { rewrite HS1. f_equal. lia. }
  { done. }
  assert (u32 (0 + k) = k) as Hk by (unfold u32; rewrite Z.mod_small; lia).
  exists rx1, rx2, (mkReasm l' (hcap r)), k. split; [done|].
  split; [unfold reassemble; rewrite H1; cbn; by rewrite Hk|]. split; [done|]. split.
  - rewrite H6, HC1, <- app_assoc. f_equal. symmetry. apply stream_slice_app; lia.
  - split; [done|]. split; [unfold Ring.Size in *; lia|].
    split; [apply reassemble_loop_shrinks in H1; cbn; lia|]. exists ps'. cbn [held].
    rewrite H7. replace (p + d + k - p) with (d + k) by lia.
    replace (p + d + k) with (p + (d + k)) by lia. apply held_ok_rebase; [lia|lia|].
    by replace (p + (d + k) + 1) with (p + d + k + 1) by lia.
Qed.

Lemma insertion_spec st base p0 stg lo ps l a :
  held_ok st base p0 stg lo ps l -> p0 <= lo -> zlen stg < 2 ^ 30 -> p0 <= a <= p0 + zlen stg ->
  exists ps1 ps2 l1 l2, insertion (u32 (base + a)) l = (l1, l2) /\
    ps = ps1 ++ ps2 /\ l = l1 ++ l2 /\ length ps1 = length l1 /\ length ps2 = length l2 /\
    Forall (fun b => b < a) ps1 /\ (forall b, head ps2 = Some b -> a <= b).
Proof.
  intros Hok. revert lo l Hok. induction ps as [|b ps IH]; intros lo [|x l] Hok Hlo Hsz Ha; try done.
  - exists [], [], [], []. done.
  - destruct Hok as (X1 & X2 & X3 & X4 & X5 & X6). cbn [insertion].
    destruct (pos_compare base b a) as [_ C2]; [lia|]. rewrite X1, C2.
    destruct (Z.ltb_spec b a).
    + destruct (IH (b + n x) l X6 ltac:(lia) Hsz Ha) as (ps1 & ps2 & l1 & l2 & -> & -> & -> & H1 & H2 & H3 & H4).
      exists (b :: ps1), ps2, (x :: l1), l2. cbn. split_and!; auto.
    + assert (length ps = length l) as HL.
      { clear -X6. revert X6. generalize (b + n x). revert l. induction ps as [|c ps IH]; intros [|y l] z; cbn; try done.
        intros (_ & _ & _ & _ & _ & H). f_equal. by eapply IH. }
      exists [], (b :: ps), [], (x :: l). cbn. split_and!; auto. intros b' [= <-]. done.
Qed.

Lemma held_end_last st base p0 stg lo ps l x :
  held_ok st base p0 stg lo ps l -> last l = Some x ->
  exists a, last ps = Some a /\ held_end lo ps l = a + n x /\ seq x = u32 (base + a).
Proof.
  revert lo l. induction ps as [|a ps IH]; intros lo [|y l] Hok Hl; try done.
  destruct Hok as (X1 & _ & _ & _ & _ & X6). rewrite last_cons in Hl. rewrite last_cons. cbn [held_end].
  destruct (last l) as [z|] eqn:E.
  - simplify_eq. destruct (IH (a + n y) l X6 E) as (b & -> & Hb & Hs). by exists b.
  - simplify_eq. apply last_None in E as ->. destruct ps as [|b ps]; [|done]. by exists a.
Qed.

(** Staging somewhere else does not disturb a held segment. *)
Lemma held_ok_overwrite st base p0 stg lo ps l off b :
  held_ok st base p0 stg lo ps l -> p0 <= lo -> 0 <= off -> off + zlen b <= zlen stg ->
  held_end lo ps l <= p0 + off \/ p0 + off + zlen b <= lo ->
  held_ok st base p0 (Ring.overwrite stg off b) lo ps l.
Proof.
  intros Hok Hlo Ho Hb. pose proof (zlen_nonneg b).
  assert (zlen (Ring.overwrite stg off b) = zlen stg) as HL.
  { unfold Ring.overwrite. rewrite !zlen_app, zlen_ztake, zlen_zdrop; lia. }
  revert lo l Hok Hlo. induction ps as [|a ps IH]; intros lo [|x l] Hok Hlo Hd; try done.
  destruct Hok as (X1 & X2 & X3 & X4 & X5 & X6). cbn [held_ok held_end] in *. rewrite HL.
  pose proof (held_ok_end _ _ _ _ _ _ _ X6) as He.
  split_and!; auto; try lia; [|apply IH; auto; lia].
  rewrite <- X5. apply zlist_eq; [rewrite !zlen_slice; lia|].
  intros i Hi. rewrite zlen_slice in Hi by lia. rewrite !zget_slice by lia. unfold Ring.overwrite.
  assert (zlen (ztake off stg) = off) as E by (apply zlen_ztake; lia).
  destruct Hd as [Hd|Hd].
  - rewrite zget_app_l, zget_ztake by lia. done.
  - rewrite zget_app_r, zget_app_r, zget_zdrop by lia. f_equal. lia.
Qed.

(** Inserting a newly staged segment. *)
Lemma held_ok_insert st base p stg ps1 l1 ps2 l2 a k :
  held_ok st base p stg (p + 1) (ps1 ++ ps2) (l1 ++ l2) -> length ps1 = length l1 ->
  held_end (p + 1) ps1 l1 <= a -> (forall b, head ps2 = Some b -> a + k <= b) ->
  p < a -> 0 < k -> a - p + k <= zlen stg ->
  held_ok st base p (Ring.overwrite stg (a - p) (stream_slice st a k)) (p + 1)
    (ps1 ++ a :: ps2) (l1 ++ mkSeg (u32 (base + a)) k :: l2).
Proof.
  intros Hok Hl He Hn Ha Hk Hf. apply held_ok_app in Hok as [H1 H2]; [|done].
  assert (zlen (stream_slice st a k) = k) as HL by (apply zlen_stream_slice; lia).
  pose proof (held_ok_end _ _ _ _ _ _ _ H1).
  apply held_ok_app; [done|]. split.
  - apply held_ok_overwrite; auto; lia.
  - cbn [held_ok seq n]. split; [done|]. split; [done|]. split; [done|].
    assert (zlen (Ring.overwrite stg (a - p) (stream_slice st a k)) = zlen stg) as HO.
    { unfold Ring.overwrite. rewrite !zlen_app, zlen_ztake, zlen_zdrop; lia. }
    rewrite HO. split; [lia|]. split.
    + apply zlist_eq; [rewrite zlen_slice; lia|]. intros i Hi. rewrite zlen_slice in Hi by lia.
      rewrite zget_slice by lia. unfold Ring.overwrite.
      assert (zlen (ztake (a - p) stg) = a - p) as E by (apply zlen_ztake; lia).
      rewrite zget_app_r, zget_app_l by lia. f_equal. lia.
    + apply held_ok_overwrite; try lia. by eapply held_ok_lo.
Qed.

Lemma staged_peek b off r r' :
  Ring.ring_wf r -> 0 <= off -> off + zlen b <= Ring.Free r ->
  Ring.view r' = Ring.view_peek b off (Ring.view r) ->
  Ring.contents r' = Ring.contents r /\ Ring.staged r' = Ring.overwrite (Ring.staged r) off b.
Proof.
  intros Hw Ho Hb Hv. pose proof (Buffered_bounds r Hw). pose proof (zlen_cells r Hw) as HL.
  rewrite Free_Buffered in Hb. unfold Ring.contents, Ring.readable, Ring.staged. rewrite Hv.
  apply overwrite_split; cbn [Ring.count Ring.view]; [lia|lia|]. fold (Ring.view r). lia.
Qed.

(** holding an out-of-order segment is safe: for a segment of the peer's
    stream ahead of RCV.NXT, [store] never panics, never changes a readable
    byte, and keeps the invariant: if the segment is refused nothing changes;
    if it is held, it is staged at its position and disturbs no other. *)
Theorem reassembly_store_safe stream base p a k rx r
  (Hi : reasm_inv stream base p rx r) (Ha : p < a < p + 2 ^ 30) (Hk : 0 < k < 2 ^ 30) :
  exists r' rx' ok,
    store rx (u32 (base + p)) (u32 (base + a)) (stream_slice stream a k) r = Ret (r', rx', ok) /\
    Ring.contents rx' = Ring.contents rx /\ reasm_inv stream base p rx' r' /\
    (ok = false -> r' = r /\ rx' = rx) /\
    (ok = true -> exists x, In x (held r') /\ seq x = u32 (base + a)).
Proof.
  pose proof Hi as (Hw & Hsz & Hcap & ps & Hok). pose proof (staged_bound rx Hw) as Hsb.
  pose proof (zlen_staged rx Hw) as HF.
  assert (zlen (stream_slice stream a k) = k) as HL by (apply zlen_stream_slice; lia).
  assert (forall ok, ok = false -> exists r' rx' ok', Ret (r, rx, ok) = Ret (r', rx', ok') /\
    Ring.contents rx' = Ring.contents rx /\ reasm_inv stream base p rx' r' /\
    (ok' = false -> r' = r /\ rx' = rx) /\
    (ok' = true -> exists x, In x (held r') /\ seq x = u32 (base + a))) as Hrefuse.
  { intros ok ->. exists r, rx, false. split_and!; auto; done. }
  unfold store. rewrite HL.
  destruct (negb (enabled r) || (k =? 0) || (hcap r <=? zlen (held r))) eqn:E0; [by apply Hrefuse|].
  apply orb_false_iff in E0 as [_ E0]. apply Z.leb_gt in E0.
  assert (Sizeof (u32 (base + p)) (u32 (base + a)) = a - p) as ->.
  { rewrite dist_positions. unfold u32. rewrite Z.mod_small; lia. }
  destruct (Z.ltb_spec (Ring.Free rx) (a - p + k)); [by apply Hrefuse|].
  destruct (insertion_spec _ _ _ _ _ _ _ a Hok) as
    (ps1 & ps2 & l1 & l2 & -> & -> & Hl & L1 & L2 & F1 & F2); [lia..|].
  rewrite Hl in Hok. pose proof Hok as Hok0. apply held_ok_app in Hok0 as [O1 O2]; [|done].
  assert (u32 k = k) as Hku by (unfold u32; rewrite Z.mod_small; lia).
  (* the predecessor *)
  destruct (match last l1 with None => false | Some prev => _ end) eqn:Eprev; [by apply Hrefuse|].
  assert (held_end (p + 1) ps1 l1 <= a) as Hprev.
  { destruct (last l1) as [prev|] eqn:El.
    - destruct (held_end_last _ _ _ _ _ _ _ _ O1 El) as (b & Hb & -> & Hs).
      rewrite Hs in Eprev.
      apply last_Some in Hb as [ps1' ->]. apply Forall_app in F1 as [_ F1]. inversion F1; subst.
      apply last_Some in El as [l1' ->]. rewrite !length_app in L1. cbn in L1.
      apply held_ok_app in O1 as [O1a (_ & O2' & O3 & O4 & _ & _)]; [|lia].
      pose proof (held_ok_end _ _ _ _ _ _ _ O1a).
      replace (Add (u32 (base + b)) (u32 (n prev))) with (u32 (base + (b + n prev))) in Eprev
        by (unfold Add; wrap_lia).
      destruct (pos_compare base a (b + n prev)) as [_ C]; [lia|]. rewrite C in Eprev.
      apply Z.ltb_ge in Eprev. lia.
    - apply last_None in El as ->. destruct ps1; [cbn; lia|done]. }
  (* inserting, once the successor is known to be clear *)
  assert ((forall b, head ps2 = Some b -> a + k <= b) -> exists r' rx' ok,
    ('(rx, ok) ← Ring.PeekWrite (stream_slice stream a k) (a - p) rx;
     if negb ok then Ret (r, rx, false)
     else Ret (mkReasm (l1 ++ mkSeg (u32 (base + a)) k :: l2) (hcap r), rx, true)) = Ret (r', rx', ok) /\
    Ring.contents rx' = Ring.contents rx /\ reasm_inv stream base p rx' r' /\
    (ok = false -> r' = r /\ rx' = rx) /\
    (ok = true -> exists x, In x (held r') /\ seq x = u32 (base + a))) as Hinsert.
  { intros Hnext.
    destruct (PeekWrite_ok (stream_slice stream a k) (a - p) rx Hw) as (rx' & HP & Hw' & _ & HL' & Hv');
      [lia|lia|lia|].
    destruct (staged_peek (stream_slice stream a k) (a - p) rx rx' Hw) as [HC HS]; [lia|lia|done|].
    rewrite HP. cbn [mbind outcome_bind negb].
    exists (mkReasm (l1 ++ mkSeg (u32 (base + a)) k :: l2) (hcap r)), rx', true.
    split; [done|]. split; [done|]. split; [|split; [done|]].
    - split; [done|]. split; [unfold Ring.Size in *; lia|]. split.
      + rewrite Hl in E0. cbn [held hcap]. rewrite !zlen_app, ?zlen_cons in *. lia.
      + exists (ps1 ++ a :: ps2). cbn [held]. rewrite HS. apply held_ok_insert; auto; lia.
    - intros _. exists (mkSeg (u32 (base + a)) k). split; [|done]. cbn. apply in_or_app. right. by left. }
  destruct l2 as [|next l2].
  { apply Hinsert. destruct ps2; done. }
  destruct ps2 as [|b ps2]; [done|]. specialize (F2 b eq_refl).
  destruct O2 as (N1 & N2 & N3 & N4 & _). rewrite N1, Hku.
  replace (Add (u32 (base + a)) k) with (u32 (base + (a + k))) by (unfold Add; wrap_lia).
  destruct (pos_compare base b a) as [C1 _]; [lia|]. rewrite C1.
  destruct (pos_compare base b (a + k)) as [_ C2]; [lia|]. rewrite C2.
  destruct (Z.eqb_spec b a) as [->|Hne].
  - exists r, rx, true. do 4 (split; [done|]). intros _. exists next. split; [|done].
    rewrite Hl. apply in_or_app. right. by left.
  - destruct (Z.ltb_spec b (a + k)); [by apply Hrefuse|]. apply Hinsert. intros b' [= <-]. done.
Qed.

Definition demo_stream (i : Z) : Z := i mod 256.

Lemma demo_inv : reasm_inv demo_stream 4294967290 100 (Ring.mkRing [0;0;0;0;0;0;0;0] 3 0)
  (mkReasm [] 4).
Proof.
  split; [vm_compute; repeat split; congruence|]. split; [vm_compute; congruence|].
  split; [vm_compute; congruence|]. exists []. done.
Qed.

Lemma reassembly_store_safe_witness :
  exists r' rx' ok, store (Ring.mkRing [0;0;0;0;0;0;0;0] 3 0) 94 96 [102; 103] (mkReasm [] 4)
      = Ret (r', rx', ok) /\ reasm_inv demo_stream 4294967290 100 rx' r'.
Proof.
  destruct (reassembly_store_safe demo_stream 4294967290 100 102 2
    (Ring.mkRing [0;0;0;0;0;0;0;0] 3 0) (mkReasm [] 4) demo_inv) as (r' & rx' & ok & H1 & _ & H2 & _);
    [lia|lia|]. exists r', rx', ok. split; [exact H1|exact H2].
Defined.

Lemma reassembly_delivers_stream_witness :
  exists rx1 rx2 r' k, Ring.Write [100; 101] (Ring.mkRing [0;0;0;0;0;0;0;0] 3 0) = Ret (rx1, 2, None) /\
    reassemble rx1 96 (mkReasm [] 4) = (r', rx2, k) /\ 
    Ring.contents rx2 = stream_slice demo_stream 100 (2 + k).
Proof.
  destruct (reassembly_delivers_stream demo_stream 4294967290 100 2
    (Ring.mkRing [0;0;0;0;0;0;0;0] 3 0) (mkReasm [] 4) demo_inv)
    as (rx1 & rx2 & r' & k & H1 & H2 & _ & H3 & _); [vm_compute; split; congruence|].
  exists rx1, rx2, r', k. split; [exact H1|]. split; [exact H2|exact H3].
Defined.

End Reassembly.
