(* ===== verification/SynCookie.v ===== *)
(** * SYN cookies ([src/tcp/syncookie.go])

    [SYNCookieJar] encodes the connection tuple and a counter into the initial
    sequence number of a SYN-ACK. Addresses are byte strings; the secret is 16
    bytes. The validation loop counts a [uint32] up to [maxCounterDelta]: it is
    modelled with fuel, [None] standing for a loop that has not ended. *)
From S2P Require Import Prelude Errors SeqNum.

Module SynCookie.

Definition counterbits : Z := 5.
Definition countermsk : Z := Z.shiftl 1 counterbits - 1.

Record SYNCookieJar := mkJar {
  counter : Z;
  maxCounterDelta : Z;
  secret : list Z
}.

(** [Reset]: [rand] is [None] for a nil reader, otherwise the (at most 16) bytes
    that [io.ReadFull] stored into the secret and its error. *)
Definition Reset (rand : option (list Z * option error)) (maxDelta : Z) (sc : SYNCookieJar)
    : SYNCookieJar * option error :=
  match rand with
  | None => (sc, Some ErrInvalidConfig)
  | Some (r, err) =>
      let sec := r ++ zdrop (zlen r) (secret sc) in
      match err with
      | Some e => (mkJar (counter sc) (maxCounterDelta sc) sec, Some e)
      | None => (mkJar (counter sc) (if maxDelta =? 0 then 1 else maxDelta) sec, None)
      end
  end.

Definition IncrementCounter (sc : SYNCookieJar) : SYNCookieJar :=
  mkJar (u32 (counter sc + 1)) (maxCounterDelta sc) (secret sc).

(** ** Hashing *)

Definition byte_at (b : list Z) (i : Z) : Z := default 0 (zget b i).

(** [binary.LittleEndian.Uint32(b[i:])] *)
Definition le32 (b : list Z) (i : Z) : Z :=
  Z.lor (byte_at b i) (Z.lor (Z.shiftl (byte_at b (i + 1)) 8)
    (Z.lor (Z.shiftl (byte_at b (i + 2)) 16) (Z.shiftl (byte_at b (i + 3)) 24))).

Definition rotl32 (x n : Z) : Z := Z.lor (u32 (Z.shiftl x n)) (Z.shiftr x (32 - n)).

Definition mixRound (h : Z * Z * Z * Z) : Z * Z * Z * Z :=
  let '(a, b, c, d) := h in
  let a := u32 (a + b) in
  let d := rotl32 (Z.lxor d a) 16 in
  let c := u32 (c + d) in
  let b := rotl32 (Z.lxor b c) 12 in
  let a := u32 (a + b) in
  let d := rotl32 (Z.lxor d a) 8 in
  let c := u32 (c + d) in
  let b := rotl32 (Z.lxor b c) 7 in
  (a, b, c, d).

(** [for i := 0; i+3 < len(addr); i += 4], mixing a word in with [put]. *)
Fixpoint mix_words (put : Z -> Z * Z * Z * Z -> Z * Z * Z * Z) (addr : list Z)
    (h : Z * Z * Z * Z) : Z * Z * Z * Z :=
  match addr with
  | a :: b :: c :: d :: rest => mix_words put rest (mixRound (put (le32 [a; b; c; d] 0) h))
  | _ => h
  end.

(** The bytes behind the last full word, little endian; 0 when there are none. *)
Definition rem_word (addr : list Z) : Z :=
  let rem := zlen addr mod 4 in
  let tail := zdrop (zlen addr - rem) addr in
  fold_right (fun b acc => Z.lor b (Z.shiftl acc 8)) 0 tail.

Definition xor_h3 (w : Z) (h : Z * Z * Z * Z) : Z * Z * Z * Z :=
  let '(h0, h1, h2, h3) := h in (h0, h1, h2, Z.lxor h3 w).
Definition xor_h0 (w : Z) (h : Z * Z * Z * Z) : Z * Z * Z * Z :=
  let '(h0, h1, h2, h3) := h in (Z.lxor h0 w, h1, h2, h3).

Definition hashTuple (sc : SYNCookieJar) (srcAddr dstAddr : list Z)
    (srcPort dstPort clientISN counter : Z) : Z :=
  let h0 := le32 (secret sc) 0 in
  let h1 := le32 (secret sc) 4 in
  let h2 := le32 (secret sc) 8 in
  let h3 := le32 (secret sc) 12 in
  let h0 := Z.lxor h0 (Z.lor srcPort (u32 (Z.shiftl dstPort 16))) in
  let h1 := Z.lxor h1 clientISN in
  let h2 := Z.lxor h2 counter in
  let h := mix_words xor_h3 srcAddr (h0, h1, h2, h3) in
  let h := xor_h3 (rem_word srcAddr) h in
  let h := mix_words xor_h0 dstAddr h in
  let h := xor_h0 (rem_word dstAddr) h in
  let '(h0, h1, h2, h3) := mixRound (mixRound h) in
  Z.lxor (Z.lxor (Z.lxor h0 h1) h2) h3.

(** ** Cookies *)

Definition generateWithCounter (sc : SYNCookieJar) (srcAddr dstAddr : list Z)
    (srcPort dstPort clientISN counter : Z) : Z :=
  let hash := hashTuple sc srcAddr dstAddr srcPort dstPort clientISN counter in
  let hash := u32 (Z.shiftl hash counterbits) in
  Z.lor hash (Z.land counter countermsk).

Definition MakeSYNCookie (sc : SYNCookieJar) (srcAddr dstAddr : list Z)
    (srcPort dstPort clientISN : Z) : Z :=
  generateWithCounter sc srcAddr dstAddr srcPort dstPort clientISN (counter sc).

(** One pass of the validation loop body: does [delta] accept the cookie? *)
Definition accepts_delta (sc : SYNCookieJar) (srcAddr dstAddr : list Z)
    (srcPort dstPort clientISN cookie delta : Z) : bool :=
  let tryCounter := u32 (counter sc - delta) in
  if negb (Z.land tryCounter countermsk =? Z.land cookie countermsk) then false
  else generateWithCounter sc srcAddr dstAddr srcPort dstPort clientISN tryCounter =? cookie.

Fixpoint validate_loop (fuel : nat) (sc : SYNCookieJar) (srcAddr dstAddr : list Z)
    (srcPort dstPort clientISN cookie delta : Z) : option (Z * option error) :=
  if maxCounterDelta sc <? delta then Some (0, Some errInvalidCookie)
  else match fuel with
  | O => None
  | S fuel =>
      if accepts_delta sc srcAddr dstAddr srcPort dstPort clientISN cookie delta
      then Some (cookie, None)
      else validate_loop fuel sc srcAddr dstAddr srcPort dstPort clientISN cookie (u32 (delta + 1))
  end.

Definition ValidateSYNCookie (fuel : nat) (sc : SYNCookieJar) (srcAddr dstAddr : list Z)
    (srcPort dstPort clientISN ackNum : Z) : option (Z * option error) :=
  validate_loop fuel sc srcAddr dstAddr srcPort dstPort clientISN (u32 (ackNum - 1)) 0.

(** ** MSS index *)

Definition encodeMSSIndex (mss : Z) : Z :=
  if mss <=? 536 then 0 else if mss <=? 1220 then 1 else if mss <=? 1460 then 2 else 3.
Definition decodeMSSIndex (idx : Z) : Z :=
  let i := Z.land idx 3 in
  if i =? 0 then 536 else if i =? 1 then 1220 else if i =? 2 then 1460 else 8960.

(** ** Lemmas *)

Section Validation.
Context (sc : SYNCookieJar) (srcAddr dstAddr : list Z) (srcPort dstPort clientISN : Z).

Lemma generate_width c :
  is_u32 (generateWithCounter sc srcAddr dstAddr srcPort dstPort clientISN c).
Proof.
  unfold generateWithCounter, is_u32. apply lor_bound; [lia| |].
  - unfold u32. wrap_lia.
  - change countermsk with (Z.ones 5). rewrite Z.land_ones by lia.
    pose proof (Z.mod_pos_bound c (2 ^ 5)). lia.
Qed.

(** The low bits of a cookie are those of the counter it was made with. *)
Lemma generate_counter_bits c :
  Z.land (generateWithCounter sc srcAddr dstAddr srcPort dstPort clientISN c) countermsk
  = Z.land c countermsk.
Proof.
  unfold generateWithCounter. set (h := hashTuple _ _ _ _ _ _ _).
  change countermsk with (Z.ones 5). unfold counterbits, u32. apply Z.bits_inj'. intros n Hn.
  rewrite !Z.land_spec, Z.lor_spec, !Z.land_spec, (Z.testbit_ones 5 n) by lia.
  destruct (decide (n < 5)) as [H|H].
  - rewrite Z.mod_pow2_bits_low, Z.shiftl_spec_low by lia. cbn. by rewrite <- andb_assoc, andb_diag.
  - replace (n <? 5) with false by (symmetry; apply Z.ltb_ge; lia). by rewrite !andb_false_r.
Qed.

Lemma accepts_delta_iff cookie delta :
  accepts_delta sc srcAddr dstAddr srcPort dstPort clientISN cookie delta = true <->
  cookie = generateWithCounter sc srcAddr dstAddr srcPort dstPort clientISN
             (u32 (counter sc - delta)).
Proof.
  unfold accepts_delta.
  destruct (Z.eqb_spec (Z.land (u32 (counter sc - delta)) countermsk) (Z.land cookie countermsk))
    as [E|E]; cbn [negb].
  - rewrite Z.eqb_eq. split; congruence.
  - split; [done|]. intros ->. by rewrite generate_counter_bits in E.
Qed.

(** The loop tries the deltas from [delta] on, in order. *)
Lemma validate_loop_spec fuel cookie delta :
  0 <= delta -> maxCounterDelta sc < 2 ^ 32 - 1 ->
  maxCounterDelta sc - delta < Z.of_nat fuel ->
  (exists d, delta <= d <= maxCounterDelta sc /\
     accepts_delta sc srcAddr dstAddr srcPort dstPort clientISN cookie d = true /\
     validate_loop fuel sc srcAddr dstAddr srcPort dstPort clientISN cookie delta
       = Some (cookie, None)) \/
  ((forall d, delta <= d <= maxCounterDelta sc ->
     accepts_delta sc srcAddr dstAddr srcPort dstPort clientISN cookie d = false) /\
   validate_loop fuel sc srcAddr dstAddr srcPort dstPort clientISN cookie delta
     = Some (0, Some errInvalidCookie)).
Proof.
  revert delta. induction fuel as [|fuel IH]; intros delta Hd Hm Hf; cbn [validate_loop].
  - replace (maxCounterDelta sc <? delta) with true by (symmetry; apply Z.ltb_lt; lia).
    right. split; [lia|done].
  - destruct (Z.ltb_spec (maxCounterDelta sc) delta); [right; split; [lia|done]|].
    destruct (accepts_delta sc srcAddr dstAddr srcPort dstPort clientISN cookie delta) eqn:E.
    + left. exists delta. split; [lia|done].
    + replace (u32 (delta + 1)) with (delta + 1) by (unfold u32; rewrite Z.mod_small; lia).
      destruct (IH (delta + 1)) as [(d & H1 & H2 & H3)|[H1 H2]]; try lia.
      * left. exists d. split; [lia|done].
      * right. split; [|done]. intros d Hd'.
        destruct (decide (d = delta)) as [->|]; [done|]. apply H1. lia.
Qed.

End Validation.

(** ** Theorems *)

(** C39: validation accepts exactly the genuine, recent cookies: for every
    [maxCounterDelta] below 2^32 - 1 the loop ends within [maxCounterDelta] + 1
    rounds, and it accepts an acknowledgement if and only if the number before
    it is the cookie of this tuple for the current counter or one of the
    [maxCounterDelta] previous ones; the cookie is returned, any other
    acknowledgement is rejected. *)
Theorem syncookie_validates_exactly sc srcAddr dstAddr srcPort dstPort clientISN ackNum fuel
  (Hm : 0 <= maxCounterDelta sc < 2 ^ 32 - 1) (Hf : maxCounterDelta sc < Z.of_nat fuel) :
  let cookie := u32 (ackNum - 1) in
  let r := ValidateSYNCookie fuel sc srcAddr dstAddr srcPort dstPort clientISN ackNum in
  (r = Some (cookie, None) <->
   exists d, 0 <= d <= maxCounterDelta sc /\
     cookie = generateWithCounter sc srcAddr dstAddr srcPort dstPort clientISN
                (u32 (counter sc - d))) /\
  (r = Some (cookie, None) \/ r = Some (0, Some errInvalidCookie)).
Proof.
  intros cookie r. unfold r, ValidateSYNCookie. fold cookie.
  destruct (validate_loop_spec sc srcAddr dstAddr srcPort dstPort clientISN fuel cookie 0)
    as [(d & H1 & H2 & H3)|[H1 H2]]; try lia.
  - rewrite H3. split; [|by left]. split; [intros _|done]. exists d. split; [done|].
    by apply accepts_delta_iff.
  - rewrite H2. split; [|by right]. split; [done|]. intros (d & Hd & E).
    apply accepts_delta_iff in E. by rewrite H1 in E.
Qed.

Lemma syncookie_validates_exactly_witness :
  let sc := mkJar 77 2 [1;2;3;4;5;6;7;8;9;10;11;12;13;14;15;16] in
  ValidateSYNCookie 3 sc [192;168;1;2] [10;0;0;1] 40000 80 123456
    (u32 (generateWithCounter sc [192;168;1;2] [10;0;0;1] 40000 80 123456 75 + 1))
  = Some (generateWithCounter sc [192;168;1;2] [10;0;0;1] 40000 80 123456 75, None).
Proof.
  intros sc. set (c := generateWithCounter sc [192;168;1;2] [10;0;0;1] 40000 80 123456 75).
  assert (u32 (u32 (c + 1) - 1) = c) as E by (vm_compute; reflexivity).
  rewrite <- E at 2.
  apply (syncookie_validates_exactly sc [192;168;1;2] [10;0;0;1] 40000 80 123456 (u32 (c + 1)) 3);
    [cbn; lia|cbn; lia|].
  exists 2. split; [cbn; lia|]. rewrite E. reflexivity.
Defined.

(** a cookie survives as long as it should: the acknowledgement of a cookie
    made now is accepted after up to [maxCounterDelta] increments of the
    counter, wrap-around of the counter included. *)
Theorem syncookie_roundtrip sc srcAddr dstAddr srcPort dstPort clientISN k fuel
  (Hc : is_u32 (counter sc)) (Hm : 0 <= maxCounterDelta sc < 2 ^ 32 - 1)
  (Hk : Z.of_nat k <= maxCounterDelta sc) (Hf : maxCounterDelta sc < Z.of_nat fuel) :
  let cookie := MakeSYNCookie sc srcAddr dstAddr srcPort dstPort clientISN in
  ValidateSYNCookie fuel (Nat.iter k IncrementCounter sc) srcAddr dstAddr srcPort dstPort
    clientISN (SeqNum.Add cookie 1) = Some (cookie, None).
Proof.
  intros cookie. set (sc' := Nat.iter k IncrementCounter sc).
  assert (counter sc' = u32 (counter sc + Z.of_nat k) /\
          maxCounterDelta sc' = maxCounterDelta sc /\ secret sc' = secret sc) as (E1 & E2 & E3).
  { unfold sc'. clear Hk. induction k as [|k IH].
    - cbn. rewrite Z.add_0_r. split; [|done]. unfold u32, is_u32 in *. rewrite Z.mod_small; lia.
    - destruct IH as (IH1 & IH2 & IH3). 
      change (Nat.iter (S k) IncrementCounter sc) with (IncrementCounter (Nat.iter k IncrementCounter sc)).
      cbn [IncrementCounter counter maxCounterDelta secret]. rewrite IH1. split; [|done].
      rewrite Nat2Z.inj_succ. wrap_lia. }
  assert (forall c, generateWithCounter sc' srcAddr dstAddr srcPort dstPort clientISN c =
                    generateWithCounter sc srcAddr dstAddr srcPort dstPort clientISN c) as Hg.
  { intros c. unfold generateWithCounter, hashTuple. by rewrite E3. }
  pose proof (generate_width sc srcAddr dstAddr srcPort dstPort clientISN (counter sc)) as Hw.
  fold (MakeSYNCookie sc srcAddr dstAddr srcPort dstPort clientISN) in Hw. fold cookie in Hw.
  unfold ValidateSYNCookie.
  assert (u32 (SeqNum.Add cookie 1 - 1) = cookie) as ->
    by (unfold SeqNum.Add, is_u32 in *; wrap_lia).
  destruct (validate_loop_spec sc' srcAddr dstAddr srcPort dstPort clientISN fuel cookie 0)
    as [(d & H1 & H2 & H3)|[H1 H2]]; try lia; [done|].
  rewrite E2 in H1. specialize (H1 (Z.of_nat k) ltac:(lia)).
  enough (accepts_delta sc' srcAddr dstAddr srcPort dstPort clientISN cookie (Z.of_nat k) = true)
    by congruence.
  apply accepts_delta_iff. rewrite Hg, E1. unfold cookie, MakeSYNCookie. f_equal.
  unfold is_u32 in Hc. wrap_lia.
Qed.

Lemma syncookie_roundtrip_witness :
  let sc := mkJar 4294967295 1 [1;2;3;4;5;6;7;8;9;10;11;12;13;14;15;16] in
  let cookie := MakeSYNCookie sc [192;168;1;2] [10;0;0;1] 40000 80 123456 in
  ValidateSYNCookie 2 (IncrementCounter sc) [192;168;1;2] [10;0;0;1] 40000 80 123456
    (SeqNum.Add cookie 1) = Some (cookie, None).
Proof.
  apply (syncookie_roundtrip (mkJar 4294967295 1 [1;2;3;4;5;6;7;8;9;10;11;12;13;14;15;16])
    [192;168;1;2] [10;0;0;1] 40000 80 123456 1 2); cbn; try lia. done.
Defined.

(** the MSS index is a faithful code for the four table values, but the
    decoded value can exceed the MSS that was encoded (600 becomes 1220). *)
Theorem mss_index_roundtrip :
  (forall i, 0 <= i < 4 -> encodeMSSIndex (decodeMSSIndex i) = i) /\
  (forall m, 0 <= m -> 0 <= encodeMSSIndex m < 4) /\
  decodeMSSIndex (encodeMSSIndex 600) = 1220.
Proof.
  split; [|split; [|done]].
  - intros i Hi. assert (i = 0 \/ i = 1 \/ i = 2 \/ i = 3) as [->|[->|[->| ->]]] by lia; done.
  - intros m Hm. unfold encodeMSSIndex. bool_cases; lia.
Qed.

End SynCookie.
