(* ===== verification/Rto.v ===== *)
(** * The retransmission timer ([src/tcp/rto/timer.go])

    [Timer] is the RFC 6298 estimator and single retransmission timer. Durations
    and instants are [int64] nanoseconds; the clock is an argument of the hooks,
    as it is in [postRx], [preTx] and [postTx]. Durations are unbounded here;
    the bounds that the theorems establish show that they stay far from
    overflow. *)
From S2P Require Import Prelude Errors SeqNum Segment.

Module Rto.
Import SeqNum Segment.

Definition second : Z := 1000000000.
Definition rtoInitial : Z := second.
Definition rtoMin : Z := 200000000.
Definition rtoMax : Z := 60 * second.
Definition rttGainShift : Z := 3.
Definition rttvarGainShift : Z := 2.
Definition rttvarK : Z := 4.
Definition backoffMax : Z := 12.

Record Timer := mkTimer {
  srtt : Z;
  rttvar : Z;
  rto : Z;
  haveRTT : bool;
  haveSeq : bool;
  sndUNA : Z;
  sndNXT : Z;
  timing : bool;
  timedSeq : Z;
  timedAt : Z;
  running : bool;
  deadline : Z;
  backoff : Z;
  expirations : Z
}.

Definition with_rtt s v o h r := mkTimer s v o h (haveSeq r) (sndUNA r) (sndNXT r) (timing r) (timedSeq r) (timedAt r) (running r) (deadline r) (backoff r) (expirations r).
Definition with_rto o r := mkTimer (srtt r) (rttvar r) o (haveRTT r) (haveSeq r) (sndUNA r) (sndNXT r) (timing r) (timedSeq r) (timedAt r) (running r) (deadline r) (backoff r) (expirations r).
Definition with_seq h u n r := mkTimer (srtt r) (rttvar r) (rto r) (haveRTT r) h u n (timing r) (timedSeq r) (timedAt r) (running r) (deadline r) (backoff r) (expirations r).
Definition with_timing t s a r := mkTimer (srtt r) (rttvar r) (rto r) (haveRTT r) (haveSeq r) (sndUNA r) (sndNXT r) t s a (running r) (deadline r) (backoff r) (expirations r).
Definition with_timer run d r := mkTimer (srtt r) (rttvar r) (rto r) (haveRTT r) (haveSeq r) (sndUNA r) (sndNXT r) (timing r) (timedSeq r) (timedAt r) run d (backoff r) (expirations r).
Definition with_backoff b r := mkTimer (srtt r) (rttvar r) (rto r) (haveRTT r) (haveSeq r) (sndUNA r) (sndNXT r) (timing r) (timedSeq r) (timedAt r) (running r) (deadline r) b (expirations r).
Definition with_expirations e r := mkTimer (srtt r) (rttvar r) (rto r) (haveRTT r) (haveSeq r) (sndUNA r) (sndNXT r) (timing r) (timedSeq r) (timedAt r) (running r) (deadline r) (backoff r) e.

(** The zero value with the initial RTO: what [Configure] and [Reset] assign. *)
Definition Reset (r : Timer) : Timer :=
  mkTimer 0 0 rtoInitial false false 0 0 false 0 0 false 0 0 0.
(** [nanotime] is [true] for a non-nil clock. *)
Definition Configure (nanotime : bool) (r : Timer) : Timer * option error :=
  if negb nanotime then (r, Some ErrMissingHALConfig) else (Reset r, None).

Definition CurrentRTO (r : Timer) : Z :=
  if rto r <? rtoMin then rtoMin else if rtoMax <? rto r then rtoMax else rto r.

Definition NextDeadline (r : Timer) : Z := if negb (running r) then 0 else deadline r.

Definition updateRTT (sample : Z) (r : Timer) : Timer :=
  if sample <=? 0 then r
  else
    let r :=
      if negb (haveRTT r) then with_rtt sample (sample / 2) (rto r) true r
      else
        let diff := srtt r - sample in
        let diff := if diff <? 0 then - diff else diff in
        with_rtt (srtt r + Z.shiftr (sample - srtt r) rttGainShift)
                 (rttvar r + Z.shiftr (diff - rttvar r) rttvarGainShift) (rto r) (haveRTT r) r in
    with_rto (srtt r + rttvarK * rttvar r) r.

Definition ObserveRTT (rtt : Z) (r : Timer) : Timer := updateRTT rtt r.

Definition PreRx (r : Timer) : bool := true.

Definition postRx (incoming : Segment) (now : Z) (r : Timer) : Timer :=
  if negb (haveSeq r) || negb (HasAny (Flags incoming) FlagACK) then r
  else
    let ack := ACK incoming in
    let r := if timing r && negb (LessThan ack (timedSeq r)) then
               let r := updateRTT (now - timedAt r) r in
               with_backoff 0 (with_timing false (timedSeq r) (timedAt r) r)
             else r in
    let r := if LessThan (sndUNA r) ack && negb (LessThan (sndNXT r) ack)
             then with_seq (haveSeq r) ack (sndNXT r) r else r in
    if sndUNA r =? sndNXT r then with_timer false (deadline r) r
    else with_timer true (now + CurrentRTO r) r.

(** [preTx]: the timer, and the sequence number to retransmit from if it expired. *)
Definition preTx (now una : Z) (r : Timer) : Timer * option Z :=
  if negb (running r) || (now <? deadline r) || (sndUNA r =? sndNXT r) then (r, None)
  else
    let r := with_expirations (u32 (expirations r + 1)) r in
    let r := with_timing false (timedSeq r) (timedAt r) r in
    let r := if backoff r <? backoffMax
             then with_rto (Z.min (CurrentRTO r * 2) rtoMax) (with_backoff (u8 (backoff r + 1)) r)
             else r in
    (with_timer true (now + CurrentRTO r) r, Some una).

Definition postTx (outgoing : Segment) (now : Z) (r : Timer) : Timer :=
  if DATALEN outgoing =? 0 then r
  else
    let segStart := SEQ outgoing in
    let segEnd := u32 (segStart + LEN outgoing) in
    let r := if negb (haveSeq r) then with_seq true segStart segStart r else r in
    if negb (LessThan (sndNXT r) segEnd) then with_timing false (timedSeq r) (timedAt r) r
    else
      let r := with_seq (haveSeq r) (sndUNA r) segEnd r in
      let r := if negb (timing r) then with_timing true segEnd now r else r in
      if negb (running r) then with_timer true (now + CurrentRTO r) r else r.

(** ** Events *)

Inductive event :=
| Rx (seg : Segment) (now : Z)
| Poll (now una : Z)
| Tx (seg : Segment) (now : Z).

Definition ev_time (e : event) : Z :=
  match e with Rx _ now | Poll now _ | Tx _ now => now end.

Definition run_event (r : Timer) (e : event) : Timer :=
  match e with
  | Rx seg now => postRx seg now r
  | Poll now una => fst (preTx now una r)
  | Tx seg now => postTx seg now r
  end.
Definition run_events (es : list event) (r : Timer) : Timer := fold_left run_event es r.

(** Events in the order of a clock that does not go back. *)
Fixpoint clocked (t : Z) (es : list event) : Prop :=
  match es with [] => True | e :: es => t <= ev_time e /\ clocked (ev_time e) es end.

Definition last_time (t : Z) (es : list event) : Z :=
  match last es with None => t | Some e => ev_time e end.

(** Octets sent and not acknowledged, as far as the timer has observed. *)
Definition outstanding (r : Timer) : bool := haveSeq r && negb (sndUNA r =? sndNXT r).

(** The [n]-fold expiry of the timer, each at its own instant. *)
Fixpoint expire (nows : list Z) (una : Z) (r : Timer) : Timer :=
  match nows with
  | [] => r
  | now :: nows => expire nows una (fst (preTx now una r))
  end.

(** ** Lemmas *)

Lemma CurrentRTO_bounds r : rtoMin <= CurrentRTO r <= rtoMax.
Proof. unfold CurrentRTO, rtoMin, rtoMax, second. bool_cases; lia. Qed.

Lemma updateRTT_frame s r :
  haveSeq (updateRTT s r) = haveSeq r /\ sndUNA (updateRTT s r) = sndUNA r /\
  sndNXT (updateRTT s r) = sndNXT r /\ timing (updateRTT s r) = timing r /\
  timedSeq (updateRTT s r) = timedSeq r /\ timedAt (updateRTT s r) = timedAt r /\
  running (updateRTT s r) = running r /\ deadline (updateRTT s r) = deadline r.
Proof. unfold updateRTT. destruct (s <=? 0), (haveRTT r); done. Qed.

(** While octets are outstanding the timer is armed, and an armed timer expires
    within the largest timeout. *)
Definition armed (now : Z) (r : Timer) : Prop :=
  (outstanding r = true -> running r = true) /\ (running r = true -> deadline r <= now + rtoMax).

Lemma armed_later t t' r : t <= t' -> armed t r -> armed t' r.
Proof. intros Ht [H1 H2]. split; [done|]. intros Hr. specialize (H2 Hr). lia. Qed.

Lemma postRx_armed seg now r : armed now r -> armed now (postRx seg now r).
Proof.
  intros H. unfold postRx.
  destruct (negb (haveSeq r) || negb (HasAny (Flags seg) FlagACK)); [done|].
  match goal with |- armed _ (if sndUNA ?x =? _ then _ else _) => set (r2 := x) end.
  unfold armed, outstanding. destruct (Z.eqb_spec (sndUNA r2) (sndNXT r2)) as [E|E]; cbn.
  - rewrite E, Z.eqb_refl, andb_false_r. done.
  - split; [done|]. intros _. pose proof (CurrentRTO_bounds r2). lia.
Qed.

Lemma preTx_armed now una r : armed now r -> armed now (fst (preTx now una r)).
Proof.
  intros H. unfold preTx.
  destruct (negb (running r) || (now <? deadline r) || (sndUNA r =? sndNXT r)); [done|].
  cbn [fst]. match goal with |- armed now (with_timer true _ ?x) => set (r1 := x) end.
  split; [done|]. intros _. cbn. pose proof (CurrentRTO_bounds r1). lia.
Qed.

Lemma postTx_armed seg now r : armed now r -> armed now (postTx seg now r).
Proof.
  intros H. unfold postTx. destruct (DATALEN seg =? 0); [done|].
  match goal with |- context [if negb (haveSeq r) then ?x else r] =>
    set (r1 := if negb (haveSeq r) then x else r) end.
  assert (armed now r1) as H1.
  { unfold r1. destruct (haveSeq r); cbn [negb]; [done|]. destruct H as [_ H].
    unfold armed, outstanding. cbn. by rewrite Z.eqb_refl. }
  clearbody r1. destruct (LessThan (sndNXT r1) _); cbn [negb]; [|exact H1].
  match goal with |- armed _ (if negb (running ?x) then _ else _) => set (r2 := x) end.
  assert (running r2 = running r1 /\ deadline r2 = deadline r1) as [E1 E2].
  { unfold r2. by destruct (timing _). }
  destruct H1 as [_ H1]. destruct (running r2) eqn:Er; cbn [negb].
  - split; [done|]. intros _. rewrite E2. apply H1. by rewrite <- E1.
  - split; [done|]. intros _. cbn. pose proof (CurrentRTO_bounds r2). lia.
Qed.

Lemma run_event_armed r e : armed (ev_time e) r -> armed (ev_time e) (run_event r e).
Proof.
  destruct e; cbn; auto using postRx_armed, preTx_armed, postTx_armed.
Qed.

Lemma run_events_armed es t r :
  clocked t es -> armed t r -> armed (last_time t es) (run_events es r).
Proof.
  revert t r. induction es as [|e es IH]; intros t r Hc Ha; [done|].
  destruct Hc as [Ht Hc]. cbn [run_events fold_left].
  assert (last_time t (e :: es) = last_time (ev_time e) es) as ->.
  { unfold last_time. rewrite last_cons. by destruct (last es). }
  apply IH; [done|]. apply run_event_armed. by apply (armed_later t).
Qed.

(** ** Theorems *)

(** no outstanding data without a timer: starting from [Reset], after any
    sequence of received, polled and sent segments under a clock that does not
    go back, whenever octets are outstanding the retransmission timer is
    running, it expires at most one minute after the last event, and a poll at
    that instant asks for the retransmission from SND.UNA. *)
Theorem rto_outstanding_is_timed es t r0
  (Hc : clocked t es) :
  let r := run_events es (Reset r0) in
  outstanding r = true ->
  running r = true /\ deadline r <= last_time t es + rtoMax /\
  (forall una now, deadline r <= now -> exists r', preTx now una r = (r', Some una) /\
     expirations r' = u32 (expirations r + 1) /\ timing r' = false).
Proof.
  intros r Ho. assert (armed (last_time t es) r) as [H1 H2] by (apply run_events_armed; [done|by split]).
  specialize (H1 Ho). split; [done|]. split; [by apply H2|]. intros una now Hn.
  unfold preTx. rewrite H1. unfold outstanding in Ho. apply andb_true_iff in Ho as [_ Ho].
  apply negb_true_iff in Ho. rewrite Ho.
  replace (now <? deadline r) with false by (symmetry; by apply Z.ltb_ge). cbn [negb orb].
  eexists. split; [done|]. cbn. destruct (backoff r <? backoffMax); done.
Qed.

Lemma rto_outstanding_is_timed_witness :
  let seg := {| SEQ := 100; ACK := 0; DATALEN := 10; WND := 0; Flags := FlagACK |} in
  let r := run_events [Tx seg 5] (Reset (mkTimer 0 0 0 false false 0 0 false 0 0 false 0 0 0)) in
  running r = true /\ deadline r <= 5 + rtoMax.
Proof.
  intros seg r.
  destruct (rto_outstanding_is_timed [Tx seg 5] 0 (mkTimer 0 0 0 false false 0 0 false 0 0 false 0 0 0))
    as (H1 & H2 & _); [done|reflexivity|]. split; [exact H1|exact H2].
Defined.

(** *** Exponential backoff *)

Lemma preTx_expired now una r :
  running r = true -> deadline r <= now -> sndUNA r <> sndNXT r ->
  let r' := fst (preTx now una r) in
  running r' = true /\ sndUNA r' = sndUNA r /\ sndNXT r' = sndNXT r /\
  deadline r' = now + CurrentRTO r' /\
  backoff r' = (if backoff r <? backoffMax then u8 (backoff r + 1) else backoff r) /\
  rto r' = (if backoff r <? backoffMax then Z.min (CurrentRTO r * 2) rtoMax else rto r).
Proof.
  intros Hr Hn Hne. unfold preTx. rewrite Hr.
  replace (now <? deadline r) with false by (symmetry; by apply Z.ltb_ge).
  replace (sndUNA r =? sndNXT r) with false by (symmetry; by apply Z.eqb_neq). cbn [negb orb fst].
  cbn. destruct (backoff r <? backoffMax); done.
Qed.

(** Each expiry happens at or after the deadline it finds. *)
Fixpoint on_time (nows : list Z) (una : Z) (r : Timer) : Prop :=
  match nows with
  | [] => True
  | now :: nows => deadline r <= now /\ on_time nows una (fst (preTx now una r))
  end.

Lemma CurrentRTO_of o r : rto r = o -> rtoMin <= o <= rtoMax -> CurrentRTO r = o.
Proof. intros <- H. unfold CurrentRTO. bool_cases; lia. Qed.

Lemma expire_rto nows una r k :
  running r = true -> sndUNA r <> sndNXT r -> on_time nows una r ->
  0 <= k -> backoff r = Z.min k backoffMax -> rtoMin * 2 ^ Z.min k backoffMax <= CurrentRTO r \/ CurrentRTO r = rtoMax ->
  let r' := expire nows una r in
  CurrentRTO r' = Z.min rtoMax (CurrentRTO r * 2 ^ zlen nows) /\ running r' = true.
Proof.
  revert r k. induction nows as [|now nows IH]; intros r k Hr Hne Ho Hk Hb Hl; cbn [expire].
  { cbn. rewrite Z.mul_1_r. pose proof (CurrentRTO_bounds r). split; [lia|done]. }
  destruct Ho as [Hn Ho].
  destruct (preTx_expired now una r Hr Hn Hne) as (Hr' & Hu' & Hx' & _ & Hb' & Hrto').
  set (r1 := fst (preTx now una r)) in *.
  pose proof (CurrentRTO_bounds r) as Hc.
  assert (CurrentRTO r1 = Z.min rtoMax (CurrentRTO r * 2)) as E1.
  { destruct (Z.ltb_spec (backoff r) backoffMax).
    - apply CurrentRTO_of; [rewrite Hrto'; lia|]. unfold rtoMin, rtoMax, second in *. lia.
    - assert (CurrentRTO r1 = CurrentRTO r) as -> by (unfold CurrentRTO; by rewrite Hrto').
      assert (CurrentRTO r = rtoMax) as ->.
      { destruct Hl as [Hl|]; [|done]. unfold backoffMax in *. replace (k `min` 12) with 12 in Hl by lia.
        unfold rtoMin, rtoMax, second in *. lia. }
      unfold rtoMax, second. lia. }
  destruct (IH r1 (k + 1)) as [IH1 IH2]; auto; try congruence; try lia.
  - rewrite Hb'. unfold backoffMax in *. bool_cases; [|lia]. unfold u8. rewrite Z.mod_small; lia.
  - rewrite E1. destruct Hl as [Hl|Hl].
    + destruct (decide (rtoMax <= CurrentRTO r * 2)); [right; lia|left].
      destruct (decide (k < 12)).
      * replace (Z.min (k + 1) backoffMax) with (Z.min k backoffMax + 1) by (unfold backoffMax; lia).
        rewrite Z.pow_add_r by (unfold backoffMax; lia). lia.
      * exfalso. replace (Z.min k backoffMax) with 12 in Hl by (unfold backoffMax; lia).
        unfold rtoMin, rtoMax, second in *. lia.
    + right. rewrite Hl. unfold rtoMax, second. lia.
  - split; [|done]. rewrite IH1, E1, zlen_cons, Z.pow_add_r by (lia || apply zlen_nonneg).
    pose proof (zlen_nonneg nows). assert (1 <= 2 ^ zlen nows) by (apply (Z.pow_le_mono_r 2 0); lia).
    unfold rtoMax, second in *. nia.
Qed.

(** exponential backoff: when the timer expires [n] times in a row with no
    acknowledgement in between, the timeout in effect is the initial one
    doubled [n] times, capped at one minute, for every [n] (the cap on the
    number of doublings is never felt); the timer keeps running throughout. *)
Theorem rto_backoff_doubles nows una r
  (Hr : running r = true) (Hne : sndUNA r <> sndNXT r) (Ho : on_time nows una r)
  (Hb : backoff r = 0) :
  CurrentRTO (expire nows una r) = Z.min rtoMax (CurrentRTO r * 2 ^ zlen nows) /\
  running (expire nows una r) = true.
Proof.
  apply (expire_rto nows una r 0); auto; [lia|]. left. pose proof (CurrentRTO_bounds r).
  change (2 ^ Z.min 0 backoffMax) with 1. lia.
Qed.

Lemma rto_backoff_doubles_witness :
  let r := mkTimer 0 0 rtoInitial false true 5 9 false 0 0 true 100 0 0 in
  CurrentRTO (expire [100; 3000000000; 90000000000] 5 r) = 8 * second.
Proof.
  intros r. destruct (rto_backoff_doubles [100; 3000000000; 90000000000] 5 r) as [H _];
    [done|done| |done|].
  - vm_compute. repeat split; congruence.
  - rewrite H. reflexivity.
Defined.

(** *** The estimator *)

Definition samples_in (lo hi : Z) (ss : list Z) : Prop := Forall (fun s => lo <= s <= hi) ss.

(** The estimator stays inside the range of what was measured. *)
Definition est_inv (lo hi : Z) (r : Timer) : Prop :=
  haveRTT r = true -> lo <= srtt r <= hi /\ 0 <= rttvar r <= hi /\
    rto r = srtt r + rttvarK * rttvar r.

Lemma updateRTT_est lo hi s r :
  0 < lo -> lo <= s <= hi -> est_inv lo hi r -> est_inv lo hi (updateRTT s r).
Proof.
  intros Hlo Hs He. unfold updateRTT. replace (s <=? 0) with false by (symmetry; apply Z.leb_gt; lia).
  destruct (haveRTT r) eqn:Hh; cbn [negb].
  - specialize (He Hh). intros _. cbn. unfold rttGainShift, rttvarGainShift, rttvarK.
    rewrite !Z.shiftr_div_pow2 by lia. change (2 ^ 3) with 8. change (2 ^ 2) with 4.
    split; [|split; [|done]]; bool_cases; Z.to_euclidean_division_equations; lia.
  - intros _. cbn. unfold rttvarK. split; [lia|]. split; [|done].
    Z.to_euclidean_division_equations. lia.
Qed.

(** the estimator is stable: when all round-trip samples lie between [lo]
    and [hi], the smoothed round trip does too, the variation lies between 0
    and [hi], and the timeout between [lo] and 5*[hi], so that no sum
    overflows an int64 for samples below 2^60 ns. *)
Theorem rto_estimator_bounded lo hi ss s0 r0
  (Hlo : 0 < lo) (Hs : samples_in lo hi (s0 :: ss)) :
  let r := fold_left (fun r s => ObserveRTT s r) (s0 :: ss) (Reset r0) in
  lo <= srtt r <= hi /\ 0 <= rttvar r <= hi /\ lo <= rto r <= 5 * hi.
Proof.
  intros r. assert (est_inv lo hi r /\ haveRTT r = true) as [He Hh].
  { unfold r. cbn [fold_left]. inversion Hs as [|? ? Hs0 Hss]; subst.
    assert (est_inv lo hi (ObserveRTT s0 (Reset r0)) /\ haveRTT (ObserveRTT s0 (Reset r0)) = true) as H.
    { split; [by apply updateRTT_est|]. unfold ObserveRTT, updateRTT.
      replace (s0 <=? 0) with false by (symmetry; apply Z.leb_gt; lia). done. }
    revert H. generalize (ObserveRTT s0 (Reset r0)). clear Hs Hs0 r.
    induction Hss as [|s ss' Hs' _ IH]; intros r H; [done|]. cbn [fold_left]. apply IH.
    destruct H as [H1 H2]. split; [by apply updateRTT_est|]. unfold ObserveRTT, updateRTT.
    rewrite H2. by destruct (s <=? 0). }
  destruct (He Hh) as (H1 & H2 & H3). unfold rttvarK in H3. lia.
Qed.

Lemma rto_estimator_bounded_witness :
  let r := fold_left (fun r s => ObserveRTT s r) [100; 300; 120]
    (Reset (mkTimer 0 0 0 false false 0 0 false 0 0 false 0 0 0)) in
  100 <= srtt r <= 300 /\ rto r <= 1500.
Proof.
  intros r. destruct (rto_estimator_bounded 100 300 [300; 120] 100
    (mkTimer 0 0 0 false false 0 0 false 0 0 false 0 0 0)) as (H1 & _ & H3).
  - lia.
  - repeat constructor; lia.
  - split; [exact H1|apply H3].
Defined.

(** *** Karn's algorithm *)

(** An event that retransmits or times out: after it nothing may be sampled. *)
Definition retransmits (r : Timer) (e : event) : bool :=
  match e with
  | Rx _ _ => false
  | Poll now una => match preTx now una r with (_, None) => false | _ => true end
  | Tx seg _ => negb (DATALEN seg =? 0) && haveSeq r &&
                negb (LessThan (sndNXT r) (u32 (SEQ seg + LEN seg)))
  end.

(** Karn's algorithm: a retransmitted segment, and any timeout, discards the
    running round-trip measurement, so that no later acknowledgement is taken
    for a sample until new data is timed. *)
Theorem rto_karn r e (H : retransmits r e = true) : timing (run_event r e) = false.
Proof.
  destruct e as [seg now|now una|seg now]; [done| |]; cbn in *.
  - unfold preTx in *.
    destruct (negb (running r) || (now <? deadline r) || (sndUNA r =? sndNXT r)); [done|].
    cbn. destruct (backoff r <? backoffMax); done.
  - apply andb_true_iff in H as [H H3]. apply andb_true_iff in H as [H1 H2].
    unfold postTx. apply negb_true_iff in H1. rewrite H1, H2. cbn [negb]. by rewrite H3.
Qed.

Lemma rto_karn_witness :
  let r := mkTimer 0 0 rtoInitial false true 100 110 true 110 7 true 900 0 0 in
  timing (run_event r (Tx {| SEQ := 100; ACK := 0; DATALEN := 10; WND := 0; Flags := FlagACK |} 50)) = false.
Proof. intros r. apply rto_karn. reflexivity. Defined.

(** a duplicate acknowledgement restarts the retransmission timer: [postRx]
    moves the deadline on every acknowledgement while data is outstanding, also
    on one that acknowledges nothing new, so a stream of duplicates postpones
    the timeout (RFC 6298 restarts the timer only for new data). *)
Theorem rto_dupack_restarts_timer seg now r
  (Hs : haveSeq r = true) (Ho : sndUNA r <> sndNXT r) (Hf : HasAny (Flags seg) FlagACK = true)
  (Hd : ACK seg = sndUNA r) (Ht : timing r = false) :
  postRx seg now r = with_timer true (now + CurrentRTO r) r.
Proof.
  unfold postRx. rewrite Hs, Hf, Ht, Hd. cbn [negb orb andb].
  rewrite LessThan_dist, dist_self. cbn [Z.ltb Z.compare andb].
  by replace (sndUNA r =? sndNXT r) with false by (symmetry; by apply Z.eqb_neq).
Qed.

Lemma rto_dupack_restarts_timer_witness :
  let r := mkTimer 0 0 rtoInitial false true 100 110 false 0 0 true 900 0 0 in
  deadline (postRx {| SEQ := 1; ACK := 100; DATALEN := 0; WND := 0; Flags := FlagACK |} 800 r)
  = 800 + rtoInitial.
Proof.
  intros r. rewrite rto_dupack_restarts_timer; [reflexivity|done|done|done|done|done].
Defined.

End Rto.
