(* ===== verification/Bytes.v ===== *)
(** * Network byte order (Go's [encoding/binary], as the frames of [src/] use it)

    A buffer is a list of bytes ([Z] in [0 .. 255]). Reads and writes are checked
    the way the Go run time checks them: an access out of range panics. *)
From S2P Require Import Prelude.

Module Bytes.

Definition is_bytes (b : list Z) : Prop := Forall is_u8 b.

#[global] Instance is_bytes_dec b : Decision (is_bytes b).
Proof. unfold is_bytes. apply _. Defined.

(** [b[i]] *)
Definition at_ (b : list Z) (i : Z) : outcome Z :=
  match zget b i with Some x => Ret x | None => Panic end.

(** [b] with the bytes [vs] written from [i] on. *)
Definition put (b : list Z) (i : Z) (vs : list Z) : list Z :=
  ztake i b ++ vs ++ zdrop (i + zlen vs) b.

Definition put_checked (b : list Z) (i : Z) (vs : list Z) : outcome (list Z) :=
  assert_or_panic ((0 <=? i) && (i + zlen vs <=? zlen b)) (Ret (put b i vs)).

(** [binary.BigEndian.Uint16(b[i:])], [Uint32], and their [Put] versions. *)
Definition Uint16 (b : list Z) (i : Z) : outcome Z :=
  x ← at_ b i; y ← at_ b (i + 1); Ret (Z.lor y (Z.shiftl x 8)).

Definition Uint32 (b : list Z) (i : Z) : outcome Z :=
  x ← Uint16 b i; y ← Uint16 b (i + 2); Ret (Z.lor y (Z.shiftl x 16)).

Definition bytes16 (v : Z) : list Z := [u8 (Z.shiftr v 8); u8 v].
Definition bytes32 (v : Z) : list Z :=
  [u8 (Z.shiftr v 24); u8 (Z.shiftr v 16); u8 (Z.shiftr v 8); u8 v].

Definition PutUint16 (b : list Z) (i v : Z) : outcome (list Z) := put_checked b i (bytes16 v).
Definition PutUint32 (b : list Z) (i v : Z) : outcome (list Z) := put_checked b i (bytes32 v).

(** The value of a buffer, most significant byte first. *)
Definition be16 (b : list Z) (i : Z) : Z :=
  match zget b i, zget b (i + 1) with Some x, Some y => x * 256 + y | _, _ => 0 end.
Definition be32 (b : list Z) (i : Z) : Z := be16 b i * 65536 + be16 b (i + 2).

(** ** Lemmas *)

Lemma lor_shiftl_add a b n : 0 <= n -> 0 <= a < 2 ^ n -> Z.lor a (Z.shiftl b n) = a + b * 2 ^ n.
Proof.
  intros Hn Ha. assert (Z.land a (Z.shiftl b n) = 0) as Hl.
  { apply Z.bits_inj'. intros k Hk. rewrite Z.land_spec, Z.bits_0.
    destruct (decide (k < n)).
    - rewrite (Z.shiftl_spec_low b n k) by lia. apply andb_false_r.
    - rewrite (proj1 (Z.bounded_iff_bits_nonneg n a Hn (proj1 Ha)) (proj2 Ha)) by lia. done. }
  rewrite <- Z.lxor_lor, <- Z.add_nocarry_lxor, Z.shiftl_mul_pow2 by done. done.
Qed.

Lemma is_bytes_zget b i x : is_bytes b -> zget b i = Some x -> is_u8 x.
Proof.
  unfold zget. intros Hb. bool_cases; [done|]. intros E. by eapply Forall_lookup in E.
Qed.
Lemma is_bytes_app b c : is_bytes b -> is_bytes c -> is_bytes (b ++ c).
Proof. intros. by apply Forall_app. Qed.
Lemma is_bytes_ztake n b : is_bytes b -> is_bytes (ztake n b).
Proof. apply Forall_take. Qed.
Lemma is_bytes_zdrop n b : is_bytes b -> is_bytes (zdrop n b).
Proof. apply Forall_drop. Qed.
Lemma is_bytes_put b i vs : is_bytes b -> is_bytes vs -> is_bytes (put b i vs).
Proof. intros. unfold put. auto using is_bytes_app, is_bytes_ztake, is_bytes_zdrop. Qed.
Lemma is_bytes_16 v : is_bytes (bytes16 v).
Proof. unfold bytes16. repeat constructor; wrap_lia. Qed.
Lemma is_bytes_32 v : is_bytes (bytes32 v).
Proof. unfold bytes32. repeat constructor; wrap_lia. Qed.

Lemma at_ok b i : 0 <= i < zlen b -> exists x, zget b i = Some x /\ at_ b i = Ret x.
Proof. intros [x H]%zget_some. exists x. unfold at_. by rewrite H. Qed.

Lemma be16_bound b i : is_bytes b -> is_u16 (be16 b i).
Proof.
  intros Hb. unfold be16. destruct (zget b i) eqn:E; [|wrap_lia].
  destruct (zget b (i + 1)) eqn:E'; [|wrap_lia].
  apply is_bytes_zget in E, E'; [|done..]. wrap_lia.
Qed.
Lemma be32_bound b i : is_bytes b -> is_u32 (be32 b i).
Proof.
  intros Hb. unfold be32. pose proof (be16_bound b i Hb). pose proof (be16_bound b (i + 2) Hb).
  wrap_lia.
Qed.

Lemma Uint16_ok b i : is_bytes b -> 0 <= i -> i + 2 <= zlen b -> Uint16 b i = Ret (be16 b i).
Proof.
  intros Hb Hi Hl. unfold Uint16, be16.
  destruct (at_ok b i) as (x & Ex & ->); [lia|]. destruct (at_ok b (i + 1)) as (y & Ey & ->); [lia|].
  rewrite Ex, Ey. cbn. apply is_bytes_zget in Ex, Ey; [|done..].
  rewrite lor_shiftl_add by wrap_lia. f_equal. lia.
Qed.
Lemma Uint32_ok b i : is_bytes b -> 0 <= i -> i + 4 <= zlen b -> Uint32 b i = Ret (be32 b i).
Proof.
  intros Hb Hi Hl. unfold Uint32. rewrite !Uint16_ok by (done || lia). cbn. unfold be32.
  pose proof (be16_bound b (i + 2) Hb). rewrite lor_shiftl_add by wrap_lia. f_equal. lia.
Qed.

Lemma zlen_put b i vs : 0 <= i -> i + zlen vs <= zlen b -> zlen (put b i vs) = zlen b.
Proof.
  intros. pose proof (zlen_nonneg vs). unfold put. rewrite !zlen_app, zlen_ztake, zlen_zdrop; lia.
Qed.
Lemma zget_put_in b i vs k :
  0 <= i -> i + zlen vs <= zlen b -> i <= k < i + zlen vs -> zget (put b i vs) k = zget vs (k - i).
Proof.
  intros. unfold put. assert (zlen (ztake i b) = i) as E by (apply zlen_ztake; lia).
  rewrite zget_app_r, zget_app_l, E by lia. done.
Qed.
Lemma zget_put_out b i vs k :
  0 <= i -> i + zlen vs <= zlen b -> k < i \/ i + zlen vs <= k -> zget (put b i vs) k = zget b k.
Proof.
  intros Hi Hl Hk. pose proof (zlen_nonneg vs). unfold put.
  assert (zlen (ztake i b) = i) as E by (apply zlen_ztake; lia).
  destruct Hk.
  - by rewrite zget_app_l, zget_ztake by lia.
  - rewrite zget_app_r, zget_app_r, zget_zdrop by lia. f_equal. lia.
Qed.

Lemma be16_put_out b i vs k :
  0 <= i -> i + zlen vs <= zlen b -> k + 2 <= i \/ i + zlen vs <= k ->
  be16 (put b i vs) k = be16 b k.
Proof. intros. unfold be16. by rewrite !zget_put_out by lia. Qed.
Lemma be32_put_out b i vs k :
  0 <= i -> i + zlen vs <= zlen b -> k + 4 <= i \/ i + zlen vs <= k ->
  be32 (put b i vs) k = be32 b k.
Proof. intros. unfold be32. by rewrite !be16_put_out by lia. Qed.
Lemma be16_put b i v : 0 <= i -> i + 2 <= zlen b -> is_u16 v -> be16 (put b i (bytes16 v)) i = v.
Proof.
  intros Hi Hl Hv. unfold be16. rewrite !zget_put_in by (unfold bytes16, zlen in *; cbn; lia).
  replace (i - i) with 0 by lia. replace (i + 1 - i) with 1 by lia.
  change (u8 (Z.shiftr v 8) * 256 + u8 v = v).
  rewrite Z.shiftr_div_pow2 by lia. wrap_lia.
Qed.
Lemma be32_put b i v : 0 <= i -> i + 4 <= zlen b -> is_u32 v -> be32 (put b i (bytes32 v)) i = v.
Proof.
  intros Hi Hl Hv. unfold be32, be16. rewrite !zget_put_in by (unfold bytes32, zlen in *; cbn; lia).
  replace (i - i) with 0 by lia. replace (i + 1 - i) with 1 by lia.
  replace (i + 2 - i) with 2 by lia. replace (i + 2 + 1 - i) with 3 by lia.
  change ((u8 (Z.shiftr v 24) * 256 + u8 (Z.shiftr v 16)) * 65536
          + (u8 (Z.shiftr v 8) * 256 + u8 v) = v).
  rewrite !Z.shiftr_div_pow2 by lia. wrap_lia.
Qed.

Lemma put_checked_ok b i vs : 0 <= i -> i + zlen vs <= zlen b -> put_checked b i vs = Ret (put b i vs).
Proof. intros. unfold put_checked, assert_or_panic. bool_cases; lia || done. Qed.
Lemma PutUint16_ok b i v :
  0 <= i -> i + 2 <= zlen b -> PutUint16 b i v = Ret (put b i (bytes16 v)).
Proof.
  intros. unfold PutUint16, put_checked, assert_or_panic.
  change (zlen (bytes16 v)) with 2. bool_cases; lia || done.
Qed.
Lemma PutUint32_ok b i v :
  0 <= i -> i + 4 <= zlen b -> PutUint32 b i v = Ret (put b i (bytes32 v)).
Proof.
  intros. unfold PutUint32, put_checked, assert_or_panic.
  change (zlen (bytes32 v)) with 4. bool_cases; lia || done.
Qed.

Lemma be16_ztake b n i : i + 2 <= n -> be16 (ztake n b) i = be16 b i.
Proof. intros. unfold be16. by rewrite !zget_ztake by lia. Qed.
Lemma be32_ztake b n i : i + 4 <= n -> be32 (ztake n b) i = be32 b i.
Proof. intros. unfold be32. by rewrite !be16_ztake by lia. Qed.

Lemma zlen_put16 b i v : 0 <= i -> i + 2 <= zlen b -> zlen (put b i (bytes16 v)) = zlen b.
Proof. intros. by apply zlen_put. Qed.
Lemma zlen_put32 b i v : 0 <= i -> i + 4 <= zlen b -> zlen (put b i (bytes32 v)) = zlen b.
Proof. intros. by apply zlen_put. Qed.

(** Lengths of buffers with fields written into them. *)
Ltac lit_len :=
  repeat first [ progress change (zlen (bytes16 _)) with 2 | progress change (zlen (bytes32 _)) with 4
               | progress change (zlen [_]) with 1 ].
Ltac zlen_puts b :=
  lazymatch b with
  | put ?b' ?i ?vs =>
      zlen_puts b';
      assert (zlen (put b' i vs) = zlen b') by (apply zlen_put; lit_len; lia)
  | _ => idtac
  end.
Ltac put_len :=
  repeat match goal with
  | |- context [zlen (put ?b ?i ?vs)] =>
      lazymatch goal with
      | H : zlen (put b i vs) = _ |- _ => fail
      | _ => zlen_puts (put b i vs)
      end
  end; lit_len; lia.

(** Fields that do not overlap are independent. *)
Ltac put_out :=
  repeat first [ rewrite be16_put_out by put_len | rewrite be32_put_out by put_len ].

Lemma is_bytes_slice b i j : is_bytes b -> is_bytes (slice b i j).
Proof. intros. unfold slice. by apply is_bytes_ztake, is_bytes_zdrop. Qed.
Lemma slice_put_in b i vs :
  0 <= i -> i + zlen vs <= zlen b -> slice (put b i vs) i (i + zlen vs) = vs.
Proof.
  intros Hi Hl. pose proof (zlen_nonneg vs). apply zlist_eq; rewrite zlen_slice by (rewrite ?zlen_put; lia); [lia|].
  intros k Hk. rewrite zget_slice, zget_put_in by lia. f_equal. lia.
Qed.
Lemma slice_put_out b i vs a c :
  0 <= i -> i + zlen vs <= zlen b -> 0 <= a <= c -> c <= zlen b -> c <= i \/ i + zlen vs <= a ->
  slice (put b i vs) a c = slice b a c.
Proof.
  intros Hi Hl Ha Hc Hd. apply zlist_eq; rewrite !zlen_slice by (rewrite ?zlen_put; lia); [done|].
  intros k Hk. rewrite !zget_slice, zget_put_out by lia. done.
Qed.

Lemma slice_behind (l k : list Z) off n : 0 <= n <= zlen k -> off = zlen l -> slice (l ++ k) off (off + n) = ztake n k.
Proof.
  intros Hn ->. pose proof (zlen_nonneg l). apply zlist_eq; rewrite zlen_slice, ?zlen_ztake by (rewrite ?zlen_app; lia); [lia|].
  intros i Hi. rewrite zget_slice, zget_ztake, zget_app_r by lia. f_equal. lia.
Qed.

Lemma put_ztake b i vs n : 0 <= i -> i + zlen vs <= n -> n <= zlen b ->
  put (ztake n b) i vs = ztake n (put b i vs).
Proof.
  intros Hi Hn Hl. pose proof (zlen_nonneg vs). assert (zlen (ztake n b) = n) as E by (apply zlen_ztake; lia).
  apply zlist_eq; rewrite zlen_put by lia; [rewrite E, zlen_ztake; rewrite ?zlen_put; lia|].
  intros k Hk. rewrite zget_ztake by lia. destruct (decide (i <= k < i + zlen vs)).
  - by rewrite !zget_put_in by lia.
  - rewrite !zget_put_out by lia. by rewrite zget_ztake by lia.
Qed.

Create HintDb bytes.
#[export] Hint Resolve is_bytes_app is_bytes_slice is_bytes_ztake is_bytes_zdrop is_bytes_put is_bytes_16
  is_bytes_32 be16_bound be32_bound : bytes.
End Bytes.
