(* ===== verification/Validation.v ===== *)
(** * The error accumulator of frame validation ([src/validation.go])

    [Validator] collects errors; unless [validateAllowMultiErrors] is set only
    the first one is kept. [AddBitPosErr], which the modelled frames do not
    call, is left out. *)
From S2P Require Import Prelude Errors.

Module Validation.

Definition validateReserved : Z := 1.
Definition ValidateEvilBit : Z := 2.
Definition validateAllowMultiErrors : Z := 4.

Definition has (vf v : Z) : bool := Z.land vf v =? v.

Record Validator := mkValidator {
  accum : list error;
  vflags : Z
}.

Definition ResetErr (v : Validator) : Validator := mkValidator [] (vflags v).

Definition HasError (v : Validator) : outcome bool :=
  if has (vflags v) validateReserved then Panic
  else Ret (negb (zlen (accum v) =? 0)).

(** The accumulated error, if any; several are joined. *)
Definition ErrPop (v : Validator) : Validator * option error :=
  match accum v with
  | [] => (v, None)
  | [e] => (ResetErr v, Some e)
  | _ => (ResetErr v, Some errJoined)
  end.

(** [AddError(err)] for a non-nil [err]. *)
Definition AddError (err : error) (v : Validator) : Validator :=
  if negb (zlen (accum v) =? 0) && negb (has (vflags v) validateAllowMultiErrors) then v
  else mkValidator (accum v ++ [err]) (vflags v).

(** ** Lemmas *)

Lemma AddError_not_nil err v : accum (AddError err v) <> [].
Proof.
  unfold AddError. destruct (accum v) as [|e l] eqn:E; cbn; [done|].
  destruct (_ && _); cbn; [by rewrite E|done].
Qed.

Lemma ErrPop_none v : snd (ErrPop v) = None <-> accum v = [].
Proof. unfold ErrPop. by destruct (accum v) as [|e [|? ?]]. Qed.

(** Popping leaves an accumulator that is empty again. *)
Lemma ErrPop_empties v : accum (fst (ErrPop v)) = [] /\ vflags (fst (ErrPop v)) = vflags v.
Proof. unfold ErrPop. by destruct (accum v) as [|e [|? ?]] eqn:E. Qed.

Lemma AddError_first err v :
  accum v = [] -> ErrPop (AddError err v) = (mkValidator [] (vflags v), Some err).
Proof. intros E. unfold AddError. rewrite E. done. Qed.

(** Several errors in a row. *)
Definition add_errors (es : list error) (v : Validator) : Validator :=
  fold_left (fun v e => AddError e v) es v.

Lemma add_errors_nil es v : accum (add_errors es v) = [] -> es = [].
Proof.
  destruct es as [|e es]; [done|]. cbn. generalize (AddError_not_nil e v).
  generalize (AddError e v). induction es as [|e' es IH]; intros v' Hv' H; cbn in H; [done|].
  by eapply IH in H; [|apply AddError_not_nil].
Qed.

Lemma vflags_add_errors es v : vflags (add_errors es v) = vflags v.
Proof.
  revert v. induction es as [|e es IH]; intros v; [done|]. cbn. rewrite IH. unfold AddError. by case_match.
Qed.
Lemma add_errors_app es es' v : add_errors (es ++ es') v = add_errors es' (add_errors es v).
Proof. apply fold_left_app. Qed.

(** From an empty accumulator nothing is popped exactly when nothing was added. *)
Lemma ErrPop_add_errors es vf :
  snd (ErrPop (add_errors es (mkValidator [] vf))) = None <-> es = [].
Proof. rewrite ErrPop_none. split; [by apply add_errors_nil|by intros ->]. Qed.
End Validation.
