(* ===== verification/Checksum.v ===== *)
(** * The Internet checksum ([src/crc.go])

    [CRC791] is its running 32-bit sum. The sum wraps at 32 bits as the source's
    does; the theorems show that the 16-bit ones' complement arithmetic is
    right as long as it does not, and that packets of network size never make it. *)
From S2P Require Import Prelude Errors Bytes.

Module Checksum.
Import Bytes.

Record CRC791 := mkCRC { sum : Z }.

Definition sum16 (sum : Z) : Z :=
  let sum := u32 (Z.land sum 65535 + Z.shiftr sum 16) in
  u16 (Z.lnot (u32 (sum + Z.shiftr sum 16))).

(** A read past the end of a buffer of odd length panics. *)
Fixpoint sumWriteEven (sum : Z) (buff : list Z) : outcome Z :=
  match buff with
  | [] => Ret sum
  | [_] => Panic
  | x :: y :: tl => sumWriteEven (u32 (sum + Z.lor y (Z.shiftl x 8))) tl
  end.

Definition WriteEven (buff : list Z) (c : CRC791) : outcome CRC791 :=
  s ← sumWriteEven (sum c) buff; Ret (mkCRC s).
Definition AddUint16 (value : Z) (c : CRC791) : CRC791 := mkCRC (u32 (sum c + value)).
Definition AddUint32 (value : Z) (c : CRC791) : CRC791 :=
  AddUint16 (u16 value) (AddUint16 (u16 (Z.shiftr value 16)) c).
Definition Sum16 (c : CRC791) : Z := sum16 (sum c).

Definition PayloadSum16 (buff : list Z) (c : CRC791) : outcome Z :=
  let odd := Z.land (zlen buff) 1 in
  s ← sumWriteEven (sum c) (ztake (zlen buff - odd) buff);
  if 0 <? odd then
    x ← at_ buff (zlen buff - 1);
    Ret (sum16 (u32 (s + u32 (Z.shiftl x 8))))
  else Ret (sum16 s).

Definition Reset (c : CRC791) : CRC791 := mkCRC 0.

Definition NeverZeroSum (sum16 : Z) : Z := if sum16 =? 0 then 65535 else sum16.

(** ** The reference: the sum of the 16-bit words, the last one zero padded *)

Fixpoint words_sum (b : list Z) : Z :=
  match b with
  | [] => 0
  | [x] => x * 256
  | x :: y :: tl => x * 256 + y + words_sum tl
  end.

(** ** Lemmas *)

Lemma pair_induction (P : list Z -> Prop) :
  P [] -> (forall x, P [x]) -> (forall x y l, P l -> P (x :: y :: l)) -> forall l, P l.
Proof.
  intros H0 H1 H2. fix IH 1. intros [|x [|y l]]; [done|done|]. apply H2, IH.
Qed.

Lemma words_sum_bound b : is_bytes b -> 0 <= words_sum b /\ 2 * words_sum b <= 65535 * (zlen b + 1).
Proof.
  induction b as [|x|x y l IH] using pair_induction; intros Hb.
  - unfold zlen. cbn [words_sum length]. lia.
  - inversion Hb as [|? ? Hx _]; subst. unfold zlen. cbn [words_sum length].
    unfold is_u8 in Hx. lia.
  - inversion Hb as [|? ? Hx Hb']; subst. inversion Hb' as [|? ? Hy Hl]; subst.
    specialize (IH Hl). cbn [words_sum]. rewrite !zlen_cons. unfold is_u8 in *. lia.
Qed.

Lemma words_sum_app a b : Z.even (zlen a) = true -> words_sum (a ++ b) = words_sum a + words_sum b.
Proof.
  induction a as [|x|x y l IH] using pair_induction; intros He; [done|done|].
  rewrite !zlen_cons in He. cbn [app words_sum]. rewrite IH; [lia|].
  rewrite <- He. replace (1 + (1 + zlen l)) with (zlen l + 2 * 1) by lia.
  by rewrite Z.even_add_mul_2.
Qed.

Lemma sumWriteEven_ok s b :
  is_bytes b -> Z.even (zlen b) = true -> sumWriteEven (u32 s) b = Ret (u32 (s + words_sum b)).
Proof.
  revert s. induction b as [|x|x y l IH] using pair_induction; intros s Hb He.
  - cbn [sumWriteEven words_sum]. f_equal. f_equal. lia.
  - done.
  - inversion Hb as [|? ? Hx Hb']; subst. inversion Hb' as [|? ? Hy Hl]; subst.
    cbn [sumWriteEven words_sum]. rewrite lor_shiftl_add by (unfold is_u8 in *; lia).
    replace (u32 (u32 s + (y + x * 2 ^ 8))) with (u32 (s + (y + x * 2 ^ 8))) by wrap_lia.
    rewrite IH; [f_equal; f_equal; lia|done|]. rewrite !zlen_cons in He.
    rewrite <- He. replace (1 + (1 + zlen l)) with (zlen l + 2 * 1) by lia.
    by rewrite Z.even_add_mul_2.
Qed.

Lemma land_1_odd n : Z.land n 1 = Z.b2z (Z.odd n).
Proof.
  change 1 with (Z.ones 1) at 1. rewrite Z.land_ones by lia. change (2 ^ 1) with 2. apply Zmod_odd.
Qed.

(** The running sum and the payload give the sum of all words, at 32 bits. *)
Lemma PayloadSum16_ok s b :
  is_bytes b -> PayloadSum16 b (mkCRC (u32 s)) = Ret (sum16 (u32 (s + words_sum b))).
Proof.
  intros Hb. unfold PayloadSum16. cbn [sum]. rewrite land_1_odd.
  destruct (Z.odd (zlen b)) eqn:Ho; cbn [Z.b2z].
  - assert (0 < zlen b) as Hpos.
    { pose proof (zlen_nonneg b). destruct (decide (zlen b = 0)) as [E|]; [by rewrite E in Ho|lia]. }
    destruct (at_ok b (zlen b - 1)) as (x & Ex & Hat); [lia|].
    assert (b = ztake (zlen b - 1) b ++ [x]) as Hsplit.
    { rewrite <- (ztake_zdrop (zlen b - 1) b) at 1. f_equal.
      apply zlist_eq; rewrite zlen_zdrop by lia; [change (zlen [x]) with 1; lia|].
      intros i Hi. rewrite zget_zdrop by lia. replace i with 0 by lia.
      by rewrite Z.add_0_r, Ex. }
    assert (Z.even (zlen (ztake (zlen b - 1) b)) = true) as He.
    { rewrite zlen_ztake by lia. rewrite Z.even_sub, <- Z.negb_odd, Ho. done. }
    assert (words_sum b = words_sum (ztake (zlen b - 1) b) + x * 256) as ->.
    { rewrite Hsplit at 1. by rewrite words_sum_app. }
    rewrite sumWriteEven_ok by auto with bytes. cbn [mbind outcome_bind].
    change (0 <? 1) with true. cbv iota. rewrite Hat. cbn [mbind outcome_bind]. f_equal. f_equal.
    apply is_bytes_zget in Ex; [|done]. rewrite Z.shiftl_mul_pow2 by lia. wrap_lia.
  - rewrite Z.sub_0_r, ztake_ge by lia.
    rewrite sumWriteEven_ok by (done || by rewrite <- Z.negb_odd, Ho). done.
Qed.

Definition fold16 (s : Z) : Z := if s =? 0 then 0 else 1 + (s - 1) mod 65535.

(** Folding the carries reduces modulo [2^16 - 1], with representatives [1 .. 65535]. *)
Lemma sum16_fold s : is_u32 s -> sum16 s = 65535 - fold16 s.
Proof.
  intros Hs. unfold sum16, fold16. cbv zeta. change 65535 with (Z.ones 16) at 1 2.
  rewrite Z.land_ones, !Z.shiftr_div_pow2 by lia. unfold Z.lnot, Z.pred, is_u32 in *.
  pose proof (Z.div_mod s (2 ^ 16) ltac:(lia)) as Hqr.
  pose proof (Z.mod_pos_bound s (2 ^ 16) ltac:(lia)) as Hr.
  assert (0 <= s / 2 ^ 16 < 2 ^ 16) as Hq by (Z.to_euclidean_division_equations; lia).
  set (q := s / 2 ^ 16) in *. set (r := s mod 2 ^ 16) in *. clearbody q r. subst s.
  assert (u32 (r + q) = r + q) as -> by wrap_lia.
  destruct (Z.ltb_spec (r + q) (2 ^ 16)).
  - rewrite (Z.div_small (r + q)) by lia. destruct (Z.eqb_spec (2 ^ 16 * q + r) 0); [wrap_lia|].
    replace (2 ^ 16 * q + r - 1) with ((r + q - 1) + q * 65535) by lia.
    rewrite Z_mod_plus_full, Z.mod_small by lia. wrap_lia.
  - replace ((r + q) / 2 ^ 16) with 1 by (Z.to_euclidean_division_equations; lia).
    destruct (Z.eqb_spec (2 ^ 16 * q + r) 0); [lia|].
    replace (2 ^ 16 * q + r - 1) with ((r + q - 65536) + (q + 1) * 65535) by lia.
    rewrite Z_mod_plus_full, Z.mod_small by lia. wrap_lia.
Qed.

Lemma sum16_zero s : is_u32 s -> sum16 s = 0 <-> 0 < s /\ s mod 65535 = 0.
Proof.
  intros Hs. rewrite sum16_fold by done. unfold fold16. bool_cases; [wrap_lia|].
  unfold is_u32 in Hs. Z.to_euclidean_division_equations. lia.
Qed.

Lemma sum16_complement s : is_u32 (s + sum16 s) -> is_u32 s -> sum16 (s + sum16 s) = 0.
Proof.
  intros Hs Hs'. apply sum16_zero; [done|]. rewrite (sum16_fold s Hs') in Hs |- *. unfold fold16 in *.
  unfold is_u32 in *. destruct (Z.eqb_spec s 0) as [E|]; [rewrite E; done|].
  Z.to_euclidean_division_equations. lia.
Qed.

Lemma words_sum_put b i v :
  0 <= i -> Z.even i = true -> i + 2 <= zlen b -> be16 b i = 0 -> is_bytes b -> is_u16 v ->
  words_sum (put b i (bytes16 v)) = words_sum b + v.
Proof.
  intros Hi He Hl H0 Hb Hv.
  destruct (at_ok b i) as (x & Ex & _); [lia|]. destruct (at_ok b (i + 1)) as (y & Ey & _); [lia|].
  assert (x = 0 /\ y = 0) as [-> ->].
  { unfold be16 in H0. rewrite Ex, Ey in H0. apply is_bytes_zget in Ex, Ey; [|done..].
    unfold is_u8 in *. lia. }
  assert (b = ztake i b ++ [0; 0] ++ zdrop (i + 2) b) as Hs.
  { change (b = put b i [0; 0]). apply zlist_eq; [by rewrite zlen_put|]. intros k Hk.
    destruct (decide (k = i)) as [->|]; [|destruct (decide (k = i + 1)) as [->|]].
    - rewrite zget_put_in; change (zlen [0; 0]) with 2; [|lia..]. by rewrite Z.sub_diag, Ex.
    - rewrite zget_put_in; change (zlen [0; 0]) with 2; [|lia..].
      replace (i + 1 - i) with 1 by lia. by rewrite Ey.
    - rewrite zget_put_out; change (zlen [0; 0]) with 2; lia || done. }
  assert (Z.even (zlen (ztake i b)) = true) as He' by (rewrite zlen_ztake by lia; done).
  unfold put. change (zlen (bytes16 v)) with 2. rewrite Hs at 3.
  rewrite !words_sum_app by done. cbn [app bytes16 words_sum]. unfold bytes16. cbn [app words_sum].
  rewrite Z.shiftr_div_pow2 by lia. wrap_lia.
Qed.

(** A packet with its checksum filled in verifies. For any packet of at most
    65535 bytes whose checksum field (at an even offset) is zero, and any sum of
    pseudo-header words, the checksum of the packet with that checksum stored in
    the field is zero, also when [NeverZeroSum] replaced a zero checksum
    (UDP); no carry is lost on the way. *)
Lemma checksum_verifies b i s
  (Hb : is_bytes b) (Hl : zlen b <= 65535) (Hi : 0 <= i) (He : Z.even i = true)
  (Hf : i + 2 <= zlen b) (H0 : be16 b i = 0) (Hs : 0 <= s < 2 ^ 30) :
  exists crc, PayloadSum16 b (mkCRC s) = Ret crc /\ is_u16 crc /\
    PayloadSum16 (put b i (bytes16 crc)) (mkCRC s) = Ret 0 /\
    PayloadSum16 (put b i (bytes16 (NeverZeroSum crc))) (mkCRC s) = Ret 0.
Proof.
  pose proof (words_sum_bound b Hb) as Hw.
  assert (s + words_sum b < 2 ^ 32 - 2 ^ 17) as Hlt
    by lia.
  assert (u32 s = s) as Hus by wrap_lia.
  assert (u32 (s + words_sum b) = s + words_sum b) as Huw by wrap_lia.
  assert (is_u32 (s + words_sum b)) as Hu by wrap_lia.
  exists (sum16 (s + words_sum b)).
  assert (is_u16 (sum16 (s + words_sum b))) as Hc by (unfold sum16; wrap_lia).
  split; [rewrite <- Hus at 1; rewrite PayloadSum16_ok, Huw by done; done|]. split; [done|].
  assert (is_u32 (s + words_sum b + sum16 (s + words_sum b))) as Hu' by wrap_lia.
  pose proof (sum16_complement _ Hu' Hu) as Hz.
  assert (forall c, is_u16 c -> sum16 (s + words_sum b + c) = 0 ->
    PayloadSum16 (put b i (bytes16 c)) (mkCRC s) = Ret 0) as Hput.
  { intros c Hc' Hz'. rewrite <- Hus at 1. rewrite PayloadSum16_ok by auto with bytes.
    rewrite words_sum_put by done. f_equal. rewrite <- Hz'. f_equal. wrap_lia. }
  split; [by apply Hput|]. apply Hput.
  { unfold NeverZeroSum. case_match; [by vm_compute|done]. }
  unfold NeverZeroSum. destruct (Z.eqb_spec (sum16 (s + words_sum b)) 0) as [E|E]; [|done].
  apply sum16_zero in E as [E1 E2]; [|done]. apply sum16_zero; [wrap_lia|].
  split; [lia|]. replace 65535 with (1 * 65535) at 1 by lia. by rewrite Z_mod_plus_full.
Qed.

(** error detection. Two packets of the same length whose words have sums
    that differ modulo 65535, in particular any two that differ in a single
    16-bit word other than by swapping 0x0000 and 0xffff, have different
    checksums; so a verifying packet with one word corrupted does not verify. *)
Theorem checksum_detects a x y c s
  (Ha : is_bytes a) (Hc : is_bytes c) (He : Z.even (zlen a) = true)
  (Hl : zlen a + zlen c <= 65533) (Hs : 0 <= s < 2 ^ 30)
  (Hx : is_u16 x) (Hy : is_u16 y) (Hd : x mod 65535 <> y mod 65535)
  (Hv : PayloadSum16 (a ++ bytes16 x ++ c) (mkCRC s) = Ret 0) :
  exists z, PayloadSum16 (a ++ bytes16 y ++ c) (mkCRC s) = Ret z /\ z <> 0.
Proof.
  pose proof (words_sum_bound a Ha). pose proof (words_sum_bound c Hc).
  pose proof (zlen_nonneg a). pose proof (zlen_nonneg c).
  assert (forall w, is_u16 w -> words_sum (a ++ bytes16 w ++ c) = words_sum a + w + words_sum c) as HW.
  { intros w Hw. rewrite !words_sum_app by done. unfold bytes16. cbn [words_sum].
    rewrite Z.shiftr_div_pow2 by lia. wrap_lia. }
  assert (u32 s = s) as Hus by wrap_lia. rewrite <- Hus in Hv. rewrite <- Hus.
  rewrite PayloadSum16_ok in Hv by auto with bytes. rewrite PayloadSum16_ok by auto with bytes.
  rewrite HW in Hv by done. rewrite HW by done.
  assert (words_sum a + words_sum c < 2 ^ 32 - 2 ^ 31) as Hb
    by lia.
  set (T := words_sum a + words_sum c) in *.
  replace (s + (words_sum a + x + words_sum c)) with (s + T + x) in Hv by lia.
  replace (s + (words_sum a + y + words_sum c)) with (s + T + y) by lia.
  assert (u32 (s + T + x) = s + T + x) as E1 by wrap_lia.
  assert (u32 (s + T + y) = s + T + y) as E2 by wrap_lia.
  rewrite E1 in Hv. rewrite E2. exists (sum16 (s + T + y)). split; [done|].
  intros Hz. apply sum16_zero in Hz as [_ Hz]; [|wrap_lia]. injection Hv as Hv.
  apply sum16_zero in Hv as [_ Hv]; [|wrap_lia]. apply Hd.
  clear -Hz Hv. Z.to_euclidean_division_equations. lia.
Qed.

Lemma checksum_detects_witness :
  exists z, PayloadSum16 ([1; 2] ++ bytes16 4 ++ []) (mkCRC 0) = Ret z /\ z <> 0.
Proof.
  apply (checksum_detects [1; 2] 65277 4 [] 0); by_compute.
Defined.

End Checksum.
