(* ===== verification/Frame.v ===== *)
(** * The TCP frame ([src/tcp/frame.go])

    [Frame] is the buffer it was created with; setters return the new buffer.
    Every field access is checked against the length of the buffer. *)
From S2P Require Import Prelude Errors SeqNum Segment Bytes Validation.

Module Frame.
Import Segment Bytes Validation.

Definition sizeHeaderTCP : Z := 20.

Record Frame := mkFrame { buf : list Z }.

Definition NewFrame (b : list Z) : option Frame * option error :=
  if zlen b <? sizeHeaderTCP then (None, Some ErrTruncatedFrame)
  else (Some (mkFrame b), None).

Definition RawData (tfrm : Frame) : list Z := buf tfrm.

(** A setter of the source: the frame after the write. *)
Definition set16 (i v : Z) (tfrm : Frame) : outcome Frame :=
  b ← PutUint16 (buf tfrm) i v; Ret (mkFrame b).
Definition set32 (i v : Z) (tfrm : Frame) : outcome Frame :=
  b ← PutUint32 (buf tfrm) i v; Ret (mkFrame b).

Definition SourcePort (tfrm : Frame) : outcome Z := Uint16 (buf tfrm) 0.
Definition SetSourcePort (src : Z) : Frame -> outcome Frame := set16 0 src.
Definition DestinationPort (tfrm : Frame) : outcome Z := Uint16 (buf tfrm) 2.
Definition SetDestinationPort (dst : Z) : Frame -> outcome Frame := set16 2 dst.
Definition Seq (tfrm : Frame) : outcome Z := Uint32 (buf tfrm) 4.
Definition SetSeq (v : Z) : Frame -> outcome Frame := set32 4 v.
Definition Ack (tfrm : Frame) : outcome Z := Uint32 (buf tfrm) 8.
Definition SetAck (v : Z) : Frame -> outcome Frame := set32 8 v.

Definition OffsetAndFlags (tfrm : Frame) : outcome (Z * Z) :=
  v ← Uint16 (buf tfrm) 12;
  Ret (u8 (Z.shiftr v 12), Mask v).
Definition SetOffsetAndFlags (offset flags : Z) (tfrm : Frame) : outcome Frame :=
  let v := Z.lor (u16 (Z.shiftl offset 12)) (Mask flags) in
  set16 12 v tfrm.

Definition HeaderLength (tfrm : Frame) : outcome Z :=
  '(offset, _) ← OffsetAndFlags tfrm; Ret (4 * offset).

Definition WindowSize (tfrm : Frame) : outcome Z := Uint16 (buf tfrm) 14.
Definition SetWindowSize (v : Z) : Frame -> outcome Frame := set16 14 v.
Definition CRC (tfrm : Frame) : outcome Z := Uint16 (buf tfrm) 16.
Definition SetCRC (checksum : Z) : Frame -> outcome Frame := set16 16 checksum.
Definition UrgentPtr (tfrm : Frame) : outcome Z := Uint16 (buf tfrm) 18.
Definition SetUrgentPtr (up : Z) : Frame -> outcome Frame := set16 18 up.

Definition Payload (tfrm : Frame) : outcome (list Z) :=
  hl ← HeaderLength tfrm;
  assert_or_panic (slice_ok (buf tfrm) hl (zlen (buf tfrm))) (Ret (zdrop hl (buf tfrm))).

(** The method [Segment]. *)
Definition getSegment (payloadSize : Z) (tfrm : Frame) : outcome Segment :=
  if 2147483647 <? payloadSize then Panic
  else
    seq ← Seq tfrm; ack ← Ack tfrm; wnd ← WindowSize tfrm;
    flags ← Uint16 (buf tfrm) 12;
    Ret {| SEQ := seq; ACK := ack; WND := wnd; DATALEN := u32 payloadSize;
           Flags := Mask flags |}.

Definition SetSegment (seg : Segment) (offset : Z) (tfrm : Frame) : outcome Frame :=
  if 16 <=? offset then Panic
  else if 65535 <? WND seg then Panic
  else
    tfrm ← SetSeq (SEQ seg) tfrm;
    tfrm ← SetAck (ACK seg) tfrm;
    tfrm ← SetOffsetAndFlags offset (Flags seg) tfrm;
    SetWindowSize (u16 (WND seg)) tfrm.

Definition Options (tfrm : Frame) : outcome (list Z) :=
  hl ← HeaderLength tfrm;
  assert_or_panic (slice_ok (buf tfrm) sizeHeaderTCP hl)
    (Ret (slice (buf tfrm) sizeHeaderTCP hl)).

Definition ClearHeader (frm : Frame) : outcome Frame :=
  b ← put_checked (buf frm) 0 (replicate (Z.to_nat sizeHeaderTCP) 0); Ret (mkFrame b).

Definition ValidateSize (tfrm : Frame) (v : Validator) : outcome Validator :=
  off ← HeaderLength tfrm;
  let v := if off <? sizeHeaderTCP then AddError ErrInvalidLengthField v else v in
  let v := if zlen (RawData tfrm) <? off then AddError ErrTruncatedFrame v else v in
  Ret v.

Definition ValidateExceptCRC (tfrm : Frame) (v : Validator) : outcome Validator :=
  v ← ValidateSize tfrm v;
  dst ← DestinationPort tfrm;
  let v := if dst =? 0 then AddError ErrZeroDestination v else v in
  src ← SourcePort tfrm;
  let v := if src =? 0 then AddError ErrZeroSource v else v in
  Ret v.

(** ** The frame as a record of fields *)

Definition frame_wf (tfrm : Frame) : Prop := is_bytes (buf tfrm) /\ 20 <= zlen (buf tfrm).

Definition hdrlen (b : list Z) : Z := 4 * (be16 b 12 / 4096).

Record sizes_ok (tfrm : Frame) : Prop := mkSizesOk {
  so_wf : frame_wf tfrm;
  so_hl : 20 <= hdrlen (buf tfrm) <= zlen (buf tfrm)
}.

Definition segment_of (b : list Z) (len : Z) : Segment :=
  {| SEQ := be32 b 4; ACK := be32 b 8; WND := be16 b 14; DATALEN := len;
     Flags := Mask (be16 b 12) |}.

(** ** Lemmas *)

Lemma Mask_mod v : 0 <= v -> Mask v = v mod 512.
Proof. intros. unfold Mask, flagMask. change 511 with (Z.ones 9). by rewrite Z.land_ones by lia. Qed.

Lemma set16_ok i v tfrm :
  0 <= i -> i + 2 <= zlen (buf tfrm) -> set16 i v tfrm = Ret (mkFrame (put (buf tfrm) i (bytes16 v))).
Proof. intros. unfold set16. by rewrite PutUint16_ok. Qed.
Lemma set32_ok i v tfrm :
  0 <= i -> i + 4 <= zlen (buf tfrm) -> set32 i v tfrm = Ret (mkFrame (put (buf tfrm) i (bytes32 v))).
Proof. intros. unfold set32. by rewrite PutUint32_ok. Qed.

Section Fields.
Context (tfrm : Frame) (Hw : frame_wf tfrm).

Lemma SourcePort_ok : SourcePort tfrm = Ret (be16 (buf tfrm) 0).
Proof. destruct Hw. apply Uint16_ok; done || lia. Qed.
Lemma DestinationPort_ok : DestinationPort tfrm = Ret (be16 (buf tfrm) 2).
Proof. destruct Hw. apply Uint16_ok; done || lia. Qed.
Lemma OffsetAndFlags_ok :
  OffsetAndFlags tfrm = Ret (be16 (buf tfrm) 12 / 4096, Mask (be16 (buf tfrm) 12)).
Proof.
  destruct Hw as [Hb Hl]. unfold OffsetAndFlags. rewrite Uint16_ok by (done || lia). cbn.
  do 2 f_equal. rewrite Z.shiftr_div_pow2 by lia. pose proof (be16_bound (buf tfrm) 12 Hb).
  wrap_lia.
Qed.
Lemma HeaderLength_ok : HeaderLength tfrm = Ret (hdrlen (buf tfrm)).
Proof. unfold HeaderLength. by rewrite OffsetAndFlags_ok. Qed.
Lemma getSegment_ok len :
  0 <= len <= 2147483647 -> getSegment len tfrm = Ret (segment_of (buf tfrm) len).
Proof.
  intros. destruct Hw as [Hb Hl]. unfold getSegment, Seq, Ack, WindowSize. bool_cases; [lia|].
  rewrite !Uint32_ok, !Uint16_ok by (done || lia). cbn. unfold segment_of. do 2 f_equal. wrap_lia.
Qed.
Lemma hdrlen_bound : 0 <= hdrlen (buf tfrm) <= 60.
Proof.
  destruct Hw as [Hb Hl]. pose proof (be16_bound (buf tfrm) 12 Hb). unfold hdrlen. wrap_lia.
Qed.
Lemma segment_of_wf len : 0 <= len < 2 ^ 32 -> seg_wf (segment_of (buf tfrm) len).
Proof.
  intros. destruct Hw as [Hb Hl]. pose proof (be16_bound (buf tfrm) 14 Hb).
  pose proof (be16_bound (buf tfrm) 12 Hb).
  split_and!; cbn [SEQ ACK DATALEN WND Flags segment_of]; auto with bytes.
  - wrap_lia.
  - rewrite Mask_mod by wrap_lia. wrap_lia.
Qed.
End Fields.

Lemma Payload_ok tfrm :
  sizes_ok tfrm -> Payload tfrm = Ret (zdrop (hdrlen (buf tfrm)) (buf tfrm)).
Proof.
  intros [Hw Hhl]. unfold Payload. rewrite HeaderLength_ok by done.
  cbn [mbind outcome_bind]. unfold assert_or_panic, slice_ok. bool_cases; done || lia.
Qed.

Lemma Options_ok tfrm :
  sizes_ok tfrm -> Options tfrm = Ret (slice (buf tfrm) 20 (hdrlen (buf tfrm))).
Proof.
  intros [Hw Hhl]. unfold Options. rewrite HeaderLength_ok by done.
  cbn [mbind outcome_bind]. unfold assert_or_panic, slice_ok, sizeHeaderTCP. bool_cases; done || lia.
Qed.

(** The validator's verdict on a frame. *)
Definition frame_errors (tfrm : Frame) : list error :=
  (if hdrlen (buf tfrm) <? 20 then [ErrInvalidLengthField] else []) ++
  (if zlen (buf tfrm) <? hdrlen (buf tfrm) then [ErrTruncatedFrame] else []) ++
  (if be16 (buf tfrm) 2 =? 0 then [ErrZeroDestination] else []) ++
  (if be16 (buf tfrm) 0 =? 0 then [ErrZeroSource] else []).

Lemma ValidateExceptCRC_ok tfrm v :
  frame_wf tfrm -> ValidateExceptCRC tfrm v = Ret (add_errors (frame_errors tfrm) v).
Proof.
  intros Hw. unfold ValidateExceptCRC, ValidateSize, frame_errors, sizeHeaderTCP, RawData.
  rewrite HeaderLength_ok, DestinationPort_ok, SourcePort_ok by done. cbn.
  by repeat case_match.
Qed.

Lemma frame_errors_nil tfrm :
  frame_errors tfrm = [] <->
  20 <= hdrlen (buf tfrm) <= zlen (buf tfrm) /\ be16 (buf tfrm) 2 <> 0 /\ be16 (buf tfrm) 0 <> 0.
Proof. unfold frame_errors. bool_cases; cbn; split; intros; done || lia. Qed.

(** ** Validation *)

(** C38: validation is exact and makes the accessors safe. For every buffer of at
    least a header, starting from an empty accumulator, [ValidateExceptCRC]
    reports nothing exactly when the data offset lies between the fixed header
    and the end of the buffer and both ports are non-zero; [Options], [Payload]
    and [Segment] of a frame that passed do not panic, and options and payload
    are the rest of the buffer. *)
Theorem frame_validation_exact b vf
  (Hb : is_bytes b) (Hl : zlen b <= 65535) (H20 : 20 <= zlen b) :
  exists f v, NewFrame b = (Some f, None) /\
    ValidateExceptCRC f (mkValidator [] vf) = Ret v /\
    (snd (ErrPop v) = None <->
       20 <= hdrlen b <= zlen b /\ be16 b 2 <> 0 /\ be16 b 0 <> 0) /\
    (snd (ErrPop v) = None ->
       exists opts payload, Options f = Ret opts /\ Payload f = Ret payload /\
         b = ztake 20 b ++ opts ++ payload /\
         getSegment (zlen payload) f = Ret (segment_of b (zlen payload))).
Proof.
  exists (mkFrame b), (add_errors (frame_errors (mkFrame b)) (mkValidator [] vf)).
  assert (frame_wf (mkFrame b)) as Hw by done.
  assert (snd (ErrPop (add_errors (frame_errors (mkFrame b)) (mkValidator [] vf))) = None <->
    frame_errors (mkFrame b) = []) as Hiff.
  { rewrite ErrPop_none. split; [by apply add_errors_nil|by intros ->]. }
  split; [unfold NewFrame, sizeHeaderTCP; bool_cases; [lia|done]|].
  split; [by apply ValidateExceptCRC_ok|].
  split; [by rewrite Hiff, frame_errors_nil|].
  rewrite Hiff, frame_errors_nil. cbn [buf]. intros (Hhl & _).
  assert (sizes_ok (mkFrame b)) as Hs by done.
  exists (slice b 20 (hdrlen b)), (zdrop (hdrlen b) b).
  split; [by apply Options_ok|]. split; [by apply Payload_ok|]. split.
  - rewrite <- (ztake_zdrop 20 b) at 1. f_equal.
    rewrite <- (ztake_zdrop (hdrlen b - 20) (zdrop 20 b)) at 1. f_equal.
    unfold zdrop. rewrite drop_drop. f_equal. lia.
  - apply (getSegment_ok (mkFrame b) Hw). rewrite zlen_zdrop; lia.
Qed.

(** ** Writing a header *)

(** The header [Handler.Send] writes. *)
Definition write_header (sport dport : Z) (seg : Segment) (offset : Z) (tfrm : Frame)
    : outcome Frame :=
  tfrm ← SetSourcePort sport tfrm;
  tfrm ← SetDestinationPort dport tfrm;
  tfrm ← SetSegment seg offset tfrm;
  SetUrgentPtr 0 tfrm.

Definition header_bytes (b : list Z) (sport dport : Z) (seg : Segment) (offset : Z) : list Z :=
  let b := put b 0 (bytes16 sport) in
  let b := put b 2 (bytes16 dport) in
  let b := put b 4 (bytes32 (SEQ seg)) in
  let b := put b 8 (bytes32 (ACK seg)) in
  let b := put b 12 (bytes16 (Z.lor (u16 (Z.shiftl offset 12)) (Mask (Flags seg)))) in
  let b := put b 14 (bytes16 (u16 (WND seg))) in
  put b 18 (bytes16 0).

Lemma header_bytes_ztake b sport dport seg offset : 20 <= zlen b ->
  header_bytes (ztake 20 b) sport dport seg offset = ztake 20 (header_bytes b sport dport seg offset).
Proof. intros. unfold header_bytes. repeat rewrite put_ztake by put_len. done. Qed.

Section Header.
Context (b : list Z) (sport dport : Z) (seg : Segment) (offset : Z).
Context (Hb : is_bytes b) (Hl : 20 <= zlen b).
Context (Hsp : is_u16 sport) (Hdp : is_u16 dport) (Hseg : seg_wf seg).
Context (Hwnd : WND seg <= 65535) (Hfl : Flags seg < 512) (Hoff : 0 <= offset < 16).

Let hb := header_bytes b sport dport seg offset.

Lemma write_header_ok :
  write_header sport dport seg offset (mkFrame b) = Ret (mkFrame hb) /\
  zlen hb = zlen b /\ is_bytes hb.
Proof.
  split; [|split].
  - unfold write_header, SetSourcePort, SetDestinationPort, SetSegment, SetSeq, SetAck,
      SetOffsetAndFlags, SetWindowSize, SetUrgentPtr.
    do 2 (rewrite set16_ok by (cbn [buf]; put_len); cbn [mbind outcome_bind buf]).
    destruct (Z.leb_spec 16 offset); [lia|]. destruct (Z.ltb_spec 65535 (WND seg)); [lia|].
    do 2 (rewrite set32_ok by (cbn [buf]; put_len); cbn [mbind outcome_bind buf]).
    do 2 (rewrite set16_ok by (cbn [buf]; put_len); cbn [mbind outcome_bind buf]).
    rewrite set16_ok by (cbn [buf]; put_len).
    done.
  - unfold hb, header_bytes. put_len.
  - unfold hb, header_bytes. auto 10 with bytes.
Qed.

Lemma offset_flags_word :
  Z.lor (u16 (Z.shiftl offset 12)) (Mask (Flags seg)) = offset * 4096 + Flags seg.
Proof.
  destruct Hseg as (_ & _ & _ & _ & Hf). rewrite Mask_mod by wrap_lia.
  rewrite (Z.mod_small (Flags seg)) by wrap_lia.
  replace (u16 (Z.shiftl offset 12)) with (Z.shiftl offset 12)
    by (rewrite Z.shiftl_mul_pow2 by lia; wrap_lia).
  rewrite Z.lor_comm, lor_shiftl_add by wrap_lia. lia.
Qed.

Lemma header_fields :
  be16 hb 0 = sport /\ be16 hb 2 = dport /\ be32 hb 4 = SEQ seg /\ be32 hb 8 = ACK seg /\
  be16 hb 12 = offset * 4096 + Flags seg /\ be16 hb 14 = WND seg /\ be16 hb 18 = 0.
Proof.
  destruct Hseg as (Hs & Ha & _ & Hwd & Hf).
  assert (is_u16 (Z.lor (u16 (Z.shiftl offset 12)) (Mask (Flags seg)))) as Hw16
    by (rewrite offset_flags_word; wrap_lia).
  unfold hb, header_bytes. split_and!; put_out;
    (rewrite be16_put by (done || put_len || wrap_lia)) ||
    (rewrite be32_put by (done || put_len)); try done; [apply offset_flags_word|wrap_lia].
Qed.

(** What lies behind the fixed header is untouched. *)
Lemma header_tail i : 20 <= i -> zget hb i = zget b i.
Proof.
  intros. unfold hb, header_bytes.
  repeat rewrite zget_put_out by put_len. done.
Qed.

Lemma header_slice i j : 20 <= i -> i <= j <= zlen b -> slice hb i j = slice b i j.
Proof.
  intros Hi Hj. destruct write_header_ok as (_ & HL & _).
  apply zlist_eq; rewrite !zlen_slice by lia; [done|].
  intros k Hk. rewrite !zget_slice by lia. apply header_tail. lia.
Qed.
End Header.

(** A written header reads back. Writing ports, segment and data offset into
    any buffer that holds the header makes every getter return what was written,
    the parsed [Segment] is the written one with the length of what follows the
    header, options and payload are the bytes that were there, and the frame
    validates when the ports are non-zero. *)
Lemma frame_header_roundtrip b sport dport seg offset vf
  (Hb : is_bytes b) (Hl : 4 * offset <= zlen b <= 65535) (Hoff : 5 <= offset < 16)
  (Hsp : is_u16 sport) (Hdp : is_u16 dport) (Hseg : seg_wf seg)
  (Hwnd : WND seg <= 65535) (Hfl : Flags seg < 512) :
  exists f, write_header sport dport seg offset (mkFrame b) = Ret f /\
    zlen (buf f) = zlen b /\
    SourcePort f = Ret sport /\ DestinationPort f = Ret dport /\
    Options f = Ret (slice b 20 (4 * offset)) /\
    Payload f = Ret (zdrop (4 * offset) b) /\
    getSegment (zlen b - 4 * offset) f =
      Ret {| SEQ := SEQ seg; ACK := ACK seg; WND := WND seg; Flags := Flags seg;
             DATALEN := zlen b - 4 * offset |} /\
    (sport <> 0 -> dport <> 0 ->
     ValidateExceptCRC f (mkValidator [] vf) = Ret (mkValidator [] vf)).
Proof.
  destruct (write_header_ok b sport dport seg offset) as (Hwr & HL & HB); auto; try lia.
  destruct (header_fields b sport dport seg offset) as (F1 & F2 & F3 & F4 & F5 & F6 & F7);
    auto; try lia.
  pose proof (header_slice b sport dport seg offset Hb ltac:(lia) Hwnd ltac:(lia)) as HS.
  set (hb := header_bytes b sport dport seg offset) in *.
  exists (mkFrame hb). assert (frame_wf (mkFrame hb)) as Hw by (split; cbn; [done|lia]).
  destruct Hseg as (_ & _ & _ & _ & Hf).
  assert (hdrlen hb = 4 * offset) as Hh.
  { unfold hdrlen. rewrite F5. wrap_lia. }
  assert (sizes_ok (mkFrame hb)) as Hs by (split; [done|cbn; lia]).
  split; [done|]. split; [done|].
  split; [rewrite SourcePort_ok by done; by cbn; rewrite F1|].
  split; [rewrite DestinationPort_ok by done; by cbn; rewrite F2|].
  split; [rewrite Options_ok by done; cbn [buf]; rewrite Hh; f_equal; apply HS; lia|].
  split.
  { rewrite Payload_ok by done. cbn [buf]. rewrite Hh. f_equal.
    pose proof (HS (4 * offset) (zlen b) ltac:(lia) ltac:(lia)) as E. unfold slice in E.
    rewrite !ztake_ge in E by (rewrite zlen_zdrop; lia). done. }
  split.
  { rewrite getSegment_ok by (done || lia). cbn [buf]. unfold segment_of.
    rewrite F3, F4, F5, F6. do 2 f_equal. rewrite Mask_mod by wrap_lia. wrap_lia. }
  intros Hs0 Hd0. rewrite ValidateExceptCRC_ok by done.
  replace (frame_errors (mkFrame hb)) with (@nil error); [done|]. symmetry.
  apply frame_errors_nil. cbn [buf]. lia.
Qed.

Definition demo_packet : list Z := replicate 24 7.

Lemma frame_validation_exact_witness :
  exists f v, NewFrame demo_packet = (Some f, None) /\
    ValidateExceptCRC f (mkValidator [] 0) = Ret v /\ snd (ErrPop v) <> None.
Proof.
  destruct (frame_validation_exact demo_packet 0) as (f & v & H1 & H2 & H3 & _).
  - by apply (bool_decide_unpack _).
  - vm_compute. congruence.
  - vm_compute. congruence.
  - exists f, v. split; [exact H1|]. split; [exact H2|]. intros H. apply H3 in H.
    revert H. vm_compute. intros [[H _] _]. by apply H.
Defined.

End Frame.
