(* ===== verification/Options.v ===== *)
(** * TCP options ([src/tcp/options.go], the option names of [src/tcp/stringers.go])

    An option list is parsed by [Next], one option at a time; [ForEachOption]
    drives it with a callback, whose effects are explicit as a state the
    callback returns. The [goto REDO] of [Next], which skips obsolete options,
    and the loop of [ForEachOption] recurse on fuel; each round consumes at least
    one byte, so the length of the list is enough ([options_parse_total]). *)
From S2P Require Import Prelude Errors Bytes.
From stdpp Require Import strings.

Module Options.
Import Bytes.
Open Scope Z_scope.
Open Scope list_scope.

Definition OptEnd : Z := 0.
Definition OptNop : Z := 1.
Definition OptMaxSegmentSize : Z := 2.
Definition OptWindowScale : Z := 3.
Definition OptSACKPermitted : Z := 4.
Definition OptTimestamps : Z := 8.
Definition OptUserTimeout : Z := 28.

(** The names of the kinds [0 .. 30]. *)
Definition kind_names : list string :=
  [ "end of option list"; "no-operation"; "maximum segment size"; "window scale";
    "SACK permitted"; "SACK"; "echo(obsolete)"; "echo reply(obsolete)"; "timestamps";
    "partial order connection permitted(obsolete)";
    "partial order service profile(obsolete)"; "CC(obsolete)"; "CC.new(obsolete)";
    "CC.echo(obsolete)"; "alternate checksum request(obsolete)";
    "alternate checksum data(obsolete)"; "skeeter"; "bubba"; "trailer checksum";
    "MD5 signature(obsolete)"; "SCPS capabilities"; "selective negative acks";
    "record boundaries"; "corruption experienced"; "SNAP"; "unassigned";
    "compression filter"; "quick-start response"; "user timeout or unauthorized use";
    "Authentication TCP-AO"; "multipath TCP" ]%string.

Definition HasSuffix (s suffix : string) : bool :=
  let n := String.length s in
  let m := String.length suffix in
  (m <=? n)%nat && String.eqb (String.substring (n - m) m s) suffix.

(** None of the names above 30 carries the suffix. *)
Definition kind_name (kind : Z) : string := nth (Z.to_nat kind) kind_names EmptyString.

Definition IsDefined (kind : Z) : bool :=
  (kind <=? 30) || (kind =? 34) || (kind =? 69) || (kind =? 172) || (kind =? 174).
Definition IsObsolete (kind : Z) : bool :=
  if IsDefined kind then HasSuffix (kind_name kind) "(obsolete)" else false.

(** [OptionCodec] holds its flags. *)
Definition OptFlagSkipSizeValidation : Z := 1.
Definition OptFlagSkipObsolete : Z := 2.
Definition HasAny (flags ofTheseFlags : Z) : bool := negb (Z.land flags ofTheseFlags =? 0).

(** ** Writing: the destination, the size or -1, the error *)

Definition PutOption (dst : list Z) (kind : Z) (data : list Z)
    : list Z * Z * option error :=
  let putSize := 2 + zlen data in
  if zlen dst <? putSize then (dst, -1, Some ErrShortBuffer)
  else if 255 <? putSize then (dst, -1, Some ErrInvalidLengthField)
  else if (kind =? OptNop) || (kind =? OptEnd) then (dst, -1, Some ErrInvalidField)
  else (put dst 0 (kind :: u8 putSize :: data), putSize, None).

Definition PutOption16 (dst : list Z) (kind v : Z) : list Z * Z * option error :=
  PutOption dst kind [u8 (Z.shiftr v 8); u8 v].
Definition PutOption32 (dst : list Z) (kind v : Z) : list Z * Z * option error :=
  PutOption dst kind [u8 (Z.shiftr v 24); u8 (Z.shiftr v 16); u8 (Z.shiftr v 8); u8 v].

(** ** Parsing *)

Record parsed := mkParsed {
  p_kind : Z;
  p_data : list Z;
  p_rest : list Z;
  p_err : option error
}.

Definition expectSize (kind : Z) : Z :=
  if kind =? OptTimestamps then 10
  else if (kind =? OptMaxSegmentSize) || (kind =? OptUserTimeout) then 4
  else if kind =? OptWindowScale then 3
  else if kind =? OptSACKPermitted then 2
  else 0.

(** [None]: out of fuel. *)
Fixpoint Next_loop (fuel : nat) (flags : Z) (opts : list Z) : option parsed :=
  match fuel with
  | O => None
  | S fuel =>
      match opts with
      | [] => Some (mkParsed OptEnd [] [] None)
      | kind :: tl =>
          if kind =? 0 then Some (mkParsed OptEnd [] [] None)
          else if kind =? OptNop then Some (mkParsed kind [] tl None)
          else
          match tl with
          | [] => Some (mkParsed kind [] [] (Some ErrTruncatedFrame))
          | size :: _ =>
              if zlen opts <? size then Some (mkParsed kind [] [] (Some ErrTruncatedFrame))
              else if size <? 2 then Some (mkParsed kind [] [] (Some ErrInvalidLengthField))
              else
                let optData := slice opts 2 size in
                let remainingOpts := zdrop size opts in
                if HasAny flags OptFlagSkipObsolete && IsObsolete kind
                then Next_loop fuel flags remainingOpts
                else
                  let err :=
                    if negb (HasAny flags OptFlagSkipSizeValidation) &&
                       negb (expectSize kind =? 0) && negb (size =? expectSize kind)
                    then Some ErrInvalidLengthField else None in
                  Some (mkParsed kind optData remainingOpts err)
          end
      end
  end.

Definition Next (flags : Z) (opts : list Z) : option parsed :=
  Next_loop (S (length opts)) flags opts.

Section ForEach.
Context {A : Type}.
(** The callback: its state after the call and the error it returns. *)
Context (fn : A -> Z -> list Z -> A * option error).

(** [None]: out of fuel. *)
Fixpoint ForEach_loop (fuel : nat) (flags : Z) (opts : list Z) (a : A)
    : option (A * option error) :=
  match fuel with
  | O => None
  | S fuel =>
      match Next flags opts with
      | None => None
      | Some p =>
          match p_err p with
          | Some e => Some (a, Some e)
          | None =>
              if p_kind p =? OptEnd then Some (a, None)
              else if p_kind p <=? OptNop then ForEach_loop fuel flags (p_rest p) a
              else
                match fn a (p_kind p) (p_data p) with
                | (a, Some e) => Some (a, Some e)
                | (a, None) => ForEach_loop fuel flags (p_rest p) a
                end
          end
      end
  end.

Definition ForEachOption (flags : Z) (opts : list Z) (a : A) : option (A * option error) :=
  ForEach_loop (S (length opts)) flags opts a.
End ForEach.

(** ** Option lists *)

Inductive opt := ONop | OData (kind : Z) (data : list Z).

Definition opt_bytes (o : opt) : list Z :=
  match o with ONop => [OptNop] | OData k d => k :: (2 + zlen d) :: d end.
Definition opts_bytes (os : list opt) : list Z := concat (map opt_bytes os).

(** An option the codec with [flags] accepts and passes to the callback. *)
Definition opt_ok (flags : Z) (o : opt) : Prop :=
  match o with
  | ONop => True
  | OData k d =>
      2 <= k < 256 /\ 2 + zlen d <= 255 /\
      (HasAny flags OptFlagSkipObsolete && IsObsolete k = false) /\
      (HasAny flags OptFlagSkipSizeValidation = true \/ expectSize k = 0 \/
       2 + zlen d = expectSize k)
  end.

Definition run_opts {A} (fn : A -> Z -> list Z -> A * option error) : list opt -> A -> A * option error :=
  fix go os a :=
    match os with
    | [] => (a, None)
    | ONop :: os => go os a
    | OData k d :: os =>
        match fn a k d with (a, Some e) => (a, Some e) | (a, None) => go os a end
    end.

(** ** Lemmas *)

Lemma Next_loop_total fuel flags opts :
  (length opts < fuel)%nat ->
  exists p, Next_loop fuel flags opts = Some p /\
    (p_kind p <> OptEnd -> p_err p = None -> (length (p_rest p) < length opts)%nat).
Proof.
  revert opts. induction fuel as [|fuel IH]; intros opts Hf; [lia|]. cbn [Next_loop].
  destruct opts as [|kind tl]; [by eexists|].
  destruct (kind =? 0); [by eexists|].
  destruct (kind =? OptNop). { eexists. split; [done|]. cbn. lia. }
  destruct tl as [|size tl']; [by eexists|].
  destruct (Z.ltb_spec (zlen (kind :: size :: tl')) size); [by eexists|].
  destruct (Z.ltb_spec size 2); [by eexists|].
  assert (length (zdrop size (kind :: size :: tl')) < length (kind :: size :: tl'))%nat as Hd.
  { unfold zdrop. rewrite length_drop. cbn [length] in *. lia. }
  destruct (_ && IsObsolete kind).
  - destruct (IH (zdrop size (kind :: size :: tl'))) as (p & -> & Hp); [lia|].
    exists p. split; [done|]. intros. specialize (Hp ltac:(done) ltac:(done)). lia.
  - eexists. split; [done|]. intros _ _. exact Hd.
Qed.

Lemma ForEach_loop_total {A} (fn : A -> Z -> list Z -> A * option error) fuel flags opts a :
  (length opts < fuel)%nat -> exists r, ForEach_loop fn fuel flags opts a = Some r.
Proof.
  revert opts a. induction fuel as [|fuel IH]; intros opts a Hf; [lia|]. cbn [ForEach_loop].
  unfold Next. destruct (Next_loop_total (S (length opts)) flags opts) as (p & -> & Hp); [lia|].
  destruct (p_err p) eqn:Ee; [by eexists|].
  destruct (Z.eqb_spec (p_kind p) OptEnd); [by eexists|]. specialize (Hp ltac:(done) ltac:(done)).
  destruct (p_kind p <=? OptNop); [apply IH; lia|].
  destruct (fn a (p_kind p) (p_data p)) as [a' [e|]]; [by eexists|]. apply IH. lia.
Qed.

Lemma Next_nop fuel flags rest : Next_loop (S fuel) flags (OptNop :: rest) = Some (mkParsed OptNop [] rest None).
Proof. done. Qed.

Lemma Next_end fuel flags rest :
  rest = [] \/ head rest = Some 0 -> Next_loop (S fuel) flags rest = Some (mkParsed OptEnd [] [] None).
Proof. destruct rest as [|x rest]; [done|]. by intros [|[= ->]]. Qed.

Lemma Next_data fuel flags k d rest :
  opt_ok flags (OData k d) ->
  Next_loop (S fuel) flags (opt_bytes (OData k d) ++ rest) = Some (mkParsed k d rest None).
Proof.
  intros (Hk & Hd & Ho & Hs). pose proof (zlen_nonneg d). pose proof (zlen_nonneg rest).
  cbn [opt_bytes app Next_loop]. unfold OptNop.
  destruct (Z.eqb_spec k 0); [lia|]. destruct (Z.eqb_spec k 1); [lia|].
  rewrite !zlen_cons, zlen_app. destruct (Z.ltb_spec (1 + (1 + (zlen d + zlen rest))) (2 + zlen d)); [lia|].
  destruct (Z.ltb_spec (2 + zlen d) 2); [lia|]. rewrite Ho.
  assert (slice (k :: 2 + zlen d :: d ++ rest) 2 (2 + zlen d) = d) as ->.
  { unfold slice, zdrop, ztake. replace (Z.to_nat 2) with 2%nat by lia. cbn [drop].
    unfold zlen. replace (Z.to_nat (2 + Z.of_nat (length d) - 2)) with (length d) by lia.
    by rewrite drop_0, take_app_length. }
  assert (zdrop (2 + zlen d) (k :: 2 + zlen d :: d ++ rest) = rest) as ->.
  { unfold zdrop, zlen. replace (Z.to_nat (2 + Z.of_nat (length d))) with (S (S (length d))) by lia.
    cbn [drop]. by rewrite drop_app_length. }
  destruct (HasAny flags OptFlagSkipSizeValidation); cbn [negb andb]; [done|].
  destruct (Z.eqb_spec (expectSize k) 0); cbn [negb andb]; [done|].
  destruct (Z.eqb_spec (2 + zlen d) (expectSize k)); cbn [negb]; [done|].
  destruct Hs as [|[|]]; [done|lia|lia].
Qed.

Lemma opts_bytes_cons o os : opts_bytes (o :: os) = opt_bytes o ++ opts_bytes os.
Proof. done. Qed.

(** the option parser terminates on every input. Whatever the bytes (also
    hostile ones, e.g. a zero length field), [Next] and [ForEachOption] return,
    within one round per byte of the list; unless it reports the end or an error,
    [Next] makes progress. *)
Theorem options_parse_total {A} (fn : A -> Z -> list Z -> A * option error) flags opts a :
  (exists r, ForEachOption fn flags opts a = Some r) /\
  exists p, Next flags opts = Some p /\
    (p_kind p = OptEnd \/ p_err p <> None \/ (length (p_rest p) < length opts)%nat).
Proof.
  split; [apply ForEach_loop_total; lia|].
  destruct (Next_loop_total (S (length opts)) flags opts) as (p & Hn & Hp); [lia|].
  exists p. split; [done|]. destruct (decide (p_kind p = OptEnd)); [by left|].
  destruct (p_err p) eqn:Ee; [right; left; done|]. right; right. by apply Hp.
Qed.

(** options round trip. Any list of acceptable options and no-operations,
    encoded one after the other and followed by an end marker or the end of the
    list, is parsed by [ForEachOption] to exactly those options in that order,
    the callback seeing kind and data of each and stopping at its first error. *)
Theorem options_roundtrip {A} (fn : A -> Z -> list Z -> A * option error) flags os tail a
  (Hos : Forall (opt_ok flags) os) (Htail : tail = [] \/ head tail = Some 0) :
  ForEachOption fn flags (opts_bytes os ++ tail) a = Some (run_opts fn os a).
Proof.
  unfold ForEachOption.
  assert (length (opts_bytes os ++ tail) < S (length (opts_bytes os ++ tail)))%nat as Hf by lia.
  revert Hf. generalize (S (length (opts_bytes os ++ tail))). intros fuel. revert fuel a.
  induction Hos as [|o os Ho Hos IH]; intros fuel a Hf; (destruct fuel as [|fuel]; [lia|]);
    cbn [ForEach_loop]; unfold Next.
  - cbn [opts_bytes map concat app]. by rewrite Next_end.
  - rewrite opts_bytes_cons, <- app_assoc in *. destruct o as [|k d].
    + cbn [opt_bytes app] in *. rewrite Next_nop. cbn. apply IH. cbn [length] in Hf. lia.
    + rewrite Next_data by done. cbn [p_err p_kind p_data p_rest run_opts].
      destruct Ho as (Hk & _). unfold OptEnd, OptNop.
      destruct (Z.eqb_spec k 0); [lia|]. destruct (Z.leb_spec k 1); [lia|].
      destruct (fn a k d) as [a' [e|]]; [done|]. apply IH.
      rewrite length_app in Hf. cbn [opt_bytes length] in Hf. lia.
Qed.

Lemma PutOption_ok flags dst k d :
  opt_ok flags (OData k d) -> 2 + zlen d <= zlen dst ->
  PutOption dst k d = (opt_bytes (OData k d) ++ zdrop (2 + zlen d) dst, 2 + zlen d, None).
Proof.
  intros (Hk & Hd & _) Hl. pose proof (zlen_nonneg d). unfold PutOption, OptNop, OptEnd.
  destruct (Z.ltb_spec (zlen dst) (2 + zlen d)); [lia|].
  destruct (Z.ltb_spec 255 (2 + zlen d)); [lia|].
  destruct (Z.eqb_spec k 1); [lia|]. destruct (Z.eqb_spec k 0); [lia|]. cbn [orb].
  f_equal. f_equal. unfold put. rewrite ztake_nonpos, !zlen_cons by lia. cbn [app opt_bytes].
  f_equal. f_equal; [wrap_lia|]. do 2 f_equal. lia.
Qed.

Definition collect (a : list (Z * list Z)) (k : Z) (d : list Z)
    : list (Z * list Z) * option error := (a ++ [(k, d)], None).

Lemma options_roundtrip_witness :
  ForEachOption collect 0 [2; 4; 5; 180; 1; 3; 3; 7; 0; 9] [] = Some ([(2, [5; 180]); (3, [7])], None).
Proof.
  apply (options_roundtrip collect 0 [OData 2 [5; 180]; ONop; OData 3 [7]] [0; 9] []).
  - repeat constructor; try (vm_compute; congruence); right; right; reflexivity.
  - by right.
Defined.
End Options.
