(* ===== verification/IpAddr.v ===== *)
(** * Addresses of an IP header of either version ([src/internal/ip.go])

    The functions take a slice that ends before its backing array does. A slice
    is given by [arr], the bytes from its start to its capacity, and its length
    [len]: indexing is checked against the length, slicing against the capacity,
    as the Go run time does. A nil slice is [None]. *)
From S2P Require Import Prelude Errors Bytes.

Module IpAddr.
Import Bytes.

Record ipaddrs := mkIpaddrs {
  ip_src : list Z;
  ip_dst : list Z;
  ip_id : Z;
  ip_end : Z
}.

(** [b[0]], checked against the length. *)
Definition first_byte (arr : list Z) (len : Z) : outcome Z :=
  assert_or_panic (0 <? len) (at_ arr 0).

Definition sub (arr : list Z) (a b : Z) : outcome (list Z) :=
  assert_or_panic (slice_ok arr a b) (Ret (slice arr a b)).

Definition GetIPAddr (arr : list Z) (len : Z) : outcome (ipaddrs * option error) :=
  b0 ← first_byte arr len;
  let version := Z.shiftr b0 4 in
  if version =? 4 then
    let ihl := Z.land b0 15 in
    id_ ← sub arr 4 6;
    id ← Uint16 id_ 0;
    src ← sub arr 12 16;
    dst ← sub arr 16 20;
    Ret (mkIpaddrs src dst id (u16 (4 * ihl)), None)
  else if version =? 6 then
    src ← sub arr 8 24;
    dst ← sub arr 24 40;
    Ret (mkIpaddrs src dst 0 40, None)
  else Ret (mkIpaddrs [] [] 0 0, Some ErrUnsupported).

Definition IsMulticastIPAddr (addr : list Z) : bool :=
  match addr with
  | [a0; _; _; _] => Z.land a0 240 =? 224
  | a0 :: _ => (zlen addr =? 16) && (a0 =? 255)
  | [] => false
  end.

(** [copy(buf[i:i+k], v)] for a [v] of length [k], or nil. *)
Definition copy_addr (arr : list Z) (i : Z) (v : option (list Z)) : list Z :=
  match v with None => arr | Some v => put arr i v end.
Definition len_differs (k : Z) (v : option (list Z)) : bool :=
  match v with None => false | Some v => negb (k =? zlen v) end.

Definition SetIPAddrs (arr : list Z) (len id : Z) (src dst : option (list Z))
    : outcome (list Z * option error) :=
  b0 ← first_byte arr len;
  let version := Z.shiftr b0 4 in
  let finish (arr : list Z) (k s d : Z) :=
    if len_differs k src then Ret (arr, Some ErrMismatchLen)
    else if len_differs k dst then Ret (arr, Some ErrMismatchLen)
    else Ret (copy_addr (copy_addr arr s src) d dst, None) in
  if version =? 4 then
    _ ← sub arr 12 16;
    _ ← sub arr 16 20;
    arr ← (if 0 <? id then _ ← sub arr 4 6; PutUint16 arr 4 id else Ret arr);
    finish arr 4 12 16
  else if version =? 6 then
    _ ← sub arr 8 24;
    _ ← sub arr 24 40;
    finish arr 16 8 24
  else Ret (arr, Some ErrUnsupported).

(** [SetMulticast(ethernetCarrier, ipOff, multicastAddr)]. *)
Definition SetMulticast (carrier : list Z) (ipOff : Z) (maddr : list Z)
    : outcome (list Z * option error) :=
  assert_or_panic (slice_ok carrier ipOff (zlen carrier))
  (assert_or_panic (slice_ok carrier 0 6)
  (b0 ← at_ (zdrop ipOff carrier) 0;
   let version := Z.shiftr b0 4 in
   let addr i := default 0 (zget maddr i) in
   if version =? 4 then
     if negb (zlen maddr =? 4) then Ret (carrier, Some ErrMismatchLen)
     else
       carrier ← put_checked carrier (ipOff + 16) maddr;
       carrier ← put_checked carrier 0
         [1; 0; 94; Z.land (addr 1) 127; addr 2; addr 3];
       Ret (carrier, None)
   else if version =? 6 then
     if negb (zlen maddr =? 16) then Ret (carrier, Some ErrMismatchLen)
     else
       carrier ← put_checked carrier (ipOff + 24) maddr;
       carrier ← put_checked carrier 0
         [51; 51; addr 12; addr 13; addr 14; addr 15];
       Ret (carrier, None)
   else Ret (carrier, Some ErrUnsupported))).

(** ** Headers that hold their addresses *)

(** The version field, and where the addresses of that version are. *)
Definition ipver (arr : list Z) : Z := Z.shiftr (default 0 (zget arr 0)) 4.
Definition addr_len (v : Z) : Z := if v =? 4 then 4 else 16.
Definition src_off (v : Z) : Z := if v =? 4 then 12 else 8.
Definition dst_off (v : Z) : Z := if v =? 4 then 16 else 24.
Definition hdr_min (v : Z) : Z := dst_off v + addr_len v.

(** A slice whose array holds the fixed header of version 4 or 6. *)
Record ip_header (arr : list Z) (len : Z) : Prop := mkIpHeader {
  ih_bytes : is_bytes arr;
  ih_len : 0 < len;
  ih_ver : ipver arr = 4 \/ ipver arr = 6;
  ih_cap : hdr_min (ipver arr) <= zlen arr
}.

Definition addrs_of (arr : list Z) : ipaddrs :=
  let v := ipver arr in
  mkIpaddrs (slice arr (src_off v) (src_off v + addr_len v))
            (slice arr (dst_off v) (dst_off v + addr_len v))
            (if v =? 4 then be16 arr 4 else 0)
            (if v =? 4 then 4 * (default 0 (zget arr 0) mod 16) else 40).

Lemma ipaddr_sub_ok arr a b : 0 <= a <= b -> b <= zlen arr -> sub arr a b = Ret (slice arr a b).
Proof. intros. unfold sub, assert_or_panic, slice_ok. bool_cases; done || lia. Qed.

Lemma be16_slice arr a b : 0 <= a -> a + 2 <= b -> be16 (slice arr a b) 0 = be16 arr a.
Proof. intros. unfold be16. rewrite !zget_slice by lia. by rewrite Z.add_0_r, Z.add_0_l. Qed.


Section Header.
Context (arr : list Z) (len : Z) (Hh : ip_header arr len).

Lemma header_cap : 20 <= zlen arr.
Proof.
  destruct Hh as [_ _ Hv Hc]. unfold hdr_min, dst_off, addr_len in Hc. bool_cases_in Hc; lia.
Qed.

Lemma first_byte_ok : exists b0, zget arr 0 = Some b0 /\ first_byte arr len = Ret b0 /\
  ipver arr = Z.shiftr b0 4 /\ is_u8 b0.
Proof.
  pose proof header_cap as Hc. destruct Hh as [Hb Hl _ _].
  destruct (at_ok arr 0) as (b0 & E & Ea); [lia|]. exists b0. unfold first_byte, ipver. rewrite E.
  split_and!; [done|unfold assert_or_panic; bool_cases; done || lia|done|by eapply is_bytes_zget].
Qed.

Lemma GetIPAddr_ok : GetIPAddr arr len = Ret (addrs_of arr, None).
Proof.
  unfold GetIPAddr. destruct first_byte_ok as (b0 & E0 & -> & Hv & Hb0).
  pose proof header_cap as Hc20. destruct Hh as [Hb Hl Hver Hcap]. cbn [mbind outcome_bind].
  rewrite <- Hv. unfold addrs_of. rewrite E0. cbn [default].
  unfold hdr_min, src_off, dst_off, addr_len in *. destruct Hver as [Ev|Ev]; rewrite Ev in Hcap |- *;
    cbn [Z.eqb Pos.eqb] in Hcap |- *; rewrite !ipaddr_sub_ok by lia; cbn [mbind outcome_bind]; [|done].
  rewrite Uint16_ok; [|by apply is_bytes_slice|lia|rewrite zlen_slice; lia].
  cbn [mbind outcome_bind]. rewrite be16_slice by lia.
  cbn [mbind outcome_bind]. do 3 f_equal. change (id b0) with b0. change 15 with (Z.ones 4). rewrite Z.land_ones by lia.
  change (2 ^ 4) with 16. wrap_lia.
Qed.

(** A written address goes where the version has it; with [id > 0] the
    identification of an IPv4 header is written too. *)
Definition set_id (id : Z) : list Z :=
  if (ipver arr =? 4) && (0 <? id) then put arr 4 (bytes16 id) else arr.

Lemma zlen_set_id id : zlen (set_id id) = zlen arr.
Proof. pose proof header_cap. unfold set_id. case_match; [by rewrite zlen_put16 by lia|done]. Qed.

Lemma SetIPAddrs_ok id src dst :
  (forall v, src = Some v -> zlen v = addr_len (ipver arr)) ->
  (forall v, dst = Some v -> zlen v = addr_len (ipver arr)) ->
  SetIPAddrs arr len id src dst =
    Ret (copy_addr (copy_addr (set_id id) (src_off (ipver arr)) src) (dst_off (ipver arr)) dst, None).
Proof.
  intros Hs Hd. unfold SetIPAddrs. destruct first_byte_ok as (b0 & E0 & -> & Hv & Hb0).
  pose proof header_cap as Hc20. destruct Hh as [Hb Hl Hver Hcap]. cbn [mbind outcome_bind].
  assert (forall k v, (forall w, v = Some w -> zlen w = k) -> len_differs k v = false) as HL.
  { intros k [w|] Hw; [|done]. cbn. rewrite (Hw w eq_refl), Z.eqb_refl. done. }
  unfold set_id. rewrite <- Hv in *. unfold hdr_min, src_off, dst_off, addr_len in *.
  destruct Hver as [Ev|Ev]; rewrite Ev in *; cbn [Z.eqb Pos.eqb andb] in *;
    rewrite !ipaddr_sub_ok by lia; cbn [mbind outcome_bind].
  - destruct (0 <? id); cbn [mbind outcome_bind].
    + rewrite PutUint16_ok by lia.
      cbn [mbind outcome_bind]. by rewrite !HL.
    + by rewrite !HL.
  - by rewrite !HL.
Qed.
End Header.

(** Addresses and identification round trip. Writing a destination (and a
    source) of the right length into an IP header of version 4 or 6 succeeds,
    reading gives back what was written, what was not written is as before, and
    no byte outside the address fields and the IPv4 identification changes. *)
Lemma ipaddr_roundtrip arr len id src dst
  (Hh : ip_header arr len) (Hid : is_u16 id) (Hdb : is_bytes dst)
  (Hdl : zlen dst = addr_len (ipver arr))
  (Hsb : is_bytes (default [] src)) (Hsl : forall v, src = Some v -> zlen v = addr_len (ipver arr)) :
  exists arr', SetIPAddrs arr len id src (Some dst) = Ret (arr', None) /\
    zlen arr' = zlen arr /\ is_bytes arr' /\
    GetIPAddr arr' len = Ret (mkIpaddrs (default (ip_src (addrs_of arr)) src) dst
      (if (ipver arr =? 4) && (0 <? id) then id else ip_id (addrs_of arr))
      (ip_end (addrs_of arr)), None) /\
    forall i, ~ src_off (ipver arr) <= i < hdr_min (ipver arr) ->
      ~ (ipver arr = 4 /\ 4 <= i < 6) -> zget arr' i = zget arr i.
Proof.
  pose proof (header_cap _ _ Hh) as Hc20. rewrite (SetIPAddrs_ok arr len Hh) by naive_solver.
  eexists. split; [done|]. set (v := ipver arr) in *.
  pose proof (zlen_set_id arr len Hh id) as Hli. set (a0 := set_id arr id) in *.
  assert (is_bytes a0) as Hb0 by (unfold a0, set_id; case_match; apply Hh || eauto using ih_bytes with bytes).
  destruct Hh as [Hb Hl Hver Hcap]. fold v in Hver, Hcap.
  assert (0 <= src_off v /\ src_off v + addr_len v = dst_off v /\ 6 <= src_off v /\ 0 <= addr_len v) as (Hs0 & Hsd & Hs6 & Hk).
  { unfold src_off, dst_off, addr_len. bool_cases; lia. }
  unfold hdr_min in *. set (s := src_off v) in *. set (d := dst_off v) in *. set (k := addr_len v) in *.
  set (a1 := copy_addr a0 s src).
  assert (zlen a1 = zlen arr /\ is_bytes a1) as [Hl1 Hb1].
  { unfold a1. destruct src as [w|]; cbn [copy_addr default] in *; [|done].
    rewrite zlen_put by (rewrite ?(Hsl w eq_refl); lia). split; [done|auto with bytes]. }
  cbn [copy_addr]. assert (zlen (put a1 d dst) = zlen arr) as Hl2 by (rewrite zlen_put; lia).
  split; [done|]. split; [auto with bytes|].
  assert (forall i, ~ (s <= i < d + k) -> ~ (v = 4 /\ 4 <= i < 6) -> zget (put a1 d dst) i = zget arr i) as Hout.
  { intros i Hi1 Hi2. rewrite zget_put_out by lia.
    assert (zget a1 i = zget a0 i) as ->.
    { unfold a1. destruct src as [w|]; [|done]. specialize (Hsl w eq_refl). cbn [copy_addr].
      rewrite zget_put_out; lia || done. }
    unfold a0, set_id. fold v. destruct (Z.eqb_spec v 4); cbn [andb]; [|done].
    case_match; [|done]. rewrite zget_put_out by (change (zlen (bytes16 id)) with 2; lia). done. }
  split; [|exact Hout].
  assert (ipver (put a1 d dst) = v) as Ev by (unfold v, ipver; rewrite Hout by lia; done).
  rewrite GetIPAddr_ok.
  2:{ split; [auto with bytes|done|by rewrite Ev|]. rewrite Ev. unfold hdr_min. fold d k. lia. }
  unfold addrs_of. rewrite Ev. fold v. cbn [ip_src ip_id ip_end]. fold s d k.
  rewrite Hout by lia. do 3 f_equal.
  - rewrite slice_put_out by lia. unfold a1.
    destruct src as [w|]; cbn [copy_addr default].
    + specialize (Hsl w eq_refl). rewrite <- Hsl. change (slice (put a0 s w) s (s + zlen w) = w).
      apply slice_put_in; lia.
    + unfold a0, set_id. case_match; [|done]. apply slice_put_out; change (zlen (bytes16 id)) with 2; lia.
  - rewrite <- Hdl. apply slice_put_in; lia.
  - destruct (Z.eqb_spec v 4) as [E4|]; [|done]. cbn [andb]. rewrite be16_put_out by lia.
    assert (be16 a1 4 = be16 a0 4) as ->.
    { unfold a1. destruct src as [w|]; [|done]. specialize (Hsl w eq_refl). cbn [copy_addr].
      apply be16_put_out; lia. }
    unfold a0, set_id. fold v. rewrite E4. cbn [Z.eqb Pos.eqb andb]. case_match; [|done].
    apply be16_put; done || lia.
Qed.

Definition demo_ip4 : list Z :=
  [69; 0; 0; 40; 0; 7; 0; 0; 64; 6; 0; 0; 10; 0; 0; 1; 10; 0; 0; 2] ++ replicate 20 0.

End IpAddr.
