(* ===== verification/Ipv4.v ===== *)
(** * IPv4 headers ([src/ipv4/frame.go], [src/ipv4/definitions.go])

    A [Frame] is the buffer it wraps; setters return the new buffer. Accesses are
    checked against the length of the buffer. [String] and the address
    formatting are display only and left out. *)
From S2P Require Import Prelude Errors Bytes Validation Checksum.

Module Ipv4.
Import Bytes Validation Checksum.

Definition MinimumMTU : Z := 68.
Definition sizeHeader : Z := 20.

(** ** Addresses, type of service and fragmentation flags *)

Definition IsMulticast (addr : list Z) : bool := Z.land (default 0 (zget addr 0)) 240 =? 224.
Definition UnspecifiedAddr : list Z := [0; 0; 0; 0].
Definition BroadcastAddr : list Z := [255; 255; 255; 255].
Definition IsBroadcast (addr : list Z) : bool := bool_decide (addr = BroadcastAddr).
Definition IsLinkLocal (addr : list Z) : bool :=
  (default 0 (zget addr 0) =? 169) && (default 0 (zget addr 1) =? 254).

Definition NewToS (ECN DS : Z) : outcome Z :=
  if (3 <? ECN) || (63 <? DS) then Panic else Ret (Z.lor ECN (u8 (Z.shiftl DS 2))).
Definition DS (tos : Z) : Z := Z.shiftr tos 2.
Definition ECN (tos : Z) : Z := Z.land tos 3.

Definition flagIsEvilPos : Z := 13.
Definition flagDontFragPos : Z := 14.
Definition flagMoreFragPos : Z := 15.
Definition FlagOffsetMask : Z := Z.shiftl 1 flagIsEvilPos - 1.
Definition flagIsEvil : Z := Z.shiftl 1 flagIsEvilPos.
Definition FlagDontFragment : Z := Z.shiftl 1 flagDontFragPos.
Definition FlagMoreFragments : Z := Z.shiftl 1 flagMoreFragPos.

Definition b2u8 (b : bool) : Z := if b then 1 else 0.
Definition NewFlags (fragOffset : Z) (dontFrag moreFrag : bool) : outcome Z :=
  if FlagOffsetMask <? fragOffset then Panic
  else Ret (Z.lor (Z.lor fragOffset (u16 (Z.shiftl (b2u8 dontFrag) flagDontFragPos)))
                  (u16 (Z.shiftl (b2u8 moreFrag) flagMoreFragPos))).
Definition IsEvil (f : Z) : bool := negb (Z.land f flagIsEvil =? 0).
Definition DontFragment (f : Z) : bool := negb (Z.land f FlagDontFragment =? 0).
Definition MoreFragments (f : Z) : bool := negb (Z.land f FlagMoreFragments =? 0).
Definition FragmentOffset (f : Z) : Z := Z.land f FlagOffsetMask.

(** ** The header *)

Definition Frame : Type := list Z.

Definition NewFrame (buf : list Z) : option Frame * option error :=
  if zlen buf <? sizeHeader then (None, Some ErrTruncatedFrame) else (Some buf, None).
Definition RawData (ifrm : Frame) : list Z := ifrm.

Definition ihl (ifrm : Frame) : outcome Z := b ← at_ ifrm 0; Ret (Z.land b 15).
Definition version (ifrm : Frame) : outcome Z := b ← at_ ifrm 0; Ret (Z.shiftr b 4).
Definition HeaderLength (ifrm : Frame) : outcome Z := i ← ihl ifrm; Ret (i * 4).
Definition VersionAndIHL (ifrm : Frame) : outcome (Z * Z) :=
  v ← at_ ifrm 0; Ret (Z.shiftr v 4, Z.land v 15).
Definition SetVersionAndIHL (version IHL : Z) (ifrm : Frame) : outcome Frame :=
  put_checked ifrm 0 [Z.lor (u8 (Z.shiftl version 4)) (Z.land IHL 15)].
Definition ToS (ifrm : Frame) : outcome Z := at_ ifrm 1.
Definition SetToS (tos : Z) (ifrm : Frame) : outcome Frame := put_checked ifrm 1 [tos].
Definition TotalLength (ifrm : Frame) : outcome Z := Uint16 ifrm 2.
Definition SetTotalLength (tl : Z) (ifrm : Frame) : outcome Frame := PutUint16 ifrm 2 tl.
Definition ID (ifrm : Frame) : outcome Z := Uint16 ifrm 4.
Definition SetID (id : Z) (ifrm : Frame) : outcome Frame := PutUint16 ifrm 4 id.
Definition Flags (ifrm : Frame) : outcome Z := Uint16 ifrm 6.
Definition SetFlags (flags : Z) (ifrm : Frame) : outcome Frame := PutUint16 ifrm 6 flags.
Definition TTL (ifrm : Frame) : outcome Z := at_ ifrm 8.
Definition SetTTL (ttl : Z) (ifrm : Frame) : outcome Frame := put_checked ifrm 8 [ttl].
Definition Protocol (ifrm : Frame) : outcome Z := at_ ifrm 9.
Definition SetProtocol (proto : Z) (ifrm : Frame) : outcome Frame := put_checked ifrm 9 [proto].
Definition CRC (ifrm : Frame) : outcome Z := Uint16 ifrm 10.
Definition SetCRC (cs : Z) (ifrm : Frame) : outcome Frame := PutUint16 ifrm 10 cs.

Definition sub (b : list Z) (i j : Z) : outcome (list Z) :=
  assert_or_panic (slice_ok b i j) (Ret (slice b i j)).

Definition CRCWriteHeader (ifrm : Frame) (crc : CRC791) : outcome CRC791 :=
  h ← sub ifrm 0 20; WriteEven h crc.
Definition CalculateHeaderCRC (ifrm : Frame) : outcome Z :=
  crc ← CRCWriteHeader ifrm (mkCRC 0); Ret (Sum16 crc).

Definition sourceAndDestinationAddr (ifrm : Frame) : outcome (list Z) := sub ifrm 12 20.
Definition CRCWriteTCPPseudo (ifrm : Frame) (crc : CRC791) : outcome CRC791 :=
  a ← sourceAndDestinationAddr ifrm;
  crc ← WriteEven a crc;
  tl ← TotalLength ifrm;
  hl ← HeaderLength ifrm;
  let crc := AddUint16 (u16 (tl - u16 hl)) crc in
  p ← Protocol ifrm;
  Ret (AddUint16 p crc).
Definition CRCWriteUDPPseudo (ifrm : Frame) (udpLength : Z) (crc : CRC791) : outcome CRC791 :=
  a ← sourceAndDestinationAddr ifrm;
  crc ← WriteEven a crc;
  let crc := AddUint16 udpLength crc in
  p ← Protocol ifrm;
  Ret (AddUint16 p crc).

Definition SourceAddr (ifrm : Frame) : outcome (list Z) := sub ifrm 12 16.
Definition SetSourceAddr (addr : list Z) (ifrm : Frame) : outcome Frame := put_checked ifrm 12 addr.
Definition DestinationAddr (ifrm : Frame) : outcome (list Z) := sub ifrm 16 20.

Definition Payload (ifrm : Frame) : outcome (list Z) :=
  off ← HeaderLength ifrm;
  l ← TotalLength ifrm;
  sub ifrm off l.
Definition Options (ifrm : Frame) : outcome (list Z) :=
  off ← HeaderLength ifrm; sub ifrm sizeHeader off.
Definition ClearHeader (ifrm : Frame) : outcome Frame :=
  put_checked ifrm 0 (replicate (Z.to_nat sizeHeader) 0).

Definition ValidateSize (ifrm : Frame) (v : Validator) : outcome Validator :=
  ihl ← ihl ifrm;
  tl ← TotalLength ifrm;
  let v := if tl <? sizeHeader then AddError ErrInvalidLengthField v else v in
  let v := if zlen (RawData ifrm) <? tl then AddError ErrTruncatedFrame v else v in
  let v := if (ihl <? 5) || (tl <? u16 (ihl * 4)) then AddError ErrInvalidLengthField v else v in
  Ret v.

Definition ValidateExceptCRC (ifrm : Frame) (v : Validator) : outcome Validator :=
  v ← ValidateSize ifrm v;
  flags ← Flags ifrm;
  ver ← version ifrm;
  let v := if negb (ver =? 4) then AddError ErrInvalidField v else v in
  let v := if negb (Z.land (vflags v) ValidateEvilBit =? 0) && IsEvil flags
           then AddError ErrPacketDrop v else v in
  Ret v.

(** ** Headers as records of fields *)

Definition byte0 (b : list Z) : Z := default 0 (zget b 0).
Definition hlen (b : list Z) : Z := 4 * (byte0 b mod 16).
Definition total (b : list Z) : Z := be16 b 2.

Definition hdr_wf (b : list Z) : Prop := is_bytes b /\ 20 <= zlen b.

(** A datagram whose sizes are consistent. *)
Record ip4_ok (b : list Z) : Prop := mkIp4Ok {
  io_wf : hdr_wf b;
  io_version : byte0 b / 16 = 4;
  io_hlen : 20 <= hlen b <= total b;
  io_total : total b <= zlen b
}.

Definition ip4_errors (vf : Z) (b : list Z) : list error :=
  (if total b <? 20 then [ErrInvalidLengthField] else []) ++
  (if zlen b <? total b then [ErrTruncatedFrame] else []) ++
  (if (hlen b <? 20) || (total b <? hlen b) then [ErrInvalidLengthField] else []) ++
  (if negb (byte0 b / 16 =? 4) then [ErrInvalidField] else []) ++
  (if negb (Z.land vf ValidateEvilBit =? 0) && IsEvil (be16 b 6) then [ErrPacketDrop] else []).

(** ** Lemmas *)

Lemma sub_ok b i j : 0 <= i <= j -> j <= zlen b -> sub b i j = Ret (slice b i j).
Proof. intros. unfold sub, assert_or_panic, slice_ok. bool_cases; done || lia. Qed.

Section Fields.
Context (b : list Z) (Hw : hdr_wf b).

Lemma at0_ok : at_ b 0 = Ret (byte0 b) /\ is_u8 (byte0 b).
Proof.
  destruct Hw as [Hb Hl]. destruct (at_ok b 0) as (x & E & Ea); [lia|]. unfold byte0. rewrite E.
  split; [exact Ea|by eapply is_bytes_zget].
Qed.
Lemma ihl_ok : ihl b = Ret (byte0 b mod 16).
Proof.
  unfold ihl. destruct at0_ok as [-> _]. cbn. f_equal. change 15 with (Z.ones 4).
  by rewrite Z.land_ones by lia.
Qed.
Lemma version_ok : version b = Ret (byte0 b / 16).
Proof. unfold version. destruct at0_ok as [-> _]. cbn. by rewrite Z.shiftr_div_pow2 by lia. Qed.
Lemma ip4_HeaderLength_ok : HeaderLength b = Ret (hlen b).
Proof. unfold HeaderLength, hlen. rewrite ihl_ok. cbn [mbind outcome_bind]. f_equal. lia. Qed.
Lemma TotalLength_ok : TotalLength b = Ret (total b).
Proof. destruct Hw. apply Uint16_ok; done || lia. Qed.
Lemma hlen_bound : 0 <= hlen b <= 60.
Proof. unfold hlen. pose proof (Z.mod_pos_bound (byte0 b) 16). lia. Qed.
Lemma total_bound : is_u16 (total b).
Proof. destruct Hw. by apply be16_bound. Qed.
Lemma Flags_ok : Flags b = Ret (be16 b 6).
Proof. destruct Hw. apply Uint16_ok; done || lia. Qed.

Lemma ip4_ValidateExceptCRC_ok v :
  ValidateExceptCRC b v = Ret (add_errors (ip4_errors (vflags v) b) v).
Proof.
  unfold ValidateExceptCRC, ValidateSize, ip4_errors, sizeHeader, RawData.
  rewrite ihl_ok, TotalLength_ok. cbn [mbind outcome_bind]. rewrite Flags_ok, version_ok.
  cbn [mbind outcome_bind]. rewrite !add_errors_app.
  replace (byte0 b mod 16 <? 5) with (hlen b <? 20) by (unfold hlen; bool_cases; lia).
  replace (u16 (byte0 b mod 16 * 4)) with (hlen b) by (pose proof hlen_bound; unfold hlen in *; wrap_lia).
  assert (forall (c : bool) e w, (if c then AddError e w else w) = add_errors (if c then [e] else []) w) as HA
    by (by intros []).
  rewrite !HA. do 2 f_equal. by rewrite !vflags_add_errors.
Qed.
End Fields.

Lemma ip4_errors_nil vf b : hdr_wf b ->
  ip4_errors vf b = [] <->
  ip4_ok b /\ negb (Z.land vf ValidateEvilBit =? 0) && IsEvil (be16 b 6) = false.
Proof.
  intros Hw. unfold ip4_errors. split.
  - intros (E1 & (E2 & (E3 & (E4 & E5)%app_eq_nil)%app_eq_nil)%app_eq_nil)%app_eq_nil.
    split; [|by destruct (_ && _)]. revert E1 E2 E3 E4. by bool_cases; cbn.
  - intros [[_ Hv Hh Ht] ->]. rewrite Hv. cbn [app]. bool_cases; lia || done.
Qed.

Lemma ip4_Payload_ok b : ip4_ok b -> Payload b = Ret (slice b (hlen b) (total b)).
Proof.
  intros [Hw _ Hh Ht]. unfold Payload. rewrite ip4_HeaderLength_ok, TotalLength_ok by done.
  cbn [mbind outcome_bind]. apply sub_ok; lia.
Qed.
Lemma ip4_Options_ok b : ip4_ok b -> Options b = Ret (slice b 20 (hlen b)).
Proof.
  intros [Hw _ Hh Ht]. unfold Options. rewrite ip4_HeaderLength_ok by done.
  cbn [mbind outcome_bind]. apply sub_ok; unfold sizeHeader; lia.
Qed.

(** ** Checksums *)

Lemma WriteEven_ok s b : is_bytes b -> Z.even (zlen b) = true ->
  WriteEven b (mkCRC (u32 s)) = Ret (mkCRC (u32 (s + words_sum b))).
Proof. intros. unfold WriteEven. cbn [sum]. by rewrite sumWriteEven_ok. Qed.

(** The header checksum is the one of the first 20 bytes. *)
Lemma CalculateHeaderCRC_ok b : hdr_wf b ->
  CalculateHeaderCRC b = Ret (sum16 (words_sum (ztake 20 b))).
Proof.
  intros [Hb Hl]. unfold CalculateHeaderCRC, CRCWriteHeader. rewrite sub_ok by lia.
  cbn [mbind outcome_bind]. change (slice b 0 20) with (ztake 20 b).
  pose proof (words_sum_bound (ztake 20 b) ltac:(auto with bytes)) as Hw.
  rewrite zlen_ztake in Hw by lia.
  change (mkCRC 0) with (mkCRC (u32 0)). rewrite WriteEven_ok; [|auto with bytes|by rewrite zlen_ztake by lia].
  cbn [mbind outcome_bind]. unfold Sum16. cbn [sum]. do 2 f_equal. wrap_lia.
Qed.

(** The words of a pseudo-header: addresses, length, protocol. *)
Definition pseudo_sum (b : list Z) (len : Z) : Z :=
  words_sum (slice b 12 20) + len + default 0 (zget b 9).

Lemma pseudo_sum_bound b len : hdr_wf b -> is_u16 len -> 0 <= pseudo_sum b len < 2 ^ 30.
Proof.
  intros [Hb Hl] Hn. unfold pseudo_sum.
  pose proof (words_sum_bound (slice b 12 20) ltac:(auto with bytes)) as Hw.
  rewrite zlen_slice in Hw by lia. destruct (zget_some b 9) as [p Ep]; [lia|]. rewrite Ep.
  apply is_bytes_zget in Ep; [|done]. change (default 0 (Some p)) with p. wrap_lia.
Qed.

Lemma pseudo_words b len : hdr_wf b -> is_u16 len ->
  (a ← sourceAndDestinationAddr b; crc ← WriteEven a (mkCRC 0);
   let crc := AddUint16 len crc in p ← Protocol b; Ret (AddUint16 p crc)) =
  Ret (mkCRC (pseudo_sum b len)).
Proof.
  intros Hw Hn. pose proof (pseudo_sum_bound b len Hw Hn) as Hp. destruct Hw as [Hb Hl].
  unfold sourceAndDestinationAddr. rewrite sub_ok by lia. cbn [mbind outcome_bind].
  change (mkCRC 0) with (mkCRC (u32 0)).
  rewrite WriteEven_ok; [|auto with bytes|by rewrite zlen_slice by lia].
  cbn [mbind outcome_bind]. unfold Protocol. unfold pseudo_sum in *.
  destruct (at_ok b 9) as (p & Ep & ->); [lia|]. rewrite Ep in Hp |- *.
  cbn [mbind outcome_bind]. unfold AddUint16. cbn [sum]. do 2 f_equal.
  change (default 0 (Some p)) with p in *. apply is_bytes_zget in Ep; [|done].
  rewrite Z.add_0_l. wrap_lia.
Qed.

Lemma CRCWriteUDPPseudo_ok b len : hdr_wf b -> is_u16 len ->
  CRCWriteUDPPseudo b len (mkCRC 0) = Ret (mkCRC (pseudo_sum b len)).
Proof. apply pseudo_words. Qed.

Lemma CRCWriteTCPPseudo_ok b : ip4_ok b ->
  CRCWriteTCPPseudo b (mkCRC 0) = Ret (mkCRC (pseudo_sum b (total b - hlen b))).
Proof.
  intros [Hw Hv Hh Ht]. pose proof (total_bound b Hw) as Htb. pose proof (hlen_bound b) as Hhb.
  rewrite <- pseudo_words by (done || wrap_lia).
  unfold CRCWriteTCPPseudo. rewrite TotalLength_ok, ip4_HeaderLength_ok by done.
  cbn [mbind outcome_bind]. replace (u16 (total b - u16 (hlen b))) with (total b - hlen b) by wrap_lia.
  done.
Qed.

(** validation of IPv4 headers is exact. For every buffer of at least 20 bytes,
    starting from an empty accumulator, [ValidateExceptCRC] reports nothing exactly
    when the version is 4, header length and total length are consistent with each
    other and with the buffer, and (if the validator asks for it) the evil bit is
    clear; a header that passed has options and payload without a panic, and they
    are the bytes between the fixed header and the total length. *)
Theorem ip4_validation_exact b vf (Hb : is_bytes b) (Hl : 20 <= zlen b) :
  exists f v, NewFrame b = (Some f, None) /\ ValidateExceptCRC f (mkValidator [] vf) = Ret v /\
    (snd (ErrPop v) = None <->
      ip4_ok b /\ negb (Z.land vf ValidateEvilBit =? 0) && IsEvil (be16 b 6) = false) /\
    (snd (ErrPop v) = None -> exists opts payload,
      Options f = Ret opts /\ Payload f = Ret payload /\
      ztake (total b) b = ztake 20 b ++ opts ++ payload).
Proof.
  assert (hdr_wf b) as Hw by done.
  exists b, (add_errors (ip4_errors vf b) (mkValidator [] vf)).
  split; [unfold NewFrame, sizeHeader; bool_cases; lia || done|].
  split; [by rewrite ip4_ValidateExceptCRC_ok|].
  rewrite ErrPop_add_errors, ip4_errors_nil by done. split; [done|].
  intros [Hok _]. pose proof (io_hlen _ Hok) as Hh. pose proof (io_total _ Hok) as Ht.
  exists (slice b 20 (hlen b)), (slice b (hlen b) (total b)).
  split; [by apply ip4_Options_ok|]. split; [by apply ip4_Payload_ok|].
  apply zlist_eq; [rewrite !zlen_app, !zlen_slice, !zlen_ztake by lia; lia|].
  intros i Hi. rewrite zlen_ztake in Hi by lia. rewrite zget_ztake by lia. destruct (decide (i < 20)).
  - rewrite zget_app_l by (rewrite zlen_ztake; lia). by rewrite zget_ztake by lia.
  - rewrite zget_app_r by (rewrite zlen_ztake; lia). rewrite zlen_ztake by lia.
    destruct (decide (i < hlen b)).
    + rewrite zget_app_l, zget_slice by (rewrite ?zlen_slice; lia). f_equal. lia.
    + rewrite zget_app_r by (rewrite zlen_slice; lia). rewrite zlen_slice, zget_slice by lia.
      f_equal. lia.
Qed.

(** A header of 24 bytes with four option bytes, checksummed over all of it. *)
Definition demo_options_header : list Z :=
  [70; 0; 0; 24; 0; 1; 64; 0; 64; 6; 145; 216; 10; 0; 0; 1; 10; 0; 0; 2; 148; 4; 0; 0].

(** divergences from RFC 791. The header checksum covers 20 bytes whatever the
    header length, so a correct header with options does not verify; and the
    more-fragments bit of the wire (0x2000) is read as the evil bit, while
    [MoreFragments] looks at the reserved one (0x8000). *)
Theorem ip4_rfc791_divergences :
  (ip4_ok demo_options_header /\
   PayloadSum16 (ztake (hlen demo_options_header) demo_options_header) (mkCRC 0) = Ret 0 /\
   CalculateHeaderCRC demo_options_header <> Ret 0) /\
  MoreFragments 8192 = false /\ IsEvil 8192 = true /\ MoreFragments 32768 = true.
Proof.
  split; [|done]. split; [|by vm_compute]. split; [split; by_compute|by_compute..].
Qed.

Lemma ip4_validation_exact_witness :
  exists f v, NewFrame demo_options_header = (Some f, None) /\
    ValidateExceptCRC f (mkValidator [] 0) = Ret v /\ snd (ErrPop v) = None.
Proof.
  destruct (ip4_validation_exact demo_options_header 0) as (f & v & H1 & H2 & H3 & _); [by_compute..|].
  exists f, v. split; [exact H1|]. split; [exact H2|]. apply H3.
  split; [split; [split; by_compute|by_compute..]|done].
Defined.

End Ipv4.
