(* ===== verification/Udp.v ===== *)
(** * UDP frames ([src/udp/frame.go]) *)
From S2P Require Import Prelude Errors Bytes Validation Ipv4.

Module Udp.
Import Bytes Validation.

Definition sizeHeader : Z := 8.
Definition Frame : Type := list Z.

(** The frame is returned beside the error too. *)
Definition NewFrame (buf : list Z) : Frame * option error :=
  if zlen buf <? sizeHeader then (buf, Some ErrTruncatedFrame) else (buf, None).
Definition RawData (ufrm : Frame) : list Z := ufrm.

Definition SourcePort (ufrm : Frame) : outcome Z := Uint16 ufrm 0.
Definition SetSourcePort (src : Z) (ufrm : Frame) : outcome Frame := PutUint16 ufrm 0 src.
Definition DestinationPort (ufrm : Frame) : outcome Z := Uint16 ufrm 2.
Definition SetDestinationPort (dst : Z) (ufrm : Frame) : outcome Frame := PutUint16 ufrm 2 dst.
Definition Length (ufrm : Frame) : outcome Z := Uint16 ufrm 4.
Definition SetLength (length : Z) (ufrm : Frame) : outcome Frame := PutUint16 ufrm 4 length.
Definition CRC (ufrm : Frame) : outcome Z := Uint16 ufrm 6.
Definition SetCRC (checksum : Z) (ufrm : Frame) : outcome Frame := PutUint16 ufrm 6 checksum.

Definition Payload (ufrm : Frame) : outcome (list Z) :=
  l ← Length ufrm; Ipv4.sub ufrm sizeHeader l.
Definition ClearHeader (frm : Frame) : outcome Frame :=
  put_checked frm 0 (replicate (Z.to_nat sizeHeader) 0).

Definition ValidateSize (ufrm : Frame) (v : Validator) : outcome Validator :=
  ul ← Length ufrm;
  let v := if ul <? sizeHeader then AddError ErrInvalidLengthField v else v in
  let v := if zlen (RawData ufrm) <? ul then AddError ErrTruncatedFrame v else v in
  Ret v.

(** ** Lemmas *)

Definition udp_errors (b : list Z) : list error :=
  (if be16 b 4 <? 8 then [ErrInvalidLengthField] else []) ++
  (if zlen b <? be16 b 4 then [ErrTruncatedFrame] else []).

Lemma Length_ok b : is_bytes b -> 8 <= zlen b -> Length b = Ret (be16 b 4).
Proof. intros. apply Uint16_ok; done || lia. Qed.

Lemma udp_ValidateSize_ok b v : is_bytes b -> 8 <= zlen b ->
  ValidateSize b v = Ret (add_errors (udp_errors b) v).
Proof.
  intros. unfold ValidateSize, udp_errors, sizeHeader, RawData. rewrite Length_ok by done. cbn.
  by repeat case_match.
Qed.

Lemma udp_errors_nil b : udp_errors b = [] <-> 8 <= be16 b 4 <= zlen b.
Proof. unfold udp_errors. bool_cases; cbn; split; intros; done || lia. Qed.

(** A datagram whose length field is right has a payload. *)
Lemma udp_Payload_ok b : is_bytes b -> 8 <= be16 b 4 <= zlen b ->
  Payload b = Ret (slice b 8 (be16 b 4)).
Proof.
  intros Hb Hl. unfold Payload. rewrite Length_ok by (done || lia). cbn [mbind outcome_bind].
  apply Ipv4.sub_ok; unfold sizeHeader; lia.
Qed.

End Udp.
