(* ===== verification/RstQueue.v ===== *)
(** * Stateless resets ([src/tcp/rst.go])

    [RSTQueue] holds up to four resets for segments that no connection takes. The
    array [buf] is a list of four entries; only the first [len] are meaningful. *)
From S2P Require Import Prelude Errors Bytes SeqNum Segment Frame IpAddr Validation.

Module RstQueue.
Import Segment Bytes.

Record rstEntry := mkEntry {
  remoteAddr : list Z;
  e_remotePort : Z;
  e_localPort : Z;
  seq : Z;
  ack : Z;
  flags : Z
}.

Record RSTQueue := mkQueue {
  buf : list rstEntry;
  len : Z
}.

Definition zero_entry : rstEntry := mkEntry [0; 0; 0; 0] 0 0 0 0 0.
Definition zero_queue : RSTQueue := mkQueue (replicate 4 zero_entry) 0.

Definition Queue (srcaddr : list Z) (remotePort localPort seq ack flags : Z) (q : RSTQueue)
    : RSTQueue :=
  if (zlen srcaddr =? 4) && (len q <? zlen (buf q)) then
    mkQueue (<[Z.to_nat (len q) := mkEntry srcaddr remotePort localPort seq ack flags]> (buf q))
            (u8 (len q + 1))
  else q.

Definition Pending (q : RSTQueue) : Z := len q.

(** The queue, the carrier buffer, the number of bytes written and the error. *)
Definition Drain (carrierData : list Z) (offsetToIP offsetToFrame : Z) (q : RSTQueue)
    : outcome (RSTQueue * list Z * Z * option error) :=
  if (len q =? 0) || (offsetToIP <? 0) then Ret (q, carrierData, 0, None)
  else
    let q := mkQueue (buf q) (u8 (len q - 1)) in
    match buf q !! Z.to_nat (len q) with
    | None => Panic
    | Some entry =>
    assert_or_panic (slice_ok carrierData offsetToFrame (zlen carrierData))
    match Frame.NewFrame (zdrop offsetToFrame carrierData) with
    | (None, _) => Ret (q, carrierData, 0, None)
    | (Some tfrm, _) =>
        tfrm ← Frame.write_header (e_localPort entry) (e_remotePort entry)
                 {| SEQ := seq entry; ACK := ack entry; DATALEN := 0; WND := 0;
                    Flags := flags entry |} 5 tfrm;
        let carrierData := ztake offsetToFrame carrierData ++ Frame.buf tfrm in
        assert_or_panic (slice_ok carrierData offsetToIP offsetToFrame)
        ('(ip, err) ← IpAddr.SetIPAddrs (zdrop offsetToIP carrierData)
                        (offsetToFrame - offsetToIP) 0 None (Some (remoteAddr entry));
         let carrierData := ztake offsetToIP carrierData ++ ip in
         match err with
         | Some _ => Ret (q, carrierData, 0, None)
         | None => Ret (q, carrierData, Frame.sizeHeaderTCP, None)
         end)
    end
    end.

(** ** Lemmas *)

Record queue_ok (q : RSTQueue) : Prop := mkQueueOk {
  qo_buf : length (buf q) = 4%nat;
  qo_len : 0 <= len q <= 4
}.

Lemma Queue_ok srcaddr rp lp s a f q : queue_ok q -> queue_ok (Queue srcaddr rp lp s a f q).
Proof.
  intros [Hb Hl]. unfold Queue. destruct (_ && _) eqn:E; [|done].
  apply andb_prop in E as [_ E]. apply Z.ltb_lt in E. unfold zlen in E. rewrite Hb in E.
  split; cbn [buf len]; [by rewrite length_insert|wrap_lia].
Qed.

(** The entries waiting, the next one to be drained last. *)
Definition waiting (q : RSTQueue) : list rstEntry := take (Z.to_nat (len q)) (buf q).

Lemma Queue_waiting srcaddr rp lp s a f q : queue_ok q ->
  waiting (Queue srcaddr rp lp s a f q) =
    if (zlen srcaddr =? 4) && (len q <? 4)
    then waiting q ++ [mkEntry srcaddr rp lp s a f] else waiting q.
Proof.
  intros [Hb Hl]. unfold Queue. replace (zlen (buf q)) with 4 by (unfold zlen; rewrite Hb; done).
  destruct (_ && _) eqn:E; [|done]. apply andb_prop in E as [_ E%Z.ltb_lt].
  unfold waiting. cbn [buf len]. replace (Z.to_nat (u8 (len q + 1))) with (S (Z.to_nat (len q))) by wrap_lia.
  rewrite (take_S_r _ _ (mkEntry srcaddr rp lp s a f)).
  - by rewrite take_insert_ge by lia.
  - apply list_lookup_insert_eq. lia.
Qed.

Definition entry_segment (e : rstEntry) : Segment :=
  {| SEQ := seq e; ACK := ack e; DATALEN := 0; WND := 0; Flags := flags e |}.

Record entry_ok (e : rstEntry) : Prop := mkEntryOk {
  eo_addr : is_bytes (remoteAddr e);
  eo_alen : zlen (remoteAddr e) = 4;
  eo_rport : is_u16 (e_remotePort e);
  eo_lport : is_u16 (e_localPort e);
  eo_seq : is_u32 (seq e);
  eo_ack : is_u32 (ack e);
  eo_flags : 0 <= flags e < 512
}.

(** A carrier with an IPv4 header between the offsets and room for a frame. *)
Record carrier_ok (c : list Z) (oip off : Z) : Prop := mkCarrierOk {
  co_bytes : is_bytes c;
  co_ip : 0 <= oip;
  co_hdr : oip + 20 <= off;
  co_room : off + 20 <= zlen c;
  co_ver : IpAddr.ipver (zdrop oip c) = 4
}.

Section Drain.
Context (c : list Z) (oip off : Z) (Hc : carrier_ok c oip off).
Context (e : rstEntry) (He : entry_ok e).

(** The carrier with the frame written, before the address is. *)
Let hb := Frame.header_bytes (zdrop off c) (e_localPort e) (e_remotePort e) (entry_segment e) 5.
Let c0 := ztake off c ++ hb.

Lemma frame_written :
  Frame.write_header (e_localPort e) (e_remotePort e) (entry_segment e) 5 (Frame.mkFrame (zdrop off c)) =
    Ret (Frame.mkFrame hb) /\
  zlen hb = zlen c - off /\ is_bytes hb /\ zlen c0 = zlen c /\ is_bytes c0.
Proof.
  destruct Hc as [Hb Hi Hh Hr _], He as [_ _ Hrp Hlp Hs Ha Hf].
  destruct (Frame.write_header_ok (zdrop off c) (e_localPort e) (e_remotePort e) (entry_segment e) 5)
    as (Hw & HL & HB); auto with bytes; try (cbn; wrap_lia).
  { rewrite zlen_zdrop; lia. }
  rewrite zlen_zdrop in HL by lia. split_and!; auto.
  - unfold c0. rewrite zlen_app, zlen_ztake by lia. unfold hb. lia.
  - unfold c0. auto with bytes.
Qed.

Lemma Drain_ok q rest : queue_ok q -> waiting q = rest ++ [e] ->
  exists q' c' ip, Drain c oip off q = Ret (q', c', 20, None) /\
    queue_ok q' /\ waiting q' = rest /\ zlen c' = zlen c /\
    zdrop off c' = hb /\ is_bytes c' /\
    IpAddr.GetIPAddr (zdrop oip c') (off - oip) = Ret (ip, None) /\ IpAddr.ip_dst ip = remoteAddr e /\
    IpAddr.ip_src ip = slice c (oip + 12) (oip + 16) /\ ztake oip c' = ztake oip c.
Proof.
  intros [Hqb Hql] Hw. destruct frame_written as (Hwr & Hlh & Hbh & Hl0 & Hb0).
  destruct Hc as [Hb Hi Hh Hr Hv].
  assert (length (waiting q) = Z.to_nat (len q)) as Hlw by (unfold waiting; rewrite length_take; lia).
  rewrite Hw, length_app in Hlw. cbn [length] in Hlw.
  assert (buf q !! length rest = Some e) as Hlook.
  { assert (waiting q !! length rest = Some e) as Hx by (rewrite Hw; by apply list_lookup_middle).
    unfold waiting in Hx. rewrite lookup_take_lt in Hx by lia. done. }
  assert (u8 (len q - 1) = Z.of_nat (length rest)) as Hlen by wrap_lia.
  set (arr := zdrop oip c0).
  assert (forall i, 0 <= i < off - oip -> zget arr i = zget c (oip + i)) as Harr.
  { intros i Hi'. unfold arr. rewrite zget_zdrop by lia. unfold c0.
    rewrite zget_app_l by (rewrite zlen_ztake; lia). by rewrite zget_ztake by lia. }
  assert (IpAddr.ipver arr = 4) as Hva.
  { rewrite <- Hv. unfold IpAddr.ipver. rewrite Harr by lia. by rewrite zget_zdrop by lia. }
  assert (IpAddr.ip_header arr (off - oip)) as Hip.
  { split; [unfold arr; auto with bytes|lia|by left|]. rewrite Hva. unfold arr.
    rewrite zlen_zdrop by lia. change (IpAddr.hdr_min 4) with 20. lia. }
  destruct He as [Ha Hal _ _ _ _ _].
  destruct (IpAddr.ipaddr_roundtrip arr (off - oip) 0 None (remoteAddr e) Hip)
    as (arr' & Hset & Hla & Hba & Hget & Hout); [wrap_lia|done|by rewrite Hva|by constructor|done|].
  assert (zlen arr = zlen c - oip) as Hlarr by (unfold arr; rewrite zlen_zdrop; lia).
  exists (mkQueue (buf q) (Z.of_nat (length rest))), (ztake oip c0 ++ arr'). eexists. split.
  { unfold Drain. destruct (Z.eqb_spec (len q) 0); [lia|]. destruct (Z.ltb_spec oip 0); [lia|].
    cbn [orb buf len]. rewrite Hlen, Nat2Z.id, Hlook.
    unfold assert_or_panic, slice_ok. bool_cases; try lia. cbn [andb].
    unfold Frame.NewFrame, Frame.sizeHeaderTCP. rewrite zlen_zdrop by lia. bool_cases; [lia|].
    unfold entry_segment in Hwr. rewrite Hwr. cbn [mbind outcome_bind Frame.buf].
    fold c0 arr. rewrite Hl0. bool_cases; try lia. cbn [andb]. rewrite Hset. done. }
  assert (zlen (ztake oip c0) = oip) as Hlt by (rewrite zlen_ztake; lia).
  split; [split; cbn [buf len]; [done|lia]|]. split.
  { unfold waiting in *. cbn [buf len]. rewrite Nat2Z.id.
    replace (Z.to_nat (len q)) with (length rest + 1)%nat in Hw by lia.
    apply (f_equal (take (length rest))) in Hw. rewrite take_take, take_app_length in Hw.
    rewrite <- Hw at 2. f_equal. lia. }
  split; [rewrite zlen_app; lia|]. rewrite (zdrop_app_exact oip) by done. split.
  { apply zlist_eq; [rewrite zlen_zdrop, zlen_app by (rewrite ?zlen_app; lia); lia|].
    intros i Hi'. rewrite zlen_zdrop in Hi' by (rewrite ?zlen_app; lia). rewrite zlen_app in Hi'.
    rewrite zget_zdrop by lia. rewrite zget_app_r by lia. rewrite Hlt.
    rewrite Hout; [|rewrite Hva; change (IpAddr.hdr_min 4) with 20; lia|lia].
    unfold arr. rewrite zget_zdrop by lia. unfold c0. rewrite zget_app_r by (rewrite zlen_ztake; lia).
    rewrite zlen_ztake by lia. f_equal. lia. }
  split; [auto with bytes|].
  split; [exact Hget|]. cbn [IpAddr.ip_dst IpAddr.ip_src]. split; [done|]. split.
  - unfold IpAddr.addrs_of. cbn [IpAddr.ip_src default]. rewrite Hva.
    change (IpAddr.src_off 4) with 12. change (IpAddr.addr_len 4) with 4. cbn [from_option].
    change (slice arr 12 (12 + 4) = slice c (oip + 12) (oip + 16)).
    apply zlist_eq; rewrite zlen_slice by lia; [rewrite zlen_slice; lia|].
    intros i Hi'. rewrite !zget_slice by lia. rewrite Harr by lia. f_equal. lia.
  - rewrite ztake_app_exact by done. apply zlist_eq; rewrite !zlen_ztake by lia; [done|].
    intros i Hi'. unfold c0. rewrite !zget_ztake by lia. rewrite zget_app_l by (rewrite zlen_ztake; lia).
    by rewrite zget_ztake by lia.
Qed.

End Drain.

(** What a drained reset looks like: one valid 20-byte frame with ports, numbers and
    flags as queued, no options and no payload, addressed to the sender; the
    source address and all that precedes the IP header are untouched. *)
Record answers (c : list Z) (oip off : Z) (e : rstEntry) (c' : list Z) : Prop := mkAnswers {
  an_len : zlen c' = zlen c;
  an_before : ztake oip c' = ztake oip c;
  an_addr : exists ip, IpAddr.GetIPAddr (zdrop oip c') (off - oip) = Ret (ip, None) /\
    IpAddr.ip_dst ip = remoteAddr e /\ IpAddr.ip_src ip = slice c (oip + 12) (oip + 16);
  an_frame : let f := Frame.mkFrame (slice c' off (off + 20)) in
    Frame.ValidateExceptCRC f (Validation.mkValidator [] 0) = Ret (Validation.mkValidator [] 0) /\
    Frame.SourcePort f = Ret (e_localPort e) /\ Frame.DestinationPort f = Ret (e_remotePort e) /\
    Frame.Payload f = Ret [] /\ Frame.Options f = Ret [] /\
    Frame.getSegment 0 f = Ret (entry_segment e)
}.

Lemma Drain_answers c oip off q rest e :
  carrier_ok c oip off -> entry_ok e -> queue_ok q -> waiting q = rest ++ [e] ->
  e_remotePort e <> 0 -> e_localPort e <> 0 ->
  exists q' c', Drain c oip off q = Ret (q', c', 20, None) /\
    queue_ok q' /\ waiting q' = rest /\ answers c oip off e c'.
Proof.
  intros Hc He Hq Hw Hrp Hlp. pose proof He as [Hab Hal Hr Hl Hs Ha Hf].
  destruct (Drain_ok c oip off Hc e He q rest Hq Hw)
    as (q' & c' & ip & HD & Hq' & Hw' & HL & Hh & HB & Hg & Hd & Hsr & Ht).
  exists q', c'. do 3 (split; [done|]). split; [done|done|by exists ip|].
  destruct Hc as [Hb Hi Hhd Hroom _].
  set (b20 := slice c off (off + 20)).
  assert (zlen b20 = 20) as Hl20 by (unfold b20; rewrite zlen_slice; lia).
  assert (is_bytes b20) as Hb20 by (unfold b20; auto with bytes).
  assert (slice c' off (off + 20) =
          Frame.header_bytes b20 (e_localPort e) (e_remotePort e) (entry_segment e) 5) as ->.
  { unfold slice at 1. rewrite Hh. replace (off + 20 - off) with 20 by lia. unfold b20.
    change (slice c off (off + 20)) with (ztake (off + 20 - off) (zdrop off c)).
    replace (off + 20 - off) with 20 by lia. symmetry.
    apply Frame.header_bytes_ztake. rewrite zlen_zdrop; lia. }
  assert (seg_wf (entry_segment e)) as Hwf by (split_and!; cbn; wrap_lia).
  destruct (Frame.frame_header_roundtrip b20 (e_localPort e) (e_remotePort e) (entry_segment e) 5 0)
    as (f & F0 & F1 & F2 & F3 & F4 & F5 & F6 & F7); auto; try lia; try (cbn; wrap_lia).
  destruct (Frame.write_header_ok b20 (e_localPort e) (e_remotePort e) (entry_segment e) 5)
    as (Hwr & _); auto; try lia; try (cbn; wrap_lia).
  rewrite Hwr in F0. injection F0 as <-. split; [by apply F7|]. split; [done|]. split; [done|].
  rewrite F4, F5. split; [by rewrite zdrop_ge by lia|]. split; [done|].
  rewrite Hl20 in F6. exact F6.
Qed.

End RstQueue.
