(* ===== verification/StackNodes.v ===== *)
(** * The nodes of a stack ([src/internet/definitions.go], [StackNode] of [src/definitions.go])

    The protocol layers call each other through the interface [StackNode]. A node
    is known by a number (its identity as an object); the state of all nodes
    together is a world [W], and the class [StackNodes] has the methods of the
    interface as functions on it. [handlers] is the list of nodes of one layer,
    shared by the Ethernet, IP and port layers. *)
From S2P Require Import Prelude Errors.

Module StackNodes.

(** The interface [lneto.StackNode]. [ConnectionID] is the value behind the
    returned pointer, [None] for a nil pointer. *)
Class StackNodes (W : Type) := {
  Encapsulate : nat -> list Z -> Z -> Z -> W -> outcome (W * list Z * Z * option error);
  Demux : nat -> list Z -> Z -> W -> outcome (W * option error);
  LocalPort : nat -> W -> Z;
  Protocol : nat -> W -> Z;
  ConnectionID : nat -> W -> option Z
}.

Record node := mkNode {
  currConnID : Z;
  connID : option nat;
  callbacks : option nat;
  remoteAddr : option (list Z);
  proto : Z;
  lport : Z
}.

(** [nodes] has capacity [ncap]. *)
Record handlers := mkHandlers {
  nodes : list node;
  ncap : Z;
  encapsIdx : Z
}.

Section Nodes.
Context {W : Type} `{!StackNodes W}.

Definition with_nodes (l : list node) (h : handlers) : handlers := mkHandlers l (ncap h) (encapsIdx h).

(** [slices.Grow] chooses the capacity: [grown] is its choice when the old one is
    too small. *)
Definition reset (maxNodes grown : Z) (h : handlers) : handlers :=
  mkHandlers [] (if ncap h <? maxNodes then grown else ncap h) (encapsIdx h).

Definition IsInvalid (w : W) (n : node) : bool :=
  match callbacks n with
  | None => true
  | Some _ =>
      match connID n with
      | None => false
      | Some p => negb (currConnID n =? default 0 (ConnectionID p w))
      end
  end.

Definition destroy : node := mkNode 0 None None None 0 0.

Definition nodeFromStackNode (s : nat) (port protocol : Z) (remoteAddr : option (list Z)) (w : W)
    : outcome node :=
  if 65535 <? protocol then Panic
  else
    Ret (mkNode (default 0 (ConnectionID s w))
           (match ConnectionID s w with Some _ => Some s | None => None end)
           (Some s) remoteAddr (u16 protocol) port).

Definition full (h : handlers) : bool := ncap h =? zlen (nodes h).
Definition compact (w : W) (h : handlers) : handlers :=
  with_nodes (filter (fun n => IsInvalid w n = false) (nodes h)) h.

Definition prepAdd (w : W) (h : handlers) : handlers * option error :=
  if full h then
    let h := compact w h in
    if full h then (h, Some ErrExhausted) else (h, None)
  else (h, None).

(** The index of the first node with [p] that is valid. *)
Fixpoint find_node (w : W) (p : node -> bool) (l : list node) : option nat :=
  match l with
  | [] => None
  | n :: l => if p n && negb (IsInvalid w n) then Some O else S <$> find_node w p l
  end.
Definition nodeByProto (protocol : Z) (w : W) (h : handlers) : option nat :=
  find_node w (fun n => proto n =? protocol) (nodes h).
Definition nodeByPort (port : Z) (w : W) (h : handlers) : option nat :=
  find_node w (fun n => lport n =? port) (nodes h).
Definition nodeByPortProto (port protocol : Z) (w : W) (h : handlers) : option nat :=
  find_node w (fun n => (lport n =? port) && (proto n =? protocol)) (nodes h).

Definition add_unless (found : option nat) (n : node) (h : handlers) : handlers * option error :=
  match found with
  | Some _ => (h, Some ErrAlreadyRegistered)
  | None => (with_nodes (nodes h ++ [n]) h, None)
  end.
Definition registerByProto (n : node) (w : W) (h : handlers) : handlers * option error :=
  match prepAdd w h with
  | (h, Some e) => (h, Some e)
  | (h, None) => add_unless (nodeByProto (proto n) w h) n h
  end.
Definition registerByPortProto (n : node) (w : W) (h : handlers) : handlers * option error :=
  match prepAdd w h with
  | (h, Some e) => (h, Some e)
  | (h, None) => add_unless (nodeByPortProto (lport n) (proto n) w h) n h
  end.

(** The node after the error was looked at, and whether it was discarded. *)
Definition tryHandleError (w : W) (n : node) (err : option error) : node * bool :=
  match err with
  | None => (n, false)
  | Some e => if err_is err NetErrClosed || IsInvalid w n then (destroy, true) else (n, false)
  end.

(** [node.callbacks.Demux] of the node at index [i]. *)
Definition demux_at (i : nat) (buf : list Z) (offset : Z) (w : W) (h : handlers)
    : outcome (handlers * W * option error * bool) :=
  match nodes h !! i with
  | None => Panic
  | Some n =>
      match callbacks n with
      | None => Panic
      | Some s =>
          '(w, err) ← Demux s buf offset w;
          let '(n, gone) := tryHandleError w n err in
          Ret (with_nodes (<[i := n]> (nodes h)) h, w, if gone then None else err, gone)
      end
  end.

Definition demuxByProto (buf : list Z) (offset protocol : Z) (w : W) (h : handlers)
    : outcome (handlers * W * option nat * option error) :=
  match nodeByProto protocol w h with
  | None => Ret (h, w, None, Some ErrPacketDrop)
  | Some i => '(h, w, err, _) ← demux_at i buf offset w h; Ret (h, w, Some i, err)
  end.
Definition demuxByPort (buf : list Z) (offset port : Z) (w : W) (h : handlers)
    : outcome (handlers * W * option nat * option error) :=
  match nodeByPort port w h with
  | None => Ret (h, w, None, Some ErrPacketDrop)
  | Some i =>
      '(h, w, err, gone) ← demux_at i buf offset w h;
      Ret (h, w, if gone : bool then None else Some i, err)
  end.

(** The node, world and buffer afterwards, the bytes written and the error. *)
Definition encapsulateNode (n : node) (buf : list Z) (offsetIP offsetThisFrame : Z) (w : W)
    : outcome (node * W * list Z * Z * option error) :=
  match callbacks n with
  | None => Ret (n, w, buf, 0, None)
  | Some s =>
      if IsInvalid w n then Ret (n, w, buf, 0, None)
      else
        '(w, buf, k, err) ← Encapsulate s buf offsetIP offsetThisFrame w;
        let '(n, gone) := tryHandleError w n err in
        let err := if gone then None else err in
        if 0 <? k then Ret (n, w, buf, k, err) else Ret (n, w, buf, 0, None)
  end.

Definition incLim (v max : Z) : Z := let v := v + 1 in if v =? max then 0 else v.

(** One turn of the loop for each node; the index of the node that wrote. *)
Fixpoint any_loop (k : nat) (i : Z) (buf : list Z) (offsetIP offsetThisFrame : Z) (w : W) (h : handlers)
    : outcome (handlers * W * list Z * option nat * Z * option error) :=
  match k with
  | O => Ret (h, w, buf, None, 0, None)
  | S k =>
      match zget (nodes h) i with
      | None => Panic
      | Some n =>
          '(n, w, buf, m, err) ← encapsulateNode n buf offsetIP offsetThisFrame w;
          let h := with_nodes (<[Z.to_nat i := n]> (nodes h)) h in
          let i' := incLim i (zlen (nodes h)) in
          if (0 <? m) || bool_decide (err <> None)
          then Ret (mkHandlers (nodes h) (ncap h) i', w, buf, Some (Z.to_nat i), m, err)
          else any_loop k i' buf offsetIP offsetThisFrame w h
      end
  end.
Definition encapsulateAny (buf : list Z) (offsetIP offsetThisFrame : Z) (w : W) (h : handlers)
    : outcome (handlers * W * list Z * option nat * Z * option error) :=
  any_loop (length (nodes h)) (encapsIdx h) buf offsetIP offsetThisFrame w h.

Definition checkNodeErr (w : W) (n : node) (err : option error) : bool :=
  IsInvalid w n || err_is err NetErrClosed.

(** ** Round robin *)

Definition idx_ok (h : handlers) : Prop := 0 <= encapsIdx h < zlen (nodes h).

(** How many turns away from [idx] the node [i] is. *)
Definition turns (h : handlers) (i : nat) (idx : Z) : Z := (Z.of_nat i - idx) mod zlen (nodes h).

(** A node that always has something to send: [Inv] is an invariant of the world
    under the [Encapsulate] of every node, none of which panics, and under it the
    node [i] is valid and writes. *)
Record always_ready (Inv : W -> Prop) (offsetIP off : Z) (i : nat) (h : handlers) : Prop := mkReady {
  ar_inv : forall s buf w, Inv w -> exists r, Encapsulate s buf offsetIP off w = Ret r /\ Inv r.1.1.1;
  ar_node : exists n s, nodes h !! i = Some n /\ callbacks n = Some s /\
    forall w, Inv w -> IsInvalid w n = false /\
      forall buf, exists w' buf' m, Encapsulate s buf offsetIP off w = Ret (w', buf', m, None) /\ 0 < m
}.

Lemma incLim_mod v max : 0 <= v < max -> incLim v max = (v + 1) mod max.
Proof.
  intros. unfold incLim. bool_cases; [subst|rewrite Z.mod_small by lia; done].
  replace (v + 1) with (0 + 1 * (v + 1)) at 1 by lia. by rewrite Z_mod_plus_full.
Qed.

Lemma turns_step i idx len : 0 <= i < len -> 0 <= idx < len -> i <> idx ->
  (i - incLim idx len) mod len = (i - idx) mod len - 1.
Proof.
  intros. rewrite incLim_mod by lia. rewrite Zminus_mod_idemp_r.
  pose proof (Z.mod_pos_bound (i - idx) len ltac:(lia)).
  assert ((i - idx) mod len <> 0).
  { intros E. apply Z.mod_divide in E as [q E]; [|lia]. assert (q = 0) by nia. nia. }
  replace (i - (idx + 1)) with (i - idx - 1) by lia. rewrite <- Zminus_mod_idemp_l.
  rewrite Z.mod_small by lia. done.
Qed.

(** What a call does to a node that stays ready: it is left in place. *)
Record served (Inv : W -> Prop) (offsetIP off : Z) (i : nat) (h h' : handlers) (w' : W) : Prop := mkServed {
  sv_inv : Inv w';
  sv_ready : always_ready Inv offsetIP off i h';
  sv_len : length (nodes h') = length (nodes h);
  sv_idx : idx_ok h'
}.

Lemma encapsulateNode_spec Inv offsetIP off n buf w :
  (forall s buf w, Inv w -> exists r, Encapsulate s buf offsetIP off w = Ret r /\ Inv r.1.1.1) -> Inv w ->
  exists n' w' buf' m err, encapsulateNode n buf offsetIP off w = Ret (n', w', buf', m, err) /\
    Inv w' /\ (0 < m \/ m = 0 /\ err = None).
Proof.
  intros HI Hw. unfold encapsulateNode. destruct (callbacks n) as [s|]; [|by eauto 10].
  destruct (IsInvalid w n); [by eauto 10|].
  destruct (HI s buf w Hw) as ([[[w' buf'] m] err] & -> & Hw'). cbn in *.
  destruct (tryHandleError w' n err) as [n' gone].
  destruct (Z.ltb_spec 0 m); do 5 eexists; split; eauto.
Qed.

Lemma any_loop_serves Inv offsetIP off i k : forall idx buf w h,
  Inv w -> always_ready Inv offsetIP off i h -> 0 <= idx < zlen (nodes h) ->
  turns h i idx < Z.of_nat k ->
  exists h' w' buf' j m err, any_loop k idx buf offsetIP off w h = Ret (h', w', buf', Some j, m, err) /\
    0 < m /\ served Inv offsetIP off i h h' w' /\
    (j = i \/ turns h' i (encapsIdx h') < turns h i idx).
Proof.
  induction k as [|k IH]; intros idx buf w h Hw Hr Hidx Hk.
  { unfold turns in Hk. pose proof (Z.mod_pos_bound (Z.of_nat i - idx) (zlen (nodes h)) ltac:(lia)). lia. }
  destruct Hr as [HI (n & s & Hi & Hs & Hn)] eqn:Er. clear Er.
  assert (0 <= Z.of_nat i < zlen (nodes h)) as Hib by (apply lookup_lt_Some in Hi; unfold zlen; lia).
  cbn [any_loop]. destruct (zget_some (nodes h) idx) as [n0 E0]; [lia|]. rewrite E0.
  set (upd n := <[Z.to_nat idx := n]> (nodes h)).
  assert (forall n', zlen (upd n') = zlen (nodes h)) as Hlu by (intros; unfold upd, zlen; by rewrite length_insert).
  destruct (decide (Z.of_nat i = idx)) as [<-|Hne].
  - assert (n0 = n) as ->.
    { unfold zget in E0. destruct (Z.ltb_spec (Z.of_nat i) 0); [lia|]. rewrite Nat2Z.id in E0. congruence. }
    destruct (Hn w Hw) as [Hv He]. destruct (He buf) as (w' & buf' & m & Hen & Hm).
    destruct (HI s buf w Hw) as (r & Hr' & Hwr). rewrite Hen in Hr'. injection Hr' as <-. cbn in Hwr.
    unfold encapsulateNode. rewrite Hs, Hv, Hen. cbn [mbind outcome_bind tryHandleError].
    destruct (Z.ltb_spec 0 m); [|lia]. cbn [mbind outcome_bind orb].
    destruct (Z.ltb_spec 0 m); [|lia]. cbn [orb nodes with_nodes ncap]. fold (upd n).
    do 6 eexists. split; [done|]. split; [done|]. rewrite Nat2Z.id. split; [|by left].
    assert (upd n = nodes h) as Eu by (unfold upd; rewrite Nat2Z.id; by apply list_insert_id).
    rewrite Eu. split; [done| |done|].
    + split; [done|]. by exists n, s.
    + unfold idx_ok. cbn [nodes encapsIdx]. rewrite incLim_mod by lia. apply Z.mod_pos_bound. lia.
  - destruct (encapsulateNode_spec Inv offsetIP off n0 buf w HI Hw) as (n' & w' & buf' & m & err & -> & Hw' & Hm).
    cbn [mbind outcome_bind nodes with_nodes ncap]. fold (upd n'). rewrite Hlu.
    assert (upd n' !! i = Some n) as Hi'.
    { unfold upd. rewrite list_lookup_insert_ne by lia. done. }
    assert (turns h i (incLim idx (zlen (nodes h))) = turns h i idx - 1) as Ht by (apply turns_step; lia).
    assert (0 <= incLim idx (zlen (nodes h)) < zlen (nodes h)) as Hidx'.
    { rewrite incLim_mod by lia. apply Z.mod_pos_bound. lia. }
    destruct Hm as [Hm|[-> ->]].
    + destruct (Z.ltb_spec 0 m); [|lia]. cbn [orb].
      do 6 eexists. split; [done|]. split; [done|]. split.
      * split; [done| |by cbn; unfold upd; rewrite length_insert|by unfold idx_ok; cbn; rewrite Hlu].
        split; [done|]. by exists n, s.
      * right. unfold turns in *. cbn [nodes encapsIdx]. rewrite Hlu. lia.
    + cbn [Z.ltb Z.compare orb]. rewrite bool_decide_eq_false_2 by (by intros []).
      destruct (IH (incLim idx (zlen (nodes h))) buf' w' (with_nodes (upd n') h))
        as (h' & w2 & b2 & j & m & err & -> & Hm & [S1 S2 S3 S4] & Hj); [done| |by cbn; rewrite Hlu| |].
      * split; [done|]. by exists n, s.
      * unfold turns in *. cbn. rewrite Hlu. lia.
      * do 6 eexists. split; [done|]. split; [done|]. split.
        -- split; [done|done| |done]. rewrite S3. cbn. unfold upd. by rewrite length_insert.
        -- destruct Hj as [->|Hj]; [by left|right]. unfold turns in *. cbn in Hj. rewrite Hlu in Hj. lia.
Qed.

(** One packet per buffer; the log of the nodes that wrote. *)
Fixpoint run_calls (bufs : list (list Z)) (offsetIP off : Z) (w : W) (h : handlers)
    : outcome (handlers * W * list (option nat)) :=
  match bufs with
  | [] => Ret (h, w, [])
  | buf :: bufs =>
      '(h, w, _, who, _, _) ← encapsulateAny buf offsetIP off w h;
      '(h, w, log) ← run_calls bufs offsetIP off w h;
      Ret (h, w, who :: log)
  end.

Lemma run_calls_serve Inv offsetIP off i bufs : forall w h,
  Inv w -> always_ready Inv offsetIP off i h -> idx_ok h ->
  exists h' w' log, run_calls bufs offsetIP off w h = Ret (h', w', log) /\
    (turns h i (encapsIdx h) < Z.of_nat (length bufs) -> Some i ∈ log).
Proof.
  induction bufs as [|buf bufs IH]; intros w h Hw Hr Hidx.
  - do 3 eexists. split; [done|]. cbn. unfold turns, idx_ok in *.
    pose proof (Z.mod_pos_bound (Z.of_nat i - encapsIdx h) (zlen (nodes h)) ltac:(lia)). lia.
  - cbn [run_calls]. unfold encapsulateAny.
    destruct (any_loop_serves Inv offsetIP off i (length (nodes h)) (encapsIdx h) buf w h)
      as (h1 & w1 & b1 & j & m & err & -> & Hm & [S1 S2 S3 S4] & Hj); [done..| |].
    { unfold turns, idx_ok, zlen in *. apply Z.mod_pos_bound. lia. }
    cbn [mbind outcome_bind]. destruct (IH w1 h1 S1 S2 S4) as (h' & w' & log & -> & Hlog).
    cbn [mbind outcome_bind]. do 3 eexists. split; [done|]. intros Hlt.
    destruct Hj as [->|Hj]; [apply list_elem_of_here|]. apply list_elem_of_further, Hlog.
    cbn [length] in Hlt. lia.
Qed.

End Nodes.

(** C37: no node of a layer is starved. If a node always has something to send, then
    among any sequence of as many packets as the layer has nodes it is served at
    least once, whatever the other nodes do, and no call panics. *)
Theorem encapsulate_fair {W} `{!StackNodes W} (Inv : W -> Prop) offsetIP off i (h : handlers) w bufs
  (Hw : Inv w) (Hr : always_ready Inv offsetIP off i h) (Hidx : idx_ok h)
  (Hn : length bufs = length (nodes h)) :
  exists h' w' log, run_calls bufs offsetIP off w h = Ret (h', w', log) /\ Some i ∈ log.
Proof.
  destruct (run_calls_serve Inv offsetIP off i bufs w h Hw Hr Hidx) as (h' & w' & log & HR & Hlog).
  exists h', w', log. split; [done|]. apply Hlog. rewrite Hn. unfold turns, idx_ok, zlen in *.
  apply Z.mod_pos_bound. lia.
Qed.

(** Three nodes: the first two send whenever they are asked, the third closes. *)
#[local] Instance demo_nodes : StackNodes (list nat) := {
  Encapsulate s buf _ _ w :=
    if (s =? 2)%nat then Ret (w ++ [s], buf, 0, Some NetErrClosed) else Ret (w ++ [s], buf, 5, None);
  Demux _ _ _ w := Ret (w, None);
  LocalPort _ _ := 0; Protocol s _ := Z.of_nat s; ConnectionID _ _ := None
}.
Definition demo_node (s : nat) : node := mkNode 0 None (Some s) None (Z.of_nat s) 0.
Definition demo_handlers : handlers := mkHandlers [demo_node 0; demo_node 1; demo_node 2] 3 0.

Lemma encapsulate_fair_witness :
  exists h' w' log, run_calls [[]; []; []] 0 20 ([] : list nat) demo_handlers = Ret (h', w', log) /\
    Some 1%nat ∈ log.
Proof.
  apply (encapsulate_fair (fun _ => True) 0 20 1 demo_handlers [] [[]; []; []]); [done| |by_compute|done].
  split.
  - intros s buf w _. cbn. destruct (s =? 2)%nat; by eexists.
  - exists (demo_node 1), 1%nat. split; [done|]. split; [done|]. intros w _. split; [done|].
    intros buf. by do 3 eexists.
Defined.

(** the index of the round robin is not kept in range. Registering a node when
    the list is full drops the invalid ones and shortens the list, and [reset]
    empties it, without touching [encapsIdx]; the next [encapsulateAny] indexes past
    the end and panics. Here two of three nodes have closed. *)
Theorem round_robin_index_panics :
  let h := mkHandlers [destroy; destroy; demo_node 1] 3 2 in
  exists h', registerByProto (demo_node 0) ([] : list nat) h = (h', None) /\
    idx_ok h /\ length (nodes h') = 2%nat /\ encapsulateAny [] 0 20 ([] : list nat) h' = Panic /\
    exists h2, registerByProto (demo_node 0) ([] : list nat) (reset 3 3 h) = (h2, None) /\
      encapsulateAny [] 0 20 ([] : list nat) h2 = Panic.
Proof.
  intros h. eexists. split; [by vm_compute|]. split; [by_compute|]. split; [done|]. split; [by vm_compute|].
  eexists. split; by vm_compute.
Qed.

End StackNodes.
