(* ===== verification/StackIp4.v ===== *)
(** * The IPv4 layer ([src/internet/stack-ip4.go])

    [stackip4] keeps the nodes above IPv4 (ports, ICMP), checks what arrives and
    completes what they send: header fields, lengths and checksums. Buffers are
    shared with the nodes, so a call returns the carrier buffer after it. The
    validator, a pointer shared by the layers, is a field. *)
From S2P Require Import Prelude Errors Bytes Validation Checksum Frame Ipv4 Udp StackNodes.

Module StackIp4.
Import Bytes Validation Checksum StackNodes.

Definition IPProtoTCP : Z := 6.
Definition IPProtoUDP : Z := 17.

(** [internal.Prand16] *)
Definition Prand16 (seed : Z) : Z :=
  let seed := Z.lxor seed (u16 (Z.shiftl seed 7)) in
  let seed := Z.lxor seed (Z.shiftr seed 9) in
  Z.lxor seed (u16 (Z.shiftl seed 8)).

Record stackip4 := mkStack {
  hs : handlers;
  vld : Validator;
  ipID : Z;
  ip4 : list Z;
  acceptMulticast : bool;
  acceptBroadcast : bool
}.

Section Stack.
Context {W : Type} `{!StackNodes W}.

Definition with_hs (h : handlers) (s : stackip4) : stackip4 :=
  mkStack h (vld s) (ipID s) (ip4 s) (acceptMulticast s) (acceptBroadcast s).
Definition with_vld (v : Validator) (s : stackip4) : stackip4 :=
  mkStack (hs s) v (ipID s) (ip4 s) (acceptMulticast s) (acceptBroadcast s).
Definition with_ipID (id : Z) (s : stackip4) : stackip4 :=
  mkStack (hs s) (vld s) id (ip4 s) (acceptMulticast s) (acceptBroadcast s).

Definition reset4 (v : Validator) (maxNodes grown : Z) (s : stackip4) : stackip4 :=
  mkStack (reset maxNodes grown (hs s)) v 1 [0; 0; 0; 0] false false.

Definition Register4 (node : nat) (w : W) (s : stackip4) : outcome (stackip4 * option error) :=
  let proto := Protocol node w in
  if 255 <? proto then Ret (s, Some ErrInvalidConfig)
  else
    n ← nodeFromStackNode node (LocalPort node w) proto None w;
    let '(h, err) := registerByPortProto n w (hs s) in
    Ret (with_hs h s, err).

Definition IsRegistered4 (proto : Z) (w : W) (s : stackip4) : bool :=
  match nodeByProto proto w (hs s) with Some _ => true | None => false end.
Definition SetAcceptMulticast4 (accept : bool) (s : stackip4) : stackip4 :=
  mkStack (hs s) (vld s) (ipID s) (ip4 s) accept (acceptBroadcast s).
Definition SetAcceptBroadcast4 (accept : bool) (s : stackip4) : stackip4 :=
  mkStack (hs s) (vld s) (ipID s) (ip4 s) (acceptMulticast s) accept.
Definition Addr4 (s : stackip4) : list Z := ip4 s.
Definition SetAddr4 (a : list Z) (s : stackip4) : stackip4 :=
  mkStack (hs s) (vld s) (ipID s) a (acceptMulticast s) (acceptBroadcast s).

(** Whether a destination address is ours. *)
Definition for_us (dst : list Z) (s : stackip4) : bool :=
  if bool_decide (ip4 s <> [0; 0; 0; 0]) && bool_decide (dst <> ip4 s) then
    (acceptMulticast s && Ipv4.IsMulticast dst) || (acceptBroadcast s && Ipv4.IsBroadcast dst)
  else true.

(** The checksums of the common protocols; [None] in the end when they verify. *)
Definition check_payload (ifrm : list Z) (proto : Z) (v : Validator)
    : outcome (Validator * option error) :=
  if proto =? IPProtoTCP then
    crc ← Ipv4.CRCWriteTCPPseudo ifrm (mkCRC 0);
    payload ← Ipv4.Payload ifrm;
    sum ← PayloadSum16 payload crc;
    Ret (v, if negb (sum =? 0) then Some ErrBadCRC else None)
  else if proto =? IPProtoUDP then
    payload ← Ipv4.Payload ifrm;
    match Udp.NewFrame payload with
    | (_, Some e) => Ret (v, Some e)
    | (ufrm, None) =>
        v ← Udp.ValidateSize ufrm v;
        let '(v, err) := ErrPop v in
        match err with
        | Some e => Ret (v, Some e)
        | None =>
            frameLen ← Udp.Length ufrm;
            crc ← Ipv4.CRCWriteUDPPseudo ifrm frameLen (mkCRC 0);
            data ← Ipv4.sub (Udp.RawData ufrm) 0 frameLen;
            sum ← PayloadSum16 data crc;
            Ret (v, if negb (sum =? 0) then Some ErrBadCRC else None)
        end
    end
  else Ret (v, None).

Definition demux4 (carrierData : list Z) (offset : Z) (w : W) (s : stackip4)
    : outcome (stackip4 * W * option error) :=
  frame ← Ipv4.sub carrierData offset (zlen carrierData);
  match Ipv4.NewFrame frame with
  | (None, err) => Ret (s, w, err)
  | (Some ifrm, _) =>
  dst ← Ipv4.DestinationAddr ifrm;
  if negb (for_us dst s) then Ret (s, w, Some ErrPacketDrop)
  else
  v ← Ipv4.ValidateExceptCRC ifrm (ResetErr (vld s));
  let '(v, err) := ErrPop v in
  let s := with_vld v s in
  match err with
  | Some e => Ret (s, w, Some e)
  | None =>
  crc ← Ipv4.CalculateHeaderCRC ifrm;
  if negb (crc =? 0) then Ret (s, w, Some ErrBadCRC)
  else
  off ← Ipv4.HeaderLength ifrm;
  proto ← Ipv4.Protocol ifrm;
  match nodeByProto proto w (hs s) with
  | None => Ret (s, w, Some ErrPacketDrop)
  | Some i =>
  '(v, err) ← check_payload ifrm proto (vld s);
  let s := with_vld v s in
  match err with
  | Some e => Ret (s, w, Some e)
  | None =>
  totalLen ← Ipv4.TotalLength ifrm;
  data ← Ipv4.sub frame 0 totalLen;
  '(h, w, err, _) ← demux_at i data off w (hs s);
  Ret (with_hs h s, w, err)
  end end end end.

(** The header as far as it is written before the nodes are asked. *)
Definition start_header (id : Z) (src : list Z) (frame : list Z) : outcome (list Z) :=
  f ← Ipv4.SetVersionAndIHL 4 5 frame;
  f ← Ipv4.SetToS 0 f;
  f ← Ipv4.SetID id f;
  f ← Ipv4.SetFlags 16384 f;
  f ← Ipv4.SetTTL 64 f;
  Ipv4.SetSourceAddr src f.

(** The checksum of the transport protocol, for a payload of [n] bytes. *)
Definition finish_payload (proto n : Z) (frame : list Z) : outcome (list Z) :=
  payload ← Ipv4.Payload frame;
  let body := zdrop 20 frame in
  if proto =? IPProtoTCP then
    crc ← Ipv4.CRCWriteTCPPseudo frame (mkCRC 0);
    if zlen payload <? Frame.sizeHeaderTCP then Panic
    else
      body ← PutUint16 body 16 0;
      crcValue ← PayloadSum16 (ztake (zlen payload) body) crc;
      body ← PutUint16 body 16 crcValue;
      Ret (ztake 20 frame ++ body)
  else if proto =? IPProtoUDP then
    crc ← Ipv4.CRCWriteUDPPseudo frame (u16 n) (mkCRC 0);
    if zlen payload <? Udp.sizeHeader then Panic
    else
      body ← Udp.SetLength (u16 n) body;
      body ← Udp.SetCRC 0 body;
      sum ← PayloadSum16 (ztake (zlen payload) body) crc;
      body ← Udp.SetCRC (NeverZeroSum sum) body;
      Ret (ztake 20 frame ++ body)
  else Ret frame.

(** Length, protocol and header checksum, then the transport checksum. *)
Definition finish_header (proto n : Z) (frame : list Z) : outcome (list Z) :=
  f ← Ipv4.SetTotalLength (u16 (n + 20)) frame;
  f ← Ipv4.SetProtocol proto f;
  f ← Ipv4.SetCRC 0 f;
  crcValue ← Ipv4.CalculateHeaderCRC f;
  f ← Ipv4.SetCRC crcValue f;
  finish_payload proto n f.

Definition encapsulate4 (carrierData : list Z) (offsetToIP : Z) (w : W) (s : stackip4)
    : outcome (stackip4 * W * list Z * Z * option error) :=
  frame ← Ipv4.sub carrierData offsetToIP (zlen carrierData);
  if zlen frame <? Ipv4.MinimumMTU then Ret (s, w, carrierData, 0, Some IoErrShortBuffer)
  else
  let seed := Z.lxor (u16 (ipID s + 1)) (default 0 (zget (ip4 s) 0)) in
  let id := Prand16 seed in
  frame ← start_header id (ip4 s) frame;
  let s := with_ipID id s in
  let carrierData := ztake offsetToIP carrierData ++ frame in
  '(h, w, carrierData, node, n, err) ← encapsulateAny carrierData offsetToIP (offsetToIP + 20) w (hs s);
  let s := with_hs h s in
  if n =? 0 then Ret (s, w, carrierData, n, err)
  else
    match node ≫= (fun i => nodes h !! i) with
    | None => Panic
    | Some nd =>
        frame ← finish_header (u8 (proto nd)) n (zdrop offsetToIP carrierData);
        Ret (s, w, ztake offsetToIP carrierData ++ frame, n + 20, err)
    end.

(** ** What a finished header looks like *)

(** A packet of [20 + n] bytes (and padding) that the checks of [demux4] accept. *)
Record sealed (p : list Z) (proto n : Z) : Prop := mkSealed {
  se_wf : Ipv4.hdr_wf p;
  se_byte0 : Ipv4.byte0 p = 69;
  se_total : Ipv4.total p = 20 + n;
  se_len : 20 + n <= zlen p;
  se_flags : be16 p 6 = 16384;
  se_proto : zget p 9 = Some proto;
  se_hdrsum : sum16 (words_sum (ztake 20 p)) = 0;
  se_tcp : proto = IPProtoTCP -> 20 <= n /\
    PayloadSum16 (slice p 20 (20 + n)) (mkCRC (Ipv4.pseudo_sum p n)) = Ret 0;
  se_udp : proto = IPProtoUDP -> 8 <= n /\ be16 p 24 = n /\
    PayloadSum16 (slice p 20 (20 + n)) (mkCRC (Ipv4.pseudo_sum p n)) = Ret 0
}.

Section Sealed.
Context (p : list Z) (proto n : Z) (Hp : sealed p proto n) (Hn : 0 <= n).

Lemma sealed_hlen : Ipv4.hlen p = 20.
Proof. unfold Ipv4.hlen. by rewrite (se_byte0 _ _ _ Hp). Qed.

Lemma sealed_ok : Ipv4.ip4_ok p.
Proof.
  destruct Hp. split; [done|by rewrite se_byte1|rewrite sealed_hlen; lia|lia].
Qed.

Lemma sealed_n : 0 <= n <= 65515.
Proof.
  pose proof (Ipv4.total_bound p (se_wf _ _ _ Hp)) as Ht. rewrite (se_total _ _ _ Hp) in Ht. wrap_lia.
Qed.

Lemma sealed_check v : accum v = [] -> check_payload p proto v = Ret (v, None).
Proof.
  intros Hv. pose proof sealed_ok as Hok. pose proof sealed_n as Hn'. pose proof sealed_hlen as Hhl.
  destruct Hp as [Hw H0 Ht Hl Hf Hpr Hs Htcp Hudp]. unfold check_payload.
  destruct (Z.eqb_spec proto IPProtoTCP) as [E|E].
  - destruct (Htcp E) as [_ Hsum]. rewrite Ipv4.CRCWriteTCPPseudo_ok, Ipv4.ip4_Payload_ok by done.
    cbn [mbind outcome_bind]. rewrite Hhl, Ht. replace (20 + n - 20) with n by lia. by rewrite Hsum.
  - destruct (Z.eqb_spec proto IPProtoUDP) as [E'|E']; [|done].
    destruct (Hudp E') as (Hn8 & Hlen & Hsum). rewrite Ipv4.ip4_Payload_ok by done.
    cbn [mbind outcome_bind]. rewrite Hhl, Ht. set (pl := slice p 20 (20 + n)) in *.
    assert (zlen pl = n) as Hpl by (unfold pl; rewrite zlen_slice; lia).
    assert (is_bytes pl) as Hpb by (destruct Hw; unfold pl; auto with bytes).
    assert (be16 pl 4 = n) as H4.
    { transitivity (be16 p 24); [|done]. unfold be16, pl. by rewrite !zget_slice by lia. }
    unfold Udp.NewFrame, Udp.sizeHeader. rewrite Hpl. destruct (Z.ltb_spec n 8); [lia|].
    rewrite Udp.udp_ValidateSize_ok by (done || lia). cbn [mbind outcome_bind].
    rewrite (proj2 (Udp.udp_errors_nil pl)) by lia. cbn [add_errors fold_left].
    destruct v as [acc vf]. cbn in Hv. subst acc. cbn [ErrPop accum].
    rewrite Udp.Length_ok by (done || lia). cbn [mbind outcome_bind]. rewrite H4.
    rewrite Ipv4.CRCWriteUDPPseudo_ok by (done || wrap_lia). cbn [mbind outcome_bind].
    unfold Udp.RawData. rewrite Ipv4.sub_ok by lia. cbn [mbind outcome_bind].
    assert (slice pl 0 n = pl) as ->.
    { unfold slice. rewrite Z.sub_0_r, zdrop_nonpos, ztake_ge by lia. done. }
    by rewrite Hsum.
Qed.

(** A sealed packet that is ours reaches the node of its protocol, trimmed to its
    total length. *)
Lemma demux4_sealed w r i :
  for_us (slice p 16 20) r = true -> nodeByProto proto w (hs r) = Some i ->
  demux4 p 0 w r =
    ('(h, w, err, _) ← demux_at i (ztake (20 + n) p) 20 w (hs r);
     Ret (with_hs h (with_vld (mkValidator [] (vflags (vld r))) r), w, err)).
Proof.
  intros Hus Hi. pose proof sealed_ok as Hok. pose proof sealed_n as Hn'. pose proof sealed_hlen as Hhl.
  pose proof sealed_check as Hck.
  destruct Hp as [Hw H0 Ht Hl Hf Hpr Hs _ _]. unfold demux4.
  rewrite Ipv4.sub_ok by (pose proof (zlen_nonneg p); lia). cbn [mbind outcome_bind].
  assert (slice p 0 (zlen p) = p) as ->.
  { unfold slice. rewrite Z.sub_0_r, zdrop_nonpos, ztake_ge by lia. done. }
  unfold Ipv4.NewFrame, Ipv4.sizeHeader. destruct (Z.ltb_spec (zlen p) 20); [lia|].
  unfold Ipv4.DestinationAddr. rewrite Ipv4.sub_ok by lia. cbn [mbind outcome_bind]. rewrite Hus.
  cbn [negb]. rewrite Ipv4.ip4_ValidateExceptCRC_ok by done. cbn [mbind outcome_bind].
  rewrite (proj2 (Ipv4.ip4_errors_nil _ p Hw)).
  2:{ split; [done|]. rewrite Hf. apply andb_false_r. }
  cbn [add_errors fold_left]. change (ErrPop (ResetErr (vld r))) with (ResetErr (vld r), @None error).
  rewrite Ipv4.CalculateHeaderCRC_ok, Hs by done. cbn [mbind outcome_bind Z.eqb negb].
  rewrite Ipv4.ip4_HeaderLength_ok, Hhl by done. unfold Ipv4.Protocol, at_. rewrite Hpr.
  cbn [mbind outcome_bind hs with_vld vld]. rewrite Hi, Hck by done. cbn [mbind outcome_bind].
  rewrite Ipv4.TotalLength_ok, Ht by done. cbn [mbind outcome_bind].
  rewrite Ipv4.sub_ok by lia. cbn [mbind outcome_bind].
  change (slice p 0 (20 + n)) with (ztake (20 + n - 0) p). by rewrite Z.sub_0_r.
Qed.
End Sealed.

Lemma slice_agree (p f : list Z) m a b :
  (forall j, 0 <= j < m -> zget p j = zget f j) -> 0 <= a <= b -> b <= m ->
  m <= zlen p -> m <= zlen f -> slice p a b = slice f a b.
Proof.
  intros Hj Ha Hb Hp Hf. apply zlist_eq; rewrite !zlen_slice by lia; [done|].
  intros i Hi. rewrite !zget_slice by lia. apply Hj. lia.
Qed.

(** Bytes behind the packet do not matter. *)
Lemma sealed_agree f p proto n : sealed f proto n -> 0 <= n -> is_bytes p -> 20 + n <= zlen p ->
  (forall j, 0 <= j < 20 + n -> zget p j = zget f j) -> sealed p proto n.
Proof.
  intros [[Hfb Hfl] H0 Ht Hl Hf Hpr Hs Htcp Hudp] Hn Hb Hlp Hj.
  assert (forall i, 0 <= i -> i + 2 <= 20 + n -> be16 p i = be16 f i) as H16.
  { intros i Hi Hi'. unfold be16. by rewrite !Hj by lia. }
  assert (forall a b, 0 <= a <= b -> b <= 20 + n -> slice p a b = slice f a b) as HS.
  { intros. apply (slice_agree p f (20 + n)); done || lia. }
  assert (Ipv4.pseudo_sum p n = Ipv4.pseudo_sum f n) as Hps.
  { unfold Ipv4.pseudo_sum. by rewrite HS, Hj by lia. }
  split.
  - split; [done|lia].
  - unfold Ipv4.byte0 in *. by rewrite Hj by lia.
  - unfold Ipv4.total in *. by rewrite H16 by lia.
  - done.
  - by rewrite H16 by lia.
  - by rewrite Hj by lia.
  - change (ztake 20 p) with (slice p 0 20). by rewrite HS by lia.
  - intros E. destruct (Htcp E). split; [done|]. by rewrite HS, Hps by lia.
  - intros E. destruct (Hudp E) as (? & ? & ?). split; [done|]. rewrite H16, HS, Hps by lia. done.
Qed.

(** ** Writing the header *)

Definition header_start (id : Z) (src frame : list Z) : list Z :=
  put (put (put (put (put (put frame 0 [69]) 1 [0]) 4 (bytes16 id)) 6 (bytes16 16384)) 8 [64]) 12 src.

Lemma start_header_ok id src frame : zlen src = 4 -> 20 <= zlen frame ->
  start_header id src frame = Ret (header_start id src frame) /\
  zlen (header_start id src frame) = zlen frame.
Proof.
  intros Hs Hl. unfold start_header, Ipv4.SetVersionAndIHL, Ipv4.SetToS, Ipv4.SetID, Ipv4.SetFlags,
    Ipv4.SetTTL, Ipv4.SetSourceAddr, header_start.
  split; [|put_len].
  repeat (first [rewrite put_checked_ok by put_len|rewrite PutUint16_ok by put_len]; cbn [mbind outcome_bind]).
  done.
Qed.

Lemma header_start_fields id src frame : zlen src = 4 -> is_bytes src -> is_bytes frame -> 20 <= zlen frame ->
  is_bytes (header_start id src frame) /\
  zget (header_start id src frame) 0 = Some 69 /\
  zget (header_start id src frame) 6 = Some 64 /\ zget (header_start id src frame) 7 = Some 0.
Proof.
  intros Hs Hsb Hb Hl. unfold header_start. split.
  { repeat apply is_bytes_put; auto with bytes; by_compute. }
  repeat split; repeat rewrite zget_put_out by put_len; rewrite zget_put_in by put_len; done.
Qed.

(** The header with length, protocol and checksum. *)
Definition header_zero (proto n : Z) (frame : list Z) : list Z :=
  put (put (put frame 2 (bytes16 (n + 20))) 9 [proto]) 10 (bytes16 0).
Definition header_done (proto n : Z) (frame : list Z) : list Z :=
  let g := header_zero proto n frame in put g 10 (bytes16 (sum16 (words_sum (ztake 20 g)))).

Section Finish.
Context (frame : list Z) (proto n : Z).
Context (Hb : is_bytes frame) (H0 : zget frame 0 = Some 69) (H6 : zget frame 6 = Some 64) (H7 : zget frame 7 = Some 0).
Context (Hpr : is_u8 proto) (Hn : 0 <= n) (Hl : 20 + n <= zlen frame) (Hmax : 20 + n <= 65535).

Let g := header_done proto n frame.

Lemma header_zero_wf : is_bytes (header_zero proto n frame) /\ zlen (header_zero proto n frame) = zlen frame.
Proof.
  unfold header_zero. split; [|put_len].
  repeat apply is_bytes_put; auto with bytes. by apply Forall_singleton.
Qed.

Lemma sum16_u16 x : is_u16 (sum16 x).
Proof. unfold sum16. wrap_lia. Qed.

Lemma header_done_wf : is_bytes g /\ zlen g = zlen frame.
Proof.
  unfold g, header_done. destruct header_zero_wf as [Hz1 Hz2]. split; [auto with bytes|].
  rewrite <- Hz2. put_len.
Qed.

Lemma header_done_fields :
  Ipv4.byte0 g = 69 /\ Ipv4.total g = 20 + n /\ be16 g 6 = 16384 /\ zget g 9 = Some proto.
Proof.
  destruct header_zero_wf as [Hz1 Hz2]. unfold g, header_done. repeat split.
  - unfold Ipv4.byte0. rewrite zget_put_out by put_len. unfold header_zero.
    repeat rewrite zget_put_out by put_len. by rewrite H0.
  - unfold Ipv4.total. rewrite be16_put_out by put_len. unfold header_zero.
    repeat rewrite be16_put_out by put_len. rewrite be16_put; wrap_lia.
  - rewrite be16_put_out by put_len. unfold header_zero. repeat rewrite be16_put_out by put_len.
    unfold be16. change (6 + 1) with 7. by rewrite H6, H7.
  - rewrite zget_put_out by put_len. unfold header_zero. rewrite zget_put_out by put_len.
    rewrite zget_put_in by put_len. done.
Qed.

Lemma header_done_sum : sum16 (words_sum (ztake 20 g)) = 0.
Proof.
  destruct header_zero_wf as [Hz1 Hz2]. unfold g, header_done. set (z := header_zero proto n frame) in *.
  pose proof (sum16_u16 (words_sum (ztake 20 z))) as Hu.
  rewrite <- put_ztake by put_len.
  assert (is_bytes (ztake 20 z)) as Hzb by auto with bytes.
  assert (zlen (ztake 20 z) = 20) as Hzl by (apply zlen_ztake; lia).
  pose proof (words_sum_bound _ Hzb) as Hw. rewrite Hzl in Hw.
  rewrite words_sum_put; [|lia|done|lia| |done|done].
  - apply sum16_complement; wrap_lia.
  - rewrite be16_ztake by lia. unfold z, header_zero. rewrite be16_put; [done|lia|put_len|wrap_lia].
Qed.

Lemma finish_header_ok : finish_header proto n frame = finish_payload proto n g.
Proof.
  destruct header_zero_wf as [Hz1 Hz2]. unfold finish_header, Ipv4.SetTotalLength, Ipv4.SetProtocol, Ipv4.SetCRC.
  replace (u16 (n + 20)) with (n + 20) by wrap_lia.
  rewrite PutUint16_ok by put_len. cbn [mbind outcome_bind].
  rewrite put_checked_ok by put_len. cbn [mbind outcome_bind].
  rewrite PutUint16_ok by put_len. cbn [mbind outcome_bind]. fold (header_zero proto n frame).
  rewrite Ipv4.CalculateHeaderCRC_ok by (split; [done|lia]). cbn [mbind outcome_bind].
  rewrite PutUint16_ok by put_len. done.
Qed.

(** The body sealed by its checksum at [i], for a frame that differs from [g] only
    in the body. *)
Lemma seal_body i body f :
  (i = 16 /\ proto = IPProtoTCP /\ 20 <= n \/ i = 6 /\ proto = IPProtoUDP /\ 8 <= n /\ be16 body 4 = n) ->
  is_bytes body -> zlen body = zlen frame - 20 ->
  f = ztake 20 g ++ body ->
  PayloadSum16 (ztake n body) (mkCRC (Ipv4.pseudo_sum g n)) = Ret 0 ->
  sealed f proto n /\ zlen f = zlen frame.
Proof.
  intros Hi Hbb Hlb -> Hsum. destruct header_done_wf as [Hgb Hgl].
  destruct header_done_fields as (F0 & Ft & F6 & F9). pose proof header_done_sum as Fs.
  assert (zlen (ztake 20 g) = 20) as H20 by (apply zlen_ztake; lia).
  assert (forall j, 0 <= j < 20 -> zget (ztake 20 g ++ body) j = zget g j) as Hh.
  { intros j Hj. rewrite zget_app_l, zget_ztake by lia. done. }
  assert (slice (ztake 20 g ++ body) 20 (20 + n) = ztake n body) as Hsl.
  { unfold slice. rewrite (zdrop_app_exact 20) by done. f_equal. lia. }
  assert (Ipv4.pseudo_sum (ztake 20 g ++ body) n = Ipv4.pseudo_sum g n) as Hps.
  { unfold Ipv4.pseudo_sum. rewrite Hh by lia. do 2 f_equal. f_equal.
    apply (slice_agree _ _ 20); [done|lia|lia|rewrite zlen_app; lia|lia]. }
  split; [|rewrite zlen_app; lia]. split.
  - split; [auto with bytes|rewrite zlen_app; lia].
  - unfold Ipv4.byte0 in *. by rewrite Hh by lia.
  - unfold Ipv4.total, be16 in *. by rewrite !Hh by lia.
  - rewrite zlen_app. lia.
  - unfold be16 in *. by rewrite !Hh by lia.
  - by rewrite Hh by lia.
  - by rewrite (ztake_app_exact 20) by done.
  - intros E. rewrite Hsl, Hps. split; [|done]. unfold IPProtoTCP, IPProtoUDP in *. lia.
  - intros E. rewrite Hsl, Hps. unfold IPProtoTCP, IPProtoUDP in *.
    destruct Hi as [(_ & ? & _)|(_ & _ & ? & H4)]; [lia|]. split; [done|]. split; [|done].
    transitivity (be16 body 4); [|done]. unfold be16. rewrite !zget_app_r by lia. by rewrite H20.
Qed.

(** The bytes of the transport header that the layer itself writes. *)
Definition own_field (j : Z) : Prop :=
  if proto =? IPProtoTCP then 16 <= j < 18 else 4 <= j < 8.

Lemma header_done_body j : 20 <= j -> zget g j = zget frame j.
Proof.
  destruct header_zero_wf as [Hz1 Hz2]. intros. unfold g, header_done.
  rewrite zget_put_out by put_len. unfold header_zero. by repeat rewrite zget_put_out by put_len.
Qed.

Lemma header_done_ok : Ipv4.ip4_ok g /\ Ipv4.hlen g = 20.
Proof.
  destruct header_done_wf as [Hgb Hgl]. destruct header_done_fields as (F0 & Ft & F6 & F9).
  assert (Ipv4.hlen g = 20) as Hh by (unfold Ipv4.hlen; by rewrite F0).
  split; [|done]. split; [split; [done|lia]|by rewrite F0|lia|lia].
Qed.

(** The frame [f] is complete, and its payload is what was written. *)
Definition completed (f : list Z) : Prop :=
  sealed f proto n /\ zlen f = zlen frame /\ ztake 20 f = ztake 20 g /\
  forall j, 0 <= j < n -> ~ own_field j -> zget f (20 + j) = zget frame (20 + j).

(** The checksum of a body with a zero field seals it when stored in the field. *)
Lemma seal_with i b0 :
  i = 16 /\ proto = IPProtoTCP /\ 20 <= n \/ i = 6 /\ proto = IPProtoUDP /\ 8 <= n /\ be16 b0 4 = n ->
  is_bytes b0 -> zlen b0 = zlen frame - 20 -> be16 b0 i = 0 ->
  (forall j, 0 <= j -> ~ own_field j -> zget b0 j = zget frame (20 + j)) ->
  exists crc, PayloadSum16 (ztake n b0) (mkCRC (Ipv4.pseudo_sum g n)) = Ret crc /\
    completed (ztake 20 g ++ put b0 i (bytes16 (if proto =? IPProtoTCP then crc else NeverZeroSum crc))).
Proof.
  intros Hi Hb0 Hl0 Hz Hag. destruct header_done_wf as [Hgb Hgl]. destruct header_done_ok as [Hok _].
  pose proof (Ipv4.pseudo_sum_bound g n (Ipv4.io_wf _ Hok) ltac:(wrap_lia)) as Hps.
  assert (zlen (ztake 20 g) = 20) as H20 by (apply zlen_ztake; lia).
  assert ((i = 16 \/ i = 6) /\ i + 2 <= n) as [Hi6 Hin] by lia.
  destruct (checksum_verifies (ztake n b0) i (Ipv4.pseudo_sum g n)) as (crc & Hc & _ & Hv & Hv');
    rewrite ?zlen_ztake by lia; auto with bytes; try lia; [by destruct Hi6 as [-> | ->]| |].
  { by rewrite be16_ztake by lia. }
  exists crc. split; [done|]. set (v := if proto =? IPProtoTCP then crc else _).
  assert (PayloadSum16 (put (ztake n b0) i (bytes16 v)) (mkCRC (Ipv4.pseudo_sum g n)) = Ret 0) as Hsum
    by (unfold v; by destruct (proto =? IPProtoTCP)).
  rewrite put_ztake in Hsum by (change (zlen (bytes16 v)) with 2; lia).
  destruct (seal_body i (put b0 i (bytes16 v)) _ ltac:(rewrite be16_put_out by put_len; exact Hi)
    ltac:(auto with bytes) ltac:(put_len) eq_refl Hsum) as [Hs Hlf].
  split; [done|]. split; [done|]. split; [by rewrite ztake_app_exact|].
  intros j Hj Hof. rewrite zget_app_r by lia. rewrite H20. replace (20 + j - 20) with j by lia.
  rewrite zget_put_out by (put_len || (unfold own_field in Hof; revert Hof; bool_cases; unfold IPProtoUDP, IPProtoTCP in *; put_len)).
  apply Hag; done || lia.
Qed.

Lemma finish_payload_completed :
  proto = IPProtoTCP /\ 20 <= n \/ proto = IPProtoUDP /\ 8 <= n ->
  exists f, finish_payload proto n g = Ret f /\ completed f.
Proof.
  intros Hproto. destruct header_done_wf as [Hgb Hgl]. destruct header_done_ok as [Hok Hh].
  destruct header_done_fields as (F0 & Ft & F6 & F9).
  assert (zlen (slice g 20 (20 + n)) = n) as Hpl by (rewrite zlen_slice; lia).
  unfold finish_payload. rewrite Ipv4.ip4_Payload_ok by done. cbn [mbind outcome_bind]. rewrite Hh, Ft, Hpl.
  set (body := zdrop 20 g) in *.
  assert (zlen body = zlen frame - 20) as Hlb by (unfold body; rewrite zlen_zdrop; lia).
  assert (is_bytes body) as Hbb by (unfold body; auto with bytes).
  assert (forall j, 0 <= j -> zget body j = zget frame (20 + j)) as Hbody.
  { intros j Hj. unfold body. rewrite zget_zdrop by lia. apply header_done_body. lia. }
  destruct Hproto as [[Ep Hn20]|[Ep Hn8]].
  - destruct (seal_with 16 (put body 16 (bytes16 0))) as (crc & Hc & Hf).
    + by left.
    + auto with bytes.
    + put_len.
    + apply be16_put; lia || by_compute.
    + intros j Hj Hof. unfold own_field in Hof. rewrite Ep in Hof. cbn in Hof.
      rewrite zget_put_out by put_len. by apply Hbody.
    + rewrite (proj2 (Z.eqb_eq proto IPProtoTCP) Ep) in Hf |- *.
      rewrite Ipv4.CRCWriteTCPPseudo_ok by done. cbn [mbind outcome_bind].
      rewrite Hh, Ft. replace (20 + n - 20) with n by lia.
      unfold Frame.sizeHeaderTCP. destruct (Z.ltb_spec n 20); [lia|].
      rewrite PutUint16_ok by lia. cbn [mbind outcome_bind]. rewrite Hc. cbn [mbind outcome_bind].
      rewrite PutUint16_ok by put_len. by eexists.
  - destruct (seal_with 6 (put (put body 4 (bytes16 n)) 6 (bytes16 0))) as (crc & Hc & Hf).
    + right. split; [done|]. split; [done|]. split; [done|]. rewrite be16_put_out by put_len.
      apply be16_put; lia || wrap_lia.
    + auto with bytes.
    + put_len.
    + apply be16_put; [lia|put_len|by_compute].
    + intros j Hj Hof. unfold own_field in Hof. rewrite Ep in Hof. cbn in Hof.
      rewrite !zget_put_out by put_len. by apply Hbody.
    + replace (proto =? IPProtoTCP) with false in Hf |- * by (rewrite Ep; done).
      rewrite (proj2 (Z.eqb_eq proto IPProtoUDP) Ep).
      rewrite Ipv4.CRCWriteUDPPseudo_ok by (apply Hok || wrap_lia). cbn [mbind outcome_bind].
      unfold Udp.sizeHeader. destruct (Z.ltb_spec n 8); [lia|].
      replace (u16 n) with n by wrap_lia. unfold Udp.SetLength, Udp.SetCRC.
      rewrite PutUint16_ok by lia. cbn [mbind outcome_bind].
      rewrite PutUint16_ok by put_len. cbn [mbind outcome_bind]. rewrite Hc. cbn [mbind outcome_bind].
      rewrite PutUint16_ok by put_len. by eexists.
Qed.

End Finish.



(** The identification of the next packet. *)
Definition next_id (s : stackip4) : Z :=
  Prand16 (Z.lxor (u16 (ipID s + 1)) (default 0 (zget (ip4 s) 0))).

(** The carrier a node gets to see. *)
Definition offered (c : list Z) (oip : Z) (s : stackip4) : list Z :=
  ztake oip c ++ header_start (next_id s) (ip4 s) (zdrop oip c).

(** A node may set identification and destination of the IP header, nothing else
    of it, and writes within the carrier. *)
Record keeps_header (oip : Z) (c1 c2 : list Z) : Prop := mkKeeps {
  kh_len : zlen c2 = zlen c1;
  kh_bytes : is_bytes c2;
  kh_hdr : forall i, 0 <= i < 16 -> ~ (4 <= i < 6) -> zget c2 (oip + i) = zget c1 (oip + i)
}.

Record stack_ok (c : list Z) (oip : Z) (s : stackip4) : Prop := mkStackOk {
  sk_bytes : is_bytes c;
  sk_off : 0 <= oip;
  sk_room : oip + Ipv4.MinimumMTU <= zlen c;
  sk_addr : is_bytes (ip4 s);
  sk_alen : zlen (ip4 s) = 4
}.

Lemma zlen_offered c oip s : stack_ok c oip s -> zlen (offered c oip s) = zlen c.
Proof.
  intros [Hb Ho Hm Hab Hal]. unfold Ipv4.MinimumMTU in Hm. unfold offered.
  rewrite zlen_app, zlen_ztake by lia.
  rewrite (proj2 (start_header_ok (next_id s) (ip4 s) (zdrop oip c) Hal ltac:(rewrite zlen_zdrop; lia))).
  rewrite zlen_zdrop; lia.
Qed.

Lemma encapsulate4_sealed c oip w s h' w' c2 j n nd :
  stack_ok c oip s ->
  encapsulateAny (offered c oip s) oip (oip + 20) w (hs s) = Ret (h', w', c2, Some j, n, None) ->
  nodes h' !! j = Some nd ->
  proto nd = IPProtoTCP /\ 20 <= n \/ proto nd = IPProtoUDP /\ 8 <= n ->
  keeps_header oip (offered c oip s) c2 -> oip + 20 + n <= zlen c -> 20 + n <= 65535 ->
  exists f, encapsulate4 c oip w s =
      Ret (with_hs h' (with_ipID (next_id s) s), w', ztake oip c2 ++ f, n + 20, None) /\
    sealed f (proto nd) n /\ zlen f = zlen c - oip /\
    slice f 12 20 = slice c2 (oip + 12) (oip + 20) /\
    forall k, 0 <= k < n -> ~ own_field (proto nd) k -> zget f (20 + k) = zget c2 (oip + 20 + k).
Proof.
  intros Hok Hany Hnd Hpr [Kl Kb Kh] Hfit Hmax. rewrite (zlen_offered _ _ _ Hok) in Kl.
  destruct Hok as [Hb Ho Hm Hab Hal]. unfold Ipv4.MinimumMTU in Hm.
  assert (zlen (zdrop oip c) = zlen c - oip) as Hld by (rewrite zlen_zdrop; lia).
  destruct (start_header_ok (next_id s) (ip4 s) (zdrop oip c) Hal) as [Hst Hstl]; [lia|].
  destruct (header_start_fields (next_id s) (ip4 s) (zdrop oip c) Hal Hab) as (_ & S0 & S6 & S7);
    [auto with bytes|lia|].
  assert (zlen (ztake oip c) = oip) as Hlt by (apply zlen_ztake; lia).
  set (g := zdrop oip c2).
  assert (zlen g = zlen c - oip) as Hgl by (unfold g; rewrite zlen_zdrop; lia).
  assert (forall i, 0 <= i < 16 -> ~ (4 <= i < 6) ->
    zget g i = zget (header_start (next_id s) (ip4 s) (zdrop oip c)) i) as Hg.
  { intros i Hi Hi'. unfold g. rewrite zget_zdrop, Kh by lia. unfold offered.
    rewrite zget_app_r by lia. f_equal. lia. }
  assert (0 <= n /\ is_u8 (proto nd) /\ u8 (proto nd) = proto nd /\ n <> 0) as (Hn & Hp8 & Hpu & Hn0).
  { unfold IPProtoTCP, IPProtoUDP in Hpr. destruct Hpr as [[-> ?]|[-> ?]]; split_and!; wrap_lia || lia. }
  destruct (finish_payload_completed g (proto nd) n) as (f & Hf & Hse & Hfl & Hf20 & Hfb);
    try done; try lia; [unfold g; auto with bytes|by rewrite Hg by lia..|].
  exists f. split.
  { unfold encapsulate4. rewrite Ipv4.sub_ok by (pose proof (zlen_nonneg c); lia). cbn [mbind outcome_bind].
    assert (slice c oip (zlen c) = zdrop oip c) as -> by (unfold slice; by rewrite ztake_ge by lia).
    rewrite Hld. unfold Ipv4.MinimumMTU. destruct (Z.ltb_spec (zlen c - oip) 68); [lia|].
    fold (next_id s). rewrite Hst. cbn [mbind outcome_bind]. fold (offered c oip s).
    change (hs (with_ipID (next_id s) s)) with (hs s). rewrite Hany. cbn [mbind outcome_bind].
    destruct (Z.eqb_spec n 0); [lia|]. cbn [mbind option_bind]. rewrite Hnd, Hpu.
    fold g. rewrite finish_header_ok by (try done; try lia; unfold g; auto with bytes). by rewrite Hf. }
  split; [done|]. split; [lia|]. split.
  - assert (slice f 12 20 = slice (header_done (proto nd) n g) 12 20) as ->.
    { apply (slice_agree _ _ 20); try lia.
      - intros k Hk. rewrite <- (zget_ztake f 20), <- (zget_ztake (header_done _ _ _) 20) by lia. by rewrite Hf20.
      - destruct (header_done_wf g (proto nd) n) as [_ Hx]; try done; try lia. unfold g. auto with bytes. }
    destruct (header_zero_wf g (proto nd) n) as [_ Hzl]; [unfold g; auto with bytes|done|lia|lia|].
    unfold header_done. rewrite slice_put_out by (try lia; put_len). unfold header_zero.
    do 3 rewrite slice_put_out by (try lia; put_len). unfold g. rewrite slice_zdrop by lia. done.
  - intros k Hk Hof. rewrite Hfb by done. unfold g. rewrite zget_zdrop by lia. f_equal. lia.
Qed.

End Stack.

(** C15: what the layer sends, the layer accepts. Whatever a node of one host wrote as
    its TCP or UDP segment (without touching the IP header beyond identification
    and destination), the packet [encapsulate4] completes passes every check of
    [demux4] of a host with that destination address, also with padding of the
    link layer behind it, and reaches the node of the protocol there trimmed to
    its length and unchanged except for the fields IPv4 itself fills in (the
    checksum, and the length of UDP). *)
Theorem ip4_packet_delivered {W1 W2} `{!StackNodes W1} `{!StackNodes W2}
  c oip (w1 w1' : W1) s h' c2 j n nd (w2 : W2) r i pad
  (Hs : stack_ok c oip s)
  (Hany : encapsulateAny (offered c oip s) oip (oip + 20) w1 (hs s) = Ret (h', w1', c2, Some j, n, None))
  (Hnd : nodes h' !! j = Some nd)
  (Hpr : proto nd = IPProtoTCP /\ 20 <= n \/ proto nd = IPProtoUDP /\ 8 <= n)
  (Hk : keeps_header oip (offered c oip s) c2) (Hfit : oip + 20 + n <= zlen c) (Hmax : 20 + n <= 65535)
  (Hus : for_us (slice c2 (oip + 16) (oip + 20)) r = true)
  (Hi : nodeByProto (proto nd) w2 (hs r) = Some i) (Hpad : is_bytes pad) :
  exists s' c3, encapsulate4 c oip w1 s = Ret (s', w1', c3, n + 20, None) /\
    let pkt := slice c3 oip (oip + 20 + n) in
    zlen pkt = 20 + n /\
    demux4 (pkt ++ pad) 0 w2 r =
      ('(h, w, err, _) ← demux_at i pkt 20 w2 (hs r);
       Ret (with_hs h (with_vld (mkValidator [] (vflags (vld r))) r), w, err)) /\
    slice pkt 12 20 = slice c2 (oip + 12) (oip + 20) /\
    forall k, 0 <= k < n -> ~ own_field (proto nd) k -> zget pkt (20 + k) = zget c2 (oip + 20 + k).
Proof.
  destruct (encapsulate4_sealed c oip w1 s h' w1' c2 j n nd Hs Hany Hnd Hpr Hk Hfit Hmax)
    as (f & HE & Hse & Hfl & Hadr & Hfb).
  destruct Hk as [Kl _ _]. rewrite (zlen_offered _ _ _ Hs) in Kl. pose proof (sk_off _ _ _ Hs) as Ho.
  assert (zlen (ztake oip c2) = oip) as Hlt by (apply zlen_ztake; lia).
  assert (0 <= n) as Hn by lia. do 2 eexists. split; [exact HE|]. cbn zeta.
  assert (slice (ztake oip c2 ++ f) oip (oip + 20 + n) = ztake (20 + n) f) as ->.
  { unfold slice. rewrite (zdrop_app_exact oip) by done. f_equal. lia. }
  assert (zlen (ztake (20 + n) f) = 20 + n) as Hl20 by (apply zlen_ztake; lia).
  assert (forall k, 0 <= k < 20 + n -> zget (ztake (20 + n) f ++ pad) k = zget f k) as Hag.
  { intros k Hk. rewrite zget_app_l, zget_ztake by lia. done. }
  pose proof (zlen_nonneg pad) as Hpl.
  assert (sealed (ztake (20 + n) f ++ pad) (proto nd) n) as Hsp.
  { eapply sealed_agree; [exact Hse|done| |rewrite zlen_app; lia|done].
    destruct (se_wf _ _ _ Hse). auto with bytes. }
  split; [done|]. split; [|split].
  - rewrite (demux4_sealed _ (proto nd) n Hsp Hn w2 r i); [by rewrite ztake_app_exact| |done].
    rewrite <- Hus. f_equal.
    rewrite (slice_agree _ f (20 + n)) by (done || lia || (rewrite zlen_app; lia)).
    pose proof (f_equal (fun l => slice l 4 8) Hadr) as E. cbn beta in E.
    rewrite !slice_slice, <- !Z.add_assoc in E by lia. exact E.
  - rewrite <- Hadr. apply (slice_agree _ _ (20 + n)); try lia. intros k Hk. by rewrite zget_ztake by lia.
  - intros k Hk Hof. rewrite zget_ztake by lia. by apply Hfb.
Qed.

(** A node that answers every request with a 24-byte segment to 10.0.0.2, and
    records what it receives. [closing] nodes close with their last segment. *)
#[local] Instance demo_net (closing : bool) : StackNodes (list (list Z)) := {
  Encapsulate _ buf oip off w :=
    Ret (w, put (put buf (oip + 16) [10; 0; 0; 2]) off ([7; 208; 0; 80] ++ replicate 20 5), 24,
         if closing then Some NetErrClosed else None);
  Demux _ buf off w := Ret (w ++ [zdrop off buf], None);
  LocalPort _ _ := 0; Protocol _ _ := 6; ConnectionID _ _ := None
}.
Definition demo_hs : handlers := mkHandlers [mkNode 0 None (Some O) None 6 0] 1 0.
Definition demo_sender : stackip4 := mkStack demo_hs (mkValidator [] 0) 1 [10; 0; 0; 1] false false.
Definition demo_receiver : stackip4 := mkStack demo_hs (mkValidator [] 0) 1 [10; 0; 0; 2] false false.

Lemma ip4_packet_delivered_witness :
  exists s' c3, encapsulate4 (StackNodes0 := demo_net false) (replicate 100 9) 14 [] demo_sender =
      Ret (s', [], c3, 44, None) /\
    exists r' data, demux4 (StackNodes0 := demo_net false) (slice c3 14 58 ++ [0; 0]) 0 [] demo_receiver =
      Ret (r', [data], None) /\ ztake 4 data = [7; 208; 0; 80].
Proof.
  destruct (ip4_packet_delivered (StackNodes0 := demo_net false) (StackNodes1 := demo_net false)
    (replicate 100 9) 14 [] [] demo_sender demo_hs
    (put (put (offered (replicate 100 9) 14 demo_sender) 30 [10; 0; 0; 2]) 34 ([7; 208; 0; 80] ++ replicate 20 5))
    0 24 (mkNode 0 None (Some O) None 6 0) [] demo_receiver 0 [0; 0])
    as (s' & c3 & H1 & _ & H2 & _).
  - split; by_compute.
  - by vm_compute.
  - done.
  - left. by_compute.
  - split; [by_compute|by_compute|]. intros i Hi Hi'.
    rewrite zget_put_out by (by_compute || (left; lia)). rewrite zget_put_out by (by_compute || (left; lia)). done.
  - by_compute.
  - by_compute.
  - by_compute.
  - by_compute.
  - by_compute.
  - exists s', c3. split; [exact H1|].
    change (14 + 20 + 24) with 58 in H2. rewrite H2. injection H1 as _ <-. do 2 eexists. split; by vm_compute.
Defined.

(** A UDP datagram without a checksum (zero, as RFC 768 allows) from 10.0.0.1. *)
Definition demo_udp : list Z :=
  [69; 0; 0; 32; 0; 1; 64; 0; 64; 17; 38; 202; 10; 0; 0; 1; 10; 0; 0; 2;
   0; 53; 0; 53; 0; 12; 0; 0; 1; 2; 3; 4].

(** two departures from the documented behaviour. A node that hands out its last
    bytes together with [net.ErrClosed] (allowed by the contract of [StackNode]) is
    destroyed before its protocol is read, so its packet leaves with protocol 0 and
    without a transport checksum; and a UDP datagram sent without a checksum is
    dropped as corrupt. *)
Theorem ip4_closing_node_and_plain_udp :
  (exists s' c3, encapsulate4 (StackNodes0 := demo_net true) (replicate 100 9) 14 [] demo_sender =
      Ret (s', [], c3, 44, None) /\
    Ipv4.Protocol (zdrop 14 c3) = Ret 0 /\ slice (zdrop 14 c3) 36 38 = [5; 5]) /\
  demux4 (StackNodes0 := demo_net false) demo_udp 0 []
    (with_hs (mkHandlers [mkNode 0 None (Some O) None 17 0] 1 0) demo_receiver) =
    Ret (with_hs (mkHandlers [mkNode 0 None (Some O) None 17 0] 1 0) demo_receiver, [], Some ErrBadCRC) /\
  Ipv4.CalculateHeaderCRC demo_udp = Ret 0.
Proof.
  split; [|split; by vm_compute]. do 2 eexists. split; [by vm_compute|]. split; by vm_compute.
Qed.

(** [StackIPv4] is a [stackip4] that is itself a node. *)
Record StackIPv4 := mkStackIPv4 { ip_connID : Z; stack : stackip4 }.

Definition Reset (v : Validator) (maxNodes grown : Z) (s : StackIPv4) : StackIPv4 :=
  mkStackIPv4 (u64 (ip_connID s + 1)) (reset4 v maxNodes grown (stack s)).

Definition Demux {W} `{!StackNodes W} (carrierData : list Z) (offset : Z) (w : W) (s : StackIPv4)
    : outcome (StackIPv4 * W * option error) :=
  '(st, w, err) ← demux4 carrierData offset w (stack s);
  Ret (mkStackIPv4 (ip_connID s) st, w, err).

Definition Encapsulate {W} `{!StackNodes W} (carrierData : list Z) (offsetToIP offsetToFrame : Z)
    (w : W) (s : StackIPv4) : outcome (StackIPv4 * W * list Z * Z * option error) :=
  if negb (offsetToFrame =? offsetToIP) then Ret (s, w, carrierData, 0, Some ErrBug)
  else
    '(st, w, c, n, err) ← encapsulate4 carrierData offsetToIP w (stack s);
    Ret (mkStackIPv4 (ip_connID s) st, w, c, n, err).

End StackIp4.
