(* ===== verification/StackPorts.v ===== *)
(** * Dispatch by port ([src/internet/stack-ports.go])

    [StackPorts] hands TCP segments or UDP datagrams to the node of their
    destination port and answers SYNs that no node takes with a reset.
    [StackPortsMACFiltered] is the same with nodes that wait for the hardware
    address of their peer. *)
From S2P Require Import Prelude Errors Bytes SeqNum Segment Frame IpAddr Validation RstQueue StackNodes.

Module StackPorts.
Import Bytes StackNodes.

Record StackPorts := mkPorts {
  ps_connID : Z;
  hs : handlers;
  dstPortOff : Z;
  protocol : Z;
  rstQueue : RstQueue.RSTQueue
}.

Section Ports.
Context {W : Type} `{!StackNodes W}.

Definition with_hs (h : handlers) (ps : StackPorts) : StackPorts :=
  mkPorts (ps_connID ps) h (dstPortOff ps) (protocol ps) (rstQueue ps).
Definition with_rst (q : RstQueue.RSTQueue) (ps : StackPorts) : StackPorts :=
  mkPorts (ps_connID ps) (hs ps) (dstPortOff ps) (protocol ps) q.

Definition Reset (proto dstPortOffset maxNodes grown : Z) (ps : StackPorts) : StackPorts * option error :=
  if 65535 <? proto then (ps, Some ErrInvalidConfig)
  else (mkPorts (u64 (ps_connID ps + 1)) (StackNodes.reset maxNodes grown (hs ps)) dstPortOffset
          (u16 proto) RstQueue.zero_queue, None).
Definition ResetUDP (maxNodes grown : Z) (ps : StackPorts) : StackPorts * option error :=
  Reset 17 2 maxNodes grown ps.
Definition ResetTCP (maxNodes grown : Z) (ps : StackPorts) : StackPorts * option error :=
  Reset 6 2 maxNodes grown ps.

Definition Encapsulate (carrierData : list Z) (offsetToIP offsetToFrame : Z) (w : W) (ps : StackPorts)
    : outcome (StackPorts * W * list Z * Z * option error) :=
  if zlen carrierData <? dstPortOff ps + offsetToFrame + 2
  then Ret (ps, w, carrierData, 0, Some IoErrShortBuffer)
  else
    '(h, w, c, _, n, err) ← encapsulateAny carrierData offsetToIP offsetToFrame w (hs ps);
    let ps := with_hs h ps in
    if n =? 0 then
      '(q, c, n, _) ← RstQueue.Drain c offsetToIP offsetToFrame (rstQueue ps);
      Ret (with_rst q ps, w, c, n, err)
    else Ret (ps, w, c, n, err).

(** The reset for a SYN that was dropped. *)
Definition queue_reset (b : list Z) (offset port : Z) (q : RstQueue.RSTQueue) : outcome RstQueue.RSTQueue :=
  flags_ ← Uint16 b (offset + 12);
  let flags := Z.land flags_ 511 in
  if negb (Z.land flags 2 =? 0) && (Z.land flags 20 =? 0) then
    '(ip, iperr) ← IpAddr.GetIPAddr b (zlen b);
    match iperr with
    | Some _ => Ret q
    | None =>
        remotePort ← Uint16 b offset;
        segSeq ← Uint32 b (offset + 4);
        Ret (RstQueue.Queue (IpAddr.ip_src ip) remotePort port 0 (u32 (segSeq + 1)) 20 q)
    end
  else Ret q.

Definition Demux (b : list Z) (offset : Z) (w : W) (ps : StackPorts)
    : outcome (StackPorts * W * option error) :=
  if zlen b <? dstPortOff ps + offset + 2 then Ret (ps, w, Some IoErrShortBuffer)
  else
    port ← Uint16 b (dstPortOff ps + offset);
    '(h, w, _, err) ← demuxByPort b offset port w (hs ps);
    let ps := with_hs h ps in
    if err_is err ErrPacketDrop && (protocol ps =? 6) && (offset + 14 <=? zlen b) then
      q ← queue_reset b offset port (rstQueue ps);
      Ret (with_rst q ps, w, err)
    else Ret (ps, w, err).

Definition Register (s : nat) (w : W) (ps : StackPorts) : outcome (StackPorts * option error) :=
  let port := LocalPort s w in
  let proto := Protocol s w in
  if port <=? 0 then Ret (ps, Some ErrZeroSource)
  else if negb (proto =? protocol ps) then Ret (ps, Some ErrInvalidConfig)
  else
    n ← nodeFromStackNode s port proto None w;
    let '(h, err) := registerByPortProto n w (hs ps) in
    Ret (with_hs h ps, err).

(** ** With hardware addresses *)

Definition RegisterMACFiltered (s : nat) (macAddr : option (list Z)) (w : W) (ps : StackPorts)
    : outcome (StackPorts * option error) :=
  let port := LocalPort s w in
  let proto := Protocol s w in
  if port <=? 0 then Ret (ps, Some ErrZeroSource)
  else if negb (proto =? protocol ps) then Ret (ps, Some ErrInvalidConfig)
  else if match macAddr with Some m => negb (zlen m =? 6) | None => false end
  then Ret (ps, Some ErrInvalidAddr)
  else
    n ← nodeFromStackNode s port proto macAddr w;
    let '(h, err) := registerByPortProto n w (hs ps) in
    Ret (with_hs h ps, err).

(** The address a node waits for is not known yet. *)
Definition waits_for_mac (n : node) : bool :=
  match remoteAddr n with
  | Some (x :: m) => forallb (Z.eqb 0) (x :: m)
  | _ => false
  end.

Definition set_destination (c : list Z) (offsetToIP : Z) (n : node) : outcome (list Z) :=
  match remoteAddr n with
  | Some m => if (zlen m =? 6) && (14 <=? offsetToIP) then put_checked c (offsetToIP - 14) m else Ret c
  | None => Ret c
  end.

(** The loop over the nodes [i ..]: the first one that writes ends it. [err] is
    what a node before returned last. *)
Fixpoint filtered_loop (k : nat) (i : nat) (c : list Z) (offsetToIP offsetToFrame : Z) (err : option error)
    (w : W) (h : handlers) : outcome (handlers * W * list Z * Z * option error) :=
  match k with
  | O => Ret (h, w, c, 0, err)
  | S k =>
      match nodes h !! i with
      | None => Panic
      | Some n =>
          match callbacks n with
          | None => filtered_loop k (S i) c offsetToIP offsetToFrame err w h
          | Some s =>
              if IsInvalid w n || waits_for_mac n
              then filtered_loop k (S i) c offsetToIP offsetToFrame err w h
              else
                '(w, c, m, err) ← StackNodes.Encapsulate s c offsetToIP offsetToFrame w;
                let '(n, gone) := tryHandleError w n err in
                let err := if gone then None else err in
                let h := with_nodes (<[i := n]> (nodes h)) h in
                if 0 <? m then
                  c ← set_destination c offsetToIP n;
                  Ret (h, w, c, m, err)
                else filtered_loop k (S i) c offsetToIP offsetToFrame err w h
          end
      end
  end.

Definition EncapsulateMACFiltered (carrierData : list Z) (offsetToIP offsetToFrame : Z) (w : W)
    (ps : StackPorts) : outcome (StackPorts * W * list Z * Z * option error) :=
  if zlen carrierData <? dstPortOff ps + offsetToFrame + 2
  then Ret (ps, w, carrierData, 0, Some IoErrShortBuffer)
  else
    '(h, w, c, n, err) ← filtered_loop (length (nodes (hs ps))) 0 carrierData offsetToIP offsetToFrame None w (hs ps);
    let ps := with_hs h ps in
    if 0 <? n then Ret (ps, w, c, n, err)
    else
      '(q, c, n, _) ← RstQueue.Drain c offsetToIP offsetToFrame (rstQueue ps);
      let ps := with_rst q ps in
      if 0 <? n then Ret (ps, w, c, n, None) else Ret (ps, w, c, 0, err).

(** ** Segments for nobody *)

(** An IPv4 packet with a TCP SYN (no ACK, no RST) at offset [off]. *)
Record syn_packet (b : list Z) (off port : Z) : Prop := mkSynPacket {
  sp_bytes : is_bytes b;
  sp_ver : IpAddr.ipver b = 4;
  sp_off : 20 <= off;
  sp_len : off + 20 <= zlen b;
  sp_dst : be16 b (off + 2) = port;
  sp_ports : port <> 0 /\ be16 b off <> 0;
  sp_syn : Z.land (Z.land (be16 b (off + 12)) 511) 2 <> 0;
  sp_noack : Z.land (Z.land (be16 b (off + 12)) 511) 20 = 0
}.

Record tcp_ports (ps : StackPorts) : Prop := mkTcpPorts {
  tp_proto : protocol ps = 6;
  tp_off : dstPortOff ps = 2;
  tp_queue : RstQueue.queue_ok (rstQueue ps)
}.

(** The reset for it (RFC 9293, 3.10.7.1). *)
Definition reset_for (b : list Z) (off : Z) : RstQueue.rstEntry :=
  RstQueue.mkEntry (slice b 12 16) (be16 b off) (be16 b (off + 2)) 0
    (u32 (be32 b (off + 4) + 1)) 20.

Lemma reset_for_ok b off port : syn_packet b off port -> RstQueue.entry_ok (reset_for b off).
Proof.
  intros [Hb Hv Ho Hl Hd [Hp0 Hs0] Hsyn Hna]. split; cbn; auto with bytes.
  - rewrite zlen_slice; lia.
  - wrap_lia.
  - wrap_lia.
  - lia.
Qed.

(** A SYN for a port without a node is dropped, and queued for a reset. *)
Lemma Demux_unclaimed b off port w ps :
  syn_packet b off port -> tcp_ports ps -> nodeByPort port w (hs ps) = None ->
  Demux b off w ps =
    Ret (with_rst (let e := reset_for b off in RstQueue.Queue (RstQueue.remoteAddr e)
           (RstQueue.e_remotePort e) (RstQueue.e_localPort e) (RstQueue.seq e) (RstQueue.ack e)
           (RstQueue.flags e) (rstQueue ps)) ps, w, Some ErrPacketDrop).
Proof.
  intros [Hb Hv Ho Hl Hd [Hp0 Hs0] Hsyn Hna] [Hpr Hoff Hq] Hno. unfold Demux. rewrite Hoff.
  destruct (Z.ltb_spec (zlen b) (2 + off + 2)); [lia|].
  replace (2 + off) with (off + 2) by lia. rewrite Uint16_ok by (done || lia).
  cbn [mbind outcome_bind]. rewrite Hd. unfold demuxByPort. rewrite Hno. cbn [mbind outcome_bind].
  change (err_is (Some ErrPacketDrop) ErrPacketDrop) with true. cbn [andb protocol with_hs rstQueue hs].
  rewrite Hpr. cbn [Z.eqb Pos.eqb andb]. destruct (Z.leb_spec (off + 14) (zlen b)); [|lia].
  unfold queue_reset. rewrite !Uint16_ok by (done || lia). cbn [mbind outcome_bind].
  cbn zeta. rewrite Hna. destruct (Z.eqb_spec (Z.land (Z.land (be16 b (off + 12)) 511) 2) 0); [done|].
  cbn [negb andb Z.eqb].
  rewrite (IpAddr.GetIPAddr_ok b (zlen b)).
  2:{ split; [done|lia|by left|]. rewrite Hv. change (IpAddr.hdr_min 4) with 20. lia. }
  cbn [mbind outcome_bind]. rewrite Uint32_ok by (done || lia). cbn [mbind outcome_bind].
  unfold reset_for, IpAddr.addrs_of. rewrite Hv, Hd. done.
Qed.

End Ports.

(** a connection attempt to a port nobody listens on is refused. A TCP SYN whose
    destination port has no node is reported as dropped, and if fewer than four
    resets wait, the next packet the layer sends when no node has anything to send
    is exactly the RST|ACK of RFC 9293: to the sender, with the ports swapped and
    the acknowledgement number one past the SYN; nodes and other resets are
    unaffected. *)
Theorem unclaimed_syn_is_reset {W} `{!StackNodes W} b off port (w w' : W) ps h' c c1 oip coff
  (Hb : syn_packet b off port) (Hps : tcp_ports ps) (Hno : nodeByPort port w (hs ps) = None)
  (Hroom : RstQueue.len (rstQueue ps) < 4)
  (Hidle : encapsulateAny c oip coff w (hs ps) = Ret (h', w', c1, None, 0, None))
  (Hlen : zlen c1 = zlen c) (Hc : RstQueue.carrier_ok c1 oip coff) :
  exists ps1 ps2 c2, Demux b off w ps = Ret (ps1, w, Some ErrPacketDrop) /\
    Encapsulate c oip coff w ps1 = Ret (ps2, w', c2, 20, None) /\
    hs ps2 = h' /\ RstQueue.waiting (rstQueue ps2) = RstQueue.waiting (rstQueue ps) /\
    RstQueue.answers c1 oip coff (reset_for b off) c2.
Proof.
  rewrite (Demux_unclaimed b off port w ps Hb Hps Hno). cbn zeta.
  set (q1 := RstQueue.Queue _ _ _ _ _ _ _). pose proof (reset_for_ok b off port Hb) as He.
  destruct Hps as [Hpr Hoff Hq]. destruct Hb as [Hb Hv Ho Hl Hd [Hp0 Hs0] Hsyn Hna].
  assert (RstQueue.queue_ok q1) as Hq1 by (by apply RstQueue.Queue_ok).
  assert (RstQueue.waiting q1 = RstQueue.waiting (rstQueue ps) ++ [reset_for b off]) as Hw1.
  { unfold q1. rewrite RstQueue.Queue_waiting by done. rewrite (RstQueue.eo_alen _ He).
    cbn [Z.eqb Pos.eqb andb]. bool_cases; [done|lia]. }
  destruct (RstQueue.Drain_answers c1 oip coff q1 (RstQueue.waiting (rstQueue ps)) (reset_for b off))
    as (q' & c2 & HD & Hq' & Hw' & Han); try done.
  { cbn. by rewrite Hd. }
  do 3 eexists. split; [done|]. split.
  - unfold Encapsulate. cbn [dstPortOff with_rst hs rstQueue with_hs].
    destruct Hc as [_ Hci Hch Hcr _]. rewrite Hoff.
    destruct (Z.ltb_spec (zlen c) (2 + coff + 2)); [lia|]. rewrite Hidle. cbn [mbind outcome_bind Z.eqb].
    cbn [rstQueue with_hs with_rst]. rewrite HD. cbn [mbind outcome_bind]. done.
  - done.
Qed.

(** A layer with one node, for port 80, that drops what it gets. *)
#[local] Instance demo_dropper : StackNodes unit := {
  Encapsulate _ buf _ _ w := Ret (w, buf, 0, None);
  Demux _ _ _ w := Ret (w, Some ErrPacketDrop);
  LocalPort _ _ := 80; Protocol _ _ := 6; ConnectionID _ _ := None
}.
Definition demo_ports : StackPorts :=
  mkPorts 1 (mkHandlers [mkNode 0 None (Some O) None 6 80] 1 0) 2 6 RstQueue.zero_queue.
(** A SYN with sequence number 7 from 10.0.0.1:2000 to 10.0.0.2, port [p] (below 256). *)
Definition demo_syn (p : Z) : list Z :=
  ztake 20 IpAddr.demo_ip4 ++ [7; 208; 0; p; 0; 0; 0; 7; 0; 0; 0; 0; 80; 2; 0; 0; 0; 0; 0; 0].
Definition demo_out : list Z := replicate 14 0 ++ IpAddr.demo_ip4.

Lemma unclaimed_syn_is_reset_witness :
  exists ps1 ps2 c2, Demux (demo_syn 81) 20 tt demo_ports = Ret (ps1, tt, Some ErrPacketDrop) /\
    Encapsulate demo_out 14 34 tt ps1 = Ret (ps2, tt, c2, 20, None).
Proof.
  destruct (unclaimed_syn_is_reset (demo_syn 81) 20 81 tt tt demo_ports (hs demo_ports) demo_out demo_out 14 34)
    as (ps1 & ps2 & c2 & H1 & H2 & _);
    [split; by_compute|split; by_compute|done|done|by vm_compute|done|split; by_compute|].
  exists ps1, ps2, c2. split; [exact H1|exact H2].
Defined.

End StackPorts.
