(* ===== verification/Ethernet.v ===== *)
(** * Ethernet frames ([src/ethernet/frame.go], [definitions.go], [crc.go])

    A [Frame] is the buffer it wraps, and a slice expression is checked against its
    length (a buffer whose capacity exceeds its length is one of that capacity).
    The table-driven CRC of Go's [hash/crc32] is its bitwise definition. *)
From S2P Require Import Prelude Errors Bytes Validation Ipv4.

Module Ethernet.
Import Bytes Validation.

Definition MaxMTU : Z := 1500.
Definition sizeHeaderNoVLAN : Z := 14.
Definition MinimumFrameLength : Z := 64.
Definition MinimumMTU : Z := MinimumFrameLength - sizeHeaderNoVLAN.
Definition TypeIPv4 : Z := 2048.
Definition TypeARP : Z := 2054.
Definition TypeIPv6 : Z := 34525.
Definition TypeVLAN : Z := 33024.

Definition BroadcastAddr : list Z := replicate 6 255.
Definition MulticastAddrFrom4 (ip : list Z) : list Z * bool :=
  let a i := default 0 (zget ip i) in
  if negb (Z.land (a 0) 240 =? 224) then (replicate 6 0, false)
  else ([1; 0; 94; Z.land (a 1) 127; a 2; a 3], true).

(** [Type.IsSize] *)
Definition IsSize (et : Z) : bool := et <=? 1500.

Definition DropEligibleIndicator (vt : Z) : bool := negb (Z.land vt 8 =? 0).
Definition PriorityCodePoint (vt : Z) : Z := u8 (Z.land vt 7).
Definition VLANIdentifier (vt : Z) : Z := Z.shiftr vt 4.

Definition Frame : Type := list Z.

Definition NewFrame (buf : list Z) : option Frame * option error :=
  if zlen buf <? sizeHeaderNoVLAN then (None, Some ErrTruncatedFrame) else (Some buf, None).
Definition RawData (efrm : Frame) : list Z := efrm.

Definition EtherTypeOrSize (efrm : Frame) : outcome Z := Uint16 efrm 12.
Definition SetEtherType (v : Z) (efrm : Frame) : outcome Frame := PutUint16 efrm 12 v.
Definition IsVLAN (efrm : Frame) : outcome bool := et ← EtherTypeOrSize efrm; Ret (et =? TypeVLAN).
Definition HeaderLength (efrm : Frame) : outcome Z :=
  v ← IsVLAN efrm; Ret (if v : bool then 18 else sizeHeaderNoVLAN).
Definition Payload (efrm : Frame) : outcome (list Z) :=
  hl ← HeaderLength efrm;
  et ← EtherTypeOrSize efrm;
  if IsSize et then Ipv4.sub efrm hl (hl + et) else Ipv4.sub efrm hl (zlen efrm).
Definition DestinationHardwareAddr (efrm : Frame) : outcome (list Z) := Ipv4.sub efrm 0 6.
Definition SourceHardwareAddr (efrm : Frame) : outcome (list Z) := Ipv4.sub efrm 6 12.
Definition IsBroadcast (efrm : Frame) : outcome bool :=
  dst ← DestinationHardwareAddr efrm; Ret (bool_decide (dst = BroadcastAddr)).
Definition SetVLAN (tag vlanType : Z) (efrm : Frame) : outcome Frame :=
  f ← SetEtherType TypeVLAN efrm;
  f ← PutUint16 f 14 tag;
  PutUint16 f 16 vlanType.
Definition VLAN (efrm : Frame) : outcome (Z * Z) :=
  vt ← Uint16 efrm 14; et ← Uint16 efrm 16; Ret (vt, et).
Definition ClearHeader (frm : Frame) : outcome Frame :=
  put_checked frm 0 (replicate (Z.to_nat sizeHeaderNoVLAN) 0).
Definition ValidateSize (efrm : Frame) (v : Validator) : outcome Validator :=
  sz ← EtherTypeOrSize efrm;
  let v := if IsSize sz && (zlen efrm <? sz) then AddError ErrInvalidLengthField v else v in
  let v := if (sz =? TypeVLAN) && (zlen efrm <? 18) then AddError ErrTruncatedFrame v else v in
  Ret v.

(** ** The frame check sequence *)

(** One bit, and one byte, of the reflected IEEE polynomial. *)
Definition crc_bit (crc : Z) : Z :=
  if Z.odd crc then Z.lxor (Z.shiftr crc 1) 3988292384 else Z.shiftr crc 1.
Definition crc_byte (crc x : Z) : Z :=
  Nat.iter 8 crc_bit (Z.lxor crc x).

(** [crc32.Update(crc, IEEE, p)] and [crc32.Checksum(p, IEEE)]. *)
Definition crc32_Update (crc : Z) (p : list Z) : Z :=
  u32 (Z.lnot (fold_left crc_byte p (u32 (Z.lnot crc)))).
Definition CRC32 (data : list Z) : Z := crc32_Update 0 data.

(** [binary.LittleEndian.Uint32(data[off:])] *)
Definition le32 (data : list Z) (off : Z) : outcome Z :=
  a ← at_ data off; b ← at_ data (off + 1); c ← at_ data (off + 2); d ← at_ data (off + 3);
  Ret (Z.lor a (Z.lor (Z.shiftl b 8) (Z.lor (Z.shiftl c 16) (Z.shiftl d 24)))).

(** The loop of [CRC32Search] over [off .. len-4], at most [k] turns. *)
Fixpoint search_loop (k : nat) (data : list Z) (off crc : Z) : outcome Z :=
  match k with
  | O => Ret (-1)
  | S k =>
      if off <=? zlen data - 4 then
        got ← le32 data off;
        if crc =? got then Ret off
        else
          x ← Ipv4.sub data off (off + 1);
          search_loop k data (off + 1) (crc32_Update crc x)
      else Ret (-1)
  end.
Definition CRC32Search (data : list Z) (minOffCRC : Z) : outcome Z :=
  let minOffCRC := if minOffCRC <? 0 then 0 else minOffCRC in
  if zlen data <? minOffCRC + 4 then Ret (-1)
  else
    h ← Ipv4.sub data 0 minOffCRC;
    search_loop (S (length data)) data minOffCRC (CRC32 h).

(** ** Lemmas *)

Lemma u32_lnot_lnot x : is_u32 x -> u32 (Z.lnot (u32 (Z.lnot x))) = x.
Proof. intros. unfold Z.lnot, Z.pred. wrap_lia. Qed.

Lemma crc_bit_u32 x : is_u32 x -> is_u32 (crc_bit x).
Proof.
  intros Hx. unfold crc_bit. assert (0 <= Z.shiftr x 1 < 2 ^ 32).
  { rewrite Z.shiftr_div_pow2 by lia. unfold is_u32 in Hx. Z.to_euclidean_division_equations. lia. }
  case_match; [|done]. apply lxor_bound; lia.
Qed.
Lemma crc_byte_u32 crc x : is_u32 crc -> is_u8 x -> is_u32 (crc_byte crc x).
Proof.
  intros Hc Hx. assert (is_u32 (Z.lxor crc x)) as H by (apply lxor_bound; unfold is_u32, is_u8 in *; lia).
  unfold crc_byte. revert H. generalize (Z.lxor crc x). generalize 8%nat.
  intros k. induction k as [|k IH]; intros y Hy; [done|]. cbn. by apply crc_bit_u32, IH.
Qed.
Lemma fold_crc_u32 p crc : is_bytes p -> is_u32 crc -> is_u32 (fold_left crc_byte p crc).
Proof.
  revert crc. induction p as [|x p IH]; intros crc Hp Hc; [done|].
  inversion Hp; subst. cbn. apply IH; [done|]. by apply crc_byte_u32.
Qed.

(** The checksum can be computed piece by piece. *)
Lemma crc32_Update_app crc p q : is_bytes p ->
  crc32_Update (crc32_Update crc p) q = crc32_Update crc (p ++ q).
Proof.
  intros Hp. unfold crc32_Update. rewrite fold_left_app. do 3 f_equal. apply u32_lnot_lnot.
  apply fold_crc_u32; [done|]. wrap_lia.
Qed.

(** The frame check sequence stored at [off] is the one of what precedes it. *)
Definition fcs_at (data : list Z) (off : Z) : Prop := le32 data off = Ret (CRC32 (ztake off data)).

Lemma le32_ok data off : 0 <= off -> off + 4 <= zlen data -> exists x, le32 data off = Ret x.
Proof.
  intros. unfold le32.
  destruct (at_ok data off) as (a & _ & ->); [lia|]. destruct (at_ok data (off + 1)) as (b & _ & ->); [lia|].
  destruct (at_ok data (off + 2)) as (c & _ & ->); [lia|]. destruct (at_ok data (off + 3)) as (d & _ & ->); [lia|].
  by eexists.
Qed.

Lemma ztake_snoc {A} (l : list A) i x : zget l i = Some x -> 0 <= i -> ztake (i + 1) l = ztake i l ++ [x].
Proof.
  unfold zget, ztake. intros E Hi. bool_cases_in E; [lia|].
  replace (Z.to_nat (i + 1)) with (S (Z.to_nat i)) by lia. by apply take_S_r.
Qed.

Lemma search_loop_spec k data : is_bytes data -> forall off,
  0 <= off -> zlen data - off < Z.of_nat k + 3 ->
  exists r, search_loop k data off (CRC32 (ztake off data)) = Ret r /\
    (r = -1 /\ (forall o, off <= o <= zlen data - 4 -> ~ fcs_at data o) \/
     off <= r <= zlen data - 4 /\ fcs_at data r /\ forall o, off <= o < r -> ~ fcs_at data o).
Proof.
  intros Hb. induction k as [|k IH]; intros off Ho Hk.
  { exists (-1). split; [done|]. left. split; [done|]. lia. }
  cbn [search_loop]. destruct (Z.leb_spec off (zlen data - 4)).
  2:{ exists (-1). split; [done|]. left. split; [done|]. lia. }
  destruct (le32_ok data off) as [got Hg]; [lia..|]. rewrite Hg. cbn [mbind outcome_bind].
  destruct (Z.eqb_spec (CRC32 (ztake off data)) got) as [E|E].
  { exists off. split; [done|]. right. split; [lia|]. split; [unfold fcs_at; by rewrite Hg, E|lia]. }
  rewrite Ipv4.sub_ok by lia. cbn [mbind outcome_bind].
  destruct (zget_some data off) as [x Ex]; [lia|].
  assert (slice data off (off + 1) = [x]) as ->.
  { apply zlist_eq; rewrite zlen_slice by lia; [change (zlen [x]) with 1; lia|].
    intros i Hi. rewrite zget_slice by lia. replace i with 0 by lia. by rewrite Z.add_0_r, Ex. }
  unfold CRC32 at 1. rewrite crc32_Update_app by auto with bytes.
  rewrite <- (ztake_snoc data off x) by (done || lia). fold (CRC32 (ztake (off + 1) data)).
  assert (~ fcs_at data off) as Hno.
  { unfold fcs_at. rewrite Hg. intros H'. injection H' as H'. by rewrite H' in E. }
  destruct (IH (off + 1)) as (r & -> & Hr); [lia..|]. exists r. split; [done|].
  destruct Hr as [[-> Hr]|(Hr1 & Hr2 & Hr3)].
  - left. split; [done|]. intros o Ho'. destruct (decide (o = off)) as [->|]; [done|]. apply Hr. lia.
  - right. split; [lia|]. split; [done|]. intros o Ho'. destruct (decide (o = off)) as [->|]; [done|]. apply Hr3. lia.
Qed.

(** the search for the frame check sequence is exact. [CRC32Search] returns the
    least offset at or after [minOffCRC] at which the four bytes are the CRC-32 of
    everything before them, and -1 exactly when there is none; it never panics. *)
Theorem crc32_search_exact data minOffCRC (Hb : is_bytes data) :
  let lo := Z.max 0 minOffCRC in
  exists r, CRC32Search data minOffCRC = Ret r /\
    (r = -1 /\ (forall o, lo <= o <= zlen data - 4 -> ~ fcs_at data o) \/
     lo <= r <= zlen data - 4 /\ fcs_at data r /\ forall o, lo <= o < r -> ~ fcs_at data o).
Proof.
  intros lo. unfold CRC32Search.
  replace (if minOffCRC <? 0 then 0 else minOffCRC) with lo by (unfold lo; bool_cases; lia).
  destruct (Z.ltb_spec (zlen data) (lo + 4)).
  { exists (-1). split; [done|]. left. split; [done|]. lia. }
  rewrite Ipv4.sub_ok by lia. cbn [mbind outcome_bind].
  assert (slice data 0 lo = ztake lo data) as ->.
  { unfold slice. by rewrite Z.sub_0_r, zdrop_nonpos by lia. }
  apply search_loop_spec; [done|lia|unfold zlen; lia].
Qed.

(** The sizes [ValidateSize] looks at. *)
Lemma EtherTypeOrSize_ok b : is_bytes b -> 14 <= zlen b -> EtherTypeOrSize b = Ret (be16 b 12).
Proof. intros. apply Uint16_ok; done || lia. Qed.

(** A validated frame whose payload does not exist: [ValidateSize] compares the
    length field of an 802.3 frame with the whole buffer, [Payload] needs it to fit
    behind the header. *)
Lemma ethernet_payload_panics b v :
  is_bytes b -> 14 <= zlen b -> zlen b - 14 < be16 b 12 <= zlen b -> be16 b 12 <= 1500 ->
  ValidateSize b v = Ret v /\ Payload b = Panic.
Proof.
  intros Hb Hl Hsz H1500. unfold ValidateSize, Payload, HeaderLength, IsVLAN.
  rewrite EtherTypeOrSize_ok by done.
  cbn [mbind outcome_bind]. unfold IsSize, TypeVLAN, sizeHeaderNoVLAN.
  destruct (Z.leb_spec (be16 b 12) 1500); [|lia]. destruct (Z.eqb_spec (be16 b 12) 33024); [lia|].
  destruct (Z.ltb_spec (zlen b) (be16 b 12)); [lia|]. split; [done|].
  unfold Ipv4.sub, assert_or_panic, slice_ok. bool_cases; done || lia.
Qed.

(** A frame with an EtherType and no tag has everything behind the header. *)
Lemma typed_payload b v :
  is_bytes b -> 14 <= zlen b -> 1500 < be16 b 12 -> be16 b 12 <> TypeVLAN ->
  ValidateSize b v = Ret v /\ Payload b = Ret (zdrop 14 b).
Proof.
  intros Hb Hl Ht Hv. unfold ValidateSize, Payload, HeaderLength, IsVLAN.
  rewrite EtherTypeOrSize_ok by done. cbn [mbind outcome_bind]. unfold IsSize, sizeHeaderNoVLAN.
  destruct (Z.leb_spec (be16 b 12) 1500); [lia|]. destruct (Z.eqb_spec (be16 b 12) TypeVLAN); [done|].
  split; [done|]. rewrite Ipv4.sub_ok by lia. unfold slice. rewrite ztake_ge; [done|rewrite zlen_zdrop; lia].
Qed.

(** The bytes "123456789" and their check value. *)
Definition demo_fcs : list Z := [49; 50; 51; 52; 53; 54; 55; 56; 57] ++ [38; 57; 244; 203] ++ [0; 0].

Lemma crc32_search_exact_witness : CRC32Search demo_fcs 2 = Ret 9 /\ fcs_at demo_fcs 9.
Proof.
  destruct (crc32_search_exact demo_fcs 2) as (r & H & Hr); [by_compute|].
  assert (r = 9) as -> by (vm_compute in H; congruence). split; [exact H|].
  destruct Hr as [[Hr _]|(_ & Hr & _)]; [discriminate Hr|exact Hr].
Defined.

End Ethernet.
