(* ===== verification/StackEthernet.v ===== *)
(** * The Ethernet layer ([src/internet/stack-ethernet.go])

    The CRC update function of the configuration is a field, and the observer
    [onSend] a function from the bytes of the frame to what it left there. *)
From S2P Require Import Prelude Errors Bytes Validation Ipv4 Ethernet StackNodes.

Module StackEthernet.
Import Bytes Validation StackNodes.

Record StackEthernetConfig := mkConfig {
  cfg_MTU : Z;
  cfg_MaxNodes : Z;
  cfg_MAC : list Z;
  cfg_Gateway : list Z;
  cfg_AppendCRC32 : bool;
  cfg_CRC32Update : option (Z -> list Z -> Z)
}.

Record StackEthernet := mkEth {
  eth_connID : Z;
  hs : handlers;
  mac : list Z;
  gwmac : list Z;
  mtu : Z;
  acceptMulticast : bool;
  onSend : option (list Z -> list Z);
  crcupdate : option (Z -> list Z -> Z)
}.

Section Eth.
Context {W : Type} `{!StackNodes W}.

Definition with_hs (h : handlers) (ls : StackEthernet) : StackEthernet :=
  mkEth (eth_connID ls) h (mac ls) (gwmac ls) (mtu ls) (acceptMulticast ls) (onSend ls) (crcupdate ls).

Definition SetGateway6 (gw : list Z) (ls : StackEthernet) : StackEthernet :=
  mkEth (eth_connID ls) (hs ls) (mac ls) gw (mtu ls) (acceptMulticast ls) (onSend ls) (crcupdate ls).
Definition SetAcceptMulticast (accept : bool) (ls : StackEthernet) : StackEthernet :=
  mkEth (eth_connID ls) (hs ls) (mac ls) (gwmac ls) (mtu ls) accept (onSend ls) (crcupdate ls).
Definition SetHardwareAddr6 (a : list Z) (ls : StackEthernet) : StackEthernet :=
  mkEth (eth_connID ls) (hs ls) a (gwmac ls) (mtu ls) (acceptMulticast ls) (onSend ls) (crcupdate ls).
Definition OnEncapsulate (cb : option (list Z -> list Z)) (ls : StackEthernet) : StackEthernet :=
  mkEth (eth_connID ls) (hs ls) (mac ls) (gwmac ls) (mtu ls) (acceptMulticast ls) cb (crcupdate ls).

Definition Configure (cfg : StackEthernetConfig) (grown : Z) (ls : StackEthernet)
    : StackEthernet * option error :=
  if (Ethernet.MaxMTU <? cfg_MTU cfg) || (cfg_MTU cfg <? Ethernet.MinimumMTU) then (ls, Some ErrInvalidConfig)
  else if cfg_MaxNodes cfg <=? 0 then (ls, Some ErrInvalidConfig)
  else if cfg_AppendCRC32 cfg && match cfg_CRC32Update cfg with None => true | Some _ => false end
  then (ls, Some ErrInvalidConfig)
  else (mkEth (u64 (eth_connID ls + 1)) (reset (cfg_MaxNodes cfg) grown (hs ls)) (cfg_MAC cfg)
          (cfg_Gateway cfg) (u16 (cfg_MTU cfg)) (acceptMulticast ls) None
          (if cfg_AppendCRC32 cfg then cfg_CRC32Update cfg else None), None).

Definition MaxFrameLength (ls : StackEthernet) : Z :=
  let base := mtu ls + 14 in match crcupdate ls with Some _ => base + 4 | None => base end.
Definition MTU (ls : StackEthernet) : Z := mtu ls.

Definition RegisterEthernet (s : nat) (w : W) (ls : StackEthernet) : outcome (StackEthernet * option error) :=
  let proto := Protocol s w in
  if (65535 <? proto) || (proto <=? 1500) then Ret (ls, Some ErrInvalidConfig)
  else
    n ← nodeFromStackNode s 0 proto None w;
    let '(h, err) := registerByProto n w (hs ls) in
    Ret (with_hs h ls, err).

(** Frames for others are dropped. *)
Definition for_us (dst : list Z) (ls : StackEthernet) : bool :=
  bool_decide (dst = Ethernet.BroadcastAddr) || bool_decide (mac ls = dst) ||
  (acceptMulticast ls && negb (Z.land (default 0 (zget dst 0)) 1 =? 0)).

Definition Demux (carrierData : list Z) (frameOffset : Z) (w : W) (ls : StackEthernet)
    : outcome (StackEthernet * W * option error) :=
  pkt ← Ipv4.sub carrierData frameOffset (zlen carrierData);
  match Ethernet.NewFrame pkt with
  | (None, err) => Ret (ls, w, err)
  | (Some efrm, _) =>
  etype ← Ethernet.EtherTypeOrSize efrm;
  dstaddr ← Ethernet.DestinationHardwareAddr efrm;
  if negb (for_us dstaddr ls) then Ret (ls, w, Some ErrPacketDrop)
  else
  vld ← Ethernet.ValidateSize efrm (mkValidator [] 0);
  bad ← HasError vld;
  if bad : bool then Ret (ls, w, snd (ErrPop vld))
  else
  payload ← Ethernet.Payload efrm;
  '(h, w, node, err) ← demuxByProto payload 0 etype w (hs ls);
  let ls := with_hs h ls in
  match node with
  | Some _ => Ret (ls, w, err)
  | None => Ret (ls, w, Some ErrPacketDrop)
  end
  end.

(** Zeros up to the minimum frame of 60 bytes. *)
Definition pad (n : Z) (dst : list Z) : outcome (list Z * Z) :=
  if n <? 60 then
    dst ← put_checked dst n (replicate (Z.to_nat (60 - n)) 0); Ret (dst, 60)
  else Ret (dst, n).

(** The frame at [offsetToFrame] once a node has written [n] bytes of payload. *)
Definition finish_frame (n proto : Z) (dst : list Z) (ls : StackEthernet) : outcome (list Z * Z) :=
  dst ← put_checked dst 6 (mac ls);
  dst ← Ethernet.SetEtherType proto dst;
  '(dst, n) ← pad (n + 14) dst;
  let dst := match onSend ls with
             | None => dst
             | Some cb => put dst 0 (ztake n (cb (ztake n dst)))
             end in
  match crcupdate ls with
  | None => Ret (dst, n)
  | Some upd =>
      let crc := upd 0 (ztake n dst) in
      dst ← put_checked dst n [u8 crc; u8 (Z.shiftr crc 8); u8 (Z.shiftr crc 16); u8 (Z.shiftr crc 24)];
      Ret (dst, n + 4)
  end.

Definition Encapsulate (carrierData : list Z) (offsetToIP offsetToFrame : Z) (w : W) (ls : StackEthernet)
    : outcome (StackEthernet * W * list Z * Z * option error) :=
  dst ← Ipv4.sub carrierData offsetToFrame (zlen carrierData);
  if zlen dst <? MaxFrameLength ls then Ret (ls, w, carrierData, 0, Some IoErrShortBuffer)
  else
  match Ethernet.NewFrame dst with
  | (None, err) => Ret (ls, w, carrierData, 0, err)
  | (Some _, _) =>
  carrierData ← put_checked carrierData offsetToFrame (gwmac ls);
  let payloadOffset := offsetToFrame + 14 in
  let mtuLimit := payloadOffset + mtu ls in
  clipped ← Ipv4.sub carrierData 0 mtuLimit;
  '(h, w, clipped, node, n, err) ← encapsulateAny clipped payloadOffset payloadOffset w (hs ls);
  let carrierData := clipped ++ zdrop mtuLimit carrierData in
  let ls := with_hs h ls in
  if n =? 0 then Ret (ls, w, carrierData, n, err)
  else
    match node ≫= (fun i => nodes h !! i) with
    | None => Panic
    | Some nd =>
        '(dst, n) ← finish_frame n (proto nd) (zdrop offsetToFrame carrierData) ls;
        Ret (ls, w, ztake offsetToFrame carrierData ++ dst, n, err)
    end
  end.

(** ** Delivery *)

Lemma Demux_typed b w ls i et :
  is_bytes b -> 14 <= zlen b -> be16 b 12 = et -> 1500 < et -> et <> Ethernet.TypeVLAN ->
  for_us (slice b 0 6) ls = true -> nodeByProto et w (hs ls) = Some i ->
  Demux b 0 w ls =
    ('(h, w, err, _) ← demux_at i (zdrop 14 b) 0 w (hs ls); Ret (with_hs h ls, w, err)).
Proof.
  intros Hb Hl Het Ht Hv Hus Hi. unfold Demux. rewrite Ipv4.sub_ok by (pose proof (zlen_nonneg b); lia).
  cbn [mbind outcome_bind].
  assert (slice b 0 (zlen b) = b) as -> by (unfold slice; by rewrite Z.sub_0_r, zdrop_nonpos, ztake_ge by lia).
  unfold Ethernet.NewFrame, Ethernet.sizeHeaderNoVLAN. destruct (Z.ltb_spec (zlen b) 14); [lia|].
  rewrite Ethernet.EtherTypeOrSize_ok by done. unfold Ethernet.DestinationHardwareAddr.
  rewrite Ipv4.sub_ok by lia. cbn [mbind outcome_bind]. rewrite Hus. cbn [negb].
  destruct (Ethernet.typed_payload b (mkValidator [] 0)) as [-> ->]; [done|done|lia|by rewrite Het|].
  cbn [mbind outcome_bind HasError has vflags Z.land Z.eqb accum zlen length Z.of_nat negb].
  unfold demuxByProto. rewrite Het, Hi. by destruct (demux_at i (zdrop 14 b) 0 w (hs ls)) as [[[[? ?] ?] ?]|].
Qed.

(** The frame finished without an observer and without a check sequence. *)
Lemma finish_frame_ok n et dst ls :
  onSend ls = None -> crcupdate ls = None -> is_bytes dst -> is_bytes (mac ls) -> zlen (mac ls) = 6 ->
  is_u16 et -> 0 < n -> n + 14 <= zlen dst -> 60 <= zlen dst ->
  exists d, finish_frame n et dst ls = Ret (d, Z.max 60 (n + 14)) /\ zlen d = zlen dst /\ is_bytes d /\
    slice d 0 6 = slice dst 0 6 /\ slice d 6 12 = mac ls /\ be16 d 12 = et /\
    slice d 14 (14 + n) = slice dst 14 (14 + n) /\
    forall k, 14 + n <= k < 60 -> zget d k = Some 0.
Proof.
  intros Ho Hc Hb Hmb Hml He Hn Hl H60. unfold finish_frame, Ethernet.SetEtherType, pad. rewrite Ho, Hc.
  rewrite put_checked_ok by lia. cbn [mbind outcome_bind].
  set (d1 := put dst 6 (mac ls)). assert (zlen d1 = zlen dst) as L1 by (unfold d1; put_len).
  rewrite PutUint16_ok by lia. cbn [mbind outcome_bind]. set (d2 := put d1 12 (bytes16 et)).
  assert (zlen d2 = zlen dst) as L2 by (unfold d2; rewrite zlen_put16; lia).
  assert (is_bytes d2) as B2 by (unfold d2, d1; auto with bytes).
  assert (slice d2 0 6 = slice dst 0 6 /\ slice d2 6 12 = mac ls /\ be16 d2 12 = et /\
          slice d2 14 (14 + n) = slice dst 14 (14 + n)) as (S1 & S2 & S3 & S4).
  { unfold d2. split_and!.
    - rewrite slice_put_out by (change (zlen (bytes16 et)) with 2; lia). unfold d1. apply slice_put_out; lia.
    - rewrite slice_put_out by (change (zlen (bytes16 et)) with 2; lia). unfold d1.
      replace 12 with (6 + zlen (mac ls)) by lia. apply slice_put_in; lia.
    - apply be16_put; done || lia.
    - rewrite slice_put_out by (change (zlen (bytes16 et)) with 2; lia). unfold d1. apply slice_put_out; lia. }
  destruct (Z.ltb_spec (n + 14) 60); cbn [mbind outcome_bind].
  2:{ exists d2. split; [do 2 f_equal; lia|]. split_and!; try done. lia. }
  set (z := replicate (Z.to_nat (60 - (n + 14))) 0).
  assert (zlen z = 60 - (n + 14)) as Lz by (unfold z, zlen; rewrite length_replicate; lia).
  rewrite put_checked_ok by lia. cbn [mbind outcome_bind].
  exists (put d2 (n + 14) z). split; [do 2 f_equal; lia|]. split; [rewrite zlen_put; lia|].
  split; [apply is_bytes_put; [done|]; apply Forall_replicate; by_compute|].
  rewrite !slice_put_out by lia. rewrite be16_put_out by lia. split_and!; try done.
  intros k Hk. rewrite zget_put_in by lia. unfold zget, z. bool_cases; [lia|].
  apply lookup_replicate_2. lia.
Qed.

(** The frame check sequence behind a frame: four octets of the CRC, the least
    significant first, or nothing when none is configured. *)
Definition check_sequence (ls : StackEthernet) (frame : list Z) : list Z :=
  match crcupdate ls with
  | None => []
  | Some upd =>
      let crc := upd 0 frame in
      [u8 crc; u8 (Z.shiftr crc 8); u8 (Z.shiftr crc 16); u8 (Z.shiftr crc 24)]
  end.
Definition check_len (ls : StackEthernet) : Z :=
  match crcupdate ls with None => 0 | Some _ => 4 end.
Lemma zlen_check ls f : zlen (check_sequence ls f) = check_len ls.
Proof. unfold check_sequence, check_len. by destruct (crcupdate ls). Qed.

Definition without_crc (ls : StackEthernet) : StackEthernet :=
  mkEth (eth_connID ls) (hs ls) (mac ls) (gwmac ls) (mtu ls) (acceptMulticast ls) (onSend ls) None.

(** The same with a check sequence behind it, when one is configured. *)
Lemma finish_frame_checked n et dst ls :
  let m := Z.max 60 (n + 14) in
  onSend ls = None -> is_bytes dst -> is_bytes (mac ls) -> zlen (mac ls) = 6 ->
  is_u16 et -> 0 < n -> m + check_len ls <= zlen dst ->
  exists d, finish_frame n et dst ls = Ret (d, m + check_len ls) /\ zlen d = zlen dst /\ is_bytes d /\
    slice d 0 6 = slice dst 0 6 /\ slice d 6 12 = mac ls /\ be16 d 12 = et /\
    slice d 14 (14 + n) = slice dst 14 (14 + n) /\
    (forall k, 14 + n <= k < 60 -> zget d k = Some 0) /\
    slice d m (m + check_len ls) = check_sequence ls (ztake m d).
Proof.
  intros m Ho Hb Hmb Hml He Hn Hl. assert (0 <= check_len ls <= 4) as Hcl by (unfold check_len; case_match; lia).
  destruct (finish_frame_ok n et dst (without_crc ls)) as (d & HF & Ld & Bd & D1 & D2 & D3 & D4 & D5);
    try done; try lia. fold m in HF.
  assert (finish_frame n et dst ls = ('(d, n) ← finish_frame n et dst (without_crc ls);
    match crcupdate ls with
    | None => Ret (d, n)
    | Some _ => d' ← put_checked d n (check_sequence ls (ztake n d)); Ret (d', n + 4)
    end)) as ->.
  { unfold finish_frame, check_sequence. cbn [mac onSend crcupdate without_crc].
    destruct (put_checked dst 6 (mac ls)) as [d1|]; [|done]. cbn [mbind outcome_bind].
    destruct (Ethernet.SetEtherType et d1) as [d2|]; [|done]. cbn [mbind outcome_bind].
    destruct (pad (n + 14) d2) as [[d3 n3]|]; [|done]. cbn [mbind outcome_bind].
    destruct (crcupdate ls); [done|]. by destruct (onSend ls). }
  rewrite HF. cbn [mbind outcome_bind].
  destruct (crcupdate ls) as [upd|] eqn:Ec.
  2:{ exists d. unfold check_len, check_sequence. rewrite Ec, Z.add_0_r. split_and!; try done.
      unfold slice. by rewrite Z.sub_diag. }
  assert (check_len ls = 4) as E4 by (unfold check_len; by rewrite Ec). rewrite E4 in *.
  set (q := check_sequence ls (ztake m d)).
  assert (zlen q = 4) as Lq by (unfold q; by rewrite zlen_check).
  assert (is_bytes q) as Bq.
  { unfold q, check_sequence. rewrite Ec. repeat apply Forall_cons_2; try apply Forall_nil_2; unfold is_u8, u8; wrap_lia. }
  rewrite put_checked_ok by lia. cbn [mbind outcome_bind].
  exists (put d m q). split; [done|]. split; [rewrite zlen_put; lia|]. split; [by apply is_bytes_put|].
  rewrite !slice_put_out by lia. rewrite be16_put_out by lia.
  split; [done|]. split; [done|]. split; [done|]. split; [done|]. split.
  - intros k Hk. rewrite zget_put_out by lia. by apply D5.
  - rewrite <- Lq at 1. rewrite slice_put_in by lia. apply (f_equal (check_sequence ls)).
    apply zlist_eq; rewrite !zlen_ztake by (rewrite ?zlen_put; lia); [done|].
    intros k Hk. rewrite !zget_ztake by lia. by rewrite zget_put_out by lia.
Qed.

(** The carrier a node gets to see. *)
Definition offered (c : list Z) (off : Z) (ls : StackEthernet) : list Z :=
  ztake (off + 14 + mtu ls) (put c off (gwmac ls)).

Record eth_ok (c : list Z) (off : Z) (ls : StackEthernet) : Prop := mkEthOk {
  ek_bytes : is_bytes c;
  ek_off : 0 <= off;
  ek_mtu : 50 <= mtu ls;
  ek_room : off + MaxFrameLength ls <= zlen c;
  ek_mac : is_bytes (mac ls) /\ zlen (mac ls) = 6;
  ek_gw : is_bytes (gwmac ls) /\ zlen (gwmac ls) = 6;
  ek_unobserved : onSend ls = None
}.

Lemma MaxFrameLength_check ls : MaxFrameLength ls = mtu ls + 14 + check_len ls.
Proof. unfold MaxFrameLength, check_len. case_match; lia. Qed.

Lemma Encapsulate_ok c off oip w ls h' w' c2 j n nd :
  eth_ok c off ls ->
  encapsulateAny (offered c off ls) (off + 14) (off + 14) w (hs ls) = Ret (h', w', c2, Some j, n, None) ->
  nodes h' !! j = Some nd -> is_u16 (proto nd) ->
  zlen c2 = off + 14 + mtu ls -> is_bytes c2 -> 0 < n <= mtu ls ->
  exists d, Encapsulate c oip off w ls =
      Ret (with_hs h' ls, w', ztake off c2 ++ d, Z.max 60 (n + 14) + check_len ls, None) /\
    zlen d = zlen c - off /\ is_bytes d /\
    slice d 0 6 = slice c2 off (off + 6) /\ slice d 6 12 = mac ls /\ be16 d 12 = proto nd /\
    slice d 14 (14 + n) = slice c2 (off + 14) (off + 14 + n) /\
    (forall k, 14 + n <= k < 60 -> zget d k = Some 0) /\
    let m := Z.max 60 (n + 14) in slice d m (m + check_len ls) = check_sequence ls (ztake m d).
Proof.
  intros [Hb Ho Hm Hr [Hmb Hml] [Hgb Hgl] Hos] Hany Hnd Hp Hl2 Hb2 Hn.
  rewrite MaxFrameLength_check in Hr.
  assert (0 <= check_len ls) as Hcl by (unfold check_len; case_match; lia).
  assert (zlen (put c off (gwmac ls)) = zlen c) as Lp by (apply zlen_put; lia).
  set (rest := zdrop (off + 14 + mtu ls) (put c off (gwmac ls))).
  assert (zlen rest = zlen c - (off + 14 + mtu ls)) as Lr by (unfold rest; rewrite zlen_zdrop; lia).
  assert (is_bytes rest) as Br by (unfold rest; auto with bytes).
  assert (zlen (zdrop off (c2 ++ rest)) = zlen c - off) as Ld by (rewrite zlen_zdrop; rewrite ?zlen_app; lia).
  assert (forall a b, 0 <= a <= b -> off + b <= zlen c2 ->
    slice (zdrop off (c2 ++ rest)) a b = slice c2 (off + a) (off + b)) as HS.
  { intros a b Hab Hbl. rewrite slice_zdrop by lia.
    apply zlist_eq; rewrite !zlen_slice by (rewrite ?zlen_app; lia); [done|].
    intros k Hk. rewrite !zget_slice by lia. by rewrite zget_app_l by lia. }
  change (check_len ls) with (check_len (with_hs h' ls)).
  destruct (finish_frame_checked n (proto nd) (zdrop off (c2 ++ rest)) (with_hs h' ls))
    as (d & Hd & Ldd & Bd & D1 & D2 & D3 & D4 & D5 & D6); try done; try lia.
  { auto with bytes. }
  { change (check_len (with_hs h' ls)) with (check_len ls). lia. }
  exists d. rewrite HS, Z.add_0_r in D1 by lia. rewrite HS, !Z.add_assoc in D4 by lia.
  split; [|split_and!; done || lia]. unfold Encapsulate.
  rewrite Ipv4.sub_ok by (pose proof (zlen_nonneg c); lia). cbn [mbind outcome_bind].
  rewrite zlen_slice by lia. rewrite MaxFrameLength_check. unfold Ethernet.NewFrame.
  rewrite zlen_slice by lia. unfold Ethernet.sizeHeaderNoVLAN. bool_cases; try lia.
  rewrite put_checked_ok by lia. cbn [mbind outcome_bind].
  rewrite Ipv4.sub_ok by lia. cbn [mbind outcome_bind].
  replace (slice (put c off (gwmac ls)) 0 (off + 14 + mtu ls)) with (offered c off ls)
    by (unfold offered, slice; by rewrite Z.sub_0_r, zdrop_nonpos by lia).
  rewrite Hany. cbn [mbind outcome_bind]. fold rest. destruct (Z.eqb_spec n 0); [lia|].
  cbn [mbind option_bind]. rewrite Hnd, Hd. cbn [mbind outcome_bind]. do 3 f_equal. f_equal. f_equal.
  apply zlist_eq; rewrite !zlen_ztake by (rewrite ?zlen_app; lia); [done|].
  intros k Hk. rewrite !zget_ztake by lia. by rewrite zget_app_l by lia.
Qed.

End Eth.

(** C16: frames reach their protocol. What a node (IP, ARP) of one host wrote into the
    frame, the Ethernet layer of a host that the destination address is for hands
    to the node registered for that EtherType there: the payload followed only by
    the zeros that fill the frame up to 60 bytes and, when the sender is configured
    to append one, by the frame check sequence, the CRC of everything before it; the
    source address is the sender's. No observer of outgoing frames is set. *)
Theorem eth_frame_delivered {W1 W2} `{!StackNodes W1} `{!StackNodes W2}
  c off oip (w1 w1' : W1) ls h' c2 j n nd (w2 : W2) r i
  (Hok : eth_ok c off ls)
  (Hany : encapsulateAny (offered c off ls) (off + 14) (off + 14) w1 (hs ls) = Ret (h', w1', c2, Some j, n, None))
  (Hnd : nodes h' !! j = Some nd) (Hproto : 1500 < proto nd < 65536) (Hvlan : proto nd <> Ethernet.TypeVLAN)
  (Hlen : zlen c2 = off + 14 + mtu ls) (Hb : is_bytes c2) (Hn : 0 < n <= mtu ls)
  (Hus : for_us (slice c2 off (off + 6)) r = true) (Hi : nodeByProto (proto nd) w2 (hs r) = Some i) :
  exists ls' c3 len, Encapsulate c oip off w1 ls = Ret (ls', w1', c3, len, None) /\
    len = Z.max 60 (n + 14) + check_len ls /\
    let f := slice c3 off (off + len) in
    slice f 6 12 = mac ls /\
    exists data, Demux f 0 w2 r = ('(h, w, err, _) ← demux_at i data 0 w2 (hs r); Ret (with_hs h r, w, err)) /\
      zlen data = Z.max 46 n + check_len ls /\ ztake n data = slice c2 (off + 14) (off + 14 + n) /\
      (forall k, n <= k < 46 -> zget data k = Some 0) /\
      zdrop (Z.max 46 n) data = check_sequence ls (ztake (len - check_len ls) f).
Proof.
  destruct (Encapsulate_ok c off oip w1 ls h' w1' c2 j n nd Hok Hany Hnd ltac:(wrap_lia) Hlen Hb Hn)
    as (d & HE & Ld & Bd & D1 & D2 & D3 & D4 & D5 & D6).
  destruct Hok as [_ Ho Hm Hr _ _ _]. rewrite MaxFrameLength_check in Hr. cbn zeta in D6.
  assert (0 <= check_len ls) as Hcl by (unfold check_len; case_match; lia).
  do 3 eexists. split; [exact HE|]. split; [done|]. cbn zeta.
  set (m := Z.max 60 (n + 14)) in *. set (len := m + check_len ls) in *.
  assert (slice (ztake off c2 ++ d) off (off + len) = ztake len d) as ->.
  { unfold slice. rewrite (zdrop_app_exact off) by (apply zlen_ztake; lia). f_equal. lia. }
  assert (zlen (ztake len d) = len) as Ll by (apply zlen_ztake; lia).
  assert (forall a b, 0 <= a <= b -> b <= len -> slice (ztake len d) a b = slice d a b) as HS.
  { intros a b Ha Hbl. apply zlist_eq; rewrite !zlen_slice by lia; [done|]. intros k Hk.
    rewrite !zget_slice by lia. by rewrite zget_ztake by lia. }
  split; [by rewrite HS by lia|].
  exists (zdrop 14 (ztake len d)). split; [|split; [rewrite zlen_zdrop; lia|split; [|split]]].
  - apply (Demux_typed _ w2 r i (proto nd)); auto with bytes; try lia; [by rewrite be16_ztake by lia|].
    rewrite HS, D1 by lia. done.
  - rewrite <- D4. rewrite <- (HS 14 (14 + n)) by lia. unfold slice. f_equal. lia.
  - intros k Hk. rewrite zget_zdrop, zget_ztake by lia. apply D5. lia.
  - replace (len - check_len ls) with m by lia. 
    assert (ztake m (ztake len d) = ztake m d) as ->.
    { apply zlist_eq; rewrite !zlen_ztake by lia; [done|]. intros k Hk. by rewrite !zget_ztake by lia. }
    rewrite <- D6. apply zlist_eq; rewrite ?zlen_zdrop, ?zlen_slice by (rewrite ?zlen_zdrop; lia); [lia|].
    intros k Hk. rewrite !zget_zdrop, zget_ztake, zget_slice by lia. f_equal. lia.
Qed.

(** A node for the EtherType 0x0800 that sends five bytes, and a host with it. *)
#[local] Instance demo_proto : StackNodes (list (list Z)) := {
  Encapsulate _ buf _ off w := Ret (w, put buf off [1; 2; 3; 4; 5], 5, None);
  Demux _ buf off w := Ret (w ++ [zdrop off buf], None);
  LocalPort _ _ := 0; Protocol _ _ := 2048; ConnectionID _ _ := None
}.
Definition demo_eth (m gw : Z) : StackEthernet :=
  mkEth 1 (mkHandlers [mkNode 0 None (Some O) None 2048 0] 1 0) (replicate 6 m) (replicate 6 gw) 60 false None None.
(** The same with a check sequence, whose update function adds up the octets. *)
Definition demo_eth_crc (m gw : Z) : StackEthernet :=
  mkEth 1 (hs (demo_eth m gw)) (mac (demo_eth m gw)) (gwmac (demo_eth m gw)) 60 false None
    (Some (fun crc b => u32 (foldl Z.add crc b))).

Lemma eth_frame_delivered_witness :
  exists ls' c3, Encapsulate (replicate 80 7) 0 2 [] (demo_eth_crc 2 4) = Ret (ls', [], c3, 64, None) /\
    exists r' data, Demux (slice c3 2 66) 0 [] (demo_eth 4 2) = Ret (r', [data], None) /\
      ztake 6 data = [1; 2; 3; 4; 5; 0] /\ zdrop 46 data = [59; 0; 0; 0].
Proof.
  destruct (eth_frame_delivered (replicate 80 7) 2 0 [] [] (demo_eth_crc 2 4) (hs (demo_eth_crc 2 4))
    (put (offered (replicate 80 7) 2 (demo_eth_crc 2 4)) 16 [1; 2; 3; 4; 5]) 0 5
    (mkNode 0 None (Some O) None 2048 0) [] (demo_eth 4 2) 0)
    as (ls' & c3 & len & H1 & H2 & _ & data & H3 & H4 & H5 & H6 & H7);
    [split; by_compute|by vm_compute|done|by_compute..|].
  exists ls', c3. rewrite H2 in *. split; [exact H1|].
  change (2 + (Z.max 60 (5 + 14) + check_len (demo_eth_crc 2 4))) with 66 in *. rewrite H3.
  injection H1 as _ <-. exists (demo_eth 4 2), data. split; [done|]. split.
  - replace (ztake 6 data) with (ztake 5 data ++ [0]); [by rewrite H5|].
    symmetry. apply (Ethernet.ztake_snoc data 5 0); [|done]. apply H6. done.
  - change (Z.max 46 5) with 46 in H7. rewrite H7. by vm_compute.
Defined.

(** a short 802.3 frame stops the host. For every frame that is for us and whose
    length field is a size larger than what follows the header but not larger than
    the frame, validation passes and [Demux] panics on the payload. *)
Theorem short_8023_frame_panics {W} `{!StackNodes W} b (w : W) ls
  (Hb : is_bytes b) (Hl : 14 <= zlen b) (Hus : for_us (slice b 0 6) ls = true)
  (Hsz : zlen b - 14 < be16 b 12 <= zlen b) (H1500 : be16 b 12 <= 1500) :
  Demux b 0 w ls = Panic.
Proof.
  unfold Demux. rewrite Ipv4.sub_ok by (pose proof (zlen_nonneg b); lia). cbn [mbind outcome_bind].
  assert (slice b 0 (zlen b) = b) as -> by (unfold slice; by rewrite Z.sub_0_r, zdrop_nonpos, ztake_ge by lia).
  unfold Ethernet.NewFrame, Ethernet.sizeHeaderNoVLAN. destruct (Z.ltb_spec (zlen b) 14); [lia|].
  rewrite Ethernet.EtherTypeOrSize_ok by done. unfold Ethernet.DestinationHardwareAddr.
  rewrite Ipv4.sub_ok by lia. cbn [mbind outcome_bind]. rewrite Hus. cbn [negb].
  by destruct (Ethernet.ethernet_payload_panics b (mkValidator [] 0)) as [-> ->].
Qed.

(** A broadcast of the minimum size with the length field 50. *)
Definition demo_8023 : list Z := replicate 6 255 ++ replicate 6 2 ++ [0; 50] ++ replicate 46 1.

Lemma short_8023_frame_panics_witness :
  zlen demo_8023 = 60 /\ Demux demo_8023 0 [] (demo_eth 4 2) = Panic.
Proof.
  split; [done|]. apply (short_8023_frame_panics demo_8023 [] (demo_eth 4 2)); by_compute.
Defined.

End StackEthernet.
