(* ===== verification/Arp.v ===== *)
(** * ARP ([src/arp/frame.go], [cache.go], [handler.go])

    A [Frame] is the buffer it wraps. Pointers to cache entries are indices into the
    list of entries. The function given to [SetOnResolveCallback] is not run by the
    model: [Demux] returns the arguments of its call. *)
From S2P Require Import Prelude Errors Bytes Validation Ipv4 Ethernet.

Module Arp.
Import Bytes Validation.

(** ** Frames *)

Definition sizeHeader : Z := 8.
Definition sizeHeaderv4 : Z := sizeHeader + 6 * 2 + 4 * 2.
Definition sizeHeaderv6 : Z := sizeHeader + 6 * 2 + 16 * 2.
Definition OpRequest : Z := 1.
Definition OpReply : Z := 2.

Definition Frame : Type := list Z.
Definition NewFrame (buf : list Z) : option Frame * option error :=
  if zlen buf <? sizeHeaderv4 then (None, Some ErrTruncatedFrame) else (Some buf, None).

Definition hwlen (afrm : Frame) : outcome Z := at_ afrm 4.
Definition Hardware (afrm : Frame) : outcome (Z * Z) :=
  t ← Uint16 afrm 0; l ← hwlen afrm; Ret (t, l).
Definition SetHardware (Type_ length : Z) (afrm : Frame) : outcome Frame :=
  f ← PutUint16 afrm 0 Type_; put_checked f 4 [length].
Definition protolen (afrm : Frame) : outcome Z := at_ afrm 5.
Definition Protocol (afrm : Frame) : outcome (Z * Z) :=
  t ← Uint16 afrm 2; l ← protolen afrm; Ret (t, l).
Definition SetProtocol (Type_ length : Z) (afrm : Frame) : outcome Frame :=
  f ← PutUint16 afrm 2 Type_; put_checked f 5 [length].
Definition Operation (afrm : Frame) : outcome Z := Uint16 afrm 6.
Definition SetOperation (op : Z) (afrm : Frame) : outcome Frame := PutUint16 afrm 6 op.

(** Offsets are computed at 8 bits. *)
Definition Sender (afrm : Frame) : outcome (list Z * list Z) :=
  '(_, hlen) ← Hardware afrm;
  '(_, ilen) ← Protocol afrm;
  hw ← Ipv4.sub afrm 8 (u8 (8 + hlen));
  p ← Ipv4.sub afrm (u8 (8 + hlen)) (u8 (u8 (8 + hlen) + ilen));
  Ret (hw, p).
Definition Target (afrm : Frame) : outcome (list Z * list Z) :=
  '(_, hlen) ← Hardware afrm;
  '(_, ilen) ← Protocol afrm;
  let toff := u8 (u8 (8 + hlen) + ilen) in
  hw ← Ipv4.sub afrm toff (u8 (toff + hlen));
  p ← Ipv4.sub afrm (u8 (toff + hlen)) (u8 (u8 (toff + hlen) + ilen));
  Ret (hw, p).

Definition ClearHeader (afrm : Frame) : outcome Frame := put_checked afrm 0 (replicate 8 0).
Definition Clip (afrm : Frame) : outcome Frame :=
  h ← hwlen afrm; p ← protolen afrm; Ipv4.sub afrm 0 (sizeHeader + 2 * h + 2 * p).

(** [for i := range ...]: exchanges the bytes at [a ..] and [b ..]. *)
Fixpoint swap_loop (k : nat) (a b : Z) (buf : list Z) : outcome (list Z) :=
  match k with
  | O => Ret buf
  | S k =>
      x ← at_ buf a;
      y ← at_ buf b;
      buf ← put_checked buf a [y];
      buf ← put_checked buf b [x];
      swap_loop k (a + 1) (b + 1) buf
  end.
Definition SwapTargetSender (afrm : Frame) : outcome Frame :=
  '(hwT, protoT) ← Target afrm;
  '(_, _) ← Sender afrm;
  '(_, hlen) ← Hardware afrm;
  '(_, ilen) ← Protocol afrm;
  let toff := u8 (u8 (8 + hlen) + ilen) in
  f ← swap_loop (length hwT) toff 8 afrm;
  swap_loop (length protoT) (u8 (toff + hlen)) (u8 (8 + hlen)) f.

Definition ValidateSize (afrm : Frame) (v : Validator) : outcome Validator :=
  '(_, hlen) ← Hardware afrm;
  '(_, ilen) ← Protocol afrm;
  let minLen := 8 + 2 * (hlen + ilen) in
  Ret (if zlen afrm <? minLen then AddError ErrTruncatedFrame v
       else if 255 <? minLen then AddError ErrPacketDrop v else v).

(** ** The cache *)

Definition eflagInUse : Z := 1.
Definition eflagIPv6 : Z := 2.
Definition eflagPendingResponse : Z := 4.
Definition eflagIncomplete : Z := 8.
Definition eflagIncompletePendingQuery : Z := 16.
Definition eflagPriority : Z := 32.
Definition eflagResolveTriggersCallback : Z := 64.

Record entry := mkEntry {
  addr : list Z;
  mac : list Z;
  age : Z;
  flags : Z
}.
Definition zero_entry : entry := mkEntry (replicate 16 0) (replicate 6 0) 0 0.
Abbreviation cache := (list entry).

Definition hasAny (flags bits : Z) : bool := negb (Z.land flags bits =? 0).
Definition inUse (e : entry) : bool := hasAny (flags e) eflagInUse.
Definition with_flags (f : Z) (e : entry) : entry := mkEntry (addr e) (mac e) (age e) f.
(** [flags &^= bits] *)
Definition clear (bits : Z) (e : entry) : entry := with_flags (Z.ldiff (flags e) bits) e.

Definition use (m proto : list Z) (fl : Z) (e : entry) : entry :=
  let n := Z.min 16 (zlen proto) in
  mkEntry (ztake n proto ++ zdrop n (addr e)) m 0
    (let f := Z.lor eflagInUse fl in if n =? 16 then Z.lor f eflagIPv6 else f).

(** The sender and target addresses at fixed offsets, for addresses of [k] bytes. *)
Definition put_addrs (k : Z) (smac saddr tmac taddr : list Z) (f : Frame) : outcome Frame :=
  f ← put_checked f 8 smac;
  f ← put_checked f 14 (ztake k saddr);
  f ← put_checked f (14 + k) tmac;
  put_checked f (20 + k) (ztake k taddr).

Definition put_entry (e : entry) (frame ourAddr ourMAC : list Z) (op : Z)
    : outcome (Frame * Z * option error) :=
  match NewFrame frame with
  | (None, err) => Ret (frame, 0, err)
  | (Some f, _) =>
      f ← SetHardware 1 6 f;
      f ← SetOperation op f;
      if hasAny (flags e) eflagIPv6 then
        if negb (zlen ourAddr =? 16) then Ret (f, 0, Some ErrInvalidAddr)
        else if zlen frame <? sizeHeaderv6 then Ret (f, 0, Some ErrShortBuffer)
        else
          f ← SetProtocol Ethernet.TypeIPv6 16 f;
          f ← put_addrs 16 ourMAC ourAddr (mac e) (addr e) f;
          Ret (f, sizeHeaderv6, None)
      else
        if negb (zlen ourAddr =? 4) then Ret (f, 0, Some ErrInvalidAddr)
        else
          f ← SetProtocol Ethernet.TypeIPv4 4 f;
          f ← put_addrs 4 ourMAC ourAddr (mac e) (addr e) f;
          Ret (f, sizeHeaderv4, None)
  end.

(** [cache.age] *)
Definition age_entry (e : entry) : entry :=
  if inUse e && (age e <? 255) then mkEntry (addr e) (mac e) (age e + 1) (flags e) else e.

(** [cache.reset]: the entries are not cleared when there are enough of them. *)
Definition cache_reset (size : Z) (c : cache) : cache :=
  if zlen c <? size then replicate (Z.to_nat size) zero_entry else c.

Fixpoint find_entry (p : entry -> bool) (c : cache) : option nat :=
  match c with
  | [] => None
  | e :: c => if p e then Some O else S <$> find_entry p c
  end.
Definition getNextFlagged (fl : Z) (c : cache) : option nat :=
  find_entry (fun e => inUse e && hasAny (flags e) fl) c.
Definition clearFlags (has clr : Z) (c : cache) : cache :=
  map (fun e => if hasAny (flags e) has then clear clr e else e) c.

(** [Lookup]: slicing an address beyond its 16 bytes panics. *)
Fixpoint Lookup (a : list Z) (c : cache) : outcome (option nat) :=
  match c with
  | [] => Ret None
  | e :: c =>
      hit ← (if inUse e then x ← Ipv4.sub (addr e) 0 (zlen a); Ret (bool_decide (x = a)) else Ret false);
      if hit : bool then Ret (Some O) else r ← Lookup a c; Ret (option_map S r)
  end.

Definition priorityFlags : Z := Z.lor (Z.lor eflagPendingResponse eflagIncomplete) eflagPriority.
Definition age_at (c : cache) (i : nat) : Z := default 0 (age <$> c !! i).

(** The scan of [acquireNext] from index [i] on: the oldest entry and the oldest
    passive one so far; it stops at an unused entry. *)
Fixpoint acquire_scan (c rest : cache) (i : nat) (oldest : nat) (passive : option nat) : nat * option nat :=
  match rest with
  | [] => (oldest, passive)
  | e :: rest =>
      if negb (inUse e) then (i, passive)
      else
        let passive :=
          if negb (hasAny (flags e) priorityFlags) then
            match passive with
            | None => Some i
            | Some p => if age_at c p <? age e then Some i else Some p
            end
          else passive in
        let oldest := if age_at c oldest <? age e then i else oldest in
        acquire_scan c rest (S i) oldest passive
  end.

(** The index [acquireNext] chooses. *)
Definition acquire_index (c : cache) : nat :=
  let '(oldest, passive) := acquire_scan c c 0 0 None in
  match passive, c !! oldest with
  | Some p, Some e => if inUse e then p else oldest
  | _, _ => oldest
  end.
Definition acquireNext (c : cache) : outcome (cache * nat) :=
  let i := acquire_index c in
  assert_or_panic (bool_decide (i < length c)%nat)
    (Ret (<[i := zero_entry]> (map age_entry c), i)).

(** ** The handler *)

Record Handler := mkHandler {
  connID : Z;
  h_cache : cache;
  vld : Validator;
  ourProtoAddr : list Z;
  onresolve : bool;
  htype : Z;
  protoType : Z;
  ourHWAddr : list Z
}.
Record HandlerConfig := mkConfig {
  HardwareAddr : list Z;
  ProtocolAddr : list Z;
  MaxQueries : Z;
  MaxPending : Z;
  HardwareType : Z;
  ProtocolType : Z
}.

Definition with_cache (c : cache) (h : Handler) : Handler :=
  mkHandler (connID h) c (vld h) (ourProtoAddr h) (onresolve h) (htype h) (protoType h) (ourHWAddr h).
Definition with_vld (v : Validator) (h : Handler) : Handler :=
  mkHandler (connID h) (h_cache h) v (ourProtoAddr h) (onresolve h) (htype h) (protoType h) (ourHWAddr h).
Definition update_entry (i : nat) (f : entry -> entry) (h : Handler) : Handler :=
  with_cache (alter f i (h_cache h)) h.

Definition UpdateProtoAddr (protoAddr : list Z) (h : Handler) : Handler * option error :=
  if negb (zlen protoAddr =? zlen (ourProtoAddr h)) then (h, Some ErrMismatchLen)
  else (mkHandler (connID h) (h_cache h) (vld h) protoAddr (onresolve h) (htype h) (protoType h)
          (ourHWAddr h), None).
Definition SetOnResolveCallback (cb : bool) (h : Handler) : Handler :=
  mkHandler (connID h) (h_cache h) (vld h) (ourProtoAddr h) cb (htype h) (protoType h) (ourHWAddr h).

Definition Reset (cfg : HandlerConfig) (h : Handler) : outcome (Handler * option error) :=
  let bad l := (zlen l =? 0) || (255 <? zlen l) in
  if bad (HardwareAddr cfg) || bad (ProtocolAddr cfg) then Ret (h, Some ErrInvalidConfig)
  else if (MaxQueries cfg <=? 0) || (MaxPending cfg <=? 0) then Ret (h, Some ErrInvalidConfig)
  else if negb (HardwareType cfg =? 1) ||
          (negb (ProtocolType cfg =? Ethernet.TypeIPv4) && negb (ProtocolType cfg =? Ethernet.TypeIPv6))
  then Ret (h, Some ErrUnsupported)
  else
    assert_or_panic (6 <=? zlen (HardwareAddr cfg))
    (Ret (mkHandler (u64 (connID h + 1)) (cache_reset (MaxPending cfg + MaxQueries cfg) (h_cache h))
           (mkValidator [] 0) (ProtocolAddr cfg) false (HardwareType cfg) (ProtocolType cfg)
           (ztake 6 (HardwareAddr cfg)), None)).

Definition AbortPending (h : Handler) : Handler :=
  with_cache (clearFlags (Z.lor eflagPendingResponse eflagIncomplete) eflagInUse (h_cache h)) h.

Definition CacheSeed (protoAddr hwAddr : list Z) (h : Handler) : outcome (Handler * option error) :=
  if negb (zlen hwAddr =? 6) then Ret (h, Some ErrUnsupported)
  else
    '(c, i) ← acquireNext (h_cache h);
    Ret (update_entry i (use hwAddr protoAddr 0) (with_cache c h), None).

Definition CacheLookup (protoAddr : list Z) (h : Handler) : outcome (option (list Z) * option error) :=
  r ← Lookup protoAddr (h_cache h);
  match r ≫= (fun i => h_cache h !! i) with
  | None => Ret (None, Some errQueryNotFound)
  | Some e =>
      if hasAny (flags e) eflagIncomplete then Ret (None, Some errQueryPending)
      else Ret (Some (mac e), None)
  end.

Definition CacheRemove (protoAddr : list Z) (h : Handler) : outcome (Handler * option error) :=
  r ← Lookup protoAddr (h_cache h);
  match r with
  | None => Ret (h, Some errQueryNotFound)
  | Some i => Ret (update_entry i (fun _ => zero_entry) h, None)
  end.

Definition StartQuery (proto : list Z) (triggerCallback : bool) (h : Handler) : outcome (Handler * option error) :=
  if negb (zlen proto =? zlen (ourProtoAddr h)) then Ret (h, Some ErrMismatchLen)
  else
    '(c, i) ← acquireNext (h_cache h);
    let fl := Z.lor (Z.lor eflagIncomplete eflagIncompletePendingQuery) eflagPriority in
    let set e :=
      let e := use (replicate 6 0) proto fl e in
      if triggerCallback then with_flags (Z.lor (flags e) eflagResolveTriggersCallback) e else e in
    Ret (update_entry i set (with_cache c h), None).

Definition newframe (b : list Z) (h : Handler) : option Frame * option error :=
  match NewFrame b with
  | (f, Some e) => (f, Some e)
  | (f, None) =>
      if (protoType h =? Ethernet.TypeIPv6) && (zlen b <? sizeHeaderv6) then (f, Some ErrMismatch)
      else (f, None)
  end.

(** [trySetEthernetDst(carrierData[:off], dst)] *)
Definition trySetEthernetDst (carrier : list Z) (off : Z) (dst : list Z) : list Z :=
  if 14 <=? off then put carrier 0 (ztake 6 dst) else carrier.

(** The entry to send for, and whether it is a reply. *)
Definition next_entry (c : cache) : option (nat * Z) :=
  match getNextFlagged eflagPendingResponse c with
  | Some i => Some (i, OpReply)
  | None =>
      match getNextFlagged eflagIncompletePendingQuery c with
      | Some i => Some (i, OpRequest)
      | None => None
      end
  end.

Definition Encapsulate (carrierData : list Z) (offsetToFrame : Z) (h : Handler)
    : outcome (Handler * list Z * Z * option error) :=
  b ← Ipv4.sub carrierData offsetToFrame (zlen carrierData);
  match newframe b h with
  | (_, Some e) => Ret (h, carrierData, 0, Some e)
  | (_, None) =>
  match next_entry (h_cache h) with
  | None => Ret (h, carrierData, 0, None)
  | Some (i, op) =>
      let h := update_entry i
        (clear (if op =? OpReply then eflagPendingResponse else eflagIncompletePendingQuery)) h in
      match h_cache h !! i with
      | None => Panic
      | Some e =>
          '(f, n, err) ← put_entry e b (ourProtoAddr h) (ourHWAddr h) op;
          let carrierData := ztake offsetToFrame carrierData ++ f in
          match err with
          | Some er => Ret (h, carrierData, 0, Some er)
          | None =>
              dst ← (if op =? OpRequest then Ret Ethernet.BroadcastAddr
                     else '(tgt, _) ← Target f; Ret tgt);
              Ret (h, trySetEthernetDst carrierData offsetToFrame dst, n, None)
          end
      end
  end end.

(** The handler, the arguments of the resolve callback if it is called, the error. *)
Definition Demux (ethFrame : list Z) (frameOffset : Z) (h : Handler)
    : outcome (Handler * option (list Z * list Z) * option error) :=
  b ← Ipv4.sub ethFrame frameOffset (zlen ethFrame);
  match newframe b h with
  | (None, err) => Ret (h, None, err)
  | (Some _, Some e) => Ret (h, None, Some e)
  | (Some afrm, None) =>
  v ← ValidateSize afrm (vld h);
  bad ← HasError v;
  if bad : bool then let '(v, err) := ErrPop v in Ret (with_vld v h, None, err)
  else
  let h := with_vld v h in
  '(ht, hlen) ← Hardware afrm;
  if negb (ht =? htype h) || negb (hlen =? zlen (ourHWAddr h)) then Ret (h, None, Some ErrMismatch)
  else
  '(pt, plen) ← Protocol afrm;
  if negb (pt =? protoType h) || negb (plen =? zlen (ourProtoAddr h)) then Ret (h, None, Some ErrMismatch)
  else
  op ← Operation afrm;
  if op =? OpRequest then
    '(_, protoaddr) ← Target afrm;
    if negb (bool_decide (protoaddr = ourProtoAddr h)) then Ret (h, None, None)
    else
      '(hw, proto) ← Sender afrm;
      '(c, i) ← acquireNext (h_cache h);
      assert_or_panic (6 <=? zlen hw)
        (Ret (update_entry i (use (ztake 6 hw) proto eflagPendingResponse) (with_cache c h), None, None))
  else if op =? OpReply then
    '(hwaddr, protoaddr) ← Sender afrm;
    r ← Lookup protoaddr (h_cache h);
    match r with
    | None => Ret (h, None, None)
    | Some i =>
        let set e := clear (Z.lor eflagIncomplete eflagIncompletePendingQuery)
          (mkEntry (addr e) (let k := Z.min 6 (zlen hwaddr) in ztake k hwaddr ++ zdrop k (mac e))
             (age e) (flags e)) in
        let h := update_entry i set h in
        Ret (h, match h_cache h !! i with
                | Some e => if hasAny (flags e) eflagResolveTriggersCallback && onresolve h
                            then Some (mac e, protoaddr) else None
                | None => None
                end, None)
    end
  else Ret (h, None, Some ErrUnsupported)
  end.

End Arp.
