(* ===== verification/ArpThms.v ===== *)
(** * Lemmas and theorems on address resolution *)
From S2P Require Import Prelude Errors Bytes Validation Ipv4 Ethernet Arp.

(** ** ARP: eviction, totality and resolution *)
Module ArpProps.
Import Bytes Validation Arp.

(** ** Which entry is evicted *)

Definition passive (e : entry) : bool := inUse e && negb (hasAny (flags e) priorityFlags).

(** [i] is a right choice for a new entry. *)
Definition good_victim (c : cache) (i : nat) : Prop :=
  exists e, c !! i = Some e /\
  ((inUse e = false /\ forall j e', (j < i)%nat -> c !! j = Some e' -> inUse e' = true) \/
   Forall (fun e' => inUse e' = true) c /\
   (passive e = true /\ (forall e', e' ∈ c -> passive e' = true -> age e' <= age e) \/
    (forall e', e' ∈ c -> passive e' = false) /\ (forall e', e' ∈ c -> age e' <= age e))).

(** What the scan knows about the entries it has seen. *)
Record scanned (c : cache) (i oldest : nat) (pas : option nat) : Prop := mkScanned {
  sc_used : forall j e, (j < i)%nat -> c !! j = Some e -> inUse e = true;
  sc_oldest : (oldest < i)%nat \/ i = O /\ oldest = O;
  sc_max : forall j, (j < i)%nat -> age_at c j <= age_at c oldest;
  sc_passive : match pas with
    | Some p => (p < i)%nat /\ (exists e, c !! p = Some e /\ passive e = true) /\
        forall j e, (j < i)%nat -> c !! j = Some e -> passive e = true -> age e <= age_at c p
    | None => forall j e, (j < i)%nat -> c !! j = Some e -> passive e = false
    end
}.

Lemma age_at_lookup c i e : c !! i = Some e -> age_at c i = age e.
Proof. unfold age_at. by intros ->. Qed.

Lemma scanned_step c i oldest pas e : scanned c i oldest pas -> c !! i = Some e -> inUse e = true ->
  scanned c (S i) (if age_at c oldest <? age e then i else oldest)
    (if negb (hasAny (flags e) priorityFlags) then
       match pas with None => Some i | Some p => if age_at c p <? age e then Some i else Some p end
     else pas).
Proof.
  intros [Hu Ho Hm Hp] He Hin. pose proof (age_at_lookup c i e He) as Ha.
  assert (forall j e', (j < S i)%nat -> c !! j = Some e' -> (j < i)%nat \/ e' = e) as Hcase.
  { intros j e' Hj Hl. destruct (decide (j = i)) as [->|]; [right; congruence|left; lia]. }
  split.
  - intros j e' Hj Hl. destruct (Hcase j e' Hj Hl) as [?| ->]; eauto.
  - destruct (Z.ltb_spec (age_at c oldest) (age e)); lia.
  - intros j Hj. destruct (decide (j = i)) as [->|].
    + destruct (Z.ltb_spec (age_at c oldest) (age e)); lia.
    + specialize (Hm j ltac:(lia)). destruct (Z.ltb_spec (age_at c oldest) (age e)); lia.
  - assert (passive e = negb (hasAny (flags e) priorityFlags)) as Hpe by (unfold passive; by rewrite Hin).
    destruct (negb (hasAny (flags e) priorityFlags)).
    + destruct pas as [p|].
      * destruct Hp as (Hpi & (ep & Hep & Hpp) & Hmax). pose proof (age_at_lookup c p ep Hep).
        destruct (Z.ltb_spec (age_at c p) (age e)).
        -- split; [lia|]. split; [by exists e|]. rewrite Ha. intros j e' Hj Hl Hpas.
           destruct (Hcase j e' Hj Hl) as [Hj'| ->]; [|lia]. specialize (Hmax j e' Hj' Hl Hpas). lia.
        -- split; [lia|]. split; [by exists ep|]. intros j e' Hj Hl Hpas.
           destruct (Hcase j e' Hj Hl) as [Hj'| ->]; [by apply (Hmax j)|lia].
      * split; [lia|]. split; [by exists e|]. rewrite Ha. intros j e' Hj Hl Hpas.
        destruct (Hcase j e' Hj Hl) as [Hj'| ->]; [|lia]. by rewrite (Hp j e' Hj' Hl) in Hpas.
    + destruct pas as [p|].
      * destruct Hp as (Hpi & Hep & Hmax). split; [lia|]. split; [done|]. intros j e' Hj Hl Hpas.
        destruct (Hcase j e' Hj Hl) as [Hj'| ->]; [by apply (Hmax j)|congruence].
      * intros j e' Hj Hl. destruct (Hcase j e' Hj Hl) as [Hj'| ->]; [by apply (Hp j)|done].
Qed.

Lemma acquire_scan_spec c rest : forall i oldest pas, drop i c = rest -> (i <= length c)%nat ->
  scanned c i oldest pas ->
  exists o p, acquire_scan c rest i oldest pas = (o, p) /\
    ((exists e, c !! o = Some e /\ inUse e = false /\
        forall j e', (j < o)%nat -> c !! j = Some e' -> inUse e' = true) \/
     scanned c (length c) o p).
Proof.
  induction rest as [|e rest IH]; intros i oldest pas Hd Hi Hs; cbn [acquire_scan].
  - assert (i = length c) as ->.
    { apply (f_equal length) in Hd. rewrite length_drop in Hd. cbn in Hd. lia. }
    by exists oldest, pas; split; [|right].
  - assert (c !! i = Some e) as He.
    { rewrite <- (Nat.add_0_r i), <- lookup_drop, Hd. done. }
    assert (drop (S i) c = rest) as Hd'.
    { rewrite <- Nat.add_1_r, <- drop_drop, Hd. by rewrite skipn_cons, drop_0. }
    pose proof (lookup_lt_Some _ _ _ He) as Hlt.
    destruct (inUse e) eqn:Hin; cbn [negb].
    + apply (IH (S i)); [done|lia|]. by apply scanned_step.
    + exists i, pas. split; [done|]. left. exists e. split; [done|]. split; [done|]. apply Hs.
Qed.

Lemma acquire_index_good c : c <> [] -> good_victim c (acquire_index c).
Proof.
  intros Hne. destruct (acquire_scan_spec c c 0 0 None) as (o & p & Hs & Hr); [done|lia| |].
  { split; [lia|by right|lia|lia]. }
  unfold acquire_index. rewrite Hs. cbv iota beta. destruct Hr as [(e & He & Hin & Hbefore)|[Hu Ho Hm Hp]].
  - assert (good_victim c o) as Hg by (exists e; split; [done|by left]).
    destruct p; [|done]. by rewrite He, Hin.
  - assert (0 < length c)%nat as Hl by (destruct c; [done|cbn; lia]).
    destruct (lookup_lt_is_Some_2 c o) as [eo Heo]; [lia|].
    assert (Forall (fun e' => inUse e' = true) c) as Hall.
    { apply Forall_lookup. intros j e' Hj. apply (Hu j); [|done]. by apply lookup_lt_Some in Hj. }
    assert (forall e', e' ∈ c -> exists j, (j < length c)%nat /\ c !! j = Some e') as Hidx.
    { intros e' [j Hj]%list_elem_of_lookup_1. exists j. split; [by apply lookup_lt_Some in Hj|done]. }
    destruct p as [p|].
    + rewrite Heo. rewrite (Hu o eo) by (done || lia). destruct Hp as (_ & (ep & Hep & Hpp) & Hmax).
      exists ep. split; [done|]. right. split; [done|]. left. split; [done|].
      intros e' He' Hpas. destruct (Hidx e' He') as (j & Hj & Hjl). rewrite <- (age_at_lookup c p ep Hep).
      by apply (Hmax j).
    + exists eo. split; [done|]. right. split; [done|]. right. split.
      * intros e' He'. destruct (Hidx e' He') as (j & Hj & Hjl). by apply (Hp j).
      * intros e' He'. destruct (Hidx e' He') as (j & Hj & Hjl).
        rewrite <- (age_at_lookup c j e' Hjl), <- (age_at_lookup c o eo Heo). by apply Hm.
Qed.

Lemma acquireNext_ok c : c <> [] -> exists i, acquireNext c = Ret (<[i := zero_entry]> (map age_entry c), i) /\
  good_victim c i /\ (i < length c)%nat.
Proof.
  intros Hne. pose proof (acquire_index_good c Hne) as Hg. exists (acquire_index c).
  pose proof Hg as (e & He & _). apply lookup_lt_Some in He.
  unfold acquireNext, assert_or_panic. by rewrite bool_decide_eq_true_2.
Qed.

(** the eviction policy of the cache. On every cache that has entries [acquireNext]
    returns: the first unused entry if there is one; otherwise the oldest of the
    passive entries (no pending response, no query, no priority) if there is one;
    otherwise the oldest entry. That entry is zeroed, the ages of the others
    advance (saturating at 255), and nothing else of them changes. *)
Theorem arp_eviction_policy c (Hne : c <> []) :
  exists c' i, acquireNext c = Ret (c', i) /\ good_victim c i /\
    length c' = length c /\ c' !! i = Some zero_entry /\
    forall j e, j <> i -> c !! j = Some e ->
      exists e', c' !! j = Some e' /\ addr e' = addr e /\ mac e' = mac e /\ flags e' = flags e /\
        age e' = if inUse e then Z.max (age e) (Z.min 255 (age e + 1)) else age e.
Proof.
  destruct (acquireNext_ok c Hne) as (i & HA & Hg & Hi). do 2 eexists. split; [done|]. split; [done|].
  split; [by rewrite length_insert, length_map|].
  split; [apply list_lookup_insert_eq; by rewrite length_map|].
  intros j e Hj He. exists (age_entry e). split.
  { rewrite list_lookup_insert_ne by done. change (map age_entry c) with (age_entry <$> c).
    by rewrite list_lookup_fmap, He. }
  unfold age_entry. destruct (inUse e); cbn [andb]; [|done].
  destruct (Z.ltb_spec (age e) 255); cbn; split_and!; done || lia.
Qed.

Lemma arp_eviction_policy_witness :
  let old f a := mkEntry (replicate 16 1) (replicate 6 2) a f in
  exists c', acquireNext [old 33 9; old 1 3; old 1 5] = Ret (c', 2%nat).
Proof.
  intros old. destruct (arp_eviction_policy [old 33 9; old 1 3; old 1 5]) as (c' & i & H & _); [done|].
  exists c'. assert (i = 2%nat) as <- by (vm_compute in H; congruence). exact H.
Defined.

End ArpProps.

(** ** ARP: an address is resolved, and what the cache keeps *)
Module ArpThms.
Import Bytes Validation Arp ArpProps.

(** ** Packets *)

(** Protocol addresses of [k] bytes: IPv4 or IPv6. *)
Definition ptype (k : Z) : Z := if k =? 16 then Ethernet.TypeIPv6 else Ethernet.TypeIPv4.

Record arp_packet (f : list Z) (k op : Z) (sm sa tm ta : list Z) : Prop := mkPacket {
  ap_bytes : is_bytes f;
  ap_k : k = 4 \/ k = 16;
  ap_len : 20 + 2 * k <= zlen f;
  ap_hw : be16 f 0 = 1 /\ zget f 4 = Some 6;
  ap_proto : be16 f 2 = ptype k /\ zget f 5 = Some k;
  ap_op : be16 f 6 = op;
  ap_smac : slice f 8 14 = sm;
  ap_saddr : slice f 14 (14 + k) = sa;
  ap_tmac : slice f (14 + k) (20 + k) = tm;
  ap_taddr : slice f (20 + k) (20 + 2 * k) = ta
}.

Section Packet.
Context (f : list Z) (k op : Z) (sm sa tm ta : list Z) (Hp : arp_packet f k op sm sa tm ta).

Lemma packet_len : 28 <= zlen f.
Proof. destruct Hp. lia. Qed.
Lemma Hardware_ok : Hardware f = Ret (1, 6).
Proof.
  pose proof packet_len. destruct Hp as [Hb _ _ [H0 H4] _ _ _ _ _ _]. unfold Hardware, hwlen, at_.
  rewrite Uint16_ok by (done || lia). cbn [mbind outcome_bind]. by rewrite H4, H0.
Qed.
Lemma Protocol_ok : Protocol f = Ret (ptype k, k).
Proof.
  pose proof packet_len. destruct Hp as [Hb _ _ _ [H2 H5] _ _ _ _ _]. unfold Protocol, protolen, at_.
  rewrite Uint16_ok by (done || lia). cbn [mbind outcome_bind]. by rewrite H5, H2.
Qed.
Lemma Operation_ok : Operation f = Ret op.
Proof.
  pose proof packet_len. destruct Hp as [Hb _ _ _ _ H6 _ _ _ _]. unfold Operation.
  rewrite Uint16_ok by (done || lia). by rewrite H6.
Qed.
Lemma Sender_ok : Sender f = Ret (sm, sa).
Proof.
  unfold Sender. rewrite Hardware_ok, Protocol_ok. cbn [mbind outcome_bind].
  destruct Hp as [Hb Hk Hl _ _ _ H1 H2 _ _].
  replace (u8 (8 + 6)) with 14 by done. replace (u8 (14 + k)) with (14 + k) by wrap_lia.
  rewrite !Ipv4.sub_ok by lia. cbn [mbind outcome_bind]. by rewrite H1, H2.
Qed.
Lemma Target_ok : Target f = Ret (tm, ta).
Proof.
  unfold Target. rewrite Hardware_ok, Protocol_ok. cbn [mbind outcome_bind].
  destruct Hp as [Hb Hk Hl _ _ _ _ _ H3 H4].
  replace (u8 (8 + 6)) with 14 by done. replace (u8 (14 + k)) with (14 + k) by wrap_lia.
  replace (u8 (14 + k + 6)) with (20 + k) by wrap_lia.
  replace (u8 (20 + k + k)) with (20 + 2 * k) by wrap_lia.
  rewrite !Ipv4.sub_ok by lia. cbn [mbind outcome_bind]. by rewrite H3, H4.
Qed.
Lemma arp_ValidateSize_ok v : ValidateSize f v = Ret v.
Proof.
  unfold ValidateSize. rewrite Hardware_ok, Protocol_ok. cbn [mbind outcome_bind].
  destruct Hp as [Hb Hk Hl _ _ _ _ _ _ _]. bool_cases; lia || done.
Qed.
End Packet.

(** ** Hosts *)

Record entry_wf (e : entry) : Prop := mkEntryWf {
  ew_addr : zlen (addr e) = 16 /\ is_bytes (addr e);
  ew_mac : zlen (mac e) = 6 /\ is_bytes (mac e)
}.

Record arp_host (h : Handler) (k : Z) : Prop := mkHost {
  ho_k : k = 4 \/ k = 16;
  ho_cache : h_cache h <> [];
  ho_entries : Forall entry_wf (h_cache h);
  ho_vld : vld h = mkValidator [] 0;
  ho_types : htype h = 1 /\ protoType h = ptype k;
  ho_addr : zlen (ourProtoAddr h) = k /\ is_bytes (ourProtoAddr h);
  ho_mac : zlen (ourHWAddr h) = 6 /\ is_bytes (ourHWAddr h)
}.

Lemma newframe_ok b h k : arp_host h k -> 20 + 2 * k <= zlen b -> newframe b h = (Some b, None).
Proof.
  intros [Hk _ _ _ [_ Hp] _ _] Hl. unfold newframe, NewFrame, sizeHeaderv4, sizeHeaderv6, sizeHeader.
  rewrite Hp. destruct (Z.ltb_spec (zlen b) (8 + 6 * 2 + 4 * 2)); [lia|].
  destruct Hk as [-> | ->]; [done|]. destruct (Z.ltb_spec (zlen b) (8 + 6 * 2 + 16 * 2)); [lia|done].
Qed.

Lemma ptype_16 k : k = 4 \/ k = 16 -> (ptype k =? Ethernet.TypeIPv6) = (k =? 16).
Proof. by intros [-> | ->]. Qed.

(** A written packet. *)
Definition packet_bytes (b : list Z) (k op : Z) (sm sa tm ta : list Z) : list Z :=
  let f := put (put b 0 (bytes16 1)) 4 [6] in
  let f := put f 6 (bytes16 op) in
  let f := put (put f 2 (bytes16 (ptype k))) 5 [k] in
  put (put (put (put f 8 sm) 14 sa) (14 + k) tm) (20 + k) ta.

Lemma packet_bytes_ok b k op sm sa tm ta :
  is_bytes b -> k = 4 \/ k = 16 -> 20 + 2 * k <= zlen b -> is_u16 op ->
  zlen sm = 6 /\ is_bytes sm -> zlen sa = k /\ is_bytes sa ->
  zlen tm = 6 /\ is_bytes tm -> zlen ta = k /\ is_bytes ta ->
  zlen (packet_bytes b k op sm sa tm ta) = zlen b /\
  arp_packet (packet_bytes b k op sm sa tm ta) k op sm sa tm ta.
Proof.
  intros Hb Hk Hl Hop [Ls Bs] [La Ba] [Lt Bt] [Lu Bu]. unfold packet_bytes. split; [put_len|].
  split; [|done|put_len|split|split|..].
  - repeat apply is_bytes_put; auto with bytes; apply Forall_singleton; wrap_lia.
  - do 8 rewrite be16_put_out by put_len. apply be16_put; [lia|lia|by_compute].
  - do 7 rewrite zget_put_out by put_len. by rewrite zget_put_in by put_len.
  - do 5 rewrite be16_put_out by put_len. apply be16_put; [lia|put_len|].
    unfold ptype. case_match; by_compute.
  - do 4 rewrite zget_put_out by put_len. by rewrite zget_put_in by put_len.
  - do 6 rewrite be16_put_out by put_len. apply be16_put; [lia|put_len|done].
  - do 3 rewrite slice_put_out by put_len. replace 14 with (8 + zlen sm) by lia. apply slice_put_in; put_len.
  - do 2 rewrite slice_put_out by put_len. rewrite <- La. apply slice_put_in; put_len.
  - rewrite slice_put_out by put_len. replace (20 + k) with (14 + k + zlen tm) by lia. apply slice_put_in; put_len.
  - replace (20 + 2 * k) with (20 + k + zlen ta) by lia. apply slice_put_in; put_len.
Qed.

Lemma put_entry_ok e b k ourAddr ourMAC op :
  entry_wf e -> is_bytes b -> k = 4 \/ k = 16 -> hasAny (flags e) eflagIPv6 = (k =? 16) ->
  20 + 2 * k <= zlen b -> is_u16 op -> zlen ourMAC = 6 -> zlen ourAddr = k ->
  put_entry e b ourAddr ourMAC op =
    Ret (packet_bytes b k op ourMAC ourAddr (mac e) (ztake k (addr e)), 20 + 2 * k, None).
Proof.
  intros [[La Ba] [Lm Bm]] Hb Hk Hf Hl Hop Hom Hoa.
  unfold put_entry, NewFrame, sizeHeaderv4, sizeHeader. destruct (Z.ltb_spec (zlen b) (8 + 6 * 2 + 4 * 2)); [lia|].
  unfold SetHardware, SetOperation, SetProtocol, put_addrs. rewrite Hf.
  assert (zlen (ztake k (addr e)) = k) as Lt by (apply zlen_ztake; lia).
  assert (ztake k ourAddr = ourAddr) as Eo by (apply ztake_ge; lia).
  rewrite PutUint16_ok by lia. cbn [mbind outcome_bind]. rewrite put_checked_ok by put_len. cbn [mbind outcome_bind].
  rewrite PutUint16_ok by put_len. cbn [mbind outcome_bind]. unfold packet_bytes, ptype. rewrite Hoa.
  destruct Hk as [-> | ->]; cbn [Z.eqb Pos.eqb negb].
  - rewrite PutUint16_ok by put_len. cbn [mbind outcome_bind]. rewrite put_checked_ok by put_len.
    cbn [mbind outcome_bind]. rewrite Eo.
    do 4 (rewrite put_checked_ok by put_len; cbn [mbind outcome_bind]). done.
  - unfold sizeHeaderv6, sizeHeader. destruct (Z.ltb_spec (zlen b) (8 + 6 * 2 + 16 * 2)); [lia|].
    rewrite PutUint16_ok by put_len. cbn [mbind outcome_bind]. rewrite put_checked_ok by put_len.
    cbn [mbind outcome_bind]. rewrite Eo.
    do 4 (rewrite put_checked_ok by put_len; cbn [mbind outcome_bind]). done.
Qed.

(** ** Sending and receiving *)

Lemma frame_behind c off f dst : 0 <= off -> off + zlen f = zlen c -> zlen dst = 6 ->
  zdrop off (trySetEthernetDst (ztake off c ++ f) off dst) = f /\
  zlen (trySetEthernetDst (ztake off c ++ f) off dst) = zlen c /\
  (14 <= off -> slice (trySetEthernetDst (ztake off c ++ f) off dst) 0 6 = dst).
Proof.
  intros Ho Hl Hd. pose proof (zlen_nonneg f). assert (zlen (ztake off c) = off) as Lt by (apply zlen_ztake; lia).
  assert (zlen (ztake off c ++ f) = zlen c) as La by (rewrite zlen_app; lia).
  unfold trySetEthernetDst. rewrite (ztake_ge 6 dst) by lia. destruct (Z.leb_spec 14 off).
  - assert (zlen (put (ztake off c ++ f) 0 dst) = zlen c) as Lp by (rewrite zlen_put; lia).
    split; [|split; [done|]].
    + apply zlist_eq; rewrite zlen_zdrop by lia; [lia|]. intros k Hk.
      rewrite zget_zdrop, zget_put_out, zget_app_r by lia. f_equal. lia.
    + intros _. replace 6 with (0 + zlen dst) by lia. apply slice_put_in; lia.
  - split; [by apply zdrop_app_exact|]. split; [done|lia].
Qed.

Lemma whole_slice (c : list Z) off : 0 <= off <= zlen c -> Ipv4.sub c off (zlen c) = Ret (zdrop off c).
Proof.
  intros. rewrite Ipv4.sub_ok by lia. unfold slice. rewrite ztake_ge; [done|rewrite zlen_zdrop; lia].
Qed.

Definition sent_flag (op : Z) : Z :=
  if op =? OpReply then eflagPendingResponse else eflagIncompletePendingQuery.

Lemma Encapsulate_entry h k c off i op e :
  arp_host h k -> is_bytes c -> 0 <= off -> off + 20 + 2 * k <= zlen c ->
  op = OpRequest \/ op = OpReply ->
  next_entry (h_cache h) = Some (i, op) -> h_cache h !! i = Some e -> entry_wf e ->
  hasAny (flags (clear (sent_flag op) e)) eflagIPv6 = (k =? 16) ->
  exists c', Encapsulate c off h = Ret (update_entry i (clear (sent_flag op)) h, c', 20 + 2 * k, None) /\
    zlen c' = zlen c /\
    arp_packet (zdrop off c') k op (ourHWAddr h) (ourProtoAddr h) (mac e) (ztake k (addr e)) /\
    (14 <= off -> slice c' 0 6 = if op =? OpRequest then Ethernet.BroadcastAddr else mac e).
Proof.
  intros Hh Hb Ho Hl Hop Hnext He Hwe Hf. pose proof Hh as [Hk _ _ _ _ [Lpa Bpa] [Lhw Bhw]].
  assert (zlen (zdrop off c) = zlen c - off) as Ld by (rewrite zlen_zdrop; lia).
  assert (is_bytes (zdrop off c)) as Bd by auto with bytes.
  assert (is_u16 op) as Hop16 by (destruct Hop as [-> | ->]; by_compute).
  pose proof Hwe as [[La Ba] [Lm Bm]].
  assert (entry_wf (clear (sent_flag op) e)) as Hwc by done.
  assert (zlen (ztake k (addr e)) = k) as Lta by (apply zlen_ztake; lia).
  destruct (packet_bytes_ok (zdrop off c) k op (ourHWAddr h) (ourProtoAddr h) (mac e) (ztake k (addr e)))
    as [LP HP]; auto with bytes; try lia.
  set (f := packet_bytes _ _ _ _ _ _ _) in *.
  set (dst := if op =? OpRequest then Ethernet.BroadcastAddr else mac e).
  assert (zlen dst = 6) as Ldst by (unfold dst; by case_match).
  destruct (frame_behind c off f dst Ho ltac:(lia) Ldst) as (F1 & F2 & F3).
  eexists. split; [|split; [exact F2|split; [by rewrite F1|exact F3]]].
  unfold Encapsulate. rewrite whole_slice by lia. cbn [mbind outcome_bind].
  rewrite (newframe_ok _ _ k Hh) by lia. rewrite Hnext. fold (sent_flag op).
  cbn [h_cache update_entry with_cache ourProtoAddr ourHWAddr].
  change (@alter nat) with (@alter nat). rewrite list_lookup_alter_eq, He. cbn [fmap option_fmap option_map].
  rewrite (put_entry_ok _ _ k) by (done || lia). cbn [mbind outcome_bind mac addr clear with_flags].
  fold f. unfold dst. destruct Hop as [-> | ->]; cbn [Z.eqb Pos.eqb OpRequest OpReply]; [done|].
  rewrite (Target_ok _ _ _ _ _ _ _ HP). done.
Qed.

Lemma with_vld_id h : with_vld (vld h) h = h.
Proof. by destruct h. Qed.

(** The checks of [Demux] let a packet of the right kind through. *)
Lemma Demux_packet h k c off op sm sa tm ta :
  arp_host h k -> 0 <= off <= zlen c -> arp_packet (zdrop off c) k op sm sa tm ta ->
  Demux c off h =
    (if op =? OpRequest then
       if negb (bool_decide (ta = ourProtoAddr h)) then Ret (h, None, None)
       else
         '(c, i) ← acquireNext (h_cache h);
         assert_or_panic (6 <=? zlen sm)
           (Ret (update_entry i (use (ztake 6 sm) sa eflagPendingResponse) (with_cache c h), None, None))
     else if op =? OpReply then
       r ← Lookup sa (h_cache h);
       match r with
       | None => Ret (h, None, None)
       | Some i =>
           let set e := clear (Z.lor eflagIncomplete eflagIncompletePendingQuery)
             (mkEntry (addr e) (let k := Z.min 6 (zlen sm) in ztake k sm ++ zdrop k (mac e))
                (age e) (flags e)) in
           let h := update_entry i set h in
           Ret (h, match h_cache h !! i with
                   | Some e => if hasAny (flags e) eflagResolveTriggersCallback && onresolve h
                               then Some (mac e, sa) else None
                   | None => None
                   end, None)
       end
     else Ret (h, None, Some ErrUnsupported)).
Proof.
  intros Hh Ho Hp. pose proof Hh as [Hk _ _ Hv [Ht Hpt] [Lpa _] [Lhw _]].
  unfold Demux. rewrite whole_slice by lia. cbn [mbind outcome_bind].
  rewrite (newframe_ok _ _ k Hh) by apply Hp.
  assert (HasError (vld h) = Ret false) as He by (by rewrite Hv).
  rewrite (arp_ValidateSize_ok _ _ _ _ _ _ _ Hp). cbn [mbind outcome_bind]. rewrite He.
  cbn [mbind outcome_bind]. cbv iota. rewrite with_vld_id.
  rewrite (Hardware_ok _ _ _ _ _ _ _ Hp), (Protocol_ok _ _ _ _ _ _ _ Hp), (Operation_ok _ _ _ _ _ _ _ Hp),
    (Sender_ok _ _ _ _ _ _ _ Hp), (Target_ok _ _ _ _ _ _ _ Hp).
  cbn [mbind outcome_bind]. rewrite Ht, Lhw, Hpt, Lpa, !Z.eqb_refl.
  cbn [negb orb]. reflexivity.
Qed.

(** ** A new entry in the cache *)

Definition placed (c : cache) (i : nat) (e : entry) : cache := <[i := e]> (map age_entry c).

Lemma alter_insert_id {A} (f : A -> A) i x (l : list A) : alter f i (<[i := x]> l) = <[i := f x]> l.
Proof.
  revert i. induction l as [|y l IH]; intros [|i]; try done. unfold alter, insert in *. cbn. f_equal. apply IH.
Qed.
Lemma alter_placed f c i e : alter f i (placed c i e) = placed c i (f e).
Proof. apply alter_insert_id. Qed.

Lemma age_entry_same e : flags (age_entry e) = flags e /\ addr (age_entry e) = addr e /\ mac (age_entry e) = mac e.
Proof. unfold age_entry. by case_match. Qed.

Lemma find_entry_unique (p : entry -> bool) c i e :
  c !! i = Some e -> p e = true -> (forall j e', j <> i -> c !! j = Some e' -> p e' = false) ->
  find_entry p c = Some i.
Proof.
  revert i. induction c as [|x c IH]; intros [|i] He Hp Hn; [done|done| |]; cbn in He |- *.
  - injection He as ->. by rewrite Hp.
  - rewrite (Hn O x) by done. rewrite (IH i He Hp); [done|]. intros j e' Hj Hl. by apply (Hn (S j)); [lia|].
Qed.
Lemma find_entry_none (p : entry -> bool) c :
  (forall e, e ∈ c -> p e = false) -> find_entry p c = None.
Proof.
  induction c as [|x c IH]; intros H; [done|]. cbn. rewrite H by left. rewrite IH; [done|].
  intros e He. apply H. by right.
Qed.

(** Predicates that do not look at the age. *)
Definition ageless (p : entry -> bool) : Prop := forall e, p (age_entry e) = p e.

Section Placed.
Context (c : cache) (i : nat) (Hi : (i < length c)%nat) (e : entry).

Lemma placed_lookup : placed c i e !! i = Some e.
Proof. apply list_lookup_insert_eq. by rewrite length_map. Qed.
Lemma placed_other j e' : j <> i -> placed c i e !! j = Some e' -> exists e0, e0 ∈ c /\ e' = age_entry e0.
Proof.
  intros Hj. unfold placed. rewrite list_lookup_insert_ne by done.
  change (map age_entry c) with (age_entry <$> c). rewrite list_lookup_fmap.
  destruct (c !! j) as [e0|] eqn:E; cbn; [|done]. intros [= <-]. exists e0.
  split; [by apply list_elem_of_lookup_2 in E|done].
Qed.
Lemma find_placed p : ageless p -> p e = true -> (forall e', e' ∈ c -> p e' = false) ->
  find_entry p (placed c i e) = Some i.
Proof.
  intros Ha Hp Hn. apply (find_entry_unique p _ i e); [apply placed_lookup|done|].
  intros j e' Hj Hl. destruct (placed_other j e' Hj Hl) as (e0 & H0 & ->). rewrite Ha. by apply Hn.
Qed.
Lemma find_placed_none p : ageless p -> p e = false -> (forall e', e' ∈ c -> p e' = false) ->
  find_entry p (placed c i e) = None.
Proof.
  intros Ha Hp Hn. apply find_entry_none. intros e' [j Hj]%list_elem_of_lookup_1.
  destruct (decide (j = i)) as [->|Hne]; [rewrite placed_lookup in Hj; congruence|].
  destruct (placed_other j e' Hne Hj) as (e0 & H0 & ->). rewrite Ha. by apply Hn.
Qed.
Lemma placed_wf : Forall entry_wf c -> entry_wf e -> Forall entry_wf (placed c i e).
Proof.
  intros Hc He. apply Forall_insert; [|done]. change (map age_entry c) with (age_entry <$> c).
  apply Forall_fmap. eapply Forall_impl; [exact Hc|]. intros x [Hx1 Hx2]. cbn.
  destruct (age_entry_same x) as (_ & Ea & Em). split; by rewrite ?Ea, ?Em.
Qed.
End Placed.

Lemma ageless_flagged fl : ageless (fun e => inUse e && hasAny (flags e) fl).
Proof. intros e. unfold inUse. by destruct (age_entry_same e) as (-> & _ & _). Qed.

(** The entries [Lookup] finds. *)
Definition known (a : list Z) (e : entry) : bool := inUse e && bool_decide (ztake (zlen a) (addr e) = a).

Lemma ageless_known a : ageless (known a).
Proof. intros e. unfold known, inUse. by destruct (age_entry_same e) as (-> & -> & _). Qed.

Lemma Lookup_find a c : Forall entry_wf c -> zlen a <= 16 -> Lookup a c = Ret (find_entry (known a) c).
Proof.
  intros Hc Ha. induction Hc as [|e c [[La _] _] Hc IH]; [done|]. cbn [Lookup find_entry].
  pose proof (zlen_nonneg a). unfold known at 1. destruct (inUse e); cbn [andb].
  - rewrite Ipv4.sub_ok by lia. cbn [mbind outcome_bind].
    replace (slice (addr e) 0 (zlen a)) with (ztake (zlen a) (addr e))
      by (unfold slice; by rewrite Z.sub_0_r, zdrop_nonpos by lia).
    case_match; [done|]. by rewrite IH.
  - cbn [mbind outcome_bind]. by rewrite IH.
Qed.

(** ** The exchange *)

(** Nothing waits to be sent. *)
Definition quiet (c : cache) : Prop := forall e, e ∈ c ->
  inUse e && hasAny (flags e) eflagPendingResponse = false /\
  inUse e && hasAny (flags e) eflagIncompletePendingQuery = false.
Definition unknown (a : list Z) (c : cache) : Prop := forall e, e ∈ c -> known a e = false.

Section Used.
Context (k : Z) (Hk : k = 4 \/ k = 16) (m p : list Z) (Hm : zlen m = 6 /\ is_bytes m) (Hp : zlen p = k /\ is_bytes p).

Lemma use_flags fl : flags (use m p fl zero_entry) = Z.lor (Z.lor eflagInUse fl) (if k =? 16 then eflagIPv6 else 0).
Proof.
  unfold use. destruct Hp as [-> _]. cbn [flags]. destruct Hk as [-> | ->]; [|done]. by rewrite Z.lor_0_r.
Qed.
Lemma use_addr fl : ztake k (addr (use m p fl zero_entry)) = p.
Proof.
  unfold use. destruct Hp as [Hl _]. cbn [addr]. rewrite Hl. replace (Z.min 16 k) with k by lia.
  rewrite (ztake_ge k p) by lia. by apply ztake_app_exact.
Qed.
Lemma use_wf fl : entry_wf (use m p fl zero_entry).
Proof.
  destruct Hp as [Hl Hb]. split; [|done]. unfold use. cbn [addr]. rewrite Hl.
  replace (Z.min 16 k) with k by lia. rewrite (ztake_ge k p) by lia. split.
  - rewrite zlen_app, Hl. rewrite zlen_zdrop; [|change (zlen (addr zero_entry)) with 16; lia].
    change (zlen (addr zero_entry)) with 16. lia.
  - apply is_bytes_app; [done|]. apply is_bytes_zdrop. by_compute.
Qed.
End Used.

(** The entry of a query, before and after its request is sent. *)
Definition query_entry (p : list Z) (cb : bool) : entry :=
  let e := use (replicate 6 0) p 56 zero_entry in
  if cb then with_flags (Z.lor (flags e) eflagResolveTriggersCallback) e else e.

Lemma StartQuery_ok h k p cb : arp_host h k -> zlen p = k ->
  exists i, (i < length (h_cache h))%nat /\
    StartQuery p cb h = Ret (with_cache (placed (h_cache h) i (query_entry p cb)) h, None).
Proof.
  intros Hh Hp. destruct (acquireNext_ok (h_cache h) (ho_cache _ _ Hh)) as (i & HA & _ & Hi). exists i.
  split; [done|]. unfold StartQuery. rewrite Hp, (proj1 (ho_addr _ _ Hh)), Z.eqb_refl. cbn [negb].
  rewrite HA. cbn [mbind outcome_bind]. unfold update_entry, with_cache. cbn [h_cache].
  by rewrite alter_insert_id.
Qed.

Lemma host_cache h k c : arp_host h k -> c <> [] -> Forall entry_wf c -> arp_host (with_cache c h) k.
Proof. by intros [] ? ?. Qed.
Lemma placed_ne c i e : c <> [] -> placed c i e <> [].
Proof.
  intros Hc E. apply (f_equal length) in E. unfold placed in E. rewrite length_insert, length_map in E. by destruct c.
Qed.

(** The query goes out as a broadcast. *)
Lemma send_query h k p cb c off i : arp_host h k -> zlen p = k /\ is_bytes p -> (i < length (h_cache h))%nat ->
  quiet (h_cache h) -> is_bytes c -> 0 <= off -> off + 20 + 2 * k <= zlen c ->
  exists c', Encapsulate c off (with_cache (placed (h_cache h) i (query_entry p cb)) h) =
      Ret (with_cache (placed (h_cache h) i (clear eflagIncompletePendingQuery (query_entry p cb))) h,
           c', 20 + 2 * k, None) /\
    zlen c' = zlen c /\
    arp_packet (zdrop off c') k OpRequest (ourHWAddr h) (ourProtoAddr h) (replicate 6 0) p /\
    (14 <= off -> slice c' 0 6 = Ethernet.BroadcastAddr).
Proof.
  intros Hh Hp Hi Hq Hb Ho Hl. pose proof (ho_k _ _ Hh) as Hk.
  assert (zlen (replicate 6 0) = 6 /\ is_bytes (replicate 6 0)) as Hz by (split; by_compute).
  pose proof (use_flags k Hk (replicate 6 0) p Hp 56) as Ef.
  pose proof (use_addr k Hk (replicate 6 0) p Hp 56) as Ea.
  pose proof (use_wf k Hk (replicate 6 0) p Hz Hp 56) as Ew.
  set (e := query_entry p cb). set (u := use (replicate 6 0) p 56 zero_entry) in *.
  assert (entry_wf e /\ addr e = addr u /\ mac e = mac u /\ flags e = Z.lor (flags u) (if cb then 64 else 0)) as (We & Ae & Me & Fe).
  { unfold e, query_entry. fold u. destruct cb; [|by rewrite Z.lor_0_r].
    destruct Ew. by split_and!. }
  rewrite Ef in Fe.
  destruct (Encapsulate_entry (with_cache (placed (h_cache h) i e) h) k c off i OpRequest e)
    as (c' & HE & HL & HP & HD); try done.
  - apply host_cache; [done|apply placed_ne; apply Hh|]. apply placed_wf; [apply Hh|done].
  - by left.
  - unfold next_entry, getNextFlagged. cbn [h_cache with_cache].
    rewrite find_placed_none; [|done|apply ageless_flagged| |intros e' He'; by apply Hq].
    + rewrite (find_placed _ i Hi e); [done|apply ageless_flagged| |intros e' He'; by apply Hq].
      unfold inUse. rewrite Fe. destruct Hk as [-> | ->]; by destruct cb.
    + unfold inUse. rewrite Fe. destruct Hk as [-> | ->]; by destruct cb.
  - by apply placed_lookup.
  - unfold clear. cbn [flags with_flags]. rewrite Fe. destruct Hk as [-> | ->]; by destruct cb.
  - exists c'. split; [|split; [done|split; [|done]]].
    + rewrite HE. unfold update_entry, with_cache. cbn [h_cache]. by rewrite alter_placed.
    + rewrite Ae, Me, Ea in HP. exact HP.
Qed.

(** A request for our address makes an entry that is answered to the asker alone. *)
Lemma answer_request h k c off sm sa tm c2 off2 : arp_host h k -> quiet (h_cache h) -> unknown sa (h_cache h) ->
  0 <= off <= zlen c -> zlen sm = 6 /\ is_bytes sm -> zlen sa = k /\ is_bytes sa ->
  arp_packet (zdrop off c) k OpRequest sm sa tm (ourProtoAddr h) ->
  is_bytes c2 -> 0 <= off2 -> off2 + 20 + 2 * k <= zlen c2 ->
  exists h1 h2 c2', Demux c off h = Ret (h1, None, None) /\
    Encapsulate c2 off2 h1 = Ret (h2, c2', 20 + 2 * k, None) /\ zlen c2' = zlen c2 /\
    arp_packet (zdrop off2 c2') k OpReply (ourHWAddr h) (ourProtoAddr h) sm sa /\
    (14 <= off2 -> slice c2' 0 6 = sm) /\
    CacheLookup sa h2 = Ret (Some sm, None).
Proof.
  intros Hh Hq Hu Ho Hsm Hsa HP Hb2 Ho2 Hl2. pose proof (ho_k _ _ Hh) as Hk.
  destruct (acquireNext_ok (h_cache h) (ho_cache _ _ Hh)) as (i & HA & _ & Hi).
  set (e := use sm sa eflagPendingResponse zero_entry).
  pose proof (use_flags k Hk sm sa Hsa eflagPendingResponse) as Ef.
  pose proof (use_addr k Hk sm sa Hsa eflagPendingResponse) as Ea.
  pose proof (use_wf k Hk sm sa Hsm Hsa eflagPendingResponse) as Ew. fold e in Ef, Ea, Ew.
  set (h1 := with_cache (placed (h_cache h) i e) h).
  assert (Demux c off h = Ret (h1, None, None)) as HD.
  { rewrite (Demux_packet h k _ _ _ _ _ _ _ Hh Ho HP). cbn [Z.eqb Pos.eqb OpRequest].
    rewrite bool_decide_eq_true_2 by done. cbn [negb]. rewrite HA. cbn [mbind outcome_bind].
    unfold assert_or_panic. destruct (Z.leb_spec 6 (zlen sm)); [|lia].
    rewrite (ztake_ge 6 sm) by lia. unfold update_entry, with_cache. cbn [h_cache]. by rewrite alter_insert_id. }
  destruct (Encapsulate_entry h1 k c2 off2 i OpReply e) as (c2' & HE & HL & HP2 & HDst); try done.
  - apply host_cache; [done|apply placed_ne; apply Hh|]. apply placed_wf; [apply Hh|done].
  - by right.
  - unfold next_entry, getNextFlagged, h1. cbn [h_cache with_cache].
    rewrite (find_placed _ i Hi e); [done|apply ageless_flagged| |intros e' He'; by apply Hq].
    unfold inUse. rewrite Ef. by destruct Hk as [-> | ->].
  - by apply placed_lookup.
  - unfold clear. cbn [flags with_flags]. rewrite Ef. by destruct Hk as [-> | ->].
  - rewrite Ea in HP2. exists h1, (update_entry i (clear (sent_flag OpReply)) h1), c2'.
    do 5 (split; [done|]). unfold CacheLookup, update_entry, h1. cbn [h_cache with_cache].
    rewrite alter_placed. set (e' := clear (sent_flag OpReply) e).
    assert (flags e' = Z.lor eflagInUse (if k =? 16 then eflagIPv6 else 0)) as Fe'.
    { unfold e', clear. cbn [flags with_flags]. rewrite Ef. by destruct Hk as [-> | ->]. }
    rewrite Lookup_find; [|apply placed_wf; [apply Hh|by destruct Ew]|destruct Hsa; lia]. cbn [mbind outcome_bind].
    rewrite (find_placed _ i Hi e'); [|apply ageless_known| |done].
    + cbn [mbind option_bind]. rewrite placed_lookup by done. rewrite Fe'. by destruct Hk as [-> | ->].
    + unfold known, inUse. rewrite Fe'. destruct Hsa as [Lsa _]. rewrite Lsa.
      change (addr e') with (addr e). rewrite Ea, bool_decide_eq_true_2 by done. by destruct Hk as [-> | ->].
Qed.

(** The answer completes the query. *)
Lemma take_reply h k p cb c off i sm tm ta : arp_host h k -> zlen p = k /\ is_bytes p ->
  (i < length (h_cache h))%nat -> unknown p (h_cache h) -> 0 <= off <= zlen c -> zlen sm = 6 /\ is_bytes sm ->
  arp_packet (zdrop off c) k OpReply sm p tm ta ->
  exists h', Demux c off (with_cache (placed (h_cache h) i (clear eflagIncompletePendingQuery (query_entry p cb))) h) =
      Ret (h', if cb && onresolve h then Some (sm, p) else None, None) /\
    CacheLookup p h' = Ret (Some sm, None).
Proof.
  intros Hh Hp Hi Hu Ho Hsm HP. pose proof (ho_k _ _ Hh) as Hk.
  assert (zlen (replicate 6 0) = 6 /\ is_bytes (replicate 6 0)) as Hz by (split; by_compute).
  pose proof (use_flags k Hk (replicate 6 0) p Hp 56) as Ef.
  pose proof (use_addr k Hk (replicate 6 0) p Hp 56) as Ea.
  pose proof (use_wf k Hk (replicate 6 0) p Hz Hp 56) as Ew.
  set (e := clear eflagIncompletePendingQuery (query_entry p cb)).
  set (u := use (replicate 6 0) p 56 zero_entry) in *.
  assert (entry_wf e /\ addr e = addr u /\ mac e = mac u /\
    flags e = Z.ldiff (Z.lor (flags u) (if cb then 64 else 0)) 16) as (We & Ae & Me & Fe).
  { unfold e, query_entry, clear. fold u. destruct Ew. destruct cb; [by split_and!|].
    cbn [flags with_flags addr mac]. rewrite Z.lor_0_r. by split_and!. }
  rewrite Ef in Fe. destruct Hp as [Lp Bp], Hsm as [Lm Bm].
  assert (forall e1, entry_wf e1 -> inUse e1 = true -> addr e1 = addr u ->
    Lookup p (placed (h_cache h) i e1) = Ret (Some i)) as HL.
  { intros e1 W1 I1 A1. rewrite Lookup_find; [|apply placed_wf; [apply Hh|done]|lia].
    f_equal. apply find_placed; [done|apply ageless_known| |done].
    unfold known. rewrite I1, A1, Lp, Ea, bool_decide_eq_true_2 by done. done. }
  assert (inUse e = true) as Ie by (unfold inUse; rewrite Fe; destruct Hk as [-> | ->]; by destruct cb).
  set (e2 := clear 24 (mkEntry (addr e) sm (age e) (flags e))).
  assert (entry_wf e2) as W2 by (destruct We as [WA WM]; by split).
  assert (flags e2 = Z.ldiff (flags e) 24) as F2 by done. rewrite Fe in F2.
  exists (with_cache (placed (h_cache h) i e2) h). split.
  - rewrite (Demux_packet _ k _ _ _ _ _ _ _ (host_cache h k _ Hh (placed_ne _ _ _ (ho_cache _ _ Hh))
      (placed_wf _ _ _ (ho_entries _ _ Hh) We)) Ho HP).
    cbn [Z.eqb Pos.eqb OpRequest OpReply h_cache with_cache]. rewrite HL by done. cbn [mbind outcome_bind].
    cbn zeta. rewrite Lm. change (Z.min 6 6) with 6. unfold update_entry. cbn [h_cache with_cache onresolve].
    rewrite alter_placed, placed_lookup by done. rewrite (ztake_ge 6 sm) by lia.
    assert (zdrop 6 (mac e) = []) as -> by (rewrite Me; done). rewrite app_nil_r.
    change (clear (Z.lor eflagIncomplete eflagIncompletePendingQuery) (mkEntry (addr e) sm (age e) (flags e))) with e2.
    change (mac e2) with sm. rewrite F2. destruct Hk as [-> | ->]; by destruct cb.
  - unfold CacheLookup. cbn [h_cache with_cache].
    rewrite (HL e2 W2); [|unfold inUse; rewrite F2; destruct Hk as [-> | ->]; by destruct cb|done].
    cbn [mbind outcome_bind option_bind]. rewrite placed_lookup by done. rewrite F2.
    destruct Hk as [-> | ->]; by destruct cb.
Qed.

(** C17: ARP resolves addresses. Two hosts of the same protocol (IPv4 or IPv6) that have
    nothing else to send and do not know each other run the exchange: the query is
    pending until the answer arrives; the request is a broadcast, the reply goes to
    the asker alone; in the end the asker's cache has the hardware address of the
    other, the other's has the asker's, and the callback is called if it was asked for. *)
Theorem arp_resolves A B k cb c1 off1 c2 off2
  (HA : arp_host A k) (HB : arp_host B k) (HqA : quiet (h_cache A)) (HqB : quiet (h_cache B))
  (HuA : unknown (ourProtoAddr B) (h_cache A)) (HuB : unknown (ourProtoAddr A) (h_cache B))
  (Hb1 : is_bytes c1) (Ho1 : 14 <= off1) (Hl1 : off1 + 20 + 2 * k <= zlen c1)
  (Hb2 : is_bytes c2) (Ho2 : 14 <= off2) (Hl2 : off2 + 20 + 2 * k <= zlen c2) :
  exists A1 A2 A3 B1 B2 c1' c2',
    StartQuery (ourProtoAddr B) cb A = Ret (A1, None) /\
    Encapsulate c1 off1 A1 = Ret (A2, c1', 20 + 2 * k, None) /\
    slice c1' 0 6 = Ethernet.BroadcastAddr /\
    Demux c1' off1 B = Ret (B1, None, None) /\
    Encapsulate c2 off2 B1 = Ret (B2, c2', 20 + 2 * k, None) /\ slice c2' 0 6 = ourHWAddr A /\
    Demux c2' off2 A2 = Ret (A3, if cb && onresolve A then Some (ourHWAddr B, ourProtoAddr B) else None, None) /\
    CacheLookup (ourProtoAddr B) A3 = Ret (Some (ourHWAddr B), None) /\
    CacheLookup (ourProtoAddr A) B2 = Ret (Some (ourHWAddr A), None).
Proof.
  pose proof (ho_addr _ _ HB) as HpB. pose proof (ho_addr _ _ HA) as HpA.
  pose proof (ho_mac _ _ HA) as HmA. pose proof (ho_mac _ _ HB) as HmB. pose proof (ho_k _ _ HA) as Hk.
  destruct (StartQuery_ok A k (ourProtoAddr B) cb HA (proj1 HpB)) as (i & Hi & HS).
  destruct (send_query A k (ourProtoAddr B) cb c1 off1 i) as (c1' & HE1 & HL1 & HP1 & HD1); try done; try lia.
  destruct (answer_request B k c1' off1 (ourHWAddr A) (ourProtoAddr A) (replicate 6 0) c2 off2)
    as (B1 & B2 & c2' & HDB & HEB & HL2 & HP2 & HD2 & HCB); try done; try lia.
  destruct (take_reply A k (ourProtoAddr B) cb c2' off2 i (ourHWAddr B) (ourHWAddr A) (ourProtoAddr A))
    as (A3 & HDA & HCA); try done; try lia.
  do 7 eexists. split; [exact HS|]. split; [exact HE1|]. split; [by apply HD1|]. split; [exact HDB|].
  split; [exact HEB|]. split; [by apply HD2|]. split; [exact HDA|]. done.
Qed.

Definition demo_host (x : Z) : Handler :=
  mkHandler 1 (replicate 2 zero_entry) (mkValidator [] 0) [10; 0; 0; x] true 1 Ethernet.TypeIPv4 (replicate 6 x).

Lemma arp_resolves_witness :
  exists A1 A2 A3 B1 B2 c1' c2',
    StartQuery [10; 0; 0; 2] true (demo_host 1) = Ret (A1, None) /\
    Encapsulate (replicate 60 0) 14 A1 = Ret (A2, c1', 28, None) /\
    Demux c1' 14 (demo_host 2) = Ret (B1, None, None) /\
    Encapsulate (replicate 60 0) 14 B1 = Ret (B2, c2', 28, None) /\
    Demux c2' 14 A2 = Ret (A3, Some (replicate 6 2, [10; 0; 0; 2]), None).
Proof.
  assert (forall x, is_u8 x -> arp_host (demo_host x) 4) as Hh.
  { intros x Hx.
    assert (Forall is_u8 [10; 0; 0; x]) by (repeat (apply Forall_cons_2; [by_compute || done|]); apply Forall_nil_2).
    assert (is_bytes (replicate 6 x)) by (by apply Forall_replicate).
    split; try done; [by left|].
    apply Forall_replicate. split; split; [done|by apply Forall_replicate|done|by apply Forall_replicate]. }
  destruct (arp_resolves (demo_host 1) (demo_host 2) 4 true (replicate 60 0) 14 (replicate 60 0) 14)
    as (A1 & A2 & A3 & B1 & B2 & c1' & c2' & H1 & H2 & _ & H3 & H4 & _ & H5 & _);
    [apply Hh; by_compute|apply Hh; by_compute| | | | |by_compute..|].
  1-4: intros e He; apply list_elem_of_In in He; cbn in He; destruct He as [<-|[<-|[]]]; done.
  exists A1, A2, A3, B1, B2, c1', c2'.
  split; [exact H1|]. split; [exact H2|]. split; [exact H3|]. split; [exact H4|exact H5].
Defined.

End ArpThms.
