(* ===== verification/Handler.v ===== *)
(** * The TCP handler ([src/tcp/handler.go], [src/tcp/policy.go])

    [Handler] composes the control block, the transmit queue, the receive ring
    and the reassembly metadata of one connection: [Recv] and [Send] turn frames
    into segments and back and keep the four in step. A method that mutates its
    receiver returns the new handler; [Send] also returns the buffer it wrote.

    The transmit policy is an interface of the source; here it is the class
    [Policy] over the policy's own state, which [Handler] keeps. Its hooks see the
    handler and the frame; [PreTx] and [PostTx] may write to the outgoing frame.
    The hooks do not modify the handler ("Not for modification") nor an incoming
    frame.

    A nil receive buffer is told from an empty one by [rxnil]; a slice's capacity
    is its length. The field [nRetransmit] of the source is never used and left
    out, as are logging calls. *)
From S2P Require Import Prelude Errors SeqNum Segment ControlBlock Ring TxQueue.
From S2P Require Import Reassembly Rto Bytes Validation Frame Options.

Module Handler.
Import SeqNum Segment.

Definition TransmitUnlimited : Z := 4294967295.

Record Handler (P : Type) := mkHandler {
  connid : Z;
  scb : ControlBlock.ControlBlock;
  bufTx : TxQueue.ringTx;
  bufRx : Ring.Ring;
  rxnil : bool;
  validator : Validation.Validator;
  localPort : Z;
  remotePort : Z;
  optcodec : Z;
  wndShiftLocal : Z;
  wndShiftPeer : Z;
  peerOfferedWS : bool;
  reasm : Reassembly.reassembly;
  policy : option P;
  closing : bool;
  shutdownRx : bool;
  requeueControl : bool
}.
Arguments connid {P} _.
Arguments scb {P} _.
Arguments bufTx {P} _.
Arguments bufRx {P} _.
Arguments rxnil {P} _.
Arguments validator {P} _.
Arguments localPort {P} _.
Arguments remotePort {P} _.
Arguments optcodec {P} _.
Arguments wndShiftLocal {P} _.
Arguments wndShiftPeer {P} _.
Arguments peerOfferedWS {P} _.
Arguments reasm {P} _.
Arguments policy {P} _.
Arguments closing {P} _.
Arguments shutdownRx {P} _.
Arguments requeueControl {P} _.
Arguments mkHandler {P} _ _ _ _ _ _ _ _ _ _ _ _ _ _ _ _ _.

(** The interface [Policy]: the policy's state after each hook. [PreTx] also
    returns the outgoing buffer, the transmit limit, the sequence number to
    retransmit from and whether to; [PreRx] whether to keep the segment. *)
Class Policy (P : Type) := {
  pol_Reset : P -> P;
  pol_PreTx : Handler P -> list Z -> P -> outcome (P * list Z * (Z * Z * bool));
  pol_PostTx : Handler P -> list Z -> P -> outcome (P * list Z);
  pol_PreRx : Handler P -> list Z -> P -> outcome (P * bool);
  pol_PostRx : Handler P -> State -> list Z -> P -> outcome P
}.

Section Handler.
Context {P : Type} `{!Policy P}.

Definition with_scb v_scb (h : Handler P) : Handler P :=
  mkHandler (connid h) v_scb (bufTx h) (bufRx h) (rxnil h) (validator h) (localPort h) (remotePort h) (optcodec h) (wndShiftLocal h) (wndShiftPeer h) (peerOfferedWS h) (reasm h) (policy h) (closing h) (shutdownRx h) (requeueControl h).
Definition with_bufTx v_bufTx (h : Handler P) : Handler P :=
  mkHandler (connid h) (scb h) v_bufTx (bufRx h) (rxnil h) (validator h) (localPort h) (remotePort h) (optcodec h) (wndShiftLocal h) (wndShiftPeer h) (peerOfferedWS h) (reasm h) (policy h) (closing h) (shutdownRx h) (requeueControl h).
Definition with_bufRx v_bufRx (h : Handler P) : Handler P :=
  mkHandler (connid h) (scb h) (bufTx h) v_bufRx (rxnil h) (validator h) (localPort h) (remotePort h) (optcodec h) (wndShiftLocal h) (wndShiftPeer h) (peerOfferedWS h) (reasm h) (policy h) (closing h) (shutdownRx h) (requeueControl h).
Definition with_validator v_validator (h : Handler P) : Handler P :=
  mkHandler (connid h) (scb h) (bufTx h) (bufRx h) (rxnil h) v_validator (localPort h) (remotePort h) (optcodec h) (wndShiftLocal h) (wndShiftPeer h) (peerOfferedWS h) (reasm h) (policy h) (closing h) (shutdownRx h) (requeueControl h).
Definition with_remotePort v_remotePort (h : Handler P) : Handler P :=
  mkHandler (connid h) (scb h) (bufTx h) (bufRx h) (rxnil h) (validator h) (localPort h) v_remotePort (optcodec h) (wndShiftLocal h) (wndShiftPeer h) (peerOfferedWS h) (reasm h) (policy h) (closing h) (shutdownRx h) (requeueControl h).
Definition with_reasm v_reasm (h : Handler P) : Handler P :=
  mkHandler (connid h) (scb h) (bufTx h) (bufRx h) (rxnil h) (validator h) (localPort h) (remotePort h) (optcodec h) (wndShiftLocal h) (wndShiftPeer h) (peerOfferedWS h) v_reasm (policy h) (closing h) (shutdownRx h) (requeueControl h).
Definition with_policy v_policy (h : Handler P) : Handler P :=
  mkHandler (connid h) (scb h) (bufTx h) (bufRx h) (rxnil h) (validator h) (localPort h) (remotePort h) (optcodec h) (wndShiftLocal h) (wndShiftPeer h) (peerOfferedWS h) (reasm h) v_policy (closing h) (shutdownRx h) (requeueControl h).
Definition with_closing v_closing (h : Handler P) : Handler P :=
  mkHandler (connid h) (scb h) (bufTx h) (bufRx h) (rxnil h) (validator h) (localPort h) (remotePort h) (optcodec h) (wndShiftLocal h) (wndShiftPeer h) (peerOfferedWS h) (reasm h) (policy h) v_closing (shutdownRx h) (requeueControl h).
Definition with_shutdownRx v_shutdownRx (h : Handler P) : Handler P :=
  mkHandler (connid h) (scb h) (bufTx h) (bufRx h) (rxnil h) (validator h) (localPort h) (remotePort h) (optcodec h) (wndShiftLocal h) (wndShiftPeer h) (peerOfferedWS h) (reasm h) (policy h) (closing h) v_shutdownRx (requeueControl h).
Definition with_requeueControl v_requeueControl (h : Handler P) : Handler P :=
  mkHandler (connid h) (scb h) (bufTx h) (bufRx h) (rxnil h) (validator h) (localPort h) (remotePort h) (optcodec h) (wndShiftLocal h) (wndShiftPeer h) (peerOfferedWS h) (reasm h) (policy h) (closing h) (shutdownRx h) v_requeueControl.
Definition with_wndShiftLocal v_wndShiftLocal (h : Handler P) : Handler P :=
  mkHandler (connid h) (scb h) (bufTx h) (bufRx h) (rxnil h) (validator h) (localPort h) (remotePort h) (optcodec h) v_wndShiftLocal (wndShiftPeer h) (peerOfferedWS h) (reasm h) (policy h) (closing h) (shutdownRx h) (requeueControl h).
Definition with_rxnil v_rxnil (h : Handler P) : Handler P :=
  mkHandler (connid h) (scb h) (bufTx h) (bufRx h) v_rxnil (validator h) (localPort h) (remotePort h) (optcodec h) (wndShiftLocal h) (wndShiftPeer h) (peerOfferedWS h) (reasm h) (policy h) (closing h) (shutdownRx h) (requeueControl h).
Definition with_peerScale v_peerOfferedWS v_wndShiftPeer (h : Handler P) : Handler P :=
  mkHandler (connid h) (scb h) (bufTx h) (bufRx h) (rxnil h) (validator h) (localPort h) (remotePort h) (optcodec h) (wndShiftLocal h) v_wndShiftPeer v_peerOfferedWS (reasm h) (policy h) (closing h) (shutdownRx h) (requeueControl h).

Definition tcb_state (h : Handler P) : State := ControlBlock.state (scb h).
Definition in_state (s : State) (h : Handler P) : bool := state_eqb (tcb_state h) s.
Definition policyEnabled (h : Handler P) : bool :=
  match policy h with Some _ => true | None => false end.

(** ** Windows *)

Definition recvWindow (h : Handler P) : Z :=
  let free := u32 (Ring.Free (bufRx h)) in
  if negb (Reassembly.enabled (reasm h)) then free
  else
    let ooo := u32 (Reassembly.bufferedBytes (reasm h)) in
    if ooo <? free then u32 (free - ooo) else 0.

(** The loop runs at most [maxWndShift] times. *)
Fixpoint wndShift_loop (n : nat) (bufSize shift : Z) : Z :=
  match n with
  | O => shift
  | S n =>
      if (shift <? ControlBlock.maxWndShift) && (65535 <? Z.shiftr bufSize shift)
      then wndShift_loop n bufSize (shift + 1) else shift
  end.
Definition wndShiftFor (bufSize : Z) : Z :=
  wndShift_loop (Z.to_nat ControlBlock.maxWndShift) bufSize 0.

Definition wireWnd (seg : Segment) (h : Handler P) : Z :=
  let wnd := WND seg in
  let wnd := if peerOfferedWS h && negb (HasAny (Flags seg) FlagSYN)
             then Z.shiftr wnd (wndShiftLocal h) else wnd in
  if 65535 <? wnd then 65535 else wnd.

(** ** Configuration, opening and closing *)

Definition SetPolicy (p : option P) (h : Handler P) : Handler P := with_policy p h.

(** Nil buffers are [None]. *)
Definition SetBuffers (txbuf rxbuf : option (list Z)) (packets : Z) (h : Handler P)
    : Handler P * option error :=
  let len (b : option (list Z)) := match b with Some b => zlen b | None => 0 end in
  if rxnil h && ((len rxbuf <? TxQueue.minBufferSize) || (len txbuf <? TxQueue.minBufferSize))
  then (h, Some ErrShortBuffer)
  else if negb (IsClosed (tcb_state h)) then (h, Some ErrInvalidConfig)
  else
    let h := match rxbuf with
             | None => h
             | Some b => with_rxnil false
                 (with_bufRx (Ring.mkRing b (Ring.Off (bufRx h)) (Ring.End_ (bufRx h))) h)
             end in
    let h := with_scb (ControlBlock.SetRecvWindow (u32 (Ring.Size (bufRx h))) (scb h)) h in
    let h := with_wndShiftLocal (wndShiftFor (Ring.Size (bufRx h))) h in
    let h := with_bufRx (Ring.Reset (bufRx h)) h in
    let h := with_reasm (Reassembly.reset Reassembly.maxReasmSegments (reasm h)) h in
    let '(tx, err) := TxQueue.ResetOrReuse txbuf packets 0 (bufTx h) in
    (with_bufTx tx h, err).

(** [reset]: everything but the control block and the configuration. An error of
    the transmit queue's reset is not looked at. *)
Definition reset (lport rport iss : Z) (h : Handler P) : Handler P :=
  mkHandler (u64 (connid h + 1)) (scb h)
    (fst (TxQueue.ResetOrReuse None 0 iss (bufTx h)))
    (Ring.Reset (bufRx h)) (rxnil h) (validator h) lport rport 0
    (wndShiftLocal h) 0 false (Reassembly.clear (reasm h))
    (option_map pol_Reset (policy h)) false false false.

Definition Abort (h : Handler P) : Handler P :=
  reset 0 0 0 (with_scb (ControlBlock.Abort (scb h)) h).

Definition OpenActive (lport rport iss : Z) (h : Handler P) : Handler P * option error :=
  if rport =? 0 then (h, Some ErrZeroDestination)
  else if (Ring.Size (bufRx h) <? TxQueue.minBufferSize) ||
          (TxQueue.Size (bufTx h) <? TxQueue.minBufferSize)
  then (h, Some errBufferTooSmall)
  else if negb (in_state StateClosed h) && negb (in_state StateTimeWait h)
  then (h, Some errNeedClosedTCBToOpen)
  else
    let h := with_scb (ControlBlock.reset (scb h)) h in
    let h := reset lport rport iss h in
    (with_scb (ControlBlock.SetRecvWindow (u32 (Ring.Size (bufRx h))) (scb h)) h, None).

Definition OpenListen (lport iss : Z) (h : Handler P) : Handler P * option error :=
  if lport =? 0 then (h, Some ErrZeroSource)
  else if (Ring.Size (bufRx h) <? TxQueue.minBufferSize) ||
          (TxQueue.Size (bufTx h) <? TxQueue.minBufferSize)
  then (h, Some errBufferTooSmall)
  else
    match ControlBlock.Open iss (u32 (Ring.Size (bufRx h))) (scb h) with
    | (t, Some e) => (with_scb t h, Some e)
    | (t, None) => (reset lport 0 iss (with_scb t h), None)
    end.

Definition ShutdownRead (h : Handler P) : Handler P := with_shutdownRx true h.

Definition Close (h : Handler P) : Handler P * option error :=
  if closing h then (h, Some errConnectionClosing)
  else if IsClosed (tcb_state h) then (h, Some NetErrClosed)
  else (with_closing true h, None).

(** ** Queries *)

Definition AwaitingSynResponse (h : Handler P) : bool :=
  negb (remotePort h =? 0) && in_state StateSynSent h.
Definition IsAwaitingControl (h : Handler P) : bool :=
  AwaitingSynResponse h || in_state StateSynRcvd h.
Definition RequeueControl (h : Handler P) : Handler P :=
  if IsAwaitingControl h then with_requeueControl true h else h.
Definition AwaitingSynAck (h : Handler P) : bool :=
  (remotePort h =? 0) && in_state StateListen h.
Definition AwaitingSynSend (h : Handler P) : bool :=
  negb (remotePort h =? 0) && in_state StateClosed h.
Definition IsTxOver (h : Handler P) : bool :=
  (in_state StateClosed h && negb (AwaitingSynSend h)) ||
  (in_state StateTimeWait h && negb (ControlBlock.HasPending (scb h))).

Definition nextSegmentIsRetransmit (h : Handler P) : bool :=
  match TxQueue.sentEndSeq (bufTx h) with
  | Some endSeq => LessThan (ControlBlock.snd_NXT (ControlBlock.snd (scb h))) endSeq
  | None => false
  end.

Definition NextSegmentSYN (h : Handler P) : bool * bool :=
  if AwaitingSynSend h || (requeueControl h && in_state StateSynSent h) then (true, false)
  else if requeueControl h && in_state StateSynRcvd h then (true, true)
  else
    let pending := ControlBlock.pending0 (scb h) in
    (HasAny pending FlagSYN, HasAny pending FlagACK).

(** ** Receiving *)

Definition or_pending0 (f : Z) (h : Handler P) : Handler P :=
  with_scb (ControlBlock.or_pending0 f (scb h)) h.

(** [true]: the segment was consumed. *)
Definition handleOutOfOrder (seg : Segment) (payload : list Z) (h : Handler P)
    : outcome (Handler P * bool) :=
  if shutdownRx h then Ret (h, false)
  else if (DATALEN seg =? 0) || HasAny (Flags seg) flagctl then Ret (h, false)
  else
  let rcvNxt := ControlBlock.RecvNext (scb h) in
  if SEQ seg =? rcvNxt then Ret (h, false)
  else
  let rcvWnd := ControlBlock.RecvWindow (scb h) in
  if negb (InWindow (SEQ seg) rcvNxt rcvWnd) || negb (InWindow (Last seg) rcvNxt rcvWnd)
  then Ret (h, false)
  else
    '(r, rx, ok) ← Reassembly.store (bufRx h) rcvNxt (SEQ seg) payload (reasm h);
    let h := with_reasm r (with_bufRx rx h) in
    if negb ok then Ret (h, false) else Ret (or_pending0 FlagACK h, true).

Definition deliverReassembled (h : Handler P) : Handler P :=
  if Reassembly.buffered (reasm h) =? 0 then h
  else if shutdownRx h then with_reasm (Reassembly.clear (reasm h)) h
  else
    let '(r, rx, delivered) :=
      Reassembly.reassemble (bufRx h) (ControlBlock.RecvNext (scb h)) (reasm h) in
    let h := with_reasm r (with_bufRx rx h) in
    if 0 <? delivered then
      let t := scb h in
      let rcv := ControlBlock.rcv t in
      let nxt := UpdateForward (ControlBlock.rcv_NXT rcv) delivered in
      or_pending0 FlagACK (with_scb (ControlBlock.with_rcv (ControlBlock.rcv_with_NXT nxt rcv) t) h)
    else h.

(** The callback given to [ForEachOption] for a segment with SYN. *)
Definition synOption (h : Handler P) (kind : Z) (data : list Z) : Handler P * option error :=
  let h :=
    match data with
    | [d0; d1] =>
        if kind =? Options.OptMaxSegmentSize then
          let mss := Z.lor (u16 (Z.shiftl d0 8)) d1 in
          if 0 <? mss then
            let t := scb h in
            with_scb (ControlBlock.with_snd
              (ControlBlock.snd_with_MSS mss (ControlBlock.snd t)) t) h
          else h
        else h
    | _ => h
    end in
  let h :=
    match data with
    | [d0] =>
        if kind =? Options.OptWindowScale
        then with_peerScale true (Z.min d0 ControlBlock.maxWndShift) h else h
    | _ => h
    end in
  (h, None).

(** The end of [Recv] for a segment with SYN. *)
Definition recvSyn (tfrm : Frame.Frame) (rport : Z) (h : Handler P) : outcome (Handler P) :=
  opts ← Frame.Options tfrm;
  match Options.ForEachOption synOption (optcodec h) opts h with
  | None => Panic
  | Some (h, _) => Ret (if remotePort h =? 0 then with_remotePort rport h else h)
  end.

(** [Recv] from the reassembly on. *)
Definition recvSegment (tfrm : Frame.Frame) (rport : Z) (seg : Segment) (payload : list Z)
    (h : Handler P) : outcome (Handler P * option error) :=
  '(h, consumed) ← (if Reassembly.enabled (reasm h) then handleOutOfOrder seg payload h
                    else Ret (h, false));
  if consumed : bool then Ret (h, None)
  else if negb (shutdownRx h) && (Ring.Free (bufRx h) <? zlen payload)
  then Ret (h, Some ErrBufferFull)
  else
  let prevState := tcb_state h in
  let prevUNA := ControlBlock.snd_UNA (ControlBlock.snd (scb h)) in
  '(t, err) ← ControlBlock.Recv seg (scb h);
  let h := with_scb t h in
  match err with
  | Some e => Ret (h, Some (if in_state StateClosed h then NetErrClosed else e))
  | None =>
  if in_state StateClosed h then Ret (h, Some NetErrClosed)
  else
  h ← match policy h with
      | None => Ret h
      | Some p => p ← pol_PostRx h prevState (Frame.RawData tfrm) p; Ret (with_policy (Some p) h)
      end;
  if negb (DATALEN seg =? 0) && shutdownRx h &&
     (in_state StateFinWait1 h || in_state StateFinWait2 h)
  then Ret (with_scb (ControlBlock.QueueRST (ACK seg) (scb h)) h, None)
  else
  '(h, err) ← (if negb (DATALEN seg =? 0) && negb (shutdownRx h) then
                 '(rx, _, err) ← Ring.Write payload (bufRx h);
                 Ret (with_bufRx rx h, err)
               else Ret (h, None));
  match err with
  | Some e => Ret (h, Some e)
  | None =>
  let h := if negb (DATALEN seg =? 0) then deliverReassembled h else h in
  let h := if HasAny (Flags seg) FlagACK && negb (ACK seg =? prevUNA)
           then with_bufTx (fst (TxQueue.RecvACK (ACK seg) (bufTx h))) h else h in
  h ← (if HasAny (Flags seg) FlagSYN then recvSyn tfrm rport h else Ret h);
  Ret (h, None)
  end
  end.

Definition Recv (incomingPacket : list Z) (h : Handler P)
    : outcome (Handler P * option error) :=
  if IsTxOver h then Ret (h, Some NetErrClosed)
  else
  match Frame.NewFrame incomingPacket with
  | (None, err) => Ret (h, err)
  | (Some tfrm, _) =>
  v ← Frame.ValidateExceptCRC tfrm (validator h);
  let '(v, err) := Validation.ErrPop v in
  let h := with_validator v h in
  match err with
  | Some e => Ret (h, Some e)
  | None =>
  rport ← Frame.SourcePort tfrm;
  if negb (remotePort h =? 0) && negb (rport =? remotePort h) then Ret (h, Some ErrMismatch)
  else
  dstPort ← Frame.DestinationPort tfrm;
  if negb (localPort h =? dstPort) then Ret (h, Some ErrMismatch)
  else
  payload ← Frame.Payload tfrm;
  seg ← Frame.getSegment (zlen payload) tfrm;
  let seg := if peerOfferedWS h && negb (HasAny (Flags seg) FlagSYN)
             then {| SEQ := SEQ seg; ACK := ACK seg; DATALEN := DATALEN seg;
                     WND := u32 (Z.shiftl (WND seg) (wndShiftPeer h)); Flags := Flags seg |}
             else seg in
  if ControlBlock.IncomingIsKeepalive (scb h) seg then Ret (h, None)
  else
  '(h, keep) ← match policy h with
               | None => Ret (h, true)
               | Some p => '(p, keep) ← pol_PreRx h (Frame.RawData tfrm) p;
                           Ret (with_policy (Some p) h, keep)
               end;
  if negb keep then Ret (h, None)
  else recvSegment tfrm rport seg payload h
  end
  end.

(** ** Sending *)

(** [putSynOptions(b[optHead:], mss, isSynack)] on the whole buffer: the buffer
    and the number of 32-bit words. An error of [PutOption16] is not looked at. *)
Definition putSynOptions (b : list Z) (optHead mss : Z) (isSynack : bool) (h : Handler P)
    : outcome (list Z * Z) :=
  assert_or_panic (slice_ok b optHead (zlen b))
    (let tail := zdrop optHead b in
     let tail := fst (fst (Options.PutOption16 tail Options.OptMaxSegmentSize mss)) in
     let '(tail, words) :=
       if (negb isSynack || peerOfferedWS h) && (8 <=? zlen tail) then
         let tail := Bytes.put tail 4 [Options.OptNop] in
         let ws := fst (fst (Options.PutOption (zdrop 5 tail) Options.OptWindowScale
                               [wndShiftLocal h])) in
         (ztake 5 tail ++ ws, 2)
       else (tail, 1) in
     Ret (ztake optHead b ++ tail, words)).

(** [PreTx] and the retransmission it directs: handler, buffer, data offset, limit. *)
Definition sendPolicy (b : list Z) (h : Handler P) : outcome (Handler P * list Z * Z * Z) :=
  let offset := 5 in
  match policy h with
  | None => Ret (h, b, offset, TransmitUnlimited)
  | Some p =>
      tfrm ← Frame.ClearHeader (Frame.mkFrame b);
      tfrm ← Frame.SetOffsetAndFlags offset 0 tfrm;
      '(p, b, (limit, rtxFrom, doRtx)) ← pol_PreTx h (Frame.buf tfrm) p;
      let h := with_policy (Some p) h in
      let h :=
        if doRtx : bool then
          match ControlBlock.RetransmitFrom rtxFrom (scb h) with
          | (t, true) => with_bufTx (TxQueue.RetransmitFrom rtxFrom (bufTx h)) (with_scb t h)
          | (t, false) => with_scb t h
          end
        else h in
      '(o, _) ← Frame.OffsetAndFlags (Frame.mkFrame b);
      Ret (h, b, if (offset <? o) && (o * 4 <? zlen b) then o else offset, limit)
  end.

(** The choice of the next segment. *)
Inductive sendChoice :=
| NoSegment (h : Handler P) (b : list Z) (err : option error)
| Chosen (h : Handler P) (b : list Z) (segment : Segment) (offset : Z).

(** The last branch: a pending segment and its data. *)
Definition choosePending (b : list Z) (offset optHead txLimit mss : Z) (h : Handler P)
    : outcome sendChoice :=
  let maxPayload := zlen b - optHead in
  let maxPayload := if (txLimit <? u32 maxPayload) && negb (nextSegmentIsRetransmit h)
                    then txLimit else maxPayload in
  pending ← ControlBlock.PendingSegment maxPayload (scb h);
  match pending with
  | None => Ret (NoSegment h b None)
  | Some seg =>
      let seg := {| SEQ := SEQ seg; ACK := ACK seg; DATALEN := DATALEN seg;
                    WND := recvWindow h; Flags := Flags seg |} in
      if Flags seg =? synack then
        '(b, words) ← putSynOptions b optHead mss true h;
        Ret (Chosen h b seg (u8 (offset + words)))
      else if 0 <? DATALEN seg then
        assert_or_panic (slice_ok b optHead (optHead + DATALEN seg))
          ('(tx, data, n, err) ←
             TxQueue.MakePacket (slice b optHead (optHead + DATALEN seg)) (SEQ seg) (bufTx h);
           let h := with_bufTx tx h in
           let b := Bytes.put b optHead data in
           match err with
           | Some e => Ret (NoSegment h b (Some e))
           | None =>
               Ret (Chosen h b
                 {| SEQ := SEQ seg; ACK := ACK seg; DATALEN := u32 n; WND := WND seg;
                    Flags := if 0 <? n then Z.lor (Flags seg) FlagPSH else Flags seg |}
                 offset)
           end)
      else Ret (Chosen h b seg offset)
  end.

Definition chooseSegment (awaitingSyn : bool) (b : list Z) (offset txLimit : Z) (h : Handler P)
    : outcome sendChoice :=
  let requeue := requeueControl h in
  let optHead := offset * 4 in
  let mss := u16 (zlen b - Frame.sizeHeaderTCP) in
  if awaitingSyn || (requeue && in_state StateSynSent h) then
    let segment := ClientSynSegment (TxQueue.iss (bufTx h)) (u32 (Ring.Size (bufRx h))) in
    '(b, words) ← putSynOptions b optHead mss false h;
    Ret (Chosen h b segment (u8 (offset + words)))
  else if requeue && in_state StateSynRcvd h then
    let segment := {| SEQ := ControlBlock.snd_UNA (ControlBlock.snd (scb h));
                      ACK := ControlBlock.rcv_NXT (ControlBlock.rcv (scb h));
                      WND := u32 (Ring.Free (bufRx h)); Flags := synack; DATALEN := 0 |} in
    '(b, words) ← putSynOptions b optHead mss true h;
    Ret (Chosen h b segment (u8 (offset + words)))
  else if requeue then Ret (NoSegment (with_requeueControl false h) b None)
  else choosePending b offset optHead txLimit mss h.

(** The rest of [Send], once a segment is chosen: handler, buffer, length, error. *)
Definition emitSegment (b : list Z) (segment : Segment) (offset : Z) (h : Handler P)
    : outcome (Handler P * list Z * Z * option error) :=
  let prevState := tcb_state h in
  match ControlBlock.Send segment (scb h) with
  | (t, Some e) => Ret (with_scb t h, b, 0, Some e)
  | (t, None) =>
      let h := with_requeueControl false (with_scb t h) in
      let segment := {| SEQ := SEQ segment; ACK := ACK segment; DATALEN := DATALEN segment;
                        WND := wireWnd segment h; Flags := Flags segment |} in
      tfrm ← Frame.write_header (localPort h) (remotePort h) segment offset (Frame.mkFrame b);
      let b := Frame.buf tfrm in
      let datalen := offset * 4 + DATALEN segment in
      '(h, b) ← match policy h with
                | None => Ret (h, b)
                | Some p =>
                    assert_or_panic (slice_ok b 0 datalen)
                      (match Frame.NewFrame (ztake datalen b) with
                       | (Some sent, _) =>
                           '(p, sent) ← pol_PostTx h (Frame.RawData sent) p;
                           Ret (with_policy (Some p) h, sent ++ zdrop datalen b)
                       | (None, _) => Ret (h, b)
                       end)
                end;
      let h := if state_eqb prevState StateTimeWait && HasAny (Flags segment) FlagACK
               then reset 0 0 0 h
               else if HasAny (Flags segment) FlagRST then Abort h else h in
      Ret (h, b, datalen, None)
  end.

Definition Send (b : list Z) (h : Handler P)
    : outcome (Handler P * list Z * Z * option error) :=
  if IsTxOver h then Ret (h, b, 0, Some NetErrClosed)
  else if zlen b <? Frame.sizeHeaderTCP then Ret (h, b, 0, Some ErrTruncatedFrame)
  else
  '(h, b, offset, txLimit) ← sendPolicy b h;
  let awaitingSyn := AwaitingSynSend h in
  let buffered := TxQueue.BufferedUnsent (bufTx h) in
  let h := if in_state StateCloseWait h && negb (closing h) && (buffered =? 0) &&
              negb (ControlBlock.HasPending (scb h))
           then with_closing true h else h in
  if negb awaitingSyn && negb (requeueControl h) && (buffered =? 0) && negb (closing h) &&
     negb (ControlBlock.HasPending (scb h))
  then Ret (h, b, 0, None)
  else
  let '(h, closeErr) :=
    if (buffered =? 0) && closing h &&
       (negb (in_state StateCloseWait h) || negb (ControlBlock.HasPending (scb h)))
    then let '(t, err) := ControlBlock.Close (scb h) in
         (with_scb t (with_closing false h), err)
    else (h, None) in
  match closeErr with
  | Some _ => Ret (Abort h, b, 0, Some EOF)
  | None =>
      choice ← chooseSegment awaitingSyn b offset txLimit h;
      match choice with
      | NoSegment h b err => Ret (h, b, 0, err)
      | Chosen h b segment offset => emitSegment b segment offset h
      end
  end.

(** ** The application's side *)

Definition Write (b : list Z) (h : Handler P) : outcome (Handler P * Z * option error) :=
  if closing h then Ret (h, 0, Some errConnectionClosing)
  else if negb (TxDataOpen (tcb_state h)) then Ret (h, 0, Some NetErrClosed)
  else '(tx, n, err) ← TxQueue.Write b (bufTx h); Ret (with_bufTx tx h, n, err).

Definition maybeQueueWindowUpdate (h : Handler P) : Handler P :=
  let currentFree := recvWindow h in
  let lastAdvertised := ControlBlock.RecvWindow (scb h) in
  if currentFree <=? lastAdvertised then h
  else
    let thresh := u32 (Ring.Size (bufRx h)) / 2 in
    let mss := ControlBlock.snd_MSS (ControlBlock.snd (scb h)) in
    let thresh := if (0 <? mss) && (mss <? thresh) then mss else thresh in
    if thresh <=? u32 (currentFree - lastAdvertised) then or_pending0 FlagACK h else h.

(** Handler, destination, count, error. *)
Definition Read (b : list Z) (h : Handler P) : outcome (Handler P * list Z * Z * option error) :=
  if shutdownRx h then Ret (h, b, 0, Some EOF)
  else
  '(h, b, n, err) ← (if 0 <? Ring.Buffered (bufRx h) then
                       '(rx, b, n, err) ← Ring.Read b (bufRx h);
                       Ret (with_bufRx rx h, b, n, err)
                     else Ret (h, b, 0, None));
  let h := if 0 <? n then maybeQueueWindowUpdate (deliverReassembled h) else h in
  let err := match err with
             | Some e => Some e
             | None =>
                 if n =? 0 then
                   if IsClosed (tcb_state h) then Some NetErrClosed
                   else if negb (RxDataOpen (tcb_state h)) then Some EOF
                   else None
                 else None
             end in
  Ret (h, b, n, err).

Definition FreeInput (h : Handler P) : Z := recvWindow h.
Definition FreeOutput (h : Handler P) : Z := TxQueue.Free (bufTx h).
Definition BufferedInput (h : Handler P) : Z := Ring.Buffered (bufRx h).
Definition BufferedUnsent (h : Handler P) : Z := TxQueue.BufferedUnsent (bufTx h).
Definition SizeInput (h : Handler P) : Z := Ring.Size (bufRx h).
Definition SizeOutput (h : Handler P) : Z := TxQueue.Size (bufTx h).

(** The zero value of [Handler]. *)
Definition zero_handler : Handler P :=
  mkHandler 0 ControlBlock.zero_tcb (TxQueue.mkRingTx [] 0 0 0 0 (TxQueue.mkSentlist 0 [] 0) 0)
    (Ring.mkRing [] 0 0) true (Validation.mkValidator [] 0) 0 0 0 0 0 false
    (Reassembly.mkReasm [] 0) None false false false.

End Handler.

(** ** Policies *)

(** A handler without a policy. *)
#[export] Instance no_policy : Policy unit := {
  pol_Reset := fun p => p;
  pol_PreTx := fun _ b p => Ret (p, b, (TransmitUnlimited, 0, false));
  pol_PostTx := fun _ b p => Ret (p, b);
  pol_PreRx := fun _ _ p => Ret (p, true);
  pol_PostRx := fun _ _ _ p => Ret p
}.

(** The segment a hook of the retransmission timer looks at. *)
Definition frame_segment (b : list Z) : outcome Segment :=
  payload ← Frame.Payload (Frame.mkFrame b);
  Frame.getSegment (zlen payload) (Frame.mkFrame b).

(** The retransmission timer [rto.Timer] with the time its clock shows. *)
#[export] Instance rto_policy : Policy (Rto.Timer * Z) := {
  pol_Reset := fun '(r, now) => (Rto.Reset r, now);
  pol_PreTx := fun h b '(r, now) =>
    let '(r, from) := Rto.preTx now (ControlBlock.SendUNA (scb h)) r in
    Ret ((r, now), b, match from with
                      | Some una => (TransmitUnlimited, una, true)
                      | None => (TransmitUnlimited, 0, false)
                      end);
  pol_PostTx := fun h b '(r, now) =>
    seg ← frame_segment b; Ret ((Rto.postTx seg now r, now), b);
  pol_PreRx := fun h b '(r, now) => Ret ((r, now), Rto.PreRx r);
  pol_PostRx := fun h prev b '(r, now) =>
    seg ← frame_segment b; Ret (Rto.postRx seg now r, now)
}.

End Handler.
