(* ===== verification/HandlerProps.v ===== *)
(** * What the handler's parts promise each other

    The laws a transmit policy must satisfy ([PolicyLaws], with the instances of
    the retransmission timer and of no policy), the cases of [Handler.Recv] up to
    the point where the segment reaches the control block, and the effect of
    receiving and sending on the receive side of the handler. *)
From S2P Require Import Prelude Errors SeqNum Segment ControlBlock ControlBlockInv Ring RingProps.
From S2P Require Import TxQueue Reassembly Rto Bytes Validation Frame Options Handler.

Module HandlerProps.
Import SeqNum Segment Bytes Validation Frame Handler.

(** ** Laws of policies *)

(** Hooks return on well-formed frames, and [PreTx] and [PostTx] keep the length of
    the outgoing frame. *)
Class PolicyLaws (P : Type) `{!Policy P} : Prop := {
  pre_rx_returns : forall (h : Handler P) b p,
    sizes_ok (mkFrame b) -> zlen b <= 65535 -> exists r, pol_PreRx h b p = Ret r;
  post_rx_returns : forall (h : Handler P) s b p,
    sizes_ok (mkFrame b) -> zlen b <= 65535 -> exists r, pol_PostRx h s b p = Ret r;
  pre_tx_returns : forall (h : Handler P) b p,
    frame_wf (mkFrame b) -> exists p' b' d, pol_PreTx h b p = Ret (p', b', d) /\
      zlen b' = zlen b /\ is_bytes b';
  post_tx_returns : forall (h : Handler P) b p,
    sizes_ok (mkFrame b) -> zlen b <= 65535 -> exists p' b', pol_PostTx h b p = Ret (p', b') /\
      zlen b' = zlen b /\ is_bytes b'
}.

Lemma frame_segment_ok b :
  sizes_ok (mkFrame b) -> zlen b <= 65535 ->
  frame_segment b = Ret (segment_of b (zlen b - hdrlen b)).
Proof.
  intros Hs Hl. pose proof Hs as [Hw Hh]. cbn [buf] in Hh. unfold frame_segment.
  rewrite Payload_ok by done. cbn [mbind outcome_bind buf].
  rewrite zlen_zdrop by lia. rewrite getSegment_ok by (done || lia). done.
Qed.

#[export] Instance no_policy_laws : PolicyLaws unit.
Proof.
  split; intros; cbn; eauto.
  - do 3 eexists. split; [done|]. split; [done|]. apply H.
  - do 2 eexists. split; [done|]. split; [done|]. apply H.
Qed.

#[export] Instance rto_policy_laws : PolicyLaws (Rto.Timer * Z).
Proof.
  split; intros h; intros; destruct p as [r now]; cbn.
  - by eexists.
  - rewrite frame_segment_ok by done. by eexists.
  - destruct (Rto.preTx now (ControlBlock.SendUNA (scb h)) r) as [r' from].
    do 3 eexists. split; [done|]. split; [done|]. apply H.
  - rewrite frame_segment_ok by done. do 2 eexists. split; [done|]. split; [done|]. apply H.
Qed.

Section Props.
Context {P : Type} `{!Policy P} `{!PolicyLaws P}.
Implicit Types h : Handler P.

(** ** The front half of [Recv] *)

(** Handlers that differ in the validator and the policy's state only. *)
Definition quiet h h' : Prop := exists v p, h' = with_policy p (with_validator v h).

(** The segment of a validated packet, with the peer's window scaled. *)
Definition wire_segment (pkt : list Z) h : Segment :=
  let seg := segment_of pkt (zlen pkt - hdrlen pkt) in
  {| SEQ := SEQ seg; ACK := ACK seg; DATALEN := DATALEN seg; Flags := Flags seg;
     WND := if peerOfferedWS h && negb (HasAny (Flags seg) FlagSYN)
            then u32 (Z.shiftl (WND seg) (wndShiftPeer h)) else WND seg |}.

(** A packet that passes validation and is addressed to the connection. *)
Record for_us (pkt : list Z) h : Prop := mkForUs {
  fu_sizes : sizes_ok (mkFrame pkt);
  fu_src : remotePort h <> 0 -> be16 pkt 0 = remotePort h;
  fu_dst : be16 pkt 2 = localPort h
}.

Lemma quiet_validator h v : quiet h (with_validator v h).
Proof. exists v, (policy h). by destruct h. Qed.

Lemma Recv_cases pkt h :
  is_bytes pkt -> zlen pkt <= 65535 ->
  (exists h1 e, Recv pkt h = Ret (h1, e) /\ quiet h h1) \/
  (exists h1, quiet h h1 /\ for_us pkt h /\
    Recv pkt h = recvSegment (mkFrame pkt) (be16 pkt 0) (wire_segment pkt h)
                   (zdrop (hdrlen pkt) pkt) h1).
Proof.
  intros Hb Hl. unfold Recv.
  assert (quiet h h) as Hrefl by (exists (validator h), (policy h); by destruct h).
  destruct (IsTxOver h); [left; by do 2 eexists|].
  unfold NewFrame, sizeHeaderTCP. destruct (Z.ltb_spec (zlen pkt) 20); [left; by do 2 eexists|].
  assert (frame_wf (mkFrame pkt)) as Hw by done.
  rewrite ValidateExceptCRC_ok by done. cbn [mbind outcome_bind].
  destruct (Validation.ErrPop _) as [v [e|]] eqn:Ev;
    [left; do 2 eexists; split; [done|apply quiet_validator]|].
  assert (frame_errors (mkFrame pkt) = []) as He.
  { apply (add_errors_nil _ (validator h)). apply Validation.ErrPop_none. by rewrite Ev. }
  apply frame_errors_nil in He as (Hhl & _ & _). cbn [buf] in Hhl.
  assert (sizes_ok (mkFrame pkt)) as Hs by done.
  rewrite SourcePort_ok, DestinationPort_ok by done. cbn [mbind outcome_bind buf].
  change (remotePort (with_validator v h)) with (remotePort h).
  change (localPort (with_validator v h)) with (localPort h).
  destruct (negb (remotePort h =? 0) && negb (be16 pkt 0 =? remotePort h)) eqn:Ep;
    [left; do 2 eexists; split; [done|apply quiet_validator]|].
  destruct (Z.eqb_spec (localPort h) (be16 pkt 2)) as [Hdst|]; cbn [negb];
    [|left; do 2 eexists; split; [done|apply quiet_validator]].
  rewrite Payload_ok by done. cbn [mbind outcome_bind buf]. rewrite zlen_zdrop by lia.
  rewrite getSegment_ok by (done || lia). cbn [mbind outcome_bind buf].
  change (peerOfferedWS (with_validator v h)) with (peerOfferedWS h).
  change (wndShiftPeer (with_validator v h)) with (wndShiftPeer h).
  match goal with |- context [ControlBlock.IncomingIsKeepalive _ ?s] =>
    replace s with (wire_segment pkt h) end.
  2:{ unfold wire_segment. by destruct (peerOfferedWS h && _). }
  destruct (ControlBlock.IncomingIsKeepalive _ _);
    [left; do 2 eexists; split; [done|apply quiet_validator]|].
  assert (for_us pkt h) as Hfor.
  { split; [done| |done]. intros Hr. destruct (Z.eqb_spec (remotePort h) 0); [done|].
    destruct (Z.eqb_spec (be16 pkt 0) (remotePort h)); done. }
  change (policy (with_validator v h)) with (policy h).
  destruct (policy h) as [p|] eqn:Epol.
  - destruct (pre_rx_returns (with_validator v h) pkt p Hs Hl) as [[p' keep] Hpre].
    change (RawData (mkFrame pkt)) with pkt. rewrite Hpre. cbn [mbind outcome_bind].
    destruct keep; cbn [negb].
    + right. exists (with_policy (Some p') (with_validator v h)). split; [by do 2 eexists|done].
    + left. do 2 eexists. split; [done|]. by do 2 eexists.
  - right. exists (with_validator v h). split; [apply quiet_validator|done].
Qed.

(** A valid packet reaches the control block when no policy drops it. *)
Lemma Recv_reaches pkt h :
  is_bytes pkt -> zlen pkt <= 65535 -> for_us pkt h -> be16 pkt 0 <> 0 -> be16 pkt 2 <> 0 ->
  Validation.accum (validator h) = [] -> policy h = None -> IsTxOver h = false ->
  ControlBlock.IncomingIsKeepalive (scb h) (wire_segment pkt h) = false ->
  Recv pkt h = recvSegment (mkFrame pkt) (be16 pkt 0) (wire_segment pkt h)
                 (zdrop (hdrlen pkt) pkt) h.
Proof.
  intros Hb Hl [Hs Hsrc Hdst] Hs0 Hd0 Hv Hpol Hover Hkeep. pose proof Hs as [[_ H20] Hhl].
  cbn [buf] in H20, Hhl. assert (frame_wf (mkFrame pkt)) as Hw by done. unfold Recv. rewrite Hover.
  unfold NewFrame, sizeHeaderTCP. destruct (Z.ltb_spec (zlen pkt) 20); [lia|].
  rewrite ValidateExceptCRC_ok by done. cbn [mbind outcome_bind].
  replace (frame_errors (mkFrame pkt)) with (@nil error) by (symmetry; by apply frame_errors_nil).
  cbn [add_errors fold_left]. unfold Validation.ErrPop. rewrite Hv.
  replace (with_validator (validator h) h) with h by (by destruct h).
  rewrite SourcePort_ok, DestinationPort_ok by done. cbn [mbind outcome_bind buf].
  assert (negb (remotePort h =? 0) && negb (be16 pkt 0 =? remotePort h) = false) as ->.
  { destruct (Z.eqb_spec (remotePort h) 0); [done|]. rewrite Hsrc, Z.eqb_refl by done. done. }
  rewrite Hdst, Z.eqb_refl. cbn [negb].
  rewrite Payload_ok by done. cbn [mbind outcome_bind buf]. rewrite zlen_zdrop by lia.
  rewrite getSegment_ok by (done || lia). cbn [mbind outcome_bind buf].
  match goal with |- context [ControlBlock.IncomingIsKeepalive _ ?s] =>
    replace s with (wire_segment pkt h) end.
  2:{ unfold wire_segment. by destruct (peerOfferedWS h && _). }
  by rewrite Hkeep, Hpol.
Qed.

End Props.
End HandlerProps.
