(* ===== verification/HandlerRx.v ===== *)
(** * The receive path of the handler delivers the peer's stream

    From the peer's segments, in whatever order and however often they arrive, to
    the bytes the application reads: [rx_inv] ties RCV.NXT, the receive ring and
    the held segments to a position of the peer's byte stream; every operation
    keeps it, and together they deliver the stream in order. *)
From S2P Require Import Prelude Errors SeqNum Segment ControlBlock ControlBlockInv.
From S2P Require Import Ring RingProps TxQueue Reassembly Bytes Validation Frame Options.
From S2P Require Import Handler HandlerProps.

Module HandlerRx.
Import SeqNum Segment ControlBlockProps ControlBlockInv Reassembly Bytes Validation Frame Handler HandlerProps.

(** ** The control block and data segments *)

(** A segment with none of SYN, FIN and RST. *)
Definition plain (seg : Segment) : Prop := HasAny (Flags seg) flagctl = false.

Lemma plain_flags seg : plain seg ->
  HasAny (Flags seg) FlagSYN = false /\ HasAny (Flags seg) FlagFIN = false /\
  HasAny (Flags seg) FlagRST = false.
Proof.
  unfold plain. rewrite HasAny_flagctl. intros [[]%orb_false_iff]%orb_false_iff. done.
Qed.

Lemma plain_LEN seg : plain seg -> is_u32 (DATALEN seg) -> LEN seg = DATALEN seg.
Proof.
  intros (H1 & H2 & _)%plain_flags Hd. rewrite LEN_bits, H1, H2 by done. cbn. wrap_lia.
Qed.

Lemma plain_dispatch seg t :
  plain seg -> RxDataOpen (ControlBlock.state t) = true ->
  exists t1 p err, ControlBlock.recv_dispatch seg t = Ret (t1, p, err) /\
    ControlBlock.rcv t1 = ControlBlock.rcv t /\ RxDataOpen (ControlBlock.state t1) = true.
Proof.
  intros (HS & HF & _)%plain_flags Hst. unfold ControlBlock.recv_dispatch.
  assert (negb (Z.land (Flags seg) FlagFIN =? 0) = false) as HF' by done.
  destruct (ControlBlock.state t) eqn:Es; try done.
  - unfold ControlBlock.rcvEstablished. rewrite HF.
    destruct (_ || _); do 3 eexists; (split; [done|]); by rewrite ?Es.
  - unfold ControlBlock.rcvFinWait1. rewrite HF'. cbn [andb].
    repeat case_match; do 3 eexists; (split; [done|]); cbn; by rewrite ?Es.
  - unfold ControlBlock.rcvFinWait2. rewrite HF.
    destruct (0 <? DATALEN seg); do 3 eexists; (split; [done|]); by rewrite ?Es.
Qed.

(** What the control block does with a plain segment while data can arrive. *)
Lemma Recv_plain seg t :
  plain seg -> is_u32 (DATALEN seg) -> RxDataOpen (ControlBlock.state t) = true ->
  exists t' err, ControlBlock.Recv seg t = Ret (t', err) /\
    match err with
    | Some _ => t' = ControlBlock.zero_tcb \/
        (ControlBlock.rcv t' = ControlBlock.rcv t /\
         ControlBlock.state t' = ControlBlock.state t)
    | None => SEQ seg = ControlBlock.rcv_NXT (ControlBlock.rcv t) /\
        RxDataOpen (ControlBlock.state t') = true /\
        ControlBlock.rcv t' =
          ControlBlock.rcv_with_NXT (u32 (SEQ seg + DATALEN seg)) (ControlBlock.rcv t)
    end.
Proof.
  intros Hp Hd Hst. pose proof (plain_flags seg Hp) as (HS & HF & HR).
  assert (IsPreestablished (ControlBlock.state t) = false) as Hpre
    by (by destruct (ControlBlock.state t)).
  pose proof (Recv_result seg t) as Hr. inversion Hr as [t' e Href|H1 H2 H3 H4|p e H1 H2 H3|t1 p Hv H1 H2 H3 H4|? ? H3].
  - exists t', (Some e). split; [done|]. inversion Href; subst; try congruence; auto.
    + right. unfold ControlBlock.triggerChallengeAckEmit. by case_match.
  - congruence.
  - exists t, (Some e). split; [done|]. by right.
  - exists (ControlBlock.recv_accept seg p t1), None. split; [done|].
    destruct (plain_dispatch seg t Hp Hst) as (t1' & p' & err & Hd' & Hrcv & Hst').
    rewrite Hd' in H4. simplify_eq.
    destruct (recv_accept_rest seg p t1) as (R1 & _ & _ & _ & R2 & R3 & R4 & _).
    assert (SEQ seg = ControlBlock.rcv_NXT (ControlBlock.rcv t)) as Hseq.
    { unfold ControlBlock.incoming_reject in H1. rewrite HS, HR in H1.
      assert (state_eqb (ControlBlock.state t) StateListen = false) as E
        by (by destruct (ControlBlock.state t)).
      rewrite E in H1. cbn [negb orb andb] in H1.
      tcb_case; simplify_eq. by bool_hyps. }
    split; [done|]. split; [by rewrite R1|].
    rewrite plain_LEN in R4 by done. unfold UpdateForward in R4. rewrite Hrcv in R2, R3, R4.
    rewrite <- Hseq in R4. unfold ControlBlock.rcv_with_NXT.
    destruct (ControlBlock.rcv (ControlBlock.recv_accept seg p t1)) as [a b c]. cbn in *. congruence.
  - by rewrite H3 in Hst.
Qed.

Section Rx.
Context {P : Type} `{!Policy P} `{!PolicyLaws P}.
Context (stream : Z -> Z) (base : Z).
Implicit Types h : Handler P.

(** ** The invariant *)

(** While the peer can send data, RCV.NXT is position [p] of its stream. *)
Record rx_inv (p : Z) h : Prop := mkRxInv {
  rx_open : RxDataOpen (tcb_state h) = true;
  rx_live : shutdownRx h = false;
  rx_nxt : ControlBlock.RecvNext (scb h) = u32 (base + p);
  rx_wnd : 0 <= ControlBlock.RecvWindow (scb h) <= ControlBlock.maxWindow;
  rx_buf : reasm_inv stream base p (bufRx h) (reasm h)
}.

(** A packet of the peer: when it is for this connection it is a plain segment,
    and its data are the bytes of the stream its sequence number names. *)
Definition peer_packet (p : Z) (pkt : list Z) h : Prop :=
  is_bytes pkt /\ zlen pkt <= 65535 /\
  (for_us pkt h ->
   HasAny (Mask (be16 pkt 12)) flagctl = false /\
   (hdrlen pkt < zlen pkt -> exists a, p - 2 ^ 30 < a < p + 2 ^ 30 /\
      be32 pkt 4 = u32 (base + a) /\ zdrop (hdrlen pkt) pkt = stream_slice stream a (zlen pkt - hdrlen pkt))).

(** The receive side as the invariant sees it. *)
Definition same_rx h h' : Prop :=
  tcb_state h' = tcb_state h /\ shutdownRx h' = shutdownRx h /\
  ControlBlock.rcv (scb h') = ControlBlock.rcv (scb h) /\ bufRx h' = bufRx h /\ reasm h' = reasm h.

Lemma same_rx_inv p h h' : same_rx h h' -> rx_inv p h -> rx_inv p h'.
Proof.
  intros (E1 & E2 & E3 & E4 & E5) [H1 H2 H3 H4 H5].
  unfold ControlBlock.RecvNext, ControlBlock.RecvWindow in *.
  split; unfold ControlBlock.RecvNext, ControlBlock.RecvWindow; congruence.
Qed.

Lemma quiet_same_rx h h' : quiet h h' -> same_rx h h'.
Proof. by intros (v & p & ->). Qed.

(** ** Out-of-order segments *)

Lemma maxWindow_lt : ControlBlock.maxWindow < 2 ^ 30.
Proof. by vm_compute. Qed.

Lemma outOfOrder_step p seg payload h :
  rx_inv p h -> DATALEN seg = zlen payload -> zlen payload <= 65535 ->
  (0 < zlen payload -> exists a, p - 2 ^ 30 < a < p + 2 ^ 30 /\ SEQ seg = u32 (base + a) /\
     payload = stream_slice stream a (zlen payload)) ->
  exists h' ok, handleOutOfOrder seg payload h = Ret (h', ok) /\ rx_inv p h' /\
    Ring.contents (bufRx h') = Ring.contents (bufRx h) /\
    (ok = false -> same_rx h h' /\ policy h' = policy h).
Proof.
  intros Hi Hd Hl Hpay. pose proof Hi as [H1 H2 H3 H4 H5]. pose proof maxWindow_lt.
  assert (forall ok, exists h' ok', Ret (h, ok) = Ret (h', ok') /\ rx_inv p h' /\
    Ring.contents (bufRx h') = Ring.contents (bufRx h) /\
    (ok' = false -> same_rx h h' /\ policy h' = policy h)) as Hno.
  { intros ok. by exists h, ok. }
  unfold handleOutOfOrder. rewrite H2. pose proof (zlen_nonneg payload).
  destruct (Z.eqb_spec (DATALEN seg) 0); cbn [orb]; [done|].
  destruct (HasAny (Flags seg) flagctl); [done|].
  destruct (Z.eqb_spec (SEQ seg) (ControlBlock.RecvNext (scb h))) as [|Hne]; [done|].
  destruct (InWindow (SEQ seg) _ _) eqn:Ein; cbn [negb orb]; [|done].
  destruct (negb (InWindow (Last seg) _ _)); [done|].
  destruct Hpay as (a & Ha & Hs & Hpl); [lia|].
  rewrite H3 in *. rewrite InWindow_dist, Hs, dist_positions in Ein by (unfold is_u32; lia).
  apply Z.ltb_lt in Ein. rewrite Hs in Hne.
  assert (p < a < p + 2 ^ 30) as Hap.
  { assert (a <> p) by (intros ->; done). unfold u32 in Ein.
    Z.to_euclidean_division_equations. lia. }
  destruct (reassembly_store_safe stream base p a (zlen payload) (bufRx h) (reasm h) H5 Hap ltac:(lia))
    as (r' & rx' & ok & Hst & Hc & Hinv & Hf & _).
  rewrite <- Hpl in Hst. rewrite Hs, Hst. cbn [mbind outcome_bind]. destruct ok; cbn [negb].
  - eexists _, true. split; [done|]. split; [|done]. by split.
  - destruct (Hf eq_refl) as [-> ->]. eexists _, false. split; [done|].
    split; [by split|]. split; [done|]. done.
Qed.

(** ** In-order data *)

(** Delivering what became contiguous after [d] bytes were written. *)
Lemma deliver_step p d h rx1 :
  reasm_inv stream base p (bufRx h) (reasm h) -> 0 < d <= Ring.Free (bufRx h) ->
  Ring.Write (stream_slice stream p d) (bufRx h) = Ret (rx1, d, None) ->
  forall h1, bufRx h1 = rx1 -> reasm h1 = reasm h -> shutdownRx h1 = false ->
  RxDataOpen (tcb_state h1) = true -> ControlBlock.RecvNext (scb h1) = u32 (base + (p + d)) ->
  0 <= ControlBlock.RecvWindow (scb h1) <= ControlBlock.maxWindow ->
  exists k, 0 <= k /\ rx_inv (p + d + k) (deliverReassembled h1) /\
    Ring.contents (bufRx (deliverReassembled h1)) = Ring.contents (bufRx h) ++ stream_slice stream p (d + k) /\
    (held (reasm h) = [] -> k = 0).
Proof.
  intros Hi Hd HW h1 Eb Er Es Eo En Ew.
  destruct (reassembly_delivers_stream stream base p d (bufRx h) (reasm h) Hi Hd)
    as (rx1' & rx2 & r' & k & HW' & Hre & Hk & Hc & Hinv).
  rewrite HW in HW'. injection HW' as <-. exists k. split; [done|].
  unfold deliverReassembled. rewrite Er, Es, Eb, En.
  destruct (Z.eqb_spec (Reassembly.buffered (reasm h)) 0) as [E0|E0].
  - unfold Reassembly.buffered in E0. apply zlen_zero_nil in E0.
    unfold Reassembly.reassemble in Hre. rewrite E0 in Hre. cbn in Hre. simplify_eq.
    assert (Reassembly.mkReasm [] (Reassembly.hcap (reasm h)) = reasm h) as Em
      by (destruct (reasm h); cbn in *; by rewrite E0).
    rewrite Em in Hinv. split; [|done].
    split; auto; [rewrite En; f_equal; lia|by rewrite Er].
  - assert (held (reasm h) = [] -> k = 0) as Hnil.
    { intros E. unfold Reassembly.buffered in E0. by rewrite E in E0. }
    rewrite Hre. destruct (Z.ltb_spec 0 k).
    + split; [|done]. split; try done.
      unfold ControlBlock.RecvNext in *. cbn. rewrite En. unfold UpdateForward. wrap_lia.
    + assert (k = 0) as -> by lia. split; [|done]. split; try done. cbn. rewrite En.
      f_equal. lia.
Qed.

(** ** [Recv] *)

(** The bytes delivered between two states at positions [p] and [p']. *)
Definition extends p h p' h' : Prop :=
  p <= p' /\ Ring.contents (bufRx h') = Ring.contents (bufRx h) ++ stream_slice stream p (p' - p).

Lemma extends_refl p h h' : bufRx h' = bufRx h -> extends p h p h'.
Proof.
  intros E. split; [lia|]. rewrite E, Z.sub_diag. cbn. by rewrite app_nil_r.
Qed.

(** What a receive operation may do: keep the invariant, or end the connection. *)
Definition rx_step_ok p h h' : Prop :=
  (exists p', rx_inv p' h' /\ extends p h p' h') \/
  (tcb_state h' = StateClosed /\ Ring.contents (bufRx h') = Ring.contents (bufRx h)).

Lemma recvSyn_skip tfrm rport (seg : Segment) h :
  plain seg ->
  (if HasAny (Flags seg) FlagSYN then recvSyn tfrm rport h else Ret h) = Ret h.
Proof. by intros (-> & _)%plain_flags. Qed.

(** The part of [recvSegment] behind the control block, for accepted data. *)
Lemma acked_same_rx (seg : Segment) una h :
  same_rx h (if HasAny (Flags seg) FlagACK && negb (ACK seg =? una)
             then with_bufTx (fst (TxQueue.RecvACK (ACK seg) (bufTx h))) h else h).
Proof. by destruct (_ && _). Qed.

Lemma same_rx_extends p h p' h1 h2 :
  same_rx h1 h2 -> rx_inv p' h1 /\ extends p h p' h1 -> rx_inv p' h2 /\ extends p h p' h2.
Proof.
  intros Hs [Hi He]. split; [by eapply same_rx_inv|].
  destruct Hs as (_ & _ & _ & Eb & _). unfold extends in *. by rewrite Eb.
Qed.

Lemma recvSegment_step p pkt seg payload rport h :
  rx_inv p h -> sizes_ok (mkFrame pkt) -> zlen pkt <= 65535 ->
  plain seg -> DATALEN seg = zlen payload -> zlen payload <= 65535 ->
  (0 < zlen payload -> exists a, p - 2 ^ 30 < a < p + 2 ^ 30 /\ SEQ seg = u32 (base + a) /\
     payload = stream_slice stream a (zlen payload)) ->
  exists h' err, recvSegment (mkFrame pkt) rport seg payload h = Ret (h', err) /\ rx_step_ok p h h'.
Proof.
  intros Hi Hsz Hlp Hp Hd Hl Hpay. unfold recvSegment. pose proof (zlen_nonneg payload).
  assert (exists h1 ok, (if enabled (reasm h) then handleOutOfOrder seg payload h
    else Ret (h, false)) = Ret (h1, ok) /\ rx_inv p h1 /\
    Ring.contents (bufRx h1) = Ring.contents (bufRx h) /\ (ok = false -> same_rx h h1))
    as (h1 & ok & E1 & Hi1 & Hc1 & Hs1).
  { destruct (enabled (reasm h)); [|by exists h, false].
    destruct (outOfOrder_step p seg payload h Hi Hd Hl Hpay) as (h1 & ok & ? & ? & ? & Hs).
    exists h1, ok. split_and!; try done. intros Hok. apply (Hs Hok). }
  rewrite E1. cbn [mbind outcome_bind]. destruct ok.
  { do 2 eexists. split; [done|]. left. exists p. split; [done|]. split; [lia|].
    rewrite Hc1, Z.sub_diag. cbn. by rewrite app_nil_r. }
  specialize (Hs1 eq_refl).
  assert (rx_step_ok p h h1) as Hsame1.
  { left. exists p. split; [done|]. apply extends_refl. apply Hs1. }
  destruct (_ && (Ring.Free (bufRx h1) <? zlen payload)) eqn:Efull; [by do 2 eexists|].
  pose proof Hi1 as [O1 O2 O3 O4 O5]. rewrite O2 in Efull. cbn [negb andb] in Efull.
  apply Z.ltb_ge in Efull.
  destruct (Recv_plain seg (scb h1) Hp ltac:(unfold is_u32; lia) O1) as (t' & err & ER & Hcase).
  rewrite ER. cbn [mbind outcome_bind]. destruct err as [e|].
  { do 2 eexists. split; [done|]. destruct Hcase as [->|[Hrcv Hst]].
    - right. by rewrite <- Hc1.
    - left. exists p. destruct Hs1 as (S1 & S2 & S3 & S4 & S5).
      eapply (same_rx_extends p h p h); [|split; [done|by apply extends_refl]].
      split_and!; cbn; try congruence. unfold tcb_state in *. cbn. congruence. }
  destruct Hcase as (Hseq & Hopen & Hrcv).
  assert (in_state StateClosed (with_scb t' h1) = false) as ->.
  { unfold in_state, tcb_state. cbn. by destruct (ControlBlock.state t'). }
  assert (exists h2, match policy (with_scb t' h1) with
    | Some p0 => p1 ← pol_PostRx (with_scb t' h1) (tcb_state h1) (RawData (mkFrame pkt)) p0;
                 Ret (with_policy (Some p1) (with_scb t' h1))
    | None => Ret (with_scb t' h1) end = Ret h2 /\ same_rx (with_scb t' h1) h2) as (h2 & E2 & Hs2).
  { destruct (policy (with_scb t' h1)) as [p0|]; [|by eexists].
    destruct (post_rx_returns (with_scb t' h1) (tcb_state h1) pkt p0 Hsz Hlp) as [p1 E].
    cbn [RawData buf]. rewrite E. by eexists. }
  rewrite E2. cbn [mbind outcome_bind].
  destruct Hs2 as (T1 & T2 & T3 & T4 & T5). cbn in T1, T2, T3, T4, T5.
  rewrite T2, O2, andb_false_r. cbn [andb negb]. rewrite andb_true_r.
  destruct (Z.eqb_spec (DATALEN seg) 0) as [E0|E0]; cbn [negb].
  - (* no data *)
    cbn [mbind outcome_bind]. rewrite recvSyn_skip by done. cbn [mbind outcome_bind].
    do 2 eexists. split; [done|]. left. exists p.
    eapply same_rx_extends; [apply acked_same_rx|].
    assert (rx_inv p h2) as Hi2.
    { rewrite E0, Z.add_0_r in Hrcv. split.
      - rewrite T1. done.
      - by rewrite T2.
      - unfold ControlBlock.RecvNext in *. rewrite T3, Hrcv. cbn. rewrite Hseq, O3. wrap_lia.
      - unfold ControlBlock.RecvWindow in *. by rewrite T3, Hrcv.
      - by rewrite T4, T5. }
    split; [done|]. apply extends_refl. rewrite T4. apply Hs1.
  - (* data *)
    destruct Hpay as (a & Ha & Hsa & Hpl); [lia|].
    assert (a = p) as ->.
    { unfold ControlBlock.RecvNext in O3. rewrite O3 in Hseq. rewrite Hsa in Hseq. unfold u32 in Hseq.
      Z.to_euclidean_division_equations. lia. }
    set (d := zlen payload) in *.
    assert (exists rx1, Ring.Write (stream_slice stream p d) (bufRx h1) = Ret (rx1, d, None)) as [rx1 HW].
    { destruct O5 as (Hw & _). destruct (RingProps.Write_ok (stream_slice stream p d) (bufRx h1) Hw)
        as (rx1 & HW & _); [rewrite zlen_stream_slice; lia|].
      exists rx1. rewrite HW. by rewrite zlen_stream_slice by lia. }
    rewrite T4, Hpl, HW. cbn [mbind outcome_bind]. rewrite recvSyn_skip by done.
    cbn [mbind outcome_bind]. do 2 eexists. split; [done|].
    destruct (deliver_step p d h1 rx1 O5 ltac:(lia) HW (with_bufRx rx1 h2)) as (k & Hk & Hi3 & Hc3 & _).
    + done.
    + exact T5.
    + exact (eq_trans T2 O2).
    + change (RxDataOpen (tcb_state h2) = true). by rewrite T1.
    + unfold ControlBlock.RecvNext in *. cbn. rewrite T3, Hrcv. cbn. rewrite Hsa, Hd. wrap_lia.
    + unfold ControlBlock.RecvWindow in *. cbn. by rewrite T3, Hrcv.
    + left. exists (p + d + k). eapply same_rx_extends; [apply acked_same_rx|].
      split; [done|]. split; [lia|]. rewrite Hc3. destruct Hs1 as (_ & _ & _ & -> & _).
      do 2 f_equal. lia.
Qed.

(** Receiving any packet of the peer. *)
Lemma Recv_step p pkt h :
  rx_inv p h -> peer_packet p pkt h ->
  exists h' err, Recv pkt h = Ret (h', err) /\ rx_step_ok p h h'.
Proof.
  intros Hi (Hb & Hl & Hpeer).
  destruct (Recv_cases pkt h Hb Hl) as [(h1 & e & -> & Hq)|(h1 & Hq & Hfor & ->)].
  - do 2 eexists. split; [done|]. apply quiet_same_rx in Hq. left. exists p.
    split; [by eapply same_rx_inv|]. apply extends_refl. apply Hq.
  - destruct (Hpeer Hfor) as [Hfl Hdata]. destruct Hfor as [[Hw Hh] _ _]. cbn [buf] in Hh.
    apply quiet_same_rx in Hq.
    destruct (recvSegment_step p pkt (wire_segment pkt h) (zdrop (hdrlen pkt) pkt) (be16 pkt 0) h1)
      as (h' & err & E & Hok); try done.
    + by eapply same_rx_inv.
    + by rewrite zlen_zdrop by lia.
    + rewrite zlen_zdrop; lia.
    + rewrite zlen_zdrop by lia. intros. apply Hdata. lia.
    + do 2 eexists. split; [done|]. destruct Hq as (_ & _ & _ & Eb & _).
      unfold rx_step_ok, extends in *. by rewrite Eb in Hok.
Qed.

(** ** [Read] *)

Lemma held_ok_grow p0 stg tail lo ps l :
  held_ok stream base p0 stg lo ps l -> p0 <= lo -> held_ok stream base p0 (stg ++ tail) lo ps l.
Proof.
  revert lo l. induction ps as [|a ps IH]; intros lo [|x l] Hok Hlo; try done.
  destruct Hok as (X1 & X2 & X3 & X4 & X5 & X6). cbn [held_ok]. rewrite zlen_app.
  pose proof (zlen_nonneg tail). split_and!; auto; try lia; [|apply IH; auto; lia].
  rewrite <- X5. apply zlist_eq; [rewrite !zlen_slice; rewrite ?zlen_app; lia|].
  intros i Hi. rewrite zlen_slice in Hi by (rewrite ?zlen_app; lia).
  rewrite !zget_slice, zget_app_l by lia. done.
Qed.

(** Reading frees cells behind the staged ones and disturbs nothing. *)
Lemma reasm_discard p n rx rx' r :
  reasm_inv stream base p rx r -> 0 <= n <= Ring.Buffered rx -> Ring.ring_wf rx' ->
  Ring.Buf rx' = Ring.Buf rx -> Ring.view rx' = Ring.view_discard n (Ring.view rx) ->
  reasm_inv stream base p rx' r.
Proof.
  intros (Hw & Hs & Hc & ps & Hok) Hn Hw' Hbuf Hv.
  destruct (RingProps.staged_discard n rx rx' Hw Hn Hv) as (tail & Et & _).
  split; [done|]. split; [unfold Ring.Size in *; by rewrite Hbuf|]. split; [done|].
  exists ps. rewrite Et. apply held_ok_grow; [done|lia].
Qed.

(** Delivering at any time keeps the stream. *)
Lemma deliver_inv p h :
  rx_inv p h -> exists p', rx_inv p' (deliverReassembled h) /\ extends p h p' (deliverReassembled h).
Proof.
  intros Hi. pose proof Hi as [O1 O2 O3 O4 O5].
  destruct O5 as (Hw & Hs & Hc & ps & Hok). pose proof (staged_bound _ Hw).
  pose proof (zlen_nonneg (Ring.staged (bufRx h))).
  destruct (reassemble_loop_ok stream base p (Ring.staged (bufRx h)) ps (held (reasm h)) (p + 1)
    (bufRx h) p 0) as (l' & ps' & rx' & d & E & Hd & Hle & Hw' & Hsz & Hc' & Hst' & Hok');
    auto; try lia.
  { by rewrite Z.sub_diag, zdrop_nonpos. }
  { done. }
  assert (u32 (0 + d) = d) as Hud by wrap_lia. rewrite Hud in E.
  unfold deliverReassembled. rewrite O2, O3. unfold reassemble. rewrite E.
  destruct (Z.eqb_spec (buffered (reasm h)) 0);
    [exists p; split; [done|by apply extends_refl]|].
  exists (p + d).
  assert (reasm_inv stream base (p + d) rx' (mkReasm l' (hcap (reasm h)))) as Hinv.
  { split; [done|]. split; [lia|]. split; [apply reassemble_loop_shrinks in E; cbn; lia|].
    exists ps'. cbn [held]. rewrite Hst'. replace (p + d - p) with d by lia.
    apply held_ok_rebase; [lia|lia|done]. }
  assert (Ring.contents rx' = Ring.contents (bufRx h) ++ stream_slice stream p (p + d - p)) as Hcc.
  { rewrite Hc'. do 2 f_equal. lia. }
  destruct (Z.ltb_spec 0 d).
  - split; [|by split; [lia|]]. split; try done.
    unfold ControlBlock.RecvNext in *. cbn. rewrite O3. unfold UpdateForward. wrap_lia.
  - assert (d = 0) as -> by lia. rewrite Z.add_0_r in *. split; [|split; [lia|done]]. by split.
Qed.

Lemma windowUpdate_same_rx h : same_rx h (maybeQueueWindowUpdate h).
Proof. unfold maybeQueueWindowUpdate. by repeat case_match. Qed.

(** What [Read] returns is taken from the front of what was received. *)
Lemma Read_step p b h :
  rx_inv p h ->
  exists h' b' n err p', Read b h = Ret (h', b', n, err) /\ rx_inv p' h' /\ p <= p' /\
    0 <= n <= zlen b /\
    ztake n b' ++ Ring.contents (bufRx h') =
      Ring.contents (bufRx h) ++ stream_slice stream p (p' - p) /\
    (0 < zlen b -> Ring.contents (bufRx h) <> [] -> 0 < n /\ err = None).
Proof.
  intros Hi. pose proof Hi as [O1 O2 O3 O4 O5]. pose proof O5 as (Hw & _).
  pose proof (RingProps.zlen_contents _ Hw) as HL. pose proof (zlen_nonneg b).
  pose proof (RingProps.Buffered_bounds _ Hw) as HB. unfold Read. rewrite O2.
  assert (forall h1 b1 (e : option error), h1 = h -> exists h' b' n err p',
    Ret (h1, b1, 0, e) = Ret (h', b', n, err) /\ rx_inv p' h' /\ p <= p' /\ 0 <= n <= zlen b /\
    ztake n b' ++ Ring.contents (bufRx h') = Ring.contents (bufRx h) ++ stream_slice stream p (p' - p) /\ n = 0) as Hnone.
  { intros h1 b1 e ->. exists h, b1, 0, e, p. split; [done|]. split; [done|]. split; [lia|].
    split; [lia|]. rewrite ztake_nonpos, Z.sub_diag by lia. split; [|done]. cbn. by rewrite app_nil_r. }
  destruct (Z.ltb_spec 0 (Ring.Buffered (bufRx h))) as [Hpos|Hzero].
  2:{ cbn [mbind outcome_bind]. change (0 <? 0) with false. cbv iota.
      destruct (Hnone h b (if 0 =? 0 then
        if IsClosed (tcb_state h) then Some NetErrClosed
        else if negb (RxDataOpen (tcb_state h)) then Some EOF else None else None) eq_refl)
        as (h' & b' & n & err & p' & E & R1 & R2 & R3 & R4 & R5).
      exists h', b', n, err, p'. split_and!; try done; try lia. intros _ Hne. exfalso. apply Hne.
      apply zlen_zero_nil. lia. }
  assert (Ring.IsEmpty (bufRx h) = false) as He.
  { destruct (Ring.IsEmpty (bufRx h)) eqn:E; [|done].
    rewrite (RingProps.empty_contents _ Hw E), zlen_nil in HL. lia. }
  destruct (Z.eqb_spec (zlen b) 0) as [Eb|Eb].
  { assert (Ring.Read b (bufRx h) = Ret (bufRx h, b, 0, None)) as ->.
    { unfold Ring.Read, Ring.read. by rewrite (proj2 (Z.eqb_eq _ _) Eb). }
    cbn [mbind outcome_bind]. change (0 <? 0) with false. cbv iota.
    match goal with |- exists _ _ _ _ _, Ret (?h1, ?b1, 0, ?e) = _ /\ _ =>
      destruct (Hnone h1 b1 e) as (h' & b' & n & err & p' & E & R1 & R2 & R3 & R4 & R5);
        [by destruct h|] end.
    exists h', b', n, err, p'. split_and!; try done; try lia. }
  destruct (RingProps.read_ok b (bufRx h) Hw ltac:(lia) He) as [Hn HR].
  set (n := Z.min (zlen b) (Ring.Buffered (bufRx h))) in *.
  destruct (RingProps.onReadEnd_ok n (bufRx h) Hw He ltac:(lia)) as (rx' & HO & Hw' & Hbuf & Hv).
  assert (Ring.Read b (bufRx h) = Ret (rx', ztake n (Ring.contents (bufRx h)) ++ zdrop n b, n, None)) as ->.
  { unfold Ring.Read. rewrite HR. cbn [mbind outcome_bind].
    destruct (Z.eqb_spec (zlen b) 0); [lia|]. by rewrite HO. }
  cbn [mbind outcome_bind]. destruct (Z.ltb_spec 0 n); [|lia].
  assert (rx_inv p (with_bufRx rx' h)) as Hi'.
  { split; try done. eapply reasm_discard; [done| |done..]. lia. }
  destruct (deliver_inv p _ Hi') as (p' & Hi2 & Hle & Hc2).
  eexists _, _, n, _, p'. split; [done|].
  split; [eapply same_rx_inv; [apply windowUpdate_same_rx|done]|].
  split; [done|]. split; [lia|]. split.
  - destruct (windowUpdate_same_rx (deliverReassembled (with_bufRx rx' h))) as (_ & _ & _ & -> & _).
    rewrite Hc2. cbn [bufRx with_bufRx].
    rewrite (RingProps.contents_discard n (bufRx h) rx' Hw ltac:(lia) Hv).
    assert (zlen (ztake n (Ring.contents (bufRx h))) = n) as Hzn by (rewrite zlen_ztake; lia).
    assert (ztake n (ztake n (Ring.contents (bufRx h)) ++ zdrop n b)
      = ztake n (Ring.contents (bufRx h))) as ->.
    { unfold ztake at 1. rewrite take_app_le by (unfold zlen in Hzn; lia).
      apply take_ge. unfold zlen in Hzn. lia. }
    by rewrite app_assoc, ztake_zdrop.
  - intros _ _. split; [done|]. destruct (Z.eqb_spec n 0); [lia|done].
Qed.

End Rx.

(** ** [Send] and [Write] leave the receive side alone *)

Section Kept.
Context {P : Type} `{!Policy P}.
Implicit Types h : Handler P.

(** What sending may change: the policy, the transmit side, pending flags, the
    advertised window. *)
Definition rx_kept h h' : Prop :=
  shutdownRx h' = shutdownRx h /\ bufRx h' = bufRx h /\ reasm h' = reasm h /\
  ControlBlock.RecvNext (scb h') = ControlBlock.RecvNext (scb h) /\
  (0 <= ControlBlock.RecvWindow (scb h) <= ControlBlock.maxWindow ->
   0 <= ControlBlock.RecvWindow (scb h') <= ControlBlock.maxWindow).

Lemma rx_kept_trans h1 h2 h3 : rx_kept h1 h2 -> rx_kept h2 h3 -> rx_kept h1 h3.
Proof.
  intros (A1 & A2 & A3 & A4 & A5) (B1 & B2 & B3 & B4 & B5).
  split_and!; try congruence. auto.
Qed.

Lemma rx_kept_inv stream base p h h' :
  rx_kept h h' -> RxDataOpen (tcb_state h') = true -> rx_inv stream base p h ->
  rx_inv stream base p h'.
Proof.
  intros (A1 & A2 & A3 & A4 & A5) Ho [O1 O2 O3 O4 O5]. split; auto; congruence.
Qed.

Lemma sendPolicy_kept b h h1 b1 off lim :
  sendPolicy b h = Ret (h1, b1, off, lim) -> rx_kept h h1 /\ tcb_state h1 = tcb_state h.
Proof.
  unfold sendPolicy. destruct (policy h) as [p|]; [|by intros [= <- _ _ _]].
  destruct (ClearHeader _) as [f1|]; [|done]. cbn [mbind outcome_bind].
  destruct (SetOffsetAndFlags _ _ f1) as [f2|]; [|done]. cbn [mbind outcome_bind].
  destruct (pol_PreTx h (buf f2) p) as [[[p' b'] [[lim' from] rtx]]|]; [|done].
  cbn [mbind outcome_bind].
  destruct (OffsetAndFlags (mkFrame b')) as [[o fl]|]; [|done]. cbn [mbind outcome_bind].
  intros [= <- _ _ _]. destruct rtx; [|done].
  destruct (ControlBlock.RetransmitFrom from _) as [t ok] eqn:E.
  assert (ControlBlock.rcv t = ControlBlock.rcv (scb h) /\
    ControlBlock.state t = ControlBlock.state (scb h)) as [E1 E2].
  { unfold ControlBlock.RetransmitFrom in E. by repeat case_match; simplify_eq. }
  destruct ok; (split; [|exact E2]); unfold rx_kept, ControlBlock.RecvNext, ControlBlock.RecvWindow;
    cbn; by rewrite E1.
Qed.

(** The choice of the segment changes the transmit queue and the requeue flag. *)
Definition choice_kept h (c : @sendChoice P) : Prop :=
  match c with
  | NoSegment h' _ _ => rx_kept h h' /\ tcb_state h' = tcb_state h
  | Chosen h' _ seg _ => rx_kept h h' /\ scb h' = scb h /\ 0 <= WND seg
  end.

Lemma recvWindow_nonneg h : 0 <= recvWindow h.
Proof. unfold recvWindow. repeat case_match; wrap_lia. Qed.

Lemma choosePending_kept b off head lim mss h c :
  choosePending b off head lim mss h = Ret c -> choice_kept h c.
Proof.
  unfold choosePending. destruct (ControlBlock.PendingSegment _ _) as [[seg|]|]; [| |done];
    cbn [mbind outcome_bind]; [|by intros [= <-]].
  pose proof (recvWindow_nonneg h). cbn [Flags DATALEN SEQ].
  destruct (Flags seg =? synack).
  - destruct (putSynOptions _ _ _ _ _) as [[b' w]|]; [|done]. cbn [mbind outcome_bind].
    by intros [= <-].
  - destruct (0 <? DATALEN seg); [|by intros [= <-]].
    unfold assert_or_panic. destruct (slice_ok _ _ _); [|done].
    destruct (TxQueue.MakePacket _ _ _) as [[[[tx data] n] [e|]]|]; [| |done];
      cbn [mbind outcome_bind]; by intros [= <-].
Qed.

Lemma chooseSegment_kept b off lim h c :
  RxDataOpen (tcb_state h) = true -> chooseSegment false b off lim h = Ret c -> choice_kept h c.
Proof.
  intros Ho. unfold chooseSegment.
  assert (in_state StateSynSent h = false /\ in_state StateSynRcvd h = false) as [-> ->].
  { unfold in_state. by destruct (tcb_state h). }
  rewrite !andb_false_r. cbn [orb]. destruct (requeueControl h); [by intros [= <-]|].
  apply choosePending_kept.
Qed.

Lemma emitSegment_kept b seg off h h' b' n e :
  RxDataOpen (tcb_state h) = true -> 0 <= WND seg ->
  emitSegment b seg off h = Ret (h', b', n, e) -> RxDataOpen (tcb_state h') = true -> rx_kept h h'.
Proof.
  intros Ho Hw. unfold emitSegment. destruct (ControlBlock.Send seg (scb h)) as [t [err|]] eqn:ES.
  - assert (t = scb h) as ->.
    { unfold ControlBlock.Send in ES. by destruct (ControlBlock.validateOutgoingSegment _ _); simplify_eq. }
    intros [= <- _ _ _] _. by destruct h.
  - assert (ControlBlock.rcv_NXT (ControlBlock.rcv t) = ControlBlock.rcv_NXT (ControlBlock.rcv (scb h)) /\
      ControlBlock.rcv_WND (ControlBlock.rcv t) = WND seg /\ WND seg <= ControlBlock.maxWindow) as (E1 & E2 & E3).
    { unfold ControlBlock.Send in ES. destruct (ControlBlock.validateOutgoingSegment _ _) eqn:EV; [done|].
      split_and!.
      - injection ES as <-. unfold tcb_state in Ho. cbn.
        unfold ControlBlock.send_account, ControlBlock.triggerChallengeAckSent,
          ControlBlock.send_pending, ControlBlock.send_dispatch.
        destruct (ControlBlock.state (scb h)); try done; by repeat case_match.
      - by injection ES as <-.
      - unfold ControlBlock.validateOutgoingSegment in EV. tcb_case; simplify_eq; by bool_hyps. }
    set (h0 := with_requeueControl false (with_scb t h)).
    assert (rx_kept h h0) as Hk.
    { split_and!; try done. unfold ControlBlock.RecvWindow. cbn. rewrite E2. lia. }
    destruct (write_header _ _ _ _ _) as [f|]; [|done]. cbn [mbind outcome_bind].
    assert (state_eqb (tcb_state h) StateTimeWait = false) as -> by (by destruct (tcb_state h)).
    cbn [andb]. change (policy h0) with (policy h).
    assert (forall h2, rx_kept h0 h2 ->
      RxDataOpen (tcb_state (if HasAny (Flags seg) FlagRST then Abort h2 else h2)) = true ->
      rx_kept h (if HasAny (Flags seg) FlagRST then Abort h2 else h2)) as Hend.
    { intros h2 H2. destruct (HasAny (Flags seg) FlagRST); [done|]. intros _. by eapply rx_kept_trans. }
    destruct (policy h) as [p|]; cbn [mbind outcome_bind].
    + unfold assert_or_panic. destruct (slice_ok _ _ _); [|done].
      destruct (NewFrame _) as [[sent|] ne]; cbn [mbind outcome_bind].
      * destruct (pol_PostTx _ _ _) as [[p' s']|]; [|done]. cbn [mbind outcome_bind].
        intros [= <- _ _ _]. by apply Hend.
      * intros [= <- _ _ _]. by apply Hend.
    + intros [= <- _ _ _]. by apply Hend.
Qed.

Lemma Send_kept b h h' b' n e :
  RxDataOpen (tcb_state h) = true -> Send b h = Ret (h', b', n, e) ->
  RxDataOpen (tcb_state h') = true -> rx_kept h h'.
Proof.
  intros Ho. unfold Send. destruct (IsTxOver h); [by intros [= <- _ _ _]|].
  destruct (zlen b <? sizeHeaderTCP); [by intros [= <- _ _ _]|].
  destruct (sendPolicy b h) as [[[[h1 b1] off] lim]|] eqn:E1; [|done]. cbn [mbind outcome_bind].
  apply sendPolicy_kept in E1 as [K1 S1].
  assert (AwaitingSynSend h1 = false) as ->.
  { unfold AwaitingSynSend, in_state. rewrite S1. destruct (tcb_state h); by rewrite ?andb_false_r. }
  set (h2 := if _ && _ then with_closing true h1 else h1).
  assert (rx_kept h1 h2 /\ tcb_state h2 = tcb_state h1 /\ scb h2 = scb h1) as (K2 & S2 & C2).
  { subst h2. by destruct (_ && _). }
  destruct (_ && negb (ControlBlock.HasPending (scb h2))).
  { intros [= <- _ _ _] _. by eapply rx_kept_trans. }
  destruct ((TxQueue.BufferedUnsent (bufTx h1) =? 0) && closing h2 && _).
  - destruct (ControlBlock.Close (scb h2)) as [t [ce|]] eqn:EC.
    + intros [= <- _ _ _]. done.
    + assert (ControlBlock.rcv t = ControlBlock.rcv (scb h2) /\
        ControlBlock.state t = ControlBlock.state (scb h2)) as [R1 R2].
      { unfold ControlBlock.Close in EC. unfold tcb_state in *. rewrite C2 in *. rewrite <- S1 in Ho.
        destruct (ControlBlock.state (scb h1)) eqn:Es; simplify_eq; try done; by rewrite <- Es. }
      set (h3 := with_scb t (with_closing false h2)).
      assert (rx_kept h2 h3) as K3.
      { split_and!; try done; unfold ControlBlock.RecvNext, ControlBlock.RecvWindow; cbn; by rewrite R1. }
      assert (RxDataOpen (tcb_state h3) = true) as Ho3.
      { unfold h3, tcb_state. cbn. rewrite R2. unfold tcb_state in *. by rewrite S2, S1. }
      destruct (chooseSegment false b1 off lim h3) as [c|] eqn:E3; [|done]. cbn [mbind outcome_bind].
      pose proof (chooseSegment_kept _ _ _ _ _ Ho3 E3) as Hc. destruct c as [h4 b4 e4|h4 b4 seg o4].
      * intros [= <- _ _ _] _. destruct Hc. eauto using rx_kept_trans.
      * destruct Hc as (K4 & S4 & W4). intros E4 Ho4. apply emitSegment_kept in E4; eauto using rx_kept_trans.
        unfold tcb_state. by rewrite S4.
  - assert (RxDataOpen (tcb_state h2) = true) as Ho2 by (by rewrite S2, S1).
    destruct (chooseSegment false b1 off lim h2) as [c|] eqn:E3; [|done]. cbn [mbind outcome_bind].
    pose proof (chooseSegment_kept _ _ _ _ _ Ho2 E3) as Hc. destruct c as [h4 b4 e4|h4 b4 seg o4].
    + intros [= <- _ _ _] _. destruct Hc. eauto using rx_kept_trans.
    + destruct Hc as (K4 & S4 & W4). intros E4 Ho4. apply emitSegment_kept in E4; eauto using rx_kept_trans.
      unfold tcb_state. by rewrite S4.
Qed.

End Kept.
End HandlerRx.
