(* ===== verification/HandlerTx.v ===== *)
(** * The transmit path of the handler

    With data queued and the window open, [Handler.Send] writes one frame that
    carries the first unsent bytes at SND.NXT; and an in-order frame that fits is
    taken by the receiving handler. *)
From S2P Require Import Prelude Errors SeqNum Segment ControlBlock ControlBlockInv.
From S2P Require Import ControlBlockInv ControlBlockSend ControlBlockThms TcpExchange.
From S2P Require Import Ring RingProps TxQueue TxQueueProps TxQueueThms Reassembly.
From S2P Require Import Bytes Validation Frame Options Handler HandlerProps HandlerRx.

Module HandlerTx.
Import SeqNum Segment ControlBlockWf ControlBlockInv TcpExchange Bytes Validation Frame Handler HandlerProps HandlerRx.

Section Tx.
Context {P : Type} `{!Policy P}.
Implicit Types h : Handler P.

(** ** Sending *)

(** An established handler with data to send and nothing else to do. *)
Record sending h (una ns nu : Z) : Prop := mkSending {
  sd_policy : policy h = None;
  sd_tcb : tcb_inv (scb h);
  sd_state : tcb_state h = StateEstablished;
  sd_challenge : ControlBlock.challengeAcks (scb h) = 0;
  sd_dupack : ControlBlock.dupack (scb h) = 0;
  sd_pending : ControlBlock.pending0 (scb h) = 0 \/ ControlBlock.pending0 (scb h) = FlagACK;
  sd_closing : closing h = false;
  sd_requeue : requeueControl h = false;
  sd_ports : is_u16 (localPort h) /\ is_u16 (remotePort h);
  sd_wnd : recvWindow h <= ControlBlock.maxWindow;
  sd_shift : 0 <= wndShiftLocal h;
  sd_tx : TxQueueProps.tx_inv (bufTx h) una ns nu;
  sd_room : 0 < TxQueue.sl_Free (TxQueue.slist (bufTx h));
  sd_data : 0 < nu;
  sd_seq : 0 < ns -> ControlBlock.SendNext (scb h) = Add una ns;
  sd_open : 0 < ControlBlock.maxSend (ControlBlock.snd (scb h))
}.

(** How much the next frame carries. *)
Definition frame_data (b : list Z) (nu : Z) h : Z := Z.min (sendable (zlen b - 20) (scb h)) nu.

(** The handler after the frame left. *)
Definition after_send (n : Z) (tx : TxQueue.ringTx) h : Handler P :=
  with_requeueControl false (with_scb
    (ControlBlock.with_rcv (ControlBlock.rcv_with_WND (recvWindow h) (ControlBlock.rcv (scb h)))
      (after_ack_sent n (scb h))) (with_bufTx tx h)).

(** The segment on the wire. *)
Definition data_segment (n : Z) h : Segment :=
  let seg := {| SEQ := ControlBlock.SendNext (scb h); ACK := ControlBlock.RecvNext (scb h);
                DATALEN := n; WND := recvWindow h; Flags := Z.lor FlagACK FlagPSH |} in
  {| SEQ := SEQ seg; ACK := ACK seg; DATALEN := n; Flags := Flags seg; WND := wireWnd seg h |}.

Lemma wireWnd_bounds seg h : 0 <= WND seg -> 0 <= wndShiftLocal h -> 0 <= wireWnd seg h <= 65535.
Proof.
  intros Hw Hs. unfold wireWnd.
  assert (0 <= Z.shiftr (WND seg) (wndShiftLocal h)) by (by apply Z.shiftr_nonneg).
  destruct (peerOfferedWS h && _); bool_cases; lia.
Qed.

Section Sending.
Context (b : list Z) (h : Handler P) (una ns nu : Z).
Context (Hs : sending h una ns nu) (Hb : is_bytes b) (Hl : 20 < zlen b <= 65535).
Context (Hbytes : is_bytes (TxQueue.unsent_bytes (bufTx h))).

Let n := frame_data b nu h.

Lemma frame_data_pos :
  0 < n <= nu /\ n <= sendable (zlen b - 20) (scb h) /\
  0 < sendable (zlen b - 20) (scb h) <= zlen b - 20 /\
  sendable (zlen b - 20) (scb h) <= ControlBlock.snd_WND (ControlBlock.snd (scb h)).
Proof.
  pose proof (inv_wf _ (sd_tcb _ _ _ _ Hs)) as Hwf.
  pose proof (sendable_bounds (zlen b - 20) (scb h) Hwf ltac:(lia)).
  pose proof (maxSend_u32 (scb h) Hwf). pose proof (sd_open _ _ _ _ Hs). pose proof (sd_data _ _ _ _ Hs).
  assert (0 < sendable (zlen b - 20) (scb h)) by (unfold sendable in *; bool_cases; lia).
  unfold n, frame_data. lia.
Qed.

(** The pending segment and its data. *)
Lemma choosePending_data :
  exists tx data,
    choosePending b 5 20 TransmitUnlimited (u16 (zlen b - sizeHeaderTCP)) h =
      Ret (Chosen (with_bufTx tx h) (put b 20 data)
        {| SEQ := ControlBlock.SendNext (scb h); ACK := ControlBlock.RecvNext (scb h);
           DATALEN := n; WND := recvWindow h; Flags := Z.lor FlagACK FlagPSH |} 5) /\
    data = ztake n (TxQueue.unsent_bytes (bufTx h)) ++
           zdrop n (slice b 20 (20 + sendable (zlen b - 20) (scb h))) /\
    TxQueueProps.tx_inv tx (if ns =? 0 then ControlBlock.SendNext (scb h) else una) (ns + n) (nu - n) /\
    TxQueue.sent_bytes tx = TxQueue.sent_bytes (bufTx h) ++ ztake n (TxQueue.unsent_bytes (bufTx h)) /\
    TxQueue.unsent_bytes tx = zdrop n (TxQueue.unsent_bytes (bufTx h)).
Proof.
  pose proof frame_data_pos as (Hn & Hns & Hsb & Hsw).
  destruct Hs as [S1 S2 S3 S4 S5 S6 S7 S8 S9 S10 S10' S11 S12 S13 S14 S15].
  pose proof (inv_wf _ S2) as Hwf.
  assert (is_u32 (ControlBlock.SendNext (scb h))) as Hnx by apply Hwf.
  unfold choosePending, TransmitUnlimited.
  destruct (Z.ltb_spec 4294967295 (u32 (zlen b - 20))); [wrap_lia|]. cbn [andb].
  rewrite PendingSegment_established by (auto; tauto || lia).
  cbn [mbind outcome_bind Flags DATALEN SEQ ACK WND].
  change (FlagACK =? synack) with false. cbv iota.
  destruct (Z.ltb_spec 0 (sendable (zlen b - 20) (scb h))); [|lia].
  unfold assert_or_panic, slice_ok.
  destruct (Z.leb_spec 0 20); [|lia].
  destruct (Z.leb_spec 20 (20 + sendable (zlen b - 20) (scb h))); [|lia].
  destruct (Z.leb_spec (20 + sendable (zlen b - 20) (scb h)) (zlen b)); [|lia]. cbn [andb].
  set (window := slice b 20 (20 + sendable (zlen b - 20) (scb h))).
  assert (zlen window = sendable (zlen b - 20) (scb h)) as Hwin
    by (unfold window; rewrite zlen_slice; lia).
  destruct (TxQueueThms.txqueue_make_packet window (ControlBlock.SendNext (scb h)) (bufTx h) una ns nu)
    as [_ HM]; auto; [lia|].
  destruct (HM S13) as (tx & E & Htx & Hsent & Huns). rewrite Hwin in *.
  change (Z.min (sendable (zlen b - 20) (scb h)) nu) with n in *.
  unfold ControlBlock.SendNext in E. rewrite E. cbn [mbind outcome_bind].
  destruct (Z.ltb_spec 0 n); [|lia]. exists tx, (ztake n (TxQueue.unsent_bytes (bufTx h)) ++ zdrop n window).
  split; [|done]. replace (u32 n) with n by wrap_lia. done.
Qed.

Lemma Send_data :
  exists tx b',
    Send b h = Ret (after_send n tx h, b', 20 + n, None) /\
    b' = header_bytes (put b 20 (ztake n (TxQueue.unsent_bytes (bufTx h)) ++
           zdrop n (slice b 20 (20 + sendable (zlen b - 20) (scb h)))))
           (localPort h) (remotePort h) (data_segment n h) 5 /\
    TxQueueProps.tx_inv tx (if ns =? 0 then ControlBlock.SendNext (scb h) else una) (ns + n) (nu - n) /\
    TxQueue.sent_bytes tx = TxQueue.sent_bytes (bufTx h) ++ ztake n (TxQueue.unsent_bytes (bufTx h)) /\
    TxQueue.unsent_bytes tx = zdrop n (TxQueue.unsent_bytes (bufTx h)).
Proof.
  pose proof frame_data_pos as (Hn & Hns & Hsb & Hsw).
  destruct choosePending_data as (tx & data & EC & Edata & Htx & Hsent & Huns).
  destruct Hs as [S1 S2 S3 S4 S5 S6 S7 S8 S9 S10 S10' S11 S12 S13 S14 S15].
  destruct (TxQueueProps.tx_regions _ _ _ _ S11) as (_ & HU & _ & HBU & _ & HwU).
  assert (zlen (TxQueue.unsent_bytes (bufTx h)) = nu) as HLU.
  { rewrite <- HBU. by apply RingProps.zlen_contents. }
  assert (zlen data = sendable (zlen b - 20) (scb h)) as HLd.
  { rewrite Edata, zlen_app, zlen_ztake, zlen_zdrop, zlen_slice; try rewrite zlen_slice; lia. }
  assert (is_bytes data) as HBd.
  { rewrite Edata. apply is_bytes_app; [by apply is_bytes_ztake|].
    unfold slice. by apply is_bytes_zdrop, is_bytes_ztake, is_bytes_zdrop. }
  unfold Send. assert (IsTxOver h = false) as ->.
  { unfold IsTxOver, in_state. by rewrite S3. }
  unfold sizeHeaderTCP at 1. destruct (Z.ltb_spec (zlen b) 20); [lia|].
  unfold sendPolicy. rewrite S1. cbn [mbind outcome_bind].
  assert (AwaitingSynSend h = false) as ->.
  { unfold AwaitingSynSend, in_state. rewrite S3. by rewrite andb_false_r. }
  assert (in_state StateCloseWait h = false) as -> by (unfold in_state; by rewrite S3).
  cbn [andb negb]. rewrite HBU, S7, S8. cbn [andb negb orb].
  replace (nu =? 0) with false by (symmetry; apply Z.eqb_neq; lia). cbn [andb].
  unfold chooseSegment. rewrite S8. cbn [andb orb]. change (5 * 4) with 20. rewrite EC.
  cbn [mbind outcome_bind]. unfold emitSegment.
  change (scb (with_bufTx tx h)) with (scb h).
  change (tcb_state (with_bufTx tx h)) with (tcb_state h).
  pose proof (recvWindow_nonneg h).
  unfold ControlBlock.SendNext, ControlBlock.RecvNext.
  rewrite Send_data_segment by (auto; lia). cbn [SEQ ACK DATALEN WND Flags].
  set (h2 := with_requeueControl false _).
  set (seg := {| SEQ := _; ACK := _; DATALEN := n; WND := wireWnd _ h2; Flags := _ |}).
  assert (seg = data_segment n h) as Hseg by reflexivity.
  assert (seg_wf (data_segment n h)) as Hswf.
  { pose proof (inv_wf _ S2) as Hwf. destruct_wf Hwf.
    pose proof (wireWnd_bounds {| SEQ := ControlBlock.SendNext (scb h); ACK := ControlBlock.RecvNext (scb h);
                DATALEN := n; WND := recvWindow h; Flags := Z.lor FlagACK FlagPSH |} h) as HWB.
    cbn [WND] in HWB. specialize (HWB ltac:(lia) ltac:(lia)).
    unfold data_segment. cbn zeta.
    unfold seg_wf. cbn [SEQ ACK DATALEN WND Flags].
    unfold is_u32, ControlBlock.SendNext, ControlBlock.RecvNext in *.
    split_and!; try done; try lia; try by apply lor_u16. }
  assert (WND (data_segment n h) <= 65535) as Hw16.
  { apply wireWnd_bounds; cbn; lia. }
  assert (zlen (put b 20 data) = zlen b) as HLp by (apply zlen_put; lia).
  destruct (write_header_ok (put b 20 data) (localPort h) (remotePort h) (data_segment n h) 5)
    as (EH & _ & _); auto with bytes; try lia.
  rewrite Hseg. change (localPort h2) with (localPort h). change (remotePort h2) with (remotePort h).
  rewrite EH. cbn [mbind outcome_bind buf]. change (policy h2) with (policy h). rewrite S1.
  cbn [mbind outcome_bind]. rewrite S3. change (state_eqb StateEstablished StateTimeWait) with false.
  change (HasAny (Flags (data_segment n h)) FlagRST) with false. cbn [andb].
  exists tx, (header_bytes (put b 20 data) (localPort h) (remotePort h) (data_segment n h) 5).
  split; [done|]. split; [by rewrite Edata|done].
Qed.
End Sending.

(** ** Receiving the next bytes *)

(** An established handler that can take data. *)
Record receiving h : Prop := mkReceiving {
  rv_policy : policy h = None;
  rv_valid : Validation.accum (validator h) = [];
  rv_tcb : tcb_inv (scb h);
  rv_state : tcb_state h = StateEstablished;
  rv_shift : 0 <= wndShiftPeer h <= ControlBlock.maxWndShift
}.

(** A valid in-order data packet that fits window and buffer. *)
Record next_packet (pkt : list Z) h : Prop := mkNextPacket {
  np_bytes : is_bytes pkt;
  np_len : zlen pkt <= 65535;
  np_for : for_us pkt h;
  np_ports : be16 pkt 0 <> 0 /\ be16 pkt 2 <> 0;
  np_flags : HasAny (Mask (be16 pkt 12)) flagctl = false;
  np_seq : be32 pkt 4 = ControlBlock.RecvNext (scb h);
  np_ack : LessThanEq (be32 pkt 8) (ControlBlock.SendNext (scb h)) = true;
  np_data : hdrlen pkt < zlen pkt;
  np_wnd : zlen pkt - hdrlen pkt <= ControlBlock.RecvWindow (scb h);
  np_free : zlen pkt - hdrlen pkt <= Ring.Free (bufRx h)
}.

Lemma wire_window pkt h :
  is_bytes pkt -> 0 <= wndShiftPeer h <= ControlBlock.maxWndShift ->
  0 <= WND (wire_segment pkt h) <= ControlBlock.maxWindow.
Proof.
  intros Hb Hs. pose proof (be16_bound pkt 14 Hb) as Hw. unfold is_u16 in Hw.
  unfold ControlBlock.maxWndShift in Hs.
  change ControlBlock.maxWindow with (65535 * 2 ^ 14).
  unfold wire_segment. cbn [WND segment_of].
  assert (0 <= Z.shiftl (be16 pkt 14) (wndShiftPeer h) <= 65535 * 2 ^ 14) as HS.
  { rewrite Z.shiftl_mul_pow2 by lia.
    assert (0 < 2 ^ wndShiftPeer h <= 2 ^ 14) by (split; [lia|apply Z.pow_le_mono_r; lia]). nia. }
  destruct (peerOfferedWS h && _); [|lia]. unfold u32. rewrite Z.mod_small; lia.
Qed.

Lemma Recv_next stream base p pkt h :
  receiving h -> rx_inv stream base p h -> next_packet pkt h ->
  let len := zlen pkt - hdrlen pkt in
  zdrop (hdrlen pkt) pkt = Reassembly.stream_slice stream p len ->
  exists h' k, Recv pkt h = Ret (h', None) /\ 0 <= k /\ rx_inv stream base (p + len + k) h' /\
    Ring.contents (bufRx h') = Ring.contents (bufRx h) ++ Reassembly.stream_slice stream p (len + k) /\
    (Reassembly.held (reasm h) = [] -> k = 0).
Proof.
  intros [R1 R2 R3 R4 R5] Hi [N1 N2 N3 N4 N5 N6 N7 N8 N9 N10] len Hpay.
  pose proof Hi as [O1 O2 O3 O4 O5]. pose proof (fu_sizes _ _ N3) as [Hw Hhl]. cbn [buf] in Hhl.
  set (seg := wire_segment pkt h).
  assert (SEQ seg = ControlBlock.RecvNext (scb h) /\ ACK seg = be32 pkt 8 /\ DATALEN seg = len /\
    Flags seg = Mask (be16 pkt 12)) as (E1 & E2 & E3 & E4) by done.
  pose proof (wire_window pkt h N1 R5) as HW. fold seg in HW.
  assert (seg_wf seg) as Hswf.
  { destruct (segment_of_wf (mkFrame pkt) Hw len ltac:(unfold len; lia)) as (W1 & W2 & W3 & W4 & W5).
    cbn [buf] in *. pose proof maxWindow_lt. split_and!; try done.
    unfold is_u32. lia. }
  assert (plain seg) as Hpl by (unfold plain; by rewrite E4).
  pose proof (plain_flags seg Hpl) as (HS & HF & HR).
  assert (len > 0) as Hlen by (unfold len; lia).
  rewrite Recv_reaches; auto; try tauto.
  2:{ unfold IsTxOver, in_state. by rewrite R4. }
  2:{ unfold ControlBlock.IncomingIsKeepalive. fold seg. rewrite E3.
      replace (len =? 0) with false by (symmetry; apply Z.eqb_neq; lia). by rewrite !andb_false_r. }
  fold seg. rewrite Hpay. unfold recvSegment.
  assert ((if Reassembly.enabled (reasm h) then
    handleOutOfOrder seg (Reassembly.stream_slice stream p len) h else Ret (h, false)) = Ret (h, false)) as ->.
  { destruct (Reassembly.enabled (reasm h)); [|done]. unfold handleOutOfOrder. rewrite O2, E1, Z.eqb_refl.
    destruct (_ || _); done. }
  cbn [mbind outcome_bind]. rewrite Reassembly.zlen_stream_slice by lia.
  destruct (Z.ltb_spec (Ring.Free (bufRx h)) len); [unfold len in *; lia|]. rewrite andb_false_r.
  rewrite ControlBlockThms.Recv_established; auto; try lia; [|apply R3| |].
  2:{ right. rewrite (plain_LEN seg Hpl) by (unfold is_u32; lia).
      unfold ControlBlock.RecvWindow in *. rewrite E3. unfold len in *. lia. }
  2:{ intros _. left. by rewrite E2. }
  rewrite HF, orb_false_r, E3. replace (0 <? len) with true by (symmetry; apply Z.ltb_lt; lia).
  cbn [mbind outcome_bind].
  destruct (recv_accept_rest seg FlagACK (scb h)) as (A1 & _ & _ & _ & A2 & _ & A3 & _).
  set (t' := ControlBlock.recv_accept seg FlagACK (scb h)) in *.
  assert (tcb_state (with_scb t' h) = StateEstablished) as Est by (exact (eq_trans A1 R4)).
  assert (in_state StateClosed (with_scb t' h) = false) as -> by (unfold in_state; by rewrite Est).
  change (policy (with_scb t' h)) with (policy h). rewrite R1. cbn [mbind outcome_bind].
  change (shutdownRx (with_scb t' h)) with (shutdownRx h). rewrite O2, andb_false_r. cbn [andb negb].
  replace (len =? 0) with false by (symmetry; apply Z.eqb_neq; lia). cbn [andb negb].
  assert (exists rx1, Ring.Write (Reassembly.stream_slice stream p len) (bufRx h) = Ret (rx1, len, None)) as [rx1 HWr].
  { destruct O5 as (Hrw & _).
    destruct (RingProps.Write_ok (Reassembly.stream_slice stream p len) (bufRx h) Hrw) as (rx1 & E & _);
      [rewrite Reassembly.zlen_stream_slice; lia|].
    exists rx1. by rewrite Reassembly.zlen_stream_slice in E by lia. }
  change (bufRx (with_scb t' h)) with (bufRx h). rewrite HWr. cbn [mbind outcome_bind]. rewrite HS.
  cbn [mbind outcome_bind].
  destruct (deliver_step stream base p len h rx1 O5 ltac:(lia) HWr (with_bufRx rx1 (with_scb t' h)))
    as (k & Hk & Hi' & Hc' & Hnil); try done.
  { exact (f_equal RxDataOpen Est). }
  { unfold ControlBlock.RecvNext in *. cbn [scb with_bufRx with_scb]. rewrite A3, O3, plain_LEN, E3 by (done || unfold is_u32; lia).
    unfold UpdateForward. wrap_lia. }
  { unfold ControlBlock.RecvWindow in *. cbn [scb with_bufRx with_scb]. by rewrite A2. }
  eexists _, k. split; [done|]. split; [done|].
  pose proof (acked_same_rx seg (ControlBlock.snd_UNA (ControlBlock.snd (scb h)))
    (deliverReassembled (with_bufRx rx1 (with_scb t' h)))) as Hsame.
  split; [by eapply same_rx_inv|]. destruct Hsame as (_ & _ & _ & -> & _). done.
Qed.

End Tx.
End HandlerTx.
