(* ===== verification/HandlerThms.v ===== *)
(** * Theorems on the TCP handler

    The receive path delivers exactly the peer's stream and makes progress, the
    transmit path sends exactly the bytes written, and both together carry bytes
    from one application to the other; the advertised window is never more than
    the receiver can take. *)
From S2P Require Import Prelude Errors SeqNum Segment ControlBlock ControlBlockInv.
From S2P Require Import ControlBlockInv ControlBlockSend ControlBlockThms TcpExchange.
From S2P Require Import Ring RingProps TxQueue TxQueueProps TxQueueThms Reassembly Rto.
From S2P Require Import Bytes Validation Frame Options Handler HandlerProps HandlerRx HandlerTx.

Module HandlerThms.
Import SeqNum Segment Reassembly Bytes Validation Frame Handler HandlerProps HandlerRx HandlerTx.

(** ** Reception as a sequence of operations *)

(** What can happen to a handler while its peer is sending: a packet arrives, the
    application reads up to [n] bytes or writes, a frame is sent. *)
Inductive rx_op :=
| OpRecv (pkt : list Z)
| OpRead (n : Z)
| OpWrite (b : list Z)
| OpSend (b : list Z).

Section Ops.
Context {P : Type} `{!Policy P} `{!PolicyLaws P}.
Context (stream : Z -> Z) (base p0 : Z).
Implicit Types h : Handler P.

(** The handler and all bytes read so far. *)
Definition run_op (op : rx_op) h (got : list Z) : outcome (Handler P * list Z) :=
  match op with
  | OpRecv pkt => '(h, _) ← Recv pkt h; Ret (h, got)
  | OpRead n =>
      '(h, b, k, _) ← Read (replicate (Z.to_nat n) 0) h; Ret (h, got ++ ztake k b)
  | OpWrite b => '(h, _, _) ← Write b h; Ret (h, got)
  | OpSend b => '(h, _, _, _) ← Send b h; Ret (h, got)
  end.

(** The position of the stream reached: what was read and what is readable. *)
Definition position h (got : list Z) : Z := p0 + zlen got + zlen (Ring.contents (bufRx h)).

Definition op_ok (op : rx_op) h (got : list Z) : Prop :=
  match op with OpRecv pkt => peer_packet stream base (position h got) pkt h | _ => True end.

(** Runs in which the peer sends its stream and the connection stays open. *)
Inductive rx_run : Handler P -> list Z -> Handler P -> list Z -> Prop :=
| rx_none h got : rx_run h got h got
| rx_more op h got h1 got1 h2 got2 :
    op_ok op h got -> run_op op h got = Ret (h1, got1) -> RxDataOpen (tcb_state h1) = true ->
    rx_run h1 got1 h2 got2 -> rx_run h got h2 got2.

Record run_inv h (got : list Z) : Prop := mkRunInv {
  ri_inv : rx_inv stream base (position h got) h;
  ri_bytes : got ++ Ring.contents (bufRx h) = stream_slice stream p0 (position h got - p0)
}.

Lemma position_ge h got : p0 <= position h got.
Proof.
  unfold position. pose proof (zlen_nonneg got). pose proof (zlen_nonneg (Ring.contents (bufRx h))). lia.
Qed.

(** The bytes known determine the position. *)
Lemma run_inv_intro p' h h' got got' :
  run_inv h got -> position h got <= p' -> rx_inv stream base p' h' ->
  got' ++ Ring.contents (bufRx h') = (got ++ Ring.contents (bufRx h)) ++
    stream_slice stream (position h got) (p' - position h got) ->
  run_inv h' got'.
Proof.
  intros [_ Hb] Hle Hi E. pose proof (position_ge h got). rewrite Hb in E.
  replace (position h got) with (p0 + (position h got - p0)) in E at 2 by lia.
  rewrite <- stream_slice_app in E by lia.
  replace (position h got - p0 + (p' - position h got)) with (p' - p0) in E by lia.
  assert (position h' got' = p') as Ep.
  { unfold position. pose proof (f_equal zlen E) as EL.
    rewrite zlen_app, zlen_stream_slice in EL by lia. lia. }
  split; by rewrite Ep.
Qed.

Lemma run_inv_quiet h h' got :
  run_inv h got -> rx_inv stream base (position h got) h' -> bufRx h' = bufRx h -> run_inv h' got.
Proof.
  intros Hr Hi Eb. apply (run_inv_intro (position h got) h h' got got Hr); [lia|done|].
  rewrite Eb, Z.sub_diag. cbn. by rewrite app_nil_r.
Qed.

Lemma run_op_inv op h got h1 got1 :
  run_inv h got -> op_ok op h got -> run_op op h got = Ret (h1, got1) ->
  RxDataOpen (tcb_state h1) = true -> run_inv h1 got1.
Proof.
  intros Hr Hok Hop Ho. pose proof (ri_inv _ _ Hr) as Hi. destruct op as [pkt|n|b|b]; cbn in Hop.
  - destruct (Recv_step stream base _ pkt h Hi Hok) as (h' & err & E & [(p' & Hi' & Hle & Hc)|[Hcl _]]);
      rewrite E in Hop; cbn in Hop; simplify_eq; [|by rewrite Hcl in Ho].
    apply (run_inv_intro p' h h1 got1 got1 Hr Hle Hi'). by rewrite Hc, app_assoc.
  - destruct (Read_step stream base _ (replicate (Z.to_nat n) 0) h Hi)
      as (h' & b' & k & err & p' & E & Hi' & Hle & _ & Hc & _).
    rewrite E in Hop. cbn in Hop. simplify_eq.
    apply (run_inv_intro p' h h1 got _ Hr Hle Hi'). by rewrite <- !app_assoc, Hc.
  - destruct (Write b h) as [[[h' k] e]|] eqn:E; [|done]. cbn in Hop. simplify_eq.
    assert (same_rx h h1) as Hs.
    { unfold Write in E. destruct (closing h); [by simplify_eq|].
      destruct (negb _); [by simplify_eq|].
      destruct (TxQueue.Write b (bufTx h)) as [[[tx k'] e']|]; [|done]. cbn in E. by simplify_eq. }
    apply (run_inv_quiet h h1 got1 Hr); [by eapply same_rx_inv|apply Hs].
  - destruct (Send b h) as [[[[h' b'] k] e]|] eqn:E; [|done]. cbn in Hop. simplify_eq.
    assert (rx_kept h h1) as Hk by (eapply Send_kept; [eapply rx_open|..]; eauto).
    apply (run_inv_quiet h h1 got1 Hr); [by eapply rx_kept_inv|apply Hk].
Qed.

Lemma rx_run_inv h got h' got' : rx_run h got h' got' -> run_inv h got -> run_inv h' got'.
Proof. induction 1; eauto using run_op_inv. Qed.

End Ops.

(** C2: the handler delivers exactly the peer's stream. Take any policy that keeps
    its laws and any run in which packets of the peer arrive, out of order,
    repeated, dropped or with foreign ports, while the application reads and
    writes and frames are sent. As long as the connection is open for reception,
    the bytes read so far followed by the bytes still readable are exactly the
    peer's stream from its start, without a hole, a repetition or a foreign
    byte, RCV.NXT is the position reached, and the next packet and the next
    read are processed without a panic. *)
Theorem handler_delivers_stream {P} `{!Policy P} `{!PolicyLaws P} stream base p0
  (h h' : Handler P) got
  (Hi : rx_inv stream base p0 h) (He : Ring.contents (bufRx h) = [])
  (Hrun : rx_run stream base p0 h [] h' got) :
  let p := position p0 h' got in
  got ++ Ring.contents (bufRx h') = stream_slice stream p0 (p - p0) /\
  ControlBlock.RecvNext (scb h') = u32 (base + p) /\
  (forall pkt, peer_packet stream base p pkt h' -> exists r, Recv pkt h' = Ret r) /\
  (forall b, exists r, Read b h' = Ret r).
Proof.
  intros p. assert (position p0 h [] = p0) as Ep.
  { unfold position, zlen. rewrite He. cbn [length]. lia. }
  assert (run_inv stream base p0 h []) as Hr0.
  { split; rewrite Ep; [done|]. by rewrite He, Z.sub_diag. }
  destruct (rx_run_inv _ _ _ _ _ _ _ Hrun Hr0) as [Hi' Hb]. fold p in Hi', Hb.
  split; [done|]. split; [apply Hi'|]. split.
  - intros pkt Hp. destruct (Recv_step _ _ _ _ _ Hi' Hp) as (? & ? & -> & _). by eexists.
  - intros b. destruct (Read_step _ _ _ b _ Hi') as (? & ? & ? & ? & ? & -> & _). by eexists.
Qed.

(** ** From one application to the other *)

(** The two ends of a connection, as far as data from [a] to [b] is concerned. *)
Record linked {P} `{!Policy P} (a b : Handler P) : Prop := mkLinked {
  lk_local : localPort a <> 0;
  lk_remote : remotePort a <> 0;
  lk_ab : remotePort a = localPort b;
  lk_ba : remotePort b = localPort a;
  lk_seq : ControlBlock.SendNext (scb a) = ControlBlock.RecvNext (scb b);
  lk_ack : LessThanEq (ControlBlock.RecvNext (scb a)) (ControlBlock.SendNext (scb b)) = true;
  lk_wnd : ControlBlock.snd_WND (ControlBlock.snd (scb a)) <= ControlBlock.RecvWindow (scb b);
  lk_free : ControlBlock.RecvWindow (scb b) <= Ring.Free (bufRx b);
  lk_live : shutdownRx b = false;
  lk_ring : Ring.ring_wf (bufRx b) /\ Ring.Size (bufRx b) < 2 ^ 30;
  lk_held : held (reasm b) = [] /\ 0 <= hcap (reasm b)
}.

(** A byte list as a stream. *)
Definition bytes_stream (l : list Z) (i : Z) : Z := default 0 (zget l i).

Lemma bytes_stream_slice l n :
  0 <= n <= zlen l -> stream_slice (bytes_stream l) 0 n = ztake n l.
Proof.
  intros Hn. apply zlist_eq; [by rewrite zlen_stream_slice, zlen_ztake by lia|].
  intros i Hi. rewrite zlen_stream_slice in Hi by lia.
  rewrite zget_stream_slice, zget_ztake by lia. unfold bytes_stream.
  destruct (zget_some l i) as [x Hx]; [lia|]. by rewrite Z.add_0_l, Hx.
Qed.

Lemma unsent_length {P} `{!Policy P} (a : Handler P) una ns nu :
  sending a una ns nu -> zlen (TxQueue.unsent_bytes (bufTx a)) = nu.
Proof.
  intros Hs.
  destruct (TxQueueProps.tx_regions _ _ _ _ (sd_tx _ _ _ _ Hs)) as (_ & _ & _ & <- & _ & Hw).
  by apply RingProps.zlen_contents.
Qed.

Section EndToEnd.
Context {P : Type} `{!Policy P}.
Context (a b : Handler P) (buf : list Z) (una ns nu : Z).
Context (Hs : sending a una ns nu) (Hr : receiving b) (Hlk : linked a b).
Context (Hb : is_bytes buf) (Hl : 20 < zlen buf <= 65535).
Context (Hd : is_bytes (TxQueue.unsent_bytes (bufTx a))).

Let n := frame_data buf nu a.
Let data := ztake n (TxQueue.unsent_bytes (bufTx a)).

(** The frame [Send] writes, as the receiver parses it. *)
Lemma sent_packet out :
  out = header_bytes (put buf 20 (data ++
          zdrop n (slice buf 20 (20 + TcpExchange.sendable (zlen buf - 20) (scb a)))))
          (localPort a) (remotePort a) (data_segment n a) 5 ->
  let pkt := ztake (20 + n) out in
  next_packet pkt b /\ hdrlen pkt = 20 /\ zlen pkt = 20 + n /\ zdrop 20 pkt = data.
Proof.
  intros Hout pkt. pose proof (frame_data_pos buf a una ns nu Hs Hl) as (Hn & Hns & Hsb & Hsw). fold n in Hn, Hns.
  pose proof (unsent_length a una ns nu Hs) as HLU. pose proof (sd_tcb _ _ _ _ Hs) as Hti.
  pose proof (ControlBlockInv.inv_wf _ Hti) as Hwf.
  set (rest := zdrop n (slice buf 20 (20 + TcpExchange.sendable (zlen buf - 20) (scb a)))) in *.
  assert (zlen data = n) as HLd by (unfold data; rewrite zlen_ztake; lia).
  assert (zlen rest = TcpExchange.sendable (zlen buf - 20) (scb a) - n) as HLr
    by (unfold rest; rewrite zlen_zdrop, zlen_slice; try rewrite zlen_slice; lia).
  assert (zlen (put buf 20 (data ++ rest)) = zlen buf) as HLp
    by (apply zlen_put; rewrite ?zlen_app; lia).
  assert (is_bytes (put buf 20 (data ++ rest))) as HBp.
  { apply is_bytes_put; [done|]. apply is_bytes_app; [by apply is_bytes_ztake|].
    unfold rest, slice. by apply is_bytes_zdrop, is_bytes_ztake, is_bytes_zdrop. }
  destruct (sd_ports _ _ _ _ Hs) as [Hlp Hrp].
  pose proof (recvWindow_nonneg a) as Hrw. pose proof (sd_shift _ _ _ _ Hs) as Hsh.
  assert (0 <= WND (data_segment n a) <= 65535) as Hw16 by (apply wireWnd_bounds; done).
  assert (seg_wf (data_segment n a)) as Hswf.
  { assert (is_u32 (ControlBlock.SendNext (scb a))) by apply Hwf.
    assert (is_u32 (ControlBlock.RecvNext (scb a))) by apply Hwf.
    split_and!; try done; unfold is_u32; cbn [DATALEN data_segment]; lia. }
  destruct (write_header_ok (put buf 20 (data ++ rest)) (localPort a) (remotePort a) (data_segment n a) 5)
    as (_ & HLo & HBo); auto; try lia.
  destruct (header_fields (put buf 20 (data ++ rest)) (localPort a) (remotePort a) (data_segment n a) 5)
    as (F1 & F2 & F3 & F4 & F5 & F6 & F7); auto; try lia; [done|].
  pose proof (header_slice (put buf 20 (data ++ rest)) (localPort a) (remotePort a) (data_segment n a) 5
    HBp ltac:(lia) ltac:(lia) ltac:(lia) 20 (20 + n) ltac:(lia) ltac:(lia)) as HS.
  rewrite <- Hout in *. rewrite HLp in HLo.
  assert (zlen pkt = 20 + n) as Hpl by (unfold pkt; rewrite zlen_ztake; lia).
  assert (forall i, i + 2 <= 20 -> be16 pkt i = be16 out i) as B16
    by (intros; apply be16_ztake; lia).
  assert (forall i, i + 4 <= 20 -> be32 pkt i = be32 out i) as B32
    by (intros; apply be32_ztake; lia).
  assert (be16 pkt 12 = 5 * 4096 + 24) as E12 by (rewrite B16 by lia; exact F5).
  assert (hdrlen pkt = 20) as Hh by (unfold hdrlen; rewrite E12; done).
  assert (is_bytes pkt) as HBpk by (by apply is_bytes_ztake).
  split; [|split; [done|split; [done|]]].
  - destruct Hlk as [K1 K2 K3 K4 K5 K6 K7 K8 K9 K10 K11].
    split; rewrite ?Hh, ?E12; try done; try lia.
    + split; [split; [split|]; cbn; rewrite ?Hh; done || lia| |].
      * intros _. rewrite B16, F1 by lia. done.
      * rewrite B16, F2 by lia. done.
    + rewrite !B16, F1, F2 by lia. done.
    + rewrite B32, F3 by lia. exact K5.
    + rewrite B32, F4 by lia. exact K6.
  - unfold pkt. replace (zdrop 20 (ztake (20 + n) out)) with (slice out 20 (20 + n)).
    2:{ unfold slice, ztake, zdrop. rewrite skipn_firstn_comm. f_equal. lia. }
    rewrite HS. apply zlist_eq; [rewrite zlen_slice; lia|]. intros i Hi. rewrite zlen_slice in Hi by lia.
    rewrite zget_slice, zget_put_in by (rewrite ?zlen_app; lia).
    replace (20 + i - 20) with i by lia. by rewrite zget_app_l by lia.
Qed.

End EndToEnd.

(** C1: bytes travel from one application to the other. When an established
    handler with unsent data and an open window sends into any buffer, it writes
    one frame; the handler at the other end accepts it and appends to its
    readable bytes exactly the first [n] unsent bytes of the sender, where [n]
    is the smallest of buffer space, peer window, MSS and data available and is
    positive; these bytes are unsent no longer but kept for retransmission, and
    SND.NXT of the one and RCV.NXT of the other stay equal. *)
Theorem handler_end_to_end {P} `{!Policy P} (a b : Handler P) buf una ns nu
  (Hs : sending a una ns nu) (Hr : receiving b) (Hlk : linked a b)
  (Hb : is_bytes buf) (Hl : 20 < zlen buf <= 65535)
  (Hd : is_bytes (TxQueue.unsent_bytes (bufTx a))) :
  let n := frame_data buf nu a in
  let data := ztake n (TxQueue.unsent_bytes (bufTx a)) in
  exists a' out b',
    Send buf a = Ret (a', out, 20 + n, None) /\ 0 < n <= nu /\
    Recv (ztake (20 + n) out) b = Ret (b', None) /\
    Ring.contents (bufRx b') = Ring.contents (bufRx b) ++ data /\
    TxQueue.unsent_bytes (bufTx a') = zdrop n (TxQueue.unsent_bytes (bufTx a)) /\
    TxQueue.sent_bytes (bufTx a') = TxQueue.sent_bytes (bufTx a) ++ data /\
    ControlBlock.SendNext (scb a') = Add (ControlBlock.SendNext (scb a)) n /\
    ControlBlock.RecvNext (scb b') = ControlBlock.SendNext (scb a').
Proof.
  intros n data. pose proof (frame_data_pos buf a una ns nu Hs Hl) as (Hn & _ & Hsb & _).
  destruct (Send_data buf a una ns nu Hs Hb Hl Hd) as (tx & out & ES & Hout & Htx & Hsent & Huns).
  fold n in Hn, ES, Hout, Htx, Hsent, Huns.
  destruct (sent_packet a b buf una ns nu Hs Hlk Hb Hl Hd out Hout) as (Hnp & Hh & Hpl & Hdat).
  fold n in Hnp, Hh, Hpl, Hdat. set (pkt := ztake (20 + n) out) in *.
  set (st := bytes_stream (TxQueue.unsent_bytes (bufTx a))).
  assert (rx_inv st (ControlBlock.RecvNext (scb b)) 0 b) as Hi.
  { pose proof (ControlBlockInv.inv_wf _ (rv_tcb _ Hr)) as Hwf. destruct Hlk as [_ _ _ _ _ _ _ _ K9 [K10 K11] [K12 K13]].
    assert (is_u32 (ControlBlock.RecvNext (scb b))) as Hu by apply Hwf.
    assert (is_u32 (ControlBlock.RecvWindow (scb b))) as Hu' by apply Hwf.
    pose proof (ControlBlockInv.inv_rcv_wnd _ (rv_tcb _ Hr)). split; auto.
    - by rewrite (rv_state _ Hr).
    - unfold is_u32 in Hu. unfold u32. rewrite Z.add_0_r, Z.mod_small; lia.
    - unfold is_u32 in Hu'. split; [lia|done].
    - split; [done|]. split; [done|]. split; [by rewrite K12|]. exists []. by rewrite K12. }
  destruct (Recv_next st _ 0 pkt b Hr Hi Hnp) as (b' & k & ER & Hk & Hi' & Hc & Hk0).
  { rewrite Hh, Hpl, Hdat. replace (20 + n - 20) with n by lia. symmetry. apply bytes_stream_slice.
    rewrite (unsent_length a una ns nu Hs). lia. }
  rewrite (Hk0 (proj1 (lk_held _ _ Hlk))) in *. rewrite Hh, Hpl in Hi', Hc.
  replace (20 + n - 20) with n in * by lia.
  exists (after_send n tx a), out, b'. split; [done|]. split; [done|]. split; [done|].
  split.
  { rewrite Hc, (Z.add_0_r n). f_equal. apply bytes_stream_slice.
    rewrite (unsent_length a una ns nu Hs). lia. }
  split; [done|]. split; [done|]. split; [done|].
  rewrite (rx_nxt _ _ _ _ Hi'). cbn. rewrite <- (lk_seq _ _ Hlk). unfold Add.
  unfold ControlBlock.SendNext. f_equal. lia.
Qed.

(** ** The advertised window *)

Lemma wndShift_loop_spec n bufSize shift :
  0 <= bufSize -> 0 <= shift -> shift + Z.of_nat n = ControlBlock.maxWndShift ->
  (forall k, 0 <= k < shift -> 65535 < Z.shiftr bufSize k) ->
  let s := wndShift_loop n bufSize shift in
  shift <= s <= ControlBlock.maxWndShift /\
  (s < ControlBlock.maxWndShift -> Z.shiftr bufSize s <= 65535) /\
  (forall k, 0 <= k < s -> 65535 < Z.shiftr bufSize k).
Proof.
  intros Hb. revert shift. induction n as [|n IH]; intros shift Hs Hn Hlow; cbn [wndShift_loop].
  - split_and!; auto; lia.
  - destruct (Z.ltb_spec shift ControlBlock.maxWndShift); [|lia].
    destruct (Z.ltb_spec 65535 (Z.shiftr bufSize shift)); cbn [andb].
    + destruct (IH (shift + 1)) as (H1 & H2 & H3); [lia|lia| |split_and!; auto; lia].
      intros k Hk. destruct (decide (k = shift)) as [->|]; [done|]. apply Hlow. lia.
    + split_and!; auto; lia.
Qed.

(** The smallest shift that lets a buffer be advertised. *)
Lemma wndShiftFor_spec bufSize :
  0 <= bufSize ->
  let s := wndShiftFor bufSize in
  0 <= s <= 14 /\ (bufSize <= ControlBlock.maxWindow -> Z.shiftr bufSize s <= 65535) /\
  (forall k, 0 <= k < s -> 65535 < Z.shiftr bufSize k).
Proof.
  intros Hb s. destruct (wndShift_loop_spec (Z.to_nat ControlBlock.maxWndShift) bufSize 0)
    as (H1 & H2 & H3); try done; [intros; lia|].
  fold (wndShiftFor bufSize) in H1, H2, H3. fold s in H1, H2, H3.
  unfold ControlBlock.maxWndShift in *. split; [done|]. split; [|done]. intros Hmax.
  destruct (decide (s < 14)) as [Hlt|]; [by apply H2|]. replace s with 14 by lia.
  rewrite Z.shiftr_div_pow2 by lia. change ControlBlock.maxWindow with (65535 * 2 ^ 14) in Hmax.
  apply Z.div_le_upper_bound; lia.
Qed.

(** What the peer makes of the window field of a segment without SYN. *)
Definition peer_view (seg : Segment) {P} (h : Handler P) : Z :=
  Z.shiftl (wireWnd seg h) (if peerOfferedWS h then wndShiftLocal h else 0).

(** C3: the window advertised is backed by memory and loses little. In every
    state with a well-formed receive ring the peer, undoing the scaling, sees a
    window that together with the bytes held out of order fits the free space
    of the ring; the shift that [SetBuffers] derives is the smallest with which
    the whole buffer can be advertised, and when scaling was negotiated the
    rounding costs less than one unit of the shifted field. *)
Theorem advertised_window_honest {P} `{!Policy P} (h : Handler P) seg
  (Hw : Ring.ring_wf (bufRx h)) (Hsz : Ring.Size (bufRx h) <= ControlBlock.maxWindow)
  (Hheld : Forall (fun s => 0 <= n s) (held (reasm h)))
  (Hfit : bufferedBytes (reasm h) <= Ring.Free (bufRx h))
  (Hshift : wndShiftLocal h = wndShiftFor (Ring.Size (bufRx h)))
  (Hseg : WND seg = recvWindow h) (Hsyn : HasAny (Flags seg) FlagSYN = false) :
  0 <= peer_view seg h /\
  peer_view seg h + (if enabled (reasm h) then bufferedBytes (reasm h) else 0) <= Ring.Free (bufRx h) /\
  (peerOfferedWS h = true -> recvWindow h < peer_view seg h + 2 ^ wndShiftLocal h) /\
  (forall k, 0 <= k < wndShiftLocal h -> 65535 < Z.shiftr (Ring.Size (bufRx h)) k).
Proof.
  pose proof (RingProps.Buffered_bounds _ Hw) as HB. pose proof (RingProps.Free_Buffered (bufRx h)) as HF.
  pose proof maxWindow_lt as HM. unfold Ring.Size in Hsz.
  destruct (wndShiftFor_spec (Ring.Size (bufRx h)) ltac:(unfold Ring.Size; lia)) as (S1 & S2 & S3).
  rewrite <- Hshift in S1, S2, S3. specialize (S2 Hsz).
  assert (0 <= bufferedBytes (reasm h)) as Hbb.
  { unfold bufferedBytes. induction Hheld; cbn [fold_right]; lia. }
  assert (0 <= recvWindow h /\ recvWindow h + (if enabled (reasm h) then bufferedBytes (reasm h) else 0)
    <= Ring.Free (bufRx h) /\ recvWindow h <= Ring.Size (bufRx h)) as (W1 & W2 & W3).
  { unfold recvWindow, Ring.Size.
    assert (u32 (Ring.Free (bufRx h)) = Ring.Free (bufRx h)) as -> by (unfold u32; rewrite Z.mod_small; lia).
    assert (u32 (bufferedBytes (reasm h)) = bufferedBytes (reasm h)) as ->
      by (unfold u32; rewrite Z.mod_small; lia).
    destruct (enabled (reasm h)); cbn [negb]; [|lia].
    destruct (Z.ltb_spec (bufferedBytes (reasm h)) (Ring.Free (bufRx h))); [|lia].
    unfold u32. rewrite Z.mod_small by lia. lia. }
  unfold peer_view, wireWnd. rewrite Hseg, Hsyn. cbn [negb]. rewrite andb_true_r.
  destruct (peerOfferedWS h).
  - assert (Z.shiftr (recvWindow h) (wndShiftLocal h) <= 65535) as Hle.
    { etrans; [|exact S2]. rewrite !Z.shiftr_div_pow2 by lia. apply Z.div_le_mono; lia. }
    destruct (Z.ltb_spec 65535 (Z.shiftr (recvWindow h) (wndShiftLocal h))); [lia|].
    rewrite Z.shiftl_mul_pow2, Z.shiftr_div_pow2 by lia.
    pose proof (Z.mod_pos_bound (recvWindow h) (2 ^ wndShiftLocal h) ltac:(lia)).
    pose proof (Z.div_mod (recvWindow h) (2 ^ wndShiftLocal h) ltac:(lia)).
    assert (0 <= recvWindow h / 2 ^ wndShiftLocal h) by (apply Z.div_pos; lia).
    split_and!; auto; nia.
  - rewrite Z.shiftl_0_r. split_and!; try done; bool_cases; lia.
Qed.

(** ** A session, executed *)

(** One frame from [a] to [b]; the ends swapped, so that it can be repeated. *)
Definition hop (ab : Handler unit * Handler unit) : outcome (Handler unit * Handler unit) :=
  let '(a, b) := ab in
  '(a, out, n, _) ← Send (replicate 100 0) a;
  if n =? 0 then Ret (b, a) else '(b, _) ← Recv (ztake n out) b; Ret (b, a).

Definition demo_buffers (h : Handler unit) : Handler unit :=
  fst (SetBuffers (Some (replicate 32 0)) (Some (replicate 32 0)) 4 h).
Definition demo_client0 : Handler unit :=
  fst (OpenActive 1000 80 4294967290 (demo_buffers zero_handler)).
Definition demo_server0 : Handler unit := fst (OpenListen 80 500 (demo_buffers zero_handler)).

(** After the handshake: the server first. *)
Definition demo_connected : outcome (Handler unit * Handler unit) :=
  ab ← hop (demo_client0, demo_server0); ab ← hop ab; hop ab.

Definition demo_server : Handler unit :=
  Eval vm_compute in match demo_connected with Ret (b, _) => b | Panic => zero_handler end.
Definition demo_client : Handler unit :=
  Eval vm_compute in
    match demo_connected with
    | Ret (_, a) => match Write [1; 2; 3; 4; 5; 6] a with Ret (a, _, _) => a | Panic => zero_handler end
    | Panic => zero_handler
    end.

Lemma demo_sending : sending demo_client 4294967291 0 6.
Proof.
  split; try done; try (by vm_compute); try (by left).
Qed.

Lemma demo_receiving : receiving demo_server.
Proof.
  split; done.
Qed.

Lemma demo_linked : linked demo_client demo_server.
Proof. split; try done; try (vm_compute; repeat split; congruence). Qed.

Lemma handler_end_to_end_witness :
  exists a' out b', Send (replicate 24 7) demo_client = Ret (a', out, 24, None) /\
    Recv (ztake 24 out) demo_server = Ret (b', None) /\
    Ring.contents (bufRx b') = [1; 2; 3; 4].
Proof.
  destruct (handler_end_to_end demo_client demo_server (replicate 24 7) 4294967291 0 6
    demo_sending demo_receiving demo_linked) as (a' & out & b' & H1 & _ & H2 & H3 & _);
    [by_compute..|].
  exists a', out, b'. split; [exact H1|]. split; [exact H2|exact H3].
Defined.

(** A data packet from the client to the server. *)
Definition demo_pkt (sq : Z) (data : list Z) : list Z :=
  header_bytes (replicate 20 0 ++ data) 1000 80
    {| SEQ := sq; ACK := 501; DATALEN := zlen data; WND := 32; Flags := 24 |} 5.

Definition demo_late : list Z := Eval vm_compute in demo_pkt 4294967293 [2; 3].
Definition demo_first : list Z := Eval vm_compute in demo_pkt 4294967291 [0; 1].

Definition after_op (op : rx_op) (hg : Handler unit * list Z) : Handler unit * list Z :=
  match run_op op (fst hg) (snd hg) with Ret hg => hg | Panic => hg end.
Definition demo_h1 : Handler unit := Eval vm_compute in fst (after_op (OpRecv demo_late) (demo_server, [])).
Definition demo_h2 : Handler unit := Eval vm_compute in fst (after_op (OpRecv demo_first) (demo_h1, [])).
Definition demo_h3 : Handler unit := Eval vm_compute in fst (after_op (OpRead 10) (demo_h2, [])).

Lemma demo_rx_inv : rx_inv demo_stream 4294967291 0 demo_server.
Proof.
  split; try done.
  split; [by_compute|]. split; [done|]. split; [done|]. by exists [].
Qed.

Lemma demo_run : rx_run demo_stream 4294967291 0 demo_server [] demo_h3 [0; 1; 2; 3].
Proof.
  eapply (rx_more _ _ _ (OpRecv demo_late) _ _ demo_h1 []); [|by vm_compute|done|].
  { split; [by_compute|]. split; [done|]. intros _. split; [done|]. intros _.
    exists 2. split; [by vm_compute|]. split; by vm_compute. }
  eapply (rx_more _ _ _ (OpRecv demo_first) _ _ demo_h2 []); [|by vm_compute|done|].
  { split; [by_compute|]. split; [done|]. intros _. split; [done|]. intros _.
    exists 0. split; [by vm_compute|]. split; by vm_compute. }
  eapply (rx_more _ _ _ (OpRead 10) _ _ demo_h3 [0; 1; 2; 3]); [done|by vm_compute|done|].
  apply rx_none.
Qed.

Lemma handler_delivers_stream_witness :
  [0; 1; 2; 3] ++ Ring.contents (bufRx demo_h3) = stream_slice demo_stream 0 4 /\
  ControlBlock.RecvNext (scb demo_h3) = u32 (4294967291 + 4).
Proof.
  destruct (handler_delivers_stream demo_stream 4294967291 0 demo_server demo_h3 [0; 1; 2; 3]
    demo_rx_inv eq_refl demo_run) as (H1 & H2 & _). split; [exact H1|exact H2].
Defined.

Lemma advertised_window_honest_witness :
  let seg := {| SEQ := 0; ACK := 0; DATALEN := 0; WND := recvWindow demo_h1; Flags := 16 |} in
  0 <= peer_view seg demo_h1 /\ peer_view seg demo_h1 + 2 <= 32.
Proof.
  intros seg. destruct (advertised_window_honest demo_h1 seg) as (H1 & H2 & _);
    [by_compute..|]. split; [exact H1|exact H2].
Defined.

(** ** Behaviour at the edges *)

(** closing a connection attempt restarts it: [Close] on a handler waiting for
    the answer to its SYN makes the next [Send] abort the attempt, but since the
    remote port stays set the one after it opens a new connection with a SYN. *)
Theorem close_in_syn_sent_reconnects :
  exists h1 out1 n1 h2 h3 out2 h4 out3 n3,
    Send (replicate 100 0) demo_client0 = Ret (h1, out1, n1, None) /\
    tcb_state h1 = StateSynSent /\ Close h1 = (h2, None) /\
    Send (replicate 100 0) h2 = Ret (h3, out2, 0, None) /\ tcb_state h3 = StateClosed /\
    Send (replicate 100 0) h3 = Ret (h4, out3, n3, None) /\ tcb_state h4 = StateSynSent /\
    n3 = 28 /\ OffsetAndFlags (mkFrame out3) = Ret (7, FlagSYN).
Proof. do 9 eexists. split; [by vm_compute|]. repeat (split; [by vm_compute|]). by vm_compute. Qed.

(** a SYN reports more bytes than the buffer holds: in a buffer of 20 to 23
    bytes the options do not fit, the failure of [PutOption16] is not looked at,
    and [Send] returns 24. *)
Theorem syn_overruns_short_buffer :
  Forall (fun len => exists h out, Send (replicate len 0) demo_client0 = Ret (h, out, 24, None) /\
                                   zlen out < 24)
    [20; 21; 22; 23]%nat.
Proof. repeat constructor; do 2 eexists; (split; [by vm_compute|]); by vm_compute. Qed.

(** A handler whose buffers were made smaller between two connections. *)
Definition shrunk : Handler unit :=
  let h := fst (SetBuffers (Some (replicate 64 0)) (Some (replicate 64 0)) 32 zero_handler) in
  fst (SetBuffers (Some (replicate 16 0)) None 4 h).

(** reopening with smaller buffers does not reset the transmit queue. The packet
    list keeps its larger capacity, [ResetOrReuse] then refuses a buffer smaller
    than it, [reset] ignores the refusal, and the SYN goes out with the stale
    initial sequence number instead of the one given to [OpenActive]. *)
Theorem reset_ignores_refusal :
  exists h, OpenActive 1000 80 77 shrunk = (h, None) /\
    TxQueue.iss (bufTx h) = 0 /\
    exists h' out n, Send (replicate 100 0) h = Ret (h', out, n, None) /\
      Seq (mkFrame out) = Ret 0 /\ ControlBlock.ISS (scb h') = 0.
Proof.
  eexists. split; [by vm_compute|]. split; [done|]. do 3 eexists. split; [by vm_compute|].
  by vm_compute.
Qed.

(** a second [Close] kills the connection: once the FIN is queued [Close] is
    accepted again, the next [Send] finds the control block already closing and
    aborts the connection, without a RST and with EOF, instead of waiting for the
    peer's FIN. *)
Theorem second_close_aborts :
  exists h1 h2 out1 n1 h3 h4 out2,
    Close demo_server = (h1, None) /\
    Send (replicate 100 0) h1 = Ret (h2, out1, n1, None) /\ tcb_state h2 = StateFinWait1 /\
    Close h2 = (h3, None) /\
    Send (replicate 100 0) h3 = Ret (h4, out2, 0, Some EOF) /\ tcb_state h4 = StateClosed.
Proof. do 7 eexists. split; [by vm_compute|]. repeat (split; [by vm_compute|]). by vm_compute. Qed.

End HandlerThms.
