(* ===== verification/Conn.v ===== *)
(** * Connections ([src/tcp/conn.go])

    A [Conn] is a [Handler] with the address of the peer, deadlines and the lock of
    its write side. Every access to it is a critical section of its mutex, or one
    atomic operation on [writeLock]; [Demux], [Encapsulate], the openings, [Abort] and
    the setters are one section each and are functions. [Write], [Close], [Flush] and
    [Read] are sequences of them, between which other goroutines run: they are
    threads ([pc]), and [step] runs one section of a thread. Time is an argument. *)
From S2P Require Import Prelude Errors SeqNum Segment Ring RingProps TxQueue IpAddr Handler.

Module Conn.
Import Segment IpAddr Handler.

(** Deadlines are [None] for the zero time; [writeLock] is 0 or a connection ID. *)
Record Conn (P : Type) := mkConn {
  h_ : Handler P;
  remoteAddr : list Z;
  writeLock : Z;
  rdead : option Z;
  wdead : option Z;
  abortErr : option error;
  ipID : Z
}.
Arguments mkConn {P} _ _ _ _ _ _ _.
Arguments h_ {P} _.
Arguments remoteAddr {P} _.
Arguments writeLock {P} _.
Arguments rdead {P} _.
Arguments wdead {P} _.
Arguments abortErr {P} _.
Arguments ipID {P} _.

Section Conn.
Context {P : Type} `{!Policy P}.
Implicit Types c conn : Conn P.

Definition with_h (h : Handler P) conn : Conn P :=
  mkConn h (remoteAddr conn) (writeLock conn) (rdead conn) (wdead conn) (abortErr conn) (ipID conn).
Definition with_lock (l : Z) conn : Conn P :=
  mkConn (h_ conn) (remoteAddr conn) l (rdead conn) (wdead conn) (abortErr conn) (ipID conn).

Definition connID conn : Z := connid (h_ conn).
Definition State conn : Segment.State := tcb_state (h_ conn).
Definition LocalPort conn : Z := localPort (h_ conn).
Definition RemotePort conn : Z := remotePort (h_ conn).

Definition reset (h : Handler P) : Conn P := mkConn h [] 0 None None None 0.

(** Nil buffers are [None]; [backoff]: a strategy is given. *)
Record ConnConfig := mkConnConfig {
  RxBuf : option (list Z);
  TxBuf : option (list Z);
  TxPacketQueueSize : Z;
  RWBackoff : bool;
  Policy_ : option P
}.

Definition Configure (config : ConnConfig) conn : Conn P * option error :=
  if negb (RWBackoff config) then (conn, Some ErrMissingHALConfig)
  else
    match SetBuffers (TxBuf config) (RxBuf config) (TxPacketQueueSize config) (h_ conn) with
    | (h, Some e) => (with_h h conn, Some e)
    | (h, None) => (with_h (SetPolicy (Policy_ config) h) conn, None)
    end.

(** The address of [remote] is [None] when it is not valid, else 4 or 16 bytes. *)
Definition OpenActive (lport : Z) (raddr : option (list Z)) (rport iss : Z) conn : Conn P * option error :=
  match raddr with
  | None => (conn, Some ErrInvalidAddr)
  | Some raddr =>
      match Handler.OpenActive lport rport iss (h_ conn) with
      | (h, Some e) => (with_h h conn, Some e)
      | (h, None) => (mkConn h raddr 0 None None None 0, None)
      end
  end.

Definition OpenListen (lport iss : Z) conn : Conn P * option error :=
  match Handler.OpenListen lport iss (h_ conn) with
  | (h, Some e) => (with_h h conn, Some e)
  | (h, None) => (reset h, None)
  end.

Definition checkPipeOpen conn : option error :=
  match abortErr conn with
  | Some e => Some e
  | None => if IsClosed (State conn) then Some NetErrClosed else None
  end.

Definition CloseRead conn : Conn P * option error :=
  match checkPipeOpen conn with
  | Some e => (conn, Some e)
  | None => (with_h (ShutdownRead (h_ conn)) conn, None)
  end.

Definition Abort conn : Conn P := reset (Handler.Abort (h_ conn)).

Definition RequeueControl conn : Conn P := with_h (Handler.RequeueControl (h_ conn)) conn.

Definition setReadDeadline (t : option Z) conn : Conn P * option error :=
  match checkPipeOpen conn with
  | Some e => (conn, Some e)
  | None => (mkConn (h_ conn) (remoteAddr conn) (writeLock conn) t (wdead conn) (abortErr conn) (ipID conn), None)
  end.
Definition setWriteDeadline (t : option Z) conn : Conn P * option error :=
  match checkPipeOpen conn with
  | Some e => (conn, Some e)
  | None => (mkConn (h_ conn) (remoteAddr conn) (writeLock conn) (rdead conn) t (abortErr conn) (ipID conn), None)
  end.
Definition SetDeadline (t : option Z) conn : Conn P * option error :=
  match setReadDeadline t conn with
  | (conn, Some e) => (conn, Some e)
  | (conn, None) => setWriteDeadline t conn
  end.

(** ** The stack's side *)

Definition isRaddrSet conn : bool := negb (zlen (remoteAddr conn) =? 0).

Definition Demux (buf : list Z) (off : Z) conn : outcome (Conn P * option error) :=
  if zlen buf <=? off then Ret (conn, Some ErrTruncatedFrame)
  else
  assert_or_panic (slice_ok buf 0 off)
  ('(ip, err) ← GetIPAddr buf off;
   match err with
   | Some e => Ret (conn, Some e)
   | None =>
   if isRaddrSet conn && negb (bool_decide (remoteAddr conn = ip_src ip)) then Ret (conn, Some ErrMismatch)
   else
   '(h, err) ← Recv (zdrop off buf) (h_ conn);
   let conn := with_h h conn in
   match err with
   | Some e => Ret (conn, Some e)
   | None =>
       if negb (isRaddrSet conn) && negb (RemotePort conn =? 0)
       then Ret (mkConn h (ip_src ip) (writeLock conn) (rdead conn) (wdead conn) (abortErr conn)
                   (65535 - u16 (ip_id ip - 1)), None)
       else Ret (conn, None)
   end
   end).

(** The connection and the carrier afterwards, the bytes written and the error. *)
Definition Encapsulate (carrierData : list Z) (offsetToIP offsetToFrame : Z) conn
    : outcome (Conn P * list Z * Z * option error) :=
  if zlen (remoteAddr conn) =? 0 then Ret (conn, carrierData, 0, Some errNoRemoteAddr)
  else if offsetToIP <? 0 then Ret (conn, carrierData, 0, Some errNoRemoteAddr)
  else
  assert_or_panic (slice_ok carrierData offsetToIP offsetToFrame)
  ('(ip, err) ← GetIPAddr (zdrop offsetToIP carrierData) (offsetToFrame - offsetToIP);
   match err with
   | Some e => Ret (conn, carrierData, 0, Some e)
   | None =>
   if negb (zlen (ip_src ip) =? zlen (remoteAddr conn)) then Ret (conn, carrierData, 0, Some ErrMismatchLen)
   else
   '(h, b, n, err) ← Send (zdrop offsetToFrame carrierData) (h_ conn);
   let conn := with_h h conn in
   let carrierData := ztake offsetToFrame carrierData ++ b in
   if bool_decide (err <> None) || (n =? 0) then Ret (conn, carrierData, 0, err)
   else
   '(arr, err) ← SetIPAddrs (zdrop offsetToIP carrierData) (offsetToFrame - offsetToIP) (ipID conn)
                   None (Some (remoteAddr conn));
   let carrierData := ztake offsetToIP carrierData ++ arr in
   match err with
   | Some e => Ret (conn, carrierData, 0, Some e)
   | None =>
       Ret (mkConn (h_ conn) (remoteAddr conn) (writeLock conn) (rdead conn) (wdead conn) (abortErr conn)
              (u16 (ipID conn + 1)), carrierData, n, None)
   end
   end).

(** ** The user's side *)

(** [time.Since(deadline) > 0] for a deadline that is set. *)
Definition deadlineExceeded (now : Z) (deadline : option Z) : bool :=
  match deadline with None => false | Some d => 0 <? now - d end.

Definition checkPipe (now id : Z) (deadline : option Z) conn : option error :=
  match abortErr conn with
  | Some e => Some e
  | None =>
      if negb (id =? connID conn) || IsClosed (State conn) then Some NetErrClosed
      else if deadlineExceeded now deadline then Some errDeadlineExceeded
      else None
  end.

(** A call of one of the blocking methods; the buffer of a [Read] is given by its contents. *)
Inductive call :=
| Write (b : list Z)
| Close
| Flush
| Read (b : list Z).

(** Where a thread is. [id] is the connection ID it started with; [n] counts the
    bytes already written. A writer holds the write side from [Held] to [Release]. *)
Inductive pc :=
| Start (f : call)
| Acquire (id : Z) (f : call)
| TryLock (id : Z) (f : call)
| Held (id : Z) (f : call)
| WriteCheck (id : Z) (b : list Z) (n : Z) (err : option error)
| WriteBody (id : Z) (b : list Z) (n : Z) (err : option error)
| WriteFull (id : Z) (b : list Z) (n : Z) (err : option error)
| FlushTest (id : Z)
| FlushCheck (id : Z)
| Release (id : Z) (n : Z) (err : option error)
| ReadLoop (id : Z) (b : list Z) (got : list Z)
| ReadWait (id : Z) (b : list Z)
| Done (n : Z) (got : list Z) (err : option error)
| Crashed.

(** The deadline a call gives to [acquireWriteLock]. *)
Definition deadline_of (f : call) conn : option Z := match f with Close => None | _ => wdead conn end.

(** One iteration of the loop of [Write] under the mutex. The third component records
    what the iteration adds to the transmit queue. *)
Definition write_body (id : Z) (b : list Z) (n : Z) (err : option error) conn : pc * Conn P * list Z :=
  let towrite := Z.min (FreeOutput (h_ conn)) (zlen b) in
  if 0 <? towrite then
    match Handler.Write (ztake towrite b) (h_ conn) with
    | Panic => (Crashed, conn, [])
    | Ret (h, ngot, err) =>
        let conn := with_h h conn in
        if bool_decide (err <> None) && negb (err_is err ErrRingBufferFull) then (Release id n err, conn, [])
        else if negb (ngot =? towrite) then (Crashed, conn, [])
        else (WriteCheck id (zdrop ngot b) (n + ngot) err, conn, ztake ngot b)
    end
  else (WriteFull id b n err, conn, []).

(** One iteration of the loop of [Read] under the mutex. *)
Definition read_body (id : Z) (b got : list Z) conn : pc * Conn P :=
  if negb (id =? connID conn) then (Done (zlen got) got (Some NetErrClosed), conn)
  else if 0 <? BufferedInput (h_ conn) then
    match Handler.Read b (h_ conn) with
    | Panic => (Crashed, conn)
    | Ret (h, b', ngot, err) =>
        let got := got ++ ztake ngot b' in
        match err with
        | Some e => (Done (zlen got) got (Some e), with_h h conn)
        | None => (ReadLoop id (zdrop ngot b') got, with_h h conn)
        end
    end
  else if 0 <? zlen got then (Done (zlen got) got None, conn)
  else if IsClosed (State conn) then (Done 0 [] (Some NetErrClosed), conn)
  else if negb (RxDataOpen (State conn)) || shutdownRx (h_ conn) then (Done 0 [] (Some EOF), conn)
  else (ReadWait id b, conn).

(** One critical section of a thread at time [now]; the bytes it queued. *)
Definition step (now : Z) (t : pc) conn : pc * Conn P * list Z :=
  match t with
  | Start (Read b) => (ReadLoop (connID conn) b [], conn, [])
  | Start f => (Acquire (connID conn) f, conn, [])
  | Acquire id f =>
      match checkPipe now id (deadline_of f conn) conn with
      | Some e => (Done 0 [] (Some e), conn, [])
      | None => (TryLock id f, conn, [])
      end
  | TryLock id f =>
      if writeLock conn =? 0 then (Held id f, with_lock id conn, []) else (Acquire id f, conn, [])
  | Held id (Write b) =>
      if deadlineExceeded now (wdead conn) then (Release id 0 (Some errDeadlineExceeded), conn, [])
      else if zlen b =? 0 then (Release id 0 None, conn, [])
      else (WriteCheck id b 0 None, conn, [])
  | Held id Flush => (FlushTest id, conn, [])
  | Held id Close => let '(h, err) := Handler.Close (h_ conn) in (Release id 0 err, with_h h conn, [])
  | Held id (Read b) => (ReadLoop id b [], conn, [])
  | WriteCheck id b n err =>
      if zlen b <=? 0 then (Release id n err, conn, [])
      else
        match checkPipe now id (wdead conn) conn with
        | Some e => (Release id n (Some e), conn, [])
        | None => (WriteBody id b n err, conn, [])
        end
  | WriteBody id b n err => write_body id b n err conn
  | WriteFull id b n err =>
      if deadlineExceeded now (wdead conn) then (Release id n (Some errDeadlineExceeded), conn, [])
      else (WriteCheck id b n err, conn, [])
  | FlushTest id =>
      if negb (BufferedUnsent (h_ conn) =? 0) then (FlushCheck id, conn, []) else (Release id 0 None, conn, [])
  | FlushCheck id =>
      match checkPipe now id (wdead conn) conn with
      | Some e => (Release id 0 (Some e), conn, [])
      | None => (FlushTest id, conn, [])
      end
  | Release id n err =>
      (Done n [] err, if writeLock conn =? id then with_lock 0 conn else conn, [])
  | ReadLoop id b got =>
      if zlen b <=? 0 then (Done (zlen got) got None, conn, []) else (read_body id b got conn, [])
  | ReadWait id b =>
      if deadlineExceeded now (rdead conn) then (Done 0 [] (Some errDeadlineExceeded), conn, [])
      else (ReadLoop id b [], conn, [])
  | Done n got err => (Done n got err, conn, [])
  | Crashed => (Crashed, conn, [])
  end.

End Conn.
Arguments ConnConfig : clear implicits.
End Conn.
