(* ===== verification/ConnThms.v ===== *)
(** * Lemmas and theorems on connections *)
From S2P Require Import Prelude Errors SeqNum Segment ControlBlock Ring TxQueue Reassembly Validation Frame Options IpAddr Handler HandlerThms TxQueueProps TxQueueThms Conn.

(** ** Connection IDs

    The handler's connection ID moves only when the connection is reset: receiving
    keeps it, sending and aborting keep it or go to the next one. *)
Module ConnProps.
Import Segment Handler Conn.

Section Connid.
Context {P : Type} `{!Policy P}.
Implicit Types h : Handler P.

Lemma ForEach_loop_inv {A} (fn : A -> Z -> list Z -> A * option error) (Q : A -> Prop) fuel fl opts a a' e :
  (forall a k d, Q a -> Q (fst (fn a k d))) -> Q a ->
  Options.ForEach_loop fn fuel fl opts a = Some (a', e) -> Q a'.
Proof.
  intros Hfn. revert opts a. induction fuel as [|fuel IH]; intros opts a Ha H; cbn [Options.ForEach_loop] in H; [done|].
  destruct (Options.Next fl opts) as [p|]; [|done]. destruct (Options.p_err p); [by simplify_eq|].
  case_match; [by simplify_eq|]. case_match; [by eauto|].
  specialize (Hfn a (Options.p_kind p) (Options.p_data p) Ha).
  destruct (fn a _ _) as [a2 [e2|]]; [by simplify_eq|eauto].
Qed.

Lemma synOption_connid h k d : connid (fst (synOption h k d)) = connid h.
Proof.
  unfold synOption. cbn [fst]. destruct d as [|d0 [|d1 [|? ?]]]; try done; by repeat case_match.
Qed.

Lemma recvSyn_connid tfrm rport h h' : recvSyn tfrm rport h = Ret h' -> connid h' = connid h.
Proof.
  unfold recvSyn. destruct (Frame.Options tfrm) as [opts|]; [|done]. cbn [mbind outcome_bind].
  destruct (Options.ForEachOption _ _ _ _) as [[h1 e]|] eqn:E; [|done]. intros [= <-].
  apply (ForEach_loop_inv _ (fun x => connid x = connid h)) in E; [by case_match|..|done].
  intros a k d <-. apply synOption_connid.
Qed.

Lemma handleOutOfOrder_connid seg payload h h' ok :
  handleOutOfOrder seg payload h = Ret (h', ok) -> connid h' = connid h.
Proof. unfold handleOutOfOrder. intros H. ret_inv H; done. Qed.

Lemma deliverReassembled_connid h : connid (deliverReassembled h) = connid h.
Proof. unfold deliverReassembled. by repeat case_match. Qed.

Lemma recvSegment_connid tfrm rport seg payload h h' e :
  recvSegment tfrm rport seg payload h = Ret (h', e) -> connid h' = connid h.
Proof.
  unfold recvSegment. intros H.
  destruct (if Reassembly.enabled (reasm h) then _ else _) as [[h1 consumed]|] eqn:E1; [|done].
  assert (connid h1 = connid h) as <-.
  { destruct (Reassembly.enabled (reasm h)); [by eapply handleOutOfOrder_connid|by simplify_eq]. }
  clear E1. cbn [mbind outcome_bind] in H. destruct consumed; [by simplify_eq|].
  destruct (negb (shutdownRx h1) && _); [by simplify_eq|].
  destruct (ControlBlock.Recv seg (scb h1)) as [[t [err|]]|]; cbn [mbind outcome_bind] in H; [by simplify_eq| |done].
  destruct (in_state StateClosed _); [by simplify_eq|].
  destruct (match policy _ with Some _ => _ | None => _ end) as [h2|] eqn:E2; [|done].
  assert (connid h2 = connid h1) as <- by (destruct (policy _); ret_inv E2; done).
  clear E2. cbn [mbind outcome_bind] in H. destruct (_ && (in_state StateFinWait1 h2 || _)); [by simplify_eq|].
  destruct (if negb (DATALEN seg =? 0) && negb (shutdownRx h2) then _ else _) as [[h3 err]|] eqn:E3; [|done].
  assert (connid h3 = connid h2) as <- by (destruct (_ && _); ret_inv E3; done).
  clear E3. cbn [mbind outcome_bind] in H. destruct err; [by simplify_eq|].
  set (h4 := if negb (DATALEN seg =? 0) then _ else _) in H.
  assert (connid h4 = connid h3) as <- by (subst h4; clear H; destruct (negb _); [apply deliverReassembled_connid|done]).
  set (h5 := if HasAny (Flags seg) FlagACK && _ then _ else _) in H.
  assert (connid h5 = connid h4) as <- by (subst h5; clear H; by destruct (_ && _)).
  destruct (HasAny (Flags seg) FlagSYN); [|cbn [mbind outcome_bind] in H; by simplify_eq].
  destruct (recvSyn tfrm rport h5) as [h6|] eqn:E6; [|done]. cbn [mbind outcome_bind] in H. simplify_eq.
  by eapply recvSyn_connid.
Qed.

Lemma Recv_connid pkt h h' e : Recv pkt h = Ret (h', e) -> connid h' = connid h.
Proof.
  unfold Recv. intros H. destruct (IsTxOver h); [by simplify_eq|].
  destruct (Frame.NewFrame pkt) as [[tfrm|] ?]; [|by simplify_eq].
  destruct (Frame.ValidateExceptCRC _ _) as [v|]; [|done]. cbn [mbind outcome_bind] in H.
  destruct (Validation.ErrPop v) as [v' [?|]]; [by simplify_eq|].
  set (h1 := with_validator v' h) in H. change (connid h) with (connid h1). clearbody h1.
  destruct (Frame.SourcePort tfrm) as [rport|]; [|done]. cbn [mbind outcome_bind] in H.
  destruct (_ && _); [by simplify_eq|].
  destruct (Frame.DestinationPort tfrm) as [dport|]; [|done]. cbn [mbind outcome_bind] in H.
  destruct (negb _); [by simplify_eq|].
  destruct (Frame.Payload tfrm) as [payload|]; [|done]. cbn [mbind outcome_bind] in H.
  destruct (Frame.getSegment _ _) as [seg|]; [|done]. cbn [mbind outcome_bind] in H.
  destruct (ControlBlock.IncomingIsKeepalive _ _); [by simplify_eq|].
  destruct (match policy h1 with Some _ => _ | None => _ end) as [[h2 keep]|] eqn:E2; [|done].
  assert (connid h2 = connid h1) as <- by (destruct (policy h1); ret_inv E2; done).
  cbn [mbind outcome_bind] in H. destruct (negb keep); [by simplify_eq|]. by eapply recvSegment_connid.
Qed.

(** Sending. *)
Definition next_id h h' : Prop := connid h' = connid h \/ connid h' = u64 (connid h + 1).

Lemma sendPolicy_connid b h h1 b1 off lim : sendPolicy b h = Ret (h1, b1, off, lim) -> connid h1 = connid h.
Proof. unfold sendPolicy. intros H. ret_inv H; try done. by repeat case_match. Qed.

Lemma chooseSegment_connid awaiting b off lim h c :
  chooseSegment awaiting b off lim h = Ret c ->
  match c with NoSegment h' _ _ | Chosen h' _ _ _ => connid h' = connid h end.
Proof.
  unfold chooseSegment, choosePending. intros H. ret_inv H; done.
Qed.

Lemma emitSegment_connid b seg off h h' b' n e : emitSegment b seg off h = Ret (h', b', n, e) -> next_id h h'.
Proof.
  unfold emitSegment. destruct (ControlBlock.Send seg (scb h)) as [t [?|]]; [intros [= <- _ _ _]; by left|].
  intros H. destruct (Frame.write_header _ _ _ _ _) as [f|]; [|done]. cbn [mbind outcome_bind] in H.
  destruct (match policy _ with Some _ => _ | None => _ end) as [[h1 b1]|] eqn:E1; [|done].
  assert (connid h1 = connid h) as E by (destruct (policy _); ret_inv E1; done).
  cbn [mbind outcome_bind] in H. injection H as <- _ _ _. unfold next_id. rewrite <- E.
  repeat case_match; cbn; auto.
Qed.

Lemma Send_connid b h h' b' n e : Send b h = Ret (h', b', n, e) -> next_id h h'.
Proof.
  unfold Send. intros H. destruct (IsTxOver h); [simplify_eq; by left|].
  destruct (_ <? _); [simplify_eq; by left|].
  destruct (sendPolicy b h) as [[[[h1 b1] off] lim]|] eqn:E1; [|done]. apply sendPolicy_connid in E1.
  unfold next_id. rewrite <- E1. clear E1. cbn [mbind outcome_bind] in H.
  set (h2 := if in_state StateCloseWait h1 && _ && _ && _ then _ else _) in H.
  assert (connid h2 = connid h1) as <- by (subst h2; clear H; by destruct (_ && _)).
  destruct (_ && negb (ControlBlock.HasPending (scb h2))); [simplify_eq; by left|].
  destruct (if (_ =? 0) && closing h2 && _ then _ else _) as [h3 closeErr] eqn:E3.
  assert (connid h3 = connid h2) as <-
    by (clear H; clearbody h2; revert E3; destruct (_ && _ && _); [destruct (ControlBlock.Close _)|]; intros E3; by simplify_eq).
  destruct closeErr; [simplify_eq; by right|].
  destruct (chooseSegment _ _ _ _ h3) as [c|] eqn:E4; [|done]. apply chooseSegment_connid in E4.
  cbn [mbind outcome_bind] in H. destruct c as [h4 b4 e4|h4 b4 seg o4]; rewrite <- E4; [simplify_eq; by left|].
  by eapply emitSegment_connid.
Qed.

End Connid.
End ConnProps.

(** ** Concurrent callers of a connection

    Any number of threads call [Write], [Close], [Flush] and [Read] on one connection
    while the stack and the owner of the connection use it; the critical sections of
    all of them interleave in any order. The write lock serializes the writers. *)
Module ConnThms.
Import Segment Handler HandlerThms Conn ConnProps TxQueueProps TxQueueThms.

(** ** The system *)

(** What the stack and the owner do to a connection. *)
Inductive conn_op {P} :=
| OpDemux (buf : list Z) (off : Z)
| OpEncapsulate (carrier : list Z) (offsetToIP offsetToFrame : Z)
| OpOpenActive (lport : Z) (raddr : option (list Z)) (rport iss : Z)
| OpOpenListen (lport iss : Z)
| OpConfigure (config : ConnConfig P)
| OpCloseRead
| OpAbort
| OpRequeue
| OpDeadlines (t : option Z)
| OpReadDeadline (t : option Z)
| OpWriteDeadline (t : option Z).
Arguments conn_op : clear implicits.

Record thread := mkThread { t_call : call; t_pc : pc }.

(** Bytes that a thread queued: the connection it called, and the one that it was then. *)
Record entry := mkEntry { e_thread : nat; e_id : Z; e_conn : Z; e_data : list Z }.

Record sys (P : Type) := mkSys { s_conn : Conn P; s_threads : list thread; s_log : list entry }.
Arguments mkSys {P} _ _ _.
Arguments s_conn {P} _.
Arguments s_threads {P} _.
Arguments s_log {P} _.

Definition pc_id (t : pc) : option Z :=
  match t with
  | Acquire id _ | TryLock id _ | Held id _ | WriteCheck id _ _ _ | WriteBody id _ _ _
  | WriteFull id _ _ _ | FlushTest id | FlushCheck id | Release id _ _ => Some id
  | _ => None
  end.
(** The connection whose write side a thread believes to own. *)
Definition holds (t : pc) : option Z :=
  match t with
  | Held id _ | WriteCheck id _ _ _ | WriteBody id _ _ _ | WriteFull id _ _ _
  | FlushTest id | FlushCheck id | Release id _ _ => Some id
  | _ => None
  end.
(** A thread that has not had the write side yet. *)
Definition waiting (t : pc) : bool :=
  match t with Start _ | Acquire _ _ | TryLock _ _ => true | _ => false end.

(** The threads that queued bytes on the connection [k] they had called, in order. *)
Definition writers (k : Z) (log : list entry) : list nat :=
  e_thread <$> filter (fun e => e_id e = k /\ e_conn e = k) log.
(** The bytes a thread queued. *)
Definition queued (i : nat) (log : list entry) : list Z :=
  concat (e_data <$> filter (fun e => e_thread e = i) log).

(** The occurrences of each element are adjacent. *)
Inductive grouped : list nat -> Prop :=
| grouped_nil : grouped []
| grouped_same l a : grouped l -> last l = Some a -> grouped (l ++ [a])
| grouped_new l a : grouped l -> a ∉ l -> grouped (l ++ [a]).

Section System.
Context {P : Type} `{!Policy P}.

Definition run_op (op : conn_op P) (c : Conn P) : outcome (Conn P) :=
  match op with
  | OpDemux buf off => r ← Demux buf off c; Ret (fst r)
  | OpEncapsulate b i f => r ← Encapsulate b i f c; Ret (r.1.1.1)
  | OpOpenActive l ra rp iss => Ret (fst (OpenActive l ra rp iss c))
  | OpOpenListen l iss => Ret (fst (OpenListen l iss c))
  | OpConfigure config => Ret (fst (Configure config c))
  | OpCloseRead => Ret (fst (CloseRead c))
  | OpAbort => Ret (Abort c)
  | OpRequeue => Ret (RequeueControl c)
  | OpDeadlines t => Ret (fst (SetDeadline t c))
  | OpReadDeadline t => Ret (fst (setReadDeadline t c))
  | OpWriteDeadline t => Ret (fst (setWriteDeadline t c))
  end.

Definition log_of (i : nat) (t : thread) (c : Conn P) (data : list Z) : list entry :=
  match data with [] => [] | _ => [mkEntry i (default 0 (pc_id (t_pc t))) (connID c) data] end.

(** The connection IDs do not wrap around: fewer than 2^64 resets. *)
Inductive sys_step : sys P -> sys P -> Prop :=
| step_call f c ts log : sys_step (mkSys c ts log) (mkSys c (ts ++ [mkThread f (Start f)]) log)
| step_thread now i t pc' c' data c ts log :
    ts !! i = Some t -> step now (t_pc t) c = (pc', c', data) ->
    sys_step (mkSys c ts log)
      (mkSys c' (<[i := mkThread (t_call t) pc']> ts) (log ++ log_of i t c data))
| step_op op c c' ts log :
    run_op op c = Ret c' -> connID c + 1 < 2 ^ 64 -> sys_step (mkSys c ts log) (mkSys c' ts log).

(** ** Lemmas *)

(** An operation keeps the connection and its lock, or begins a new connection. *)
Definition lock_moves (c c' : Conn P) : Prop :=
  (connID c' = connID c /\ writeLock c' = writeLock c) \/ connID c < connID c' <= connID c + 1.

Lemma next_id_moves (h h' : Handler P) c c' :
  connID c = connid h -> connID c' = connid h' -> writeLock c' = writeLock c ->
  0 <= connid h -> connid h + 1 < 2 ^ 64 -> next_id h h' -> lock_moves c c'.
Proof.
  intros E1 E2 E3 H0 H1 [E|E]; [left|right]; rewrite E1, E2, E; [by rewrite E3|].
  unfold u64. rewrite Z.mod_small; lia.
Qed.

Lemma reset_moves c c' :
  connID c' = u64 (connID c + 1) -> 0 <= connID c -> connID c + 1 < 2 ^ 64 -> lock_moves c c'.
Proof. intros E H0 H1. right. rewrite E. unfold u64. rewrite Z.mod_small; lia. Qed.

Lemma run_op_moves op c c' :
  run_op op c = Ret c' -> 0 <= connID c -> connID c + 1 < 2 ^ 64 -> lock_moves c c'.
Proof.
  intros H H0 H1. destruct op; cbn [run_op] in H.
  - destruct (Demux buf off c) as [[c1 e]|] eqn:E; [|done]. cbn in H. injection H as <-. left.
    unfold Demux in E. ret_inv E; split; try done; by eapply Recv_connid.
  - destruct (Encapsulate _ _ _ c) as [[[[c1 b1] n] e]|] eqn:E; [|done]. cbn in H. injection H as <-.
    unfold Encapsulate in E. ret_inv E; try (by left); by eapply (next_id_moves (h_ c)); [..|eapply Send_connid].
  - injection H as <-. unfold OpenActive. destruct raddr as [ra|]; [|by left].
    unfold Handler.OpenActive. repeat case_match; simplify_eq; try (by left).
    by apply reset_moves.
  - injection H as <-. unfold OpenListen, Handler.OpenListen. repeat case_match; simplify_eq; try (by left).
    by apply reset_moves.
  - injection H as <-. left. unfold Configure, SetBuffers. repeat case_match; by simplify_eq.
  - injection H as <-. left. unfold CloseRead. by case_match.
  - injection H as <-. by apply reset_moves.
  - injection H as <-. left. unfold RequeueControl, Handler.RequeueControl. cbn. by case_match.
  - injection H as <-. left. unfold SetDeadline, setReadDeadline, setWriteDeadline. by repeat (case_match; simplify_eq).
  - injection H as <-. left. unfold setReadDeadline. by case_match.
  - injection H as <-. left. unfold setWriteDeadline. by case_match.
Qed.

(** What one section of a thread does to the lock. *)
Record step_facts (t : pc) (c : Conn P) (t' : pc) (c' : Conn P) (data : list Z) : Prop := mkStepFacts {
  sf_conn : connID c' = connID c;
  sf_id : forall id, pc_id t' = Some id -> pc_id t = Some id \/ id = connID c;
  sf_data : data <> [] -> exists id, holds t = Some id /\ pc_id t = Some id;
  sf_wait : waiting t' = true -> waiting t = true;
  sf_lock :
    (writeLock c' = writeLock c /\ holds t' = holds t) \/
    (exists id, pc_id t = Some id /\ waiting t = true /\ holds t' = Some id /\ writeLock c = 0 /\ writeLock c' = id) \/
    (exists id, holds t = Some id /\ holds t' = None /\
       (writeLock c' = writeLock c \/ (writeLock c = id /\ writeLock c' = 0)))
}.

Lemma Write_connid b (h h' : Handler P) n e : Handler.Write b h = Ret (h', n, e) -> connid h' = connid h.
Proof. unfold Handler.Write. intros H. ret_inv H; done. Qed.

Lemma Read_connid b (h h' : Handler P) b' n e : Handler.Read b h = Ret (h', b', n, e) -> connid h' = connid h.
Proof.
  unfold Handler.Read. intros H. destruct (shutdownRx h); [by simplify_eq|].
  destruct (if 0 <? Ring.Buffered (bufRx h) then _ else _) as [[[[h1 b1] n1] e1]|] eqn:E1; [|done].
  assert (connid h1 = connid h) as <- by (destruct (0 <? _); ret_inv E1; done).
  cbn [mbind outcome_bind] in H. injection H as <- _ _ _. destruct (0 <? n1); [|done].
  unfold maybeQueueWindowUpdate. rewrite <- (deliverReassembled_connid h1). by repeat case_match.
Qed.

Lemma write_body_facts id b n err c t' c' data :
  write_body id b n err c = (t', c', data) -> step_facts (WriteBody id b n err) c t' c' data.
Proof.
  unfold write_body. intros H.
  destruct (0 <? _); [|simplify_eq; split; cbn; naive_solver].
  destruct (Handler.Write _ _) as [[[h m] e]|] eqn:E; [apply Write_connid in E|];
    repeat case_match; simplify_eq; split; cbn; try done; naive_solver.
Qed.

Lemma read_body_facts id b got c t' c' :
  read_body id b got c = (t', c') -> step_facts (ReadLoop id b got) c t' c' [].
Proof.
  unfold read_body. intros H.
  destruct (negb _); [simplify_eq; split; cbn; naive_solver|].
  destruct (0 <? _); [|repeat case_match; simplify_eq; split; cbn; naive_solver].
  destruct (Handler.Read _ _) as [[[[h b'] m] e]|] eqn:E; [apply Read_connid in E|];
    repeat case_match; simplify_eq; split; cbn; try done; naive_solver.
Qed.

Lemma step_ok now t c t' c' data : step now t c = (t', c', data) -> step_facts t c t' c' data.
Proof.
  intros H. destruct t; cbn [step] in H;
    try (by apply write_body_facts in H);
    try (repeat case_match; simplify_eq; split; cbn; try done; naive_solver).
  - destruct (Z.eqb_spec (writeLock c) 0); simplify_eq; split; cbn; try done; try naive_solver.
  - destruct f; [repeat case_match| |simplify_eq|simplify_eq]; simplify_eq; try (split; cbn; try done; naive_solver).
    unfold Handler.Close in H. repeat case_match; simplify_eq; split; cbn; try done; naive_solver.
  - destruct (Z.eqb_spec (writeLock c) id); simplify_eq; split; cbn; try done; try naive_solver.
  - destruct (zlen b <=? 0); [simplify_eq; split; cbn; try done; naive_solver|].
    destruct (read_body id b got c) as [t1 c1] eqn:E. simplify_eq. by apply read_body_facts.
Qed.

(** ** The transmit queue

    What a section logs is what it appends to the unsent bytes of the queue. *)

Lemma deliverReassembled_bufTx (h : Handler P) : bufTx (deliverReassembled h) = bufTx h.
Proof. unfold deliverReassembled. by repeat case_match. Qed.

Lemma Read_bufTx b (h h' : Handler P) b' n e : Handler.Read b h = Ret (h', b', n, e) -> bufTx h' = bufTx h.
Proof.
  unfold Handler.Read. intros H. destruct (shutdownRx h); [by simplify_eq|].
  destruct (if 0 <? Ring.Buffered (bufRx h) then _ else _) as [[[[h1 b1] n1] e1]|] eqn:E1; [|done].
  assert (bufTx h1 = bufTx h) as <- by (destruct (0 <? _); ret_inv E1; done).
  cbn [mbind outcome_bind] in H. injection H as <- _ _ _. destruct (0 <? n1); [|done].
  unfold maybeQueueWindowUpdate. rewrite <- (deliverReassembled_bufTx h1). by repeat case_match.
Qed.

(** The queue after a section that queues [data]. *)
Definition queue_grows (q q' : TxQueue.ringTx) (data : list Z) : Prop :=
  forall una ns nu, tx_inv q una ns nu ->
    tx_inv q' una ns (nu + zlen data) /\
    TxQueue.unsent_bytes q' = TxQueue.unsent_bytes q ++ data /\
    TxQueue.sent_bytes q' = TxQueue.sent_bytes q.

Lemma queue_grows_same q : queue_grows q q [].
Proof. intros una ns nu H. rewrite app_nil_r. change (zlen []) with 0. by rewrite Z.add_0_r. Qed.

Lemma write_body_queue id b n err (c : Conn P) t' c' data :
  write_body id b n err c = (t', c', data) -> queue_grows (bufTx (h_ c)) (bufTx (h_ c')) data.
Proof.
  unfold write_body. intros H.
  destruct (Z.ltb_spec 0 (Z.min (FreeOutput (h_ c)) (zlen b))) as [Hp|]; [|simplify_eq; apply queue_grows_same].
  set (w := Z.min (FreeOutput (h_ c)) (zlen b)) in *.
  assert (zlen (ztake w b) = w) as Hw by (apply zlen_ztake; unfold w; lia).
  unfold Handler.Write in H. destruct (closing (h_ c)); [vm_compute err_is in H; cbn in H; simplify_eq; apply queue_grows_same|].
  destruct (TxDataOpen _); cbn [negb] in H; [|vm_compute err_is in H; cbn in H; simplify_eq; apply queue_grows_same].
  intros una ns nu Hi.
  destruct (txqueue_write (ztake w b) _ una ns nu Hi) as (_ & HW & _); [lia|].
  destruct HW as (q & HW & Hq); [unfold FreeOutput in w; lia|].
  rewrite HW, Hw in H. cbn [mbind outcome_bind] in H. rewrite Z.eqb_refl in H. cbn in H. by simplify_eq.
Qed.

Lemma step_queue now t (c : Conn P) t' c' data :
  step now t c = (t', c', data) -> queue_grows (bufTx (h_ c)) (bufTx (h_ c')) data.
Proof.
  intros H. destruct t; cbn [step] in H; try (by eapply write_body_queue);
    try (repeat case_match; simplify_eq; apply queue_grows_same).
  - destruct f; [repeat case_match| |simplify_eq|simplify_eq]; simplify_eq; try apply queue_grows_same.
    unfold Handler.Close in H. repeat case_match; simplify_eq; apply queue_grows_same.
  - destruct (zlen b <=? 0); [simplify_eq; apply queue_grows_same|].
    unfold read_body in H. destruct (negb _); [simplify_eq; apply queue_grows_same|].
    destruct (0 <? BufferedInput _); [|repeat case_match; simplify_eq; apply queue_grows_same].
    destruct (Handler.Read _ _) as [[[[h b'] m] e]|] eqn:E; [apply Read_bufTx in E|simplify_eq; apply queue_grows_same].
    destruct e; simplify_eq; cbn; rewrite E; apply queue_grows_same.
Qed.

(** ** Mutual exclusion *)

Record sys_inv (s : sys P) : Prop := mkSysInv {
  si_pos : 0 < connID (s_conn s);
  si_ids : forall i t id, s_threads s !! i = Some t -> pc_id (t_pc t) = Some id -> 0 < id <= connID (s_conn s);
  si_lock : forall i t, s_threads s !! i = Some t -> holds (t_pc t) = Some (connID (s_conn s)) ->
    writeLock (s_conn s) = connID (s_conn s);
  si_uniq : forall i j t u, s_threads s !! i = Some t -> s_threads s !! j = Some u ->
    holds (t_pc t) = Some (connID (s_conn s)) -> holds (t_pc u) = Some (connID (s_conn s)) -> i = j;
  si_log : forall e, e ∈ s_log s -> e_conn e <= connID (s_conn s) /\ (e_thread e < length (s_threads s))%nat;
  si_fresh : forall i t, s_threads s !! i = Some t -> waiting (t_pc t) = true ->
    forall e, e ∈ s_log s -> e_thread e <> i;
  si_last : forall i t, s_threads s !! i = Some t -> holds (t_pc t) = Some (connID (s_conn s)) ->
    i ∈ writers (connID (s_conn s)) (s_log s) -> last (writers (connID (s_conn s)) (s_log s)) = Some i;
  si_grouped : forall k, grouped (writers k (s_log s))
}.

Lemma holds_pc_id t id : holds t = Some id -> pc_id t = Some id.
Proof. by destruct t. Qed.
Lemma waiting_holds t : waiting t = true -> holds t = None.
Proof. by destruct t. Qed.

Lemma writers_app k l1 l2 : writers k (l1 ++ l2) = writers k l1 ++ writers k l2.
Proof. unfold writers. by rewrite filter_app, fmap_app. Qed.

Lemma elem_of_writers k i log : i ∈ writers k log -> exists e, e ∈ log /\ e_thread e = i /\ e_conn e = k.
Proof.
  unfold writers. rewrite list_elem_of_fmap. intros (e & -> & He).
  apply list_elem_of_filter in He as [[_ ?] ?]. eauto.
Qed.

Lemma log_of_elem i t (c : Conn P) data e :
  e ∈ log_of i t c data -> e_thread e = i /\ e_conn e = connID c /\ data <> [] /\ e_id e = default 0 (pc_id (t_pc t)).
Proof.
  unfold log_of. destruct data; intros He; [by apply elem_of_nil in He|].
  apply list_elem_of_singleton in He as ->. done.
Qed.

(** The log grows by the entry of the thread that ran. *)
Lemma grouped_log c ts log i t data :
  sys_inv (mkSys c ts log) -> ts !! i = Some t -> (data <> [] -> exists id, holds (t_pc t) = Some id /\ pc_id (t_pc t) = Some id) ->
  forall k, grouped (writers k (log ++ log_of i t c data)).
Proof.
  intros Hi Ht Hd k. rewrite writers_app. pose proof (si_grouped _ Hi k) as Hg. cbn in Hg.
  destruct data as [|x data]; [by rewrite app_nil_r|]. destruct Hd as (id & Hh & Hp); [done|].
  unfold log_of, writers at 2. rewrite Hp. cbn [default]. unfold Datatypes.id. rewrite filter_cons. cbn [e_id e_conn filter list_filter].
  destruct (decide (id = k /\ connID c = k)) as [[-> Hk]|]; [|by (cbn; rewrite app_nil_r)].
  cbn. destruct (decide (i ∈ writers k log)) as [Hin|Hin]; [|by apply grouped_new].
  apply grouped_same; [done|]. rewrite <- Hk in *. by apply (si_last _ Hi i t).
Qed.

(** A thread that runs: the connection stays, its position in the list too. *)
Section Run.
Context (c c' : Conn P) (ts : list thread) (log : list entry) (i : nat) (t : thread) (pc' : pc) (data : list Z).
Context (Hi : sys_inv (mkSys c ts log)) (Ht : ts !! i = Some t) (Hf : step_facts (t_pc t) c pc' c' data).

Let t' : thread := mkThread (t_call t) pc'.

Lemma run_lookup j u : <[i := t']> ts !! j = Some u -> (j = i /\ u = t') \/ (j <> i /\ ts !! j = Some u).
Proof.
  intros H. destruct (decide (j = i)) as [->|Hj].
  - left. rewrite list_lookup_insert_eq in H by (by eapply lookup_lt_Some). by simplify_eq.
  - right. by rewrite list_lookup_insert_ne in H.
Qed.

(** If it holds the write side of the connection afterwards, nobody else did. *)
Lemma run_holder j u : holds pc' = Some (connID c) -> ts !! j = Some u -> j <> i ->
  holds (t_pc u) = Some (connID c) -> False.
Proof.
  intros Hh Hu Hj Hh2. destruct (sf_lock _ _ _ _ _ Hf) as [[_ E]|[(id & _ & _ & _ & E & _)|(id & _ & E & _)]].
  - apply Hj. eapply (si_uniq _ Hi); try done. by rewrite <- E.
  - pose proof (si_lock _ Hi _ _ Hu Hh2) as HL. pose proof (si_pos _ Hi). cbn in *. lia.
  - by rewrite Hh in E.
Qed.

Lemma run_lock j u : <[i := t']> ts !! j = Some u -> holds (t_pc u) = Some (connID c) -> writeLock c' = connID c.
Proof.
  intros Hu Hh. pose proof (sf_lock _ _ _ _ _ Hf) as HL. apply run_lookup in Hu as [[-> ->]|[Hj Hu]].
  - cbn in Hh. destruct HL as [[E1 E2]|[(id & _ & _ & E & _ & E2)|(id & _ & E & _)]].
    + rewrite E1. apply (si_lock _ Hi i t); [done|]. by rewrite <- E2.
    + rewrite E in Hh. by simplify_eq.
    + by rewrite Hh in E.
  - pose proof (si_lock _ Hi _ _ Hu Hh) as Hw. pose proof (si_pos _ Hi) as H0. cbn in Hw, H0.
    destruct HL as [[E1 E2]|[(id & _ & _ & E & E1 & E2)|(id & E & _ & [E1|[E1 E2]])]]; [congruence|lia|congruence|].
    destruct Hj. eapply (si_uniq _ Hi); try done. cbn. congruence.
Qed.

Lemma run_fresh j u e : <[i := t']> ts !! j = Some u -> waiting (t_pc u) = true ->
  e ∈ log ++ log_of i t c data -> e_thread e <> j.
Proof.
  intros Hu Hw He. apply elem_of_app in He. apply run_lookup in Hu as [[-> ->]|[Hj Hu]].
  - cbn in Hw. apply (sf_wait _ _ _ _ _ Hf) in Hw.
    destruct He as [He|He]; [by apply (si_fresh _ Hi i t)|].
    apply log_of_elem in He as (_ & _ & Hd & _). apply (sf_data _ _ _ _ _ Hf) in Hd as (id & Hd & _).
    by rewrite (waiting_holds _ Hw) in Hd.
  - destruct He as [He|He]; [by apply (si_fresh _ Hi j u)|].
    apply log_of_elem in He as (E & _). congruence.
Qed.

Lemma run_last j u : <[i := t']> ts !! j = Some u -> holds (t_pc u) = Some (connID c) ->
  j ∈ writers (connID c) (log ++ log_of i t c data) -> last (writers (connID c) (log ++ log_of i t c data)) = Some j.
Proof.
  intros Hu Hh. rewrite writers_app. destruct (decide (j = i)) as [->|Hj].
  - destruct (decide (writers (connID c) (log_of i t c data) = [])) as [->|Hne].
    + rewrite app_nil_r. intros Hin.
      destruct (waiting (t_pc t)) eqn:Hw.
      { apply elem_of_writers in Hin as (e & He & E & _). by apply (si_fresh _ Hi i t) in E. }
      apply (si_last _ Hi i t); try done. apply run_lookup in Hu as [[_ ->]|[? _]]; [|done]. cbn in Hh |- *.
      destruct (sf_lock _ _ _ _ _ Hf) as [[_ E]|[(id & _ & E & _)|(id & _ & E & _)]]; congruence.
    + intros _. unfold log_of, writers in *. destruct data as [|x d]; [done|]. rewrite filter_cons in *.
      case_match; [|done]. cbn. by rewrite last_snoc.
  - apply run_lookup in Hu as [[-> _]|[_ Hu]]; [done|].
    rewrite elem_of_app. intros [Hin|Hin].
    + destruct (decide (data = [])) as [->|Hd]; [cbn; rewrite app_nil_r; by apply (si_last _ Hi j u)|].
      destruct (sf_data _ _ _ _ _ Hf Hd) as (id & H1 & H2).
      destruct (decide (id = connID c)) as [->|Hne].
      * destruct Hj. by eapply (si_uniq _ Hi).
      * replace (writers (connID c) (log_of i t c data)) with (@nil nat); [rewrite app_nil_r; by apply (si_last _ Hi j u)|].
        unfold log_of, writers. destruct data; [done|]. rewrite H2. rewrite filter_cons. cbn. unfold Datatypes.id.
        rewrite decide_False; [done|]. by intros [? _].
    + apply elem_of_writers in Hin as (e & He & E & _). apply log_of_elem in He as (E' & _). congruence.
Qed.

Lemma run_inv : sys_inv (mkSys c' (<[i := t']> ts) (log ++ log_of i t c data)).
Proof.
  pose proof (si_pos _ Hi) as H0. cbn in H0.
  split; cbn [s_conn s_threads s_log]; rewrite ?(sf_conn _ _ _ _ _ Hf).
  - done.
  - intros j u id Hu Hp. apply run_lookup in Hu as [[-> ->]|[_ Hu]]; [|by eapply (si_ids _ Hi)].
    apply (sf_id _ _ _ _ _ Hf) in Hp as [Hp| ->]; [by eapply (si_ids _ Hi)|lia].
  - apply run_lock.
  - intros j k u v Hu Hv Hh1 Hh2. apply run_lookup in Hu as [[-> ->]|[Hj Hu]];
      apply run_lookup in Hv as [[-> ->]|[Hk Hv]]; try done.
    + by destruct (run_holder k v).
    + by destruct (run_holder j u).
    + by eapply (si_uniq _ Hi).
  - intros e He. rewrite length_insert. apply elem_of_app in He as [He|He]; [by apply (si_log _ Hi)|].
    apply log_of_elem in He as (-> & -> & _). split; [done|]. by eapply lookup_lt_Some.
  - intros. by eapply run_fresh.
  - intros. by eapply run_last.
  - eapply grouped_log; try done. apply Hf.
Qed.
End Run.

Lemma step_inv s s' : sys_inv s -> sys_step s s' -> sys_inv s'.
Proof.
  intros Hi Hs. destruct Hs as [f c ts log|now i t pc' c' data c ts log Ht Hr|op c c' ts log Hr Hn].
  - assert (forall j u, (ts ++ [mkThread f (Start f)]) !! j = Some u ->
      ts !! j = Some u \/ (u = mkThread f (Start f) /\ j = length ts)) as HL.
    { intros j u Hu. apply lookup_snoc_Some in Hu as [[_ ?]|[-> <-]]; auto. }
    destruct Hi as [I1 I2 I3 I4 I5 I6 I7 I8]; split; cbn in *; try done.
    + intros j u id Hu. apply HL in Hu as [Hu|[-> _]]; [by apply (I2 j)|done].
    + intros j u Hu. apply HL in Hu as [Hu|[-> _]]; [by apply (I3 j)|done].
    + intros j k u v Hu Hv. apply HL in Hu as [Hu|[-> _]], Hv as [Hv|[-> _]]; try done. by apply I4.
    + intros e He. rewrite length_app. destruct (I5 e He). cbn. lia.
    + intros j u Hu Hw e He. apply HL in Hu as [Hu|[-> ->]]; [by apply (I6 j u)|]. destruct (I5 e He). lia.
    + intros j u Hu. apply HL in Hu as [Hu|[-> _]]; [by apply (I7 j)|done].
  - eapply run_inv; [done|done|]. by eapply step_ok.
  - pose proof (si_pos _ Hi) as H0. cbn in H0.
    apply run_op_moves in Hr as [[E1 E2]|E]; [| |lia|done].
    + destruct Hi as [I1 I2 I3 I4 I5 I6 I7 I8]; split; cbn in *; rewrite ?E1, ?E2; done.
    + assert (forall i t, ts !! i = Some t -> holds (t_pc t) <> Some (connID c')) as Hn'.
      { intros i t Ht Hh. apply holds_pc_id in Hh. apply (si_ids _ Hi i) in Hh; [|done]. cbn in Hh. lia. }
      destruct Hi as [I1 I2 I3 I4 I5 I6 I7 I8]; split; cbn in *; try done.
      * lia.
      * intros i t id Ht Hp. specialize (I2 _ _ _ Ht Hp). lia.
      * intros i t Ht Hh. by destruct (Hn' i t).
      * intros i j t u Ht Hu Hh. by destruct (Hn' i t).
      * intros e He. specialize (I5 e He). lia.
      * intros i t Ht Hh. by destruct (Hn' i t).
Qed.

(** ** What a call reports *)

(** A thread that made the call [f], with the bytes it has queued so far. *)
Definition thread_ok (f : call) (t : pc) (data : list Z) : Prop :=
  match t with
  | Start g | Acquire _ g | TryLock _ g | Held _ g => g = f /\ data = []
  | WriteCheck _ b n _ | WriteBody _ b n _ | WriteFull _ b n _ => f = Write (data ++ b) /\ n = zlen data
  | FlushTest _ | FlushCheck _ => f = Flush /\ data = []
  | Release _ n err | Done n _ err =>
      match f with
      | Write b => n = zlen data /\ exists rest, b = data ++ rest /\ (err = None -> rest = [])
      | _ => data = []
      end
  | ReadLoop _ _ _ | ReadWait _ _ => (exists b, f = Read b) /\ data = []
  | Crashed => True
  end.

Lemma write_body_report f id b n err (c : Conn P) t' c' data old :
  write_body id b n err c = (t', c', data) -> thread_ok f (WriteBody id b n err) old -> thread_ok f t' (old ++ data).
Proof.
  intros H [-> ->]. unfold write_body in H. destruct (Z.ltb_spec 0 (Z.min (FreeOutput (h_ c)) (zlen b))) as [Hp|].
  - destruct (Handler.Write _ _) as [[[h m] e]|] eqn:E; [|by simplify_eq].
    destruct (bool_decide (e <> None) && _) eqn:Ee.
    { simplify_eq. cbn. rewrite app_nil_r. split; [done|]. exists b. split; [done|]. by intros ->. }
    destruct (Z.eqb_spec m (Z.min (FreeOutput (h_ c)) (zlen b))); cbn [negb] in H; [|by simplify_eq].
    simplify_eq. cbn. rewrite <- app_assoc, ztake_zdrop. split; [done|].
    rewrite zlen_app, zlen_ztake; lia.
  - simplify_eq. cbn. by rewrite app_nil_r.
Qed.

Lemma read_body_report b0 id b got (c : Conn P) t' c' :
  read_body id b got c = (t', c') -> thread_ok (Read b0) t' [].
Proof. unfold read_body. intros H. repeat case_match; simplify_eq; cbn; eauto. Qed.

Lemma step_report f now t (c : Conn P) t' c' data old :
  step now t c = (t', c', data) -> thread_ok f t old -> thread_ok f t' (old ++ data).
Proof.
  intros H Hk. destruct t as [g|id g|id g|id g|id b n e|id b n e|id b n e|id|id|id n e|id b got|id b|n got e|];
    cbn [step] in H.
  - destruct Hk as [-> ->]. destruct f; simplify_eq; cbn; eauto.
  - destruct Hk as [-> ->]. case_match; simplify_eq; cbn; [|done].
    destruct f; try done. split; [done|]. by exists b.
  - destruct Hk as [-> ->]. case_match; simplify_eq; done.
  - destruct Hk as [-> ->]. destruct f as [b| | |b]; cbn in *.
    + case_match; simplify_eq; cbn; [split; [done|]; by exists b|].
      destruct (Z.eqb_spec (zlen b) 0) as [E|]; simplify_eq; cbn; [|done].
      split; [done|]. exists b. split; [done|]. intros _. by apply zlen_zero_nil.
    + destruct (Handler.Close _); by simplify_eq.
    + by simplify_eq.
    + simplify_eq. cbn. eauto.
  - destruct Hk as [-> ->]. destruct (Z.leb_spec (zlen b) 0).
    + simplify_eq. cbn. rewrite !app_nil_r. split; [done|]. exists b. split; [done|]. intros _.
      apply zlen_zero_nil. pose proof (zlen_nonneg b). lia.
    + case_match; simplify_eq; cbn; rewrite app_nil_r; [|done]. split; [done|]. by exists b.
  - by eapply write_body_report.
  - destruct Hk as [-> ->]. case_match; simplify_eq; cbn; rewrite app_nil_r; [|done]. split; [done|]. by exists b.
  - destruct Hk as [-> ->]. case_match; by simplify_eq.
  - destruct Hk as [-> ->]. case_match; by simplify_eq.
  - simplify_eq. cbn in *. by rewrite app_nil_r.
  - destruct Hk as [[b0 ->] ->]. case_match; [by simplify_eq|].
    destruct (read_body id b got c) as [t1 c1] eqn:E. simplify_eq. by eapply read_body_report.
  - destruct Hk as [[b0 ->] ->]. case_match; simplify_eq; cbn; eauto.
  - simplify_eq. by rewrite app_nil_r.
  - by simplify_eq.
Qed.

Definition sys_ok (s : sys P) : Prop :=
  forall i t, s_threads s !! i = Some t -> thread_ok (t_call t) (t_pc t) (queued i (s_log s)).

(** ** Schedules *)

Inductive event := EvCall (f : call) | EvRun (now : Z) (i : nat) | EvOp (op : conn_op P).

Definition run_event (e : event) (s : sys P) : option (sys P) :=
  match e with
  | EvCall f => Some (mkSys (s_conn s) (s_threads s ++ [mkThread f (Start f)]) (s_log s))
  | EvRun now i =>
      match s_threads s !! i with
      | None => None
      | Some t =>
          let '(pc', c', data) := step now (t_pc t) (s_conn s) in
          Some (mkSys c' (<[i := mkThread (t_call t) pc']> (s_threads s)) (s_log s ++ log_of i t (s_conn s) data))
      end
  | EvOp op =>
      match run_op op (s_conn s) with
      | Panic => None
      | Ret c' => if connID (s_conn s) + 1 <? 2 ^ 64 then Some (mkSys c' (s_threads s) (s_log s)) else None
      end
  end.
Fixpoint run_events (es : list event) (s : sys P) : option (sys P) :=
  match es with
  | [] => Some s
  | e :: es => match run_event e s with Some s => run_events es s | None => None end
  end.

Lemma run_events_rtc es s s' : run_events es s = Some s' -> rtc sys_step s s'.
Proof.
  revert s. induction es as [|e es IH]; intros s H; cbn in H; [by simplify_eq|].
  destruct (run_event e s) as [s1|] eqn:E; [|done]. apply rtc_l with s1; [|by apply IH].
  destruct s as [c ts log], e as [f|now i|op]; cbn in E.
  - simplify_eq. constructor.
  - destruct (ts !! i) as [t|] eqn:Ht; [|done]. destruct (step _ _ _) as [[pc' c'] data] eqn:Es. simplify_eq.
    by econstructor.
  - destruct (run_op op c) as [c'|] eqn:Er; [|done]. destruct (Z.ltb_spec (connID c + 1) (2 ^ 64)); simplify_eq.
    by econstructor.
Qed.

Lemma queued_app i l1 l2 : queued i (l1 ++ l2) = queued i l1 ++ queued i l2.
Proof. unfold queued. by rewrite filter_app, fmap_app, concat_app. Qed.

Lemma queued_log_of i j t (c : Conn P) data : queued i (log_of j t c data) = if decide (i = j) then data else [].
Proof.
  unfold queued, log_of. destruct data as [|x d]; [by case_match|]. rewrite filter_cons. cbn.
  destruct (decide (j = i)), (decide (i = j)); subst; try done. cbn. by rewrite app_nil_r.
Qed.

Lemma queued_fresh i log : (forall e, e ∈ log -> e_thread e <> i) -> queued i log = [].
Proof.
  intros H. unfold queued. replace (filter _ log) with (@nil entry); [done|]. symmetry.
  induction log as [|e log IH]; [done|]. rewrite filter_cons, decide_False by (apply H, list_elem_of_here).
  apply IH. intros e' He'. by apply H, list_elem_of_further.
Qed.

Lemma step_sys_ok s s' : sys_inv s -> sys_ok s -> sys_step s s' -> sys_ok s'.
Proof.
  intros Hi Hk Hs. destruct Hs as [f c ts log|now i t pc' c' data c ts log Ht Hr|op c c' ts log Hr Hn].
  - intros j u Hu. cbn [s_threads s_log] in Hu |- *. apply lookup_snoc_Some in Hu as [[_ Hu]|[-> <-]]; [by apply Hk|]. cbn.
    split; [done|]. apply queued_fresh. intros e He. destruct (si_log _ Hi e He) as [_ Hl]. cbn in Hl. lia.
  - intros j u Hu. cbn [s_threads s_log] in Hu |- *. apply (run_lookup _ _ _ _ Ht) in Hu. rewrite queued_app, queued_log_of.
    destruct Hu as [[-> ->]|[Hj Hu]].
    + rewrite decide_True by done. cbn [t_call t_pc]. eapply step_report; [done|]. by apply Hk.
    + rewrite decide_False, app_nil_r by done. by apply Hk.
  - exact Hk.
Qed.

(** A connection that was opened at least once, with nobody calling. *)
Definition fresh_sys (c : Conn P) : sys P := mkSys c [] [].

Lemma run_sys_inv c s : 0 < connID c -> rtc sys_step (fresh_sys c) s -> sys_inv s /\ sys_ok s.
Proof.
  intros H0 Hr. assert (sys_inv (fresh_sys c) /\ sys_ok (fresh_sys c)) as HI.
  { split; [|done]. split; cbn; try done.
    - by intros e He%elem_of_nil.
    - intros k. apply grouped_nil. }
  revert HI. induction Hr as [|s1 s2 s3 H1 _ IH]; [done|]. intros [A B]. apply IH.
  split; [by eapply step_inv|by eapply step_sys_ok].
Qed.

End System.

(** C4: the callers of a connection do not disturb each other. However any number
    of [Write], [Close], [Flush] and [Read] calls interleave with each other, with the
    stack and with resets of the connection: of the callers that called the current
    connection at most one owns its write side, so none of their [Close] calls falls
    into one of their [Write] calls; what the [Write] calls of one connection queue on
    it is queued call by call; a [Write] that returns has queued exactly the first
    [n] bytes of its buffer, all of them if it reports no error; and queueing is
    appending to the transmit queue: the next section of any caller adds exactly the
    bytes recorded for it to the end of the unsent bytes of a well-formed queue and
    leaves the sent ones. A caller of an earlier connection that checked it before the
    reset is not excluded by the lock ([stale_caller_reaches_new_connection]). *)
Theorem conn_writers_serialized {P} `{!Policy P} (c : Conn P) (s : sys P)
  (H0 : 0 < connID c) (Hr : rtc sys_step (fresh_sys c) s) :
  (forall i j t u, s_threads s !! i = Some t -> s_threads s !! j = Some u ->
     holds (t_pc t) = Some (connID (s_conn s)) -> holds (t_pc u) = Some (connID (s_conn s)) -> i = j) /\
  (forall k, grouped (writers k (s_log s))) /\
  (forall i b n got err, s_threads s !! i = Some (mkThread (Write b) (Done n got err)) ->
     zlen (queued i (s_log s)) = n /\ ztake n b = queued i (s_log s) /\
     (err = None -> queued i (s_log s) = b)) /\
  (forall now i t pc' c' data, s_threads s !! i = Some t ->
     step now (t_pc t) (s_conn s) = (pc', c', data) ->
     queue_grows (bufTx (h_ (s_conn s))) (bufTx (h_ c')) data).
Proof.
  destruct (run_sys_inv c s H0 Hr) as [Hi Hk]. split; [|split; [|split]].
  - apply Hi.
  - apply Hi.
  - intros i b n got err Ht. specialize (Hk i _ Ht) as (-> & rest & -> & He). cbn [t_call t_pc].
    split; [done|]. split; [by apply ztake_app_exact|]. intros ->. rewrite He by done. by rewrite app_nil_r.
  - intros now i t pc' c' data _. apply step_queue.
Qed.

(** A connected client, and two threads that write to it in turns. *)
Definition demo_conn : Conn unit := mkConn demo_client [10; 0; 0; 2] 0 None None None 0.
Definition demo_events : list (@event unit) :=
  [EvCall (Write [1; 2]); EvCall (Write [3; 4]); EvRun 0 0; EvRun 0 1; EvRun 0 0; EvRun 0 1; EvRun 0 1;
   EvRun 0 0; EvRun 0 1; EvRun 0 1; EvRun 0 0; EvRun 0 1; EvRun 0 1; EvRun 0 1; EvRun 0 0; EvRun 0 0;
   EvRun 0 0; EvRun 0 0; EvRun 0 0; EvRun 0 0; EvRun 0 0].

Definition demo_sys : sys unit :=
  Eval vm_compute in default (fresh_sys demo_conn) (run_events demo_events (fresh_sys demo_conn)).

Lemma conn_writers_serialized_witness :
  grouped (writers 1 (s_log demo_sys)) /\ writers 1 (s_log demo_sys) = [1%nat; 0%nat] /\
  queued 0 (s_log demo_sys) = [1; 2].
Proof.
  destruct (conn_writers_serialized demo_conn demo_sys) as (_ & Hg & Hq & _); [done|by apply run_events_rtc with demo_events; vm_compute|].
  split; [apply Hg|]. split; [reflexivity|]. by apply (Hq 0%nat [1; 2] 2 [] None).
Defined.

(** ** A caller of a connection that is gone *)

(** A peer at 10.0.0.1 that connects to the new connection. *)
Definition demo_header : list Z := ztake 20 IpAddr.demo_ip4.
Definition demo_peer_out (a : Handler unit) : Handler unit * list Z :=
  match Send (replicate 100 0) a with
  | Ret (a, out, n, _) => (a, demo_header ++ ztake n out)
  | Panic => (a, [])
  end.
Definition demo_reopened : Conn unit := fst (OpenListen 80 500 (Abort demo_conn)).
Definition demo_handshake : list Z * list Z :=
  let '(a, syn) := demo_peer_out demo_client0 in
  match Demux syn 20 demo_reopened with
  | Ret (c, _) =>
      match Encapsulate (demo_header ++ replicate 100 0) 0 20 c with
      | Ret (c, out, n, _) =>
          match Recv (slice out 20 (20 + n)) a with
          | Ret (a, _) => (syn, snd (demo_peer_out a))
          | Panic => (syn, [])
          end
      | Panic => (syn, [])
      end
  | Panic => (syn, [])
  end.
Definition demo_syn : list Z := Eval vm_compute in fst demo_handshake.
Definition demo_ack : list Z := Eval vm_compute in snd demo_handshake.

(** The owner gives the connection to a new peer. *)
Definition demo_takeover : list (@event unit) :=
  [EvOp OpAbort; EvOp (OpOpenListen 80 500); EvOp (OpDemux demo_syn 20);
   EvOp (OpEncapsulate (demo_header ++ replicate 100 0) 0 20); EvOp (OpDemux demo_ack 20)].
(** A call that has checked the connection, but not used it yet. *)
Definition demo_begin (f : call) (k : nat) : list (@event unit) := EvCall f :: repeat (EvRun 0 0) k.

Definition demo_write_events : list (@event unit) := demo_begin (Write [9]) 5 ++ demo_takeover ++ [EvRun 0 0].
Definition demo_close_events : list (@event unit) := demo_begin Close 3 ++ demo_takeover ++ [EvRun 0 0].
Definition demo_stale_write : sys unit :=
  Eval vm_compute in default (fresh_sys demo_conn) (run_events demo_write_events (fresh_sys demo_conn)).
Definition demo_stale_close : sys unit :=
  Eval vm_compute in default (fresh_sys demo_conn) (run_events demo_close_events (fresh_sys demo_conn)).

(** A caller checks the connection in one critical section and uses it in the next. In
    between the owner may abort the connection and accept another one with it: then
    [Write] queues the bytes of the old caller to the new peer, and [Close] closes
    the connection of the new one. *)
Theorem stale_caller_reaches_new_connection :
  (exists s, run_events demo_write_events (fresh_sys demo_conn) = Some s /\
     rtc sys_step (fresh_sys demo_conn) s /\
     s_log s = [mkEntry 0 1 3 [9]] /\ connID (s_conn s) = 3 /\ State (s_conn s) = StateEstablished /\
     remoteAddr (s_conn s) = [10; 0; 0; 1] /\ TxQueue.unsent_bytes (bufTx (h_ (s_conn s))) = [9]) /\
  (exists s, run_events demo_close_events (fresh_sys demo_conn) = Some s /\
     connID (s_conn s) = 3 /\ State (s_conn s) = StateEstablished /\ closing (h_ (s_conn s)) = true).
Proof.
  split.
  - assert (run_events demo_write_events (fresh_sys demo_conn) = Some demo_stale_write) as E by (by vm_compute).
    exists demo_stale_write. split; [exact E|]. split; [exact (run_events_rtc _ _ _ E)|]. repeat split.
  - exists demo_stale_close. split; [by vm_compute|]. repeat split.
Qed.

End ConnThms.
