(* ===== verification/Listener.v ===== *)
(** * Listeners ([src/tcp/listener.go])

    A [Listener] takes connections from a pool, one for each peer that sends a SYN,
    and hands them to the application once they are established. Connections are
    shared objects: the pool owns them and a pointer is their number. The interface
    [pool], and reading and writing through such a pointer, is the class [Pool] over
    the state [W] of the pool. *)
From S2P Require Import Prelude Errors Bytes SeqNum Segment Frame IpAddr RstQueue Handler Conn.

Module Listener.
Import Segment.

(** [GetTCP] returns a connection with its user data and initial sequence number, or
    nothing. *)
Class Pool (P U W : Type) := {
  GetTCP : W -> W * option (nat * option U * Z);
  PutTCP : nat -> W -> outcome W;
  get_conn : nat -> W -> option (Conn.Conn P);
  set_conn : nat -> Conn.Conn P -> W -> W
}.

(** [handler] of the source. *)
Record slot (U : Type) := mkSlot {
  sl_conn : option nat;
  sl_id : Z;
  sl_user : option U
}.
Arguments mkSlot {U} _ _ _.
Arguments sl_conn {U} _.
Arguments sl_id {U} _.
Arguments sl_user {U} _.

Record Listener (U : Type) := mkListener {
  connID : Z;
  incoming : list (slot U);
  accepted : list (slot U);
  port : Z;
  rstQueue : RstQueue.RSTQueue
}.
Arguments mkListener {U} _ _ _ _ _.
Arguments connID {U} _.
Arguments incoming {U} _.
Arguments accepted {U} _.
Arguments port {U} _.
Arguments rstQueue {U} _.

Section Listener.
Context {P U W : Type} `{!Handler.Policy P} `{!Pool P U W}.
Implicit Types (l : Listener U) (w : W).

Definition with_incoming (s : list (slot U)) l : Listener U :=
  mkListener (connID l) s (accepted l) (port l) (rstQueue l).
Definition with_accepted (s : list (slot U)) l : Listener U :=
  mkListener (connID l) (incoming l) s (port l) (rstQueue l).
Definition with_rst (q : RstQueue.RSTQueue) l : Listener U :=
  mkListener (connID l) (incoming l) (accepted l) (port l) q.

Definition zero_slot : slot U := mkSlot None 0 None.
Definition is_zero (s : slot U) : bool :=
  match sl_conn s, sl_user s with None, None => sl_id s =? 0 | _, _ => false end.
Definition DeleteZeroed (s : list (slot U)) : list (slot U) := filter (fun x => is_zero x = false) s.

(** A method call through a pointer. *)
Definition deref (i : nat) w : outcome (Conn.Conn P) :=
  match get_conn i w with Some c => Ret c | None => Panic end.

Definition reset (p : Z) l : Listener U := mkListener (u64 (connID l + 1)) [] [] p (rstQueue l).
Definition isClosed l : bool := port l =? 0.
Definition Close l : Listener U * option error :=
  if isClosed l then (l, Some NetErrClosed)
  else (mkListener (u64 (connID l + 1)) (incoming l) (accepted l) 0 (rstQueue l), None).
(** [nilpool]: no pool is given. *)
Definition Reset (p : Z) (nilpool : bool) l : Listener U * option error :=
  if p =? 0 then (l, Some ErrZeroSource)
  else if nilpool then (l, Some ErrInvalidConfig)
  else (reset p l, None).

Definition established (s : slot U) w : outcome bool :=
  match sl_conn s with
  | None => Ret false
  | Some i => c ← deref i w; Ret (state_eqb (Conn.State c) StateEstablished)
  end.

Fixpoint count_ready (s : list (slot U)) w : outcome Z :=
  match s with
  | [] => Ret 0
  | x :: s => b ← established x w; n ← count_ready s w; Ret (if b : bool then 1 + n else n)
  end.
Definition NumberOfReadyToAccept l w : outcome Z := if isClosed l then Ret 0 else count_ready (incoming l) w.

(** ** Giving connections back *)

(** [poolReturn(conns[idx].conn); conns[idx] = handler{}] for a slot. *)
Definition return_slot (s : slot U) w : outcome (slot U * W) :=
  match sl_conn s with
  | None => Panic
  | Some i => w ← PutTCP i w; Ret (zero_slot, w)
  end.

(** The slot afterwards and the error left. *)
Definition maintainConn (s : slot U) (err : option error) w : outcome (slot U * W * option error) :=
  if err_is err NetErrClosed then '(s, w) ← return_slot s w; Ret (s, w, None)
  else Ret (s, w, err).

(** Whether a connection that was not accepted yet is given up. *)
Definition hopeless (st : State) : bool :=
  (state_num StateEstablished <? state_num st) || IsClosed st || state_eqb st StateListen.

Fixpoint maintain_incoming (s : list (slot U)) w : outcome (list (slot U) * W) :=
  match s with
  | [] => Ret ([], w)
  | x :: s =>
      '(x, w) ← match sl_conn x with
                | None => Ret (x, w)
                | Some i => c ← deref i w; if hopeless (Conn.State c) then return_slot x w else Ret (x, w)
                end;
      '(s, w) ← maintain_incoming s w;
      Ret (x :: s, w)
  end.
Definition maintainConns l w : outcome (Listener U * W) :=
  let l := with_accepted (DeleteZeroed (accepted l)) l in
  '(s, w) ← maintain_incoming (incoming l) w;
  Ret (with_incoming (DeleteZeroed s) l, w).

(** ** Accepting *)

(** The first established slot: the slots before, its connection and data, the slots after. *)
Fixpoint first_ready (s : list (slot U)) w : outcome (option (list (slot U) * slot U * nat * list (slot U))) :=
  match s with
  | [] => Ret None
  | x :: s =>
      b ← established x w;
      match sl_conn x with
      | Some i => if b : bool then Ret (Some ([], x, i, s)) else
                  r ← first_ready s w; Ret (option_map (fun '(a, y, i, z) => (x :: a, y, i, z)) r)
      | None => r ← first_ready s w; Ret (option_map (fun '(a, y, i, z) => (x :: a, y, i, z)) r)
      end
  end.
Definition TryAccept l w : outcome (Listener U * W * option (nat * option U) * option error) :=
  if isClosed l then Ret (l, w, None, Some NetErrClosed)
  else
  '(l, w) ← maintainConns l w;
  r ← first_ready (incoming l) w;
  match r with
  | None => Ret (l, w, None, Some ErrExhausted)
  | Some (a, x, i, z) =>
      Ret (with_incoming (a ++ zero_slot :: z) (with_accepted (accepted l ++ [x]) l), w, Some (i, sl_user x), None)
  end.

(** ** Receiving *)

(** The index of the connection with a peer. *)
Fixpoint getConn (s : list (slot U)) (remotePort : Z) (remoteAddr : list Z) w : outcome (option nat) :=
  match s with
  | [] => Ret None
  | x :: s =>
      hit ← match sl_conn x with
            | None => Ret false
            | Some i => c ← deref i w;
                Ret ((remotePort =? Conn.RemotePort c) && bool_decide (remoteAddr = Conn.remoteAddr c))
            end;
      if hit : bool then Ret (Some O) else r ← getConn s remotePort remoteAddr w; Ret (option_map S r)
  end.

(** [conn.Demux] on the shared connection. *)
Definition conn_Demux (i : nat) (carrier : list Z) (off : Z) w : outcome (W * option error) :=
  c ← deref i w; '(c, err) ← Conn.Demux carrier off c; Ret (set_conn i c w, err).

(** The slots afterwards; whether one took the segment, and its error. *)
Definition tryDemux (s : list (slot U)) (remotePort : Z) (remoteAddr carrier : list Z) (off : Z) w
    : outcome (list (slot U) * W * bool * option error) :=
  r ← getConn s remotePort remoteAddr w;
  match r with
  | None => Ret (s, w, false, None)
  | Some idx =>
      match s !! idx with
      | Some x =>
          match sl_conn x with
          | Some i =>
              '(w, err) ← conn_Demux i carrier off w;
              match err with
              | None => Ret (s, w, true, None)
              | Some _ => '(x, w, err) ← maintainConn x err w; Ret (<[idx := x]> s, w, true, err)
              end
          | None => Panic
          end
      | None => Panic
      end
  end.

(** A segment of a peer without connection. *)
Definition demux_new (tfrm : Frame.Frame) (srcaddr : list Z) (src dst : Z) (carrier : list Z) (off : Z) l w
    : outcome (Listener U * W * option error) :=
  '(_, flags) ← Frame.OffsetAndFlags tfrm;
  if negb (HasAll flags FlagSYN) || HasAny flags FlagACK then
    l ← (if negb (HasAny flags FlagRST) && HasAny flags FlagACK then
           a ← Frame.Ack tfrm; Ret (with_rst (RstQueue.Queue srcaddr src (port l) a 0 FlagRST (rstQueue l)) l)
         else Ret l);
    Ret (l, w, Some ErrPacketDrop)
  else
  match GetTCP w with
  | (w, None) =>
      s ← Frame.Seq tfrm;
      Ret (with_rst (RstQueue.Queue srcaddr src (port l) 0 (u32 (s + 1)) (Z.lor FlagRST FlagACK) (rstQueue l)) l,
           w, Some ErrPacketDrop)
  | (w, Some (i, user, iss)) =>
      c ← deref i w;
      let '(c, err) := Conn.OpenListen dst iss c in
      let w := set_conn i c w in
      match err with
      | Some e => w ← PutTCP i w; Ret (l, w, Some e)
      | None =>
          '(w, err) ← conn_Demux i carrier off w;
          match err with
          | Some _ => w ← PutTCP i w; Ret (l, w, Some ErrPacketDrop)
          | None =>
              c ← deref i w;
              Ret (with_incoming (incoming l ++ [mkSlot (Some i) (Conn.connID c) user]) l, w, None)
          end
      end
  end.

Definition Demux (carrier : list Z) (off : Z) l w : outcome (Listener U * W * option error) :=
  if isClosed l then Ret (l, w, Some NetErrClosed)
  else
  assert_or_panic (slice_ok carrier off (zlen carrier))
  match Frame.NewFrame (zdrop off carrier) with
  | (None, err) => Ret (l, w, err)
  | (Some tfrm, _) =>
  '(ip, err) ← IpAddr.GetIPAddr carrier (zlen carrier);
  match err with
  | Some e => Ret (l, w, Some e)
  | None =>
  let srcaddr := IpAddr.ip_src ip in
  dst ← Frame.DestinationPort tfrm;
  if negb (dst =? port l) then Ret (l, w, Some ErrMismatch)
  else
  src ← Frame.SourcePort tfrm;
  '(s, w, demuxed, err) ← tryDemux (accepted l) src srcaddr carrier off w;
  let l := with_accepted s l in
  if demuxed : bool then Ret (l, w, err)
  else
  '(s, w, demuxed, err) ← tryDemux (incoming l) src srcaddr carrier off w;
  let l := with_incoming s l in
  if demuxed : bool then Ret (l, w, err)
  else demux_new tfrm srcaddr src dst carrier off l w
  end
  end.

(** ** Sending *)

Definition conn_Encapsulate (i : nat) (carrier : list Z) (offsetToIP offsetToFrame : Z) w
    : outcome (W * list Z * Z * option error) :=
  c ← deref i w;
  '(c, carrier, n, err) ← Conn.Encapsulate carrier offsetToIP offsetToFrame c;
  Ret (set_conn i c w, carrier, n, err).

(** The loop over the incoming connections: the slots, and what is returned when one
    wrote. *)
Fixpoint enc_incoming (s : list (slot U)) (carrier : list Z) (offsetToIP offsetToFrame : Z) w
    : outcome (list (slot U) * W * list Z * option (Z * option error)) :=
  match s with
  | [] => Ret ([], w, carrier, None)
  | x :: s =>
      '(x, w, carrier, r) ←
        match sl_conn x with
        | None => Ret (x, w, carrier, None)
        | Some i =>
            c ← deref i w;
            if state_eqb (Conn.State c) StateEstablished then Ret (x, w, carrier, None)
            else
              '(w, carrier, n, err) ← conn_Encapsulate i carrier offsetToIP offsetToFrame w;
              '(x, w, err) ← match err with
                             | None => Ret (x, w, None)
                             | Some _ => maintainConn x err w
                             end;
              Ret (x, w, carrier, if n =? 0 then None else Some (n, err))
        end;
      match r with
      | Some r => Ret (x :: s, w, carrier, Some r)
      | None => '(s, w, carrier, r) ← enc_incoming s carrier offsetToIP offsetToFrame w; Ret (x :: s, w, carrier, r)
      end
  end.

(** The loop over the accepted ones; [n] and [err] are the results so far. *)
Fixpoint enc_accepted (s : list (slot U)) (n : Z) (err : option error) (carrier : list Z)
    (offsetToIP offsetToFrame : Z) w : outcome (list (slot U) * W * list Z * Z * option error) :=
  match s with
  | [] => Ret ([], w, carrier, n, err)
  | x :: s =>
      let continue x n err carrier w :=
        '(s, w, carrier, n, err) ← enc_accepted s n err carrier offsetToIP offsetToFrame w;
        Ret (x :: s, w, carrier, n, err) in
      match sl_conn x with
      | None => continue x n err carrier w
      | Some i =>
          c ← deref i w;
          if negb (Conn.connID c =? sl_id x) then '(x, w) ← return_slot x w; continue x n err carrier w
          else
            '(w, carrier, n, err) ← conn_Encapsulate i carrier offsetToIP offsetToFrame w;
            if 0 <? n then Ret (x :: s, w, carrier, n, err)
            else if err_is err NetErrClosed then '(x, w) ← return_slot x w; continue x n None carrier w
            else continue x n err carrier w
      end
  end.

Definition Encapsulate (carrier : list Z) (offsetToIP offsetToFrame : Z) l w
    : outcome (Listener U * W * list Z * Z * option error) :=
  if isClosed l then Ret (l, w, carrier, 0, Some NetErrClosed)
  else
  '(s, w, carrier, r) ← enc_incoming (incoming l) carrier offsetToIP offsetToFrame w;
  let l := with_incoming s l in
  match r with
  | Some (n, err) => Ret (l, w, carrier, n, err)
  | None =>
  '(s, w, carrier, n, err) ← enc_accepted (accepted l) 0 None carrier offsetToIP offsetToFrame w;
  let l := with_accepted s l in
  '(l, carrier, n) ← (if n =? 0 then
                        '(q, carrier, n, _) ← RstQueue.Drain carrier offsetToIP offsetToFrame (rstQueue l);
                        Ret (with_rst q l, carrier, n)
                      else Ret (l, carrier, n));
  '(l, w) ← (if n =? 0 then maintainConns l w else Ret (l, w));
  Ret (l, w, carrier, n, err)
  end.

End Listener.
End Listener.
