(* ===== verification/ListenerProps.v ===== *)
(** * Who owns the connections of a pool

    The laws of a pool ([PoolLaws]): a connection it hands out was free and is then
    taken, one that is given back is free, and only that connection changes. Against
    them: every operation of a listener keeps the connections it has taken from the
    pool in exactly one of its slots. *)
From stdpp Require Import gmap.
From S2P Require Import Prelude Errors Bytes SeqNum Segment Frame IpAddr RstQueue Handler Conn ConnThms Listener.

Module ListenerProps.
Import Segment Listener.

Class PoolLaws (P U W : Type) `{!Pool P U W} := {
  pool_wf : W -> Prop;
  owned : W -> gset nat;
  owned_valid : forall i w, pool_wf w -> i ∈ owned w -> is_Some (get_conn i w);
  get_some : forall w w' i u iss, pool_wf w -> GetTCP w = (w', Some (i, u, iss)) ->
    pool_wf w' /\ (i ∉ owned w) /\ owned w' = {[ i ]} ∪ owned w /\ (forall j, get_conn j w' = get_conn j w);
  get_none : forall w w', pool_wf w -> GetTCP w = (w', None) ->
    pool_wf w' /\ owned w' = owned w /\ forall j, get_conn j w' = get_conn j w;
  put_owned : forall i w, pool_wf w -> i ∈ owned w -> exists w', PutTCP i w = Ret w' /\
    pool_wf w' /\ owned w' = owned w ∖ {[ i ]} /\ forall j, j <> i -> get_conn j w' = get_conn j w;
  set_wf : forall i c w, pool_wf w -> pool_wf (set_conn i c w);
  set_owned : forall i c w, owned (set_conn i c w) = owned w;
  set_get : forall i c w, is_Some (get_conn i w) -> get_conn i (set_conn i c w) = Some c;
  set_get_ne : forall i j c w, i <> j -> get_conn j (set_conn i c w) = get_conn j w;
  (* what the pool does by itself *)
  pool_step : W -> W -> Prop;
  step_keeps : forall w w', pool_wf w -> pool_step w w' -> pool_wf w' /\ owned w' = owned w
}.

Section Owns.
Context {P U W : Type} `{HP : !Handler.Policy P} `{!Pool P U W} `{LW : !PoolLaws P U W}.
Implicit Types (l : Listener U) (w : W) (ls : list nat) (others : gset nat).

(** The pool is owned by [ls], each connection once, and by [others]. *)
Record owns ls others w : Prop := mkOwns {
  ow_wf : pool_wf w;
  ow_nodup : NoDup ls;
  ow_others : forall i, i ∈ ls -> i ∉ others;
  ow_owned : forall i, i ∈ owned w <-> i ∈ ls \/ i ∈ others
}.

#[global] Instance owns_perm : Proper ((≡ₚ) ==> eq ==> eq ==> iff) owns.
Proof.
  assert (forall ls ls' others w, ls ≡ₚ ls' -> owns ls others w -> owns ls' others w) as Hgo.
  { intros ls ls' others w Hp [H1 H2 H3 H4]. split; [done|by rewrite <- Hp| |].
    - intros i. rewrite <- Hp. apply H3.
    - intros i. rewrite <- Hp. apply H4. }
  intros ls ls' Hp others _ <- w _ <-. split; by apply Hgo.
Qed.

Lemma owns_get w w' i u iss ls others :
  owns ls others w -> GetTCP w = (w', Some (i, u, iss)) -> owns (i :: ls) others w'.
Proof.
  intros [H1 H2 H3 H4] (Hw & Hf & Ho & _)%get_some; [|done].
  assert ((i ∉ ls) /\ (i ∉ others)) as [Hl Hn] by (rewrite H4 in Hf; tauto).
  split; [done|by constructor| |].
  - intros j [->|Hj]%elem_of_cons; auto.
  - intros j. rewrite Ho, elem_of_union, elem_of_singleton, elem_of_cons, H4. tauto.
Qed.

Lemma owns_get_none w w' ls others : owns ls others w -> GetTCP w = (w', None) -> owns ls others w'.
Proof.
  intros [H1 H2 H3 H4] (Hw & Ho & _)%get_none; [|done]. split; try done. intros i. by rewrite Ho.
Qed.

Lemma owns_put i w ls others :
  owns (i :: ls) others w -> exists w', PutTCP i w = Ret w' /\ owns ls others w'.
Proof.
  intros [H1 [Hi H2]%NoDup_cons H3 H4].
  destruct (put_owned i w H1) as (w' & E & Hw & Ho & _); [apply H4; set_solver|].
  exists w'. split; [done|]. split; [done|done| |].
  - intros j Hj. apply H3. set_solver.
  - intros j. rewrite Ho, elem_of_difference, H4, elem_of_cons, elem_of_singleton.
    specialize (H3 i ltac:(set_solver)). split; [naive_solver|]. intros [Hj|Hj]; split; try naive_solver; intros ->; done.
Qed.

Lemma owns_set i c w ls others : owns ls others w -> owns ls others (set_conn i c w).
Proof. intros [H1 H2 H3 H4]. split; auto using set_wf. intros j. by rewrite set_owned. Qed.

(** The connections in the slots. *)
Definition held (s : list (slot U)) : list nat := omap sl_conn s.

Lemma held_app s s' : held (s ++ s') = held s ++ held s'.
Proof. apply omap_app. Qed.

Lemma held_cons x s : held (x :: s) = held [x] ++ held s.
Proof. cbn. by destruct (sl_conn x). Qed.

Lemma held_DeleteZeroed s : held (DeleteZeroed s) = held s.
Proof.
  unfold DeleteZeroed. induction s as [|x s IH]; [done|]. rewrite filter_cons, (held_cons x s).
  destruct (decide (is_zero x = false)) as [|E]; [by rewrite held_cons, IH|]. rewrite IH.
  unfold is_zero in E. by destruct x as [[i|] id [u|]].
Qed.

(** A slot is emptied, its connection returned. [rest] are the other slots. *)
Lemma return_slot_owns x w x' w' rest others :
  owns (held [x] ++ rest) others w -> return_slot x w = Ret (x', w') -> owns (held [x'] ++ rest) others w'.
Proof.
  unfold return_slot. destruct x as [[i|] id u]; [|done]. cbn. intros Ho H.
  destruct (owns_put _ _ _ _ Ho) as (w1 & E & Hw). rewrite E in H. cbn in H. by simplify_eq.
Qed.

Lemma maintainConn_owns x err w x' w' err' rest others :
  owns (held [x] ++ rest) others w -> maintainConn x err w = Ret (x', w', err') -> owns (held [x'] ++ rest) others w'.
Proof.
  unfold maintainConn. intros Ho H. destruct (err_is err NetErrClosed); [|by simplify_eq].
  destruct (return_slot x w) as [[x1 w1]|] eqn:E; [|done]. cbn in H. simplify_eq. by eapply return_slot_owns.
Qed.

Lemma maintain_incoming_owns s w s' w' rest others :
  owns (held s ++ rest) others w -> maintain_incoming s w = Ret (s', w') -> owns (held s' ++ rest) others w'.
Proof.
  revert w s' w' rest. induction s as [|x s IH]; intros w s' w' rest Ho H; cbn [maintain_incoming] in H; [by simplify_eq|].
  destruct (match sl_conn x with Some _ => _ | None => _ end) as [[x1 w1]|] eqn:E1; [|done].
  assert (owns (held [x1] ++ held s ++ rest) others w1) as H1.
  { rewrite held_cons, <- app_assoc in Ho.
    destruct (sl_conn x) as [i|] eqn:Ex; [|by simplify_eq]. destruct (deref i w) as [c|]; [|done]. cbn in E1.
    destruct (hopeless _); [by eapply return_slot_owns|by simplify_eq]. }
  cbn [mbind outcome_bind] in H. destruct (maintain_incoming s w1) as [[s2 w2]|] eqn:E2; [|done].
  cbn in H. simplify_eq. rewrite (held_cons x1). rewrite <- app_assoc, Permutation_app_swap_app.
  eapply IH; [|done]. by rewrite Permutation_app_swap_app.
Qed.

(** ** The listener *)

Definition owns_listener others l w : Prop := owns (held (incoming l) ++ held (accepted l)) others w.

Lemma maintainConns_owns l w l' w' others :
  owns_listener others l w -> maintainConns l w = Ret (l', w') -> owns_listener others l' w'.
Proof.
  unfold maintainConns. cbn [incoming with_accepted]. intros Ho H.
  destruct (maintain_incoming (incoming l) w) as [[s w1]|] eqn:E; [|done]. cbn in H. simplify_eq.
  unfold owns_listener. cbn. rewrite !held_DeleteZeroed. by eapply maintain_incoming_owns.
Qed.

Lemma first_ready_split s w a x i z : first_ready s w = Ret (Some (a, x, i, z)) -> s = a ++ x :: z /\ sl_conn x = Some i.
Proof.
  revert a. induction s as [|y s IH]; intros a H; cbn [first_ready] in H; [done|].
  destruct (established y w) as [b|]; [|done]. cbn [mbind outcome_bind] in H.
  destruct (sl_conn y) as [j|] eqn:Ey; [destruct b; [by simplify_eq|]|];
    (destruct (first_ready s w) as [[[[[a' y'] i'] z']|]|]; cbn in H; simplify_eq;
     destruct (IH a' eq_refl) as [-> ?]; done).
Qed.

Lemma TryAccept_owns l w l' w' r err others :
  owns_listener others l w -> TryAccept l w = Ret (l', w', r, err) -> owns_listener others l' w'.
Proof.
  unfold TryAccept. intros Ho H. destruct (isClosed l); [by simplify_eq|].
  destruct (maintainConns l w) as [[l1 w1]|] eqn:E1; [|done]. cbn [mbind outcome_bind] in H.
  apply (maintainConns_owns _ _ _ _ others) in E1; [|done].
  destruct (first_ready (incoming l1) w1) as [[[[[a x] i] z]|]|] eqn:E2; cbn [mbind outcome_bind] in H; [|by simplify_eq|done].
  simplify_eq. apply first_ready_split in E2 as [E2 Ex]. unfold owns_listener in *. cbn.
  rewrite E2 in E1. rewrite !held_app in *. rewrite held_cons in E1. cbn in *. rewrite Ex in *. cbn in *.
  revert E1. apply owns_perm; [|done..]. fold (held z).
  rewrite app_assoc, <- Permutation_cons_append, <- Permutation_middle. done.
Qed.

(** A segment for one of the slots. *)
Lemma conn_Demux_owns i c off w w' e ls others :
  owns ls others w -> conn_Demux i c off w = Ret (w', e) -> owns ls others w'.
Proof. unfold conn_Demux. intros Ho H. ret_inv H. by apply owns_set. Qed.

Lemma held_insert s idx x x' : s !! idx = Some x ->
  exists rest, held s ≡ₚ held [x] ++ rest /\ held (<[idx := x']> s) ≡ₚ held [x'] ++ rest.
Proof.
  intros H. exists (held (take idx s) ++ held (drop (S idx) s)).
  pose proof (take_drop_middle s idx x H) as E. split.
  - rewrite <- E at 1. rewrite held_app, held_cons. by rewrite Permutation_app_swap_app.
  - rewrite insert_take_drop by (by eapply lookup_lt_Some). rewrite held_app, held_cons.
    by rewrite Permutation_app_swap_app.
Qed.

Lemma tryDemux_owns s rport raddr c off w s' w' ok e rest others :
  owns (held s ++ rest) others w -> tryDemux s rport raddr c off w = Ret (s', w', ok, e) ->
  owns (held s' ++ rest) others w'.
Proof.
  unfold tryDemux. intros Ho H. destruct (getConn _ _ _ _) as [[idx|]|]; cbn [mbind outcome_bind] in H;
    [|by simplify_eq|done].
  destruct (s !! idx) as [x|] eqn:Ex; [|done]. destruct (sl_conn x) as [i|]; [|done].
  destruct (conn_Demux i c off w) as [[w1 e1]|] eqn:E1; [|done]. cbn [mbind outcome_bind] in H.
  apply (conn_Demux_owns _ _ _ _ _ _ _ _ Ho) in E1. destruct e1 as [e1|]; [|by simplify_eq].
  destruct (maintainConn x _ w1) as [[[x2 w2] e2]|] eqn:E2; [|done]. cbn in H. simplify_eq.
  destruct (held_insert s idx x x2 Ex) as (r & P1 & P2). rewrite P2. rewrite P1 in E1.
  rewrite <- app_assoc in *. by eapply maintainConn_owns.
Qed.

Lemma demux_new_owns tfrm sa src dst c off l w l' w' e others :
  owns_listener others l w -> demux_new tfrm sa src dst c off l w = Ret (l', w', e) -> owns_listener others l' w'.
Proof.
  unfold demux_new. intros Ho H. destruct (Frame.OffsetAndFlags tfrm) as [[o fl]|]; [|done]. cbn [mbind outcome_bind] in H.
  destruct (_ || _).
  { destruct (_ && _); [destruct (Frame.Ack tfrm); [|done]|]; cbn in H; by simplify_eq. }
  destruct (GetTCP w) as [w1 [[[i u] iss]|]] eqn:EG.
  - pose proof (owns_get _ _ _ _ _ _ _ Ho EG) as H1. destruct (deref i w1) as [c1|]; [|done].
    cbn [mbind outcome_bind] in H. destruct (Conn.OpenListen dst iss c1) as [c2 [e2|]].
    + destruct (owns_put i (set_conn i c2 w1) _ others (owns_set _ _ _ _ _ H1)) as (w2 & E & H2).
      rewrite E in H. cbn in H. by simplify_eq.
    + destruct (conn_Demux i c off _) as [[w2 e2]|] eqn:E2; [|done]. cbn [mbind outcome_bind] in H.
      apply (conn_Demux_owns _ _ _ _ _ _ _ _ (owns_set _ _ _ _ _ H1)) in E2. destruct e2.
      * destruct (owns_put _ _ _ _ E2) as (w3 & E & H3). rewrite E in H. cbn in H. by simplify_eq.
      * destruct (deref i w2) as [c3|]; [|done]. cbn in H. simplify_eq. unfold owns_listener. cbn.
        rewrite held_app. cbn. revert E2. apply owns_perm; [|done..]. by rewrite <- Permutation_cons_append.
  - destruct (Frame.Seq tfrm); [|done]. cbn in H. simplify_eq. by eapply owns_get_none.
Qed.

Lemma Demux_owns c off l w l' w' e others :
  owns_listener others l w -> Demux c off l w = Ret (l', w', e) -> owns_listener others l' w'.
Proof.
  unfold Demux. intros Ho H. destruct (isClosed l); [by simplify_eq|]. unfold assert_or_panic in H.
  destruct (slice_ok _ _ _); [|done]. destruct (Frame.NewFrame _) as [[tfrm|] ?]; [|by simplify_eq].
  destruct (IpAddr.GetIPAddr _ _) as [[ip [?|]]|]; cbn [mbind outcome_bind] in H; [by simplify_eq| |done].
  destruct (Frame.DestinationPort tfrm) as [dst|]; [|done]. cbn [mbind outcome_bind] in H.
  destruct (negb _); [by simplify_eq|]. destruct (Frame.SourcePort tfrm) as [src|]; [|done]. cbn [mbind outcome_bind] in H.
  destruct (tryDemux (accepted l) _ _ _ _ w) as [[[[s1 w1] ok1] e1]|] eqn:E1; [|done]. cbn [mbind outcome_bind] in H.
  assert (owns_listener others (with_accepted s1 l) w1) as H1.
  { unfold owns_listener in *. cbn. rewrite Permutation_app_comm in Ho |- *. by eapply tryDemux_owns. }
  destruct ok1; [by simplify_eq|].
  destruct (tryDemux (incoming _) _ _ _ _ w1) as [[[[s2 w2] ok2] e2]|] eqn:E2; [|done]. cbn [mbind outcome_bind] in H.
  assert (owns_listener others (with_incoming s2 (with_accepted s1 l)) w2) as H2 by (by eapply tryDemux_owns).
  destruct ok2; [by simplify_eq|]. by eapply demux_new_owns.
Qed.

(** Sending. *)
Lemma conn_Encapsulate_owns i c oip off w w' c' n e ls others :
  owns ls others w -> conn_Encapsulate i c oip off w = Ret (w', c', n, e) -> owns ls others w'.
Proof. unfold conn_Encapsulate. intros Ho H. ret_inv H. by apply owns_set. Qed.

Lemma enc_incoming_owns s c oip off w s' w' c' r rest others :
  owns (held s ++ rest) others w -> enc_incoming s c oip off w = Ret (s', w', c', r) ->
  owns (held s' ++ rest) others w'.
Proof.
  revert c w s' w' c' r rest. induction s as [|x s IH]; intros c w s' w' c' r rest Ho H; cbn [enc_incoming] in H;
    [by simplify_eq|].
  destruct (match sl_conn x with Some _ => _ | None => _ end) as [[[[x1 w1] c1] r1]|] eqn:E1; [|done].
  assert (owns (held [x1] ++ held s ++ rest) others w1) as H1.
  { rewrite held_cons, <- app_assoc in Ho.
    destruct (sl_conn x) as [i|]; [|by simplify_eq]. destruct (deref i w) as [cn|]; [|done]. cbn [mbind outcome_bind] in E1.
    destruct (state_eqb _ _); [by simplify_eq|].
    destruct (conn_Encapsulate i c oip off w) as [[[[w2 c2] n2] e2]|] eqn:E2; [|done]. cbn [mbind outcome_bind] in E1.
    apply (conn_Encapsulate_owns _ _ _ _ _ _ _ _ _ _ _ Ho) in E2. destruct e2 as [e2|]; [|cbn in E1; by simplify_eq].
    destruct (maintainConn x _ w2) as [[[x3 w3] e3]|] eqn:E3; [|done]. cbn in E1. simplify_eq. by eapply maintainConn_owns. }
  cbn [mbind outcome_bind] in H. destruct r1 as [r1|].
  - simplify_eq. by rewrite held_cons, <- app_assoc.
  - destruct (enc_incoming s c1 oip off w1) as [[[[s2 w2] c2] r2]|] eqn:E2; [|done]. cbn in H. simplify_eq.
    rewrite held_cons, <- app_assoc, Permutation_app_swap_app. eapply IH; [|done]. by rewrite Permutation_app_swap_app.
Qed.

Lemma enc_accepted_owns s n err c oip off w s' w' c' n' err' rest others :
  owns (held s ++ rest) others w -> enc_accepted s n err c oip off w = Ret (s', w', c', n', err') ->
  owns (held s' ++ rest) others w'.
Proof.
  revert n err c w s' w' c' n' err' rest.
  induction s as [|x s IH]; intros n err c w s' w' c' n' err' rest Ho H; cbn [enc_accepted] in H; [by simplify_eq|].
  assert (forall x1 n1 e1 c1 w1, owns (held [x1] ++ held s ++ rest) others w1 ->
    (r ← enc_accepted s n1 e1 c1 oip off w1; let '(s, w, carrier, n, err) := r in Ret (x1 :: s, w, carrier, n, err))
      = Ret (s', w', c', n', err') -> owns (held s' ++ rest) others w') as Hgo.
  { intros x1 n1 e1 c1 w1 H1 HE. destruct (enc_accepted s n1 e1 c1 oip off w1) as [[[[[s2 w2] c2] n2] e2]|] eqn:E2; [|done].
    cbn in HE. simplify_eq. rewrite held_cons, <- app_assoc, Permutation_app_swap_app. eapply IH; [|done].
    by rewrite Permutation_app_swap_app. }
  rewrite held_cons, <- app_assoc in Ho.
  destruct (sl_conn x) as [i|] eqn:Ex; [|by eapply Hgo]. destruct (deref i w) as [cn|]; [|done]. cbn [mbind outcome_bind] in H.
  destruct (negb _).
  { destruct (return_slot x w) as [[x1 w1]|] eqn:E1; [|done]. eapply Hgo; [by eapply return_slot_owns|done]. }
  destruct (conn_Encapsulate i c oip off w) as [[[[w2 c2] n2] e2]|] eqn:E2; [|done]. cbn [mbind outcome_bind] in H.
  apply (conn_Encapsulate_owns _ _ _ _ _ _ _ _ _ _ _ Ho) in E2. destruct (0 <? n2).
  { simplify_eq. by rewrite held_cons, <- app_assoc. }
  destruct (err_is e2 NetErrClosed); [|by eapply Hgo].
  destruct (return_slot x w2) as [[x1 w1]|] eqn:E1; [|done]. eapply Hgo; [by eapply return_slot_owns|done].
Qed.

Lemma Encapsulate_owns c oip off l w l' w' c' n e others :
  owns_listener others l w -> Encapsulate c oip off l w = Ret (l', w', c', n, e) -> owns_listener others l' w'.
Proof.
  unfold Encapsulate. intros Ho H. destruct (isClosed l); [by simplify_eq|].
  destruct (enc_incoming (incoming l) c oip off w) as [[[[s1 w1] c1] r1]|] eqn:E1; [|done]. cbn [mbind outcome_bind] in H.
  assert (owns_listener others (with_incoming s1 l) w1) as H1 by (by eapply enc_incoming_owns).
  destruct r1 as [[n1 e1]|]; [by simplify_eq|].
  destruct (enc_accepted _ 0 None c1 oip off w1) as [[[[[s2 w2] c2] n2] e2]|] eqn:E2; [|done]. cbn [mbind outcome_bind] in H.
  assert (owns_listener others (with_accepted s2 (with_incoming s1 l)) w2) as H2.
  { unfold owns_listener in *. cbn in *. rewrite Permutation_app_comm in H1 |- *. by eapply enc_accepted_owns. }
  destruct (if n2 =? 0 then _ else _) as [[[l3 c3] n3]|] eqn:E3; [|done]. cbn [mbind outcome_bind] in H.
  assert (owns_listener others l3 w2) as H3.
  { destruct (n2 =? 0); [|by simplify_eq]. destruct (RstQueue.Drain _ _ _ _) as [[[[q c4] n4] e4]|]; [|done].
    cbn in E3. by simplify_eq. }
  destruct (n3 =? 0); [|cbn in H; by simplify_eq].
  destruct (maintainConns l3 w2) as [[l4 w4]|] eqn:E4; [|done]. cbn in H. simplify_eq. by eapply maintainConns_owns.
Qed.

Lemma owns_step w w' ls others : owns ls others w -> pool_step w w' -> owns ls others w'.
Proof.
  intros [H1 H2 H3 H4] (Hw & Ho)%step_keeps; [|done]. split; try done. intros i. by rewrite Ho.
Qed.

(** ** Looking at the connections does not fail *)

Lemma owns_deref i ls others w : owns ls others w -> i ∈ ls -> exists c, deref i w = Ret c /\ get_conn i w = Some c.
Proof.
  intros [H1 _ _ H4] Hi. destruct (owned_valid i w H1) as [c E]; [apply H4; auto|].
  exists c. unfold deref. by rewrite E.
Qed.

Lemma maintain_incoming_total s w rest others :
  owns (held s ++ rest) others w -> exists r, maintain_incoming s w = Ret r.
Proof.
  revert w rest. induction s as [|x s IH]; intros w rest Ho; cbn [maintain_incoming]; [by eexists|].
  rewrite held_cons, <- app_assoc in Ho.
  assert (exists x1 w1, match sl_conn x with
      | None => Ret (x, w)
      | Some i => c ← deref i w; if hopeless (Conn.State c) then return_slot x w else Ret (x, w)
      end = Ret (x1, w1) /\ owns (held [x1] ++ held s ++ rest) others w1) as (x1 & w1 & E & H1).
  { destruct (sl_conn x) as [i|] eqn:Ex; [|by eexists _, _]. assert (held [x] = [i]) as Eh by (cbn; by rewrite Ex).
    destruct (owns_deref i _ _ _ Ho) as (c & -> & _); [rewrite Eh; set_solver|]. cbn [mbind outcome_bind].
    destruct (hopeless _); [|by eexists _, _]. unfold return_slot. rewrite Ex, Eh in *.
    destruct (owns_put _ _ _ _ Ho) as (w1 & E & H1). rewrite E. by eexists _, _. }
  rewrite E. cbn [mbind outcome_bind].
  destruct (IH w1 (held [x1] ++ rest)) as [[s2 w2] E2]; [by rewrite Permutation_app_swap_app|].
  rewrite E2. by eexists.
Qed.

Lemma first_ready_total s w rest others : owns (held s ++ rest) others w -> exists r, first_ready s w = Ret r.
Proof.
  revert rest. induction s as [|x s IH]; intros rest Ho; cbn [first_ready]; [by eexists|].
  rewrite held_cons, <- app_assoc in Ho. unfold established.
  destruct (IH (held [x] ++ rest)) as [r E]; [by rewrite Permutation_app_swap_app|].
  destruct (sl_conn x) as [i|] eqn:Ex; [|rewrite E; by eexists].
  destruct (owns_deref i _ _ _ Ho) as (c & -> & _); [cbn; rewrite Ex; set_solver|]. cbn [mbind outcome_bind].
  destruct (state_eqb _ _); [by eexists|]. rewrite E. by eexists.
Qed.

Lemma first_ready_established s w a x i z : first_ready s w = Ret (Some (a, x, i, z)) ->
  exists c, get_conn i w = Some c /\ Conn.State c = StateEstablished.
Proof.
  revert a. induction s as [|y s IH]; intros a H; cbn [first_ready] in H; [done|].
  unfold established in H. destruct (sl_conn y) as [j|].
  - unfold deref in H. destruct (get_conn j w) as [c|] eqn:Ec; [|done]. cbn [mbind outcome_bind] in H.
    destruct (state_eqb (Conn.State c) StateEstablished) eqn:Es.
    + simplify_eq. exists c. split; [done|]. by destruct (Conn.State c).
    + destruct (first_ready s w) as [[[[[a' y'] i'] z']|]|]; cbn in H; simplify_eq. by apply (IH a').
  - cbn [mbind outcome_bind] in H. destruct (first_ready s w) as [[[[[a' y'] i'] z']|]|]; cbn in H; simplify_eq.
    by apply (IH a').
Qed.

Lemma TryAccept_total l w others : owns_listener others l w -> exists r, TryAccept l w = Ret r.
Proof.
  intros Ho. unfold TryAccept. destruct (isClosed l); [by eexists|].
  assert (exists l1 w1, maintainConns l w = Ret (l1, w1)) as (l1 & w1 & E).
  { unfold maintainConns. cbn [incoming with_accepted].
    destruct (maintain_incoming_total _ _ _ _ Ho) as [[s w1] E]. rewrite E. by eexists _, _. }
  rewrite E. cbn [mbind outcome_bind]. apply (maintainConns_owns _ _ _ _ others) in E; [|done].
  destruct (first_ready_total _ _ _ _ E) as [r E2]. rewrite E2. cbn. repeat case_match; by eexists.
Qed.

End Owns.
End ListenerProps.
