(* ===== verification/TcpPool.v ===== *)
(** * The connection pool ([src/x/xnet/tcppool.go])

    [TCPPool] implements the interface [pool] of listeners over an array of
    connections. The state of the class [Pool] is the pool with the time its clock
    shows; an entry of [acquiredAt] is 0 for a free connection. *)
From stdpp Require Import gmap.
From S2P Require Import Prelude Errors SeqNum Segment Handler Conn Listener ListenerProps.

Module TcpPool.
Import Segment Listener ListenerProps.

Record TCPPool (P U : Type) := mkPool {
  naqcuired : Z;
  conns : list (Conn.Conn P);
  userData : list (option U);
  acquiredAt : list Z;
  closingAt : list Z;
  abortedAt : list Z;
  nextISS : Z;
  estbTimeout : Z;
  closingTimeout : Z
}.
Arguments mkPool {P U} _ _ _ _ _ _ _ _ _.
Arguments naqcuired {P U} _.
Arguments conns {P U} _.
Arguments userData {P U} _.
Arguments acquiredAt {P U} _.
Arguments closingAt {P U} _.
Arguments abortedAt {P U} _.
Arguments nextISS {P U} _.
Arguments estbTimeout {P U} _.
Arguments closingTimeout {P U} _.

(** The functions of the configuration are given by what they return for the
    [i]-th connection; [None] is a nil function. *)
Record TCPPoolConfig (P U : Type) := mkPoolConfig {
  PoolSize : Z;
  QueueSize : Z;
  TxBufSize : Z;
  RxBufSize : Z;
  EstablishedTimeout : Z;
  ClosingTimeout : Z;
  NewUserData : option (nat -> option U);
  NewBackoff : option (nat -> bool);
  NewPolicy : option (nat -> option P)
}.
Arguments mkPoolConfig {P U} _ _ _ _ _ _ _ _ _.
Arguments PoolSize {P U} _.
Arguments QueueSize {P U} _.
Arguments TxBufSize {P U} _.
Arguments RxBufSize {P U} _.
Arguments EstablishedTimeout {P U} _.
Arguments ClosingTimeout {P U} _.
Arguments NewUserData {P U} _.
Arguments NewBackoff {P U} _.
Arguments NewPolicy {P U} _.

Section Pool.
Context {P U : Type} `{HP : !Handler.Policy P}.
Implicit Types (p : TCPPool P U) (cfg : TCPPoolConfig P U).

Definition with_conns (c : list (Conn.Conn P)) p : TCPPool P U :=
  mkPool (naqcuired p) c (userData p) (acquiredAt p) (closingAt p) (abortedAt p) (nextISS p) (estbTimeout p)
    (closingTimeout p).
Definition with_times (closing aborted : list Z) p : TCPPool P U :=
  mkPool (naqcuired p) (conns p) (userData p) (acquiredAt p) closing aborted (nextISS p) (estbTimeout p)
    (closingTimeout p).

(** [make([]byte, n)] for the buffers of one connection. *)
Definition conn_config cfg (i : nat) (backoff : nat -> bool) : Conn.ConnConfig P :=
  Conn.mkConnConfig (Some (replicate (Z.to_nat (RxBufSize cfg)) 0)) (Some (replicate (Z.to_nat (TxBufSize cfg)) 0))
    (QueueSize cfg) (backoff i)
    (match NewPolicy cfg with Some f => f i | None => None end).

(** The loop that configures the connections [i ..], [k] of them. *)
Fixpoint configure_loop cfg (backoff : nat -> bool) (k : nat) (i : nat) : list (Conn.Conn P) + error :=
  match k with
  | O => inl []
  | S k =>
      match Conn.Configure (conn_config cfg i backoff) (Conn.reset Handler.zero_handler) with
      | (_, Some e) => inr e
      | (c, None) => match configure_loop cfg backoff k (S i) with inl l => inl (c :: l) | inr e => inr e end
      end
  end.

Definition NewTCPPool cfg : outcome (TCPPool P U + error) :=
  if (EstablishedTimeout cfg <=? 0) || (ClosingTimeout cfg <=? 0) then Ret (inr ErrInvalidConfig)
  else
  match NewBackoff cfg with
  | None => Ret (inr ErrMissingHALConfig)
  | Some backoff =>
      let n := Z.to_nat (PoolSize cfg) in
      assert_or_panic ((PoolSize cfg =? 0) || ((0 <=? RxBufSize cfg) && (0 <=? TxBufSize cfg)))
      (match configure_loop cfg backoff n 0 with
       | inr e => Ret (inr e)
       | inl l =>
           Ret (inl (mkPool 0 l
             (match NewUserData cfg with Some f => f <$> seq 0 n | None => replicate n None end)
             (replicate n 0) (replicate n 0) (replicate n 0) 0 (EstablishedTimeout cfg) (ClosingTimeout cfg)))
       end)
  end.

Definition NumberOfAcquired p : Z := naqcuired p.

(** The first free index. *)
Fixpoint first_free (l : list Z) : option nat :=
  match l with
  | [] => None
  | t :: l => if t =? 0 then Some O else option_map S (first_free l)
  end.

Definition GetTCP (now : Z) p : TCPPool P U * option (nat * option U * Z) :=
  match first_free (acquiredAt p) with
  | None => (p, None)
  | Some i =>
      let iss := u32 (nextISS p + 1000) in
      (mkPool (naqcuired p + 1) (conns p) (userData p) (<[i := now]> (acquiredAt p)) (closingAt p) (abortedAt p)
         iss (estbTimeout p) (closingTimeout p),
       Some (i, default None (userData p !! i), iss))
  end.

Definition PutTCP (i : nat) p : outcome (TCPPool P U) :=
  match conns p !! i with
  | None => Panic
  | Some c =>
      Ret (mkPool (naqcuired p - 1) (<[i := Conn.Abort c]> (conns p)) (userData p) (<[i := 0]> (acquiredAt p))
             (<[i := 0]> (closingAt p)) (<[i := 0]> (abortedAt p)) (nextISS p) (estbTimeout p) (closingTimeout p))
  end.

(** [conn.Close()] when no other goroutine runs; [None]: it waits for the write lock. *)
Definition close_alone (now : Z) (c : Conn.Conn P) : option (Conn.Conn P) :=
  let run := fun '(t, c) => let '(t, c, _) := Conn.step now t c in (t, c) in
  match Nat.iter 5 run (Conn.Start Conn.Close, c) with
  | (Conn.Done _ _ _, c) => Some c
  | _ => None
  end.

(** One connection of [CheckTimeouts]: the connection and its two time stamps. *)
Definition check_timeout (now acq closing aborted estb closingT : Z) (c : Conn.Conn P)
    : option (Conn.Conn P * Z * Z) :=
  let st := Conn.State c in
  if state_eqb st StateEstablished then Some (c, closing, aborted)
  else if acq =? 0 then Some (c, closing, aborted)
  else if IsPreestablished st && (estb <? i64 (now - acq)) then
    match close_alone now c with Some c => Some (c, closing, aborted) | None => None end
  else if IsClosed st || IsClosing st then
    if closing =? 0 then Some (c, now, aborted)
    else if (aborted =? 0) && (closingT <? i64 (now - closing)) then Some (Conn.Abort c, closing, now)
    else Some (c, closing, aborted)
  else Some (c, closing, aborted).

Fixpoint check_loop (now estb closingT : Z) (cs : list (Conn.Conn P)) (acq closing aborted : list Z)
    : option (list (Conn.Conn P) * list Z * list Z) :=
  match cs, acq, closing, aborted with
  | c :: cs, a :: acq, k :: closing, b :: aborted =>
      match check_timeout now a k b estb closingT c with
      | None => None
      | Some (c, k, b) =>
          match check_loop now estb closingT cs acq closing aborted with
          | Some (cs, closing, aborted) => Some (c :: cs, k :: closing, b :: aborted)
          | None => None
          end
      end
  | cs, _, closing, aborted => Some (cs, closing, aborted)
  end.

Definition CheckTimeouts (now : Z) p : option (TCPPool P U) :=
  match check_loop now (estbTimeout p) (closingTimeout p) (conns p) (acquiredAt p) (closingAt p) (abortedAt p) with
  | Some (cs, closing, aborted) => Some (with_times closing aborted (with_conns cs p))
  | None => None
  end.

(** The interface of the listener. *)
#[global] Instance tcp_pool : Pool P U (TCPPool P U * Z) := {
  Listener.GetTCP := fun '(p, now) => let '(p, r) := GetTCP now p in ((p, now), r);
  Listener.PutTCP := fun i '(p, now) => p ← PutTCP i p; Ret (p, now);
  get_conn := fun i '(p, _) => conns p !! i;
  set_conn := fun i c '(p, now) => (with_conns (<[i := c]> (conns p)) p, now)
}.

(** ** The laws of the pool *)

Definition taken (l : list Z) : Z := zlen (filter (fun t => t <> 0) l).

(** The arrays have the same length, the clock is not at its zero time, and the
    count is right. *)
Record tcp_pool_wf (w : TCPPool P U * Z) : Prop := mkPoolWf {
  pw_now : snd w <> 0;
  pw_acq : length (acquiredAt (fst w)) = length (conns (fst w));
  pw_closing : length (closingAt (fst w)) = length (conns (fst w));
  pw_aborted : length (abortedAt (fst w)) = length (conns (fst w));
  pw_count : naqcuired (fst w) = taken (acquiredAt (fst w))
}.

Definition tcp_owned (w : TCPPool P U * Z) : gset nat :=
  list_to_set (filter (fun i => default 0 (acquiredAt (fst w) !! i) <> 0) (seq 0 (length (acquiredAt (fst w))))).

Lemma elem_of_tcp_owned i w : i ∈ tcp_owned w <-> default 0 (acquiredAt (fst w) !! i) <> 0.
Proof.
  unfold tcp_owned. rewrite elem_of_list_to_set, list_elem_of_filter, elem_of_seq.
  split; [by intros [? _]|]. intros Hi. split; [done|].
  destruct (acquiredAt (fst w) !! i) eqn:E; [|done]. apply lookup_lt_Some in E. lia.
Qed.

Lemma first_free_some l i : first_free l = Some i -> l !! i = Some 0.
Proof.
  revert i. induction l as [|t l IH]; intros i H; cbn in H; [done|].
  destruct (Z.eqb_spec t 0) as [->|]; [by simplify_eq|].
  destruct (first_free l) as [j|]; cbn in H; simplify_eq. by apply IH.
Qed.

Lemma taken_cons t l : taken (t :: l) = (if t =? 0 then 0 else 1) + taken l.
Proof.
  unfold taken. rewrite filter_cons. destruct (Z.eqb_spec t 0) as [->|Ht].
  - by rewrite decide_False by (by intros []).
  - rewrite decide_True by done. by rewrite zlen_cons.
Qed.

Lemma taken_insert l i x y : l !! i = Some x ->
  taken (<[i := y]> l) = taken l - (if x =? 0 then 0 else 1) + (if y =? 0 then 0 else 1).
Proof.
  revert i. induction l as [|t l IH]; intros [|i] H; [done..| |]; cbn in H.
  - simplify_eq. change (<[0%nat := y]> (x :: l)) with (y :: l). rewrite !taken_cons. lia.
  - change (<[S i := y]> (t :: l)) with (t :: <[i := y]> l). rewrite !taken_cons, (IH i H). lia.
Qed.

(** [CheckTimeouts] takes and returns no connection. *)
Lemma check_loop_length now e ct cs acq k b cs' k' b' :
  check_loop now e ct cs acq k b = Some (cs', k', b') ->
  length cs' = length cs /\ length k' = length k /\ length b' = length b.
Proof.
  revert acq k b cs' k' b'. induction cs as [|c cs IH]; intros [|a acq] [|k0 k] [|b0 b] cs' k' b' H; cbn in H; try by simplify_eq.
  destruct (check_timeout _ _ _ _ _ _ _) as [[[c1 k1] b1]|]; [|done].
  destruct (check_loop _ _ _ _ _ _ _) as [[[cs2 k2] b2]|] eqn:E; [|done]. simplify_eq.
  apply IH in E as (E1 & E2 & E3). cbn. by rewrite E1, E2, E3.
Qed.

Lemma CheckTimeouts_keeps p now p' : CheckTimeouts now p = Some p' -> tcp_pool_wf (p, now) ->
  tcp_pool_wf (p', now) /\ tcp_owned (p', now) = tcp_owned (p, now).
Proof.
  unfold CheckTimeouts. destruct (check_loop _ _ _ _ _ _ _) as [[[cs k] b]|] eqn:E; [|done].
  apply check_loop_length in E as (E1 & E2 & E3). intros [= <-] [H1 H2 H3 H4 H5]. cbn in *.
  split; [split; cbn; congruence|done].
Qed.

(** By itself the pool checks its timeouts, and time passes. *)
Definition tcp_step (w w' : TCPPool P U * Z) : Prop :=
  (CheckTimeouts (snd w) (fst w) = Some (fst w') /\ snd w' = snd w) \/ (fst w' = fst w /\ snd w' <> 0).

#[global] Instance tcp_pool_laws : PoolLaws P U (TCPPool P U * Z).
Proof.
  refine {| pool_wf := tcp_pool_wf; owned := tcp_owned; pool_step := tcp_step |}.
  - intros i [p now] [H1 H2 H3 H4 H5] Hi. cbn in *. apply elem_of_tcp_owned in Hi. cbn in Hi.
    destruct (acquiredAt p !! i) eqn:E; [|done]. apply lookup_lt_Some in E. apply lookup_lt_is_Some. lia.
  - intros [p now] w' i u iss [H1 H2 H3 H4 H5] H. cbn in *. unfold GetTCP in H.
    destruct (first_free (acquiredAt p)) as [k|] eqn:E; simplify_eq. apply first_free_some in E.
    split; [|split; [|split; [|done]]].
    + split; cbn; try done; [by rewrite length_insert|]. rewrite (taken_insert _ _ _ _ E), H5. cbn.
      destruct (Z.eqb_spec now 0); [done|lia].
    + rewrite elem_of_tcp_owned. cbn. rewrite E. by intros [].
    + apply set_eq. intros j. rewrite elem_of_union, elem_of_singleton, !elem_of_tcp_owned. cbn.
      destruct (decide (j = i)) as [->|Hj]; [rewrite list_lookup_insert_eq by (by eapply lookup_lt_Some); cbn; tauto|].
      rewrite list_lookup_insert_ne by done. tauto.
  - intros [p now] w' Hw H. cbn in *. unfold GetTCP in H. destruct (first_free _); by simplify_eq.
  - intros i [p now] [H1 H2 H3 H4 H5] Hi. cbn in *. apply elem_of_tcp_owned in Hi. cbn in Hi.
    destruct (acquiredAt p !! i) as [t|] eqn:E; [|done]. cbn in Hi.
    assert (is_Some (conns p !! i)) as [c Ec] by (apply lookup_lt_is_Some; apply lookup_lt_Some in E; lia).
    unfold PutTCP. rewrite Ec. cbn. eexists. split; [done|]. split; [|split].
    + split; cbn; rewrite ?length_insert; try done. rewrite (taken_insert _ _ _ _ E), H5.
      destruct (Z.eqb_spec t 0); [done|]. cbn. lia.
    + apply set_eq. intros j. rewrite elem_of_difference, elem_of_singleton, !elem_of_tcp_owned. cbn.
      destruct (decide (j = i)) as [->|Hj]; [rewrite list_lookup_insert_eq by (by eapply lookup_lt_Some); cbn; tauto|].
      rewrite list_lookup_insert_ne by done. tauto.
    + intros j Hj. cbn. by rewrite list_lookup_insert_ne.
  - intros i c [p now] [H1 H2 H3 H4 H5]. split; cbn in *; by rewrite ?length_insert.
  - by intros i c [p now].
  - intros i c [p now] [x Hx]. cbn in *. apply list_lookup_insert_eq. by eapply lookup_lt_Some.
  - intros i j c [p now] Hj. cbn. by apply list_lookup_insert_ne.
  - intros [p now] [p' now'] Hw [[E1 E2]|[E1 E2]]; cbn in *; subst; [by apply CheckTimeouts_keeps|].
    split; [|done]. destruct Hw as [H1 H2 H3 H4 H5]. by split.
Defined.

End Pool.
End TcpPool.
