(* ===== verification/ListenerThms.v ===== *)
(** * Theorems on listeners

    Over any run of a listener, of the applications that use its connections and of
    the pool, every connection is accounted for and none is shared; a segment reaches
    only the connection of its sender. The connections that [Reset] drops without
    returning them to the pool are counted in a set of their own
    ([listener_loses_connections] executes such a run). *)
From stdpp Require Import gmap.
From S2P Require Import Prelude Errors Bytes SeqNum Segment Frame IpAddr RstQueue Handler HandlerThms Conn ConnThms.
From S2P Require Import Listener ListenerProps TcpPool.

Module ListenerThms.
Import Segment Listener ListenerProps.

Section Thms.
Context {P U W : Type} `{HP : !Handler.Policy P} `{!Pool P U W} `{LW : !PoolLaws P U W}.
Implicit Types (l : Listener U) (w : W) (others : gset nat).

(** One step of the listener, of a user of a connection, or of the pool. The set holds
    the connections that the listener dropped without returning them to the pool. *)
Inductive lstep : Listener U * W * gset nat -> Listener U * W * gset nat -> Prop :=
| ls_demux c off l w l' w' e lost :
    Demux c off l w = Ret (l', w', e) -> lstep (l, w, lost) (l', w', lost)
| ls_encapsulate c oip off l w l' w' c' n e lost :
    Encapsulate c oip off l w = Ret (l', w', c', n, e) -> lstep (l, w, lost) (l', w', lost)
| ls_accept l w l' w' r e lost :
    TryAccept l w = Ret (l', w', r, e) -> lstep (l, w, lost) (l', w', lost)
| ls_close l w l' e lost : Close l = (l', e) -> lstep (l, w, lost) (l', w, lost)
| ls_reset p nilpool l w l' lost : Reset p nilpool l = (l', None) ->
    lstep (l, w, lost) (l', w, list_to_set (held (incoming l) ++ held (accepted l)) ∪ lost)
| ls_user i c l w lost : lstep (l, w, lost) (l, set_conn i c w, lost)
| ls_pool l w w' lost : pool_step w w' -> lstep (l, w, lost) (l, w', lost).

(** What [Reset] drops belongs to nobody from then on. *)
Lemma owns_drop ls others lost w :
  owns ls (others ∪ lost) w -> owns [] (others ∪ (list_to_set ls ∪ lost)) w.
Proof.
  intros [A1 A2 A3 A4]. split; [done|constructor|by intros i Hi%elem_of_nil|].
  intros i. rewrite A4, elem_of_nil. set_solver.
Qed.

Lemma lrun_owns others x y :
  rtc lstep x y -> owns_listener (others ∪ x.2) x.1.1 x.1.2 -> owns_listener (others ∪ y.2) y.1.1 y.1.2.
Proof.
  induction 1 as [|x y z H _ IH]; [done|]. intros Ho. apply IH. clear IH z.
  destruct H as [| | |l w l' e lost H|p np l w l' lost H| |]; cbn in *;
    eauto using Demux_owns, Encapsulate_owns, TryAccept_owns.
  - unfold Close in H. by destruct (isClosed l); simplify_eq.
  - unfold Reset in H. destruct (p =? 0); [done|]. destruct np; [done|]. simplify_eq. by apply owns_drop.
  - by eapply owns_set.
  - by eapply owns_step.
Qed.

(** Only the connection [i] changes. *)
Definition only (i : nat) w w' : Prop := forall j, j <> i -> get_conn j w' = get_conn j w.

Lemma only_trans i w1 w2 w3 : only i w1 w2 -> only i w2 w3 -> only i w1 w3.
Proof. intros H1 H2 j Hj. by rewrite H2, H1. Qed.

Lemma only_set i c w : only i w (set_conn i c w).
Proof. intros j Hj. by apply set_get_ne. Qed.

Lemma only_put i w w' : pool_wf w -> i ∈ owned w -> PutTCP i w = Ret w' -> only i w w'.
Proof. intros Hw Hi H. destruct (put_owned i w Hw Hi) as (w1 & E & _ & _ & Ho).
  rewrite E in H. injection H as <-. exact Ho.
Qed.

Lemma conn_Demux_only i c off w w' e : conn_Demux i c off w = Ret (w', e) -> only i w w'.
Proof. unfold conn_Demux. intros H. ret_inv H. apply only_set. Qed.

Lemma getConn_match s rport raddr w idx : getConn s rport raddr w = Ret (Some idx) ->
  exists x i c, s !! idx = Some x /\ sl_conn x = Some i /\ get_conn i w = Some c /\
    Conn.RemotePort c = rport /\ Conn.remoteAddr c = raddr.
Proof.
  revert idx. induction s as [|x s IH]; intros idx H; cbn [getConn] in H; [done|].
  destruct (match sl_conn x with Some _ => _ | None => _ end) as [hit|] eqn:Eh; [|done]. cbn [mbind outcome_bind] in H.
  destruct hit.
  - simplify_eq. destruct (sl_conn x) as [i|] eqn:Ex; [|done]. unfold deref in Eh.
    destruct (get_conn i w) as [c|] eqn:Ec; [|done]. cbn in Eh. injection Eh as Eh.
    apply andb_prop in Eh as [E1%Z.eqb_eq E2%bool_decide_eq_true]. exists x, i, c. by rewrite Ex.
  - destruct (getConn s rport raddr w) as [[k|]|]; cbn in H; simplify_eq. by apply IH.
Qed.

(** The peer a connection belongs to. *)
Definition is_peer (rport : Z) (raddr : list Z) (i : nat) w : Prop :=
  exists c, get_conn i w = Some c /\ Conn.RemotePort c = rport /\ Conn.remoteAddr c = raddr.

Lemma tryDemux_only s rport raddr c off w s' w' ok e rest others :
  owns (held s ++ rest) others w -> tryDemux s rport raddr c off w = Ret (s', w', ok, e) ->
  if ok then exists i, i ∈ held s /\ only i w w' /\ is_peer rport raddr i w else w' = w.
Proof.
  unfold tryDemux. intros Ho H. destruct (getConn s rport raddr w) as [[idx|]|] eqn:Eg; cbn [mbind outcome_bind] in H;
    [|by simplify_eq|done].
  apply getConn_match in Eg as (x & i & cn & Ex & Ei & Ec & Ep & Ea). rewrite Ex, Ei in H.
  assert (i ∈ held s) as Hin.
  { unfold held. apply list_elem_of_omap. exists x. split; [|done]. by eapply list_elem_of_lookup_2. }
  destruct (conn_Demux i c off w) as [[w1 e1]|] eqn:E1; [|done]. cbn [mbind outcome_bind] in H.
  pose proof (conn_Demux_owns _ _ _ _ _ _ _ _ Ho E1) as Ho1. apply conn_Demux_only in E1.
  destruct e1 as [e1|]; [|simplify_eq; exists i; split; [done|]; split; [done|by exists cn]].
  unfold maintainConn in H. destruct (err_is _ _).
  - unfold return_slot in H. rewrite Ei in H. destruct (PutTCP i w1) as [w2|] eqn:E2; [|done]. cbn in H. simplify_eq.
    exists i. split; [done|]. split; [|by exists cn]. eapply only_trans; [done|]. destruct Ho1 as [A1 A2 A3 A4].
    eapply only_put; try done. apply A4. set_solver.
  - cbn in H. simplify_eq. exists i. split; [done|]. split; [done|by exists cn].
Qed.

Lemma demux_new_only tfrm sa src dst c off l w l' w' e others :
  owns_listener others l w -> demux_new tfrm sa src dst c off l w = Ret (l', w', e) ->
  (forall j, get_conn j w' = get_conn j w) \/ exists i, (i ∉ owned w) /\ only i w w'.
Proof.
  unfold demux_new. intros Ho H. destruct (Frame.OffsetAndFlags tfrm) as [[o fl]|]; [|done]. cbn [mbind outcome_bind] in H.
  destruct (_ || _).
  { destruct (_ && _); [destruct (Frame.Ack tfrm); [|done]|]; cbn in H; simplify_eq; by left. }
  pose proof (ow_wf _ _ _ Ho) as Hw. destruct (GetTCP w) as [w1 [[[i u] iss]|]] eqn:EG.
  - right. exists i. destruct (get_some _ _ _ _ _ Hw EG) as (Hw1 & Hf & Hon & Hsame).
    split; [done|]. assert (only i w w1) as O1 by (intros j _; apply Hsame).
    destruct (deref i w1) as [c1|]; [|done].
    cbn [mbind outcome_bind] in H. destruct (Conn.OpenListen dst iss c1) as [c2 [e2|]].
    + destruct (PutTCP i _) as [w2|] eqn:E; [|done]. cbn in H. simplify_eq.
      eapply only_trans; [done|]. eapply only_trans; [apply only_set|]. eapply only_put; [|  |done].
      { by apply set_wf. } rewrite set_owned, Hon. set_solver.
    + destruct (conn_Demux i c off _) as [[w2 e2]|] eqn:E2; [|done]. cbn [mbind outcome_bind] in H.
      pose proof (conn_Demux_owns _ _ _ _ _ _ _ _ (owns_set i c2 _ _ _ (owns_get _ _ _ _ _ _ _ Ho EG)) E2) as H2.
      apply conn_Demux_only in E2. assert (only i w w2) as O2.
      { eapply only_trans; [done|]. eapply only_trans; [apply only_set|done]. }
      destruct e2.
      * destruct (PutTCP i w2) as [w3|] eqn:E3; [|done]. cbn in H. simplify_eq. eapply only_trans; [done|].
        destruct H2 as [A1 A2 A3 A4]. eapply only_put; try done. apply A4. set_solver.
      * destruct (deref i w2); [|done]. cbn in H. by simplify_eq.
  - destruct (Frame.Seq tfrm); [|done]. cbn in H. simplify_eq. left. by destruct (get_none _ _ Hw EG) as (_ & _ & ?).
Qed.

End Thms.

(** C5: every connection is accounted for and none is shared. Over any run of the
    listener, its [Close] and [Reset] included, together with applications that do
    anything to the connections and a pool that keeps its laws, every connection
    taken from the pool is in exactly one slot of this listener, belongs to another,
    or is one that a [Reset] of the listener dropped with its slots and did not return
    ([lost]: [Reset] is the only step that loses connections, and it loses exactly
    those in its slots). Accepting never fails to return; what it hands out is an
    established connection that moves from the incoming to the accepted ones, so that
    nobody else gets it. *)
Theorem listener_owns_connections {P U W} `{HP : !Handler.Policy P} `{!Pool P U W} `{LW : !PoolLaws P U W}
  (others lost : gset nat) (l l' : Listener U) (w w' : W)
  (Ho : owns_listener others l w) (Hr : rtc lstep (l, w, ∅) (l', w', lost)) :
  NoDup (held (incoming l') ++ held (accepted l')) /\
  (forall i, i ∈ owned w' <-> i ∈ held (incoming l') ++ held (accepted l') \/ i ∈ others \/ i ∈ lost) /\
  (forall i, i ∈ held (incoming l') ++ held (accepted l') -> i ∉ others /\ i ∉ lost) /\
  (exists r, TryAccept l' w' = Ret r) /\
  (forall l2 w2 i u e, TryAccept l' w' = Ret (l2, w2, Some (i, u), e) ->
     i ∈ held (accepted l2) /\ (i ∉ held (incoming l2)) /\
     exists c, get_conn i w2 = Some c /\ Conn.State c = StateEstablished).
Proof.
  apply (lrun_owns others) in Hr; cbn [fst snd] in *; [|by rewrite union_empty_r_L].
  destruct (Hr) as [H1 H2 H3 H4].
  split; [done|]. split; [intros i; rewrite H4; set_solver|]. split; [set_solver|].
  split; [by eapply TryAccept_total|].
  intros l2 w2 i u e H. pose proof (TryAccept_owns _ _ _ _ _ _ _ Hr H) as [_ Hnd _ _].
  assert (i ∈ held (accepted l2) /\ exists c, get_conn i w2 = Some c /\ Conn.State c = StateEstablished) as [Ha Hc].
  { unfold TryAccept in H. destruct (isClosed l'); [done|].
    destruct (maintainConns l' w') as [[l1 w1]|]; [|done]. cbn [mbind outcome_bind] in H.
    destruct (first_ready (incoming l1) w1) as [[[[[a x] j] z]|]|] eqn:E2; cbn [mbind outcome_bind] in H; [|done..].
    simplify_eq. destruct (first_ready_split _ _ _ _ _ _ E2) as [_ Ex]. split; [|by eapply first_ready_established].
    cbn [accepted with_incoming with_accepted]. rewrite held_app, elem_of_app. right. cbn. rewrite Ex. set_solver. }
  split; [done|]. split; [|done]. apply NoDup_app in Hnd as (_ & Hd & _). intros Hi. by apply (Hd i).
Qed.

(** C6: a segment reaches only the connection of its sender. Receiving changes at most
    one connection: one of the listener whose peer has the source address and port
    of the segment, or one that was free. *)
Theorem segment_reaches_its_connection {P U W} `{HP : !Handler.Policy P} `{!Pool P U W} `{LW : !PoolLaws P U W}
  (others : gset nat) (l l' : Listener U) (w w' : W) c off e
  (Ho : owns_listener others l w) (Hd : Demux c off l w = Ret (l', w', e)) :
  (forall j, get_conn j w' = get_conn j w) \/
  exists i, (forall j, j <> i -> get_conn j w' = get_conn j w) /\
    ((i ∉ owned w) \/
     (i ∈ held (incoming l) ++ held (accepted l) /\
      exists ip src, IpAddr.GetIPAddr c (zlen c) = Ret (ip, None) /\
        Frame.SourcePort (Frame.mkFrame (zdrop off c)) = Ret src /\ is_peer src (IpAddr.ip_src ip) i w)).
Proof.
  unfold Demux in Hd. destruct (isClosed l); [simplify_eq; by left|]. unfold assert_or_panic in Hd.
  destruct (slice_ok _ _ _); [|done]. unfold Frame.NewFrame in Hd. destruct (_ <? _); [simplify_eq; by left|].
  destruct (IpAddr.GetIPAddr c (zlen c)) as [[ip [?|]]|]; cbn [mbind outcome_bind] in Hd; [simplify_eq; by left| |done].
  destruct (Frame.DestinationPort _) as [dst|]; [|done]. cbn [mbind outcome_bind] in Hd.
  destruct (negb _); [simplify_eq; by left|]. destruct (Frame.SourcePort _) as [src|] eqn:Es; [|done]. cbn [mbind outcome_bind] in Hd.
  destruct (tryDemux (accepted l) _ _ _ _ w) as [[[[s1 w1] ok1] e1]|] eqn:E1; [|done]. cbn [mbind outcome_bind] in Hd.
  pose proof Ho as Ho'. unfold owns_listener in Ho'. rewrite Permutation_app_comm in Ho'.
  pose proof (tryDemux_owns _ _ _ _ _ _ _ _ _ _ _ _ Ho' E1) as H1. apply (tryDemux_only _ _ _ _ _ _ _ _ _ _ _ _ Ho') in E1.
  destruct ok1.
  { simplify_eq. destruct E1 as (i & Hi & Hon & Hp). right. exists i. split; [done|]. right. split; [set_solver|eauto]. }
  subst w1. rewrite Permutation_app_comm in H1.
  destruct (tryDemux (incoming _) _ _ _ _ w) as [[[[s2 w2] ok2] e2]|] eqn:E2; [|done]. cbn [mbind outcome_bind] in Hd.
  pose proof (tryDemux_owns _ _ _ _ _ _ _ _ _ _ _ _ H1 E2) as H2. apply (tryDemux_only _ _ _ _ _ _ _ _ _ _ _ _ H1) in E2.
  destruct ok2.
  { simplify_eq. destruct E2 as (i & Hi & Hon & Hp). right. exists i. split; [done|]. right.
    split; [|eauto]. cbn in Hi. set_solver. }
  subst w2. apply (demux_new_only _ _ _ _ _ _ _ _ _ _ _ others) in Hd; [|done].
  destruct Hd as [?|(i & Hi & Hon)]; [by left|]. right. exists i. split; [done|by left].
Qed.

(** ** A session, executed *)

#[local] Existing Instance Handler.no_policy.

Definition demo_config (n : Z) : TcpPool.TCPPoolConfig unit unit :=
  TcpPool.mkPoolConfig n 4 32 32 1000 1000 None (Some (fun _ => true)) None.
Definition demo_pool (n : Z) : TcpPool.TCPPool unit unit * Z :=
  (match TcpPool.NewTCPPool (demo_config n) with
   | Ret (inl p) => p
   | _ => TcpPool.mkPool 0 [] [] [] [] [] 0 0 0
   end, 1).
Definition demo_listener : Listener unit := mkListener 1 [] [] 80 RstQueue.zero_queue.

(** A peer, the listener and the pool. *)
Record world := mkWorld { peer : Handler.Handler unit; lst : Listener unit; pool : TcpPool.TCPPool unit unit * Z }.
Definition demo_header : list Z := ztake 20 IpAddr.demo_ip4.

(** A segment from the peer to the listener ([true]) or back. *)
Definition hop_in (x : world) : world :=
  match Handler.Send (replicate 100 0) (peer x) with
  | Ret (a, out, n, _) =>
      match Demux (demo_header ++ ztake n out) 20 (lst x) (pool x) with
      | Ret (l, w, _) => mkWorld a l w
      | Panic => x
      end
  | Panic => x
  end.
Definition hop_out (x : world) : world :=
  match Encapsulate (demo_header ++ replicate 100 0) 0 20 (lst x) (pool x) with
  | Ret (l, w, out, n, _) =>
      match Handler.Recv (slice out 20 (20 + n)) (peer x) with
      | Ret (a, _) => mkWorld a l w
      | Panic => x
      end
  | Panic => x
  end.
Definition demo_world (n : Z) : world := mkWorld HandlerThms.demo_client0 demo_listener (demo_pool n).

(** The peer writes and closes at once. *)
Definition peer_sends_all (x : world) : world :=
  match Handler.Write [1; 2; 3] (peer x) with
  | Ret (a, _, _) => mkWorld (fst (Handler.Close a)) (lst x) (pool x)
  | Panic => x
  end.

Definition accept (x : world) : option (nat * option unit) * option error * list nat * Z :=
  match TryAccept (lst x) (pool x) with
  | Ret (l, w, r, e) => (r, e, held (incoming l) ++ held (accepted l), TcpPool.NumberOfAcquired (fst w))
  | Panic => (None, None, [], 0)
  end.

Lemma hop_in_run x lost : rtc lstep (lst x, pool x, lost) (lst (hop_in x), pool (hop_in x), lost).
Proof.
  unfold hop_in. destruct (Handler.Send _ _) as [[[[a out] n] ?]|]; [|done].
  destruct (Demux _ _ _ _) as [[[l w] e]|] eqn:E; [|done]. apply rtc_once. by eapply ls_demux.
Qed.
Lemma hop_out_run x lost : rtc lstep (lst x, pool x, lost) (lst (hop_out x), pool (hop_out x), lost).
Proof.
  unfold hop_out. destruct (Encapsulate _ _ _ _ _) as [[[[[l w] out] n] e]|] eqn:E; [|done].
  destruct (Handler.Recv _ _) as [[a ?]|]; [|done]. apply rtc_once. by eapply ls_encapsulate.
Qed.

Definition demo_start : world := Eval vm_compute in demo_world 2.
Definition demo_ready : world := hop_in (hop_out (hop_in demo_start)).

Lemma demo_owns : owns_listener ∅ (lst demo_start) (pool demo_start).
Proof.
  split; [split; by vm_compute|constructor|by intros i Hi%elem_of_nil|].
  intros i. change (owned (pool demo_start)) with (TcpPool.tcp_owned (pool demo_start)).
  rewrite TcpPool.elem_of_tcp_owned. split; [|by intros [Hi%elem_of_nil|?]].
  by destruct i as [|[|i]].
Qed.

Lemma listener_owns_connections_witness :
  NoDup (held (incoming (lst demo_ready)) ++ held (accepted (lst demo_ready))) /\
  (exists r, TryAccept (lst demo_ready) (pool demo_ready) = Ret r) /\
  fst (fst (accept demo_ready)) = (Some (0%nat, None), None).
Proof.
  destruct (listener_owns_connections ∅ ∅ (lst demo_start) (lst demo_ready) (pool demo_start) (pool demo_ready) demo_owns)
    as (H1 & _ & _ & H4 & _).
  - unfold demo_ready. etrans; [apply hop_in_run|]. etrans; [apply hop_out_run|]. apply hop_in_run.
  - split; [exact H1|]. split; [exact H4|by vm_compute].
Defined.

Definition demo_syn : list Z :=
  Eval vm_compute in
    match Handler.Send (replicate 100 0) HandlerThms.demo_client0 with
    | Ret (_, out, n, _) => demo_header ++ ztake n out
    | Panic => []
    end.
Definition demo_synced : world := Eval vm_compute in hop_in demo_start.

Lemma segment_reaches_its_connection_witness :
  exists i, (forall j, j <> i -> get_conn j (pool demo_synced) = get_conn j (pool demo_start)).
Proof.
  destruct (segment_reaches_its_connection ∅ (lst demo_start) (lst demo_synced) (pool demo_start) (pool demo_synced)
    demo_syn 20 None demo_owns) as [H|(i & H & _)]; [by vm_compute|exists 0%nat; auto|by exists i].
Defined.

(** ** Connections that are lost *)

(** The listener loses connections. [Reset] forgets the connections in its slots
    without returning them: with a pool of one connection, the next peer is
    refused for ever. And a peer that sends its request and its FIN before the
    application accepts is dropped: the connection, in CLOSE-WAIT with three bytes
    received, is aborted by the [TryAccept] that should return it. *)
Theorem listener_loses_connections :
  (let x := hop_in (demo_world 1) in
   let l := fst (Reset 80 false (lst x)) in
   let y := hop_in (mkWorld HandlerThms.demo_client0 l (pool x)) in
   held (incoming l) ++ held (accepted l) = [] /\ TcpPool.NumberOfAcquired (fst (pool x)) = 1 /\
   held (incoming (lst y)) = [] /\ RstQueue.Pending (rstQueue (lst y)) = 1) /\
  (let x := hop_in (hop_in (peer_sends_all demo_ready)) in
   map Conn.State (TcpPool.conns (fst (pool x))) = [StateCloseWait; StateClosed] /\
   map (fun c => Ring.Ring.contents (Handler.bufRx (Conn.h_ c))) (TcpPool.conns (fst (pool x))) = [[1; 2; 3]; []] /\
   Handler.tcb_state (peer x) = StateFinWait1 /\
   accept x = (None, Some ErrExhausted, [], 0)).
Proof. by vm_compute. Qed.

End ListenerThms.
