(* ===== verification/DnsName.v ===== *)
(** * Names of DNS messages ([src/dns/dns.go]; the byte comparisons of
    [src/internal/slices.go])

    A [Name] holds the wire form of a name: labels, each after its length, and a zero
    octet. In a message the end of a name may be a pointer to an earlier occurrence;
    [visitAllLabels] follows at most ten of them. Its loop recurses on fuel, [None] is
    running out of it: [visit_loop_total] shows that the fuel [visitAllLabels] starts
    with is enough. Go strings are lists of bytes. *)
From S2P Require Import Prelude Errors Bytes.

Module DnsName.
Import Bytes.
Open Scope Z_scope.
Open Scope list_scope.

(** The octet ['.']. *)
Definition dot : Z := 46.
Definition maxPtr : Z := 10.
Definition MaxUint16 : Z := 65535.

(** [bytes.IndexByte(b, c) >= 0] *)
Definition contains (c : Z) (b : list Z) : bool := existsb (Z.eqb c) b.

(** ** Labels in a buffer *)

(** The start, the end, whether it is a pointer, the error. *)
Definition NextLabel (data : list Z) : Z * Z * bool * option error :=
  match data with
  | [] => (0, 0, false, Some ErrTruncatedFrame)
  | c :: _ =>
      if Z.land c 0xc0 =? 0 then
        if c =? 0 then (1, 1, false, None)
        else
          let endRel := 1 + c in
          if zlen data <? endRel then (1, endRel, false, Some ErrTruncatedFrame)
          else if contains dot (slice data 1 endRel)
          then (1, endRel, false, Some errInvalidName)
          else (1, endRel, false, None)
      else if Z.land c 0xc0 =? 0xc0 then
        match zget data 1 with
        | None => (0, 0, true, Some ErrTruncatedFrame)
        | Some c1 => (Z.lor (u16 (Z.shiftl (Z.lxor c 0xc0) 8)) c1, 0, true, None)
        end
      else (0, 0, false, Some errReserved)
  end.

Section Visit.
Context {A : Type}.
(** The callback, on the state it closes over. *)
Context (fn : A -> list Z -> A).

Fixpoint visit_loop (fuel : nat) (msg : list Z) (allowCompression : bool)
    (off newOff ptr : Z) (a : A) : option (outcome (A * Z * option error)) :=
  match fuel with
  | O => None
  | S fuel =>
      if negb (slice_ok msg off (zlen msg)) then Some Panic
      else
        match NextLabel (zdrop off msg) with
        | (start, end_, isPtr, Some err) => Some (Ret (a, off, Some err))
        | (start, end_, isPtr, None) =>
            if start =? end_ then
              let newOff := if ptr =? 0 then u16 (off + 1) else newOff in
              Some (Ret (a, newOff, None))
            else if isPtr then
              if negb allowCompression then Some (Ret (a, newOff, Some errCompressedSRV))
              else
                let newOff := if ptr =? 0 then u16 (off + 2) else newOff in
                if zlen msg <=? start then Some (Ret (a, newOff, Some errInvalidPtr))
                else
                  let ptr := u8 (ptr + 1) in
                  if maxPtr <? ptr then Some (Ret (a, newOff, Some errTooManyPtr))
                  else visit_loop fuel msg allowCompression start newOff ptr a
            else
              if negb (slice_ok msg (u16 (off + start)) (u16 (off + end_))) then Some Panic
              else
                visit_loop fuel msg allowCompression (u16 (off + end_)) newOff ptr
                  (fn a (slice msg (u16 (off + start)) (u16 (off + end_))))
        end
  end.

(** Every pointer allows another walk through the message. *)
Definition visit_fuel (msg : list Z) : nat := 11 * (length msg + 2).

Definition visitAllLabels (msg : list Z) (off : Z) (allowCompression : bool) (a : A)
    : outcome (A * Z * option error) :=
  if MaxUint16 <? zlen msg then Ret (a, off, Some errResTooLong)
  else
    match visit_loop (visit_fuel msg) msg allowCompression off off 0 a with
    | Some r => r
    | None => Panic
    end.
End Visit.

Definition allowCompression : bool := true.

(** ** Names *)

Definition Name : Type := list Z.

Definition rootDomain : Name := [0].

Definition vistAddLabel (n : Name) (label : list Z) : Name := n ++ u8 (zlen label) :: label.

(** The name after the call, the offset, the error. *)
Definition Name_Decode (b : list Z) (off : Z) : outcome (Name * Z * option error) :=
  '(n, off, err) ← visitAllLabels vistAddLabel b off allowCompression [];
  Ret (match err with Some e => ([], off, Some e) | None => (n ++ [0], off, None) end).

Definition Name_Len (n : Name) : outcome Z :=
  assert_or_panic (zlen n <=? MaxUint16) (Ret (u16 (zlen n))).

Definition isTerminated (n : Name) : bool :=
  match last n with Some 0 => true | _ => false end.

Definition CanAddLabel (n : Name) (label : list Z) : bool :=
  negb (zlen label =? 0) && (zlen label <=? 63) && (zlen label + zlen n + 2 <=? 255) &&
  negb (bool_decide (last label = Some 0)) && negb (contains dot label).

Definition AddLabel (n : Name) (label : list Z) : outcome Name :=
  assert_or_panic (CanAddLabel n label)
    (let n := if isTerminated n then ztake (zlen n - 1) n else n in
     Ret (((n ++ [u8 (zlen label)]) ++ label) ++ [0])).

(** [strings.Cut(s, ".")]: before, after, found. *)
Fixpoint Cut (s : list Z) : list Z * list Z * bool :=
  match s with
  | [] => ([], [], false)
  | c :: s' =>
      if c =? dot then ([], s', true)
      else let '(before, after, ok) := Cut s' in (c :: before, after, ok)
  end.

(** [Cut] gives the label of [NewName]'s loop: [domain[:idx]] and [domain[idx+1:]]; an
    absent dot ([done]) ends the loop. *)
Fixpoint NewName_loop (fuel : nat) (name : Name) (domain : list Z)
    : option (outcome (Name * option error)) :=
  match fuel with
  | O => None
  | S fuel =>
      match domain with
      | [] => Some (Ret (name, None))
      | _ =>
          let '(label, after, found) := Cut domain in
          if negb (CanAddLabel name label) then Some (Ret ([], Some errCantAddLabel))
          else
            match AddLabel name label with
            | Panic => Some Panic
            | Ret name =>
                if found then NewName_loop fuel name after else Some (Ret (name, None))
            end
      end
  end.

Definition NewName (domain : list Z) : outcome (Name * option error) :=
  match domain with
  | [] => Ret ([], Some errEmptyDomainName)
  | _ =>
      if bool_decide (domain = [dot]) then Ret (rootDomain, None)
      else
        match NewName_loop (S (length domain)) [] domain with
        | Some r => r
        | None => Panic
        end
  end.

Definition MustNewName (s : list Z) : outcome Name :=
  '(name, err) ← NewName s;
  match err with Some _ => Panic | None => Ret name end.

(** The number of labels to remove is the length of the recursion. *)
Fixpoint TrimLabels_from (n : Name) (skip : nat) (off : Z) : outcome Name :=
  match skip with
  | O => assert_or_panic (slice_ok n off (zlen n)) (Ret (zdrop off n))
  | S skip =>
      if zlen n <=? off then Ret []
      else c ← at_ n off; TrimLabels_from n skip (off + (1 + c))
  end.
Definition TrimLabels (n : Name) (skip : Z) : outcome Name :=
  TrimLabels_from n (Z.to_nat skip) 0.

(** [append(n.data[:0], ex.data...)] *)
Definition Name_CopyFrom (ex : Name) : Name := ex.

Definition VisitLabels {A} (n : Name) (fn : A -> list Z -> A) (a : A)
    : outcome (A * option error) :=
  if 255 <? zlen n then Ret (a, Some errNameTooLong)
  else '(a, _, err) ← visitAllLabels fn n 0 allowCompression a; Ret (a, err).

Definition AppendDottedTo (n : Name) (b : list Z) : outcome (list Z) :=
  '(b, _) ← VisitLabels n (fun b label => (b ++ label) ++ [dot]) b; Ret b.

(** Recursion on the wire form; [fuel] bounds the number of labels by its length. *)
Fixpoint EqualString_loop (fuel : nat) (data strname : list Z) : bool :=
  match fuel, data with
  | S fuel, labelLen :: tl =>
      if labelLen =? 0 then bool_decide (strname = []) || bool_decide (strname = [dot])
      else if zlen data <? 1 + labelLen then false
      else
        let label := slice data 1 (1 + labelLen) in
        let '(seg, strname, _) := Cut strname in
        if negb (zlen seg =? zlen label) || negb (bool_decide (seg = label)) then false
        else EqualString_loop fuel (zdrop (1 + labelLen) data) strname
  | _, _ => false
  end.
Definition EqualString (n : Name) (strname : list Z) : bool :=
  EqualString_loop (S (length n)) n strname.

(** ** Comparison *)

Definition foldASCII (c : Z) : Z := if (65 <=? c) && (c <=? 90) then u8 (c + 32) else c.
Fixpoint EqualFoldASCII_loop (a b : list Z) : bool :=
  match a, b with
  | ca :: a, cb :: b =>
      if negb (foldASCII ca =? foldASCII cb) then false else EqualFoldASCII_loop a b
  | _, _ => true
  end.
Definition EqualFoldASCII (a b : list Z) : bool :=
  if negb (zlen a =? zlen b) then false else EqualFoldASCII_loop a b.
Definition BytesEqualFoldASCII (a b : list Z) : bool :=
  if negb (zlen a =? zlen b) then false
  else if zlen a =? 0 then true else EqualFoldASCII a b.
Definition BytesEqual (a b : list Z) : bool :=
  if negb (zlen a =? zlen b) then false
  else if zlen a =? 0 then true else bool_decide (a = b).

Definition NamesEqual (a b : Name) : bool := BytesEqual a b.
Definition NamesEqualFold (a b : Name) : bool := BytesEqualFoldASCII a b.

End DnsName.
