(* ===== verification/DnsNameThms.v ===== *)
(** * Lemmas and theorems on names *)
From S2P Require Import Prelude Errors Bytes DnsName.

(** ** DNS names: what a name in a message denotes, and that decoding finds it

    [rfc_name] is the meaning of names with compression (RFC 1035, 4.1.4) and
    [zero_ended] the one case in which the code departs from it; [wire_name] is
    what the code walks through, [visit_loop_total] and [visit_loop_complete] relate
    the loop of [visitAllLabels] to it. *)
Module DnsNameProps.
Import Bytes DnsName.
Open Scope Z_scope.
Open Scope list_scope.

(** ** Labels and names *)

Definition label_ok (l : list Z) : Prop :=
  is_bytes l /\ 1 <= zlen l <= 63 /\ dot ∉ l.
#[global] Instance label_ok_dec l : Decision (label_ok l).
Proof. unfold label_ok. apply _. Defined.

Definition label_bytes (l : list Z) : list Z := zlen l :: l.
Definition labels_bytes (ls : list (list Z)) : list Z := mjoin (label_bytes <$> ls).
(** The uncompressed wire form of a name. *)
Definition name_bytes (ls : list (list Z)) : Name := labels_bytes ls ++ [0].

Lemma labels_bytes_cons l ls : labels_bytes (l :: ls) = zlen l :: l ++ labels_bytes ls.
Proof. done. Qed.
Lemma labels_bytes_snoc ls l : labels_bytes (ls ++ [l]) = labels_bytes ls ++ zlen l :: l.
Proof.
  induction ls as [|x ls IH]; [cbn; by rewrite app_nil_r|].
  rewrite <- app_comm_cons, !labels_bytes_cons, IH. by rewrite <- app_comm_cons, <- app_assoc.
Qed.

(** The name at an offset as RFC 1035 reads it: its labels (of 1 to 63 octets; the code
    refuses those with a dot, which the text form cannot write), the offset of what
    follows it, the number of pointers on the way. *)
Inductive rfc_name (msg : list Z) : Z -> list (list Z) -> Z -> Z -> Prop :=
| rfc_end off :
    zget msg off = Some 0 -> rfc_name msg off [] (off + 1) 0
| rfc_label off l ls next k :
    label_ok l -> zget msg off = Some (zlen l) -> off + 1 + zlen l <= zlen msg ->
    slice msg (off + 1) (off + 1 + zlen l) = l ->
    rfc_name msg (off + 1 + zlen l) ls next k ->
    rfc_name msg off (l :: ls) next k
| rfc_pointer off c c1 ls next k :
    zget msg off = Some c -> 192 <= c -> zget msg (off + 1) = Some c1 ->
    0 <= (c - 192) * 256 + c1 < zlen msg ->
    rfc_name msg ((c - 192) * 256 + c1) ls next k ->
    rfc_name msg off ls (off + 2) (k + 1).

(** The name at an offset runs into a pointer to offset 0: the labels and pointers
    before it. [next] is one octet too early when no pointer was followed before. *)
Inductive zero_ended (msg : list Z) : Z -> list (list Z) -> Z -> Z -> Prop :=
| zero_here off :
    zget msg off = Some 192 -> zget msg (off + 1) = Some 0 -> zero_ended msg off [] (off + 1) 0
| zero_label off l ls next k :
    label_ok l -> zget msg off = Some (zlen l) -> off + 1 + zlen l <= zlen msg ->
    slice msg (off + 1) (off + 1 + zlen l) = l ->
    zero_ended msg (off + 1 + zlen l) ls next k ->
    zero_ended msg off (l :: ls) next k
| zero_pointer off c c1 ls next k :
    zget msg off = Some c -> 192 <= c -> zget msg (off + 1) = Some c1 ->
    0 < (c - 192) * 256 + c1 < zlen msg ->
    zero_ended msg ((c - 192) * 256 + c1) ls next k ->
    zero_ended msg off ls (off + 2) (k + 1).

(** What the code walks through: its labels, the offset of what follows it, the number of
    pointers on the way. A pointer to offset 0 ends a name as a zero octet does; RFC 1035
    knows no such case, so it is there only when [z] is set. *)
Inductive wire_name (z : bool) (msg : list Z) : Z -> list (list Z) -> Z -> Z -> Prop :=
| wire_end off :
    zget msg off = Some 0 -> wire_name z msg off [] (off + 1) 0
| wire_label off l ls next k :
    label_ok l -> zget msg off = Some (zlen l) -> off + 1 + zlen l <= zlen msg ->
    slice msg (off + 1) (off + 1 + zlen l) = l ->
    wire_name z msg (off + 1 + zlen l) ls next k ->
    wire_name z msg off (l :: ls) next k
| wire_ptr off c c1 ls next k :
    zget msg off = Some c -> 192 <= c -> zget msg (off + 1) = Some c1 ->
    0 < (c - 192) * 256 + c1 < zlen msg ->
    wire_name z msg ((c - 192) * 256 + c1) ls next k ->
    wire_name z msg off ls (off + 2) (k + 1)
| wire_ptr_zero off :
    z = true -> zget msg off = Some 192 -> zget msg (off + 1) = Some 0 ->
    wire_name z msg off [] (off + 1) 0.

Lemma wire_ptrs z msg off ls next k : wire_name z msg off ls next k -> 0 <= k.
Proof. induction 1; lia. Qed.

(** ** One label *)

Inductive next_view (msg : list Z) (off : Z) : Z * Z * bool * option error -> Prop :=
| view_end : zget msg off = Some 0 -> next_view msg off (1, 1, false, None)
| view_label l :
    label_ok l -> zget msg off = Some (zlen l) -> off + 1 + zlen l <= zlen msg ->
    slice msg (off + 1) (off + 1 + zlen l) = l ->
    next_view msg off (1, 1 + zlen l, false, None)
| view_ptr c c1 :
    zget msg off = Some c -> 192 <= c -> zget msg (off + 1) = Some c1 ->
    next_view msg off ((c - 192) * 256 + c1, 0, true, None)
| view_err s e p err : next_view msg off (s, e, p, Some err).

Lemma top_bits c : is_u8 c -> Z.land c 0xc0 = 64 * (c / 64) /\ (192 <= c -> Z.lxor c 0xc0 = c - 192).
Proof.
  intros Hc. assert (forallb (fun n => let c := Z.of_nat n in
    (Z.land c 0xc0 =? 64 * (c / 64)) && ((c <? 192) || (Z.lxor c 0xc0 =? c - 192)))
    (List.seq 0 256) = true) as H by by vm_compute.
  rewrite forallb_forall in H. specialize (H (Z.to_nat c)). cbv zeta in H.
  rewrite Z2Nat.id in H by apply Hc.
  assert (List.In (Z.to_nat c) (List.seq 0 256)) as Hi by (apply in_seq; wrap_lia).
  apply H in Hi. revert Hi. bool_cases; cbn; intros; split; done || lia.
Qed.

Lemma contains_false c b : contains c b = false <-> c ∉ b.
Proof.
  unfold contains. rewrite <- not_true_iff_false, existsb_exists. split.
  - intros H Hin. apply H. exists c. rewrite <- list_elem_of_In. split; [done|lia].
  - intros H (x & Hx & E). apply list_elem_of_In in Hx. assert (c = x) by lia. by subst.
Qed.

Lemma zget_range {A} (l : list A) i x : zget l i = Some x -> 0 <= i < zlen l.
Proof.
  intros E. destruct (decide (i < 0)); [by rewrite zget_neg in E|].
  destruct (decide (zlen l <= i)); [by rewrite zget_ge in E|]. lia.
Qed.
Lemma zget_zdrop0 {A} (b : list A) off x tl :
  0 <= off -> zdrop off b = x :: tl -> zget b off = Some x.
Proof.
  intros Ho E. replace off with (off + 0) at 1 by lia. rewrite <- zget_zdrop by lia. by rewrite E.
Qed.
Lemma zdrop_zget {A} (b : list A) off x :
  zget b off = Some x -> exists tl, zdrop off b = x :: tl.
Proof.
  intros E. assert (0 <= off < zlen b) as Hr by by eapply zget_range.
  destruct (zdrop off b) as [|y tl] eqn:Ed.
  - assert (zlen (zdrop off b) = zlen b - off) as Hl by (apply zlen_zdrop; lia).
    rewrite Ed, zlen_nil in Hl. lia.
  - exists tl. apply zget_zdrop0 in Ed; [|lia]. by simplify_eq.
Qed.

Lemma slice_mid {A} (a b c : list A) : slice (a ++ b ++ c) (zlen a) (zlen a + zlen b) = b.
Proof.
  unfold slice. rewrite zdrop_app_exact by done. apply ztake_app_exact. lia.
Qed.
Lemma NextLabel_end msg off :
  zget msg off = Some 0 -> NextLabel (zdrop off msg) = (1, 1, false, None).
Proof. intros [tl ->]%zdrop_zget. done. Qed.
Lemma NextLabel_label msg off l :
  label_ok l -> zget msg off = Some (zlen l) -> off + 1 + zlen l <= zlen msg ->
  slice msg (off + 1) (off + 1 + zlen l) = l ->
  NextLabel (zdrop off msg) = (1, 1 + zlen l, false, None).
Proof.
  intros (Hlb & Hll & Hld) E Hle Hs. apply zget_range in E as Hr. unfold NextLabel.
  assert (zlen (zdrop off msg) = zlen msg - off) as Hl by (apply zlen_zdrop; lia).
  destruct (zdrop_zget _ _ _ E) as [tl Et]. rewrite Et in Hl |- *. rewrite Hl, <- Et.
  destruct (top_bits (zlen l)) as [-> _]; [wrap_lia|].
  assert ((64 * (zlen l / 64) =? 0) = true) as -> by wrap_lia.
  assert ((zlen l =? 0) = false) as -> by lia.
  assert ((zlen msg - off <? 1 + zlen l) = false) as -> by lia.
  rewrite slice_zdrop by lia. rewrite Z.add_assoc, Hs.
  by apply contains_false in Hld as ->.
Qed.
Lemma NextLabel_ptr msg off c c1 :
  is_bytes msg -> zget msg off = Some c -> 192 <= c -> zget msg (off + 1) = Some c1 ->
  NextLabel (zdrop off msg) = ((c - 192) * 256 + c1, 0, true, None).
Proof.
  intros Hb E Hc E1. apply zget_range in E as Hr.
  assert (is_u8 c) as Hc8 by by eapply is_bytes_zget.
  assert (is_u8 c1) as Hc1 by by eapply is_bytes_zget.
  unfold NextLabel. rewrite zget_zdrop, E1 by lia. destruct (zdrop_zget _ _ _ E) as [tl ->].
  destruct (top_bits c Hc8) as [-> ->]; [|done].
  assert ((64 * (c / 64) =? 0) = false) as -> by wrap_lia.
  assert ((64 * (c / 64) =? 0xc0) = true) as -> by wrap_lia. do 3 f_equal.
  rewrite Z.shiftl_mul_pow2 by lia. replace (u16 _) with ((c - 192) * 2 ^ 8) by wrap_lia.
  rewrite <- Z.shiftl_mul_pow2, Z.lor_comm, lor_shiftl_add by wrap_lia. lia.
Qed.

(** Whatever is not an error is one of these. *)
Lemma NextLabel_view msg off :
  is_bytes msg -> 0 <= off <= zlen msg -> next_view msg off (NextLabel (zdrop off msg)).
Proof.
  intros Hb Ho. assert (zlen (zdrop off msg) = zlen msg - off) as Hl by (apply zlen_zdrop; lia).
  destruct (zdrop off msg) as [|c tl] eqn:Ed; [constructor|].
  assert (zget msg off = Some c) as Ec by (eapply zget_zdrop0; [lia|done]).
  assert (is_u8 c) as Hc by by eapply is_bytes_zget. destruct (top_bits c Hc) as [Et _].
  destruct (zget msg (off + 1)) as [c1|] eqn:E1, (decide (192 <= c)).
  { rewrite <- Ed, (NextLabel_ptr msg off c c1) by done. by constructor. }
  all: unfold NextLabel; rewrite Et, Hl, <- Ed, zget_zdrop, slice_zdrop, Z.add_assoc, E1 by lia.
  all: destruct (Z.eqb_spec (64 * (c / 64)) 0); [|bool_cases; try constructor; wrap_lia].
  all: destruct (Z.eqb_spec c 0) as [->|Hn]; [by constructor|].
  all: destruct (Z.ltb_spec (zlen msg - off) (1 + c)); [constructor|].
  all: destruct (contains dot _) eqn:Ed'; [constructor|]; apply contains_false in Ed'.
  all: assert (zlen (slice msg (off + 1) (off + 1 + c)) = c) as El by (rewrite zlen_slice; wrap_lia).
  all: pose proof (view_label msg off (slice msg (off + 1) (off + 1 + c))) as Hv; rewrite El in Hv.
  all: apply Hv; try done; try lia.
  all: split_and!; [by apply is_bytes_slice|rewrite El; wrap_lia..|done].
Qed.

(** ** The loop *)

Section Loop.
Context {A : Type} (fn : A -> list Z -> A) (msg : list Z).
Context (Hb : is_bytes msg) (Hlen : zlen msg <= 65535).

Definition rounds (off ptr : Z) : Z := (zlen msg + 2) * (10 - ptr) + (zlen msg - off).

Lemma rounds_ptr fuel off t ptr :
  0 <= t -> off <= zlen msg -> rounds off ptr < Z.of_nat (S fuel) ->
  rounds t (ptr + 1) < Z.of_nat fuel.
Proof. unfold rounds. nia. Qed.

Lemma visit_loop_total fuel off newOff ptr a :
  0 <= off <= zlen msg -> 0 <= ptr <= 10 -> rounds off ptr < Z.of_nat fuel ->
  exists ls r err, visit_loop fn fuel msg true off newOff ptr a
    = Some (Ret (foldl fn a ls, r, err)) /\ 
    (err = None -> exists next k, wire_name true msg off ls next k /\ ptr + k <= 10 /\
       r = if ptr =? 0 then next else newOff).
Proof.
  revert off newOff ptr a. induction fuel as [|fuel IH]; intros off newOff ptr a Ho Hp Hf.
  { unfold rounds in *. nia. }
  cbn [visit_loop]. replace (slice_ok msg off (zlen msg)) with true by (unfold slice_ok; lia).
  cbn [negb]. pose proof (NextLabel_view msg off Hb Ho) as Hv.
  destruct Hv as [E|l Hok E Hle Hs|c c1 E Hc E1|s e p err].
  - exists [], (if ptr =? 0 then u16 (off + 1) else newOff), None. split; [done|]. intros _. exists (off + 1), 0.
    apply zget_range in E as Hr. split_and!; [by constructor|lia|].
    destruct (ptr =? 0); [rewrite u16_small by wrap_lia|]; done.
  - destruct Hok as (Hlb & Hll & Hld). assert ((1 =? 1 + zlen l) = false) as -> by lia.
    rewrite !u16_small by wrap_lia. unfold slice_ok.
    match goal with |- context [negb ?b] => replace b with true by lia end. cbn [negb].
    replace (off + (1 + zlen l)) with (off + 1 + zlen l) by lia. rewrite Hs.
    destruct (IH (off + 1 + zlen l) newOff ptr (fn a l)) as (ls & r & err & -> & Hw);
      [lia|lia|unfold rounds in *; lia|].
    exists (l :: ls), r, err. split; [done|]. intros (next & k & Hw' & Hk & ->)%Hw.
    exists next, k. split_and!; [|done..]. by constructor.
  - assert (is_u8 c) by by eapply is_bytes_zget. assert (is_u8 c1) by by eapply is_bytes_zget.
    set (t := (c - 192) * 256 + c1). assert (0 <= t) by wrap_lia. apply zget_range in E1 as Hr.
    destruct (Z.eqb_spec t 0) as [Ht|Ht].
    { assert (c = 192 /\ c1 = 0) as [-> ->] by wrap_lia. exists [], (if ptr =? 0 then u16 (off + 1) else newOff), None. split; [done|].
      intros _. exists (off + 1), 0. split_and!; [by apply wire_ptr_zero|lia|].
      destruct (ptr =? 0); [rewrite u16_small by wrap_lia|]; done. }
    destruct (Z.leb_spec (zlen msg) t); [by eexists [], _, (Some errInvalidPtr)|].
    rewrite (u8_small (ptr + 1)) by wrap_lia. unfold maxPtr.
    destruct (Z.ltb_spec 10 (ptr + 1)); [by eexists [], _, (Some errTooManyPtr)|].
    destruct (IH t (if ptr =? 0 then u16 (off + 2) else newOff) (ptr + 1) a)
      as (ls & r & err & -> & Hw); [lia|lia|by eapply rounds_ptr; [..|exact Hf]; lia|].
    exists ls, r, err. split; [done|]. intros (next & k & Hw' & Hk & ->)%Hw.
    exists (off + 2), (k + 1). split_and!; [eapply wire_ptr; try done; wrap_lia|lia|].
    assert ((ptr + 1 =? 0) = false) as -> by lia.
    destruct (ptr =? 0); [rewrite u16_small by wrap_lia|]; done.
  - by exists [], off, (Some err).
Qed.

Lemma visit_loop_complete z fuel off newOff ptr a ls next k :
  wire_name z msg off ls next k -> 0 <= off <= zlen msg -> 0 <= ptr <= 10 -> ptr + k <= 10 ->
  rounds off ptr < Z.of_nat fuel ->
  visit_loop fn fuel msg true off newOff ptr a
    = Some (Ret (foldl fn a ls, if ptr =? 0 then next else newOff, None)).
Proof.
  intros Hw. revert fuel newOff ptr a.
  induction Hw as [off E|off l ls next k Hok E Hle Hs Hw IH|off c c1 ls next k E Hc E1 Ht Hw IH
                  |off _ E E1]; intros fuel newOff ptr a Ho Hp Hk Hf;
    (destruct fuel as [|fuel]; [unfold rounds in *; nia|]); cbn [visit_loop];
    (replace (slice_ok msg off (zlen msg)) with true by (unfold slice_ok; lia)); cbn [negb].
  - rewrite (NextLabel_end msg off E). apply zget_range in E. cbn.
    destruct (ptr =? 0); [rewrite u16_small by wrap_lia|]; done.
  - rewrite (NextLabel_label msg off l Hok E Hle Hs). pose proof Hok as (Hlb & Hll & Hld).
    assert ((1 =? 1 + zlen l) = false) as -> by lia.
    rewrite !u16_small by wrap_lia. unfold slice_ok.
    match goal with |- context [negb ?b] => replace b with true by lia end. cbn [negb].
    rewrite Z.add_assoc, Hs. apply IH; [lia..|unfold rounds in *; lia].
  - rewrite (NextLabel_ptr msg off c c1 Hb E Hc E1). apply wire_ptrs in Hw.
    assert (((c - 192) * 256 + c1 =? 0) = false) as -> by lia.
    assert ((zlen msg <=? (c - 192) * 256 + c1) = false) as -> by lia.
    apply zget_range in E1. cbn [negb]. rewrite (u8_small (ptr + 1)) by wrap_lia.
    assert ((maxPtr <? ptr + 1) = false) as -> by (unfold maxPtr; lia).
    rewrite IH; [|lia|lia|lia|by eapply rounds_ptr; [..|exact Hf]; lia].
    assert ((ptr + 1 =? 0) = false) as -> by lia.
    destruct (ptr =? 0); [rewrite u16_small by wrap_lia|]; done.
  - rewrite (NextLabel_ptr msg off 192 0 Hb E ltac:(lia) E1). apply zget_range in E1.
    change (192 - 192) with 0. cbn.
    destruct (ptr =? 0); [rewrite u16_small by wrap_lia|]; done.
Qed.

Lemma visit_fuel_enough off : 0 <= off -> rounds off 0 < Z.of_nat (visit_fuel msg).
Proof. unfold rounds, visit_fuel, zlen. nia. Qed.

(** The loop ends, and finds exactly the names. *)
Lemma visitAllLabels_total off a :
  0 <= off <= zlen msg ->
  exists ls r err, visitAllLabels fn msg off true a = Ret (foldl fn a ls, r, err) /\
    (err = None -> exists k, wire_name true msg off ls r k /\ k <= 10).
Proof.
  intros Ho. unfold visitAllLabels, MaxUint16.
  assert ((65535 <? zlen msg) = false) as -> by lia.
  destruct (visit_loop_total (visit_fuel msg) off off 0 a) as (ls & r & err & -> & H);
    [lia..|apply visit_fuel_enough; lia|].
  exists ls, r, err. split; [done|]. intros (next & k & Hw & Hk & ->)%H. by exists k.
Qed.
Lemma visitAllLabels_complete z off a ls next k :
  wire_name z msg off ls next k -> 0 <= off <= zlen msg -> k <= 10 ->
  visitAllLabels fn msg off true a = Ret (foldl fn a ls, next, None).
Proof.
  intros Hw Ho Hk. unfold visitAllLabels, MaxUint16.
  assert ((65535 <? zlen msg) = false) as -> by lia.
  rewrite (visit_loop_complete z _ off off 0 a ls next k); [done..|lia|lia|].
  apply visit_fuel_enough; lia.
Qed.
End Loop.

(** ** Facts on names *)

Lemma wire_labels z msg off ls next k : wire_name z msg off ls next k -> Forall label_ok ls.
Proof. induction 1; auto. Qed.

Lemma wire_next z msg off ls next k :
  wire_name z msg off ls next k -> 0 <= off -> off < next <= zlen msg.
Proof.
  induction 1 as [off E|off l ls next k Hok E Hle Hs Hw IH|off c c1 ls next k E Hc E1 Ht Hw IH
                 |off _ E E1]; intros.
  - apply zget_range in E. lia.
  - pose proof (zlen_nonneg l). lia.
  - apply zget_range in E1. lia.
  - apply zget_range in E1. lia.
Qed.

(** Each pointer lets a name repeat at most the message. *)
Lemma wire_size z msg off ls next k :
  wire_name z msg off ls next k -> 0 <= off -> zlen (labels_bytes ls) <= zlen msg - off + k * zlen msg.
Proof.
  induction 1 as [off E|off l ls next k Hok E Hle Hs Hw IH|off c c1 ls next k E Hc E1 Ht Hw IH
                 |off _ E E1]; intros.
  - apply zget_range in E. change (labels_bytes []) with (@nil Z). rewrite zlen_nil. lia.
  - pose proof (zlen_nonneg l). rewrite labels_bytes_cons, zlen_cons, zlen_app. lia.
  - apply zget_range in E1. specialize (IH ltac:(lia)).
    rewrite Z.mul_add_distr_r. lia.
  - apply zget_range in E1. change (labels_bytes []) with (@nil Z). rewrite zlen_nil. lia.
Qed.

Lemma wire_name_weaken msg off ls next k : wire_name false msg off ls next k -> wire_name true msg off ls next k.
Proof. induction 1; [by constructor|by econstructor|by econstructor|done]. Qed.

(** The walk of the code is a name of the RFC, or one cut at a pointer to offset 0. *)
Lemma wire_split msg off ls next k :
  wire_name true msg off ls next k -> rfc_name msg off ls next k \/ zero_ended msg off ls next k.
Proof.
  induction 1 as [off E|off l ls next k Hok E Hle Hs Hw IH|off c c1 ls next k E Hc E1 Ht Hw IH
                 |off _ E E1].
  - left. by constructor.
  - destruct IH as [IH|IH]; [left|right]; by econstructor.
  - destruct IH as [IH|IH]; [left; eapply rfc_pointer; (done || lia)|right; by econstructor].
  - right. by constructor.
Qed.
Lemma zero_ended_wire msg off ls next k :
  zero_ended msg off ls next k -> wire_name true msg off ls next k.
Proof. induction 1; [by apply wire_ptr_zero|by econstructor|by econstructor]. Qed.
Lemma zero_ended_octets msg off ls next k :
  zero_ended msg off ls next k -> exists i, zget msg i = Some 192 /\ zget msg (i + 1) = Some 0.
Proof. induction 1; eauto. Qed.
Lemma rfc_name_wire msg off ls next k :
  is_bytes msg -> rfc_name msg off ls next k ->
  wire_name true msg off ls next k \/ exists ls' next' k', zero_ended msg off ls' next' k'.
Proof.
  intros Hb. induction 1 as [off E|off l ls next k Hok E Hle Hs Hw IH|off c c1 ls next k E Hc E1 Ht Hw IH].
  - left. by constructor.
  - destruct IH as [IH|(ls' & n' & k' & IH)]; [left; by econstructor|right].
    exists (l :: ls'), n', k'. by econstructor.
  - assert (0 <= c1) as Hc1 by (pose proof (is_bytes_zget _ _ _ Hb E1); wrap_lia).
    destruct (decide ((c - 192) * 256 + c1 = 0)) as [E0|E0].
    { right. exists [], (off + 1), 0. assert (c = 192) as -> by lia. assert (c1 = 0) as -> by lia. by constructor. }
    destruct IH as [IH|(ls' & n' & k' & IH)]; [left; eapply wire_ptr; (done || lia)|right].
    exists ls', (off + 2), (k' + 1). eapply zero_pointer; (done || lia).
Qed.

Lemma foldl_labels n ls : Forall label_ok ls -> foldl vistAddLabel n ls = n ++ labels_bytes ls.
Proof.
  intros Hl. revert n. induction Hl as [|l ls (Hlb & Hll & Hld) _ IH]; intros n; [by rewrite app_nil_r|].
  cbn [foldl]. rewrite IH. unfold vistAddLabel. rewrite u8_small by wrap_lia.
  by rewrite labels_bytes_cons, <- app_assoc.
Qed.

Lemma name_bytes_ok ls : Forall label_ok ls -> is_bytes (name_bytes ls).
Proof.
  intros Hl. unfold name_bytes. apply is_bytes_app; [|by repeat constructor].
  induction Hl as [|l ls (Hlb & Hll & _) _ IH]; [constructor|].
  rewrite labels_bytes_cons. constructor; [wrap_lia|by apply is_bytes_app].
Qed.

(** Uncompressed names. *)
Lemma wire_name_bytes z pre ls post :
  Forall label_ok ls ->
  wire_name z (pre ++ name_bytes ls ++ post) (zlen pre) ls (zlen pre + zlen (name_bytes ls)) 0.
Proof.
  intros Hl. revert pre. induction Hl as [|l ls Hok _ IH]; intros pre.
  - apply wire_end. rewrite zget_app_r by lia. by rewrite Z.sub_diag.
  - assert (name_bytes (l :: ls) = [zlen l] ++ l ++ name_bytes ls) as ->.
    { unfold name_bytes. rewrite labels_bytes_cons, <- app_comm_cons, <- app_assoc. done. }
    specialize (IH (pre ++ [zlen l] ++ l)). pose proof (zlen_nonneg (name_bytes ls)).
    pose proof (zlen_nonneg post). rewrite !zlen_app, zlen_cons, zlen_nil in *.
    rewrite <- !app_assoc in *.
    apply wire_label; [done|by rewrite zget_app_r, Z.sub_diag by lia|..].
    + rewrite !zlen_app, zlen_cons, zlen_nil. lia.
    + replace (zlen pre + 1) with (zlen (pre ++ [zlen l])) by (rewrite zlen_app; done).
      rewrite app_assoc. apply slice_mid.
    + rewrite !Z.add_assoc in *. rewrite !Z.add_0_r in *. done.
Qed.
End DnsNameProps.

(** ** DNS names: decoding and text

    Decoding a name of a message ([visitAllLabels], [Name_Decode]), the text form
    ([NewName], [AppendDottedTo]) and comparison with text ([EqualString]). *)
Module DnsNameThms.
Import Bytes DnsName DnsNameProps.
Open Scope Z_scope.
Open Scope list_scope.

(** ** Decoding *)

Lemma Name_Decode_wire z msg off ls next k :
  is_bytes msg -> zlen msg <= 65535 -> wire_name z msg off ls next k ->
  0 <= off <= zlen msg -> k <= 10 -> Name_Decode msg off = Ret (name_bytes ls, next, None).
Proof.
  intros Hb Hl Hw Ho Hk. unfold Name_Decode, allowCompression.
  rewrite (visitAllLabels_complete vistAddLabel msg Hb Hl z off [] ls next k Hw Ho Hk). cbn.
  rewrite foldl_labels by by eapply wire_labels. done.
Qed.
Lemma Name_Decode_total msg off :
  is_bytes msg -> zlen msg <= 65535 -> 0 <= off <= zlen msg ->
  (exists r e, Name_Decode msg off = Ret ([], r, Some e)) \/
  (exists ls next k, Name_Decode msg off = Ret (name_bytes ls, next, None) /\
     wire_name true msg off ls next k /\ k <= 10).
Proof.
  intros Hb Hl Ho.
  destruct (visitAllLabels_total vistAddLabel msg Hb Hl off [] Ho) as (ls & r & [e|] & E & H).
  - left. exists r, e. unfold Name_Decode, allowCompression. by rewrite E.
  - right. destruct H as (k & Hw & Hk); [done|]. exists ls, r, k. split; [|done].
    by apply Name_Decode_wire with true k.
Qed.
Lemma Name_Decode_bytes pre ls post :
  is_bytes (pre ++ name_bytes ls ++ post) -> Forall label_ok ls ->
  zlen (pre ++ name_bytes ls ++ post) <= 65535 ->
  Name_Decode (pre ++ name_bytes ls ++ post) (zlen pre)
    = Ret (name_bytes ls, zlen pre + zlen (name_bytes ls), None).
Proof.
  intros Hb Hls Hl. pose proof (zlen_nonneg pre).
  apply Name_Decode_wire with true 0; [done|done|by apply wire_name_bytes| |lia].
  pose proof (zlen_nonneg (name_bytes ls ++ post)). rewrite zlen_app. lia.
Qed.

(** C27: decoding a name at any offset of a message ends without a panic. It succeeds
    on the names of RFC 1035 (with labels of 1 to 63 octets without a dot) that take at
    most ten pointers, none of them to offset 0, and on nothing else but this: a name
    that runs into a pointer to offset 0 ends there, before the pointer, whatever is at
    offset 0 ([dns_zero_pointer_misparsed]). The result is the uncompressed form of the
    labels, the next offset the end of what the name occupies, still inside the message.
    The limit of 255 octets of the RFC is not enforced ([dns_long_name_decodes]); a
    result has at most eleven times the length of the message. *)
Theorem dns_name_decode_exact msg off :
  is_bytes msg -> zlen msg <= 65535 -> 0 <= off <= zlen msg ->
  exists n next err, Name_Decode msg off = Ret (n, next, err) /\
    (forall ls e k, rfc_name msg off ls e k -> k <= 10 ->
       (forall ls' e' k', ~ zero_ended msg off ls' e' k') ->
       n = name_bytes ls /\ next = e /\ err = None) /\
    (forall ls e k, zero_ended msg off ls e k -> k <= 10 ->
       n = name_bytes ls /\ next = e /\ err = None) /\
    (err = None -> next <= zlen msg /\ zlen n <= 11 * zlen msg + 1 /\
       exists ls k, n = name_bytes ls /\ k <= 10 /\
         (rfc_name msg off ls next k \/ zero_ended msg off ls next k)).
Proof.
  intros Hb Hl Ho.
  assert (forall n next err ls e k, Name_Decode msg off = Ret (n, next, err) ->
    wire_name true msg off ls e k -> k <= 10 -> n = name_bytes ls /\ next = e /\ err = None) as Hc.
  { intros n next err ls e k E Hw Hk. rewrite (Name_Decode_wire true msg off ls e k) in E by done.
    by simplify_eq. }
  assert (exists n next err, Name_Decode msg off = Ret (n, next, err) /\
    (err = None -> exists ls k, wire_name true msg off ls next k /\ k <= 10 /\ n = name_bytes ls))
    as (n & next & err & E & Hs).
  { destruct (Name_Decode_total msg off Hb Hl Ho) as [(r & e & E)|(ls & next & k & E & Hw & Hk)];
      do 3 eexists; (split; [exact E|]); [done|eauto]. }
  exists n, next, err. split_and!; [done| | |].
  - intros ls e k Hr Hk Hz. apply (rfc_name_wire msg) in Hr as [Hw|(ls' & e' & k' & Hw)]; [|by destruct (Hz ls' e' k')|done].
    by apply (Hc n next err ls e k).
  - intros ls e k Hw Hk. apply (Hc n next err ls e k); [done|by apply zero_ended_wire|done].
  - intros He. destruct (Hs He) as (ls & k & Hw & Hk & ->). apply wire_size in Hw as Hsz; [|lia].
    apply wire_next in Hw as Hn; [|lia]. split; [lia|]. split.
    { unfold name_bytes. rewrite zlen_app, zlen_cons, zlen_nil. nia. }
    exists ls, k. by apply wire_split in Hw.
Qed.

(** A name of 321 octets, over the limit of 255, is decoded. *)
Theorem dns_long_name_decodes :
  let msg := mjoin (replicate 5 (63 :: replicate 63 97)) ++ [0] in
  Name_Decode msg 0 = Ret (msg, 321, None).
Proof. by vm_compute. Qed.

(** ** Text *)

Definition dotted (ls : list (list Z)) : list Z := mjoin ((fun l => l ++ [dot]) <$> ls).

Lemma dotted_cons l ls : dotted (l :: ls) = l ++ dot :: dotted ls.
Proof. unfold dotted. cbn. by rewrite <- app_assoc. Qed.
Lemma dotted_ends l ls : exists d, dotted (l :: ls) = d ++ [dot].
Proof.
  revert l. induction ls as [|x ls IH]; intros l; rewrite dotted_cons; [by exists l|].
  destruct (IH x) as [d ->]. exists (l ++ dot :: d). by rewrite <- app_assoc.
Qed.

Lemma Cut_found s l : dot ∉ l -> Cut (l ++ dot :: s) = (l, s, true).
Proof.
  induction l as [|c l IH]; intros Hd; cbn; [done|].
  apply not_elem_of_cons in Hd as [Hc Hd]. rewrite IH by done.
  by destruct (Z.eqb_spec c dot) as [->|].
Qed.
Lemma Cut_all l : dot ∉ l -> Cut l = (l, [], false).
Proof.
  induction l as [|c l IH]; intros Hd; cbn; [done|].
  apply not_elem_of_cons in Hd as [Hc Hd]. rewrite IH by done.
  by destruct (Z.eqb_spec c dot) as [->|].
Qed.
Lemma Cut_inv s l a f :
  Cut s = (l, a, f) -> (dot ∉ l) /\ (if f then s = l ++ dot :: a else s = l /\ a = []).
Proof.
  revert l a f. induction s as [|c s IH]; intros l a f; cbn.
  { intros. simplify_eq. split; [apply not_elem_of_nil|done]. }
  destruct (Z.eqb_spec c dot) as [->|Hc]; [intros; simplify_eq; split; [apply not_elem_of_nil|done]|].
  destruct (Cut s) as [[b a'] f'] eqn:E. intros. simplify_eq.
  destruct (IH _ _ _ eq_refl) as [Hd Hs]. split; [by apply not_elem_of_cons|].
  destruct f; [by rewrite Hs|]. by destruct Hs as [-> ->].
Qed.

(** The spellings [EqualString] accepts. *)
Definition spells (s : list Z) (ls : list (list Z)) : Prop :=
  s = dotted ls \/ s ++ [dot] = dotted ls \/ s = dotted ls ++ [dot].

Lemma spells_cons s l ls :
  Forall label_ok (l :: ls) -> spells s (l :: ls) <-> exists s' f, Cut s = (l, s', f) /\ spells s' ls.
Proof.
  intros [(_ & Hll & Hd) Hls]%Forall_cons. unfold spells. rewrite dotted_cons. split.
  - intros [-> | [E | -> ]].
    + exists (dotted ls), true. rewrite Cut_found by done. auto.
    + destruct ls as [|x ls].
      * apply (inj (.++ [dot])) in E as ->. exists [], false. rewrite Cut_all by done. auto.
      * destruct (dotted_ends x ls) as [d Ed]. rewrite Ed, app_comm_cons, app_assoc in E.
        apply (inj (.++ [dot])) in E as ->. exists d, true.
        rewrite Cut_found, Ed by done. auto.
    + exists (dotted ls ++ [dot]), true. rewrite <- app_assoc. cbn. rewrite Cut_found by done. auto.
  - intros (s' & f & Hs & Hsp). apply Cut_inv in Hs as [_ Hs]. destruct f.
    + subst s. rewrite <- !app_assoc. cbn. destruct Hsp as [-> | [<- | -> ]]; auto.
    + destruct Hs as [-> ->]. right; left. destruct ls as [|x ls]; [done|].
      apply Forall_cons in Hls as [(_ & Hxl & _) _]. exfalso.
      rewrite dotted_cons in Hsp. destruct x as [|y x]; [rewrite zlen_nil in Hxl; lia|].
      destruct Hsp as [E|[E|E]]; [done| |done]. destruct x; discriminate E.
Qed.

Lemma EqualString_loop_spec fuel ls s :
  Forall label_ok ls -> (length (name_bytes ls) < fuel)%nat ->
  EqualString_loop fuel (name_bytes ls) s = true <-> spells s ls.
Proof.
  revert fuel s. induction ls as [|l ls IH]; intros fuel s Hls Hf; (destruct fuel as [|fuel]; [lia|]).
  - cbn. unfold spells. cbn. rewrite orb_true_iff, !bool_decide_eq_true.
    split; [naive_solver|]. intros [?|[?|?]]; [by left| |by right]. by destruct s.
  - rewrite spells_cons by done. apply Forall_cons in Hls as [(Hlb & Hll & Hld) Hls].
    assert (name_bytes (l :: ls) = zlen l :: l ++ name_bytes ls) as En.
    { unfold name_bytes. by rewrite labels_bytes_cons, <- app_comm_cons, <- app_assoc. }
    rewrite En in *. cbn [EqualString_loop]. assert ((zlen l =? 0) = false) as -> by lia.
    rewrite zlen_cons, zlen_app. pose proof (zlen_nonneg (name_bytes ls)).
    assert ((1 + (zlen l + zlen (name_bytes ls)) <? 1 + zlen l) = false) as -> by lia.
    replace (slice _ 1 (1 + zlen l)) with l by (symmetry; apply (slice_mid [zlen l])).
    replace (zdrop (1 + zlen l) _) with (name_bytes ls)
      by (symmetry; by apply (zdrop_app_exact _ (zlen l :: l)); rewrite zlen_cons).
    destruct (Cut s) as [[seg s'] f]. destruct (bool_decide_reflect (seg = l)) as [->|Hn].
    + rewrite Z.eqb_refl. cbn. rewrite IH; [|done|cbn in Hf; rewrite length_app in Hf; lia].
      split; [eauto|]. intros (? & ? & ? & ?). by simplify_eq.
    + rewrite orb_true_r. split; [done|]. intros (? & ? & ? & ?). by simplify_eq.
Qed.

Lemma EqualString_spec ls s :
  Forall label_ok ls -> EqualString (name_bytes ls) s = true <-> spells s ls.
Proof. intros. apply EqualString_loop_spec; [done|lia]. Qed.

(** ** Parsing text *)

(** The name [NewName] has built after some labels: empty, without a terminator, before
    the first. *)
Definition built (ls : list (list Z)) : Name := if decide (ls = []) then [] else name_bytes ls.

Lemma AddLabel_built ls l n :
  is_bytes l -> AddLabel (built ls) l = Ret n -> label_ok l /\ n = built (ls ++ [l]) /\ zlen n <= 255.
Proof.
  intros Hl H. unfold AddLabel in H. ret_inv H.
  unfold CanAddLabel in Ec. rewrite !andb_true_iff, !negb_true_iff, contains_false in Ec.
  pose proof (zlen_nonneg l). pose proof (zlen_nonneg (built ls)).
  assert (label_ok l) as Hok by (split_and!; [done|lia|lia|tauto]).
  assert (zlen (built (ls ++ [l])) <= 255) as Hlen.
  { assert (zlen (built ls) = 0 /\ ls = [] \/ zlen (built ls) = zlen (labels_bytes ls) + 1) as Hb.
    { unfold built, name_bytes. destruct (decide (ls = [])); [by left|right]. by rewrite zlen_app. }
    unfold built at 1. rewrite decide_False by by destruct ls. unfold name_bytes.
    rewrite labels_bytes_snoc, !zlen_app, !zlen_cons, zlen_nil.
    destruct Hb as [[? ->]|?]; [change (zlen (labels_bytes [])) with 0|]; lia. }
  match goal with |- _ /\ ?x = ?y /\ _ => enough (x = y) as -> by done end.
  rewrite u8_small by (destruct Hok as (_ & ? & _); wrap_lia).
  unfold built. rewrite (decide_False (P := ls ++ [l] = [])) by by destruct ls.
  unfold name_bytes. rewrite labels_bytes_snoc. destruct (decide (ls = [])) as [->|Hls].
  - done.
  - unfold isTerminated. rewrite last_snoc, zlen_app, zlen_cons, zlen_nil.
    rewrite ztake_app_exact by lia. by rewrite <- !app_assoc.
Qed.

Lemma NewName_loop_spec fuel ls s :
  is_bytes s -> (length s < fuel)%nat -> Forall label_ok ls -> zlen (built ls) <= 255 ->
  exists n err, NewName_loop fuel (built ls) s = Some (Ret (n, err)) /\
    (err = None -> exists ks, n = built (ls ++ ks) /\ zlen n <= 255 /\ Forall label_ok ks /\
       (s = dotted ks \/ s ++ [dot] = dotted ks)).
Proof.
  revert ls s. induction fuel as [|fuel IH]; intros ls s Hs Hf Hls Hl; [lia|].
  destruct s as [|c s].
  { exists (built ls), None. split; [done|]. intros _. exists []. rewrite app_nil_r. by split_and!; [| | |left]. }
  cbn [NewName_loop]. destruct (Cut (c :: s)) as [[l a] f] eqn:Ecut.
  destruct (CanAddLabel (built ls) l) eqn:Eadd; [|by exists [], (Some errCantAddLabel)].
  cbn [negb]. apply Cut_inv in Ecut as [Hd Hs'].
  assert (is_bytes l) as Hlb.
  { destruct f; [rewrite Hs' in Hs; apply (Forall_app _ l _) in Hs; tauto|by destruct Hs' as [<- _]]. }
  destruct (AddLabel (built ls) l) as [n|] eqn:Ea;
    [|unfold AddLabel, assert_or_panic in Ea; by rewrite Eadd in Ea].
  apply AddLabel_built in Ea as (Hok & -> & Hn); [|done]. destruct f.
  - destruct (IH (ls ++ [l]) a) as (n & err & -> & H).
    { rewrite Hs' in Hs. apply Forall_app in Hs as [_ Hs]. by apply Forall_cons in Hs as [_ ?]. }
    { apply (f_equal length) in Hs'. rewrite length_app in Hs'. cbn in *. lia. }
    { by apply Forall_app_2; [|apply Forall_singleton]. }
    { done. }
    exists n, err. split; [done|]. intros (ks & -> & Hkl & Hks & Hsp)%H.
    exists (l :: ks). rewrite <- app_assoc in *. split_and!; [done|done|by constructor|].
    rewrite dotted_cons, Hs'. destruct Hsp as [->|<-]; [by left|right; by rewrite <- app_assoc].
  - destruct Hs' as [Hsl ->]. rewrite Hsl. exists (built (ls ++ [l])), None. split; [done|]. intros _. exists [l].
    split_and!; [done|done|by apply Forall_singleton|right; by rewrite dotted_cons].
Qed.

Lemma AppendDottedTo_bytes ls b :
  Forall label_ok ls -> zlen (name_bytes ls) <= 255 ->
  AppendDottedTo (name_bytes ls) b = Ret (b ++ dotted ls).
Proof.
  intros Hls Hl. unfold AppendDottedTo, VisitLabels, allowCompression.
  assert ((255 <? zlen (name_bytes ls)) = false) as -> by lia.
  pose proof (wire_name_bytes false [] ls [] Hls) as Hw. rewrite app_nil_r in Hw.
  rewrite (visitAllLabels_complete _ _ (name_bytes_ok ls Hls) ltac:(lia) _ _ _ _ _ _ Hw);
    [|split; [done|apply zlen_nonneg]|lia].
  cbn [mbind outcome_bind]. f_equal. clear Hw Hl Hls. revert b.
  induction ls as [|l ls IH]; intros b; [by rewrite app_nil_r|].
  cbn [foldl]. rewrite IH, dotted_cons, <- !app_assoc. done.
Qed.

(** [NewName] never panics. The name it makes of a text is found again by decoding it
    anywhere in a message, prints as the same text with a final dot, and equals the
    text. *)
Theorem dns_name_text_roundtrip s :
  is_bytes s ->
  exists n err, NewName s = Ret (n, err) /\ (err = None ->
    (forall pre post, is_bytes (pre ++ post) -> zlen (pre ++ n ++ post) <= 65535 ->
       Name_Decode (pre ++ n ++ post) (zlen pre) = Ret (n, zlen pre + zlen n, None)) /\
    (exists d, AppendDottedTo n [] = Ret d /\ (s = d \/ s ++ [dot] = d \/ s = [dot] /\ d = [])) /\
    EqualString n s = true).
Proof.
  intros Hs. assert (exists n err, NewName s = Ret (n, err) /\ (err = None -> exists ls,
    n = name_bytes ls /\ zlen n <= 255 /\ Forall label_ok ls /\
    (s = dotted ls \/ s ++ [dot] = dotted ls \/ s = [dot] /\ ls = []))) as (n & err & E & H).
  { destruct s as [|c s]; [by exists [], (Some errEmptyDomainName)|]. unfold NewName.
    case_bool_decide as Hd; [exists rootDomain, None; split; [done|]; intros _; exists []; by split_and!; [| | |right; right]|].
    change (NewName_loop _ [] _) with (NewName_loop (S (length (c :: s))) (built []) (c :: s)).
    destruct (NewName_loop_spec (S (length (c :: s))) [] (c :: s)) as (n & err & -> & H); [done|lia|done..|].
    exists n, err. split; [done|]. intros (ls & -> & Hl & Hls & Hsp)%H. exists ls. cbn [app] in *.
    unfold built in *. case_decide; subst; [|tauto]. by destruct Hsp. }
  exists n, err. split; [done|]. intros (ls & -> & Hl & Hls & Hsp)%H. split_and!.
  - intros pre post Hb Hlen. apply Name_Decode_bytes; [|done..].
    apply Forall_app in Hb as [? ?].
    apply is_bytes_app; [done|]. apply is_bytes_app; [by apply name_bytes_ok|done].
  - exists (dotted ls). rewrite AppendDottedTo_bytes by done. split; [done|].
    destruct Hsp as [|[|[? ->]]]; [by left|right; by left|right; by right].
  - apply EqualString_spec; [done|]. unfold spells. destruct Hsp as [|[|[-> ->]]]; [by left|right; by left|right; by right].
Qed.

(** ["a"] at offset 0, and a name that ends in a pointer to it. *)
Definition demo_names : list Z := [1; 98; 1; 97; 0; 1; 99; 0xc0; 2].
Lemma dns_name_decode_exact_witness :
  Name_Decode demo_names 5 = Ret (name_bytes [[99]; [97]], 9, None) /\
  rfc_name demo_names 5 [[99]; [97]] 9 1.
Proof.
  assert (rfc_name demo_names 5 [[99]; [97]] 9 1) as Hw.
  { apply rfc_label; [by_compute|done|by_compute|done|].
    apply (rfc_pointer _ 7 192 2 [[97]] 5 0); [done|done|done|by_compute|].
    apply (rfc_label _ 2 [97] [] 5 0); [by_compute|done|by_compute|done|]. by apply rfc_end. }
  destruct (dns_name_decode_exact demo_names 5) as (n & next & err & E & Hc & Hz & _); [by_compute..|].
  destruct (Hc [[99]; [97]] 9 1 Hw) as (-> & -> & ->); [done| |done].
  intros ls e k (i & H1 & H2)%zero_ended_octets. pose proof (zget_range _ _ _ H1) as Hi. change (zlen demo_names) with 9 in Hi.
  assert (i = 0 \/ i = 1 \/ i = 2 \/ i = 3 \/ i = 4 \/ i = 5 \/ i = 6 \/ i = 7 \/ i = 8) as Hi' by lia.
  by destruct Hi' as [->|[->|[->|[->|[->|[->|[->|[->| ->]]]]]]]].
Defined.
Lemma dns_name_text_roundtrip_witness : exists n,
  NewName [97; dot; 98] = Ret (n, None) /\ AppendDottedTo n [] = Ret [97; dot; 98; dot].
Proof.
  destruct (dns_name_text_roundtrip [97; dot; 98]) as (n & err & E & H); [by_compute|].
  exists n. vm_compute in E. injection E as <- <-. split; [done|].
  destruct (H eq_refl) as (_ & (d & Hd & _) & _). vm_compute in Hd |- *. exact Hd || done.
Defined.
End DnsNameThms.
