(* ===== verification/Dns.v ===== *)
(** * DNS messages ([src/dns/dns.go], [src/dns/definitions.go], [SliceReuse] of
    [src/internal/slices.go])

    Capacities matter in this code: they limit how much of a message is decoded, and
    encoding writes into spare capacity it reserved beforehand. A slice of questions or
    resources is its elements and its capacity ([vec]); a decoded element overwrites
    every field of the one it replaces, so what the spare elements hold is left out. A
    buffer that is appended to ([gbuf]) is its backing array and length. How much larger
    than needed Go makes a slice that grows is up to its run time, the class
    [GoRuntime]. *)
From S2P Require Import Prelude Errors Bytes DnsName.

Module Dns.
Import Bytes DnsName.
Open Scope Z_scope.
Open Scope list_scope.

Definition SizeHeader : Z := 6 * 2.
Definition ServerPort : Z := 53.
Definition ClientPort : Z := 53.

(** ** The header *)

Definition NewFrame (buf : list Z) : list Z * option error :=
  if zlen buf <? SizeHeader then ([], Some ErrTruncatedFrame) else (buf, None).

Definition TxID (frm : list Z) : outcome Z := Uint16 frm 0.
Definition SetTxID (txid : Z) (frm : list Z) : outcome (list Z) := PutUint16 frm 0 txid.
Definition Flags (frm : list Z) : outcome Z := Uint16 frm 2.
Definition SetFlags (flags : Z) (frm : list Z) : outcome (list Z) := PutUint16 frm 2 flags.
Definition QDCount (frm : list Z) : outcome Z := Uint16 frm 4.
Definition SetQDCount (qdCount : Z) (frm : list Z) : outcome (list Z) := PutUint16 frm 4 qdCount.
Definition ANCount (frm : list Z) : outcome Z := Uint16 frm 6.
Definition SetANCount (anCount : Z) (frm : list Z) : outcome (list Z) := PutUint16 frm 6 anCount.
Definition NSCount (frm : list Z) : outcome Z := Uint16 frm 8.
Definition SetNSCount (nsCount : Z) (frm : list Z) : outcome (list Z) := PutUint16 frm 8 nsCount.
Definition ARCount (frm : list Z) : outcome Z := Uint16 frm 10.
Definition SetARCount (arCount : Z) (frm : list Z) : outcome (list Z) := PutUint16 frm 10 arCount.
Definition ClearHeader (frm : list Z) : outcome (list Z) :=
  put_checked frm 0 (replicate (Z.to_nat SizeHeader) 0).

(** [HeaderFlags] *)
Definition b2u8 (b : bool) : Z := if b then 1 else 0.
Definition NewClientHeaderFlags (op : Z) (enableRecursion : bool) : Z :=
  Z.lor (u16 (Z.shiftl (Z.land op 15) 11)) (u16 (Z.shiftl (b2u8 enableRecursion) 8)).
Definition IsResponse (flags : Z) : bool := negb (Z.land flags (Z.shiftl 1 15) =? 0).
Definition OpCode (flags : Z) : Z := Z.land (Z.shiftr flags 11) 15.
Definition IsAuthorativeAnswer (flags : Z) : bool := negb (Z.land flags (Z.shiftl 1 10) =? 0).
Definition IsTruncated (flags : Z) : bool := negb (Z.land flags (Z.shiftl 1 9) =? 0).
Definition IsRecursionDesired (flags : Z) : bool := negb (Z.land flags (Z.shiftl 1 8) =? 0).
Definition IsRecursionAvailable (flags : Z) : bool := negb (Z.land flags (Z.shiftl 1 7) =? 0).
Definition ResponseCode (flags : Z) : Z := Z.land flags 15.

Definition TypeA : Z := 1.
Definition TypeCNAME : Z := 5.
Definition TypePTR : Z := 12.
Definition TypeTXT : Z := 16.
Definition TypeAAAA : Z := 28.
Definition TypeSRV : Z := 33.
Definition TypeOPT : Z := 41.
Definition TypeALL : Z := 255.
Definition ClassINET : Z := 1.
Definition OpCodeQuery : Z := 0.
Definition IsIPAddr (tp : Z) : bool := (tp =? TypeA) || (tp =? TypeAAAA).

(** ** Data *)

Record Question := mkQuestion { q_Name : Name; q_Type : Z; q_Class : Z }.
Record ResourceHeader := mkResourceHeader {
  rh_Name : Name; rh_Type : Z; rh_Class : Z; rh_TTL : Z; rh_Length : Z }.
Record Resource := mkResource { r_header : ResourceHeader; r_data : list Z }.

Record vec (A : Type) := mkVec { elems : list A; vcap : Z }.
Arguments mkVec {A} elems vcap.
Arguments elems {A} v.
Arguments vcap {A} v.

Record Message := mkMessage {
  Questions : vec Question;
  Answers : vec Resource;
  Authorities : vec Resource;
  Additionals : vec Resource
}.

Definition zero_question : Question := mkQuestion [] 0 0.
Definition zero_header : ResourceHeader := mkResourceHeader [] 0 0 0 0.
Definition zero_resource : Resource := mkResource zero_header [].
Definition with_Length (n : Z) (h : ResourceHeader) : ResourceHeader :=
  mkResourceHeader (rh_Name h) (rh_Type h) (rh_Class h) (rh_TTL h) n.

Definition caporzero {A} (v : option (vec A)) : Z :=
  match v with None => 0 | Some v => vcap v end.

(** ** Decoding: the receiver, the offset and the error *)

Definition Question_Decode (q : Question) (msg : list Z) (off : Z)
    : outcome (Question * Z * option error) :=
  '(name, off, err) ← Name_Decode msg off;
  let q := mkQuestion name (q_Type q) (q_Class q) in
  match err with
  | Some e => Ret (q, off, Some e)
  | None =>
      if u16 (zlen msg) <? u16 (off + 4) then Ret (q, off, Some errResourceLen)
      else
        ty ← Uint16 msg off;
        cl ← Uint16 msg (u16 (off + 2));
        Ret (mkQuestion name ty cl, u16 (off + 4), None)
  end.

Definition ResourceHeader_Decode (rhdr : ResourceHeader) (msg : list Z) (off : Z)
    : outcome (ResourceHeader * Z * option error) :=
  '(name, off, err) ← Name_Decode msg off;
  let rhdr := mkResourceHeader name (rh_Type rhdr) (rh_Class rhdr) (rh_TTL rhdr) (rh_Length rhdr) in
  match err with
  | Some e => Ret (rhdr, off, Some e)
  | None =>
      if u16 (zlen msg) <? u16 (off + 10) then Ret (rhdr, off, Some errResourceLen)
      else
        ty ← Uint16 msg off;
        cl ← Uint16 msg (u16 (off + 2));
        ttl ← Uint32 msg (u16 (off + 4));
        len ← Uint16 msg (u16 (off + 8));
        Ret (mkResourceHeader name ty cl ttl len, u16 (off + 10), None)
  end.

Definition Resource_Decode (r : Resource) (b : list Z) (off : Z)
    : outcome (Resource * Z * option error) :=
  '(h, off, err) ← ResourceHeader_Decode (r_header r) b off;
  match err with
  | Some e => Ret (mkResource h (r_data r), off, Some e)
  | None =>
      assert_or_panic (slice_ok b off (zlen b))
        (if u16 (zlen b - off) <? rh_Length h
         then Ret (mkResource h (r_data r), off, Some errResourceLen)
         else
           let end_ := u16 (off + rh_Length h) in
           let plain :=
             assert_or_panic (slice_ok b off end_) (Ret (mkResource h (slice b off end_), end_, None)) in
           if rh_Type h =? TypeCNAME then
             '(cname, _, derr) ← Name_Decode b off;
             match derr with
             | None => Ret (mkResource (with_Length (u16 (zlen cname)) h) cname, end_, None)
             | Some _ => plain
             end
           else plain)
  end.

Definition skipName (msg : list Z) (off : Z) : outcome (Z * option error) :=
  '(_, off, err) ← visitAllLabels (fun a _ => a) msg off allowCompression tt; Ret (off, err).

Definition skipQuestion (msg : list Z) (off : Z) : outcome (Z * option error) :=
  '(off, err) ← skipName msg off;
  match err with
  | Some e => Ret (off, Some e)
  | None =>
      if u16 (zlen msg) <? u16 (off + 4) then Ret (off, Some ErrTruncatedFrame)
      else Ret (u16 (off + 4), None)
  end.

Definition skipResource (msg : list Z) (off : Z) : outcome (Z * option error) :=
  '(off, err) ← skipName msg off;
  match err with
  | Some e => Ret (off, Some e)
  | None =>
      datalen ← Uint16 msg (u16 (off + 8));
      let off := u16 (off + u16 (datalen + 10)) in
      if u16 (zlen msg) <? off then Ret (off, Some ErrTruncatedFrame) else Ret (off, None)
  end.

(** [n] elements from an offset on: those decoded before the first error. *)
Fixpoint decode_n {A} (dec : Z -> outcome (A * Z * option error)) (n : nat) (off : Z)
    : outcome (list A * Z * option error) :=
  match n with
  | O => Ret ([], off, None)
  | S n =>
      '(x, off, err) ← dec off;
      match err with
      | Some e => Ret ([], off, Some e)
      | None => '(xs, off, err) ← decode_n dec n off; Ret (x :: xs, off, err)
      end
  end.
Fixpoint skip_n (skip : Z -> outcome (Z * option error)) (n : nat) (off : Z)
    : outcome (Z * option error) :=
  match n with
  | O => Ret (off, None)
  | S n =>
      '(off, err) ← skip off;
      match err with Some e => Ret (off, Some e) | None => skip_n skip n off end
  end.

(** The destination is [None] for a nil pointer. *)
Definition decodeToCapResources (dst : option (vec Resource)) (msg : list Z) (originalRec off : Z)
    : outcome (option (vec Resource) * Z * option error) :=
  let nrec := match dst with
              | Some v => if u16 (vcap v) <? originalRec then u16 (vcap v) else originalRec
              | None => originalRec
              end in
  '(dst, off, err) ←
    match dst with
    | Some v =>
        '(rs, off, err) ← decode_n (Resource_Decode zero_resource msg) (Z.to_nat nrec) off;
        Ret (Some (mkVec rs (vcap v)), off, err)
    | None => Ret (None, off, None)
    end;
  match err with
  | Some e => Ret (dst, off, Some e)
  | None =>
      '(off, err) ← skip_n (skipResource msg) (Z.to_nat (u16 (originalRec - nrec))) off;
      Ret (dst, off, err)
  end.

(** The arguments of [DecodeMessage] it writes to. *)
Record targets := mkTargets {
  t_q : option (vec Question);
  t_ans : option (vec Resource);
  t_auth : option (vec Resource);
  t_add : option (vec Resource)
}.

Definition tooManyErr (t : targets) (qd an ns ar : Z) : option error :=
  if caporzero (t_q t) <? qd then Some ErrExhausted
  else if caporzero (t_ans t) <? an then Some ErrExhausted
  else if caporzero (t_auth t) <? ns then Some ErrExhausted
  else if caporzero (t_add t) <? ar then Some ErrExhausted
  else None.

(** The questions: those up to the capacity are decoded, the rest is skipped. *)
Definition decode_questions (q : option (vec Question)) (msg : list Z) (qd off : Z)
    : outcome (option (vec Question) * Z * option error) :=
  let nq := match q with Some v => if vcap v <? qd then vcap v else qd | None => 0 end in
  '(q, off, err) ←
    match q with
    | Some v =>
        '(qs, off, err) ← decode_n (Question_Decode zero_question msg) (Z.to_nat nq) off;
        Ret (Some (mkVec qs (vcap v)), off, err)
    | None => Ret (None, off, None)
    end;
  match err with
  | Some e => Ret (q, off, Some e)
  | None =>
      '(off, err) ← skip_n (skipQuestion msg) (Z.to_nat (qd - nq)) off; Ret (q, off, err)
  end.

(** The targets, the offset, [incompleteButOK], the error. *)
Definition DecodeMessage (t : targets) (msg : list Z)
    : outcome (targets * Z * bool * option error) :=
  match NewFrame msg with
  | (_, Some e) => Ret (t, 0, false, Some e)
  | (hdr, None) =>
      qd ← QDCount hdr; an ← ANCount hdr; ns ← NSCount hdr; ar ← ARCount hdr;
      let too := tooManyErr t qd an ns ar in
      '(q, off, err) ← decode_questions (t_q t) msg qd SizeHeader;
      let t := mkTargets q (t_ans t) (t_auth t) (t_add t) in
      match err with
      | Some e => Ret (t, off, false, Some e)
      | None =>
      '(ans, off, err) ← decodeToCapResources (t_ans t) msg an off;
      let t := mkTargets (t_q t) ans (t_auth t) (t_add t) in
      match err with
      | Some e => Ret (t, off, false, Some e)
      | None =>
      '(auth, off, err) ← decodeToCapResources (t_auth t) msg ns off;
      let t := mkTargets (t_q t) (t_ans t) auth (t_add t) in
      match err with
      | Some e => Ret (t, off, false, Some e)
      | None =>
      '(add, off, err) ← decodeToCapResources (t_add t) msg ar off;
      let t := mkTargets (t_q t) (t_ans t) (t_auth t) add in
      match err with
      | Some e => Ret (t, off, false, Some e)
      | None => Ret (t, off, match too with Some _ => true | None => false end, too)
      end end end end
  end.

Definition targets_of (m : Message) : targets :=
  mkTargets (Some (Questions m)) (Some (Answers m)) (Some (Authorities m)) (Some (Additionals m)).
Definition message_of (m : Message) (t : targets) : Message :=
  mkMessage (default (Questions m) (t_q t)) (default (Answers m) (t_ans t))
            (default (Authorities m) (t_auth t)) (default (Additionals m) (t_add t)).

Definition Decode (m : Message) (msg : list Z) : outcome (Message * Z * bool * option error) :=
  '(t, off, ok, err) ← DecodeMessage (targets_of m) msg; Ret (message_of m t, off, ok, err).

(** ** Lengths *)

Definition Question_Len (q : Question) : outcome Z := l ← Name_Len (q_Name q); Ret (u16 (l + 4)).
Definition Resource_Len (r : Resource) : outcome Z :=
  l ← Name_Len (rh_Name (r_header r)); Ret (u16 (u16 (l + 10) + u16 (zlen (r_data r)))).

Fixpoint sum_len {A} (len : A -> outcome Z) (l : list A) (acc : Z) : outcome Z :=
  match l with
  | [] => Ret acc
  | x :: l => n ← len x; sum_len len l (u16 (acc + n))
  end.
Definition lenResources (m : Message) : outcome Z :=
  l ← sum_len Question_Len (elems (Questions m)) 0;
  l ← sum_len Resource_Len (elems (Answers m)) l;
  l ← sum_len Resource_Len (elems (Authorities m)) l;
  sum_len Resource_Len (elems (Additionals m)) l.
Definition Len (m : Message) : outcome Z := l ← lenResources m; Ret (u16 (SizeHeader + l)).

(** ** Encoding *)

(** The backing array and the length. [b_left]: the array the buffer started with, as it
    was when an append moved the contents to a new one. *)
Record gbuf := mkBuf { b_mem : list Z; b_len : Z; b_left : option (list Z) }.

Definition contents (b : gbuf) : list Z := ztake (b_len b) (b_mem b).
Definition bcap (b : gbuf) : Z := zlen (b_mem b).
(** The array the buffer started with. *)
Definition origin (b : gbuf) : list Z := default (b_mem b) (b_left b).

Definition zeros (n : Z) : list Z := replicate (Z.to_nat n) 0.

Section Append.
Context {RT : GoRuntime}.

(** [append(b, vs...)] *)
Definition append (b : gbuf) (vs : list Z) : gbuf :=
  let need := b_len b + zlen vs in
  if need <=? bcap b then mkBuf (put (b_mem b) (b_len b) vs) need (b_left b)
  else mkBuf (contents b ++ vs ++ zeros (growslice (bcap b) need - need)) need (Some (origin b)).

(** [slices.Grow(b, n)] *)
Definition Grow (b : gbuf) (n : Z) : gbuf :=
  let need := b_len b + n in
  if need <=? bcap b then b
  else mkBuf (b_mem b ++ zeros (growslice (bcap b) need - bcap b)) (b_len b) (Some (origin b)).

Definition append16 (b : gbuf) (v : Z) : outcome gbuf :=
  assert_or_panic (b_len b + 2 <=? bcap b)
    (Ret (mkBuf (put (b_mem b) (b_len b) (bytes16 v)) (b_len b + 2) (b_left b))).
Definition append32 (b : gbuf) (v : Z) : outcome gbuf :=
  assert_or_panic (b_len b + 4 <=? bcap b)
    (Ret (mkBuf (put (b_mem b) (b_len b) (bytes32 v)) (b_len b + 4) (b_left b))).

Definition Name_AppendTo (n : Name) (b : gbuf) : gbuf * option error :=
  if zlen n =? 0 then (b, Some errInvalidName) else (append b n, None).

Definition Question_appendTo (q : Question) (buf : gbuf) : outcome (gbuf * option error) :=
  match Name_AppendTo (q_Name q) buf with
  | (buf, Some e) => Ret (buf, Some e)
  | (buf, None) =>
      buf ← append16 buf (q_Type q); buf ← append16 buf (q_Class q); Ret (buf, None)
  end.

Definition ResourceHeader_appendTo (rhdr : ResourceHeader) (buf : gbuf)
    : outcome (gbuf * option error) :=
  match Name_AppendTo (rh_Name rhdr) buf with
  | (buf, Some e) => Ret (buf, Some e)
  | (buf, None) =>
      buf ← append16 buf (rh_Type rhdr); buf ← append16 buf (rh_Class rhdr);
      buf ← append32 buf (rh_TTL rhdr); buf ← append16 buf (rh_Length rhdr); Ret (buf, None)
  end.

Definition Resource_appendTo (r : Resource) (buf : gbuf) : outcome (gbuf * option error) :=
  '(buf, err) ← ResourceHeader_appendTo (r_header r) buf;
  match err with
  | Some e => Ret (buf, Some e)
  | None => Ret (append buf (r_data r), None)
  end.

Fixpoint append_all {A} (app : A -> gbuf -> outcome (gbuf * option error)) (l : list A) (buf : gbuf)
    : outcome (gbuf * option error) :=
  match l with
  | [] => Ret (buf, None)
  | x :: l =>
      '(buf, err) ← app x buf;
      match err with Some e => Ret (buf, Some e) | None => append_all app l buf end
  end.

(** The header, written into spare capacity. *)
Definition append_header (buf : gbuf) (txid flags nq nans nauth nadd : Z) : outcome gbuf :=
  let off := b_len buf in
  assert_or_panic (off + SizeHeader <=? bcap buf)
    (f ← SetTxID txid (slice (b_mem buf) off (off + SizeHeader));
     f ← SetFlags flags f; f ← SetQDCount nq f; f ← SetANCount nans f;
     f ← SetNSCount nauth f; f ← SetARCount nadd f;
     Ret (mkBuf (put (b_mem buf) off f) (off + SizeHeader) (b_left buf))).

Definition Message_AppendTo (m : Message) (buf : gbuf) (txid flags : Z)
    : outcome (gbuf * option error) :=
  let nq := u16 (zlen (elems (Questions m))) in
  let nans := u16 (zlen (elems (Answers m))) in
  let nauth := u16 (zlen (elems (Authorities m))) in
  let nadd := u16 (zlen (elems (Additionals m))) in
  len ← Len m;
  buf ← append_header (Grow buf len) txid flags nq nans nauth nadd;
  '(buf, err) ← append_all Question_appendTo (elems (Questions m)) buf;
  match err with
  | Some e => Ret (buf, Some e)
  | None =>
  '(buf, err) ← append_all Resource_appendTo (elems (Answers m)) buf;
  match err with
  | Some e => Ret (buf, Some e)
  | None =>
  '(buf, err) ← append_all Resource_appendTo (elems (Authorities m)) buf;
  match err with
  | Some e => Ret (buf, Some e)
  | None => append_all Resource_appendTo (elems (Additionals m)) buf
  end end end.

(** ** Building messages *)

(** [slices.Grow] and reslicing, the new elements copied. *)
Definition vec_extend {A} (v : vec A) (l : list A) : vec A :=
  let need := zlen (elems v) + zlen l in
  mkVec (elems v ++ l) (if need <=? vcap v then vcap v else growslice (vcap v) need).

Definition AddQuestions (m : Message) (questions : list Question) : Message :=
  mkMessage (vec_extend (Questions m) questions) (Answers m) (Authorities m) (Additionals m).
Definition AddAdditionals (m : Message) (rsc : list Resource) : Message :=
  mkMessage (Questions m) (Answers m) (Authorities m) (vec_extend (Additionals m) rsc).
End Append.

Definition SliceReuse {A} (v : vec A) (n : Z) : vec A :=
  mkVec [] (if vcap v <? n then n else vcap v).

Definition LimitResourceDecoding (m : Message) (maxQ maxAns maxAuth maxAdd : Z) : Message :=
  mkMessage (SliceReuse (Questions m) maxQ) (SliceReuse (Answers m) maxAns)
            (SliceReuse (Authorities m) maxAuth) (SliceReuse (Additionals m) maxAdd).

Definition trunc {A} (v : vec A) : vec A := mkVec [] (vcap v).
Definition Message_Reset (m : Message) : Message :=
  mkMessage (trunc (Questions m)) (trunc (Answers m)) (trunc (Authorities m)) (trunc (Additionals m)).

(** The receiver of [Reset] keeps its buffers only. *)
Definition Question_Reset (q : Question) : Question := zero_question.
Definition ResourceHeader_Reset (r : ResourceHeader) : ResourceHeader := zero_header.
Definition Resource_Reset (r : Resource) : Resource := mkResource (ResourceHeader_Reset (r_header r)) [].

(** [CopyFrom] overwrites every field. *)
Definition Question_CopyFrom (dst q : Question) : Question :=
  mkQuestion (Name_CopyFrom (q_Name q)) (q_Type q) (q_Class q).
Definition ResourceHeader_CopyFrom (dst rh : ResourceHeader) : ResourceHeader :=
  mkResourceHeader (Name_CopyFrom (rh_Name rh)) (rh_Type rh) (rh_Class rh) (rh_TTL rh) (rh_Length rh).
Definition Resource_CopyFrom (dst r : Resource) : Resource :=
  mkResource (ResourceHeader_CopyFrom (r_header dst) (r_header r)) (r_data r).

Definition vec_copy {A} (dst src : vec A) : vec A :=
  mkVec (elems src) (vcap (SliceReuse dst (zlen (elems src)))).
Definition Message_CopyFrom (dst m : Message) : Message :=
  mkMessage (vec_copy (Questions dst) (Questions m)) (vec_copy (Answers dst) (Answers m))
            (vec_copy (Authorities dst) (Authorities m)) (vec_copy (Additionals dst) (Additionals m)).

Definition NewResource (name : Name) (typ class ttl : Z) (data : list Z) : Resource :=
  mkResource (mkResourceHeader name typ class ttl (u16 (zlen data))) data.

Definition SetEDNS0 (UDPlength rcode zflags : Z) (data : list Z) : outcome Resource :=
  assert_or_panic
    (negb ((MaxUint16 - 2 <? zlen data) || (UDPlength <? zlen data + 8 + 2 * SizeHeader)))
    (Ret (mkResource (mkResourceHeader rootDomain TypeOPT UDPlength
            (Z.lor (u32 (Z.shiftl rcode 24)) zflags) (u16 (zlen data))) data)).

(** [Set..] overwrite every field of the receiver. An empty target appends nothing, its
    error is ignored. *)
Definition SetA (name : Name) (class ttl : Z) (addr : list Z) : Resource :=
  NewResource name TypeA class ttl addr.
Definition SetPTR (name : Name) (class ttl : Z) (target : Name) : Resource :=
  NewResource name TypePTR class ttl target.
Definition SetSRV (name : Name) (class ttl priority weight port : Z) (target : Name) : Resource :=
  NewResource name TypeSRV class ttl (bytes16 priority ++ bytes16 weight ++ bytes16 port ++ target).
Definition SetTXT (name : Name) (class ttl : Z) (txt : list Z) : Resource :=
  NewResource name TypeTXT class ttl (if zlen txt =? 0 then [0] else txt).

(** ** Answers *)

Definition RawData (r : Resource) : list Z :=
  let length := rh_Length (r_header r) in
  let length := if zlen (r_data r) <? length then u16 (zlen (r_data r)) else length in
  ztake length (r_data r).

Definition CNAMEView (r : Resource) : Name :=
  if negb (rh_Type (r_header r) =? TypeCNAME) then [] else RawData r.

Definition ownedBy (h : ResourceHeader) (alias : Name) (host : list Z) : outcome bool :=
  l ← Name_Len alias;
  Ret (if l =? 0 then EqualString (rh_Name h) host else NamesEqualFold (rh_Name h) alias).

(** [netip.AddrFromSlice]: an address is its 4 or 16 bytes. *)
Definition AddrFromSlice (b : list Z) : option (list Z) :=
  if (zlen b =? 4) || (zlen b =? 16) then Some b else None.

(** The variables of [WriteAnswers]. *)
Record lookup := mkLookup { w_dst : list (list Z); w_n : Z; w_err : option error; w_next : Name }.

(** One round over the answers. The flag: the destination is exhausted, the function
    returns. *)
Fixpoint write_round (answers : list Resource) (alias : Name) (host : list Z) (w : lookup)
    : outcome (lookup * bool) :=
  match answers with
  | [] => Ret (w, false)
  | ans :: answers =>
      own ← ownedBy (r_header ans) alias host;
      if negb own then write_round answers alias host w
      else if IsIPAddr (rh_Type (r_header ans)) then
        if zlen (w_dst w) <=? w_n w then Ret (w, true)
        else
          match AddrFromSlice (RawData ans) with
          | None =>
              write_round answers alias host (mkLookup (w_dst w) (w_n w) (Some ErrInvalidAddr) (w_next w))
          | Some addr =>
              write_round answers alias host
                (mkLookup (<[Z.to_nat (w_n w) := addr]> (w_dst w)) (u16 (w_n w + 1)) (w_err w) (w_next w))
          end
      else if rh_Type (r_header ans) =? TypeCNAME then
        l ← Name_Len (CNAMEView ans);
        write_round answers alias host
          (if negb (l =? 0) then mkLookup (w_dst w) (w_n w) (w_err w) (CNAMEView ans) else w)
      else write_round answers alias host w
  end.

Fixpoint write_rounds (rounds : nat) (answers : list Resource) (alias : Name) (host : list Z)
    (dst : list (list Z)) (n : Z) (err : option error) : outcome (list (list Z) * Z * option error) :=
  match rounds with
  | O => Ret (dst, n, err)
  | S rounds =>
      '(w, exhausted) ← write_round answers alias host (mkLookup dst n err []);
      if (exhausted : bool) then Ret (w_dst w, w_n w, Some ErrExhausted)
      else
        l ← Name_Len (w_next w);
        if (0 <? w_n w) || (l =? 0) then Ret (w_dst w, w_n w, w_err w)
        else write_rounds rounds answers (w_next w) host (w_dst w) (w_n w) (w_err w)
  end.

(** The destination, the number of addresses, the error. *)
Definition WriteAnswers (m : Message) (dst : list (list Z)) (host : list Z)
    : outcome (list (list Z) * Z * option error) :=
  let answers := elems (Answers m) in
  write_rounds (length answers) answers [] host dst 0 None.

End Dns.
