(* ===== verification/DnsProps.v ===== *)
(** * DNS messages: encoding and decoding

    Encoding with enough room writes [message_bytes] in place ([Message_AppendTo_emit]);
    decoding reads what was encoded ([Question_Decode_bytes], [Resource_Decode_bytes],
    [decode_n_bytes]). *)
From S2P Require Import Prelude Errors Bytes DnsName DnsNameThms Dns.

Module DnsProps.
Import Bytes DnsName DnsNameProps DnsNameThms Dns.
Open Scope Z_scope.
Open Scope list_scope.

(** ** The wire form *)

Definition question_bytes (q : Question) : list Z :=
  q_Name q ++ bytes16 (q_Type q) ++ bytes16 (q_Class q).
Definition header_bytes (h : ResourceHeader) : list Z :=
  rh_Name h ++ bytes16 (rh_Type h) ++ bytes16 (rh_Class h) ++ bytes32 (rh_TTL h) ++
  bytes16 (rh_Length h).
Definition resource_bytes (r : Resource) : list Z := header_bytes (r_header r) ++ r_data r.

Definition all_bytes {A} (enc : A -> list Z) (l : list A) : list Z := mjoin (enc <$> l).
Definition count {A} (v : vec A) : Z := zlen (elems v).

Definition fixed_bytes (m : Message) (txid flags : Z) : list Z :=
  bytes16 txid ++ bytes16 flags ++ bytes16 (u16 (count (Questions m))) ++
  bytes16 (u16 (count (Answers m))) ++ bytes16 (u16 (count (Authorities m))) ++
  bytes16 (u16 (count (Additionals m))).
Definition sections_bytes (m : Message) : list Z :=
  all_bytes question_bytes (elems (Questions m)) ++
  all_bytes resource_bytes (elems (Answers m)) ++
  all_bytes resource_bytes (elems (Authorities m)) ++
  all_bytes resource_bytes (elems (Additionals m)).
Definition message_bytes (m : Message) (txid flags : Z) : list Z :=
  fixed_bytes m txid flags ++ sections_bytes m.

(** ** Well-formed messages *)

Definition name_ok (n : Name) : Prop := exists ls, Forall label_ok ls /\ n = name_bytes ls.
Definition question_ok (q : Question) : Prop :=
  name_ok (q_Name q) /\ is_u16 (q_Type q) /\ is_u16 (q_Class q).
Definition resource_ok (r : Resource) : Prop :=
  let h := r_header r in
  name_ok (rh_Name h) /\ is_u16 (rh_Type h) /\ is_u16 (rh_Class h) /\ is_u32 (rh_TTL h) /\
  rh_Length h = zlen (r_data r) /\ is_bytes (r_data r) /\
  (rh_Type h = TypeCNAME -> name_ok (r_data r)).
Definition vec_ok {A} (P : A -> Prop) (v : vec A) : Prop := Forall P (elems v).
Definition message_ok (m : Message) : Prop :=
  vec_ok question_ok (Questions m) /\ vec_ok resource_ok (Answers m) /\
  vec_ok resource_ok (Authorities m) /\ vec_ok resource_ok (Additionals m).

Lemma name_ok_bytes n : name_ok n -> is_bytes n.
Proof. intros (ls & Hls & ->). by apply name_bytes_ok. Qed.
Lemma name_ok_pos n : name_ok n -> 1 <= zlen n.
Proof.
  intros (ls & Hls & ->). unfold name_bytes. rewrite zlen_app.
  pose proof (zlen_nonneg (labels_bytes ls)). change (zlen [0]) with 1. lia.
Qed.

Lemma zlen16 v : zlen (bytes16 v) = 2.
Proof. done. Qed.
Lemma zlen32 v : zlen (bytes32 v) = 4.
Proof. done. Qed.
Create Rewrite HintDb zlen.
#[export] Hint Rewrite @zlen_app @zlen_cons @zlen_nil zlen16 zlen32 : zlen.

Lemma zlen_question q : zlen (question_bytes q) = zlen (q_Name q) + 4.
Proof. unfold question_bytes. autorewrite with zlen. lia. Qed.
Lemma zlen_header h : zlen (header_bytes h) = zlen (rh_Name h) + 10.
Proof. unfold header_bytes. autorewrite with zlen. lia. Qed.
Lemma zlen_resource r : zlen (resource_bytes r) = zlen (rh_Name (r_header r)) + 10 + zlen (r_data r).
Proof. unfold resource_bytes. rewrite zlen_app, zlen_header. lia. Qed.
Lemma zlen_fixed m txid flags : zlen (fixed_bytes m txid flags) = SizeHeader.
Proof. done. Qed.

Lemma all_bytes_cons {A} enc (x : A) l : all_bytes enc (x :: l) = enc x ++ all_bytes enc l.
Proof. done. Qed.

(** ** Lengths *)

Lemma Name_Len_ok n : zlen n <= 65535 -> Name_Len n = Ret (zlen n).
Proof.
  intros. unfold Name_Len, MaxUint16, assert_or_panic. pose proof (zlen_nonneg n).
  assert ((zlen n <=? 65535) = true) as -> by lia. by rewrite u16_small by wrap_lia.
Qed.
Lemma Question_Len_ok q : zlen (question_bytes q) <= 65535 -> Question_Len q = Ret (zlen (question_bytes q)).
Proof.
  rewrite zlen_question. intros. unfold Question_Len. pose proof (zlen_nonneg (q_Name q)).
  rewrite Name_Len_ok by lia. cbn. by rewrite u16_small by wrap_lia.
Qed.
Lemma Resource_Len_ok r : zlen (resource_bytes r) <= 65535 -> Resource_Len r = Ret (zlen (resource_bytes r)).
Proof.
  rewrite zlen_resource. intros. unfold Resource_Len. pose proof (zlen_nonneg (rh_Name (r_header r))).
  pose proof (zlen_nonneg (r_data r)).
  rewrite Name_Len_ok by lia. cbn. by rewrite !u16_small by wrap_lia.
Qed.
Lemma sum_len_ok {A} (len : A -> outcome Z) enc l acc :
  (forall x, zlen (enc x) <= 65535 -> len x = Ret (zlen (enc x))) -> 0 <= acc ->
  acc + zlen (all_bytes enc l) <= 65535 -> sum_len len l acc = Ret (acc + zlen (all_bytes enc l)).
Proof.
  intros Hlen. revert acc. induction l as [|x l IH]; intros acc Ha Hs; cbn [sum_len].
  { change (zlen (all_bytes enc [])) with 0. by rewrite Z.add_0_r. }
  rewrite all_bytes_cons, zlen_app in *. pose proof (zlen_nonneg (enc x)).
  pose proof (zlen_nonneg (all_bytes enc l)). rewrite Hlen by lia. cbn.
  rewrite u16_small by wrap_lia. rewrite IH by lia. f_equal. lia.
Qed.
Lemma Len_ok m txid flags :
  zlen (message_bytes m txid flags) <= 65535 -> Len m = Ret (zlen (message_bytes m txid flags)).
Proof.
  unfold message_bytes, sections_bytes. rewrite zlen_app, zlen_fixed, !zlen_app. unfold SizeHeader.
  intros. unfold Len, lenResources.
  pose proof (zlen_nonneg (all_bytes question_bytes (elems (Questions m)))).
  pose proof (zlen_nonneg (all_bytes resource_bytes (elems (Answers m)))).
  pose proof (zlen_nonneg (all_bytes resource_bytes (elems (Authorities m)))).
  pose proof (zlen_nonneg (all_bytes resource_bytes (elems (Additionals m)))).
  rewrite (sum_len_ok _ question_bytes) by (auto using Question_Len_ok || lia). cbn [mbind outcome_bind].
  do 3 (rewrite (sum_len_ok _ resource_bytes) by (auto using Resource_Len_ok || lia); cbn [mbind outcome_bind]).
  unfold SizeHeader. rewrite u16_small by wrap_lia. f_equal. lia.
Qed.

(** ** Encoding *)

Definition room (b : gbuf) : Z := bcap b - b_len b.
Definition buf_ok (b : gbuf) : Prop := 0 <= b_len b <= bcap b.

(** Writing in place. *)
Definition emit (b : gbuf) (vs : list Z) : gbuf :=
  mkBuf (put (b_mem b) (b_len b) vs) (b_len b + zlen vs) (b_left b).

Lemma put_put b i u v :
  0 <= i -> i + zlen u + zlen v <= zlen b -> put (put b i u) (i + zlen u) v = put b i (u ++ v).
Proof.
  intros Hi Hl. pose proof (zlen_nonneg u). pose proof (zlen_nonneg v). apply zlist_eq.
  { rewrite !zlen_put; rewrite ?zlen_app, ?zlen_put; lia. }
  assert (zlen (put b i u) = zlen b) as Hp by (apply zlen_put; lia). intros k _.
  destruct (decide (k < i \/ i + (zlen u + zlen v) <= k)).
  { rewrite (zget_put_out (put b i u)), !zget_put_out; rewrite ?zlen_app; try lia. done. }
  destruct (decide (k < i + zlen u)).
  - rewrite (zget_put_out (put b i u)), !zget_put_in; rewrite ?zlen_app; try lia.
    by rewrite zget_app_l by lia.
  - rewrite !zget_put_in; rewrite ?zlen_app; try lia. rewrite zget_app_r by lia. f_equal. lia.
Qed.

Lemma emit_ok b vs : buf_ok b -> zlen vs <= room b -> buf_ok (emit b vs) /\ room (emit b vs) = room b - zlen vs.
Proof.
  unfold buf_ok, room, bcap, emit. cbn. intros. pose proof (zlen_nonneg vs).
  rewrite zlen_put by lia. lia.
Qed.
Lemma emit_emit b u v :
  buf_ok b -> zlen u + zlen v <= room b -> emit (emit b u) v = emit b (u ++ v).
Proof.
  unfold buf_ok, room, bcap, emit. cbn. intros. rewrite put_put, zlen_app by lia. f_equal. lia.
Qed.
Lemma emit_nil b : buf_ok b -> emit b [] = b.
Proof.
  destruct b as [m n l]. unfold buf_ok, bcap, emit, put. cbn. intros.
  rewrite !Z.add_0_r, ztake_zdrop. done.
Qed.
Lemma emit_contents b vs :
  buf_ok b -> zlen vs <= room b -> contents (emit b vs) = contents b ++ vs.
Proof.
  unfold buf_ok, room, bcap, contents, emit, put. cbn. intros. rewrite app_assoc.
  apply ztake_app_exact. rewrite zlen_app, zlen_ztake; lia.
Qed.

Section Encode.
Context {RT : GoRuntime}.

Lemma append_emit b vs : zlen vs <= room b -> append b vs = emit b vs.
Proof.
  unfold append, room. intros. by assert ((b_len b + zlen vs <=? bcap b) = true) as -> by lia.
Qed.
Lemma append16_emit b v : 2 <= room b -> append16 b v = Ret (emit b (bytes16 v)).
Proof.
  unfold append16, room, assert_or_panic. intros.
  by assert ((b_len b + 2 <=? bcap b) = true) as -> by lia.
Qed.
Lemma append32_emit b v : 4 <= room b -> append32 b v = Ret (emit b (bytes32 v)).
Proof.
  unfold append32, room, assert_or_panic. intros.
  by assert ((b_len b + 4 <=? bcap b) = true) as -> by lia.
Qed.

Lemma room_emit b vs : buf_ok b -> zlen vs <= room b -> room (emit b vs) = room b - zlen vs.
Proof. intros. by apply emit_ok. Qed.

Lemma Question_appendTo_emit q b :
  buf_ok b -> name_ok (q_Name q) -> zlen (question_bytes q) <= room b ->
  Question_appendTo q b = Ret (emit b (question_bytes q), None).
Proof.
  intros Hb Hn%name_ok_pos Hr. rewrite zlen_question in Hr.
  unfold Question_appendTo, Name_AppendTo. assert ((zlen (q_Name q) =? 0) = false) as -> by lia.
  rewrite append_emit by lia. rewrite append16_emit by (rewrite room_emit; done || lia).
  cbn [mbind outcome_bind]. rewrite emit_emit by (rewrite ?zlen16; done || lia).
  rewrite append16_emit by (rewrite room_emit; autorewrite with zlen; done || lia).
  cbn [mbind outcome_bind]. rewrite emit_emit by (autorewrite with zlen; done || lia).
  by rewrite <- app_assoc.
Qed.
Lemma Resource_appendTo_emit r b :
  buf_ok b -> name_ok (rh_Name (r_header r)) -> zlen (resource_bytes r) <= room b ->
  Resource_appendTo r b = Ret (emit b (resource_bytes r), None).
Proof.
  intros Hb Hn%name_ok_pos Hr. rewrite zlen_resource in Hr. pose proof (zlen_nonneg (r_data r)).
  unfold Resource_appendTo, ResourceHeader_appendTo, Name_AppendTo.
  assert ((zlen (rh_Name (r_header r)) =? 0) = false) as -> by lia.
  rewrite append_emit by lia.
  do 4 (first [rewrite append16_emit by (rewrite room_emit; autorewrite with zlen; done || lia)
              |rewrite append32_emit by (rewrite room_emit; autorewrite with zlen; done || lia)];
    cbn [mbind outcome_bind]; rewrite emit_emit by (autorewrite with zlen; done || lia)).
  rewrite append_emit by (rewrite room_emit; autorewrite with zlen; done || lia).
  rewrite emit_emit by (autorewrite with zlen; done || lia).
  unfold resource_bytes, header_bytes. by rewrite <- !app_assoc.
Qed.
Lemma append_all_emit {A} (app : A -> gbuf -> outcome (gbuf * option error)) enc l b :
  (forall x b, x ∈ l -> buf_ok b -> zlen (enc x) <= room b -> app x b = Ret (emit b (enc x), None)) ->
  buf_ok b -> zlen (all_bytes enc l) <= room b ->
  append_all app l b = Ret (emit b (all_bytes enc l), None).
Proof.
  revert b. induction l as [|x l IH]; intros b Happ Hb Hr; cbn [append_all].
  { by rewrite emit_nil. }
  rewrite all_bytes_cons in *. rewrite zlen_app in Hr. pose proof (zlen_nonneg (all_bytes enc l)).
  rewrite Happ by (set_solver || lia || done). cbn [mbind outcome_bind].
  destruct (emit_ok b (enc x)) as [? Hre]; [done|lia|].
  rewrite IH; [by rewrite emit_emit by (done || lia)| |done|lia].
  intros y b' Hy. apply Happ. set_solver.
Qed.

Lemma append_header_emit b txid flags nq na nn nr :
  buf_ok b -> SizeHeader <= room b ->
  append_header b txid flags nq na nn nr
    = Ret (emit b (bytes16 txid ++ bytes16 flags ++ bytes16 nq ++ bytes16 na ++ bytes16 nn ++ bytes16 nr)).
Proof.
  unfold buf_ok, room. intros Hb Hr. unfold append_header, assert_or_panic.
  assert ((b_len b + SizeHeader <=? bcap b) = true) as -> by lia.
  assert (zlen (slice (b_mem b) (b_len b) (b_len b + SizeHeader)) = 12) as Hf.
  { unfold bcap, SizeHeader in *. rewrite zlen_slice; lia. }
  revert Hf. generalize (slice (b_mem b) (b_len b) (b_len b + SizeHeader)). intros f Hf.
  do 12 (destruct f as [|? f]; [done|]). destruct f; [|rewrite !zlen_cons in Hf; pose proof (zlen_nonneg f); lia].
  done.
Qed.

Lemma Grow_ok b n : buf_ok b -> 0 <= n -> buf_ok (Grow b n) /\ n <= room (Grow b n) /\
  contents (Grow b n) = contents b /\ (n <= room b -> Grow b n = b).
Proof.
  unfold buf_ok, room, Grow. intros Hb Hn. pose proof (growslice_ok (bcap b) (b_len b + n)).
  destruct (Z.leb_spec (b_len b + n) (bcap b)); [auto with lia|].
  unfold bcap, contents in *. cbn. rewrite zlen_app.
  assert (zlen (zeros (growslice (zlen (b_mem b)) (b_len b + n) - zlen (b_mem b)))
    = growslice (zlen (b_mem b)) (b_len b + n) - zlen (b_mem b)) as ->.
  { unfold zeros, zlen in *. rewrite length_replicate. lia. }
  split_and!; try lia. unfold ztake. rewrite take_app_le by (unfold zlen in *; lia). done.
Qed.

Lemma Message_AppendTo_emit m b txid flags :
  message_ok m -> buf_ok b -> zlen (message_bytes m txid flags) <= 65535 ->
  Message_AppendTo m b txid flags
    = Ret (emit (Grow b (zlen (message_bytes m txid flags))) (message_bytes m txid flags), None).
Proof.
  intros (Hq & Han & Hns & Har) Hb Hl. unfold Message_AppendTo. rewrite (Len_ok m txid flags Hl).
  cbn [mbind outcome_bind].
  pose proof (zlen_nonneg (message_bytes m txid flags)) as Hp.
  destruct (Grow_ok b _ Hb Hp) as (Hb' & Hr & _ & _).
  set (g := Grow b _) in *. clearbody g. clear Hl Hp.
  unfold message_bytes, sections_bytes in *. rewrite !zlen_app, zlen_fixed in Hr.
  pose proof (zlen_nonneg (all_bytes question_bytes (elems (Questions m)))).
  pose proof (zlen_nonneg (all_bytes resource_bytes (elems (Answers m)))).
  pose proof (zlen_nonneg (all_bytes resource_bytes (elems (Authorities m)))).
  pose proof (zlen_nonneg (all_bytes resource_bytes (elems (Additionals m)))).
  rewrite append_header_emit by (done || lia). cbn [mbind outcome_bind].
  fold (count (Questions m)) (count (Answers m)) (count (Authorities m)) (count (Additionals m)).
  fold (fixed_bytes m txid flags). pose proof (zlen_fixed m txid flags) as Hf.
  destruct (emit_ok g (fixed_bytes m txid flags)) as [Hb1 Hr1]; [done|lia|].
  assert (forall l x b, Forall resource_ok l -> x ∈ l -> buf_ok b -> zlen (resource_bytes x) <= room b ->
    Resource_appendTo x b = Ret (emit b (resource_bytes x), None)) as HR.
  { intros l x b' Hl Hx Hb'' Hroom. rewrite Forall_forall in Hl.
    apply Resource_appendTo_emit; [done|by apply Hl|done]. }
  rewrite (append_all_emit _ question_bytes); [|..|lia]; [|intros x b' Hx Hb'' Hroom|done].
  2: { unfold vec_ok in Hq. rewrite Forall_forall in Hq.
       apply Question_appendTo_emit; [done|by apply Hq|done]. }
  cbn [mbind outcome_bind]. rewrite emit_emit by (done || lia).
  do 3 (rewrite (append_all_emit _ resource_bytes);
    [cbn [mbind outcome_bind]; rewrite emit_emit by (autorewrite with zlen; done || lia)
    |intros x b' Hx; eapply HR; [|exact Hx]; first [exact Han|exact Hns|exact Har]
    |apply emit_ok; autorewrite with zlen; done || lia
    |rewrite room_emit; autorewrite with zlen; done || lia]).
  by rewrite <- !app_assoc.
Qed.
End Encode.

(** ** Decoding *)

Lemma zget_mid {A} (pre : list A) x post i : i = zlen pre -> zget (pre ++ x :: post) i = Some x.
Proof. intros ->. by rewrite zget_app_r, Z.sub_diag by lia. Qed.
Lemma Uint16_at pre v post i :
  i = zlen pre -> is_u16 v -> Uint16 (pre ++ bytes16 v ++ post) i = Ret v.
Proof.
  intros Hi Hv. unfold Uint16, at_, bytes16. cbn [app].
  rewrite (zget_mid _ _ _ _ Hi). cbn.
  assert (pre ++ u8 (Z.shiftr v 8) :: u8 v :: post = (pre ++ [u8 (Z.shiftr v 8)]) ++ u8 v :: post) as ->
    by by rewrite <- app_assoc.
  rewrite zget_mid by (rewrite zlen_app; subst; done). cbn. f_equal.
  rewrite lor_shiftl_add, Z.shiftr_div_pow2 by wrap_lia. wrap_lia.
Qed.
Lemma bytes32_split v : is_u32 v -> bytes32 v = bytes16 (v / 65536) ++ bytes16 (v mod 65536).
Proof.
  intros Hv. unfold bytes32, bytes16. cbn [app]. rewrite !Z.shiftr_div_pow2 by lia.
  repeat apply (f_equal2 cons); wrap_lia || done.
Qed.
Lemma Uint32_at pre v post i :
  i = zlen pre -> is_u32 v -> Uint32 (pre ++ bytes32 v ++ post) i = Ret v.
Proof.
  intros Hi Hv. rewrite (bytes32_split v Hv), <- app_assoc. unfold Uint32.
  rewrite (Uint16_at pre _ _ i Hi) by wrap_lia. cbn [mbind outcome_bind].
  rewrite (app_assoc pre), Uint16_at by (rewrite ?zlen_app, ?zlen16; wrap_lia). cbn [mbind outcome_bind].
  f_equal. rewrite lor_shiftl_add by wrap_lia. wrap_lia.
Qed.

Lemma Name_Decode_at pre n post i :
  is_bytes (pre ++ n ++ post) -> zlen (pre ++ n ++ post) <= 65535 -> name_ok n -> i = zlen pre ->
  Name_Decode (pre ++ n ++ post) i = Ret (n, zlen pre + zlen n, None).
Proof. intros Hb Hl (ls & Hls & ->) ->. by apply Name_Decode_bytes. Qed.

Lemma Question_Decode_bytes q0 pre q post :
  let msg := pre ++ question_bytes q ++ post in
  is_bytes msg -> zlen msg <= 65535 -> question_ok q ->
  Question_Decode q0 msg (zlen pre) = Ret (q, zlen pre + zlen (question_bytes q), None).
Proof.
  intros msg Hb Hl (Hn & Ht & Hc). subst msg. unfold question_bytes in *. rewrite <- !app_assoc in *.
  unfold Question_Decode. rewrite Name_Decode_at by done. cbn [mbind outcome_bind].
  pose proof (zlen_nonneg pre). pose proof (zlen_nonneg (q_Name q)). pose proof (zlen_nonneg post).
  revert Hl. autorewrite with zlen. intros Hl. rewrite !u16_small by wrap_lia.
  match goal with |- context [?a <? ?b] => replace (a <? b) with false by lia end.
  rewrite (app_assoc pre), (Uint16_at _ _ _ (zlen pre + zlen (q_Name q))) by (autorewrite with zlen; wrap_lia). cbn [mbind outcome_bind].
  rewrite (app_assoc _ (bytes16 (q_Type q))), Uint16_at by (autorewrite with zlen; wrap_lia).
  cbn [mbind outcome_bind]. destruct q. do 3 f_equal. lia.
Qed.

Lemma ResourceHeader_Decode_bytes h0 pre h post :
  let msg := pre ++ header_bytes h ++ post in
  is_bytes msg -> zlen msg <= 65535 -> name_ok (rh_Name h) -> is_u16 (rh_Type h) ->
  is_u16 (rh_Class h) -> is_u32 (rh_TTL h) -> is_u16 (rh_Length h) ->
  ResourceHeader_Decode h0 msg (zlen pre) = Ret (h, zlen pre + zlen (header_bytes h), None).
Proof.
  intros msg Hb Hl Hn Ht Hc Httl Hlen. subst msg. unfold header_bytes in *. rewrite <- !app_assoc in *.
  unfold ResourceHeader_Decode. rewrite Name_Decode_at by done. cbn [mbind outcome_bind].
  pose proof (zlen_nonneg pre). pose proof (zlen_nonneg (rh_Name h)). pose proof (zlen_nonneg post).
  revert Hl. autorewrite with zlen. intros Hl. rewrite !u16_small by wrap_lia.
  match goal with |- context [?a <? ?b] => replace (a <? b) with false by lia end.
  rewrite (app_assoc pre), (Uint16_at _ _ _ (zlen pre + zlen (rh_Name h))) by (autorewrite with zlen; wrap_lia). cbn [mbind outcome_bind].
  rewrite (app_assoc _ (bytes16 (rh_Type h))),
    (Uint16_at _ _ _ (zlen pre + zlen (rh_Name h) + 2)) by (autorewrite with zlen; wrap_lia).
  cbn [mbind outcome_bind].
  rewrite (app_assoc _ (bytes16 (rh_Class h))), Uint32_at by (autorewrite with zlen; wrap_lia).
  cbn [mbind outcome_bind].
  rewrite (app_assoc _ (bytes32 (rh_TTL h))), Uint16_at by (autorewrite with zlen; wrap_lia).
  cbn [mbind outcome_bind]. destruct h. do 3 f_equal. cbn. lia.
Qed.

Lemma Resource_Decode_bytes r0 pre r post :
  let msg := pre ++ resource_bytes r ++ post in
  is_bytes msg -> zlen msg <= 65535 -> resource_ok r ->
  Resource_Decode r0 msg (zlen pre) = Ret (r, zlen pre + zlen (resource_bytes r), None).
Proof.
  intros msg Hb Hl (Hn & Ht & Hc & Httl & Hlen & Hd & Hcn). subst msg.
  pose proof (zlen_nonneg pre). pose proof (zlen_nonneg (r_data r)). pose proof (zlen_nonneg post).
  pose proof (zlen_nonneg (rh_Name (r_header r))).
  unfold resource_bytes in *. rewrite <- !app_assoc in *.
  assert (is_u16 (rh_Length (r_header r))) as Hl16.
  { rewrite Hlen. rewrite !zlen_app in Hl. pose proof (zlen_nonneg (header_bytes (r_header r))). wrap_lia. }
  unfold Resource_Decode. rewrite ResourceHeader_Decode_bytes by done. cbn [mbind outcome_bind].
  rewrite (app_assoc pre) in *. rewrite <- zlen_app. set (p := pre ++ header_bytes (r_header r)) in *.
  assert (zlen p = zlen pre + zlen (header_bytes (r_header r))) as Hp by (unfold p; apply zlen_app).
  pose proof (zlen_nonneg p). revert Hl. rewrite !zlen_app. intros Hl.
  unfold assert_or_panic, slice_ok. rewrite !zlen_app, Hlen, !u16_small by wrap_lia.
  repeat match goal with |- context [?a <=? ?b] => replace (a <=? b) with true by lia end.
  match goal with |- context [?a <? ?b] => replace (a <? b) with false by lia end. cbn [andb].
  rewrite slice_mid. destruct (Z.eqb_spec (rh_Type (r_header r)) TypeCNAME) as [Ecn|].
  - rewrite (Name_Decode_at p (r_data r)) by (rewrite ?zlen_app; done || lia || auto).
    cbn [mbind outcome_bind]. rewrite u16_small by wrap_lia. rewrite <- Hlen at 1.
    rewrite Z.add_assoc, <- Hp. by destruct r as [[] ?].
  - rewrite Z.add_assoc, <- Hp. by destruct r as [[] ?].
Qed.

Lemma decode_n_bytes {A} (dec : list Z -> Z -> outcome (A * Z * option error)) enc (P : A -> Prop) :
  (forall pre x post, let msg := pre ++ enc x ++ post in
     is_bytes msg -> zlen msg <= 65535 -> P x ->
     dec msg (zlen pre) = Ret (x, zlen pre + zlen (enc x), None)) ->
  forall xs pre post, let msg := pre ++ all_bytes enc xs ++ post in
     is_bytes msg -> zlen msg <= 65535 -> Forall P xs ->
     decode_n (dec msg) (length xs) (zlen pre) = Ret (xs, zlen pre + zlen (all_bytes enc xs), None).
Proof.
  intros Hdec xs. induction xs as [|x xs IH]; intros pre post msg Hb Hl Hx; cbn [decode_n length].
  { by rewrite Z.add_0_r. }
  apply Forall_cons in Hx as [Hx Hxs]. subst msg. rewrite all_bytes_cons in *.
  specialize (IH (pre ++ enc x) post). rewrite <- !app_assoc in *.
  rewrite Hdec by done. cbn [mbind outcome_bind]. rewrite zlen_app in IH.
  rewrite IH by done. cbn [mbind outcome_bind]. rewrite zlen_app. by rewrite Z.add_assoc.
Qed.
End DnsProps.
