(* ===== verification/DnsThms.v ===== *)
(** * DNS messages: theorems *)
From S2P Require Import Prelude Errors Bytes DnsName DnsNameThms Dns DnsProps.

Module DnsThms.
Import Bytes DnsName DnsNameProps DnsNameThms Dns DnsProps.
Open Scope Z_scope.
Open Scope list_scope.

(** ** Round trip *)

Lemma count_bound {A} (enc : A -> list Z) l :
  (forall x, x ∈ l -> 1 <= zlen (enc x)) -> zlen l <= zlen (all_bytes enc l).
Proof.
  induction l as [|x l IH]; intros H; [done|]. rewrite all_bytes_cons, zlen_app, zlen_cons.
  pose proof (H x ltac:(set_solver)). pose proof (IH ltac:(set_solver)). lia.
Qed.

(** Sections that fit are decoded, nothing is skipped. *)
Lemma decode_questions_fit v pre qs post :
  let msg := pre ++ all_bytes question_bytes qs ++ post in
  is_bytes msg -> zlen msg <= 65535 -> Forall question_ok qs -> zlen qs <= vcap v ->
  decode_questions (Some v) msg (zlen qs) (zlen pre)
    = Ret (Some (mkVec qs (vcap v)), zlen pre + zlen (all_bytes question_bytes qs), None).
Proof.
  intros msg Hb Hl Hq Hc. subst msg. unfold decode_questions.
  assert ((vcap v <? zlen qs) = false) as -> by lia. rewrite Z.sub_diag.
  replace (Z.to_nat (zlen qs)) with (length qs) by (unfold zlen; lia).
  by rewrite (decode_n_bytes (Question_Decode zero_question) question_bytes question_ok
    (Question_Decode_bytes zero_question)).
Qed.
Lemma decodeToCapResources_fit v pre rs post msg off :
  msg = pre ++ all_bytes resource_bytes rs ++ post -> off = zlen pre ->
  is_bytes msg -> zlen msg <= 65535 -> Forall resource_ok rs -> zlen rs <= vcap v <= 65535 ->
  decodeToCapResources (Some v) msg (zlen rs) off
    = Ret (Some (mkVec rs (vcap v)), off + zlen (all_bytes resource_bytes rs), None).
Proof.
  intros -> -> Hb Hl Hr Hc. unfold decodeToCapResources. pose proof (zlen_nonneg rs).
  rewrite (u16_small (vcap v)) by wrap_lia.
  assert ((vcap v <? zlen rs) = false) as -> by lia. rewrite Z.sub_diag.
  replace (Z.to_nat (zlen rs)) with (length rs) by (unfold zlen; lia).
  by rewrite (decode_n_bytes (Resource_Decode zero_resource) resource_bytes resource_ok
    (Resource_Decode_bytes zero_resource)).
Qed.

Lemma sizes_bound m txid flags :
  message_ok m -> zlen (message_bytes m txid flags) <= 65535 ->
  is_u16 (count (Questions m)) /\ is_u16 (count (Answers m)) /\
  is_u16 (count (Authorities m)) /\ is_u16 (count (Additionals m)).
Proof.
  intros (Hq & Han & Hns & Har). unfold message_bytes, sections_bytes, count, is_u16.
  rewrite !zlen_app, zlen_fixed. unfold SizeHeader.
  assert (forall l, Forall question_ok l -> 0 <= zlen l <= zlen (all_bytes question_bytes l)) as HQ.
  { intros l Hl. split; [apply zlen_nonneg|]. apply count_bound. intros x Hx.
    rewrite zlen_question. pose proof (zlen_nonneg (q_Name x)). lia. }
  assert (forall l, Forall resource_ok l -> 0 <= zlen l <= zlen (all_bytes resource_bytes l)) as HR.
  { intros l Hl. split; [apply zlen_nonneg|]. apply count_bound. intros x Hx. rewrite zlen_resource.
    pose proof (zlen_nonneg (rh_Name (r_header x))). pose proof (zlen_nonneg (r_data x)). lia. }
  pose proof (HQ _ Hq). pose proof (HR _ Han). pose proof (HR _ Hns). pose proof (HR _ Har). lia.
Qed.

(** The receiver [m0] has room for the sections of [m]. *)
Definition fits (m m0 : Message) : Prop :=
  count (Questions m) <= vcap (Questions m0) <= 65535 /\
  count (Answers m) <= vcap (Answers m0) <= 65535 /\
  count (Authorities m) <= vcap (Authorities m0) <= 65535 /\
  count (Additionals m) <= vcap (Additionals m0) <= 65535.
#[global] Instance fits_dec m m0 : Decision (fits m m0).
Proof. unfold fits. apply _. Defined.
(** [m] in the slices of [m0]. *)
Definition refill (m m0 : Message) : Message :=
  mkMessage (mkVec (elems (Questions m)) (vcap (Questions m0)))
            (mkVec (elems (Answers m)) (vcap (Answers m0)))
            (mkVec (elems (Authorities m)) (vcap (Authorities m0)))
            (mkVec (elems (Additionals m)) (vcap (Additionals m0))).

Lemma all_bytes_ok {A} enc (P : A -> Prop) l :
  (forall x, P x -> is_bytes (enc x)) -> Forall P l -> is_bytes (all_bytes enc l).
Proof.
  intros H Hl. induction Hl; [constructor|]. rewrite all_bytes_cons. auto using is_bytes_app.
Qed.
Lemma question_bytes_ok q : question_ok q -> is_bytes (question_bytes q).
Proof.
  intros (Hn & _). unfold question_bytes.
  auto using is_bytes_app, name_ok_bytes, is_bytes_16.
Qed.
Lemma resource_bytes_ok r : resource_ok r -> is_bytes (resource_bytes r).
Proof.
  intros (Hn & _ & _ & _ & _ & Hd & _). unfold resource_bytes, header_bytes.
  auto 10 using is_bytes_app, name_ok_bytes, is_bytes_16, is_bytes_32.
Qed.
Lemma message_bytes_ok m txid flags : message_ok m -> is_bytes (message_bytes m txid flags).
Proof.
  intros (Hq & Han & Hns & Har). unfold message_bytes, fixed_bytes, sections_bytes.
  repeat apply is_bytes_app; try apply is_bytes_16;
    eauto using all_bytes_ok, question_bytes_ok, resource_bytes_ok.
Qed.

Lemma header_reads m txid flags :
  is_u16 txid -> is_u16 flags ->
  let msg := message_bytes m txid flags in
  NewFrame msg = (msg, None) /\ TxID msg = Ret txid /\ Flags msg = Ret flags /\
  QDCount msg = Ret (u16 (count (Questions m))) /\ ANCount msg = Ret (u16 (count (Answers m))) /\
  NSCount msg = Ret (u16 (count (Authorities m))) /\ ARCount msg = Ret (u16 (count (Additionals m))).
Proof.
  intros Ht Hf msg. assert (forall x, is_u16 (u16 x)) as Hu by (intros; wrap_lia). split.
  { unfold NewFrame. pose proof (zlen_nonneg (sections_bytes m)). 
    assert (zlen msg = SizeHeader + zlen (sections_bytes m)) by (apply zlen_app).
    bool_cases; [lia|done]. }
  unfold TxID, Flags, QDCount, ANCount, NSCount, ARCount, msg, message_bytes, fixed_bytes.
  rewrite <- !app_assoc. split_and!; [by apply (Uint16_at [])|..].
  - by apply (Uint16_at (bytes16 txid)).
  - by apply (Uint16_at (bytes16 txid ++ bytes16 flags)).
  - by apply (Uint16_at (bytes16 txid ++ bytes16 flags ++ bytes16 _)).
  - by apply (Uint16_at (bytes16 txid ++ bytes16 flags ++ bytes16 _ ++ bytes16 _)).
  - by apply (Uint16_at (bytes16 txid ++ bytes16 flags ++ bytes16 _ ++ bytes16 _ ++ bytes16 _)).
Qed.

Lemma Decode_message_bytes m m0 txid flags :
  message_ok m -> is_u16 txid -> is_u16 flags -> fits m m0 ->
  zlen (message_bytes m txid flags) <= 65535 ->
  Decode m0 (message_bytes m txid flags)
    = Ret (refill m m0, zlen (message_bytes m txid flags), false, None).
Proof.
  intros Hm Ht Hf (HcQ & HcA & HcN & HcR) Hl.
  destruct (header_reads m txid flags Ht Hf) as (EN & _ & _ & EQ & EA & ENS & ER).
  destruct (sizes_bound m txid flags Hm Hl) as (SQ & SA & SN & SR).
  pose proof (message_bytes_ok m txid flags Hm) as Hb. destruct Hm as (Hq & Han & Hns & Har).
  rewrite u16_small in EQ, EA, ENS, ER by done.
  unfold Decode, DecodeMessage, tooManyErr, caporzero, targets_of. rewrite EN, EQ, EA, ENS, ER.
  cbn [mbind outcome_bind t_q t_ans t_auth t_add]. unfold count in *.
  repeat match goal with |- context [?a <? ?b] => replace (a <? b) with false by lia end.
  revert Hb Hl. unfold message_bytes, sections_bytes. intros Hb Hl.
  rewrite (decode_questions_fit _ (fixed_bytes m txid flags)) by (done || lia).
  cbn [mbind outcome_bind t_q t_ans t_auth t_add].
  set (F := fixed_bytes m txid flags) in *. set (Q := all_bytes question_bytes _) in *.
  set (A := all_bytes resource_bytes (elems (Answers m))) in *.
  set (N := all_bytes resource_bytes (elems (Authorities m))) in *.
  set (R := all_bytes resource_bytes (elems (Additionals m))) in *.
  rewrite (decodeToCapResources_fit _ (F ++ Q) (elems (Answers m)) (N ++ R))
    by first [done | by rewrite <- app_assoc | by rewrite zlen_app].
  cbn [mbind outcome_bind t_q t_ans t_auth t_add].
  rewrite (decodeToCapResources_fit _ (F ++ Q ++ A) (elems (Authorities m)) R)
    by first [done | by rewrite <- !app_assoc | by rewrite !zlen_app, !Z.add_assoc].
  cbn [mbind outcome_bind t_q t_ans t_auth t_add].
  rewrite (decodeToCapResources_fit _ (F ++ Q ++ A ++ N) (elems (Additionals m)) [])
    by first [done | by rewrite app_nil_r, <- !app_assoc | by rewrite !zlen_app, !Z.add_assoc].
  cbn [mbind outcome_bind]. do 4 f_equal. subst A N R. rewrite !zlen_app. lia.
Qed.

(** C26: a well-formed message of at most 65535 octets is encoded without a panic, whatever
    the capacity of the buffer, in place when it has room; decoding the result gives
    the message back, with its transaction identifier and flags. *)
Theorem dns_message_roundtrip {RT : GoRuntime} m m0 b txid flags :
  message_ok m -> is_u16 txid -> is_u16 flags -> fits m m0 ->
  zlen (message_bytes m txid flags) <= 65535 -> b_len b = 0 ->
  exists buf, Message_AppendTo m b txid flags = Ret (buf, None) /\
    Len m = Ret (zlen (contents buf)) /\
    (zlen (contents buf) <= bcap b -> b_left buf = b_left b /\ zlen (b_mem buf) = bcap b) /\
    TxID (contents buf) = Ret txid /\ Flags (contents buf) = Ret flags /\
    Decode m0 (contents buf) = Ret (refill m m0, zlen (contents buf), false, None).
Proof.
  intros Hm Ht Hf Hfit Hl H0. assert (buf_ok b) as Hb.
  { unfold buf_ok, bcap. rewrite H0. pose proof (zlen_nonneg (b_mem b)). lia. }
  pose proof (Len_ok m txid flags Hl) as HLen.
  rewrite Message_AppendTo_emit by done. eexists. split; [done|].
  pose proof (zlen_nonneg (message_bytes m txid flags)) as Hp.
  destruct (Grow_ok b _ Hb Hp) as (Hg & Hr & Hc & Hin).
  rewrite emit_contents, Hc by done. unfold contents. rewrite H0, ztake_nonpos by lia. cbn [app].
  destruct (header_reads m txid flags Ht Hf) as (_ & ET & EF & _).
  split_and!; try done; [|by apply Decode_message_bytes].
  intros Hcap. rewrite Hin by (unfold room; lia). split; [done|].
  unfold emit. cbn [b_mem]. apply zlen_put; [lia|].
  unfold bcap in *. lia.
Qed.

(** ** Safety *)

(** What decoding guarantees of a resource: unlike [resource_ok] the data of a CNAME may
    not be a name, and the length wraps around. *)
Definition resource_typed (r : Resource) : Prop :=
  let h := r_header r in
  name_ok (rh_Name h) /\ is_u16 (rh_Type h) /\ is_u16 (rh_Class h) /\ is_u32 (rh_TTL h) /\
  rh_Length h = u16 (zlen (r_data r)) /\ is_bytes (r_data r).

(** Decoding ends at an offset inside the message. *)
Definition decodes {A} (msg : list Z) (off : Z) (P : A -> Prop) (m : outcome (A * Z * option error)) : Prop :=
  returns m (fun '(x, off', err) => err = None -> P x /\ off <= off' <= zlen msg).

Section Safe.
Context (msg : list Z) (Hb : is_bytes msg) (Hl : zlen msg <= 65525).

Lemma Name_Decode_safe off : 0 <= off <= zlen msg -> decodes msg off name_ok (Name_Decode msg off).
Proof.
  intros Ho. destruct (Name_Decode_total msg off Hb ltac:(lia) Ho)
    as [(r & e & ->)|(ls & next & k & -> & Hw & Hk)]; cbn; [done|]. intros _.
  apply wire_next in Hw as Hn; [|lia]. apply wire_labels in Hw. split; [by exists ls|lia].
Qed.

(** Opens the decoding of a name at the head of a decoder. *)
Local Ltac open_name Ho n off' e :=
  let H := fresh "H" in
  pose proof (Name_Decode_safe _ Ho) as H; unfold decodes, returns in H;
  destruct (Name_Decode msg _) as [[[n off'] [e|]]|]; [done| |done];
  destruct (H eq_refl) as [? ?]; cbn [mbind outcome_bind].

Lemma Question_Decode_safe q off :
  0 <= off <= zlen msg -> decodes msg off question_ok (Question_Decode q msg off).
Proof.
  intros Ho. unfold Question_Decode. open_name Ho n off' e. rewrite !u16_small by wrap_lia.
  destruct (Z.ltb_spec (zlen msg) (off' + 4)); [done|].
  rewrite !Uint16_ok by (done || lia). cbn. intros _. split; [|lia].
  split; [done|]. split; by apply be16_bound.
Qed.
Lemma ResourceHeader_Decode_safe h off :
  0 <= off <= zlen msg ->
  decodes msg off (fun h => name_ok (rh_Name h) /\ is_u16 (rh_Type h) /\ is_u16 (rh_Class h) /\
    is_u32 (rh_TTL h) /\ is_u16 (rh_Length h)) (ResourceHeader_Decode h msg off).
Proof.
  intros Ho. unfold ResourceHeader_Decode. open_name Ho n off' e. rewrite !u16_small by wrap_lia.
  destruct (Z.ltb_spec (zlen msg) (off' + 10)); [done|].
  rewrite !Uint16_ok, Uint32_ok by (done || lia). cbn. intros _. split; [|lia].
  split_and!; [done|by apply be16_bound|by apply be16_bound|by apply be32_bound|by apply be16_bound].
Qed.
Lemma Resource_Decode_safe r off :
  0 <= off <= zlen msg -> decodes msg off resource_typed (Resource_Decode r msg off).
Proof.
  intros Ho. unfold Resource_Decode. pose proof (ResourceHeader_Decode_safe (r_header r) off Ho) as Hh.
  unfold decodes, returns in Hh. destruct (ResourceHeader_Decode _ msg off) as [[[h off'] [e|]]|]; [done| |done].
  destruct (Hh eq_refl) as [(Hn & Ht & Hc & Httl & Hlen) Ho']. cbn [mbind outcome_bind].
  unfold assert_or_panic. assert (slice_ok msg off' (zlen msg) = true) as -> by (unfold slice_ok; lia).
  rewrite (u16_small (zlen msg - off')) by wrap_lia.
  destruct (Z.ltb_spec (zlen msg - off') (rh_Length h)); [done|].
  assert (is_u16 (off' + rh_Length h)) by wrap_lia. rewrite !u16_small by done.
  assert (slice_ok msg off' (off' + rh_Length h) = true) as -> by (unfold slice_ok; wrap_lia).
  assert (decodes msg off resource_typed
    (Ret (mkResource h (slice msg off' (off' + rh_Length h)), off' + rh_Length h, None))) as Hplain.
  { intros _. cbn. split; [|wrap_lia]. unfold resource_typed. cbn.
    rewrite zlen_slice by wrap_lia. replace (off' + rh_Length h - off') with (rh_Length h) by lia.
    rewrite u16_small by done. split_and!; try done. by apply is_bytes_slice. }
  destruct (rh_Type h =? TypeCNAME); [|done].
  assert (0 <= off' <= zlen msg) as Ho2 by lia. pose proof (Name_Decode_safe _ Ho2) as Hnm.
  unfold decodes, returns in Hnm. destruct (Name_Decode msg off') as [[[n o] [e|]]|]; [done| |done].
  destruct (Hnm eq_refl) as [Hcn _]. cbn. intros _. split; [|wrap_lia]. 
  split_and!; try done. by apply name_ok_bytes.
Qed.

Lemma decode_n_safe {A} (dec : Z -> outcome (A * Z * option error)) P :
  (forall off, 0 <= off <= zlen msg -> decodes msg off P (dec off)) ->
  forall n off, 0 <= off <= zlen msg ->
  returns (decode_n dec n off) (fun '(xs, off', err) =>
    Forall P xs /\ zlen xs <= Z.of_nat n /\
    (err = None -> zlen xs = Z.of_nat n /\ off <= off' <= zlen msg)).
Proof.
  intros Hdec n. induction n as [|n IH]; intros off Ho; cbn [decode_n].
  { split_and!; [constructor|done|]. intros _. split; [done|lia]. }
  pose proof (Hdec off Ho) as Hd. unfold decodes, returns in Hd.
  destruct (dec off) as [[[x o] [e|]]|]; [|cbn [mbind outcome_bind]|done].
  { cbn. split_and!; [constructor|unfold zlen; cbn; lia|done]. }
  destruct (Hd eq_refl) as [Hx Ho'].
  pose proof (IH o ltac:(lia)) as Hi. destruct (decode_n dec n o) as [[[xs o'] err]|]; [|done].
  destruct Hi as (Hxs & Hn & Ho''). cbn [mbind outcome_bind returns]. rewrite zlen_cons.
  split_and!; [by constructor|lia|]. intros E. specialize (Ho'' E). lia.
Qed.

Lemma skipQuestion_safe off :
  0 <= off <= zlen msg ->
  returns (skipQuestion msg off) (fun '(off', err) => err = None -> off <= off' <= zlen msg).
Proof.
  intros Ho. unfold skipQuestion, skipName, allowCompression.
  destruct (visitAllLabels_total (fun (a : ()) _ => a) msg Hb ltac:(lia) off tt Ho)
    as (ls & r & [e|] & -> & Hw); cbn [mbind outcome_bind]; [done|].
  destruct Hw as (k & Hw & Hk); [done|]. apply wire_next in Hw; [|lia].
  rewrite !u16_small by wrap_lia. bool_cases; [done|]. intros _. lia.
Qed.
Lemma skip_n_safe skip :
  (forall off, 0 <= off <= zlen msg ->
     returns (skip off) (fun '(off', err) => err = None -> off <= off' <= zlen msg)) ->
  forall n off, 0 <= off <= zlen msg ->
  returns (skip_n skip n off) (fun '(off', err) => err = None -> off <= off' <= zlen msg).
Proof.
  intros Hs n. induction n as [|n IH]; intros off Ho; cbn [skip_n]; [cbn; lia|].
  pose proof (Hs off Ho) as H. destruct (skip off) as [[o [e|]]|]; [done| |done].
  specialize (H eq_refl). cbn [mbind outcome_bind]. pose proof (IH o ltac:(lia)) as Hi.
  destruct (skip_n skip n o) as [[o' err]|]; [|done]. intros E. specialize (Hi E). lia.
Qed.

Definition vec_typed {A} (P : A -> Prop) (v : vec A) : Prop :=
  Forall P (elems v) /\ zlen (elems v) <= vcap v.

(** A decoded section: typed, in the slice it had, complete when there is no error. *)
Definition section_done {A} (P : A -> Prop) (v : vec A) (n off : Z)
    : option (vec A) * Z * option error -> Prop :=
  fun '(v', off', err) => exists w, v' = Some w /\ vec_typed P w /\ vcap w = vcap v /\
    (err = None -> zlen (elems w) = Z.min n (vcap v) /\ off <= off' <= zlen msg).

Lemma decode_questions_safe v qd off :
  0 <= vcap v -> 0 <= qd -> 0 <= off <= zlen msg ->
  returns (decode_questions (Some v) msg qd off) (section_done question_ok v qd off).
Proof.
  intros Hv Hq Ho. unfold decode_questions. set (nq := if vcap v <? qd then vcap v else qd).
  assert (nq = Z.min qd (vcap v)) as En by (unfold nq; bool_cases; lia). clearbody nq. subst nq.
  pose proof (decode_n_safe _ question_ok (Question_Decode_safe zero_question)
    (Z.to_nat (Z.min qd (vcap v))) off Ho) as Hd.
  destruct (decode_n _ _ off) as [[[qs o] [e|]]|]; [| |done]; cbn [mbind outcome_bind];
    destruct Hd as (Hqs & Hle & Hdone).
  { eexists. split; [done|]. unfold vec_typed. cbn. split_and!; [done|lia|done|done]. }
  specialize (Hdone eq_refl). pose proof (skip_n_safe _ skipQuestion_safe
    (Z.to_nat (qd - Z.min qd (vcap v))) o ltac:(lia)) as Hs.
  destruct (skip_n _ _ o) as [[o' err]|]; [|done]. cbn. eexists. split; [done|].
  unfold vec_typed. cbn. split_and!; [done|lia|done|]. intros E. specialize (Hs E). lia.
Qed.
Lemma decodeToCapResources_safe v n off :
  n <= vcap v <= 65535 -> 0 <= n -> 0 <= off <= zlen msg ->
  returns (decodeToCapResources (Some v) msg n off) (section_done resource_typed v n off).
Proof.
  intros Hv Hn Ho. unfold decodeToCapResources. rewrite (u16_small (vcap v)) by wrap_lia.
  assert ((vcap v <? n) = false) as -> by lia. rewrite Z.sub_diag.
  pose proof (decode_n_safe _ resource_typed (Resource_Decode_safe zero_resource)
    (Z.to_nat n) off Ho) as Hd.
  destruct (decode_n _ _ off) as [[[rs o] [e|]]|]; [| |done]; cbn [mbind outcome_bind];
    destruct Hd as (Hrs & Hle & Hdone); eexists; (split; [done|]); unfold vec_typed; cbn.
  { split_and!; [done|lia|done|done]. }
  specialize (Hdone eq_refl). split_and!; [done|lia|done|]. intros _. lia.
Qed.
End Safe.

Definition message_typed (m : Message) : Prop :=
  vec_typed question_ok (Questions m) /\ vec_typed resource_typed (Answers m) /\
  vec_typed resource_typed (Authorities m) /\ vec_typed resource_typed (Additionals m).
Definition caps (m : Message) : Z * Z * Z * Z :=
  (vcap (Questions m), vcap (Answers m), vcap (Authorities m), vcap (Additionals m)).
(** No resource record of the message has to be skipped. *)
Definition takes_resources (m : Message) (msg : list Z) : Prop :=
  be16 msg 6 <= vcap (Answers m) <= 65535 /\ be16 msg 8 <= vcap (Authorities m) <= 65535 /\
  be16 msg 10 <= vcap (Additionals m) <= 65535.
#[global] Instance takes_resources_dec m msg : Decision (takes_resources m msg).
Proof. unfold takes_resources. apply _. Defined.

(** C28: decoding any message of at most 65525 octets whose resource records all have room
    in the receiver returns without a panic. What it leaves in the receiver is typed
    (names are valid, fields in range, every length that of its data), also after an
    error, within unchanged capacities; without an error the sections have the sizes of
    the header and the offset lies inside the message. Both bounds are needed: in a
    longer message the 16-bit offset wraps ([dns_long_message_panics]), and skipping a
    record that is cut off panics ([dns_skip_panics_iff]). *)
Theorem dns_decode_typed m msg :
  is_bytes msg -> zlen msg <= 65525 -> message_typed m -> takes_resources m msg ->
  returns (Decode m msg) (fun '(m', off, incompleteButOK, err) =>
    message_typed m' /\ caps m' = caps m /\
    (err = None \/ incompleteButOK = true ->
       SizeHeader <= off <= zlen msg /\
       zlen (elems (Questions m')) = Z.min (be16 msg 4) (vcap (Questions m)) /\
       zlen (elems (Answers m')) = be16 msg 6 /\ zlen (elems (Authorities m')) = be16 msg 8 /\
       zlen (elems (Additionals m')) = be16 msg 10)).
Proof.
  intros Hb Hl (Hq & Ha & Hn & Hr) (RA & RN & RR). unfold Decode, DecodeMessage, NewFrame.
  destruct (Z.ltb_spec (zlen msg) SizeHeader) as [|H12].
  { cbn. split_and!; [done|done|]. by intros [?|?]. }
  unfold SizeHeader in *. unfold QDCount, ANCount, NSCount, ARCount.
  rewrite !Uint16_ok by (done || lia). cbn [mbind outcome_bind].
  set (too := tooManyErr _ _ _ _ _). clearbody too. unfold targets_of. cbn [t_q t_ans t_auth t_add].
  pose proof (be16_bound msg 4 Hb) as [? _]. pose proof (be16_bound msg 6 Hb) as [? _].
  pose proof (be16_bound msg 8 Hb) as [? _]. pose proof (be16_bound msg 10 Hb) as [? _].
  pose proof Hq as [_ Hqc]. pose proof (zlen_nonneg (elems (Questions m))).
  pose proof (decode_questions_safe msg Hb Hl (Questions m) (be16 msg 4) 12 ltac:(lia) ltac:(lia) ltac:(lia)) as SQ.
  change (6 * 2) with 12 in *.
  destruct (decode_questions _ msg _ _) as [[[q o] [e|]]|]; [| |done]; cbn [mbind outcome_bind];
    destruct SQ as (w & -> & Hw & Hwc & HQ).
  { cbn. unfold caps. cbn. split_and!; [done|by rewrite Hwc|]. by intros [?|?]. }
  specialize (HQ eq_refl). cbn [t_q t_ans t_auth t_add].
  pose proof (decodeToCapResources_safe msg Hb Hl _ _ o RA ltac:(lia) ltac:(lia)) as SA.
  destruct (decodeToCapResources _ msg _ _) as [[[a oa] [e|]]|]; [| |done]; cbn [mbind outcome_bind];
    destruct SA as (wa & -> & Hwa & Hwac & HA).
  { cbn. unfold caps. cbn. split_and!; [done|by rewrite Hwc, Hwac|]. by intros [?|?]. }
  specialize (HA eq_refl). cbn [t_q t_ans t_auth t_add].
  pose proof (decodeToCapResources_safe msg Hb Hl _ _ oa RN ltac:(lia) ltac:(lia)) as SN.
  destruct (decodeToCapResources _ msg _ _) as [[[n on] [e|]]|]; [| |done]; cbn [mbind outcome_bind];
    destruct SN as (wn & -> & Hwn & Hwnc & HN).
  { cbn. unfold caps. cbn. split_and!; [done|by rewrite Hwc, Hwac, Hwnc|]. by intros [?|?]. }
  specialize (HN eq_refl). cbn [t_q t_ans t_auth t_add].
  pose proof (decodeToCapResources_safe msg Hb Hl _ _ on RR ltac:(lia) ltac:(lia)) as SR.
  destruct (decodeToCapResources _ msg _ _) as [[[r or] [e|]]|]; [| |done]; cbn [mbind outcome_bind];
    destruct SR as (wr & -> & Hwr & Hwrc & HR); cbn; unfold caps; cbn;
    (split_and!; [done|by rewrite Hwc, Hwac, Hwnc, Hwrc|]).
  { by intros [?|?]. }
  specialize (HR eq_refl). intros _. lia.
Qed.

(** ** Skipping *)

(** skipping a resource record panics exactly when its name is well-formed and the
    message ends within the ten octets of fixed fields after it: they are read before
    the length of the message is looked at. *)
Theorem dns_skip_panics_iff msg off :
  is_bytes msg -> zlen msg <= 65525 -> 0 <= off <= zlen msg ->
  skipResource msg off = Panic <->
  exists ls next k, wire_name true msg off ls next k /\ k <= 10 /\ zlen msg < next + 10.
Proof.
  intros Hb Hl Ho. unfold skipResource, skipName, allowCompression. split.
  - destruct (visitAllLabels_total (fun (a : ()) _ => a) msg Hb ltac:(lia) off tt Ho)
      as (ls & r & [e|] & -> & Hw); cbn [mbind outcome_bind]; [done|].
    destruct Hw as (k & Hw & Hk); [done|]. intros HP. exists ls, r, k. split_and!; [done..|].
    apply wire_next in Hw; [|lia]. destruct (decide (zlen msg < r + 10)); [done|exfalso].
    rewrite (u16_small (r + 8)) in HP by wrap_lia. rewrite Uint16_ok in HP by (done || lia).
    cbn in HP. by destruct (_ <? _) in HP.
  - intros (ls & next & k & Hw & Hk & Hn).
    rewrite (visitAllLabels_complete (fun (a : ()) _ => a) msg Hb ltac:(lia) true off tt ls next k) by done.
    cbn [mbind outcome_bind]. apply wire_next in Hw; [|lia].
    rewrite (u16_small (next + 8)) by wrap_lia.
    assert (Uint16 msg (next + 8) = Panic) as ->; [|done].
    unfold Uint16, at_. destruct (decide (zlen msg <= next + 8)); [by rewrite (zget_ge _ (next + 8)) by lia|].
    rewrite (zget_ge _ (next + 8 + 1)) by lia. by destruct (zget msg (next + 8)).
Qed.

(** A name of one label, an address record and a CNAME record. *)
Definition www : Name := name_bytes [[119; 119; 119]].
Definition web : Name := name_bytes [[119; 101; 98]].
Definition record_a (n : Name) (a : list Z) : Resource := NewResource n TypeA ClassINET 60 a.
Definition empty_message (q an ns ar : Z) : Message :=
  mkMessage (mkVec [] q) (mkVec [] an) (mkVec [] ns) (mkVec [] ar).

Lemma www_ok : name_ok www.
Proof. eexists. split; [|done]. by_compute. Qed.
Lemma web_ok : name_ok web.
Proof. eexists. split; [|done]. by_compute. Qed.
Definition demo_runtime : GoRuntime :=
  {| growslice := fun _ need => need; growslice_ok := fun _ need => Z.le_refl need |}.

(** [www] is an alias of [web]; the address comes first. *)
Definition demo_response : Message :=
  mkMessage (mkVec [mkQuestion www TypeA ClassINET] 1)
    (mkVec [record_a web [10; 0; 0; 1]; NewResource www TypeCNAME ClassINET 60 web] 2)
    (mkVec [] 0) (mkVec [] 0).
Lemma demo_response_ok : message_ok demo_response.
Proof.
  pose proof www_ok. pose proof web_ok.
  split_and!; unfold vec_ok; cbn [elems Questions Answers Authorities Additionals demo_response];
    repeat apply Forall_cons_2; try apply Forall_nil_2; split_and!;
    first [done | by_compute | discriminate].
Qed.

Lemma dns_message_roundtrip_witness : exists buf,
  Message_AppendTo (RT := demo_runtime) demo_response (mkBuf (zeros 5) 0 None) 77 0x8180 = Ret (buf, None) /\
  Decode (empty_message 1 2 1 1) (contents buf)
    = Ret (refill demo_response (empty_message 1 2 1 1), zlen (contents buf), false, None).
Proof.
  destruct (dns_message_roundtrip (RT := demo_runtime) demo_response (empty_message 1 2 1 1)
    (mkBuf (zeros 5) 0 None) 77 0x8180) as (buf & E & _ & _ & _ & _ & ED);
    [exact demo_response_ok|by_compute..|done|].
  exists buf. split; [exact E|exact ED].
Defined.

(** A response with a pointer, to decode. *)
Definition demo_wire : list Z :=
  [0; 77; 0x81; 0x80; 0; 1; 0; 1; 0; 0; 0; 0] ++ www ++ [0; 1; 0; 1] ++
  [0xc0; 12; 0; 1; 0; 1; 0; 0; 0; 60; 0; 4; 10; 0; 0; 1].
Lemma empty_typed q an ns ar :
  0 <= q -> 0 <= an -> 0 <= ns -> 0 <= ar -> message_typed (empty_message q an ns ar).
Proof. intros. split; [|split; [|split]]; (split; [by apply Forall_nil_2|done]). Qed.
Lemma dns_decode_typed_witness : returns (Decode (empty_message 1 1 0 0) demo_wire)
  (fun '(m, _, _, err) => message_typed m /\ err = None).
Proof.
  pose proof (dns_decode_typed (empty_message 1 1 0 0) demo_wire ltac:(by_compute) ltac:(by_compute)
    ltac:(by apply empty_typed) ltac:(by_compute)) as H.
  destruct (Decode (empty_message 1 1 0 0) demo_wire) as [[[[m off] ok] err]|] eqn:E; [|exact H].
  split; [exact (proj1 H)|]. vm_compute in E. congruence.
Defined.

(** Two records that fill 65535 octets: the fixed fields of the second one would end
    behind the message. *)
Definition long_message : list Z :=
  [0; 77; 0x81; 0x80; 0; 0; 0; 2; 0; 0; 0; 0] ++ [0; 0; 16; 0; 1; 0; 0; 0; 0; 255; 227] ++ zeros (65507 + 5).

(** The offset of a message wraps: when the name of a record ends within the last ten
    octets of a message of nearly 65536 octets, [off+10] is small again, the comparison
    with the length passes, and reading the fields panics, although the receiver has
    room for every record. *)
Theorem dns_long_message_panics :
  zlen long_message = 65535 /\ takes_resources (empty_message 1 2 0 0) long_message /\
  Decode (empty_message 1 2 0 0) long_message = Panic.
Proof.
  split; [by vm_compute|]. split; [apply (bool_decide_unpack _); by vm_compute|by vm_compute].
Qed.

Lemma skip_witness_name : wire_name true (zeros 12 ++ [0; 0; 1]) 12 [] 13 0.
Proof. by apply wire_end. Qed.
Lemma dns_skip_panics_iff_witness : skipResource (zeros 12 ++ [0; 0; 1]) 12 = Panic.
Proof.
  apply dns_skip_panics_iff; [by_compute|by_compute|by_compute|].
  exists [], 13, 0. split; [exact skip_witness_name|]. by_compute.
Defined.

(** The answers of a message are to be ignored: a nil destination for them. *)
Definition without_answers (m : Message) : targets :=
  mkTargets (Some (Questions m)) None (Some (Authorities m)) (Some (Additionals m)).

(** a nil section is not skipped: with a nil destination for the answers, the first
    answer of this message is decoded as its authority. *)
Theorem dns_nil_section_not_skipped :
  exists m m0 t off, message_ok m /\ fits m m0 /\
    DecodeMessage (without_answers m0) (message_bytes m 7 0x8000) = Ret (t, off, true, Some ErrExhausted) /\
    elems (Answers m) <> elems (Authorities m) /\
    (elems <$> t_auth t) = Some (elems (Answers m)).
Proof.
  exists (mkMessage (mkVec [] 0) (mkVec [record_a www [1; 2; 3; 4]] 1)
            (mkVec [record_a web [5; 6; 7; 8]] 1) (mkVec [] 0)), (empty_message 0 1 1 0).
  eexists _, _. split_and!.
  - pose proof www_ok. pose proof web_ok.
    split_and!; unfold vec_ok; cbn [elems Questions Answers Authorities Additionals];
      try apply Forall_nil_2; apply Forall_singleton; split_and!; first [done | by_compute | discriminate].
  - by_compute.
  - vm_compute. reflexivity.
  - done.
  - vm_compute. reflexivity.
Qed.

(** a pointer to offset 0 is not followed and not refused: it is taken for the end of
    the name, and the record after the name is read one octet too early. *)
Theorem dns_zero_pointer_misparsed :
  exists msg, is_bytes msg /\ zget msg 12 = Some 0xc0 /\ zget msg 13 = Some 0 /\
    rfc_name msg 12 [] 14 1 /\ zero_ended msg 12 [] 13 0 /\
    Question_Decode zero_question msg 12 = Ret (mkQuestion rootDomain 0 256, 17, None).
Proof.
  exists (zeros 12 ++ [0xc0; 0; 0; 1; 0; 1]). split_and!; [by_compute|done|done| |by constructor|by vm_compute].
  apply (rfc_pointer _ 12 192 0 [] 1 0); [done|done|done|by_compute|]. by apply rfc_end.
Qed.
End DnsThms.
