(* ===== verification/DnsAnswers.v ===== *)
(** * DNS: the answers to a question

    [resolves] is what the answer section says of a name: the addresses at the end of its
    chain of canonical names. [WriteAnswers] walks that chain at most as often as there
    are answers, which is enough ([resolves_short]). *)
From S2P Require Import Prelude Errors Bytes DnsName DnsNameThms Dns DnsProps DnsThms.

Module DnsAnswers.
Import Bytes DnsName DnsNameProps DnsNameThms Dns DnsProps DnsThms.
Open Scope Z_scope.
Open Scope list_scope.

Section Answers.
Context (answers : list Resource) (host : list Z).

(** The records of a name, [host] itself for the empty one. *)
Definition owns (alias : Name) (r : Resource) : bool :=
  if zlen alias =? 0 then EqualString (rh_Name (r_header r)) host
  else NamesEqualFold (rh_Name (r_header r)) alias.
Definition address (alias : Name) (r : Resource) : option (list Z) :=
  if owns alias r && IsIPAddr (rh_Type (r_header r)) then AddrFromSlice (RawData r) else None.
Definition addresses (alias : Name) (l : list Resource) : list (list Z) := omap (address alias) l.
(** The canonical name of [alias]: the last one the records give. *)
Definition cname_step (alias next : Name) (r : Resource) : Name :=
  if owns alias r && (rh_Type (r_header r) =? TypeCNAME) && negb (zlen (CNAMEView r) =? 0)
  then CNAMEView r else next.
Definition cname (alias next : Name) (l : list Resource) : Name := foldl (cname_step alias) next l.

(** The addresses of a name and how many canonical names lead to them. *)
Inductive resolves : Name -> nat -> list (list Z) -> Prop :=
| resolves_here alias :
    addresses alias answers <> [] -> resolves alias 0 (addresses alias answers)
| resolves_follow alias k A :
    addresses alias answers = [] -> cname alias [] answers <> [] ->
    resolves (cname alias [] answers) k A -> resolves alias (S k) A.

Lemma resolves_det alias k A k' A' : resolves alias k A -> resolves alias k' A' -> k = k' /\ A = A'.
Proof.
  intros H. revert k' A'. induction H as [|alias k A Ha Hc _ IH]; intros k' A' H'; inversion H'; subst.
  all: try done. edestruct IH as [-> ->]; eauto.
Qed.

(** ** The chain is no longer than the answers *)

Lemma cname_from alias next l :
  cname alias next l = next \/
  exists i r, l !! i = Some r /\ rh_Type (r_header r) = TypeCNAME /\ cname alias next l = CNAMEView r.
Proof.
  unfold cname. revert next. induction l as [|r l IH]; intros next; cbn [foldl]; [by left|].
  destruct (IH (cname_step alias next r)) as [->|(i & r' & Hi & Ht & ->)].
  - unfold cname_step. destruct (owns alias r && (rh_Type (r_header r) =? TypeCNAME) && _) eqn:E; [|by left].
    right. exists 0%nat, r. split_and!; [done|lia|done].
  - right. by exists (S i), r'.
Qed.
Lemma addresses_from alias l :
  addresses alias l <> [] -> exists i r, l !! i = Some r /\ IsIPAddr (rh_Type (r_header r)) = true.
Proof.
  unfold addresses. induction l as [|r l IH]; cbn; [done|]. unfold address at 1.
  destruct (owns alias r && IsIPAddr (rh_Type (r_header r))) eqn:E.
  - intros _. exists 0%nat, r. split; [done|]. by apply andb_true_iff in E as [_ ?].
  - intros (i & r' & ? & ?)%IH. by exists (S i), r'.
Qed.

(** The records on the way are different ones. *)
Lemma resolves_path alias k A :
  resolves alias k A -> exists path : list nat, length path = k /\
    (forall j i, path !! j = Some i -> exists r, answers !! i = Some r /\
       rh_Type (r_header r) = TypeCNAME /\ resolves (CNAMEView r) (k - 1 - j) A).
Proof.
  induction 1 as [alias Ha|alias k A Ha Hc Hr IH]; [by exists []|].
  destruct IH as (path & <- & Hp).
  destruct (cname_from alias [] answers) as [?|(i & r & Hi & Ht & E)]; [done|].
  rewrite E in Hr. exists (i :: path). split; [done|]. intros [|j] i' Hj; cbn in Hj; simplify_eq.
  - exists r. replace (S (length path) - 1 - 0)%nat with (length path) by lia. done.
  - replace (S (length path) - 1 - S j)%nat with (length path - 1 - j)%nat by lia. eauto.
Qed.
Lemma resolves_end alias k A :
  resolves alias k A -> exists i r, answers !! i = Some r /\ IsIPAddr (rh_Type (r_header r)) = true.
Proof. induction 1; eauto using addresses_from. Qed.

Lemma resolves_short alias k A : resolves alias k A -> (k < length answers)%nat.
Proof.
  intros H. destruct (resolves_path _ _ _ H) as (path & <- & Hp).
  destruct (resolves_end _ _ _ H) as (e & re & He & Hip).
  assert (NoDup (e :: path)) as Hnd.
  { constructor.
    - intros [j Hj]%list_elem_of_lookup. destruct (Hp _ _ Hj) as (r & Hr & Ht & _). simplify_eq.
      by rewrite Ht in Hip.
    - apply NoDup_alt. intros a b i Ha Hb. apply lookup_lt_Some in Ha as ?, Hb as ?.
      destruct (Hp _ _ Ha) as (r & Hr & _ & Hx), (Hp _ _ Hb) as (r' & Hr' & _ & Hy). simplify_eq.
      destruct (resolves_det _ _ _ _ _ Hx Hy). lia. }
  apply (NoDup_submseteq _ (seq 0 (length answers))), submseteq_length in Hnd;
    [cbn in Hnd; rewrite length_seq in Hnd; lia|].
  intros i Hi. apply elem_of_seq. apply elem_of_cons in Hi as [->|[j Hj]%list_elem_of_lookup].
  - apply lookup_lt_Some in He. lia.
  - destruct (Hp _ _ Hj) as (r & Hr & _). apply lookup_lt_Some in Hr. lia.
Qed.

(** ** The rounds *)

(** The lengths of records are in range, the data of address records are addresses. *)
Definition answer_ok (r : Resource) : Prop :=
  is_u16 (rh_Length (r_header r)) /\
  (IsIPAddr (rh_Type (r_header r)) = true -> is_Some (AddrFromSlice (RawData r))).

Lemma CNAMEView_len r : answer_ok r -> zlen (CNAMEView r) <= 65535.
Proof.
  intros [Hl _]. unfold CNAMEView. destruct (negb _); [unfold zlen; cbn; lia|]. unfold RawData.
  pose proof (zlen_nonneg (r_data r)).
  destruct (Z.ltb_spec (zlen (r_data r)) (rh_Length (r_header r))).
  - rewrite zlen_ztake; rewrite u16_small; wrap_lia.
  - rewrite zlen_ztake; wrap_lia.
Qed.
Lemma ownedBy_owns r alias : zlen alias <= 65535 -> ownedBy (r_header r) alias host = Ret (owns alias r).
Proof. intros. unfold ownedBy. by rewrite Name_Len_ok by done. Qed.

(** The destination with addresses written from index [n] on, as far as they fit. *)
Definition filled (dst : list (list Z)) (n : Z) (A : list (list Z)) : list (list Z) :=
  ztake n dst ++ ztake (zlen dst - n) A ++ zdrop (n + zlen A) dst.

Lemma filled_nil dst n : filled dst n [] = dst.
Proof. unfold filled. rewrite zlen_nil, Z.add_0_r. unfold ztake at 2. rewrite take_nil. apply ztake_zdrop. Qed.
Lemma filled_full dst n A : zlen dst <= n -> filled dst n A = dst.
Proof.
  intros. pose proof (zlen_nonneg A). unfold filled.
  rewrite ztake_ge, ztake_nonpos, zdrop_ge by lia. by rewrite !app_nil_r.
Qed.
Lemma filled_cons dst n a A :
  0 <= n < zlen dst -> filled (<[Z.to_nat n := a]> dst) (n + 1) A = filled dst n (a :: A).
Proof.
  intros Hn. pose proof (zlen_nonneg A). unfold filled.
  assert (zlen (<[Z.to_nat n := a]> dst) = zlen dst) as -> by (unfold zlen; by rewrite length_insert).
  rewrite zlen_cons. unfold ztake, zdrop, zlen in *.
  replace (Z.to_nat (n + 1)) with (S (Z.to_nat n)) by lia.
  rewrite (take_S_r _ _ a) by (rewrite list_lookup_insert_eq by lia; done).
  rewrite take_insert_ge by lia. rewrite drop_insert_lt by lia.
  replace (Z.to_nat (Z.of_nat (length dst) - n)) with (S (Z.to_nat (Z.of_nat (length dst) - (n + 1)))) by lia.
  cbn [take]. rewrite <- app_assoc. cbn. do 4 f_equal. lia.
Qed.

Lemma write_round_spec l alias dst n err next :
  Forall answer_ok l -> zlen alias <= 65535 -> 0 <= n <= zlen dst -> zlen dst <= 65535 ->
  let A := addresses alias l in
  exists next', write_round l alias host (mkLookup dst n err next)
    = Ret (mkLookup (filled dst n A) (Z.min (n + zlen A) (zlen dst)) err next', zlen dst <? n + zlen A) /\
    (n + zlen A <= zlen dst -> next' = cname alias next l).
Proof.
  intros Hl Hal. revert dst n next. induction Hl as [|r l Hr Hl IH]; intros dst n next Hn Hd A.
  { exists next. unfold A. change (addresses alias []) with (@nil (list Z)). cbn [write_round].
    rewrite filled_nil, zlen_nil, Z.add_0_r, Z.min_l by lia. split; [|done].
    by assert ((zlen dst <? n) = false) as -> by lia. }
  cbn [write_round]. rewrite ownedBy_owns by done. cbn [mbind outcome_bind w_dst w_n w_err w_next].
  assert (addresses alias (r :: l) = match address alias r with
    | Some a => a :: addresses alias l | None => addresses alias l end) as EA by done.
  unfold address in EA. subst A. rewrite EA. clear EA.
  unfold cname in *. cbn [foldl].
  pose proof (eq_refl (cname_step alias next r)) as Ec. unfold cname_step in Ec at 2. rewrite Ec. clear Ec.
  destruct (owns alias r); cbn [andb negb]; [|by apply IH].
  destruct (IsIPAddr (rh_Type (r_header r))) eqn:Eip.
  - destruct Hr as [_ Hr]. destruct (Hr Eip) as [a Ea]. rewrite Ea.
    assert ((rh_Type (r_header r) =? TypeCNAME) = false) as ->.
    { unfold IsIPAddr, TypeA, TypeAAAA, TypeCNAME in *. lia. }
    cbn [andb]. rewrite zlen_cons. pose proof (zlen_nonneg (addresses alias l)).
    destruct (Z.leb_spec (zlen dst) n).
    + exists next. rewrite filled_full, Z.min_r by lia. split; [|lia].
      assert ((zlen dst <? n + (1 + zlen (addresses alias l))) = true) as -> by lia.
      by replace n with (zlen dst) by lia.
    + rewrite u16_small by wrap_lia.
      assert (zlen (<[Z.to_nat n := a]> dst) = zlen dst) as El by (unfold zlen; by rewrite length_insert).
      destruct (IH (<[Z.to_nat n := a]> dst) (n + 1) next) as (nx & -> & Hnx); [lia..|].
      rewrite El, filled_cons, <- !Z.add_assoc in * by lia. by exists nx.
  - destruct (rh_Type (r_header r) =? TypeCNAME); cbn [andb]; [|by apply IH].
    rewrite Name_Len_ok by by apply CNAMEView_len. cbn [mbind outcome_bind].
    destruct (negb (zlen (CNAMEView r) =? 0)); by apply IH.
Qed.

Lemma cname_len alias : Forall answer_ok answers -> zlen (cname alias [] answers) <= 65535.
Proof.
  intros Ha. destruct (cname_from alias [] answers) as [->|(i & r & Hi & _ & ->)]; [done|].
  rewrite Forall_lookup in Ha. by eapply CNAMEView_len, Ha.
Qed.

(** The answer for the addresses found. *)
Definition answer (dst : list (list Z)) (A : list (list Z)) : list (list Z) * Z * option error :=
  (filled dst 0 A, Z.min (zlen A) (zlen dst), if zlen dst <? zlen A then Some ErrExhausted else None).

Lemma write_rounds_spec rounds alias dst :
  Forall answer_ok answers -> zlen alias <= 65535 -> zlen dst <= 65535 ->
  (forall k A, resolves alias k A -> (k < rounds)%nat ->
     write_rounds rounds answers alias host dst 0 None = Ret (answer dst A)) /\
  ((forall k A, ~ resolves alias k A) ->
     write_rounds rounds answers alias host dst 0 None = Ret (dst, 0, None)).
Proof.
  intros Ha Hal Hd. revert alias Hal. induction rounds as [|rounds IH]; intros alias Hal.
  { split; [lia|done]. }
  cbn [write_rounds]. pose proof (zlen_nonneg dst).
  destruct (write_round_spec answers alias dst 0 None [] Ha Hal ltac:(lia) Hd) as (nx & -> & Hnx).
  cbn [mbind outcome_bind w_dst w_n w_err w_next]. rewrite !Z.add_0_l in *.
  assert (forall k A, resolves alias k A ->
    addresses alias answers <> [] /\ A = addresses alias answers \/
    addresses alias answers = [] /\ cname alias [] answers <> [] /\
      exists k', k = S k' /\ resolves (cname alias [] answers) k' A) as Hinv.
  { intros k A H'. inversion H'; subst; [by left|right]. eauto. }
  destruct (decide (addresses alias answers = [])) as [E|E].
  - rewrite E in *. rewrite zlen_nil, filled_nil in *.
    assert ((zlen dst <? 0) = false) as -> by lia. rewrite Z.min_l by lia.
    rewrite (Hnx ltac:(lia)). rewrite Name_Len_ok by by apply cname_len. cbn [mbind outcome_bind orb Z.ltb].
    change (0 <? 0) with false. cbn [orb].
    destruct (Z.eqb_spec (zlen (cname alias [] answers)) 0) as [Ec%zlen_zero_nil|Ec].
    + split; [|done]. intros k A [[]|(_ & ? & _)]%Hinv; done.
    + destruct (IH (cname alias [] answers)) as [IH1 IH2]; [by apply cname_len|]. split.
      * intros k A [[]|(_ & _ & k' & -> & Hr)]%Hinv ?; [done|]. apply IH1 with k'; [done|lia].
      * intros Hno. apply IH2. intros k A Hr. apply (Hno (S k) A). constructor; [done| |done].
        intros E'. rewrite E' in Ec. done.
  - split; [|intros Hno; exfalso; by eapply Hno, resolves_here].
    intros k A [[_ ->]|[? _]]%Hinv ?; [|done]. unfold answer.
    assert (0 < zlen (addresses alias answers)).
    { destruct (addresses alias answers) as [|x xs]; [done|]. rewrite zlen_cons.
      pose proof (zlen_nonneg xs). lia. }
    destruct (Z.ltb_spec (zlen dst) (zlen (addresses alias answers))); [done|].
    assert (zlen nx <= 65535) by (rewrite Hnx by lia; by apply cname_len).
    rewrite Name_Len_ok by done. cbn [mbind outcome_bind].
    assert ((0 <? Z.min (zlen (addresses alias answers)) (zlen dst)) = true) as -> by lia. done.
Qed.
End Answers.

Lemma WriteAnswers_resolves m dst host k A :
  Forall answer_ok (elems (Answers m)) -> zlen dst <= 65535 ->
  resolves (elems (Answers m)) host [] k A -> WriteAnswers m dst host = Ret (answer dst A).
Proof.
  intros Ha Hd Hr. unfold WriteAnswers. eapply write_rounds_spec; [done..|].
  by eapply resolves_short.
Qed.

(** C29: [WriteAnswers] writes the addresses at the end of the chain of canonical names of
    the host, however long the chain and in whatever order the records come, as many as
    the destination holds; it writes none, and ends, when the chain is broken or
    cyclic. *)
Theorem dns_answers_follow_cnames m dst host :
  Forall answer_ok (elems (Answers m)) -> zlen dst <= 65535 ->
  (forall k A, resolves (elems (Answers m)) host [] k A -> WriteAnswers m dst host = Ret (answer dst A)) /\
  ((forall k A, ~ resolves (elems (Answers m)) host [] k A) -> WriteAnswers m dst host = Ret (dst, 0, None)).
Proof.
  intros Ha Hd. split; [intros k A; by apply WriteAnswers_resolves|].
  intros Hno. unfold WriteAnswers. by apply write_rounds_spec.
Qed.

Definition demo_host : list Z := [119; 119; 119].
Definition demo_answers : list Resource := elems (Answers demo_response).

Lemma demo_answers_ok : Forall answer_ok demo_answers.
Proof.
  apply Forall_cons_2; [split; [by_compute|intros _; by eexists]|].
  apply Forall_cons_2; [split; [by_compute|discriminate]|]. by apply Forall_nil_2.
Qed.
Lemma demo_resolves : resolves demo_answers demo_host [] 1 [[10; 0; 0; 1]].
Proof. apply resolves_follow; [by vm_compute|by vm_compute|]. by apply resolves_here. Qed.

Lemma dns_answers_follow_cnames_witness :
  WriteAnswers demo_response [[]; []] demo_host = Ret ([[10; 0; 0; 1]; []], 1, None).
Proof.
  destruct (dns_answers_follow_cnames demo_response [[]; []] demo_host demo_answers_ok ltac:(by_compute)) as [H _].
  exact (H 1%nat [[10; 0; 0; 1]] demo_resolves).
Defined.
End DnsAnswers.
