(* ===== verification/DnsClient.v ===== *)
(** * The DNS client ([src/dns/client.go])

    One query at a time: [StartResolve] prepares it, [Encapsulate] sends it, [Demux] takes
    the response and [ResponseAnswerLookup] reads the addresses from it. *)
From S2P Require Import Prelude Errors Bytes DnsName DnsNameThms Dns DnsProps DnsThms DnsAnswers.

Module DnsClient.
Import Bytes DnsName Dns.
Open Scope Z_scope.
Open Scope list_scope.

Inductive StateClientQuery :=
| CQueryIdle | CQueryPending | CQueryOutstanding | CQueryDone | CQueryAborted.
#[global] Instance state_eq_dec : EqDecision StateClientQuery.
Proof. solve_decision. Defined.

Record Client := mkClient {
  connID : Z;
  txid : Z;
  lport : Z;
  msg : Message;
  respFlags : Z;
  state : StateClientQuery;
  enableRecursion : bool
}.

Definition zero_message : Message := mkMessage (mkVec [] 0) (mkVec [] 0) (mkVec [] 0) (mkVec [] 0).
Definition zero_client : Client := mkClient 0 0 0 zero_message 0 CQueryIdle false.

Record ResolveConfig := mkResolveConfig {
  rc_Questions : list Question;
  rc_Additional : list Resource;
  rc_EnableRecursion : bool;
  rc_MaxResponseAnswers : Z
}.

Definition with_msg (m : Message) (c : Client) : Client :=
  mkClient (connID c) (txid c) (lport c) m (respFlags c) (state c) (enableRecursion c).
Definition with_state (s : StateClientQuery) (c : Client) : Client :=
  mkClient (connID c) (txid c) (lport c) (msg c) (respFlags c) s (enableRecursion c).
Definition with_respFlags (f : Z) (c : Client) : Client :=
  mkClient (connID c) (txid c) (lport c) (msg c) f (state c) (enableRecursion c).

Definition reset (c : Client) (lport txid : Z) (state : StateClientQuery) (enableRecursion : bool) : Client :=
  mkClient (u64 (connID c + 1)) txid lport (Message_Reset (msg c)) 0 state enableRecursion.

Definition Protocol : Z := 17.
Definition LocalPort (c : Client) : Z := lport c.
Definition ConnectionID (c : Client) : Z := connID c.

Definition isClosed (c : Client) : bool :=
  match state c with CQueryIdle | CQueryAborted => true | _ => false end.

Section Client.
Context {RT : GoRuntime}.

Definition StartResolve (c : Client) (localPort txid : Z) (cfg : ResolveConfig) : Client * option error :=
  let nd := zlen (rc_Questions cfg) in
  if (MaxUint16 <? nd) || (nd =? 0) then (c, Some ErrInvalidConfig)
  else
    let maxAns := if rc_MaxResponseAnswers cfg =? 0 then u16 nd else rc_MaxResponseAnswers cfg in
    let c := reset c localPort txid CQueryPending (rc_EnableRecursion cfg) in
    let m := LimitResourceDecoding (msg c) (u16 nd) maxAns 0 0 in
    let m := AddQuestions m (rc_Questions cfg) in
    let m := AddAdditionals m (rc_Additional cfg) in
    (with_msg m c, None).

(** The client, the carrier, the length and the error. *)
Definition Encapsulate (c : Client) (carrierData : list Z) (offsetToFrame : Z)
    : outcome (Client * list Z * Z * option error) :=
  if isClosed c then Ret (c, carrierData, 0, Some NetErrClosed)
  else if negb (bool_decide (state c = CQueryPending)) then Ret (c, carrierData, 0, None)
  else
  assert_or_panic (slice_ok carrierData offsetToFrame (zlen carrierData))
    (let frame := zdrop offsetToFrame carrierData in
     msglen ← Len (msg c);
     if u16 (zlen frame) <? msglen then Ret (c, carrierData, 0, Some errCalcLen)
     else
       '(data, err) ← Message_AppendTo (msg c) (mkBuf frame 0 None) (txid c)
                        (NewClientHeaderFlags OpCodeQuery (enableRecursion c));
       let carrierData := ztake offsetToFrame carrierData ++ origin data in
       match err with
       | Some e => Ret (c, carrierData, 0, Some e)
       | None =>
           if msglen <? b_len data then Ret (c, carrierData, 0, Some ErrBug)
           else Ret (with_state CQueryOutstanding c, carrierData, b_len data, None)
       end).
End Client.

Definition Demux (c : Client) (carrierData : list Z) (frameOffset : Z) : outcome (Client * option error) :=
  if isClosed c then Ret (c, Some NetErrClosed)
  else if negb (bool_decide (state c = CQueryOutstanding)) then Ret (c, None)
  else
  assert_or_panic (slice_ok carrierData frameOffset (zlen carrierData))
    (let frame := zdrop frameOffset carrierData in
     match NewFrame frame with
     | (_, Some e) => Ret (c, Some e)
     | (f, None) =>
         flags ← Flags f;
         id ← TxID f;
         if negb (id =? txid c) || negb (IsResponse flags) then Ret (c, None)
         else
           let c := with_state CQueryDone (with_respFlags flags c) in
           '(m, _, incompleteButOK, err) ← Decode (msg c) frame;
           let c := with_msg m c in
           match err with
           | Some e => if (incompleteButOK : bool) then Ret (c, None) else Ret (c, Some e)
           | None => Ret (c, None)
           end
     end).

(** The destination, [done], the error: a response code is an error. *)
Definition ResponseCopyTo (c : Client) (dst : Message) : Message * bool * option error :=
  if negb (IsResponse (respFlags c)) then (dst, false, None)
  else
    let rcode := ResponseCode (respFlags c) in
    (Message_CopyFrom dst (msg c), true, if negb (rcode =? 0) then Some (RCodeError rcode) else None).

Definition ResponseAnswerLookup (c : Client) (dst : list (list Z)) (host : list Z)
    : outcome (list (list Z) * Z * option error) :=
  if negb (IsResponse (respFlags c)) then Ret (dst, 0, None)
  else
    let rcode := ResponseCode (respFlags c) in
    if negb (rcode =? 0) then Ret (dst, 0, Some (RCodeError rcode))
    else WriteAnswers (msg c) dst host.

Definition ResponseFlags (c : Client) : Z * bool := (respFlags c, IsResponse (respFlags c)).

Definition Abort (c : Client) : Client := reset c 0 0 CQueryAborted false.

(** ** Theorems *)

Import DnsNameProps DnsNameThms DnsProps DnsThms DnsAnswers.

Section Query.
Context {RT : GoRuntime}.

(** The message of the query a configuration asks for. *)
Definition asks (cfg : ResolveConfig) (m : Message) : Prop :=
  elems (Questions m) = rc_Questions cfg /\ elems (Answers m) = [] /\
  elems (Authorities m) = [] /\ elems (Additionals m) = rc_Additional cfg.
Definition cfg_ok (cfg : ResolveConfig) : Prop :=
  Forall question_ok (rc_Questions cfg) /\ Forall resource_ok (rc_Additional cfg) /\
  1 <= zlen (rc_Questions cfg) <= 65535.

Lemma StartResolve_asks c lport txid_ cfg :
  cfg_ok cfg -> exists c', StartResolve c lport txid_ cfg = (c', None) /\ state c' = CQueryPending /\
    txid c' = txid_ /\ enableRecursion c' = rc_EnableRecursion cfg /\ asks cfg (msg c') /\ message_ok (msg c').
Proof.
  intros (Hq & Ha & Hn). unfold StartResolve, MaxUint16.
  assert ((65535 <? zlen (rc_Questions cfg)) = false) as -> by lia.
  assert ((zlen (rc_Questions cfg) =? 0) = false) as -> by lia. cbn [orb].
  eexists. split; [done|]. split_and!; try done. unfold message_ok, vec_ok. cbn. done.
Qed.

Lemma query_flags_ok b : is_u16 (NewClientHeaderFlags OpCodeQuery b).
Proof. destruct b; by_compute. Qed.

Lemma Encapsulate_query c carrier off :
  state c = CQueryPending -> is_u16 (txid c) -> message_ok (msg c) ->
  let flags := NewClientHeaderFlags OpCodeQuery (enableRecursion c) in
  let q := message_bytes (msg c) (txid c) flags in
  0 <= off -> zlen q <= zlen carrier - off <= 65535 ->
  Encapsulate c carrier off
    = Ret (with_state CQueryOutstanding c, put carrier off q, zlen q, None).
Proof.
  intros Hs Ht Hm flags q Ho Hl. subst flags.
  pose proof (zlen_nonneg q) as Hq0. unfold Encapsulate, isClosed. rewrite Hs. cbn [negb].
  rewrite bool_decide_eq_true_2 by done. cbn [negb]. unfold assert_or_panic.
  assert (slice_ok carrier off (zlen carrier) = true) as -> by (unfold slice_ok; lia).
  rewrite (Len_ok (msg c) (txid c) (NewClientHeaderFlags OpCodeQuery (enableRecursion c))) by (fold q; lia).
  fold q. cbn [mbind outcome_bind].
  assert (zlen (zdrop off carrier) = zlen carrier - off) as Ez by (apply zlen_zdrop; lia).
  rewrite Ez, u16_small by wrap_lia. assert ((zlen carrier - off <? zlen q) = false) as -> by lia.
  assert (buf_ok (mkBuf (zdrop off carrier) 0 None)) as Hb by (unfold buf_ok, bcap; cbn [b_len b_mem]; lia).
  rewrite Message_AppendTo_emit by (done || (fold q; lia)). fold q. cbn [mbind outcome_bind].
  destruct (Grow_ok _ (zlen q) Hb Hq0) as (_ & _ & _ & Hg).
  rewrite Hg by (unfold room, bcap; cbn [b_len b_mem]; lia).
  unfold emit. cbn [b_len b_mem b_left]. rewrite Z.add_0_l, Z.ltb_irrefl.
  unfold origin. cbn [b_mem b_left default]. do 4 f_equal. unfold put. rewrite (ztake_nonpos 0) by lia.
  cbn [app]. unfold zdrop. rewrite drop_drop. do 3 f_equal. lia.
Qed.

Definition query_of (cfg : ResolveConfig) : Message :=
  mkMessage (mkVec (rc_Questions cfg) 0) (mkVec [] 0) (mkVec [] 0) (mkVec (rc_Additional cfg) 0).
Lemma query_bytes cfg m tx flags :
  asks cfg m -> message_bytes m tx flags = message_bytes (query_of cfg) tx flags.
Proof.
  intros (EQ & EA & EN & ER). unfold message_bytes, fixed_bytes, sections_bytes, count.
  by rewrite EQ, EA, EN, ER.
Qed.

Lemma Demux_response c pre m flags :
  state c = CQueryOutstanding -> is_u16 (txid c) -> is_u16 flags -> IsResponse flags = true ->
  message_ok m -> fits m (msg c) -> zlen (message_bytes m (txid c) flags) <= 65535 ->
  Demux c (pre ++ message_bytes m (txid c) flags) (zlen pre)
    = Ret (with_msg (refill m (msg c)) (with_state CQueryDone (with_respFlags flags c)), None).
Proof.
  intros Hs Ht Hf Hr Hm Hfit Hl. unfold Demux, isClosed. rewrite Hs. cbn [negb].
  rewrite bool_decide_eq_true_2 by done. cbn [negb]. unfold assert_or_panic, slice_ok.
  rewrite zlen_app. pose proof (zlen_nonneg pre). pose proof (zlen_nonneg (message_bytes m (txid c) flags)).
  match goal with |- context [if ?b then _ else Panic] => replace b with true by lia end.
  rewrite zdrop_app_exact by done.
  destruct (header_reads m (txid c) flags Ht Hf) as (-> & ET & EF & _).
  rewrite EF, ET. cbn [mbind outcome_bind]. rewrite Z.eqb_refl, Hr. cbn [negb orb].
  rewrite (Decode_message_bytes m (msg c)) by done. done.
Qed.

(** C25: a lookup end to end. The query a client sends decodes to the questions and
    additional records it was configured with; a response with its transaction
    identifier is accepted, and the lookup that follows writes the addresses at the end
    of the host's chain of canonical names. Frames with another identifier, and
    queries, leave the client as it is. *)
Theorem dns_lookup_end_to_end c lport tx cfg carrier off m m0 flags pre dst host k A :
  let qflags := NewClientHeaderFlags OpCodeQuery (rc_EnableRecursion cfg) in
  let q := message_bytes (query_of cfg) tx qflags in
  cfg_ok cfg -> is_u16 tx -> 0 <= off -> zlen q <= zlen carrier - off <= 65535 ->
  fits (query_of cfg) m0 ->
  message_ok m -> is_u16 flags -> IsResponse flags = true -> ResponseCode flags = 0 ->
  zlen (message_bytes m tx flags) <= 65535 -> fits m (msg (fst (StartResolve c lport tx cfg))) ->
  Forall answer_ok (elems (Answers m)) -> zlen dst <= 65535 ->
  resolves (elems (Answers m)) host [] k A ->
  exists c1 c2 c3,
    StartResolve c lport tx cfg = (c1, None) /\
    Encapsulate c1 carrier off = Ret (c2, put carrier off q, zlen q, None) /\
    Decode m0 q = Ret (refill (query_of cfg) m0, zlen q, false, None) /\
    (forall carrier' o f, NewFrame (zdrop o carrier') = (f, None) ->
       0 <= o <= zlen carrier' -> is_bytes f -> be16 f 0 <> tx \/ IsResponse (be16 f 2) = false ->
       Demux c2 carrier' o = Ret (c2, None)) /\
    Demux c2 (pre ++ message_bytes m tx flags) (zlen pre) = Ret (c3, None) /\
    ResponseAnswerLookup c3 dst host = Ret (answer dst A).
Proof.
  intros qflags q Hcfg Ht Ho Hlen Hfitq Hm Hf Hr Hrc Hl Hfit Hans Hdst Hres.
  destruct (StartResolve_asks c lport tx cfg Hcfg) as (c1 & E1 & Hs & Htx & Hrec & Hasks & Hok).
  rewrite E1 in Hfit. cbn [fst] in Hfit.
  pose proof (Encapsulate_query c1 carrier off Hs ltac:(by rewrite Htx) Hok) as HE.
  cbv zeta in HE. rewrite Hrec, Htx, (query_bytes cfg _ _ _ Hasks) in HE. fold qflags q in HE.
  specialize (HE Ho Hlen). set (c2 := with_state CQueryOutstanding c1) in *.
  pose proof (Demux_response c2 pre m flags eq_refl) as HD. change (txid c2) with (txid c1) in HD.
  rewrite Htx in HD. change (msg c2) with (msg c1) in HD. specialize (HD Ht Hf Hr Hm Hfit Hl).
  eexists c1, c2, _. split_and!; [done|exact HE| | |exact HD|].
  - apply Decode_message_bytes; [|done|apply query_flags_ok|done|subst q; lia].
    destruct Hcfg as (? & ? & _). split_and!; unfold vec_ok; cbn; auto.
  - intros carrier' o f EN Hoo Hbf Hno. unfold Demux, c2, isClosed. cbn [state with_state negb].
    rewrite bool_decide_eq_true_2 by done. cbn [negb]. unfold assert_or_panic.
    assert (slice_ok carrier' o (zlen carrier') = true) as -> by (unfold slice_ok; lia). rewrite EN.
    assert (12 <= zlen f) by (unfold NewFrame, SizeHeader in EN; bool_cases_in EN; by simplify_eq).
    unfold Flags, TxID. rewrite !Uint16_ok by (done || lia). cbn [mbind outcome_bind].
    change (txid (with_state CQueryOutstanding c1)) with (txid c1). rewrite Htx.
    assert (negb (be16 f 0 =? tx) || negb (IsResponse (be16 f 2)) = true) as ->; [|done].
    destruct Hno as [Hne | ->]; [|by rewrite orb_true_r]. by apply Z.eqb_neq in Hne as ->.
  - unfold ResponseAnswerLookup. cbn [respFlags with_msg with_state with_respFlags msg].
    rewrite Hr, Hrc. cbn [negb Z.eqb]. by apply WriteAnswers_resolves with k.
Qed.
End Query.

(** A response of 13 octets: one authority record, cut off after its (root) name. *)
Definition cut_response (tx : Z) : list Z := bytes16 tx ++ [0x80; 0; 0; 0; 0; 0; 0; 1; 0; 0; 0].

(** any response of this shape to its outstanding query makes a client panic that has
    no room for authority records. [StartResolve] never makes such room. *)
Theorem dns_client_panics_on_cut_response c :
  state c = CQueryOutstanding -> is_u16 (txid c) ->
  0 <= vcap (Questions (msg c)) -> 0 <= vcap (Answers (msg c)) <= 65535 ->
  vcap (Authorities (msg c)) = 0 ->
  Demux c (cut_response (txid c)) 0 = Panic.
Proof.
  intros Hs Ht Hq Ha Hn. unfold Demux, isClosed. rewrite Hs. cbn [negb].
  rewrite bool_decide_eq_true_2 by done. cbn [negb]. unfold assert_or_panic.
  change (slice_ok (cut_response (txid c)) 0 _) with true. cbv iota.
  change (zdrop 0 (cut_response (txid c))) with (cut_response (txid c)).
  change (NewFrame (cut_response (txid c))) with (cut_response (txid c), @None error).
  unfold Flags, TxID. change (Uint16 (cut_response (txid c)) 2) with (Ret 0x8000).
  assert (Uint16 (cut_response (txid c)) 0 = Ret (txid c)) as -> by by apply (Uint16_at []).
  cbn [mbind outcome_bind].
  rewrite Z.eqb_refl. change (IsResponse 0x8000) with true. cbn [negb orb].
  unfold Decode, DecodeMessage.
  change (NewFrame (cut_response (txid c))) with (cut_response (txid c), @None error).
  cbv iota beta.
  change (QDCount (cut_response (txid c))) with (Ret 0).
  change (ANCount (cut_response (txid c))) with (Ret 0).
  change (NSCount (cut_response (txid c))) with (Ret 1).
  change (ARCount (cut_response (txid c))) with (Ret 0). cbn [mbind outcome_bind].
  unfold decode_questions, decodeToCapResources, targets_of.
  cbn [t_q t_ans t_auth t_add msg with_state with_respFlags].
  assert ((vcap (Questions (msg c)) <? 0) = false) as -> by lia. cbn [mbind outcome_bind Z.to_nat decode_n].
  rewrite (u16_small (vcap (Answers (msg c)))), Hn by wrap_lia.
  assert ((vcap (Answers (msg c)) <? 0) = false) as -> by lia. done.
Qed.

(** ** A concrete lookup *)

#[local] Existing Instance demo_runtime.

Definition demo_cfg : ResolveConfig :=
  mkResolveConfig [mkQuestion www TypeA ClassINET] [] true 2.
Lemma demo_cfg_ok : cfg_ok demo_cfg.
Proof.
  split; [|split; [by apply Forall_nil_2|by_compute]].
  apply Forall_singleton. split; [exact www_ok|by_compute].
Qed.
Lemma dns_lookup_end_to_end_witness : exists c1 c2 c3,
  StartResolve zero_client 4000 77 demo_cfg = (c1, None) /\
  Demux c2 (message_bytes demo_response 77 0x8180) 0 = Ret (c3, None) /\
  ResponseAnswerLookup c3 [[]; []] demo_host = Ret ([[10; 0; 0; 1]; []], 1, None).
Proof.
  destruct (dns_lookup_end_to_end zero_client 4000 77 demo_cfg (zeros 64) 8 demo_response
    (empty_message 1 1 1 1) 0x8180 [] [[]; []] demo_host 1 [[10; 0; 0; 1]])
    as (c1 & c2 & c3 & E1 & _ & _ & _ & ED & EL);
    [exact demo_cfg_ok|by_compute|by_compute|by_compute|by_compute|exact demo_response_ok
    |by_compute|by_compute|by_compute|by_compute|by_compute|exact demo_answers_ok|by_compute
    |exact demo_resolves|].
  exists c1, c2, c3. split; [exact E1|]. split; [exact ED|]. exact EL.
Defined.

Lemma dns_client_panics_on_cut_response_witness :
  Demux (with_state CQueryOutstanding (fst (StartResolve zero_client 4000 77 demo_cfg))) (cut_response 77) 0 = Panic.
Proof. apply dns_client_panics_on_cut_response; by_compute. Defined.
End DnsClient.
