(* ===== verification/Mdns.v ===== *)
(** * Multicast DNS ([src/dns/mdns])

    A client is a querier and a responder at once. As a responder it keeps the answers to
    send in a slice whose capacity is fixed when it is configured. *)
From S2P Require Import Prelude Errors Bytes IpAddr DnsName Dns.

Module Mdns.
Import Bytes DnsName Dns.
Open Scope Z_scope.
Open Scope list_scope.

Definition Port : Z := 5353.
Definition DefaultTTL : Z := 120.
Definition classCacheFlush : Z := Z.shiftl 1 15.
Definition mdnsTxID : Z := 0.
Definition mdnsFlags : Z := 0.

Definition IPv4MulticastAddr : list Z := [224; 0; 0; 251].
Definition IPv4MulticastMAC : list Z := [0x01; 0x00; 0x5e; 0x00; 0x00; 0xfb].

Definition MulticastMAC (ip : list Z) : outcome (list Z * bool) :=
  a ← at_ ip 0; b ← at_ ip 1; c ← at_ ip 2; d ← at_ ip 3;
  Ret (if negb (Z.land a 0xf0 =? 0xe0) then (zeros 6, false)
       else ([0x01; 0x00; 0x5e; Z.land b 0x7f; c; d], true)).

(** ** Services *)

Record Service := mkService {
  s_Name : Name;
  s_Host : Name;
  s_TXTData : list Z;
  s_Addr : list Z;
  s_TTL : Z;
  s_Port : Z
}.

Definition ttl (s : Service) : Z := if s_TTL s =? 0 then DefaultTTL else s_TTL s.

(** The error of [VisitLabels] is ignored. *)
Definition serviceType (s : Service) : outcome Name :=
  '(totalLabels, _) ← VisitLabels (s_Name s) (fun n _ => n + 1) 0;
  if totalLabels <=? 3 then Ret (s_Name s) else TrimLabels (s_Name s) 1.

Definition matchQuestion (q : Question) (svc : Service) : outcome bool :=
  if q_Type q =? TypePTR then t ← serviceType svc; Ret (NamesEqual (q_Name q) t)
  else if (q_Type q =? TypeSRV) || (q_Type q =? TypeTXT) then Ret (NamesEqual (q_Name q) (s_Name svc))
  else if q_Type q =? TypeA then Ret (NamesEqual (q_Name q) (s_Host svc))
  else if q_Type q =? TypeALL then
    t ← serviceType svc;
    Ret (NamesEqual (q_Name q) (s_Name svc) || NamesEqual (q_Name q) (s_Host svc) || NamesEqual (q_Name q) t)
  else Ret false.

(** [growSlice] and the method that sets the new element. *)
Definition growSlice {A} (s : vec A) (x : A) : outcome (vec A) :=
  assert_or_panic (zlen (elems s) + 1 <=? vcap s) (Ret (mkVec (elems s ++ [x]) (vcap s))).

Definition setPTR (svc : Service) : outcome Resource :=
  t ← serviceType svc; Ret (SetPTR t ClassINET (ttl svc) (s_Name svc)).

Definition addServiceAnswers (dst : vec Resource) (q : Question) (svc : Service) : outcome (vec Resource) :=
  let cacheFlush := Z.lor ClassINET classCacheFlush in
  let srv := SetSRV (s_Name svc) cacheFlush (ttl svc) 0 0 (s_Port svc) (s_Host svc) in
  let a := SetA (s_Host svc) cacheFlush (ttl svc) (s_Addr svc) in
  let txt := SetTXT (s_Name svc) cacheFlush (ttl svc) (s_TXTData svc) in
  let avail := vcap dst - zlen (elems dst) in
  if q_Type q =? TypePTR then
    if avail <? 1 then Ret dst else ptr ← setPTR svc; growSlice dst ptr
  else if q_Type q =? TypeSRV then
    if avail <? 2 then Ret dst else dst ← growSlice dst srv; growSlice dst a
  else if q_Type q =? TypeTXT then
    if avail <? 1 then Ret dst else growSlice dst txt
  else if q_Type q =? TypeA then
    if avail <? 1 then Ret dst else growSlice dst a
  else if q_Type q =? TypeALL then
    if avail <? 4 then Ret dst
    else
      ptr ← setPTR svc; dst ← growSlice dst ptr; dst ← growSlice dst srv;
      dst ← growSlice dst txt; growSlice dst a
  else Ret dst.

(** ** The client *)

Inductive querierState :=
| querierIdle | querierSendQuery | querierAwaitResponse | querierFailed | querierDone.
#[global] Instance querierState_eq_dec : EqDecision querierState.
Proof. solve_decision. Defined.

Record Client := mkClient {
  connID : Z;
  closed : bool;
  lport : Z;
  ip : list Z;
  qstate : querierState;
  qcode : Z;
  qerr : option error;
  qans : vec Resource;
  qqst : vec Question;
  services : list Service;
  rans : vec Resource;
  rqst : vec Question
}.
Definition zero_client : Client :=
  mkClient 0 false 0 [] querierIdle 0 None (mkVec [] 0) (mkVec [] 0) [] (mkVec [] 0) (mkVec [] 0).

Record ClientConfig := mkClientConfig {
  cc_LocalPort : Z; cc_Services : list Service; cc_MulticastAddr : list Z }.

(** [rqst] is not kept. *)
Definition reset (c : Client) (localport : Z) : Client :=
  mkClient (u64 (connID c + 1)) false localport [] querierIdle 0 None
    (trunc (qans c)) (trunc (qqst c)) [] (trunc (rans c)) (mkVec [] 0).

Definition Configure (c : Client) (cfg : ClientConfig) : Client * option error :=
  if cc_LocalPort cfg =? 0 then (c, Some ErrZeroSource)
  else
    let c := reset c (cc_LocalPort cfg) in
    let nrans := 2 * zlen (cc_Services cfg) in
    let nrans := if 0 <? nrans then Z.max 4 nrans else nrans in
    (mkClient (connID c) (closed c) (lport c) (cc_MulticastAddr cfg) (qstate c) (qcode c) (qerr c)
       (qans c) (qqst c) (cc_Services cfg) (SliceReuse (rans c) nrans)
       (SliceReuse (rqst c) (zlen (cc_Services cfg))), None).

Definition Protocol : Z := 17.
Definition LocalPort (c : Client) : Z := lport c.
Definition ConnectionID (c : Client) : Z := connID c.

Definition with_query (s : querierState) (err : option error) (c : Client) : Client :=
  mkClient (connID c) (closed c) (lport c) (ip c) s (qcode c) err (qans c) (qqst c) (services c)
    (rans c) (rqst c).
Definition with_rans (v : vec Resource) (c : Client) : Client :=
  mkClient (connID c) (closed c) (lport c) (ip c) (qstate c) (qcode c) (qerr c) (qans c) (qqst c)
    (services c) v (rqst c).

(** The questions and the number of answers to accept. *)
Definition StartResolve (c : Client) (questions : list Question) (maxResponseAnswers : Z)
    : Client * option error :=
  let nq := zlen questions in
  if (MaxUint16 <? nq) || (nq =? 0) || (maxResponseAnswers =? 0) then (c, Some ErrInvalidConfig)
  else
    (mkClient (connID c) (closed c) (lport c) (ip c) querierSendQuery (qcode c) (qerr c)
       (SliceReuse (qans c) maxResponseAnswers) (mkVec questions (vcap (SliceReuse (qqst c) nq)))
       (services c) (rans c) (rqst c), None).

Definition no_resources : vec Resource := mkVec [] 0.

Section Send.
Context {RT : GoRuntime}.

(** The client, the frame, the length, the error. *)
Definition encapsQuery (c : Client) (frame : list Z) : outcome (Client * list Z * Z * option error) :=
  let m := mkMessage (qqst c) no_resources no_resources no_resources in
  msglen ← Len m;
  if zlen frame <? msglen
  then Ret (with_query querierFailed (Some ErrShortBuffer) c, frame, 0, Some ErrShortBuffer)
  else
    '(data, err) ← Message_AppendTo m (mkBuf frame 0 None) mdnsTxID mdnsFlags;
    match err with
    | Some e => Ret (with_query querierFailed (Some e) c, origin data, 0, Some e)
    | None =>
        assert_or_panic (b_len data =? msglen)
          (Ret (with_query querierAwaitResponse (qerr c) c, origin data, b_len data, None))
    end.

Definition encapsResponse (c : Client) (frame : list Z) : outcome (Client * list Z * Z * option error) :=
  let m := mkMessage (mkVec [] 0) (rans c) no_resources no_resources in
  msglen ← Len m;
  if zlen frame <? msglen then Ret (c, frame, 0, Some ErrShortBuffer)
  else
    let flags := Z.lor (Z.shiftl 1 15) (Z.shiftl 1 10) in
    '(data, err) ← Message_AppendTo m (mkBuf frame 0 None) 0 flags;
    match err with
    | Some e => Ret (c, origin data, 0, Some e)
    | None => Ret (with_rans (trunc (rans c)) c, origin data, b_len data, None)
    end.

Definition Encapsulate (c : Client) (carrierData : list Z) (offsetToIP offsetToFrame : Z)
    : outcome (Client * list Z * Z * option error) :=
  if closed c then Ret (c, carrierData, 0, Some NetErrClosed)
  else
    '(c, carrierData, n, err) ←
      (if 0 <? zlen (elems (rans c)) then
         assert_or_panic (slice_ok carrierData offsetToFrame (zlen carrierData))
           ('(c, frame, n, err) ← encapsResponse c (zdrop offsetToFrame carrierData);
            Ret (c, ztake offsetToFrame carrierData ++ frame, n, err))
       else if bool_decide (qstate c = querierSendQuery) then
         assert_or_panic (slice_ok carrierData offsetToFrame (zlen carrierData))
           ('(c, frame, n, err) ← encapsQuery c (zdrop offsetToFrame carrierData);
            Ret (c, ztake offsetToFrame carrierData ++ frame, n, err))
       else Ret (c, carrierData, 0, None));
    if (0 <? n) && (0 <=? offsetToIP) then
      '(carrierData, _) ← IpAddr.SetMulticast carrierData offsetToIP (ip c);
      Ret (c, carrierData, n, err)
    else Ret (c, carrierData, n, err).
End Send.

(** The first service that matches answers a question. *)
Fixpoint answer_question (q : Question) (svcs : list Service) (dst : vec Resource) : outcome (vec Resource) :=
  match svcs with
  | [] => Ret dst
  | svc :: svcs =>
      hit ← matchQuestion q svc;
      if (hit : bool) then addServiceAnswers dst q svc else answer_question q svcs dst
  end.
Fixpoint answer_questions (qs : list Question) (svcs : list Service) (dst : vec Resource) : outcome (vec Resource) :=
  match qs with
  | [] => Ret dst
  | q :: qs => dst ← answer_question q svcs dst; answer_questions qs svcs dst
  end.

Definition Demux (c : Client) (carrierData : list Z) (frameOffset : Z) : outcome (Client * option error) :=
  if closed c then Ret (c, Some NetErrClosed)
  else
  assert_or_panic (slice_ok carrierData frameOffset (zlen carrierData))
    (let frame := zdrop frameOffset carrierData in
     match NewFrame frame with
     | (_, Some e) => Ret (c, Some e)
     | (f, None) =>
         id ← TxID f;
         if negb (id =? 0) then Ret (c, Some ErrPacketDrop)
         else
         flags ← Flags f;
         let isresponse := IsResponse flags in
         if isresponse && bool_decide (qstate c = querierAwaitResponse) then
           '(t, _, _, err) ← DecodeMessage (mkTargets None (Some (qans c)) None None) frame;
           let s := match err with Some _ => querierFailed | None => querierDone end in
           Ret (mkClient (connID c) (closed c) (lport c) (ip c) s (ResponseCode flags) err
                  (default (qans c) (t_ans t)) (qqst c) (services c) (rans c) (rqst c), err)
         else
           let freeAns := vcap (rans c) - zlen (elems (rans c)) in
           if negb isresponse && (0 <? zlen (services c)) && (0 <? freeAns) then
             qd ← QDCount f;
             let query := LimitResourceDecoding
               (mkMessage (mkVec [] 0) no_resources no_resources no_resources) qd 0 0 0 in
             '(query, _, incomplete, err) ← Decode query frame;
             match err, incomplete with
             | Some e, false => Ret (c, Some e)
             | _, _ =>
                 v ← answer_questions (elems (Questions query)) (services c) (rans c);
                 Ret (with_rans v c, None)
             end
           else Ret (c, None)
     end).

Definition Abort (c : Client) : Client :=
  mkClient (connID c) true (lport c) (ip c) (qstate c) (qcode c) (qerr c) (qans c) (qqst c)
    (services c) (rans c) (rqst c).

(** The destination, the number of answers, [done], the error. *)
Definition AnswersCopyTo (c : Client) (dst : list Resource) : list Resource * Z * bool * option error :=
  if zlen dst =? 0 then (dst, 0, false, Some ErrShortBuffer)
  else
    match qstate c with
    | querierIdle => (dst, 0, false, Some NetErrClosed)
    | querierFailed => (dst, 0, false, qerr c)
    | querierDone =>
        let n := Z.min (zlen dst) (zlen (elems (qans c))) in
        (ztake n (elems (qans c)) ++ zdrop n dst, n, true,
         if negb (qcode c =? 0) then Some (RCodeError (qcode c)) else None)
    | _ => (dst, 0, false, None)
    end.

End Mdns.
