(* ===== verification/MdnsThms.v ===== *)
(** * Multicast DNS: theorems

    A querier and a responder find each other ([mdns_service_discovered]). *)
From S2P Require Import Prelude Errors Bytes IpAddr DnsName DnsNameThms Dns DnsProps DnsThms Mdns.

Module MdnsThms.
Import Bytes DnsName DnsNameProps DnsNameThms Dns DnsProps DnsThms Mdns.
Open Scope Z_scope.
Open Scope list_scope.

(** ** Services *)

Definition service_ok (svc : Service) : Prop :=
  name_ok (s_Name svc) /\ zlen (s_Name svc) <= 255 /\ name_ok (s_Host svc) /\
  is_bytes (s_TXTData svc) /\ is_bytes (s_Addr svc) /\ is_u32 (s_TTL svc) /\ is_u16 (s_Port svc).

Lemma TrimLabels_one l ls : label_ok l -> TrimLabels (name_bytes (l :: ls)) 1 = Ret (name_bytes ls).
Proof.
  intros (_ & Hl & _). assert (name_bytes (l :: ls) = (zlen l :: l) ++ name_bytes ls) as ->.
  { unfold name_bytes. by rewrite labels_bytes_cons, <- app_comm_cons, <- app_assoc. }
  unfold TrimLabels. change (Z.to_nat 1) with 1%nat. cbn [TrimLabels_from].
  pose proof (zlen_nonneg (name_bytes ls)).
  assert (zlen ((zlen l :: l) ++ name_bytes ls) = 1 + zlen l + zlen (name_bytes ls)) as E.
  { rewrite zlen_app, zlen_cons. lia. }
  rewrite E. assert ((1 + zlen l + zlen (name_bytes ls) <=? 0) = false) as -> by lia.
  cbn [at_ mbind outcome_bind]. unfold at_. cbn [app]. change (zget (zlen l :: _) 0) with (Some (zlen l)).
  cbn [mbind outcome_bind]. unfold assert_or_panic, slice_ok. rewrite app_comm_cons, E.
  match goal with |- context [if ?b then _ else Panic] => replace b with true by lia end.
  f_equal. apply zdrop_app_exact. rewrite zlen_cons. lia.
Qed.

Lemma serviceType_ok svc :
  service_ok svc -> exists t, serviceType svc = Ret t /\ name_ok t.
Proof.
  intros ((ls & Hls & En) & Hlen & _). unfold serviceType, VisitLabels, allowCompression. rewrite En in *.
  assert ((255 <? zlen (name_bytes ls)) = false) as -> by lia.
  pose proof (wire_name_bytes false [] ls [] Hls) as Hw. rewrite app_nil_r in Hw.
  rewrite (visitAllLabels_complete _ _ (name_bytes_ok ls Hls) ltac:(lia) _ _ _ _ _ _ Hw);
    [|split; [done|apply zlen_nonneg]|lia].
  cbn [mbind outcome_bind].
  assert (forall n, foldl (fun n _ => n + 1) n ls = n + zlen ls) as ->.
  { clear. induction ls as [|l ls IH]; intros n; [by rewrite zlen_nil, Z.add_0_r|].
    cbn [foldl]. rewrite IH, zlen_cons. lia. }
  destruct (Z.leb_spec (0 + zlen ls) 3); [by exists (name_bytes ls); split; [|exists ls]|].
  destruct Hls as [|l ls Hl Hls]; [by rewrite zlen_nil in *|].
  exists (name_bytes ls). split; [by apply TrimLabels_one|by exists ls].
Qed.

(** The records a service answers a question with, given its type. *)
Definition flush : Z := Z.lor ClassINET classCacheFlush.
Definition rec_ptr (t : Name) (svc : Service) : Resource := SetPTR t ClassINET (ttl svc) (s_Name svc).
Definition rec_srv (svc : Service) : Resource :=
  SetSRV (s_Name svc) flush (ttl svc) 0 0 (s_Port svc) (s_Host svc).
Definition rec_txt (svc : Service) : Resource := SetTXT (s_Name svc) flush (ttl svc) (s_TXTData svc).
Definition rec_a (svc : Service) : Resource := SetA (s_Host svc) flush (ttl svc) (s_Addr svc).

Definition records (q : Question) (t : Name) (svc : Service) : list Resource :=
  if q_Type q =? TypePTR then [rec_ptr t svc]
  else if q_Type q =? TypeSRV then [rec_srv svc; rec_a svc]
  else if q_Type q =? TypeTXT then [rec_txt svc]
  else if q_Type q =? TypeA then [rec_a svc]
  else if q_Type q =? TypeALL then [rec_ptr t svc; rec_srv svc; rec_txt svc; rec_a svc]
  else [].

Lemma growSlice_ok {A} (v : vec A) x :
  zlen (elems v) + 1 <= vcap v -> growSlice v x = Ret (mkVec (elems v ++ [x]) (vcap v)).
Proof. intros. unfold growSlice, assert_or_panic. by assert ((_ <=? _) = true) as -> by (by apply Z.leb_le). Qed.

(** The answers are added all or not at all, within the capacity. *)
Lemma addServiceAnswers_ok v q svc t :
  serviceType svc = Ret t -> zlen (elems v) <= vcap v ->
  addServiceAnswers v q svc = Ret
    (if decide (zlen (elems v) + zlen (records q t svc) <= vcap v)
     then mkVec (elems v ++ records q t svc) (vcap v) else v).
Proof.
  intros Ht Hv. unfold addServiceAnswers, setPTR, records. rewrite Ht. cbn [mbind outcome_bind].
  fold flush. fold (rec_ptr t svc) (rec_srv svc) (rec_txt svc) (rec_a svc).
  repeat match goal with |- context [if q_Type q =? ?x then _ else _] => destruct (q_Type q =? x) end.
  all: rewrite ?zlen_cons, ?zlen_nil; repeat case_decide; bool_cases; try lia; try done.
  all: repeat (rewrite growSlice_ok by (cbn [elems vcap]; rewrite ?zlen_app, ?zlen_cons, ?zlen_nil; lia);
       cbn [mbind outcome_bind elems vcap]); rewrite <- ?app_assoc; try done.
  all: by rewrite app_nil_r; destruct v.
Qed.

Lemma NewResource_ok name typ class ttl data :
  name_ok name -> is_u16 typ -> is_u16 class -> is_u32 ttl -> is_bytes data -> zlen data <= 65535 ->
  typ <> TypeCNAME -> resource_ok (NewResource name typ class ttl data).
Proof.
  intros. pose proof (zlen_nonneg data). unfold resource_ok, NewResource.
  cbn [r_header r_data rh_Name rh_Type rh_Class rh_TTL rh_Length].
  split_and!; try done. by apply u16_small; wrap_lia.
Qed.
(** The data of the records fit their length field. *)
Definition small (svc : Service) : Prop :=
  zlen (s_Name svc) <= 65000 /\ zlen (s_Host svc) <= 65000 /\ zlen (s_TXTData svc) <= 65000 /\
  zlen (s_Addr svc) <= 65000.

#[global] Instance small_dec svc : Decision (small svc).
Proof. unfold small. apply _. Defined.

Lemma records_ok q t svc : service_ok svc -> small svc -> name_ok t -> Forall resource_ok (records q t svc).
Proof.
  intros (Hn & _ & Hh & Htx & Had & Httl & Hp) (Ln & Lh & Lt & La) Ht.
  assert (is_u32 (ttl svc)) by (unfold ttl, DefaultTTL; bool_cases; done).
  assert (is_u16 flush) by by_compute.
  assert (resource_ok (rec_ptr t svc)) as HP
    by (apply NewResource_ok; try done; [by apply name_ok_bytes|lia]).
  assert (resource_ok (rec_srv svc)) as HS.
  { apply NewResource_ok; try done; [|autorewrite with zlen; lia].
    auto 10 using is_bytes_app, is_bytes_16, name_ok_bytes. }
  assert (resource_ok (rec_txt svc)) as HT.
  { apply NewResource_ok; try done; bool_cases; try done; try lia; by_compute. }
  assert (resource_ok (rec_a svc)) as HA by (apply NewResource_ok; try done; lia).
  unfold records. repeat match goal with |- context [if ?b then _ else _] => destruct b end;
    repeat apply Forall_cons_2; try done; by apply Forall_nil_2.
Qed.

(** ** The exchange *)

Definition query_msg (q : Question) : Message :=
  mkMessage (mkVec [q] 0) no_resources no_resources no_resources.
Definition response_msg (rs : list Resource) : Message :=
  mkMessage (mkVec [] 0) (mkVec rs 0) no_resources no_resources.
Definition response_flags : Z := Z.lor (Z.shiftl 1 15) (Z.shiftl 1 10).

Lemma message_bytes_elems m m' tx fl :
  elems (Questions m) = elems (Questions m') -> elems (Answers m) = elems (Answers m') ->
  elems (Authorities m) = elems (Authorities m') -> elems (Additionals m) = elems (Additionals m') ->
  message_bytes m tx fl = message_bytes m' tx fl.
Proof.
  intros EQ EA EN ER. unfold message_bytes, fixed_bytes, sections_bytes, count. by rewrite EQ, EA, EN, ER.
Qed.

Section Exchange.
Context {RT : GoRuntime}.

Lemma Message_AppendTo_frame m frame tx fl :
  message_ok m -> zlen (message_bytes m tx fl) <= zlen frame -> zlen (message_bytes m tx fl) <= 65535 ->
  Message_AppendTo m (mkBuf frame 0 None) tx fl
    = Ret (mkBuf (put frame 0 (message_bytes m tx fl)) (zlen (message_bytes m tx fl)) None, None).
Proof.
  intros Hm Hf Hl. pose proof (zlen_nonneg frame). pose proof (zlen_nonneg (message_bytes m tx fl)) as Hp.
  assert (buf_ok (mkBuf frame 0 None)) as Hb by (unfold buf_ok, bcap; cbn [b_len b_mem]; lia).
  rewrite Message_AppendTo_emit by done. destruct (Grow_ok _ _ Hb Hp) as (_ & _ & _ & Hg).
  rewrite Hg by (unfold room, bcap; cbn [b_len b_mem]; lia). done.
Qed.

Lemma encapsQuery_ok c frame q :
  elems (qqst c) = [q] -> question_ok q -> let m := message_bytes (query_msg q) 0 0 in
  zlen m <= zlen frame -> zlen m <= 65535 ->
  encapsQuery c frame = Ret (with_query querierAwaitResponse (qerr c) c, put frame 0 m, zlen m, None).
Proof.
  intros Hq Hok m Hf Hl. unfold encapsQuery.
  set (mm := mkMessage (qqst c) no_resources no_resources no_resources).
  assert (message_bytes mm mdnsTxID mdnsFlags = m) as Em by (by apply message_bytes_elems).
  assert (message_ok mm) as Hm.
  { split_and!; unfold vec_ok; cbn [mm Questions Answers Authorities Additionals no_resources elems];
    try apply Forall_nil_2. rewrite Hq. by apply Forall_singleton. }
  rewrite (Len_ok mm mdnsTxID mdnsFlags), Message_AppendTo_frame by (rewrite ?Em; done). rewrite Em.
  cbn [mbind outcome_bind]. assert ((zlen frame <? zlen m) = false) as -> by lia.
  cbn [b_len]. unfold assert_or_panic. by rewrite Z.eqb_refl.
Qed.
Lemma encapsResponse_ok c frame rs :
  elems (rans c) = rs -> Forall resource_ok rs -> let m := message_bytes (response_msg rs) 0 response_flags in
  zlen m <= zlen frame -> zlen m <= 65535 ->
  encapsResponse c frame = Ret (with_rans (trunc (rans c)) c, put frame 0 m, zlen m, None).
Proof.
  intros Hq Hok m Hf Hl. unfold encapsResponse.
  set (mm := mkMessage (mkVec [] 0) (rans c) no_resources no_resources). fold response_flags.
  assert (message_bytes mm 0 response_flags = m) as Em by (by apply message_bytes_elems).
  assert (message_ok mm) as Hm.
  { split_and!; unfold vec_ok; cbn [mm Questions Answers Authorities Additionals no_resources elems];
    try apply Forall_nil_2. by rewrite Hq. }
  rewrite (Len_ok mm 0 response_flags), Message_AppendTo_frame by (rewrite ?Em; done). rewrite Em.
  cbn [mbind outcome_bind]. by assert ((zlen frame <? zlen m) = false) as -> by lia.
Qed.

(** Writing the multicast addresses leaves what follows the headers. *)
Lemma zdrop_put (b : list Z) i vs k : 0 <= i -> i + zlen vs <= k -> k <= zlen b -> zdrop k (put b i vs) = zdrop k b.
Proof.
  intros. pose proof (zlen_nonneg vs). apply zlist_eq; [rewrite !zlen_zdrop; rewrite ?zlen_put; lia|].
  intros j Hj. rewrite zlen_zdrop in Hj by (rewrite zlen_put; lia). rewrite zlen_put in Hj by lia.
  rewrite !zget_zdrop, zget_put_out by lia. done.
Qed.

(** A carrier with room for [n] octets from [off] on, after headers that hold the
    addresses; without an IP header when [offIP] is negative. *)
Definition carrier_ok (carrier : list Z) (offIP off n : Z) : Prop :=
  0 <= off /\ off + n <= zlen carrier /\
  (0 <= offIP -> 6 <= off /\ offIP + IpAddr.hdr_min (IpAddr.ipver (zdrop offIP carrier)) <= off).

#[global] Instance carrier_ok_dec carrier offIP off n : Decision (carrier_ok carrier offIP off n).
Proof. unfold carrier_ok. apply _. Defined.

Lemma SetMulticast_tail carrier offIP off n maddr :
  0 <= offIP -> 0 <= n -> carrier_ok carrier offIP off n ->
  exists carrier' err, IpAddr.SetMulticast carrier offIP maddr = Ret (carrier', err) /\
    zdrop off carrier' = zdrop off carrier /\ zlen carrier' = zlen carrier.
Proof.
  intros Hi Hn (Ho & Hl & Hh). specialize (Hh Hi) as [H6 Hh].
  assert (20 <= IpAddr.hdr_min (IpAddr.ipver (zdrop offIP carrier))).
  { unfold IpAddr.hdr_min, IpAddr.dst_off, IpAddr.addr_len. bool_cases; lia. }
  unfold IpAddr.SetMulticast, assert_or_panic.
  assert (slice_ok carrier offIP (zlen carrier) = true) as -> by (unfold slice_ok; lia).
  assert (slice_ok carrier 0 6 = true) as -> by (unfold slice_ok; lia).
  destruct (at_ok (zdrop offIP carrier) 0) as (b0 & E0 & ->); [rewrite zlen_zdrop; lia|].
  unfold IpAddr.ipver in Hh. rewrite E0 in Hh. cbn [mbind outcome_bind default] in *.
  unfold IpAddr.hdr_min, IpAddr.dst_off, IpAddr.addr_len, Datatypes.id in *.
  destruct (Z.eqb_spec (Z.shiftr b0 4) 4); [|destruct (Z.eqb_spec (Z.shiftr b0 4) 6); [|by eexists _, _]].
  all: destruct (negb _) eqn:El; [by eexists _, _|]; apply negb_false_iff, Z.eqb_eq in El.
  all: rewrite put_checked_ok by lia; cbn [mbind outcome_bind].
  all: match goal with |- context [put_checked (put ?c ?i ?v) 0 ?vs] =>
         assert (zlen vs = 6) by done; assert (zlen (put c i v) = zlen c) by (apply zlen_put; lia) end.
  all: rewrite put_checked_ok by lia; cbn [mbind outcome_bind]; eexists _, _; (split; [done|]).
  all: rewrite !zdrop_put, !zlen_put by lia; done.
Qed.

Lemma payload_put carrier off m : 0 <= off -> off + zlen m <= zlen carrier ->
  ztake off carrier ++ put (zdrop off carrier) 0 m = put carrier off m.
Proof.
  intros. unfold put. rewrite (ztake_nonpos 0) by lia. cbn [app]. do 2 f_equal.
  unfold zdrop. rewrite drop_drop. f_equal. pose proof (zlen_nonneg m). lia.
Qed.
Lemma slice_put carrier off m : 0 <= off -> off + zlen m <= zlen carrier ->
  slice (put carrier off m) off (off + zlen m) = m.
Proof.
  intros. unfold put. pose proof (zlen_nonneg m).
  pose proof (slice_mid (ztake off carrier) m (zdrop (off + zlen m) carrier)) as E.
  by rewrite zlen_ztake in E by lia.
Qed.
Lemma slice_tail (b c : list Z) off n :
  zdrop off b = zdrop off c -> 0 <= off -> slice b off (off + n) = slice c off (off + n).
Proof. intros E ?. unfold slice. by rewrite E. Qed.

(** [Encapsulate] is the part that has something to send, its octets at the frame's offset. *)
Lemma Encapsulate_sends c c' carrier offIP off m :
  closed c = false -> carrier_ok carrier offIP off (zlen m) -> ip c' = ip c ->
  (if 0 <? zlen (elems (rans c)) then encapsResponse c (zdrop off carrier)
   else if bool_decide (qstate c = querierSendQuery) then encapsQuery c (zdrop off carrier)
   else Panic) = Ret (c', put (zdrop off carrier) 0 m, zlen m, None) ->
  exists carrier', Encapsulate c carrier offIP off = Ret (c', carrier', zlen m, None) /\
    slice carrier' off (off + zlen m) = m.
Proof.
  intros Hc Hca Hip HE. pose proof Hca as (Ho & Hl & _). pose proof (zlen_nonneg m).
  unfold Encapsulate, assert_or_panic. rewrite Hc.
  assert (slice_ok carrier off (zlen carrier) = true) as -> by (unfold slice_ok; lia).
  set (step := if 0 <? zlen (elems (rans c)) then _ else _).
  assert (step = Ret (c', put carrier off m, zlen m, None)) as ->.
  { subst step. destruct (0 <? zlen (elems (rans c))); [|destruct (bool_decide _); [|done]];
      rewrite HE; cbn [mbind outcome_bind]; by rewrite payload_put by done. }
  cbn [mbind outcome_bind]. destruct ((0 <? zlen m) && (0 <=? offIP)) eqn:E.
  - destruct (SetMulticast_tail (put carrier off m) offIP off (zlen m) (ip c')) as (ca & err & -> & Ed & El).
    { lia. } { lia. }
    { split_and!; [lia|rewrite zlen_put by lia; lia|]. intros Hi. destruct Hca as (_ & _ & Hh).
      specialize (Hh Hi) as [? Hh]. split; [done|]. unfold IpAddr.ipver in *.
      rewrite zget_zdrop in * by lia.
      assert (20 <= IpAddr.hdr_min (Z.shiftr (default 0 (zget carrier (offIP + 0))) 4)).
      { unfold IpAddr.hdr_min, IpAddr.dst_off, IpAddr.addr_len. bool_cases; lia. }
      rewrite zget_put_out by lia. done. }
    cbn [mbind outcome_bind]. exists ca. split; [done|]. rewrite (slice_tail ca (put carrier off m)) by done.
    by apply slice_put.
  - exists (put carrier off m). split; [done|]. by apply slice_put.
Qed.

Lemma matched_records q svc t : matchQuestion q svc = Ret true -> 0 < zlen (records q t svc).
Proof.
  unfold matchQuestion, records. intros H.
  repeat match goal with |- context [if q_Type q =? ?x then _ else _] => destruct (q_Type q =? x) eqn:? end;
    try reflexivity. cbn [orb] in H. discriminate H.
Qed.

(** Opens [Demux] on a received message. *)
Lemma Demux_open c pre m tx fl :
  closed c = false -> is_u16 tx -> is_u16 fl ->
  Demux c (pre ++ message_bytes m tx fl) (zlen pre) = 
  (let frame := message_bytes m tx fl in
   if negb (tx =? 0) then Ret (c, Some ErrPacketDrop)
   else if IsResponse fl && bool_decide (qstate c = querierAwaitResponse) then
     '(t, _, _, err) ← DecodeMessage (mkTargets None (Some (qans c)) None None) frame;
     let s := match err with Some _ => querierFailed | None => querierDone end in
     Ret (mkClient (connID c) (closed c) (lport c) (ip c) s (ResponseCode fl) err
            (default (qans c) (t_ans t)) (qqst c) (services c) (rans c) (rqst c), err)
   else if negb (IsResponse fl) && (0 <? zlen (services c)) && (0 <? vcap (rans c) - zlen (elems (rans c))) then
     '(query, _, incomplete, err) ← Decode (LimitResourceDecoding
        (mkMessage (mkVec [] 0) no_resources no_resources no_resources) (u16 (count (Questions m))) 0 0 0) frame;
     match err, incomplete with
     | Some e, false => Ret (c, Some e)
     | _, _ => v ← answer_questions (elems (Questions query)) (services c) (rans c); Ret (with_rans v c, None)
     end
   else Ret (c, None)).
Proof.
  intros Hc Ht Hf. unfold Demux, assert_or_panic, slice_ok. rewrite Hc, zlen_app.
  pose proof (zlen_nonneg pre). pose proof (zlen_nonneg (message_bytes m tx fl)).
  match goal with |- context [if ?b then _ else Panic] => replace b with true by lia end.
  rewrite zdrop_app_exact by done.
  destruct (header_reads m tx fl Ht Hf) as (-> & -> & -> & -> & _). done.
Qed.

Lemma Demux_query c pre q svc t :
  closed c = false -> services c = [svc] -> elems (rans c) = [] ->
  question_ok q -> serviceType svc = Ret t -> matchQuestion q svc = Ret true ->
  zlen (records q t svc) <= vcap (rans c) -> zlen (message_bytes (query_msg q) 0 0) <= 65535 ->
  Demux c (pre ++ message_bytes (query_msg q) 0 0) (zlen pre)
    = Ret (with_rans (mkVec (records q t svc) (vcap (rans c))) c, None).
Proof.
  intros Hc Hs Hr Hq Ht Hm Hcap Hl. rewrite Demux_open by (done || by_compute).
  change (0 =? 0) with true. change (IsResponse 0) with false. cbn [negb andb]. cbv zeta.
  pose proof (matched_records q svc t Hm). rewrite Hs, Hr.
  change (zlen [svc]) with 1. change (zlen (@nil Resource)) with 0. rewrite Z.sub_0_r.
  assert ((0 <? vcap (rans c)) = true) as -> by lia. change (0 <? 1) with true. cbn [andb].
  change (u16 (count (Questions (query_msg q)))) with 1.
  rewrite Decode_message_bytes; [cbn [mbind outcome_bind]| |by_compute|by_compute|by_compute|done].
  2: { split_and!; unfold vec_ok; cbn; try apply Forall_nil_2. by apply Forall_singleton. }
  cbn [refill query_msg elems Questions answer_questions answer_question]. rewrite Hm. cbn [mbind outcome_bind].
  rewrite (addServiceAnswers_ok _ _ _ t Ht) by (rewrite Hr, zlen_nil; lia).
  rewrite Hr, zlen_nil, Z.add_0_l, decide_True by done. done.
Qed.
Lemma Demux_answers c pre rs :
  closed c = false -> qstate c = querierAwaitResponse -> Forall resource_ok rs ->
  zlen rs <= vcap (qans c) <= 65535 -> zlen (message_bytes (response_msg rs) 0 response_flags) <= 65535 ->
  Demux c (pre ++ message_bytes (response_msg rs) 0 response_flags) (zlen pre)
    = Ret (mkClient (connID c) (closed c) (lport c) (ip c) querierDone 0 None
             (mkVec rs (vcap (qans c))) (qqst c) (services c) (rans c) (rqst c), None).
Proof.
  intros Hc Hs Hok Hcap Hl. rewrite Demux_open by (done || by_compute).
  change (0 =? 0) with true. change (IsResponse response_flags) with true.
  rewrite bool_decide_eq_true_2 by done. cbn [negb andb].
  assert (message_ok (response_msg rs)) as Hm by (split_and!; unfold vec_ok; cbn; try apply Forall_nil_2; done).
  destruct (header_reads (response_msg rs) 0 response_flags) as (EN & _ & _ & EQ & EA & ENS & ER); [by_compute..|].
  destruct (sizes_bound _ _ _ Hm Hl) as (_ & SA & _). pose proof (message_bytes_ok _ 0 response_flags Hm) as Hb.
  rewrite u16_small in EA by done. unfold DecodeMessage. rewrite EN, EQ, EA, ENS, ER.
  cbn [mbind outcome_bind]. change (u16 (count (Questions (response_msg rs)))) with 0.
  change (u16 (count (Authorities (response_msg rs)))) with 0.
  change (u16 (count (Additionals (response_msg rs)))) with 0.
  unfold tooManyErr, caporzero. cbn [t_q t_ans t_auth t_add]. change (0 <? 0) with false.
  change (count (Answers (response_msg rs))) with (zlen rs).
  assert ((vcap (qans c) <? zlen rs) = false) as -> by lia.
  unfold decode_questions. cbn [mbind outcome_bind]. change (Z.to_nat (0 - 0)) with 0%nat.
  cbn [skip_n mbind outcome_bind t_q t_ans t_auth t_add].
  rewrite (decodeToCapResources_fit _ (fixed_bytes (response_msg rs) 0 response_flags) rs []);
    [|by unfold message_bytes, sections_bytes; cbn; rewrite !app_nil_r|done..].
  done.
Qed.

(** C30: a querier finds a service. Its query for a name and type the service matches,
    received by a responder that offers the service, makes the responder's next packet
    the records of the service for that type; received by the querier they are what it
    hands to the application. The packets travel behind whatever headers, and carry the
    multicast addresses when there is an IP header. *)
Theorem mdns_service_discovered a b q svc t maxAns ca cb ia ib oa ob pre pre' dst :
  let rs := records q t svc in
  question_ok q -> service_ok svc -> small svc -> serviceType svc = Ret t ->
  matchQuestion q svc = Ret true ->
  closed a = false -> elems (rans a) = [] -> vcap (qans a) <= 65535 -> zlen rs <= maxAns <= 65535 ->
  closed b = false -> services b = [svc] -> elems (rans b) = [] -> zlen rs <= vcap (rans b) ->
  zlen (message_bytes (query_msg q) 0 0) <= 65535 ->
  zlen (message_bytes (response_msg rs) 0 response_flags) <= 65535 ->
  carrier_ok ca ia oa (zlen (message_bytes (query_msg q) 0 0)) ->
  carrier_ok cb ib ob (zlen (message_bytes (response_msg rs) 0 response_flags)) ->
  zlen rs <= zlen dst ->
  exists a1 a2 a3 b1 b2 ca' cb' n1 n2,
    StartResolve a [q] maxAns = (a1, None) /\
    Encapsulate a1 ca ia oa = Ret (a2, ca', n1, None) /\
    Demux b (pre ++ slice ca' oa (oa + n1)) (zlen pre) = Ret (b1, None) /\
    Encapsulate b1 cb ib ob = Ret (b2, cb', n2, None) /\
    Demux a2 (pre' ++ slice cb' ob (ob + n2)) (zlen pre') = Ret (a3, None) /\
    AnswersCopyTo a3 dst = (rs ++ zdrop (zlen rs) dst, zlen rs, true, None).
Proof.
  intros rs Hq Hsvc Hsmall Ht Hm Ca Ra Qa Hmax Cb Sb Rb Vb L1 L2 Ka Kb Hd.
  pose proof (matched_records q svc t Hm) as Hpos. fold rs in Hpos.
  assert (Forall resource_ok rs) as Hrs.
  { destruct (serviceType_ok svc Hsvc) as (t' & Et & Hn). assert (t' = t) as -> by congruence.
    unfold rs. by apply records_ok. }
  unfold StartResolve. change (zlen [q]) with 1. assert ((maxAns =? 0) = false) as -> by lia.
  change (MaxUint16 <? 1) with false. change (1 =? 0) with false. cbn [orb].
  set (a1 := mkClient _ _ _ _ _ _ _ _ _ _ _ _).
  destruct (Encapsulate_sends a1 (with_query querierAwaitResponse (qerr a1) a1) ca ia oa
    (message_bytes (query_msg q) 0 0)) as (ca' & EA & SA); [done|done|done|..].
  { cbn [a1 rans qstate]. rewrite Ra. change (0 <? zlen []) with false.
    rewrite bool_decide_eq_true_2 by done. destruct Ka as (? & ? & _).
    apply encapsQuery_ok; [done|done|rewrite zlen_zdrop; pose proof (zlen_nonneg (message_bytes (query_msg q) 0 0)); lia|done]. }
  set (a2 := with_query querierAwaitResponse (qerr a1) a1) in *.
  pose proof (Demux_query b pre q svc t Cb Sb Rb Hq Ht Hm Vb L1) as DB.
  set (b1 := with_rans _ b) in DB.
  destruct (Encapsulate_sends b1 (with_rans (trunc (rans b1)) b1) cb ib ob
    (message_bytes (response_msg rs) 0 response_flags)) as (cb' & EB & SB); [done|done|done|..].
  { cbn [b1 rans with_rans elems]. fold rs. assert ((0 <? zlen rs) = true) as -> by lia.
    destruct Kb as (? & ? & _).
    apply encapsResponse_ok; [done|done|rewrite zlen_zdrop;
      pose proof (zlen_nonneg (message_bytes (response_msg rs) 0 response_flags)); lia|done]. }
  eexists a1, a2, _, b1, _, ca', cb', _, _. split_and!; [done|exact EA|rewrite SA; exact DB|exact EB| |].
  - rewrite SB. apply Demux_answers; [done|done|done| |done].
    cbn [a2 a1 with_query qans SliceReuse vcap]. bool_cases; lia.
  - unfold AnswersCopyTo. pose proof (zlen_nonneg dst). assert ((zlen dst =? 0) = false) as -> by lia.
    cbn [qstate qans qcode elems]. rewrite Z.min_r by lia. by rewrite (ztake_ge (zlen rs)) by lia.
Qed.

(** a response with additional records, which responders are expected to send, fails
    the query although its answers were decoded: that the message was usable
    ([incompleteButOK]) is not looked at. *)
Theorem mdns_additionals_fail_query c pre m :
  closed c = false -> qstate c = querierAwaitResponse -> message_ok m ->
  elems (Questions m) = [] -> 0 < count (Additionals m) ->
  count (Answers m) <= vcap (qans c) <= 65535 -> zlen (message_bytes m 0 response_flags) <= 65535 ->
  exists c', Demux c (pre ++ message_bytes m 0 response_flags) (zlen pre) = Ret (c', Some ErrExhausted) /\
    elems (qans c') = elems (Answers m) /\ qstate c' = querierFailed /\
    forall dst, 0 < zlen dst -> AnswersCopyTo c' dst = (dst, 0, false, Some ErrExhausted).
Proof.
  intros Hc Hs Hm HQ HAR Hcap Hl. rewrite Demux_open by (done || by_compute).
  change (0 =? 0) with true. change (IsResponse response_flags) with true.
  rewrite bool_decide_eq_true_2 by done. cbn [negb andb].
  destruct (header_reads m 0 response_flags) as (EN & _ & _ & EQ & EA & ENS & ER); [by_compute..|].
  destruct (sizes_bound _ _ _ Hm Hl) as (_ & SA & SN & SR).
  pose proof (message_bytes_ok _ 0 response_flags Hm) as Hb.
  rewrite u16_small in EA, ENS, ER by done. unfold DecodeMessage. rewrite EN, EQ, EA, ENS, ER.
  cbn [mbind outcome_bind]. assert (count (Questions m) = 0) as -> by (unfold count; by rewrite HQ).
  change (u16 0) with 0. unfold tooManyErr, caporzero. cbn [t_q t_ans t_auth t_add].
  change (0 <? 0) with false. assert ((vcap (qans c) <? count (Answers m)) = false) as -> by lia.
  assert ((0 <? count (Additionals m)) = true) as -> by lia.
  replace (if 0 <? count (Authorities m) then Some ErrExhausted else Some ErrExhausted)
    with (Some ErrExhausted) by (by destruct (_ <? _)).
  unfold decode_questions. cbn [mbind outcome_bind]. change (Z.to_nat (0 - 0)) with 0%nat.
  cbn [skip_n mbind outcome_bind t_q t_ans t_auth t_add]. destruct Hm as (_ & Han & _).
  unfold count in *.
  rewrite (decodeToCapResources_fit _ (fixed_bytes m 0 response_flags) (elems (Answers m))
    (all_bytes resource_bytes (elems (Authorities m)) ++ all_bytes resource_bytes (elems (Additionals m))));
    [|by unfold message_bytes, sections_bytes; rewrite HQ|done..].
  cbn [mbind outcome_bind t_q t_ans t_auth t_add]. unfold decodeToCapResources. rewrite !Z.sub_diag.
  cbn [mbind outcome_bind t_q t_ans t_auth t_add skip_n Z.to_nat u16]. 
  change (Z.to_nat (u16 0)) with 0%nat. cbn [skip_n mbind outcome_bind t_ans].
  eexists. split; [done|]. split_and!; [done|done|]. intros dst Hd. unfold AnswersCopyTo.
  by assert ((zlen dst =? 0) = false) as -> by lia.
Qed.
End Exchange.

(** ** A concrete service *)

Definition label_http : list Z := [95; 104; 116; 116; 112].
Definition label_tcp : list Z := [95; 116; 99; 112].
Definition label_local : list Z := [108; 111; 99; 97; 108].
Definition demo_type : Name := name_bytes [label_http; label_tcp; label_local].
Definition demo_service : Service :=
  mkService (name_bytes [[77; 121]; label_http; label_tcp; label_local])
    (name_bytes [[104]; label_local]) [] [10; 0; 0; 5] 0 80.
Definition demo_question : Question := mkQuestion demo_type TypePTR ClassINET.
Definition demo_responder : Client :=
  fst (Configure zero_client (mkClientConfig Port [demo_service] IPv4MulticastAddr)).
Definition demo_carrier : list Z := zeros 14 ++ [0x45] ++ zeros 141.

Lemma name_ok_intro ls : Forall label_ok ls -> name_ok (name_bytes ls).
Proof. intros. by exists ls. Qed.
Lemma demo_service_ok : service_ok demo_service.
Proof.
  split; [apply name_ok_intro; by_compute|]. split; [by_compute|].
  split; [apply name_ok_intro; by_compute|]. by_compute.
Qed.
Lemma demo_question_ok : question_ok demo_question.
Proof. split; [apply name_ok_intro; by_compute|by_compute]. Qed.

Lemma mdns_service_discovered_witness : exists a2 a3 b1 b2 ca' cb' n1 n2,
  Encapsulate (RT := demo_runtime) (fst (StartResolve zero_client [demo_question] 4)) demo_carrier 14 42
    = Ret (a2, ca', n1, None) /\
  Demux demo_responder (slice ca' 42 (42 + n1)) 0 = Ret (b1, None) /\
  Encapsulate (RT := demo_runtime) b1 demo_carrier 14 42 = Ret (b2, cb', n2, None) /\
  Demux a2 (slice cb' 42 (42 + n2)) 0 = Ret (a3, None) /\
  AnswersCopyTo a3 [zero_resource] = ([rec_ptr demo_type demo_service], 1, true, None).
Proof.
  destruct (mdns_service_discovered (RT := demo_runtime) zero_client demo_responder demo_question demo_service
    demo_type 4 demo_carrier demo_carrier 14 14 42 42 [] [] [zero_resource])
    as (a1 & a2 & a3 & b1 & b2 & ca' & cb' & n1 & n2 & E1 & E2 & E3 & E4 & E5 & E6);
    [exact demo_question_ok|exact demo_service_ok|by_compute|by vm_compute|by vm_compute|done|done|by_compute
    |by_compute|done|done|done|by_compute|by_compute|by_compute|by_compute|by_compute|by_compute|].
  exists a2, a3, b1, b2, ca', cb', n1, n2. rewrite E1.
  split; [exact E2|]. split; [exact E3|]. split; [exact E4|]. split; [exact E5|exact E6].
Defined.

Definition demo_awaiting : Client :=
  with_query querierAwaitResponse None (fst (StartResolve zero_client [demo_question] 4)).
Definition demo_full_response : Message :=
  mkMessage (mkVec [] 0) (mkVec [rec_ptr demo_type demo_service] 1) no_resources
    (mkVec [rec_a demo_service] 1).
Lemma demo_full_response_ok : message_ok demo_full_response.
Proof.
  assert (Forall resource_ok (records (mkQuestion [] TypeALL 0) demo_type demo_service)) as H.
  { apply records_ok; [exact demo_service_ok|by_compute|apply name_ok_intro; by_compute]. }
  assert (resource_ok (rec_ptr demo_type demo_service)) as HP by (rewrite Forall_lookup in H; by apply (H 0%nat)).
  assert (resource_ok (rec_a demo_service)) as HA by (rewrite Forall_lookup in H; by apply (H 3%nat)).
  split_and!; unfold vec_ok; cbn [demo_full_response Questions Answers Authorities Additionals no_resources elems];
    try apply Forall_nil_2; by apply Forall_singleton.
Qed.
Lemma mdns_additionals_fail_query_witness : exists c',
  Demux demo_awaiting (message_bytes demo_full_response 0 response_flags) 0 = Ret (c', Some ErrExhausted) /\
  elems (qans c') = [rec_ptr demo_type demo_service].
Proof.
  destruct (mdns_additionals_fail_query demo_awaiting [] demo_full_response) as (c' & E & EA & _);
    [done|done|exact demo_full_response_ok|done|by_compute|by_compute|by_compute|].
  exists c'. split; [exact E|exact EA].
Defined.
End MdnsThms.
