(* ===== verification/UdpHandler.v ===== *)
(** * UDP sockets ([src/udp/handler.go], [SliceReuse], [SliceReclaim] and
    [SliceDequeueFront] of [src/internal/slices.go])

    Datagrams wait in a ring buffer, their lengths in a slice of
    fixed capacity. Every entry is taken only when there is spare capacity, so
    the slices do not grow.  *)
From S2P Require Import Prelude Errors Bytes Ring Udp.

Module UdpHandler.
Import Bytes Ring.
Open Scope Z_scope.
Open Scope list_scope.

(** A queue of datagrams: the entries and their capacity. *)
Record queue (A : Type) := mkQueue { q_items : list A; q_cap : Z }.
Arguments mkQueue {A} q_items q_cap.
Arguments q_items {A} q.
Arguments q_cap {A} q.

Definition SliceReuse {A} (q : queue A) (n : Z) : queue A :=
  mkQueue [] (if q_cap q <? n then n else q_cap q).
Definition SliceReclaim {A} (q : queue A) (x : A) : queue A :=
  mkQueue (q_items q ++ [x]) (Z.max (q_cap q) (zlen (q_items q) + 1)).
Definition SliceDequeueFront {A} (q : queue A) : outcome (A * queue A) :=
  match q_items q with
  | [] => Panic
  | x :: l => Ret (x, mkQueue l (q_cap q))
  end.
Definition truncated {A} (q : queue A) : queue A := mkQueue [] (q_cap q).
Definition free {A} (q : queue A) : Z := q_cap q - zlen (q_items q).

(** ** The handler of one connection *)

Record Handler := mkHandler {
  connid : Z;
  rxRing : Ring;
  rxDgrams : queue Z;
  txRing : Ring;
  txDgrams : queue Z;
  closeCalled : bool;
  lport : Z;
  rport : Z
}.

Record ConnConfig := mkConnConfig {
  RxBuf : list Z; TxBuf : list Z; RxQueueSize : Z; TxQueueSize : Z }.

Definition Configure (h : Handler) (cfg : ConnConfig) : Handler * option error :=
  if (zlen (RxBuf cfg) <? Udp.sizeHeader) || (zlen (TxBuf cfg) <? Udp.sizeHeader) ||
     (RxQueueSize cfg <=? 0) || (TxQueueSize cfg <=? 0) then (h, Some ErrInvalidConfig)
  else
    (mkHandler (u64 (connid h + 1)) (mkRing (RxBuf cfg) 0 0) (SliceReuse (rxDgrams h) (RxQueueSize cfg))
       (mkRing (TxBuf cfg) 0 0) (SliceReuse (txDgrams h) (TxQueueSize cfg)) false 0 0, None).

Definition SetPorts (h : Handler) (localPort remotePort : Z) : Handler * option error :=
  if localPort =? 0 then (h, Some ErrZeroSource)
  else if remotePort =? 0 then (h, Some ErrZeroDestination)
  else
    (mkHandler (connid h) (rxRing h) (rxDgrams h) (txRing h) (txDgrams h) (closeCalled h)
       localPort remotePort, None).

Definition with_rx (r : Ring) (q : queue Z) (h : Handler) : Handler :=
  mkHandler (connid h) r q (txRing h) (txDgrams h) (closeCalled h) (lport h) (rport h).
Definition with_tx (r : Ring) (q : queue Z) (h : Handler) : Handler :=
  mkHandler (connid h) (rxRing h) (rxDgrams h) r q (closeCalled h) (lport h) (rport h).

Definition Recv (h : Handler) (buf : list Z) : outcome (Handler * option error) :=
  if closeCalled h then Ret (h, Some NetErrClosed)
  else
  match Udp.NewFrame buf with
  | (_, Some e) => Ret (h, Some e)
  | (ufrm, None) =>
      dst ← Udp.DestinationPort ufrm;
      src ← Udp.SourcePort ufrm;
      if negb (dst =? lport h) || negb (src =? rport h) then Ret (h, Some ErrMismatch)
      else
      ul ← Udp.Length ufrm;
      if ul <? Udp.sizeHeader then Ret (h, Some ErrInvalidLengthField)
      else if zlen (Udp.RawData ufrm) <? ul then Ret (h, Some ErrTruncatedFrame)
      else if free (rxDgrams h) =? 0 then Ret (h, Some ErrExhausted)
      else
        payload ← Udp.Payload ufrm;
        '(r, _, err) ← Ring.Write payload (rxRing h);
        match err with
        | Some e => Ret (with_rx r (rxDgrams h) h, Some e)
        | None => Ret (with_rx r (SliceReclaim (rxDgrams h) (u16 (zlen payload))) h, None)
        end
  end.

(** The datagram of [length] octets at the front of [ring], read into [buf] behind the
    header: the ring and the buffer. *)
Definition read_into (ring : Ring) (buf : list Z) (length : Z) : outcome (Ring * list Z) :=
  let hi := u16 (8 + length) in
  assert_or_panic (slice_ok buf 8 hi)
    ('(ring, data, n, err) ← Ring.Read (slice buf 8 hi) ring;
     match err with
     | Some _ => Panic
     | None => assert_or_panic (n =? length) (Ret (ring, put buf 8 data))
     end).
Definition put_header (buf : list Z) (src dst length : Z) : outcome (list Z) :=
  buf ← Udp.SetSourcePort src buf;
  buf ← Udp.SetDestinationPort dst buf;
  Udp.SetLength (u16 (8 + length)) buf.

(** The handler, the buffer, the length, the error. *)
Definition Send (h : Handler) (buf : list Z) : outcome (Handler * list Z * Z * option error) :=
  if closeCalled h then Ret (h, buf, 0, Some NetErrClosed)
  else
  match q_items (txDgrams h) with
  | [] => Ret (h, buf, 0, None)
  | first :: _ =>
      match Udp.NewFrame buf with
      | (_, Some e) => Ret (h, buf, 0, Some e)
      | (_, None) =>
          if zlen buf - 8 <? first then Ret (h, buf, 0, Some ErrShortBuffer)
          else
            '(dgram, q) ← SliceDequeueFront (txDgrams h);
            '(r, buf) ← read_into (txRing h) buf dgram;
            buf ← put_header buf (lport h) (rport h) dgram;
            Ret (with_tx r q h, buf, u16 (8 + dgram), None)
      end
  end.

Definition Write (h : Handler) (b : list Z) : outcome (Handler * Z * option error) :=
  if free (txDgrams h) =? 0 then Ret (h, 0, Some ErrExhausted)
  else
    '(r, _, err) ← Ring.Write b (txRing h);
    match err with
    | Some e => Ret (with_tx r (txDgrams h) h, 0, Some e)
    | None => Ret (with_tx r (SliceReclaim (txDgrams h) (u16 (zlen b))) h, zlen b, None)
    end.

(** The handler, the destination, the count; the error is always nil. *)
Definition ReadNext (h : Handler) (b : list Z) : outcome (Handler * list Z * Z) :=
  match q_items (rxDgrams h) with
  | [] => Ret (h, b, 0)
  | _ =>
      '(dgram, q) ← SliceDequeueFront (rxDgrams h);
      let k := Z.min (zlen b) dgram in
      '(r, data, n, err) ← Ring.Read (ztake k b) (rxRing h);
      match err with
      | Some _ => Panic
      | None =>
          let b' := put b 0 data in
          let discard := dgram - zlen b in
          if 0 <? discard then
            match Ring.ReadDiscard discard r with
            | (_, Some _) => Panic
            | (r, None) => Ret (with_rx r q h, b', n)
            end
          else Ret (with_rx r q h, b', n)
      end
  end.

Definition IsOpen (h : Handler) : bool := negb (closeCalled h) && (0 <? lport h).
Definition Close (h : Handler) : Handler :=
  mkHandler (connid h) (rxRing h) (rxDgrams h) (txRing h) (txDgrams h) true (lport h) (rport h).
Definition Abort (h : Handler) : Handler :=
  mkHandler (u64 (connid h + 1)) (Ring.Reset (rxRing h)) (truncated (rxDgrams h))
    (Ring.Reset (txRing h)) (truncated (txDgrams h)) false 0 0.

Definition BufferedInputNext (h : Handler) : Z := hd 0 (q_items (rxDgrams h)).
Definition BufferedInput (h : Handler) : Z := Ring.Buffered (rxRing h).
Definition BufferedOutput (h : Handler) : Z := Ring.Buffered (txRing h).
Definition SizeInput (h : Handler) : Z := Ring.Size (rxRing h).
Definition SizeOutput (h : Handler) : Z := Ring.Size (txRing h).
Definition FreeOutput (h : Handler) : Z := Ring.Free (txRing h).
Definition FreeInput (h : Handler) : Z := Ring.Free (rxRing h).

End UdpHandler.
