(* ===== verification/UdpMux.v ===== *)
(** * UDP sockets with many peers ([src/udp/mux.go])

    Datagrams wait in a ring buffer, their lengths, ports and addresses in a queue of
    fixed capacity. An address is [None] when it is not valid, else its 4 or 16 bytes. *)
From S2P Require Import Prelude Errors Bytes Ring IpAddr Udp UdpHandler.

Module UdpMux.
Import Bytes Ring UdpHandler.
Open Scope Z_scope.
Open Scope list_scope.

(** [netip.AddrPort] *)
Record AddrPort := mkAddrPort { ap_addr : option (list Z); ap_port : Z }.
Record dgram := mkDgram { d_length : Z; d_lport : Z; d_rport : Z; d_raddr : option (list Z) }.

Record muxHandler := mkMux {
  connid : Z;
  filterLPorts : list (Z * Z);
  rxRing : Ring;
  rxDgrams : queue dgram;
  txRing : Ring;
  txDgrams : queue dgram;
  closeCalled : bool
}.

(** [None] for a nil buffer: the old one is kept. *)
Record MuxConfig := mkMuxConfig {
  m_RxBuf : option (list Z); m_TxBuf : option (list Z); m_RxQueueSize : Z; m_TxQueueSize : Z }.

Definition Abort (mh : muxHandler) : muxHandler :=
  mkMux (u64 (connid mh + 1)) [] (Ring.Reset (rxRing mh)) (truncated (rxDgrams mh))
    (Ring.Reset (txRing mh)) (truncated (txDgrams mh)) false.

Definition Configure (mh : muxHandler) (cfg : MuxConfig) : muxHandler * option error :=
  let rx := default (Buf (rxRing mh)) (m_RxBuf cfg) in
  let tx := default (Buf (txRing mh)) (m_TxBuf cfg) in
  if (zlen rx <? Udp.sizeHeader) || (zlen tx <? Udp.sizeHeader) ||
     (m_RxQueueSize cfg <=? 0) || (m_TxQueueSize cfg <=? 0) then (mh, Some ErrInvalidConfig)
  else
    let mh := Abort mh in
    (mkMux (connid mh) (filterLPorts mh) (mkRing rx 0 0) (SliceReuse (rxDgrams mh) (m_RxQueueSize cfg))
       (mkRing tx 0 0) (SliceReuse (txDgrams mh) (m_TxQueueSize cfg)) (closeCalled mh), None).

Definition with_filter (f : list (Z * Z)) (mh : muxHandler) : muxHandler :=
  mkMux (connid mh) f (rxRing mh) (rxDgrams mh) (txRing mh) (txDgrams mh) (closeCalled mh).
Definition with_rx (r : Ring) (q : queue dgram) (mh : muxHandler) : muxHandler :=
  mkMux (connid mh) (filterLPorts mh) r q (txRing mh) (txDgrams mh) (closeCalled mh).
Definition with_tx (r : Ring) (q : queue dgram) (mh : muxHandler) : muxHandler :=
  mkMux (connid mh) (filterLPorts mh) (rxRing mh) (rxDgrams mh) r q (closeCalled mh).

Definition FilterResetLocalPorts (mh : muxHandler) : muxHandler := with_filter [] mh.
Definition FilterAddLocalPort (mh : muxHandler) (startPort nports : Z) : outcome muxHandler :=
  assert_or_panic (negb (65535 <? startPort + nports))
    (Ret (with_filter (filterLPorts mh ++ [(startPort, nports)]) mh)).

Fixpoint in_ranges (lport : Z) (l : list (Z * Z)) : bool :=
  match l with
  | [] => false
  | (startPort, nports) :: l =>
      if (startPort <=? lport) && (lport <? u16 (startPort + nports)) then true else in_ranges lport l
  end.
Definition FilterLocalPort (mh : muxHandler) (lport : Z) : bool :=
  if in_ranges lport (filterLPorts mh) then false else 0 <? zlen (filterLPorts mh).

Definition AddrFromSlice (b : list Z) : option (list Z) :=
  if (zlen b =? 4) || (zlen b =? 16) then Some b else None.

(** The element that [SliceReclaim] reuses keeps its old address, [stale], when the frame
    is not behind an IP header. *)
Definition Demux (mh : muxHandler) (carrierData : list Z) (frameOffset : Z) (stale : option (list Z))
    : outcome (muxHandler * option error) :=
  if closeCalled mh then Ret (mh, Some NetErrClosed)
  else
  assert_or_panic (slice_ok carrierData frameOffset (zlen carrierData))
  (match Udp.NewFrame (zdrop frameOffset carrierData) with
   | (_, Some e) => Ret (mh, Some e)
   | (ufrm, None) =>
       lport ← Udp.DestinationPort ufrm;
       if FilterLocalPort mh lport then Ret (mh, Some ErrMismatch)
       else
       ul ← Udp.Length ufrm;
       if ul <? Udp.sizeHeader then Ret (mh, Some ErrInvalidLengthField)
       else if zlen (Udp.RawData ufrm) <? ul then Ret (mh, Some ErrTruncatedFrame)
       else if free (rxDgrams mh) =? 0 then Ret (mh, Some ErrExhausted)
       else
         payload ← Udp.Payload ufrm;
         '(r, _, err) ← Ring.Write payload (rxRing mh);
         match err with
         | Some e => Ret (with_rx r (rxDgrams mh) mh, Some e)
         | None =>
             rport ← Udp.SourcePort ufrm;
             raddr ← (if 20 <=? frameOffset then
                        '(addrs, _) ← IpAddr.GetIPAddr carrierData (zlen carrierData);
                        Ret (AddrFromSlice (IpAddr.ip_src addrs))
                      else Ret stale);
             Ret (with_rx r (SliceReclaim (rxDgrams mh)
                    (mkDgram (u16 (zlen payload)) lport rport raddr)) mh, None)
         end
   end).

(** [dgram.raddr.AppendBinary(carrierData[addroffset:addroffset])]: in place while the
    carrier has room, else into a new array. *)
Definition put_raddr (carrierData : list Z) (addroffset : Z) (raddr : list Z) : outcome (list Z) :=
  assert_or_panic (slice_ok carrierData addroffset addroffset)
    (Ret (if addroffset + zlen raddr <=? zlen carrierData then put carrierData addroffset raddr
          else carrierData)).

(** The handler, the carrier, the length, the error. *)
Definition Encapsulate (mh : muxHandler) (carrierData : list Z) (ipOffset frameOffset : Z)
    : outcome (muxHandler * list Z * Z * option error) :=
  if closeCalled mh then Ret (mh, carrierData, 0, Some NetErrClosed)
  else
  match q_items (txDgrams mh) with
  | [] => Ret (mh, carrierData, 0, None)
  | _ =>
      assert_or_panic (slice_ok carrierData frameOffset (zlen carrierData))
      (let buf := zdrop frameOffset carrierData in
       match Udp.NewFrame buf with
       | (_, Some e) => Ret (mh, carrierData, 0, Some e)
       | (_, None) =>
           '(d, q) ← SliceDequeueFront (txDgrams mh);
           if zlen buf - 8 <? d_length d then
             let '(r, _) := Ring.ReadDiscard (d_length d) (txRing mh) in
             Ret (with_tx r q mh, carrierData, 0, Some ErrShortBuffer)
           else
             '(r, buf) ← read_into (txRing mh) buf (d_length d);
             buf ← put_header buf (d_lport d) (d_rport d) (d_length d);
             let mh := with_tx r q mh in
             let carrierData := ztake frameOffset carrierData ++ buf in
             match d_raddr d with
             | Some raddr =>
                 if 0 <=? ipOffset then
                   b0 ← at_ carrierData ipOffset;
                   let version := Z.shiftr b0 4 in
                   if (version =? 4) && (zlen raddr =? 4) then
                     carrierData ← put_raddr carrierData (ipOffset + 16) raddr;
                     Ret (mh, carrierData, u16 (8 + d_length d), None)
                   else if (version =? 6) && (zlen raddr =? 16) then
                     carrierData ← put_raddr carrierData (ipOffset + 24) raddr;
                     Ret (mh, carrierData, u16 (8 + d_length d), None)
                   else Ret (mh, carrierData, 0, Some ErrUnsupported)
                 else Ret (mh, carrierData, u16 (8 + d_length d), None)
             | None => Ret (mh, carrierData, u16 (8 + d_length d), None)
             end
       end)
  end.

Definition WriteTo (mh : muxHandler) (buf : list Z) (lport : Z) (raddr : AddrPort)
    : outcome (muxHandler * option error) :=
  if closeCalled mh then Ret (mh, Some NetErrClosed)
  else if (ap_port raddr =? 0) || negb (bool_decide (is_Some (ap_addr raddr)))
  then Ret (mh, Some ErrZeroDestination)
  else if lport =? 0 then Ret (mh, Some ErrZeroSource)
  else if free (txDgrams mh) =? 0 then Ret (mh, Some ErrExhausted)
  else if Ring.Free (txRing mh) <? zlen buf then Ret (mh, Some ErrBufferFull)
  else
    '(r, n, err) ← Ring.Write buf (txRing mh);
    if negb (bool_decide (err = None)) || negb (n =? zlen buf)
    then Ret (with_tx r (txDgrams mh) mh, Some ErrBug)
    else
      Ret (with_tx r (SliceReclaim (txDgrams mh)
             (mkDgram (u16 (zlen buf)) lport (ap_port raddr) (ap_addr raddr))) mh, None).

(** The handler, the buffer, the count, [completeRead], the local port and the sender. *)
Definition ReadNext (mh : muxHandler) (buf : list Z)
    : outcome (muxHandler * list Z * Z * bool * Z * AddrPort) :=
  match q_items (rxDgrams mh) with
  | [] => Ret (mh, buf, 0, false, 0, mkAddrPort None 0)
  | _ =>
      '(d, q) ← SliceDequeueFront (rxDgrams mh);
      let dlen := d_length d in
      let maxRead := Z.min dlen (zlen buf) in
      '(r, data, n, _) ← Ring.Read (ztake maxRead buf) (rxRing mh);
      let buf := put buf 0 data in
      let r := if n <? dlen then fst (Ring.ReadDiscard (dlen - n) r) else r in
      Ret (with_rx r q mh, buf, n, n =? dlen, d_lport d, mkAddrPort (d_raddr d) (d_rport d))
  end.

Definition BufferedInputNext (mh : muxHandler) : Z :=
  match q_items (rxDgrams mh) with d :: _ => d_length d | [] => 0 end.
Definition BufferedInput (h : muxHandler) : Z := Ring.Buffered (rxRing h).
Definition BufferedOutput (h : muxHandler) : Z := Ring.Buffered (txRing h).
Definition SizeInput (h : muxHandler) : Z := Ring.Size (rxRing h).
Definition SizeOutput (h : muxHandler) : Z := Ring.Size (txRing h).
Definition FreeOutput (h : muxHandler) : Z := Ring.Free (txRing h).
Definition FreeInput (h : muxHandler) : Z := Ring.Free (rxRing h).
Definition IsOpen (mh : muxHandler) : bool := (0 <? q_cap (rxDgrams mh)) && negb (closeCalled mh).
Definition Close (mh : muxHandler) : muxHandler :=
  mkMux (connid mh) (filterLPorts mh) (rxRing mh) (rxDgrams mh) (txRing mh) (txDgrams mh) true.

(** A mux bound to one local port. *)
Record MuxHandlerSIMO := mkSIMO { simo_mux : muxHandler; localPort : Z }.
Definition SIMO_Configure (ms : MuxHandlerSIMO) (port : Z) (cfg : MuxConfig)
    : outcome (MuxHandlerSIMO * option error) :=
  if port =? 0 then Ret (ms, Some ErrZeroSource)
  else
    match Configure (simo_mux ms) cfg with
    | (_, Some e) => Ret (ms, Some e)
    | (mh, None) => mh ← FilterAddLocalPort mh port 1; Ret (mkSIMO mh port, None)
    end.
Definition SIMO_WriteTo (ms : MuxHandlerSIMO) (buf : list Z) (raddr : AddrPort)
    : outcome (MuxHandlerSIMO * option error) :=
  '(mh, err) ← WriteTo (simo_mux ms) buf (localPort ms) raddr; Ret (mkSIMO mh (localPort ms), err).
Definition SIMO_ReadNext (ms : MuxHandlerSIMO) (buf : list Z)
    : outcome (MuxHandlerSIMO * list Z * Z * bool * AddrPort) :=
  '(mh, buf, n, completeRead, lport, raddr) ← ReadNext (simo_mux ms) buf;
  let ms := mkSIMO mh (localPort ms) in
  Ret (if negb (lport =? localPort ms) then (ms, buf, 0, false, raddr)
       else (ms, buf, n, completeRead, raddr)).

End UdpMux.
