(* ===== verification/UdpProps.v ===== *)
(** * UDP sockets: queues of datagrams

    A ring buffer with the lengths of its datagrams represents a queue of datagrams
    ([holds]); the operations of a socket are those of two such queues. *)
From S2P Require Import Prelude Errors Bytes Ring RingProps IpAddr Udp UdpHandler.

Module UdpProps.
Import Bytes Ring RingProps UdpHandler.
Open Scope Z_scope.
Open Scope list_scope.

(** The largest datagram whose length with the header fits 16 bits. *)
Definition maxDgram : Z := 65527.

Definition dgram_ok (d : list Z) : Prop := is_bytes d /\ 1 <= zlen d <= maxDgram.
Definition holds (r : Ring) (lens : list Z) (ds : list (list Z)) : Prop :=
  ring_wf r /\ contents r = mjoin ds /\ lens = (zlen <$> ds) /\ Forall dgram_ok ds.

Lemma zlen_mjoin_cons (d : list Z) ds : zlen (mjoin (d :: ds)) = zlen d + zlen (mjoin ds).
Proof. cbn. apply zlen_app. Qed.
Lemma mjoin_snoc (ds : list (list Z)) d : mjoin (ds ++ [d]) = mjoin ds ++ d.
Proof. rewrite join_app. cbn. by rewrite app_nil_r. Qed.

Lemma holds_empty r : ring_wf r -> holds (Ring.Reset r) [] [].
Proof.
  intros Hw. pose proof Hw as (? & ? & ?). assert (ring_wf (Ring.Reset r)) as Hw' by (split_and!; cbn; lia).
  split_and!; [done| |done|done]. apply empty_contents; [done|done].
Qed.

Lemma holds_write r lens ds b :
  holds r lens ds -> dgram_ok b -> zlen b <= Ring.Free r ->
  exists r', Ring.Write b r = Ret (r', zlen b, None) /\ holds r' (lens ++ [u16 (zlen b)]) (ds ++ [b]) /\
    Size r' = Size r.
Proof.
  intros (Hw & Hc & -> & Hd) Hok Hf. pose proof Hok as [_ Hb]. unfold maxDgram in Hb.
  destruct (ring_write_appends b r Hw) as (r' & n & err & E & Hw' & Hs & _ & _ & HW).
  destruct HW as (-> & -> & Hc' & _); [lia|]. exists r'.
  split; [exact E|]. split; [|exact Hs]. split; [exact Hw'|]. split; [|split].
  - by rewrite Hc', Hc, mjoin_snoc.
  - rewrite fmap_app. cbn. rewrite u16_small by wrap_lia. done.
  - apply Forall_app. split; [done|]. by apply Forall_singleton.
Qed.
Lemma write_refused r b :
  ring_wf r -> ~ (1 <= zlen b <= Ring.Free r) -> exists e, Ring.Write b r = Ret (r, 0, Some e).
Proof.
  intros Hw Hb. destruct (ring_write_appends b r Hw) as (r' & n & err & E & _ & _ & H0 & Hf & _).
  pose proof (zlen_nonneg b). destruct (decide (zlen b = 0)) as [Ez%zlen_zero_nil|].
  - destruct (H0 Ez) as (-> & -> & ->). eauto.
  - destruct Hf as (-> & -> & ->); [lia|]. eauto.
Qed.

(** Reading [k] octets of the first datagram. *)
Lemma holds_read_front r lens d ds b :
  holds r lens (d :: ds) -> 1 <= zlen b <= zlen d ->
  exists r', Ring.Read b r = Ret (r', ztake (zlen b) d, zlen b, None) /\
    ring_wf r' /\ Size r' = Size r /\ contents r' = zdrop (zlen b) d ++ mjoin ds.
Proof.
  intros (Hw & Hc & _ & Hd) Hb. apply Forall_cons in Hd as [Hd _].
  pose proof (zlen_contents r Hw) as HB. rewrite Hc, zlen_mjoin_cons in HB.
  pose proof (zlen_nonneg (mjoin ds)).
  destruct (ring_read_removes b r Hw ltac:(lia)) as [_ HR]. rewrite Hc in HR.
  destruct HR as (r' & E & Hw' & Hs & Hc').
  { intros E. apply (f_equal zlen) in E. rewrite zlen_mjoin_cons, zlen_nil in E. lia. }
  rewrite Z.min_l in E, Hc' by lia. change (mjoin (d :: ds)) with (d ++ mjoin ds) in *.
  exists r'. rewrite E, Hc'. split_and!; try done.
  - do 3 f_equal. rewrite zdrop_ge by lia. rewrite app_nil_r. unfold ztake.
    rewrite take_app_le; [done|]. unfold zlen in *. lia.
  - unfold zdrop. rewrite drop_app_le; [done|]. unfold zlen in *. lia.
Qed.

Lemma holds_read r lens d ds b :
  holds r lens (d :: ds) -> zlen b = zlen d ->
  exists r', Ring.Read b r = Ret (r', d, zlen d, None) /\ holds r' (tail lens) ds /\ Size r' = Size r.
Proof.
  intros Hh Hb. pose proof Hh as (_ & _ & -> & Hd). apply Forall_cons in Hd as [Hd Hds].
  destruct (holds_read_front r _ d ds b Hh) as (r' & E & Hw' & Hs & Hc'); [destruct Hd; lia|].
  exists r'. rewrite E, Hb, ztake_ge by lia. rewrite Hb, zdrop_ge in Hc' by lia. by split_and!.
Qed.

Lemma contents_after_discard n r :
  ring_wf r -> 0 < n <= zlen (contents r) ->
  exists r', ReadDiscard n r = (r', None) /\ ring_wf r' /\ Size r' = Size r /\ contents r' = zdrop n (contents r).
Proof.
  intros Hw Hn. rewrite zlen_contents in Hn by done.
  destruct (ReadDiscard_ok n r Hw Hn) as (r' & E & Hw' & Hb & Hv). exists r'. split_and!; try done.
  - unfold Size. by rewrite Hb.
  - apply contents_discard; [done|lia|done].
Qed.

(** ** The handler *)

(** The datagrams received and not read, written and not sent. *)
Definition queue_holds (r : Ring) (q : queue Z) (ds : list (list Z)) : Prop :=
  holds r (q_items q) ds /\ zlen ds <= q_cap q.
Definition represents (h : Handler) (rx tx : list (list Z)) : Prop :=
  queue_holds (rxRing h) (rxDgrams h) rx /\ queue_holds (txRing h) (txDgrams h) tx /\
  is_u16 (lport h) /\ is_u16 (rport h).

(** What the operations do not change: buffers and queues keep their sizes. *)
Definition limits (h : Handler) : Z * Z * Z * Z * (Z * Z * bool) :=
  (Size (rxRing h), q_cap (rxDgrams h), Size (txRing h), q_cap (txDgrams h), (lport h, rport h, closeCalled h)).
Lemma limits_rx r q h : Size r = Size (rxRing h) -> q_cap q = q_cap (rxDgrams h) -> limits (with_rx r q h) = limits h.
Proof. unfold limits. by intros <- <-. Qed.
Lemma limits_tx r q h : Size r = Size (txRing h) -> q_cap q = q_cap (txDgrams h) -> limits (with_tx r q h) = limits h.
Proof. unfold limits. by intros <- <-. Qed.
Lemma reclaim_cap {A} (q : queue A) x : zlen (q_items q) < q_cap q -> q_cap (SliceReclaim q x) = q_cap q.
Proof. intros. cbn. lia. Qed.

Lemma items_len r q ds : queue_holds r q ds -> zlen (q_items q) = zlen ds.
Proof. intros [(_ & _ & -> & _) _]. unfold zlen. by rewrite length_fmap. Qed.

(** A datagram the handler takes. *)
Definition acceptable (h : Handler) (rx : list (list Z)) (buf : list Z) : Prop :=
  closeCalled h = false /\ 8 <= zlen buf /\ be16 buf 2 = lport h /\ be16 buf 0 = rport h /\
  8 < be16 buf 4 <= zlen buf /\ zlen rx < q_cap (rxDgrams h) /\ be16 buf 4 - 8 <= Ring.Free (rxRing h).
#[global] Instance acceptable_dec h rx buf : Decision (acceptable h rx buf).
Proof. unfold acceptable. apply _. Defined.

Lemma reclaim_holds r q ds d :
  zlen ds < q_cap q -> zlen (q_items q) = zlen ds -> holds r (q_items q ++ [u16 (zlen d)]) (ds ++ [d]) ->
  queue_holds r (SliceReclaim q (u16 (zlen d))) (ds ++ [d]).
Proof.
  intros Hc He Hh. split; [done|]. cbn [SliceReclaim q_cap]. rewrite zlen_app, zlen_cons, zlen_nil. lia.
Qed.

Lemma Recv_refines h rx tx buf :
  represents h rx tx -> is_bytes buf ->
  exists h' err, Recv h buf = Ret (h', err) /\
    (acceptable h rx buf -> err = None /\ represents h' (rx ++ [slice buf 8 (be16 buf 4)]) tx /\ limits h' = limits h) /\
    (~ acceptable h rx buf -> err <> None /\ h' = h).
Proof.
  intros (Hrx & Htx & Hl & Hp) Hb. pose proof (items_len _ _ _ Hrx) as Hlen.
  unfold Recv, Udp.NewFrame, Udp.sizeHeader, acceptable.
  destruct (closeCalled h) eqn:Ec.
  { eexists _, _. split; [done|]. split; [intros (? & _); done|done]. }
  destruct (Z.ltb_spec (zlen buf) 8).
  { eexists _, _. split; [done|]. split; [intros (_ & ? & _); lia|done]. }
  unfold Udp.DestinationPort, Udp.SourcePort, Udp.Length, Udp.RawData.
  rewrite !Uint16_ok by (done || lia). cbn [mbind outcome_bind].
  destruct (Z.eqb_spec (be16 buf 2) (lport h)) as [E2|]; cbn [negb orb].
  2: { eexists _, _. split; [done|]. split; [intros (_ & _ & ? & _); done|done]. }
  destruct (Z.eqb_spec (be16 buf 0) (rport h)) as [E0|]; cbn [negb orb].
  2: { eexists _, _. split; [done|]. split; [intros (_ & _ & _ & ? & _); done|done]. }
  destruct (Z.ltb_spec (be16 buf 4) 8).
  { eexists _, _. split; [done|]. split; [lia|done]. }
  destruct (Z.ltb_spec (zlen buf) (be16 buf 4)).
  { eexists _, _. split; [done|]. split; [lia|done]. }
  unfold free. rewrite Hlen. destruct (Z.eqb_spec (q_cap (rxDgrams h) - zlen rx) 0).
  { eexists _, _. split; [done|]. split; [lia|done]. }
  rewrite Udp.udp_Payload_ok by (done || lia). cbn [mbind outcome_bind].
  set (d := slice buf 8 (be16 buf 4)). assert (zlen d = be16 buf 4 - 8) as Ed by (unfold d; rewrite zlen_slice; lia).
  pose proof (be16_bound buf 4 Hb) as [_ Hb4]. destruct Hrx as [Hh Hcap].
  destruct (decide (1 <= zlen d <= Ring.Free (rxRing h))) as [Hd|Hd].
  - destruct (holds_write _ _ _ d Hh) as (r' & -> & Hh' & HS); [split; [by apply is_bytes_slice|unfold maxDgram; lia]|lia|].
    cbn [mbind outcome_bind]. eexists _, _. split; [done|]. split; [intros _|intros []; split_and!; lia || done].
    split; [done|]. split; [|apply limits_rx; [done|apply reclaim_cap; lia]].
    split; [|done]. apply reclaim_holds; [lia|done|done].
  - destruct (write_refused (rxRing h) d) as (e & ->); [by apply Hh|done|].
    cbn [mbind outcome_bind]. eexists _, _. split; [done|]. split; [lia|]. intros _. split; [done|].
    by destruct h.
Qed.

Lemma Write_refines h rx tx b :
  represents h rx tx -> is_bytes b -> zlen b <= maxDgram ->
  exists h' n err, Write h b = Ret (h', n, err) /\
    (1 <= zlen b <= Ring.Free (txRing h) /\ zlen tx < q_cap (txDgrams h) ->
       err = None /\ n = zlen b /\ represents h' rx (tx ++ [b]) /\ limits h' = limits h) /\
    (~ (1 <= zlen b <= Ring.Free (txRing h) /\ zlen tx < q_cap (txDgrams h)) ->
       err <> None /\ n = 0 /\ h' = h).
Proof.
  intros (Hrx & Htx & Hl & Hp) Hb Hm. pose proof (items_len _ _ _ Htx) as Hlen. unfold Write, free.
  rewrite Hlen. pose proof Htx as [Hh Hcap].
  destruct (Z.eqb_spec (q_cap (txDgrams h) - zlen tx) 0).
  { eexists _, _, _. split; [done|]. split; [lia|done]. }
  destruct (decide (1 <= zlen b <= Ring.Free (txRing h))) as [Hd|Hd].
  - destruct (holds_write _ _ _ b Hh) as (r' & -> & Hh' & HS); [split; [done|lia]|lia|].
    cbn [mbind outcome_bind]. eexists _, _, _. split; [done|]. split; [intros _|intros []; lia].
    split_and!; [done|done| |apply limits_tx; [done|apply reclaim_cap; lia]].
    split; [done|]. split; [|done]. apply reclaim_holds; [lia|done|done].
  - destruct (write_refused (txRing h) b) as (e & ->); [by apply Hh|done|].
    cbn [mbind outcome_bind]. eexists _, _, _. split; [done|]. split; [lia|]. intros _.
    split_and!; [done|done|]. by destruct h.
Qed.

Lemma ReadNext_refines h rx tx b :
  represents h rx tx ->
  exists h' b' n, ReadNext h b = Ret (h', b', n) /\
    match rx with
    | [] => h' = h /\ b' = b /\ n = 0
    | d :: rx' => n = Z.min (zlen b) (zlen d) /\ b' = ztake n d ++ zdrop n b /\ represents h' rx' tx /\ limits h' = limits h
    end.
Proof.
  intros (Hrx & Htx & Hl & Hp). unfold ReadNext. pose proof Hrx as [Hh Hcap]. pose proof Hh as (Hw & Hc & Hi & Hd).
  destruct rx as [|d rx]; [rewrite Hi; cbn; by eexists _, _, _|].
  rewrite Hi. cbn [fmap list_fmap SliceDequeueFront q_items]. unfold SliceDequeueFront. rewrite Hi.
  cbn [fmap list_fmap mbind outcome_bind]. apply Forall_cons in Hd as [[_ Hdd] Hds]. unfold maxDgram in Hdd.
  set (k := Z.min (zlen b) (zlen d)). pose proof (zlen_nonneg b).
  assert (zlen (ztake k b) = k) as Ek by (apply zlen_ztake; lia).
  assert (exists r', Ring.Read (ztake k b) (rxRing h) = Ret (r', ztake k d, k, None) /\ ring_wf r' /\
    Size r' = Size (rxRing h) /\ contents r' = zdrop k d ++ mjoin rx) as (r' & -> & Hw' & HS' & Hc').
  { destruct (decide (k = 0)) as [E0|].
    - exists (rxRing h). rewrite E0. split; [|by split_and!; [| |rewrite zdrop_nonpos by lia]].
      unfold Ring.Read, Ring.read. rewrite !(ztake_nonpos 0) by lia. done.
    - destruct (holds_read_front _ _ d rx (ztake k b) Hh) as (r' & E & ? & ? & ?); [lia|].
      rewrite Ek in *. eauto. }
  cbn [mbind outcome_bind]. rewrite zlen_cons in Hcap.
  assert (put b 0 (ztake k d) = ztake k d ++ zdrop k b) as ->.
  { unfold put. rewrite (ztake_nonpos 0), zlen_ztake by lia. done. }
  assert (forall r'', ring_wf r'' -> contents r'' = mjoin rx -> Size r'' = Size (rxRing h) ->
    let h' := with_rx r'' (mkQueue (zlen <$> rx) (q_cap (rxDgrams h))) h in
    represents h' rx tx /\ limits h' = limits h) as Hrep.
  { intros r'' ? ? ?. split; [|by apply limits_rx]. split; [|done]. split; [|cbn; lia]. by split_and!. }
  destruct (Z.ltb_spec 0 (zlen d - zlen b)).
  - assert (k = zlen b) as Ekb by lia.
    destruct (contents_after_discard (zlen d - zlen b) r' Hw') as (r'' & -> & Hw'' & HS'' & Hc'').
    { rewrite Hc', zlen_app, zlen_zdrop by lia. pose proof (zlen_nonneg (mjoin rx)). lia. }
    eexists _, _, _. split; [done|]. split; [done|]. split; [done|]. apply Hrep; [done| |congruence].
    rewrite Hc'', Hc', zdrop_app_exact; [done|]. rewrite zlen_zdrop; lia.
  - eexists _, _, _. split; [done|]. split; [done|]. split; [done|]. apply Hrep; [done| |done].
    rewrite Hc', zdrop_ge by lia. done.
Qed.

(** A frame from [src] to [dst] that carries [d]. *)
Definition carries (buf : list Z) (src dst : Z) (d : list Z) : Prop :=
  be16 buf 0 = src /\ be16 buf 2 = dst /\ be16 buf 4 = 8 + zlen d /\ 8 + zlen d <= zlen buf /\
  slice buf 8 (8 + zlen d) = d /\ is_bytes buf.

Lemma put_header_ok buf src dst length :
  8 <= zlen buf -> is_bytes buf -> is_u16 src -> is_u16 dst -> is_u16 (8 + length) ->
  exists buf', put_header buf src dst length = Ret buf' /\ zlen buf' = zlen buf /\ is_bytes buf' /\
    be16 buf' 0 = src /\ be16 buf' 2 = dst /\ be16 buf' 4 = 8 + length /\
    forall i j, 8 <= i <= j -> j <= zlen buf -> slice buf' i j = slice buf i j.
Proof.
  intros Hz Hb Hs Hd Hl. unfold put_header, Udp.SetSourcePort, Udp.SetDestinationPort, Udp.SetLength.
  rewrite u16_small by done.
  rewrite PutUint16_ok by lia. cbn [mbind outcome_bind].
  rewrite PutUint16_ok by (rewrite ?zlen_put16; lia). cbn [mbind outcome_bind].
  rewrite PutUint16_ok by (rewrite ?zlen_put16; rewrite ?zlen_put16; lia).
  eexists. split; [done|].
  assert (zlen (put buf 0 (bytes16 src)) = zlen buf) as E1 by (apply zlen_put16; lia).
  assert (zlen (put (put buf 0 (bytes16 src)) 2 (bytes16 dst)) = zlen buf) as E2 by (rewrite zlen_put16; lia).
  split_and!.
  - rewrite zlen_put16; lia.
  - eauto using is_bytes_put, is_bytes_16.
  - rewrite !be16_put_out by (rewrite ?E2, ?E1; change (zlen (bytes16 _)) with 2; lia). apply be16_put; done || lia.
  - rewrite be16_put_out by (rewrite ?E2; change (zlen (bytes16 _)) with 2; lia). apply be16_put; done || lia.
  - apply be16_put; done || lia.
  - intros i j Hi Hj. rewrite !slice_put_out by (rewrite ?E2, ?E1; change (zlen (bytes16 _)) with 2; lia). done.
Qed.

Lemma read_into_ok r lens d ds buf :
  holds r lens (d :: ds) -> 8 + zlen d <= zlen buf -> is_bytes buf ->
  exists r', read_into r buf (zlen d) = Ret (r', put buf 8 d) /\ holds r' (tail lens) ds /\ Size r' = Size r /\
    slice (put buf 8 d) 8 (8 + zlen d) = d /\ is_bytes (put buf 8 d).
Proof.
  intros Hh Hl Hb. pose proof Hh as (_ & _ & _ & [[Hbd Hd] Hds]%Forall_cons). unfold maxDgram in Hd.
  unfold read_into. rewrite u16_small by wrap_lia. unfold slice_ok, assert_or_panic.
  rewrite !(proj2 (Z.leb_le _ _)) by lia. cbn [andb].
  destruct (holds_read r lens d ds (slice buf 8 (8 + zlen d)) Hh) as (r' & -> & Hh' & HS); [rewrite zlen_slice; lia|].
  cbn [mbind outcome_bind]. rewrite Z.eqb_refl. exists r'. split_and!; [done|done|done| |by apply is_bytes_put].
  apply slice_put_in; lia.
Qed.

Lemma Send_refines h rx tx buf :
  represents h rx tx -> is_bytes buf ->
  exists h' buf' n err, Send h buf = Ret (h', buf', n, err) /\
    match tx with
    | d :: tx' =>
        if bool_decide (closeCalled h = false /\ 8 + zlen d <= zlen buf) then
          err = None /\ n = 8 + zlen d /\ carries buf' (lport h) (rport h) d /\ zlen buf' = zlen buf /\
          (forall i j, n <= i <= j -> j <= zlen buf -> slice buf' i j = slice buf i j) /\
          represents h' rx tx' /\ limits h' = limits h
        else err <> None /\ n = 0 /\ h' = h /\ buf' = buf
    | [] => n = 0 /\ h' = h /\ buf' = buf /\ (err = None <-> closeCalled h = false)
    end.
Proof.
  intros (Hrx & Htx & Hl & Hp) Hb. pose proof Htx as [Hh Hcap]. pose proof Hh as (_ & _ & Hi & Hds).
  unfold Send. destruct (closeCalled h) eqn:Ec.
  { eexists _, _, _, _. split; [done|]. destruct tx; [done|]. by rewrite bool_decide_false by naive_solver. }
  rewrite Hi. destruct tx as [|d tx]; [by eexists _, _, _, _|]. cbn [fmap list_fmap].
  apply Forall_cons in Hds as [[Hbd Hd] Hds]. unfold maxDgram in Hd. rewrite zlen_cons in Hcap.
  unfold Udp.NewFrame, Udp.sizeHeader. destruct (Z.ltb_spec (zlen buf) 8).
  { eexists _, _, _, _. split; [done|]. by rewrite bool_decide_false by lia. }
  destruct (Z.ltb_spec (zlen buf - 8) (zlen d)).
  { eexists _, _, _, _. split; [done|]. by rewrite bool_decide_false by lia. }
  rewrite bool_decide_true by (split; [done|lia]). unfold SliceDequeueFront. rewrite Hi.
  cbn [fmap list_fmap mbind outcome_bind].
  destruct (read_into_ok _ _ d tx buf Hh) as (r' & -> & Hh' & HS & Hsl & Hb'); [lia|done|].
  cbn [mbind outcome_bind]. assert (zlen (put buf 8 d) = zlen buf) as El by (apply zlen_put; lia).
  destruct (put_header_ok (put buf 8 d) (lport h) (rport h) (zlen d))
    as (buf' & -> & El' & Hb'' & E0 & E2 & E4 & Hsame); [lia|done|done|done|wrap_lia|].
  cbn [mbind outcome_bind]. rewrite El in *. eexists _, _, _, _. split; [done|].
  rewrite u16_small by wrap_lia. unfold carries. split_and!; try done.
  - lia.
  - rewrite Hsame by lia. done.
  - intros i j Hij Hj. rewrite Hsame by lia. apply slice_put_out; lia.
  - split; [done|]. split; [|done]. split; [|cbn; lia]. rewrite Hi in Hh'. exact Hh'.
  - by apply limits_tx.
Qed.

End UdpProps.
