(* ===== verification/UdpConn.v ===== *)
(** * UDP connections ([src/udp/conn.go])

    A [Conn] is a [Handler] with the address of the peer and deadlines. Every access is a
    critical section of its mutex. The methods of one section are functions; [Write] and
    [Read] repeat a section until there is room or a datagram, and other goroutines run
    between: they are threads ([pc]), and [step] runs one section of a thread. Time is an
    argument; deadlines are [None] for the zero time. *)
From S2P Require Import Prelude Errors Bytes Ring IpAddr Udp UdpHandler.

Module UdpConn.
Import Bytes.
Open Scope Z_scope.
Open Scope list_scope.

Record Conn := mkConn {
  h_ : UdpHandler.Handler;
  remoteAddr : list Z;
  rdead : option Z;
  wdead : option Z;
  ipID : Z
}.

Definition with_h (h : UdpHandler.Handler) (conn : Conn) : Conn :=
  mkConn h (remoteAddr conn) (rdead conn) (wdead conn) (ipID conn).

Definition abort (conn : Conn) : Conn := mkConn (UdpHandler.Abort (h_ conn)) [] None None (ipID conn).
Definition Abort (conn : Conn) : Conn := abort conn.

(** [backoff]: a strategy is given. *)
Definition Configure (cfg : UdpHandler.ConnConfig) (backoff : bool) (conn : Conn) : Conn * option error :=
  if negb backoff then (conn, Some ErrMissingHALConfig)
  else
    let conn := abort conn in
    let '(h, err) := UdpHandler.Configure (h_ conn) cfg in (with_h h conn, err).

(** The address is empty when it is not valid. *)
Definition Open (localPort : Z) (raddr : list Z) (rport : Z) (conn : Conn) : Conn * option error :=
  if UdpHandler.IsOpen (h_ conn) then (conn, Some errStillOpen)
  else
    match UdpHandler.SetPorts (h_ conn) localPort rport with
    | (_, Some e) => (conn, Some e)
    | (h, None) => (mkConn h raddr (rdead conn) (wdead conn) (ipID conn), None)
    end.

Definition IsOpen (conn : Conn) : bool := UdpHandler.IsOpen (h_ conn).
Definition LocalPort (conn : Conn) : Z := UdpHandler.lport (h_ conn).
Definition RemotePort (conn : Conn) : Z := UdpHandler.rport (h_ conn).
Definition RemoteAddr (conn : Conn) : list Z := remoteAddr conn.
Definition ConnectionID (conn : Conn) : Z := UdpHandler.connid (h_ conn).
Definition Close (conn : Conn) : Conn := with_h (UdpHandler.Close (h_ conn)) conn.

Definition Demux (carrierData : list Z) (frameOffset : Z) (conn : Conn) : outcome (Conn * option error) :=
  if UdpHandler.closeCalled (h_ conn) then Ret (conn, Some NetErrClosed)
  else
    assert_or_panic (slice_ok carrierData frameOffset (zlen carrierData))
      ('(h, err) ← UdpHandler.Recv (h_ conn) (zdrop frameOffset carrierData); Ret (with_h h conn, err)).

(** The connection and the carrier afterwards, the octets written and the error. *)
Definition Encapsulate (carrierData : list Z) (offsetToIP offsetToFrame : Z) (conn : Conn)
    : outcome (Conn * list Z * Z * option error) :=
  if UdpHandler.closeCalled (h_ conn) then Ret (conn, carrierData, 0, Some NetErrClosed)
  else
  assert_or_panic (slice_ok carrierData offsetToFrame (zlen carrierData))
  ('(h, b, n, err) ← UdpHandler.Send (h_ conn) (zdrop offsetToFrame carrierData);
   let conn := with_h h conn in
   let carrierData := ztake offsetToFrame carrierData ++ b in
   if bool_decide (err <> None) || (n =? 0) then Ret (conn, carrierData, 0, err)
   else if (0 <=? offsetToIP) && (0 <? zlen (remoteAddr conn)) then
     assert_or_panic (slice_ok carrierData offsetToIP (zlen carrierData))
     ('(arr, err) ← IpAddr.SetIPAddrs (zdrop offsetToIP carrierData) (zlen carrierData - offsetToIP)
                     (ipID conn) None (Some (remoteAddr conn));
      let carrierData := ztake offsetToIP carrierData ++ arr in
      match err with
      | Some e => Ret (conn, carrierData, 0, Some e)
      | None => Ret (mkConn h (remoteAddr conn) (rdead conn) (wdead conn) (u16 (ipID conn + 1)), carrierData, n, None)
      end)
   else Ret (conn, carrierData, n, None)).

Definition SetReadDeadline (t : option Z) (conn : Conn) : Conn * option error :=
  if UdpHandler.closeCalled (h_ conn) then (conn, Some NetErrClosed)
  else (mkConn (h_ conn) (remoteAddr conn) t (wdead conn) (ipID conn), None).
Definition SetWriteDeadline (t : option Z) (conn : Conn) : Conn * option error :=
  if UdpHandler.closeCalled (h_ conn) then (conn, Some NetErrClosed)
  else (mkConn (h_ conn) (remoteAddr conn) (rdead conn) t (ipID conn), None).
Definition SetDeadline (t : option Z) (conn : Conn) : Conn * option error :=
  if UdpHandler.closeCalled (h_ conn) then (conn, Some NetErrClosed)
  else (mkConn (h_ conn) (remoteAddr conn) t t (ipID conn), None).

(** [time.Since(deadline) > 0] for a deadline that is set. *)
Definition deadlineExceeded (now : Z) (deadline : option Z) : bool :=
  match deadline with None => false | Some d => 0 <? now - d end.

Definition lockPipeConnID (conn : Conn) : option Z :=
  if UdpHandler.closeCalled (h_ conn) && (zlen (UdpHandler.q_items (UdpHandler.rxDgrams (h_ conn))) =? 0)
  then None else Some (UdpHandler.connid (h_ conn)).

(** ** Blocking calls *)

(** Where a call is. [id] is the connection ID it started with. *)
Inductive pc :=
| WriteStart (b : list Z)
| WriteLoop (id : Z) (b : list Z)
| WriteWait (id : Z) (b : list Z)
| ReadStart (b : list Z)
| ReadLoop (id : Z) (b : list Z)
| ReadWait (id : Z) (b : list Z)
| Done (n : Z) (b : list Z) (err : option error)
| Crashed.

(** What a section did to the queues: a datagram queued, a datagram taken by a reader
    with room for [room] octets. *)
Inductive event := Wrote (b : list Z) | Got (room : Z) (data : list Z).

Definition write_body (id : Z) (b : list Z) (conn : Conn) : pc * Conn * list event :=
  if UdpHandler.closeCalled (h_ conn) || negb (id =? UdpHandler.connid (h_ conn))
  then (Done 0 b (Some NetErrClosed), conn, [])
  else
    match UdpHandler.Write (h_ conn) b with
    | Panic => (Crashed, conn, [])
    | Ret (h, n, err) =>
        if 0 <? n then (Done n b err, with_h h conn, [Wrote b]) else (WriteWait id b, with_h h conn, [])
    end.

Definition read_body (id : Z) (b : list Z) (conn : Conn) : pc * Conn * list event :=
  if (UdpHandler.closeCalled (h_ conn) && (UdpHandler.BufferedInput (h_ conn) =? 0)) ||
     negb (id =? UdpHandler.connid (h_ conn))
  then (Done 0 b (Some NetErrClosed), conn, [])
  else
    match UdpHandler.ReadNext (h_ conn) b with
    | Panic => (Crashed, conn, [])
    | Ret (h, b', n) =>
        let ev := if 0 <? zlen (UdpHandler.q_items (UdpHandler.rxDgrams (h_ conn)))
                  then [Got (zlen b) (ztake n b')] else [] in
        if 0 <? n then (Done n b' None, with_h h conn, ev) else (ReadWait id b', with_h h conn, ev)
    end.

(** One critical section of a call at time [now]. *)
Definition step (now : Z) (t : pc) (conn : Conn) : pc * Conn * list event :=
  match t with
  | WriteStart b =>
      if zlen b =? 0 then (Done 0 b None, conn, [])
      else
        match lockPipeConnID conn with
        | None => (Done 0 b (Some NetErrClosed), conn, [])
        | Some id => (WriteLoop id b, conn, [])
        end
  | WriteLoop id b => write_body id b conn
  | WriteWait id b =>
      if deadlineExceeded now (wdead conn) then (Done 0 b (Some errDeadlineExceeded), conn, [])
      else (WriteLoop id b, conn, [])
  | ReadStart b =>
      match lockPipeConnID conn with
      | None => (Done 0 b (Some NetErrClosed), conn, [])
      | Some id => (ReadLoop id b, conn, [])
      end
  | ReadLoop id b => read_body id b conn
  | ReadWait id b =>
      if deadlineExceeded now (rdead conn) then (Done 0 b (Some errDeadlineExceeded), conn, [])
      else (ReadLoop id b, conn, [])
  | Done _ _ _ | Crashed => (t, conn, [])
  end.

Definition BufferedInput (conn : Conn) : Z := UdpHandler.BufferedInput (h_ conn).
Definition BufferedOutput (conn : Conn) : Z := UdpHandler.BufferedOutput (h_ conn).
Definition SizeInput (conn : Conn) : Z := UdpHandler.SizeInput (h_ conn).
Definition SizeOutput (conn : Conn) : Z := UdpHandler.SizeOutput (h_ conn).
Definition FreeOutput (conn : Conn) : Z := UdpHandler.FreeOutput (h_ conn).
Definition FreeInput (conn : Conn) : Z := UdpHandler.FreeInput (h_ conn).

End UdpConn.
