(* ===== verification/UdpConnThms.v ===== *)
(** * UDP sockets: order and delivery *)
From S2P Require Import Prelude Errors Ring RingProps Bytes IpAddr Udp UdpHandler UdpProps UdpConn.

(** ** UDP connections: datagrams keep their boundaries and their order

    A socket with any number of callers that read and write concurrently and a stack
    that delivers and collects frames is a queue of datagrams in each direction. *)
Module UdpConnThms.
Import Bytes UdpProps UdpConn.
Open Scope Z_scope.
Open Scope list_scope.

(** ** One socket *)

(** The connection, its callers, and since the last reset: the datagrams of successful
    writes, the frames handed to the stack, the frames taken from it, and what the
    readers got with the room each had. *)
Record sys := mkSys {
  conn : Conn;
  callers : list pc;
  written : list (list Z);
  emitted : list (list Z);
  taken : list (list Z);
  got : list (Z * list Z)
}.

(** A call that did not panic; a datagram to write is bytes and fits a UDP frame. *)
Definition pc_ok (t : pc) : Prop :=
  match t with
  | WriteStart b | WriteLoop _ b | WriteWait _ b => is_bytes b /\ zlen b <= maxDgram
  | Crashed => False
  | _ => True
  end.

Definition wrote (evs : list event) : list (list Z) :=
  omap (fun e => match e with Wrote b => Some b | Got _ _ => None end) evs.
Definition gotten (evs : list event) : list (Z * list Z) :=
  omap (fun e => match e with Got k d => Some (k, d) | Wrote _ => None end) evs.

(** The carrier has an IP header of the version of the peer's address before the frame. *)
Definition carrier_ok (c : Conn) (carrier : list Z) (ip off : Z) : Prop :=
  is_bytes carrier /\ 0 <= off <= zlen carrier /\
  (remoteAddr c = [] \/ ip < 0 \/
   let v := IpAddr.ipver (zdrop ip carrier) in
   (v = 4 \/ v = 6) /\ zlen (remoteAddr c) = IpAddr.addr_len v /\ ip + IpAddr.hdr_min v <= off).

(** Nothing is in the queues and nothing was done yet. *)
Definition fresh (s : sys) : Prop :=
  represents (h_ (conn s)) [] [] /\ is_bytes (remoteAddr (conn s)) /\ is_u16 (ipID (conn s)) /\
  Forall pc_ok (callers s) /\ written s = [] /\ emitted s = [] /\ taken s = [] /\ got s = [].

(** What the network sees of a step. *)
Inductive label := Tau | Out (f : list Z) | In (f : list Z) | Restart.

Definition with_conn (c : Conn) (s : sys) : sys :=
  mkSys c (callers s) (written s) (emitted s) (taken s) (got s).
Definition restarted (c : Conn) (s : sys) : sys := mkSys c (callers s) [] [] [] [].

Inductive sys_step : sys -> label -> sys -> Prop :=
| S_call s t : pc_ok t ->
    sys_step s Tau (mkSys (conn s) (callers s ++ [t]) (written s) (emitted s) (taken s) (got s))
| S_section s i t now t' c' evs :
    callers s !! i = Some t -> step now t (conn s) = (t', c', evs) ->
    sys_step s Tau
      (mkSys c' (<[i := t']> (callers s)) (written s ++ wrote evs) (emitted s) (taken s) (got s ++ gotten evs))
| S_demux s carrier off c' err :
    is_bytes carrier -> Demux carrier off (conn s) = Ret (c', err) ->
    sys_step s (In (zdrop off carrier))
      (mkSys c' (callers s) (written s) (emitted s)
         (if bool_decide (err = None) then taken s ++ [zdrop off carrier] else taken s) (got s))
| S_encapsulate s carrier ip off c' carrier' n err :
    carrier_ok (conn s) carrier ip off ->
    Encapsulate carrier ip off (conn s) = Ret (c', carrier', n, err) ->
    sys_step s (if 0 <? n then Out (slice carrier' off (off + n)) else Tau)
      (mkSys c' (callers s) (written s)
         (if 0 <? n then emitted s ++ [slice carrier' off (off + n)] else emitted s) (taken s) (got s))
| S_close s : sys_step s Tau (with_conn (Close (conn s)) s)
| S_open s lport raddr rport c' err :
    is_u16 lport -> is_u16 rport -> is_bytes raddr -> Open lport raddr rport (conn s) = (c', err) ->
    sys_step s Tau (with_conn c' s)
| S_deadlines s t r :
    sys_step s Tau (with_conn (fst (SetWriteDeadline t (fst (SetReadDeadline r (conn s))))) s)
| S_abort s : sys_step s Restart (restarted (Abort (conn s)) s)
| S_configure s cfg c' err :
    Configure cfg true (conn s) = (c', err) -> sys_step s Restart (restarted c' s).

(** The datagram in a frame. *)
Definition payload (f : list Z) : list Z := slice f 8 (be16 f 4).

(** The abstract view: what the callers wrote is what was sent and what waits; what was
    taken from the network is what was read and what waits. *)
Definition inv (s : sys) : Prop :=
  (exists rx tx sent rd,
     represents (h_ (conn s)) rx tx /\
     written s = sent ++ tx /\ Forall2 (fun f d => carries f (be16 f 0) (be16 f 2) d) (emitted s) sent /\
     (payload <$> taken s) = rd ++ rx /\ Forall2 (fun r d => r.2 = ztake r.1 d) (got s) rd) /\
  is_bytes (remoteAddr (conn s)) /\ is_u16 (ipID (conn s)) /\ Forall pc_ok (callers s).

Lemma fresh_inv s : fresh s -> inv s.
Proof.
  intros (Hr & Ha & Hid & Hp & Hw & He & Ht & Hg). split; [|done]. exists [], [], [], [].
  rewrite Hw, He, Ht, Hg. by split_and!.
Qed.

Lemma represents_reset h rx tx : represents h rx tx -> represents (UdpHandler.Abort h) [] [].
Proof.
  intros ([(Hw1 & _) Hc1] & [(Hw2 & _) Hc2] & _ & _). pose proof (zlen_nonneg rx). pose proof (zlen_nonneg tx).
  split; [split; [by apply holds_empty|cbn; rewrite zlen_nil; lia]|]. split; [split; [by apply holds_empty|cbn; rewrite zlen_nil; lia]|]. done.
Qed.
Lemma represents_configure h cfg h' :
  UdpHandler.Configure h cfg = (h', None) -> represents h' [] [].
Proof.
  unfold UdpHandler.Configure, Udp.sizeHeader. destruct (Z.ltb_spec (zlen (UdpHandler.RxBuf cfg)) 8); [done|].
  destruct (Z.ltb_spec (zlen (UdpHandler.TxBuf cfg)) 8); [done|].
  destruct (Z.leb_spec (UdpHandler.RxQueueSize cfg) 0); [done|].
  destruct (Z.leb_spec (UdpHandler.TxQueueSize cfg) 0); [done|]. intros [= <-].
  assert (forall b, 8 <= zlen b -> holds (Ring.mkRing b 0 0) [] []) as Hh.
  { intros b Hb. apply (holds_empty (Ring.mkRing b 0 0)). split_and!; cbn; lia. }
  split; [split; [by apply Hh|cbn; rewrite zlen_nil; case_match; lia]|]. split; [split; [by apply Hh|cbn; rewrite zlen_nil; case_match; lia]|]. done.
Qed.

(** ** Sections *)

(** What a section does to a connection that holds [rx] and [tx]. *)
Definition section_ok (rx tx : list (list Z)) (c c' : Conn) (evs : list event) : Prop :=
  exists rx' tx' rd, represents (h_ c') rx' tx' /\ remoteAddr c' = remoteAddr c /\ ipID c' = ipID c /\
    tx' = tx ++ wrote evs /\ rx = rd ++ rx' /\ Forall2 (fun r d => r.2 = ztake r.1 d) (gotten evs) rd.

Lemma section_same rx tx c : represents (h_ c) rx tx -> section_ok rx tx c c [].
Proof. intros H. exists rx, tx, []. split_and!; try done. by rewrite app_nil_r. Qed.

Lemma step_section now t c rx tx t' c' evs :
  represents (h_ c) rx tx -> pc_ok t -> step now t c = (t', c', evs) ->
  section_ok rx tx c c' evs /\ pc_ok t'.
Proof.
  intros Hr Ht Hs.
  assert (forall t2, step now t c = (t2, c, []) -> pc_ok t2 ->
    section_ok rx tx c c' evs /\ pc_ok t') as Hidle.
  { intros t2 E ?. rewrite E in Hs. simplify_eq. split; [by apply section_same|done]. }
  destruct t as [b|id b|id b|b|id b|id b|n b e|]; cbn [step] in Hs, Hidle.
  - destruct (zlen b =? 0); [by eapply Hidle|]. destruct (lockPipeConnID c); by eapply Hidle.
  - unfold write_body in *. destruct (_ || _); [by eapply Hidle|]. clear Hidle. destruct Ht as [Hb Hm].
    destruct (Write_refines _ _ _ b Hr Hb Hm) as (h' & n & err & E & Hok & Hno). rewrite E in Hs.
    destruct (decide (1 <= zlen b <= Ring.Free (UdpHandler.txRing (h_ c)) /\
      zlen tx < UdpHandler.q_cap (UdpHandler.txDgrams (h_ c)))) as [Hd|Hd].
    + destruct (Hok Hd) as (-> & -> & Hr' & _). rewrite (proj2 (Z.ltb_lt _ _)) in Hs by lia. simplify_eq.
      split; [|done]. exists rx, (tx ++ [b]), []. by split_and!.
    + destruct (Hno Hd) as (_ & -> & ->). cbn in Hs. simplify_eq. split; [|done].
      destruct c. by apply section_same.
  - destruct (deadlineExceeded _ _); by eapply Hidle.
  - destruct (lockPipeConnID c); by eapply Hidle.
  - unfold read_body in *. destruct (_ || _); [by eapply Hidle|]. clear Hidle.
    destruct (ReadNext_refines _ _ _ b Hr) as (h' & b' & n & E & HR). rewrite E in Hs.
    rewrite (items_len _ _ _ (proj1 Hr)) in Hs. destruct rx as [|d rx].
    + destruct HR as (-> & -> & ->). cbn in Hs. simplify_eq. split; [|done].
      destruct c. by apply section_same.
    + destruct HR as (Hn & Hb' & Hr' & _). rewrite zlen_cons in Hs. pose proof (zlen_nonneg rx).
      rewrite (proj2 (Z.ltb_lt 0 (1 + zlen rx))) in Hs by lia.
      assert (section_ok (d :: rx) tx c (with_h h' c) [Got (zlen b) (ztake n b')]) as Hsec.
      { exists rx, tx, [d]. split_and!; try done; [by rewrite app_nil_r|]. constructor; [|done]. cbn.
        pose proof (zlen_nonneg b). pose proof (zlen_nonneg d). rewrite Hb'. subst n.
        rewrite ztake_app_exact by (apply zlen_ztake; lia).
        destruct (Z.le_ge_cases (zlen b) (zlen d)); [by rewrite Z.min_l by done|].
        rewrite Z.min_r by done. by rewrite !ztake_ge by lia. }
      destruct (0 <? n); simplify_eq; by split_and!.
  - destruct (deadlineExceeded _ _); by eapply Hidle.
  - by eapply Hidle.
  - done.
Qed.

(** ** The stack's side *)

Lemma Demux_refines c rx tx carrier off c' err :
  represents (h_ c) rx tx -> is_bytes carrier -> Demux carrier off c = Ret (c', err) ->
  remoteAddr c' = remoteAddr c /\ ipID c' = ipID c /\
  (err = None -> represents (h_ c') (rx ++ [payload (zdrop off carrier)]) tx) /\
  (err <> None -> represents (h_ c') rx tx).
Proof.
  intros Hr Hb. unfold Demux. destruct (UdpHandler.closeCalled (h_ c)); [intros [= <- <-]; by split_and!|].
  unfold assert_or_panic. case_match; [|done].
  destruct (Recv_refines _ _ _ (zdrop off carrier) Hr) as (h' & e & -> & Hok & Hno); [by apply is_bytes_zdrop|].
  cbn [mbind outcome_bind]. intros [= <- <-]. split_and!; [done|done| |].
  - intros ->. destruct (decide (acceptable (h_ c) rx (zdrop off carrier))) as [Ha|Ha]; [by destruct (Hok Ha) as (_ & ? & _)|].
    by destruct (Hno Ha).
  - intros He. destruct (decide (acceptable (h_ c) rx (zdrop off carrier))) as [Ha|Ha]; [by destruct (Hok Ha)|].
    by destruct (Hno Ha) as [_ ->].
Qed.

Lemma carries_ports f src dst d : carries f src dst d -> carries f (be16 f 0) (be16 f 2) d.
Proof. intros (_ & _ & H). split; [done|]. split; [done|exact H]. Qed.

Lemma carries_ztake buf src dst d : carries buf src dst d -> carries (ztake (8 + zlen d) buf) src dst d.
Proof.
  intros (E0 & E2 & E4 & Hl & Hs & Hb). pose proof (zlen_nonneg d). unfold carries. rewrite !be16_ztake by lia.
  rewrite zlen_ztake by lia. split_and!; try done; [|by apply is_bytes_ztake].
  etrans; [|exact Hs]. apply zlist_eq; rewrite !zlen_slice by (rewrite ?zlen_ztake; lia); [done|].
  intros i Hi. rewrite !zget_slice, zget_ztake by lia. done.
Qed.

(** Addressing the carrier leaves the frame as it is. *)
Lemma addressed carrier ip off n id addr
    (v := IpAddr.ipver (zdrop ip carrier)) :
  is_bytes carrier -> is_bytes addr -> is_u16 id -> 0 <= ip -> 0 <= n -> off + n <= zlen carrier ->
  (v = 4 \/ v = 6) -> zlen addr = IpAddr.addr_len v -> ip + IpAddr.hdr_min v <= off ->
  exists arr, IpAddr.SetIPAddrs (zdrop ip carrier) (zlen carrier - ip) id None (Some addr) = Ret (arr, None) /\
    zlen (ztake ip carrier ++ arr) = zlen carrier /\
    slice (ztake ip carrier ++ arr) off (off + n) = slice carrier off (off + n) /\
    exists ad, IpAddr.GetIPAddr arr (zlen carrier - ip) = Ret (ad, None) /\ IpAddr.ip_dst ad = addr.
Proof.
  intros Hb Ha Hid Hip Hn Hl Hv Hal Hoff.
  assert (20 <= IpAddr.hdr_min v /\ 0 <= IpAddr.src_off v /\ 6 <= IpAddr.hdr_min v) as (? & ? & ?).
  { unfold IpAddr.hdr_min, IpAddr.dst_off, IpAddr.addr_len, IpAddr.src_off. bool_cases; lia. }
  assert (zlen (zdrop ip carrier) = zlen carrier - ip) as El by (apply zlen_zdrop; lia).
  destruct (IpAddr.ipaddr_roundtrip (zdrop ip carrier) (zlen carrier - ip) id None addr)
    as (arr & -> & Hla & Hba & Hget & Hsame); try done; [|apply Forall_nil_2|].
  { split; [by apply is_bytes_zdrop|lia|exact Hv|]. fold v. lia. }
  exists arr. split; [done|]. assert (zlen (ztake ip carrier) = ip) as Eip by (apply zlen_ztake; lia).
  split; [rewrite zlen_app; lia|]. split; [|by eexists; split; [exact Hget|]].
  apply zlist_eq; rewrite !zlen_slice by (rewrite ?zlen_app; lia); [done|]. intros i Hi.
  rewrite !zget_slice by lia. rewrite zget_app_r by lia. fold v in Hsame. rewrite Hsame by lia.
  rewrite zget_zdrop by lia. f_equal. lia.
Qed.

(** The first datagram goes out in a frame of its own when the carrier has room for it. *)
Definition sendable (c : Conn) (carrier : list Z) (off : Z) (d : list Z) : Prop :=
  UdpHandler.closeCalled (h_ c) = false /\ off + 8 + zlen d <= zlen carrier.
#[global] Instance sendable_dec c carrier off d : Decision (sendable c carrier off d).
Proof. unfold sendable. apply _. Defined.

Lemma Encapsulate_refines c rx tx carrier ip off :
  represents (h_ c) rx tx -> is_bytes (remoteAddr c) -> is_u16 (ipID c) -> carrier_ok c carrier ip off ->
  exists c' carrier' n err, Encapsulate carrier ip off c = Ret (c', carrier', n, err) /\
    zlen carrier' = zlen carrier /\ remoteAddr c' = remoteAddr c /\ is_u16 (ipID c') /\
    match tx with
    | d :: tx' =>
        if decide (sendable c carrier off d) then
          err = None /\ n = 8 + zlen d /\ represents (h_ c') rx tx' /\ limits (h_ c') = limits (h_ c) /\
          carries (slice carrier' off (off + n)) (LocalPort c) (RemotePort c) d /\
          (0 <= ip -> remoteAddr c <> [] ->
            exists ad, IpAddr.GetIPAddr (zdrop ip carrier') (zlen carrier' - ip) = Ret (ad, None) /\
              IpAddr.ip_dst ad = remoteAddr c)
        else n = 0 /\ err <> None /\ c' = c
    | [] => n = 0 /\ c' = c
    end.
Proof.
  intros Hr Ha Hid (Hb & Hoff & Hip). unfold Encapsulate. destruct (UdpHandler.closeCalled (h_ c)) eqn:Ec.
  { eexists _, _, _, _. split; [done|]. split_and!; try done. destruct tx; [done|].
    rewrite decide_False; [done|]. intros []; congruence. }
  unfold assert_or_panic, slice_ok. rewrite !(proj2 (Z.leb_le _ _)) by lia. cbn [andb].
  destruct (Send_refines _ _ _ (zdrop off carrier) Hr) as (h' & b & n & err & -> & HS); [by apply is_bytes_zdrop|].
  rewrite zlen_zdrop in HS by lia. cbn [mbind outcome_bind].
  assert (zlen (ztake off carrier) = off) as El by (apply zlen_ztake; lia).
  assert (forall h2, h2 = h_ c -> with_h h2 c = c) as Hsame by (intros ? ->; by destruct c).
  destruct tx as [|d tx].
  { destruct HS as (-> & -> & -> & He). rewrite Z.eqb_refl, orb_true_r. rewrite ztake_zdrop, Hsame by done.
    eexists _, _, _, _. split; [done|]. by split_and!. }
  destruct (decide (sendable c carrier off d)) as [[_ Hs]|Hs].
  2: { rewrite bool_decide_false in HS by (intros []; apply Hs; split; [done|lia]).
    destruct HS as (He & -> & -> & ->). rewrite Z.eqb_refl, orb_true_r, ztake_zdrop, Hsame by done.
    eexists _, _, _, _. split; [done|]. by split_and!. }
  rewrite bool_decide_true in HS by (split; [done|lia]).
  destruct HS as (-> & -> & Hcar & Hlb & _ & Hr' & Hlim).
  pose proof (zlen_nonneg d). rewrite bool_decide_false by (intros Hx; by apply Hx). cbn [orb].
  destruct (Z.eqb_spec (8 + zlen d) 0); [lia|].
  set (carrier1 := ztake off carrier ++ b).
  assert (zlen carrier1 = zlen carrier) as E1 by (unfold carrier1; rewrite zlen_app; lia).
  assert (carries (slice carrier1 off (off + (8 + zlen d))) (LocalPort c) (RemotePort c) d) as Hcar1.
  { unfold carrier1. rewrite slice_behind by lia. by apply carries_ztake. }
  destruct (Z.leb_spec 0 ip); cbn [andb].
  2: { eexists _, _, _, _. split; [done|]. split_and!; try done; intros; lia. }
  change (remoteAddr (with_h h' c)) with (remoteAddr c). change (ipID (with_h h' c)) with (ipID c).
  destruct (Z.ltb_spec 0 (zlen (remoteAddr c))) as [Hra|Hra].
  2: { pose proof (zlen_nonneg (remoteAddr c)). assert (remoteAddr c = []) by (apply zlen_zero_nil; lia).
    eexists _, _, _, _. split; [done|]. split_and!; try done. }
  destruct Hip as [E|[Hip|(Hv & Hal & Hh)]]; [rewrite E in Hra; done|lia|].
  assert (is_bytes carrier1) as Hb1 by (unfold carrier1; apply is_bytes_app; [by apply is_bytes_ztake|apply Hcar]).
  assert (20 <= IpAddr.hdr_min (IpAddr.ipver (zdrop ip carrier)))
    by (unfold IpAddr.hdr_min, IpAddr.dst_off, IpAddr.addr_len; bool_cases; lia).
  assert (IpAddr.ipver (zdrop ip carrier1) = IpAddr.ipver (zdrop ip carrier)) as Ev.
  { unfold IpAddr.ipver. rewrite !zget_zdrop by lia. unfold carrier1. rewrite zget_app_l, zget_ztake by lia. done. }
  rewrite !(proj2 (Z.leb_le _ _)) by lia. cbn [andb].
  destruct (addressed carrier1 ip off (8 + zlen d) (ipID c) (remoteAddr c))
    as (arr & -> & El2 & Esl & ad & Hget & Had); try done; try (rewrite ?Ev; lia); try (by rewrite Ev).
  cbn [mbind outcome_bind]. eexists _, _, _, _. split; [done|]. cbn [h_ remoteAddr ipID].
  split_and!; try done; [lia|wrap_lia|by rewrite Esl|]. intros _ _.
  exists ad. rewrite zdrop_app_exact by (apply zlen_ztake; lia). rewrite El2. done.
Qed.

(** ** Any sequence of steps *)

Lemma inv_restart c s : inv s -> represents (h_ c) [] [] -> remoteAddr c = [] -> ipID c = ipID (conn s) ->
  inv (restarted c s).
Proof.
  intros (_ & _ & Hid & Hp) Hr Ha Hi. split.
  2: { cbn [restarted conn callers]. rewrite Ha, Hi. split_and!; [apply Forall_nil_2|done|done]. }
  exists [], [], [], []. by split_and!.
Qed.

Lemma inv_with_conn c s :
  inv s -> (forall rx tx, represents (h_ (conn s)) rx tx -> represents (h_ c) rx tx) ->
  is_bytes (remoteAddr c) -> ipID c = ipID (conn s) -> inv (with_conn c s).
Proof.
  intros ((rx & tx & sent & rd & Hr & HI) & _ & Hid & Hp) Hrep Ha Hi. split.
  2: { cbn [with_conn conn callers]. rewrite Hi. by split_and!. }
  exists rx, tx, sent, rd. split; [by apply Hrep|exact HI].
Qed.

Lemma inv_step s l s' : inv s -> sys_step s l s' -> inv s'.
Proof.
  intros Hinv Hs. pose proof Hinv as ((rx & tx & sent & rd & Hr & Hw & He & Ht & Hg) & Ha & Hid & Hp).
  destruct Hs as [s t Hpc|s i t now t' c' evs Hi Hst|s carrier off c' err Hb Hd|s carrier ip off c' carrier' n err Hc Henc
    |s|s lport raddr rport c' err Hl Hrp Hra Ho|s t r|s|s cfg c' err Hcf].
  - split; [exists rx, tx, sent, rd; by split_and!|]. split_and!; [done|done|].
    apply Forall_app. split; [done|by apply Forall_singleton].
  - destruct (step_section now t (conn s) rx tx t' c' evs Hr) as ((rx' & tx' & rd' & Hr' & Ea & Ei & Etx & Erx & Hgot) & Hpc');
      [by eapply Forall_lookup_1|done|].
    split; [|cbn; rewrite Ea, Ei; split_and!; [done|done|by apply Forall_insert]].
    exists rx', tx', sent, (rd ++ rd'). split_and!; [done| |done| |by apply Forall2_app].
    + cbn. by rewrite Hw, Etx, app_assoc.
    + cbn. by rewrite Ht, Erx, app_assoc.
  - destruct (Demux_refines _ _ _ _ _ _ _ Hr Hb Hd) as (Ea & Ei & Hok & Hno).
    split; [|cbn; rewrite Ea, Ei; by split_and!]. cbn. destruct err as [e|].
    + exists rx, tx, sent, rd. rewrite bool_decide_false by done. split_and!; try done. by apply Hno.
    + exists (rx ++ [payload (zdrop off carrier)]), tx, sent, rd. rewrite bool_decide_true by done.
      split_and!; try done; [by apply Hok|]. by rewrite fmap_app, Ht, app_assoc.
  - destruct (Encapsulate_refines _ _ _ carrier ip off Hr Ha Hid Hc) as (c2 & car2 & n2 & e2 & E & _ & Ea & Ei & HE).
    rewrite E in Henc. simplify_eq. split; [|cbn; rewrite Ea; by split_and!]. cbn.
    destruct tx as [|d tx]; [|destruct (decide _)].
    + destruct HE as (-> & ->). by exists rx, [], sent, rd.
    + destruct HE as (_ & -> & Hr' & _ & Hcar & _). pose proof (zlen_nonneg d).
      rewrite (proj2 (Z.ltb_lt 0 (8 + zlen d))) by lia. exists rx, tx, (sent ++ [d]), rd.
      split_and!; [done|by rewrite Hw, <- app_assoc| |done|done]. apply Forall2_app; [done|].
      constructor; [|constructor]. by eapply carries_ports.
    + destruct HE as (-> & _ & ->). by exists rx, (d :: tx), sent, rd.
  - by apply inv_with_conn.
  - unfold Open, UdpHandler.SetPorts in Ho. repeat case_match; simplify_eq; apply inv_with_conn; try done.
    intros rx2 tx2 (Hrx2 & Htx2 & _). unfold represents. by split_and!.
  - unfold SetReadDeadline, SetWriteDeadline. apply inv_with_conn; try done; by repeat case_match.
  - apply inv_restart; try done. by eapply represents_reset.
  - unfold Configure in Hcf. cbn [negb] in Hcf. cbn zeta in Hcf.
    destruct (UdpHandler.Configure (h_ (abort (conn s))) cfg) as [h' e] eqn:E. simplify_eq.
    apply inv_restart; try done. cbn [h_ with_h]. destruct err as [e|]; [|by eapply represents_configure].
    assert (h' = h_ (abort (conn s))) as -> by (unfold UdpHandler.Configure in E; case_match; by simplify_eq).
    cbn. by eapply represents_reset.
Qed.

(** ** Two sockets and a network that loses frames *)

Record net := mkNet { sA : sys; sB : sys; wire : list (list Z) }.

Definition outputs (l : label) : list (list Z) := match l with Out f => [f] | _ => [] end.
Definition local (l : label) : Prop := match l with Tau | Out _ => True | _ => False end.

(** Frames leave in order and some are lost; on the way the checksum may be filled in. *)
Inductive net_step : net -> net -> Prop :=
| N_sender n l s : l <> Restart -> sys_step (sA n) l s -> net_step n (mkNet s (sB n) (wire n ++ outputs l))
| N_receiver n l s : local l -> sys_step (sB n) l s -> net_step n (mkNet (sA n) s (wire n))
| N_lose n w : sublist w (wire n) -> net_step n (mkNet (sA n) (sB n) w)
| N_deliver n f w crc s : wire n = f :: w -> sys_step (sB n) (In (put f 6 (bytes16 crc))) s ->
    net_step n (mkNet (sA n) s w).

Definition net_inv (n : net) : Prop :=
  inv (sA n) /\ inv (sB n) /\
  sublist ((payload <$> taken (sB n)) ++ (payload <$> wire n)) (payload <$> emitted (sA n)) /\
  Forall (fun f => 8 <= zlen f /\ be16 f 4 <= zlen f) (wire n).

Lemma payload_carried f src dst d : carries f src dst d -> payload f = d.
Proof. intros (_ & _ & E & _ & Hs & _). unfold payload. by rewrite E. Qed.
Lemma payload_put_crc f crc : 8 <= zlen f -> be16 f 4 <= zlen f -> payload (put f 6 (bytes16 crc)) = payload f.
Proof.
  intros Hl Hb. unfold payload. rewrite be16_put_out by (change (zlen (bytes16 crc)) with 2; lia).
  destruct (Z.le_gt_cases 8 (be16 f 4)).
  - apply slice_put_out; change (zlen (bytes16 crc)) with 2; lia.
  - unfold slice. by rewrite !ztake_nonpos by lia.
Qed.

Lemma step_emitted s l s' : sys_step s l s' -> l <> Restart -> emitted s' = emitted s ++ outputs l.
Proof.
  intros [] Hl; cbn; rewrite ?app_nil_r; try done. case_match; [done|]. by rewrite app_nil_r.
Qed.
Lemma step_taken s l s' : sys_step s l s' -> local l -> taken s' = taken s.
Proof. intros [] Hl; try done. Qed.
Lemma step_taken_in s f s' : sys_step s (In f) s' -> taken s' = taken s \/ taken s' = taken s ++ [f].
Proof.
  inversion 1; subst; [cbn; case_match; auto|]. by case_match.
Qed.

Lemma emitted_frame s f : inv s -> f ∈ emitted s -> 8 <= zlen f /\ be16 f 4 <= zlen f.
Proof.
  intros ((rx & tx & sent & rd & _ & _ & He & _) & _) Hf.
  apply list_elem_of_lookup in Hf as [i Hi]. eapply Forall2_lookup_l in He as (d & _ & Hc); [|done].
  destruct Hc as (_ & _ & E & Hl & _). pose proof (zlen_nonneg d). lia.
Qed.

Lemma sublist_map {A B} (g : A -> B) l k : sublist l k -> sublist (g <$> l) (g <$> k).
Proof. induction 1; cbn; by constructor. Qed.

Lemma net_inv_step n n' : net_inv n -> net_step n n' -> net_inv n'.
Proof.
  intros (HA & HB & Hsub & Hw) Hs.
  destruct Hs as [n l s Hl Hs|n l s Hl Hs|n w Hsw|n f w crc s Ew Hs]; unfold net_inv; cbn [sA sB wire].
  - pose proof (inv_step _ _ _ HA Hs) as HA'. pose proof (step_emitted _ _ _ Hs Hl) as Ee. split_and!; [done|done| |].
    + rewrite Ee, !fmap_app, app_assoc. by apply sublist_app.
    + apply Forall_app. split; [done|]. apply Forall_forall. intros f Hf. apply (emitted_frame s); [done|].
      rewrite Ee. set_solver.
  - pose proof (inv_step _ _ _ HB Hs) as HB'. split_and!; [done|done| |done]. by rewrite (step_taken _ _ _ Hs Hl).
  - split_and!; [done|done| |].
    2: { apply Forall_forall. intros f Hf. rewrite Forall_forall in Hw. apply Hw. by eapply elem_of_sublist. }
    etrans; [|exact Hsub]. apply sublist_app; [done|]. by apply sublist_map.
  - pose proof (inv_step _ _ _ HB Hs) as HB'. rewrite Ew in Hsub, Hw. apply Forall_cons in Hw as [[Hf8 Hf] Hw].
    split_and!; [done|done| |done]. etrans; [|exact Hsub]. destruct (step_taken_in _ _ _ Hs) as [-> | ->].
    + apply sublist_app; [done|]. cbn. by constructor.
    + rewrite fmap_app, <- app_assoc. cbn. rewrite payload_put_crc by done. done.
Qed.

Lemma net_inv_rtc n n' : rtc net_step n n' -> net_inv n -> net_inv n'.
Proof. induction 1; eauto using net_inv_step. Qed.

Lemma written_payloads s : inv s -> exists waiting, written s = (payload <$> emitted s) ++ waiting.
Proof.
  intros ((rx & tx & sent & rd & _ & -> & He & _) & _). exists tx. f_equal.
  clear -He. induction He as [|f d fs ds Hc _ IH]; [done|]. cbn. by rewrite (payload_carried _ _ _ _ Hc), IH.
Qed.

(** C18: Datagrams keep their boundaries and their order between two sockets. However the
    callers of both sockets write datagrams of at most 65527 octets, the most that a UDP
    frame carries, read, close, open and set deadlines concurrently, however the stack
    collects and delivers frames, and whichever frames the network loses, what the
    readers of one socket have got is, datagram by datagram, a subsequence in order of
    what the writers of the other one have written, each datagram whole or cut to the
    room of its reader; and no [Read] or [Write] panics. The runs are those between two
    calls of [Abort] or [Configure], which empty the queues; a longer datagram is taken
    by [Write] and makes the stack panic ([udp_large_datagram_panics]). *)
Theorem udp_sockets_in_order n n'
  (HA : fresh (sA n)) (HB : fresh (sB n)) (Hw : wire n = []) (Hrun : rtc net_step n n') :
  (exists ds, sublist ds (written (sA n')) /\ Forall2 (fun r d => r.2 = ztake r.1 d) (got (sB n')) ds) /\
  Forall (fun t => t <> Crashed) (callers (sA n') ++ callers (sB n')).
Proof.
  apply net_inv_rtc in Hrun as (HA' & HB' & Hsub & _).
  2: { split_and!; [by apply fresh_inv|by apply fresh_inv| |by rewrite Hw].
    destruct HB as (_ & _ & _ & _ & _ & _ & -> & _). rewrite Hw. apply sublist_nil_l. }
  split.
  - destruct (written_payloads _ HA') as (waiting & ->).
    destruct HB' as ((rx & tx & sent & rd & _ & _ & _ & Ht & Hg) & _). exists rd. split; [|done].
    rewrite Ht in Hsub. apply sublist_inserts_r. etrans; [|exact Hsub].
    by apply sublist_inserts_r, sublist_inserts_r.
  - destruct HA' as (_ & _ & _ & HcA), HB' as (_ & _ & _ & HcB). apply Forall_app.
    split; (eapply Forall_impl; [done|]); by intros [] ? ?.
Qed.

(** Sockets with buffers of 16 octets and queues of 2. *)
Definition zero_handler : UdpHandler.Handler :=
  UdpHandler.mkHandler 0 (Ring.mkRing [] 0 0) (UdpHandler.mkQueue [] 0) (Ring.mkRing [] 0 0)
    (UdpHandler.mkQueue [] 0) false 0 0.
Definition demo_cfg : UdpHandler.ConnConfig := UdpHandler.mkConnConfig (replicate 16 0) (replicate 16 0) 2 2.
Definition demo_conn (lport rport : Z) : Conn :=
  fst (Open lport [10; 0; 0; rport] rport (fst (Configure demo_cfg true (mkConn zero_handler [] None None 0)))).
Definition demo_carrier : list Z := 69 :: replicate 59 0.

Lemma demo_represents lport rport : 0 < lport < 2 ^ 16 -> 0 < rport < 2 ^ 16 ->
  represents (h_ (demo_conn lport rport)) [] [].
Proof.
  intros Hl Hr. unfold demo_conn, Open. replace (UdpHandler.IsOpen _) with false by done.
  unfold UdpHandler.SetPorts. rewrite !(proj2 (Z.eqb_neq _ 0)) by lia. cbn [fst h_].
  destruct (represents_configure (UdpHandler.Abort zero_handler) demo_cfg _ eq_refl) as (H1 & H2 & _).
  split; [exact H1|]. split; [exact H2|]. split; cbn [UdpHandler.lport UdpHandler.rport]; wrap_lia.
Qed.

Definition demo_sys (lport rport : Z) (t : pc) : sys := mkSys (demo_conn lport rport) [t] [] [] [] [].
Definition demo_net : net :=
  mkNet (demo_sys 7 9 (WriteStart [1; 2; 3])) (demo_sys 9 7 (ReadStart [0; 0])) [].

Lemma udp_sockets_in_order_witness :
  exists n', rtc net_step demo_net n' /\ written (sA n') = [[1; 2; 3]] /\ got (sB n') = [(2, [1; 2])] /\
  (exists ds, sublist ds (written (sA n')) /\ Forall2 (fun r d => r.2 = ztake r.1 d) (got (sB n')) ds) /\
  Forall (fun t => t <> Crashed) (callers (sA n') ++ callers (sB n')).
Proof.
  assert (exists n', rtc net_step demo_net n' /\ written (sA n') = [[1; 2; 3]] /\ got (sB n') = [(2, [1; 2])])
    as (n' & Hrun & Hw & Hg).
  { eexists. split.
    - do 2 (eapply rtc_l; [eapply (N_sender _ Tau); [done|]; eapply (S_section _ 0 _ 0); [reflexivity|vm_compute; reflexivity]|]).
      eapply rtc_l; [eapply N_sender; [|eapply (S_encapsulate _ demo_carrier 0 20); [|vm_compute; reflexivity]]|].
      { done. }
      { split_and!; [apply (bool_decide_unpack _); vm_compute; done|done|done|]. right; right. vm_compute. naive_solver. }
      eapply rtc_l; [eapply (N_deliver _ _ _ 5); [vm_compute; reflexivity|]|].
      { apply (S_demux _ _ 0); [apply (bool_decide_unpack _); vm_compute; done|vm_compute; reflexivity]. }
      do 2 (eapply rtc_l; [eapply (N_receiver _ Tau); [done|]; eapply (S_section _ 0 _ 0); [reflexivity|vm_compute; reflexivity]|]).
      apply rtc_refl.
    - vm_compute. done. }
  exists n'. split; [exact Hrun|]. split; [exact Hw|]. split; [exact Hg|].
  apply (udp_sockets_in_order demo_net n'); [| |done|exact Hrun];
    (split; [by apply demo_represents|]; split_and!; try done; repeat constructor; done).
Defined.

End UdpConnThms.

(** ** UDP connections: what is written arrives

    With room in the buffers and queues and a network that loses nothing, the datagrams
    of one socket are read whole and in order at the other. *)
Module UdpDelivery.
Import Bytes RingProps UdpProps UdpConn UdpConnThms.
Open Scope Z_scope.
Open Scope list_scope.

(** Calls that do not have to wait. *)
Definition Write_now (now : Z) (b : list Z) (c : Conn) : pc * Conn :=
  let '(t, c, _) := step now (WriteStart b) c in fst (step now t c).
Definition Read_now (now : Z) (b : list Z) (c : Conn) : pc * Conn :=
  let '(t, c, _) := step now (ReadStart b) c in fst (step now t c).

Fixpoint write_all (now : Z) (ds : list (list Z)) (c : Conn) : option Conn :=
  match ds with
  | [] => Some c
  | d :: ds =>
      match Write_now now d c with
      | (Done n _ None, c) => if n =? zlen d then write_all now ds c else None
      | _ => None
      end
  end.
Fixpoint transfer (n : nat) (carrier : list Z) (ip off : Z) (cA cB : Conn) : option (Conn * Conn) :=
  match n with
  | O => Some (cA, cB)
  | S n =>
      match Encapsulate carrier ip off cA with
      | Ret (cA, carrier', k, None) =>
          match Demux (slice carrier' off (off + k)) 0 cB with
          | Ret (cB, None) => transfer n carrier ip off cA cB
          | _ => None
          end
      | _ => None
      end
  end.
Fixpoint read_all (now : Z) (bufs : list (list Z)) (c : Conn) : option (list (list Z) * Conn) :=
  match bufs with
  | [] => Some ([], c)
  | b :: bufs =>
      match Read_now now b c with
      | (Done n b' None, c) =>
          match read_all now bufs c with
          | Some (ds, c) => Some (ztake n b' :: ds, c)
          | None => None
          end
      | _ => None
      end
  end.

Lemma queue_free r q ds : queue_holds r q ds -> Ring.Free r = Ring.Size r - zlen (mjoin ds).
Proof. intros [(Hw & Hc & _ & _) _]. rewrite Free_Buffered, <- zlen_contents by done. by rewrite Hc. Qed.

Lemma write_now_ok now d c rx tx :
  represents (h_ c) rx tx -> UdpHandler.closeCalled (h_ c) = false -> dgram_ok d ->
  zlen tx < UdpHandler.q_cap (UdpHandler.txDgrams (h_ c)) ->
  zlen (mjoin tx) + zlen d <= Ring.Size (UdpHandler.txRing (h_ c)) ->
  exists h', Write_now now d c = (Done (zlen d) d None, with_h h' c) /\
    represents h' rx (tx ++ [d]) /\ limits h' = limits (h_ c).
Proof.
  intros Hr Hc [Hb Hd] Hq Hf. pose proof (queue_free _ _ _ (proj1 (proj2 Hr))) as EF.
  unfold Write_now. cbn [step]. destruct (Z.eqb_spec (zlen d) 0); [lia|]. unfold lockPipeConnID. rewrite Hc.
  cbn [andb step]. unfold write_body. rewrite Hc, Z.eqb_refl. cbn [negb orb].
  destruct (Write_refines _ _ _ d Hr Hb) as (h' & n' & err & -> & Hok & _); [lia|].
  destruct Hok as (-> & -> & Hr' & Hl); [lia|]. rewrite (proj2 (Z.ltb_lt _ _)) by lia. eauto.
Qed.

Lemma write_all_ok now ds c rx tx :
  represents (h_ c) rx tx -> UdpHandler.closeCalled (h_ c) = false -> Forall dgram_ok ds ->
  zlen tx + zlen ds <= UdpHandler.q_cap (UdpHandler.txDgrams (h_ c)) ->
  zlen (mjoin tx) + zlen (mjoin ds) <= Ring.Size (UdpHandler.txRing (h_ c)) ->
  exists h', write_all now ds c = Some (with_h h' c) /\ represents h' rx (tx ++ ds) /\ limits h' = limits (h_ c).
Proof.
  revert c tx. induction ds as [|d ds IH]; intros c tx Hr Hc Hd Hq Hf.
  { exists (h_ c). rewrite app_nil_r. destruct c. done. }
  apply Forall_cons in Hd as [Hdd Hds]. rewrite zlen_cons in Hq. rewrite zlen_mjoin_cons in Hf.
  pose proof (zlen_nonneg ds). pose proof (zlen_nonneg (mjoin ds)).
  destruct (write_now_ok now d c rx tx) as (h' & E & Hr' & Hl); [done|done|done|lia|lia|].
  cbn [write_all]. rewrite E, Z.eqb_refl. assert (limits h' = limits (h_ c)) as Hl2 by done.
  unfold limits in Hl2. injection Hl2 as _ _ ES EQ _ _ EC.
  destruct (IH (with_h h' c) (tx ++ [d])) as (h2 & E2 & Hr2 & Hl3); cbn [with_h h_]; try done.
  - congruence.
  - rewrite EQ, zlen_app, zlen_cons, zlen_nil. lia.
  - rewrite ES, mjoin_snoc, zlen_app. lia.
  - exists h2. rewrite E2, Hl3, <- app_assoc in *. done.
Qed.

Lemma read_now_ok now b c d rx tx :
  represents (h_ c) (d :: rx) tx -> zlen d <= zlen b ->
  exists h' b', Read_now now b c = (Done (zlen d) b' None, with_h h' c) /\ ztake (zlen d) b' = d /\
    represents h' rx tx.
Proof.
  intros Hr Hb. pose proof (items_len _ _ _ (proj1 Hr)) as Hlen. rewrite zlen_cons in Hlen.
  pose proof (zlen_nonneg rx). pose proof Hr as ([(Hw & Hc & _ & [[_ Hd] _]%Forall_cons) _] & _).
  assert (UdpHandler.BufferedInput (h_ c) <> 0) as HB.
  { unfold UdpHandler.BufferedInput. rewrite <- zlen_contents, Hc, zlen_mjoin_cons by done.
    pose proof (zlen_nonneg (mjoin rx)). lia. }
  unfold Read_now. cbn [step]. unfold lockPipeConnID. rewrite (proj2 (Z.eqb_neq _ 0)) by lia.
  rewrite andb_false_r. cbn [step]. unfold read_body. rewrite (proj2 (Z.eqb_neq _ _) HB), andb_false_r, Z.eqb_refl.
  cbn [negb orb]. destruct (ReadNext_refines _ _ _ b Hr) as (h' & b' & n & -> & Hn & Hb' & Hr' & _).
  rewrite Z.min_r in Hn by done. subst n. rewrite (proj2 (Z.ltb_lt _ _)) by lia.
  exists h', b'. split_and!; [done| |done]. rewrite Hb', (ztake_ge (zlen d) d) by lia. by apply ztake_app_exact.
Qed.

Lemma read_all_ok now bufs c ds rx tx :
  represents (h_ c) (ds ++ rx) tx -> Forall2 (fun b d => zlen d <= zlen b) bufs ds ->
  exists c', read_all now bufs c = Some (ds, c') /\ represents (h_ c') rx tx.
Proof.
  intros Hr HF. revert c Hr. induction HF as [|b d bufs ds Hbd _ IH]; intros c Hr; [by exists c|].
  destruct (read_now_ok now b c d (ds ++ rx) tx Hr Hbd) as (h' & b' & E & Ed & Hr').
  cbn [read_all]. rewrite E. destruct (IH (with_h h' c) Hr') as (c' & -> & Hr2). exists c'. by rewrite Ed.
Qed.

(** Two open sockets whose ports and addresses match. *)
Definition peers (cA cB : Conn) : Prop :=
  UdpHandler.closeCalled (h_ cA) = false /\ UdpHandler.closeCalled (h_ cB) = false /\
  LocalPort cA = RemotePort cB /\ RemotePort cA = LocalPort cB /\
  is_bytes (remoteAddr cA) /\ is_u16 (ipID cA).

Lemma peers_limits cA cB cA' cB' :
  peers cA cB -> limits (h_ cA') = limits (h_ cA) -> limits (h_ cB') = limits (h_ cB) ->
  remoteAddr cA' = remoteAddr cA -> is_u16 (ipID cA') -> peers cA' cB'.
Proof.
  unfold peers, LocalPort, RemotePort, limits. intros (? & ? & ? & ? & ? & ?) [=] [=] Ea Hi. rewrite Ea.
  split_and!; congruence || done.
Qed.

Lemma demux_ok f c rx tx d :
  represents (h_ c) rx tx -> UdpHandler.closeCalled (h_ c) = false -> dgram_ok d ->
  carries f (RemotePort c) (LocalPort c) d ->
  zlen rx < UdpHandler.q_cap (UdpHandler.rxDgrams (h_ c)) ->
  zlen (mjoin rx) + zlen d <= Ring.Size (UdpHandler.rxRing (h_ c)) ->
  exists c', Demux f 0 c = Ret (c', None) /\ represents (h_ c') (rx ++ [d]) tx /\ limits (h_ c') = limits (h_ c).
Proof.
  intros Hr Hc [_ Hd] Hcar Hq Hf. pose proof (queue_free _ _ _ (proj1 Hr)) as EF.
  pose proof (payload_carried _ _ _ _ Hcar) as Hpay. destruct Hcar as (E0 & E2 & E4 & Hl & _ & Hb).
  unfold Demux. rewrite Hc. pose proof (zlen_nonneg f). unfold assert_or_panic, slice_ok.
  rewrite !(proj2 (Z.leb_le _ _)) by lia. cbn [andb]. rewrite zdrop_nonpos by lia.
  destruct (Recv_refines _ _ _ f Hr Hb) as (h' & err & -> & Hok & _).
  destruct Hok as (-> & Hr' & Hlim).
  { unfold acceptable, LocalPort, RemotePort in *. split_and!; done || lia. }
  cbn [mbind outcome_bind]. exists (with_h h' c). split_and!; [done| |done]. unfold payload in Hpay. by rewrite Hpay in Hr'.
Qed.

Lemma transfer_ok carrier ip off ds cA cB rxA rx txB :
  represents (h_ cA) rxA ds -> represents (h_ cB) rx txB -> peers cA cB -> carrier_ok cA carrier ip off ->
  Forall (fun d => off + 8 + zlen d <= zlen carrier) ds -> Forall dgram_ok ds ->
  zlen rx + zlen ds <= UdpHandler.q_cap (UdpHandler.rxDgrams (h_ cB)) ->
  zlen (mjoin rx) + zlen (mjoin ds) <= Ring.Size (UdpHandler.rxRing (h_ cB)) ->
  exists cA' cB', transfer (length ds) carrier ip off cA cB = Some (cA', cB') /\
    represents (h_ cA') rxA [] /\ represents (h_ cB') (rx ++ ds) txB.
Proof.
  revert cA cB rx. induction ds as [|d ds IH]; intros cA cB rx HA HB Hp Hcar Hroom Hok Hq Hf.
  { exists cA, cB. by rewrite app_nil_r. }
  apply Forall_cons in Hroom as [Hrd Hroom], Hok as [Hdd Hds]. rewrite zlen_cons in Hq. rewrite zlen_mjoin_cons in Hf.
  pose proof (zlen_nonneg ds). pose proof (zlen_nonneg (mjoin ds)).
  pose proof Hp as (HcA & HcB & Hp1 & Hp2 & Hba & Hid).
  destruct (Encapsulate_refines _ _ _ carrier ip off HA Hba Hid Hcar) as (cA1 & car1 & n & err & E & _ & Ea & Ei & HE).
  rewrite decide_True in HE by (split; [done|lia]). destruct HE as (-> & -> & HA1 & HlA & Hc1 & _).
  destruct (demux_ok (slice car1 off (off + (8 + zlen d))) cB rx txB d) as (cB1 & E1 & HB1 & HlB); try done; [|lia|lia|].
  { by rewrite <- Hp1, <- Hp2. }
  cbn [length transfer]. rewrite E, E1. assert (limits (h_ cB1) = limits (h_ cB)) as Hl2 by done.
  unfold limits in Hl2. injection Hl2 as ES EQ _ _ _ _ EC.
  destruct (IH cA1 cB1 (rx ++ [d])) as (cA2 & cB2 & E2 & HA2 & HB2); try done.
  - by eapply peers_limits.
  - unfold carrier_ok. rewrite Ea. exact Hcar.
  - rewrite EQ, zlen_app, zlen_cons, zlen_nil. lia.
  - rewrite ES, mjoin_snoc, zlen_app. lia.
  - exists cA2, cB2. rewrite E2, <- app_assoc in *. done.
Qed.

(** C19: What is written arrives. Two open sockets with matching ports and empty queues,
    datagrams of 1 to 65527 octets that fit the buffers and queues of both, a carrier
    with room for each behind its headers, readers with room for each: every write
    succeeds at once, every collected frame is accepted by the peer, and the reads give
    exactly the datagrams written, in order, after which all queues are empty. *)
Theorem udp_datagrams_delivered now carrier ip off cA cB ds bufs
  (HA : represents (h_ cA) [] []) (HB : represents (h_ cB) [] []) (Hp : peers cA cB)
  (Hds : Forall dgram_ok ds)
  (Hcar : carrier_ok cA carrier ip off) (Hroom : Forall (fun d => off + 8 + zlen d <= zlen carrier) ds)
  (HqA : zlen ds <= UdpHandler.q_cap (UdpHandler.txDgrams (h_ cA)))
  (HsA : zlen (mjoin ds) <= SizeOutput cA)
  (HqB : zlen ds <= UdpHandler.q_cap (UdpHandler.rxDgrams (h_ cB)))
  (HsB : zlen (mjoin ds) <= SizeInput cB)
  (Hbufs : Forall2 (fun b d => zlen d <= zlen b) bufs ds) :
  exists cA1 cA2 cB1 cB2, write_all now ds cA = Some cA1 /\
    transfer (length ds) carrier ip off cA1 cB = Some (cA2, cB1) /\
    read_all now bufs cB1 = Some (ds, cB2) /\
    represents (h_ cA2) [] [] /\ represents (h_ cB2) [] [].
Proof.
  pose proof Hp as (HcA & HcB & _ & _ & Hba & Hid).
  destruct (write_all_ok now ds cA [] []) as (h' & E1 & HA1 & Hl); try done.
  destruct (transfer_ok carrier ip off ds (with_h h' cA) cB [] [] []) as (cA2 & cB1 & E2 & HA2 & HB1); try done.
  { by eapply peers_limits. }
  destruct (read_all_ok now bufs cB1 ds [] []) as (cB2 & E3 & HB2); [by rewrite app_nil_r|done|].
  exists (with_h h' cA), cA2, cB1, cB2. by split_and!.
Qed.

Definition demo_ds : list (list Z) := [[1; 2; 3]; [4]].

Lemma udp_datagrams_delivered_witness :
  exists cA1 cA2 cB1 cB2, write_all 0 demo_ds (demo_conn 7 9) = Some cA1 /\
    transfer 2 demo_carrier 0 20 cA1 (demo_conn 9 7) = Some (cA2, cB1) /\
    read_all 0 [replicate 4 0; replicate 4 0] cB1 = Some (demo_ds, cB2) /\
    represents (h_ cA2) [] [] /\ represents (h_ cB2) [] [].
Proof.
  apply (udp_datagrams_delivered 0 demo_carrier 0 20 (demo_conn 7 9) (demo_conn 9 7) demo_ds);
    try (by apply demo_represents).
  - split_and!; try done. repeat constructor; done.
  - repeat constructor; done.
  - split_and!; [apply (bool_decide_unpack _); vm_compute; done|done|done|].
    right; right. vm_compute. naive_solver.
  - repeat constructor; vm_compute; done.
  - vm_compute; done.
  - vm_compute; done.
  - vm_compute; done.
  - vm_compute; done.
  - repeat constructor; vm_compute; done.
Defined.

(** ** Sizes the handler does not take *)

(** A datagram of 65528 to 65535 octets is queued, but its length with the header does not
    fit 16 bits: when it is its turn [Send] panics. *)
Lemma udp_large_datagram_panics h b buf
  (Hw : Ring.ring_wf (UdpHandler.txRing h)) (Hq : UdpHandler.q_items (UdpHandler.txDgrams h) = [])
  (Hcap : 0 < UdpHandler.q_cap (UdpHandler.txDgrams h)) (Hc : UdpHandler.closeCalled h = false)
  (Hb : 65528 <= zlen b <= 65535) (Hf : zlen b <= Ring.Free (UdpHandler.txRing h))
  (Hbuf : 8 + zlen b <= zlen buf) :
  exists h', UdpHandler.Write h b = Ret (h', zlen b, None) /\ UdpHandler.Send h' buf = Panic.
Proof.
  unfold UdpHandler.Write, UdpHandler.free. rewrite Hq, zlen_nil. destruct (Z.eqb_spec (UdpHandler.q_cap (UdpHandler.txDgrams h) - 0) 0); [lia|].
  destruct (ring_write_appends b (UdpHandler.txRing h) Hw) as (r' & n' & err & -> & _ & _ & _ & _ & HW).
  destruct HW as (-> & -> & _); [lia|]. cbn [mbind outcome_bind]. eexists. split; [done|].
  unfold UdpHandler.Send, UdpHandler.SliceReclaim. cbn [UdpHandler.with_tx UdpHandler.closeCalled UdpHandler.txDgrams UdpHandler.q_items].
  rewrite Hc, Hq. cbn [app]. rewrite u16_small by wrap_lia. unfold Udp.NewFrame, Udp.sizeHeader.
  destruct (Z.ltb_spec (zlen buf) 8); [lia|]. destruct (Z.ltb_spec (zlen buf - 8) (zlen b)); [lia|].
  cbn [UdpHandler.SliceDequeueFront mbind outcome_bind UdpHandler.q_items]. unfold UdpHandler.read_into, assert_or_panic, slice_ok.
  assert (u16 (8 + zlen b) < 8) as Hu by wrap_lia. rewrite (proj2 (Z.leb_gt 8 _)) by lia. rewrite !andb_false_r. done.
Qed.

(** A datagram larger than the transmit buffer never finds room: its writer, once in the
    loop, gets no count, whatever happens to the socket short of a reset with a larger
    buffer. *)
Lemma udp_oversized_write_waits id b c rx tx :
  represents (h_ c) rx tx -> is_bytes b -> zlen b <= maxDgram -> SizeOutput c < zlen b ->
  fst (fst (write_body id b c)) = WriteWait id b \/ fst (fst (write_body id b c)) = Done 0 b (Some NetErrClosed).
Proof.
  intros Hr Hb Hm Hs. unfold write_body. destruct (_ || _); [by right|]. left.
  destruct (Write_refines _ _ _ b Hr Hb Hm) as (h' & n & err & -> & _ & Hno).
  pose proof (queue_free _ _ _ (proj1 (proj2 Hr))) as EF. pose proof (zlen_nonneg (mjoin tx)).
  destruct Hno as (_ & -> & _); [|done]. intros [[_ Hf] _]. unfold SizeOutput, UdpHandler.SizeOutput in Hs. lia.
Qed.

(** A [Read] with an empty buffer consumes the datagrams that are there, one at each
    iteration, and goes on waiting. *)
Lemma udp_empty_read_discards id c d rx tx :
  represents (h_ c) (d :: rx) tx -> UdpHandler.closeCalled (h_ c) = false -> id = UdpHandler.connid (h_ c) ->
  exists h', read_body id [] c = (ReadWait id [], with_h h' c, [Got 0 []]) /\ represents h' rx tx.
Proof.
  intros Hr Hc ->. pose proof (items_len _ _ _ (proj1 Hr)) as Hlen. rewrite zlen_cons in Hlen.
  pose proof (zlen_nonneg rx). pose proof (zlen_nonneg d). unfold read_body. rewrite Hc, Z.eqb_refl. cbn [negb andb orb].
  destruct (ReadNext_refines _ _ _ [] Hr) as (h' & b' & n & -> & Hn & Hb' & Hr' & _).
  rewrite zlen_nil, Z.min_l in Hn by lia. subst n. rewrite (proj2 (Z.ltb_lt 0 (zlen _))) by lia.
  rewrite !ztake_nonpos, zdrop_nonpos in * by lia. subst b'. exists h'. done.
Qed.

End UdpDelivery.
