(* ===== verification/UdpPacketConn.v ===== *)
(** * UDP packet connections ([src/udp/packetconn.go])

    A [PacketConn] is a mux bound to one local address, with deadlines; its methods are
    critical sections of one mutex. [ReadFrom] and [WriteTo] repeat a section until there
    is a datagram or room: they are threads ([pc]) and [step] runs one section. *)
From S2P Require Import Prelude Errors Bytes Ring IpAddr Udp UdpHandler UdpMux.

Module UdpPacketConn.
Import Bytes UdpMux.
Open Scope Z_scope.
Open Scope list_scope.

Record PacketConn := mkPacketConn {
  m_ : muxHandler;
  localAddr : AddrPort;
  rdead : option Z;
  wdead : option Z
}.
Definition with_m (m : muxHandler) (pc : PacketConn) : PacketConn :=
  mkPacketConn m (localAddr pc) (rdead pc) (wdead pc).

Definition zeroAddrPort : AddrPort := mkAddrPort None 0.
Definition IsValid (a : AddrPort) : bool := bool_decide (is_Some (ap_addr a)).

Definition abort (pc : PacketConn) : PacketConn := mkPacketConn (UdpMux.Abort (m_ pc)) zeroAddrPort None None.
Definition Abort (pc : PacketConn) : PacketConn := abort pc.

(** [backoff]: a strategy is given. *)
Definition Configure (cfg : MuxConfig) (backoff : bool) (pc : PacketConn) : PacketConn * option error :=
  if negb backoff then (pc, Some ErrMissingHALConfig)
  else
    let pc := abort pc in
    let '(m, err) := UdpMux.Configure (m_ pc) cfg in (with_m m pc, err).

Definition Open (laddr : AddrPort) (pc : PacketConn) : outcome (PacketConn * option error) :=
  if IsValid (localAddr pc) then Ret (pc, Some errStillOpen)
  else if negb (IsValid laddr) || (ap_port laddr =? 0) then Ret (pc, Some ErrZeroSource)
  else
    m ← FilterAddLocalPort (FilterResetLocalPorts (m_ pc)) (ap_port laddr) 1;
    Ret (mkPacketConn m laddr (rdead pc) (wdead pc), None).

Definition Close (pc : PacketConn) : PacketConn := with_m (UdpMux.Close (m_ pc)) pc.
Definition LocalAddr (pc : PacketConn) : AddrPort := localAddr pc.
Definition LocalPort (pc : PacketConn) : Z := ap_port (localAddr pc).
Definition ConnectionID (pc : PacketConn) : Z := UdpMux.connid (m_ pc).

Definition Demux (carrierData : list Z) (frameOffset : Z) (stale : option (list Z)) (pc : PacketConn)
    : outcome (PacketConn * option error) :=
  '(m, err) ← UdpMux.Demux (m_ pc) carrierData frameOffset stale; Ret (with_m m pc, err).
Definition Encapsulate (carrierData : list Z) (offsetToIP offsetToFrame : Z) (pc : PacketConn)
    : outcome (PacketConn * list Z * Z * option error) :=
  '(m, carrierData, n, err) ← UdpMux.Encapsulate (m_ pc) carrierData offsetToIP offsetToFrame;
  Ret (with_m m pc, carrierData, n, err).

Definition SetReadDeadline (t : option Z) (pc : PacketConn) : PacketConn * option error :=
  if closeCalled (m_ pc) then (pc, Some NetErrClosed)
  else (mkPacketConn (m_ pc) (localAddr pc) t (wdead pc), None).
Definition SetWriteDeadline (t : option Z) (pc : PacketConn) : PacketConn * option error :=
  if closeCalled (m_ pc) then (pc, Some NetErrClosed)
  else (mkPacketConn (m_ pc) (localAddr pc) (rdead pc) t, None).
Definition SetDeadline (t : option Z) (pc : PacketConn) : PacketConn * option error :=
  if closeCalled (m_ pc) then (pc, Some NetErrClosed)
  else (mkPacketConn (m_ pc) (localAddr pc) t t, None).

Definition deadlineExceeded (now : Z) (deadline : option Z) : bool :=
  match deadline with None => false | Some d => 0 <? now - d end.

Definition lockConnID (pc : PacketConn) : option Z :=
  if closeCalled (m_ pc) && (UdpMux.BufferedInput (m_ pc) =? 0) then None else Some (connid (m_ pc)).

(** ** Blocking calls *)

Inductive pc :=
| ReadStart (p : list Z)
| ReadLoop (id : Z) (p : list Z)
| ReadWait (id : Z) (p : list Z)
| WriteStart (p : list Z) (addr : AddrPort)
| WriteLoop (id : Z) (p : list Z) (addr : AddrPort)
| WriteWait (id : Z) (p : list Z) (addr : AddrPort)
| Done (n : Z) (p : list Z) (addr : AddrPort) (err : option error)
| Crashed.

Definition read_body (id : Z) (p : list Z) (pc : PacketConn) : UdpPacketConn.pc * PacketConn :=
  if (closeCalled (m_ pc) && (UdpMux.BufferedInput (m_ pc) =? 0)) || negb (id =? connid (m_ pc))
  then (Done 0 p zeroAddrPort (Some NetErrClosed), pc)
  else
    match UdpMux.ReadNext (m_ pc) p with
    | Panic => (Crashed, pc)
    | Ret (m, p, n, _, _, addr) =>
        if 0 <? n then (Done n p addr None, with_m m pc) else (ReadWait id p, with_m m pc)
    end.

Definition write_body (id : Z) (p : list Z) (addr : AddrPort) (pc : PacketConn) : UdpPacketConn.pc * PacketConn :=
  if closeCalled (m_ pc) || negb (id =? connid (m_ pc)) then (Done 0 p zeroAddrPort (Some NetErrClosed), pc)
  else
    match UdpMux.WriteTo (m_ pc) p (ap_port (localAddr pc)) addr with
    | Panic => (Crashed, pc)
    | Ret (m, None) => (Done (zlen p) p zeroAddrPort None, with_m m pc)
    | Ret (m, Some werr) =>
        if negb (bool_decide (werr = ErrExhausted)) && negb (bool_decide (werr = ErrBufferFull))
        then (Done 0 p zeroAddrPort (Some werr), with_m m pc)
        else (WriteWait id p addr, with_m m pc)
    end.

(** One critical section of a call at time [now]. *)
Definition step (now : Z) (t : pc) (c : PacketConn) : pc * PacketConn :=
  match t with
  | ReadStart p =>
      match lockConnID c with
      | None => (Done 0 p zeroAddrPort (Some NetErrClosed), c)
      | Some id => (ReadLoop id p, c)
      end
  | ReadLoop id p => read_body id p c
  | ReadWait id p =>
      if deadlineExceeded now (rdead c) then (Done 0 p zeroAddrPort (Some errDeadlineExceeded), c)
      else (ReadLoop id p, c)
  | WriteStart p addr =>
      if zlen p =? 0 then (Done 0 p zeroAddrPort None, c)
      else
        match lockConnID c with
        | None => (Done 0 p zeroAddrPort (Some NetErrClosed), c)
        | Some id => (WriteLoop id p addr, c)
        end
  | WriteLoop id p addr => write_body id p addr c
  | WriteWait id p addr =>
      if deadlineExceeded now (wdead c) then (Done 0 p zeroAddrPort (Some errDeadlineExceeded), c)
      else (WriteLoop id p addr, c)
  | Done _ _ _ _ | Crashed => (t, c)
  end.

End UdpPacketConn.
