(* ===== verification/UdpMuxProps.v ===== *)
(** * UDP sockets with many peers: queues of addressed datagrams

    The mux represents two queues of datagrams with their ports and addresses. A server
    on a packet connection can answer whoever wrote to it. *)
From S2P Require Import Prelude Errors Bytes Ring RingProps IpAddr Udp UdpHandler UdpProps UdpConnThms UdpMux UdpPacketConn.

Module UdpMuxProps.
Import Bytes RingProps UdpProps UdpMux.
Open Scope Z_scope.
Open Scope list_scope.

(** A datagram with what the queue keeps of it. *)
Definition entries (r : Ring.Ring) (q : UdpHandler.queue dgram) (es : list (dgram * list Z)) : Prop :=
  holds r (d_length <$> UdpHandler.q_items q) es.*2 /\ UdpHandler.q_items q = es.*1 /\
  zlen es <= UdpHandler.q_cap q.
Definition mux_represents (m : muxHandler) (rx tx : list (dgram * list Z)) : Prop :=
  entries (rxRing m) (rxDgrams m) rx /\ entries (txRing m) (txDgrams m) tx /\
  Forall (fun e => is_u16 (d_lport e.1) /\ is_u16 (d_rport e.1)) tx.

Lemma entries_len r q es : entries r q es -> zlen (UdpHandler.q_items q) = zlen es.
Proof. intros (_ & -> & _). unfold zlen. by rewrite length_fmap. Qed.
Lemma entries_lengths r q es : entries r q es -> d_length <$> es.*1 = zlen <$> es.*2.
Proof. intros ((_ & _ & E & _) & Ei & _). by rewrite <- Ei. Qed.

Lemma entries_push r q es d b r' :
  entries r q es -> zlen es < UdpHandler.q_cap q -> d_length d = u16 (zlen b) ->
  holds r' ((d_length <$> UdpHandler.q_items q) ++ [u16 (zlen b)]) (es.*2 ++ [b]) ->
  entries r' (UdpHandler.SliceReclaim q d) (es ++ [(d, b)]).
Proof.
  intros He Hc Hd Hh. pose proof (entries_len _ _ _ He) as Hl. destruct He as (_ & Ei & _).
  unfold entries, UdpHandler.SliceReclaim. cbn [UdpHandler.q_items UdpHandler.q_cap].
  rewrite !fmap_app, Ei in *. split_and!; [|done|rewrite zlen_app, zlen_cons, zlen_nil; lia].
  cbn [fmap list_fmap]. by rewrite Hd.
Qed.

Lemma entries_pop r q d b es r' :
  entries r q ((d, b) :: es) -> holds r' (tail (d_length <$> UdpHandler.q_items q)) es.*2 ->
  UdpHandler.SliceDequeueFront q = Ret (d, UdpHandler.mkQueue es.*1 (UdpHandler.q_cap q)) /\
  d_length d = zlen b /\ dgram_ok b /\ entries r' (UdpHandler.mkQueue es.*1 (UdpHandler.q_cap q)) es.
Proof.
  intros He Hh. pose proof (entries_lengths _ _ _ He) as Hlen.
  destruct He as ((_ & _ & _ & [Hb _]%Forall_cons) & Ei & Hc). rewrite Ei in Hh. cbn [fmap list_fmap tail] in Hh, Hlen.
  unfold UdpHandler.SliceDequeueFront. rewrite Ei. cbn [fmap list_fmap]. injection Hlen as Hl _.
  rewrite zlen_cons in Hc. split_and!; try done. split_and!; [done|done|cbn; lia].
Qed.

(** ** The operations *)

(** The sender's address, when the frame is behind an IP header. *)
Definition sender (carrier : list Z) : option (list Z) := Some (IpAddr.ip_src (IpAddr.addrs_of carrier)).

Lemma mux_demux_ok m rx tx carrier off stale d src dst :
  mux_represents m rx tx -> closeCalled m = false -> FilterLocalPort m dst = false ->
  IpAddr.ip_header carrier (zlen carrier) -> 20 <= off <= zlen carrier ->
  carries (zdrop off carrier) src dst d -> dgram_ok d ->
  zlen rx < UdpHandler.q_cap (rxDgrams m) -> zlen d <= Ring.Free (rxRing m) ->
  exists r q, Demux m carrier off stale = Ret (with_rx r q m, None) /\
    mux_represents (with_rx r q m) (rx ++ [(mkDgram (zlen d) dst src (sender carrier), d)]) tx.
Proof.
  intros (Hrx & Htx & Hports) Hc Hfil Hip Hoff (E0 & E2 & E4 & Hl & Hsl & Hb) Hd Hq Hf.
  pose proof Hd as [_ Hz]. unfold maxDgram in Hz. unfold Demux. rewrite Hc. unfold assert_or_panic, slice_ok.
  rewrite !(proj2 (Z.leb_le _ _)) by lia. cbn [andb]. unfold Udp.NewFrame, Udp.sizeHeader.
  destruct (Z.ltb_spec (zlen (zdrop off carrier)) 8); [lia|].
  unfold Udp.DestinationPort, Udp.SourcePort, Udp.Length, Udp.RawData.
  rewrite !Uint16_ok by (done || lia). cbn [mbind outcome_bind]. rewrite E2, Hfil, E4.
  destruct (Z.ltb_spec (8 + zlen d) 8); [lia|]. destruct (Z.ltb_spec (zlen (zdrop off carrier)) (8 + zlen d)); [lia|].
  unfold UdpHandler.free. rewrite (entries_len _ _ _ Hrx). destruct (Z.eqb_spec (UdpHandler.q_cap (rxDgrams m) - zlen rx) 0); [lia|].
  rewrite Udp.udp_Payload_ok by (done || lia). cbn [mbind outcome_bind]. rewrite E4, Hsl.
  destruct (holds_write _ _ _ d (proj1 Hrx) Hd Hf) as (r' & -> & Hh & _). cbn [mbind outcome_bind].
  rewrite (IpAddr.GetIPAddr_ok _ _ Hip). cbn [mbind outcome_bind].
  assert (AddrFromSlice (IpAddr.ip_src (IpAddr.addrs_of carrier)) = sender carrier) as ->.
  { destruct Hip as [_ _ Hv Hcap]. unfold AddrFromSlice, sender, IpAddr.addrs_of. cbn [IpAddr.ip_src].
    rewrite zlen_slice by (unfold IpAddr.hdr_min, IpAddr.src_off, IpAddr.dst_off, IpAddr.addr_len in *; bool_cases; lia).
    unfold IpAddr.src_off, IpAddr.addr_len. destruct (IpAddr.ipver carrier =? 4); done. }
  eexists _, _. split; [done|]. split; [|done]. rewrite E0, u16_small by wrap_lia. 
  apply entries_push with (rxRing m); [done|done| |done]. cbn. rewrite u16_small by wrap_lia. done.
Qed.

Lemma mux_readnext_ok m d b rx tx buf :
  mux_represents m ((d, b) :: rx) tx -> zlen b <= zlen buf ->
  exists r q buf', ReadNext m buf = Ret (with_rx r q m, buf', zlen b, true, d_lport d, mkAddrPort (d_raddr d) (d_rport d)) /\
    ztake (zlen b) buf' = b /\ mux_represents (with_rx r q m) rx tx.
Proof.
  intros (Hrx & Htx & Hports) Hl. unfold ReadNext. pose proof (proj1 Hrx) as Hh0.
  destruct Hh0 as (_ & _ & _ & [[_ Hz] _]%Forall_cons). cbn [snd] in Hz.
  destruct (holds_read _ _ b _ (ztake (zlen b) buf) (proj1 Hrx)) as (r' & E & Hh & _); [by apply zlen_ztake; lia|].
  destruct (entries_pop _ _ _ _ _ _ Hrx Hh) as (Ed & Elen & _ & He).
  destruct (UdpHandler.q_items (rxDgrams m)) as [|x l] eqn:Ei; [by rewrite (proj1 (proj2 Hrx)) in Ei|].
  rewrite Ed. cbn [mbind outcome_bind]. rewrite Elen, Z.min_l by lia. rewrite E. cbn [mbind outcome_bind].
  rewrite Z.ltb_irrefl, Z.eqb_refl. eexists _, _, _. split; [done|]. split; [|done].
  unfold put. rewrite (ztake_nonpos 0) by lia. cbn [app]. by apply ztake_app_exact.
Qed.

Lemma mux_writeto_ok m rx tx b lport addr rport :
  mux_represents m rx tx -> closeCalled m = false -> dgram_ok b ->
  0 < lport < 2 ^ 16 -> 0 < rport < 2 ^ 16 ->
  zlen tx < UdpHandler.q_cap (txDgrams m) -> zlen b <= Ring.Free (txRing m) ->
  exists r q, WriteTo m b lport (mkAddrPort (Some addr) rport) = Ret (with_tx r q m, None) /\
    mux_represents (with_tx r q m) rx (tx ++ [(mkDgram (zlen b) lport rport (Some addr), b)]).
Proof.
  intros (Hrx & Htx & Hports) Hc Hb Hl Hr Hq Hf. pose proof Hb as [_ Hz]. unfold maxDgram in Hz.
  unfold WriteTo. rewrite Hc. cbn [ap_port ap_addr].
  rewrite !(proj2 (Z.eqb_neq _ 0)) by lia. rewrite bool_decide_true by done. cbn [negb orb].
  unfold UdpHandler.free. rewrite (entries_len _ _ _ Htx). destruct (Z.eqb_spec (UdpHandler.q_cap (txDgrams m) - zlen tx) 0); [lia|].
  destruct (Z.ltb_spec (Ring.Free (txRing m)) (zlen b)); [lia|].
  destruct (holds_write _ _ _ b (proj1 Htx) Hb Hf) as (r' & -> & Hh & _). cbn [mbind outcome_bind].
  rewrite bool_decide_true, Z.eqb_refl by done. cbn [negb orb]. eexists _, _. split; [done|]. rewrite u16_small by wrap_lia.
  split; [done|]. split.
  - apply entries_push with (txRing m); [done|done| |done]. cbn. rewrite u16_small by wrap_lia. done.
  - apply Forall_app. split; [done|]. apply Forall_singleton. cbn. split; wrap_lia.
Qed.

(** A carrier with an IP header of the version of [addr] before the frame. *)
Definition carrier_for (carrier : list Z) (ip off : Z) (addr : list Z) : Prop :=
  let v := IpAddr.ipver (zdrop ip carrier) in
  is_bytes carrier /\ is_bytes addr /\ 0 <= ip /\ (v = 4 \/ v = 6) /\ zlen addr = IpAddr.addr_len v /\
  ip + IpAddr.hdr_min v <= off <= zlen carrier.

Lemma put_raddr_ok carrier at_ addr : 0 <= at_ -> at_ + zlen addr <= zlen carrier ->
  put_raddr carrier at_ addr = Ret (put carrier at_ addr).
Proof.
  intros Ha Hl. pose proof (zlen_nonneg addr). unfold put_raddr, assert_or_panic, slice_ok.
  rewrite !(proj2 (Z.leb_le _ _)) by lia. done.
Qed.

Lemma mux_encapsulate_ok m d b rx tx carrier ip off addr (v := IpAddr.ipver (zdrop ip carrier)) :
  mux_represents m rx ((d, b) :: tx) -> closeCalled m = false -> d_raddr d = Some addr ->
  carrier_for carrier ip off addr -> off + 8 + zlen b <= zlen carrier ->
  exists r q carrier', Encapsulate m carrier ip off = Ret (with_tx r q m, carrier', 8 + zlen b, None) /\
    carries (slice carrier' off (off + (8 + zlen b))) (d_lport d) (d_rport d) b /\
    slice carrier' (ip + IpAddr.dst_off v) (ip + IpAddr.hdr_min v) = addr /\
    mux_represents (with_tx r q m) rx tx.
Proof.
  intros (Hrx & Htx & Hports) Hc Ha (Hb & Hba & Hip & Hv & Hal & Hoff) Hl. fold v in Hv, Hal, Hoff.
  apply Forall_cons in Hports as [[Hlp Hrp] Hports].
  assert (0 <= IpAddr.dst_off v /\ 20 <= IpAddr.hdr_min v /\ IpAddr.dst_off v + IpAddr.addr_len v = IpAddr.hdr_min v)
    as (Hd0 & Hd20 & Hdh) by (unfold IpAddr.hdr_min, IpAddr.dst_off, IpAddr.addr_len; bool_cases; lia).
  unfold Encapsulate. rewrite Hc.
  assert (zlen (zdrop off carrier) = zlen carrier - off) as El by (apply zlen_zdrop; lia).
  assert (is_bytes (zdrop off carrier)) as Hbd by (by apply is_bytes_zdrop).
  destruct (read_into_ok _ _ b tx.*2 (zdrop off carrier) (proj1 Htx)) as (r' & E & Hh & _ & Hsl & Hb'); [lia|done|].
  destruct (entries_pop _ _ _ _ _ _ Htx Hh) as (Ed & Elen & [_ Hz] & He). unfold maxDgram in Hz.
  destruct (UdpHandler.q_items (txDgrams m)) as [|x l] eqn:Ei; [by rewrite (proj1 (proj2 Htx)) in Ei|].
  unfold assert_or_panic, slice_ok. rewrite (proj2 (Z.leb_le 0 off)), (proj2 (Z.leb_le off (zlen carrier))), (proj2 (Z.leb_le (zlen carrier) (zlen carrier))) by lia.
  cbn [andb]. unfold Udp.NewFrame, Udp.sizeHeader.
  destruct (Z.ltb_spec (zlen (zdrop off carrier)) 8); [lia|]. rewrite Ed. cbn [mbind outcome_bind]. rewrite Elen.
  destruct (Z.ltb_spec (zlen (zdrop off carrier) - 8) (zlen b)); [lia|]. rewrite E. cbn [mbind outcome_bind].
  assert (zlen (put (zdrop off carrier) 8 b) = zlen carrier - off) as Elp by (rewrite zlen_put; lia).
  destruct (put_header_ok (put (zdrop off carrier) 8 b) (d_lport d) (d_rport d) (zlen b))
    as (buf & -> & Elb & Hbb & E0 & E2 & E4 & Hsame); [lia|done|done|done|wrap_lia|].
  cbn [mbind outcome_bind]. rewrite Ha, (proj2 (Z.leb_le 0 ip)) by lia.
  set (carrier1 := ztake off carrier ++ buf).
  assert (zlen (ztake off carrier) = off) as Elt by (apply zlen_ztake; lia).
  assert (zlen carrier1 = zlen carrier) as El1 by (unfold carrier1; rewrite zlen_app; lia).
  assert (carries (slice carrier1 off (off + (8 + zlen b))) (d_lport d) (d_rport d) b) as Hcar.
  { unfold carrier1. rewrite slice_behind by lia. apply UdpConnThms.carries_ztake.
    unfold carries. rewrite Hsame by lia. split_and!; done || lia. }
  destruct (at_ok carrier1 ip) as (b0 & Eb0 & ->); [lia|]. cbn [mbind outcome_bind].
  assert (Z.shiftr b0 4 = v) as Ev.
  { unfold v, IpAddr.ipver. rewrite zget_zdrop, Z.add_0_r by lia. unfold carrier1 in Eb0.
    rewrite zget_app_l, zget_ztake in Eb0 by lia. by rewrite Eb0. }
  rewrite Ev. exists r', (UdpHandler.mkQueue tx.*1 (UdpHandler.q_cap (txDgrams m))), (put carrier1 (ip + IpAddr.dst_off v) addr).
  split.
  - destruct Hv as [Ev'|Ev']; rewrite Ev' in *; cbn [Z.eqb Pos.eqb andb] in *; rewrite Hal; cbn [Z.eqb Pos.eqb IpAddr.addr_len andb];
      unfold IpAddr.dst_off, IpAddr.hdr_min, IpAddr.addr_len in *; cbn [Z.eqb Pos.eqb] in *;
      rewrite put_raddr_ok by lia; cbn [mbind outcome_bind]; rewrite u16_small by wrap_lia; done.
  - split; [rewrite slice_put_out by lia; exact Hcar|]. split; [|done].
    replace (ip + IpAddr.hdr_min v) with (ip + IpAddr.dst_off v + zlen addr) by lia. apply slice_put_in; lia.
Qed.

(** ** A server on a packet connection *)

Import UdpPacketConn.

(** Calls that do not have to wait. *)
Definition ReadFrom_now (now : Z) (p : list Z) (c : PacketConn) : pc * PacketConn :=
  let '(t, c) := step now (ReadStart p) c in step now t c.
Definition WriteTo_now (now : Z) (p : list Z) (addr : AddrPort) (c : PacketConn) : pc * PacketConn :=
  let '(t, c) := step now (WriteStart p addr) c in step now t c.

Lemma readfrom_now_ok now p c d b rx tx :
  mux_represents (m_ c) ((d, b) :: rx) tx -> zlen b <= zlen p ->
  exists r q p', ReadFrom_now now p c =
      (Done (zlen b) p' (mkAddrPort (d_raddr d) (d_rport d)) None, with_m (UdpMux.with_rx r q (m_ c)) c) /\
    ztake (zlen b) p' = b /\ mux_represents (UdpMux.with_rx r q (m_ c)) rx tx.
Proof.
  intros Hr Hl. pose proof (proj1 (proj1 Hr)) as (Hw & Hc & _ & [[_ Hz] _]%Forall_cons). cbn [snd] in Hz.
  assert (UdpMux.BufferedInput (m_ c) <> 0) as HB.
  { unfold UdpMux.BufferedInput. rewrite <- zlen_contents, Hc by done. cbn [fmap list_fmap snd].
    rewrite zlen_mjoin_cons. pose proof (zlen_nonneg (mjoin rx.*2)). lia. }
  destruct (mux_readnext_ok _ d b rx tx p Hr Hl) as (r & q & p' & E & Ep & Hr').
  unfold ReadFrom_now. cbn [step]. unfold lockConnID. rewrite (proj2 (Z.eqb_neq _ _) HB), andb_false_r. cbn [step].
  unfold read_body. rewrite (proj2 (Z.eqb_neq _ _) HB), andb_false_r, Z.eqb_refl. cbn [negb orb]. rewrite E.
  rewrite (proj2 (Z.ltb_lt 0 (zlen b))) by lia. exists r, q, p'. by split_and!.
Qed.

Lemma writeto_now_ok now b addr rport c rx tx :
  mux_represents (m_ c) rx tx -> closeCalled (m_ c) = false -> dgram_ok b ->
  0 < LocalPort c < 2 ^ 16 -> 0 < rport < 2 ^ 16 ->
  zlen tx < UdpHandler.q_cap (txDgrams (m_ c)) -> zlen b <= Ring.Free (txRing (m_ c)) ->
  exists r q, WriteTo_now now b (mkAddrPort (Some addr) rport) c =
      (Done (zlen b) b zeroAddrPort None, with_m (UdpMux.with_tx r q (m_ c)) c) /\
    mux_represents (UdpMux.with_tx r q (m_ c)) rx (tx ++ [(mkDgram (zlen b) (LocalPort c) rport (Some addr), b)]).
Proof.
  intros Hr Hc Hb Hl Hrp Hq Hf. destruct (mux_writeto_ok _ _ _ b (LocalPort c) addr rport Hr) as (r & q & E & Hr'); try done.
  exists r, q. split; [|done]. destruct Hb as [_ Hb]. unfold WriteTo_now. cbn [step].
  destruct (Z.eqb_spec (zlen b) 0); [lia|]. unfold lockConnID. rewrite Hc. cbn [andb step]. unfold write_body.
  rewrite Hc, Z.eqb_refl. cbn [negb orb]. unfold LocalPort in E. by rewrite E.
Qed.

(** An open packet connection listens on its port and on no other. *)
Definition listening (c : PacketConn) : Prop :=
  closeCalled (m_ c) = false /\ filterLPorts (m_ c) = [(LocalPort c, 1)] /\ 0 < LocalPort c < 65535.

Lemma listening_filter c p : listening c -> is_u16 p -> FilterLocalPort (m_ c) p = negb (p =? LocalPort c).
Proof.
  intros (_ & Ef & Hl) Hp. unfold FilterLocalPort. rewrite Ef. cbn [in_ranges]. rewrite u16_small by wrap_lia.
  destruct (Z.eqb_spec p (LocalPort c)) as [-> |]; bool_cases; cbn; done || lia.
Qed.

Lemma addrs_src_len carrier len : IpAddr.ip_header carrier len ->
  zlen (IpAddr.ip_src (IpAddr.addrs_of carrier)) = IpAddr.addr_len (IpAddr.ipver carrier).
Proof.
  intros [_ _ Hv Hc]. unfold IpAddr.addrs_of. cbn [IpAddr.ip_src].
  rewrite zlen_slice; unfold IpAddr.hdr_min, IpAddr.src_off, IpAddr.dst_off, IpAddr.addr_len in *; bool_cases; lia.
Qed.

(** C20: A server answers whoever wrote to it. A packet connection that listens on its
    port takes a datagram that arrives behind an IPv4 or IPv6 header; [ReadFrom] gives its
    payload whole and the address and port of its sender; what is then written to that
    address goes out, into a carrier of the same version, as a datagram from the
    connection's port to the sender's port, with the sender's address as the destination
    of the IP header; and all queues are empty again. *)
Theorem packetconn_replies_to_sender now c carrier off stale rport request p reply carrier2 ip2 off2
  (src := IpAddr.ip_src (IpAddr.addrs_of carrier))
  (Hr : mux_represents (m_ c) [] []) (Hlis : listening c) (Hrp : 0 < rport < 2 ^ 16)
  (Hip : IpAddr.ip_header carrier (zlen carrier)) (Hoff : 20 <= off <= zlen carrier)
  (Hcar : carries (zdrop off carrier) rport (LocalPort c) request) (Hreq : dgram_ok request)
  (Hrx : zlen request <= Ring.Free (rxRing (m_ c)) /\ 0 < UdpHandler.q_cap (rxDgrams (m_ c)))
  (Hp : zlen request <= zlen p)
  (Hrep : dgram_ok reply)
  (Htx : zlen reply <= Ring.Free (txRing (m_ c)) /\ 0 < UdpHandler.q_cap (txDgrams (m_ c)))
  (Hcar2 : carrier_for carrier2 ip2 off2 src) (Hroom : off2 + 8 + zlen reply <= zlen carrier2) :
  exists c1 p' c2 c3 c4 carrier2',
    Demux carrier off stale c = Ret (c1, None) /\
    ReadFrom_now now p c1 = (Done (zlen request) p' (mkAddrPort (Some src) rport) None, c2) /\
    ztake (zlen request) p' = request /\
    WriteTo_now now reply (mkAddrPort (Some src) rport) c2 = (Done (zlen reply) reply zeroAddrPort None, c3) /\
    Encapsulate carrier2 ip2 off2 c3 = Ret (c4, carrier2', 8 + zlen reply, None) /\
    carries (slice carrier2' off2 (off2 + (8 + zlen reply))) (LocalPort c) rport reply /\
    slice carrier2' (ip2 + IpAddr.dst_off (IpAddr.ipver (zdrop ip2 carrier2)))
      (ip2 + IpAddr.hdr_min (IpAddr.ipver (zdrop ip2 carrier2))) = src /\
    mux_represents (m_ c4) [] [].
Proof.
  pose proof Hlis as (Hc & _ & Hl).
  destruct (mux_demux_ok (m_ c) [] [] carrier off stale request rport (LocalPort c)) as (r1 & q1 & E1 & H1); try done.
  { rewrite listening_filter by (done || wrap_lia). by rewrite Z.eqb_refl. }
  { apply Hrx. } { apply Hrx. }
  set (c1 := with_m (UdpMux.with_rx r1 q1 (m_ c)) c) in *.
  destruct (readfrom_now_ok now p c1 _ _ [] [] H1 Hp) as (r2 & q2 & p' & E2 & Ep & H2).
  cbn [d_raddr d_rport sender] in E2. set (c2 := with_m (UdpMux.with_rx r2 q2 (m_ c1)) c1) in *.
  destruct (writeto_now_ok now reply src rport c2 [] [] H2) as (r3 & q3 & E3 & H3); try done; [change (LocalPort c2) with (LocalPort c); lia|apply Htx|apply Htx|].
  set (c3 := with_m (UdpMux.with_tx r3 q3 (m_ c2)) c2) in *.
  destruct (mux_encapsulate_ok (m_ c3) _ _ [] [] carrier2 ip2 off2 src H3) as (r4 & q4 & car & E4 & Hcr & Hds & H4); try done.
  exists c1, p', c2, c3, (with_m (UdpMux.with_tx r4 q4 (m_ c3)) c3), car. unfold Demux, Encapsulate. rewrite E1, E4.
  by split_and!.
Qed.

(** The port 65535 is refused by a panic. *)
Lemma packetconn_port_65535_panics c addr (Hc : IsValid (localAddr c) = false) :
  Open (mkAddrPort (Some addr) 65535) c = Panic.
Proof. unfold Open. by rewrite Hc. Qed.

Definition demo_server : PacketConn :=
  match Open (mkAddrPort (Some [10; 0; 0; 2]) 9)
    (fst (Configure (mkMuxConfig (Some (replicate 16 0)) (Some (replicate 16 0)) 2 2) true
       (mkPacketConn (mkMux 0 [] (Ring.mkRing [] 0 0) (UdpHandler.mkQueue [] 0) (Ring.mkRing [] 0 0)
         (UdpHandler.mkQueue [] 0) false) zeroAddrPort None None))) with
  | Ret (c, _) => c
  | Panic => mkPacketConn (mkMux 0 [] (Ring.mkRing [] 0 0) (UdpHandler.mkQueue [] 0) (Ring.mkRing [] 0 0)
         (UdpHandler.mkQueue [] 0) true) zeroAddrPort None None
  end.
Definition demo_request : list Z :=
  [69; 0; 0; 31; 0; 1; 0; 0; 64; 17; 0; 0; 10; 0; 0; 1; 10; 0; 0; 2; 0; 7; 0; 9; 0; 11; 0; 0; 1; 2; 3].
Definition demo_out : list Z := 69 :: replicate 39 0.

Lemma packetconn_replies_to_sender_witness :
  exists c1 p' c2 c3 c4 carrier2',
    Demux demo_request 20 None demo_server = Ret (c1, None) /\
    ReadFrom_now 0 (replicate 4 0) c1 = (Done 3 p' (mkAddrPort (Some [10; 0; 0; 1]) 7) None, c2) /\
    ztake 3 p' = [1; 2; 3] /\
    WriteTo_now 0 [4; 5] (mkAddrPort (Some [10; 0; 0; 1]) 7) c2 = (Done 2 [4; 5] zeroAddrPort None, c3) /\
    Encapsulate demo_out 0 20 c3 = Ret (c4, carrier2', 10, None) /\
    carries (slice carrier2' 20 30) 9 7 [4; 5] /\ slice carrier2' 16 20 = [10; 0; 0; 1] /\
    mux_represents (m_ c4) [] [].
Proof.
  assert (entries (Ring.mkRing (replicate 16 0) 0 0) (UdpHandler.mkQueue [] 2) []) as He.
  { split_and!; [|done|done]. apply (holds_empty (Ring.mkRing (replicate 16 0) 0 0)). by vm_compute. }
  apply (packetconn_replies_to_sender 0 demo_server demo_request 20 None 7 [1; 2; 3] (replicate 4 0) [4; 5] demo_out 0 20);
    try done.
  - split; by_compute || (by left).
  - unfold carries. split_and!; by_compute.
  - split; by_compute.
  - split; by_compute.
  - unfold carrier_for. split_and!; by_compute || (by left).
Defined.

End UdpMuxProps.
