(* ===== verification/StackUdpPort.v ===== *)
(** * One UDP port over the port layer ([src/internet/stack-udpport.go])

    [StackUDPPort] puts the UDP header around the messages of one node and filters what
    arrives by the ports and address of its peer. *)
From S2P Require Import Prelude Errors Bytes IpAddr Validation Udp StackNodes.

Module StackUdpPort.
Import Bytes StackNodes.
Open Scope Z_scope.
Open Scope list_scope.

Record StackUDPPort := mkStackUDPPort {
  h_ : node;
  vld : Validation.Validator;
  rmport : Z;
  raddr : list Z
}.

Section Port.
Context {W : Type} `{!StackNodes W}.

Definition SetStackNode (s : nat) (addr : option (list Z)) (port : Z) (w : W) (sudp : StackUDPPort)
    : outcome StackUDPPort :=
  n ← nodeFromStackNode s (StackNodes.LocalPort s w) (StackNodes.Protocol s w) addr w;
  Ret (mkStackUDPPort n (vld sudp) port (default [] addr)).

Definition Protocol : Z := 17.
Definition LocalPort (sudp : StackUDPPort) : Z := lport (h_ sudp).
Definition ConnectionID (sudp : StackUDPPort) (w : W) : option Z :=
  match connID (h_ sudp) with Some p => StackNodes.ConnectionID p w | None => None end.

Definition with_node (n : node) (sudp : StackUDPPort) : StackUDPPort :=
  mkStackUDPPort n (vld sudp) (rmport sudp) (raddr sudp).
Definition with_vld (v : Validation.Validator) (sudp : StackUDPPort) : StackUDPPort :=
  mkStackUDPPort (h_ sudp) v (rmport sudp) (raddr sudp).

Definition checkNodeErr (w : W) (n : node) (err : option error) : bool :=
  IsInvalid w n || err_is err NetErrClosed.

(** The callback of the node. *)
Definition deliver (carrierData : list Z) (frameOffset : Z) (w : W) (sudp : StackUDPPort)
    : outcome (StackUDPPort * W * option error) :=
  match callbacks (h_ sudp) with
  | None => Panic
  | Some s =>
      '(w, err) ← StackNodes.Demux s carrierData (frameOffset + 8) w;
      match err with
      | Some _ => Ret (if checkNodeErr w (h_ sudp) err then with_node destroy sudp else sudp, w, err)
      | None => Ret (sudp, w, None)
      end
  end.

(** The source address of the packet against that of the peer. *)
Definition check_addr (carrierData : list Z) (frameOffset : Z) (raddr : list Z) : outcome (option error) :=
  if (0 <? zlen raddr) && negb (IpAddr.IsMulticastIPAddr raddr) then
    '(ip, err) ← IpAddr.GetIPAddr carrierData frameOffset;
    Ret (match err with
         | Some e => Some e
         | None => if negb (bool_decide (IpAddr.ip_src ip = raddr)) then Some ErrPacketDrop else None
         end)
  else Ret None.

Definition Demux (carrierData : list Z) (frameOffset : Z) (w : W) (sudp : StackUDPPort)
    : outcome (StackUDPPort * W * option error) :=
  if IsInvalid w (h_ sudp) then Ret (with_node destroy sudp, w, Some NetErrClosed)
  else
  assert_or_panic (slice_ok carrierData frameOffset (zlen carrierData))
  (match Udp.NewFrame (zdrop frameOffset carrierData) with
   | (_, Some e) => Ret (sudp, w, Some e)
   | (ufrm, None) =>
       v ← Udp.ValidateSize ufrm (vld sudp);
       let sudp := with_vld v sudp in
       bad ← Validation.HasError v;
       if (bad : bool) then
         let '(v, err) := Validation.ErrPop v in Ret (with_vld v sudp, w, err)
       else
       dst ← Udp.DestinationPort ufrm;
       if negb (dst =? lport (h_ sudp)) then Ret (sudp, w, Some ErrPacketDrop)
       else
       addressed ← check_addr carrierData frameOffset (raddr sudp);
       match (addressed : option error) with
       | Some e => Ret (sudp, w, Some e)
       | None =>
           src ← Udp.SourcePort ufrm;
           if negb (rmport sudp =? 0) && negb (src =? rmport sudp) then Ret (sudp, w, Some ErrPacketDrop)
           else deliver carrierData frameOffset w sudp
       end
   end).

(** The port, the nodes, the carrier, the octets written and the error. *)
Definition Encapsulate (carrierData : list Z) (offsetToIP offsetToFrame : Z) (w : W) (sudp : StackUDPPort)
    : outcome (StackUDPPort * W * list Z * Z * option error) :=
  if IsInvalid w (h_ sudp) then Ret (with_node destroy sudp, w, carrierData, 0, Some NetErrClosed)
  else
  assert_or_panic (slice_ok carrierData offsetToFrame (zlen carrierData))
  (match Udp.NewFrame (zdrop offsetToFrame carrierData) with
   | (_, Some e) => Ret (sudp, w, carrierData, 0, Some e)
   | (ufrm, None) =>
       ufrm ← Udp.SetSourcePort (lport (h_ sudp)) ufrm;
       ufrm ← Udp.SetDestinationPort (rmport sudp) ufrm;
       let carrierData := ztake offsetToFrame carrierData ++ ufrm in
       '(carrierData, err) ←
         (if (0 <? zlen (raddr sudp)) && (0 <=? offsetToIP) then
            assert_or_panic (slice_ok carrierData offsetToIP (zlen carrierData))
            ('(arr, err) ← IpAddr.SetIPAddrs (zdrop offsetToIP carrierData) (zlen carrierData - offsetToIP) 0
                            None (Some (raddr sudp));
             Ret (ztake offsetToIP carrierData ++ arr, err))
          else Ret (carrierData, None));
       match (err : option error) with
       | Some e => Ret (sudp, w, carrierData, 0, Some e)
       | None =>
           match callbacks (h_ sudp) with
           | None => Panic
           | Some s =>
               '(w, carrierData, n, err) ← StackNodes.Encapsulate s carrierData offsetToIP (offsetToFrame + 8) w;
               if n =? 0 then Ret (sudp, w, carrierData, 0, err)
               else Ret (sudp, w, carrierData, 8 + n, err)
           end
       end
   end).

(** ** What reaches the node *)

(** The address filter. *)
Definition from_peer (sudp : StackUDPPort) (carrier : list Z) : Prop :=
  raddr sudp = [] \/ IpAddr.IsMulticastIPAddr (raddr sudp) = true \/
  IpAddr.ip_src (IpAddr.addrs_of carrier) = raddr sudp.

(** A datagram of this port and its peer, whose length field is right. *)
Definition for_node (sudp : StackUDPPort) (carrier : list Z) (off : Z) : Prop :=
  let f := zdrop off carrier in
  8 <= be16 f 4 <= zlen f /\ be16 f 2 = lport (h_ sudp) /\ from_peer sudp carrier /\
  (rmport sudp = 0 \/ be16 f 0 = rmport sudp).
#[global] Instance for_node_dec sudp carrier off : Decision (for_node sudp carrier off).
Proof. unfold for_node, from_peer. apply _. Defined.

Lemma check_addr_ok carrier off sudp : IpAddr.ip_header carrier off ->
  check_addr carrier off (raddr sudp) = Ret (if decide (from_peer sudp carrier) then None else Some ErrPacketDrop).
Proof.
  intros Hip. unfold check_addr, from_peer. destruct (Z.ltb_spec 0 (zlen (raddr sudp))) as [Hr|Hr]; cbn [andb].
  - destruct (IpAddr.IsMulticastIPAddr (raddr sudp)) eqn:Em; cbn [negb]; [by rewrite decide_True by auto|].
    rewrite (IpAddr.GetIPAddr_ok _ _ Hip). cbn [mbind outcome_bind].
    destruct (decide (IpAddr.ip_src (IpAddr.addrs_of carrier) = raddr sudp)) as [Ea|Ea].
    + rewrite bool_decide_true, decide_True by auto. done.
    + rewrite bool_decide_false, decide_False; [done| |done]. intros [E|[?|?]]; [|done|done]. by rewrite E in Hr.
  - pose proof (zlen_nonneg (raddr sudp)). rewrite decide_True; [done|]. left. apply zlen_zero_nil. lia.
Qed.

(** C21: Only the datagrams of a port and of its peer reach the node behind it. For a valid
    node and a datagram behind an IP header: if the length field is right, the
    destination port is the node's, the source address is the peer's (when one is set that
    is not multicast) and the source port is the peer's (when one is set), the node is
    called with exactly this datagram, at its payload; else no node is called, nothing
    changes and an error is returned. *)
Theorem udpport_filters_exactly carrier off (w : W) sudp s
  (Hv : IsInvalid w (h_ sudp) = false) (Hs : callbacks (h_ sudp) = Some s)
  (Hvld : vld sudp = Validation.mkValidator [] 0)
  (Hip : IpAddr.ip_header carrier off) (Hoff : off + 8 <= zlen carrier) :
  if decide (for_node sudp carrier off)
  then Demux carrier off w sudp = deliver carrier off w sudp
  else exists e, Demux carrier off w sudp = Ret (sudp, w, Some e).
Proof.
  unfold Demux. rewrite Hv. pose proof (IpAddr.ih_len _ _ Hip) as Hol. pose proof (IpAddr.ih_bytes _ _ Hip) as Hb.
  assert (zlen (zdrop off carrier) = zlen carrier - off) as El by (apply zlen_zdrop; lia).
  assert (is_bytes (zdrop off carrier)) as Hbd by (by apply is_bytes_zdrop).
  unfold assert_or_panic, slice_ok. rewrite !(proj2 (Z.leb_le _ _)) by lia. cbn [andb].
  unfold Udp.NewFrame, Udp.sizeHeader. destruct (Z.ltb_spec (zlen (zdrop off carrier)) 8); [lia|].
  rewrite Udp.udp_ValidateSize_ok by (done || lia). rewrite Hvld. cbn [mbind outcome_bind].
  assert (sudp = with_vld (Validation.mkValidator [] 0) sudp) as Esame by (destruct sudp; cbn in *; by subst).
  destruct (decide (Udp.udp_errors (zdrop off carrier) = [])) as [En|En].
  2: { rewrite decide_False by (intros (Hlen & _); by apply Udp.udp_errors_nil in Hlen).
    destruct (Udp.udp_errors (zdrop off carrier)) as [|e es] eqn:Ee; [done|].
    assert (exists e', Validation.ErrPop (Validation.add_errors (e :: es) (Validation.mkValidator [] 0)) =
      (Validation.mkValidator [] 0, Some e')) as [e' Ep].
    { revert Ee. unfold Udp.udp_errors. bool_cases; cbn [app]; intros; simplify_eq; eexists; reflexivity. }
    assert (Validation.HasError (Validation.add_errors (e :: es) (Validation.mkValidator [] 0)) = Ret true) as ->.
    { revert Ee. unfold Udp.udp_errors. bool_cases; cbn [app]; intros; simplify_eq; reflexivity. }
    cbn [mbind outcome_bind]. rewrite Ep. exists e'. do 2 f_equal. by rewrite Esame. }
  rewrite En. cbn [Validation.add_errors fold_left]. rewrite <- Esame.
  change (Validation.HasError _) with (Ret false). cbn [mbind outcome_bind].
  apply Udp.udp_errors_nil in En. unfold Udp.DestinationPort, Udp.SourcePort. rewrite !Uint16_ok by (done || lia).
  cbn [mbind outcome_bind]. unfold for_node.
  destruct (Z.eqb_spec (be16 (zdrop off carrier) 2) (lport (h_ sudp))) as [E2|E2]; cbn [negb].
  2: { rewrite decide_False by naive_solver. eauto. }
  rewrite (check_addr_ok _ _ _ Hip).
  cbn [mbind outcome_bind]. destruct (decide (from_peer sudp carrier)) as [Hp|Hp].
  2: { rewrite decide_False by naive_solver. eauto. }
  destruct (Z.eqb_spec (rmport sudp) 0) as [E0|E0]; cbn [negb andb].
  { rewrite decide_True; [done|]. split_and!; auto; lia. }
  destruct (Z.eqb_spec (be16 (zdrop off carrier) 0) (rmport sudp)) as [Es|Es]; cbn [negb].
  - rewrite decide_True; [done|]. split_and!; auto; lia.
  - rewrite decide_False by naive_solver. eauto.
Qed.

End Port.

(** A node that records the payloads it gets. *)
#[local] Instance demo_sink : StackNodes (list (list Z)) := {
  Encapsulate _ b _ _ w := Ret (w, b, 0, None);
  Demux _ b off w := Ret (w ++ [zdrop off b], None);
  LocalPort _ _ := 9;
  Protocol _ _ := 17;
  ConnectionID _ _ := Some 1
}.
Definition demo_port : StackUDPPort :=
  mkStackUDPPort (mkNode 1 (Some 0%nat) (Some 0%nat) None 17 9) (Validation.mkValidator [] 0) 7 [10; 0; 0; 1].
Definition demo_packet (port : Z) : list Z :=
  [69; 0; 0; 31; 0; 1; 0; 0; 64; 17; 0; 0; 10; 0; 0; 1; 10; 0; 0; 2; 0; 7; 0; port; 0; 11; 0; 0; 1; 2; 3].

Lemma udpport_filters_exactly_witness :
  Demux (demo_packet 9) 20 [] demo_port = Ret (demo_port, [[1; 2; 3]], None) /\
  exists e, Demux (demo_packet 8) 20 ([] : list (list Z)) demo_port = Ret (demo_port, [], Some e).
Proof.
  assert (forall p, p = 8 \/ p = 9 -> IpAddr.ip_header (demo_packet p) 20) as Hip.
  { intros p [-> | ->]; split; [apply (bool_decide_unpack _); vm_compute; done|done|by left|vm_compute; done|
      apply (bool_decide_unpack _); vm_compute; done|done|by left|vm_compute; done]. }
  split.
  - pose proof (udpport_filters_exactly (demo_packet 9) 20 ([] : list (list Z)) demo_port 0%nat eq_refl eq_refl
      eq_refl (Hip 9 ltac:(auto)) ltac:(vm_compute; done)) as H.
    rewrite decide_True in H by (apply (bool_decide_unpack _); vm_compute; done). rewrite H. reflexivity.
  - pose proof (udpport_filters_exactly (demo_packet 8) 20 ([] : list (list Z)) demo_port 0%nat eq_refl eq_refl
      eq_refl (Hip 8 ltac:(auto)) ltac:(vm_compute; done)) as H.
    rewrite decide_False in H by (intros (_ & E & _); vm_compute in E; done). exact H.
Defined.

End StackUdpPort.
