(* ===== verification/Ipv4Prefix.v ===== *)
(** * IPv4 prefixes ([src/ipv4/prefix .go])

    Addresses are lists of 4 bytes. A prefix with [b] bits splits the addresses into
    networks of [2 ^ (32 - b)] hosts; [Next] walks through the hosts of one network. The
    conversions from and to the types of [net/netip] are left out. *)
From S2P Require Import Prelude Errors Bytes.

Module Ipv4Prefix.
Import Bytes.
Open Scope Z_scope.
Open Scope list_scope.

Record Prefix := mkPrefix { p_addr : Z; bitsPlusOne : Z }.

Definition addr2bits (addr : list Z) : Z := be32 addr 0.
Definition bits2addr (addrbits : Z) : list Z := bytes32 addrbits.

Definition PrefixFrom (addr : list Z) (bits : Z) : Prefix :=
  let bits := if 32 <? bits then 0 else bits in mkPrefix (addr2bits addr) (u8 (bits + 1)).
Definition IsValid (p : Prefix) : bool := negb (bitsPlusOne p =? 0).
Definition Addr (p : Prefix) : list Z := bits2addr (p_addr p).
Definition Bits (p : Prefix) : Z := u8 (bitsPlusOne p - 1).

(** [^uint32(0) << n] and [^x] *)
Definition ones_shl (n : Z) : Z := u32 (Z.shiftl (2 ^ 32 - 1) n).
Definition not32 (x : Z) : Z := 2 ^ 32 - 1 - x.
Definition bitmask (p : Prefix) : Z := ones_shl (u8 (32 - Bits p)).
Definition addrBitmasked (p : Prefix) : Z := Z.land (p_addr p) (bitmask p).

Definition Contains (p : Prefix) (addr : list Z) : bool :=
  if negb (IsValid p) then false
  else Z.land (p_addr p) (bitmask p) =? Z.land (addr2bits addr) (bitmask p).
Definition Masked (p : Prefix) : Prefix := mkPrefix (addrBitmasked p) (bitsPlusOne p).
Definition IsSingleIP (p : Prefix) : bool := IsValid p && (Bits p =? 32).
Definition Overlaps (p o : Prefix) : bool :=
  if negb (IsValid p) || negb (IsValid o) then false
  else
    let mask := ones_shl (u8 (32 - Z.min (Bits p) (Bits o))) in
    Z.land (p_addr p) mask =? Z.land (p_addr o) mask.
Definition Next (p : Prefix) (addr : list Z) : list Z :=
  let mask := bitmask p in
  let host := Z.land (addr2bits addr) (not32 mask) in
  let host := Z.land (u32 (host + 1)) (not32 mask) in
  bits2addr (Z.lor (addrBitmasked p) host).
Definition Compare (p p2 : Prefix) : Z :=
  if negb (Bool.eqb (IsValid p) (IsValid p2)) then (if negb (IsValid p) then -1 else 1)
  else if negb (IsValid p) then 0
  else
    let pm := addrBitmasked p in
    let p2m := addrBitmasked p2 in
    if negb (pm =? p2m) then (if pm <? p2m then -1 else 1)
    else if negb (bitsPlusOne p =? bitsPlusOne p2) then (if bitsPlusOne p <? bitsPlusOne p2 then -1 else 1)
    else if p_addr p <? p_addr p2 then -1
    else if p_addr p2 <? p_addr p then 1
    else 0.

(** ** Networks and hosts *)

Definition is_addr (a : list Z) : Prop := is_bytes a /\ zlen a = 4.
#[global] Instance is_addr_dec a : Decision (is_addr a).
Proof. unfold is_addr. apply _. Defined.

Record prefix_ok (p : Prefix) : Prop := mkPrefixOk {
  po_addr : is_u32 (p_addr p);
  po_bits : 1 <= bitsPlusOne p <= 33
}.
(** The number of host bits. *)
Definition hbits (p : Prefix) : Z := 33 - bitsPlusOne p.

Lemma addr2bits_bound a : is_bytes a -> is_u32 (addr2bits a).
Proof. apply be32_bound. Qed.
Lemma addr2bits_bits2addr x : is_u32 x -> addr2bits (bits2addr x) = x.
Proof. intros Hx. apply (be32_put (replicate 4 0) 0 x); [lia|done|done]. Qed.
Lemma is_addr_bits2addr x : is_addr (bits2addr x).
Proof. split; [apply is_bytes_32|done]. Qed.
Lemma addr_cases a : is_addr a -> exists w x y z, a = [w; x; y; z] /\ is_u8 w /\ is_u8 x /\ is_u8 y /\ is_u8 z.
Proof.
  intros [Hb Hl]. unfold zlen in Hl. destruct a as [|w [|x [|y [|z [|? ?]]]]]; cbn in Hl; try lia.
  unfold is_bytes in Hb. rewrite !Forall_cons in Hb. naive_solver.
Qed.
Lemma bits2addr_addr2bits a : is_addr a -> bits2addr (addr2bits a) = a.
Proof.
  intros (w & x & y & z & -> & Hw & Hx & Hy & Hz)%addr_cases. unfold addr2bits, bits2addr, be32, be16, bytes32, u8.
  cbn [zget]. change (zget [w; x; y; z] 0) with (Some w). change (zget [w; x; y; z] (0 + 1)) with (Some x).
  change (zget [w; x; y; z] (0 + 2)) with (Some y). change (zget [w; x; y; z] (0 + 2 + 1)) with (Some z).
  rewrite !Z.shiftr_div_pow2 by lia. change (2 ^ 24) with 16777216. change (2 ^ 16) with 65536. change (2 ^ 8) with 256.
  unfold is_u8 in *. change (2 ^ 8) with 256 in *.
  repeat f_equal; Z.div_mod_to_equations; lia.
Qed.

Lemma ones_shl_value n : 0 <= n <= 32 -> ones_shl n = 2 ^ 32 - 2 ^ n.
Proof.
  intros Hn. unfold ones_shl, u32. rewrite Z.shiftl_mul_pow2 by lia.
  assert (0 < 2 ^ n) by (apply Z.pow_pos_nonneg; lia).
  assert (2 ^ n <= 2 ^ 32) by (apply Z.pow_le_mono_r; lia).
  replace ((2 ^ 32 - 1) * 2 ^ n) with (2 ^ 32 - 2 ^ n + (2 ^ n - 1) * 2 ^ 32) by ring.
  rewrite Z.mod_add by done. apply Z.mod_small. lia.
Qed.

Lemma land_high x n : is_u32 x -> 0 <= n <= 32 -> Z.land x (2 ^ 32 - 2 ^ n) = x / 2 ^ n * 2 ^ n.
Proof.
  intros [Hx0 Hx] Hn. rewrite <- Z.shiftr_div_pow2, <- Z.shiftl_mul_pow2 by lia.
  replace (2 ^ 32 - 2 ^ n) with (Z.shiftl (Z.ones (32 - n)) n).
  2: { rewrite Z.shiftl_mul_pow2, Z.ones_equiv, <- Z.sub_1_r, Z.mul_sub_distr_r, <- Z.pow_add_r by lia.
    replace (32 - n + n) with 32 by lia. lia. }
  apply Z.bits_inj'. intros i Hi. rewrite Z.land_spec, !Z.shiftl_spec by done.
  destruct (Z.le_gt_cases n i).
  - rewrite Z.shiftr_spec, Z.sub_add, Z.testbit_ones_nonneg by lia. destruct (Z.ltb_spec (i - n) (32 - n)).
    + apply andb_true_r.
    + rewrite andb_false_r. destruct (Z.eq_dec x 0) as [-> |]; [by rewrite Z.bits_0|].
      symmetry. apply Z.bits_above_log2; [done|]. apply Z.lt_le_trans with 32; [|lia]. apply Z.log2_lt_pow2; lia.
  - rewrite !(Z.testbit_neg_r _ (i - n)) by lia. apply andb_false_r.
Qed.

Section Network.
Context (p : Prefix) (Hp : prefix_ok p).

Lemma hbits_range : 0 <= hbits p <= 32.
Proof. destruct Hp. unfold hbits. lia. Qed.
Lemma Bits_value : Bits p = 32 - hbits p.
Proof. destruct Hp. unfold Bits, hbits. wrap_lia. Qed.
Lemma bitmask_value : bitmask p = 2 ^ 32 - 2 ^ hbits p.
Proof.
  pose proof hbits_range. unfold bitmask. rewrite Bits_value. replace (u8 (32 - (32 - hbits p))) with (hbits p) by wrap_lia.
  by apply ones_shl_value.
Qed.
Lemma hosts_pos : 0 < 2 ^ hbits p <= 2 ^ 32.
Proof. pose proof hbits_range. split; [apply Z.pow_pos_nonneg; lia|apply Z.pow_le_mono_r; lia]. Qed.

(** The network of an address, and its number there. *)
Definition network (a : list Z) : Z := addr2bits a / 2 ^ hbits p.
Definition host (a : list Z) : Z := addr2bits a mod 2 ^ hbits p.

Lemma Contains_iff a : is_bytes a -> Contains p a = true <-> network a = p_addr p / 2 ^ hbits p.
Proof.
  intros Ha. pose proof hbits_range. pose proof hosts_pos. pose proof (addr2bits_bound a Ha). pose proof (po_addr p Hp).
  unfold Contains, IsValid, network. destruct Hp as [_ Hb]. rewrite (proj2 (Z.eqb_neq _ 0)) by lia. cbn [negb].
  rewrite bitmask_value, !land_high by done. rewrite Z.eqb_eq. split; intros E; [|by rewrite E].
  apply Z.mul_cancel_r in E; lia.
Qed.

Lemma Next_value a : is_bytes a ->
  addr2bits (Next p a) = p_addr p / 2 ^ hbits p * 2 ^ hbits p + (host a + 1) mod 2 ^ hbits p.
Proof.
  intros Ha. pose proof hbits_range as Hh. pose proof hosts_pos as Hpos. pose proof (addr2bits_bound a Ha) as Hab.
  pose proof (po_addr p Hp) as Hpa. unfold Next, addrBitmasked, not32. rewrite bitmask_value.
  replace (2 ^ 32 - 1 - (2 ^ 32 - 2 ^ hbits p)) with (Z.ones (hbits p)) by (rewrite Z.ones_equiv; lia).
  rewrite !Z.land_ones by lia. fold (host a). rewrite land_high by done. unfold u32.
  assert (((host a + 1) mod 2 ^ 32) mod 2 ^ hbits p = (host a + 1) mod 2 ^ hbits p) as ->.
  { symmetry. apply Znumtheory.Zmod_div_mod; [lia|lia|]. exists (2 ^ (32 - hbits p)).
    rewrite <- Z.pow_add_r by lia. f_equal. lia. }
  set (k := (host a + 1) mod 2 ^ hbits p). assert (0 <= k < 2 ^ hbits p) as Hk by (apply Z.mod_pos_bound; lia).
  rewrite Z.lor_comm, <- Z.shiftl_mul_pow2, lor_shiftl_add by lia.
  rewrite addr2bits_bits2addr; [rewrite Z.shiftl_mul_pow2 by lia; lia|].
  pose proof (Z.mul_div_le (p_addr p) (2 ^ hbits p) ltac:(lia)).
  pose proof (Z.div_pos (p_addr p) (2 ^ hbits p) ltac:(apply Hpa) ltac:(lia)). 
  assert (p_addr p / 2 ^ hbits p < 2 ^ (32 - hbits p)).
  { apply Z.div_lt_upper_bound; [lia|]. rewrite <- Z.pow_add_r by lia. replace (hbits p + (32 - hbits p)) with 32 by lia. apply Hpa. }
  assert (2 ^ (32 - hbits p) * 2 ^ hbits p = 2 ^ 32) by (rewrite <- Z.pow_add_r by lia; f_equal; lia).
  unfold is_u32. nia.
Qed.

Lemma Next_network a : is_bytes a -> network (Next p a) = p_addr p / 2 ^ hbits p.
Proof.
  intros Ha. unfold network. rewrite Next_value by done. pose proof hosts_pos.
  rewrite Z.div_add_l by lia. rewrite (Z.div_small (_ mod _)); [lia|]. apply Z.mod_pos_bound. lia.
Qed.
Lemma Next_host a : is_bytes a -> host (Next p a) = (host a + 1) mod 2 ^ hbits p.
Proof.
  intros Ha. unfold host at 1. rewrite Next_value by done. pose proof hosts_pos.
  rewrite Z.add_comm, Z.mod_add by lia. apply Z.mod_mod. lia.
Qed.
Lemma is_addr_Next a : is_addr (Next p a).
Proof. apply is_addr_bits2addr. Qed.
Lemma Contains_Next a : is_bytes a -> Contains p (Next p a) = true.
Proof. intros. apply Contains_iff; [apply is_addr_Next|]. by apply Next_network. Qed.

(** Walking through a network. *)
Lemma Next_iter k a : is_addr a -> network a = p_addr p / 2 ^ hbits p ->
  let b := Nat.iter k (Next p) a in
  is_addr b /\ network b = p_addr p / 2 ^ hbits p /\ host b = (host a + Z.of_nat k) mod 2 ^ hbits p.
Proof.
  intros Ha Hn. pose proof hosts_pos. cbn zeta. induction k as [|k (IHa & _ & IHh)].
  - split_and!; [done|done|]. cbn. rewrite Z.add_0_r. unfold host. by rewrite Z.mod_mod by lia.
  - change (Nat.iter (S k) (Next p) a) with (Next p (Nat.iter k (Next p) a)).
    split_and!; [apply is_addr_Next|apply Next_network; apply IHa|].
    rewrite Next_host, IHh by apply IHa. rewrite Z.add_mod_idemp_l by lia. f_equal. lia.
Qed.

(** Addresses are known by their network and host. *)
Lemma addr_ext a b : is_addr a -> is_addr b -> network a = network b -> host a = host b -> a = b.
Proof.
  intros Ha Hb Hn Hh. rewrite <- (bits2addr_addr2bits a), <- (bits2addr_addr2bits b) by done. f_equal.
  pose proof hosts_pos. unfold network, host in *.
  rewrite (Z.div_mod (addr2bits a) (2 ^ hbits p)), (Z.div_mod (addr2bits b) (2 ^ hbits p)) by lia. congruence.
Qed.
End Network.

End Ipv4Prefix.
