(* ===== verification/Dhcp4.v ===== *)
(** * DHCPv4 messages ([src/dhcp/dhcpv4/frame.go], [src/dhcp/dhcpv4/definitions.go])

    A message is a fixed part of 240 bytes, ended by a magic cookie, and a list of options
    (number, length, data). The accessors of addresses return pointers into the frame:
    reading one is a slice of it, writing through one puts it back. *)
From S2P Require Import Prelude Errors Bytes Ipv4 Validation.

Module Dhcp4.
Import Bytes.
Open Scope Z_scope.
Open Scope list_scope.

Definition maxHostSize : Z := 16.
Definition sizeSName : Z := 64.
Definition sizeBootFile : Z := 128.
Definition sizeHeader : Z := 44.
Definition magicCookieOffset : Z := sizeHeader + sizeSName + sizeBootFile.
Definition MagicCookie : Z := 1669485411.
Definition OptionsOffset : Z := magicCookieOffset + 4.
Definition DefaultClientPort : Z := 68.
Definition DefaultServerPort : Z := 67.

(** ** Option numbers, operations and message types in use *)

Definition OptWordAligned : Z := 0.
Definition OptSubnetMask : Z := 1.
Definition OptTimeOffset : Z := 2.
Definition OptRouter : Z := 3.
Definition OptDNSServers : Z := 6.
Definition OptHostName : Z := 12.
Definition OptDomainName : Z := 15.
Definition OptInterfaceMTUSize : Z := 26.
Definition OptBroadcastAddress : Z := 28.
Definition OptNTPServersAddresses : Z := 42.
Definition OptRequestedIPaddress : Z := 50.
Definition OptIPAddressLeaseTime : Z := 51.
Definition OptMessageType : Z := 53.
Definition OptServerIdentification : Z := 54.
Definition OptParameterRequestList : Z := 55.
Definition OptMaximumMessageSize : Z := 57.
Definition OptRenewTimeValue : Z := 58.
Definition OptRebindingTimeValue : Z := 59.
Definition OptClientIdentifier : Z := 60.
Definition OptEnd : Z := 255.

Definition OpRequest : Z := 1.
Definition OpReply : Z := 2.

Definition MsgDiscover : Z := 1.
Definition MsgOffer : Z := 2.
Definition MsgRequest : Z := 3.
Definition MsgAck : Z := 5.
Definition MsgNack : Z := 6.
Definition MsgRelease : Z := 7.

(** The first constructor is the zero value. *)
Inductive ClientState :=
| StateZero | StateInit | StateSelecting | StateRequesting | StateBound | StateRenewing
| StateRebinding | StateInitReboot | StateRebooting.
#[global] Instance ClientState_eq_dec : EqDecision ClientState.
Proof. solve_decision. Defined.
Definition state_num (s : ClientState) : Z :=
  match s with
  | StateZero => 0 | StateInit => 1 | StateSelecting => 2 | StateRequesting => 3 | StateBound => 4
  | StateRenewing => 5 | StateRebinding => 6 | StateInitReboot => 7 | StateRebooting => 8
  end.
Definition HasIP (s : ClientState) : bool :=
  bool_decide (s = StateBound) || bool_decide (s = StateRenewing) || bool_decide (s = StateRebinding).

(** ** The fixed part *)

Definition Frame : Type := list Z.

(** The frame of an error is the zero value, a nil buffer. *)
Definition NewFrame (buf : list Z) : Frame * option error :=
  if zlen buf <? OptionsOffset then ([], Some ErrTruncatedFrame) else (buf, None).
Definition PayloadIsDHCPv4 (payload : list Z) : outcome bool :=
  if OptionsOffset <=? zlen payload then
    c ← Uint32 payload magicCookieOffset; Ret (c =? MagicCookie)
  else Ret false.
Definition OptionsPayload (frm : Frame) : outcome (list Z) :=
  assert_or_panic (slice_ok frm OptionsOffset (zlen frm)) (Ret (zdrop OptionsOffset frm)).

Definition Op (frm : Frame) : outcome Z := at_ frm 0.
Definition SetOp (op : Z) (frm : Frame) : outcome Frame := put_checked frm 0 [op].
Definition SetHardware (Type_ Len Ops : Z) (frm : Frame) : outcome Frame := put_checked frm 1 [Type_; Len; Ops].
Definition XID (frm : Frame) : outcome Z := Uint32 frm 4.
Definition SetXID (xid : Z) (frm : Frame) : outcome Frame := PutUint32 frm 4 xid.
Definition Secs (frm : Frame) : outcome Z := Uint16 frm 8.
Definition SetSecs (secs : Z) (frm : Frame) : outcome Frame := PutUint16 frm 8 secs.
Definition Flags (frm : Frame) : outcome Z := Uint16 frm 10.
Definition SetFlags (flags : Z) (frm : Frame) : outcome Frame := PutUint16 frm 10 flags.
Definition CIAddr (frm : Frame) : outcome (list Z) := Ipv4.sub frm 12 16.
Definition put_CIAddr (a : list Z) (frm : Frame) : outcome Frame := put_checked frm 12 a.
Definition YIAddr (frm : Frame) : outcome (list Z) := Ipv4.sub frm 16 20.
Definition put_YIAddr (a : list Z) (frm : Frame) : outcome Frame := put_checked frm 16 a.
Definition SIAddr (frm : Frame) : outcome (list Z) := Ipv4.sub frm 20 24.
Definition put_SIAddr (a : list Z) (frm : Frame) : outcome Frame := put_checked frm 20 a.
Definition GIAddr (frm : Frame) : outcome (list Z) := Ipv4.sub frm 24 28.
Definition put_GIAddr (a : list Z) (frm : Frame) : outcome Frame := put_checked frm 24 a.
Definition CHAddrAs6 (frm : Frame) : outcome (list Z) := Ipv4.sub frm 28 34.
Definition put_CHAddrAs6 (a : list Z) (frm : Frame) : outcome Frame := put_checked frm 28 a.
Definition CHAddr (frm : Frame) : outcome (list Z) := Ipv4.sub frm 28 44.
Definition MagicCookie_ (frm : Frame) : outcome Z := Uint32 frm magicCookieOffset.
Definition SetMagicCookie (cookie : Z) (frm : Frame) : outcome Frame := PutUint32 frm magicCookieOffset cookie.
Definition ClearHeader (frm : Frame) : outcome Frame :=
  assert_or_panic (slice_ok frm 0 OptionsOffset) (Ret (put frm 0 (replicate (Z.to_nat OptionsOffset) 0))).

(** ** Options *)

(** The destination, the count and the error. The access to [dst[2+len(data)]] needs one
    octet more than the option. *)
Definition EncodeOption (dst : list Z) (opt : Z) (data : list Z) : outcome (list Z * Z * option error) :=
  if 255 <? zlen data then Ret (dst, 0, Some ErrInvalidLengthField)
  else if zlen dst <? 2 + zlen data then Ret (dst, 0, Some ErrShortBuffer)
  else
    _ ← at_ dst (2 + zlen data);
    Ret (put dst 0 ([opt; u8 (zlen data)] ++ data), 2 + zlen data, None).
Definition EncodeOptionString (dst : list Z) (opt : Z) (data : list Z) := EncodeOption dst opt data.
Definition EncodeOption16 (dst : list Z) (opt v : Z) := EncodeOption dst opt (bytes16 v).
Definition EncodeOption32 (dst : list Z) (opt v : Z) := EncodeOption dst opt (bytes32 v).

(** [EncodeOption(opts[numOpts:], ..)]: the options, the next position and the error. *)
Definition encode_at (opts : list Z) (numOpts opt : Z) (data : list Z) : outcome (list Z * Z * option error) :=
  assert_or_panic (slice_ok opts numOpts (zlen opts))
    ('(d, n, err) ← EncodeOption (zdrop numOpts opts) opt data;
     Ret (ztake numOpts opts ++ d, numOpts + n, err)).

Section ForEach.
Context {A : Type} (fn : A -> Z -> Z -> list Z -> A * option error).

(** Indices are in range because [ptr + 1 < len(frm.buf)]. *)
Fixpoint foreach_loop (fuel : nat) (frm : Frame) (ptr : Z) (a : A) : option (A * option error) :=
  match fuel with
  | O => None
  | S fuel =>
      if negb (ptr + 1 <? zlen frm) then Some (a, None)
      else
        let optnum := default 0 (zget frm ptr) in
        if optnum =? OptEnd then Some (a, None)
        else if optnum =? OptWordAligned then foreach_loop fuel frm (ptr + 1) a
        else
          let optlen := default 0 (zget frm (ptr + 1)) in
          if zlen frm <? ptr + 2 + optlen then Some (a, Some ErrInvalidLengthField)
          else
            match fn a ptr optnum (slice frm (ptr + 2) (ptr + 2 + optlen)) with
            | (a, Some e) => Some (a, Some e)
            | (a, None) => foreach_loop fuel frm (ptr + (optlen + 2)) a
            end
  end.

(** The loop moves on by at least one octet each time. *)
Definition ForEachOption (frm : Frame) (a : A) : option (A * option error) :=
  if zlen frm <? OptionsOffset then Some (a, Some ErrTruncatedFrame)
  else if zlen frm =? OptionsOffset then Some (a, Some ErrInvalidField)
  else foreach_loop (S (length frm)) frm OptionsOffset a.

End ForEach.

(** With a nil callback options are only checked. *)
Definition ValidateSize (frm : Frame) (v : Validation.Validator) : option Validation.Validator :=
  match ForEachOption (fun (_ : unit) _ _ _ => (tt, None)) frm tt with
  | None => None
  | Some (_, Some _) => Some (Validation.AddError ErrInvalidLengthField v)
  | Some (_, None) => Some v
  end.

End Dhcp4.
