(* ===== verification/Dhcp4Client.v ===== *)
(** * The DHCPv4 client ([src/dhcp/dhcpv4/client.go])

    The client discovers, requests the first offer and is bound by the acknowledgement.
    [auxbuf] is scratch space and not part of the state. *)
From S2P Require Import Prelude Errors Bytes Ipv4 Ipv4Prefix Dhcp4.

Module Dhcp4Client.
Import Bytes Dhcp4.
Open Scope Z_scope.
Open Scope list_scope.

Record addr4 := mkAddr4 { a_addr : list Z; a_valid : bool }.
Definition zero4 : addr4 := mkAddr4 [0; 0; 0; 0] false.
Definition unpack (a : addr4) : list Z * bool := (a_addr a, a_valid a).
Definition set4 (addr : list Z) : addr4 := mkAddr4 addr true.
Definition setmaybe (data : list Z) (a : addr4) : addr4 :=
  if zlen data =? 4 then set4 data else mkAddr4 (a_addr a) false.

Record Client := mkClient {
  connID : Z;
  reqHostname : list Z;
  clientID : list Z;
  hostname : list Z;
  dns : list (list Z);
  ntps : list (list Z);
  svIPtos : Z;
  tRenew : Z;
  tRebind : Z;
  tIPLease : Z;
  currentXID : Z;
  state : ClientState;
  clientMAC : list Z;
  offer : addr4;
  svip : addr4;
  siip : addr4;
  reqIP : addr4;
  router : addr4;
  subnet : addr4;
  broadcast : addr4;
  gateway : addr4
}.

Record RequestConfig := mkRequestConfig {
  RequestedAddr : list Z; ClientHardwareAddr : list Z; Hostname : list Z; ClientID : list Z }.

Definition with_state (s : ClientState) (c : Client) : Client :=
  mkClient (connID c) (reqHostname c) (clientID c) (hostname c) (dns c) (ntps c) (svIPtos c) (tRenew c)
    (tRebind c) (tIPLease c) (currentXID c) s (clientMAC c) (offer c) (svip c) (siip c) (reqIP c)
    (router c) (subnet c) (broadcast c) (gateway c).

Definition reset_ (xid : Z) (c : Client) : Client :=
  mkClient (u64 (connID c + 1)) (reqHostname c) (clientID c) [] [] [] 0 0 0 0 xid StateZero (clientMAC c)
    zero4 zero4 zero4 (reqIP c) zero4 zero4 zero4 zero4.
Definition Reset (c : Client) : Client := reset_ 0 c.

Definition BeginRequest (xid : Z) (cfg : RequestConfig) (c : Client) : Client * option error :=
  if 36 <? zlen (Hostname cfg) then (c, Some ErrInvalidConfig)
  else if negb (bool_decide (state c = StateInit)) && negb (bool_decide (state c = StateZero))
  then (c, Some ErrInvalidConfig)
  else if xid =? 0 then (c, Some ErrInvalidConfig)
  else if 32 <? zlen (ClientID cfg) then (c, Some ErrInvalidConfig)
  else
    let c := reset_ xid c in
    let reqIP := mkAddr4 (RequestedAddr cfg) (negb (forallb (Z.eqb 0) (RequestedAddr cfg))) in
    let cid := if negb (zlen (ClientID cfg) =? 0) then ClientID cfg else ClientHardwareAddr cfg in
    (mkClient (connID c) (Hostname cfg) cid (hostname c) (dns c) (ntps c) (svIPtos c) (tRenew c)
       (tRebind c) (tIPLease c) xid StateInit (ClientHardwareAddr cfg) (offer c) (svip c) (siip c) reqIP
       (router c) (subnet c) (broadcast c) (gateway c), None).

Definition Protocol : Z := 17.
Definition LocalPort : Z := DefaultClientPort.
Definition isClosed (c : Client) : bool := bool_decide (state c = StateZero) || (currentXID c =? 0).

(** ** Sending *)

Definition defaultParamReqList : list Z :=
  [OptSubnetMask; OptTimeOffset; OptRouter; OptInterfaceMTUSize; OptBroadcastAddress; OptDNSServers;
   OptDomainName; OptNTPServersAddresses].

(** The options that depend on the state, and the next state; [None] for the other states. *)
Definition state_options (c : Client) (dstlen : Z) (opts : list Z) : outcome (option (list Z * Z * ClientState)) :=
  match state c with
  | StateInit =>
      '(opts, n, _) ← encode_at opts 0 OptMessageType [MsgDiscover];
      '(opts, n, _) ← encode_at opts n OptParameterRequestList defaultParamReqList;
      '(opts, n, _) ← encode_at opts n OptMaximumMessageSize (bytes16 (Z.min dstlen 65535));
      '(opts, n, _) ← (if a_valid (reqIP c) then encode_at opts n OptRequestedIPaddress (a_addr (reqIP c))
                       else Ret (opts, n, None));
      Ret (Some (opts, n, StateSelecting))
  | StateSelecting =>
      '(opts, n, _) ← encode_at opts 0 OptMessageType [MsgRequest];
      '(opts, n, _) ← encode_at opts n OptRequestedIPaddress (a_addr (offer c));
      '(opts, n, _) ← encode_at opts n OptServerIdentification (a_addr (svip c));
      Ret (Some (opts, n, StateRequesting))
  | _ => Ret None
  end.

Definition setHeader (c : Client) (frm : Frame) : outcome Frame :=
  frm ← ClearHeader frm;
  frm ← SetOp OpRequest frm;
  frm ← SetXID (currentXID c) frm;
  frm ← SetHardware 1 6 0 frm;
  frm ← SetSecs 1 frm;
  frm ← (if HasIP (state c) then put_CIAddr (a_addr (offer c)) frm else Ret frm);
  frm ← (if bool_decide (state c = StateInit) then put_SIAddr [255; 255; 255; 255] frm
         else if negb (a_valid (siip c)) then put_SIAddr (a_addr (svip c)) frm
         else put_SIAddr (a_addr (siip c)) frm);
  frm ← put_YIAddr (a_addr (offer c)) frm;
  frm ← put_CHAddrAs6 (clientMAC c) frm;
  SetMagicCookie MagicCookie frm.

(** A carrier too short for an IP header gives the zero frame, whose fields panic. *)
Definition setIP (c : Client) (carrier : list Z) (offsetToIP : Z) : outcome (list Z) :=
  if offsetToIP <? 0 then Ret carrier
  else
  assert_or_panic (slice_ok carrier offsetToIP (zlen carrier))
  (match Ipv4.NewFrame (zdrop offsetToIP carrier) with
   | (None, _) => Panic
   | (Some ifrm, _) =>
       ifrm ← Ipv4.SetID (u16 (Z.lxor (u16 (currentXID c)) (u16 (Z.shiftr (currentXID c) 16)) + state_num (state c))) ifrm;
       ifrm ← (if state_num StateInit <? state_num (state c) then Ipv4.SetToS (svIPtos c) ifrm else Ret ifrm);
       ifrm ← put_checked ifrm 12 [0; 0; 0; 0];
       ifrm ← put_checked ifrm 16 [255; 255; 255; 255];
       Ret (ztake offsetToIP carrier ++ ifrm)
   end).

(** The client, the carrier, the octets written and the error. *)
Definition Encapsulate (carrierData : list Z) (offsetToIP offsetToFrame : Z) (c : Client)
    : outcome (Client * list Z * Z * option error) :=
  if isClosed c then Ret (c, carrierData, 0, Some NetErrClosed)
  else if bool_decide (state c = StateSelecting) && negb (a_valid (offer c)) then Ret (c, carrierData, 0, None)
  else if bool_decide (state c = StateBound) then Ret (c, carrierData, 0, None)
  else if bool_decide (state c = StateRequesting) then Ret (c, carrierData, 0, None)
  else
  assert_or_panic (slice_ok carrierData offsetToFrame (zlen carrierData))
  (let dst := zdrop offsetToFrame carrierData in
   match NewFrame dst with
   | (_, Some e) => Ret (c, carrierData, 0, Some e)
   | (frm, None) =>
       opts ← OptionsPayload frm;
       if zlen opts <? 255 then Ret (c, carrierData, 0, Some ErrShortBuffer)
       else
       let carrier (frm : Frame) := ztake offsetToFrame carrierData ++ frm in
       so ← state_options c (zlen dst) opts;
       match so with
       | None => Ret (c, carrierData, 0, Some ErrBug)
       | Some (opts, numOpts, nextState) =>
           '(opts, numOpts, _) ← encode_at opts numOpts OptClientIdentifier (clientID c);
           '(opts, numOpts, err) ← (if 0 <? zlen (reqHostname c) then encode_at opts numOpts OptHostName (reqHostname c)
                                    else Ret (opts, numOpts, None));
           match err with
           | Some e => Ret (c, carrier (ztake OptionsOffset frm ++ opts), 0, Some e)
           | None =>
               opts ← put_checked opts numOpts [OptEnd];
               let numOpts := numOpts + 1 in
               frm ← setHeader c (ztake OptionsOffset frm ++ opts);
               carrierData ← setIP c (carrier frm) offsetToIP;
               Ret (with_state nextState c, carrierData, OptionsOffset + numOpts, None)
           end
       end
   end).

(** ** Receiving *)

Definition maybeU32 (b : list Z) : Z := if negb (zlen b =? 4) then 0 else be32 b 0.

(** [netip.AddrFrom4] of each group of four octets. *)
Fixpoint groups4 (n : nat) (data : list Z) : list (list Z) :=
  match n with O => [] | S n => ztake 4 data :: groups4 n (zdrop 4 data) end.

(** The message type that a message without one has. *)
Definition noMessageType : Z := 255.
Definition type_callback (a : Z) (off opt : Z) (data : list Z) : Z * option error :=
  if (opt =? OptMessageType) && (zlen data =? 1) then (default 0 (zget data 0), Some EOF) else (a, None).
Definition getMessageType (frm : Frame) : outcome Z :=
  match ForEachOption type_callback frm noMessageType with Some (t, _) => Ret t | None => Panic end.

Definition with_times (renew rebind lease : Z) (c : Client) : Client :=
  mkClient (connID c) (reqHostname c) (clientID c) (hostname c) (dns c) (ntps c) (svIPtos c) renew
    rebind lease (currentXID c) (state c) (clientMAC c) (offer c) (svip c) (siip c) (reqIP c)
    (router c) (subnet c) (broadcast c) (gateway c).
Definition with_addrs (svip_ router_ broadcast_ subnet_ : addr4) (c : Client) : Client :=
  mkClient (connID c) (reqHostname c) (clientID c) (hostname c) (dns c) (ntps c) (svIPtos c) (tRenew c)
    (tRebind c) (tIPLease c) (currentXID c) (state c) (clientMAC c) (offer c) svip_ (siip c) (reqIP c)
    router_ subnet_ broadcast_ (gateway c).
Definition with_names (hostname_ : list Z) (dns_ ntps_ : list (list Z)) (c : Client) : Client :=
  mkClient (connID c) (reqHostname c) (clientID c) hostname_ dns_ ntps_ (svIPtos c) (tRenew c)
    (tRebind c) (tIPLease c) (currentXID c) (state c) (clientMAC c) (offer c) (svip c) (siip c) (reqIP c)
    (router c) (subnet c) (broadcast c) (gateway c).

Definition option_callback (c : Client) (off opt : Z) (data : list Z) : Client * option error :=
  let addresses := groups4 (Z.to_nat (zlen data / 4)) data in
  (if opt =? OptRenewTimeValue then with_times (maybeU32 data) (tRebind c) (tIPLease c) c
   else if opt =? OptIPAddressLeaseTime then with_times (tRenew c) (tRebind c) (maybeU32 data) c
   else if opt =? OptRebindingTimeValue then with_times (tRenew c) (maybeU32 data) (tIPLease c) c
   else if opt =? OptServerIdentification
   then with_addrs (setmaybe data (svip c)) (router c) (broadcast c) (subnet c) c
   else if opt =? OptRouter then with_addrs (svip c) (setmaybe data (router c)) (broadcast c) (subnet c) c
   else if opt =? OptBroadcastAddress
   then with_addrs (svip c) (router c) (setmaybe data (broadcast c)) (subnet c) c
   else if opt =? OptSubnetMask
   then with_addrs (svip c) (router c) (broadcast c) (setmaybe data (subnet c)) c
   else if opt =? OptHostName
   then (if zlen data <? maxHostSize then with_names data (dns c) (ntps c) c else c)
   else if opt =? OptDNSServers
   then (if (0 <? zlen (dns c)) || negb (zlen data mod 4 =? 0) then c
         else with_names (hostname c) (dns c ++ addresses) (ntps c) c)
   else if opt =? OptNTPServersAddresses
   then (if (0 <? zlen (ntps c)) || negb (zlen data mod 4 =? 0) then c
         else with_names (hostname c) (dns c) (ntps c ++ addresses) c)
   else c, None).
Definition setOptions (frm : Frame) (c : Client) : outcome (Client * option error) :=
  match ForEachOption option_callback frm c with Some r => Ret r | None => Panic end.

Definition with_offer (gateway_ offer_ siip_ : addr4) (c : Client) : Client :=
  mkClient (connID c) (reqHostname c) (clientID c) (hostname c) (dns c) (ntps c) (svIPtos c) (tRenew c)
    (tRebind c) (tIPLease c) (currentXID c) (state c) (clientMAC c) offer_ (svip c) siip_ (reqIP c)
    (router c) (subnet c) (broadcast c) gateway_.
Definition with_tos (tos : Z) (c : Client) : Client :=
  mkClient (connID c) (reqHostname c) (clientID c) (hostname c) (dns c) (ntps c) tos (tRenew c)
    (tRebind c) (tIPLease c) (currentXID c) (state c) (clientMAC c) (offer c) (svip c) (siip c) (reqIP c)
    (router c) (subnet c) (broadcast c) (gateway c).

(** What the state makes of an offer or acknowledgement; [None] for the other states. *)
Definition advance (msgType : Z) (frm : Frame) (c : Client) : outcome (option Client) :=
  match state c with
  | StateSelecting =>
      if (msgType =? MsgOffer) && negb (a_valid (offer c)) then
        gi ← GIAddr frm; yi ← YIAddr frm; si ← SIAddr frm;
        Ret (Some (with_offer (set4 gi) (set4 yi) (set4 si) c))
      else Ret (Some c)
  | StateRequesting => Ret (Some (if msgType =? MsgAck then with_state StateBound c else c))
  | _ => Ret None
  end.

Definition Demux (carrierData : list Z) (frameOffset : Z) (c : Client) : outcome (Client * option error) :=
  if isClosed c then Ret (c, Some NetErrClosed)
  else
  assert_or_panic (slice_ok carrierData frameOffset (zlen carrierData))
  (match NewFrame (zdrop frameOffset carrierData) with
   | (_, Some e) => Ret (c, Some e)
   | (frm, None) =>
       xid ← XID frm;
       if negb (xid =? currentXID c) then Ret (c, Some ErrMismatch)
       else
       cookie ← MagicCookie_ frm;
       if negb (cookie =? MagicCookie) then Ret (c, Some ErrInvalidField)
       else
       msgType ← getMessageType frm;
       if msgType =? MsgNack then Ret (c, Some ErrPacketDrop)
       else if negb ((msgType =? MsgOffer) || (msgType =? MsgAck)) then Ret (c, Some ErrBug)
       else
       '(c, err) ← setOptions frm c;
       match err with
       | Some e => Ret (c, Some e)
       | None =>
           r ← advance msgType frm c;
           match r with
           | None => Ret (c, Some ErrBug)
           | Some c =>
               if (28 <? frameOffset) && (svIPtos c =? 0) then
                 match Ipv4.NewFrame carrierData with
                 | (None, _) => Panic
                 | (Some ifrm, _) => tos ← Ipv4.ToS ifrm; Ret (with_tos tos c, None)
                 end
               else Ret (c, None)
           end
       end
   end).

(** ** What was learned *)

Definition State (d : Client) : ClientState := state d.
Definition BroadcastAddr (d : Client) : list Z * bool := unpack (broadcast d).
Definition AssignedAddr (d : Client) : list Z * bool := unpack (offer d).
Definition ServerAddr (d : Client) : list Z * bool := unpack (svip d).
Definition RouterAddr (d : Client) : list Z * bool := unpack (router d).
Definition GatewayAddr (d : Client) : list Z * bool := unpack (gateway d).
Definition Subnet (d : Client) : list Z * bool := unpack (subnet d).
Definition RebindingSeconds (d : Client) : Z := tRebind d.
Definition RenewalSeconds (d : Client) : Z := tRenew d.
Definition IPLeaseSeconds (d : Client) : Z := tIPLease d.
Definition AppendDNSServers (dst : list (list Z)) (d : Client) : list (list Z) := dst ++ dns d.
Definition NumDNSServers (d : Client) : Z := zlen (dns d).
Definition DNSServerFirst (d : Client) : option (list Z) := head (dns d).

(** [bits.TrailingZeros32] *)
Fixpoint trailing_zeros (n : nat) (v : Z) : Z :=
  match n with
  | O => 0
  | S n => if Z.odd v then 0 else 1 + trailing_zeros n (Z.div2 v)
  end.
Definition SubnetCIDRBits (d : Client) : Z :=
  if negb (a_valid (subnet d)) then 0
  else u8 (32 - trailing_zeros 32 (be32 (a_addr (subnet d)) 0)).
Definition SubnetPrefix (d : Client) : Ipv4Prefix.Prefix :=
  if negb (a_valid (offer d)) then Ipv4Prefix.mkPrefix 0 0
  else Ipv4Prefix.PrefixFrom (a_addr (offer d)) (SubnetCIDRBits d).

End Dhcp4Client.
