(* ===== verification/Dhcp4Server.v ===== *)
(** * The DHCPv4 server ([src/dhcp/dhcpv4/server.go])

    The server keeps an entry per client, by client identifier (36 octets), in a map. The
    order in which Go walks through a map is not specified: it is the parameter [range] of
    the class [MapOrder], some permutation of the entries. *)
From stdpp Require Import gmap.
From S2P Require Import Prelude Errors Bytes IpAddr Ipv4Prefix Validation Dhcp4.

Module Dhcp4Server.
Import Bytes Dhcp4.
Open Scope Z_scope.
Open Scope list_scope.

Record serverEntry := mkEntry {
  e_hostname : list Z;
  e_xid : Z;
  e_port : Z;
  e_addr : list Z;
  e_requestlist : list Z;
  e_hwaddr : list Z;
  e_clientIdlen : Z;
  e_state : ClientState
}.
Definition zero_entry : serverEntry :=
  mkEntry [] 0 0 [0; 0; 0; 0] (replicate 10 0) (replicate 6 0) 0 StateZero.
#[global] Instance serverEntry_eq_dec : EqDecision serverEntry.
Proof. solve_decision. Defined.

Abbreviation host_map := (gmap (list Z) serverEntry).

Class MapOrder := {
  range : host_map -> list (list Z * serverEntry);
  range_perm : forall m, range m ≡ₚ map_to_list m
}.

Record Server := mkServer {
  connID : Z;
  nextAddr : list Z;
  subnet : Ipv4Prefix.Prefix;
  hosts : host_map;
  vld : Validation.Validator;
  pending : Z;
  leaseSeconds : Z;
  port : Z;
  siaddr : list Z;
  gwaddr : list Z;
  dns : list Z
}.

Record ServerConfig := mkServerConfig {
  ServerAddr : list Z; Gateway : list Z; DNS : list Z; Subnet : Ipv4Prefix.Prefix;
  LeaseSeconds : Z; Port : Z }.

Definition Configure (cfg : ServerConfig) (sv : Server) : Server * option error :=
  if negb (Ipv4Prefix.IsValid (Subnet cfg)) then (sv, Some errInvalidSubnet)
  else if negb (Ipv4Prefix.Contains (Subnet cfg) (ServerAddr cfg)) then (sv, Some errServerOutsideSubnet)
  else
    (mkServer (u64 (connID sv + 1)) (Ipv4Prefix.Next (Subnet cfg) (ServerAddr cfg)) (Subnet cfg) ∅
       (Validation.mkValidator [] 0) 0 (if LeaseSeconds cfg =? 0 then 3600 else LeaseSeconds cfg)
       (if Port cfg =? 0 then DefaultServerPort else Port cfg)
       (ServerAddr cfg) (Gateway cfg) (DNS cfg), None).

Definition Protocol : Z := 17.
Definition LocalPort (sv : Server) : Z := port sv.

Definition with_hosts (m : host_map) (n : Z) (sv : Server) : Server :=
  mkServer (connID sv) (nextAddr sv) (subnet sv) m (vld sv) n (leaseSeconds sv) (port sv)
    (siaddr sv) (gwaddr sv) (dns sv).
Definition with_nextAddr (a : list Z) (sv : Server) : Server :=
  mkServer (connID sv) a (subnet sv) (hosts sv) (vld sv) (pending sv) (leaseSeconds sv) (port sv)
    (siaddr sv) (gwaddr sv) (dns sv).
Definition with_vld (v : Validation.Validator) (sv : Server) : Server :=
  mkServer (connID sv) (nextAddr sv) (subnet sv) (hosts sv) v (pending sv) (leaseSeconds sv) (port sv)
    (siaddr sv) (gwaddr sv) (dns sv).

Section Server.
Context `{!MapOrder}.

Definition isAddrAssigned (addr : list Z) (sv : Server) : bool :=
  existsb (fun kv => bool_decide (e_addr kv.2 = addr)) (range (hosts sv)).
Definition getClient (clientID : list Z) (sv : Server) : serverEntry * bool :=
  match hosts sv !! clientID with Some e => (e, true) | None => (zero_entry, false) end.
Definition getClientByIP (ip : list Z) (sv : Server) : serverEntry * list Z * bool :=
  match list_find (fun kv => e_addr kv.2 = ip) (range (hosts sv)) with
  | Some (_, (k, v)) => (v, k, true)
  | None => (zero_entry, replicate 36 0, false)
  end.

(** The address after the last one handed out; the broadcast address is not given. *)
Definition take_next (sv : Server) : Server * option (list Z) :=
  let a := nextAddr sv in
  let n := Ipv4Prefix.Next (subnet sv) (nextAddr sv) in
  let n := if bool_decide (n = siaddr sv) then Ipv4Prefix.Next (subnet sv) n else n in
  let hostBits := u8 (32 - Ipv4Prefix.Bits (subnet sv)) in
  let hostMask := Z.shiftr (2 ^ 32 - 1) (u64 (32 - hostBits)) in
  (with_nextAddr n sv, if Z.land (be32 a 0) hostMask =? hostMask then None else Some a).

(** [reqAddr] is [None] when the client did not ask for an address. *)
Definition allocAddr (reqAddr : option (list Z)) (sv : Server) : Server * option (list Z) :=
  match reqAddr with
  | Some candidate =>
      if Ipv4Prefix.Contains (subnet sv) candidate && negb (bool_decide (candidate = siaddr sv)) &&
         negb (isAddrAssigned candidate sv)
      then (sv, Some candidate)
      else take_next sv
  | None => take_next sv
  end.

(** ** Receiving *)

Record request := mkRequest {
  r_type : Z; r_clientID : list Z; r_reqlist : list Z; r_addr : option (list Z); r_hostname : list Z }.
Definition no_request : request := mkRequest 0 [] [] None [].

Definition request_callback (r : request) (off op : Z) (data : list Z) : request * option error :=
  if op =? OptMessageType then
    (if zlen data =? 1
     then mkRequest (default 0 (zget data 0)) (r_clientID r) (r_reqlist r) (r_addr r) (r_hostname r) else r, None)
  else if op =? OptHostName then
    (if zlen data <=? 36 then mkRequest (r_type r) (r_clientID r) (r_reqlist r) (r_addr r) data else r, None)
  else if op =? OptClientIdentifier then
    (if zlen data <=? 36 then mkRequest (r_type r) data (r_reqlist r) (r_addr r) (r_hostname r) else r, None)
  else if op =? OptParameterRequestList then
    if 36 <? zlen data then (r, Some errTooManyReqOptions)
    else (mkRequest (r_type r) (r_clientID r) data (r_addr r) (r_hostname r), None)
  else if op =? OptRequestedIPaddress then
    (if zlen data =? 4 then mkRequest (r_type r) (r_clientID r) (r_reqlist r) (Some data) (r_hostname r) else r, None)
  else (r, None).

(** [copy] into an array: the rest of the array stays. *)
Definition copy_array (arr src : list Z) : list Z :=
  let n := Z.min (zlen arr) (zlen src) in ztake n src ++ zdrop n arr.

(** The source port of the IP packet, 0 if there is none. *)
Definition getSrcIPPort (ipCarrier : list Z) : outcome Z :=
  '(ip, err) ← IpAddr.GetIPAddr ipCarrier (zlen ipCarrier);
  match err with
  | Some _ => Ret 0
  | None =>
      let off := IpAddr.ip_end ip in
      assert_or_panic (slice_ok ipCarrier off (zlen ipCarrier))
        (if zlen ipCarrier - off <? 2 then Ret 0 else Uint16 ipCarrier off)
  end.

Definition waits (s : ClientState) : bool := bool_decide (s = StateInit) || bool_decide (s = StateRequesting).

(** The entry of the client of a message and its key. *)
Definition find_client (clientID : list Z) (dfrm : Frame) (sv : Server) : outcome (serverEntry * list Z * bool) :=
  if zlen clientID =? 0 then
    chaddr ← CHAddrAs6 dfrm;
    let key := copy_array (replicate 36 0) chaddr in
    let '(client, ok) := getClient key sv in
    if negb ok then
      ciaddr ← CIAddr dfrm;
      Ret (if negb (bool_decide (ciaddr = [0; 0; 0; 0])) then getClientByIP ciaddr sv else (client, key, ok))
    else Ret (client, key, ok)
  else
    let key := copy_array (replicate 36 0) clientID in
    let '(client, ok) := getClient key sv in Ret (client, key, ok).

Definition on_discover (carrierData : list Z) (isIPLayer : bool) (dfrm : Frame) (r : request)
    (client : serverEntry) (key : list Z) (clientExists : bool) (sv : Server) : outcome (Server * option error) :=
  let sv := if clientExists && waits (e_state client) then with_hosts (hosts sv) (pending sv - 1) sv else sv in
  let '(sv, addr) :=
    if negb clientExists then allocAddr (r_addr r) sv else (sv, Some (e_addr client)) in
  match addr with
  | None => Ret (sv, Some errPoolExhausted)
  | Some addr =>
      xid ← XID dfrm;
      hwaddr ← CHAddrAs6 dfrm;
      p ← (if isIPLayer then getSrcIPPort carrierData else Ret (e_port client));
      let client := mkEntry (r_hostname r) xid p addr (copy_array (e_requestlist client) (r_reqlist r)) hwaddr
                      (u8 (zlen (r_clientID r))) StateInit in
      Ret (with_hosts (<[key := client]> (hosts sv)) (pending sv + 1) sv, None)
  end.

Definition on_request (dfrm : Frame) (client : serverEntry) (key : list Z) (clientExists : bool) (sv : Server)
    : outcome (Server * option error) :=
  if negb clientExists then Ret (sv, Some errDemuxFail)
  else
  xid ← XID dfrm;
  if negb (xid =? e_xid client) then Ret (sv, Some errDemuxFail)
  else if negb (bool_decide (e_state client = StateSelecting)) && negb (bool_decide (e_state client = StateRequesting))
  then Ret (sv, Some errDemuxFail)
  else if bool_decide (e_state client = StateSelecting) then
    let client := mkEntry (e_hostname client) (e_xid client) (e_port client) (e_addr client)
                    (e_requestlist client) (e_hwaddr client) (e_clientIdlen client) StateRequesting in
    Ret (with_hosts (<[key := client]> (hosts sv)) (pending sv + 1) sv, None)
  else Ret (with_hosts (<[key := client]> (hosts sv)) (pending sv) sv, None).

(** A release by an unknown client stores its zero entry. *)
Definition on_release (client : serverEntry) (key : list Z) (clientExists : bool) (sv : Server) : Server :=
  if clientExists then
    with_hosts (delete key (hosts sv)) (if waits (e_state client) then pending sv - 1 else pending sv) sv
  else with_hosts (<[key := client]> (hosts sv)) (pending sv) sv.

Definition Demux (carrierData : list Z) (frameOffset : Z) (sv : Server) : outcome (Server * option error) :=
  let isIPLayer := 28 <=? frameOffset in
  assert_or_panic (slice_ok carrierData frameOffset (zlen carrierData))
  (match NewFrame (zdrop frameOffset carrierData) with
   | (_, Some e) => Ret (sv, Some e)
   | (dfrm, None) =>
       v ← (match ValidateSize dfrm (vld sv) with Some v => Ret v | None => Panic end);
       let sv := with_vld v sv in
       bad ← Validation.HasError v;
       if (bad : bool) then let '(v, err) := Validation.ErrPop v in Ret (with_vld v sv, err)
       else
       '(r, err) ← (match ForEachOption request_callback dfrm no_request with Some x => Ret x | None => Panic end);
       match (err : option error) with
       | Some e => Ret (sv, Some e)
       | None =>
           '(client, key, ok) ← find_client (r_clientID r) dfrm sv;
           if r_type r =? MsgDiscover then on_discover carrierData isIPLayer dfrm r client key ok sv
           else if r_type r =? MsgRequest then on_request dfrm client key ok sv
           else if r_type r =? MsgRelease then Ret (on_release client key ok sv, None)
           else Ret (sv, Some errDemuxFail)
       end
   end).

(** ** Sending *)

Definition encode_if (b : bool) (opts : list Z) (n opt : Z) (data : list Z) : outcome (list Z * Z * option error) :=
  if b then encode_at opts n opt data else Ret (opts, n, None).

(** The options after the message type. *)
Definition reply_options (opts : list Z) (n : Z) (sv : Server) : outcome (list Z * Z) :=
  let lease := leaseSeconds sv in
  '(opts, n, _) ← encode_at opts n OptServerIdentification (siaddr sv);
  '(opts, n, _) ← encode_if (negb (bool_decide (gwaddr sv = [0; 0; 0; 0]))) opts n OptRouter (gwaddr sv);
  '(opts, n, _) ← encode_if (Ipv4Prefix.IsValid (subnet sv)) opts n OptSubnetMask
                    (bytes32 (Ipv4Prefix.ones_shl (u64 (32 - Ipv4Prefix.Bits (subnet sv)))));
  '(opts, n, _) ← encode_if (negb (bool_decide (dns sv = [0; 0; 0; 0]))) opts n OptDNSServers (dns sv);
  '(opts, n, _) ← encode_if (0 <? lease) opts n OptIPAddressLeaseTime (bytes32 lease);
  '(opts, n, _) ← encode_if (0 <? lease) opts n OptRenewTimeValue (bytes32 (lease / 2));
  '(opts, n, _) ← encode_if (0 <? lease) opts n OptRebindingTimeValue (bytes32 (u32 (lease * 7) / 8));
  opts ← put_checked opts n [OptEnd];
  Ret (opts, n + 1).

Definition reply_header (client : serverEntry) (sv : Server) (dfrm : Frame) : outcome Frame :=
  dfrm ← ClearHeader dfrm;
  dfrm ← SetOp OpReply dfrm;
  dfrm ← SetHardware 1 6 0 dfrm;
  dfrm ← SetXID (e_xid client) dfrm;
  dfrm ← SetSecs 0 dfrm;
  dfrm ← SetFlags 0 dfrm;
  dfrm ← put_YIAddr (e_addr client) dfrm;
  dfrm ← put_SIAddr (siaddr sv) dfrm;
  dfrm ← put_GIAddr (gwaddr sv) dfrm;
  dfrm ← put_CHAddrAs6 (e_hwaddr client) dfrm;
  SetMagicCookie MagicCookie dfrm.

(** The addresses of the carrier; the carrier and the error. *)
Definition address (client : serverEntry) (sv : Server) (carrierData : list Z) (offsetToIP : Z)
    : outcome (list Z * option error) :=
  if 0 <=? offsetToIP then
    assert_or_panic (slice_ok carrierData offsetToIP (zlen carrierData))
    ('(arr, err) ← IpAddr.SetIPAddrs (zdrop offsetToIP carrierData) (zlen carrierData - offsetToIP) 0
                    (Some (siaddr sv)) (Some (e_addr client));
     let carrierData := ztake offsetToIP carrierData ++ arr in
     match err with
     | Some e => Ret (carrierData, Some e)
     | None =>
         Ret (if 14 <=? offsetToIP then put carrierData (offsetToIP - 14) (e_hwaddr client) else carrierData, None)
     end)
  else Ret (carrierData, None).

(** The server, the carrier, the octets written and the error. The options are sliced
    before the error of [NewFrame] is looked at, so a short buffer panics. *)
Definition Encapsulate (carrierData : list Z) (offsetToIP offsetToFrame : Z) (sv : Server)
    : outcome (Server * list Z * Z * option error) :=
  assert_or_panic (slice_ok carrierData offsetToFrame (zlen carrierData))
  (let '(dfrm, err) := NewFrame (zdrop offsetToFrame carrierData) in
   optBuf ← OptionsPayload dfrm;
   match err with
   | Some e => Ret (sv, carrierData, 0, Some e)
   | None =>
       if zlen optBuf <? 255 then Ret (sv, carrierData, 0, Some errOptionNotFit)
       else if pending sv =? 0 then Ret (sv, carrierData, 0, None)
       else
       match list_find (fun kv => waits (e_state kv.2) = true) (range (hosts sv)) with
       | None => Ret (sv, carrierData, 0, None)
       | Some (_, (key, client)) =>
           let carrier (frm : Frame) := ztake offsetToFrame carrierData ++ frm in
           let offering := bool_decide (e_state client = StateInit) in
           '(optBuf, n, err) ← encode_at optBuf 0 OptMessageType [if offering then MsgOffer else MsgAck];
           dfrm ← (if offering then Ret dfrm else put_CIAddr (e_addr client) dfrm);
           match (err : option error) with
           | Some e => Ret (sv, carrier (ztake OptionsOffset dfrm ++ optBuf), 0, Some e)
           | None =>
               '(optBuf, n) ← reply_options optBuf n sv;
               dfrm ← reply_header client sv (ztake OptionsOffset dfrm ++ optBuf);
               '(carrierData, err) ← address client sv (carrier dfrm) offsetToIP;
               match (err : option error) with
               | Some e => Ret (sv, carrierData, 0, Some e)
               | None =>
                   let client := mkEntry (e_hostname client) (e_xid client) (e_port client) (e_addr client)
                       (e_requestlist client) (e_hwaddr client) (e_clientIdlen client)
                       (if offering then StateSelecting else StateBound) in
                   Ret (with_hosts (<[key := client]> (hosts sv)) (pending sv - 1) sv, carrierData,
                        OptionsOffset + n, None)
               end
           end
       end
   end).

End Server.

(** One of the orders. *)
Definition key_order : MapOrder := {| range := map_to_list; range_perm := fun _ => Permutation_refl _ |}.

End Dhcp4Server.
