(* ===== verification/Dhcp4ClientProps.v ===== *)
(** * DHCP messages and what a client says *)
From S2P Require Import Prelude Errors Bytes Validation IpAddr Ipv4 Ipv4Prefix Dhcp4 Dhcp4Client.

(** ** DHCPv4 messages: fields and options

    A message is the concatenation of its fields, its options and the end mark. Writing
    and reading a field are those of the segment, and [ForEachOption] visits the options
    that were encoded, in order. *)
Module Dhcp4Props.
Import Bytes Dhcp4.
Open Scope Z_scope.
Open Scope list_scope.

(** ** Fields *)

(** Operation, hardware, transaction, seconds, flags, the four addresses, the hardware
    address, the rest of the fixed part and the cookie. *)
Definition field_lens : list Z := [1; 3; 4; 2; 2; 4; 4; 4; 4; 6; 202; 4].
Definition total (l : list Z) : Z := foldr Z.add 0 l.
Definition offset (k : nat) : Z := total (take k field_lens).
Definition fields_ok (fs : list (list Z)) : Prop := zlen <$> fs = field_lens.

Lemma zlen_mjoin (l : list (list Z)) : zlen (mjoin l) = total (zlen <$> l).
Proof. induction l as [|x l IH]; [done|]. change (mjoin (x :: l)) with (x ++ mjoin l). rewrite zlen_app, IH. done. Qed.

Lemma fields_split (fs : list (list Z)) k v : fs !! k = Some v ->
  mjoin fs = mjoin (take k fs) ++ v ++ mjoin (drop (S k) fs).
Proof. intros E. rewrite <- (take_drop_middle fs k v E) at 1. rewrite join_app. done. Qed.

Lemma fields_offset (fs : list (list Z)) k : fields_ok fs -> zlen (mjoin (take k fs)) = offset k.
Proof. intros E. unfold offset. by rewrite zlen_mjoin, fmap_take, E. Qed.
Lemma fields_total (fs : list (list Z)) : fields_ok fs -> zlen (mjoin fs) = 240.
Proof. intros E. by rewrite zlen_mjoin, E. Qed.
Lemma fields_lookup fs k n : fields_ok fs -> field_lens !! k = Some n -> exists v, fs !! k = Some v /\ zlen v = n.
Proof. intros <- (v & -> & ?)%list_lookup_fmap_Some. eauto. Qed.

Lemma put_split (a b c v : list Z) i : zlen a = i -> zlen b = zlen v -> put (a ++ b ++ c) i v = a ++ v ++ c.
Proof.
  intros Ha Hb. unfold put. rewrite ztake_app_exact by done. do 2 f_equal.
  rewrite app_assoc. apply zdrop_app_exact. rewrite zlen_app. lia.
Qed.

Lemma fields_put fs k v : fields_ok fs -> field_lens !! k = Some (zlen v) -> fields_ok (<[k := v]> fs).
Proof. intros E Hk. unfold fields_ok. rewrite list_fmap_insert, E. by apply list_insert_id. Qed.

Lemma put_field (fs : list (list Z)) k v tl : fields_ok fs -> field_lens !! k = Some (zlen v) ->
  put_checked (mjoin fs ++ tl) (offset k) v = Ret (mjoin (<[k := v]> fs) ++ tl).
Proof.
  intros E Hk. destruct (fields_lookup fs k _ E Hk) as (w & Hw & Hl).
  pose proof (fields_offset fs k E) as Ho. pose proof (fields_split fs k w Hw) as Es.
  assert (0 <= offset k) by (rewrite <- Ho; apply zlen_nonneg).
  rewrite put_checked_ok; [|done|].
  - f_equal. rewrite Es, <- !app_assoc, put_split by done.
    rewrite (fields_split (<[k := v]> fs) k v) by (apply list_lookup_insert_eq; by eapply lookup_lt_Some).
    rewrite take_insert_ge, drop_insert_lt by lia. by rewrite <- !app_assoc.
  - rewrite Es, !zlen_app. pose proof (zlen_nonneg (mjoin (drop (S k) fs))). pose proof (zlen_nonneg tl). lia.
Qed.

Lemma get_field (fs : list (list Z)) k v tl : fields_ok fs -> fs !! k = Some v ->
  slice (mjoin fs ++ tl) (offset k) (offset k + zlen v) = v.
Proof.
  intros E Hk. pose proof (fields_offset fs k E) as Ho. rewrite (fields_split fs k v Hk), <- !app_assoc.
  unfold slice. rewrite zdrop_app_exact by done. apply ztake_app_exact. lia.
Qed.

Lemma be32_slice_at b i : 0 <= i -> be32 (slice b i (i + 4)) 0 = be32 b i.
Proof.
  intros. unfold be32, be16. rewrite !zget_slice by lia. by rewrite Z.add_0_r, !Z.add_assoc, Z.add_0_r.
Qed.
Lemma be32_bytes32 v : is_u32 v -> be32 (bytes32 v) 0 = v.
Proof. intros. apply (be32_put (replicate 4 0) 0 v); done || lia. Qed.

(** ** Options *)

Definition opt_bytes (o : Z * list Z) : list Z := o.1 :: zlen o.2 :: o.2.
Definition enc (os : list (Z * list Z)) : list Z := mjoin (opt_bytes <$> os).
Definition opt_ok (o : Z * list Z) : Prop := 0 < o.1 < 255 /\ zlen o.2 <= 255 /\ is_bytes o.2.

Lemma enc_app os ps : enc (os ++ ps) = enc os ++ enc ps.
Proof. unfold enc. by rewrite fmap_app, join_app. Qed.
Lemma enc_cons o os : enc (o :: os) = opt_bytes o ++ enc os.
Proof. done. Qed.
Lemma zlen_opt_bytes o : zlen (opt_bytes o) = 2 + zlen o.2.
Proof. unfold opt_bytes. rewrite !zlen_cons. lia. Qed.
Lemma is_bytes_enc os : Forall opt_ok os -> is_bytes (enc os).
Proof.
  induction 1 as [|o os (Hn & Hl & Hb) _ IH]; [apply Forall_nil_2|]. rewrite enc_cons. apply is_bytes_app; [|done].
  pose proof (zlen_nonneg o.2). repeat constructor; [lia|lia|lia|lia|done].
Qed.

(** The callback on each option, until it returns an error. *)
Fixpoint visit {A} (fn : A -> Z -> Z -> list Z -> A * option error) (ptr : Z) (os : list (Z * list Z)) (a : A)
    : A * option error :=
  match os with
  | [] => (a, None)
  | o :: os =>
      match fn a ptr o.1 o.2 with
      | (a, Some e) => (a, Some e)
      | (a, None) => visit fn (ptr + (zlen o.2 + 2)) os a
      end
  end.

Lemma foreach_visits {A} (fn : A -> Z -> Z -> list Z -> A * option error) fuel pre os tl a :
  Forall opt_ok os -> (length os < fuel)%nat ->
  foreach_loop fn fuel (pre ++ enc os ++ OptEnd :: tl) (zlen pre) a = Some (visit fn (zlen pre) os a).
Proof.
  intros Hos. revert fuel pre a. induction Hos as [|o os (Hn & Hl & Hb) _ IH]; intros [|fuel] pre a Hf; cbn [length] in Hf; try lia.
  - cbn [foreach_loop enc fmap list_fmap mjoin app]. case_match; [done|].
    rewrite zget_app_r by lia. rewrite Z.sub_diag. done.
  - pose proof (zlen_nonneg o.2). pose proof (zlen_nonneg tl). pose proof (zlen_nonneg (enc os)). pose proof (zlen_nonneg pre).
    set (frm := pre ++ enc (o :: os) ++ OptEnd :: tl).
    assert (frm = (pre ++ opt_bytes o) ++ enc os ++ OptEnd :: tl) as Enext
      by (unfold frm; by rewrite enc_cons, <- !app_assoc).
    assert (frm = (pre ++ [o.1; zlen o.2]) ++ o.2 ++ enc os ++ OptEnd :: tl) as Edata
      by (unfold frm; by rewrite enc_cons, <- !app_assoc).
    assert (zlen frm = zlen pre + (2 + zlen o.2) + zlen (enc os) + 1 + zlen tl) as El
      by (rewrite Edata, !zlen_app, !zlen_cons, zlen_nil; lia).
    assert (zget frm (zlen pre) = Some o.1) as E0.
    { unfold frm. rewrite zget_app_r by lia. by rewrite Z.sub_diag. }
    assert (zget frm (zlen pre + 1) = Some (zlen o.2)) as E1.
    { unfold frm. rewrite zget_app_r by lia. by replace (zlen pre + 1 - zlen pre) with 1 by lia. }
    assert (slice frm (zlen pre + 2) (zlen pre + 2 + zlen o.2) = o.2) as E2.
    { rewrite Edata. unfold slice. rewrite zdrop_app_exact by (rewrite zlen_app; done). apply ztake_app_exact. lia. }
    clearbody frm. cbn [foreach_loop]. rewrite (proj2 (Z.ltb_lt (zlen pre + 1) _)) by lia. cbn [negb].
    rewrite E0, E1. cbn [default]. unfold OptEnd, OptWordAligned in *. change (id o.1) with o.1. change (id (zlen o.2)) with (zlen o.2).
    rewrite !(proj2 (Z.eqb_neq o.1 _)) by lia. rewrite (proj2 (Z.ltb_ge _ _)) by lia. rewrite E2. cbn [visit].
    destruct (fn a (zlen pre) o.1 o.2) as [a' [e|]]; [done|].
    replace (zlen pre + (zlen o.2 + 2)) with (zlen (pre ++ opt_bytes o)) by (rewrite zlen_app, zlen_opt_bytes; lia).
    rewrite Enext. apply IH. lia.
Qed.

(** Fewer options than octets. *)
Lemma length_enc os : (length os <= length (enc os))%nat.
Proof.
  induction os as [|o os IH]; [done|]. rewrite enc_cons, length_app. cbn [length]. unfold opt_bytes. cbn [length]. lia.
Qed.

(** The options of a message of which they were encoded. *)
Lemma foreach_message {A} (fn : A -> Z -> Z -> list Z -> A * option error) hd os tl a :
  zlen hd = OptionsOffset -> Forall opt_ok os ->
  ForEachOption fn (hd ++ enc os ++ OptEnd :: tl) a = Some (visit fn OptionsOffset os a).
Proof.
  intros Hh Hos. unfold ForEachOption. pose proof (zlen_nonneg (enc os)). pose proof (zlen_nonneg tl).
  assert (zlen (hd ++ enc os ++ OptEnd :: tl) = OptionsOffset + zlen (enc os) + 1 + zlen tl) as El
    by (rewrite !zlen_app, zlen_cons; lia).
  rewrite (proj2 (Z.ltb_ge _ _)) by lia. rewrite (proj2 (Z.eqb_neq _ _)) by lia. rewrite <- Hh.
  apply foreach_visits; [done|]. rewrite !length_app. pose proof (length_enc os). lia.
Qed.

(** On any octets the walk ends, and keeps what the callback keeps. *)
Lemma foreach_loop_ok {A} (fn : A -> Z -> Z -> list Z -> A * option error) (P : A -> Prop) frm fuel ptr a :
  (forall a off opt data, P a -> is_bytes data -> P (fst (fn a off opt data))) -> is_bytes frm ->
  P a -> 0 <= ptr <= zlen frm -> zlen frm - ptr < Z.of_nat fuel ->
  exists a' e, foreach_loop fn fuel frm ptr a = Some (a', e) /\ P a'.
Proof.
  intros Hfn Hb. revert ptr a. induction fuel as [|fuel IH]; intros ptr a Ha Hp Hf.
  - lia.
  - cbn [foreach_loop]. destruct (Z.ltb_spec (ptr + 1) (zlen frm)); cbn [negb]; [|by eexists _, _].
    destruct (zget_some frm ptr ltac:(lia)) as [o Eo]. destruct (zget_some frm (ptr + 1) ltac:(lia)) as [l El].
    rewrite Eo, El. cbn [default]. change (id o) with o. change (id l) with l. pose proof (is_bytes_zget _ _ _ Hb El) as [Hl _].
    case_match; [by eexists _, _|]. case_match; [apply IH; done || lia|].
    destruct (Z.ltb_spec (zlen frm) (ptr + 2 + l)); [by eexists _, _|].
    pose proof (Hfn a ptr o (slice frm (ptr + 2) (ptr + 2 + l)) Ha ltac:(by apply is_bytes_slice)) as HP.
    destruct (fn a ptr o _) as [a' [e|]]; [by eexists _, _|]. apply IH; [done|lia|lia].
Qed.
Lemma foreach_ok {A} (fn : A -> Z -> Z -> list Z -> A * option error) (P : A -> Prop) frm a :
  (forall a off opt data, P a -> is_bytes data -> P (fst (fn a off opt data))) -> is_bytes frm -> P a ->
  exists a' e, ForEachOption fn frm a = Some (a', e) /\ P a'.
Proof.
  intros Hfn Hb Ha. unfold ForEachOption. destruct (Z.ltb_spec (zlen frm) OptionsOffset) as [|Hl]; [by eexists _, _|].
  case_match; [by eexists _, _|]. change OptionsOffset with 240 in *. apply foreach_loop_ok; try done. unfold zlen. lia.
Qed.

(** ** Writing options *)

Definition opts_at (opts : list Z) (n : Z) (os : list (Z * list Z)) : Prop :=
  ztake n opts = enc os /\ n = zlen (enc os) /\ n <= zlen opts /\ is_bytes opts.

Lemma opts_at_0 opts : is_bytes opts -> opts_at opts 0 [].
Proof. intros. pose proof (zlen_nonneg opts). unfold opts_at. split_and!; [by apply ztake_nonpos|done|done|done]. Qed.

Lemma encode_at_ok opts n os opt data :
  opts_at opts n os -> opt_ok (opt, data) -> n + 2 + zlen data < zlen opts ->
  exists opts', encode_at opts n opt data = Ret (opts', n + (2 + zlen data), None) /\
    opts_at opts' (n + (2 + zlen data)) (os ++ [(opt, data)]) /\ zlen opts' = zlen opts.
Proof.
  intros (Ht & Hn & Hl & Hb) Hok Hroom. pose proof Hok as (Ho & Hd & Hbd). cbn [fst snd] in Ho, Hd, Hbd. pose proof (zlen_nonneg data). pose proof (zlen_nonneg (enc os)).
  unfold encode_at, assert_or_panic, slice_ok. rewrite !(proj2 (Z.leb_le _ _)) by lia. cbn [andb].
  assert (zlen (zdrop n opts) = zlen opts - n) as Elen by (apply zlen_zdrop; lia).
  unfold EncodeOption. rewrite (proj2 (Z.ltb_ge 255 _)) by lia. rewrite (proj2 (Z.ltb_ge _ _)) by lia.
  destruct (at_ok (zdrop n opts) (2 + zlen data)) as (x & _ & ->); [lia|]. cbn [mbind outcome_bind].
  rewrite Ht. eexists. split; [done|]. 
  assert (put (zdrop n opts) 0 ([opt; u8 (zlen data)] ++ data) = opt_bytes (opt, data) ++ zdrop (2 + zlen data) (zdrop n opts)) as ->.
  { unfold put. rewrite (ztake_nonpos 0) by lia. cbn [app]. unfold opt_bytes. cbn [fst snd].
    rewrite u8_small by wrap_lia. rewrite !zlen_cons. cbn [app]. by replace (0 + (1 + (1 + zlen data))) with (2 + zlen data) by lia. }
  assert (zlen (opt_bytes (opt, data)) = 2 + zlen data) as Eo by (by rewrite zlen_opt_bytes).
  split.
  - unfold opts_at. rewrite enc_app, enc_cons. change (enc []) with (@nil Z). rewrite app_nil_r. split_and!.
    + rewrite app_assoc. apply ztake_app_exact. rewrite zlen_app. lia.
    + rewrite zlen_app. lia.
    + rewrite !zlen_app, zlen_zdrop; lia.
    + apply is_bytes_app; [rewrite <- Ht; by apply is_bytes_ztake|]. apply is_bytes_app; [|by repeat apply is_bytes_zdrop].
      constructor; [cbn; wrap_lia|]. constructor; [cbn [snd]; wrap_lia|done].
  - rewrite !zlen_app, zlen_zdrop; lia.
Qed.

(** The end mark after the options. *)
Lemma opts_end opts n os :
  opts_at opts n os -> n < zlen opts ->
  exists tl, put_checked opts n [OptEnd] = Ret (enc os ++ OptEnd :: tl) /\ zlen (enc os ++ OptEnd :: tl) = zlen opts /\ is_bytes tl.
Proof.
  intros (Ht & Hn & Hl & Hb) Hlt. pose proof (zlen_nonneg (enc os)). exists (zdrop (n + 1) opts).
  rewrite put_checked_ok by (rewrite ?zlen_cons, ?zlen_nil; lia). unfold put. rewrite Ht. split; [done|].
  split; [rewrite zlen_app, zlen_cons, zlen_zdrop; lia|by apply is_bytes_zdrop].
Qed.

(** ** Messages *)

Record msg := mkMsg {
  m_op : Z; m_xid : Z; m_secs : Z; m_ci : list Z; m_yi : list Z; m_si : list Z; m_gi : list Z; m_ch : list Z;
  m_opts : list (Z * list Z)
}.
Definition fields (m : msg) : list (list Z) :=
  [[m_op m]; [1; 6; 0]; bytes32 (m_xid m); bytes16 (m_secs m); bytes16 0; m_ci m; m_yi m; m_si m; m_gi m; m_ch m;
   replicate 202 0; bytes32 MagicCookie].
Definition wire (m : msg) (tl : list Z) : list Z := mjoin (fields m) ++ enc (m_opts m) ++ OptEnd :: tl.

Definition addr_ok (k : Z) (a : list Z) : Prop := is_bytes a /\ zlen a = k.
Record msg_ok (m : msg) : Prop := mkMsgOk {
  mo_op : is_u8 (m_op m); mo_xid : is_u32 (m_xid m);
  mo_ci : addr_ok 4 (m_ci m); mo_yi : addr_ok 4 (m_yi m); mo_si : addr_ok 4 (m_si m); mo_gi : addr_ok 4 (m_gi m);
  mo_ch : addr_ok 6 (m_ch m); mo_opts : Forall opt_ok (m_opts m)
}.

Lemma fields_of_ok m : msg_ok m -> fields_ok (fields m).
Proof.
  intros [_ _ [_ H1] [_ H2] [_ H3] [_ H4] [_ H5] _]. unfold fields_ok, fields. cbn [fmap list_fmap].
  rewrite H1, H2, H3, H4, H5. done.
Qed.

Lemma is_bytes_mjoin (l : list (list Z)) : Forall is_bytes l -> is_bytes (mjoin l).
Proof. induction 1; [apply Forall_nil_2|]. by apply is_bytes_app. Qed.
Lemma is_bytes_wire m tl : msg_ok m -> is_bytes tl -> is_bytes (wire m tl).
Proof.
  intros [Ho _ [H1 _] [H2 _] [H3 _] [H4 _] [H5 _] Hos] Ht. apply is_bytes_app; [|apply is_bytes_app].
  - apply is_bytes_mjoin. unfold fields.
    apply Forall_cons. split; [by constructor; [|apply Forall_nil_2]|].
    apply Forall_cons. split; [by repeat constructor|].
    apply Forall_cons. split; [apply is_bytes_32|].
    do 2 (apply Forall_cons; split; [apply is_bytes_16|]).
    do 5 (apply Forall_cons; split; [assumption|]).
    apply Forall_cons. split; [by apply Forall_replicate|].
    apply Forall_cons. split; [apply is_bytes_32|apply Forall_nil_2].
  - by apply is_bytes_enc.
  - constructor; [done|done].
Qed.
Lemma zlen_wire m tl : msg_ok m -> zlen (wire m tl) = 241 + zlen (enc (m_opts m)) + zlen tl.
Proof. intros Hm. unfold wire. rewrite !zlen_app, zlen_cons, (fields_total _ (fields_of_ok m Hm)). lia. Qed.

(** A message in a buffer, behind something and before something. *)
Lemma slice_wire l m tl off n : msg_ok m -> off = zlen l -> n = 241 + zlen (enc (m_opts m)) ->
  slice (l ++ wire m tl) off (off + n) = wire m [].
Proof.
  intros Hm Hoff ->. pose proof (zlen_nonneg tl). pose proof (zlen_nonneg (enc (m_opts m))).
  rewrite slice_behind; [|rewrite zlen_wire by done; lia|done].
  assert (wire m tl = wire m [] ++ tl) as -> by (unfold wire; by rewrite <- !app_assoc).
  apply ztake_app_exact. rewrite zlen_wire by done. rewrite zlen_nil. lia.
Qed.

(** The message written at [off], and the packet that ends with it. *)
Record sent (carrier : list Z) (off n : Z) (m : msg) : Prop := mkSent {
  se_bytes : is_bytes carrier;
  se_room : 0 <= n /\ off + n <= zlen carrier;
  se_msg : slice carrier off (off + n) = wire m []
}.
Lemma sent_message carrier off n m : 0 <= off -> sent carrier off n m ->
  exists pre, ztake (off + n) carrier = pre ++ wire m [] /\ zlen pre = off /\ is_bytes pre.
Proof.
  intros Ho [Hb [Hn Hr] Hm]. exists (ztake off carrier). split; [|split; [apply zlen_ztake; lia|by apply is_bytes_ztake]].
  rewrite <- Hm. unfold slice, ztake, zdrop. rewrite take_take_drop. f_equal. lia.
Qed.

(** Writing the fields. *)
Definition zero_fields : list (list Z) :=
  [[0]; [0; 0; 0]; replicate 4 0; replicate 2 0; replicate 2 0; replicate 4 0; replicate 4 0; replicate 4 0;
   replicate 4 0; replicate 6 0; replicate 202 0; replicate 4 0].

Lemma clear_ok hd tl : zlen hd = 240 -> ClearHeader (hd ++ tl) = Ret (mjoin zero_fields ++ tl).
Proof.
  intros Hh. pose proof (zlen_nonneg tl). unfold ClearHeader, assert_or_panic, slice_ok.
  rewrite zlen_app, Hh. change OptionsOffset with 240. rewrite !(proj2 (Z.leb_le _ _)) by lia. cbn [andb]. f_equal.
  rewrite <- (app_nil_l (hd ++ tl)). rewrite put_split; [done|done|]. by rewrite Hh.
Qed.

Lemma set_field (fs : list (list Z)) k i v tl :
  offset k = i -> fields_ok fs -> field_lens !! k = Some (zlen v) ->
  put_checked (mjoin fs ++ tl) i v = Ret (mjoin (<[k := v]> fs) ++ tl).
Proof. intros <-. apply put_field. Qed.

(** Reading them. *)
Lemma read32 (fs : list (list Z)) k i v tl :
  offset k = i -> 0 <= i -> fields_ok fs -> fs !! k = Some (bytes32 v) -> is_u32 v -> is_bytes (mjoin fs ++ tl) ->
  Uint32 (mjoin fs ++ tl) i = Ret v.
Proof.
  intros Ho Hi Hf Hk Hv Hb. pose proof (get_field fs k _ tl Hf Hk) as Hg. rewrite Ho in Hg.
  change (zlen (bytes32 v)) with 4 in Hg.
  assert (i + 4 <= zlen (mjoin fs ++ tl)) as Hl.
  { rewrite <- Ho, <- (fields_offset fs k Hf). rewrite (fields_split fs k _ Hk), !zlen_app. change (zlen (bytes32 v)) with 4.
    pose proof (zlen_nonneg (mjoin (drop (S k) fs))). pose proof (zlen_nonneg tl). lia. }
  rewrite Uint32_ok by done. f_equal. rewrite <- be32_slice_at, Hg by done. by apply be32_bytes32.
Qed.
Lemma read_bytes (fs : list (list Z)) k i j v tl :
  offset k = i -> 0 <= i -> fields_ok fs -> fs !! k = Some v -> j = i + zlen v ->
  Ipv4.sub (mjoin fs ++ tl) i j = Ret v.
Proof.
  intros Ho Hi Hf Hk ->. pose proof (get_field fs k _ tl Hf Hk) as Hg. rewrite Ho in Hg. pose proof (zlen_nonneg v).
  rewrite Ipv4.sub_ok; [by rewrite Hg|lia|]. rewrite <- Ho, <- (fields_offset fs k Hf), (fields_split fs k _ Hk), !zlen_app.
  pose proof (zlen_nonneg (mjoin (drop (S k) fs))). pose proof (zlen_nonneg tl). lia.
Qed.

Section Read.
Context (m : msg) (tl : list Z) (Hm : msg_ok m) (Ht : is_bytes tl).
Lemma read_XID : XID (wire m tl) = Ret (m_xid m).
Proof. apply (read32 _ 2); [done|done|by apply fields_of_ok|done|apply Hm|by apply is_bytes_wire]. Qed.
Lemma read_cookie : MagicCookie_ (wire m tl) = Ret MagicCookie.
Proof. apply (read32 _ 11); [done|done|by apply fields_of_ok|done|done|by apply is_bytes_wire]. Qed.
Lemma read_CIAddr : CIAddr (wire m tl) = Ret (m_ci m).
Proof. apply (read_bytes _ 5); [done|done|by apply fields_of_ok|done|]. by rewrite (proj2 (mo_ci m Hm)). Qed.
Lemma read_YIAddr : YIAddr (wire m tl) = Ret (m_yi m).
Proof. apply (read_bytes _ 6); [done|done|by apply fields_of_ok|done|]. by rewrite (proj2 (mo_yi m Hm)). Qed.
Lemma read_SIAddr : SIAddr (wire m tl) = Ret (m_si m).
Proof. apply (read_bytes _ 7); [done|done|by apply fields_of_ok|done|]. by rewrite (proj2 (mo_si m Hm)). Qed.
Lemma read_GIAddr : GIAddr (wire m tl) = Ret (m_gi m).
Proof. apply (read_bytes _ 8); [done|done|by apply fields_of_ok|done|]. by rewrite (proj2 (mo_gi m Hm)). Qed.
Lemma read_CHAddr : CHAddrAs6 (wire m tl) = Ret (m_ch m).
Proof. apply (read_bytes _ 9); [done|done|by apply fields_of_ok|done|]. by rewrite (proj2 (mo_ch m Hm)). Qed.
Lemma read_options {A} (fn : A -> Z -> Z -> list Z -> A * option error) a :
  ForEachOption fn (wire m tl) a = Some (visit fn OptionsOffset (m_opts m) a).
Proof. apply foreach_message; [|apply Hm]. by apply fields_total, fields_of_ok. Qed.
Lemma read_NewFrame : NewFrame (wire m tl) = (wire m tl, None).
Proof.
  unfold NewFrame. rewrite (proj2 (Z.ltb_ge _ _)); [done|]. rewrite zlen_wire by done.
  pose proof (zlen_nonneg (enc (m_opts m))). pose proof (zlen_nonneg tl). change OptionsOffset with 240. lia.
Qed.
End Read.

End Dhcp4Props.

(** ** The DHCPv4 client: what it says and what it learns

    In each state in which the client speaks it sends the message it means
    ([client_msg]). *)
Module Dhcp4ClientProps.
Import Bytes Dhcp4 Dhcp4Props.
Open Scope Z_scope.
Open Scope list_scope.

(** Lengths of lists that are written out. *)
Ltac zlen_const :=
  repeat match goal with
  | |- context [zlen ?l] =>
      let v := eval vm_compute in (zlen l) in
      match v with Zpos _ => change (zlen l) with v | Z0 => change (zlen l) with v end
  end.

(** ** Changes to the first octets of a buffer *)

Definition after20 (b b' : list Z) : Prop :=
  zlen b' = zlen b /\ is_bytes b' /\ forall i, 20 <= i -> zget b' i = zget b i.

Lemma after20_refl b : is_bytes b -> after20 b b.
Proof. intros. unfold after20. by split_and!. Qed.
Lemma after20_put b b' i v : after20 b b' -> 20 <= zlen b -> 0 <= i -> i + zlen v <= 20 -> is_bytes v ->
  put_checked b' i v = Ret (put b' i v) /\ after20 b (put b' i v).
Proof.
  intros (Hl & Hb & Hs) Hz Hi Hv Hbv. split; [apply put_checked_ok; lia|].
  unfold after20. split_and!; [rewrite zlen_put; lia|by apply is_bytes_put|]. intros k Hk. rewrite zget_put_out by lia. by apply Hs.
Qed.

(** The carrier with a changed IP header: what is behind it stays. *)
Lemma after20_slice carrier ip off n b' :
  after20 (zdrop ip carrier) b' -> is_bytes carrier -> 0 <= ip -> ip + 20 <= off -> 0 <= n -> off + n <= zlen carrier ->
  let c' := ztake ip carrier ++ b' in
  zlen c' = zlen carrier /\ is_bytes c' /\ slice c' off (off + n) = slice carrier off (off + n).
Proof.
  intros (Hl & Hb & Hs) Hbc Hip Hoff Hn Hlen. rewrite zlen_zdrop in Hl by lia.
  assert (zlen (ztake ip carrier) = ip) as Et by (apply zlen_ztake; lia). cbn zeta.
  split; [rewrite zlen_app; lia|]. split; [apply is_bytes_app; [by apply is_bytes_ztake|done]|].
  apply zlist_eq; rewrite !zlen_slice by (rewrite ?zlen_app; lia); [done|]. intros i Hi.
  rewrite !zget_slice by lia. rewrite zget_app_r, Et, Hs by lia. rewrite zget_zdrop by lia. f_equal. lia.
Qed.

(** ** The client sends *)

Import Dhcp4Client.

Record client_wf (c : Client) : Prop := mkClientWf {
  cw_xid : 0 < currentXID c < 2 ^ 32;
  cw_mac : addr_ok 6 (clientMAC c);
  cw_offer : addr_ok 4 (a_addr (offer c));
  cw_svip : addr_ok 4 (a_addr (svip c));
  cw_siip : addr_ok 4 (a_addr (siip c));
  cw_req : addr_ok 4 (a_addr (reqIP c));
  cw_id : is_bytes (clientID c) /\ 0 < zlen (clientID c) <= 32;
  cw_host : is_bytes (reqHostname c) /\ zlen (reqHostname c) <= 36;
  cw_tos : is_u8 (svIPtos c)
}.

Definition ip_room (carrier : list Z) (ip off : Z) : Prop := ip < 0 \/ ip + 20 <= off.

Lemma setIP_ok c carrier ip off : client_wf c -> is_bytes carrier -> 0 <= off <= zlen carrier -> ip_room carrier ip off ->
  exists carrier', setIP c carrier ip = Ret carrier' /\ zlen carrier' = zlen carrier /\ is_bytes carrier' /\
    forall n, 0 <= n -> off + n <= zlen carrier -> slice carrier' off (off + n) = slice carrier off (off + n).
Proof.
  intros Hw Hb Hoff Hip. unfold setIP. destruct (Z.ltb_spec ip 0) as [|Hip0]; [by exists carrier|].
  destruct Hip as [?|Hip]; [lia|]. unfold assert_or_panic, slice_ok. rewrite !(proj2 (Z.leb_le _ _)) by lia. cbn [andb].
  assert (zlen (zdrop ip carrier) = zlen carrier - ip) as El by (apply zlen_zdrop; lia).
  unfold Ipv4.NewFrame, Ipv4.sizeHeader. rewrite (proj2 (Z.ltb_ge _ _)) by lia.
  assert (after20 (zdrop ip carrier) (zdrop ip carrier)) as H0 by (by apply after20_refl, is_bytes_zdrop).
  unfold Ipv4.SetID, PutUint16.
  set (id := u16 _). destruct (after20_put _ _ 4 (bytes16 id) H0) as [-> H1]; [lia|lia|done|apply is_bytes_16|].
  cbn [mbind outcome_bind].
  assert (forall f, after20 (zdrop ip carrier) f -> exists carrier',
    (g ← put_checked f 12 [0; 0; 0; 0]; k ← put_checked g 16 [255; 255; 255; 255]; Ret (ztake ip carrier ++ k)) = Ret carrier' /\
    zlen carrier' = zlen carrier /\ is_bytes carrier' /\
    forall n, 0 <= n -> off + n <= zlen carrier -> slice carrier' off (off + n) = slice carrier off (off + n)) as Hrest.
  { intros f H2. destruct (after20_put _ _ 12 [0; 0; 0; 0] H2) as [-> H3]; [lia|lia|done|by repeat constructor|].
    cbn [mbind outcome_bind].
    destruct (after20_put _ _ 16 [255; 255; 255; 255] H3) as [-> H4]; [lia|lia|done|by repeat constructor|].
    cbn [mbind outcome_bind]. eexists. split; [done|].
    destruct (after20_slice carrier ip off 0 _ H4) as (? & ? & _); [done|lia|lia|lia|lia|].
    split_and!; [done|done|]. intros n Hn Hl. apply after20_slice; done || lia. }
  destruct (state_num StateInit <? state_num (state c)); [|by apply Hrest].
  unfold Ipv4.SetToS. destruct (after20_put _ _ 1 [svIPtos c] H1) as [-> H2]; [lia|lia|done| |by apply Hrest].
  constructor; [apply Hw|apply Forall_nil_2].
Qed.

Definition host_opts (c : Client) : list (Z * list Z) :=
  (OptClientIdentifier, clientID c) :: (if 0 <? zlen (reqHostname c) then [(OptHostName, reqHostname c)] else []).
Definition first_opts (c : Client) (room : Z) : list (Z * list Z) :=
  match state c with
  | StateInit =>
      [(OptMessageType, [MsgDiscover]); (OptParameterRequestList, defaultParamReqList);
       (OptMaximumMessageSize, bytes16 (Z.min room 65535))] ++
      (if a_valid (reqIP c) then [(OptRequestedIPaddress, a_addr (reqIP c))] else [])
  | _ =>
      [(OptMessageType, [MsgRequest]); (OptRequestedIPaddress, a_addr (offer c));
       (OptServerIdentification, a_addr (svip c))]
  end.
(** What the client says in the states in which it speaks. *)
Definition client_msg (c : Client) (room : Z) : msg :=
  mkMsg OpRequest (currentXID c) 1 [0; 0; 0; 0] (a_addr (offer c))
    (match state c with
     | StateInit => [255; 255; 255; 255]
     | _ => if a_valid (siip c) then a_addr (siip c) else a_addr (svip c)
     end) [0; 0; 0; 0] (clientMAC c) (first_opts c room ++ host_opts c).
Definition next_state (c : Client) : ClientState :=
  match state c with StateInit => StateSelecting | _ => StateRequesting end.
Definition speaks (c : Client) : Prop :=
  state c = StateInit \/ (state c = StateSelecting /\ a_valid (offer c) = true).

Lemma opt_ok_intro opt data : 0 < opt < 255 -> is_bytes data -> zlen data <= 255 -> opt_ok (opt, data).
Proof. intros ? ? ?. split; [done|]. split; done. Qed.

Lemma state_options_ok c room opts :
  client_wf c -> speaks c -> is_bytes opts -> 255 <= zlen opts ->
  exists opts' n, state_options c room opts = Ret (Some (opts', n, next_state c)) /\
    opts_at opts' n (first_opts c room) /\ zlen opts' = zlen opts /\ n <= 23.
Proof.
  intros Hw Hs Hbo Hl. pose proof (opts_at_0 opts Hbo) as H0.
  destruct Hw as [_ _ [Ho1 Ho2] [Hv1 Hv2] _ [Hq1 Hq2] _ _ _].
  unfold state_options, first_opts, next_state. destruct Hs as [-> | [-> Hof]].
  - destruct (encode_at_ok _ _ _ OptMessageType [MsgDiscover] H0) as (o1 & -> & H1 & L1);
      [apply opt_ok_intro; [done|by_compute|done]|zlen_const; lia|]. cbn [mbind outcome_bind].
    destruct (encode_at_ok _ _ _ OptParameterRequestList defaultParamReqList H1) as (o2 & -> & H2 & L2);
      [apply opt_ok_intro; [done|by_compute|done]|zlen_const; lia|]. cbn [mbind outcome_bind].
    destruct (encode_at_ok _ _ _ OptMaximumMessageSize (bytes16 (Z.min room 65535)) H2) as (o3 & -> & H3 & L3);
      [apply opt_ok_intro; [done|apply is_bytes_16|done]|zlen_const; lia|]. cbn [mbind outcome_bind].
    destruct (a_valid (reqIP c)).
    + destruct (encode_at_ok _ _ _ OptRequestedIPaddress (a_addr (reqIP c)) H3) as (o4 & -> & H4 & L4);
        [apply opt_ok_intro; [done|done|lia]|rewrite Hq2; zlen_const; lia|]. cbn [mbind outcome_bind].
      eexists _, _. split; [done|]. split; [exact H4|]. split; [congruence|rewrite Hq2; done].
    + cbn [mbind outcome_bind]. eexists _, _. split; [done|]. split; [exact H3|]. split; [congruence|done].
  - destruct (encode_at_ok _ _ _ OptMessageType [MsgRequest] H0) as (o1 & -> & H1 & L1);
      [apply opt_ok_intro; [done|by_compute|done]|zlen_const; lia|]. cbn [mbind outcome_bind].
    destruct (encode_at_ok _ _ _ OptRequestedIPaddress (a_addr (offer c)) H1) as (o2 & -> & H2 & L2);
      [apply opt_ok_intro; [done|done|lia]|rewrite Ho2; zlen_const; lia|]. cbn [mbind outcome_bind].
    destruct (encode_at_ok _ _ _ OptServerIdentification (a_addr (svip c)) H2) as (o3 & -> & H3 & L3);
      [apply opt_ok_intro; [done|done|lia]|rewrite Ho2, Hv2; zlen_const; lia|]. cbn [mbind outcome_bind].
    eexists _, _. split; [done|]. split; [exact H3|]. split; [congruence|rewrite Ho2, Hv2; done].
Qed.

Lemma set_header_ok c hd tl room :
  client_wf c -> speaks c -> zlen hd = 240 ->
  setHeader c (hd ++ tl) = Ret (mjoin (fields (client_msg c room)) ++ tl).
Proof.
  intros Hw Hs Hh. destruct Hw as [_ [_ Hm] [_ Ho] [_ Hv] [_ Hi] _ _ _ _]. unfold setHeader.
  rewrite clear_ok by done. cbn [mbind outcome_bind]. unfold SetOp.
  assert (fields_ok zero_fields) as F0 by done.
  rewrite (set_field zero_fields 0 0) by done. cbn [mbind outcome_bind].
  unfold SetXID, PutUint32. rewrite (set_field _ 2 4) by done. cbn [mbind outcome_bind].
  unfold SetHardware. rewrite (set_field _ 1 1) by done. cbn [mbind outcome_bind].
  unfold SetSecs, PutUint16. rewrite (set_field _ 3 8) by done. cbn [mbind outcome_bind].
  assert (HasIP (state c) = false) as -> by (by destruct Hs as [-> | [-> _]]). cbn [mbind outcome_bind].
  set (si := m_si (client_msg c room)).
  match goal with |- (?x ≫= _) = _ => assert (x = put_SIAddr si (mjoin
    [[OpRequest]; [1; 6; 0]; bytes32 (currentXID c); bytes16 1; replicate 2 0; replicate 4 0; replicate 4 0;
     replicate 4 0; replicate 4 0; replicate 6 0; replicate 202 0; replicate 4 0] ++ tl)) as -> end.
  { unfold si, client_msg. cbn [m_si]. destruct Hs as [-> | [-> _]]; [done|]. rewrite bool_decide_false by done.
    by destruct (a_valid (siip c)). }
  assert (zlen si = 4) as Esi.
  { unfold si, client_msg. cbn [m_si]. destruct Hs as [-> | [-> _]]; [done|]. by destruct (a_valid (siip c)). }
  unfold put_SIAddr, put_YIAddr, put_CHAddrAs6, SetMagicCookie, PutUint32.
  rewrite (set_field _ 7 20) by (done || by rewrite Esi). cbn [mbind outcome_bind list_insert insert].
  rewrite (set_field _ 6 16) by (done || (by rewrite Ho) || (unfold fields_ok; cbn [fmap list_fmap]; by rewrite Esi)).
  cbn [mbind outcome_bind list_insert insert].
  rewrite (set_field _ 9 28) by (done || (by rewrite Hm) || (unfold fields_ok; cbn [fmap list_fmap]; by rewrite Esi, Ho)).
  cbn [mbind outcome_bind list_insert insert].
  rewrite (set_field _ 11 magicCookieOffset) by (done || (unfold fields_ok; cbn [fmap list_fmap]; by rewrite Esi, Ho, Hm)).
  done.
Qed.

Lemma client_msg_ok c room : client_wf c -> speaks c -> msg_ok (client_msg c room).
Proof.
  intros Hw Hs. pose proof Hw as [Hx Hm Ho Hv Hi Hq [Hid1 Hid2] [Hh1 Hh2] _]. unfold client_msg.
  assert (forall a, addr_ok 4 a -> forall o, 0 < o < 255 -> opt_ok (o, a)) as Ha
    by (intros a [Ha1 Ha2] o Ho'; apply opt_ok_intro; [done|done|lia]).
  split; cbn [m_op m_xid m_ci m_yi m_si m_gi m_ch m_opts]; try done.
  - split; lia.
  - split; by_compute.
  - destruct Hs as [-> | [-> _]]; [split; by_compute|]. by destruct (a_valid (siip c)).
  - split; by_compute.
  - apply Forall_app. split.
    + unfold first_opts. destruct Hs as [-> | [-> _]].
      * apply Forall_app. split; [|destruct (a_valid (reqIP c)); repeat constructor; by apply Ha].
        rewrite !Forall_cons. split_and!; [..|done]; apply opt_ok_intro; apply is_bytes_16 || by_compute.
      * rewrite !Forall_cons. split_and!; [..|done]; [apply opt_ok_intro; by_compute|by apply Ha|by apply Ha].
    + unfold host_opts. constructor; [apply opt_ok_intro; [done|done|lia]|].
      case_match; [|done]. constructor; [apply opt_ok_intro; [done|done|lia]|done].
Qed.

Lemma host_opts_ok c opts n os :
  client_wf c -> opts_at opts n os -> n <= 23 -> 255 <= zlen opts ->
  exists opts' n', (
      '(opts, numOpts, _) ← encode_at opts n OptClientIdentifier (clientID c);
      (if 0 <? zlen (reqHostname c) then encode_at opts numOpts OptHostName (reqHostname c) else Ret (opts, numOpts, None)))
        = Ret (opts', n', None) /\
    opts_at opts' n' (os ++ host_opts c) /\ zlen opts' = zlen opts /\ n' < zlen opts.
Proof.
  intros Hw H0 Hn Hl. destruct Hw as [_ _ _ _ _ _ [Hid1 Hid2] [Hh1 Hh2] _]. unfold host_opts.
  destruct (encode_at_ok _ _ _ OptClientIdentifier (clientID c) H0) as (o1 & -> & H1 & L1);
    [apply opt_ok_intro; [done|done|lia]|lia|]. cbn [mbind outcome_bind]. destruct (0 <? zlen (reqHostname c)).
  - destruct (encode_at_ok _ _ _ OptHostName (reqHostname c) H1) as (o2 & -> & H2 & L2);
      [apply opt_ok_intro; [done|done|lia]|lia|]. eexists _, _. split; [done|].
    rewrite <- app_assoc in H2. split; [exact H2|]. split; [congruence|lia].
  - eexists _, _. split; [done|]. split; [exact H1|]. split; [done|lia].
Qed.

Lemma client_sends c carrier ip off :
  client_wf c -> speaks c -> is_bytes carrier -> 0 <= off -> off + 495 <= zlen carrier -> ip_room carrier ip off ->
  let m := client_msg c (zlen carrier - off) in
  exists carrier' n, Encapsulate carrier ip off c = Ret (with_state (next_state c) c, carrier', n, None) /\ sent carrier' off n m.
Proof.
  intros Hw Hs Hb Hoff Hl Hip m. unfold Encapsulate.
  assert (isClosed c = false) as ->.
  { unfold isClosed. rewrite (proj2 (Z.eqb_neq _ 0)) by (destruct Hw; lia). by destruct Hs as [-> | [-> _]]. }
  assert (bool_decide (state c = StateSelecting) && negb (a_valid (offer c)) = false) as ->
    by (by destruct Hs as [-> | [-> ->]]).
  assert (bool_decide (state c = StateBound) = false) as -> by (by destruct Hs as [-> | [-> _]]).
  assert (bool_decide (state c = StateRequesting) = false) as -> by (by destruct Hs as [-> | [-> _]]).
  unfold assert_or_panic at 1, slice_ok. rewrite !(proj2 (Z.leb_le _ _)) by lia. cbn [andb].
  assert (zlen (zdrop off carrier) = zlen carrier - off) as El by (apply zlen_zdrop; lia).
  unfold NewFrame. change OptionsOffset with 240. rewrite (proj2 (Z.ltb_ge _ _)) by lia.
  unfold OptionsPayload, assert_or_panic, slice_ok. change OptionsOffset with 240.
  rewrite !(proj2 (Z.leb_le _ _)) by lia. cbn [andb mbind outcome_bind].
  assert (zlen (zdrop 240 (zdrop off carrier)) = zlen carrier - off - 240) as El2 by (rewrite zlen_zdrop; lia).
  rewrite (proj2 (Z.ltb_ge _ 255)) by lia. rewrite El.
  destruct (state_options_ok c (zlen carrier - off) (zdrop 240 (zdrop off carrier)) Hw Hs) as (o1 & n1 & -> & H1 & L1 & N1); [by repeat apply is_bytes_zdrop|lia|].
  cbn [mbind outcome_bind].
  destruct (host_opts_ok c o1 n1 _ Hw H1) as (o2 & n2 & E2 & H2 & L2 & N2); [lia|lia|].
  destruct (encode_at o1 n1 OptClientIdentifier (clientID c)) as [[[o1' n1'] e1']|]; [|done]. cbn [mbind outcome_bind] in E2 |- *.
  rewrite E2. cbn [mbind outcome_bind].
  destruct (opts_end o2 n2 _ H2) as (tl & -> & Ltl & Hbt); [lia|]. cbn [mbind outcome_bind].
  rewrite (set_header_ok c _ _ (zlen carrier - off)) by (done || (apply zlen_ztake; lia)). cbn [mbind outcome_bind]. fold m.
  pose proof (client_msg_ok c (zlen carrier - off) Hw Hs) as Hm. fold m in Hm.
  pose proof (fields_total _ (fields_of_ok m Hm)) as Hf. pose proof (zlen_nonneg (enc (m_opts m))).
  change (first_opts c (zlen carrier - off) ++ host_opts c) with (m_opts m) in *.
  set (car := ztake off carrier ++ mjoin (fields m) ++ enc (m_opts m) ++ OptEnd :: tl).
  assert (zlen (ztake off carrier) = off) as Et by (apply zlen_ztake; lia).
  assert (zlen car = zlen carrier) as Ecar.
  { unfold car. rewrite zlen_app, (zlen_app (mjoin _)), Ltl. lia. }
  assert (is_bytes car) as Hbc.
  { unfold car. apply is_bytes_app; [by apply is_bytes_ztake|]. by apply (is_bytes_wire m). }
  destruct (setIP_ok c car ip off Hw Hbc) as (car' & -> & Ec' & Hbc' & Hsl); [lia|done|].
  cbn [mbind outcome_bind]. eexists _, _. split; [done|].
  rewrite zlen_app, zlen_cons in Ltl. pose proof (zlen_nonneg tl). destruct H2 as (_ & Hn2 & _).
  split; [done|lia|]. rewrite Hsl by lia. apply slice_wire; [done|done|lia].
Qed.

End Dhcp4ClientProps.
