(* ===== verification/Dhcp4ServerProps.v ===== *)
(** * The DHCP server: what it hears and what it says *)
From stdpp Require Import gmap.
From S2P Require Import Prelude Errors Bytes Validation IpAddr Ipv4 Ipv4Prefix Dhcp4 Dhcp4Client Dhcp4Server Dhcp4ClientProps.

(** ** The DHCPv4 server: what it hears, keeps and says *)
Module Dhcp4ServerProps.
Import Bytes Dhcp4 Dhcp4Props Dhcp4Server.
Open Scope Z_scope.
Open Scope list_scope.

(** ** What precedes a message *)

(** Any octets long enough for the headers have a source port, or none. *)
Lemma src_port_ok carrier : is_bytes carrier -> 64 <= zlen carrier -> exists p, getSrcIPPort carrier = Ret p.
Proof.
  intros Hb Hl. unfold getSrcIPPort. destruct (decide (IpAddr.ipver carrier = 4 \/ IpAddr.ipver carrier = 6)) as [Hv|Hv].
  - rewrite IpAddr.GetIPAddr_ok.
    2: { split; [done|lia|done|]. unfold IpAddr.hdr_min, IpAddr.dst_off, IpAddr.addr_len. bool_cases; lia. }
    cbn [mbind outcome_bind]. unfold IpAddr.addrs_of. cbn [IpAddr.ip_end].
    set (off := if _ =? 4 then _ else _). assert (0 <= off <= 60) as Hoff.
    { unfold off. case_match; [|lia]. pose proof (Z.mod_pos_bound (default 0 (zget carrier 0)) 16 ltac:(lia)). lia. }
    clearbody off. unfold assert_or_panic, slice_ok. rewrite !(proj2 (Z.leb_le _ _)) by lia. cbn [andb].
    rewrite (proj2 (Z.ltb_ge _ _)) by lia. rewrite Uint16_ok by (done || lia). eauto.
  - unfold IpAddr.GetIPAddr, IpAddr.first_byte, assert_or_panic. rewrite (proj2 (Z.ltb_lt _ _)) by lia.
    destruct (at_ok carrier 0) as (b0 & E0 & ->); [lia|]. cbn [mbind outcome_bind].
    unfold IpAddr.ipver in Hv. rewrite E0 in Hv. cbn [default] in Hv. change (id b0) with b0 in Hv.
    rewrite !(proj2 (Z.eqb_neq (Z.shiftr b0 4) _)) by tauto. cbn [mbind outcome_bind]. eauto.
Qed.

(** ** Receiving *)

Lemma visit_nil ptr os : visit (fun (_ : unit) _ _ _ => (tt, None)) ptr os tt = (tt, None).
Proof. revert ptr. induction os as [|o os IH]; intros ptr; [done|]. cbn [visit]. apply IH. Qed.
Lemma validate_ok m v : msg_ok m -> ValidateSize (wire m []) v = Some v.
Proof. intros Hm. unfold ValidateSize. rewrite read_options by done. by rewrite visit_nil. Qed.

Record entry_wf (e : serverEntry) : Prop := mkEntryWf {
  ew_xid : is_u32 (e_xid e);
  ew_addr : addr_ok 4 (e_addr e);
  ew_hw : addr_ok 6 (e_hwaddr e)
}.
Record server_wf (sv : Server) : Prop := mkServerWf {
  sw_next : addr_ok 4 (nextAddr sv);
  sw_subnet : Ipv4Prefix.prefix_ok (subnet sv);
  sw_vld : vld sv = Validation.mkValidator [] 0;
  sw_lease : 0 < leaseSeconds sv < 2 ^ 32;
  sw_si : addr_ok 4 (siaddr sv);
  sw_gw : addr_ok 4 (gwaddr sv);
  sw_dns : addr_ok 4 (dns sv);
  sw_hosts : map_Forall (fun _ e => entry_wf e) (hosts sv)
}.

Section Props.
Context `{!MapOrder}.

(** A message as the server reads it. *)
Lemma demux_reads sv pre m r :
  server_wf sv -> msg_ok m -> is_bytes pre -> visit request_callback OptionsOffset (m_opts m) no_request = (r, None) ->
  Demux (pre ++ wire m []) (zlen pre) sv =
    ('(client, key, ok) ← find_client (r_clientID r) (wire m []) sv;
     if r_type r =? MsgDiscover then on_discover (pre ++ wire m []) (28 <=? zlen pre) (wire m []) r client key ok sv
     else if r_type r =? MsgRequest then on_request (wire m []) client key ok sv
     else if r_type r =? MsgRelease then Ret (on_release client key ok sv, None)
     else Ret (sv, Some errDemuxFail)).
Proof.
  intros Hw Hm Hp Hr. unfold Demux. pose proof (zlen_nonneg pre). pose proof (zlen_nonneg (wire m [])).
  unfold assert_or_panic, slice_ok. rewrite zlen_app, !(proj2 (Z.leb_le _ _)) by lia. cbn [andb].
  rewrite zdrop_app_exact by done. rewrite read_NewFrame by done.
  rewrite validate_ok by done. cbn [mbind outcome_bind].
  rewrite (sw_vld sv Hw). change (Validation.HasError _) with (Ret false). cbn [mbind outcome_bind].
  assert (with_vld (Validation.mkValidator [] 0) sv = sv) as -> by (pose proof (sw_vld sv Hw); destruct sv; cbn in *; by subst).
  rewrite read_options by done. rewrite Hr. cbn [mbind outcome_bind]. done.
Qed.

(** ** Addresses *)

Definition next_ok (sv : Server) : Prop :=
  Ipv4Prefix.Contains (subnet sv) (nextAddr sv) = true /\ Ipv4Prefix.Contains (subnet sv) (siaddr sv) = true /\
  (0 < Ipv4Prefix.hbits (subnet sv) -> nextAddr sv <> siaddr sv).

Lemma next_differs p a : Ipv4Prefix.prefix_ok p -> is_bytes a -> 0 < Ipv4Prefix.hbits p -> Ipv4Prefix.Next p a <> a.
Proof.
  intros Hp Ha Hh E. pose proof (Ipv4Prefix.Next_host p Hp a Ha) as Hn. rewrite E in Hn.
  pose proof (Ipv4Prefix.hosts_pos p Hp). assert (2 ^ 1 <= 2 ^ Ipv4Prefix.hbits p) by (apply Z.pow_le_mono_r; lia).
  assert (0 <= Ipv4Prefix.host p a < 2 ^ Ipv4Prefix.hbits p) by (apply Z.mod_pos_bound; lia).
  destruct (Z.eq_dec (Ipv4Prefix.host p a + 1) (2 ^ Ipv4Prefix.hbits p)) as [E1|].
  - rewrite E1, Z.mod_same in Hn by lia. lia.
  - rewrite Z.mod_small in Hn by lia. lia.
Qed.

Lemma hostMask_value p : Ipv4Prefix.prefix_ok p ->
  Z.shiftr (2 ^ 32 - 1) (u64 (32 - u8 (32 - Ipv4Prefix.Bits p))) = Z.ones (Ipv4Prefix.hbits p).
Proof.
  intros Hp. pose proof (Ipv4Prefix.hbits_range p Hp). rewrite Ipv4Prefix.Bits_value by done.
  replace (u8 (32 - (32 - Ipv4Prefix.hbits p))) with (Ipv4Prefix.hbits p) by wrap_lia.
  replace (u64 (32 - Ipv4Prefix.hbits p)) with (32 - Ipv4Prefix.hbits p) by wrap_lia.
  change (2 ^ 32 - 1) with (Z.ones 32). rewrite Z.shiftr_div_pow2, Z.ones_div_pow2 by lia. f_equal. lia.
Qed.

(** What is handed out is an address of the subnet, neither the server's nor the
    broadcast address. *)
Lemma take_next_ok sv :
  server_wf sv -> next_ok sv ->
  exists n oa, take_next sv = (with_nextAddr n sv, oa) /\ next_ok (with_nextAddr n sv) /\ addr_ok 4 n /\
  (forall a, oa = Some a -> addr_ok 4 a /\ Ipv4Prefix.Contains (subnet sv) a = true /\ a <> siaddr sv /\
    Ipv4Prefix.host (subnet sv) a <> 2 ^ Ipv4Prefix.hbits (subnet sv) - 1).
Proof.
  intros Hw (Hn1 & Hn2 & Hn3). destruct Hw as [[Hb Hl] Hp _ _ [Hsb _] _ _ _].
  set (n1 := Ipv4Prefix.Next (subnet sv) (nextAddr sv)).
  set (n := if bool_decide (n1 = siaddr sv) then Ipv4Prefix.Next (subnet sv) n1 else n1).
  assert (Ipv4Prefix.is_addr n1) as Hi1 by apply Ipv4Prefix.is_addr_Next.
  eexists n, _. split; [done|]. split; [|split].
  - unfold next_ok. cbn [with_nextAddr nextAddr subnet siaddr]. split; [|split; [done|]].
    + unfold n. case_match; apply Ipv4Prefix.Contains_Next; done || apply Hi1.
    + intros Hh. unfold n. case_bool_decide as E; [|done]. rewrite <- E. apply next_differs; [done|apply Hi1|done].
  - unfold n. case_match; apply Ipv4Prefix.is_addr_Next.
  - pose proof (Ipv4Prefix.hbits_range _ Hp) as Hh. rewrite hostMask_value by done.
    rewrite Z.land_ones by lia. change (be32 (nextAddr sv) 0 mod 2 ^ Ipv4Prefix.hbits (subnet sv)) with (Ipv4Prefix.host (subnet sv) (nextAddr sv)).
    rewrite Z.ones_equiv, <- Z.sub_1_r. intros a. case_match eqn:E; [done|]. intros [= <-]. apply Z.eqb_neq in E.
    split; [done|]. split; [done|]. split; [|done]. apply Hn3. destruct (Z.eq_dec (Ipv4Prefix.hbits (subnet sv)) 0) as [E0|]; [|lia].
    unfold Ipv4Prefix.host in E. rewrite E0, Z.mod_1_r in E. done.
Qed.

Lemma alloc_ok req sv :
  server_wf sv -> next_ok sv -> (forall a, req = Some a -> addr_ok 4 a) ->
  exists n oa, allocAddr req sv = (with_nextAddr n sv, oa) /\ next_ok (with_nextAddr n sv) /\ addr_ok 4 n /\
  (forall a, oa = Some a -> addr_ok 4 a /\ Ipv4Prefix.Contains (subnet sv) a = true /\ a <> siaddr sv).
Proof.
  intros Hw Hn Hreq. destruct (take_next_ok sv Hw Hn) as (n & oa & En & Hn' & Ha & Hoa).
  unfold allocAddr. destruct req as [a|]; [destruct (_ && _) eqn:E|].
  - exists (nextAddr sv), (Some a). assert (with_nextAddr (nextAddr sv) sv = sv) as -> by (by destruct sv).
    apply andb_prop in E as [[E1 E2%negb_true_iff%bool_decide_eq_false]%andb_prop _].
    split; [done|]. split; [done|]. split; [apply Hw|]. intros ? [= <-]. split; [by apply Hreq|done].
  - exists n, oa. split; [done|]. split; [done|]. split; [done|]. intros a' Ea. destruct (Hoa a' Ea) as (? & ? & ? & _). done.
  - exists n, oa. split; [done|]. split; [done|]. split; [done|]. intros a Ea. destruct (Hoa a Ea) as (? & ? & ? & _). done.
Qed.

(** ** Clients that wait for a reply *)

Definition waiting (m : host_map) : host_map := filter (fun kv => waits (e_state kv.2) = true) m.
Definition wcount (m : host_map) : Z := Z.of_nat (size (waiting m)).
Definition one_if (b : bool) : Z := if b then 1 else 0.

Lemma wcount_insert (m : host_map) k e :
  wcount (<[k := e]> m) = wcount (delete k m) + one_if (waits (e_state e)).
Proof.
  unfold wcount, waiting. rewrite <- insert_delete_eq. destruct (waits (e_state e)) eqn:E.
  - rewrite map_filter_insert_True by done. rewrite map_size_insert_None; [unfold one_if; lia|].
    apply map_lookup_filter_None. left. by rewrite lookup_delete_eq.
  - rewrite map_filter_insert_False by (cbn; by rewrite E). rewrite delete_delete_eq. unfold one_if. lia.
Qed.
Lemma wcount_delete (m : host_map) k e : m !! k = Some e ->
  wcount m = wcount (delete k m) + one_if (waits (e_state e)).
Proof. intros Hk. rewrite <- wcount_insert. by rewrite insert_id. Qed.
Lemma wcount_delete_le (m : host_map) k : wcount (delete k m) <= wcount m.
Proof.
  destruct (m !! k) as [e|] eqn:E; [|by rewrite delete_id by done].
  rewrite (wcount_delete m k e E). unfold one_if. case_match; lia.
Qed.
Lemma wcount_empty : wcount ∅ = 0.
Proof. done. Qed.

(** Nothing yet, or an address of the subnet that is not the server's. *)
Definition lease_ok (sv : Server) (a : list Z) : Prop :=
  a = [0; 0; 0; 0] \/ (Ipv4Prefix.Contains (subnet sv) a = true /\ a <> siaddr sv).

Record inv (sv : Server) : Prop := mkInv {
  iv_wf : server_wf sv;
  iv_next : next_ok sv;
  iv_addrs : map_Forall (fun _ e => lease_ok sv (e_addr e)) (hosts sv);
  iv_pending : wcount (hosts sv) <= pending sv
}.

Lemma inv_hosts sv m n :
  inv sv -> map_Forall (fun _ e => entry_wf e) m -> map_Forall (fun _ e => lease_ok sv (e_addr e)) m ->
  wcount m <= n -> inv (with_hosts m n sv).
Proof. intros [[] Hn _ _] Hm Ha Hc. split; [split|..]; done. Qed.
Lemma inv_insert sv k e n :
  inv sv -> entry_wf e -> lease_ok sv (e_addr e) ->
  wcount (delete k (hosts sv)) + one_if (waits (e_state e)) <= n ->
  inv (with_hosts (<[k := e]> (hosts sv)) n sv).
Proof.
  intros Hi He Ha Hc. apply inv_hosts; [done|..|by rewrite wcount_insert]; (apply map_Forall_insert_2; [done|apply Hi]).
Qed.

(** The entry found is the one in the table, or the zero entry. *)
Lemma find_client_ok clientID frm sv : is_bytes frm -> 240 <= zlen frm ->
  exists client key ok, find_client clientID frm sv = Ret (client, key, ok) /\
    if (ok : bool) then hosts sv !! key = Some client else client = zero_entry.
Proof.
  intros Hb Hl. unfold find_client.
  assert (forall k, let '(c, ok) := getClient k sv in if (ok : bool) then hosts sv !! k = Some c else c = zero_entry) as Hget.
  { intros k. unfold getClient. by destruct (hosts sv !! k). }
  destruct (zlen clientID =? 0).
  - unfold CHAddrAs6, CIAddr. rewrite !Ipv4.sub_ok by lia. cbn [mbind outcome_bind].
    set (key := copy_array _ _). pose proof (Hget key) as Hk. destruct (getClient key sv) as [c ok].
    destruct ok; cbn [negb]; [by eexists _, _, _|]. cbn [mbind outcome_bind]. case_match; [|by eexists _, _, _].
    unfold getClientByIP. destruct (list_find _ _) as [[i [k e]]|] eqn:E; [|by eexists _, _, _].
    eexists _, _, _. split; [done|]. apply list_find_Some in E as (E & _).
    apply list_elem_of_lookup_2 in E. rewrite range_perm in E. by apply elem_of_map_to_list in E.
  - specialize (Hget (copy_array (replicate 36 0) clientID)). destruct (getClient _ sv) as [c ok]. by eexists _, _, _.
Qed.

(** ** Any message *)

Definition request_ok (r : request) : Prop := forall a, r_addr r = Some a -> addr_ok 4 a.
Lemma request_callback_ok r off op data : request_ok r -> is_bytes data -> request_ok (fst (request_callback r off op data)).
Proof.
  unfold request_ok, request_callback. intros Hr Hb a.
  repeat case_match; cbn [fst r_addr]; try apply Hr. intros [= <-]. split; [done|]. by apply Z.eqb_eq.
Qed.

(** The entry that a Discover replaces no longer counts as waiting. *)
Lemma discover_frees client key ok sv :
  inv sv -> (if (ok : bool) then hosts sv !! key = Some client else client = zero_entry) ->
  let sv1 := if ok && waits (e_state client) then with_hosts (hosts sv) (pending sv - 1) sv else sv in
  server_wf sv1 /\ next_ok sv1 /\ hosts sv1 = hosts sv /\ (forall a, lease_ok sv a -> lease_ok sv1 a) /\ wcount (delete key (hosts sv1)) <= pending sv1 /\
  (ok = false -> sv1 = sv).
Proof.
  intros Hi Hc. pose proof (iv_pending sv Hi) as Hp. pose proof (wcount_delete_le (hosts sv) key).
  assert (server_wf sv /\ next_ok sv) as [Hw Hn] by (by split; apply Hi).
  destruct ok; cbn [andb]; [|split_and!; done || lia].
  rewrite (wcount_delete _ _ _ Hc) in Hp. unfold one_if in Hp. destruct (waits (e_state client)); cbn zeta.
  - split; [by destruct Hw|]. split; [done|]. split; [done|]. split; [done|]. split; [cbn [with_hosts hosts pending]; lia|done].
  - split; [done|]. split; [done|]. split; [done|]. split; [done|]. split; [lia|done].
Qed.

Lemma on_discover_inv carrier off frm r client key ok sv :
  inv sv -> request_ok r -> is_bytes frm -> 240 <= zlen frm -> is_bytes carrier -> 64 <= zlen carrier ->
  (if (ok : bool) then hosts sv !! key = Some client else client = zero_entry) ->
  exists sv' e, on_discover carrier off frm r client key ok sv = Ret (sv', e) /\ inv sv'.
Proof.
  intros Hi Hr Hb Hl Hbc Hlc Hc. unfold on_discover.
  destruct (discover_frees client key ok sv Hi Hc) as (Hw1 & Hn1 & Eh & Hls & Hp1 & Esv).
  set (sv1 := if ok && waits (e_state client) then _ else _) in *. clearbody sv1.
  assert (exists n oa, (if negb ok then allocAddr (r_addr r) sv1 else (sv1, Some (e_addr client))) = (with_nextAddr n sv1, oa) /\
    next_ok (with_nextAddr n sv1) /\ addr_ok 4 n /\ (oa = None -> ok = false) /\
    (forall a, oa = Some a -> addr_ok 4 a /\ lease_ok sv1 a))
    as (n & oa & -> & Hn2 & Hna & Hf & Hoa).
  { destruct ok; cbn [negb].
    - exists (nextAddr sv1), (Some (e_addr client)). assert (with_nextAddr (nextAddr sv1) sv1 = sv1) as -> by (by destruct sv1).
      split; [done|]. split; [done|]. split; [apply Hw1|]. split; [done|]. intros ? [= <-].
      split; [apply (iv_wf sv Hi) in Hc; apply Hc|by apply Hls, (iv_addrs sv Hi key)].
    - destruct (alloc_ok (r_addr r) sv1 Hw1 Hn1 Hr) as (n & oa & -> & Hn2 & Hna & Hoa). exists n, oa.
      split; [done|]. split; [done|]. split; [done|]. split; [done|]. intros a Ha.
      destruct (Hoa a Ha) as (? & ? & ?). split; [done|by right]. }
  assert (server_wf (with_nextAddr n sv1)) as Hw2 by (destruct Hw1; by split).
  destruct oa as [a|].
  2: { eexists _, _. split; [done|]. split; [done|done| |]; cbn [with_nextAddr hosts pending];
         rewrite (Esv (Hf eq_refl)); apply Hi. }
  unfold XID, CHAddrAs6. rewrite Uint32_ok by (done || lia). rewrite Ipv4.sub_ok by lia. cbn [mbind outcome_bind].
  assert (exists p, (if off : bool then getSrcIPPort carrier else Ret (e_port client)) = Ret p) as (p & ->)
    by (destruct off; [by apply src_port_ok|by eexists]).
  cbn [mbind outcome_bind]. eexists _, _. split; [done|]. destruct (Hoa a eq_refl) as [Ha4 Hal]. split; [destruct Hw2; split; try done|done| |].
  - cbn [with_hosts hosts with_nextAddr] in *. apply map_Forall_insert_2; [|done]. split; cbn [e_xid e_addr e_hwaddr].
    + by apply be32_bound.
    + done.
    + split; [by apply is_bytes_slice|]. rewrite zlen_slice; lia.
  - cbn [with_hosts hosts with_nextAddr] in *. apply map_Forall_insert_2; [done|]. rewrite Eh.
    intros k e He. by apply Hls, (iv_addrs sv Hi k).
  - cbn [with_hosts hosts pending with_nextAddr]. rewrite wcount_insert. cbn [e_state waits]. change (one_if _) with 1. lia.
Qed.

Lemma on_request_inv frm client key ok sv :
  inv sv -> is_bytes frm -> 240 <= zlen frm ->
  (if (ok : bool) then hosts sv !! key = Some client else client = zero_entry) ->
  exists sv' e, on_request frm client key ok sv = Ret (sv', e) /\ inv sv'.
Proof.
  intros Hi Hb Hl Hc. unfold on_request. destruct ok; cbn [negb]; [|by eexists _, _].
  unfold XID. rewrite Uint32_ok by (done || lia). cbn [mbind outcome_bind].
  case_match; [by eexists _, _|]. case_match; [by eexists _, _|].
  pose proof (iv_pending sv Hi) as Hp. rewrite (wcount_delete _ _ _ Hc) in Hp.
  assert (entry_wf client) as He by (by apply (iv_wf sv Hi) in Hc).
  case_match; eexists _, _; (split; [done|]); apply inv_insert; try done; try by apply (iv_addrs sv Hi) in Hc.
  - by destruct He.
  - cbn [e_state waits]. change (one_if _) with 1. unfold one_if in Hp. case_match; lia.
Qed.

Lemma on_release_inv client key ok sv :
  inv sv -> (if (ok : bool) then hosts sv !! key = Some client else client = zero_entry) ->
  inv (on_release client key ok sv).
Proof.
  intros Hi Hc. pose proof (iv_pending sv Hi) as Hp. unfold on_release. destruct ok.
  - apply inv_hosts; [done|by apply map_Forall_delete, Hi|by apply map_Forall_delete, Hi|]. rewrite (wcount_delete _ _ _ Hc) in Hp.
    unfold one_if in Hp. case_match; lia.
  - subst. apply inv_insert; [done|split; by_compute|by left|]. pose proof (wcount_delete_le (hosts sv) key). change (one_if _) with 0. lia.
Qed.

Lemma with_vld_inv sv : inv sv -> with_vld (Validation.mkValidator [] 0) sv = sv.
Proof. intros Hi. pose proof (sw_vld sv (iv_wf sv Hi)). destruct sv; cbn in *; by subst. Qed.

(** Whatever octets arrive the server returns, with its invariant. *)
Lemma demux_inv sv carrier off :
  inv sv -> is_bytes carrier -> 0 <= off <= zlen carrier ->
  exists sv' e, Demux carrier off sv = Ret (sv', e) /\ inv sv'.
Proof.
  intros Hi Hb Ho. unfold Demux, assert_or_panic, slice_ok. rewrite !(proj2 (Z.leb_le _ _)) by lia. cbn [andb].
  unfold NewFrame. change OptionsOffset with 240.
  destruct (Z.ltb_spec (zlen (zdrop off carrier)) 240) as [|Hl]; [by eexists _, _|].
  set (frm := zdrop off carrier) in *. assert (is_bytes frm) as Hbf by (by apply is_bytes_zdrop).
  assert (64 <= zlen carrier) as Hlc by (unfold frm in Hl; rewrite zlen_zdrop in Hl; lia).
  rewrite (sw_vld sv (iv_wf sv Hi)).
  destruct (foreach_ok (fun (_ : unit) _ _ _ => (tt, None)) (fun _ => True) frm tt) as ([] & e & Ev & _); [done|done|done|].
  unfold ValidateSize. rewrite Ev. destruct e as [e|]; cbn [mbind outcome_bind].
  { eexists (with_vld (Validation.mkValidator [] 0) sv), _. split; [done|]. by rewrite with_vld_inv. }
  change (Validation.HasError _) with (Ret false). cbn [mbind outcome_bind]. rewrite with_vld_inv by done.
  destruct (foreach_ok request_callback request_ok frm no_request) as (r & e & -> & Hr); [|done|done|].
  { intros. by apply request_callback_ok. }
  cbn [mbind outcome_bind]. destruct e as [e|]; [by eexists _, _|].
  destruct (find_client_ok (r_clientID r) frm sv Hbf Hl) as (client & key & ok & -> & Hc). cbn [mbind outcome_bind].
  destruct (r_type r =? MsgDiscover); [by apply on_discover_inv|].
  destruct (r_type r =? MsgRequest); [by apply on_request_inv|].
  destruct (r_type r =? MsgRelease); eexists _, _; (split; [done|]); [by apply on_release_inv|done].
Qed.

End Props.
End Dhcp4ServerProps.

(** ** The DHCPv4 server: replies

    With a client that waits the server writes the message it means ([server_msg]) to one
    of them. *)
Module Dhcp4ServerReply.
Import Bytes Dhcp4 Dhcp4Props Dhcp4Server Dhcp4ServerProps.
Open Scope Z_scope.
Open Scope list_scope.

(** ** The options *)

Definition when {A} (b : bool) (x : A) : list A := if b then [x] else [].
Definition given (a : list Z) : bool := negb (bool_decide (a = [0; 0; 0; 0])).
Definition mask_of (sv : Server) : list Z :=
  bytes32 (Ipv4Prefix.ones_shl (u64 (32 - Ipv4Prefix.Bits (subnet sv)))).
Definition server_opts (sv : Server) : list (Z * list Z) :=
  [(OptServerIdentification, siaddr sv)] ++ when (given (gwaddr sv)) (OptRouter, gwaddr sv) ++
  [(OptSubnetMask, mask_of sv)] ++ when (given (dns sv)) (OptDNSServers, dns sv) ++
  [(OptIPAddressLeaseTime, bytes32 (leaseSeconds sv)); (OptRenewTimeValue, bytes32 (leaseSeconds sv / 2));
   (OptRebindingTimeValue, bytes32 (u32 (leaseSeconds sv * 7) / 8))].

Lemma encode_if_ok (b : bool) opts n os opt data :
  opts_at opts n os -> 0 < opt < 255 -> addr_ok 4 data -> n + 6 < zlen opts ->
  exists opts' n', encode_if b opts n opt data = Ret (opts', n', None) /\
    opts_at opts' n' (os ++ when b (opt, data)) /\ zlen opts' = zlen opts /\ n' <= n + 6.
Proof.
  intros H0 Ho [Hb Hl] Hr. unfold encode_if, when. destruct b.
  - destruct (encode_at_ok _ _ _ opt data H0) as (o1 & -> & H1 & L1);
      [by apply Dhcp4ClientProps.opt_ok_intro; [..|lia]|lia|]. eexists _, _. split; [done|]. split; [done|]. split; [done|lia].
  - rewrite app_nil_r. eexists _, _. split; [done|]. split; [done|]. split; [done|lia].
Qed.

Lemma addr_ok_32 v : addr_ok 4 (bytes32 v).
Proof. split; [apply is_bytes_32|done]. Qed.

Lemma reply_options_ok opts n os sv :
  server_wf sv -> opts_at opts n os -> n <= 3 -> 255 <= zlen opts ->
  exists tl, reply_options opts n sv = Ret (enc (os ++ server_opts sv) ++ OptEnd :: tl, zlen (enc (os ++ server_opts sv)) + 1) /\
    zlen (enc (os ++ server_opts sv) ++ OptEnd :: tl) = zlen opts /\ is_bytes tl.
Proof.
  intros Hw H0 Hn Hl. destruct Hw as [_ Hp _ Hls Hsi Hgw Hdns _]. unfold reply_options.
  assert (Ipv4Prefix.IsValid (subnet sv) = true) as -> 
    by (unfold Ipv4Prefix.IsValid; rewrite (proj2 (Z.eqb_neq _ 0)); [done|destruct Hp; lia]).
  rewrite (proj2 (Z.ltb_lt 0 _)) by lia.
  destruct (encode_if_ok true _ _ _ OptServerIdentification (siaddr sv) H0) as (o1 & n1 & E1 & H1 & L1 & N1); [done|done|lia|].
  cbn [encode_if] in E1. rewrite E1. cbn [mbind outcome_bind].
  destruct (encode_if_ok (given (gwaddr sv)) _ _ _ OptRouter (gwaddr sv) H1) as (o2 & n2 & E2 & H2 & L2 & N2); [done|done|lia|].
  unfold given in E2. rewrite E2. cbn [mbind outcome_bind].
  destruct (encode_if_ok true _ _ _ OptSubnetMask (mask_of sv) H2) as (o3 & n3 & E3 & H3 & L3 & N3); [done|apply addr_ok_32|lia|].
  unfold mask_of in E3. rewrite E3. cbn [mbind outcome_bind].
  destruct (encode_if_ok (given (dns sv)) _ _ _ OptDNSServers (dns sv) H3) as (o4 & n4 & E4 & H4 & L4 & N4); [done|done|lia|].
  unfold given in E4. rewrite E4. cbn [mbind outcome_bind].
  destruct (encode_if_ok true _ _ _ OptIPAddressLeaseTime (bytes32 (leaseSeconds sv)) H4) as (o5 & n5 & -> & H5 & L5 & N5); [done|apply addr_ok_32|lia|].
  cbn [mbind outcome_bind].
  destruct (encode_if_ok true _ _ _ OptRenewTimeValue (bytes32 (leaseSeconds sv / 2)) H5) as (o6 & n6 & -> & H6 & L6 & N6); [done|apply addr_ok_32|lia|].
  cbn [mbind outcome_bind].
  destruct (encode_if_ok true _ _ _ OptRebindingTimeValue (bytes32 (u32 (leaseSeconds sv * 7) / 8)) H6) as (o7 & n7 & -> & H7 & L7 & N7); [done|apply addr_ok_32|lia|].
  cbn [mbind outcome_bind]. destruct (opts_end _ _ _ H7) as (tl & -> & Ltl & Hbt); [lia|]. cbn [mbind outcome_bind].
  match type of H7 with opts_at _ _ ?l =>
    assert (l = os ++ server_opts sv) as El by (unfold server_opts; rewrite <- !app_assoc; done) end.
  rewrite El in *. exists tl. split; [by destruct H7 as (_ & -> & _)|]. split; [congruence|done].
Qed.

(** ** The fixed part *)

Definition server_msg (sv : Server) (e : serverEntry) : msg :=
  mkMsg OpReply (e_xid e) 0 [0; 0; 0; 0] (e_addr e) (siaddr sv) (gwaddr sv) (e_hwaddr e)
    ((OptMessageType, [if bool_decide (e_state e = StateInit) then MsgOffer else MsgAck]) :: server_opts sv).

Lemma reply_header_ok e sv hd tl :
  server_wf sv -> entry_wf e -> zlen hd = 240 ->
  reply_header e sv (hd ++ tl) = Ret (mjoin (fields (server_msg sv e)) ++ tl).
Proof.
  intros Hw [_ [_ Ha] [_ Hh]] Hl. destruct Hw as [_ _ _ _ [_ Hsi] [_ Hgw] _ _]. unfold reply_header.
  rewrite clear_ok by done. cbn [mbind outcome_bind].
  unfold SetOp, SetHardware, SetXID, SetSecs, SetFlags, put_YIAddr, put_SIAddr, put_GIAddr, put_CHAddrAs6, SetMagicCookie,
    PutUint32, PutUint16.
  assert (fields_ok zero_fields) as F0 by done.
  let put_next k i := rewrite (set_field _ k i);
    [cbn [mbind outcome_bind] |done|repeat (apply fields_put; [|by rewrite ?Ha, ?Hsi, ?Hgw, ?Hh]); exact F0|by rewrite ?Ha, ?Hsi, ?Hgw, ?Hh] in
  put_next 0%nat 0; put_next 1%nat 1; put_next 2%nat 4; put_next 3%nat 8; put_next 4%nat 10; put_next 6%nat 16;
  put_next 7%nat 20; put_next 8%nat 24; put_next 9%nat 28; put_next 11%nat magicCookieOffset.
  done.
Qed.

(** ** The carrier *)

(** Room for a message at [off], behind an IPv4 header at [ip] if there is one. *)
Definition reply_room (carrier : list Z) (ip off : Z) : Prop :=
  ip < 0 \/ (ip + 20 <= off /\ IpAddr.ipver (zdrop ip carrier) = 4).

Lemma address_ok e sv carrier ip off :
  server_wf sv -> entry_wf e -> is_bytes carrier -> 0 <= off <= zlen carrier -> reply_room carrier ip off ->
  exists carrier', address e sv carrier ip = Ret (carrier', None) /\ is_bytes carrier' /\ zlen carrier' = zlen carrier /\
    forall n, 0 <= n -> off + n <= zlen carrier -> slice carrier' off (off + n) = slice carrier off (off + n).
Proof.
  intros Hw He Hb Hoff Hr. unfold address. destruct (Z.leb_spec 0 ip) as [Hip|]; [|by exists carrier].
  destruct Hr as [?|[Hip2 Hv]]; [lia|]. unfold assert_or_panic, slice_ok. rewrite !(proj2 (Z.leb_le _ _)) by lia. cbn [andb].
  assert (zlen (zdrop ip carrier) = zlen carrier - ip) as El by (apply zlen_zdrop; lia).
  destruct He as [_ [Ha1 Ha2] [Hh1 Hh]]. destruct (sw_si sv Hw) as [Hs1 Hs2].
  destruct (IpAddr.ipaddr_roundtrip (zdrop ip carrier) (zlen carrier - ip) 0 (Some (siaddr sv)) (e_addr e)) as (arr & -> & Harr & Hba & _ & Hout).
  { split; [by apply is_bytes_zdrop|lia|by left|]. rewrite Hv, El. change (IpAddr.hdr_min 4) with 20. lia. }
  { done. } { done. } { by rewrite Hv. } { done. } { rewrite Hv. by intros ? [= <-]. }
  rewrite Hv in Hout. change (IpAddr.hdr_min 4) with 20 in Hout. cbn [mbind outcome_bind].
  assert (Dhcp4ClientProps.after20 (zdrop ip carrier) arr) as H20.
  { split; [done|]. split; [done|]. intros i Hi. apply Hout; lia. }
  pose proof (Dhcp4ClientProps.after20_slice carrier ip off 0 arr H20 Hb Hip Hip2 ltac:(lia) ltac:(lia)) as (Hl & Hba' & _).
  eexists. split; [done|]. split; [case_match; [by apply is_bytes_put|done]|].
  split; [destruct (Z.leb_spec 14 ip); [rewrite zlen_put; lia|done]|]. intros n Hn Hle.
  destruct (Dhcp4ClientProps.after20_slice carrier ip off n arr H20 Hb Hip Hip2 Hn Hle) as (_ & _ & <-).
  destruct (Z.leb_spec 14 ip); [|done]. rewrite slice_put_out; done || lia.
Qed.

Definition answered (k : list Z) (e : serverEntry) (sv : Server) : Server :=
  with_hosts (<[k := mkEntry (e_hostname e) (e_xid e) (e_port e) (e_addr e) (e_requestlist e) (e_hwaddr e)
      (e_clientIdlen e) (if bool_decide (e_state e = StateInit) then StateSelecting else StateBound)]> (hosts sv))
    (pending sv - 1) sv.

Lemma server_msg_ok sv e : server_wf sv -> entry_wf e -> msg_ok (server_msg sv e).
Proof.
  intros Hw [Hx Ha Hh]. destruct Hw as [_ _ _ _ Hsi Hgw Hdns _].
  assert (forall a, addr_ok 4 a -> forall o, 0 < o < 255 -> opt_ok (o, a)) as Hok
    by (intros a [Ha1 Ha2] o Ho'; apply Dhcp4ClientProps.opt_ok_intro; [done|done|lia]).
  split; cbn [server_msg m_op m_xid m_ci m_yi m_si m_gi m_ch m_opts]; try done.
  - split; by_compute.
  - constructor; [apply Dhcp4ClientProps.opt_ok_intro; try case_match; by_compute|].
    assert (forall b a o, addr_ok 4 a -> 0 < o < 255 -> Forall opt_ok (when b (o, a))) as Hwh
      by (intros [] a o ? ?; [apply Forall_cons; split; [by apply Hok|]|]; apply Forall_nil_2).
    unfold server_opts.
    apply Forall_app_2; [by apply (Hwh true)|]. apply Forall_app_2; [by apply Hwh|].
    apply Forall_app_2; [by apply (Hwh true); [apply addr_ok_32|]|]. apply Forall_app_2; [by apply Hwh|].
    do 3 (apply Forall_cons; split; [by apply Hok; [apply addr_ok_32|]|]). apply Forall_nil_2.
Qed.

Section Reply.
Context `{!MapOrder}.

(** Some waiting client. *)
Lemma find_waiting sv : 0 < wcount (hosts sv) ->
  exists i k e, list_find (fun kv => waits (e_state kv.2) = true) (range (hosts sv)) = Some (i, (k, e)) /\
    hosts sv !! k = Some e /\ waits (e_state e) = true.
Proof.
  intros Hc. destruct (list_find _ _) as [[i [k e]]|] eqn:E.
  - exists i, k, e. apply list_find_Some in E as (E & Hs & _). split; [done|]. split; [|done].
    apply list_elem_of_lookup_2 in E. rewrite range_perm in E. by apply elem_of_map_to_list in E.
  - exfalso. apply list_find_None in E. unfold wcount in Hc.
    destruct (map_choose (waiting (hosts sv))) as (k & e & Hk).
    { intros E0. rewrite E0, map_size_empty in Hc. lia. }
    unfold waiting in Hk. apply map_lookup_filter_Some in Hk as [Hk Hs].
    rewrite Forall_forall in E. apply (E (k, e)); [|done]. rewrite range_perm. by apply elem_of_map_to_list.
Qed.

(** With nobody waiting, or without room for the options, nothing happens. *)
Lemma short_sends sv carrier ip off : 0 <= off -> off + 240 <= zlen carrier < off + 495 ->
  Encapsulate carrier ip off sv = Ret (sv, carrier, 0, Some errOptionNotFit).
Proof.
  intros Ho Hl. unfold Encapsulate, OptionsPayload, NewFrame, assert_or_panic, slice_ok. change OptionsOffset with 240.
  rewrite !(proj2 (Z.leb_le _ _)) by lia. cbn [andb]. rewrite (proj2 (Z.ltb_ge _ 240)) by (rewrite zlen_zdrop; lia).
  rewrite !(proj2 (Z.leb_le _ _)) by (rewrite ?zlen_zdrop; lia). cbn [andb mbind outcome_bind].
  by rewrite (proj2 (Z.ltb_lt _ 255)) by (rewrite !zlen_zdrop; rewrite ?zlen_zdrop; lia).
Qed.
Lemma idle_sends sv carrier ip off : 0 <= off -> off + 495 <= zlen carrier -> wcount (hosts sv) <= 0 ->
  Encapsulate carrier ip off sv = Ret (sv, carrier, 0, None).
Proof.
  intros Ho Hl Hc. unfold Encapsulate, OptionsPayload, NewFrame, assert_or_panic, slice_ok. change OptionsOffset with 240.
  rewrite !(proj2 (Z.leb_le _ _)) by lia. cbn [andb]. rewrite (proj2 (Z.ltb_ge _ 240)) by (rewrite zlen_zdrop; lia).
  rewrite !(proj2 (Z.leb_le _ _)) by (rewrite ?zlen_zdrop; lia). cbn [andb mbind outcome_bind].
  rewrite (proj2 (Z.ltb_ge _ 255)) by (rewrite !zlen_zdrop; rewrite ?zlen_zdrop; lia). case_match; [done|].
  destruct (list_find _ _) as [[i [k e]]|] eqn:E; [|done]. exfalso. apply list_find_Some in E as (E & Hs & _).
  apply list_elem_of_lookup_2 in E. rewrite range_perm in E. apply elem_of_map_to_list in E.
  rewrite (wcount_delete _ _ _ E) in Hc. cbn in Hs. rewrite Hs in Hc. unfold one_if in Hc.
  assert (0 <= wcount (delete k (hosts sv))) by (unfold wcount; lia). lia.
Qed.

Lemma answered_inv sv k e :
  inv sv -> hosts sv !! k = Some e -> waits (e_state e) = true ->
  inv (answered k e sv) /\ wcount (hosts (answered k e sv)) = wcount (hosts sv) - 1.
Proof.
  intros Hi Hk Hs. pose proof (iv_pending sv Hi) as Hp. pose proof (wcount_delete _ _ _ Hk) as Hd. rewrite Hs in Hd.
  change (one_if true) with 1 in Hd. unfold answered.
  assert (forall b : bool, one_if (waits (if b then StateSelecting else StateBound)) = 0) as H0 by (by intros []).
  split.
  - apply inv_insert; [done| | |cbn [e_state]; rewrite H0; lia].
    + apply (iv_wf sv Hi) in Hk. by destruct Hk.
    + by apply (iv_addrs sv Hi) in Hk.
  - cbn [with_hosts hosts]. rewrite wcount_insert. cbn [e_state]. rewrite H0. lia.
Qed.

Lemma server_sends sv carrier ip off :
  inv sv -> 0 < wcount (hosts sv) -> is_bytes carrier -> 0 <= off -> off + 495 <= zlen carrier -> reply_room carrier ip off ->
  exists k e carrier' n, hosts sv !! k = Some e /\ waits (e_state e) = true /\
    Encapsulate carrier ip off sv = Ret (answered k e sv, carrier', n, None) /\
    sent carrier' off n (server_msg sv e).
Proof.
  intros Hi Hc Hb Hoff Hl Hr. destruct (find_waiting sv Hc) as (i & k & e & Ef & Hk & Hs). exists k, e.
  pose proof (iv_wf sv Hi) as Hw. pose proof (sw_hosts sv Hw k e Hk) as He. cbn in He. unfold Encapsulate.
  unfold assert_or_panic at 1, slice_ok. rewrite !(proj2 (Z.leb_le _ _)) by lia. cbn [andb].
  assert (zlen (zdrop off carrier) = zlen carrier - off) as El by (apply zlen_zdrop; lia).
  unfold NewFrame. change OptionsOffset with 240. rewrite (proj2 (Z.ltb_ge _ _)) by lia.
  unfold OptionsPayload, assert_or_panic, slice_ok. change OptionsOffset with 240.
  rewrite !(proj2 (Z.leb_le _ _)) by lia. cbn [andb mbind outcome_bind].
  assert (zlen (zdrop 240 (zdrop off carrier)) = zlen carrier - off - 240) as El2 by (rewrite zlen_zdrop; lia).
  rewrite (proj2 (Z.ltb_ge _ 255)) by lia. pose proof (iv_pending sv Hi). rewrite (proj2 (Z.eqb_neq _ 0)) by lia. rewrite Ef.
  set (ty := if bool_decide (e_state e = StateInit) then MsgOffer else MsgAck).
  assert (opt_ok (OptMessageType, [ty])) as Hty by (unfold ty; case_match; apply Dhcp4ClientProps.opt_ok_intro; by_compute).
  destruct (encode_at_ok (zdrop 240 (zdrop off carrier)) 0 [] OptMessageType [ty]) as (o1 & -> & H1 & L1);
    [apply opts_at_0; by repeat apply is_bytes_zdrop|done|rewrite El2; change (zlen [ty]) with 1; lia|]. cbn [mbind outcome_bind].
  match goal with |- context [mbind _ ?x] => assert (exists frm, x = Ret frm /\ zlen frm = zlen carrier - off) as (frm & -> & Lf) end.
  { destruct (ew_addr e He) as [_ Ea]. case_match; [by eexists|]. unfold put_CIAddr. rewrite put_checked_ok by lia.
    eexists. split; [done|]. rewrite zlen_put; lia. }
  cbn [mbind outcome_bind]. change (0 + (2 + zlen [ty])) with 3 in *.
  destruct (reply_options_ok o1 3 _ sv Hw H1) as (tl & -> & Ltl & Hbt); [lia|lia|]. cbn [mbind outcome_bind].
  rewrite reply_header_ok by (done || (apply zlen_ztake; lia)). cbn [mbind outcome_bind].
  pose proof (server_msg_ok sv e Hw He) as Hm. set (m := server_msg sv e) in *.
  pose proof (fields_total _ (fields_of_ok m Hm)) as Hf. pose proof (zlen_nonneg (enc (m_opts m))).
  change (([] ++ [(OptMessageType, [ty])]) ++ server_opts sv) with (m_opts m) in *.
  set (car := ztake off carrier ++ mjoin (fields m) ++ enc (m_opts m) ++ OptEnd :: tl).
  assert (zlen (ztake off carrier) = off) as Et by (apply zlen_ztake; lia).
  assert (zlen car = zlen carrier) as Ecar by (unfold car; rewrite zlen_app, (zlen_app (mjoin _)), Ltl; lia).
  assert (is_bytes car) as Hbc by (unfold car; apply is_bytes_app; [by apply is_bytes_ztake|by apply (is_bytes_wire m)]).
  assert (reply_room car ip off) as Hrc.
  { destruct Hr as [?|[H1' H2']]; [by left|]. destruct (Z.ltb_spec ip 0); [by left|]. right. split; [done|]. rewrite <- H2'.
    unfold IpAddr.ipver. rewrite !zget_zdrop by lia. unfold car. rewrite zget_app_l by lia. rewrite zget_ztake by lia. done. }
  destruct (address_ok e sv car ip off Hw He Hbc) as (car' & -> & Hbc' & Ec' & Hsl); [lia|done|]. cbn [mbind outcome_bind].
  eexists _, _. split; [done|]. split; [done|]. split; [done|].
  rewrite zlen_app, zlen_cons in Ltl. pose proof (zlen_nonneg tl).
  split; [done|lia|]. rewrite Hsl by lia. apply slice_wire; [done|done|lia].
Qed.

End Reply.

End Dhcp4ServerReply.
