(* ===== verification/Dhcp4Service.v ===== *)
(** * The DHCPv4 server over its life

    From its configuration on, whatever arrives, the server neither panics nor hands out
    an address outside its subnet or its own ([server_leases_safe]), and as often as it is
    polled it answers the clients that wait, each of them once ([server_answers_all]). *)
From stdpp Require Import gmap.
From S2P Require Import Prelude Errors Bytes IpAddr Ipv4 Ipv4Prefix Validation Dhcp4 Dhcp4ClientProps Dhcp4Server Dhcp4ServerProps.

Module Dhcp4Service.
Import Bytes Dhcp4 Dhcp4Props Dhcp4Server Dhcp4ServerProps Dhcp4ServerReply.
Open Scope Z_scope.
Open Scope list_scope.

Record config_ok (cfg : ServerConfig) : Prop := mkConfigOk {
  co_server : addr_ok 4 (ServerAddr cfg);
  co_gateway : addr_ok 4 (Gateway cfg);
  co_dns : addr_ok 4 (DNS cfg);
  co_subnet : Ipv4Prefix.prefix_ok (Subnet cfg);
  co_lease : is_u32 (LeaseSeconds cfg)
}.

(** What a server was configured with, which does not change. *)
Definition config_of (sv : Server) := (subnet sv, leaseSeconds sv, (siaddr sv, gwaddr sv, dns sv)).
Definition lease_time (cfg : ServerConfig) : Z := if LeaseSeconds cfg =? 0 then 3600 else LeaseSeconds cfg.

Lemma configure_inv cfg sv0 sv : config_ok cfg -> Configure cfg sv0 = (sv, None) ->
  inv sv /\ config_of sv = (Subnet cfg, lease_time cfg, (ServerAddr cfg, Gateway cfg, DNS cfg)).
Proof.
  intros [[Hs1 Hs2] Hg Hd Hp [Hl1 Hl2]]. unfold Configure. destruct (Ipv4Prefix.IsValid _); [|done]. cbn [negb].
  destruct (Ipv4Prefix.Contains _ _) eqn:Ec; [|done]. cbn [negb]. intros [= <-].
  split; [split; [split| | |]|]; cbn; try done.
  - apply Ipv4Prefix.is_addr_Next.
  - destruct (Z.eqb_spec (LeaseSeconds cfg) 0); lia.
  - split; [by apply Ipv4Prefix.Contains_Next|]. split; [done|]. intros Hh. by apply next_differs.
Qed.

Section Life.
Context `{!MapOrder}.

(** What happens to a server. *)
Inductive event :=
| Arrives (carrier : list Z) (off : Z)
| Polled (carrier : list Z) (ip off : Z).
Definition step (ev : event) (sv : Server) : outcome Server :=
  match ev with
  | Arrives carrier off => '(sv, _) ← Demux carrier off sv; Ret sv
  | Polled carrier ip off => '(sv, _, _, _) ← Encapsulate carrier ip off sv; Ret sv
  end.
Fixpoint run (evs : list event) (sv : Server) : outcome Server :=
  match evs with [] => Ret sv | ev :: evs => sv ← step ev sv; run evs sv end.

(** Any octets arrive; a buffer to send from has room for the fixed part. *)
Definition event_ok (ev : event) : Prop :=
  match ev with
  | Arrives carrier off => is_bytes carrier /\ 0 <= off <= zlen carrier
  | Polled carrier ip off => is_bytes carrier /\ 0 <= off /\ off + 240 <= zlen carrier /\ reply_room carrier ip off
  end.


Lemma alloc_net req sv : config_of (fst (allocAddr req sv)) = config_of sv.
Proof. unfold allocAddr. by repeat case_match. Qed.
Lemma on_discover_net carrier ipl frm r client key ok sv sv' e :
  on_discover carrier ipl frm r client key ok sv = Ret (sv', e) -> config_of sv' = config_of sv.
Proof.
  unfold on_discover. set (sv1 := if ok && _ then _ else sv).
  assert (config_of sv1 = config_of sv) as E1 by (unfold sv1; by case_match). clearbody sv1.
  assert (config_of (fst (if negb ok then allocAddr (r_addr r) sv1 else (sv1, Some (e_addr client)))) = config_of sv) as E2
    by (rewrite <- E1; case_match; [apply alloc_net|done]).
  destruct (if negb ok then _ else _) as [sv2 [a|]]; cbn [fst] in E2; [|by intros [= <- <-]].
  destruct (XID frm); [|done]. destruct (CHAddrAs6 frm); [|done]. cbn [mbind outcome_bind].
  destruct (if ipl then _ else _); [|done]. cbn [mbind outcome_bind]. by intros [= <- <-].
Qed.
Lemma on_request_net frm client key ok sv sv' e :
  on_request frm client key ok sv = Ret (sv', e) -> config_of sv' = config_of sv.
Proof.
  unfold on_request. destruct ok; cbn [negb]; [|by intros [= <- <-]]. destruct (XID frm); [|done]. cbn [mbind outcome_bind].
  repeat case_match; by intros [= <- <-].
Qed.
Lemma demux_net carrier off sv sv' e : Demux carrier off sv = Ret (sv', e) -> config_of sv' = config_of sv.
Proof.
  unfold Demux, assert_or_panic. destruct (slice_ok _ _ _); [|done]. destruct (NewFrame _) as [frm [e0|]]; [by intros [= <- <-]|].
  destruct (ValidateSize _ _) as [v|]; [|done]. cbn [mbind outcome_bind]. destruct (Validation.HasError v) as [[]|]; [| |done]; cbn [mbind outcome_bind].
  { destruct (Validation.ErrPop v). by intros [= <- <-]. }
  destruct (ForEachOption _ _ _) as [[r e1]|]; [|done]. cbn [mbind outcome_bind]. destruct e1; [by intros [= <- <-]|].
  destruct (find_client _ _ _) as [[[client key] ok]|]; [|done]. cbn [mbind outcome_bind].
  case_match; [by intros E%on_discover_net|]. case_match; [by intros E%on_request_net|].
  case_match; intros [= <- <-]; [|done]. unfold on_release. by case_match.
Qed.

Lemma server_step_inv ev sv : inv sv -> event_ok ev -> exists sv', step ev sv = Ret sv' /\ inv sv' /\ config_of sv' = config_of sv.
Proof.
  intros Hi Hev. destruct ev as [carrier off|carrier ip off]; cbn [step event_ok] in *.
  - destruct Hev as [Hb Ho]. destruct (demux_inv sv carrier off Hi Hb Ho) as (sv' & e & E & Hi').
    rewrite E. cbn [mbind outcome_bind]. exists sv'. split; [done|]. split; [done|]. by eapply demux_net.
  - destruct Hev as (Hb & Ho & Hl & Hr). destruct (Z.leb_spec (off + 495) (zlen carrier)) as [Hroom|Hroom].
    + destruct (Z.ltb_spec 0 (wcount (hosts sv))) as [Hc|Hc].
      * destruct (server_sends sv carrier ip off) as (k & e & c' & n & Hk & Hs & -> & _); [done..|].
        cbn [mbind outcome_bind]. eexists. split; [done|]. by split; [apply answered_inv|].
      * exists sv. rewrite idle_sends by done. done.
    + exists sv. rewrite short_sends by lia. done.
Qed.

Lemma server_run_inv evs sv : inv sv -> Forall event_ok evs -> exists sv', run evs sv = Ret sv' /\ inv sv' /\ config_of sv' = config_of sv.
Proof.
  intros Hi Hevs. revert sv Hi. induction Hevs as [|ev evs Hev _ IH]; intros sv Hi; [by exists sv|].
  destruct (server_step_inv ev sv Hi Hev) as (sv1 & E1 & Hi1 & En1). cbn [run]. rewrite E1. cbn [mbind outcome_bind].
  destruct (IH sv1 Hi1) as (sv' & E & Hi' & En). exists sv'. split; [done|]. split; [done|]. by rewrite En.
Qed.

(** Poll [n] times with a buffer: the server and the messages it wrote. *)
Fixpoint serve (n : nat) (carrier : list Z) (ip off : Z) (sv : Server) : outcome (Server * list (list Z)) :=
  match n with
  | O => Ret (sv, [])
  | S n =>
      '(sv, carrier', len, _) ← Encapsulate carrier ip off sv;
      '(sv, ms) ← serve n carrier ip off sv;
      Ret (sv, slice carrier' off (off + len) :: ms)
  end.

Definition replies (sv : Server) (m : host_map) : list (list Z) :=
  (fun kv => wire (server_msg sv kv.2) []) <$> map_to_list m.

Lemma waiting_answered k e sv : hosts sv !! k = Some e -> waits (e_state e) = true ->
  waiting (hosts (answered k e sv)) = delete k (waiting (hosts sv)).
Proof.
  intros Hk Hs. unfold waiting, answered. cbn [with_hosts hosts]. rewrite map_filter_insert_False; [|cbn; by case_match].
  by rewrite map_filter_delete.
Qed.

Lemma serve_ok n carrier ip off sv :
  inv sv -> size (waiting (hosts sv)) = n -> is_bytes carrier -> 0 <= off -> off + 495 <= zlen carrier -> reply_room carrier ip off ->
  exists sv' ms, serve n carrier ip off sv = Ret (sv', ms) /\ waiting (hosts sv') = ∅ /\
    ms ≡ₚ replies sv (waiting (hosts sv)).
Proof.
  intros Hi Hn Hb Ho Hl Hr. revert sv Hi Hn. induction n as [|n IH]; intros sv Hi Hn.
  - apply map_size_empty_inv in Hn. exists sv, []. unfold replies. rewrite Hn, map_to_list_empty. done.
  - destruct (server_sends sv carrier ip off) as (k & e & c' & len & Hk & Hs & E & [_ _ Ew]); [done|unfold wcount; lia|done..|].
    destruct (answered_inv sv k e Hi Hk Hs) as [Hi' Hc]. pose proof (waiting_answered k e sv Hk Hs) as Hwa.
    destruct (IH (answered k e sv) Hi') as (sv' & ms & E' & He & Hp); [unfold wcount in Hc; lia|].
    cbn [serve]. rewrite E. cbn [mbind outcome_bind]. rewrite E'. cbn [mbind outcome_bind].
    eexists _, _. split; [done|]. split; [done|]. rewrite Ew, Hp, Hwa. unfold replies.
    assert (waiting (hosts sv) !! k = Some e) as Hwk by (by apply map_lookup_filter_Some).
    rewrite <- (map_to_list_delete (waiting (hosts sv)) k e Hwk). done.
Qed.

(** C23: A configured server survives anything it receives. After any sequence of octets received, of any content, and of
    polls with at least the 240 octets of the fixed part of a message to write to, the server has not panicked, every
    address in its table is either an address of its subnet other than its own or 0.0.0.0, and the counter of pending
    replies covers the clients that wait. Entries with 0.0.0.0 exist: the Release of an unknown client leaves one
    ([dhcp_zero_address_offered]); a poll with less room panics ([short_poll_panics]). *)
Theorem server_leases_safe cfg sv0 sv evs :
  config_ok cfg -> Configure cfg sv0 = (sv, None) -> Forall event_ok evs ->
  exists sv', run evs sv = Ret sv' /\ wcount (hosts sv') <= pending sv' /\
    forall k e, hosts sv' !! k = Some e ->
      e_addr e = [0; 0; 0; 0] \/ (Ipv4Prefix.Contains (Subnet cfg) (e_addr e) = true /\ e_addr e <> ServerAddr cfg).
Proof.
  intros Hcfg Hc Hevs. destruct (configure_inv cfg sv0 sv Hcfg Hc) as (Hi & [= Es _ Ea _ _]).
  destruct (server_run_inv evs sv Hi Hevs) as (sv' & E & Hi' & [= En1 _ En2 _ _]). exists sv'. split; [done|]. split; [apply Hi'|].
  intros k e Hk. pose proof (iv_addrs sv' Hi' k e Hk) as Hl. unfold lease_ok in Hl. by rewrite En1, En2, Es, Ea in Hl.
Qed.

(** C24: The server answers every client that waits. After any sequence of events, polling the server once per waiting client,
    with room for a message, writes the reply to each of them exactly once, in some order, and leaves nobody waiting. *)
Theorem server_answers_all cfg sv0 sv evs carrier ip off :
  config_ok cfg -> Configure cfg sv0 = (sv, None) -> Forall event_ok evs ->
  is_bytes carrier -> 0 <= off -> off + 495 <= zlen carrier -> reply_room carrier ip off ->
  exists sv' sv'' ms, run evs sv = Ret sv' /\
    serve (size (waiting (hosts sv'))) carrier ip off sv' = Ret (sv'', ms) /\
    waiting (hosts sv'') = ∅ /\ ms ≡ₚ replies sv' (waiting (hosts sv')).
Proof.
  intros Hcfg Hc Hevs Hb Ho Hl Hr. destruct (configure_inv cfg sv0 sv Hcfg Hc) as (Hi & _).
  destruct (server_run_inv evs sv Hi Hevs) as (sv' & E & Hi' & _).
  destruct (serve_ok _ carrier ip off sv' Hi' eq_refl) as (sv'' & ms & Es & Hw & Hp); [done..|].
  exists sv', sv'', ms. split; [done|]. split; [done|]. by split.
Qed.

End Life.

(** ** A server at work *)

Definition new_server : Server :=
  mkServer 0 [0; 0; 0; 0] (Ipv4Prefix.mkPrefix 0 0) ∅ (Validation.mkValidator [] 0) 0 0 0 [0; 0; 0; 0] [0; 0; 0; 0] [0; 0; 0; 0].
Definition home : ServerConfig :=
  mkServerConfig [192; 168; 1; 1] [192; 168; 1; 1] [8; 8; 8; 8] (Ipv4Prefix.PrefixFrom [192; 168; 1; 0] 24) 0 0.
Definition home_server : Server := fst (Configure home new_server).
Definition from_client (id xid t : Z) (opts : list (Z * list Z)) : list Z :=
  wire (mkMsg OpRequest xid 1 [0; 0; 0; 0] [0; 0; 0; 0] [0; 0; 0; 0] [0; 0; 0; 0] [2; 0; 0; 0; 0; id]
    ((OptMessageType, [t]) :: (OptClientIdentifier, [id]) :: opts)) [].
(** A buffer with an IPv4 header behind an Ethernet header. *)
Definition buffer : list Z := replicate 14 0 ++ 69 :: replicate 585 0.

Lemma home_ok : config_ok home.
Proof. split; split; by_compute. Qed.

Definition busy_day : list event :=
  [Arrives (from_client 1 11 MsgDiscover []) 0; Polled buffer 14 42; Arrives [1; 2; 3] 2;
   Arrives (from_client 2 12 MsgDiscover [(OptRequestedIPaddress, [10; 0; 0; 1])]) 0;
   Arrives (from_client 1 11 MsgRequest []) 0].
Lemma busy_day_ok : Forall event_ok busy_day.
Proof.
  repeat apply Forall_cons_2; try apply Forall_nil_2; cbn [event_ok]; split; try by_compute.
Qed.

Lemma server_leases_safe_witness :
  exists sv', @run key_order busy_day home_server = Ret sv' /\ wcount (hosts sv') <= pending sv' /\
    forall k e, hosts sv' !! k = Some e ->
      e_addr e = [0; 0; 0; 0] \/ (Ipv4Prefix.Contains (Subnet home) (e_addr e) = true /\ e_addr e <> ServerAddr home).
Proof. apply (@server_leases_safe key_order home new_server); [apply home_ok|reflexivity|apply busy_day_ok]. Defined.

Lemma server_answers_all_witness :
  exists sv' sv'' ms, @run key_order busy_day home_server = Ret sv' /\
    @serve key_order (size (waiting (hosts sv'))) buffer 14 42 sv' = Ret (sv'', ms) /\
    waiting (hosts sv'') = ∅ /\ ms ≡ₚ replies sv' (waiting (hosts sv')).
Proof.
  apply (@server_answers_all key_order home new_server);
    [apply home_ok|reflexivity|apply busy_day_ok|by_compute|lia|by_compute|right; by_compute].
Defined.

(** The addresses in the table after some messages, and whether their clients wait for a reply. *)
Definition leases_after (msgs : list (list Z)) : outcome (list (list Z * bool)) :=
  sv ← @run key_order (map (fun m => Arrives m 0) msgs) home_server;
  Ret (map (fun kv => (e_addr kv.2, waits (e_state kv.2))) (map_to_list (hosts sv))).

(** A client that nobody knows releases its address and then asks for one: the entry that the Release left in the table is
    found, and the client is offered 0.0.0.0. *)
Theorem dhcp_zero_address_offered :
  leases_after [from_client 1 11 MsgRelease []; from_client 1 12 MsgDiscover []] = Ret [([0; 0; 0; 0], true)].
Proof. by vm_compute. Qed.

(** An address that one client asked for is given to the next client, who did not ask, as well. *)
Theorem dhcp_address_given_twice :
  exists a, leases_after [from_client 1 11 MsgDiscover [(OptRequestedIPaddress, [192; 168; 1; 2])]; from_client 2 12 MsgDiscover []]
    = Ret [(a, true); (a, true)].
Proof. eexists. by vm_compute. Qed.

(** The broadcast address of the subnet is given to a client that asks for it. *)
Theorem dhcp_broadcast_granted :
  leases_after [from_client 1 11 MsgDiscover [(OptRequestedIPaddress, [192; 168; 1; 255])]] = Ret [([192; 168; 1; 255], true)].
Proof. by vm_compute. Qed.

(** A poll with less room than the fixed part of a message panics, also when nobody waits. *)
Theorem short_poll_panics : @Encapsulate key_order (replicate 239 0) (-1) 0 home_server = Panic.
Proof. by vm_compute. Qed.

End Dhcp4Service.
