(* ===== verification/Dhcp4Lease.v ===== *)
(** * A DHCPv4 lease from end to end

    The client and the server take turns on one buffer. Two rounds, Discover and Offer,
    Request and Acknowledge, bind the client to the address the server allocated. *)
From stdpp Require Import gmap.
From S2P Require Import Prelude Errors Bytes IpAddr Ipv4 Ipv4Prefix Validation Dhcp4 Dhcp4ClientProps Dhcp4Client Dhcp4Server Dhcp4ServerProps Dhcp4Service.

Module Dhcp4Lease.
Import Bytes Dhcp4 Dhcp4Props Dhcp4ServerProps Dhcp4ServerReply Dhcp4Service.
Module C := Dhcp4Client.
Module CP := Dhcp4ClientProps.
Module Sv := Dhcp4Server.
Open Scope Z_scope.
Open Scope list_scope.

(** ** What the server reads in the messages of the client *)

Definition asked (c : C.Client) : Sv.request :=
  match C.state c with
  | StateInit =>
      Sv.mkRequest MsgDiscover (C.clientID c) C.defaultParamReqList
        (if C.a_valid (C.reqIP c) then Some (C.a_addr (C.reqIP c)) else None) (C.reqHostname c)
  | _ => Sv.mkRequest MsgRequest (C.clientID c) [] (Some (C.a_addr (C.offer c))) (C.reqHostname c)
  end.

Lemma zlen_0 (l : list Z) : (0 <? zlen l) = false -> l = [].
Proof. intros E%Z.ltb_ge. destruct l; [done|]. rewrite zlen_cons in E. pose proof (zlen_nonneg l). lia. Qed.

Lemma visit_cons {A} (fn : A -> Z -> Z -> list Z -> A * option error) ptr o d os a a' :
  fn a ptr o d = (a', None) -> visit fn ptr ((o, d) :: os) a = visit fn (ptr + (zlen d + 2)) os a'.
Proof. intros E. cbn [visit fst snd]. by rewrite E. Qed.

Lemma visit_host c ptr t l ra :
  CP.client_wf c ->
  visit Sv.request_callback ptr (CP.host_opts c) (Sv.mkRequest t [] l ra []) =
    (Sv.mkRequest t (C.clientID c) l ra (C.reqHostname c), None).
Proof.
  intros [_ _ _ _ _ _ [_ Hid] [_ Hh] _]. unfold CP.host_opts.
  erewrite visit_cons by (unfold Sv.request_callback; cbn; rewrite (proj2 (Z.leb_le _ _)) by lia; done).
  cbn [Sv.r_type Sv.r_reqlist Sv.r_addr Sv.r_hostname].
  destruct (0 <? zlen (C.reqHostname c)) eqn:E.
  - erewrite visit_cons by (unfold Sv.request_callback; cbn; rewrite (proj2 (Z.leb_le _ _)) by lia; done). done.
  - rewrite (zlen_0 _ E). done.
Qed.

Lemma visit_asked c room :
  CP.client_wf c -> CP.speaks c ->
  visit Sv.request_callback OptionsOffset (m_opts (CP.client_msg c room)) Sv.no_request = (asked c, None).
Proof.
  intros Hw Hs. cbn [CP.client_msg m_opts]. unfold CP.first_opts, asked. pose proof Hw as [_ _ [_ Ho] _ _ [_ Hq] _ _ _].
  destruct Hs as [-> | [-> _]].
  - cbn [app]. erewrite visit_cons by done. erewrite visit_cons by done. erewrite visit_cons by done.
    cbn [Sv.no_request Sv.r_type Sv.r_reqlist Sv.r_addr Sv.r_hostname Sv.r_clientID].
    destruct (C.a_valid (C.reqIP c)); cbn [app]; [|by apply visit_host].
    erewrite visit_cons by (unfold Sv.request_callback; cbn; rewrite Hq; done). by apply visit_host.
  - cbn [app]. erewrite visit_cons by done.
    erewrite visit_cons by (unfold Sv.request_callback; cbn; rewrite Ho; done).
    erewrite visit_cons by done. by apply visit_host.
Qed.

(** ** What the client reads in the replies of the server *)

Definition learn1 (c : C.Client) (o : Z * list Z) : C.Client := fst (C.option_callback c 0 o.1 o.2).
Lemma visit_learns os ptr c : visit C.option_callback ptr os c = (fold_left learn1 os c, None).
Proof.
  revert ptr c. induction os as [|[o d] os IH]; intros ptr c; [done|].
  rewrite (visit_cons _ ptr o d os c (learn1 c (o, d))) by done. by rewrite IH.
Qed.

Definition told (sv : Sv.Server) (c : C.Client) : C.Client :=
  C.with_names (C.hostname c) (C.dns c ++ when (given (Sv.dns sv) && negb (0 <? zlen (C.dns c))) (Sv.dns sv)) (C.ntps c)
    (C.with_addrs (C.set4 (Sv.siaddr sv)) (if given (Sv.gwaddr sv) then C.set4 (Sv.gwaddr sv) else C.router c)
       (C.broadcast c) (C.set4 (mask_of sv))
       (C.with_times (Sv.leaseSeconds sv / 2) (u32 (Sv.leaseSeconds sv * 7) / 8) (Sv.leaseSeconds sv) c)).

Section Learn.
Context (c : C.Client) (a : list Z) (Ha : zlen a = 4).
Lemma learn_server : learn1 c (OptServerIdentification, a) = C.with_addrs (C.set4 a) (C.router c) (C.broadcast c) (C.subnet c) c.
Proof using Ha. unfold learn1, C.option_callback, C.setmaybe. cbn [fst snd]. by rewrite Ha. Qed.
Lemma learn_router : learn1 c (OptRouter, a) = C.with_addrs (C.svip c) (C.set4 a) (C.broadcast c) (C.subnet c) c.
Proof using Ha. unfold learn1, C.option_callback, C.setmaybe. cbn [fst snd]. by rewrite Ha. Qed.
Lemma learn_mask : learn1 c (OptSubnetMask, a) = C.with_addrs (C.svip c) (C.router c) (C.broadcast c) (C.set4 a) c.
Proof using Ha. unfold learn1, C.option_callback, C.setmaybe. cbn [fst snd]. by rewrite Ha. Qed.
Lemma learn_dns : learn1 c (OptDNSServers, a) =
  if 0 <? zlen (C.dns c) then c else C.with_names (C.hostname c) (C.dns c ++ [a]) (C.ntps c) c.
Proof using Ha.
  unfold learn1, C.option_callback. cbn [fst snd]. rewrite Ha. change (Z.to_nat (4 / 4)) with 1%nat. cbn [C.groups4].
  rewrite ztake_ge by lia. by destruct (0 <? zlen (C.dns c)).
Qed.
End Learn.
Lemma learn_lease c v : is_u32 v -> learn1 c (OptIPAddressLeaseTime, bytes32 v) = C.with_times (C.tRenew c) (C.tRebind c) v c.
Proof. intros. unfold learn1, C.option_callback, C.maybeU32. cbn [fst snd]. change (zlen (bytes32 v)) with 4. cbn. by rewrite be32_bytes32. Qed.
Lemma learn_renew c v : is_u32 v -> learn1 c (OptRenewTimeValue, bytes32 v) = C.with_times v (C.tRebind c) (C.tIPLease c) c.
Proof. intros. unfold learn1, C.option_callback, C.maybeU32. cbn [fst snd]. change (zlen (bytes32 v)) with 4. cbn. by rewrite be32_bytes32. Qed.
Lemma learn_rebind c v : is_u32 v -> learn1 c (OptRebindingTimeValue, bytes32 v) = C.with_times (C.tRenew c) v (C.tIPLease c) c.
Proof. intros. unfold learn1, C.option_callback, C.maybeU32. cbn [fst snd]. change (zlen (bytes32 v)) with 4. cbn. by rewrite be32_bytes32. Qed.

Lemma learn_reply sv c t : server_wf sv -> fold_left learn1 ((OptMessageType, [t]) :: server_opts sv) c = told sv c.
Proof.
  intros [_ _ _ Hl [_ Hs] [_ Hg] [_ Hd] _]. cbn [fold_left]. change (learn1 c (OptMessageType, [t])) with c.
  assert (zlen (mask_of sv) = 4) as Hk by apply addr_ok_32.
  assert (is_u32 (Sv.leaseSeconds sv)) as Hl1 by (split; lia).
  assert (is_u32 (Sv.leaseSeconds sv / 2)) as Hl2.
  { split; [apply Z.div_pos; lia|]. apply Z.div_lt_upper_bound; lia. }
  assert (is_u32 (u32 (Sv.leaseSeconds sv * 7) / 8)) as Hl3.
  { assert (0 <= u32 (Sv.leaseSeconds sv * 7) < 2 ^ 32) by (apply Z.mod_pos_bound; lia).
    split; [apply Z.div_pos; lia|]. apply Z.div_lt_upper_bound; lia. }
  unfold server_opts. rewrite !fold_left_app. cbn [fold_left]. rewrite learn_server by done.
  rewrite learn_rebind, learn_renew, learn_lease by done. unfold told, when.
  destruct (given (Sv.gwaddr sv)); cbn [fold_left]; rewrite ?learn_router by done; rewrite learn_mask by done;
    (destruct (given (Sv.dns sv)); cbn [fold_left andb]; [rewrite learn_dns by done|]); destruct c; cbn [C.dns C.with_addrs];
    repeat match goal with |- context [0 <? ?x] => destruct (0 <? x) end; cbn; by rewrite ?app_nil_r.
Qed.

(** The offer or the acknowledgement as the client takes it. *)
Definition bound_to (sv : Sv.Server) (e : Sv.serverEntry) (c : C.Client) : C.Client :=
  match C.state c with
  | StateSelecting => C.with_offer (C.set4 (Sv.gwaddr sv)) (C.set4 (Sv.e_addr e)) (C.set4 (Sv.siaddr sv)) (told sv c)
  | _ => C.with_state StateBound (told sv c)
  end.
Definition awaits (e : Sv.serverEntry) (c : C.Client) : Prop :=
  (C.state c = StateSelecting /\ C.a_valid (C.offer c) = false /\ Sv.e_state e = StateInit) \/
  (C.state c = StateRequesting /\ Sv.e_state e <> StateInit).

Lemma client_hears sv e c pre :
  server_wf sv -> entry_wf e -> CP.client_wf c -> awaits e c -> Sv.e_xid e = C.currentXID c -> is_bytes pre ->
  exists tos, is_u8 tos /\
    C.Demux (pre ++ wire (server_msg sv e) []) (zlen pre) c = Ret (C.with_tos tos (bound_to sv e c), None).
Proof.
  intros Hw He Hc Ha Hx Hp. pose proof (server_msg_ok sv e Hw He) as Hm. set (m := server_msg sv e) in *.
  pose proof (zlen_nonneg pre). pose proof (zlen_nonneg (wire m [])). unfold C.Demux.
  assert (C.isClosed c = false) as ->.
  { unfold C.isClosed. rewrite (proj2 (Z.eqb_neq _ 0)) by (destruct Hc; lia). by destruct Ha as [[-> _]|[-> _]]. }
  unfold assert_or_panic, slice_ok. rewrite zlen_app, !(proj2 (Z.leb_le _ _)) by lia. cbn [andb].
  rewrite zdrop_app_exact, read_NewFrame, read_XID, read_cookie by (done || apply Forall_nil_2). cbn [mbind outcome_bind].
  change (m_xid m) with (Sv.e_xid e). rewrite Hx, !Z.eqb_refl. cbn [negb].
  unfold C.getMessageType, C.setOptions. rewrite !read_options by done.
  change (m_opts m) with ((OptMessageType, [if bool_decide (Sv.e_state e = StateInit) then MsgOffer else MsgAck]) :: server_opts sv).
  rewrite visit_learns, learn_reply by done. set (t := if bool_decide _ then _ else _).
  cbn [visit fst snd]. change (C.type_callback C.noMessageType OptionsOffset OptMessageType [t]) with (t, Some EOF).
  cbn [mbind outcome_bind].
  assert (C.advance t (wire m []) (told sv c) = Ret (Some (bound_to sv e c))) as Eadv.
  { unfold C.advance, bound_to. change (C.state (told sv c)) with (C.state c). change (C.offer (told sv c)) with (C.offer c).
    rewrite read_GIAddr, read_YIAddr, read_SIAddr by done.
    destruct Ha as [(-> & -> & E)|[-> E]]; unfold t; [by rewrite bool_decide_true|by rewrite bool_decide_false]. }
  rewrite Eadv. assert ((t =? MsgNack) = false /\ (t =? MsgOffer) || (t =? MsgAck) = true) as [-> ->] by (unfold t; by case_match).
  cbn [negb mbind outcome_bind].
  destruct ((28 <? zlen pre) && (C.svIPtos (bound_to sv e c) =? 0)) eqn:E.
  - apply andb_prop in E as [E%Z.ltb_lt _]. unfold Ipv4.NewFrame, Ipv4.sizeHeader. rewrite (proj2 (Z.ltb_ge _ _)) by (rewrite zlen_app; lia).
    unfold Ipv4.ToS. destruct (at_ok (pre ++ wire m []) 1) as (b & Eb & ->); [rewrite zlen_app; lia|]. cbn [mbind outcome_bind].
    exists b. split; [|done]. eapply is_bytes_zget; [|done]. apply is_bytes_app; [done|apply is_bytes_wire; [done|apply Forall_nil_2]].
  - exists (C.svIPtos c). split; [apply Hc|]. do 2 f_equal. unfold bound_to. destruct c. cbn. by case_match.
Qed.

(** ** One round *)

Definition key (c : C.Client) : list Z := Sv.copy_array (replicate 36 0) (C.clientID c).
Lemma told_config sv sv' c : config_of sv' = config_of sv -> told sv' c = told sv c.
Proof. intros [= E1 E2 E3 E4 E5]. unfold told, mask_of. by rewrite E1, E2, E3, E4, E5. Qed.
Lemma bound_config sv sv' e c : config_of sv' = config_of sv -> bound_to sv' e c = bound_to sv e c.
Proof. intros E. unfold bound_to. rewrite (told_config _ _ _ E). revert E. by intros [= _ _ -> -> _]. Qed.

(** The entry belongs to the client. *)
Record entry_for (c : C.Client) (a : list Z) (s : ClientState) (e : Sv.serverEntry) : Prop := mkEntryFor {
  ef_xid : Sv.e_xid e = C.currentXID c;
  ef_addr : Sv.e_addr e = a;
  ef_state : Sv.e_state e = s
}.

Section Round.
Context `{!Sv.MapOrder}.

(** The client speaks, the server hears it and speaks, the client hears it. *)
Definition round (carrier : list Z) (ip off : Z) (c : C.Client) (sv : Sv.Server) : outcome (C.Client * Sv.Server) :=
  '(c, carrier1, n, _) ← C.Encapsulate carrier ip off c;
  '(sv, _) ← Sv.Demux (ztake (off + n) carrier1) off sv;
  '(sv, carrier2, n, _) ← Sv.Encapsulate carrier ip off sv;
  '(c, _) ← C.Demux (ztake (off + n) carrier2) off c;
  Ret (c, sv).

Lemma find_known c frm sv : CP.client_wf c ->
  Sv.find_client (Sv.r_clientID (asked c)) frm sv =
    Ret (match Sv.hosts sv !! key c with Some e => (e, key c, true) | None => (Sv.zero_entry, key c, false) end).
Proof.
  intros Hc. assert (Sv.r_clientID (asked c) = C.clientID c) as -> by (unfold asked; by destruct (C.state c)).
  unfold Sv.find_client. rewrite (proj2 (Z.eqb_neq _ 0)) by (destruct (CP.cw_id c Hc); lia).
  fold (key c). unfold Sv.getClient. by destruct (Sv.hosts sv !! key c).
Qed.

Lemma hears_discover c sv pre room a :
  inv sv -> CP.client_wf c -> C.state c = StateInit -> is_bytes pre -> Sv.hosts sv !! key c = None ->
  (exists sv1, Sv.allocAddr (Sv.r_addr (asked c)) sv = (sv1, Some a)) ->
  exists e sv', Sv.Demux (pre ++ wire (CP.client_msg c room) []) (zlen pre) sv = Ret (sv', None) /\
    config_of sv' = config_of sv /\ Sv.hosts sv' = <[key c := e]> (Sv.hosts sv) /\ entry_for c a StateInit e.
Proof.
  intros Hi Hc Hs Hp Hk [sv1 Ea]. assert (CP.speaks c) as Hsp by (by left).
  pose proof (CP.client_msg_ok c room Hc Hsp) as Hm. pose proof (visit_asked c room Hc Hsp) as Hv.
  assert (request_ok (asked c)) as Hr.
  { unfold request_ok, asked. rewrite Hs. cbn. intros a' E. destruct (C.a_valid (C.reqIP c)); [|done]. injection E as <-. apply Hc. }
  destruct (alloc_ok _ sv (iv_wf sv Hi) (iv_next sv Hi) Hr) as (n & oa & E & _). rewrite Ea in E. injection E as -> <-.
  rewrite (demux_reads sv pre _ (asked c) (iv_wf sv Hi) Hm Hp Hv), find_known, Hk by done. cbn [mbind outcome_bind].
  assert (Sv.r_type (asked c) = MsgDiscover) as -> by (unfold asked; by rewrite Hs). change (MsgDiscover =? MsgDiscover) with true.
  unfold Sv.on_discover. cbn [andb negb]. rewrite Ea.
  assert (is_bytes []) as Hnil by apply Forall_nil_2. rewrite read_XID, read_CHAddr by done. cbn [mbind outcome_bind].
  match goal with |- context [mbind _ ?x] => assert (exists p, x = Ret p) as (p & ->) end.
  { case_match; [|by eexists]. apply src_port_ok; [apply is_bytes_app; [done|by apply is_bytes_wire]|].
    rewrite zlen_app, zlen_wire by done. pose proof (zlen_nonneg pre). pose proof (zlen_nonneg (enc (m_opts (CP.client_msg c room)))).
    rewrite zlen_nil. lia. }
  cbn [mbind outcome_bind]. eexists _, _. split; [done|]. done.
Qed.

Lemma hears_request c sv pre room a e :
  inv sv -> CP.client_wf c -> C.state c = StateSelecting -> C.a_valid (C.offer c) = true -> is_bytes pre ->
  Sv.hosts sv !! key c = Some e -> entry_for c a StateSelecting e ->
  exists e' sv', Sv.Demux (pre ++ wire (CP.client_msg c room) []) (zlen pre) sv = Ret (sv', None) /\
    config_of sv' = config_of sv /\ Sv.hosts sv' = <[key c := e']> (Sv.hosts sv) /\ entry_for c a StateRequesting e'.
Proof.
  intros Hi Hc Hs Ho Hp Hk [Ex Ea Es]. assert (CP.speaks c) as Hsp by (by right).
  pose proof (CP.client_msg_ok c room Hc Hsp) as Hm. pose proof (visit_asked c room Hc Hsp) as Hv.
  rewrite (demux_reads sv pre _ (asked c) (iv_wf sv Hi) Hm Hp Hv), find_known, Hk by done. cbn [mbind outcome_bind].
  assert (Sv.r_type (asked c) = MsgRequest) as -> by (unfold asked; by rewrite Hs).
  change (MsgRequest =? MsgDiscover) with false. change (MsgRequest =? MsgRequest) with true.
  assert (is_bytes []) as Hnil by apply Forall_nil_2. unfold Sv.on_request. cbn [negb]. rewrite read_XID by done. cbn [mbind outcome_bind].
  change (m_xid (CP.client_msg c room)) with (C.currentXID c). rewrite Ex, Z.eqb_refl, Es. cbn [negb].
  rewrite bool_decide_true by done. cbn [negb andb]. eexists _, _. split; [done|]. done.
Qed.

(** The two rounds of a lease. *)
Definition turn (c : C.Client) (s : ClientState) : Prop :=
  (C.state c = StateInit /\ C.a_valid (C.offer c) = false /\ s = StateInit) \/
  (C.state c = StateSelecting /\ C.a_valid (C.offer c) = true /\ s = StateRequesting).
Definition after (s : ClientState) : ClientState := if bool_decide (s = StateInit) then StateSelecting else StateBound.

Lemma bound_wf sv e c tos : server_wf sv -> entry_wf e -> CP.client_wf c -> is_u8 tos -> CP.client_wf (C.with_tos tos (bound_to sv e c)).
Proof. intros Hw He Hc Ht. unfold bound_to. destruct Hc, He, Hw. destruct (C.state c); by split. Qed.

Lemma answers_only k e sv sv' carrier ip off :
  inv sv' -> Sv.hosts sv' = <[k := e]> (Sv.hosts sv) -> waiting (Sv.hosts sv) = ∅ -> Sv.waits (Sv.e_state e) = true ->
  is_bytes carrier -> 0 <= off -> off + 495 <= zlen carrier -> reply_room carrier ip off ->
  exists carrier' n, Sv.Encapsulate carrier ip off sv' = Ret (answered k e sv', carrier', n, None) /\
    sent carrier' off n (server_msg sv' e) /\ inv (answered k e sv') /\ waiting (Sv.hosts (answered k e sv')) = ∅.
Proof.
  intros Hi Eh E0 Hs Hb Ho Hl Hr.
  assert (waiting (Sv.hosts sv') = {[k := e]}) as Ew by (unfold waiting in *; rewrite Eh, map_filter_insert_True, E0; done).
  destruct (server_sends sv' carrier ip off Hi) as (k' & e' & carrier' & n & Hk & Hs' & E & Hsent); [|done..|].
  { unfold wcount. rewrite Ew, map_size_singleton. lia. }
  assert (waiting (Sv.hosts sv') !! k' = Some e') as Hk' by (by apply map_lookup_filter_Some).
  rewrite Ew in Hk'. apply lookup_singleton_Some in Hk' as [<- <-]. exists carrier', n. split; [done|]. split; [done|].
  split; [by apply answered_inv|]. rewrite waiting_answered by done. by rewrite Ew, delete_singleton_eq.
Qed.

Lemma round_ok c sv carrier ip off a s :
  inv sv -> CP.client_wf c -> turn c s -> waiting (Sv.hosts sv) = ∅ ->
  is_bytes carrier -> 0 <= off -> off + 495 <= zlen carrier -> reply_room carrier ip off ->
  (forall pre room, is_bytes pre -> exists e sv',
    Sv.Demux (pre ++ wire (CP.client_msg c room) []) (zlen pre) sv = Ret (sv', None) /\
    config_of sv' = config_of sv /\ Sv.hosts sv' = <[key c := e]> (Sv.hosts sv) /\ entry_for c a s e) ->
  exists tos e c' sv', round carrier ip off c sv = Ret (c', sv') /\
    c' = C.with_tos tos (bound_to sv e (C.with_state (CP.next_state c) c)) /\ Sv.e_addr e = a /\ CP.client_wf c' /\
    inv sv' /\ config_of sv' = config_of sv /\ waiting (Sv.hosts sv') = ∅ /\
    exists e', Sv.hosts sv' !! key c = Some e' /\ entry_for c' a (after s) e'.
Proof.
  intros Hi Hc Ht E0 Hb Ho Hl Hr Hear. assert (CP.speaks c) as Hsp by (destruct Ht as [(? & _)|(? & ? & _)]; [by left|by right]).
  unfold round. destruct (CP.client_sends c carrier ip off) as (car1 & n1 & -> & Hs1); [done..| |].
  { by destruct Hr as [?|[? _]]; [left|right]. }
  cbn [mbind outcome_bind]. destruct (sent_message _ _ _ _ Ho Hs1) as (pre & -> & Hpre & Hbp).
  destruct (Hear pre (zlen carrier - off) Hbp) as (e & sv1 & E1 & Ec1 & Eh1 & Hef). pose proof Hef as [Ex Ea Es].
  assert (is_bytes (pre ++ wire (CP.client_msg c (zlen carrier - off)) [])) as Hbm.
  { apply is_bytes_app; [done|]. apply is_bytes_wire; [by apply CP.client_msg_ok|apply Forall_nil_2]. }
  destruct (demux_inv sv _ (zlen pre) Hi Hbm) as (sv1' & ? & E1' & Hi1).
  { rewrite zlen_app. pose proof (zlen_nonneg pre). pose proof (zlen_nonneg (wire (CP.client_msg c (zlen carrier - off)) [])). lia. }
  rewrite E1 in E1'. injection E1' as <- <-. rewrite Hpre in E1. rewrite E1. cbn [mbind outcome_bind].
  assert (Sv.waits (Sv.e_state e) = true) as Hwt by (rewrite Es; by destruct Ht as [(_ & _ & ->)|(_ & _ & ->)]).
  destruct (answers_only (key c) e sv sv1 carrier ip off) as (car2 & n2 & -> & Hs2 & Hi2 & Hw2); [done..|].
  cbn [mbind outcome_bind]. destruct (sent_message _ _ _ _ Ho Hs2) as (pre2 & -> & Hpre2 & Hbp2).
  assert (entry_wf e) as Hew. { apply (sw_hosts sv1 (iv_wf sv1 Hi1) (key c)). by rewrite Eh1, lookup_insert_eq. }
  set (c1 := C.with_state (CP.next_state c) c). assert (CP.client_wf c1) as Hc1 by (by destruct Hc).
  destruct (client_hears sv1 e c1 pre2) as (tos & Htos & E3); [apply Hi1|done|done| |done|done|].
  { unfold awaits, c1, CP.next_state. cbn [C.with_state C.state C.offer]. destruct Ht as [(-> & Hof & ->)|(-> & _ & ->)]; [by left|by right; rewrite Es]. }
  rewrite Hpre2 in E3. rewrite E3. cbn [mbind outcome_bind]. rewrite (bound_config sv) in E3 |- * by done.
  eexists tos, e, _, _. split; [done|]. split; [done|]. split; [done|]. split; [by apply bound_wf; [apply Hi|..]|].
  split; [done|]. split; [done|]. split; [done|].
  eexists. split; [apply lookup_insert_eq|]. split; cbn [Sv.e_xid Sv.e_addr Sv.e_state].
  - rewrite Ex. unfold bound_to. destruct (C.state c1); done.
  - done.
  - unfold after. by rewrite Es.
Qed.

Definition lease (carrier : list Z) (ip off : Z) (c : C.Client) (sv : Sv.Server) : outcome (C.Client * Sv.Server) :=
  '(c, sv) ← round carrier ip off c sv; round carrier ip off c sv.

Lemma selecting_after sv e c : C.state c = StateInit ->
  bound_to sv e (C.with_state (CP.next_state c) c) =
  C.with_offer (C.set4 (Sv.gwaddr sv)) (C.set4 (Sv.e_addr e)) (C.set4 (Sv.siaddr sv)) (told sv (C.with_state StateSelecting c)).
Proof. intros Hs. unfold bound_to, CP.next_state. by rewrite Hs. Qed.
Lemma requesting_after sv e c : C.state c = StateSelecting ->
  bound_to sv e (C.with_state (CP.next_state c) c) = C.with_state StateBound (told sv (C.with_state StateRequesting c)).
Proof. intros Hs. unfold bound_to, CP.next_state. by rewrite Hs. Qed.

Lemma lease_ok_rounds c sv carrier ip off a :
  inv sv -> CP.client_wf c -> C.state c = StateInit -> C.a_valid (C.offer c) = false ->
  waiting (Sv.hosts sv) = ∅ -> Sv.hosts sv !! key c = None ->
  (exists sv1, Sv.allocAddr (Sv.r_addr (asked c)) sv = (sv1, Some a)) ->
  is_bytes carrier -> 0 <= off -> off + 495 <= zlen carrier -> reply_room carrier ip off ->
  exists tos tos' sv' e, lease carrier ip off c sv =
      Ret (C.with_tos tos' (C.with_state StateBound (told sv (C.with_state StateRequesting
        (C.with_tos tos (C.with_offer (C.set4 (Sv.gwaddr sv)) (C.set4 a) (C.set4 (Sv.siaddr sv))
          (told sv (C.with_state StateSelecting c))))))), sv') /\
    Sv.hosts sv' !! key c = Some e /\ Sv.e_addr e = a /\ Sv.e_state e = StateBound.
Proof.
  intros Hi Hc Hs Hof E0 Hk Ha Hb Ho Hl Hr. unfold lease.
  destruct (round_ok c sv carrier ip off a StateInit) as (tos & e1 & c1 & sv1 & -> & Ec1 & Ea1 & Hc1 & Hi1 & Ef1 & E1 & e1' & Hk1 & He1);
    [done|done|by left|done|done|done|done|done|intros; by apply hears_discover|].
  rewrite (selecting_after sv e1 c Hs), Ea1 in Ec1. cbn [mbind outcome_bind].
  assert (key c1 = key c /\ C.state c1 = StateSelecting /\ C.a_valid (C.offer c1) = true) as (Ekey & Est & Eof) by (by rewrite Ec1).
  destruct (round_ok c1 sv1 carrier ip off a StateRequesting) as (tos' & e2 & c2 & sv2 & -> & Ec2 & _ & _ & _ & _ & _ & e2' & Hk2 & He2);
    [done|done|by right|done|done|done|done|done| |].
  { intros pre room Hbp. apply (hears_request c1 sv1 pre room a e1'); try done. by rewrite Ekey. }
  exists tos, tos', sv2, e2'. split.
  - by rewrite Ec2, (requesting_after sv1 e2 c1 Est), (told_config _ _ _ Ef1), Ec1.
  - split; [by rewrite <- Ekey|]. by destruct He2.
Qed.

(** A server some time after its configuration. *)
Definition served (cfg : Sv.ServerConfig) (sv : Sv.Server) : Prop :=
  exists sv0 sv1 evs, Sv.Configure cfg sv0 = (sv1, None) /\ Forall event_ok evs /\ run evs sv1 = Ret sv.

Lemma served_inv cfg sv : config_ok cfg -> served cfg sv ->
  inv sv /\ config_of sv = (Sv.Subnet cfg, lease_time cfg, (Sv.ServerAddr cfg, Sv.Gateway cfg, Sv.DNS cfg)).
Proof.
  intros Hcfg (sv0 & sv1 & evs & Hc & Hevs & E). destruct (configure_inv cfg sv0 sv1 Hcfg Hc) as (Hi & Ec).
  destruct (server_run_inv evs sv1 Hi Hevs) as (sv' & E' & Hi' & En). rewrite E in E'. injection E' as <-. split; [done|]. by rewrite En.
Qed.

(** A configuration of the client. *)
Record request_cfg_ok (cfg : C.RequestConfig) : Prop := mkRequestCfgOk {
  rc_addr : addr_ok 4 (C.RequestedAddr cfg);
  rc_hw : addr_ok 6 (C.ClientHardwareAddr cfg);
  rc_host : is_bytes (C.Hostname cfg);
  rc_id : is_bytes (C.ClientID cfg)
}.

Lemma begun c0 xid cfg c : request_cfg_ok cfg -> 0 < xid < 2 ^ 32 -> C.BeginRequest xid cfg c0 = (c, None) ->
  CP.client_wf c /\ C.state c = StateInit /\ C.offer c = C.zero4 /\ C.router c = C.zero4 /\ C.dns c = [].
Proof.
  intros [Ha Hh Hn Hid] Hx. unfold C.BeginRequest. destruct (Z.ltb_spec 36 (zlen (C.Hostname cfg))); [done|].
  case_match; [done|]. case_match; [done|]. destruct (Z.ltb_spec 32 (zlen (C.ClientID cfg))); [done|]. intros [= <-].
  split; [|done]. split; cbn; try done; try (split; [repeat constructor|]; done).
  pose proof (zlen_nonneg (C.ClientID cfg)). destruct Hh as [Hh1 Hh2].
  destruct (Z.eqb_spec (zlen (C.ClientID cfg)) 0); cbn [negb]; split; done || lia.
Qed.

Lemma mask_bits sv : server_wf sv -> u8 (32 - C.trailing_zeros 32 (be32 (mask_of sv) 0)) = Ipv4Prefix.Bits (Sv.subnet sv).
Proof.
  intros Hw. pose proof (Ipv4Prefix.hbits_range _ (sw_subnet sv Hw)) as Hh. unfold mask_of.
  rewrite (Ipv4Prefix.Bits_value _ (sw_subnet sv Hw)). set (h := Ipv4Prefix.hbits (Sv.subnet sv)) in *. clearbody h.
  assert (forallb (fun h => u8 (32 - C.trailing_zeros 32 (be32 (bytes32 (Ipv4Prefix.ones_shl (u64 (32 - (32 - h))))) 0)) =? 32 - h)
    (seqZ 0 33) = true) as Hall by (vm_compute; done).
  rewrite forallb_forall in Hall. apply Z.eqb_eq, Hall, list_elem_of_In, elem_of_seqZ. lia.
Qed.

(** C22: A lease from end to end. A client that begins a request and a configured server, after whatever it received before,
    that does not know the client yet, has an address for it and nobody waiting: two rounds on one buffer bind the client.
    It then has the address the server allocated, which is in the subnet and not the server's, knows the server, the prefix
    length, the name server and the lease time of the configuration, and the server has it bound to this address. *)
Theorem dhcp_lease_acquired scfg sv rcfg xid c0 c carrier ip off a :
  config_ok scfg -> served scfg sv ->
  request_cfg_ok rcfg -> 0 < xid < 2 ^ 32 -> C.BeginRequest xid rcfg c0 = (c, None) ->
  waiting (Sv.hosts sv) = ∅ -> Sv.hosts sv !! key c = None -> snd (Sv.allocAddr (Sv.r_addr (asked c)) sv) = Some a ->
  is_bytes carrier -> 0 <= off -> off + 495 <= zlen carrier -> reply_room carrier ip off ->
  exists c' sv', lease carrier ip off c sv = Ret (c', sv') /\
    C.State c' = StateBound /\ C.AssignedAddr c' = (a, true) /\
    Ipv4Prefix.Contains (Sv.Subnet scfg) a = true /\ a <> Sv.ServerAddr scfg /\
    C.ServerAddr c' = (Sv.ServerAddr scfg, true) /\ C.SubnetCIDRBits c' = Ipv4Prefix.Bits (Sv.Subnet scfg) /\
    C.dns c' = when (given (Sv.DNS scfg)) (Sv.DNS scfg) /\ C.IPLeaseSeconds c' = lease_time scfg /\
    exists e, Sv.hosts sv' !! key c = Some e /\ Sv.e_addr e = a /\ Sv.e_state e = StateBound.
Proof.
  intros Hcfg Hsv Hrc Hx Hc E0 Hk Ha Hb Ho Hl Hr. destruct (served_inv scfg sv Hcfg Hsv) as [Hi [= Es El Ea Eg Ed]].
  destruct (begun c0 xid rcfg c Hrc Hx Hc) as (Hwf & Hs & Hof & Hrt & Hdn).
  assert (request_ok (asked c)) as Hrq.
  { unfold request_ok, asked. rewrite Hs. cbn. intros a' E. destruct (C.a_valid (C.reqIP c)); [|done]. injection E as <-. apply Hwf. }
  destruct (alloc_ok _ sv (iv_wf sv Hi) (iv_next sv Hi) Hrq) as (n & oa & E & _ & _ & Hoa). rewrite E in Ha. cbn [snd] in Ha. subst oa.
  destruct (Hoa a eq_refl) as (_ & Hin & Hne). rewrite Es in Hin. rewrite Ea in Hne.
  destruct (lease_ok_rounds c sv carrier ip off a) as (tos & tos' & sv' & e & -> & He & Hea & Hes); try done; [by rewrite Hof|by eexists|].
  eexists _, sv'. split; [done|]. pose proof (mask_bits sv (iv_wf sv Hi)) as Hm.
  split; [done|]. split; [done|]. split; [done|]. split; [done|]. split; [by rewrite <- Ea|].
  split; [rewrite <- Es; exact Hm|]. split; [|split; [by rewrite <- El|by exists e]].
  cbn. rewrite Hdn, Ed. destruct (given (Sv.DNS scfg)); done.
Qed.

End Round.

(** ** A client at home *)

Definition laptop : C.RequestConfig := C.mkRequestConfig [0; 0; 0; 0] [2; 0; 0; 0; 0; 9] [108; 97; 112] [].
Definition new_client : C.Client :=
  C.mkClient 0 [] [] [] [] [] 0 0 0 0 0 StateZero [0; 0; 0; 0; 0; 0] C.zero4 C.zero4 C.zero4 C.zero4 C.zero4 C.zero4 C.zero4 C.zero4.
Definition laptop_client : C.Client := fst (C.BeginRequest 4711 laptop new_client).

Lemma dhcp_lease_acquired_witness :
  exists c' sv', @lease Sv.key_order buffer 14 42 laptop_client home_server = Ret (c', sv') /\
    C.State c' = StateBound /\ C.AssignedAddr c' = ([192; 168; 1; 2], true) /\
    Ipv4Prefix.Contains (Sv.Subnet home) [192; 168; 1; 2] = true /\ [192; 168; 1; 2] <> Sv.ServerAddr home /\
    C.ServerAddr c' = (Sv.ServerAddr home, true) /\ C.SubnetCIDRBits c' = Ipv4Prefix.Bits (Sv.Subnet home) /\
    C.dns c' = when (given (Sv.DNS home)) (Sv.DNS home) /\ C.IPLeaseSeconds c' = lease_time home /\
    exists e, Sv.hosts sv' !! key laptop_client = Some e /\ Sv.e_addr e = [192; 168; 1; 2] /\ Sv.e_state e = StateBound.
Proof.
  apply (@dhcp_lease_acquired Sv.key_order home home_server laptop 4711 new_client laptop_client buffer 14 42 [192; 168; 1; 2]).
  - apply home_ok.
  - exists new_server, home_server, []. split; [reflexivity|]. split; [apply Forall_nil_2|reflexivity].
  - split; [split|split| |]; by_compute.
  - lia.
  - reflexivity.
  - reflexivity.
  - reflexivity.
  - reflexivity.
  - by_compute.
  - lia.
  - by_compute.
  - right. by_compute.
Defined.

(** The client after the lease, as computed. *)
Example laptop_bound :
  (match @lease Sv.key_order buffer 14 42 laptop_client home_server with
   | Ret (c, _) => Some (C.State c, C.AssignedAddr c, C.RouterAddr c, C.RenewalSeconds c, C.RebindingSeconds c)
   | Panic => None
   end) = Some (StateBound, ([192; 168; 1; 2], true), ([192; 168; 1; 1], true), 1800, 3150).
Proof. vm_compute. reflexivity. Qed.

(** ** Defects *)

(** A refusal leaves the client in its state: it never asks again. *)
Lemma dhcp_nak_ignored sv e c pre :
  server_wf sv -> entry_wf e -> CP.client_wf c -> C.state c = StateRequesting -> Sv.e_xid e = C.currentXID c -> is_bytes pre ->
  let m := server_msg sv e in
  let nak := mkMsg (m_op m) (m_xid m) (m_secs m) (m_ci m) (m_yi m) (m_si m) (m_gi m) (m_ch m) [(OptMessageType, [MsgNack])] in
  C.Demux (pre ++ wire nak []) (zlen pre) c = Ret (c, Some ErrPacketDrop) /\
  forall carrier ip off, C.Encapsulate carrier ip off c = Ret (c, carrier, 0, None).
Proof.
  intros Hw He Hc Hs Hx Hp m nak.
  assert (msg_ok nak) as Hm.
  { destruct (server_msg_ok sv e Hw He). split; try done. apply Forall_cons. split; [apply CP.opt_ok_intro; by_compute|apply Forall_nil_2]. }
  assert (C.isClosed c = false) as Hcl by (unfold C.isClosed; rewrite Hs, (proj2 (Z.eqb_neq _ 0)) by (destruct Hc; lia); done).
  pose proof (zlen_nonneg pre). pose proof (zlen_nonneg (wire nak [])).
  split; [|intros; unfold C.Encapsulate; by rewrite Hcl, Hs].
  unfold C.Demux. rewrite Hcl. unfold assert_or_panic, slice_ok. rewrite zlen_app, !(proj2 (Z.leb_le _ _)) by lia. cbn [andb].
  rewrite zdrop_app_exact, read_NewFrame, read_XID, read_cookie by (done || apply Forall_nil_2). cbn [mbind outcome_bind].
  change (m_xid nak) with (Sv.e_xid e). rewrite Hx, !Z.eqb_refl. cbn [negb].
  unfold C.getMessageType. rewrite read_options by done. done.
Qed.

End Dhcp4Lease.
