(* ===== verification/HttpKV.v ===== *)
(** * Key-value pairs in a buffer ([src/http/httpraw/kvbuffer.go], [IntLen] of [src/internal/strconv.go])

    Keys and values are views, a start and a length of 16 bits each, of one buffer. The
    buffer is its backing array [mem] and its length [blen]; slicing it may reach up to
    the capacity. A slice of the buffer is an offset, a length and a capacity: as the
    compiler does, slicing off nothing but the end of the capacity leaves the pointer
    where it was. A nil slice is [None]. *)
From S2P Require Import Prelude Errors Bytes DnsName.

Module HttpKV.
Import Bytes.
Open Scope Z_scope.
Open Scope list_scope.

Definition maxBufLen : Z := 65535.

(** ** Flags *)

Definition flagNoBufferGrow : Z := 1.
Definition flagDoneParsingHeader : Z := 2.
Definition flagOOMReached : Z := 4.
Definition flagConnClose : Z := 8.
Definition flagNoHTTP11 : Z := 16.
Definition flagMangledBuffer : Z := 32.
Definition flagKVAppended : Z := 64.
Definition flagReaderEOF : Z := 128.
Definition FlagStatusSet : Z := 256.

Definition HasAny (f checkThese : Z) : bool := negb (Z.land f checkThese =? 0).

(** ** Views and pairs *)

Record view := mkView { v_start : Z; v_len : Z }.
Definition zero_view : view := mkView 0 0.
Record pairKV := mkPair { p_key : view; p_value : view }.
Definition zero_pair : pairKV := mkPair zero_view zero_view.

Definition isValid (p : pairKV) : bool := (0 <? v_len (p_key p)) || (0 <? v_len (p_value p)).
Definition isValidHeader (p : pairKV) : bool := 0 <? v_start (p_key p).
Definition invalidate (p : pairKV) : pairKV := zero_pair.
Definition size (p : pairKV) : Z := v_len (p_key p) + v_len (p_value p).
Definition HasValue (p : pairKV) : bool := 0 <? v_start (p_value p).

Record kvBuffer := mkKV { mem : list Z; blen : Z; kvs : list pairKV; kvcap : Z; flags : Z }.

Definition buf (kvb : kvBuffer) : list Z := ztake (blen kvb) (mem kvb).
Definition bcap (kvb : kvBuffer) : Z := zlen (mem kvb).

Definition with_buf (m : list Z) (n : Z) (kvb : kvBuffer) : kvBuffer := mkKV m n (kvs kvb) (kvcap kvb) (flags kvb).
Definition with_kvs (l : list pairKV) (kvb : kvBuffer) : kvBuffer := mkKV (mem kvb) (blen kvb) l (kvcap kvb) (flags kvb).
Definition with_flags (f : Z) (kvb : kvBuffer) : kvBuffer := mkKV (mem kvb) (blen kvb) (kvs kvb) (kvcap kvb) f.
Definition or_flags (f : Z) (kvb : kvBuffer) : kvBuffer := with_flags (Z.lor (flags kvb) f) kvb.

Definition free (kvb : kvBuffer) : Z := bcap kvb - blen kvb.
Definition BufferRaw (kvb : kvBuffer) : list Z := buf kvb.
Definition BufferUsed (kvb : kvBuffer) : Z := blen kvb.
Definition EnableBufferGrowth (enableGrowth : bool) (kvb : kvBuffer) : kvBuffer :=
  if enableGrowth then with_flags (Z.ldiff (flags kvb) flagNoBufferGrow) kvb else or_flags flagNoBufferGrow kvb.
Definition discardKVs (kvb : kvBuffer) : kvBuffer := with_kvs [] kvb.
Definition BufferGrowthEnabled (kvb : kvBuffer) : bool := negb (HasAny (flags kvb) flagNoBufferGrow).

(** ** Slices of the buffer *)

Record bslice := mkSlice { s_off : Z; s_len : Z; s_cap : Z }.

Definition whole (kvb : kvBuffer) : bslice := mkSlice 0 (blen kvb) (bcap kvb).
(** [s[a:b]] *)
Definition reslice (s : bslice) (a b : Z) : outcome bslice :=
  assert_or_panic ((0 <=? a) && (a <=? b) && (b <=? s_cap s))
    (Ret (mkSlice (if s_cap s - a =? 0 then s_off s else s_off s + a) (b - a) (s_cap s - a))).
(** Its octets. *)
Definition octets (kvb : kvBuffer) (s : bslice) : list Z := slice (mem kvb) (s_off s) (s_off s + s_len s).

Definition bytes2tok (kvb : kvBuffer) (value : bslice) : outcome view :=
  assert_or_panic ((0 <=? s_off value) && (s_off value <=? blen kvb))
    (Ret (mkView (u16 (s_off value)) (u16 (s_len value)))).
Definition view_ (kvb : kvBuffer) (value : option bslice) : outcome view :=
  match value with None => Ret zero_view | Some s => bytes2tok kvb s end.

(** [tok2bytes]: the end of the slice is computed with 16 bits. *)
Definition musttoken (kvb : kvBuffer) (v : view) : outcome (list Z) :=
  let e := u16 (v_start v + v_len v) in
  assert_or_panic (slice_ok (mem kvb) (v_start v) e) (Ret (slice (mem kvb) (v_start v) e)).

(** ** Reading pairs *)

Definition Len (kvb : kvBuffer) : Z := zlen (kvs kvb).
Definition pair_at (kvb : kvBuffer) (i : Z) : outcome pairKV :=
  match zget (kvs kvb) i with Some p => Ret p | None => Panic end.
Definition AtKey (i : Z) (kvb : kvBuffer) : outcome (list Z) := p ← pair_at kvb i; musttoken kvb (p_key p).
Definition pair_value (kvb : kvBuffer) (p : pairKV) : outcome (option (list Z)) :=
  if negb (HasValue p) then Ret None else v ← musttoken kvb (p_value p); Ret (Some v).
Definition AtValue (i : Z) (kvb : kvBuffer) : outcome (option (list Z)) := p ← pair_at kvb i; pair_value kvb p.
Definition At (i : Z) (kvb : kvBuffer) : outcome (list Z * option (list Z)) :=
  p ← pair_at kvb i; k ← musttoken kvb (p_key p); v ← pair_value kvb p; Ret (k, v).

Section Find.
Context (match_ : list Z -> bool) (kvb : kvBuffer).
Fixpoint find_idx (l : list pairKV) (i : Z) : outcome Z :=
  match l with
  | [] => Ret (-1)
  | p :: l =>
      if negb (isValid p) then find_idx l (i + 1)
      else k ← musttoken kvb (p_key p); if match_ k then Ret i else find_idx l (i + 1)
  end.
End Find.
Definition getIdx (key : list Z) (kvb : kvBuffer) : outcome Z :=
  find_idx (fun k => bool_decide (k = key)) kvb (kvs kvb) 0.
Definition getFoldIdx (key : list Z) (kvb : kvBuffer) : outcome Z :=
  find_idx (fun k => DnsName.EqualFoldASCII key k) kvb (kvs kvb) 0.

Definition Get (key : list Z) (kvb : kvBuffer) : outcome (option (list Z)) :=
  i ← getIdx key kvb; if i <? 0 then Ret None else AtValue i kvb.
Definition GetFold (key : list Z) (kvb : kvBuffer) : outcome (option (list Z)) :=
  i ← getFoldIdx key kvb; if i <? 0 then Ret None else AtValue i kvb.
Definition Present (key : list Z) (kvb : kvBuffer) : outcome bool := i ← getIdx key kvb; Ret (0 <=? i).
Definition HasKeyValue (key value : list Z) (kvb : kvBuffer) : outcome bool :=
  idx ← getIdx key kvb;
  if 0 <=? idx then p ← pair_at kvb idx; v ← musttoken kvb (p_value p); Ret (bool_decide (v = value)) else Ret false.

Section ForEach.
Context {A : Type} (cb : A -> list Z -> option (list Z) -> A * bool) (kvb : kvBuffer).
Fixpoint foreach_loop (l : list pairKV) (a : A) : outcome A :=
  match l with
  | [] => Ret a
  | p :: l =>
      if negb (isValid p) then foreach_loop l a
      else
        k ← musttoken kvb (p_key p); v ← pair_value kvb p;
        let '(a, go) := cb a k v in if go : bool then foreach_loop l a else Ret a
  end.
Definition ForEach (a : A) : outcome A := foreach_loop (kvs kvb) a.
End ForEach.

(** ** Numbers *)

(** [strconv.AppendInt] *)
Definition digit (d : Z) : Z := if d <? 10 then 48 + d else 87 + d.
Fixpoint digits (fuel : nat) (u base : Z) : list Z :=
  match fuel with
  | O => []
  | S fuel => if u <? base then [digit u] else digits fuel (u / base) base ++ [digit (u mod base)]
  end.
Definition FormatInt (value base : Z) : list Z :=
  if value <? 0 then 45 :: digits 64 (- value) base else digits 64 value base.

(** Each round divides by at least 2. *)
Fixpoint intlen_loop (fuel : nat) (u base n : Z) : Z :=
  match fuel with
  | O => n
  | S fuel => if base <=? u then intlen_loop fuel (u / base) base (n + 1) else n
  end.
Definition IntLen (value base : Z) : Z :=
  if value <? 0 then intlen_loop 64 (u64 (- u64 value)) base 2 else intlen_loop 64 (u64 value) base 1.

(** ** Changes *)

Definition Reset (b : option (list Z * Z)) (kvCap : Z) (kvb : kvBuffer) : kvBuffer :=
  let '(m, n) := match b with None => (mem kvb, 0) | Some x => x end in
  mkKV m n [] (if kvcap kvb <? kvCap then kvCap else kvcap kvb) (Z.land (flags kvb) flagNoBufferGrow).

Section Grow.
Context {RT : GoRuntime}.

(** [append(s, x)] of a slice with [n] elements of capacity [c]: the capacity. *)
Definition append_cap (n c : Z) : Z := if n + 1 <=? c then c else growslice c (n + 1).
Definition append_kv (p : pairKV) (kvb : kvBuffer) : kvBuffer :=
  mkKV (mem kvb) (blen kvb) (kvs kvb ++ [p]) (append_cap (zlen (kvs kvb)) (kvcap kvb)) (flags kvb).

Definition zeros (n : Z) : list Z := replicate (Z.to_nat n) 0.
(** [slices.Grow(kvb.buf, n)] and [append(kvb.buf, b...)] *)
Definition grow_buf (n : Z) (kvb : kvBuffer) : kvBuffer :=
  let need := blen kvb + n in
  if need <=? bcap kvb then kvb
  else with_buf (mem kvb ++ zeros (growslice (bcap kvb) need - bcap kvb)) (blen kvb) kvb.
Definition append_buf (b : list Z) (kvb : kvBuffer) : kvBuffer :=
  let need := blen kvb + zlen b in
  if need <=? bcap kvb then with_buf (put (mem kvb) (blen kvb) b) need kvb
  else with_buf (buf kvb ++ b ++ zeros (growslice (bcap kvb) need - need)) need kvb.

Definition CopyFrom (src : kvBuffer) (kvb : kvBuffer) : kvBuffer :=
  let kvb := append_buf (buf src) (with_buf (mem kvb) 0 kvb) in
  let n := zlen (kvs src) in
  mkKV (mem kvb) (blen kvb) (kvs src) (if n <=? kvcap kvb then kvcap kvb else growslice (kvcap kvb) n) (flags kvb).

Definition ReadFromBytes (b : list Z) (kvb : kvBuffer) : kvBuffer * option error :=
  if zlen b =? 0 then (kvb, Some IoErrNoProgress)
  else if HasAny (flags kvb) flagMangledBuffer then (kvb, Some errMangledBuffer)
  else if maxBufLen <? zlen b + bcap kvb then (kvb, Some ErrBufferExhausted)
  else if (free kvb <? zlen b) && negb (BufferGrowthEnabled kvb) then (kvb, Some ErrBufferExhausted)
  else (append_buf b kvb, None).

(** The reader gets the length of the slice to fill and returns what it read. *)
Definition ReadLimited (r : Z -> list Z * option error) (limit : Z) (kvb : kvBuffer)
    : outcome (kvBuffer * Z * option error) :=
  if negb (BufferGrowthEnabled kvb) && ((free kvb =? 0) || (free kvb <? limit)) || (maxBufLen <=? blen kvb)
  then Ret (kvb, 0, Some ErrBufferExhausted)
  else if HasAny (flags kvb) flagMangledBuffer then Ret (kvb, 0, Some errMangledBuffer)
  else if HasAny (flags kvb) flagReaderEOF then Ret (kvb, 0, Some EOF)
  else if limit <=? 0 then Ret (kvb, 0, Some IoErrNoProgress)
  else
    let kvb := grow_buf limit kvb in
    let hi := Z.min (blen kvb + limit) maxBufLen in
    assert_or_panic (slice_ok (mem kvb) (blen kvb) hi)
    (let '(data, err) := r (hi - blen kvb) in
     let n := zlen data in
     assert_or_panic (blen kvb + n <=? bcap kvb)
     (let kvb := with_buf (put (mem kvb) (blen kvb) data) (blen kvb + n) kvb in
      if (0 <? n) && err_is err EOF then Ret (or_flags flagReaderEOF kvb, n, None) else Ret (kvb, n, err))).

Definition canAddOneKV (kvb : kvBuffer) : bool :=
  (zlen (kvs kvb) <? kvcap kvb) || (Z.land (flags kvb) flagNoBufferGrow =? 0).

Definition reserve (need : Z) (kvb : kvBuffer) : kvBuffer * bool :=
  let need := if blen kvb =? 0 then need + 1 else need in
  if maxBufLen <? blen kvb + need then (or_flags flagOOMReached kvb, false)
  else if free kvb <? need then
    if HasAny (flags kvb) flagNoBufferGrow then (or_flags flagOOMReached kvb, false)
    else (grow_buf need kvb, true)
  else (kvb, true).

(** Octets at the end of the buffer: the buffer and their view. *)
Definition mustAppendSlice (value : list Z) (kvb : kvBuffer) : outcome (kvBuffer * view) :=
  let L := if blen kvb =? 0 then 1 else blen kvb in
  assert_or_panic (slice_ok (mem kvb) L (L + zlen value))
  (let kvb := with_buf (put (mem kvb) L value) (L + zlen value) kvb in
   s ← reslice (whole kvb) L (L + zlen value);
   v ← bytes2tok kvb s;
   Ret (kvb, v)).
Definition mustAppendInt (value base : Z) (kvb : kvBuffer) : outcome (kvBuffer * view) :=
  mustAppendSlice (FormatInt value base) kvb.

Definition appendPair (key value : list Z) (kvb : kvBuffer) : outcome (kvBuffer * bool) :=
  if negb (canAddOneKV kvb) then Ret (kvb, false)
  else
    let '(kvb, ok) := reserve (zlen key + zlen value) kvb in
    if negb ok then Ret (kvb, false)
    else
      let kvb := or_flags flagKVAppended kvb in
      '(kvb, k) ← mustAppendSlice key kvb;
      '(kvb, v) ← mustAppendSlice value kvb;
      Ret (append_kv (mkPair k v) kvb, true).
Definition appendPairInt (key : list Z) (value base : Z) (kvb : kvBuffer) : outcome (kvBuffer * bool) :=
  let vlen := IntLen value base in
  if negb (canAddOneKV kvb) then Ret (kvb, false)
  else
    let '(kvb, ok) := reserve (zlen key + vlen) kvb in
    if negb ok then Ret (kvb, false)
    else
      let kvb := or_flags flagKVAppended kvb in
      '(kvb, k) ← mustAppendSlice key kvb;
      '(kvb, v) ← mustAppendInt value base kvb;
      Ret (append_kv (mkPair k v) kvb, true).

Definition Add (key value : list Z) (kvb : kvBuffer) : outcome (kvBuffer * bool) :=
  '(kvb, _) ← appendPair key value kvb;
  i ← getIdx key kvb;
  Ret (kvb, 0 <=? i).

(** The pairs after slot [i] of [takeReusableSlot], and the slot to reuse. *)
Definition reuse_step (key : list Z) (keyLen valueLen : Z) (kvb : kvBuffer) (i : nat) (st : list pairKV * option nat)
    : outcome (list pairKV * option nat) :=
  let '(l, reuse) := st in
  match l !! i with
  | None => Panic
  | Some kv =>
      if negb (isValid kv) then Ret (l, reuse)
      else
      k ← musttoken kvb (p_key kv);
      if negb (bool_decide (k = key)) then Ret (l, reuse)
      else
      let fits := HasValue kv && (keyLen <=? v_len (p_key kv)) && (valueLen <=? v_len (p_value kv)) in
      match reuse with
      | None => if fits then Ret (l, Some i) else Ret (<[i := invalidate kv]> l, None)
      | Some j =>
          match l !! j with
          | None => Panic
          | Some old =>
              if fits && (size kv <? size old) then Ret (<[j := invalidate old]> l, Some i)
              else Ret (<[i := invalidate kv]> l, Some j)
          end
      end
  end.
Fixpoint reuse_loop (key : list Z) (keyLen valueLen : Z) (kvb : kvBuffer) (idx : list nat) (st : list pairKV * option nat)
    : outcome (list pairKV * option nat) :=
  match idx with
  | [] => Ret st
  | i :: idx => st ← reuse_step key keyLen valueLen kvb i st; reuse_loop key keyLen valueLen kvb idx st
  end.
Definition takeReusableSlot (key : list Z) (keyLen valueLen : Z) (kvb : kvBuffer) : outcome (kvBuffer * option nat) :=
  '(l, reuse) ← reuse_loop key keyLen valueLen kvb (seq 0 (length (kvs kvb))) (kvs kvb, None);
  Ret (with_kvs l kvb, reuse).

(** [copy(kvb.buf[start:], data)]: what exceeds the length is left out. *)
Definition copy_at (start : Z) (data : list Z) (kvb : kvBuffer) : outcome kvBuffer :=
  assert_or_panic (start <=? blen kvb)
    (Ret (with_buf (put (mem kvb) start (ztake (blen kvb - start) data)) (blen kvb) kvb)).

Definition overwriteAt (i : nat) (key value : list Z) (kvb : kvBuffer) : outcome kvBuffer :=
  let kvb := or_flags flagMangledBuffer kvb in
  match kvs kvb !! i with
  | None => Panic
  | Some kv =>
      kvb ← copy_at (v_start (p_key kv)) key kvb;
      kvb ← copy_at (v_start (p_value kv)) value kvb;
      Ret (with_kvs (<[i := mkPair (mkView (v_start (p_key kv)) (u16 (zlen key)))
                                   (mkView (v_start (p_value kv)) (u16 (zlen value)))]> (kvs kvb)) kvb)
  end.

Definition Set_ (key value : list Z) (kvb : kvBuffer) : outcome (kvBuffer * bool) :=
  '(kvb, reuse) ← takeReusableSlot key (zlen key) (zlen value) kvb;
  match reuse with
  | None => Add key value kvb
  | Some i => kvb ← overwriteAt i key value kvb; Ret (kvb, true)
  end.

(** The digits are appended to an empty slice of the slot, which has room for them. *)
Definition put_int (start value base : Z) (kvb : kvBuffer) : outcome (kvBuffer * Z) :=
  let v := FormatInt value base in
  assert_or_panic (slice_ok (mem kvb) start start)
    (Ret (if start + zlen v <=? bcap kvb then with_buf (put (mem kvb) start v) (blen kvb) kvb else kvb, u16 (zlen v))).
Definition SetInt (key : list Z) (value base : Z) (kvb : kvBuffer) : outcome (kvBuffer * bool) :=
  '(kvb, reuse) ← takeReusableSlot key (zlen key) (IntLen value base) kvb;
  match reuse with
  | None => appendPairInt key value base kvb
  | Some i =>
      let kvb := or_flags flagMangledBuffer kvb in
      match kvs kvb !! i with
      | None => Panic
      | Some kv =>
          kvb ← copy_at (v_start (p_key kv)) key kvb;
          '(kvb, n) ← put_int (v_start (p_value kv)) value base kvb;
          Ret (with_kvs (<[i := mkPair (mkView (v_start (p_key kv)) (u16 (zlen key)))
                                       (mkView (v_start (p_value kv)) n)]> (kvs kvb)) kvb, true)
      end
  end.

Definition setInternal (key value : option bslice) (kvb : kvBuffer) : outcome (kvBuffer * bool) :=
  if negb (canAddOneKV kvb) then Ret (kvb, false)
  else
    let kvb := or_flags flagKVAppended kvb in
    k ← view_ kvb key; v ← view_ kvb value;
    Ret (append_kv (mkPair k v) kvb, true).
Definition setAt (i : Z) (k v : option bslice) (kvb : kvBuffer) : outcome kvBuffer :=
  let kvb := or_flags flagMangledBuffer kvb in
  key ← view_ kvb k; value ← view_ kvb v;
  assert_or_panic ((0 <=? i) && (i <? zlen (kvs kvb)))
    (Ret (with_kvs (<[Z.to_nat i := mkPair key value]> (kvs kvb)) kvb)).

Definition appendSlice (value : list Z) (kvb : kvBuffer) : outcome (kvBuffer * view) :=
  let '(kvb, ok) := reserve (zlen value) kvb in
  if negb ok then Ret (kvb, zero_view)
  else mustAppendSlice value (or_flags flagMangledBuffer kvb).
Definition appendInt (value base n : Z) (kvb : kvBuffer) : outcome (kvBuffer * view) :=
  let '(kvb, ok) := reserve n kvb in
  if negb ok then Ret (kvb, zero_view)
  else mustAppendInt value base (or_flags flagMangledBuffer kvb).
Definition reuseOrAppend (tok : view) (value : list Z) (kvb : kvBuffer) : outcome (kvBuffer * view) :=
  if u16 (zlen value) <? v_len tok then
    t ← musttoken kvb tok;
    Ret (with_buf (put (mem kvb) (v_start tok) (ztake (zlen t) value)) (blen kvb) kvb,
         mkView (v_start tok) (u16 (zlen value)))
  else appendSlice value kvb.
Definition reuseOrAppendInt (tok : view) (value base : Z) (kvb : kvBuffer) : outcome (kvBuffer * view) :=
  let n := IntLen value base in
  if n <=? v_len tok then
    '(kvb, l) ← put_int (v_start tok) value base kvb;
    Ret (or_flags flagMangledBuffer kvb, mkView (v_start tok) l)
  else appendInt value base n kvb.

End Grow.
End HttpKV.
