(* ===== verification/HttpHeader.v ===== *)
(** * HTTP/1 headers ([src/http/httpraw/headerv1.go], [src/http/httpraw/parsev1.go], [trimOWS] and
    [equalFold] of [src/http/httpraw/multipart.go])

    A header is a store of pairs and views of its first line. Text is a list of octets.
    Loops over the buffer run with its length as fuel and panic without; that this does
    not happen is part of the theorems on parsing. *)
From S2P Require Import Prelude Errors Bytes DnsName HttpKV.

Module HttpHeader.
Import Bytes HttpKV.
Open Scope Z_scope.
Open Scope list_scope.

(** ** Text *)

Definition CR : Z := 13.
Definition LF : Z := 10.
Definition SP : Z := 32.
Definition TAB : Z := 9.
Definition COLON : Z := 58.
Definition methodGet : list Z := [71; 69; 84].
Definition strHTTP1 : list Z := [72; 84; 84; 80; 47; 49; 46].
Definition strHTTP11 : list Z := strHTTP1 ++ [49].
Definition strCRLF : list Z := [CR; LF].
Definition headerConnection : list Z := [67; 111; 110; 110; 101; 99; 116; 105; 111; 110].
Definition headerContentLength : list Z := [67; 111; 110; 116; 101; 110; 116; 45; 76; 101; 110; 103; 116; 104].
Definition strClose : list Z := [99; 108; 111; 115; 101].
Definition strKeepAlive : list Z := [107; 101; 101; 112; 45; 97; 108; 105; 118; 101].

(** [bytes.IndexByte] *)
Fixpoint index_from (l : list Z) (c i : Z) : Z :=
  match l with [] => -1 | x :: l => if x =? c then i else index_from l c (i + 1) end.
Definition IndexByte (l : list Z) (c : Z) : Z := index_from l c 0.

Definition is_ows (c : Z) : bool := (c =? SP) || (c =? TAB).
Fixpoint drop_ows (l : list Z) : list Z :=
  match l with c :: l' => if is_ows c then drop_ows l' else l | [] => [] end.
Definition trimOWS (b : list Z) : list Z := rev (drop_ows (rev (drop_ows b))).
Definition equalFold (b key : list Z) : bool := DnsName.EqualFoldASCII b key.

Definition protoIsV1 (s : list Z) : bool := bool_decide (ztake (Z.min (zlen strHTTP1) (zlen s)) s = strHTTP1).

(** ** The buffer and the position in it *)

Record headerv1Buf := mkHbuf { kv : kvBuffer; off : Z }.
Record HeaderV1 := mkHeader {
  hbuf : headerv1Buf;
  method : view; requestTarget : view; proto : view;
  statusCode : view; statusText : view
}.

Definition with_off (n : Z) (hb : headerv1Buf) : headerv1Buf := mkHbuf (kv hb) n.
Definition with_kv (k : kvBuffer) (hb : headerv1Buf) : headerv1Buf := mkHbuf k (off hb).
Definition with_hbuf (hb : headerv1Buf) (h : HeaderV1) : HeaderV1 :=
  mkHeader hb (method h) (requestTarget h) (proto h) (statusCode h) (statusText h).
Definition with_hkv (k : kvBuffer) (h : HeaderV1) : HeaderV1 := with_hbuf (with_kv k (hbuf h)) h.

Definition hkv (h : HeaderV1) : kvBuffer := kv (hbuf h).
Definition Flags (h : HeaderV1) : Z := flags (hkv h).
Definition ConfigBufferGrowth (enable : bool) (h : HeaderV1) : HeaderV1 :=
  with_hkv (EnableBufferGrowth enable (hkv h)) h.

Definition reset (b : option (list Z * Z)) (numHeaderCapacity : Z) (hb : headerv1Buf) : headerv1Buf :=
  mkHbuf (Reset b numHeaderCapacity (kv hb)) 0.
Definition HReset (b : option (list Z * Z)) (numHeaderCapacity : Z) (h : HeaderV1) : outcome HeaderV1 :=
  let hb := reset b numHeaderCapacity (hbuf h) in
  if HasAny (flags (kv hb)) flagNoBufferGrow && (bcap (kv hb) <? 32) then Panic
  else Ret (mkHeader hb zero_view zero_view zero_view zero_view zero_view).

Definition ParsingSuccess (h : HeaderV1) : bool := HasAny (Flags h) flagDoneParsingHeader.
Definition BufferReceived (h : HeaderV1) : Z :=
  if HasAny (Flags h) (Z.lor flagMangledBuffer flagOOMReached) then 0 else blen (hkv h).
Definition BufferParsed (h : HeaderV1) : Z :=
  if HasAny (Flags h) (Z.lor flagMangledBuffer flagOOMReached) then 0 else off (hbuf h).
Definition HBufferUsed (h : HeaderV1) : Z := blen (hkv h).
Definition BufferFree (h : HeaderV1) : Z := free (hkv h).
Definition BufferCapacity (h : HeaderV1) : Z := bcap (hkv h).

Definition Body (h : HeaderV1) : outcome (option (list Z) * option error) :=
  if HasAny (Flags h) flagMangledBuffer then Ret (None, Some errMangledBuffer)
  else if HasAny (Flags h) flagDoneParsingHeader then
    assert_or_panic ((0 <=? off (hbuf h)) && (off (hbuf h) <=? blen (hkv h)))
      (Ret (Some (slice (mem (hkv h)) (off (hbuf h)) (blen (hkv h))), None))
  else Ret (None, Some errUnparsed).

(** ** Lines *)

Definition offBuf (hb : headerv1Buf) : outcome bslice := reslice (whole (kv hb)) (off hb) (blen (kv hb)).

Definition is_crlf (c : Z) : bool := (c =? LF) || (c =? CR).
Fixpoint count_crlf (l : list Z) : Z :=
  match l with c :: l => if is_crlf c then 1 + count_crlf l else 0 | [] => 0 end.
Definition skipLeadingCRLF (hb : headerv1Buf) : headerv1Buf :=
  with_off (off hb + count_crlf (zdrop (off hb) (buf (kv hb)))) hb.

Definition scanUntilByte (c : Z) (hb : headerv1Buf) : outcome (headerv1Buf * bslice) :=
  s ← offBuf hb;
  let idx := IndexByte (octets (kv hb) s) c in
  s ← (if 0 <=? idx then reslice s 0 idx else Ret s);
  Ret (with_off (off hb + s_len s) hb, s).

Definition last_is (c : Z) (l : list Z) : bool := bool_decide (last l = Some c).

Definition scanLine (hb : headerv1Buf) : outcome (headerv1Buf * bslice) :=
  '(hb, s) ← scanUntilByte LF hb;
  s ← (if (0 <? s_len s) && last_is CR (octets (kv hb) s) then reslice s 0 (s_len s - 1) else Ret s);
  Ret (if off hb <? blen (kv hb) then with_off (off hb + 1) hb else hb, s).

(** ** The first line *)

Record request_line := mkRL { rl_method : view; rl_uri : view; rl_proto : view }.
Definition no_line : request_line := mkRL zero_view zero_view zero_view.

(** The line [b] of a request: its parts, the flags and the error. *)
Definition request_parts (hb : headerv1Buf) (b : bslice) (fl : Z) : outcome (request_line * Z * option error) :=
  let txt := octets (kv hb) b in
  let methodEnd := Z.max 0 (IndexByte txt SP) in
  after ← reslice b (methodEnd + 1) (s_len b);
  let reqURIEnd := IndexByte (octets (kv hb) after) SP in
  m ← reslice b 0 methodEnd;
  method ← bytes2tok (kv hb) m;
  if 0 <? reqURIEnd then
    let reqURIEnd := reqURIEnd + (methodEnd + 1) in
    u ← reslice b (methodEnd + 1) reqURIEnd;
    uri ← bytes2tok (kv hb) u;
    p ← reslice b (reqURIEnd + 1) (s_len b);
    proto ← bytes2tok (kv hb) p;
    let protoText := octets (kv hb) p in
    if negb (protoIsV1 protoText) then
      Ret (mkRL method uri proto, Z.lor fl flagNoHTTP11, Some ErrUnsupported)
    else
      Ret (mkRL method uri proto,
           if bool_decide (protoText = strHTTP11) then fl else Z.lor fl flagNoHTTP11, None)
  else if reqURIEnd =? 0 then Ret (no_line, fl, Some errEmptyURI)
  else
    uri ← bytes2tok (kv hb) after;
    Ret (mkRL method uri zero_view, Z.lor fl flagNoHTTP11, Some ErrUnsupported).

Definition parseFirstLineRequest (initFlags : Z) (hb : headerv1Buf)
    : outcome (headerv1Buf * request_line * Z * option error) :=
  let hb := skipLeadingCRLF (with_off 0 hb) in
  s ← offBuf hb;
  if IndexByte (octets (kv hb) s) LF <? 0 then Ret (hb, no_line, initFlags, Some ErrNeedMoreData)
  else
  '(hb, b) ← scanLine hb;
  if s_len b <? 5 then Ret (hb, no_line, initFlags, Some ErrNeedMoreData)
  else
  '(rl, fl, err) ← request_parts hb b initFlags;
  Ret (hb, rl, fl, err).

Definition is_digit (c : Z) : bool := negb ((57 <? c) || (c <? 48)).

(** The line [b] of a response: code, text, the flags and the error. *)
Definition response_parts (hb : headerv1Buf) (b : bslice) (fl : Z) : outcome (view * view * Z * option error) :=
  let protoEnd := IndexByte (octets (kv hb) b) SP in
  if protoEnd <? 0 then Ret (zero_view, zero_view, fl, Some ErrNeedMoreData)
  else
  p ← reslice b 0 protoEnd;
  let protoText := octets (kv hb) p in
  if negb (protoIsV1 protoText) then Ret (zero_view, zero_view, Z.lor fl flagNoHTTP11, Some ErrUnsupported)
  else
  let fl := if bool_decide (protoText = strHTTP11) then fl else Z.lor fl flagNoHTTP11 in
  b ← reslice b (protoEnd + 1) (s_len b);
  let codeEnd := IndexByte (octets (kv hb) b) SP in
  let codeEnd := if codeEnd <? 0 then s_len b else codeEnd in
  code ← reslice b 0 codeEnd;
  if 3 <? s_len code then Ret (zero_view, zero_view, fl, Some errLongStatusCode)
  else if negb (forallb is_digit (octets (kv hb) code)) then Ret (zero_view, zero_view, fl, Some errBadStatusCode)
  else
  c ← bytes2tok (kv hb) code;
  if codeEnd <? s_len b then
    t ← reslice b (codeEnd + 1) (s_len b); tx ← bytes2tok (kv hb) t; Ret (c, tx, fl, None)
  else Ret (c, zero_view, fl, None).

Definition parseFirstLineResponse (initFlags : Z) (hb : headerv1Buf)
    : outcome (headerv1Buf * view * view * Z * option error) :=
  let hb := skipLeadingCRLF (with_off 0 hb) in
  s ← offBuf hb;
  if IndexByte (octets (kv hb) s) LF <? 0 then Ret (hb, zero_view, zero_view, initFlags, Some ErrNeedMoreData)
  else
  '(hb, b) ← scanLine hb;
  if s_len b <? 5 then Ret (hb, zero_view, zero_view, initFlags, Some ErrNeedMoreData)
  else
  '(c, t, fl, err) ← response_parts hb b initFlags;
  Ret (hb, c, t, fl, err).

Definition parseFirstLine (asResponse : bool) (h : HeaderV1) : outcome (HeaderV1 * option error) :=
  if maxBufLen <? blen (hkv h) then Ret (h, Some errBufferTooLarge)
  else if asResponse then
    '(hb, c, t, fl, err) ← parseFirstLineResponse (Flags h) (hbuf h);
    Ret (mkHeader (with_kv (with_flags fl (kv hb)) hb) (method h) (requestTarget h) (proto h) c t, err)
  else
    '(hb, rl, fl, err) ← parseFirstLineRequest (Flags h) (hbuf h);
    Ret (mkHeader (with_kv (with_flags fl (kv hb)) hb) (rl_method rl) (rl_uri rl) (rl_proto rl)
           (statusCode h) (statusText h), err).

(** ** Fields *)

Fixpoint count_sp (l : list Z) : Z :=
  match l with c :: l => if c =? SP then 1 + count_sp l else 0 | [] => 0 end.

(** The start of the line after a value; lines that begin with white space belong to it.
    [None] if more data is needed. *)
Fixpoint value_loop (fuel : nat) (b : list Z) (n : Z) : outcome (option Z) :=
  match fuel with
  | O => Panic
  | S fuel =>
      let nl := IndexByte (zdrop n b) LF in
      if (nl <? 0) || (nl + n + 1 =? zlen b) then Ret None
      else
        let n := n + (nl + 1) in
        nextChar ← at_ b n;
        if negb (nextChar =? SP) && negb (nextChar =? TAB) then Ret (Some n) else value_loop fuel b n
  end.

(** The pair with the colon at [n] of the slice [s] with octets [b]. *)
Definition field_at (s : bslice) (b : list Z) (n : Z) (hb : headerv1Buf) : outcome (headerv1Buf * pairKV * option error) :=
  if (0 <=? IndexByte (ztake n b) SP) || (0 <=? IndexByte (ztake n b) TAB)
  then Ret (hb, zero_pair, Some errInvalidHeader)
  else
  k ← reslice s 0 n;
  key ← bytes2tok (kv hb) k;
  let n := n + 1 in
  let valueStart := n + count_sp (zdrop n b) in
  r ← value_loop (S (length b)) b valueStart;
  match r with
  | None => Ret (hb, zero_pair, Some ErrNeedMoreData)
  | Some n =>
      let valueEnd := n - 1 in
      c ← at_ b (if valueStart <? valueEnd then valueEnd - 1 else valueEnd);
      let valueEnd := if (valueStart <? valueEnd) && (c =? CR) then valueEnd - 1 else valueEnd in
      v ← reslice s valueStart valueEnd;
      value ← bytes2tok (kv hb) v;
      Ret (with_off (off hb + n) hb, mkPair key value, None)
  end.

(** The octets of the line that ends the header, 0 if there is another one. *)
Definition header_end (b : list Z) : Z :=
  if (2 <=? zlen b) && (default 0 (zget b 0) =? CR) && (default 0 (zget b 1) =? LF) then 2
  else if (1 <=? zlen b) && (default 0 (zget b 0) =? LF) then 1 else 0.

(** The pair, no pair at the end of the header, and the error of the scanner. Its
    [initialized] is never set, so a colon is never kept for the next call. *)
Definition next (hb : headerv1Buf) : outcome (headerv1Buf * pairKV * option error) :=
  s ← offBuf hb;
  let b := octets (kv hb) s in
  if 0 <? header_end b then Ret (with_off (off hb + header_end b) hb, zero_pair, None)
  else
    let n := IndexByte b COLON in
    let x := IndexByte b LF in
    if x <? 0 then Ret (hb, zero_pair, Some ErrNeedMoreData)
    else if x <? n then Ret (hb, zero_pair, Some errInvalidHeader)
    else if n <? 0 then Ret (hb, zero_pair, Some errInvalidHeader)
    else field_at s b n hb.

Section Grow.
Context {RT : GoRuntime}.

Fixpoint headers_loop (fuel : nat) (hb : headerv1Buf) : outcome (headerv1Buf * option error) :=
  match fuel with
  | O => Panic
  | S fuel =>
      '(hb, p, err) ← next hb;
      if negb (isValidHeader p) then Ret (hb, err)
      else if negb (canAddOneKV (kv hb)) then Ret (hb, Some ErrHeaderTooMany)
      else headers_loop fuel (with_kv (append_kv p (kv hb)) hb)
  end.

Definition parseNextHeaders (h : HeaderV1) : outcome (HeaderV1 * option error) :=
  '(hb, err) ← headers_loop (S (Z.to_nat (blen (hkv h)))) (hbuf h);
  match err with
  | Some e => Ret (with_hbuf (with_kv (or_flags flagConnClose (kv hb)) hb) h, Some e)
  | None => Ret (with_hbuf (with_kv (or_flags flagDoneParsingHeader (kv hb)) hb) h, None)
  end.

Definition parse (asResponse : bool) (h : HeaderV1) : outcome (HeaderV1 * option error) :=
  '(h, err) ← parseFirstLine asResponse h;
  match err with Some e => Ret (h, Some e) | None => parseNextHeaders h end.

Definition HReadFromBytes (b : list Z) (h : HeaderV1) : HeaderV1 * option error :=
  let '(k, err) := ReadFromBytes b (hkv h) in (with_hkv k h, err).
Definition ReadFromLimited (r : Z -> list Z * option error) (maxBytesToRead : Z) (h : HeaderV1)
    : outcome (HeaderV1 * Z * option error) :=
  '(k, n, err) ← ReadLimited r maxBytesToRead (hkv h); Ret (with_hkv k h, n, err).

Definition ParseBytes (asResponse : bool) (b : list Z) (h : HeaderV1) : outcome (HeaderV1 * option error) :=
  h ← HReset None 0 h;
  let '(h, err) := HReadFromBytes b h in
  match err with Some e => Ret (h, Some e) | None => parse asResponse h end.
Definition Parse (asResponse : bool) (h : HeaderV1) : outcome (HeaderV1 * option error) :=
  h ← HReset (Some (mem (hkv h), blen (hkv h))) 0 h; parse asResponse h.

(** The header, whether more data is needed, and the error. *)
Definition TryParse (asResponse : bool) (h : HeaderV1) : outcome (HeaderV1 * bool * option error) :=
  if HasAny (Flags h) flagDoneParsingHeader then Ret (h, false, Some errAlreadyParsed)
  else if HasAny (Flags h) flagMangledBuffer then Ret (h, false, Some errMangledBuffer)
  else
  '(h, err) ← (if asResponse && (v_len (statusCode h) =? 0) || negb asResponse && (v_start (requestTarget h) =? 0)
               then parseFirstLine asResponse h else Ret (h, None));
  match (err : option error) with
  | Some e => Ret (h, bool_decide (e = ErrNeedMoreData), Some e)
  | None => '(h, err) ← parseNextHeaders h; Ret (h, err_is err ErrNeedMoreData, err)
  end.

(** ** Building *)

Definition HSet (key value : list Z) (h : HeaderV1) : outcome (HeaderV1 * bool) :=
  '(k, ok) ← Set_ key value (hkv h); Ret (with_hkv k h, ok).
Definition SetBytes (key value : list Z) (h : HeaderV1) : outcome HeaderV1 := '(h, _) ← HSet key value h; Ret h.
Definition HSetInt (key : list Z) (value base : Z) (h : HeaderV1) : outcome HeaderV1 :=
  if (base <? 2) || (36 <? base) then Ret h
  else '(k, _) ← SetInt key value base (hkv h); Ret (with_hkv k h).
Definition HAdd (key value : list Z) (h : HeaderV1) : outcome HeaderV1 :=
  '(k, _) ← appendPair key value (hkv h); Ret (with_hkv k h).

Definition SetMethod (s : list Z) (h : HeaderV1) : outcome HeaderV1 :=
  '(k, v) ← reuseOrAppend (method h) s (hkv h);
  Ret (mkHeader (with_kv k (hbuf h)) v (requestTarget h) (proto h) (statusCode h) (statusText h)).
Definition SetRequestTarget (s : list Z) (h : HeaderV1) : outcome HeaderV1 :=
  '(k, v) ← reuseOrAppend (requestTarget h) s (hkv h);
  Ret (mkHeader (with_kv k (hbuf h)) (method h) v (proto h) (statusCode h) (statusText h)).
Definition SetProtocol (s : list Z) (h : HeaderV1) : outcome HeaderV1 :=
  '(k, v) ← reuseOrAppend (proto h) s (hkv h);
  Ret (mkHeader (with_kv k (hbuf h)) (method h) (requestTarget h) v (statusCode h) (statusText h)).
Definition set_statusText (s : list Z) (h : HeaderV1) : outcome HeaderV1 :=
  '(k, v) ← reuseOrAppend (statusText h) s (hkv h);
  Ret (mkHeader (with_kv k (hbuf h)) (method h) (requestTarget h) (proto h) (statusCode h) v).
Definition SetStatus (code text : list Z) (h : HeaderV1) : outcome HeaderV1 :=
  let h := with_hkv (or_flags FlagStatusSet (hkv h)) h in
  '(k, v) ← reuseOrAppend (statusCode h) code (hkv h);
  set_statusText text (mkHeader (with_kv k (hbuf h)) (method h) (requestTarget h) (proto h) v (statusText h)).
Definition SetStatusInt (code : Z) (text : list Z) (h : HeaderV1) : outcome HeaderV1 :=
  let h := with_hkv (or_flags FlagStatusSet (hkv h)) h in
  '(k, v) ← reuseOrAppendInt (statusCode h) code 10 (hkv h);
  set_statusText text (mkHeader (with_kv k (hbuf h)) (method h) (requestTarget h) (proto h) v (statusText h)).

End Grow.

(** ** Reading *)

Definition HGet (key : list Z) (h : HeaderV1) : outcome (option (list Z)) := Get key (hkv h).
Definition HGetFold (key : list Z) (h : HeaderV1) : outcome (option (list Z)) := GetFold key (hkv h).
Definition HForEach {A} (cb : A -> list Z -> option (list Z) -> A * bool) (h : HeaderV1) (a : A) : outcome A :=
  ForEach cb (hkv h) a.

Definition getNonEmptyValue (s : view) (h : HeaderV1) : outcome (option (list Z)) :=
  if v_len s =? 0 then Ret None else v ← musttoken (hkv h) s; Ret (Some v).
Definition Method (h : HeaderV1) : outcome (option (list Z)) := getNonEmptyValue (method h) h.
Definition RequestTarget (h : HeaderV1) : outcome (option (list Z)) := getNonEmptyValue (requestTarget h) h.
Definition Protocol (h : HeaderV1) : outcome (option (list Z)) := getNonEmptyValue (proto h) h.
Definition Status (h : HeaderV1) : outcome (option (list Z) * option (list Z)) :=
  if v_len (statusCode h) =? 0 then Ret (None, None)
  else c ← musttoken (hkv h) (statusCode h); t ← musttoken (hkv h) (statusText h); Ret (Some c, Some t).

Definition QUESTION : Z := 63.
Definition RequestPath (h : HeaderV1) : outcome (option (list Z)) :=
  t ← RequestTarget h;
  Ret (match t with
       | None => None
       | Some t => let i := IndexByte t QUESTION in Some (if i <? 0 then t else ztake i t)
       end).
Definition RequestQuery (h : HeaderV1) : outcome (option (list Z)) :=
  t ← RequestTarget h;
  Ret (match t with
       | None => None
       | Some t => let i := IndexByte t QUESTION in if i <? 0 then None else Some (zdrop (i + 1) t)
       end).

(** ** The text of a header *)

Definition appendHeaderLine (dst key value : list Z) : list Z := dst ++ key ++ [COLON; SP] ++ value ++ strCRLF.
Fixpoint append_lines (kvb : kvBuffer) (l : list pairKV) (dst : list Z) : outcome (list Z) :=
  match l with
  | [] => Ret dst
  | p :: l =>
      if isValidHeader p then
        k ← musttoken kvb (p_key p); v ← pair_value kvb p;
        append_lines kvb l (appendHeaderLine dst k (default [] v))
      else append_lines kvb l dst
  end.
Definition AppendHeaders (dst : list Z) (h : HeaderV1) : outcome (list Z) := append_lines (hkv h) (kvs (hkv h)) dst.

Definition AppendRequest (dst : list Z) (h : HeaderV1) : outcome (list Z * option error) :=
  proto ← Protocol h;
  if HasAny (Flags h) flagOOMReached then Ret (dst, Some ErrBufferExhausted)
  else if (v_len (requestTarget h) =? 0) || (v_len (method h) =? 0) then Ret (dst, Some errNeedMethodURI)
  else if zlen (default [] proto) =? 0 then Ret (dst, Some errNoProto)
  else
  method ← Method h;
  let dst := dst ++ (if zlen (default [] method) =? 0 then methodGet else default [] method) in
  uri ← RequestTarget h;
  let dst := dst ++ [SP] ++ default [] uri ++ [SP] ++ default [] proto ++ strCRLF in
  dst ← AppendHeaders dst h;
  Ret (dst ++ strCRLF, None).

Definition AppendResponseNoHeaders (dst : list Z) (h : HeaderV1) : outcome (list Z * option error) :=
  proto ← Protocol h;
  if HasAny (Flags h) flagOOMReached then Ret (dst, Some ErrBufferExhausted)
  else if (v_len (statusCode h) =? 0) || (v_len (statusText h) =? 0) then Ret (dst, Some errBadStatusCodeTxt)
  else if zlen (default [] proto) =? 0 then Ret (dst, Some errNoProto)
  else
  '(code, text) ← Status h;
  Ret (dst ++ default [] proto ++ [SP] ++ default [] code ++ [SP] ++ default [] text ++ strCRLF, None).
Definition AppendResponse (dst : list Z) (h : HeaderV1) : outcome (list Z * option error) :=
  '(dst, err) ← AppendResponseNoHeaders dst h;
  match err with
  | Some e => Ret (dst, Some e)
  | None => dst ← AppendHeaders dst h; Ret (dst ++ strCRLF, None)
  end.

(** ** Fields with a meaning *)

Definition COMMA : Z := 44.
Fixpoint token_loop (fuel : nat) (value token : list Z) : bool :=
  match fuel with
  | O => false
  | S fuel =>
      if zlen value =? 0 then false
      else
        let comma := IndexByte value COMMA in
        let '(item, value) := if 0 <=? comma then (ztake comma value, zdrop (comma + 1) value) else (value, []) in
        if equalFold (trimOWS item) token then true else token_loop fuel value token
  end.
Definition hasConnectionToken (token : list Z) (h : HeaderV1) : outcome bool :=
  value ← HGetFold headerConnection h;
  let value := default [] value in
  Ret (token_loop (S (length value)) value token).
Definition ConnectionClose (h : HeaderV1) : outcome (HeaderV1 * bool) :=
  c1 ← (if HasAny (Flags h) flagConnClose then Ret true else hasConnectionToken strClose h);
  closed ← (if c1 : bool then Ret true
            else if HasAny (Flags h) flagNoHTTP11
                 then ka ← hasConnectionToken strKeepAlive h; Ret (negb ka) else Ret false);
  Ret (if closed : bool then with_hkv (or_flags flagConnClose (hkv h)) h else h, closed).

(** [strconv.ParseInt(s, 10, 64)]: the value and whether there was an error. *)
Fixpoint parse_digits (l : list Z) (a : Z) : option Z :=
  match l with
  | [] => Some a
  | c :: l =>
      if negb (is_digit c) then None
      else if 2 ^ 64 - 1 <? a * 10 + (c - 48) then Some (2 ^ 64 - 1) else parse_digits l (a * 10 + (c - 48))
  end.
Definition ParseInt (s : list Z) : Z * bool :=
  let '(neg, d) := match s with 43 :: d => (false, d) | 45 :: d => (true, d) | d => (false, d) end in
  match (if zlen d =? 0 then None else parse_digits d 0) with
  | None => (0, true)
  | Some u =>
      if (neg : bool) then if 2 ^ 63 <? u then (- 2 ^ 63, true) else (- u, false)
      else if 2 ^ 63 <=? u then (2 ^ 63 - 1, true) else (u, false)
  end.
Definition ContentLength (h : HeaderV1) : outcome (Z * bool * option error) :=
  value ← HGetFold headerContentLength h;
  match value with
  | None => Ret (0, false, None)
  | Some v =>
      let '(n, err) := ParseInt (trimOWS v) in
      if err || (n <? 0) then Ret (n, true, Some errBadContentLength) else Ret (n, true, None)
  end.

(** ** Normalization *)

Definition to_upper (c : Z) : Z := if (97 <=? c) && (c <=? 122) then c - 32 else c.
Definition to_lower (c : Z) : Z := if (65 <=? c) && (c <=? 90) then c + 32 else c.
Fixpoint normalize_rest (l : list Z) : list Z :=
  match l with
  | [] => []
  | c :: l =>
      if c =? 45 then
        match l with d :: l => c :: to_upper d :: normalize_rest l | [] => [to_lower c] end
      else to_lower c :: normalize_rest l
  end.
(** The key and whether it changed. *)
Definition NormalizeHeaderKey (b : list Z) : list Z * bool :=
  match b with
  | [] => ([], false)
  | c :: l => let n := to_upper c :: normalize_rest l in (n, negb (bool_decide (n = b)))
  end.
Fixpoint normalize_keys (l : list pairKV) (kvb : kvBuffer) : outcome kvBuffer :=
  match l with
  | [] => Ret kvb
  | p :: l =>
      if isValidHeader p then
        k ← musttoken kvb (p_key p);
        normalize_keys l (with_buf (put (mem kvb) (v_start (p_key p)) (fst (NormalizeHeaderKey k))) (blen kvb) kvb)
      else normalize_keys l kvb
  end.
Definition NormalizeKeys (h : HeaderV1) : outcome HeaderV1 :=
  k ← normalize_keys (kvs (hkv h)) (hkv h); Ret (with_hkv k h).

End HttpHeader.
