(* ===== verification/HttpKVThms.v ===== *)
(** * Key-value pairs: the store is a list of pairs *)
From stdpp Require Import strings.
From S2P Require Import Prelude Errors Bytes DnsName HttpKV.

(** ** Key-value pairs: a store that refines a list of pairs

    As long as the regions of the pairs do not overlap, changing one pair leaves the
    others as they are. *)
Module HttpKVProps.
Import Bytes HttpKV.
Open Scope Z_scope.
Open Scope list_scope.

(** ** Views *)

Record view_ok (n : Z) (v : view) : Prop := mkViewOk {
  vo_start : 0 <= v_start v;
  vo_len : 0 <= v_len v;
  vo_end : v_start v + v_len v <= n
}.
Definition text (m : list Z) (v : view) : list Z := slice m (v_start v) (v_start v + v_len v).

Lemma musttoken_ok kvb v :
  view_ok (blen kvb) v -> blen kvb <= maxBufLen -> blen kvb <= bcap kvb -> musttoken kvb v = Ret (text (mem kvb) v).
Proof.
  intros [Hs Hl He] Hm Hc. unfold musttoken, text, maxBufLen, bcap in *. rewrite u16_small by (split; lia).
  unfold assert_or_panic, slice_ok. by rewrite !(proj2 (Z.leb_le _ _)) by lia.
Qed.
Lemma zlen_text n m v : view_ok n v -> n <= zlen m -> zlen (text m v) = v_len v.
Proof. intros [] ?. unfold text. rewrite zlen_slice; lia. Qed.

(** No octet belongs to both. *)
Definition apart (v w : view) : Prop :=
  v_len v = 0 \/ v_len w = 0 \/ v_start v + v_len v <= v_start w \/ v_start w + v_len w <= v_start v.
Lemma apart_sym v w : apart v w -> apart w v.
Proof. unfold apart. tauto. Qed.

Lemma text_nil m v : v_len v = 0 -> text m v = [].
Proof. intros E. unfold text. rewrite E, Z.add_0_r. unfold slice. by rewrite ztake_nonpos by lia. Qed.
Lemma text_put m v w data n :
  view_ok n v -> view_ok n w -> n <= zlen m -> apart v w -> zlen data <= v_len w ->
  text (put m (v_start w) data) v = text m v.
Proof.
  intros [] [] Hn Ha Hd. destruct (Z.eq_dec (v_len v) 0) as [E|]; [by rewrite !text_nil|].
  pose proof (zlen_nonneg data). unfold text, apart in *. destruct (Z.eq_dec (v_len w) 0).
  - assert (zlen data = 0) as E0 by lia. destruct data; [|rewrite zlen_cons in E0; pose proof (zlen_nonneg data); lia].
    f_equal. unfold put. cbn [app zlen]. rewrite zlen_nil, Z.add_0_r. apply ztake_zdrop.
  - apply slice_put_out; lia.
Qed.

(** ** The store *)

Definition pair_ok (n : Z) (p : pairKV) : Prop := view_ok n (p_key p) /\ view_ok n (p_value p) /\ apart (p_key p) (p_value p).
Definition papart (p q : pairKV) : Prop :=
  apart (p_key p) (p_key q) /\ apart (p_key p) (p_value q) /\ apart (p_value p) (p_key q) /\ apart (p_value p) (p_value q).
Record kv_wf (kvb : kvBuffer) : Prop := mkKvWf {
  kw_len : 0 <= blen kvb <= bcap kvb;
  kw_max : blen kvb <= maxBufLen;
  kw_pairs : Forall (pair_ok (blen kvb)) (kvs kvb);
  kw_apart : forall i j p q, i <> j -> kvs kvb !! i = Some p -> kvs kvb !! j = Some q -> papart p q
}.

(** The values of the pairs with a key, in order; a pair without a value counts as empty. *)
Definition vtext (m : list Z) (p : pairKV) : list Z := if HasValue p then text m (p_value p) else [].
Definition matches (m : list Z) (key : list Z) (p : pairKV) : bool := isValid p && bool_decide (text m (p_key p) = key).
Definition lookup_all (key : list Z) (kvb : kvBuffer) : list (list Z) :=
  vtext (mem kvb) <$> filter (fun p => matches (mem kvb) key p = true) (kvs kvb).

Lemma zero_view_ok n : 0 <= n -> view_ok n zero_view.
Proof. intros. by split. Qed.
Lemma zero_pair_ok n : 0 <= n -> pair_ok n zero_pair.
Proof. intros. split; [by apply zero_view_ok|]. split; [by apply zero_view_ok|by left]. Qed.
Lemma papart_zero p : papart p zero_pair.
Proof. unfold papart, apart. cbn. tauto. Qed.
Lemma papart_sym p q : papart p q -> papart q p.
Proof. unfold papart. intros (? & ? & ? & ?). auto using apart_sym. Qed.
Lemma matches_zero m key : matches m key zero_pair = false.
Proof. done. Qed.

(** Pairs that are replaced by nothing or by themselves. *)
Lemma wf_pairs kvb l :
  kv_wf kvb -> length l = length (kvs kvb) ->
  (forall i p, l !! i = Some p -> p = zero_pair \/ kvs kvb !! i = Some p) -> kv_wf (with_kvs l kvb).
Proof.
  intros [Hl Hm Hp Ha] Hlen Hsub. split; cbn [with_kvs blen mem kvs bcap]; [done|done| |].
  - apply Forall_lookup. intros i p Hi. destruct (Hsub i p Hi) as [-> |Hk]; [apply zero_pair_ok; lia|].
    by eapply Forall_lookup_1 in Hp.
  - intros i j p q Hij Hi Hj. destruct (Hsub j q Hj) as [-> |Hkj]; [apply papart_zero|].
    destruct (Hsub i p Hi) as [-> |Hki]; [apply papart_sym, papart_zero|]. by eapply Ha.
Qed.

(** ** Finding *)

Lemma find_idx_ok f kvb l i :
  kv_wf kvb -> Forall (pair_ok (blen kvb)) l -> 0 <= i ->
  let good p := isValid p && f (text (mem kvb) (p_key p)) in
  match list_find (fun p => good p = true) l with
  | None => find_idx f kvb l i = Ret (-1)
  | Some (j, p) => find_idx f kvb l i = Ret (i + Z.of_nat j) /\ l !! j = Some p /\ good p = true
  end.
Proof.
  intros [[_ Hc] Hm _ _] Hl Hi good. revert i Hi. induction Hl as [|p l (Hk & _) _ IH]; intros i Hi; [done|].
  cbn [list_find find_idx]. rewrite musttoken_ok by done. cbn [mbind outcome_bind]. specialize (IH (i + 1) ltac:(lia)).
  destruct (decide (good p = true)) as [G|G].
  - pose proof G as [-> ->]%andb_prop. cbn [negb]. rewrite Z.add_0_r. by split.
  - assert ((if negb (isValid p) then find_idx f kvb l (i + 1)
             else if f (text (mem kvb) (p_key p)) then Ret i else find_idx f kvb l (i + 1)) = find_idx f kvb l (i + 1)) as ->.
    { unfold good in G. destruct (isValid p), (f _); done. }
    destruct (list_find _ l) as [[j q]|]; cbn; [|done]. destruct IH as (-> & ? & ?). split; [f_equal; lia|done].
Qed.

Lemma filter_find {A} (P : A -> Prop) `{forall x, Decision (P x)} (l : list A) :
  head (filter P l) = snd <$> list_find P l.
Proof.
  induction l as [|x l IH]; [done|]. cbn [list_find]. rewrite filter_cons. destruct (decide (P x)); [done|].
  rewrite IH. by destruct (list_find P l).
Qed.

Lemma head_fmap {A B} (f : A -> B) (l : list A) : head (f <$> l) = f <$> head l.
Proof. by destruct l. Qed.

(** [Get] is the first of the values. *)
Lemma get_ok key kvb : kv_wf kvb -> exists r, Get key kvb = Ret r /\ default [] r = default [] (head (lookup_all key kvb)).
Proof.
  intros Hw. unfold Get, getIdx.
  pose proof (find_idx_ok (fun k => bool_decide (k = key)) kvb (kvs kvb) 0 Hw (kw_pairs kvb Hw) ltac:(lia)) as Hf. cbn zeta in Hf.
  unfold lookup_all. rewrite head_fmap, (filter_find (fun p => matches (mem kvb) key p = true)).
  fold (matches (mem kvb) key) in Hf. destruct (list_find _ _) as [[j p]|] eqn:E.
  - destruct Hf as (-> & Hj & _). cbn [mbind outcome_bind]. rewrite (proj2 (Z.ltb_ge _ 0)) by lia.
    unfold AtValue, pair_at, zget. rewrite (proj2 (Z.ltb_ge _ 0)) by lia. replace (Z.to_nat (0 + Z.of_nat j)) with j by lia.
    rewrite Hj. cbn [mbind outcome_bind fmap option_fmap option_map snd]. unfold pair_value, vtext.
    destruct (HasValue p); cbn [negb]; [|by eexists].
    eapply Forall_lookup_1 in Hj; [|apply (kw_pairs kvb Hw)]. destruct Hj as (_ & Hv & _).
    destruct Hw as [[_ ?] ? _ _]. rewrite musttoken_ok by done. cbn [mbind outcome_bind]. by eexists.
  - rewrite Hf. cbn. by eexists.
Qed.

(** ** Choosing a slot *)

Section Slot.
Context (kvb : kvBuffer) (key : list Z) (keyLen valueLen : Z) (Hw : kv_wf kvb).

Definition slot_fits (p : pairKV) : Prop :=
  HasValue p = true /\ keyLen <= v_len (p_key p) /\ valueLen <= v_len (p_value p).
(** After the first [n] slots. *)
Record slots (n : nat) (st : list pairKV * option nat) : Prop := mkSlots {
  sl_len : length (fst st) = length (kvs kvb);
  sl_other : forall i p, kvs kvb !! i = Some p -> matches (mem kvb) key p = false -> fst st !! i = Some p;
  sl_done : forall i p, kvs kvb !! i = Some p -> matches (mem kvb) key p = true -> (i < n)%nat -> snd st <> Some i ->
    fst st !! i = Some zero_pair;
  sl_todo : forall i p, kvs kvb !! i = Some p -> (n <= i)%nat -> fst st !! i = Some p;
  sl_slot : forall i, snd st = Some i -> exists p, kvs kvb !! i = Some p /\ fst st !! i = Some p /\ (i < n)%nat /\
    matches (mem kvb) key p = true /\ slot_fits p
}.

Lemma slots_skip n st p : slots n st -> kvs kvb !! n = Some p -> matches (mem kvb) key p = false -> slots (S n) st.
Proof.
  intros [Hlen Ho Hd Ht Hs] Hp Hm. split; [done|done| | |].
  - intros i q Hi Hq Hin Hr. destruct (decide (i = n)) as [-> |]; [congruence|]. apply (Hd i q); done || lia.
  - intros i q Hi Hin. apply Ht; done || lia.
  - intros i Hi. destruct (Hs i Hi) as (q & ? & ? & ? & ?). exists q. split; [done|]. split; [done|]. split; [lia|done].
Qed.
Lemma slots_take n l p :
  slots n (l, None) -> kvs kvb !! n = Some p -> matches (mem kvb) key p = true -> slot_fits p -> slots (S n) (l, Some n).
Proof.
  intros [Hlen Ho Hd Ht Hs] Hp Hm Hf. cbn [fst snd] in *. split; cbn [fst snd]; [done|done| | |].
  - intros i q Hi Hq Hin Hr. apply (Hd i q); [done|done|cut (i <> n); [lia|congruence]|done].
  - intros i q Hi Hin. apply Ht; done || lia.
  - intros i [= <-]. exists p. split; [done|]. split; [by apply Ht|]. split; [lia|done].
Qed.
(** One of the two slots at hand is given up. *)
Lemma slots_kill n l r k p r' :
  slots n (l, r) -> kvs kvb !! n = Some p -> matches (mem kvb) key p = true ->
  (k = n /\ r' = r) \/ (r = Some k /\ r' = Some n /\ slot_fits p) -> slots (S n) (<[k := zero_pair]> l, r').
Proof.
  intros [Hlen Ho Hd Ht Hs] Hp Hm Hk. cbn [fst snd] in *.
  assert (exists q, kvs kvb !! k = Some q /\ matches (mem kvb) key q = true /\ (k < S n)%nat /\ r' <> Some k) as (q & Hq & Hmq & Hkn & Hrk).
  { destruct Hk as [[-> ->]|(Hr & -> & Hf)].
    - exists p. split; [done|]. split; [done|]. split; [lia|]. intros Hr. destruct (Hs n Hr) as (? & _ & _ & ? & _). lia.
    - destruct (Hs k Hr) as (q & ? & _ & ? & ? & _). exists q. split; [done|]. split; [done|]. split; [lia|]. intros [= ->]. lia. }
  assert (k < length l)%nat as Hkl by (rewrite Hlen; by eapply lookup_lt_Some).
  split; cbn [fst snd].
  - by rewrite length_insert.
  - intros i x Hi Hx. rewrite list_lookup_insert_ne by congruence. by apply Ho.
  - intros i x Hi Hx Hin Hr. destruct (decide (i = k)) as [-> |]; [by apply list_lookup_insert_eq|].
    rewrite list_lookup_insert_ne by done. apply (Hd i x); [done|done| |];
      destruct Hk as [[-> ->]|(-> & -> & Hf)]; done || lia || congruence || (cut (i <> n); [lia|congruence]).
  - intros i x Hi Hin. rewrite list_lookup_insert_ne by lia. apply Ht; done || lia.
  - intros i Hi. assert (i <> k) by congruence. rewrite list_lookup_insert_ne by done.
    destruct Hk as [[-> ->]|(-> & -> & Hf)].
    + destruct (Hs i Hi) as (x & ? & ? & ? & ?). exists x. split; [done|]. split; [done|]. split; [lia|done].
    + injection Hi as <-. exists p. split; [done|]. split; [by apply Ht|]. split; [lia|done].
Qed.

Lemma reuse_step_ok n p st : kvs kvb !! n = Some p -> slots n st ->
  exists st', reuse_step key keyLen valueLen kvb n st = Ret st' /\ slots (S n) st'.
Proof.
  intros Hp Hst. destruct st as [l r]. pose proof (sl_todo n _ Hst n p Hp ltac:(lia)) as Hl. cbn [fst] in Hl.
  assert (musttoken kvb (p_key p) = Ret (text (mem kvb) (p_key p))) as Ek.
  { eapply Forall_lookup_1 in Hp; [|apply (kw_pairs kvb Hw)]. destruct Hp as (Hk & _), Hw as [[_ ?] ? _ _]. by apply musttoken_ok. }
  unfold reuse_step. rewrite Hl. destruct (matches (mem kvb) key p) eqn:Em.
  2: { eexists (l, r). split; [|by eapply slots_skip]. unfold matches in Em. destruct (isValid p); [|done]. cbn [negb].
       rewrite Ek. cbn [mbind outcome_bind andb] in *. by rewrite Em. }
  pose proof Em as [-> Ekey]%andb_prop. rewrite Ek. cbn [mbind outcome_bind negb]. rewrite Ekey. cbn [negb].
  assert (forall b, HasValue p && (keyLen <=? v_len (p_key p)) && (valueLen <=? v_len (p_value p)) = b -> b = true -> slot_fits p) as Hfits.
  { intros b <- [[? ?%Z.leb_le]%andb_prop ?%Z.leb_le]%andb_prop. by repeat split. }
  destruct (HasValue p && _ && _) eqn:Ef; specialize (Hfits _ eq_refl); destruct r as [j|].
  - destruct (sl_slot n _ Hst j eq_refl) as (q & _ & Hj & _). cbn [fst] in Hj. rewrite Hj. cbn [andb].
    destruct (size p <? size q); eexists _; (split; [done|]).
    + apply (slots_kill n l (Some j) j p); [done|done|done|]. right. split; [done|]. split; [done|by apply Hfits].
    + apply (slots_kill n l (Some j) n p); [done|done|done|]. by left.
  - eexists _. split; [done|]. apply (slots_take n l p); [done|done|done|by apply Hfits].
  - destruct (sl_slot n _ Hst j eq_refl) as (q & _ & Hj & _). cbn [fst] in Hj. rewrite Hj. cbn [andb].
    eexists _. split; [done|]. apply (slots_kill n l (Some j) n p); [done|done|done|]. by left.
  - eexists _. split; [done|]. apply (slots_kill n l None n p); [done|done|done|]. by left.
Qed.

Lemma take_slot_ok : exists l r, takeReusableSlot key keyLen valueLen kvb = Ret (with_kvs l kvb, r) /\ slots (length (kvs kvb)) (l, r).
Proof.
  assert (forall len n st, (n + len = length (kvs kvb))%nat -> slots n st ->
    exists st', reuse_loop key keyLen valueLen kvb (seq n len) st = Ret st' /\ slots (length (kvs kvb)) st') as Hloop.
  { induction len as [|len IH]; intros n st Hn Hst.
    - exists st. split; [done|]. by replace (length (kvs kvb)) with n by lia.
    - destruct (lookup_lt_is_Some_2 (kvs kvb) n ltac:(lia)) as [p Hp]. cbn [seq reuse_loop].
      destruct (reuse_step_ok n p st Hp Hst) as (st1 & -> & H1). cbn [mbind outcome_bind]. apply IH; [lia|done]. }
  destruct (Hloop (length (kvs kvb)) 0%nat (kvs kvb, None)) as ([l r] & E & Hs); [done| |].
  { split; cbn [fst snd]; done || lia. }
  exists l, r. unfold takeReusableSlot. rewrite E. done.
Qed.

End Slot.

(** ** Pairs one by one *)

Lemma lookup_all_ext k kvb kvb' :
  Forall2 (fun p p' => matches (mem kvb') k p' = matches (mem kvb) k p /\
    (matches (mem kvb) k p = true -> vtext (mem kvb') p' = vtext (mem kvb) p)) (kvs kvb) (kvs kvb') ->
  lookup_all k kvb' = lookup_all k kvb.
Proof.
  unfold lookup_all. intros Hall. induction Hall as [|p p' l l' [Em Ev] _ IH]; [done|]. rewrite !filter_cons.
  destruct (matches (mem kvb) k p) eqn:E; rewrite Em.
  - rewrite !decide_True by done. cbn. rewrite Ev by done. by f_equal.
  - by rewrite !decide_False by done.
Qed.
Lemma lookup_all_one k kvb i p :
  kvs kvb !! i = Some p -> matches (mem kvb) k p = true ->
  (forall j q, j <> i -> kvs kvb !! j = Some q -> matches (mem kvb) k q = false) ->
  lookup_all k kvb = [vtext (mem kvb) p].
Proof.
  intros Hi Hp Ho. unfold lookup_all. set (P := fun q => matches (mem kvb) k q = true).
  rewrite <- (take_drop_middle _ _ _ Hi), filter_app, filter_cons. rewrite decide_True by done.
  assert (forall l, (forall j q, l !! j = Some q -> matches (mem kvb) k q = false) -> filter P l = []) as Hnil.
  { intros l Hl. induction l as [|q l IH]; [done|]. rewrite filter_cons, decide_False.
    - apply IH. intros j. apply (Hl (S j)).
    - unfold P. by rewrite (Hl 0%nat q). }
  rewrite !Hnil; [done| |].
  - intros j q Hj. rewrite lookup_drop in Hj. eapply Ho; [|done]. lia.
  - intros j q Hj. apply lookup_take_Some in Hj as [Hj ?]. eapply Ho; [|done]. lia.
Qed.
Lemma lookup_all_none k kvb : (forall j q, kvs kvb !! j = Some q -> matches (mem kvb) k q = false) -> lookup_all k kvb = [].
Proof.
  intros Hl. unfold lookup_all. generalize (kvs kvb), Hl. clear Hl. intros l Hl. induction l as [|q l IH]; [done|].
  rewrite filter_cons, decide_False by (by rewrite (Hl 0%nat q)). apply IH. intros j. apply (Hl (S j)).
Qed.

Lemma slots_wf kvb key kl vl l r : kv_wf kvb -> slots kvb key kl vl (length (kvs kvb)) (l, r) -> kv_wf (with_kvs l kvb).
Proof.
  intros Hw [Hlen Ho Hd Ht Hs]. cbn [fst snd] in *. apply wf_pairs; [done|done|]. intros i p Hi.
  assert (i < length (kvs kvb))%nat as Hil by (rewrite <- Hlen; by eapply lookup_lt_Some).
  destruct (lookup_lt_is_Some_2 _ _ Hil) as [q Hq]. destruct (matches (mem kvb) key q) eqn:Em.
  - destruct (decide (r = Some i)) as [Hr|Hr].
    + destruct (Hs i Hr) as (x & Hx & Hx' & _). right. congruence.
    + left. pose proof (Hd i q Hq Em Hil Hr). congruence.
  - right. pose proof (Ho i q Hq Em). congruence.
Qed.

(** The other keys keep their pairs; only the slot is left of the key. *)
Lemma slots_other kvb key kl vl l r k : kv_wf kvb -> slots kvb key kl vl (length (kvs kvb)) (l, r) -> k <> key ->
  lookup_all k (with_kvs l kvb) = lookup_all k kvb.
Proof.
  intros Hw [Hlen Ho Hd Ht Hs] Hk. cbn [fst snd] in *. apply lookup_all_ext. cbn [with_kvs mem kvs].
  apply Forall2_same_length_lookup_2; [by rewrite Hlen|]. intros i p p' Hp Hp'.
  destruct (matches (mem kvb) key p) eqn:Em.
  - assert (matches (mem kvb) k p = false) as E.
    { unfold matches in *. destruct (isValid p); [|done]. cbn [andb] in *. apply bool_decide_eq_true in Em.
      apply bool_decide_eq_false. congruence. }
    assert (p' = p \/ p' = zero_pair) as [-> | ->]; [|done|by rewrite E].
    destruct (decide (r = Some i)) as [Hr|Hr].
    + destruct (Hs i Hr) as (x & ? & ? & _). left. congruence.
    + right. pose proof (Hd i p Hp Em (lookup_lt_Some _ _ _ Hp) Hr). congruence.
  - pose proof (Ho i p Hp Em). assert (p' = p) as -> by congruence. done.
Qed.
Lemma slots_key kvb key kl vl l r : slots kvb key kl vl (length (kvs kvb)) (l, r) ->
  forall i q, r <> Some i -> l !! i = Some q -> matches (mem kvb) key q = false.
Proof.
  intros [Hlen Ho Hd Ht Hs] i q Hr Hi. cbn [fst snd] in *.
  assert (i < length (kvs kvb))%nat as Hil by (rewrite <- Hlen; by eapply lookup_lt_Some).
  destruct (lookup_lt_is_Some_2 _ _ Hil) as [p Hp]. destruct (matches (mem kvb) key p) eqn:Em.
  - pose proof (Hd i p Hp Em Hil Hr). assert (q = zero_pair) as -> by congruence. done.
  - pose proof (Ho i p Hp Em). congruence.
Qed.

(** ** Overwriting *)

Lemma apart_shrink v w n : n <= v_len v -> 0 <= n -> apart v w -> apart (mkView (v_start v) n) w.
Proof. unfold apart. cbn. lia. Qed.
Lemma text_put_same m s data n : 0 <= s -> s + zlen data <= zlen m -> n = zlen data -> text (put m s data) (mkView s n) = data.
Proof. intros ? ? ->. unfold text. cbn [v_start v_len]. by apply slice_put_in. Qed.

(** A view of part of what another one shows. *)
Definition shrunk (n : Z) (v v' : view) : Prop := view_ok n v' /\ v_len v' <= v_len v /\ (v_len v' = 0 \/ v_start v' = v_start v).

(** New contents of a slot, in the memory [m] that only changes there. *)
Record overwritten (kvb kvb' : kvBuffer) (i : nat) (p p' : pairKV) : Prop := mkOverwritten {
  ow_kvs : kvs kvb' = <[i := p']> (kvs kvb);
  ow_len : blen kvb' = blen kvb;
  ow_cap : bcap kvb' = bcap kvb;
  ow_key : shrunk (blen kvb) (p_key p) (p_key p');
  ow_value : shrunk (blen kvb) (p_value p) (p_value p');
  ow_text : forall v, view_ok (blen kvb) v -> apart v (p_key p) -> apart v (p_value p) -> text (mem kvb') v = text (mem kvb) v
}.

Lemma shrunk_apart n v v' w : shrunk n v v' -> apart v w -> apart v' w.
Proof. unfold apart. intros ([] & Hl & [E|E]) H; [by left|]. rewrite E. lia. Qed.
Lemma overwritten_apart n p p' q :
  shrunk n (p_key p) (p_key p') -> shrunk n (p_value p) (p_value p') -> papart p q -> papart p' q.
Proof. intros Hk Hv (A1 & A2 & A3 & A4). repeat split; by eapply shrunk_apart. Qed.

Lemma overwritten_wf kvb kvb' i p p' : kv_wf kvb -> kvs kvb !! i = Some p -> overwritten kvb kvb' i p p' -> kv_wf kvb'.
Proof.
  intros [Hl Hm Hp Ha] Hi [Ek El Ec Hk Hv _]. split; [by rewrite El, Ec|by rewrite El| |].
  - rewrite El, Ek. apply Forall_insert; [done|]. pose proof (Forall_lookup_1 _ _ _ _ Hp Hi) as (_ & _ & Hap).
    split; [apply Hk|]. split; [apply Hv|]. eapply shrunk_apart; [exact Hk|]. apply apart_sym. eapply shrunk_apart; [exact Hv|]. by apply apart_sym.
  - intros j k q x Hjk Hj Hk'. rewrite Ek in Hj, Hk'.
    assert (i < length (kvs kvb))%nat as Hil by (by eapply lookup_lt_Some).
    destruct (decide (j = i)) as [-> |Hji].
    + rewrite list_lookup_insert_eq in Hj by done. injection Hj as <-. rewrite list_lookup_insert_ne in Hk' by congruence.
      apply (overwritten_apart (blen kvb) p p'); [done|done|]. apply (Ha i k); congruence.
    + rewrite list_lookup_insert_ne in Hj by congruence. destruct (decide (k = i)) as [-> |Hki].
      * rewrite list_lookup_insert_eq in Hk' by done. injection Hk' as <-.
        apply papart_sym. apply (overwritten_apart (blen kvb) p p'); [done|done|]. apply (Ha i j); congruence.
      * rewrite list_lookup_insert_ne in Hk' by congruence. by apply (Ha j k).
Qed.

(** The texts of the other pairs. *)
Lemma overwritten_others kvb kvb' i p p' j q k : kv_wf kvb -> kvs kvb !! i = Some p -> overwritten kvb kvb' i p p' ->
  j <> i -> kvs kvb !! j = Some q -> matches (mem kvb') k q = matches (mem kvb) k q /\ vtext (mem kvb') q = vtext (mem kvb) q.
Proof.
  intros [_ _ Hp Ha] Hi Ho Hj Hq. destruct (Ha j i q p Hj Hq Hi) as (A1 & A2 & A3 & A4).
  pose proof (Forall_lookup_1 _ _ _ _ Hp Hq) as (V1 & V2 & _).
  unfold matches, vtext. rewrite !(ow_text _ _ _ _ _ Ho) by done. done.
Qed.

Lemma copy_at_ok start data kvb : 0 <= start -> start + zlen data <= blen kvb -> blen kvb <= bcap kvb ->
  copy_at start data kvb = Ret (with_buf (put (mem kvb) start data) (blen kvb) kvb).
Proof.
  intros Hs Hl Hc. pose proof (zlen_nonneg data). unfold copy_at, assert_or_panic. rewrite (proj2 (Z.leb_le _ _)) by lia.
  rewrite ztake_ge by lia. done.
Qed.

Lemma overwrite_ok kvb i p key value :
  kv_wf kvb -> kvs kvb !! i = Some p -> slot_fits (zlen key) (zlen value) p ->
  exists kvb', overwriteAt i key value kvb = Ret kvb' /\
    let p' := mkPair (mkView (v_start (p_key p)) (zlen key)) (mkView (v_start (p_value p)) (zlen value)) in
    overwritten kvb kvb' i p p' /\ text (mem kvb') (p_key p') = key /\ text (mem kvb') (p_value p') = value.
Proof.
  intros Hw Hi (Hv & Hkl & Hvl). pose proof Hw as [[Hl0 Hlc] Hmax Hp _]. pose proof (Forall_lookup_1 _ _ _ _ Hp Hi) as (K & V & Hap).
  pose proof K as []. pose proof V as []. pose proof (zlen_nonneg key). pose proof (zlen_nonneg value). unfold maxBufLen, bcap in *.
  unfold overwriteAt. cbn [or_flags with_flags kvs]. rewrite Hi.
  rewrite copy_at_ok by (unfold bcap; cbn [or_flags with_flags blen mem]; lia). cbn [mbind outcome_bind or_flags with_flags with_buf mem blen].
  set (m1 := put (mem kvb) (v_start (p_key p)) key). assert (zlen m1 = zlen (mem kvb)) as L1 by (apply zlen_put; lia).
  rewrite copy_at_ok by (unfold bcap; cbn [with_buf blen mem]; lia). cbn [mbind outcome_bind].
  rewrite !u16_small by (split; lia). eexists. split; [done|]. cbn zeta. cbn [with_kvs with_buf or_flags with_flags mem kvs blen].
  fold m1. set (m2 := put m1 (v_start (p_value p)) value). assert (zlen m2 = zlen (mem kvb)) as L2 by (unfold m2; rewrite zlen_put; lia).
  split; [split; cbn [p_key p_value v_start v_len kvs blen mem]|split].
  - done.
  - done.
  - exact L2.
  - split; [split; cbn [v_start v_len]; lia|]. cbn [v_start v_len]. auto with lia.
  - split; [split; cbn [v_start v_len]; lia|]. cbn [v_start v_len]. auto with lia.
  - intros v Hv' A1 A2. change (text m2 v = text (mem kvb) v). unfold m2. rewrite (text_put m1 v (p_value p) value (blen kvb)) by (done || lia).
    unfold m1. by apply (text_put (mem kvb) v (p_key p) key (blen kvb)).
  - change (text m2 (mkView (v_start (p_key p)) (zlen key)) = key). unfold m2.
    rewrite (text_put m1 _ (p_value p) value (blen kvb)); [|split; cbn [v_start v_len]; lia|done|lia|by apply apart_shrink|lia].
    apply text_put_same; lia.
  - change (text m2 (mkView (v_start (p_value p)) (zlen value)) = value). apply text_put_same; lia.
Qed.

(** ** Appending *)

Lemma text_prefix n m m' v : view_ok n v -> ztake n m' = ztake n m -> text m' v = text m v.
Proof.
  intros [Hs Hl He] E. unfold text, slice.
  assert (forall x : list Z, ztake (v_start v + v_len v - v_start v) (zdrop (v_start v) x) =
    ztake (v_start v + v_len v - v_start v) (zdrop (v_start v) (ztake n x))) as H.
  { intros x. unfold ztake, zdrop. rewrite skipn_firstn_comm, take_take. f_equal. lia. }
  by rewrite H, E, <- H.
Qed.
Lemma ztake_put_behind n m i data : 0 <= n <= i -> i <= zlen m -> ztake n (put m i data) = ztake n m.
Proof.
  intros Hn Hi. unfold put. assert (zlen (ztake i m) = i) as E by (apply zlen_ztake; lia).
  unfold ztake in *. rewrite take_app_le by (unfold zlen in E; lia). rewrite take_take. f_equal. lia.
Qed.

Definition start_of (kvb : kvBuffer) : Z := if blen kvb =? 0 then 1 else blen kvb.
Lemma start_of_ge kvb : 0 <= blen kvb -> blen kvb <= start_of kvb /\ 1 <= start_of kvb.
Proof. unfold start_of. destruct (Z.eqb_spec (blen kvb) 0); lia. Qed.

(** Nothing but the end of the buffer changed. *)
Record keeps (kvb kvb' : kvBuffer) : Prop := mkKeeps {
  ke_kvs : kvs kvb' = kvs kvb;
  ke_kvcap : kvcap kvb' = kvcap kvb;
  ke_len : blen kvb <= blen kvb' <= bcap kvb';
  ke_mem : ztake (blen kvb) (mem kvb') = ztake (blen kvb) (mem kvb)
}.
Lemma keeps_trans a b c : 0 <= blen a -> keeps a b -> keeps b c -> keeps a c.
Proof.
  intros H0 [K1 C1 [L1 _] M1] [K2 C2 [L2 L2'] M2]. split; [congruence|congruence|lia|].
  rewrite <- M1. assert (forall x : list Z, ztake (blen a) x = ztake (blen a) (ztake (blen b) x)) as H.
  { intros x. unfold ztake. rewrite take_take. f_equal. lia. }
  by rewrite H, M2, <- H.
Qed.
Lemma keeps_flags f kvb kvb' : keeps kvb kvb' -> keeps kvb (or_flags f kvb').
Proof. by intros []. Qed.
Lemma keeps_text kvb kvb' v : keeps kvb kvb' -> view_ok (blen kvb) v -> text (mem kvb') v = text (mem kvb) v.
Proof. intros [_ _ _ M] Hv. by eapply text_prefix. Qed.

Lemma zlen_zeros n : zlen (zeros n) = Z.max 0 n.
Proof. unfold zlen, zeros. rewrite length_replicate. lia. Qed.

Section Append.
Context {RT : GoRuntime}.

Lemma reserve_ok need kvb : 0 <= need -> 0 <= blen kvb <= bcap kvb ->
  exists kvb' ok, reserve need kvb = (kvb', ok) /\ keeps kvb kvb' /\ blen kvb' = blen kvb /\
    if (ok : bool) then flags kvb' = flags kvb /\ start_of kvb + need <= bcap kvb' /\ start_of kvb + need <= maxBufLen
    else kvb' = or_flags flagOOMReached kvb.
Proof.
  intros Hn [H0 Hc]. unfold reserve. set (need' := if blen kvb =? 0 then need + 1 else need).
  assert (blen kvb + need' = start_of kvb + need) as E by (unfold need', start_of; destruct (Z.eqb_spec (blen kvb) 0); lia).
  assert (keeps kvb kvb) as Hk by (by split).
  destruct (Z.ltb_spec maxBufLen (blen kvb + need')) as [|Hmax]; [by eexists _, false|].
  destruct (Z.ltb_spec (free kvb) need') as [Hf|Hf]; unfold free in Hf.
  - destruct (HasAny _ _); [by eexists _, false|]. eexists _, true. split; [done|]. unfold grow_buf. rewrite (proj2 (Z.leb_gt _ _)) by lia.
    set (g := growslice _ _). pose proof (growslice_ok (bcap kvb) (blen kvb + need')) as Hg. fold g in Hg.
    assert (zlen (mem kvb ++ zeros (g - bcap kvb)) = g) as Ez.
    { rewrite zlen_app, zlen_zeros. unfold bcap in *. lia. }
    set (m := mem kvb ++ zeros (g - bcap kvb)) in *. change (bcap (with_buf m (blen kvb) kvb)) with (zlen m).
    split; [|split; [done|split; [done|lia]]]. split; [done|done| |].
    + change (blen kvb <= blen kvb <= zlen m). lia.
    + cbn [with_buf mem]. unfold m, ztake. rewrite take_app_le; [done|]. unfold bcap, zlen in Hc. lia.
  - eexists _, true. split; [done|]. split; [done|]. split; [done|]. split; [done|]. lia.
Qed.

Lemma must_append_ok value kvb :
  0 <= blen kvb <= bcap kvb -> start_of kvb + zlen value <= bcap kvb -> start_of kvb + zlen value <= maxBufLen ->
  exists kvb' v, mustAppendSlice value kvb = Ret (kvb', v) /\ keeps kvb kvb' /\ flags kvb' = flags kvb /\
    blen kvb' = start_of kvb + zlen value /\ bcap kvb' = bcap kvb /\
    view_ok (blen kvb') v /\ text (mem kvb') v = value /\ v_len v = zlen value /\ (v_len v = 0 \/ v_start v = start_of kvb).
Proof.
  intros [H0 Hc] H1 H2. pose proof (zlen_nonneg value). pose proof (start_of_ge kvb H0) as [S1 S2].
  unfold mustAppendSlice. fold (start_of kvb). set (L := start_of kvb) in *. unfold bcap, maxBufLen in *.
  unfold assert_or_panic at 1, slice_ok. rewrite !(proj2 (Z.leb_le _ _)) by lia. cbn [andb].
  set (m := put (mem kvb) L value). assert (zlen m = zlen (mem kvb)) as Em by (apply zlen_put; lia).
  unfold reslice, whole, bcap, assert_or_panic. cbn [s_cap s_off s_len with_buf mem blen]. rewrite Em.
  rewrite !(proj2 (Z.leb_le _ _)) by lia. cbn [andb mbind outcome_bind].
  set (o := if zlen (mem kvb) - L =? 0 then 0 else 0 + L).
  assert (0 <= o <= L /\ (zlen value = 0 \/ o = L)) as [Ho1 Ho2] by (unfold o; destruct (Z.eqb_spec (zlen (mem kvb) - L) 0); lia).
  clearbody o. unfold bytes2tok, assert_or_panic. cbn [s_off s_len with_buf blen]. rewrite !(proj2 (Z.leb_le _ _)) by lia.
  cbn [andb mbind outcome_bind]. rewrite Z.add_simpl_l. rewrite !u16_small by (split; lia).
  eexists _, _. split; [done|]. split; [|split; [done|]].
  - split; [done|done| |]; cbn [with_buf blen mem]; [unfold bcap; cbn [with_buf mem]; lia|].
    apply ztake_put_behind; lia.
  - cbn [with_buf blen mem v_start v_len]. split; [done|]. split; [done|]. split; [split; cbn [v_start v_len]; lia|].
    split; [|split; [done|lia]]. destruct Ho2 as [E| ->]; [|apply text_put_same; lia].
    rewrite text_nil by done. destruct value as [|? value]; [done|]. rewrite zlen_cons in E. pose proof (zlen_nonneg value). lia.
Qed.

End Append.

End HttpKVProps.

(** ** Key-value pairs: adding and setting *)
Module HttpKVThms.
Import Bytes HttpKV HttpKVProps.
Open Scope Z_scope.
Open Scope list_scope.

Section Grow.
Context {RT : GoRuntime}.

(** A pair that was appended. *)
Record appended (kvb kvb' : kvBuffer) (p : pairKV) (key value : list Z) : Prop := mkAppended {
  ap_kvs : kvs kvb' = kvs kvb ++ [p];
  ap_len : blen kvb <= blen kvb' <= bcap kvb';
  ap_max : blen kvb' <= maxBufLen;
  ap_mem : ztake (blen kvb) (mem kvb') = ztake (blen kvb) (mem kvb);
  ap_flags : flags kvb' = Z.lor (flags kvb) flagKVAppended;
  ap_pair : pair_ok (blen kvb') p;
  ap_key : text (mem kvb') (p_key p) = key /\ v_len (p_key p) = zlen key /\ (0 < zlen key -> 0 < v_start (p_key p));
  ap_value : vtext (mem kvb') p = value /\ v_len (p_value p) = zlen value;
  ap_fresh : forall q, pair_ok (blen kvb) q -> papart p q
}.

Lemma append_pair_ok key value kvb : 0 <= blen kvb <= bcap kvb ->
  exists kvb' ok, appendPair key value kvb = Ret (kvb', ok) /\
    if (ok : bool) then exists p, appended kvb kvb' p key value
    else kvs kvb' = kvs kvb /\ mem kvb' = mem kvb /\ blen kvb' = blen kvb.
Proof.
  intros Hl. pose proof (zlen_nonneg key). pose proof (zlen_nonneg value). unfold appendPair.
  destruct (canAddOneKV kvb) eqn:Ec; cbn [negb]; [|by eexists _, false].
  destruct (reserve_ok (zlen key + zlen value) kvb) as (k1 & ok & -> & K1 & L1 & Hok); [lia|done|].
  destruct ok; cbn [negb]; [|subst k1; by eexists _, false]. destruct Hok as (F1 & R1 & M1).
  set (k1' := or_flags flagKVAppended k1). assert (start_of k1' = start_of kvb) as S1 by (unfold start_of, k1'; cbn [or_flags with_flags blen]; by rewrite L1).
  assert (keeps kvb k1') as K1' by (by apply keeps_flags). assert (bcap k1' = bcap k1) as B1 by done.
  assert (blen k1' = blen kvb) as L1' by done.
  destruct (must_append_ok key k1') as (k2 & vk & -> & K2 & F2 & L2 & B2 & V2 & T2 & N2 & O2); [|lia..|].
  { pose proof (ke_len _ _ K1'). lia. }
  cbn [mbind outcome_bind].
  pose proof (start_of_ge kvb ltac:(lia)) as [Sg1 Sg2].
  assert (start_of k2 = blen k2) as S2 by (unfold start_of; rewrite (proj2 (Z.eqb_neq _ 0)); lia).
  destruct (must_append_ok value k2) as (k3 & vv & -> & K3 & F3 & L3 & B3 & V3 & T3 & N3 & O3); [|lia..|].
  { pose proof (ke_len _ _ K2). lia. }
  cbn [mbind outcome_bind]. eexists _, true. split; [done|]. exists (mkPair vk vv).
  assert (keeps kvb k3) as K. { eapply keeps_trans; [lia|done|]. eapply keeps_trans; [lia|done|done]. }
  pose proof (keeps_text k2 k3 vk K3 V2) as T2'. rewrite T2 in T2'.
  pose proof (ke_len _ _ K3) as KL3. destruct V2 as [V2a V2b V2c], V3 as [V3a V3b V3c].
  split; cbn [append_kv kvs blen mem flags p_key p_value].
  - by rewrite (ke_kvs _ _ K).
  - apply K.
  - lia.
  - apply K.
  - rewrite F3, F2. unfold k1'. cbn [or_flags with_flags flags]. by rewrite F1.
  - unfold pair_ok, apart. cbn [p_key p_value]. split; [split; lia|]. split; [split; lia|lia].
  - split; [done|]. split; [done|]. intros. destruct O2 as [?| ->]; lia.
  - split; [|done]. unfold vtext, HasValue. cbn [p_value]. destruct (Z.ltb_spec 0 (v_start vv)); [done|].
    symmetry. rewrite <- T3. apply text_nil. lia.
  - intros q ([] & [] & _). unfold papart, apart. cbn [p_key p_value]. lia.
Qed.

Lemma appended_wf kvb kvb' p key value : kv_wf kvb -> appended kvb kvb' p key value -> kv_wf kvb'.
Proof.
  intros [Hl Hm Hp Ha] [Ek Hl' Hm' _ _ Hpk _ _ Hf]. split; [lia|done| |].
  - rewrite Ek. apply Forall_app_2; [|by apply Forall_singleton]. eapply Forall_impl; [exact Hp|].
    intros q ([] & [] & ?). split; [split; lia|]. split; [split; lia|done].
  - rewrite Ek. intros i j x y Hij Hx Hy. rewrite lookup_app_Some in Hx, Hy.
    destruct Hx as [Hx|[Hxl Hx]], Hy as [Hy|[Hyl Hy]].
    + by apply (Ha i j).
    + apply list_lookup_singleton_Some in Hy as [_ <-]. apply papart_sym, Hf. by eapply Forall_lookup_1.
    + apply list_lookup_singleton_Some in Hx as [_ <-]. apply Hf. by eapply Forall_lookup_1.
    + apply list_lookup_singleton_Some in Hx as [? <-], Hy as [? <-]. lia.
Qed.
Lemma appended_lookup kvb kvb' p key value k : kv_wf kvb -> appended kvb kvb' p key value ->
  lookup_all k kvb' = lookup_all k kvb ++ (if matches (mem kvb') k p then [value] else []).
Proof.
  intros Hw Ha. destruct Ha as [Ek _ _ Hmem _ _ _ [Hv _] _]. unfold lookup_all. rewrite Ek, filter_app, fmap_app. f_equal.
  - assert (Forall (fun q => matches (mem kvb') k q = matches (mem kvb) k q /\ vtext (mem kvb') q = vtext (mem kvb) q) (kvs kvb)) as Hall.
    { eapply Forall_impl; [apply (kw_pairs kvb Hw)|]. intros q (Hq1 & Hq2 & _). unfold matches, vtext.
      rewrite !(text_prefix (blen kvb) (mem kvb) (mem kvb')) by done. done. }
    clear Ek. induction Hall as [|q l [E1 E2] _ IH]; [done|]. rewrite !filter_cons, E1. case_decide; [|exact IH]; rewrite !fmap_cons, E2; by f_equal.
  - rewrite filter_cons, filter_nil. destruct (matches (mem kvb') k p); [|done]. rewrite decide_True by done. by rewrite fmap_cons, Hv.
Qed.
Lemma matches_new m key p k : text m (p_key p) = key -> v_len (p_key p) = zlen key -> 0 < zlen key ->
  matches m k p = bool_decide (key = k).
Proof. intros <- Hl Hp. unfold matches, isValid. rewrite Hl, (proj2 (Z.ltb_lt 0 _)) by done. done. Qed.

(** Whether a key is found. *)
Lemma get_idx_sign key kvb : kv_wf kvb -> exists i, getIdx key kvb = Ret i /\ (0 <=? i) = bool_decide (lookup_all key kvb <> []).
Proof.
  intros Hw. unfold getIdx.
  pose proof (find_idx_ok (fun k => bool_decide (k = key)) kvb (kvs kvb) 0 Hw (kw_pairs kvb Hw) ltac:(lia)) as Hf. cbn zeta in Hf.
  fold (matches (mem kvb) key) in Hf. pose proof (filter_find (fun p => matches (mem kvb) key p = true) (kvs kvb)) as Hh.
  unfold lookup_all. destruct (list_find _ _) as [[j p]|] eqn:E.
  - destruct Hf as (-> & _). eexists. split; [done|]. rewrite (proj2 (Z.leb_le 0 _)) by lia. symmetry. apply bool_decide_eq_true.
    intros E0. apply fmap_nil_inv in E0. by rewrite E0 in Hh.
  - rewrite Hf. eexists. split; [done|]. symmetry. apply bool_decide_eq_false. intros E0. apply E0.
    destruct (filter _ _); done.
Qed.

Lemma add_ok key value kvb : kv_wf kvb -> 0 < zlen key ->
  exists kvb' stored, Add key value kvb = Ret (kvb', bool_decide (lookup_all key kvb' <> [])) /\ kv_wf kvb' /\
    forall k, lookup_all k kvb' = lookup_all k kvb ++ (if bool_decide (k = key) && stored then [value] else []).
Proof.
  intros Hw Hk. unfold Add. destruct (append_pair_ok key value kvb (kw_len _ Hw)) as (kvb' & ok & -> & Hok). cbn [mbind outcome_bind].
  assert (kv_wf kvb' /\ forall k, lookup_all k kvb' = lookup_all k kvb ++ (if bool_decide (k = key) && ok then [value] else [])) as [Hw' Hl].
  { destruct ok.
    - destruct Hok as [p Hp]. split; [by eapply appended_wf|]. intros k. rewrite (appended_lookup _ _ _ _ _ k Hw Hp).
      destruct (ap_key _ _ _ _ _ Hp) as (H1 & H2 & _). rewrite (matches_new _ _ _ _ H1 H2 Hk), andb_true_r.
      f_equal. by repeat case_bool_decide.
    - destruct Hok as (E1 & E2 & E3). split.
      + destruct Hw as [H1 H2 H3 H4]. split; [|by rewrite E3|by rewrite E1, E3|by rewrite E1].
        unfold bcap. rewrite E2, E3. done.
      + intros k. unfold lookup_all. rewrite E1, E2, andb_false_r, app_nil_r. done. }
  destruct (get_idx_sign key kvb' Hw') as (i & -> & Hi). cbn [mbind outcome_bind]. rewrite Hi. by exists kvb', ok.
Qed.

(** C34: A store of pairs in one buffer behaves like a list of pairs. [Set] never panics, keeps the store well formed, and
    leaves exactly the new value for its key when it reports success and none when it does not; the pairs of every other
    key stay as they were, although they share the buffer with the one that is overwritten or appended. *)
Theorem kv_set_refines key value kvb : kv_wf kvb -> 0 < zlen key ->
  exists kvb' ok, Set_ key value kvb = Ret (kvb', ok) /\ kv_wf kvb' /\
    lookup_all key kvb' = (if (ok : bool) then [value] else []) /\
    forall k, k <> key -> lookup_all k kvb' = lookup_all k kvb.
Proof.
  intros Hw Hk. unfold Set_. destruct (take_slot_ok kvb key (zlen key) (zlen value) Hw) as (l & r & -> & Hs). cbn [mbind outcome_bind].
  pose proof (slots_wf _ _ _ _ _ _ Hw Hs) as Hw1. pose proof (slots_key _ _ _ _ _ _ Hs) as Hkey. destruct r as [i|].
  - destruct (sl_slot _ _ _ _ _ _ Hs i eq_refl) as (p & _ & Hp & _ & _ & Hfit). cbn [fst] in Hp.
    destruct (overwrite_ok (with_kvs l kvb) i p key value Hw1 Hp Hfit) as (kvb' & -> & Ho & Tk & Tv).
    set (p' := mkPair _ _) in *. cbn [mbind outcome_bind]. exists kvb', true. split; [done|].
    pose proof (overwritten_wf _ _ _ _ _ Hw1 Hp Ho) as Hw2. split; [done|].
    assert (i < length l)%nat as Hil by (by eapply lookup_lt_Some).
    assert (kvs kvb' !! i = Some p') as Hp' by (rewrite (ow_kvs _ _ _ _ _ Ho); by apply list_lookup_insert_eq).
    assert (forall k, matches (mem kvb') k p' = bool_decide (key = k)) as Hm by (intros k; by apply matches_new).
    split.
    + rewrite (lookup_all_one key kvb' i p' Hp'); [|by rewrite Hm, bool_decide_true|].
      * unfold vtext. change (HasValue p') with (HasValue p). destruct Hfit as (-> & _). by rewrite Tv.
      * intros j q Hj Hq. rewrite (ow_kvs _ _ _ _ _ Ho), list_lookup_insert_ne in Hq by done.
        destruct (overwritten_others _ _ _ _ _ j q key Hw1 Hp Ho Hj Hq) as [-> _]. apply (Hkey j q); [congruence|done].
    + intros k Hne. rewrite <- (slots_other _ _ _ _ _ _ k Hw Hs Hne). apply lookup_all_ext. rewrite (ow_kvs _ _ _ _ _ Ho).
      apply Forall2_same_length_lookup_2; [by rewrite length_insert|]. intros j q q' Hq Hq'. destruct (decide (j = i)) as [-> |Hj].
      * rewrite list_lookup_insert_eq in Hq' by done. injection Hq' as <-. rewrite Hm, bool_decide_false by done.
        assert (matches (mem (with_kvs l kvb)) k q = false) as ->; [|done].
        destruct (sl_slot _ _ _ _ _ _ Hs i eq_refl) as (q0 & _ & Hq0 & _ & Hmq & _). cbn [fst] in Hq0.
        assert (q = q0) as -> by (cbn [with_kvs kvs] in Hq; congruence). unfold matches in *. cbn [with_kvs mem].
        destruct (isValid q0); [|done]. cbn [andb] in *. apply bool_decide_eq_true in Hmq. apply bool_decide_eq_false. congruence.
      * rewrite list_lookup_insert_ne in Hq' by done. assert (q' = q) as -> by congruence.
        destruct (overwritten_others _ _ _ _ _ j q k Hw1 Hp Ho Hj Hq) as [-> ->]. done.
  - destruct (add_ok key value (with_kvs l kvb) Hw1 Hk) as (kvb' & st & -> & Hw2 & Hl). cbn [mbind outcome_bind].
    assert (lookup_all key (with_kvs l kvb) = []) as E0. { apply lookup_all_none. intros j q Hj. by apply (Hkey j q). }
    pose proof (Hl key) as Hlk. rewrite E0, bool_decide_true in Hlk by done. cbn [app andb] in Hlk.
    exists kvb', (bool_decide (lookup_all key kvb' <> [])). split; [done|]. split; [done|]. split.
    + rewrite Hlk. by destruct st.
    + intros k Hne. rewrite Hl, bool_decide_false by done. cbn [andb]. rewrite app_nil_r. by apply (slots_other _ _ _ _ _ _ k Hw Hs).
Qed.

End Grow.

(** ** A store *)

Definition ascii (s : string) : list Z := (fun c => Z.of_N (Ascii.N_of_ascii c)) <$> String.list_ascii_of_string s.
(** Slices grow to what is needed. *)
Definition exact_growth : GoRuntime := {| growslice := fun _ need => need; growslice_ok := fun _ need => Z.le_refl need |}.
Definition returned {A} (d : A) (o : outcome (A * bool)) : A := match o with Ret (x, _) => x | Panic => d end.

Definition demo_empty : kvBuffer := Reset (Some (zeros 40, 0)) 0 (mkKV [] 0 [] 0 0).
Definition demo_set (k v : string) (kvb : kvBuffer) : kvBuffer := returned demo_empty (Set_ (RT := exact_growth) (ascii k) (ascii v) kvb).
Definition demo_store : kvBuffer := demo_set "Host" "lneto" (demo_set "Accept" "text/html" (demo_set "Host" "example.org" demo_empty)).

Lemma demo_store_wf : kv_wf demo_store.
Proof.
  split; [vm_compute; split; discriminate|vm_compute; discriminate|..].
  - assert (kvs demo_store = [mkPair (mkView 1 4) (mkView 5 5); mkPair (mkView 16 6) (mkView 22 9)]) as -> by reflexivity.
    assert (blen demo_store = 31) as -> by reflexivity.
    repeat constructor; cbn; try lia; unfold apart; cbn; lia.
  - assert (kvs demo_store = [mkPair (mkView 1 4) (mkView 5 5); mkPair (mkView 16 6) (mkView 22 9)]) as -> by reflexivity.
    intros [|[|i]] [|[|j]] p q Hij; cbn; intros; simplify_eq; unfold papart, apart; cbn; lia.
Qed.

Lemma kv_set_refines_witness :
  exists kvb' ok, Set_ (RT := exact_growth) (ascii "Host") (ascii "example.com") demo_store = Ret (kvb', ok) /\ kv_wf kvb' /\
    lookup_all (ascii "Host") kvb' = (if (ok : bool) then [ascii "example.com"] else []) /\
    forall k, k <> ascii "Host" -> lookup_all k kvb' = lookup_all k demo_store.
Proof. apply (kv_set_refines (RT := exact_growth)); [exact demo_store_wf|reflexivity]. Defined.

(** Setting a longer value that does not fit loses the old one. *)
Lemma failed_set_loses_value : let full := or_flags flagNoBufferGrow demo_store in
  match Set_ (RT := exact_growth) (ascii "Accept") (ascii "application/json") full with
  | Ret (kvb, ok) => ok = false /\ lookup_all (ascii "Accept") full = [ascii "text/html"] /\ lookup_all (ascii "Accept") kvb = []
  | Panic => False
  end.
Proof. vm_compute. repeat split; reflexivity. Qed.
(** Adding a pair that does not fit reports success when there is an older one with its key. *)
Lemma failed_add_reports_success : let full := or_flags flagNoBufferGrow demo_store in
  match Add (RT := exact_growth) (ascii "Accept") (ascii "application/json") full with
  | Ret (kvb, ok) => ok = true /\ lookup_all (ascii "Accept") kvb = [ascii "text/html"]
  | Panic => False
  end.
Proof. vm_compute. repeat split; reflexivity. Qed.
(** Octets that fit the free part of a buffer are refused when its capacity is large. *)
Lemma large_buffer_refuses : snd (ReadFromBytes (RT := exact_growth) [71; 69; 84] (mkKV (zeros 65533) 0 [] 0 0)) = Some ErrBufferExhausted.
Proof. vm_compute. reflexivity. Qed.

End HttpKVThms.
