(* ===== verification/HttpParse.v ===== *)
(** * HTTP/1 headers: what the parser finds, and that it is safe

    Modules: [HttpParseProps] has one field, [HttpParseLoop] all fields, [HttpFirstLine] the
    first line, [HttpParse] the whole header and the theorem. *)
From stdpp Require Import strings.
From S2P Require Import Prelude Errors Bytes DnsName HttpKV HttpHeader HttpKVThms.

(** ** HTTP/1 headers: scanning

    What the parser finds is a function of the octets from its position on ([scan],
    [first_line]), which does not change when more octets follow. *)
Module HttpParseProps.
Import Bytes HttpKV HttpKVProps HttpHeader.
Open Scope Z_scope.
Open Scope list_scope.

(** ** Searching *)

Lemma index_from_add l c i : index_from l c i = if IndexByte l c <? 0 then -1 else i + IndexByte l c.
Proof.
  unfold IndexByte. assert (forall j, 0 <= j -> index_from l c (i + j) = if index_from l c j <? 0 then -1 else i + index_from l c j) as H.
  { induction l as [|x l IH]; intros j Hj; cbn [index_from]; [done|]. destruct (x =? c).
    - by rewrite (proj2 (Z.ltb_ge _ 0)) by lia.
    - rewrite <- Z.add_assoc. apply IH. lia. }
  rewrite <- (H 0) by lia. f_equal. lia.
Qed.
Lemma IndexByte_cons x l c : IndexByte (x :: l) c =
  if x =? c then 0 else if IndexByte l c <? 0 then -1 else 1 + IndexByte l c.
Proof. unfold IndexByte at 1. cbn [index_from]. destruct (x =? c); [done|]. apply index_from_add. Qed.

Lemma IndexByte_none l c : c ∉ l -> IndexByte l c = -1.
Proof.
  induction l as [|x l IH]; [done|]. rewrite not_elem_of_cons. intros [Hx Hl]. rewrite IndexByte_cons, IH by done.
  by rewrite (proj2 (Z.eqb_neq x c)) by congruence.
Qed.
Lemma IndexByte_here l c y : c ∉ l -> IndexByte (l ++ c :: y) c = zlen l.
Proof.
  induction l as [|x l IH]; intros Hl; cbn [app]; rewrite IndexByte_cons; [by rewrite Z.eqb_refl|].
  apply not_elem_of_cons in Hl as [Hx Hl]. rewrite (proj2 (Z.eqb_neq x c)) by congruence. rewrite IH by done.
  pose proof (zlen_nonneg l). rewrite (proj2 (Z.ltb_ge _ 0)) by lia. rewrite zlen_cons. lia.
Qed.
(** Either it is not there, or the list is split there. *)
Lemma IndexByte_cases l c :
  (IndexByte l c = -1 /\ c ∉ l) \/ (exists a z, l = a ++ c :: z /\ (c ∉ a) /\ IndexByte l c = zlen a).
Proof.
  destruct (decide (c ∈ l)) as [Hc|Hc]; [right|left; by split; [apply IndexByte_none|]].
  apply list_elem_of_split_l in Hc as (a & z & -> & Ha). exists a, z. split; [done|]. split; [done|]. by apply IndexByte_here.
Qed.
Lemma IndexByte_range l c : -1 <= IndexByte l c < zlen l \/ (IndexByte l c = -1 /\ l = []).
Proof.
  destruct (IndexByte_cases l c) as [[-> _]|(a & z & -> & _ & ->)].
  - destruct l as [|x l]; [by right|]. left. rewrite zlen_cons. pose proof (zlen_nonneg l). lia.
  - left. rewrite zlen_app, zlen_cons. pose proof (zlen_nonneg a). pose proof (zlen_nonneg z). lia.
Qed.
Lemma IndexByte_bound l c : -1 <= IndexByte l c <= zlen l - 1.
Proof. destruct (IndexByte_range l c) as [?|[-> ->]]; [lia|done]. Qed.
Lemma IndexByte_app l y c : 0 <= IndexByte l c -> IndexByte (l ++ y) c = IndexByte l c.
Proof.
  destruct (IndexByte_cases l c) as [[-> _]|(a & z & -> & Ha & ->)]; [lia|]. intros _.
  rewrite <- app_assoc. cbn [app]. by apply IndexByte_here.
Qed.
Lemma IndexByte_app_none l y c : IndexByte l c < 0 -> IndexByte (l ++ y) c = -1 \/ zlen l <= IndexByte (l ++ y) c.
Proof.
  destruct (IndexByte_cases l c) as [[_ Hl]|(a & z & -> & _ & ->)]; [|pose proof (zlen_nonneg a); lia]. intros _.
  destruct (IndexByte_cases (l ++ y) c) as [[-> _]|(a & z & E & Ha & ->)]; [by left|right].
  destruct (decide (zlen l <= zlen a)) as [|Hn]; [done|]. exfalso. apply Hl.
  apply (list_elem_of_lookup_2 l (length a)). assert (length a < length l)%nat as Hlt by (unfold zlen in Hn; lia).
  rewrite <- (lookup_app_l l y) by done. rewrite E. by rewrite list_lookup_middle.
Qed.
Lemma IndexByte_zdrop_le l c n : 0 <= n -> 0 <= IndexByte l c -> n <= IndexByte l c -> IndexByte (zdrop n l) c = IndexByte l c - n.
Proof.
  intros Hn. destruct (IndexByte_cases l c) as [[-> _]|(a & z & -> & Ha & ->)]; [lia|]. intros _ Hle.
  assert (zdrop n (a ++ c :: z) = zdrop n a ++ c :: z) as ->.
  { unfold zdrop. rewrite drop_app_le; [done|]. unfold zlen in Hle. lia. }
  rewrite IndexByte_here; [apply zlen_zdrop; lia|].
  intros Hin. apply Ha. rewrite <- (ztake_zdrop n a). apply elem_of_app. by right.
Qed.

(** ** Values *)

Lemma count_sp_range l : 0 <= count_sp l <= zlen l.
Proof.
  induction l as [|c l IH]; [done|]. cbn [count_sp]. rewrite zlen_cons. case_match; lia.
Qed.
Lemma count_sp_app a c y z : c <> SP -> count_sp (a ++ c :: y) = count_sp (a ++ c :: z) /\ count_sp (a ++ c :: y) <= zlen a.
Proof.
  intros Hc. induction a as [|x a [IH1 IH2]]; cbn [app count_sp].
  - rewrite (proj2 (Z.eqb_neq c SP)) by done. done.
  - rewrite zlen_cons. pose proof (zlen_nonneg a). case_match; [|lia]. split; [congruence|lia].
Qed.

(** The loop ends, between the value and the end of the buffer; more fuel changes nothing. *)
Lemma value_loop_total fuel b n : 0 <= n <= zlen b -> zlen b - n < Z.of_nat fuel ->
  exists r, (forall fuel', zlen b - n < Z.of_nat fuel' -> value_loop fuel' b n = Ret r) /\
    match r with Some m => n < m < zlen b | None => True end.
Proof.
  revert n. induction fuel as [|fuel IH]; intros n Hn Hf; [lia|].
  pose proof (IndexByte_bound (zdrop n b) LF) as Hr. rewrite zlen_zdrop in Hr by lia.
  destruct ((IndexByte (zdrop n b) LF <? 0) || (IndexByte (zdrop n b) LF + n + 1 =? zlen b)) eqn:E.
  - exists None. split; [|done]. intros [|fuel'] Hf'; [lia|]. cbn [value_loop]. by rewrite E.
  - apply orb_false_elim in E as E'. destruct E' as [E1%Z.ltb_ge E2%Z.eqb_neq].
    set (m := n + (IndexByte (zdrop n b) LF + 1)) in *. assert (n < m < zlen b) as Hm by lia.
    destruct (at_ok b m) as (c & _ & Ec); [lia|]. destruct (negb (c =? SP) && negb (c =? TAB)) eqn:Et.
    + exists (Some m). split; [|done]. intros [|fuel'] Hf'; [lia|]. cbn [value_loop]. rewrite E. fold m. rewrite Ec. cbn [mbind outcome_bind].
      by rewrite Et.
    + destruct (IH m) as (r & Hr1 & Hr2); [lia|lia|]. exists r. split.
      * intros [|fuel'] Hf'; [lia|]. cbn [value_loop]. rewrite E. fold m. rewrite Ec. cbn [mbind outcome_bind]. rewrite Et.
        apply Hr1. lia.
      * destruct r; [lia|done].
Qed.
(** With more data the end of a value stays where it is. *)
Lemma value_loop_app fuel b y n m fuel' : 0 <= n <= zlen b -> value_loop fuel b n = Ret (Some m) ->
  zlen (b ++ y) - n < Z.of_nat fuel' -> value_loop fuel' (b ++ y) n = Ret (Some m).
Proof.
  revert n fuel'. induction fuel as [|fuel IH]; intros n fuel' Hn E Hf; [done|].
  pose proof (IndexByte_bound (zdrop n b) LF) as Hr. rewrite zlen_zdrop in Hr by lia. pose proof (zlen_nonneg y).
  destruct fuel' as [|fuel']; [rewrite zlen_app in Hf; lia|]. cbn [value_loop] in E |- *.
  destruct ((IndexByte (zdrop n b) LF <? 0) || (IndexByte (zdrop n b) LF + n + 1 =? zlen b)) eqn:E0; [done|].
  apply orb_false_elim in E0 as [E1%Z.ltb_ge E2%Z.eqb_neq].
  assert (zdrop n (b ++ y) = zdrop n b ++ y) as -> by (unfold zdrop; rewrite drop_app_le; [done|unfold zlen in Hn; lia]).
  rewrite IndexByte_app by done. set (i := IndexByte (zdrop n b) LF) in *.
  rewrite (proj2 (Z.ltb_ge i 0)), (proj2 (Z.eqb_neq _ (zlen (b ++ y)))) by (rewrite ?zlen_app; lia). cbn [orb].
  assert (at_ (b ++ y) (n + (i + 1)) = at_ b (n + (i + 1))) as -> by (unfold at_; rewrite zget_app_l by lia; done).
  destruct (at_ b (n + (i + 1))) as [c|]; [|done]. cbn [mbind outcome_bind] in *. case_match; [done|].
  rewrite zlen_app in Hf. apply IH; [lia|done|rewrite zlen_app; lia].
Qed.

(** ** One field *)

Inductive item :=
| IEnd (n : Z)
| IField (klen vstart vend n : Z)
| IErr (e : error).

Definition field_item (b : list Z) (n : Z) : item :=
  if (0 <=? IndexByte (ztake n b) SP) || (0 <=? IndexByte (ztake n b) TAB) then IErr errInvalidHeader
  else
    let vs := n + 1 + count_sp (zdrop (n + 1) b) in
    match value_loop (S (length b)) b vs with
    | Ret (Some m) => IField n vs (if (vs <? m - 1) && bool_decide (zget b (m - 1 - 1) = Some CR) then m - 1 - 1 else m - 1) m
    | _ => IErr ErrNeedMoreData
    end.
Definition scan (b : list Z) : item :=
  if 0 <? header_end b then IEnd (header_end b)
  else
    let n := IndexByte b COLON in
    let x := IndexByte b LF in
    if x <? 0 then IErr ErrNeedMoreData
    else if x <? n then IErr errInvalidHeader
    else if n <? 0 then IErr errInvalidHeader
    else field_item b n.

Lemma vstart_ok b n : 0 <= n -> n < IndexByte b LF -> n + 1 <= n + 1 + count_sp (zdrop (n + 1) b) <= IndexByte b LF.
Proof.
  intros Hn Hx. pose proof (IndexByte_bound b LF). pose proof (count_sp_range (zdrop (n + 1) b)) as Hc.
  split; [lia|]. pose proof (IndexByte_zdrop_le b LF (n + 1) ltac:(lia) ltac:(lia) ltac:(lia)) as Ei.
  destruct (IndexByte_cases (zdrop (n + 1) b) LF) as [[E _]|(a & z & E & _ & El)]; [lia|].
  rewrite E. destruct (count_sp_app a LF z z) as [_ Hs]; [done|]. lia.
Qed.
Lemma field_item_range b n : 0 <= n -> n < IndexByte b LF ->
  match field_item b n with
  | IField k vs ve m => k = n /\ n < vs <= ve /\ ve < m < zlen b
  | IErr e => e = errInvalidHeader \/ e = ErrNeedMoreData
  | IEnd _ => False
  end.
Proof.
  intros Hn Hx. unfold field_item. destruct (_ || _); [by left|]. pose proof (vstart_ok b n Hn Hx) as Hv. pose proof (IndexByte_bound b LF).
  set (vs := n + 1 + _) in *. destruct (value_loop_total (S (length b)) b vs) as (r & Hr & Hm); [lia|unfold zlen in *; lia|].
  rewrite Hr by (unfold zlen in *; lia). destruct r as [m|]; [|by right]. split; [done|]. split; [|destruct (_ && _); lia].
  split; [lia|]. destruct (Z.ltb_spec vs (m - 1)); cbn [andb]; [case_match; lia|]. lia.
Qed.

(** What was found is found again when more follows. *)
Lemma field_item_app b y n : 0 <= n -> n < IndexByte b LF -> field_item b n <> IErr ErrNeedMoreData ->
  field_item (b ++ y) n = field_item b n.
Proof.
  intros Hn Hx. pose proof (IndexByte_bound b LF) as Hb. unfold field_item.
  assert (forall k, 0 <= k <= zlen b -> ztake k (b ++ y) = ztake k b) as Ht.
  { intros k Hk. unfold ztake. rewrite take_app_le; [done|]. unfold zlen in Hk. lia. }
  rewrite Ht by lia. destruct (_ || _); [done|].
  assert (count_sp (zdrop (n + 1) (b ++ y)) = count_sp (zdrop (n + 1) b)) as ->.
  { assert (zdrop (n + 1) (b ++ y) = zdrop (n + 1) b ++ y) as -> by (unfold zdrop; rewrite drop_app_le; [done|unfold zlen in *; lia]).
    pose proof (IndexByte_zdrop_le b LF (n + 1) ltac:(lia) ltac:(lia) ltac:(lia)) as Ei.
    destruct (IndexByte_cases (zdrop (n + 1) b) LF) as [[E _]|(a & z & -> & _ & _)]; [lia|].
    rewrite <- app_assoc. cbn [app]. by apply count_sp_app. }
  pose proof (vstart_ok b n Hn Hx) as Hv. set (vs := n + 1 + _) in *.
  destruct (value_loop_total (S (length b)) b vs) as (r & Hr & Hm); [lia|unfold zlen in *; lia|].
  rewrite Hr by (unfold zlen in *; lia). destruct r as [m|]; [|done]. intros _.
  rewrite (value_loop_app (S (length b)) b y vs m) by (done || lia || (apply Hr; unfold zlen in *; lia) || (rewrite zlen_app; unfold zlen in *; rewrite length_app; lia)).
  rewrite zget_app_l by lia. done.
Qed.

Lemma header_end_range b : 0 <= header_end b <= zlen b /\ header_end b <= 2.
Proof.
  unfold header_end. pose proof (zlen_nonneg b).
  destruct (Z.leb_spec 2 (zlen b)), (Z.leb_spec 1 (zlen b)); cbn [andb]; repeat case_match; lia.
Qed.
Lemma header_end_app b y : 0 < header_end b \/ 0 <= IndexByte b LF -> header_end (b ++ y) = header_end b.
Proof.
  intros H. destruct b as [|c [|d b]].
  - exfalso. destruct H as [H|H]; [change (0 < 0) in H|change (0 <= -1) in H]; lia.
  - destruct (Z.eqb_spec c LF) as [-> |Hc].
    { unfold header_end. cbn [app]. rewrite !zlen_cons. pose proof (zlen_nonneg y).
      change (default 0 (zget (LF :: y) 0)) with LF. change (LF =? CR) with false. rewrite andb_false_r. cbn [andb].
      by rewrite (proj2 (Z.leb_le 1 _)) by lia. }
    exfalso. destruct H as [H|H].
    + unfold header_end in H. change (zlen [c]) with 1 in H. change (default 0 (zget [c] 0)) with c in H. cbn [Z.leb Z.compare Pos.compare Pos.compare_cont andb] in H.
      rewrite (proj2 (Z.eqb_neq c LF)) in H by done. lia.
    + rewrite IndexByte_none in H; [lia|]. by apply not_elem_of_cons; split; [congruence|apply not_elem_of_nil].
  - unfold header_end. pose proof (zlen_nonneg b). pose proof (zlen_nonneg y). cbn [app]. rewrite !zlen_cons, zlen_app.
    rewrite !(proj2 (Z.leb_le _ _)) by lia. done.
Qed.

Lemma colon_not_lf b : 0 <= IndexByte b COLON -> 0 <= IndexByte b LF -> IndexByte b COLON <> IndexByte b LF.
Proof.
  intros Hc Hl E. destruct (IndexByte_cases b COLON) as [[E0 _]|(a & z & -> & Ha & E1)]; [lia|].
  destruct (IndexByte_cases (a ++ COLON :: z) LF) as [[E0 _]|(a' & z' & E2 & _ & E3)]; [lia|].
  assert (zlen a = zlen a') as El by congruence. apply app_inj_1 in E2 as [_ E2]; [done|unfold zlen in El; lia].
Qed.

Lemma scan_app b y : scan b <> IErr ErrNeedMoreData -> scan (b ++ y) = scan b.
Proof.
  unfold scan. intros H. destruct (Z.ltb_spec 0 (header_end b)) as [He|He].
  { rewrite header_end_app by (by left). by rewrite (proj2 (Z.ltb_lt _ _)). }
  destruct (Z.ltb_spec (IndexByte b LF) 0) as [|Hx]; [done|]. rewrite header_end_app by (by right).
  rewrite (proj2 (Z.ltb_ge 0 _)) by done. rewrite (IndexByte_app b y LF), (proj2 (Z.ltb_ge _ 0)) by done.
  pose proof (IndexByte_bound b LF).
  destruct (Z.ltb_spec (IndexByte b COLON) 0) as [Hn|Hn].
  - rewrite (proj2 (Z.ltb_ge (IndexByte b LF) (IndexByte b COLON))) by lia.
    destruct (IndexByte_app_none b y COLON Hn) as [-> |Hc]; [by rewrite (proj2 (Z.ltb_ge (IndexByte b LF) (-1))) by lia|].
    by rewrite (proj2 (Z.ltb_lt _ _)) by lia.
  - rewrite (IndexByte_app b y COLON) by done. destruct (Z.ltb_spec (IndexByte b LF) (IndexByte b COLON)) as [|Hlt]; [done|].
    rewrite (proj2 (Z.ltb_ge _ 0)) by done. apply field_item_app; [done| |done].
    pose proof (colon_not_lf b Hn Hx). lia.
Qed.

(** ** The parser and the scanner *)

Record hb_ok (hb : headerv1Buf) : Prop := mkHbOk {
  ho_off : 0 <= off hb <= blen (kv hb);
  ho_len : blen (kv hb) <= bcap (kv hb);
  ho_max : blen (kv hb) <= maxBufLen
}.
Definition rest (hb : headerv1Buf) : list Z := zdrop (off hb) (buf (kv hb)).

Lemma zlen_rest hb : hb_ok hb -> zlen (rest hb) = blen (kv hb) - off hb.
Proof. intros [H1 H2 _]. unfold rest, buf. unfold bcap in H2. rewrite zlen_zdrop; rewrite zlen_ztake; lia. Qed.

Lemma octets_slice (m : list Z) a n : 0 <= a -> zdrop a (ztake n m) = slice m a (a + (n - a)).
Proof. intros Ha. unfold slice, zdrop, ztake. rewrite skipn_firstn_comm. f_equal. lia. Qed.
Lemma offBuf_ok hb : hb_ok hb -> exists s, offBuf hb = Ret s /\ octets (kv hb) s = rest hb /\
  s_len s = blen (kv hb) - off hb /\ s_cap s = bcap (kv hb) - off hb /\ (off hb < bcap (kv hb) -> s_off s = off hb).
Proof.
  intros [H1 H2 _]. unfold offBuf, reslice, whole, assert_or_panic. cbn [s_cap s_off s_len].
  rewrite !(proj2 (Z.leb_le _ _)) by lia. cbn [andb]. eexists. split; [done|]. unfold octets. cbn [s_cap s_off s_len].
  split; [|split; [done|]; split; [done|]; intros; rewrite (proj2 (Z.eqb_neq _ 0)) by lia; lia].
  unfold rest, buf. rewrite octets_slice by lia. destruct (Z.eqb_spec (bcap (kv hb) - off hb) 0); [|done].
  replace (blen (kv hb) - off hb) with 0 by lia. unfold slice. by rewrite !ztake_nonpos by lia.
Qed.

(** A view of what follows the position. *)
Definition view_at (hb : headerv1Buf) (a b : Z) : view := mkView (off hb + a) (b - a).
Lemma reslice_view hb s a b :
  hb_ok hb -> s_off s = off hb -> s_cap s = bcap (kv hb) - off hb -> 0 <= a <= b -> b < blen (kv hb) - off hb ->
  exists v, reslice s a b = Ret v /\ bytes2tok (kv hb) v = Ret (view_at hb a b) /\ s_off v = off hb + a /\ s_len v = b - a /\
    s_cap v = bcap (kv hb) - off hb - a.
Proof.
  intros [H1 H2 H3] Eo Ec Ha Hb. unfold maxBufLen in H3. unfold reslice, assert_or_panic. rewrite Eo, Ec.
  rewrite !(proj2 (Z.leb_le _ _)) by lia. cbn [andb]. rewrite (proj2 (Z.eqb_neq _ 0)) by lia.
  eexists. split; [done|]. cbn [s_off s_len s_cap]. split; [|done]. unfold bytes2tok, assert_or_panic. cbn [s_off s_len].
  rewrite !(proj2 (Z.leb_le _ _)) by lia. cbn [andb]. by rewrite !u16_small by (split; lia).
Qed.

Definition item_result (hb : headerv1Buf) (it : item) : headerv1Buf * pairKV * option error :=
  match it with
  | IEnd n => (with_off (off hb + n) hb, zero_pair, None)
  | IField k vs ve m => (with_off (off hb + m) hb, mkPair (view_at hb 0 k) (view_at hb vs ve), None)
  | IErr e => (hb, zero_pair, Some e)
  end.

Lemma field_at_ok hb s n :
  hb_ok hb -> s_off s = off hb -> s_cap s = bcap (kv hb) - off hb -> 0 <= n -> n < IndexByte (rest hb) LF ->
  field_at s (rest hb) n hb = Ret (item_result hb (field_item (rest hb) n)).
Proof.
  intros Hok Eo Ec Hn Hx. pose proof (field_item_range (rest hb) n Hn Hx) as Hr. pose proof (zlen_rest hb Hok) as El.
  pose proof (IndexByte_bound (rest hb) LF). pose proof (vstart_ok (rest hb) n Hn Hx) as Hv.
  unfold field_at, field_item in *. destruct (_ || _); [done|].
  destruct (reslice_view hb s 0 n Hok Eo Ec) as (k & -> & Ek & _); [lia|lia|]. cbn [mbind outcome_bind]. rewrite Ek. cbn [mbind outcome_bind].
  set (vs := n + 1 + _) in *. destruct (value_loop_total (S (length (rest hb))) (rest hb) vs) as (r & Hr1 & Hm); [lia|unfold zlen in *; lia|].
  rewrite Hr1 in * by (unfold zlen in *; lia). cbn [mbind outcome_bind]. destruct r as [m|]; [|done].
  destruct (at_ok (rest hb) (if vs <? m - 1 then m - 1 - 1 else m - 1)) as (c & Ec' & ->); [destruct (Z.ltb_spec vs (m - 1)); lia|].
  cbn [mbind outcome_bind].
  set (ve := if (vs <? m - 1) && bool_decide (zget (rest hb) (m - 1 - 1) = Some CR) then m - 1 - 1 else m - 1) in *.
  assert ((if (vs <? m - 1) && (c =? CR) then m - 1 - 1 else m - 1) = ve) as ->.
  { unfold ve. destruct (vs <? m - 1); [|done]. cbn [andb]. rewrite Ec'. destruct (Z.eqb_spec c CR) as [-> |]; [by rewrite bool_decide_true|].
    by rewrite bool_decide_false by congruence. }
  destruct Hr as (_ & Hvs & Hve). destruct (reslice_view hb s vs ve Hok Eo Ec) as (v & -> & Ev & _); [lia|lia|].
  cbn [mbind outcome_bind]. rewrite Ev. done.
Qed.

Lemma next_scan hb : hb_ok hb -> next hb = Ret (item_result hb (scan (rest hb))).
Proof.
  intros Hok. destruct (offBuf_ok hb Hok) as (s & Es & Eo & _ & Ec & Hoff). unfold next. rewrite Es. cbn [mbind outcome_bind].
  rewrite Eo. unfold scan. destruct (0 <? header_end (rest hb)); [done|].
  destruct (Z.ltb_spec (IndexByte (rest hb) LF) 0); [done|]. destruct (Z.ltb_spec (IndexByte (rest hb) LF) (IndexByte (rest hb) COLON)); [done|].
  destruct (Z.ltb_spec (IndexByte (rest hb) COLON) 0); [done|]. pose proof (IndexByte_bound (rest hb) LF) as Hb.
  pose proof (zlen_rest hb Hok). pose proof Hok as [? ? _].
  apply field_at_ok; [done|apply Hoff; lia|done|lia|]. pose proof (colon_not_lf (rest hb)). lia.
Qed.

Lemma scan_range b :
  match scan b with
  | IEnd n => 0 < n <= zlen b
  | IField k vs ve m => 0 <= k < vs /\ vs <= ve /\ ve < m < zlen b
  | IErr e => e = errInvalidHeader \/ e = ErrNeedMoreData
  end.
Proof.
  unfold scan. pose proof (header_end_range b). destruct (Z.ltb_spec 0 (header_end b)); [lia|].
  destruct (Z.ltb_spec (IndexByte b LF) 0); [by right|]. destruct (Z.ltb_spec (IndexByte b LF) (IndexByte b COLON)); [by left|].
  destruct (Z.ltb_spec (IndexByte b COLON) 0); [by left|]. pose proof (colon_not_lf b).
  pose proof (field_item_range b (IndexByte b COLON) ltac:(lia) ltac:(lia)) as Hr. destruct (field_item _ _); [done|lia|done].
Qed.

End HttpParseProps.

(** ** HTTP/1 headers: all fields

    The loop over the fields ends, its pairs do not overlap, and it may be interrupted
    for lack of data and continued later. *)
Module HttpParseLoop.
Import Bytes HttpKV HttpKVProps HttpHeader HttpParseProps.
Open Scope Z_scope.
Open Scope list_scope.

Record hb_wf (hb : headerv1Buf) : Prop := mkHbWf {
  hw_ok : hb_ok hb;
  hw_pairs : Forall (pair_ok (off hb)) (kvs (kv hb));
  hw_apart : forall i j p q, i <> j -> kvs (kv hb) !! i = Some p -> kvs (kv hb) !! j = Some q -> papart p q
}.

Lemma pair_ok_le n m p : n <= m -> pair_ok n p -> pair_ok m p.
Proof. intros Hn ([] & [] & ?). split; [split; lia|]. split; [split; lia|done]. Qed.
Lemma hb_kv_wf hb : hb_wf hb -> kv_wf (kv hb).
Proof.
  intros [[H1 H2 H3] Hp Ha]. split; [lia|done| |done]. eapply Forall_impl; [exact Hp|]. intros p. apply pair_ok_le. lia.
Qed.
Lemma hb_wf_off hb n : hb_wf hb -> off hb <= n <= blen (kv hb) -> hb_wf (with_off n hb).
Proof.
  intros [[H1 H2 H3] Hp Ha] Hn. split; [split; cbn [with_off off kv]; lia| |done].
  cbn [with_off off kv]. eapply Forall_impl; [exact Hp|]. intros p. apply pair_ok_le. lia.
Qed.

Section Loop.
Context {RT : GoRuntime}.

Definition field_pair (hb : headerv1Buf) (k vs ve : Z) : pairKV := mkPair (view_at hb 0 k) (view_at hb vs ve).
Definition after_field (hb : headerv1Buf) (k vs ve m : Z) : headerv1Buf :=
  with_kv (append_kv (field_pair hb k vs ve) (kv hb)) (with_off (off hb + m) hb).

Lemma after_field_wf hb k vs ve m : hb_wf hb -> scan (rest hb) = IField k vs ve m -> hb_wf (after_field hb k vs ve m).
Proof.
  intros Hw Es. pose proof (scan_range (rest hb)) as Hr. rewrite Es in Hr. rewrite (zlen_rest hb (hw_ok hb Hw)) in Hr.
  destruct Hw as [[H1 H2 H3] Hp Ha]. unfold after_field, field_pair, view_at.
  assert (forall p, pair_ok (off hb) p -> papart (mkPair (mkView (off hb + 0) (k - 0)) (mkView (off hb + vs) (ve - vs))) p) as Hfresh.
  { intros p ([] & [] & _). unfold papart, apart. cbn [p_key p_value v_start v_len]. lia. }
  split; [split; cbn [with_kv with_off append_kv off kv blen]; [lia|done|done]| |]; cbn [with_kv with_off append_kv off kv kvs].
  - apply Forall_app_2; [eapply Forall_impl; [exact Hp|]; intros p; apply pair_ok_le; lia|]. apply Forall_singleton.
    unfold pair_ok, apart. cbn [p_key p_value v_start v_len]. split; [split; cbn [v_start v_len]; lia|]. split; [split; cbn [v_start v_len]; lia|lia].
  - intros i j x y Hij Hx Hy. rewrite lookup_app_Some in Hx, Hy. destruct Hx as [Hx|[Hxl Hx]], Hy as [Hy|[Hyl Hy]].
    + by apply (Ha i j).
    + apply list_lookup_singleton_Some in Hy as [_ <-]. apply papart_sym, Hfresh. by eapply Forall_lookup_1.
    + apply list_lookup_singleton_Some in Hx as [_ <-]. apply Hfresh. by eapply Forall_lookup_1.
    + apply list_lookup_singleton_Some in Hx as [? <-], Hy as [? <-]. lia.
Qed.

(** One round of the loop. *)
Lemma loop_round fuel hb : hb_ok hb ->
  headers_loop (S fuel) hb =
    match scan (rest hb) with
    | IEnd n => Ret (with_off (off hb + n) hb, None)
    | IErr e => Ret (hb, Some e)
    | IField k vs ve m =>
        if off hb =? 0 then Ret (with_off (off hb + m) hb, None)
        else if negb (canAddOneKV (kv hb)) then Ret (with_off (off hb + m) hb, Some ErrHeaderTooMany)
        else headers_loop fuel (after_field hb k vs ve m)
    end.
Proof.
  intros Hok. cbn [headers_loop]. rewrite next_scan by done. cbn [mbind outcome_bind]. destruct (scan (rest hb)) as [n|k vs ve m|e]; cbn [item_result].
  - done.
  - unfold isValidHeader. cbn [p_key view_at v_start]. rewrite Z.add_0_r. destruct Hok as [? _ _].
    destruct (Z.ltb_spec 0 (off hb)); [rewrite (proj2 (Z.eqb_neq _ 0)) by lia|rewrite (proj2 (Z.eqb_eq _ 0)) by lia]; done.
  - done.
Qed.

(** The loop ends whatever the octets; more fuel changes nothing. *)
Lemma loop_total fuel hb : hb_wf hb -> blen (kv hb) - off hb < Z.of_nat fuel ->
  exists hb1 err, (forall fuel', blen (kv hb) - off hb < Z.of_nat fuel' -> headers_loop fuel' hb = Ret (hb1, err)) /\
    hb_wf hb1 /\ off hb <= off hb1 /\ mem (kv hb1) = mem (kv hb) /\ blen (kv hb1) = blen (kv hb) /\ flags (kv hb1) = flags (kv hb).
Proof.
  revert hb. induction fuel as [|fuel IH]; intros hb Hw Hf; [destruct Hw as [[] _ _]; lia|].
  pose proof (scan_range (rest hb)) as Hr. rewrite (zlen_rest hb (hw_ok hb Hw)) in Hr. pose proof (hw_ok hb Hw) as [H1 H2 H3].
  assert (forall hb1 err, (forall fuel', headers_loop (S fuel') hb = Ret (hb1, err)) -> (exists n, hb1 = with_off (off hb + n) hb /\ 0 <= n /\ off hb + n <= blen (kv hb)) ->
    exists hb1 err, (forall fuel', blen (kv hb) - off hb < Z.of_nat fuel' -> headers_loop fuel' hb = Ret (hb1, err)) /\
    hb_wf hb1 /\ off hb <= off hb1 /\ mem (kv hb1) = mem (kv hb) /\ blen (kv hb1) = blen (kv hb) /\ flags (kv hb1) = flags (kv hb)) as Hdone.
  { intros hb1 err Hl (n & -> & Hn). eexists _, err. split; [intros [|fuel'] ?; [lia|apply Hl]|].
    split; [apply hb_wf_off; [done|lia]|]. cbn [with_off off kv]. split; [lia|done]. }
  destruct (scan (rest hb)) as [n|k vs ve m|e] eqn:Es.
  - eapply Hdone; [intros; rewrite loop_round, Es by apply Hw; done|]. exists n. split; [done|lia].
  - destruct (off hb =? 0) eqn:E0.
    { eapply Hdone; [intros; rewrite loop_round, Es, E0 by apply Hw; done|]. exists m. split; [done|lia]. }
    destruct (canAddOneKV (kv hb)) eqn:Ec.
    2: { eapply Hdone; [intros; rewrite loop_round, Es, E0, Ec by apply Hw; done|]. exists m. split; [done|lia]. }
    destruct (IH (after_field hb k vs ve m)) as (hb1 & err & Hl & Hw1 & Ho & Em & Eb & Ef); [by apply after_field_wf|cbn [after_field with_kv with_off off kv append_kv blen]; lia|].
    exists hb1, err. split; [|split; [done|]; cbn [after_field with_kv with_off off kv append_kv blen] in Ho; split; [lia|done]].
    intros [|fuel'] Hf'; [lia|]. rewrite loop_round, Es, E0, Ec by apply Hw. cbn [negb]. apply Hl.
    cbn [after_field with_kv with_off off kv append_kv blen]. lia.
  - eapply (Hdone hb); [intros; rewrite loop_round, Es by apply Hw; done|]. exists 0. rewrite Z.add_0_r. split; [by destruct hb|lia].
Qed.

(** ** More data *)

(** Flags but for [flagConnClose], which an interrupted parser has set. *)
Definition eqf (f f' : Z) : Prop := Z.lor f flagConnClose = Z.lor f' flagConnClose.
Lemma eqf_land f f' m : eqf f f' -> Z.land flagConnClose m = 0 -> Z.land f m = Z.land f' m.
Proof.
  intros E Hm. assert (forall x, Z.land x m = Z.land (Z.lor x flagConnClose) m) as H.
  { intros x. rewrite Z.land_lor_distr_l, Hm. by rewrite Z.lor_0_r. }
  by rewrite H, E, <- H.
Qed.
Lemma eqf_HasAny f f' m : eqf f f' -> Z.land flagConnClose m = 0 -> HasAny f m = HasAny f' m.
Proof. intros E Hm. unfold HasAny. by rewrite (eqf_land f f' m). Qed.

(** The same state with more octets behind. *)
Record hsim (hb hb' : headerv1Buf) : Prop := mkHsim {
  hs_wf : hb_wf hb;
  hs_wf' : hb_wf hb';
  hs_off : off hb' = off hb;
  hs_kvs : kvs (kv hb') = kvs (kv hb);
  hs_kvcap : kvcap (kv hb') = kvcap (kv hb);
  hs_flags : eqf (flags (kv hb')) (flags (kv hb));
  hs_buf : exists y, buf (kv hb') = buf (kv hb) ++ y
}.
Lemma hsim_rest hb hb' : hsim hb hb' -> exists y, rest hb' = rest hb ++ y.
Proof.
  intros [[[H1 H2 _] _ _] _ Eo _ _ _ [y Ey]]. exists y. unfold rest. rewrite Eo, Ey. unfold zdrop. rewrite drop_app_le; [done|].
  unfold buf, ztake. rewrite length_take. unfold bcap, zlen in H2. lia.
Qed.
Lemma hsim_off hb hb' n : hsim hb hb' -> off hb <= n <= blen (kv hb) -> hsim (with_off n hb) (with_off n hb').
Proof.
  intros Hs Hn. destruct (hs_buf _ _ Hs) as [y Ey]. pose proof (hw_ok _ (hs_wf _ _ Hs)) as [_ L1 _]. pose proof (hw_ok _ (hs_wf' _ _ Hs)) as [_ L2 _].
  assert (blen (kv hb) <= blen (kv hb')) as Hle.
  { assert (zlen (buf (kv hb')) = zlen (buf (kv hb)) + zlen y) as E by (rewrite Ey; apply zlen_app).
    unfold buf, bcap in *. pose proof (hw_ok _ (hs_wf _ _ Hs)) as [? _ _]. pose proof (hw_ok _ (hs_wf' _ _ Hs)) as [? _ _].
    rewrite !zlen_ztake in E by lia. pose proof (zlen_nonneg y). lia. }
  destruct Hs as [W W' Eo Ek Ec Ef Eb]. split; cbn [with_off off kv]; [by apply hb_wf_off|apply hb_wf_off; [done|lia]|done..].
Qed.
Lemma hsim_field hb hb' k vs ve m : hsim hb hb' -> scan (rest hb) = IField k vs ve m ->
  scan (rest hb') = IField k vs ve m -> hsim (after_field hb k vs ve m) (after_field hb' k vs ve m).
Proof.
  intros [W W' Eo Ek Ec Ef Eb] Es Es'. split; [by apply after_field_wf|by apply after_field_wf|..];
    unfold after_field, field_pair, view_at; cbn [with_kv with_off off kv append_kv kvs kvcap flags]; rewrite ?Eo, ?Ek, ?Ec; done.
Qed.

(** Continuing after more data arrived is like starting with all of it. *)
Lemma loop_extend fuel hb hb' hb1 err :
  hsim hb hb' -> blen (kv hb) - off hb < Z.of_nat fuel -> headers_loop fuel hb = Ret (hb1, err) ->
  (err = Some ErrNeedMoreData -> scan (rest hb1) = IErr ErrNeedMoreData) /\
  exists hb1', hsim hb1 hb1' /\ mem (kv hb1') = mem (kv hb') /\ blen (kv hb1') = blen (kv hb') /\ off hb' <= off hb1' /\
    flags (kv hb1') = flags (kv hb') /\ forall fuel', blen (kv hb') - off hb' < Z.of_nat fuel' ->
      headers_loop fuel' hb' = if decide (err = Some ErrNeedMoreData) then headers_loop fuel' hb1' else Ret (hb1', err).
Proof.
  revert hb hb'. induction fuel as [|fuel IH]; intros hb hb' Hs Hf E; [done|].
  pose proof (hs_wf _ _ Hs) as Hw. pose proof (hs_wf' _ _ Hs) as Hw'. destruct (hsim_rest _ _ Hs) as [y Ey].
  pose proof (scan_range (rest hb)) as Hr. rewrite (zlen_rest hb (hw_ok hb Hw)) in Hr. pose proof (hw_ok hb Hw) as [H1 H2 H3].
  pose proof (hw_ok hb' Hw') as [H1' _ _]. pose proof (hs_off _ _ Hs) as Eoff. rewrite loop_round in E by apply Hw.
  destruct (scan (rest hb)) as [n|k vs ve m|e] eqn:Es.
  - injection E as <- <-. split; [done|]. exists (with_off (off hb' + n) hb'). rewrite (hs_off _ _ Hs).
    split; [apply hsim_off; [done|lia]|]. split; [done|]. split; [done|]. split; [cbn [with_off off]; lia|]. split; [done|].
    intros [|f] Hf'; [lia|]. rewrite decide_False by done. rewrite loop_round by apply Hw'. rewrite Ey, scan_app, Es by (by rewrite Es). by rewrite (hs_off _ _ Hs).
  - assert (scan (rest hb') = IField k vs ve m) as Es' by (rewrite Ey, scan_app by (by rewrite Es); done).
    pose proof (scan_range (rest hb')) as Hr'. rewrite Es', (zlen_rest hb' (hw_ok hb' Hw')) in Hr'.
    assert (canAddOneKV (kv hb') = canAddOneKV (kv hb)) as Ecan 
      by (unfold canAddOneKV; by rewrite (hs_kvs _ _ Hs), (hs_kvcap _ _ Hs), (eqf_land _ _ _ (hs_flags _ _ Hs))).
    assert (forall f, headers_loop (S f) hb' = if off hb =? 0 then Ret (with_off (off hb' + m) hb', None)
        else if negb (canAddOneKV (kv hb)) then Ret (with_off (off hb' + m) hb', Some ErrHeaderTooMany)
        else headers_loop f (after_field hb' k vs ve m)) as El'.
    { intros f. rewrite loop_round by apply Hw'. rewrite Es', (hs_off _ _ Hs), Ecan. done. }
    destruct (off hb =? 0); [|destruct (canAddOneKV (kv hb)); cbn [negb] in *].
    1,3: injection E as <- <-; (split; [done|]); exists (with_off (off hb' + m) hb'); rewrite (hs_off _ _ Hs) in *;
      (split; [apply hsim_off; [done|lia]|]); (split; [done|]); (split; [done|]); (split; [cbn [with_off off]; lia|]); (split; [done|]);
      intros [|f] Hf'; [lia|rewrite decide_False by done; apply El'].
    destruct (IH (after_field hb k vs ve m) (after_field hb' k vs ve m)) as (Hsc & hb1' & Hs1 & Em & Eb & Ho & Ef & Hl);
      [by apply hsim_field|cbn [after_field with_kv with_off off kv append_kv blen]; lia|done|].
    cbn [after_field with_kv with_off off kv append_kv blen mem] in Em, Eb, Ho, Hl.
    split; [done|]. exists hb1'. split; [done|]. split; [done|]. split; [done|]. split; [lia|]. split; [done|].
    intros [|f] Hf'; [lia|]. rewrite El', Hl by lia.
    destruct (decide (err = Some ErrNeedMoreData)); [|done].
    destruct (loop_total (S f) hb1' (hs_wf' _ _ Hs1)) as (h2 & e2 & H2' & _); [lia|]. rewrite !H2' by lia. done.
  - injection E as <- <-. split; [by intros [= ->]|]. exists hb'. split; [done|]. split; [done|]. split; [done|]. split; [lia|]. split; [done|].
    intros [|f] Hf'; [lia|]. destruct (decide (Some e = Some ErrNeedMoreData)) as [|Hne]; [done|].
    rewrite loop_round by apply Hw'. rewrite Ey, scan_app, Es by (rewrite Es; congruence). done.
Qed.

(** With the same octets the result is the same. *)
Lemma loop_same fuel hb hb' hb1 err fuel' :
  hsim hb hb' -> buf (kv hb') = buf (kv hb) -> blen (kv hb) - off hb < Z.of_nat fuel -> headers_loop fuel hb = Ret (hb1, err) ->
  blen (kv hb') - off hb' < Z.of_nat fuel' ->
  exists hb1', headers_loop fuel' hb' = Ret (hb1', err) /\ hsim hb1 hb1' /\ buf (kv hb1') = buf (kv hb1).
Proof.
  intros Hs Eb Hf E Hf'. destruct (loop_extend fuel hb hb' hb1 err Hs Hf E) as (Hsc & hb1' & Hs1 & Em & El & Ho & Ef & Hl).
  destruct (loop_total fuel hb (hs_wf _ _ Hs) Hf) as (h2 & e2 & H2 & _ & _ & Em2 & Eb2 & _). rewrite H2 in E by done. injection E as -> ->.
  assert (buf (kv hb1') = buf (kv hb1)) as E1.
  { unfold buf in *. rewrite Em, El, Em2, Eb2. done. }
  exists hb1'. split; [|done]. rewrite Hl by done. destruct (decide (err = Some ErrNeedMoreData)) as [-> |]; [|done].
  specialize (Hsc eq_refl). destruct fuel' as [|f]; [pose proof (hw_ok _ (hs_wf' _ _ Hs)) as [? _ _]; lia|].
  rewrite loop_round by apply (hs_wf' _ _ Hs1).
  assert (rest hb1' = rest hb1) as -> by (unfold rest; by rewrite E1, (hs_off _ _ Hs1)). by rewrite Hsc.
Qed.

End Loop.
End HttpParseLoop.

(** ** HTTP/1 headers: the first line

    The parts of a first line are a function of its octets. *)
Module HttpFirstLine.
Import Bytes HttpKV HttpKVProps HttpHeader HttpParseProps.
Open Scope Z_scope.
Open Scope list_scope.

(** ** Slices *)

(** The slice [b] of the buffer has the octets [l] from [k] on, and there are more behind. *)
Record is_slice (kvb : kvBuffer) (b : bslice) (k : Z) (l : list Z) : Prop := mkIsSlice {
  is_off : s_off b = k;
  is_len : s_len b = zlen l;
  is_cap : zlen l < s_cap b;
  is_octets : octets kvb b = l;
  is_room : 0 <= k /\ k + zlen l <= blen kvb /\ blen kvb <= maxBufLen
}.
Lemma slice_sub kvb b k l x y : is_slice kvb b k l -> 0 <= x <= y -> y <= zlen l ->
  exists v, reslice b x y = Ret v /\ is_slice kvb v (k + x) (slice l x y) /\ bytes2tok kvb v = Ret (mkView (k + x) (y - x)).
Proof.
  intros [Eo El Ec Eoct (H0 & H1 & H2)] Hx Hy. unfold maxBufLen in *. unfold reslice, assert_or_panic. rewrite !(proj2 (Z.leb_le _ _)) by lia. cbn [andb].
  rewrite (proj2 (Z.eqb_neq _ 0)) by lia. eexists. split; [done|]. rewrite Eo. split.
  - assert (zlen (slice l x y) = y - x) as Es by (rewrite zlen_slice; lia).
    split; cbn [s_off s_len s_cap]; [done|lia|lia| |unfold maxBufLen; lia].
    unfold octets in *. cbn [s_off s_len]. rewrite <- Eoct, Eo, El.
    rewrite slice_slice by lia. f_equal; lia.
  - unfold bytes2tok, assert_or_panic. cbn [s_off s_len]. rewrite !(proj2 (Z.leb_le _ _)) by lia. cbn [andb].
    by rewrite !u16_small by (split; lia).
Qed.
Lemma slice_to (l : list Z) y : slice l 0 y = ztake y l.
Proof. unfold slice. by rewrite Z.sub_0_r. Qed.
Lemma slice_from (l : list Z) x : 0 <= x <= zlen l -> slice l x (zlen l) = zdrop x l.
Proof. intros. unfold slice. apply ztake_ge. rewrite zlen_zdrop; lia. Qed.

(** ** Lines *)

Definition trim_cr (l : list Z) : list Z := if last_is CR l then ztake (zlen l - 1) l else l.
Lemma zlen_trim_cr l : zlen (trim_cr l) <= zlen l.
Proof.
  unfold trim_cr. pose proof (zlen_nonneg l). case_match; [|lia]. destruct (Z.eq_dec (zlen l) 0).
  - rewrite ztake_nonpos by lia. rewrite zlen_nil. lia.
  - rewrite zlen_ztake; lia.
Qed.

Lemma scan_line_ok hb : hb_ok hb -> 0 <= IndexByte (rest hb) LF ->
  let i := IndexByte (rest hb) LF in
  exists b, scanLine hb = Ret (with_off (off hb + i + 1) hb, b) /\ is_slice (kv hb) b (off hb) (trim_cr (ztake i (rest hb))).
Proof.
  intros Hok Hi i. pose proof (zlen_rest hb Hok) as Er. pose proof (IndexByte_bound (rest hb) LF) as Hb.
  destruct (offBuf_ok hb Hok) as (s & Es & Eo & Hsl & Hsc & Hso). pose proof Hok as [H1 H2 H3]. assert (s_off s = off hb) as Hso' by (apply Hso; lia).
  assert (zlen (ztake i (rest hb)) = i) as Ei by (apply zlen_ztake; lia).
  unfold scanLine, scanUntilByte. rewrite Es. cbn [mbind outcome_bind]. rewrite Eo. fold i. rewrite (proj2 (Z.leb_le 0 i)) by lia.
  assert (exists v, reslice s 0 i = Ret v /\ is_slice (kv hb) v (off hb) (ztake i (rest hb))) as (v & -> & Hv).
  { unfold reslice, assert_or_panic. rewrite !(proj2 (Z.leb_le _ _)) by lia. cbn [andb]. rewrite (proj2 (Z.eqb_neq _ 0)) by lia.
    eexists. split; [done|]. split; cbn [s_off s_len s_cap]; [lia|lia|lia| |lia].
    unfold octets in *. cbn [s_off s_len]. rewrite <- Eo, <- slice_to, slice_slice by lia. f_equal; lia. }
  cbn [mbind outcome_bind]. destruct Hv as [V1 V2 V3 V4 V5]. rewrite V2, Ei. cbn [with_off off kv]. rewrite V4.
  rewrite (proj2 (Z.ltb_lt _ _)) by lia. pose proof (zlen_trim_cr (ztake i (rest hb))) as Htc.
  unfold trim_cr in *. destruct (last_is CR (ztake i (rest hb))) eqn:El.
  - destruct (Z.ltb_spec 0 i) as [Hpos|Hpos].
    + cbn [andb]. destruct (slice_sub (kv hb) v (off hb) (ztake i (rest hb)) 0 (i - 1)) as (w & -> & Hw & _); [by split|lia|lia|].
      cbn [mbind outcome_bind]. exists w. split; [do 3 f_equal; lia|]. rewrite Ei, <- slice_to. by rewrite Z.add_0_r in Hw.
    + replace i with 0 in El by lia. rewrite ztake_nonpos in El by lia. done.
  - rewrite andb_false_r. cbn [mbind outcome_bind]. exists v. split; [do 3 f_equal; lia|]. by split.
Qed.

(** The first line that is not empty: where it starts, its text and where the next starts. *)
Definition first_line (b : list Z) : option (Z * list Z * Z) :=
  let k := count_crlf b in
  let r := zdrop k b in
  let i := IndexByte r LF in
  if i <? 0 then None else Some (k, trim_cr (ztake i r), k + i + 1).

Lemma count_crlf_range l : 0 <= count_crlf l <= zlen l.
Proof. induction l as [|c l IH]; [done|]. cbn [count_crlf]. rewrite zlen_cons. case_match; lia. Qed.
Lemma count_crlf_app l y : count_crlf l < zlen l -> count_crlf (l ++ y) = count_crlf l.
Proof.
  induction l as [|c l IH]; [done|]. cbn [app count_crlf]. rewrite zlen_cons. case_match; [|done]. intros. rewrite IH by lia. done.
Qed.
Lemma first_line_app b y k l n : first_line b = Some (k, l, n) -> first_line (b ++ y) = Some (k, l, n).
Proof.
  unfold first_line. destruct (Z.ltb_spec (IndexByte (zdrop (count_crlf b) b) LF) 0) as [|Hi]; [done|]. intros [= <- <- <-].
  pose proof (count_crlf_range b). pose proof (IndexByte_bound (zdrop (count_crlf b) b) LF) as Hb. rewrite zlen_zdrop in Hb by lia.
  rewrite count_crlf_app by lia.
  assert (zdrop (count_crlf b) (b ++ y) = zdrop (count_crlf b) b ++ y) as -> by (unfold zdrop; rewrite drop_app_le; [done|unfold zlen in *; lia]).
  rewrite IndexByte_app by done. rewrite (proj2 (Z.ltb_ge _ 0)) by done. do 3 f_equal.
  unfold ztake. rewrite take_app_le; [done|]. rewrite <- zlen_zdrop in Hb by lia. unfold zlen in Hb. lia.
Qed.
Lemma first_line_range b k l n : first_line b = Some (k, l, n) -> 0 <= k /\ k + zlen l < n /\ n <= zlen b.
Proof.
  unfold first_line. destruct (Z.ltb_spec (IndexByte (zdrop (count_crlf b) b) LF) 0) as [|Hi]; [done|]. intros [= <- <- <-].
  pose proof (count_crlf_range b). pose proof (IndexByte_bound (zdrop (count_crlf b) b) LF) as Hb. rewrite zlen_zdrop in Hb by lia.
  pose proof (zlen_trim_cr (ztake (IndexByte (zdrop (count_crlf b) b) LF) (zdrop (count_crlf b) b))) as Ht.
  rewrite zlen_ztake in Ht by (rewrite zlen_zdrop; lia). lia.
Qed.

(** The parser at the first line. *)
Lemma skip_ok hb : hb_ok hb -> hb_ok (skipLeadingCRLF (with_off 0 hb)) /\ off (skipLeadingCRLF (with_off 0 hb)) = count_crlf (buf (kv hb)) /\
  rest (skipLeadingCRLF (with_off 0 hb)) = zdrop (count_crlf (buf (kv hb))) (buf (kv hb)).
Proof.
  intros [H1 H2 H3]. assert (zlen (buf (kv hb)) = blen (kv hb)) as El by (unfold buf; apply zlen_ztake; unfold bcap in H2; lia).
  pose proof (count_crlf_range (buf (kv hb))) as Hc. unfold skipLeadingCRLF, rest. cbn [with_off off kv].
  change (zdrop 0 (buf (kv hb))) with (buf (kv hb)). rewrite Z.add_0_l. split; [split; cbn [with_off off kv]; [lia|done|done]|done].
Qed.

Lemma first_line_ok hb : hb_ok hb ->
  let hb0 := skipLeadingCRLF (with_off 0 hb) in
  exists s, offBuf hb0 = Ret s /\
    match first_line (buf (kv hb)) with
    | None => IndexByte (octets (kv hb0) s) LF < 0
    | Some (k, l, n) => 0 <= IndexByte (octets (kv hb0) s) LF /\
        exists b, scanLine hb0 = Ret (with_off n hb, b) /\ is_slice (kv hb) b k l
    end.
Proof.
  intros Hok hb0. destruct (skip_ok hb Hok) as (Hok0 & Eoff & Erest). destruct (offBuf_ok hb0 Hok0) as (s & Es & Eo & _).
  exists s. split; [done|]. rewrite Eo. unfold hb0 in *. rewrite Erest. unfold first_line.
  destruct (Z.ltb_spec (IndexByte (zdrop (count_crlf (buf (kv hb))) (buf (kv hb))) LF) 0) as [|Hi]; [done|]. split; [done|].
  rewrite <- Erest in Hi. destruct (scan_line_ok _ Hok0 Hi) as (b & Eb & Hb). exists b. rewrite Eb, Eoff, Erest in *. done.
Qed.

(** ** The parts *)

(** The first line [l] that starts at [k]. *)
Definition req_parts (k : Z) (l : list Z) (fl : Z) : request_line * Z * option error :=
  let me := Z.max 0 (IndexByte l SP) in
  let ue := IndexByte (zdrop (me + 1) l) SP in
  let m := mkView (k + 0) (me - 0) in
  if 0 <? ue then
    let rl := mkRL m (mkView (k + (me + 1)) (ue + (me + 1) - (me + 1))) (mkView (k + (ue + (me + 1) + 1)) (zlen l - (ue + (me + 1) + 1))) in
    let pt := zdrop (ue + (me + 1) + 1) l in
    if negb (protoIsV1 pt) then (rl, Z.lor fl flagNoHTTP11, Some ErrUnsupported)
    else (rl, if bool_decide (pt = strHTTP11) then fl else Z.lor fl flagNoHTTP11, None)
  else if ue =? 0 then (no_line, fl, Some errEmptyURI)
  else (mkRL m (mkView (k + (me + 1)) (zlen l - (me + 1))) zero_view, Z.lor fl flagNoHTTP11, Some ErrUnsupported).

Ltac sub_of H x y v Hv Tv :=
  destruct (slice_sub _ _ _ _ x y H) as (v & -> & Hv & Tv); [lia|lia|]; cbn [mbind outcome_bind].

Lemma line_tail kvb b k l x : is_slice kvb b k l -> 0 <= x <= zlen l ->
  exists v, reslice b x (s_len b) = Ret v /\ is_slice kvb v (k + x) (zdrop x l) /\ bytes2tok kvb v = Ret (mkView (k + x) (zlen l - x)).
Proof.
  intros Hs Hx. destruct (slice_sub _ _ _ _ x (zlen l) Hs) as (v & Hr & Hv & Ht); [lia|lia|].
  exists v. rewrite (is_len _ _ _ _ Hs). rewrite slice_from in Hv by done. done.
Qed.

Lemma request_parts_ok hb b k l fl : is_slice (kv hb) b k l -> 5 <= zlen l -> request_parts hb b fl = Ret (req_parts k l fl).
Proof.
  intros Hs Hl. unfold request_parts, req_parts. rewrite (is_octets _ _ _ _ Hs). pose proof (IndexByte_bound l SP) as Hb.
  set (me := Z.max 0 (IndexByte l SP)). assert (0 <= me < zlen l) as Hme by lia.
  destruct (line_tail _ _ _ _ (me + 1) Hs) as (a & -> & Ha & Ta); [lia|]. cbn [mbind outcome_bind]. rewrite (is_octets _ _ _ _ Ha).
  pose proof (IndexByte_bound (zdrop (me + 1) l) SP) as Hu. rewrite zlen_zdrop in Hu by lia. set (ue := IndexByte (zdrop (me + 1) l) SP) in *.
  sub_of Hs 0 me m Hm Tm. rewrite Tm. cbn [mbind outcome_bind]. destruct (Z.ltb_spec 0 ue).
  - sub_of Hs (me + 1) (ue + (me + 1)) u Hu' Tu. rewrite Tu. cbn [mbind outcome_bind].
    destruct (line_tail _ _ _ _ (ue + (me + 1) + 1) Hs) as (p & -> & Hp & Tp); [lia|]. cbn [mbind outcome_bind]. rewrite Tp. cbn [mbind outcome_bind].
    rewrite (is_octets _ _ _ _ Hp). by destruct (negb _).
  - destruct (ue =? 0); [done|]. by rewrite Ta.
Qed.

Definition resp_parts (k : Z) (l : list Z) (fl : Z) : view * view * Z * option error :=
  let pe := IndexByte l SP in
  if pe <? 0 then (zero_view, zero_view, fl, Some ErrNeedMoreData)
  else if negb (protoIsV1 (ztake pe l)) then (zero_view, zero_view, Z.lor fl flagNoHTTP11, Some ErrUnsupported)
  else
  let fl := if bool_decide (ztake pe l = strHTTP11) then fl else Z.lor fl flagNoHTTP11 in
  let r := zdrop (pe + 1) l in
  let ce := if IndexByte r SP <? 0 then zlen r else IndexByte r SP in
  if 3 <? ce then (zero_view, zero_view, fl, Some errLongStatusCode)
  else if negb (forallb is_digit (ztake ce r)) then (zero_view, zero_view, fl, Some errBadStatusCode)
  else (mkView (k + (pe + 1) + 0) (ce - 0),
        if ce <? zlen r then mkView (k + (pe + 1) + (ce + 1)) (zlen r - (ce + 1)) else zero_view, fl, None).

Lemma response_parts_ok hb b k l fl : is_slice (kv hb) b k l -> response_parts hb b fl = Ret (resp_parts k l fl).
Proof.
  intros Hs. unfold response_parts, resp_parts. rewrite (is_octets _ _ _ _ Hs). pose proof (IndexByte_bound l SP) as Hb.
  set (pe := IndexByte l SP) in *. destruct (Z.ltb_spec pe 0); [done|].
  sub_of Hs 0 pe p Hp Tp. rewrite (is_octets _ _ _ _ Hp), slice_to. destruct (negb _); [done|].
  set (fl1 := if bool_decide _ then _ else _). destruct (line_tail _ _ _ _ (pe + 1) Hs) as (r & -> & Hr & _); [lia|]. cbn [mbind outcome_bind].
  rewrite (is_octets _ _ _ _ Hr), (is_len _ _ _ _ Hr). pose proof (IndexByte_bound (zdrop (pe + 1) l) SP) as Hc.
  set (rl := zdrop (pe + 1) l) in *. set (ce := if IndexByte rl SP <? 0 then zlen rl else IndexByte rl SP).
  assert (0 <= ce <= zlen rl) as Hce by (subst ce; pose proof (zlen_nonneg rl); destruct (Z.ltb_spec (IndexByte rl SP) 0); lia).
  sub_of Hr 0 ce c Hcs Tc. rewrite (is_octets _ _ _ _ Hcs), (is_len _ _ _ _ Hcs), slice_to, zlen_ztake by lia.
  destruct (3 <? ce); [done|]. destruct (negb _); [done|]. rewrite Tc. cbn [mbind outcome_bind].
  destruct (Z.ltb_spec ce (zlen rl)); [|done]. rewrite <- (is_len _ _ _ _ Hr).
  destruct (line_tail _ _ _ _ (ce + 1) Hr) as (t & -> & _ & Tt); [lia|]. cbn [mbind outcome_bind]. rewrite Tt. cbn [mbind outcome_bind].
  by rewrite (is_len _ _ _ _ Hr).
Qed.

End HttpFirstLine.

(** ** HTTP/1 headers: parsing is safe

    Parsing ends for all octets, without a panic, and every view that it leaves is within
    the buffer. *)
Module HttpParse.
Import Bytes HttpKV HttpKVProps HttpKVThms HttpHeader HttpParseProps HttpParseLoop HttpFirstLine.
Open Scope Z_scope.
Open Scope list_scope.

(** ** The first line of a header *)

Definition at_first_line (hb : headerv1Buf) : headerv1Buf := with_off (count_crlf (buf (kv hb))) hb.
Lemma skip_first hb : skipLeadingCRLF (with_off 0 hb) = at_first_line hb.
Proof. unfold skipLeadingCRLF, at_first_line, with_off. cbn [off kv]. by rewrite Z.add_0_l. Qed.

Definition first_request (fl : Z) (hb : headerv1Buf) : headerv1Buf * request_line * Z * option error :=
  match first_line (buf (kv hb)) with
  | None => (at_first_line hb, no_line, fl, Some ErrNeedMoreData)
  | Some (k, l, n) =>
      if zlen l <? 5 then (with_off n hb, no_line, fl, Some ErrNeedMoreData)
      else let '(rl, fl, err) := req_parts k l fl in (with_off n hb, rl, fl, err)
  end.
Lemma first_request_ok fl hb : hb_ok hb -> parseFirstLineRequest fl hb = Ret (first_request fl hb).
Proof.
  intros Hok. unfold parseFirstLineRequest, first_request. destruct (first_line_ok hb Hok) as (s & Es & Hf). cbn zeta in Es, Hf.
  rewrite Es. cbn [mbind outcome_bind]. rewrite skip_first in *. destruct (first_line (buf (kv hb))) as [[[k l] n]|].
  - destruct Hf as (Hi & b & Eb & Hb). rewrite (proj2 (Z.ltb_ge _ 0)) by done. rewrite Eb. cbn [mbind outcome_bind].
    rewrite (is_len _ _ _ _ Hb). destruct (Z.ltb_spec (zlen l) 5); [done|].
    rewrite (request_parts_ok (with_off n hb) b k l) by (done || lia). cbn [mbind outcome_bind]. by destruct (req_parts k l fl) as [[]].
  - by rewrite (proj2 (Z.ltb_lt _ 0)) by done.
Qed.

Definition first_response (fl : Z) (hb : headerv1Buf) : headerv1Buf * view * view * Z * option error :=
  match first_line (buf (kv hb)) with
  | None => (at_first_line hb, zero_view, zero_view, fl, Some ErrNeedMoreData)
  | Some (k, l, n) =>
      if zlen l <? 5 then (with_off n hb, zero_view, zero_view, fl, Some ErrNeedMoreData)
      else let '(c, t, fl, err) := resp_parts k l fl in (with_off n hb, c, t, fl, err)
  end.
Lemma first_response_ok fl hb : hb_ok hb -> parseFirstLineResponse fl hb = Ret (first_response fl hb).
Proof.
  intros Hok. unfold parseFirstLineResponse, first_response. destruct (first_line_ok hb Hok) as (s & Es & Hf). cbn zeta in Es, Hf.
  rewrite Es. cbn [mbind outcome_bind]. rewrite skip_first in *. destruct (first_line (buf (kv hb))) as [[[k l] n]|].
  - destruct Hf as (Hi & b & Eb & Hb). rewrite (proj2 (Z.ltb_ge _ 0)) by done. rewrite Eb. cbn [mbind outcome_bind].
    rewrite (is_len _ _ _ _ Hb). destruct (Z.ltb_spec (zlen l) 5); [done|].
    rewrite (response_parts_ok (with_off n hb) b k l) by done. cbn [mbind outcome_bind]. by destruct (resp_parts k l fl) as [[[]]].
  - by rewrite (proj2 (Z.ltb_lt _ 0)) by done.
Qed.

(** ** Views *)

Record line_ok (n : Z) (rl : request_line) : Prop := mkLineOk {
  lo_method : view_ok n (rl_method rl);
  lo_uri : view_ok n (rl_uri rl);
  lo_proto : view_ok n (rl_proto rl)
}.
Lemma no_line_ok n : 0 <= n -> line_ok n no_line.
Proof. intros. split; by apply zero_view_ok. Qed.
Ltac in_view := first [apply zero_view_ok; lia | split; cbn [v_start v_len]; lia].
Lemma req_parts_view k l fl n : 0 <= k -> k + zlen l <= n -> 5 <= zlen l -> line_ok n (fst (fst (req_parts k l fl))).
Proof.
  intros Hk Hn Hl. unfold req_parts. pose proof (IndexByte_bound l SP) as Hb. set (me := Z.max 0 (IndexByte l SP)).
  assert (0 <= me < zlen l) as Hme by lia. pose proof (IndexByte_bound (zdrop (me + 1) l) SP) as Hu. rewrite zlen_zdrop in Hu by lia.
  set (ue := IndexByte (zdrop (me + 1) l) SP) in *. destruct (Z.ltb_spec 0 ue).
  - destruct (negb _); cbn [fst]; split; cbn [rl_method rl_uri rl_proto]; in_view.
  - destruct (ue =? 0); cbn [fst]; [apply no_line_ok; lia|]. split; cbn [rl_method rl_uri rl_proto]; in_view.
Qed.
Lemma resp_parts_view k l fl n : 0 <= k -> k + zlen l <= n -> let '(c, t, _, _) := resp_parts k l fl in view_ok n c /\ view_ok n t.
Proof.
  intros Hk Hn. unfold resp_parts. pose proof (IndexByte_bound l SP) as Hb. pose proof (zlen_nonneg l). set (pe := IndexByte l SP) in *.
  destruct (Z.ltb_spec pe 0); [split; in_view|]. destruct (negb _); [split; in_view|].
  pose proof (IndexByte_bound (zdrop (pe + 1) l) SP) as Hc. assert (zlen (zdrop (pe + 1) l) = zlen l - (pe + 1)) as Er by (apply zlen_zdrop; lia).
  set (rl := zdrop (pe + 1) l) in *. set (ce := if IndexByte rl SP <? 0 then zlen rl else IndexByte rl SP).
  assert (0 <= ce <= zlen rl) as Hce by (subst ce; destruct (Z.ltb_spec (IndexByte rl SP) 0); lia).
  destruct (3 <? ce); [split; in_view|]. destruct (negb _); [split; in_view|].
  split; [in_view|]. destruct (Z.ltb_spec ce (zlen rl)); in_view.
Qed.

(** What a parser leaves: its position, its pairs and the views of the first line. *)
Record header_wf (h : HeaderV1) : Prop := mkHeaderWf {
  hd_buf : hb_wf (hbuf h);
  hd_method : view_ok (blen (hkv h)) (method h);
  hd_target : view_ok (blen (hkv h)) (requestTarget h);
  hd_proto : view_ok (blen (hkv h)) (proto h);
  hd_code : view_ok (blen (hkv h)) (statusCode h);
  hd_text : view_ok (blen (hkv h)) (statusText h)
}.

Lemma hb_wf_flags hb f : hb_wf hb -> hb_wf (with_kv (with_flags f (kv hb)) hb).
Proof. intros [[H1 H2 H3] H4 H5]. by split. Qed.
(** Without pairs every position is fine. *)
Lemma hb_wf_start hb n : hb_ok hb -> kvs (kv hb) = [] -> 0 <= n <= blen (kv hb) -> hb_wf (with_off n hb).
Proof.
  intros [H1 H2 H3] Hk Hn. split; [split; cbn [with_off off kv]; done| |]; cbn [with_off off kv]; rewrite Hk; [done|]. intros i j p q _ Hp. done.
Qed.
Lemma zlen_buf kvb : 0 <= blen kvb <= bcap kvb -> zlen (buf kvb) = blen kvb.
Proof. intros H. unfold buf. apply zlen_ztake. exact H. Qed.

Lemma first_line_wf asResponse h : header_wf h -> kvs (hkv h) = [] ->
  exists h' err, parseFirstLine asResponse h = Ret (h', err) /\ header_wf h' /\ mem (hkv h') = mem (hkv h) /\ blen (hkv h') = blen (hkv h).
Proof.
  intros [Hb V1 V2 V3 V4 V5] Hk. pose proof (hw_ok _ Hb) as Hok. pose proof Hok as [H1 H2 H3]. fold (hkv h) in H1, H2, H3.
  pose proof (zlen_buf (kv (hbuf h)) ltac:(unfold hkv in *; lia)) as El. pose proof (count_crlf_range (buf (kv (hbuf h)))) as Hc.
  unfold parseFirstLine. rewrite (proj2 (Z.ltb_ge maxBufLen _)) by done.
  assert (forall n f, 0 <= n <= blen (hkv h) -> hb_wf (with_kv (with_flags f (kv (with_off n (hbuf h)))) (with_off n (hbuf h)))) as Hn.
  { intros n f Hn. apply hb_wf_flags, hb_wf_start; [done|done|exact Hn]. }
  assert (0 <= blen (hkv h)) as H0 by lia. destruct asResponse.
  - rewrite first_response_ok by done. unfold first_response. destruct (first_line (buf (kv (hbuf h)))) as [[[k l] n]|] eqn:Ef.
    + apply first_line_range in Ef as (F1 & F2 & F3). rewrite El in F3. change (blen (kv (hbuf h))) with (blen (hkv h)) in F3. pose proof (zlen_nonneg l).
      destruct (Z.ltb_spec (zlen l) 5); cbn [mbind outcome_bind].
      * eexists _, _. split; [done|]. split; [|done]. split; [apply Hn; lia|done..|by apply zero_view_ok|by apply zero_view_ok].
      * pose proof (resp_parts_view k l (Flags h) (blen (hkv h)) F1 ltac:(lia)) as Hp. destruct (resp_parts k l (Flags h)) as [[[c t] f] e].
        cbn [mbind outcome_bind]. eexists _, _. split; [done|]. split; [|done]. split; [apply Hn; lia|done..|apply Hp|apply Hp].
    + cbn [mbind outcome_bind]. eexists _, _. split; [done|]. split; [|done]. split; [apply Hn; unfold hkv in *; lia|done..|by apply zero_view_ok|by apply zero_view_ok].
  - rewrite first_request_ok by done. unfold first_request. pose proof (no_line_ok _ H0) as [N1 N2 N3].
    destruct (first_line (buf (kv (hbuf h)))) as [[[k l] n]|] eqn:Ef.
    + apply first_line_range in Ef as (F1 & F2 & F3). rewrite El in F3. change (blen (kv (hbuf h))) with (blen (hkv h)) in F3. pose proof (zlen_nonneg l).
      destruct (Z.ltb_spec (zlen l) 5); cbn [mbind outcome_bind].
      * eexists _, _. split; [done|]. split; [|done]. split; [apply Hn; lia|done..].
      * pose proof (req_parts_view k l (Flags h) (blen (hkv h)) F1 ltac:(lia) ltac:(lia)) as [R1 R2 R3].
        destruct (req_parts k l (Flags h)) as [[rl f] e]. cbn [fst] in *. cbn [mbind outcome_bind]. eexists _, _. split; [done|]. split; [|done].
        split; [apply Hn; lia|done..].
    + cbn [mbind outcome_bind]. eexists _, _. split; [done|]. split; [|done]. split; [apply Hn; unfold hkv in *; lia|done..].
Qed.

Section Parse.
Context {RT : GoRuntime}.

Lemma next_headers_wf h : header_wf h ->
  exists h' err, parseNextHeaders h = Ret (h', err) /\ header_wf h' /\ mem (hkv h') = mem (hkv h) /\ blen (hkv h') = blen (hkv h) /\
    (err = None -> ParsingSuccess h' = true).
Proof.
  intros [Hb V1 V2 V3 V4 V5]. pose proof (hw_ok _ Hb) as [H1 H2 H3].
  destruct (loop_total (S (Z.to_nat (blen (hkv h)))) (hbuf h) Hb) as (hb1 & err & Hl & Hw & _ & Em & El & _); [unfold hkv in *; lia|].
  unfold parseNextHeaders. rewrite Hl by (unfold hkv in *; lia). cbn [mbind outcome_bind].
  assert (forall f, header_wf (with_hbuf (with_kv (or_flags f (kv hb1)) hb1) h)) as Hh.
  { intros f. split; [by apply hb_wf_flags|..]; change (blen (hkv (with_hbuf (with_kv (or_flags f (kv hb1)) hb1) h))) with (blen (kv hb1)); by rewrite El. }
  destruct err as [e|]; (eexists _, _; split; [done|]; split; [apply Hh|]; split; [exact Em|]; split; [exact El|]); [done|]. intros _.
  unfold ParsingSuccess, HasAny, Flags, hkv. cbn [with_hbuf with_kv hbuf or_flags with_flags kv flags].
  rewrite Z.land_lor_distr_l. apply negb_true_iff, Z.eqb_neq. intros E%Z.lor_eq_0_iff. by destruct E.
Qed.

Lemma parse_wf asResponse h : header_wf h -> kvs (hkv h) = [] ->
  exists h' err, parse asResponse h = Ret (h', err) /\ header_wf h' /\ mem (hkv h') = mem (hkv h) /\ blen (hkv h') = blen (hkv h) /\
    (err = None -> ParsingSuccess h' = true).
Proof.
  intros Hh Hk. unfold parse. destruct (first_line_wf asResponse h Hh Hk) as (h1 & err & -> & H1 & Em & El). cbn [mbind outcome_bind].
  destruct err as [e|]; [by eexists _, _|]. destruct (next_headers_wf h1 H1) as (h2 & err & -> & H2 & Em2 & El2 & Hs).
  eexists _, _. split; [done|]. split; [done|]. split; [congruence|]. split; [congruence|done].
Qed.

(** ** Reading a header *)

Lemma append_lines_ok kvb l dst : kv_wf kvb -> Forall (pair_ok (blen kvb)) l ->
  append_lines kvb l dst = Ret (foldl (fun d p => appendHeaderLine d (text (mem kvb) (p_key p)) (vtext (mem kvb) p)) dst (filter (fun p => isValidHeader p = true) l)).
Proof.
  intros [[_ Hc] Hm _ _] Hl. revert dst. induction Hl as [|p l (Hk & Hv & _) _ IH]; intros dst; [done|].
  cbn [append_lines]. rewrite filter_cons. destruct (isValidHeader p) eqn:Ev; [|exact (IH dst)]. rewrite decide_True by done. cbn [foldl].
  rewrite musttoken_ok by done. cbn [mbind outcome_bind]. unfold pair_value, vtext. destruct (HasValue p); cbn [negb].
  - rewrite musttoken_ok by done. cbn [mbind outcome_bind]. apply IH.
  - cbn [mbind outcome_bind]. apply IH.
Qed.

(** Every read of a header with views in its buffer returns. *)
Definition readable (h : HeaderV1) : Prop :=
  (exists m, Method h = Ret m) /\ (exists t, RequestTarget h = Ret t) /\ (exists p, Protocol h = Ret p) /\ (exists s, Status h = Ret s) /\
  (exists b, Body h = Ret b) /\ (forall key, exists v, HGet key h = Ret v) /\ (forall dst, exists t, AppendHeaders dst h = Ret t).
Lemma nonempty_ok v h : header_wf h -> view_ok (blen (hkv h)) v -> exists m, getNonEmptyValue v h = Ret m.
Proof.
  intros Hh Hv. destruct (hb_kv_wf _ (hd_buf h Hh)) as [[_ Hc] Hm _ _]. unfold getNonEmptyValue. destruct (_ =? 0); [by eexists|].
  rewrite musttoken_ok by done. by eexists.
Qed.
Lemma wf_readable h : header_wf h -> readable h.
Proof.
  intros Hh. pose proof Hh as [Hb V1 V2 V3 V4 V5]. pose proof (hb_kv_wf _ Hb) as Hw. pose proof Hw as [[H0 Hc] Hm Hp _]. pose proof (hw_ok _ Hb) as [Ho _ _].
  split; [by apply nonempty_ok|]. split; [by apply nonempty_ok|]. split; [by apply nonempty_ok|]. split; [|split; [|split]].
  - unfold Status. destruct (_ =? 0); [by eexists|]. rewrite !musttoken_ok by done. by eexists.
  - unfold Body, hkv. destruct (HasAny _ _); [by eexists|]. destruct (HasAny _ _); [|by eexists].
    unfold assert_or_panic. rewrite !(proj2 (Z.leb_le _ _)) by lia. by eexists.
  - intros key. destruct (get_ok key (hkv h) Hw) as (r & Hr & _). by exists r.
  - intros dst. unfold AppendHeaders. rewrite append_lines_ok by done. by eexists.
Qed.

Lemma reset_wf b n h h1 : HReset b n h = Ret h1 ->
  0 <= blen (hkv h1) <= bcap (hkv h1) -> blen (hkv h1) <= maxBufLen -> header_wf h1 /\ kvs (hkv h1) = [].
Proof.
  unfold HReset. destruct (_ && _); [done|]. intros [= <-] Hl Hm. unfold hkv in *. cbn [hbuf] in *.
  assert (kvs (kv (reset b n (hbuf h))) = []) as Hk by (unfold reset, Reset; by destruct b as [[]|]). split; [|exact Hk].
  split; cbn [hbuf method requestTarget proto statusCode statusText]; try (apply zero_view_ok; unfold hkv; cbn [hbuf]; lia).
  apply (hb_wf_start (reset b n (hbuf h)) 0); [|done|lia]. split; [cbn [reset off]; lia|lia|done].
Qed.

(** C33: [Parse] of a buffer never panics and always ends, whatever octets the peer sent, as a request or as a response: either the
    buffer is too large and refused, or every view of the header is in the buffer afterwards, the pairs do not overlap, and
    every read of the header, its fields and its body returns. Without an error the header says that parsing succeeded. *)
Theorem http_parse_safe asResponse h :
  0 <= blen (hkv h) <= bcap (hkv h) -> (BufferGrowthEnabled (hkv h) = true \/ 32 <= bcap (hkv h)) ->
  exists h' err, Parse asResponse h = Ret (h', err) /\ mem (hkv h') = mem (hkv h) /\ blen (hkv h') = blen (hkv h) /\
    (err = Some errBufferTooLarge \/ header_wf h' /\ kv_wf (hkv h') /\ readable h') /\ (err = None -> ParsingSuccess h' = true).
Proof.
  intros Hl Hg. unfold Parse.
  assert (exists h1, HReset (Some (mem (hkv h), blen (hkv h))) 0 h = Ret h1 /\ mem (hkv h1) = mem (hkv h) /\ blen (hkv h1) = blen (hkv h)) as (h1 & Er & Em & El).
  { unfold HReset, reset, Reset. cbn [kv flags mem]. change (bcap (mkKV ?m ?a ?b ?c ?d)) with (zlen m). destruct (_ && _) eqn:E; [|by eexists].
    exfalso. apply andb_prop in E as [E1 E2%Z.ltb_lt]. destruct Hg as [Hg|Hg]; [|unfold bcap in Hg; lia]. unfold BufferGrowthEnabled, HasAny, hkv in *.
    rewrite <- Z.land_assoc, Z.land_diag in E1. by rewrite E1 in Hg. }
  rewrite Er. cbn [mbind outcome_bind]. destruct (Z.le_gt_cases (blen (hkv h)) maxBufLen) as [Hm|Hm].
  - destruct (reset_wf _ _ _ _ Er) as [Hw Hk]; [unfold bcap in *; rewrite Em, El; done|by rewrite El|].
    destruct (parse_wf asResponse h1 Hw Hk) as (h2 & err & -> & H2 & Em2 & El2 & Hs). eexists _, _. split; [done|].
    split; [congruence|]. split; [congruence|]. split; [|done]. right. split; [done|]. split; [apply hb_kv_wf, H2|by apply wf_readable].
  - unfold parse, parseFirstLine. rewrite (proj2 (Z.ltb_lt _ _)) by (rewrite El; lia). cbn [mbind outcome_bind]. eexists _, _.
    split; [done|]. split; [done|]. split; [done|]. split; [by left|done].
Qed.

End Parse.

(** A request with a field without a colon. *)
Definition bad_request : HeaderV1 :=
  let b := ascii "GET / HTTP/1.0" ++ strCRLF ++ ascii "Host: a" ++ strCRLF ++ ascii "nonsense" ++ strCRLF ++ strCRLF in
  mkHeader (mkHbuf (mkKV b (zlen b) [] 4 flagNoBufferGrow) 0) zero_view zero_view zero_view zero_view zero_view.
Lemma http_parse_safe_witness :
  exists h' err, Parse (RT := exact_growth) false bad_request = Ret (h', err) /\ mem (hkv h') = mem (hkv bad_request) /\ blen (hkv h') = blen (hkv bad_request) /\
    (err = Some errBufferTooLarge \/ header_wf h' /\ kv_wf (hkv h') /\ readable h') /\ (err = None -> ParsingSuccess h' = true).
Proof. apply (http_parse_safe (RT := exact_growth)); [vm_compute; split; discriminate|right; vm_compute; discriminate]. Defined.
Example bad_request_error : match Parse (RT := exact_growth) false bad_request with Ret (_, err) => err = Some errInvalidHeader | Panic => False end.
Proof. vm_compute. reflexivity. Qed.

End HttpParse.
