(* ===== verification/HttpRead.v ===== *)
(** * HTTP/1 requests that arrive in pieces

    Modules: [HttpRead] has the loop that receives a request and how its steps extend to more
    octets, [HttpIncremental] the theorem. *)
From stdpp Require Import strings.
From S2P Require Import Prelude Errors Bytes DnsName HttpKV HttpHeader HttpKVThms HttpParse.

(** ** Receiving a request (the loop of [Handle], [src/http/httphi/mux.go])

    The header is read in pieces, as they arrive, and parsed after each. That gives the
    same request as if all of it had arrived at once. *)
Module HttpRead.
Import Bytes HttpKV HttpKVProps HttpKVThms HttpHeader HttpParseProps HttpParseLoop HttpFirstLine HttpParse.
Open Scope Z_scope.
Open Scope list_scope.

Inductive req_status := ReqDone | ReqErr (e : error) | ReqReading.

Section Read.
Context {RT : GoRuntime}.

(** What the connection returns to each read; [ReqReading] when there is no other.
    A read of nothing is an error without a backoff strategy. *)
Fixpoint read_request (backoff : bool) (reads : list (list Z * option error)) (h : HeaderV1) : outcome (HeaderV1 * req_status) :=
  match reads with
  | [] => Ret (h, ReqReading)
  | r :: reads =>
      '(h, n, err) ← ReadFromLimited (fun _ => r) (BufferFree h) h;
      match err with
      | Some e => Ret (h, ReqErr e)
      | None =>
          if n =? 0 then if backoff then read_request backoff reads h else Ret (h, ReqErr IoErrNoProgress)
          else
          '(h, needMore, err) ← TryParse false h;
          if (needMore : bool) then read_request backoff reads h
          else match err with Some e => Ret (h, ReqErr e) | None => Ret (h, ReqDone) end
      end
  end.

(** ** More octets *)

Definition more (y : list Z) (h : HeaderV1) : HeaderV1 :=
  with_hkv (with_buf (put (mem (hkv h)) (blen (hkv h)) y) (blen (hkv h) + zlen y) (hkv h)) h.
Definition ready (h : HeaderV1) : bool := negb (HasAny (Flags h) (Z.lor flagDoneParsingHeader (Z.lor flagMangledBuffer flagReaderEOF))).

Lemma flags_any_lor f a b : HasAny f (Z.lor a b) = HasAny f a || HasAny f b.
Proof.
  unfold HasAny. rewrite Z.land_lor_distr_r, <- negb_andb. f_equal. apply eq_true_iff_eq. rewrite andb_true_iff, !Z.eqb_eq. apply Z.lor_eq_0_iff.
Qed.
Lemma ready_flags h : ready h = true ->
  HasAny (Flags h) flagDoneParsingHeader = false /\ HasAny (Flags h) flagMangledBuffer = false /\ HasAny (Flags h) flagReaderEOF = false.
Proof. unfold ready. rewrite !flags_any_lor, negb_true_iff, !orb_false_iff. done. Qed.

Lemma read_more_ok y h : header_wf h -> ready h = true -> y <> [] -> zlen y <= free (hkv h) -> bcap (hkv h) <= maxBufLen ->
  ReadFromLimited (fun _ => (y, None)) (BufferFree h) h = Ret (more y h, zlen y, None).
Proof.
  intros Hh Hr Hy Hf Hm. destruct (ready_flags h Hr) as (_ & F1 & F2). pose proof (hw_ok _ (hd_buf h Hh)) as [_ H2 H3]. fold (hkv h) in H2, H3.
  pose proof (hb_kv_wf _ (hd_buf h Hh)) as [[H0 _] _ _ _]. fold (hkv h) in H0.
  assert (0 < zlen y) as Hp by (destruct y; [done|]; rewrite zlen_cons; pose proof (zlen_nonneg y); lia).
  unfold ReadFromLimited, ReadLimited, BufferFree, Flags in *. unfold free in *. rewrite F1, F2.
  rewrite (proj2 (Z.eqb_neq (bcap (hkv h) - blen (hkv h)) 0)), Z.ltb_irrefl, (proj2 (Z.leb_gt maxBufLen _)), (proj2 (Z.leb_gt _ 0)) by lia.
  rewrite andb_false_r. cbn [orb]. unfold grow_buf. rewrite (proj2 (Z.leb_le _ (bcap (hkv h)))) by lia.
  rewrite Z.min_l by lia. unfold assert_or_panic, slice_ok. unfold bcap in *. rewrite !(proj2 (Z.leb_le _ _)) by lia. cbn [andb].
  unfold err_is. rewrite andb_false_r. done.
Qed.

Lemma more_blen y h : blen (hkv (more y h)) = blen (hkv h) + zlen y. Proof. done. Qed.
Lemma more_bcap y h : 0 <= blen (hkv h) -> zlen y <= free (hkv h) -> bcap (hkv (more y h)) = bcap (hkv h).
Proof. intros H0 Hf. unfold free in Hf. unfold bcap, more, hkv in *. cbn [with_hkv with_hbuf hbuf with_kv kv with_buf mem]. apply zlen_put; lia. Qed.
Lemma more_buf y h : 0 <= blen (hkv h) -> zlen y <= free (hkv h) -> buf (hkv (more y h)) = buf (hkv h) ++ y.
Proof.
  intros H0 Hf. unfold free, bcap, buf in *. rewrite more_blen. unfold more, hkv in *. cbn [with_hkv with_hbuf hbuf with_kv kv with_buf mem].
  pose proof (zlen_nonneg y). unfold put. rewrite app_assoc.
  set (p := ztake (blen (kv (hbuf h))) (mem (kv (hbuf h))) ++ y).
  assert (zlen p = blen (kv (hbuf h)) + zlen y) as E by (unfold p; rewrite zlen_app, zlen_ztake; lia).
  by apply ztake_app_exact.
Qed.
Lemma more_wf y h : header_wf h -> zlen y <= free (hkv h) -> bcap (hkv h) <= maxBufLen -> header_wf (more y h).
Proof.
  intros [[[H1 H2 H3] H4 H5] V1 V2 V3 V4 V5] Hf Hm. pose proof (zlen_nonneg y). unfold hkv in *. pose proof (more_bcap y h ltac:(unfold hkv in *; lia) Hf) as Eb.
  unfold free in Hf.
  assert (forall v, view_ok (blen (kv (hbuf h))) v -> view_ok (blen (hkv (more y h))) v) as Hv.
  { intros v [? ? ?]. rewrite more_blen. unfold hkv. split; lia. }
  split; [|apply Hv; assumption..]. split; [|done|done]. split; unfold hkv in *; [|rewrite Eb|]; change (off (hbuf (more y h))) with (off (hbuf h));
    change (blen (kv (hbuf (more y h)))) with (blen (kv (hbuf h)) + zlen y); lia.
Qed.

(** ** The same header with more octets behind *)

Record header_sim (h h' : HeaderV1) : Prop := mkHeaderSim {
  si_buf : hsim (hbuf h) (hbuf h');
  si_wf : header_wf h;
  si_wf' : header_wf h';
  si_method : method h' = method h;
  si_target : requestTarget h' = requestTarget h;
  si_proto : proto h' = proto h
}.

Lemma hsim_refl hb : hb_wf hb -> hsim hb hb.
Proof. intros. split; try done. exists []. by rewrite app_nil_r. Qed.
Lemma hsim_trans a b c : hsim a b -> hsim b c -> hsim a c.
Proof.
  intros [A1 A2 A3 A4 A5 A6 [x A7]] [B1 B2 B3 B4 B5 B6 [y B7]]. split; [done|done|congruence|congruence|congruence|unfold eqf in *; congruence|].
  exists (x ++ y). by rewrite B7, A7, app_assoc.
Qed.
Lemma hsim_flags hb hb' f f' : hsim hb hb' -> eqf f' f -> hsim (with_kv (with_flags f (kv hb)) hb) (with_kv (with_flags f' (kv hb')) hb').
Proof. intros [A1 A2 A3 A4 A5 A6 A7] E. split; [by apply hb_wf_flags|by apply hb_wf_flags|done..]. Qed.
Lemma header_sim_refl h : header_wf h -> header_sim h h.
Proof. intros Hh. split; [apply hsim_refl, Hh|done..]. Qed.
Lemma header_sim_trans a b c : header_sim a b -> header_sim b c -> header_sim a c.
Proof. intros [A1 A2 A3 A4 A5 A6] [B1 B2 B3 B4 B5 B6]. split; [by eapply hsim_trans|done|done|congruence..]. Qed.
Lemma eqf_lor a b f : eqf a b -> eqf (Z.lor a f) (Z.lor b f).
Proof. unfold eqf. intros E. rewrite <- !Z.lor_assoc, (Z.lor_comm f), !Z.lor_assoc. by rewrite E. Qed.
Lemma eqf_conn a : eqf (Z.lor a flagConnClose) a.
Proof. unfold eqf. by rewrite <- Z.lor_assoc, Z.lor_diag. Qed.
Lemma ready_eqf h h' : eqf (Flags h') (Flags h) -> ready h' = ready h.
Proof. intros E. unfold ready. f_equal. by apply eqf_HasAny. Qed.

Lemma more_sim y h : header_wf h -> zlen y <= free (hkv h) -> bcap (hkv h) <= maxBufLen -> header_sim h (more y h).
Proof.
  intros Hh Hf Hm. pose proof (more_wf y h Hh Hf Hm) as Hw. split; [|done..]. split; [apply Hh|apply Hw|done..|].
  exists y. apply more_buf; [|done]. apply (hb_kv_wf _ (hd_buf h Hh)).
Qed.

(** ** Fields *)

Definition next_result (h : HeaderV1) (hb : headerv1Buf) (err : option error) : HeaderV1 :=
  with_hbuf (with_kv (or_flags (match err with Some _ => flagConnClose | None => flagDoneParsingHeader end) (kv hb)) hb) h.
Lemma next_headers_eq h hb err : headers_loop (S (Z.to_nat (blen (hkv h)))) (hbuf h) = Ret (hb, err) ->
  parseNextHeaders h = Ret (next_result h hb err, err).
Proof. intros E. unfold parseNextHeaders. rewrite E. by destruct err. Qed.
Lemma next_result_sim h h' hb hb' err : header_wf h -> header_wf h' ->
  method h' = method h /\ requestTarget h' = requestTarget h /\ proto h' = proto h -> hsim hb hb' -> blen (kv hb) = blen (hkv h) -> blen (kv hb') = blen (hkv h') ->
  header_sim (next_result h hb err) (next_result h' hb' err).
Proof.
  intros [_ V1 V2 V3 V4 V5] [_ W1 W2 W3 W4 W5] (E1 & E2 & E3) Hs L L'.
  assert (forall x y v, view_ok x v -> y = x -> view_ok y v) as Hc by (by intros ? ? ? ? ->).
  assert (hsim (hbuf (next_result h hb err)) (hbuf (next_result h' hb' err))) as Hb by (apply hsim_flags; [done|apply eqf_lor, Hs]).
  split; [done| | |done..]; (split; [apply Hb|..]); unfold next_result; cbn [with_hbuf method requestTarget proto statusCode statusText]; eapply Hc; try eassumption; done.
Qed.

Lemma next_extend h h' : header_sim h h' ->
  exists h1 err, parseNextHeaders h = Ret (h1, err) /\ header_wf h1 /\ blen (hkv h1) = blen (hkv h) /\ mem (hkv h1) = mem (hkv h) /\
    requestTarget h1 = requestTarget h /\ (err = Some ErrNeedMoreData -> eqf (Flags h1) (Flags h)) /\
    (err <> Some ErrNeedMoreData -> exists h1', parseNextHeaders h' = Ret (h1', err) /\ header_sim h1 h1') /\
    (err = Some ErrNeedMoreData -> forall hy, header_sim h1 hy -> buf (hkv hy) = buf (hkv h') ->
      exists a b e, parseNextHeaders hy = Ret (a, e) /\ parseNextHeaders h' = Ret (b, e) /\ header_sim a b).
Proof.
  intros Hs. pose proof (si_buf _ _ Hs) as Hb. pose proof (hs_wf _ _ Hb) as Hw. pose proof (hs_wf' _ _ Hb) as Hw'.
  set (f := S (Z.to_nat (blen (hkv h)))). set (f' := S (Z.to_nat (blen (hkv h')))).
  assert (forall hb, hb_wf hb -> blen (kv hb) - off hb < Z.of_nat (S (Z.to_nat (blen (kv hb))))) as Hfuel by (intros hb [[? _ _] _ _]; lia).
  destruct (loop_total f (hbuf h) Hw (Hfuel _ Hw)) as (hb1 & err & Hl & Hw1 & _ & Em & El & Ef).
  destruct (loop_extend f _ _ hb1 err Hb (Hfuel _ Hw) (Hl f (Hfuel _ Hw))) as (_ & hb1' & Hs1 & Em' & El' & Ho' & Ef' & Hl').
  exists (next_result h hb1 err), err. split; [apply next_headers_eq, Hl, Hfuel, Hw|].
  pose proof (next_result_sim h h' hb1 hb1' err (si_wf _ _ Hs) (si_wf' _ _ Hs) (conj (si_method _ _ Hs) (conj (si_target _ _ Hs) (si_proto _ _ Hs))) Hs1 El El') as Hr. split; [apply Hr|]. split; [exact El|]. split; [exact Em|]. split; [done|].
  split; [intros ->; unfold next_result; change (Flags (with_hbuf _ h)) with (Z.lor (flags (kv hb1)) flagConnClose); rewrite Ef; apply eqf_conn|].
  specialize (Hl' f' (Hfuel _ Hw')). split.
  - intros He. rewrite decide_False in Hl' by done. eexists. split; [by apply next_headers_eq|done].
  - intros -> hy Hy Ebuf. rewrite decide_True in Hl' by done. pose proof (si_buf _ _ Hy) as Hby. pose proof (hs_wf' _ _ Hby) as Hwy.
    assert (buf (kv hb1') = buf (hkv h')) as Eb' by (unfold buf; rewrite Em', El'; done).
    assert (hsim (hbuf hy) hb1') as Hsy.
    { destruct Hby as [_ _ Y1 Y2 Y3 Y4 _], Hs1 as [_ Z0 Z1 Z2 Z3 Z4 _]. cbn [next_result with_hbuf hbuf with_kv off kv or_flags with_flags kvs kvcap flags] in Y1, Y2, Y3, Y4.
      split; [done|done|congruence|congruence|congruence| |exists []; rewrite app_nil_r; unfold hkv in *; congruence].
      unfold eqf in *. rewrite Y4, Z4, <- Z.lor_assoc, Z.lor_diag. done. }
    destruct (loop_total (S (Z.to_nat (blen (hkv hy)))) (hbuf hy) Hwy (Hfuel _ Hwy)) as (a & e & Ha & _ & _ & _ & Ela & _).
    pose proof (Ha _ (Hfuel _ Hwy)) as Ea.
    destruct (loop_same _ _ hb1' a e f' Hsy ltac:(unfold hkv in *; congruence) (Hfuel _ Hwy) Ea) as (b & Eb & Hab & _).
    { pose proof (Hfuel _ Hw'). unfold f', hkv. rewrite El'. lia. }
    assert (blen (kv b) = blen (hkv h')) as Elb.
    { destruct (loop_total f' hb1' (hs_wf' _ _ Hsy)) as (b2 & e2 & Hb2 & _ & _ & _ & Elb & _); [rewrite El'; pose proof (Hfuel _ Hw'); unfold f', hkv; lia|].
      rewrite Hb2 in Eb by (rewrite El'; pose proof (Hfuel _ Hw'); unfold f', hkv; lia). injection Eb as <- <-. by rewrite Elb, El'. }
    exists (next_result hy a e), (next_result h' b e), e. split; [by apply next_headers_eq|]. split; [apply next_headers_eq; exact (eq_trans Hl' Eb)|].
    apply next_result_sim; [apply Hy|apply Hs| |done|exact Ela|exact Elb].
    destruct Hy as [_ _ _ T2 T3 T4], Hs as [_ _ _ S4 S5 S6]. unfold next_result in *. cbn [with_hbuf method requestTarget proto] in *.
    split; [congruence|]. split; congruence.
Qed.

(** ** The first line *)

Lemma req_parts_flags k l : 0 <= k -> exists rl b err, (forall fl, req_parts k l fl = (rl, if (b : bool) then Z.lor fl flagNoHTTP11 else fl, err)) /\
  err <> Some ErrNeedMoreData /\ (err = None -> 0 < v_start (rl_uri rl)).
Proof.
  intros Hk. unfold req_parts. set (me := Z.max 0 _). destruct (0 <? _).
  - destruct (protoIsV1 _); cbn [negb].
    + eexists _, (negb (bool_decide _)), _. split; [intros fl; rewrite if_negb; done|]. split; [done|]. intros _. cbn [rl_uri v_start]. lia.
    + by eexists _, true, _.
  - destruct (_ =? 0); [by eexists _, false, _|by eexists _, true, _].
Qed.

Record same_start (h h' : HeaderV1) : Prop := mkSameStart {
  ss_wf : header_wf h;
  ss_wf' : header_wf h';
  ss_kvs : kvs (hkv h) = [];
  ss_kvs' : kvs (hkv h') = [];
  ss_kvcap : kvcap (hkv h') = kvcap (hkv h);
  ss_flags : eqf (Flags h') (Flags h)
}.
(** The header after its first line. *)
Definition after_first (h : HeaderV1) (n : Z) (rl : request_line) (fl : Z) : HeaderV1 :=
  mkHeader (with_kv (with_flags fl (kv (hbuf h))) (with_off n (hbuf h))) (rl_method rl) (rl_uri rl) (rl_proto rl) (statusCode h) (statusText h).

Lemma after_first_sim h h' n rl fl fl' : same_start h h' -> (exists y, buf (hkv h') = buf (hkv h) ++ y) -> 0 <= n <= blen (hkv h) ->
  line_ok (blen (hkv h)) rl -> eqf fl' fl -> header_sim (after_first h n rl fl) (after_first h' n rl fl').
Proof.
  intros [[W V1 V2 V3 V4 V5] [W' V1' V2' V3' V4' V5'] K K' Kc Kf] [y Ey] Hn [L1 L2 L3] Ef.
  pose proof (hw_ok _ W) as O. pose proof (hw_ok _ W') as O'. pose proof (hb_kv_wf _ W) as [[B0 B1] _ _ _]. pose proof (hb_kv_wf _ W') as [B' _ _ _].
  assert (blen (hkv h) <= blen (hkv h')) as Hle.
  { pose proof (zlen_buf (hkv h) (conj B0 B1)) as E. pose proof (zlen_buf (hkv h') B') as E'. rewrite Ey, zlen_app in E'. pose proof (zlen_nonneg y). lia. }
  assert (forall v, view_ok (blen (hkv h)) v -> view_ok (blen (hkv h')) v) as Hv by (intros v []; split; lia).
  assert (hb_wf (hbuf (after_first h n rl fl))) as G by (apply (hb_wf_flags (with_off n (hbuf h))), hb_wf_start; done).
  assert (hb_wf (hbuf (after_first h' n rl fl'))) as G'.
  { apply (hb_wf_flags (with_off n (hbuf h'))), hb_wf_start; [done|done|]. change (blen (kv (hbuf h'))) with (blen (hkv h')). lia. }
  split; [|split; [exact G|assumption..]|split; [exact G'|auto..]|done|done|done].
  split; [exact G|exact G'|done| |done|exact Ef|by exists y]. cbn [after_first hbuf with_kv kv with_flags kvs]. unfold hkv in *. congruence.
Qed.

Lemma first_request_eq h : header_wf h -> parseFirstLine false h =
  let '(hb, rl, fl, err) := first_request (Flags h) (hbuf h) in
  Ret (mkHeader (with_kv (with_flags fl (kv hb)) hb) (rl_method rl) (rl_uri rl) (rl_proto rl) (statusCode h) (statusText h), err).
Proof.
  intros Hh. pose proof (hw_ok _ (hd_buf h Hh)) as [_ _ H3]. unfold parseFirstLine. rewrite (proj2 (Z.ltb_ge maxBufLen _)) by exact H3.
  rewrite first_request_ok by apply (hw_ok _ (hd_buf h Hh)). cbn [mbind outcome_bind]. by destruct (first_request _ _) as [[[]]].
Qed.

Lemma ready_lor h n rl b : ready (after_first h n rl (if (b : bool) then Z.lor (Flags h) flagNoHTTP11 else Flags h)) = ready h.
Proof.
  unfold ready. f_equal. change (Flags (after_first h n rl ?f)) with f. destruct b; [|done]. unfold HasAny. by rewrite Z.land_lor_distr_l, Z.lor_0_r.
Qed.

(** With more octets the first line is the same; without it needs more data. *)
Lemma first_extend h h' : same_start h h' -> (exists y, buf (hkv h') = buf (hkv h) ++ y) ->
  exists h1 err, parseFirstLine false h = Ret (h1, err) /\ header_wf h1 /\ ready h1 = ready h /\ kvs (hkv h1) = [] /\ kvcap (hkv h1) = kvcap (hkv h) /\
    mem (hkv h1) = mem (hkv h) /\ blen (hkv h1) = blen (hkv h) /\
    (err = None -> 0 < v_start (requestTarget h1)) /\
    (err = Some ErrNeedMoreData -> requestTarget h1 = zero_view /\ Flags h1 = Flags h) /\
    (err <> Some ErrNeedMoreData \/ buf (hkv h') = buf (hkv h) -> exists h1', parseFirstLine false h' = Ret (h1', err) /\ header_sim h1 h1' /\
       mem (hkv h1') = mem (hkv h') /\ blen (hkv h1') = blen (hkv h')).
Proof.
  intros Hs [y Ey]. pose proof (ss_wf _ _ Hs) as Hh. pose proof (ss_wf' _ _ Hs) as Hh'. pose proof (hb_kv_wf _ (hd_buf h Hh)) as [B _ _ _]. fold (hkv h) in B.
  pose proof (zlen_buf _ B) as El. pose proof (count_crlf_range (buf (hkv h))) as Hc. rewrite !first_request_eq by done. unfold first_request.
  change (kv (hbuf h)) with (hkv h). change (kv (hbuf h')) with (hkv h').
  assert (forall n rl b fl err, 0 <= n <= blen (hkv h) -> line_ok (blen (hkv h)) rl -> fl = (if (b : bool) then Z.lor (Flags h) flagNoHTTP11 else Flags h) ->
    (err = None -> 0 < v_start (rl_uri rl)) -> (err = Some ErrNeedMoreData -> rl_uri rl = zero_view /\ b = false) ->
    let h1 := after_first h n rl fl in header_wf h1 /\ ready h1 = ready h /\ kvs (hkv h1) = [] /\ kvcap (hkv h1) = kvcap (hkv h) /\ mem (hkv h1) = mem (hkv h) /\ blen (hkv h1) = blen (hkv h) /\
    (err = None -> 0 < v_start (requestTarget h1)) /\ (err = Some ErrNeedMoreData -> requestTarget h1 = zero_view /\ Flags h1 = Flags h)) as Hcase.
  { intros n rl b fl err Hn Hrl -> H1 H2 h1. pose proof (after_first_sim h h n rl _ _ ltac:(split; by try apply Hs) (ex_intro _ [] (eq_sym (app_nil_r _))) Hn Hrl (eq_refl : eqf (if b then Z.lor (Flags h) flagNoHTTP11 else Flags h) _)) as Hw.
    split; [apply Hw|]. split; [apply ready_lor|]. split; [apply Hs|]. split; [done|]. split; [done|]. split; [done|]. split; [done|]. intros He. destruct (H2 He) as [E ->]. done. }
  destruct (first_line (buf (hkv h))) as [[[k l] n]|] eqn:Ef.
  - pose proof (first_line_range _ _ _ _ Ef) as (F1 & F2 & F3). rewrite El in F3. pose proof (zlen_nonneg l).
    rewrite Ey, (first_line_app _ y _ _ _ Ef). destruct (Z.ltb_spec (zlen l) 5) as [Hl|Hl].
    + eexists _, _. split; [done|]. destruct (Hcase n no_line false _ (Some ErrNeedMoreData) ltac:(lia) (no_line_ok _ (proj1 B)) eq_refl) as (C1 & C2 & C3 & C4 & C5 & C6 & C7 & C8); [done|done|].
      repeat (split; [assumption|]). intros _. eexists. split; [done|]. split; [|done].
      apply (after_first_sim h h' n no_line); [done|by exists y|lia|apply no_line_ok, B|apply Hs].
    + pose proof (req_parts_view k l (Flags h) (blen (hkv h)) F1 ltac:(lia) Hl) as Hv. destruct (req_parts_flags k l F1) as (rl & b & err & Hp & Hne & Hu).
      rewrite !Hp in *. cbn [fst] in Hv. eexists _, _. split; [done|].
      destruct (Hcase n rl b _ err ltac:(lia) Hv eq_refl Hu) as (C1 & C2 & C3 & C4 & C5 & C6 & C7 & C8); [done|]. repeat (split; [assumption|]).
      intros _. eexists. split; [done|]. split; [|done]. apply (after_first_sim h h' n rl); [done|by exists y|lia|done|].
      destruct b; [apply eqf_lor|]; apply Hs.
  - eexists _, _. split; [done|]. destruct (Hcase (count_crlf (buf (hkv h))) no_line false _ (Some ErrNeedMoreData) ltac:(lia) (no_line_ok _ (proj1 B)) eq_refl) as (C1 & C2 & C3 & C4 & C5 & C6 & C7 & C8); [done|done|].
    repeat (split; [assumption|]). intros [He|Eb]; [done|]. rewrite Eb, Ef. eexists. split; [done|]. split; [|done].
    unfold at_first_line. change (kv (hbuf h')) with (hkv h'). rewrite Eb.
    apply (after_first_sim h h' _ no_line); [done|by exists y|unfold hkv in *; lia|apply no_line_ok, B|apply Hs].
Qed.

End Read.
End HttpRead.

(** ** Receiving a request in pieces *)
Module HttpIncremental.
Import Bytes HttpKV HttpKVProps HttpKVThms HttpHeader HttpParseProps HttpParseLoop HttpFirstLine HttpParse HttpRead.
Open Scope Z_scope.
Open Scope list_scope.

Section Read.
Context {RT : GoRuntime}.

Lemma next_same h h' : header_sim h h' -> buf (hkv h') = buf (hkv h) ->
  exists a b e, parseNextHeaders h = Ret (a, e) /\ parseNextHeaders h' = Ret (b, e) /\ header_sim a b.
Proof.
  intros Hs Eb. pose proof (si_buf _ _ Hs) as Hb. pose proof (hs_wf _ _ Hb) as Hw. pose proof (hs_wf' _ _ Hb) as Hw'.
  assert (forall hb, hb_wf hb -> blen (kv hb) - off hb < Z.of_nat (S (Z.to_nat (blen (kv hb))))) as Hfuel by (intros hb [[? _ _] _ _]; lia).
  destruct (loop_total _ _ Hw (Hfuel _ Hw)) as (a & e & Ha & _ & _ & _ & La & _). destruct (loop_total _ _ Hw' (Hfuel _ Hw')) as (b & e' & Hb' & _ & _ & _ & Lb & _).
  destruct (loop_same _ _ _ a e _ Hb Eb (Hfuel _ Hw) (Ha _ (Hfuel _ Hw)) (Hfuel _ Hw')) as (b2 & Eb2 & Hab & _).
  rewrite Hb' in Eb2 by apply Hfuel, Hw'. injection Eb2 as -> ->.
  exists (next_result h a e), (next_result h' b2 e), e. split; [apply next_headers_eq, Ha, Hfuel, Hw|]. split; [apply next_headers_eq, Hb', Hfuel, Hw'|].
  apply next_result_sim; [apply Hs|apply Hs|by destruct Hs|done|exact La|exact Lb].
Qed.

(** ** One attempt *)

(** Nothing is parsed but whole lines that will not be parsed again. *)
Record resumable (h : HeaderV1) : Prop := mkResumable {
  re_wf : header_wf h;
  re_ready : ready h = true;
  re_kvs : v_start (requestTarget h) = 0 -> kvs (hkv h) = []
}.

Lemma try_eq h : ready h = true -> TryParse false h =
  (r ← (if v_start (requestTarget h) =? 0 then parseFirstLine false h else Ret (h, None));
   match snd r with
   | Some e => Ret (fst r, bool_decide (e = ErrNeedMoreData), Some e)
   | None => r ← parseNextHeaders (fst r); Ret (fst r, err_is (snd r) ErrNeedMoreData, snd r)
   end).
Proof.
  intros Hr. destruct (ready_flags h Hr) as (F1 & F2 & _). unfold TryParse. rewrite F1, F2. cbn [andb negb orb].
  destruct (if _ =? 0 then _ else _) as [[h1 [e|]]|]; cbn [mbind outcome_bind fst snd]; [done| |done]. by destruct (parseNextHeaders h1) as [[]|].
Qed.
(** After the first line. *)
Lemma try_next h h1 : ready h = true -> v_start (requestTarget h) <> 0 -> forall err, parseNextHeaders h = Ret (h1, err) ->
  TryParse false h = Ret (h1, err_is err ErrNeedMoreData, err).
Proof. intros Hr Ht err E. rewrite try_eq by done. rewrite (proj2 (Z.eqb_neq _ 0)) by done. cbn [mbind outcome_bind snd fst]. by rewrite E. Qed.
Lemma err_is_need err : err_is err ErrNeedMoreData = bool_decide (err = Some ErrNeedMoreData).
Proof. destruct err as [e|]; cbn; [|done]. apply bool_decide_ext. split; congruence. Qed.

Lemma sim_start h h' : resumable h -> v_start (requestTarget h) = 0 -> header_sim h h' -> same_start h h'.
Proof.
  intros [W R K] Ht Hs. pose proof (si_buf _ _ Hs) as Hb. split; [done|apply Hs|by apply K| |apply Hb|apply Hb].
  unfold hkv. rewrite (hs_kvs _ _ Hb). by apply K.
Qed.
Lemma sim_ready h h' : header_sim h h' -> ready h = true -> ready h' = true.
Proof. intros Hs <-. apply ready_eqf, (hs_flags _ _ (si_buf _ _ Hs)). Qed.

(** What is found with some of the octets is found with all of them, and what is not can be continued. *)
Definition extends (h h' : HeaderV1) : Prop :=
  exists h1 nm err, TryParse false h = Ret (h1, nm, err) /\ header_wf h1 /\ mem (hkv h1) = mem (hkv h) /\ blen (hkv h1) = blen (hkv h) /\
    (nm = false -> exists h1', TryParse false h' = Ret (h1', false, err) /\ header_sim h1 h1') /\
    (nm = true -> resumable h1 /\ forall hy, header_sim h1 hy -> buf (hkv hy) = buf (hkv h') ->
       exists a b n e, TryParse false hy = Ret (a, n, e) /\ TryParse false h' = Ret (b, n, e) /\ header_sim a b).

Lemma extend_fields h h' : resumable h -> header_sim h h' -> v_start (requestTarget h) <> 0 -> extends h h'.
Proof.
  intros [Hw Hr Hk] Hs Ht. pose proof (sim_ready _ _ Hs Hr) as Hr'.
  destruct (next_extend h h' Hs) as (h1 & err & E1 & W1 & L1 & M1 & T1 & F1 & Hdone & Hmore). exists h1, (err_is err ErrNeedMoreData), err.
  split; [by apply try_next|]. split; [done|]. split; [done|]. split; [done|]. rewrite err_is_need. split.
  - intros He%bool_decide_eq_false. destruct (Hdone He) as (h1' & E1' & Hs1). exists h1'. split; [|done].
    rewrite (try_next h' h1' Hr') with (err := err); [by rewrite err_is_need, bool_decide_false|by rewrite (si_target _ _ Hs)|done].
  - intros He%bool_decide_eq_true. pose proof (ready_eqf h h1 (F1 He)) as R1. split.
    { split; [done|congruence|]. rewrite T1. done. }
    intros hy Hy Ey. destruct (Hmore He hy Hy Ey) as (a & b & e & Ea & Eb & Hab). exists a, b, (err_is e ErrNeedMoreData), e.
    split; [apply try_next; [by eapply sim_ready; [exact Hy|congruence]|by rewrite (si_target _ _ Hy), T1|done]|]. split; [|done].
    apply try_next; [done|by rewrite (si_target _ _ Hs)|done].
Qed.

(** An attempt at the first line, when there is none yet. *)
Lemma try_first h h1 err : ready h = true -> v_start (requestTarget h) = 0 -> parseFirstLine false h = Ret (h1, err) ->
  TryParse false h = match err with Some e => Ret (h1, bool_decide (e = ErrNeedMoreData), Some e)
    | None => r ← parseNextHeaders h1; Ret (fst r, err_is (snd r) ErrNeedMoreData, snd r) end.
Proof. intros Hr Ht E. rewrite try_eq, Ht, E by done. done. Qed.
(** With the same octets the attempts give the same. *)
Lemma first_same h h' : same_start h h' -> buf (hkv h') = buf (hkv h) -> ready h = true -> ready h' = true ->
  v_start (requestTarget h) = 0 -> v_start (requestTarget h') = 0 ->
  exists a b n e, TryParse false h = Ret (a, n, e) /\ TryParse false h' = Ret (b, n, e) /\ header_sim a b.
Proof.
  intros Hst Eb Hr Hr' Ht Ht'. destruct (first_extend h h' Hst) as (h1 & err & E1 & W1 & _ & _ & _ & M1 & L1 & _ & _ & Hsame); [exists []; by rewrite app_nil_r|].
  destruct (Hsame (or_intror Eb)) as (h1' & E1' & Hs1 & M1' & L1'). rewrite (try_first h h1 err Hr Ht E1), (try_first h' h1' err Hr' Ht' E1').
  destruct err as [e|]; [by eexists _, _, _, _|]. destruct (next_same h1 h1' Hs1) as (a & b & e & -> & -> & Hab).
  { unfold buf in *. rewrite M1, L1, M1', L1'. done. }
  by eexists _, _, _, _.
Qed.

Lemma extend_start h h' : resumable h -> header_sim h h' -> v_start (requestTarget h) = 0 -> extends h h'.
Proof.
  intros Hres Hs Ht. pose proof Hres as [Hw Hr Hk]. pose proof (sim_ready _ _ Hs Hr) as Hr'. pose proof (si_buf _ _ Hs) as Hb.
  pose proof (sim_start _ _ Hres Ht Hs) as Hst. assert (v_start (requestTarget h') = 0) as Ht' by (by rewrite (si_target _ _ Hs)).
  destruct (first_extend h h' Hst (hs_buf _ _ Hb)) as (h1 & err & E1 & W1 & R1 & K1 & C1 & M1 & L1 & Hok & Hneed & Hsame).
  destruct (decide (err = Some ErrNeedMoreData)) as [He|He].
  - destruct (Hneed He) as [T1 F1]. exists h1, true, err. split; [rewrite (try_first h h1 err) by done; by rewrite He|]. repeat (split; [done|]).
    intros _. assert (resumable h1) as Hres1 by (split; [done|congruence|done]). split; [done|]. intros hy Hy Ey.
    pose proof (sim_ready _ _ Hy (re_ready _ Hres1)) as Hry. pose proof (sim_start _ _ Hres1 ltac:(by rewrite T1) Hy) as [_ Y1 _ Y2 Y3 Y4].
    apply first_same; [|done|done|done|by rewrite (si_target _ _ Hy), T1|done].
    split; [done|apply Hst|done|apply Hst| |]; [rewrite Y3, C1; apply Hst|]. unfold eqf in *. rewrite Y4, F1. apply Hst.
  - destruct (Hsame (or_introl He)) as (h1' & E1' & Hs1 & M1' & L1'). pose proof (try_first h h1 err Hr Ht E1) as Et. pose proof (try_first h' h1' err Hr' Ht' E1') as Et'.
    destruct err as [e|].
    + exists h1, false, (Some e). rewrite Et, Et', bool_decide_false by congruence. repeat (split; [done|]). split; [|done]. intros _. by exists h1'.
    + specialize (Hok eq_refl). assert (resumable h1) as Hres1 by (split; [done|congruence|intros; lia]).
      assert (forall h h1, ready h1 = true -> v_start (requestTarget h1) <> 0 ->
        TryParse false h = (r ← parseNextHeaders h1; Ret (fst r, err_is (snd r) ErrNeedMoreData, snd r)) -> TryParse false h = TryParse false h1) as Hstep.
      { intros x x1 Hrx Htx ->. rewrite (try_eq x1), (proj2 (Z.eqb_neq _ 0)) by done. done. }
      pose proof (Hstep h h1 (re_ready _ Hres1) ltac:(lia) Et) as X. pose proof (Hstep h' h1' (sim_ready _ _ Hs1 (re_ready _ Hres1)) ltac:(rewrite (si_target _ _ Hs1); lia) Et') as X'.
      destruct (extend_fields h1 h1' Hres1 Hs1 ltac:(lia)) as (h2 & nm & e & Q1 & Q2 & Q3 & Q4 & Q5 & Q6).
      assert (buf (hkv h1') = buf (hkv h')) as Eb by (unfold buf; by rewrite M1', L1'). rewrite Eb, <- X' in *.
      exists h2, nm, e. rewrite X. split; [done|]. split; [done|]. split; [congruence|]. split; [congruence|]. done.
Qed.
Lemma try_extend h h' : resumable h -> header_sim h h' -> extends h h'.
Proof. intros Hr Hs. destruct (Z.eq_dec (v_start (requestTarget h)) 0); [by apply extend_start|by apply extend_fields]. Qed.

(** ** All reads *)

Definition reads_of (chunks : list (list Z)) : list (list Z * option error) := (fun c => (c, None)) <$> chunks.

Lemma read_cons b c cs h : header_wf h -> ready h = true -> c <> [] -> zlen c <= free (hkv h) -> bcap (hkv h) <= maxBufLen ->
  read_request b (reads_of (c :: cs)) h =
    ('(h, needMore, err) ← TryParse false (more c h);
     if (needMore : bool) then read_request b (reads_of cs) h
     else match err with Some e => Ret (h, ReqErr e) | None => Ret (h, ReqDone) end).
Proof.
  intros Hw Hr Hc Hf Hm. cbn [reads_of fmap list_fmap read_request]. rewrite read_more_ok by done. cbn [mbind outcome_bind].
  rewrite (proj2 (Z.eqb_neq _ 0)); [done|]. destruct c; [done|]. rewrite zlen_cons. pose proof (zlen_nonneg c). lia.
Qed.

(** How an attempt ends the loop. *)
Definition status_of (needMore : bool) (err : option error) : req_status :=
  if needMore then ReqReading else match err with Some e => ReqErr e | None => ReqDone end.
Lemma read_one b c h h1 n e : header_wf h -> ready h = true -> c <> [] -> zlen c <= free (hkv h) -> bcap (hkv h) <= maxBufLen ->
  TryParse false (more c h) = Ret (h1, n, e) -> read_request b (reads_of [c]) h = Ret (h1, status_of n e).
Proof. intros Hw Hr Hc Hf Hm E. rewrite read_cons, E by done. cbn [mbind outcome_bind]. destruct n; [done|]. by destruct e. Qed.

Lemma more_resumable c h : resumable h -> zlen c <= free (hkv h) -> bcap (hkv h) <= maxBufLen -> resumable (more c h).
Proof. intros [Hw Hr Hk] Hf Hm. split; [by apply more_wf|exact Hr|exact Hk]. Qed.
Lemma more_sim_app c y h : header_wf h -> zlen (c ++ y) <= free (hkv h) -> bcap (hkv h) <= maxBufLen -> header_sim (more c h) (more (c ++ y) h).
Proof.
  intros Hw Hf Hm. pose proof Hf as Hf'. rewrite zlen_app in Hf'. pose proof (zlen_nonneg c). pose proof (zlen_nonneg y).
  pose proof (hb_kv_wf _ (hd_buf h Hw)) as [[Hlow _] _ _ _]. fold (hkv h) in Hlow.
  pose proof (more_wf c h Hw ltac:(lia) Hm) as W1. pose proof (more_wf (c ++ y) h Hw Hf Hm) as W2. split; [|done..].
  split; [apply W1|apply W2|done..|]. exists y. change (buf (hkv (more (c ++ y) h)) = buf (hkv (more c h)) ++ y).
  rewrite !more_buf by (done || lia). apply app_assoc.
Qed.

Lemma read_pieces b chunks h : resumable h -> Forall (fun c => c <> []) chunks -> chunks <> [] ->
  zlen (concat chunks) <= free (hkv h) -> bcap (hkv h) <= maxBufLen ->
  exists h1 h2 st, read_request b (reads_of chunks) h = Ret (h1, st) /\ read_request b (reads_of [concat chunks]) h = Ret (h2, st) /\ header_sim h1 h2.
Proof.
  intros Hres Hne. revert h Hres. induction Hne as [|c cs Hc Hcs IH]; intros h Hres Hn Hf Hm; [done|]. pose proof Hres as [Hw Hr Hk]. cbn [concat] in *.
  pose proof Hf as Hf'. rewrite zlen_app in Hf'. pose proof (zlen_nonneg c). pose proof (zlen_nonneg (concat cs)).
  pose proof (hb_kv_wf _ (hd_buf h Hw)) as [[Hlow _] _ _ _]. fold (hkv h) in Hlow.
  destruct (try_extend (more c h) (more (c ++ concat cs) h)) as (h1 & nm & err & E1 & W1 & M1 & L1 & Hdone & Hmore);
    [apply more_resumable; done || lia|by apply more_sim_app|].
  assert (c ++ concat cs <> []) as Hcc by (destruct c; done). rewrite read_cons, E1 by (done || lia). cbn [mbind outcome_bind]. destruct nm.
  - destruct (Hmore eq_refl) as [Hres1 Hy]. destruct cs as [|c2 cs].
    { cbn [concat] in *. rewrite app_nil_r in *. exists h1, h1, ReqReading. split; [done|]. split; [by rewrite (read_one b c h h1 true err) by done|by apply header_sim_refl]. }
    set (cs' := c2 :: cs) in *. assert (bcap (hkv h1) = bcap (hkv h)) as Ec by (unfold bcap; rewrite M1; apply more_bcap; lia).
    assert (free (hkv h1) = free (hkv h) - zlen c) as Efr by (unfold free; rewrite Ec, L1, more_blen; lia).
    destruct (IH h1 Hres1) as (a1 & a2 & st & R1 & R2 & Hs); [done|lia|lia|].
    assert (concat cs' <> []) as Hn' by (apply Forall_cons in Hcs as [Hc2 _]; cbn; destruct c2; done).
    pose proof Hres1 as [_ Hr1 _]. destruct (Hy (more (concat cs') h1)) as (x & y & n & e & Ex & Ey & Hxy); [apply more_sim; [done|lia|lia]| |].
    { rewrite !more_buf by (lia || (rewrite L1, more_blen; lia)). rewrite app_assoc. f_equal. rewrite <- more_buf by lia. unfold buf. by rewrite M1, L1. }
    rewrite (read_one b (concat cs') h1 x n e) in R2 by (done || lia). injection R2 as -> <-.
    exists a1, y, (status_of n e). split; [done|]. split; [apply read_one; done || lia|]. by apply (header_sim_trans _ a2).
  - destruct (Hdone eq_refl) as (h1' & E1' & Hs). exists h1, h1', (status_of false err).
    split; [by destruct err|]. split; [by apply read_one|done].
Qed.

(** ** Requests *)

(** The fields of a header: keys and values, in order. *)
Definition fields (h : HeaderV1) : list (list Z * list Z) :=
  (fun p => (text (mem (hkv h)) (p_key p), vtext (mem (hkv h)) p)) <$> filter (fun p => isValidHeader p = true) (kvs (hkv h)).

Lemma sim_text h h' v : header_sim h h' -> view_ok (blen (hkv h)) v -> text (mem (hkv h')) v = text (mem (hkv h)) v.
Proof.
  intros Hs Hv. apply (text_prefix (blen (hkv h))); [done|]. destruct (hs_buf _ _ (si_buf _ _ Hs)) as [y Ey].
  pose proof (hb_kv_wf _ (hd_buf _ (si_wf _ _ Hs))) as [B _ _ _]. pose proof (hb_kv_wf _ (hd_buf _ (si_wf' _ _ Hs))) as [B' _ _ _].
  fold (hkv h) in *. fold (hkv h') in *. pose proof (zlen_buf _ B) as L. pose proof (zlen_buf _ B') as L'. rewrite Ey, zlen_app in L'. pose proof (zlen_nonneg y).
  assert (ztake (blen (hkv h)) (buf (hkv h')) = buf (hkv h)) as E by (rewrite Ey; by apply ztake_app_exact).
  unfold buf in E at 1. unfold ztake in *. rewrite take_take in E. rewrite Nat.min_l in E by lia. exact E.
Qed.
Lemma sim_nonempty h h' v v' : header_sim h h' -> view_ok (blen (hkv h)) v -> view_ok (blen (hkv h')) v' -> v' = v -> getNonEmptyValue v' h' = getNonEmptyValue v h.
Proof.
  intros Hs Hv Hv' ->. unfold getNonEmptyValue. destruct (_ =? 0); [done|].
  pose proof (hb_kv_wf _ (hd_buf _ (si_wf _ _ Hs))) as [[_ B] M _ _]. pose proof (hb_kv_wf _ (hd_buf _ (si_wf' _ _ Hs))) as [[_ B'] M' _ _].
  rewrite !musttoken_ok by done. by rewrite (sim_text h h').
Qed.
Lemma sim_fields h h' : header_sim h h' -> fields h' = fields h.
Proof.
  intros Hs. unfold fields, hkv at 3. rewrite (hs_kvs _ _ (si_buf _ _ Hs)). change (kv (hbuf h)) with (hkv h).
  apply list_fmap_ext. intros i p Hp. apply list_elem_of_lookup_2 in Hp. apply list_elem_of_filter in Hp as [_ Hp].
  pose proof (kw_pairs _ (hb_kv_wf _ (hd_buf _ (si_wf _ _ Hs)))) as Hall. rewrite Forall_forall in Hall. destruct (Hall p Hp) as (V1 & V2 & _).
  unfold vtext. rewrite !(sim_text h h') by done. done.
Qed.

(** C31: A request may arrive in pieces of any size. The loop of [Handle], which reads what has arrived and tries to parse it, ends in the
    same state for all pieces as when all the octets arrive at once: done, still reading, or with the same error, with the
    same method, target, protocol and fields and the same number of octets parsed, so the body starts at the same place. *)
Theorem http_pieces_parse_the_same backoff chunks h :
  header_wf h -> ready h = true -> requestTarget h = zero_view -> kvs (hkv h) = [] ->
  Forall (fun c => c <> []) chunks -> chunks <> [] -> zlen (concat chunks) <= free (hkv h) -> bcap (hkv h) <= maxBufLen ->
  exists h1 h2 st, read_request backoff (reads_of chunks) h = Ret (h1, st) /\ read_request backoff (reads_of [concat chunks]) h = Ret (h2, st) /\
    Method h1 = Method h2 /\ RequestTarget h1 = RequestTarget h2 /\ Protocol h1 = Protocol h2 /\ fields h1 = fields h2 /\
    off (hbuf h1) = off (hbuf h2) /\ header_wf h1 /\ header_wf h2.
Proof.
  intros Hw Hr Ht Hk Hne Hn Hf Hm. destruct (read_pieces backoff chunks h) as (h1 & h2 & st & R1 & R2 & Hs); [by split|done..|].
  exists h1, h2, st. split; [done|]. split; [done|]. pose proof Hs as [Hb W1 W2 E1 E2 E3].
  split; [symmetry; apply (sim_nonempty h1 h2); [done|apply W1|apply W2|done]|]. split; [symmetry; apply (sim_nonempty h1 h2); [done|apply W1|apply W2|done]|].
  split; [symmetry; apply (sim_nonempty h1 h2); [done|apply W1|apply W2|done]|]. split; [symmetry; by apply sim_fields|].
  split; [symmetry; apply Hb|done].
Qed.

End Read.

(** ** An example *)

Definition demo_header : HeaderV1 :=
  let hb := mkHbuf (mkKV (zeros 128) 0 [] 8 flagNoBufferGrow) 0 in mkHeader hb zero_view zero_view zero_view zero_view zero_view.
Definition demo_chunks : list (list Z) :=
  [ascii "GET /index HT"; ascii "TP/1.1" ++ strCRLF ++ ascii "Host: lne"; ascii "to" ++ strCRLF ++ strCRLF ++ ascii "body"].

Lemma demo_header_wf : header_wf demo_header.
Proof. apply (reset_wf None 8 demo_header); [reflexivity|vm_compute; split; discriminate|vm_compute; discriminate]. Qed.

Lemma http_pieces_parse_the_same_witness :
  exists h1 h2 st, read_request (RT := exact_growth) true (reads_of demo_chunks) demo_header = Ret (h1, st) /\
    read_request (RT := exact_growth) true (reads_of [concat demo_chunks]) demo_header = Ret (h2, st) /\
    Method h1 = Method h2 /\ RequestTarget h1 = RequestTarget h2 /\ Protocol h1 = Protocol h2 /\ fields h1 = fields h2 /\
    off (hbuf h1) = off (hbuf h2) /\ header_wf h1 /\ header_wf h2.
Proof.
  apply (http_pieces_parse_the_same (RT := exact_growth)); [exact demo_header_wf|reflexivity|reflexivity|reflexivity| |discriminate|vm_compute; discriminate|vm_compute; discriminate].
  repeat constructor; discriminate.
Defined.

(** The request is complete, with its field. *)
Example demo_request : match read_request (RT := exact_growth) true (reads_of demo_chunks) demo_header with
  | Ret (h, st) => (st, Method h, RequestTarget h, fields h, HGet (ascii "Host") h)
      = (ReqDone, Ret (Some (ascii "GET")), Ret (Some (ascii "/index")), [(ascii "Host", ascii "lneto")], Ret (Some (ascii "lneto")))
  | Panic => False
  end.
Proof. vm_compute. reflexivity. Qed.

(** A request that arrives in pieces closes its connection, the same request at once does not: an attempt that needs more data sets
    [flagConnClose], and nothing clears it. *)
Definition closes (chunks : list (list Z)) : bool :=
  match read_request (RT := exact_growth) true (reads_of chunks) demo_header with
  | Ret (h, ReqDone) => match ConnectionClose h with Ret (_, c) => c | Panic => false end
  | _ => false
  end.
Lemma pieces_close_connection : closes demo_chunks = true /\ closes [concat demo_chunks] = false /\
  (exists h, read_request (RT := exact_growth) true (reads_of [concat demo_chunks]) demo_header = Ret (h, ReqDone)).
Proof. split; [vm_compute; reflexivity|]. split; [vm_compute; reflexivity|]. eexists. vm_compute. reflexivity. Qed.
(** A first line that is too short is taken for one that is not complete, so the server waits for more however much it gets. *)
Lemma short_first_line_waits :
  match read_request (RT := exact_growth) true (reads_of [ascii "GET" ++ strCRLF; ascii "Host: lneto" ++ strCRLF ++ strCRLF]) demo_header with
  | Ret (_, st) => st = ReqReading | Panic => False end.
Proof. vm_compute. reflexivity. Qed.

(** A response with an empty status code is accepted, but its first line is then parsed again with each piece, and the fields that
    were there already are added again. *)
Definition demo_response (pieces : list (list Z)) : outcome (HeaderV1 * bool * option error) :=
  foldl (fun r c => '(h, _, _) ← r; TryParse (RT := exact_growth) true (more c h)) (Ret (demo_header, true, None)) pieces.
Lemma empty_status_duplicates_fields :
  let a := strHTTP11 ++ [SP; SP] ++ ascii "OK" ++ strCRLF ++ ascii "A: b" ++ strCRLF ++ ascii "C" in let z := ascii ": d" ++ strCRLF ++ strCRLF in
  match demo_response [a; z], demo_response [a ++ z] with
  | Ret (h1, _, None), Ret (h2, _, None) =>
      fields h1 = [(ascii "A", ascii "b"); (ascii "A", ascii "b"); (ascii "C", ascii "d")] /\ fields h2 = [(ascii "A", ascii "b"); (ascii "C", ascii "d")]
  | _, _ => False
  end.
Proof. vm_compute. split; reflexivity. Qed.

End HttpIncremental.
