(* ===== verification/HttpRoundtrip.v ===== *)
(** * HTTP/1 headers: what is written is read back *)
From stdpp Require Import strings.
From S2P Require Import Prelude Errors Bytes DnsName HttpKV HttpKVThms HttpHeader HttpParse HttpRead.

Module HttpRoundtrip.
Import Bytes HttpKV HttpKVProps HttpKVThms HttpHeader HttpParseProps HttpParseLoop HttpFirstLine HttpParse HttpRead HttpIncremental.
Open Scope Z_scope.
Open Scope list_scope.

(** ** Text on the wire *)

Definition field_line (f : list Z * list Z) : list Z := fst f ++ [COLON; SP] ++ snd f ++ strCRLF.
Definition request_text (m t p : list Z) (fs : list (list Z * list Z)) : list Z :=
  m ++ [SP] ++ t ++ [SP] ++ p ++ strCRLF ++ concat (field_line <$> fs) ++ strCRLF.

(** Text that its reader takes for the same. *)
Definition clean_field (f : list Z * list Z) : Prop :=
  Forall (fun c => c <> SP /\ c <> TAB /\ c <> COLON /\ c <> LF) (fst f) /\ (LF ∉ snd f) /\ head (snd f) <> Some SP.
#[export] Instance clean_field_dec f : Decision (clean_field f).
Proof. unfold clean_field. apply _. Defined.
Record clean_line (m t p : list Z) : Prop := mkCleanLine {
  cl_method : m <> [] /\ Forall (fun c => c <> SP /\ c <> CR /\ c <> LF) m;
  cl_target : t <> [] /\ Forall (fun c => c <> SP /\ c <> LF) t;
  cl_proto : protoIsV1 p = true /\ (LF ∉ p)
}.

Lemma slice_between (x y z : list Z) a b : a = zlen x -> b = zlen x + zlen y -> slice (x ++ y ++ z) a b = y.
Proof. intros -> ->. rewrite slice_behind; [by apply ztake_app_exact| |done]. rewrite zlen_app. pose proof (zlen_nonneg y). pose proof (zlen_nonneg z). lia. Qed.
Lemma not_in (P : Z -> Prop) (l : list Z) c : Forall P l -> ~ P c -> c ∉ l.
Proof. intros Hl Hc Hin. rewrite Forall_forall in Hl. by apply Hc, Hl. Qed.
Lemma count_sp_zero (l z : list Z) : head l <> Some SP -> l <> [] \/ head z <> Some SP -> count_sp (l ++ z) = 0.
Proof.
  destruct l as [|c l]; cbn [head app].
  - intros _ [?|Hz]; [done|]. destruct z as [|c z]; [done|]. cbn [count_sp]. rewrite (proj2 (Z.eqb_neq c SP)); [done|]. intros ->. by apply Hz.
  - intros Hc _. cbn [count_sp]. rewrite (proj2 (Z.eqb_neq c SP)); [done|]. intros ->. by apply Hc.
Qed.

(** ** A field *)

Definition starts_line (r : list Z) : Prop := exists c r', r = c :: r' /\ c <> SP /\ c <> TAB.

Lemma line_end v r : (LF ∉ v) -> starts_line r -> forall fuel pre,
  value_loop (S fuel) (pre ++ v ++ strCRLF ++ r) (zlen pre) = Ret (Some (zlen pre + zlen v + 2)).
Proof.
  intros Hv (c & r' & -> & Hsp & Htab) fuel pre. cbn [value_loop]. rewrite zdrop_app_exact by done.
  assert (v ++ strCRLF ++ c :: r' = (v ++ [CR]) ++ LF :: c :: r') as E by (rewrite <- app_assoc; done). rewrite E.
  rewrite IndexByte_here by (rewrite not_elem_of_app, list_elem_of_singleton; done). pose proof (zlen_nonneg v). pose proof (zlen_nonneg pre). pose proof (zlen_nonneg r').
  rewrite zlen_app. change (zlen [CR]) with 1. rewrite (proj2 (Z.ltb_ge _ 0)) by lia.
  assert (zlen (pre ++ (v ++ [CR]) ++ LF :: c :: r') = zlen pre + zlen v + 3 + zlen r') as Ez by (rewrite !zlen_app, !zlen_cons, zlen_nil; lia).
  rewrite Ez, (proj2 (Z.eqb_neq _ _)) by lia. cbn [orb].
  assert (at_ (pre ++ (v ++ [CR]) ++ LF :: c :: r') (zlen pre + (zlen v + 1 + 1)) = Ret c) as ->.
  { unfold at_. rewrite zget_app_r by lia. rewrite zget_app_r by (rewrite zlen_app; change (zlen [CR]) with 1; lia).
    rewrite zlen_app. change (zlen [CR]) with 1. replace (zlen pre + (zlen v + 1 + 1) - zlen pre - (zlen v + 1)) with 1 by lia. done. }
  cbn [mbind outcome_bind]. rewrite (proj2 (Z.eqb_neq c SP)), (proj2 (Z.eqb_neq c TAB)) by done. cbn [negb andb]. do 2 f_equal. lia.
Qed.

Lemma scan_line f r : clean_field f -> starts_line r ->
  scan (field_line f ++ r) = IField (zlen (fst f)) (zlen (fst f) + 2) (zlen (fst f) + 2 + zlen (snd f)) (zlen (field_line f)).
Proof.
  destruct f as [k v]. intros (Hk & Hv & Hsp) Hr. unfold field_line. cbn [fst snd] in *.
  assert (COLON ∉ k) as Hcol by (eapply not_in; [exact Hk|tauto]). assert (LF ∉ k) as Hlf by (eapply not_in; [exact Hk|tauto]).
  assert (SP ∉ k) as Hks by (eapply not_in; [exact Hk|tauto]). assert (TAB ∉ k) as Hkt by (eapply not_in; [exact Hk|tauto]).
  pose proof (zlen_nonneg k). pose proof (zlen_nonneg v). pose proof (zlen_nonneg r).
  assert ((k ++ [COLON; SP] ++ v ++ strCRLF) ++ r = k ++ COLON :: SP :: v ++ strCRLF ++ r) as E0 by (by rewrite <- !app_assoc).
  assert (k ++ COLON :: SP :: v ++ strCRLF ++ r = (k ++ [COLON; SP] ++ v ++ [CR]) ++ LF :: r) as E1 by (by rewrite <- !app_assoc).
  assert (k ++ COLON :: SP :: v ++ strCRLF ++ r = (k ++ [COLON; SP]) ++ v ++ strCRLF ++ r) as E2 by (by rewrite <- !app_assoc).
  rewrite E0. set (b := k ++ COLON :: SP :: v ++ strCRLF ++ r) in *.
  assert (header_end b = 0) as He.
  { unfold b. destruct k as [|c k]; [by unfold header_end; rewrite !andb_false_r|]. apply not_elem_of_cons in Hlf as [Hc Hlf]. unfold header_end.
    cbn [app]. change (default 0 (zget (c :: ?x) 0)) with c. rewrite (proj2 (Z.eqb_neq c LF)) by congruence. rewrite andb_false_r.
    assert ((default 0 (zget (c :: k ++ COLON :: SP :: v ++ strCRLF ++ r) 1) =? LF) = false) as ->; [|by rewrite andb_false_r].
    apply Z.eqb_neq. destruct k as [|d k]; [done|]. apply not_elem_of_cons in Hlf as [Hd _]. cbn [app]. change (default 0 (zget (c :: d :: ?x) 1)) with d. congruence. }
  unfold scan. rewrite He. cbn [Z.ltb Z.compare]. assert (IndexByte b COLON = zlen k) as -> by (by apply IndexByte_here).
  assert (IndexByte b LF = zlen k + 2 + zlen v + 1) as Hlfi.
  { rewrite E1, IndexByte_here; [rewrite !zlen_app; change (zlen [COLON; SP]) with 2; change (zlen [CR]) with 1; lia|].
    rewrite !not_elem_of_app. repeat split; try done; rewrite ?not_elem_of_cons; repeat split; try done; apply not_elem_of_nil. }
  rewrite Hlfi. rewrite (proj2 (Z.ltb_ge _ 0)), (proj2 (Z.ltb_ge _ (zlen k))), (proj2 (Z.ltb_ge (zlen k) 0)) by lia.
  unfold field_item. assert (ztake (zlen k) b = k) as -> by (by apply ztake_app_exact).
  rewrite !IndexByte_none by done. cbn [Z.leb Z.compare orb].
  assert (zdrop (zlen k + 1) b = SP :: v ++ strCRLF ++ r) as ->.
  { unfold b. replace (k ++ COLON :: SP :: v ++ strCRLF ++ r) with ((k ++ [COLON]) ++ SP :: v ++ strCRLF ++ r) by (by rewrite <- app_assoc).
    apply zdrop_app_exact. rewrite zlen_app. done. }
  cbn [count_sp Z.eqb]. rewrite Z.eqb_refl. rewrite count_sp_zero by (done || (by right)).
  replace (zlen k + 1 + (1 + 0)) with (zlen k + 2) by lia. assert (zlen (k ++ [COLON; SP]) = zlen k + 2) as Ep by (rewrite zlen_app; done).
  rewrite E2 at 2. rewrite <- Ep. rewrite line_end by done. rewrite Ep.
  assert (zget b (zlen k + 2 + zlen v + 2 - 1 - 1) = Some CR) as ->.
  { rewrite E2. rewrite zget_app_r by lia. rewrite zget_app_r by lia. rewrite Ep. by replace (zlen k + 2 + zlen v + 2 - 1 - 1 - (zlen k + 2) - zlen v) with 0 by lia. }
  rewrite bool_decide_true by done. rewrite (proj2 (Z.ltb_lt _ _)) by lia. cbn [andb].
  rewrite !zlen_app. change (zlen [COLON; SP]) with 2. change (zlen strCRLF) with 2. f_equal; lia.
Qed.
Lemma scan_end r : scan (strCRLF ++ r) = IEnd 2.
Proof.
  unfold scan, header_end. cbn [app strCRLF]. rewrite !zlen_cons. pose proof (zlen_nonneg r). rewrite (proj2 (Z.leb_le 2 _)) by lia. done.
Qed.

(** ** All fields *)

Lemma text_view_at hb a b : hb_ok hb -> 0 <= a <= b -> b <= zlen (rest hb) -> text (mem (kv hb)) (view_at hb a b) = slice (rest hb) a b.
Proof.
  intros Hok Ha Hb. rewrite zlen_rest in Hb by done. destruct Hok as [H1 H2 _]. unfold text, view_at, rest, buf. cbn [v_start v_len].
  rewrite octets_slice by lia. rewrite slice_slice by lia. f_equal. lia.
Qed.

Lemma lines_start fs r : Forall clean_field fs -> starts_line (concat (field_line <$> fs) ++ strCRLF ++ r).
Proof.
  intros Hfs. destruct Hfs as [|[k v] fs (Hk & _) _]; [by exists CR, (LF :: r)|]. cbn [fmap list_fmap concat]. unfold field_line at 1. cbn [fst snd] in *.
  destruct Hk as [|c k (H1 & H2 & _) _]; [by eexists COLON, _|by eexists c, _].
Qed.

Definition reads_as (m : list Z) (p : pairKV) (f : list Z * list Z) : Prop :=
  isValidHeader p = true /\ text m (p_key p) = fst f /\ vtext m p = snd f.

(** ** The whole header *)

Definition line_text (m t p : list Z) : list Z := m ++ SP :: t ++ SP :: p.
Lemma request_text_line m t p fs : request_text m t p fs = line_text m t p ++ strCRLF ++ concat (field_line <$> fs) ++ strCRLF.
Proof. unfold request_text, line_text. rewrite <- !app_assoc. cbn [app]. by rewrite <- !app_assoc. Qed.

Lemma line_split_target m t p r : line_text m t p ++ r = (m ++ [SP]) ++ t ++ (SP :: p) ++ r.
Proof. unfold line_text. rewrite <- !app_assoc. cbn [app]. by rewrite <- app_assoc. Qed.
Lemma line_split_proto m t p r : line_text m t p ++ r = (m ++ [SP] ++ t ++ [SP]) ++ p ++ r.
Proof. unfold line_text. rewrite <- !app_assoc. cbn [app]. by rewrite <- !app_assoc. Qed.

Lemma first_line_text m t p r : clean_line m t p -> first_line (line_text m t p ++ strCRLF ++ r) = Some (0, line_text m t p, zlen (line_text m t p) + 2).
Proof.
  intros [[Hm Fm] [_ Ft] [_ Fp]]. set (l := line_text m t p).
  assert (LF ∉ l) as Hl.
  { unfold l, line_text. rewrite not_elem_of_app, not_elem_of_cons, not_elem_of_app, not_elem_of_cons. repeat split; try done; (eapply not_in; [eassumption|tauto]). }
  assert (count_crlf (l ++ strCRLF ++ r) = 0) as Ec.
  { unfold l, line_text. destruct Fm as [|c m (_ & H1 & H2) _]; [done|]. cbn [app count_crlf]. unfold is_crlf. by rewrite (proj2 (Z.eqb_neq c LF)), (proj2 (Z.eqb_neq c CR)) by done. }
  unfold first_line. rewrite Ec. change (zdrop 0 ?x) with x. pose proof (zlen_nonneg l).
  assert (l ++ strCRLF ++ r = (l ++ [CR]) ++ LF :: r) as E by (by rewrite <- app_assoc). rewrite E.
  rewrite IndexByte_here by (rewrite not_elem_of_app, list_elem_of_singleton; done). rewrite zlen_app. change (zlen [CR]) with 1.
  rewrite (proj2 (Z.ltb_ge _ 0)) by lia. rewrite (ztake_app_exact _ (l ++ [CR])) by (by rewrite zlen_app).
  unfold trim_cr, last_is. rewrite last_snoc, bool_decide_true by done. rewrite zlen_app. change (zlen [CR]) with 1.
  rewrite ztake_app_exact by lia. do 2 f_equal. lia.
Qed.
Lemma req_parts_text m t p fl : clean_line m t p -> exists b,
  req_parts 0 (line_text m t p) fl = (mkRL (mkView 0 (zlen m)) (mkView (zlen m + 1) (zlen t)) (mkView (zlen m + 1 + zlen t + 1) (zlen p)),
    if (b : bool) then fl else Z.lor fl flagNoHTTP11, None).
Proof.
  intros [[_ Fm] [Ht Ft] [Hp _]]. assert (SP ∉ m) as Hm by (eapply not_in; [exact Fm|tauto]). assert (SP ∉ t) as Hts by (eapply not_in; [exact Ft|tauto]).
  pose proof (zlen_nonneg m). pose proof (zlen_nonneg p). assert (0 < zlen t) as Hpos by (destruct t; [done|]; rewrite zlen_cons; pose proof (zlen_nonneg t); lia).
  unfold req_parts, line_text. rewrite (IndexByte_here m SP) by done. rewrite Z.max_r by lia.
  assert (zdrop (zlen m + 1) (m ++ SP :: t ++ SP :: p) = t ++ SP :: p) as ->.
  { replace (m ++ SP :: t ++ SP :: p) with ((m ++ [SP]) ++ t ++ SP :: p) by (by rewrite <- app_assoc). apply zdrop_app_exact. by rewrite zlen_app. }
  rewrite (IndexByte_here t SP) by done. rewrite (proj2 (Z.ltb_lt 0 _)) by done.
  assert (zdrop (zlen t + (zlen m + 1) + 1) (m ++ SP :: t ++ SP :: p) = p) as ->.
  { replace (m ++ SP :: t ++ SP :: p) with ((m ++ SP :: t ++ [SP]) ++ p) by (by rewrite <- !app_assoc; cbn [app]; rewrite <- app_assoc).
    apply zdrop_app_exact. rewrite zlen_app, zlen_cons, zlen_app. change (zlen [SP]) with 1. lia. }
  rewrite Hp. cbn [negb]. exists (bool_decide (p = strHTTP11)). rewrite !zlen_app, !zlen_cons, zlen_app, zlen_cons. do 2 f_equal. f_equal; f_equal; lia.
Qed.

Lemma text_buf kvb v : view_ok (blen kvb) v -> text (mem kvb) v = slice (buf kvb) (v_start v) (v_start v + v_len v).
Proof.
  intros Hv. symmetry. apply (text_prefix (blen kvb) (mem kvb) (buf kvb)); [done|]. unfold buf, ztake. rewrite take_take. f_equal. lia.
Qed.
Lemma nonempty_text v h x : header_wf h -> view_ok (blen (hkv h)) v -> v_len v <> 0 -> slice (buf (hkv h)) (v_start v) (v_start v + v_len v) = x ->
  getNonEmptyValue v h = Ret (Some x).
Proof.
  intros Hh Hv Hl <-. destruct (hb_kv_wf _ (hd_buf h Hh)) as [[_ Hc] Hm _ _]. unfold getNonEmptyValue. rewrite (proj2 (Z.eqb_neq _ 0)) by done.
  rewrite musttoken_ok by done. by rewrite <- text_buf.
Qed.
Lemma reads_fields m ps fs : Forall2 (reads_as m) ps fs -> (fun p => (text m (p_key p), vtext m p)) <$> filter (fun p => isValidHeader p = true) ps = fs.
Proof.
  induction 1 as [|p [k v] ps fs (H1 & H2 & H3) _ IH]; [done|]. rewrite filter_cons, decide_True by done. rewrite fmap_cons, IH. cbn [fst snd] in *. by rewrite H2, H3.
Qed.

Section Parse.
Context {RT : GoRuntime}.

Lemma rest_after hb k vs ve m : hb_ok hb -> 0 <= m -> rest (after_field hb k vs ve m) = zdrop m (rest hb).
Proof. intros [H1 _ _] Hm. unfold rest, after_field, zdrop, buf. cbn [with_kv with_off off kv append_kv mem blen]. rewrite drop_drop. f_equal. lia. Qed.

Lemma read_fields fs body fuel hb : hb_wf hb -> 0 < off hb -> Forall clean_field fs -> BufferGrowthEnabled (kv hb) = true ->
  rest hb = concat (field_line <$> fs) ++ strCRLF ++ body -> (length fs < fuel)%nat ->
  exists hb1 ps, headers_loop fuel hb = Ret (hb1, None) /\ kvs (kv hb1) = kvs (kv hb) ++ ps /\ mem (kv hb1) = mem (kv hb) /\
    blen (kv hb1) = blen (kv hb) /\ flags (kv hb1) = flags (kv hb) /\ off hb1 = off hb + zlen (concat (field_line <$> fs)) + 2 /\
    Forall2 (reads_as (mem (kv hb))) ps fs.
Proof.
  revert fs hb. induction fuel as [|fuel IH]; intros fs hb Hw Ho Hfs Hg Hrest Hf; [lia|].
  pose proof (hw_ok hb Hw) as Hok. rewrite loop_round by done. destruct Hfs as [|[k v] fs Hc Hfs].
  - rewrite Hrest. cbn [fmap list_fmap concat app]. rewrite (scan_end body). eexists _, []. split; [done|]. rewrite app_nil_r. split; [done|].
    split; [done|]. split; [done|]. split; [done|]. split; [cbn [with_off off]; rewrite zlen_nil; lia|constructor].
  - cbn [fmap list_fmap concat] in Hrest |- *. rewrite <- app_assoc in Hrest.
    pose proof (scan_line (k, v) _ Hc (lines_start fs body Hfs)) as Hscan. rewrite <- Hrest in Hscan. rewrite Hscan. cbn [fst snd] in Hscan.
    rewrite (proj2 (Z.eqb_neq (off hb) 0)) by lia. pose proof (scan_range (rest hb)) as Hr. rewrite Hscan in Hr. cbn [fst snd].
    assert (canAddOneKV (kv hb) = true) as ->.
    { unfold canAddOneKV. unfold BufferGrowthEnabled, HasAny in Hg. rewrite negb_involutive in Hg. by rewrite Hg, orb_true_r. }
    cbn [negb]. set (n := zlen (field_line (k, v))) in *. set (hb2 := after_field hb (zlen k) (zlen k + 2) (zlen k + 2 + zlen v) n).
    destruct (IH fs hb2) as (hb1 & ps & El & Ek & Em & Eb & Ef & Eo & Hps); [by apply after_field_wf|cbn [hb2 after_field with_kv with_off off]; lia|done|done| |cbn [length] in Hf; lia|].
    { unfold hb2. rewrite rest_after, Hrest by (done || lia). by apply zdrop_app_exact. }
    exists hb1, (field_pair hb (zlen k) (zlen k + 2) (zlen k + 2 + zlen v) :: ps). split; [done|]. split; [rewrite Ek; exact (eq_sym (app_assoc _ [_] _))|]. split; [done|].
    split; [done|]. split; [done|]. split; [rewrite Eo, zlen_app; cbn [hb2 after_field with_kv with_off off]; fold n; lia|].
    constructor; [|done]. pose proof (zlen_nonneg k). pose proof (zlen_nonneg v). unfold reads_as, vtext, HasValue, isValidHeader, field_pair. cbn [p_key p_value fst snd].
    rewrite !text_view_at by (done || lia). cbn [view_at v_start]. rewrite !(proj2 (Z.ltb_lt 0 _)) by lia. rewrite Hrest. unfold field_line. cbn [fst snd].
    split; [done|]. split; [rewrite <- !app_assoc; apply (slice_between []); done|].
    rewrite <- !app_assoc. rewrite (app_assoc k). apply slice_between; rewrite zlen_app; change (zlen [COLON; SP]) with 2; lia.
Qed.

Lemma lines_len fs : Z.of_nat (length fs) <= zlen (concat (field_line <$> fs)).
Proof.
  induction fs as [|f fs IH]; [done|]. rewrite fmap_cons. cbn [length concat]. rewrite zlen_app. unfold field_line at 1. rewrite !zlen_app.
  pose proof (zlen_nonneg (fst f)). pose proof (zlen_nonneg (snd f)). change (zlen [COLON; SP]) with 2. change (zlen strCRLF) with 2. lia.
Qed.
Lemma proto_len p : protoIsV1 p = true -> 7 <= zlen p.
Proof.
  unfold protoIsV1. intros E%bool_decide_eq_true. apply (f_equal zlen) in E. pose proof (zlen_nonneg p).
  rewrite zlen_ztake in E by (change (zlen strHTTP1) with 7; lia). change (zlen strHTTP1) with 7 in *. lia.
Qed.

Lemma parse_text m t p fs body h : clean_line m t p -> Forall clean_field fs -> header_wf h -> kvs (hkv h) = [] -> BufferGrowthEnabled (hkv h) = true ->
  buf (hkv h) = request_text m t p fs ++ body ->
  exists h' b, parse false h = Ret (h', None) /\ Method h' = Ret (Some m) /\ RequestTarget h' = Ret (Some t) /\ Protocol h' = Ret (Some p) /\
    fields h' = fs /\ off (hbuf h') = zlen (request_text m t p fs) /\ mem (hkv h') = mem (hkv h) /\ blen (hkv h') = blen (hkv h) /\
    Flags h' = Z.lor (if (b : bool) then Flags h else Z.lor (Flags h) flagNoHTTP11) flagDoneParsingHeader.
Proof.
  intros Hcl Hfs Hh Hk Hg Hb. pose proof Hcl as [[Hm _] [Ht _] [Hp _]]. pose proof (proto_len p Hp) as Hpl. set (l := line_text m t p).
  assert (0 < zlen m /\ 0 < zlen t) as [Hm0 Ht0] by (split; [destruct m|destruct t]; try done; rewrite zlen_cons; match goal with |- context [zlen ?x] => pose proof (zlen_nonneg x) end; lia).
  assert (zlen l = zlen m + 1 + zlen t + 1 + zlen p) as Hl by (unfold l, line_text; rewrite zlen_app, zlen_cons, zlen_app, zlen_cons; lia).
  destruct (parse_wf false h Hh Hk) as (h2 & err & Ep & Hw2 & Em2 & El2 & _). revert Ep. unfold parse.
  destruct (first_line_wf false h Hh Hk) as (h1 & err1 & E1 & Hw1 & Em1 & El1). destruct (req_parts_text m t p (Flags h) Hcl) as [b Er].
  set (rl := mkRL _ _ _) in Er. set (fl := if b then _ else _) in Er.
  assert (h1 = after_first h (zlen l + 2) rl fl /\ err1 = None) as [-> ->].
  { rewrite first_request_eq in E1 by done. unfold first_request in E1. change (kv (hbuf h)) with (hkv h) in E1.
    rewrite Hb, request_text_line, <- !app_assoc, first_line_text in E1 by done. fold l in E1. rewrite (proj2 (Z.ltb_ge _ 5)) in E1 by lia. fold l in Er. rewrite Er in E1.
    by injection E1. }
  set (h1 := after_first h (zlen l + 2) rl fl) in *. rewrite E1. cbn [mbind outcome_bind].
  assert (rest (hbuf h1) = concat (field_line <$> fs) ++ strCRLF ++ body) as Hr.
  { unfold rest. change (zdrop (off (hbuf h1)) (buf (kv (hbuf h1)))) with (zdrop (zlen l + 2) (buf (hkv h))). rewrite Hb, request_text_line, <- !app_assoc, app_assoc.
    apply zdrop_app_exact. fold l. by rewrite zlen_app. }
  assert (BufferGrowthEnabled (hkv h1) = true) as Hg1.
  { unfold BufferGrowthEnabled, HasAny in *. change (flags (hkv h1)) with fl. unfold fl, Flags. destruct b; [done|]. by rewrite Z.land_lor_distr_l, Z.lor_0_r. }
  destruct (read_fields fs body (S (Z.to_nat (blen (hkv h1)))) (hbuf h1)) as (hb1 & ps & Elp & Ek & Em & Eb & Ef & Eo & Hps);
    [apply Hw1|change (off (hbuf h1)) with (zlen l + 2); lia|done|done|done| |].
  { pose proof (lines_len fs). pose proof (zlen_rest _ (hw_ok _ (hd_buf _ Hw1))) as Hz. rewrite Hr, !zlen_app in Hz. change (kv (hbuf h1)) with (hkv h1) in Hz.
    change (off (hbuf h1)) with (zlen l + 2) in Hz. pose proof (zlen_nonneg body). change (zlen strCRLF) with 2 in Hz. lia. }
  rewrite (next_headers_eq h1 hb1 None Elp). intros [= <- <-]. set (h2 := next_result h1 hb1 None) in *.
  assert (buf (hkv h2) = line_text m t p ++ strCRLF ++ concat (field_line <$> fs) ++ strCRLF ++ body) as Eb2.
  { unfold buf. rewrite Em2, El2. fold (buf (hkv h)). rewrite Hb, request_text_line. by rewrite <- !app_assoc. }
  exists h2, b. split; [done|]. split; [|split; [|split; [|split]]].
  - apply nonempty_text; [done|apply Hw2|change (zlen m <> 0); lia|]. rewrite Eb2. unfold line_text. rewrite <- app_assoc. apply (slice_between []); done.
  - apply nonempty_text; [done|apply Hw2|change (zlen t <> 0); lia|]. rewrite Eb2, line_split_target.
    apply slice_between; rewrite zlen_app; done.
  - apply nonempty_text; [done|apply Hw2|change (zlen p <> 0); lia|]. rewrite Eb2, line_split_proto.
    assert (zlen (m ++ [SP] ++ t ++ [SP]) = zlen m + 1 + zlen t + 1) as E by (rewrite !zlen_app; change (zlen [SP]) with 1; lia).
    apply slice_between; rewrite E; done.
  - unfold fields. change (kvs (hkv h2)) with (kvs (kv hb1)). change (mem (hkv h2)) with (mem (kv hb1)). rewrite Ek, Em.
    change (kvs (kv (hbuf h1))) with (kvs (hkv h)). rewrite Hk. by apply reads_fields.
  - split; [|split; [done|split; [done|]]].
    + change (off (hbuf h2)) with (off hb1). rewrite Eo, request_text_line, !zlen_app. change (zlen strCRLF) with 2. fold l. change (off (hbuf h1)) with (zlen l + 2). lia.
    + change (Flags h2) with (Z.lor (flags (kv hb1)) flagDoneParsingHeader). by rewrite Ef.
Qed.

(** ** Writing *)

Lemma fold_lines (m : list Z) ps dst :
  foldl (fun d p => appendHeaderLine d (text m (p_key p)) (vtext m p)) dst ps = dst ++ concat (field_line <$> ((fun p => (text m (p_key p), vtext m p)) <$> ps)).
Proof.
  revert dst. induction ps as [|p ps IH]; intros dst; [by rewrite app_nil_r|]. cbn [foldl]. rewrite IH. unfold appendHeaderLine.
  rewrite !fmap_cons. cbn [concat]. unfold field_line at 2. cbn [fst snd]. by rewrite <- !app_assoc.
Qed.

(** A header that can be sent as a request. *)
Record printable (h : HeaderV1) : Prop := mkPrintable {
  pr_kv : kv_wf (hkv h);
  pr_method : view_ok (blen (hkv h)) (method h);
  pr_target : view_ok (blen (hkv h)) (requestTarget h);
  pr_proto : view_ok (blen (hkv h)) (proto h);
  pr_oom : HasAny (Flags h) flagOOMReached = false;
  pr_line : clean_line (text (mem (hkv h)) (method h)) (text (mem (hkv h)) (requestTarget h)) (text (mem (hkv h)) (proto h));
  pr_fields : Forall clean_field (fields h)
}.
Definition text_of (h : HeaderV1) : list Z :=
  request_text (text (mem (hkv h)) (method h)) (text (mem (hkv h)) (requestTarget h)) (text (mem (hkv h)) (proto h)) (fields h).

Lemma get_text v h : kv_wf (hkv h) -> view_ok (blen (hkv h)) v -> text (mem (hkv h)) v <> [] ->
  getNonEmptyValue v h = Ret (Some (text (mem (hkv h)) v)) /\ 0 < v_len v /\ 0 < zlen (text (mem (hkv h)) v).
Proof.
  intros [[H0 Hc] Hm _ _] Hv Hne. pose proof (zlen_text _ (mem (hkv h)) v Hv Hc) as Hl.
  assert (0 < zlen (text (mem (hkv h)) v)) as Hp by (destruct (text _ _) as [|? l]; [done|]; rewrite zlen_cons; pose proof (zlen_nonneg l); lia).
  split; [|lia]. unfold getNonEmptyValue. rewrite (proj2 (Z.eqb_neq _ 0)) by lia. by rewrite musttoken_ok.
Qed.

Lemma append_request_ok h : printable h -> AppendRequest [] h = Ret (text_of h, None).
Proof.
  intros [Hw V1 V2 V3 Ho [[Hm _] [Ht _] [Hp _]] _]. apply proto_len in Hp.
  destruct (get_text _ _ Hw V1 Hm) as (E1 & L1 & Z1). destruct (get_text _ _ Hw V2 Ht) as (E2 & L2 & Z2).
  destruct (get_text _ _ Hw V3) as (E3 & L3 & Z3); [by intros E; rewrite E in Hp|].
  unfold AppendRequest, Protocol, Method, RequestTarget. rewrite E3. cbn [mbind outcome_bind from_option id]. rewrite Ho.
  rewrite !(proj2 (Z.eqb_neq _ 0)) by lia. cbn [orb]. rewrite E1. cbn [mbind outcome_bind from_option id]. rewrite (proj2 (Z.eqb_neq _ 0)) by lia.
  rewrite E2. cbn [mbind outcome_bind from_option id]. unfold AppendHeaders. rewrite append_lines_ok by (done || apply Hw). cbn [mbind outcome_bind].
  rewrite fold_lines. unfold text_of, request_text, fields. by rewrite <- !app_assoc.
Qed.

(** ** Reading it back *)

Lemma parse_bytes_start b h : BufferGrowthEnabled (hkv h) = true -> b <> [] -> zlen b + bcap (hkv h) <= maxBufLen ->
  exists h1, ParseBytes false b h = parse false h1 /\ header_wf h1 /\ kvs (hkv h1) = [] /\ buf (hkv h1) = b /\ Flags h1 = 0.
Proof.
  intros Hg Hb Hm. unfold BufferGrowthEnabled in Hg. apply negb_true_iff in Hg. pose proof Hg as Hf. unfold HasAny in Hf. apply negb_false_iff, Z.eqb_eq in Hf.
  set (h0 := mkHeader (reset None 0 (hbuf h)) zero_view zero_view zero_view zero_view zero_view).
  assert (flags (hkv h0) = 0) as F0 by exact Hf. assert (HReset None 0 h = Ret h0) as Er by (unfold HReset; change (flags (kv (reset None 0 (hbuf h)))) with (flags (hkv h0)); by rewrite F0).
  unfold ParseBytes. rewrite Er. cbn [mbind outcome_bind]. assert (0 < zlen b) as Hp by (destruct b; [done|]; rewrite zlen_cons; pose proof (zlen_nonneg b); lia).
  unfold HReadFromBytes, ReadFromBytes, BufferGrowthEnabled. change (bcap (hkv h0)) with (bcap (hkv h)). rewrite F0.
  rewrite (proj2 (Z.eqb_neq (zlen b) 0)), (proj2 (Z.ltb_ge maxBufLen _)) by lia. change (HasAny 0 ?x) with false. cbn [negb]. rewrite andb_false_r. pose proof (zlen_nonneg (mem (hkv h))) as Hn.
  assert (exists m, append_buf b (hkv h0) = with_buf m (zlen b) (hkv h0) /\ ztake (zlen b) m = b /\ zlen b <= zlen m) as (m & -> & Et & Hl).
  { unfold append_buf. change (blen (hkv h0)) with 0. rewrite Z.add_0_l. unfold bcap. change (mem (hkv h0)) with (mem (hkv h)).
    destruct (Z.leb_spec (zlen b) (zlen (mem (hkv h)))) as [Hle|Hgt].
    - eexists. split; [done|]. unfold put. rewrite (ztake_nonpos 0) by lia. cbn [app]. split; [by apply ztake_app_exact|]. rewrite zlen_app. pose proof (zlen_nonneg (zdrop (0 + zlen b) (mem (hkv h)))). lia.
    - eexists. split; [done|]. unfold buf. change (blen (hkv h0)) with 0. rewrite (ztake_nonpos 0) by lia. cbn [app]. split; [by apply ztake_app_exact|]. rewrite zlen_app.
      pose proof (zlen_nonneg (zeros (growslice (zlen (mem (hkv h))) (zlen b) - zlen b))). lia. }
  set (h1 := with_hkv _ _). exists h1. split; [done|]. unfold bcap, maxBufLen in *. split; [|split; [done|split; [exact Et|exact F0]]].
  assert (hb_wf (hbuf h1)) as Hb1.
  { split; [split; [change (0 <= 0 <= zlen b); lia|exact Hl|change (zlen b <= 65535); lia]|constructor|]. intros i j p q _ Hpq. done. }
  split; [done|..]; apply zero_view_ok; change (0 <= zlen b); lia.
Qed.

(** C32: What [AppendRequest] writes is what [ParseBytes] reads. A header whose method and target are not empty and have no white
    space, whose protocol is HTTP/1.x, whose keys have no white space or colon and whose values are on one line and do not start
    with a space, is written in full, and a parser that gets the octets, followed by any body, reports the same method, target,
    protocol and fields in the same order, and exactly the body. *)
Theorem http_request_roundtrip h h2 body :
  printable h -> BufferGrowthEnabled (hkv h2) = true -> zlen (text_of h) + zlen body + bcap (hkv h2) <= maxBufLen ->
  exists b h', AppendRequest [] h = Ret (b, None) /\ ParseBytes false (b ++ body) h2 = Ret (h', None) /\
    Method h' = Method h /\ RequestTarget h' = RequestTarget h /\ Protocol h' = Protocol h /\ fields h' = fields h /\ Body h' = Ret (Some body, None).
Proof.
  intros Hh Hg Hm. exists (text_of h). pose proof Hh as [Hw V1 V2 V3 _ Hcl Hfs]. pose proof Hcl as [[Nm _] [Nt _] [Np _]]. apply proto_len in Np.
  destruct (parse_bytes_start (text_of h ++ body) h2 Hg) as (h1 & Ep & W1 & K1 & B1 & F1); [unfold text_of, request_text; by destruct (text _ (method h))|rewrite zlen_app; lia|].
  destruct (parse_text _ _ _ (fields h) body h1 Hcl Hfs W1 K1) as (h' & b & Eh & Em & Et & Epr & Ef & Eo & Emem & Eblen & Efl);
    [unfold BufferGrowthEnabled; change (flags (hkv h1)) with (Flags h1); by rewrite F1|done|].
  exists h'. rewrite append_request_ok, Ep, Eh, Em, Et, Epr by done. unfold Method, RequestTarget, Protocol.
  destruct (get_text _ _ Hw V1 Nm) as (-> & _). destruct (get_text _ _ Hw V2 Nt) as (-> & _). destruct (get_text _ _ Hw V3) as (-> & _); [by intros E; rewrite E in Np|].
  repeat (split; [done|]). unfold Body. assert (HasAny (Flags h') flagMangledBuffer = false /\ HasAny (Flags h') flagDoneParsingHeader = true) as [-> ->] by (rewrite Efl, F1; by destruct b).
  pose proof (hb_kv_wf _ (hd_buf _ W1)) as [B _ _ _]. pose proof (zlen_buf _ B) as Lb. fold (hkv h1) in Lb. rewrite B1, zlen_app in Lb. fold (text_of h) in Eo.
  pose proof (zlen_nonneg body). pose proof (zlen_nonneg (text_of h)). rewrite Eo, Eblen, <- Lb. unfold assert_or_panic. rewrite !(proj2 (Z.leb_le _ _)) by lia. cbn [andb].
  do 3 f_equal. rewrite Emem. transitivity (slice (buf (hkv h1)) (zlen (text_of h)) (zlen (text_of h) + zlen body)).
  - unfold buf. rewrite <- Lb. unfold slice, zdrop, ztake. rewrite skipn_firstn_comm, take_take. f_equal. lia.
  - rewrite B1, slice_behind by lia. apply ztake_ge. lia.
Qed.

End Parse.

(** ** A request *)

Definition get_header (o : outcome HeaderV1) : HeaderV1 := match o with Ret h => h | Panic => demo_header end.
Definition demo_built : HeaderV1 := get_header (
  h ← SetMethod (RT := exact_growth) (ascii "POST") demo_header;
  h ← SetRequestTarget (RT := exact_growth) (ascii "/form?x=1") h;
  h ← SetProtocol (RT := exact_growth) strHTTP11 h;
  h ← HAdd (RT := exact_growth) (ascii "Host") (ascii "lneto") h;
  HAdd (RT := exact_growth) (ascii "Cookie") (ascii "a=b; c=d") h).
Definition demo_reader : HeaderV1 := mkHeader (mkHbuf (mkKV [] 0 [] 0 0) 0) zero_view zero_view zero_view zero_view zero_view.

Ltac by_deciding := match goal with |- ?P => exact (bool_decide_unpack P ltac:(vm_compute; exact I)) end.
Lemma demo_printable : printable demo_built.
Proof.
  assert (kvs (hkv demo_built) = [mkPair (mkView 22 4) (mkView 26 5); mkPair (mkView 31 6) (mkView 37 8)]) as Ek by (vm_compute; reflexivity).
  assert (blen (hkv demo_built) = 45) as El by (vm_compute; reflexivity).
  split; [|rewrite El; vm_compute; split; discriminate..|reflexivity| |].
  - split; [vm_compute; split; discriminate|vm_compute; discriminate|..]; rewrite Ek, ?El.
    + repeat constructor; cbn; try lia; unfold apart; cbn; lia.
    + clear Ek El. intros [|[|i]] [|[|j]] p q Hij; cbn; intros; simplify_eq; unfold papart, apart; cbn; lia.
  - assert (text (mem (hkv demo_built)) (method demo_built) = ascii "POST") as -> by (vm_compute; reflexivity).
    assert (text (mem (hkv demo_built)) (requestTarget demo_built) = ascii "/form?x=1") as -> by (vm_compute; reflexivity).
    assert (text (mem (hkv demo_built)) (proto demo_built) = strHTTP11) as -> by (vm_compute; reflexivity).
    clear Ek El. split; (split; [first [discriminate|reflexivity]|]); by_deciding.
  - assert (fields demo_built = [(ascii "Host", ascii "lneto"); (ascii "Cookie", ascii "a=b; c=d")]) as -> by (vm_compute; reflexivity).
    by_deciding.
Qed.
Lemma http_request_roundtrip_witness :
  exists b h', AppendRequest [] demo_built = Ret (b, None) /\ ParseBytes (RT := exact_growth) false (b ++ ascii "body") demo_reader = Ret (h', None) /\
    Method h' = Method demo_built /\ RequestTarget h' = RequestTarget demo_built /\ Protocol h' = Protocol demo_built /\
    fields h' = fields demo_built /\ Body h' = Ret (Some (ascii "body"), None).
Proof. apply (http_request_roundtrip (RT := exact_growth)); [exact demo_printable|reflexivity|vm_compute; discriminate]. Defined.

End HttpRoundtrip.
