(* ===== verification/HttpUrl.v ===== *)
(** * Text of URLs and fields ([CopyDecodedPercentURL], [EqualDecodedPercentURL] and
    [CopyNormalizedHeaderValue] of [src/http/httpraw/headerv1.go])

    Source and destination are regions of one memory, so that a text may be decoded in
    place. *)
From S2P Require Import Prelude Errors Bytes HttpHeader HttpParse.

Module HttpUrl.
Import Bytes HttpHeader HttpParseProps.
Open Scope Z_scope.
Open Scope list_scope.

(** ** Definitions *)

Definition PERCENT : Z := 37.
Definition PLUS : Z := 43.

Definition unhexdigit (c : Z) : Z * bool :=
  if (48 <=? c) && (c <=? 57) then (c - 48, true)
  else if (97 <=? c) && (c <=? 102) then (c - 97 + 10, true)
  else if (65 <=? c) && (c <=? 70) then (c - 65 + 10, true)
  else (0, false).

(** A region of the memory: where it starts and its length. *)
Record region := mkRegion { r_at : Z; r_len : Z }.
Definition content (m : list Z) (r : region) : list Z := slice m (r_at r) (r_at r + r_len r).
Definition from (r : region) (n : Z) : region := mkRegion (r_at r + n) (r_len r - n).

Definition plus_to_space (plusAsSpace : bool) (c : Z) : Z := if plusAsSpace && (c =? PLUS) then SP else c.
(** The memory and the number of octets copied. *)
Definition copyPlusDecoded (m : list Z) (dst src : region) (plusAsSpace : bool) : list Z * Z :=
  let n := Z.min (r_len dst) (r_len src) in
  (put m (r_at dst) (plus_to_space plusAsSpace <$> ztake n (content m src)), n).

Fixpoint decode_loop (fuel : nat) (m : list Z) (dst value : region) (plusAsSpace : bool) (n read : Z)
    : outcome (list Z * Z * option error) :=
  match fuel with
  | O => Panic
  | S fuel =>
      assert_or_panic ((read <=? r_len value) && (n <=? r_len dst))
      (let escape := IndexByte (content m (from value read)) PERCENT in
       if escape <? 0 then
         let '(m, k) := copyPlusDecoded m (from dst n) (from value read) plusAsSpace in Ret (m, n + k, None)
       else
       let escape := escape + read in
       let '(m, k) := copyPlusDecoded m (from dst n) (mkRegion (r_at value + read) (escape - read)) plusAsSpace in
       let n := n + k in
       if r_len value <=? escape + 2 then Ret (m, n, Some errBadPercentEncode)
       else
       c1 ← at_ (content m value) (escape + 1);
       c2 ← at_ (content m value) (escape + 2);
       let '(hi, okhi) := unhexdigit c1 in
       let '(lo, oklo) := unhexdigit c2 in
       if negb okhi || negb oklo then Ret (m, n, Some errBadPercentEncode)
       else assert_or_panic (n <? r_len dst)
         (decode_loop fuel (put m (r_at dst + n) [Z.lor (u8 (Z.shiftl hi 4)) lo]) dst value plusAsSpace (n + 1) (escape + 3)))
  end.
Definition CopyDecodedPercentURL (m : list Z) (dst value : region) (plusAsSpace : bool) : outcome (list Z * Z * option error) :=
  assert_or_panic (r_len value <=? r_len dst)
    (decode_loop (S (Z.to_nat (r_len value))) m dst value plusAsSpace 0 0).

Fixpoint equal_loop (value want : list Z) (plusAsSpace : bool) : bool :=
  match value with
  | [] => zlen want =? 0
  | c :: value =>
      if c =? PERCENT then
        match value with
        | c1 :: c2 :: value =>
            let '(hi, okhi) := unhexdigit c1 in
            let '(lo, oklo) := unhexdigit c2 in
            if negb okhi || negb oklo then false
            else match want with
                 | w :: want => if w =? Z.lor (u8 (Z.shiftl hi 4)) lo then equal_loop value want plusAsSpace else false
                 | [] => false
                 end
        | _ => false
        end
      else match want with
           | w :: want => if w =? plus_to_space plusAsSpace c then equal_loop value want plusAsSpace else false
           | [] => false
           end
  end.
Definition EqualDecodedPercentURL (value want : list Z) (plusAsSpace : bool) : bool := equal_loop value want plusAsSpace.

(** ** What decoding means *)

(** The octets decoded before the end or the first bad escape, and whether there was none. *)
Fixpoint decoded (plusAsSpace : bool) (l : list Z) : list Z * bool :=
  match l with
  | [] => ([], true)
  | c :: l =>
      if c =? PERCENT then
        match l with
        | c1 :: c2 :: l =>
            if snd (unhexdigit c1) && snd (unhexdigit c2) then
              let '(o, ok) := decoded plusAsSpace l in (16 * fst (unhexdigit c1) + fst (unhexdigit c2) :: o, ok)
            else ([], false)
        | _ => ([], false)
        end
      else let '(o, ok) := decoded plusAsSpace l in (plus_to_space plusAsSpace c :: o, ok)
  end.

Lemma unhex_range c : 0 <= fst (unhexdigit c) < 16.
Proof.
  unfold unhexdigit. destruct (Z.leb_spec 48 c), (Z.leb_spec c 57), (Z.leb_spec 97 c), (Z.leb_spec c 102), (Z.leb_spec 65 c), (Z.leb_spec c 70);
    cbn [andb fst]; lia.
Qed.
Lemma nibbles hi lo : 0 <= hi < 16 -> 0 <= lo < 16 -> Z.lor (u8 (Z.shiftl hi 4)) lo = 16 * hi + lo.
Proof.
  intros Hh Hl. unfold u8. rewrite (Z.shiftl_mul_pow2 hi) by lia. rewrite Z.mod_small by (change (2 ^ 4) with 16; change (2 ^ 8) with 256; lia).
  rewrite <- Z.shiftl_mul_pow2, Z.lor_comm, lor_shiftl_add by lia. lia.
Qed.

(** ** Lists *)

Lemma decoded_app p a l : (PERCENT ∉ a) -> decoded p (a ++ l) = ((plus_to_space p <$> a) ++ fst (decoded p l), snd (decoded p l)).
Proof.
  induction a as [|c a IH]; intros Ha; [cbn [app fmap list_fmap]; by destruct (decoded p l)|]. apply not_elem_of_cons in Ha as [Hc Ha].
  cbn [app decoded]. rewrite (proj2 (Z.eqb_neq c PERCENT)) by congruence. rewrite IH by done. done.
Qed.
Lemma decoded_len p l : zlen (fst (decoded p l)) <= zlen l.
Proof.
  remember (length l) as n eqn:En. revert l En. induction n as [n IH] using lt_wf_ind. intros l ->. destruct l as [|c l]; [done|]. cbn [decoded]. rewrite zlen_cons.
  destruct (c =? PERCENT).
  - destruct l as [|c1 [|c2 l]]; cbn [fst]; rewrite ?zlen_nil, ?zlen_cons; [lia|pose proof (zlen_nonneg (@nil Z)); lia|]. destruct (_ && _); cbn [fst]; [|rewrite zlen_nil; pose proof (zlen_nonneg l); lia].
    pose proof (IH (length l) ltac:(cbn; lia) l eq_refl) as H. destruct (decoded p l). cbn [fst] in *. rewrite zlen_cons. lia.
  - pose proof (IH (length l) ltac:(cbn; lia) l eq_refl) as H. destruct (decoded p l). cbn [fst] in *. rewrite zlen_cons. lia.
Qed.
Lemma zlen_fmap {A B} (f : A -> B) (l : list A) : zlen (f <$> l) = zlen l.
Proof. unfold zlen. by rewrite length_fmap. Qed.
Lemma put_nil m i : 0 <= i -> put m i [] = m.
Proof. intros. unfold put. cbn [app]. rewrite zlen_nil, Z.add_0_r. apply ztake_zdrop. Qed.
Lemma put_app m i a b : 0 <= i -> i + zlen a + zlen b <= zlen m -> put (put m i a) (i + zlen a) b = put m i (a ++ b).
Proof.
  intros Hi Hl. pose proof (zlen_nonneg a). pose proof (zlen_nonneg b).
  assert (forall x y (l : list Z), 0 <= x -> 0 <= y -> zdrop (x + y) l = zdrop y (zdrop x l)) as Hdd by (intros; unfold zdrop; rewrite drop_drop; f_equal; lia).
  assert (zlen (ztake i m ++ a) = i + zlen a) as E by (rewrite zlen_app, zlen_ztake; lia).
  assert (put m i a = (ztake i m ++ a) ++ zdrop (i + zlen a) m) as Ep by (unfold put; by rewrite app_assoc).
  unfold put at 1. rewrite Ep, ztake_app_exact by done. rewrite (Hdd (i + zlen a) (zlen b)) by lia. rewrite zdrop_app_exact by done. rewrite <- (Hdd (i + zlen a) (zlen b) m) by lia.
  unfold put. rewrite zlen_app, <- !app_assoc. by rewrite Z.add_assoc.
Qed.

(** ** In place or elsewhere *)

Section Decode.
Context (m : list Z) (dst value : region) (p : bool).
Context (Hd : 0 <= r_at dst /\ r_at dst + r_len dst <= zlen m) (Hv : 0 <= r_at value /\ 0 <= r_len value /\ r_at value + r_len value <= zlen m).
Context (Hfit : r_len value <= r_len dst).
Context (Halias : r_at dst = r_at value \/ r_at dst + r_len dst <= r_at value \/ r_at value + r_len value <= r_at dst).

Let src : list Z := content m value.

Lemma zlen_src : zlen src = r_len value.
Proof. unfold src, content. rewrite zlen_slice; lia. Qed.
(** What is not read yet has not been overwritten. *)
Lemma content_kept out a b : zlen out <= a -> 0 <= a -> a <= b <= r_len value ->
  slice (put m (r_at dst) out) (r_at value + a) (r_at value + b) = slice src a b.
Proof.
  intros Ho Ha Hb. unfold src, content. rewrite slice_slice by lia.
  apply slice_put_out; lia.
Qed.
Lemma copy_decoded out read stop : zlen out <= read -> 0 <= read <= stop -> stop <= r_len value ->
  copyPlusDecoded (put m (r_at dst) out) (from dst (zlen out)) (mkRegion (r_at value + read) (stop - read)) p
  = (put m (r_at dst) (out ++ (plus_to_space p <$> slice src read stop)), stop - read).
Proof.
  intros Ho Hr Hs. unfold copyPlusDecoded. pose proof (zlen_nonneg out). cbn [from r_len r_at]. rewrite Z.min_r by lia. f_equal. unfold content. cbn [r_at r_len].
  replace (r_at value + read + (stop - read)) with (r_at value + stop) by lia. rewrite content_kept by lia.
  assert (zlen (slice src read stop) = stop - read) as Ez by (rewrite zlen_slice; [lia|lia|rewrite zlen_src; lia]).
  rewrite ztake_ge by lia. rewrite put_app; [done|lia|]. rewrite zlen_fmap. lia.
Qed.

Lemma decode_loop_ok fuel out read : zlen out <= read -> 0 <= read <= r_len value -> r_len value - read < Z.of_nat fuel ->
  decode_loop fuel (put m (r_at dst) out) dst value p (zlen out) read
  = let '(o, ok) := decoded p (zdrop read src) in
    Ret (put m (r_at dst) (out ++ o), zlen out + zlen o, if (ok : bool) then None else Some errBadPercentEncode).
Proof.
  revert out read. induction fuel as [|fuel IH]; intros out read Ho Hr Hf; [lia|]. cbn [decode_loop]. pose proof (zlen_nonneg out) as Hn. pose proof zlen_src as Hsrc.
  unfold assert_or_panic at 1. rewrite !(proj2 (Z.leb_le _ _)) by lia. cbn [andb].
  assert (content (put m (r_at dst) out) (from value read) = zdrop read src) as ->.
  { unfold content. cbn [from r_at r_len]. replace (r_at value + read + (r_len value - read)) with (r_at value + r_len value) by lia.
    rewrite content_kept by lia. unfold slice. apply ztake_ge. rewrite zlen_zdrop; lia. }
  destruct (IndexByte_cases (zdrop read src) PERCENT) as [[E Hno]|(a & z & E & Ha & Ei)].
  - rewrite E. cbn [Z.ltb Z.compare]. unfold from at 2. rewrite copy_decoded by lia.
    pose proof (decoded_app p (zdrop read src) [] Hno) as Ed. rewrite app_nil_r in Ed. cbn [decoded fst snd] in Ed. rewrite app_nil_r in Ed. rewrite Ed.
    assert (slice src read (r_len value) = zdrop read src) as -> by (unfold slice; apply ztake_ge; rewrite zlen_zdrop; lia).
    rewrite zlen_fmap, zlen_zdrop by lia. by rewrite Hsrc.
  - rewrite Ei. pose proof (zlen_nonneg a) as Hza. rewrite (proj2 (Z.ltb_ge _ 0)) by lia.
    assert (zlen (zdrop read src) = zlen a + 1 + zlen z) as Ez by (rewrite E, zlen_app, zlen_cons; lia). rewrite zlen_zdrop in Ez by lia. pose proof (zlen_nonneg z) as Hzz.
    rewrite copy_decoded by lia. assert (slice src read (zlen a + read) = a) as ->.
    { unfold slice. rewrite E. apply ztake_app_exact. lia. }
    set (out1 := out ++ (plus_to_space p <$> a)). assert (zlen out1 = zlen out + zlen a) as E1 by (unfold out1; rewrite zlen_app, zlen_fmap; done).
    replace (zlen out + (zlen a + read - read)) with (zlen out1) by lia. rewrite E, decoded_app by done.
    assert (forall k, 0 <= k < zlen z -> at_ (content (put m (r_at dst) out1) value) (zlen a + read + 1 + k) = at_ z k) as Hat.
    { intros k Hk. unfold at_. enough (zget (content (put m (r_at dst) out1) value) (zlen a + read + 1 + k) = zget z k) as -> by done. unfold content. rewrite zget_slice by lia.
      transitivity (zget (slice (put m (r_at dst) out1) (r_at value + (zlen a + read)) (r_at value + r_len value)) (1 + k)).
      { rewrite zget_slice by lia. f_equal. lia. }
      rewrite content_kept by lia. transitivity (zget (zdrop read src) (zlen a + 1 + k)).
      { rewrite zget_slice, zget_zdrop by lia. f_equal. lia. }
      rewrite E, zget_app_r by lia. replace (zlen a + 1 + k - zlen a) with (1 + k) by lia. unfold zget.
      rewrite !(proj2 (Z.ltb_ge _ 0)) by lia. by replace (Z.to_nat (1 + k)) with (S (Z.to_nat k)) by lia. }
    cbn [decoded]. rewrite Z.eqb_refl. destruct z as [|c1 [|c2 z]].
    1,2: rewrite (proj2 (Z.leb_le _ (zlen a + read + 2))) by (rewrite ?zlen_cons, ?zlen_nil in *; lia); cbn [fst snd]; rewrite app_nil_r; fold out1;
      by rewrite zlen_fmap, E1.
    rewrite !zlen_cons in *. rewrite (proj2 (Z.leb_gt _ (zlen a + read + 2))) by (pose proof (zlen_nonneg z); lia).
    replace (zlen a + read + 1) with (zlen a + read + 1 + 0) by lia. replace (zlen a + read + 2) with (zlen a + read + 1 + 1) by lia.
    rewrite !Hat by (pose proof (zlen_nonneg z); lia). change (at_ (c1 :: c2 :: z) 0) with (Ret c1). change (at_ (c1 :: c2 :: z) 1) with (Ret c2). cbn [mbind outcome_bind].
    pose proof (unhex_range c1) as R1. pose proof (unhex_range c2) as R2. destruct (unhexdigit c1) as [hi okhi], (unhexdigit c2) as [lo oklo]. cbn [fst snd] in *.
    rewrite <- negb_andb. destruct (okhi && oklo); cbn [negb].
    + unfold assert_or_panic. rewrite (proj2 (Z.ltb_lt _ _)) by (pose proof (zlen_nonneg z); lia). rewrite nibbles by done.
      rewrite put_app by (change (zlen [16 * hi + lo]) with 1; pose proof (zlen_nonneg z); lia).
      assert (zlen (out1 ++ [16 * hi + lo]) = zlen out1 + 1) as E2 by (by rewrite zlen_app). rewrite <- E2, IH by (rewrite ?E2; pose proof (zlen_nonneg z); lia).
      assert (zdrop (zlen a + read + 3) src = z) as ->.
      { replace (zlen a + read + 3) with (read + (zlen a + 3)) by lia. assert (zdrop (read + (zlen a + 3)) src = zdrop (zlen a + 3) (zdrop read src)) as -> by (unfold zdrop; rewrite drop_drop; f_equal; lia).
        rewrite E. replace (a ++ PERCENT :: c1 :: c2 :: z) with ((a ++ [PERCENT; c1; c2]) ++ z) by (by rewrite <- app_assoc). apply zdrop_app_exact. by rewrite zlen_app. }
      destruct (decoded p z) as [o ok]. cbn [fst snd]. unfold out1. rewrite <- !app_assoc. cbn [app]. repeat rewrite ?zlen_app, ?zlen_fmap, ?zlen_cons, ?zlen_nil. rewrite Z.add_0_r, !Z.add_assoc. done.
    + cbn [fst snd]. rewrite app_nil_r. fold out1. by rewrite zlen_fmap, E1.
Qed.

Lemma copy_decoded_ok : CopyDecodedPercentURL m dst value p
  = let '(o, ok) := decoded p src in Ret (put m (r_at dst) o, zlen o, if (ok : bool) then None else Some errBadPercentEncode).
Proof.
  unfold CopyDecodedPercentURL, assert_or_panic. rewrite (proj2 (Z.leb_le _ _)) by done. pose proof (decode_loop_ok (S (Z.to_nat (r_len value))) [] 0) as H.
  rewrite put_nil in H by lia. cbn [app] in H. change (zlen []) with 0 in H. change (zdrop 0 src) with src in H. rewrite H by lia. by destruct (decoded p src).
Qed.

End Decode.

(** ** Comparing *)

Lemma head_equal ok (x w : Z) (o want : list Z) : ok && bool_decide (x :: o = w :: want) = if w =? x then ok && bool_decide (o = want) else false.
Proof.
  destruct (Z.eqb_spec w x) as [-> |Hne].
  - f_equal. apply bool_decide_ext. split; congruence.
  - rewrite bool_decide_false by congruence. apply andb_false_r.
Qed.
Lemma equal_decoded_ok p value want : EqualDecodedPercentURL value want p = snd (decoded p value) && bool_decide (fst (decoded p value) = want).
Proof.
  unfold EqualDecodedPercentURL. remember (length value) as n eqn:En. revert value want En. induction n as [n IH] using lt_wf_ind. intros value want ->.
  destruct value as [|c value]; [destruct want; [done|]; cbn [equal_loop]; rewrite zlen_cons; pose proof (zlen_nonneg want); by rewrite (proj2 (Z.eqb_neq _ 0)) by lia|].
  cbn [equal_loop decoded]. destruct (c =? PERCENT).
  - destruct value as [|c1 [|c2 value]]; [done|done|]. pose proof (unhex_range c1) as R1. pose proof (unhex_range c2) as R2.
    destruct (unhexdigit c1) as [hi okhi], (unhexdigit c2) as [lo oklo]. cbn [fst snd] in *. rewrite <- negb_andb. destruct (okhi && oklo); cbn [negb]; [|done].
    pose proof (fun w => IH (length value) ltac:(cbn; lia) value w eq_refl) as Hv. destruct (decoded p value) as [o ok]. cbn [fst snd] in *.
    destruct want as [|w want]; [by rewrite andb_comm|]. rewrite head_equal, nibbles by done. destruct (w =? _); [apply Hv|done].
  - pose proof (fun w => IH (length value) ltac:(cbn; lia) value w eq_refl) as Hv. destruct (decoded p value) as [o ok]. cbn [fst snd] in *.
    destruct want as [|w want]; [by rewrite andb_comm|]. rewrite head_equal. destruct (w =? _); [apply Hv|done].
Qed.

(** C36: Decoding the percent escapes of a text is exact. [CopyDecodedPercentURL] writes exactly the decoded octets to its
    destination, which may be the text itself, leaves the rest of the memory alone, reports how many there are, and fails
    exactly on a bad or cut escape, with what came before it decoded; and [EqualDecodedPercentURL], which decodes nothing, says
    that a text is the encoding of another exactly if decoding the one gives the other. *)
Theorem http_percent_decoding_exact m dst value want plusAsSpace :
  0 <= r_at dst -> 0 <= r_at value -> 0 <= r_len value <= r_len dst -> r_at dst + r_len dst <= zlen m -> r_at value + r_len value <= zlen m ->
  r_at dst = r_at value \/ r_at dst + r_len dst <= r_at value \/ r_at value + r_len value <= r_at dst ->
  exists m' n err, CopyDecodedPercentURL m dst value plusAsSpace = Ret (m', n, err) /\
    m' = put m (r_at dst) (fst (decoded plusAsSpace (content m value))) /\ n = zlen (fst (decoded plusAsSpace (content m value))) /\ n <= r_len value /\
    (err = None <-> snd (decoded plusAsSpace (content m value)) = true) /\
    (EqualDecodedPercentURL (content m value) want plusAsSpace = true <-> err = None /\ slice m' (r_at dst) (r_at dst + n) = want).
Proof.
  intros H1 H2 H3 H4 H5 Ha. pose proof (copy_decoded_ok m dst value plusAsSpace ltac:(lia) ltac:(lia) ltac:(lia) Ha) as E.
  pose proof (decoded_len plusAsSpace (content m value)) as Hl. rewrite equal_decoded_ok. unfold content in Hl at 2. rewrite zlen_slice in Hl by lia.
  destruct (decoded plusAsSpace (content m value)) as [o ok]. cbn [fst snd] in *. eexists _, _, _. split; [exact E|]. split; [done|]. split; [done|]. split; [lia|].
  split; [by destruct ok|]. rewrite slice_put_in by lia. rewrite andb_true_iff, bool_decide_eq_true. destruct ok; split; intros [? ?]; done.
Qed.

Definition demo_url : list Z := [47; 97; 37; 50; 48; 43; 98; 37; 52; 49].  (* /a%20+b%41 *)
Lemma http_percent_decoding_exact_witness :
  exists m' n err, CopyDecodedPercentURL demo_url (mkRegion 1 9) (mkRegion 1 9) true = Ret (m', n, err) /\
    m' = put demo_url 1 (fst (decoded true (content demo_url (mkRegion 1 9)))) /\ n = zlen (fst (decoded true (content demo_url (mkRegion 1 9)))) /\ n <= 9 /\
    (err = None <-> snd (decoded true (content demo_url (mkRegion 1 9))) = true) /\
    (EqualDecodedPercentURL (content demo_url (mkRegion 1 9)) [97; 32; 32; 98; 65] true = true <-> err = None /\ slice m' 1 (1 + n) = [97; 32; 32; 98; 65]).
Proof.
  apply (http_percent_decoding_exact demo_url (mkRegion 1 9) (mkRegion 1 9)); cbn [r_at r_len]; [lia|lia|lia|vm_compute; discriminate|vm_compute; discriminate|by left].
Defined.
Example demo_url_decoded : EqualDecodedPercentURL (content demo_url (mkRegion 1 9)) [97; 32; 32; 98; 65] true = true.
Proof. reflexivity. Qed.

End HttpUrl.
