(* ===== verification/HttpForm.v ===== *)
(** * Forms and queries

    Modules: [HttpForm] has the definitions, [HttpFormProps] parsing, [HttpFormDecode] decoding
    and the theorem. *)
From stdpp Require Import strings.
From S2P Require Import Prelude Errors Bytes HttpKV HttpHeader HttpKVThms HttpParse HttpUrl.

(** ** Forms and queries ([src/http/httpraw/form.go])

    A form is a store of pairs. Parsing finds the pairs without copying; [Decode] decodes
    them where they are. A nil slice is [None]. *)
Module HttpForm.
Import Bytes HttpKV HttpUrl.
Open Scope Z_scope.
Open Scope list_scope.

Definition AMP : Z := 38.
Definition EQUALS : Z := 61.

Record Form := mkForm { fkv : kvBuffer }.

Definition FEnableBufferGrowth (enableGrowth : bool) (f : Form) : Form := mkForm (EnableBufferGrowth enableGrowth (fkv f)).
Definition FReset (b : option (list Z * Z)) (capKV : Z) (f : Form) : Form := mkForm (Reset b capKV (fkv f)).
Definition FBufferUsed (f : Form) : Z := BufferUsed (fkv f).
Definition FLen (f : Form) : Z := Len (fkv f).
Definition Pair (i : Z) (f : Form) : outcome (list Z * option (list Z)) := At i (fkv f).
Definition FGet (key : list Z) (f : Form) : outcome (option (list Z)) := Get key (fkv f).
Definition Has (key : list Z) (f : Form) : outcome bool := Present key (fkv f).

(** ** Parsing *)

(** The next pair that is not empty: its key, its value and the rest of the query. *)
Fixpoint next_query (fuel : nat) (kvb : kvBuffer) (query : bslice) : outcome (option (bslice * option bslice * option bslice)) :=
  match fuel with
  | O => Panic
  | S fuel =>
      if s_len query =? 0 then Ret None
      else
      let amp := HttpHeader.IndexByte (octets kvb query) AMP in
      '(part, rest) ← (if 0 <=? amp then p ← reslice query 0 amp; r ← reslice query (amp + 1) (s_len query); Ret (p, Some r)
                       else Ret (query, None));
      if s_len part =? 0 then match rest with None => Ret None | Some r => next_query fuel kvb r end
      else
        let eq := HttpHeader.IndexByte (octets kvb part) EQUALS in
        if 0 <=? eq then k ← reslice part 0 eq; v ← reslice part (eq + 1) (s_len part); Ret (Some (k, Some v, rest))
        else Ret (Some (part, None, rest))
  end.
Definition NextQueryPair (kvb : kvBuffer) (query : option bslice) : outcome (option (bslice * option bslice * option bslice)) :=
  match query with None => Ret None | Some q => next_query (S (Z.to_nat (s_len q))) kvb q end.

Section Grow.
Context {RT : GoRuntime}.

Definition FReadFromBytes (b : list Z) (f : Form) : Form * option error :=
  let '(k, err) := ReadFromBytes b (fkv f) in (mkForm k, err).
Definition FReadLimited (r : Z -> list Z * option error) (limit : Z) (f : Form) : outcome (Form * Z * option error) :=
  '(k, n, err) ← ReadLimited r limit (fkv f); Ret (mkForm k, n, err).

Fixpoint parse_loop (fuel : nat) (query : option bslice) (kvb : kvBuffer) : outcome (kvBuffer * option error) :=
  match fuel with
  | O => Panic
  | S fuel =>
      r ← NextQueryPair kvb query;
      match r with
      | None => Ret (kvb, None)
      | Some (key, value, rest) =>
          '(kvb, ok) ← setInternal (Some key) value kvb;
          if (ok : bool) then parse_loop fuel rest kvb else Ret (kvb, Some ErrBufferExhausted)
      end
  end.
Definition FParse (f : Form) : outcome (Form * option error) :=
  let kvb := discardKVs (fkv f) in
  '(kvb, err) ← parse_loop (S (Z.to_nat (blen kvb))) (Some (whole kvb)) kvb;
  Ret (mkForm kvb, err).
Definition FParseBytes (b : list Z) (f : Form) : outcome (Form * option error) :=
  let f := FReset None 0 f in
  if zlen b =? 0 then Ret (f, None)
  else
  let '(f, err) := FReadFromBytes b f in
  match err with Some e => Ret (f, Some e) | None => FParse f end.

End Grow.

(** ** Decoding *)

Definition view_slice (kvb : kvBuffer) (v : view) : outcome bslice := reslice (whole kvb) (v_start v) (u16 (v_start v + v_len v)).
Definition slice_region (s : bslice) : region := mkRegion (s_off s) (s_len s).
Definition decode_slice (s : bslice) (kvb : kvBuffer) : outcome (kvBuffer * Z * option error) :=
  '(m, n, err) ← CopyDecodedPercentURL (mem kvb) (slice_region s) (slice_region s) true;
  Ret (with_buf m (blen kvb) kvb, n, err).

(** Pair [i]. *)
Definition decode_pair (i : Z) (kvb : kvBuffer) : outcome (kvBuffer * option error) :=
  p ← pair_at kvb i;
  k ← view_slice kvb (p_key p);
  v ← (if HasValue p then s ← view_slice kvb (p_value p); Ret (Some s) else Ret None);
  '(kvb, nk, err) ← decode_slice k kvb;
  match (err : option error) with
  | Some e => Ret (kvb, Some e)
  | None =>
      match v with
      | Some vs =>
          if s_len vs =? 0 then
            if negb (nk =? s_len k) then k' ← reslice k 0 nk; kvb ← setAt i (Some k') v kvb; Ret (kvb, None) else Ret (kvb, None)
          else
            '(kvb, nv, err) ← decode_slice vs kvb;
            match (err : option error) with
            | Some e => Ret (kvb, Some e)
            | None =>
                if negb (nk =? s_len k) || negb (nv =? s_len vs) then
                  k' ← reslice k 0 nk; v' ← reslice vs 0 nv; kvb ← setAt i (Some k') (Some v') kvb; Ret (kvb, None)
                else Ret (kvb, None)
            end
      | None => if negb (nk =? s_len k) then k' ← reslice k 0 nk; kvb ← setAt i (Some k') None kvb; Ret (kvb, None) else Ret (kvb, None)
      end
  end.
Fixpoint decode_from (n : nat) (i : Z) (kvb : kvBuffer) : outcome (kvBuffer * option error) :=
  match n with
  | O => Ret (kvb, None)
  | S n =>
      '(kvb, err) ← decode_pair i kvb;
      match err with Some e => Ret (kvb, Some e) | None => decode_from n (i + 1) kvb end
  end.
Definition Decode (f : Form) : outcome (Form * option error) :=
  '(kvb, err) ← decode_from (length (kvs (fkv f))) 0 (fkv f); Ret (mkForm kvb, err).

(** ** Text *)

Fixpoint append_pairs (kvb : kvBuffer) (n : nat) (i : Z) (dst : list Z) : outcome (list Z) :=
  match n with
  | O => Ret dst
  | S n =>
      '(key, value) ← At i kvb;
      let dst := (if 0 <? i then dst ++ [AMP] else dst) ++ key in
      append_pairs kvb n (i + 1) (match value with Some v => dst ++ [EQUALS] ++ v | None => dst end)
  end.
Definition FAppendKeyValues (dst : list Z) (f : Form) : outcome (list Z) :=
  append_pairs (fkv f) (length (kvs (fkv f))) 0 dst.

End HttpForm.

(** ** Forms: parsing *)
Module HttpFormProps.
Import Bytes HttpKV HttpKVProps HttpKVThms HttpHeader HttpParseProps HttpUrl HttpForm.
Open Scope Z_scope.
Open Scope list_scope.

(** ** The pairs of a text *)

Fixpoint split_on (c : Z) (l : list Z) : list (list Z) :=
  match l with
  | [] => [[]]
  | x :: l => if x =? c then [] :: split_on c l else match split_on c l with [] => [[x]] | h :: t => (x :: h) :: t end
  end.
(** A text without [=] is a key without value. *)
Definition cut_equals (l : list Z) : list Z * list Z :=
  let i := IndexByte l EQUALS in if i <? 0 then (l, []) else (ztake i l, zdrop (i + 1) l).
Definition form_pairs (l : list Z) : list (list Z * list Z) := cut_equals <$> filter (fun x => x <> []) (split_on AMP l).

Lemma split_none c l : (c ∉ l) -> split_on c l = [l].
Proof.
  induction l as [|x l IH]; [done|]. rewrite not_elem_of_cons. intros [Hx Hl]. cbn [split_on]. rewrite (proj2 (Z.eqb_neq x c)) by congruence. by rewrite IH.
Qed.
Lemma split_first c a l : (c ∉ a) -> split_on c (a ++ c :: l) = a :: split_on c l.
Proof.
  induction a as [|x a IH]; intros Ha; cbn [app split_on]; [by rewrite Z.eqb_refl|]. apply not_elem_of_cons in Ha as [Hx Ha].
  rewrite (proj2 (Z.eqb_neq x c)) by congruence. by rewrite IH.
Qed.
Lemma form_pairs_nil : form_pairs [] = []. Proof. done. Qed.
Lemma form_pairs_first a l : (AMP ∉ a) -> form_pairs (a ++ AMP :: l) = (if decide (a = []) then [] else [cut_equals a]) ++ form_pairs l.
Proof. intros Ha. unfold form_pairs. rewrite split_first by done. rewrite filter_cons. repeat case_decide; done. Qed.
Lemma form_pairs_last a : (AMP ∉ a) -> form_pairs a = if decide (a = []) then [] else [cut_equals a].
Proof. intros Ha. unfold form_pairs. rewrite split_none by done. rewrite filter_cons. repeat case_decide; done. Qed.

(** ** Slices *)

(** The slice [s] of the buffer has the octets [l] from [k] on; one without capacity may be anywhere before. *)
Record is_part (kvb : kvBuffer) (s : bslice) (k : Z) (l : list Z) : Prop := mkIsPart {
  ip_len : s_len s = zlen l;
  ip_off : 0 <= s_off s <= k;
  ip_at : 0 < s_cap s -> s_off s = k;
  ip_cap : zlen l <= s_cap s;
  ip_room : k + zlen l <= blen kvb;
  ip_octets : octets kvb s = l
}.
Lemma part_sub kvb s k l x y : is_part kvb s k l -> 0 <= x <= y -> y <= zlen l ->
  exists v, reslice s x y = Ret v /\ is_part kvb v (k + x) (slice l x y).
Proof.
  intros [E1 E2 E3 E4 E5 E6] Hx Hy. unfold reslice, assert_or_panic. rewrite !(proj2 (Z.leb_le _ _)) by lia. cbn [andb]. eexists. split; [done|].
  assert (zlen (slice l x y) = y - x) as Es by (rewrite zlen_slice; lia).
  destruct (Z.eqb_spec (s_cap s - x) 0) as [E0|E0]; split; cbn [s_off s_len s_cap]; try lia.
  - unfold octets. cbn [s_off s_len]. replace y with x by lia. unfold slice. by rewrite !ztake_nonpos by lia.
  - unfold octets in *. cbn [s_off s_len]. rewrite <- E6, E1, slice_slice by lia. f_equal; lia.
Qed.
(** Its view. *)
Lemma part_view kvb s k l : is_part kvb s k l -> blen kvb <= maxBufLen -> exists w, bytes2tok kvb s = Ret w /\
  view_ok (blen kvb) w /\ text (mem kvb) w = l /\ v_len w = zlen l /\ (zlen l = 0 \/ v_start w = k) /\ v_start w <= k.
Proof.
  intros [E1 E2 E3 E4 E5 E6] Hm. unfold maxBufLen in Hm. pose proof (zlen_nonneg l). unfold bytes2tok, assert_or_panic. rewrite !(proj2 (Z.leb_le _ _)) by lia. cbn [andb].
  eexists. split; [done|]. rewrite !u16_small by (split; lia). cbn [v_start v_len]. split; [|split; [exact E6|lia]].
  destruct (Z.eq_dec (zlen l) 0); split; cbn [v_start v_len]; lia.
Qed.

(** ** The loop *)

(** The next pair of the text [l] at [k], and the rest of it. *)
Definition found (kvb : kvBuffer) (k : Z) (l : list Z) (r : option (bslice * option bslice * option bslice)) : Prop :=
  match r with
  | None => form_pairs l = []
  | Some (key, value, rest) => exists kt vt k1 k2 k3 l',
      form_pairs l = (kt, vt) :: form_pairs l' /\ zlen l' < zlen l /\ k <= k1 /\ k1 + zlen kt <= k2 /\ k2 + zlen vt <= k3 /\
      is_part kvb key k1 kt /\ (match value with Some v => is_part kvb v k2 vt /\ 0 < k2 | None => vt = [] end) /\
      (match rest with Some q => is_part kvb q k3 l' | None => l' = [] end)
  end.

(** A pair of the text [a] at [k], which is not empty. *)
Lemma pair_found kvb s k a l' rest r : is_part kvb s k a -> 0 <= k -> zlen l' < zlen r ->
  form_pairs r = cut_equals a :: form_pairs l' -> (match rest with Some q => is_part kvb q (k + zlen a + 1) l' | None => l' = [] end) ->
  exists x, (let eq := IndexByte (octets kvb s) EQUALS in
    if 0 <=? eq then k ← reslice s 0 eq; v ← reslice s (eq + 1) (s_len s); Ret (Some (k, Some v, rest)) else Ret (Some (s, None, rest))) = Ret x /\ found kvb k r x.
Proof.
  intros Hp Hk Hl Hf Hr. rewrite (ip_octets _ _ _ _ Hp), (ip_len _ _ _ _ Hp). cbn zeta. unfold cut_equals in Hf. pose proof (IndexByte_bound a EQUALS) as Hb.
  set (e := IndexByte a EQUALS) in *. pose proof (zlen_nonneg a). destruct (Z.leb_spec 0 e) as [He|He].
  - rewrite (proj2 (Z.ltb_ge e 0)) in Hf by done.
    destruct (part_sub _ _ _ _ 0 e Hp) as (kk & -> & Hkk); [lia|lia|]. destruct (part_sub _ _ _ _ (e + 1) (zlen a) Hp) as (vv & Ev & Hvv); [lia|lia|].
    cbn [mbind outcome_bind]. rewrite Ev. cbn [mbind outcome_bind]. eexists. split; [done|].
    assert (slice a 0 e = ztake e a) as Es by (unfold slice; by rewrite Z.sub_0_r). assert (slice a (e + 1) (zlen a) = zdrop (e + 1) a) as Ed by (unfold slice; apply ztake_ge; rewrite zlen_zdrop; lia).
    rewrite Es, Z.add_0_r in Hkk. rewrite Ed in Hvv. exists (ztake e a), (zdrop (e + 1) a), k, (k + (e + 1)), (k + zlen a + 1), l'.
    rewrite zlen_ztake, zlen_zdrop by lia. repeat (split; [first [done|lia]|]). split; [split; [done|lia]|done].
  - rewrite (proj2 (Z.ltb_lt e 0)) in Hf by done. eexists. split; [done|]. exists a, [], k, (k + zlen a), (k + zlen a + 1), l'. rewrite zlen_nil.
    repeat (split; [first [done|lia]|]). done.
Qed.
Lemma found_skip kvb k z r : found kvb (k + 1) z r -> found kvb k (AMP :: z) r.
Proof.
  intros Hf. pose proof (form_pairs_first [] z ltac:(apply not_elem_of_nil)) as E. cbn [app] in E. rewrite decide_True in E by done. cbn [app] in E.
  destruct r as [[[key value] rest]|]; cbn [found] in *; [|by rewrite E]. destruct Hf as (kt & vt & k1 & k2 & k3 & l' & F1 & F2 & F3 & F4).
  exists kt, vt, k1, k2, k3, l'. rewrite E, zlen_cons. split; [done|]. split; [lia|]. split; [lia|exact F4].
Qed.

Lemma next_query_ok fuel kvb s k l : is_part kvb s k l -> 0 <= k -> zlen l < Z.of_nat fuel ->
  exists r, next_query fuel kvb s = Ret r /\ found kvb k l r.
Proof.
  revert s k l. induction fuel as [|fuel IH]; intros s k l Hp Hk Hf; [pose proof (zlen_nonneg l); lia|]. cbn [next_query].
  rewrite (ip_len _ _ _ _ Hp), (ip_octets _ _ _ _ Hp). destruct (Z.eqb_spec (zlen l) 0) as [E0|E0].
  { apply zlen_zero_nil in E0 as ->. by exists None. }
  destruct (IndexByte_cases l AMP) as [[-> Hno]|(a & z & El & Ha & Ei)].
  - cbn [Z.leb Z.compare mbind outcome_bind]. rewrite (ip_len _ _ _ _ Hp), (proj2 (Z.eqb_neq _ 0)) by done.
    assert (l <> []) as Hl by (by intros ->). rewrite <- (ip_len _ _ _ _ Hp).
    apply (pair_found kvb s k l [] None l); [done|done|rewrite zlen_nil; pose proof (zlen_nonneg l); lia|by rewrite form_pairs_last, decide_False|done].
  - rewrite Ei. pose proof (zlen_nonneg a). pose proof (zlen_nonneg z). rewrite (proj2 (Z.leb_le 0 _)) by done.
    assert (zlen l = zlen a + 1 + zlen z) as Ez by (rewrite El, zlen_app, zlen_cons; lia).
    destruct (part_sub _ _ _ _ 0 (zlen a) Hp) as (pa & -> & Hpa); [lia|lia|]. destruct (part_sub _ _ _ _ (zlen a + 1) (zlen l) Hp) as (pz & Epz & Hpz); [lia|lia|].
    cbn [mbind outcome_bind]. rewrite Epz. cbn [mbind outcome_bind].
    assert (slice l 0 (zlen a) = a) as Esa by (unfold slice; rewrite Z.sub_0_r, El; by apply ztake_app_exact).
    assert (slice l (zlen a + 1) (zlen l) = z) as Esz.
    { unfold slice. rewrite El. replace (a ++ AMP :: z) with ((a ++ [AMP]) ++ z) by (by rewrite <- app_assoc). rewrite zdrop_app_exact by (by rewrite zlen_app). apply ztake_ge. rewrite !zlen_app. change (zlen [AMP]) with 1. lia. }
    rewrite Esa, Z.add_0_r in Hpa. rewrite Esz in Hpz. rewrite (ip_len _ _ _ _ Hpa). destruct (Z.eqb_spec (zlen a) 0) as [Ea|Ea].
    + apply zlen_zero_nil in Ea as ->. change (zlen []) with 0 in Hpz. destruct (IH pz (k + (0 + 1)) z Hpz) as (r & -> & Hr); [lia|rewrite zlen_nil in *; lia|].
      exists r. split; [done|]. rewrite El. by apply found_skip.
    + assert (a <> []) as Hna by (by intros ->). rewrite <- (ip_len _ _ _ _ Hpa).
      apply (pair_found kvb pa k a z (Some pz) l); [done|done|lia| |].
      * rewrite El, form_pairs_first, decide_False by done. done.
      * by rewrite <- Z.add_assoc.
Qed.

(** ** The store after parsing *)

Definition shows (m : list Z) (p : pairKV) (f : list Z * list Z) : Prop := text m (p_key p) = fst f /\ vtext m p = snd f.
(** Nothing of the pair is at [n] or behind. *)
Definition ends_before (n : Z) (p : pairKV) : Prop :=
  (v_len (p_key p) = 0 \/ v_start (p_key p) + v_len (p_key p) <= n) /\ (v_len (p_value p) = 0 \/ v_start (p_value p) + v_len (p_value p) <= n).

Section Parse.
Context {RT : GoRuntime}.

Lemma add_pair kvb p : kv_wf kvb -> pair_ok (blen kvb) p -> Forall (papart p) (kvs kvb) -> kv_wf (append_kv p kvb).
Proof.
  intros [H1 H2 H3 H4] Hp Ha. split; [done|done|by apply Forall_app_2; [|apply Forall_singleton]|].
  cbn [append_kv kvs]. intros i j x y Hij Hx Hy. rewrite lookup_app_Some in Hx, Hy. destruct Hx as [Hx|[Hxl Hx]], Hy as [Hy|[Hyl Hy]].
  - by apply (H4 i j).
  - apply list_lookup_singleton_Some in Hy as [_ <-]. apply papart_sym. by eapply Forall_lookup_1 in Ha.
  - apply list_lookup_singleton_Some in Hx as [_ <-]. by eapply Forall_lookup_1 in Ha.
  - apply list_lookup_singleton_Some in Hx as [? <-], Hy as [? <-]. lia.
Qed.

Lemma is_part_ext kvb kvb' s k l : blen kvb' = blen kvb -> mem kvb' = mem kvb -> is_part kvb s k l -> is_part kvb' s k l.
Proof. intros E1 E2 [H1 H2 H3 H4 H5 H6]. split; [done|done|done|done|by rewrite E1|]. unfold octets in *. by rewrite E2. Qed.

(** A pair of views that is added to the store. *)
Lemma set_internal_ok kvb key value k1 kt k2 vt : kv_wf kvb -> BufferGrowthEnabled kvb = true -> 0 <= k1 -> k1 + zlen kt <= k2 ->
  is_part kvb key k1 kt -> (match value with Some v => is_part kvb v k2 vt /\ 0 < k2 | None => vt = [] end) ->
  exists p, setInternal (Some key) value kvb = Ret (append_kv p (or_flags flagKVAppended kvb), true) /\ pair_ok (blen kvb) p /\ shows (mem kvb) p (kt, vt) /\
    (v_len (p_key p) = 0 \/ v_start (p_key p) = k1) /\ v_len (p_key p) = zlen kt /\ (v_len (p_value p) = 0 \/ v_start (p_value p) = k2) /\ v_len (p_value p) = zlen vt.
Proof.
  intros Hw Hg Hk H12 Hkey Hval. pose proof Hw as [[W0 W1] W2 _ _]. pose proof (zlen_nonneg kt). unfold setInternal.
  assert (canAddOneKV kvb = true) as -> by (unfold canAddOneKV; unfold BufferGrowthEnabled, HasAny in Hg; rewrite negb_involutive in Hg; by rewrite Hg, orb_true_r).
  cbn [negb view_]. change (bytes2tok (or_flags flagKVAppended kvb) ?x) with (bytes2tok kvb x).
  destruct (part_view kvb key k1 kt Hkey W2) as (w & -> & Vw & Tw & Lw & Sw & _). cbn [mbind outcome_bind].
  assert (exists u, view_ (or_flags flagKVAppended kvb) value = Ret u /\ view_ok (blen kvb) u /\ (if HasValue (mkPair w u) then text (mem kvb) u else []) = vt /\
    v_len u = zlen vt /\ (zlen vt = 0 \/ v_start u = k2)) as (u & -> & Vu & Tu & Lu & Su).
  { destruct value as [v|].
    - destruct Hval as [Hv Hk2]. destruct (part_view kvb v k2 vt Hv W2) as (u & Eu & Vu & Tu & Lu & Su & _). exists u. split; [exact Eu|]. split; [done|]. split; [|done].
      unfold HasValue. cbn [p_value]. destruct (Z.ltb_spec 0 (v_start u)); [done|]. destruct Su as [E|E]; [|lia]. by apply zlen_zero_nil in E as ->.
    - subst vt. exists zero_view. split; [done|]. split; [by apply zero_view_ok|]. split; [done|]. split; [done|by left]. }
  cbn [mbind outcome_bind]. exists (mkPair w u). split; [done|]. unfold shows, vtext. cbn [p_key p_value fst snd]. split; [|split; [done|lia]].
  split; [done|]. split; [done|]. cbn [p_key p_value]. unfold apart. lia.
Qed.

Lemma parse_loop_ok fuel kvb q k l : kv_wf kvb -> BufferGrowthEnabled kvb = true -> 0 <= k -> Forall (ends_before k) (kvs kvb) ->
  (match q with Some s => is_part kvb s k l | None => l = [] end) -> zlen l < Z.of_nat fuel ->
  exists kvb' ps, parse_loop fuel q kvb = Ret (kvb', None) /\ kv_wf kvb' /\ kvs kvb' = kvs kvb ++ ps /\ mem kvb' = mem kvb /\ blen kvb' = blen kvb /\
    Forall2 (shows (mem kvb)) ps (form_pairs l).
Proof.
  revert kvb q k l. induction fuel as [|fuel IH]; intros kvb q k l Hw Hg Hk Hends Hq Hf; [pose proof (zlen_nonneg l); lia|]. cbn [parse_loop].
  assert (exists r, NextQueryPair kvb q = Ret r /\ found kvb k l r) as (r & -> & Hr).
  { destruct q as [s|]; [|subst l; by exists None]. cbn [NextQueryPair]. apply next_query_ok; [done|done|]. rewrite (ip_len _ _ _ _ Hq). pose proof (zlen_nonneg l). lia. }
  cbn [mbind outcome_bind]. destruct r as [[[key value] rest]|]; cbn [found] in Hr.
  2: { exists kvb, []. rewrite Hr, app_nil_r. repeat (split; [done|]). constructor. }
  destruct Hr as (kt & vt & k1 & k2 & k3 & l' & F1 & F2 & F3 & F4 & F5 & Hkey & Hval & Hrest).
  destruct (set_internal_ok kvb key value k1 kt k2 vt Hw Hg ltac:(lia) F4 Hkey Hval) as (p & -> & Pok & Psh & S1 & L1 & S2 & L2). cbn [mbind outcome_bind].
  set (kvb1 := append_kv p (or_flags flagKVAppended kvb)). pose proof (zlen_nonneg kt). pose proof (zlen_nonneg vt).
  assert (kv_wf (or_flags flagKVAppended kvb)) as Hwo by (destruct Hw; by split).
  destruct (IH kvb1 rest k3 l') as (kvb' & ps & -> & Hw' & Ek & Em & El & Hps).
  - apply add_pair; [done|done|]. cbn [or_flags with_flags kvs]. eapply Forall_impl; [exact Hends|]. intros q' [Q1 Q2]. unfold papart, apart. lia.
  - unfold BufferGrowthEnabled, HasAny in *. change (flags kvb1) with (Z.lor (flags kvb) flagKVAppended). by rewrite Z.land_lor_distr_l, Z.lor_0_r.
  - lia.
  - cbn [kvb1 append_kv kvs or_flags with_flags]. apply Forall_app_2; [eapply Forall_impl; [exact Hends|]; intros q' [Q1 Q2]; unfold ends_before; lia|].
    apply Forall_singleton. unfold ends_before. lia.
  - destruct rest; [by apply (is_part_ext kvb)|done].
  - lia.
  - exists kvb', (p :: ps). split; [done|]. split; [done|]. split; [rewrite Ek; exact (eq_sym (app_assoc _ [_] _))|]. split; [done|]. split; [done|]. rewrite F1. by constructor.
Qed.

End Parse.

End HttpFormProps.

(** ** Forms: decoding in place *)
Module HttpFormDecode.
Import Bytes HttpKV HttpKVProps HttpKVThms HttpHeader HttpParseProps HttpUrl HttpForm HttpFormProps.
Open Scope Z_scope.
Open Scope list_scope.

Definition dec (l : list Z) : list Z * bool := decoded true l.

(** ** One view *)

Record sized (kvb : kvBuffer) : Prop := mkSized { sz_len : 0 <= blen kvb <= bcap kvb; sz_max : blen kvb <= maxBufLen }.
Lemma wf_sized kvb : kv_wf kvb -> sized kvb.
Proof. by intros [H1 H2 _ _]. Qed.

Lemma view_part kvb v : sized kvb -> view_ok (blen kvb) v -> exists s, (forall kvb', bcap kvb' = bcap kvb -> view_slice kvb' v = Ret s) /\
  forall kvb', bcap kvb' = bcap kvb -> blen kvb' = blen kvb -> is_part kvb' s (v_start v) (text (mem kvb') v).
Proof.
  intros [[H0 Hc] Hm] Hv. pose proof Hv as [V1 V2 V3]. unfold maxBufLen in Hm. unfold view_slice, reslice, whole, assert_or_panic. cbn [s_cap s_off s_len].
  rewrite u16_small by (split; lia). eexists. split.
  - intros kvb' ->. rewrite !(proj2 (Z.leb_le _ _)) by lia. cbn [andb]. done.
  - intros kvb' Ec El. assert (zlen (text (mem kvb') v) = v_len v) as Et by (apply (zlen_text (blen kvb)); [done|unfold bcap in *; lia]).
    split; cbn [s_len s_off s_cap]; try lia; [destruct (Z.eqb_spec (bcap kvb - v_start v) 0); lia..|].
    unfold octets, text. cbn [s_off s_len]. destruct (Z.eqb_spec (bcap kvb - v_start v) 0); [|f_equal; lia].
    replace (v_start v + v_len v) with (v_start v) by lia. unfold slice. by rewrite !ztake_nonpos by lia.
Qed.

Lemma decode_slice_ok kvb s k l : sized kvb -> 0 <= k -> is_part kvb s k l ->
  decode_slice s kvb = Ret (with_buf (put (mem kvb) k (fst (dec l))) (blen kvb) kvb, zlen (fst (dec l)), if snd (dec l) then None else Some errBadPercentEncode).
Proof.
  intros [[H0 Hc] Hm] Hk [E1 E2 E3 E4 E5 E6]. unfold bcap in Hc. pose proof (zlen_nonneg l). unfold decode_slice.
  rewrite copy_decoded_ok by (cbn [slice_region r_at r_len]; auto with lia). change (content (mem kvb) (slice_region s)) with (octets kvb s). rewrite E6. fold (dec l).
  destruct (Z.eq_dec (zlen l) 0) as [E0|E0].
  - apply zlen_zero_nil in E0 as ->. cbn [dec decoded fst snd mbind outcome_bind slice_region r_at]. by rewrite !put_nil by lia.
  - destruct (dec l) as [o ok]. cbn [mbind outcome_bind fst snd slice_region r_at]. by rewrite E3 by lia.
Qed.

(** ** One pair *)

Section Pair.
Context (kvb : kvBuffer) (i : nat) (p : pairKV) (ko vo : list Z).
Context (Hw : kv_wf kvb) (Hi : kvs kvb !! i = Some p) (Hko : zlen ko <= v_len (p_key p)) (Hvo : zlen vo <= v_len (p_value p)).

Let m1 : list Z := put (mem kvb) (v_start (p_key p)) ko.
Let m2 : list Z := put m1 (v_start (p_value p)) vo.

Lemma pair_views : view_ok (blen kvb) (p_key p) /\ view_ok (blen kvb) (p_value p) /\ apart (p_key p) (p_value p) /\ blen kvb <= zlen (mem kvb).
Proof. destruct Hw as [[_ Hc] _ Hp _]. by destruct (Forall_lookup_1 _ _ _ _ Hp Hi) as (? & ? & ?). Qed.
Lemma m_len : zlen m1 = zlen (mem kvb) /\ zlen m2 = zlen (mem kvb).
Proof.
  destruct pair_views as ([] & [] & _ & Hc). pose proof (zlen_nonneg ko). pose proof (zlen_nonneg vo).
  assert (zlen m1 = zlen (mem kvb)) as E by (apply zlen_put; lia). split; [done|]. unfold m2. rewrite zlen_put; lia.
Qed.
Lemma value_kept : text m1 (p_value p) = text (mem kvb) (p_value p).
Proof. destruct pair_views as (V1 & V2 & Ha & Hc). apply (text_put _ _ (p_key p) _ (blen kvb)); [done|done|done|by apply apart_sym|done]. Qed.
Lemma key_text : text m2 (mkView (v_start (p_key p)) (zlen ko)) = ko.
Proof.
  destruct pair_views as (V1 & V2 & Ha & Hc). pose proof V1 as []. destruct m_len as [E1 _]. pose proof (zlen_nonneg ko). unfold m2.
  rewrite (text_put m1 _ (p_value p) vo (blen kvb)); [|split; cbn [v_start v_len]; lia|done|lia|by apply apart_shrink|lia]. apply text_put_same; lia.
Qed.
Lemma value_text : text m2 (mkView (v_start (p_value p)) (zlen vo)) = vo.
Proof. destruct pair_views as (_ & [] & _ & Hc). destruct m_len as [E1 _]. apply text_put_same; lia. Qed.

Lemma pair_overwritten kvb' p' : kvs kvb' = <[i := p']> (kvs kvb) -> blen kvb' = blen kvb -> mem kvb' = m2 ->
  shrunk (blen kvb) (p_key p) (p_key p') -> shrunk (blen kvb) (p_value p) (p_value p') -> overwritten kvb kvb' i p p'.
Proof.
  intros Ek El Em Hk Hv. destruct pair_views as (V1 & V2 & Ha & Hc). destruct m_len as [E1 E2]. split; [done|done|unfold bcap; by rewrite Em|done|done|].
  intros v Vv A1 A2. rewrite Em. unfold m2. rewrite (text_put m1 v (p_value p) vo (blen kvb)) by (done || lia).
  unfold m1. by apply (text_put (mem kvb) v (p_key p) ko (blen kvb)).
Qed.

(** The result when the pair keeps its views. *)
Lemma pair_same kvb' : kvs kvb' = kvs kvb -> blen kvb' = blen kvb -> mem kvb' = m2 -> zlen ko = v_len (p_key p) ->
  (if HasValue p then zlen vo = v_len (p_value p) else vo = []) -> exists p', overwritten kvb kvb' i p p' /\ shows (mem kvb') p' (ko, vo).
Proof.
  intros Ek El Em Lk Lv. exists p. destruct pair_views as (V1 & V2 & _). pose proof V1 as []. pose proof V2 as [].
  split; [apply pair_overwritten; [by rewrite Ek, list_insert_id|done|done|split; [done|auto with lia]|split; [done|auto with lia]]|].
  rewrite Em. pose proof key_text as Tk. pose proof value_text as Tv. rewrite Lk in Tk. unfold shows, vtext. cbn [fst snd]. split; [by destruct (p_key p)|].
  destruct (HasValue p); [|done]. rewrite Lv in Tv. by destruct (p_value p).
Qed.
(** The result when it gets new ones. *)
Lemma pair_set kvb2 key value w u : kvs kvb2 = kvs kvb -> blen kvb2 = blen kvb -> mem kvb2 = m2 ->
  view_ kvb2 key = Ret w -> view_ kvb2 value = Ret u ->
  shrunk (blen kvb) (p_key p) w -> text m2 w = ko -> shrunk (blen kvb) (p_value p) u -> (if 0 <? v_start u then text m2 u else []) = vo ->
  exists kvb', setAt (Z.of_nat i) key value kvb2 = Ret kvb' /\ exists p', overwritten kvb kvb' i p p' /\ shows (mem kvb') p' (ko, vo).
Proof.
  intros Ek El Em Hk Hv Sk Tk Sv Tv. unfold setAt, assert_or_panic.
  change (view_ (or_flags flagMangledBuffer kvb2) key) with (view_ kvb2 key). change (view_ (or_flags flagMangledBuffer kvb2) value) with (view_ kvb2 value).
  rewrite Hk, Hv. cbn [mbind outcome_bind or_flags with_flags kvs]. assert (i < length (kvs kvb))%nat as Hl by (by eapply lookup_lt_Some).
  rewrite Ek, (proj2 (Z.leb_le _ _)), (proj2 (Z.ltb_lt _ _)) by (unfold zlen; lia). cbn [andb]. eexists. split; [done|]. exists (mkPair w u). rewrite Nat2Z.id.
  split; [apply pair_overwritten; done|]. cbn [with_kvs or_flags with_flags mem]. rewrite Em. split; [exact Tk|exact Tv].
Qed.
End Pair.

Lemma cut_view kvb v s n : sized kvb -> view_ok (blen kvb) v -> is_part kvb s (v_start v) (text (mem kvb) v) -> 0 <= n <= v_len v ->
  exists s' w, reslice s 0 n = Ret s' /\ bytes2tok kvb s' = Ret w /\ shrunk (blen kvb) v w /\ text (mem kvb) w = text (mem kvb) (mkView (v_start v) n) /\ v_len w = n.
Proof.
  intros [[H0 Hc] Hm] Hv Hs Hn. pose proof Hv as []. assert (zlen (text (mem kvb) v) = v_len v) as Et by (apply (zlen_text (blen kvb)); [done|unfold bcap in *; lia]).
  destruct (part_sub _ _ _ _ 0 n Hs) as (s' & Es & Hs'); [lia|lia|]. rewrite Z.add_0_r in Hs'.
  destruct (part_view kvb s' _ _ Hs' Hm) as (w & Ew & Vw & Tw & Lw & Sw & _). rewrite zlen_slice in Lw, Sw by lia.
  exists s', w. split; [done|]. split; [done|]. split; [split; [done|]; lia|]. split; [|lia]. rewrite Tw. unfold text. cbn [v_start v_len].
  rewrite slice_slice by lia. f_equal; lia.
Qed.
Lemma dec_len l : zlen (fst (dec l)) <= zlen l.
Proof. apply decoded_len. Qed.

Section Step.
Context (kvb : kvBuffer) (i : nat) (p : pairKV) (ks : bslice).
Context (Hw : kv_wf kvb) (Hi : kvs kvb !! i = Some p).
Context (Pk : forall kvb', bcap kvb' = bcap kvb -> blen kvb' = blen kvb -> is_part kvb' ks (v_start (p_key p)) (text (mem kvb') (p_key p))).

Let ko : list Z := fst (dec (text (mem kvb) (p_key p))).
Let m1 : list Z := put (mem kvb) (v_start (p_key p)) ko.
Let kvb1 : kvBuffer := with_buf m1 (blen kvb) kvb.

Lemma step_key : zlen ko <= v_len (p_key p) /\ s_len ks = v_len (p_key p) /\ bcap kvb1 = bcap kvb /\ sized kvb1.
Proof.
  destruct (pair_views kvb i p Hw Hi) as (V1 & V2 & _ & Hc). pose proof (wf_sized _ Hw) as [[H0 _] Hm]. pose proof V2 as [].
  assert (zlen (text (mem kvb) (p_key p)) = v_len (p_key p)) as Lk by (by apply (zlen_text (blen kvb))).
  assert (zlen ko <= v_len (p_key p)) as Hk by (pose proof (dec_len (text (mem kvb) (p_key p))); unfold ko; lia).
  destruct (m_len kvb i p ko [] Hw Hi Hk ltac:(rewrite zlen_nil; lia)) as [Em1 _]. split; [done|]. split; [rewrite (ip_len _ _ _ _ (Pk kvb eq_refl eq_refl)); done|].
  split; [exact Em1|]. split; [|done]. change (0 <= blen kvb <= zlen m1). unfold m1. rewrite Em1. lia.
Qed.

(** After the key, when there is no value to decode. *)
Lemma key_only u w : view_ kvb1 u = Ret w -> shrunk (blen kvb) (p_value p) w -> (if 0 <? v_start w then text m1 w else []) = [] ->
  (HasValue p = true -> v_len (p_value p) = 0) ->
  exists kvb', (if negb (zlen ko =? s_len ks) then k' ← reslice ks 0 (zlen ko); kvb ← setAt (Z.of_nat i) (Some k') u kvb1; Ret (kvb, None) else Ret (kvb1, None)) = Ret (kvb', None : option error) /\
    exists p', overwritten kvb kvb' i p p' /\ shows (mem kvb') p' (ko, []).
Proof.
  intros Hu Su Tu Hv. destruct step_key as (Hk & Lks & Ec1 & Hsz1). destruct (pair_views kvb i p Hw Hi) as (V1 & V2 & _). pose proof V2 as [S2 L2 _].
  assert (zlen (@nil Z) <= v_len (p_value p)) as Hno by (rewrite zlen_nil; lia). assert (m1 = put m1 (v_start (p_value p)) []) as Em2 by (by rewrite put_nil).
  rewrite Lks. destruct (Z.eqb_spec (zlen ko) (v_len (p_key p))) as [E|E]; cbn [negb].
  - eexists. split; [done|]. apply (pair_same kvb i p ko [] Hw Hi Hk Hno); [done|done|exact Em2|done|]. destruct (HasValue p); [|done]. by rewrite Hv.
  - destruct (cut_view kvb1 (p_key p) ks (zlen ko) Hsz1 V1 (Pk kvb1 Ec1 eq_refl)) as (s' & w' & -> & Ew & Sw & Tw & Lw); [pose proof (zlen_nonneg ko); lia|]. cbn [mbind outcome_bind].
    destruct (pair_set kvb i p ko [] Hw Hi Hk Hno kvb1 (Some s') u w' w) as (kvb' & -> & Hp'); [done|done|exact Em2|done|done|done| |done|rewrite put_nil by done; exact Tu|].
    + rewrite put_nil by done. change (text (mem kvb1) w' = ko). rewrite Tw. change (mem kvb1) with m1. rewrite Em2. by apply (key_text kvb i p ko []).
    + cbn [mbind outcome_bind]. by exists kvb'.
Qed.

(** The value after the key. *)
Lemma key_and_value vs vo ok :
  (forall kvb', bcap kvb' = bcap kvb -> blen kvb' = blen kvb -> is_part kvb' vs (v_start (p_value p)) (text (mem kvb') (p_value p))) ->
  HasValue p = true -> dec (text (mem kvb) (p_value p)) = (vo, ok) ->
  exists kvb' err, ('(kvb, nv, err) ← decode_slice vs kvb1;
      match (err : option error) with
      | Some e => Ret (kvb, Some e)
      | None => if negb (zlen ko =? s_len ks) || negb (nv =? s_len vs) then
                  k' ← reslice ks 0 (zlen ko); v' ← reslice vs 0 nv; kvb ← setAt (Z.of_nat i) (Some k') (Some v') kvb; Ret (kvb, None)
                else Ret (kvb, None)
      end) = Ret (kvb', err) /\
    if (ok : bool) then err = None /\ exists p', overwritten kvb kvb' i p p' /\ shows (mem kvb') p' (ko, vo) else err = Some errBadPercentEncode.
Proof.
  intros Pv Hv Ed. destruct step_key as (Hk & Lks & Ec1 & Hsz1). destruct (pair_views kvb i p Hw Hi) as (V1 & V2 & _ & Hc). pose proof V2 as [S2 L2 _].
  pose proof (Pv kvb1 Ec1 eq_refl) as Pv1. assert (text (mem kvb1) (p_value p) = text (mem kvb) (p_value p)) as Et by (exact (value_kept kvb i p ko Hw Hi Hk)).
  rewrite Et in Pv1. rewrite (decode_slice_ok kvb1 vs _ _ Hsz1 S2 Pv1), Ed. cbn [mbind outcome_bind fst snd].
  destruct ok; [|by eexists _, _]. assert (zlen vo <= v_len (p_value p)) as Hvo.
  { pose proof (dec_len (text (mem kvb) (p_value p))) as Hd. rewrite Ed in Hd. cbn [fst] in Hd. rewrite (zlen_text (blen kvb)) in Hd by done. done. }
  set (m2 := put (mem kvb1) (v_start (p_value p)) vo). set (kvb2 := with_buf m2 (blen kvb1) kvb1).
  destruct (m_len kvb i p ko vo Hw Hi Hk Hvo) as [_ Em2]. assert (bcap kvb2 = bcap kvb) as Ec2 by exact Em2.
  assert (sized kvb2) as Hsz2 by (destruct (wf_sized _ Hw) as [[? ?] ?]; split; [change (blen kvb2) with (blen kvb); lia|done]).
  assert (s_len vs = v_len (p_value p)) as Lvs by (rewrite (ip_len _ _ _ _ Pv1); by apply (zlen_text (blen kvb))).
  rewrite Lks, Lvs. destruct (negb _ || negb _) eqn:Eset.
  - destruct (cut_view kvb2 (p_key p) ks (zlen ko) Hsz2 V1 (Pk kvb2 Ec2 eq_refl)) as (s' & w' & -> & Ew & Sw & Tw & _); [pose proof (zlen_nonneg ko); lia|].
    destruct (cut_view kvb2 (p_value p) vs (zlen vo) Hsz2 V2 (Pv kvb2 Ec2 eq_refl)) as (s2 & u & Es2 & Eu & Su & Tu & Lu); [pose proof (zlen_nonneg vo); lia|].
    cbn [mbind outcome_bind]. rewrite Es2. cbn [mbind outcome_bind].
    destruct (pair_set kvb i p ko vo Hw Hi Hk Hvo kvb2 (Some s') (Some s2) w' u) as (kvb' & -> & Hp'); [done|done|done|done|done|done| |done| |].
    + change (text (mem kvb2) w' = ko). rewrite Tw. by apply (key_text kvb i p ko vo).
    + assert (text (mem kvb2) u = vo) as Etu by (rewrite Tu; by apply (value_text kvb i p ko vo)). change (put _ _ vo) with (mem kvb2). rewrite Etu.
      destruct (Z.ltb_spec 0 (v_start u)); [done|]. destruct Su as (_ & _ & [E0|E0]); [|unfold HasValue in Hv; apply Z.ltb_lt in Hv; lia].
      rewrite Lu in E0. by apply zlen_zero_nil in E0 as ->.
    + cbn [mbind outcome_bind]. by exists kvb', None.
  - apply orb_false_elim in Eset as [N1%negb_false_iff%Z.eqb_eq N2%negb_false_iff%Z.eqb_eq]. eexists _, None. split; [done|]. split; [done|].
    apply (pair_same kvb i p ko vo Hw Hi Hk Hvo); [done|done|done|done|]. by rewrite Hv.
Qed.
End Step.

Lemma decode_pair_ok kvb i p : kv_wf kvb -> kvs kvb !! i = Some p ->
  let kd := dec (text (mem kvb) (p_key p)) in let vd := dec (vtext (mem kvb) p) in
  exists kvb' err, decode_pair (Z.of_nat i) kvb = Ret (kvb', err) /\
    if snd kd && snd vd then err = None /\ exists p', overwritten kvb kvb' i p p' /\ shows (mem kvb') p' (fst kd, fst vd)
    else err = Some errBadPercentEncode.
Proof.
  intros Hw Hi kd vd. pose proof (wf_sized _ Hw) as Hsz. destruct (pair_views kvb i p Hw Hi) as (V1 & V2 & _). pose proof V1 as [Sk _ _]. pose proof V2 as [S2 L2 E2].
  unfold decode_pair, pair_at. unfold zget. rewrite (proj2 (Z.ltb_ge _ 0)), Nat2Z.id, Hi by lia. cbn [mbind outcome_bind].
  destruct (view_part kvb (p_key p) Hsz V1) as (ks & Ek & Pk). rewrite Ek by done. cbn [mbind outcome_bind].
  destruct (view_part kvb (p_value p) Hsz V2) as (vs & Ev & Pv). destruct (step_key kvb i p ks Hw Hi Pk) as (_ & _ & Ec1 & Hsz1).
  assert (s_len vs = v_len (p_value p)) as Lvs by (rewrite (ip_len _ _ _ _ (Pv kvb eq_refl eq_refl)); apply (zlen_text (blen kvb)); [done|apply Hsz]).
  pose proof (decode_slice_ok kvb ks _ _ Hsz Sk (Pk kvb eq_refl eq_refl)) as Edk. fold kd in Edk.
  unfold vd, vtext. destruct (HasValue p) eqn:Ehv; [rewrite Ev by done|]; cbn [mbind outcome_bind]; rewrite Edk; cbn [mbind outcome_bind].
  - destruct (snd kd) eqn:Eok; cbn [andb]; [|by eexists _, _]. rewrite Lvs. destruct (Z.eqb_spec (v_len (p_value p)) 0) as [E0|E0].
    + rewrite text_nil by done. cbn [dec decoded snd fst].
      destruct (part_view _ vs _ _ (Pv _ Ec1 eq_refl) (sz_max _ Hsz1)) as (w & Ew & Vw & Tw & Lw & Sw & _). rewrite (text_nil _ (p_value p) E0) in Tw.
      destruct (key_only kvb i p ks Hw Hi Pk (Some vs) w) as (kvb' & E & Hp); [exact Ew| | |done|].
      * split; [done|]. rewrite Lw, (zlen_text (blen kvb)); [auto with lia|done|]. pose proof (sz_len _ Hsz1) as [_ Hc]. exact Hc.
      * destruct (0 <? v_start w); [exact Tw|done].
      * exists kvb', None. split; [exact E|]. by split.
    + destruct (dec (text (mem kvb) (p_value p))) as [vo ok] eqn:Ed. cbn [fst snd].
      destruct (key_and_value kvb i p ks Hw Hi Pk vs vo ok Pv Ehv Ed) as (kvb' & err & E & Hp). exists kvb', err. rewrite Lvs in E. split; [exact E|exact Hp].
  - destruct (snd kd) eqn:Eok; cbn [andb]; [|by eexists _, _]. cbn [dec decoded snd fst].
    destruct (key_only kvb i p ks Hw Hi Pk None zero_view) as (kvb' & E & Hp); [done| |done|by rewrite Ehv|].
    + split; [apply zero_view_ok; lia|]. cbn [zero_view v_len]. auto with lia.
    + exists kvb', None. split; [exact E|]. by split.
Qed.


(** ** All pairs *)

Definition decodable (f : list Z * list Z) : bool := snd (dec (fst f)) && snd (dec (snd f)).
Definition decode_field (f : list Z * list Z) : list Z * list Z := (fst (dec (fst f)), fst (dec (snd f))).

Lemma overwritten_shows kvb kvb' i p p' fs f : kv_wf kvb -> kvs kvb !! i = Some p -> overwritten kvb kvb' i p p' ->
  Forall2 (shows (mem kvb)) (kvs kvb) fs -> shows (mem kvb') p' f -> Forall2 (shows (mem kvb')) (kvs kvb') (<[i := f]> fs).
Proof.
  intros Hw Hi Ho Hfs Hf. pose proof Hw as [_ _ Hp Ha]. rewrite (ow_kvs _ _ _ _ _ Ho). apply Forall2_same_length_lookup_2.
  - rewrite !length_insert. by eapply Forall2_length.
  - intros j q g Hq Hg. assert (i < length (kvs kvb))%nat as Hl by (by eapply lookup_lt_Some). pose proof (Forall2_length _ _ _ Hfs) as Hlen. destruct (decide (j = i)) as [-> |Hji].
    + rewrite list_lookup_insert_eq in Hq by lia. injection Hq as <-. rewrite list_lookup_insert_eq in Hg by lia. injection Hg as <-. done.
    + rewrite list_lookup_insert_ne in Hq by congruence. rewrite list_lookup_insert_ne in Hg by congruence. destruct (Forall2_lookup_lr _ _ _ _ _ _ Hfs Hq Hg) as [S1 S2].
      destruct (Ha j i q p Hji Hq Hi) as (A1 & A2 & A3 & A4). pose proof (Forall_lookup_1 _ _ _ _ Hp Hq) as (V1 & V2 & _).
      unfold shows, vtext in *. by rewrite !(ow_text _ _ _ _ _ Ho) by done.
Qed.

Lemma decode_from_ok todo pre kvb : kv_wf kvb -> Forall2 (shows (mem kvb)) (kvs kvb) (pre ++ todo) ->
  exists kvb' err, decode_from (length todo) (zlen pre) kvb = Ret (kvb', err) /\
    if forallb decodable todo then err = None /\ kv_wf kvb' /\ Forall2 (shows (mem kvb')) (kvs kvb') (pre ++ (decode_field <$> todo))
    else err = Some errBadPercentEncode.
Proof.
  revert pre kvb. induction todo as [|f todo IH]; intros pre kvb Hw Hfs; cbn [length decode_from forallb].
  { exists kvb, None. done. }
  destruct (Forall2_lookup_r _ _ _ (length pre) f Hfs) as (p & Hp & [Sk Sv]); [by rewrite list_lookup_middle|].
  destruct (decode_pair_ok kvb (length pre) p Hw Hp) as (kvb1 & err & E & Hd). change (Z.of_nat (length pre)) with (zlen pre) in E. rewrite E. cbn [mbind outcome_bind].
  rewrite Sk, Sv in Hd. fold (decodable f) in Hd. destruct (decodable f); cbn [andb]; [|rewrite Hd; by eexists _, _].
  destruct Hd as (-> & p' & Ho & Hs). pose proof (overwritten_wf _ _ _ _ _ Hw Hp Ho) as Hw1. fold (decode_field f) in Hs.
  pose proof (overwritten_shows _ _ _ _ _ _ _ Hw Hp Ho Hfs Hs) as Hfs1. rewrite insert_app_r_alt, Nat.sub_diag in Hfs1 by lia. cbn [insert list_insert] in Hfs1.
  destruct (IH (pre ++ [decode_field f]) kvb1 Hw1) as (kvb' & err & E' & Hd'); [by rewrite <- app_assoc|].
  rewrite zlen_app in E'. change (zlen [decode_field f]) with 1 in E'. exists kvb', err. split; [done|]. rewrite <- app_assoc in Hd'. done.
Qed.

(** ** Forms *)

Definition pairs (f : Form) : list (list Z * list Z) := (fun p => (text (mem (fkv f)) (p_key p), vtext (mem (fkv f)) p)) <$> kvs (fkv f).
Lemma shows_pairs m l fs : Forall2 (shows m) l fs -> (fun p => (text m (p_key p), vtext m p)) <$> l = fs.
Proof. induction 1 as [|p [k v] l fs [H1 H2] _ IH]; [done|]. rewrite fmap_cons, IH. cbn [fst snd] in *. by rewrite H1, H2. Qed.
(** The first value of a key. *)
Definition first_value (key : list Z) (fs : list (list Z * list Z)) : list Z := default [] (head (snd <$> filter (fun f => fst f = key) fs)).
Lemma get_first key f : kv_wf (fkv f) -> key <> [] -> exists r, FGet key f = Ret r /\ default [] r = first_value key (pairs f).
Proof.
  intros Hw Hk. destruct (get_ok key (fkv f) Hw) as (r & E & Er). exists r. split; [done|]. rewrite Er. unfold first_value, lookup_all, pairs. do 2 f_equal.
  destruct Hw as [[_ Hc] _ Hp _]. induction Hp as [|p l (V1 & _) _ IH]; [done|]. rewrite fmap_cons, !filter_cons. cbn [fst].
  assert (matches (mem (fkv f)) key p = bool_decide (text (mem (fkv f)) (p_key p) = key)) as ->.
  { unfold matches. case_bool_decide as Et; [|by rewrite andb_false_r]. rewrite andb_true_r. unfold isValid.
    assert (zlen key = v_len (p_key p)) as El by (rewrite <- Et; by apply (zlen_text (blen (fkv f)))).
    assert (0 < zlen key) as Hpos by (destruct key; [done|]; rewrite zlen_cons; pose proof (zlen_nonneg key); lia). by rewrite (proj2 (Z.ltb_lt 0 _)) by lia. }
  case_bool_decide as Et; repeat case_decide; try done. rewrite !fmap_cons. by f_equal.
Qed.

Section Form.
Context {RT : GoRuntime}.

Lemma parse_bytes_ok b f : BufferGrowthEnabled (fkv f) = true -> zlen b + bcap (fkv f) <= maxBufLen ->
  exists f1, FParseBytes b f = Ret (f1, None) /\ kv_wf (fkv f1) /\ Forall2 (shows (mem (fkv f1))) (kvs (fkv f1)) (form_pairs b).
Proof.
  intros Hg Hm. unfold BufferGrowthEnabled in Hg. apply negb_true_iff in Hg. unfold HasAny in Hg. apply negb_false_iff, Z.eqb_eq in Hg.
  set (f0 := FReset None 0 f). assert (flags (fkv f0) = 0) as F0 by exact Hg. unfold FParseBytes. fold f0. pose proof (zlen_nonneg (mem (fkv f))) as Hn.
  destruct (Z.eqb_spec (zlen b) 0) as [Eb|Eb].
  { apply zlen_zero_nil in Eb as ->. exists f0. split; [done|]. split; [|constructor]. split; [change (0 <= 0 <= zlen (mem (fkv f))); lia|done|constructor|done]. }
  pose proof (zlen_nonneg b) as Hb. unfold FReadFromBytes, ReadFromBytes, BufferGrowthEnabled. change (bcap (fkv f0)) with (bcap (fkv f)). rewrite F0.
  rewrite (proj2 (Z.eqb_neq (zlen b) 0)), (proj2 (Z.ltb_ge maxBufLen _)) by lia. change (HasAny 0 ?x) with false. cbn [negb]. rewrite andb_false_r.
  assert (exists m, append_buf b (fkv f0) = with_buf m (zlen b) (fkv f0) /\ ztake (zlen b) m = b /\ zlen b <= zlen m) as (m & -> & Et & Hl).
  { unfold append_buf. change (blen (fkv f0)) with 0. rewrite Z.add_0_l. unfold bcap. change (mem (fkv f0)) with (mem (fkv f)).
    destruct (Z.leb_spec (zlen b) (zlen (mem (fkv f)))) as [Hle|Hgt].
    - eexists. split; [done|]. unfold put. rewrite (ztake_nonpos 0) by lia. cbn [app]. split; [by apply ztake_app_exact|]. rewrite zlen_app. pose proof (zlen_nonneg (zdrop (0 + zlen b) (mem (fkv f)))). lia.
    - eexists. split; [done|]. unfold buf. change (blen (fkv f0)) with 0. rewrite (ztake_nonpos 0) by lia. cbn [app]. split; [by apply ztake_app_exact|]. rewrite zlen_app.
      pose proof (zlen_nonneg (zeros (growslice (zlen (mem (fkv f))) (zlen b) - zlen b))). lia. }
  unfold FParse. cbn [fkv]. set (kvb := discardKVs _).
  assert (kv_wf kvb) as Hw by (split; [change (0 <= zlen b <= zlen m); lia|change (zlen b <= 65535); unfold maxBufLen, bcap in Hm; lia|constructor|done]).
  destruct (parse_loop_ok (S (Z.to_nat (blen kvb))) kvb (Some (whole kvb)) 0 b Hw) as (kvb' & ps & -> & Hw' & Ek & Em & El & Hps).
  - unfold BufferGrowthEnabled. change (flags kvb) with (flags (fkv f0)). by rewrite F0.
  - done.
  - constructor.
  - split; cbn [whole s_len s_off s_cap]; [done|lia|done|exact Hl|change (0 + zlen b <= zlen b); lia|].
    change (slice m 0 (0 + zlen b) = b). unfold slice. rewrite Z.add_0_l, Z.sub_0_r. exact Et.
  - change (blen kvb) with (zlen b). lia.
  - cbn [mbind outcome_bind]. eexists. split; [done|]. split; [done|]. cbn [fkv]. rewrite Ek, Em. exact Hps.
Qed.

(** C35: A query or a form is read exactly. The pairs that [ParseBytes] finds in any octets are the parts between the ampersands that are
    not empty, each cut at its first equals sign; [Decode] decodes keys and values where they are in the buffer and so
    leaves exactly the decoded pairs, or reports that one of them has a bad escape; and afterwards [Get] returns the first value of a key. *)
Theorem http_form_decodes b f : BufferGrowthEnabled (fkv f) = true -> zlen b + bcap (fkv f) <= maxBufLen ->
  exists f1 f2 err, FParseBytes b f = Ret (f1, None) /\ pairs f1 = form_pairs b /\ Decode f1 = Ret (f2, err) /\
    if forallb decodable (form_pairs b) then
      err = None /\ pairs f2 = decode_field <$> form_pairs b /\
      forall key, key <> [] -> exists r, FGet key f2 = Ret r /\ default [] r = first_value key (decode_field <$> form_pairs b)
    else err = Some errBadPercentEncode.
Proof.
  intros Hg Hm. destruct (parse_bytes_ok b f Hg Hm) as (f1 & E1 & Hw & Hs). exists f1. unfold Decode. rewrite (Forall2_length _ _ _ Hs).
  destruct (decode_from_ok (form_pairs b) [] (fkv f1) Hw Hs) as (kvb' & err & E & Hd). change (zlen []) with 0 in E. rewrite E. cbn [mbind outcome_bind].
  exists (mkForm kvb'), err. split; [done|]. split; [by apply shows_pairs|]. split; [done|]. destruct (forallb decodable (form_pairs b)); [|done].
  destruct Hd as (-> & Hw' & Hs'). split; [done|]. cbn [app] in Hs'. assert (pairs (mkForm kvb') = decode_field <$> form_pairs b) as Ep by (by apply shows_pairs).
  split; [done|]. intros key Hk. rewrite <- Ep. by apply get_first.
Qed.

End Form.

Definition demo_query : list Z := ascii "q=a%20b&&lang=g+o&x".
Lemma http_form_decodes_witness :
  exists f1 f2 err, FParseBytes (RT := exact_growth) demo_query (mkForm (mkKV [] 0 [] 0 0)) = Ret (f1, None) /\ pairs f1 = form_pairs demo_query /\ Decode f1 = Ret (f2, err) /\
    if forallb decodable (form_pairs demo_query) then
      err = None /\ pairs f2 = decode_field <$> form_pairs demo_query /\
      forall key, key <> [] -> exists r, FGet key f2 = Ret r /\ default [] r = first_value key (decode_field <$> form_pairs demo_query)
    else err = Some errBadPercentEncode.
Proof. apply (http_form_decodes (RT := exact_growth)); [reflexivity|vm_compute; discriminate]. Defined.
Example demo_query_pairs : decode_field <$> form_pairs demo_query = [(ascii "q", ascii "a b"); (ascii "lang", ascii "g o"); (ascii "x", [])].
Proof. reflexivity. Qed.

(** A value that is empty at the very end of the buffer is taken for none. *)
Lemma empty_value_lost :
  let pair_of cap := match FParse (RT := exact_growth) (mkForm (mkKV (ascii "ok=" ++ zeros cap) 3 [] 0 0)) with Ret (f, _) => Pair 0 f | Panic => Panic end in
  pair_of 1 = Ret (ascii "ok", Some []) /\ pair_of 0 = Ret (ascii "ok", None).
Proof. vm_compute. split; reflexivity. Qed.

End HttpFormDecode.
